(* ===== verification/_CoqProject ===== *)
-Q . S2P
Prelude.v
Util.v
Flowmap.v
Hash.v
Miniflow.v
MetaFlow.v
Trie.v
FlowBits.v
FlowFields.v
MetaFields.v
Packet.v
PacketProps.v
MfCtx.v
FlowExtract.v
ExtractSpec.v
ExtractFields.v
ExtractSim.v
ExtractLayers.v
ExtractProps.v
ExtractPadding.v
ExtractFlags.v
ExtractTheorems.v
MatchSet.v
MetaProps.v
MatchProps.v
MatchTheorems.v
Versions.v
Pvector.v
Classifier.v
Subtable.v
ClassifierInv.v
ClassifierLookup.v
ClassifierUpdate.v
ClassifierRemove.v
ClassifierOps.v
ClassifierQuery.v
Conjunction.v
ClassifierProps.v
DtClassifier.v
Backend.v
DtTree.v
DtOps.v
DtCow.v
DtProps.v
Reconnect.v
ReconnectProps.v
ReconnectLiveness.v
ReconnectTheorems.v
Conntrack.v
ConntrackProps.v
ConntrackTheorems.v
ConntrackTimeouts.v
ConntrackExtract.v
Csum.v
Crc32c.v
PacketSet.v
PacketOffload.v
PacketBytes.v
PacketLayout.v
PacketKeep.v
PacketIp4.v
PacketIp6.v
PacketPorts.v
PacketPrepare.v
PacketSctp.v
PacketPush.v
PacketTheorems.v
Stp.v
StpProps.v
StpRoot.v
StpInv.v
StpElect.v
StpTimes.v
StpCalls.v
StpTick.v
StpHistory.v
StpTheorems.v
StpAdopt.v
StpForward.v
StpNetwork.v
