(* ===== verification/Prelude.v ===== *)
(** * Open vSwitch: a verification development

    Open vSwitch is a software switch.  This development models library code
    that decides what happens to a packet and to a connection: the extraction
    of the header fields of a packet, the classifier that finds the rule for
    it, the tracking of the connections that packets belong to, the spanning
    tree protocol that keeps a network of switches free of loops, and the state
    machine that keeps the connections of the switch itself up.

    A packet becomes a sparse flow (a miniflow) in [miniflow_extract].  A rule
    of the classifier has a match (values and a mask for the header fields), a
    priority and a range of versions in which it is visible; a lookup finds the
    visible rule of the highest priority that matches a flow, and the wildcards
    that say which bits of the packet the answer depends on.  The answer is
    cached under these wildcards (a megaflow), so a missing bit sends later
    packets to the wrong rule.  The connection tracker gets the packets in which
    extraction found a transport header.  The repository has a second backend
    of the classifier, a decision tree.

    ** Conventions

    Words are integers with the wrap-around written out ([wrap], [u32], ...);
    signed arithmetic that leaves its type is undefined ([int], [checked]).
    The models are for a big-endian host, where the conversions of byte order
    are the identity; [struct flow] has 84 words, at the offsets that the
    declarations give on such a host.  Arrays and C pointers are lists and
    addresses in a map; [None] is a failed assertion, a read outside of a packet
    or other undefined behaviour.  A [Fixpoint] with fuel gives the fuel in its
    caller, and a theorem states that the function returns.

    ** The parts and their files

    - Bit operations (lib/util.c, lib/util.h): [Util], with their reference
      definitions.
    - Flow maps and miniflows (lib/flow.h, lib/flow.c,
      lib/classifier-private.h, lib/match.c): [Flowmap] and [Miniflow] model
      the sparse flows and masks that rules are stored in; [Hash] the hashes,
      as a class whose laws the theorems use, with the portable hash as an
      instance.  The theorems relate every sparse operation to the dense one:
      round trips, comparison, combination of masks, and the hashes of the
      stages of a lookup.
    - Prerequisites of fields (lib/meta-flow.c): [MetaFlow].
    - Prefix tries (lib/classifier.c): [Trie]; insertion and removal change
      one occurrence of a prefix, a lookup marks the lengths of the stored
      prefixes and returns enough bits to determine the answer.
      [FlowBits] has flows as sequences of bits, the common language of the
      tries, the sparse flows and the wildcards.
    - Fields (lib/meta-flow.c, include/openvswitch/meta-flow.h, lib/flow.c,
      lib/packets.h): [FlowFields] has the members of [struct flow] and
      [MetaFields] the fields, their tables, and the switches that read and
      store them, check values and masks, and test for wildcards.
      [MetaProps] shows that a read gives back a store, that a store changes
      no field with other storage, and that the test for wildcards is the
      test of the mask.
    - Matches (lib/match.c, [mf_set], [mf_set_value] and [mf_set_wild] of
      lib/meta-flow.c): [MatchSet]; [MatchProps] has the invariant that a match
      has no value bits where it is wild, and [MatchTheorems] what a match
      means for packets.
    - Versions (lib/versions.h): [Versions].
    - The priority vector (lib/pvector.c): [Pvector] refines a map and is
      sorted for its readers; [qsort] is a class.
    - The tuple space search classifier (lib/classifier.c): [Classifier] has
      the operations.  [Subtable], [ClassifierInv], [ClassifierLookup],
      [ClassifierUpdate], [ClassifierRemove], [ClassifierOps],
      [ClassifierQuery] and [Conjunction] have the invariant and the lemmas;
      [ClassifierProps] the theorems: every call on a reachable classifier
      refines an operation on a collection of rules, a lookup finds the rule
      of the highest priority, always returns, and its wildcards cover what it
      depends on; exact search, overlap and cursors are what they promise.
    - The decision tree classifier (lib/dt-classifier.c): [DtClassifier] has
      the operations on nodes in a store, [Backend] the dispatch of
      lib/classifier.c between the two backends.  [DtTree] relates addresses
      to trees, [DtOps] is about the build and the lookup, [DtCow] about the
      copies that updates make.  [DtProps] shows that sequences of operations
      have no undefined behaviour within a grace period, that the build
      keeps every rule, what a lookup returns, that an update leaves the old
      tree to its readers; and that the backend is not a classifier: it does
      not compare rules with flows, a removed rule comes back, and a grace
      period frees nodes in use.
    - Flow extraction (lib/flow.c, lib/packets.h, lib/dp-packet.h): [Packet] has
      the header parsers on a cursor into the packet, [MfCtx] the pushes into
      the buffer of a miniflow, [FlowExtract] the whole of [miniflow_extract],
      [flow_extract] and [parse_tcp_flags] in a monad of their effects.
      [ExtractSpec] is the reference, which reads each field directly.
      [PacketProps], [ExtractFields], [ExtractSim], [ExtractLayers],
      [ExtractProps], [ExtractPadding] and [ExtractFlags] relate the two layer
      by layer; [ExtractTheorems] shows that extraction refines the reference,
      stays inside the packet and its buffer, ignores padding, and agrees with
      [parse_tcp_flags].
    - Connection tracking by protocol (lib/conntrack-tcp.c,
      lib/conntrack-other.c, lib/conntrack-icmp.c, lib/conntrack-tp.c):
      [Conntrack], with its lemmas in [ConntrackProps].  [ConntrackTheorems] is
      about handshakes, the order of the TCP states and the packets that are
      rejected; [ConntrackTimeouts] about the timeout policies, which refine a
      finite map.  [ConntrackExtract] composes extraction with the TCP tracker.
    - Reconnection (lib/reconnect.c): [Reconnect] is the state machine,
      [ReconnectProps] its invariant, [ReconnectLiveness] its progress when the
      peer never answers, and [ReconnectTheorems] the theorems: no history of
      calls fails, the timeouts are exact, a dead peer is detected, attempts go
      on for ever.
    - The spanning tree protocol (lib/stp.c, [stp_process_packet] of
      ofproto/ofproto-dpif-xlate.c): [Stp] has the bridge with its ports and
      timers, the BPDUs as bytes, and every call.  [StpProps] says what each
      step leaves alone, [StpRoot] and [StpElect] whom an election makes the
      root port and designated, [StpInv] and [StpTimes] are the invariant,
      [StpCalls], [StpTick] and [StpHistory] that every call keeps it.
      [StpTheorems] has the safety of all histories, the election, the bounds of
      the times and the report of changed ports; [StpAdopt] composes the sender
      of a BPDU with its receiver; [StpForward] bounds the time until a port
      forwards; [StpNetwork] shows that a network of bridges that have heard
      each other has no loop.

    ** Bounds and fuel

    The search of a trie has one step per bit of the prefix; the loops over
    flow maps one per bit; the soft match loop of a lookup a measure that
    [soft_measure] computes and each round decreases; the walks over a
    decision tree one step more than there are nodes, and the build one level
    per rule, because both sides of a split have fewer rules.  The paths of
    the decision tree have at most 64 nodes, as [struct dt_path] has.  The
    loops over MPLS labels, extension headers and ND options have one step per
    byte that is left and one more; the loop over TCP options 42 steps, for at
    most 40 bytes of options.  The reconnection theorems hold while the clock is
    below 2^62 milliseconds ([CLOCK_MAX]).  The spanning tree theorems hold for
    ticks of at most [TICK_MAX] milliseconds and path costs of at most
    [COST_MAX], beyond which the code overflows an [int], as theorems show; the
    loop over the changed ports ends after at most one step per port and one.

    ** Not modelled

    One writer at a time, and readers between its operations: the memory
    order of concurrent readers is not modelled.  [struct cmap] and [struct
    ccmap] are what their headers promise.  The 64 tunnel option fields
    depend on a table of the switch and are left out, as are parsing and
    formatting, the composition of packets, [dt_build_tree] (it moves the nodes
    of the list it iterates over, and is not called by the classifier) and the
    printing of trees.  The table of connections (lib/conntrack.c) with its
    locks, NAT and helpers, the other link protocols (RSTP, LACP, BFD, CFM), the
    OpenFlow switch and its messages, the datapaths, OVSDB and the tools are
    not modelled: they are clients of the code above, or do input and output. *)

From stdpp Require Import prelude list.
From Stdlib Require Import ZArith Lia.

(** ** Scope and notation *)

Declare Scope ovs_scope.
Delimit Scope ovs_scope with ovs.
Open Scope Z_scope.
Open Scope ovs_scope.

(** Machine words are integers; a [w]-bit value is kept in [0 .. 2^w - 1]. *)
Definition wrap (w x : Z) : Z := x mod 2 ^ w.

Notation "'u8' x" := (wrap 8 x) (at level 9, x at level 8) : ovs_scope.
Notation "'u16' x" := (wrap 16 x) (at level 9, x at level 8) : ovs_scope.
Notation "'u32' x" := (wrap 32 x) (at level 9, x at level 8) : ovs_scope.
Notation "'u64' x" := (wrap 64 x) (at level 9, x at level 8) : ovs_scope.

(** [in_width w x]: [x] is a value of an unsigned [w]-bit C type. *)
Definition in_width (w x : Z) : Prop := 0 <= x < 2 ^ w.

Definition UINT32_MAX : Z := 2 ^ 32 - 1.
Definition UINT64_MAX : Z := 2 ^ 64 - 1.
Definition INT_MIN : Z := - 2 ^ 31.
Definition INT_MAX : Z := 2 ^ 31 - 1.

Definition MAX (a b : Z) : Z := if b <? a then a else b.
Definition MIN (a b : Z) : Z := if a <? b then a else b.

(** Signed arithmetic: a result that does not fit is undefined. *)
Definition checked (lo hi x : Z) : option Z := if (lo <=? x) && (x <=? hi) then Some x else None.
Definition int (x : Z) : option Z := checked INT_MIN INT_MAX x.

(** The conversion of an [unsigned int] to [int]. *)
Definition to_int (x : Z) : Z := let x := u32 x in if x <? 2 ^ 31 then x else x - 2 ^ 32.

(** ** Automation *)

Create HintDb ovs.

Create Rewrite HintDb bits.

(** ** Bits of machine words *)

Lemma in_width_bits (w x : Z) :
  0 <= w -> in_width w x <-> 0 <= x /\ forall i, w <= i -> Z.testbit x i = false.
Proof.
  intros Hw. unfold in_width. split.
  - intros [H0 H1]. split; [done|]. by apply Z.bounded_iff_bits_nonneg.
  - intros [H0 H1]. split; [done|]. by apply Z.bounded_iff_bits_nonneg.
Qed.

Lemma checked_some (lo hi x : Z) : lo <= x <= hi -> checked lo hi x = Some x.
Proof. intros H. unfold checked. destruct (Z.leb_spec lo x), (Z.leb_spec x hi); (done || lia). Qed.

Lemma int_some (x : Z) : INT_MIN <= x <= INT_MAX -> int x = Some x.
Proof. apply checked_some. Qed.

Lemma in_width_high (w x i : Z) :
  in_width w x -> w <= i -> Z.testbit x i = false.
Proof.
  intros [H0 H1] Hi. destruct (Z.neg_nonneg_cases w) as [Hw|Hw].
  - rewrite Z.pow_neg_r in H1 by done. lia.
  - by apply (proj1 (in_width_bits w x Hw)).
Qed.

Lemma wrap_width (w x : Z) : 0 <= w -> in_width w (wrap w x).
Proof. intros Hw. apply Z.mod_pos_bound. by apply Z.pow_pos_nonneg. Qed.

Lemma wrap_small (w x : Z) : in_width w x -> wrap w x = x.
Proof. intros H. by apply Z.mod_small. Qed.

Lemma wrap_testbit (w x i : Z) :
  0 <= w -> Z.testbit (wrap w x) i = (i <? w) && Z.testbit x i.
Proof. intros Hw. by apply Z.testbit_mod_pow2. Qed.

Lemma testbit_bool_decide (x i : Z) : Z.testbit x i = true \/ Z.testbit x i = false.
Proof. destruct (Z.testbit x i); auto. Qed.

Lemma in_width_land (w a b : Z) : 0 <= w -> in_width w a -> 0 <= b -> in_width w (Z.land a b).
Proof.
  intros Hw Ha Hb. apply in_width_bits; [done|]. split.
  - apply Z.land_nonneg; right; done.
  - intros i Hi. rewrite Z.land_spec, (in_width_high w a i); done.
Qed.

Lemma in_width_lor (w a b : Z) : 0 <= w -> in_width w a -> in_width w b -> in_width w (Z.lor a b).
Proof.
  intros Hw Ha Hb. apply in_width_bits; [done|]. split.
  - apply Z.lor_nonneg. split; [apply Ha|apply Hb].
  - intros i Hi. rewrite Z.lor_spec, (in_width_high w a i), (in_width_high w b i); done.
Qed.

Lemma in_width_lxor (w a b : Z) : 0 <= w -> in_width w a -> in_width w b -> in_width w (Z.lxor a b).
Proof.
  intros Hw Ha Hb. apply in_width_bits; [done|]. split.
  - apply Z.lxor_nonneg. split; intros; [apply Hb|apply Ha].
  - intros i Hi. rewrite Z.lxor_spec, (in_width_high w a i), (in_width_high w b i); done.
Qed.

Lemma in_width_shiftr (w a n : Z) : 0 <= w -> 0 <= n -> in_width w a -> in_width w (Z.shiftr a n).
Proof.
  intros Hw Hn Ha. apply in_width_bits; [done|]. split.
  - apply Z.shiftr_nonneg. apply Ha.
  - intros i Hi. rewrite Z.shiftr_spec by lia. apply (in_width_high w); [done|lia].
Qed.

Lemma in_width_shiftl (w n a : Z) : 0 <= w -> 0 <= n -> in_width w a -> in_width (w + n) (Z.shiftl a n).
Proof.
  intros Hw Hn Ha. apply in_width_bits; [lia|]. split.
  - apply Z.shiftl_nonneg. apply Ha.
  - intros i Hi. rewrite Z.shiftl_spec by lia. apply (in_width_high w); [done|lia].
Qed.

Lemma in_width_mono (v w a : Z) : v <= w -> in_width v a -> in_width w a.
Proof.
  intros Hvw [H0 H1]. split; [done|].
  eapply Z.lt_le_trans; [done|]. apply Z.pow_le_mono_r; lia.
Qed.

#[export] Hint Resolve wrap_width in_width_land in_width_lor in_width_lxor in_width_shiftr : ovs.

Lemma lnot_testbit (w x i : Z) :
  0 <= w -> 0 <= i ->
  Z.testbit (wrap w (Z.lnot x)) i = (i <? w) && negb (Z.testbit x i).
Proof. intros Hw Hi. rewrite wrap_testbit, Z.lnot_spec; done. Qed.

Lemma testbit_ones (n i : Z) : 0 <= n -> 0 <= i -> Z.testbit (Z.ones n) i = (i <? n).
Proof.
  intros Hn Hi. rewrite Z.testbit_ones by done.
  destruct (Z.leb_spec 0 i); [done|lia].
Qed.

Lemma UINT32_MAX_ones : UINT32_MAX = Z.ones 32.
Proof. reflexivity. Qed.

Lemma testbit_pow2 (n i : Z) : 0 <= n -> Z.testbit (2 ^ n) i = (i =? n).
Proof. intros Hn. rewrite Z.pow2_bits_eqb by done. apply Z.eqb_sym. Qed.

Lemma testbit_1 (i : Z) : Z.testbit 1 i = (i =? 0).
Proof. by apply (testbit_pow2 0). Qed.

#[export] Hint Rewrite Z.land_spec Z.lor_spec Z.lxor_spec Z.ldiff_spec Z.bits_0
  testbit_1 : bits.
#[export] Hint Rewrite Z.shiftl_spec Z.shiftr_spec wrap_testbit testbit_ones
  lnot_testbit Z.lnot_spec testbit_pow2 using lia : bits.

(** [zcmp] splits the integer comparisons left by rewriting a bit. *)
Ltac zcmp :=
  repeat match goal with
  | |- context [?a <? ?b] => destruct (Z.ltb_spec a b); try lia
  | |- context [?a <=? ?b] => destruct (Z.leb_spec a b); try lia
  | |- context [?a =? ?b] => destruct (Z.eqb_spec a b); try lia
  end.

Ltac zbits_simpl :=
  repeat match goal with
  | |- context [Z.testbit ?x ?i] => rewrite (Z.testbit_neg_r x i) by lia
  end.

(** [zbits] proves an equation between words bit by bit. *)
Ltac zbits :=
  apply Z.bits_inj'; intros ?i ?; autorewrite with bits; zcmp; zbits_simpl; subst;
  rewrite ?andb_true_r, ?andb_false_r, ?andb_true_l, ?andb_false_l,
    ?orb_true_r, ?orb_false_r, ?orb_true_l, ?orb_false_l, ?xorb_false_l, ?xorb_false_r;
  try reflexivity.

Lemma land_zero_bits (a b : Z) :
  Z.land a b = 0 <-> forall i, 0 <= i -> Z.testbit a i = true -> Z.testbit b i = false.
Proof.
  split.
  - intros H i Hi Ha. assert (Z.testbit (Z.land a b) i = false) as E
      by (rewrite H; apply Z.bits_0).
    rewrite Z.land_spec, Ha in E. done.
  - intros H. apply Z.bits_inj'. intros i Hi. rewrite Z.land_spec, Z.bits_0.
    destruct (Z.testbit a i) eqn:E; [by rewrite H|done].
Qed.

(** [(a ^ b) & m == 0] is agreement of [a] and [b] on the 1-bits of [m]. *)
Lemma lxor_land_zero (a b m : Z) :
  Z.land (Z.lxor a b) m = 0 <->
  forall i, 0 <= i -> Z.testbit m i = true -> Z.testbit a i = Z.testbit b i.
Proof.
  rewrite Z.land_comm, land_zero_bits. split; intros H i Hi Hm; specialize (H i Hi Hm).
  - rewrite Z.lxor_spec in H. by apply xorb_eq.
  - rewrite Z.lxor_spec, H. apply xorb_nilpotent.
Qed.

Lemma land_eq_bits (a b m : Z) :
  Z.land a m = Z.land b m <->
  forall i, 0 <= i -> Z.testbit m i = true -> Z.testbit a i = Z.testbit b i.
Proof.
  split.
  - intros H i Hi Hm. assert (Z.testbit (Z.land a m) i = Z.testbit (Z.land b m) i) as E
      by by rewrite H.
    rewrite !Z.land_spec, Hm, !andb_true_r in E. done.
  - intros H. apply Z.bits_inj'. intros i Hi. rewrite !Z.land_spec.
    destruct (Z.testbit m i) eqn:Hm; [by rewrite (H i Hi Hm)|by rewrite !andb_false_r].
Qed.

(** ** Lists *)

Lemma nth_map_seq {A} (f : nat -> A) (d : A) (s n i : nat) :
  (i < n)%nat -> nth i (map f (seq s n)) d = f (s + i)%nat.
Proof.
  intros H. rewrite (nth_indep _ d (f 0%nat)) by (rewrite length_map, length_seq; done).
  by rewrite map_nth, seq_nth.
Qed.

Lemma nth_ext_Z (l k : list Z) :
  length l = length k -> (forall i, nth i l 0 = nth i k 0) -> l = k.
Proof.
  intros Hl H. apply (nth_ext l k 0 0); auto.
Qed.

Lemma nth_Forall (P : Z -> Prop) (l : list Z) (i : nat) : Forall P l -> P 0 -> P (nth i l 0).
Proof.
  intros H H0. destruct (decide (i < length l)%nat).
  - rewrite Forall_forall in H. apply H. apply list_elem_of_In. by apply nth_In.
  - by rewrite nth_overflow by lia.
Qed.


Lemma nth_insert_eq (l : list Z) (i : nat) (x : Z) :
  (i < length l)%nat -> nth i (<[i := x]> l) 0 = x.
Proof. intros H. rewrite nth_lookup, list_lookup_insert_eq; done. Qed.

Lemma nth_insert_ne (l : list Z) (i j : nat) (x : Z) :
  i <> j -> nth j (<[i := x]> l) 0 = nth j l 0.
Proof. intros H. rewrite !nth_lookup, list_lookup_insert_ne; done. Qed.

Lemma seq_add_map (k s n : nat) : map (Nat.add k) (seq s n) = seq (k + s) n.
Proof.
  revert s. induction n as [|n IH]; intros s; [done|]. simpl. f_equal.
  rewrite IH. f_equal. lia.
Qed.

Lemma filter_nil_in {A} (f : A -> bool) (l : list A) :
  (forall x, In x l -> f x = false) -> List.filter f l = [].
Proof.
  induction l as [|x l IH]; intros H; [done|]. simpl.
  rewrite (H x) by (by left). apply IH. intros y Hy. apply H. by right.
Qed.

Lemma filter_all_in {A} (f : A -> bool) (l : list A) :
  (forall x, In x l -> f x = true) -> List.filter f l = l.
Proof.
  induction l as [|x l IH]; intros H; [done|]. simpl.
  rewrite (H x) by (by left). f_equal. apply IH. intros y Hy. apply H. by right.
Qed.

Lemma combine_zip {A B} (l : list A) (k : list B) : List.combine l k = zip l k.
Proof. revert k. induction l as [|x l IH]; intros [|y k]; [done..|]. cbn. by f_equal. Qed.

Lemma foldl_map {A B C} (f : A -> B -> A) (g : C -> B) (a : A) (l : list C) :
  foldl f a (map g l) = foldl (fun a x => f a (g x)) a l.
Proof. revert a. induction l as [|x l IH]; intros a; [done|]. apply IH. Qed.

Lemma length_filter_pos {A} (p : A -> bool) (l : list A) :
  (0 < length (List.filter p l))%nat <-> exists x, In x l /\ p x = true.
Proof.
  setoid_rewrite <- filter_In. destruct (List.filter p l) as [|y k]; cbn; split.
  - lia.
  - by intros (x & []).
  - intros _. exists y. by left.
  - lia.
Qed.
