(* ===== verification/Util.v ===== *)
(** * Bit utilities of lib/util.h and lib/util.c

    The portable versions of the bit-scanning and bit-counting helpers that
    the flow maps and the prefix tries rely on, with their reference
    specifications: the position of the lowest and of the highest 1-bit, and
    the number of 1-bits of a 64-bit word. *)

From S2P Require Import Prelude.
From stdpp Require Import prelude list.
From Stdlib Require Import ZArith Lia.
Open Scope Z_scope.
Open Scope ovs_scope.

(** ** Definitions *)

(** [CTZ_STEP(X)]: the state is the pair of the locals [n] and [count]. *)
Definition CTZ_STEP (X : Z) (st : Z * Z) : Z * Z :=
  let '(n, count) := st in
  let k := u64 (Z.shiftl n X) in
  if k =? 0 then (n, count) else (k, count - X).

(** Number of trailing 0-bits of a nonzero 64-bit word. *)
Definition raw_ctz (n : Z) : Z :=
  snd (CTZ_STEP 1 (CTZ_STEP 2 (CTZ_STEP 4 (CTZ_STEP 8 (CTZ_STEP 16
    (CTZ_STEP 32 (n, 63))))))).

Definition CLZ_STEP (X : Z) (st : Z * Z) : Z * Z :=
  let '(n, count) := st in
  let k := Z.shiftr n X in
  if k =? 0 then (n, count) else (k, count - X).

(** Number of leading 0-bits of a nonzero 64-bit word. *)
Definition raw_clz64 (n : Z) : Z :=
  snd (CLZ_STEP 1 (CLZ_STEP 2 (CLZ_STEP 4 (CLZ_STEP 8 (CLZ_STEP 16
    (CLZ_STEP 32 (n, 63))))))).

Definition ctz32 (n : Z) : Z := if n =? 0 then 32 else raw_ctz n.
Definition ctz64 (n : Z) : Z := if n =? 0 then 64 else raw_ctz n.
Definition clz32 (n : Z) : Z := if n =? 0 then 32 else raw_clz64 n - 32.
Definition clz64 (n : Z) : Z := if n =? 0 then 64 else raw_clz64 n.
Definition log_2_floor (n : Z) : Z := 63 - raw_clz64 n.

Definition h55 : Z := 0x5555555555555555.
Definition h33 : Z := 0x3333333333333333.
Definition h0F : Z := 0x0F0F0F0F0F0F0F0F.
Definition h01 : Z := 0x0101010101010101.

(** Number of 1-bits of a 64-bit word. *)
Definition count_1bits (x : Z) : Z :=
  let x := u64 (x - Z.land (Z.shiftr x 1) h55) in
  let x := u64 (Z.land x h33 + Z.land (Z.shiftr x 2) h33) in
  let x := Z.land (u64 (x + Z.shiftr x 4)) h0F in
  Z.shiftr (u64 (x * h01)) 56.

(** [uintmax_t] arithmetic: 64 bits, [-x] and [x - 1] wrap around. *)
Definition rightmost_1bit (x : Z) : Z := Z.land x (u64 (- x)).
Definition zero_rightmost_1bit (x : Z) : Z := Z.land x (u64 (x - 1)).

(** [be32_prefix_mask]: a word with the [plen] highest bits set (the value is
    given in host order, that is, before [htonl]). *)
Definition be32_prefix_mask (plen : Z) : Z := u32 (u64 (Z.shiftl UINT32_MAX (32 - plen))).

(** ** Reference specifications *)

(** The indices of the 1-bits of [x] below [n], in increasing order. *)
Definition one_bits (x : Z) (n : nat) : list nat :=
  List.filter (fun i => Z.testbit x (Z.of_nat i)) (seq 0 n).

(** [l] is the position of the lowest 1-bit of [n]. *)
Definition lowest_bit (n l : Z) : Prop :=
  0 <= l /\ Z.testbit n l = true /\ forall i, 0 <= i < l -> Z.testbit n i = false.

(** ** Trailing and leading zeros *)

Lemma lowest_bit_unique (n k l : Z) : lowest_bit n k -> lowest_bit n l -> k = l.
Proof.
  intros (Hk0 & Hk & Hk') (Hl0 & Hl & Hl').
  destruct (Z.lt_trichotomy k l) as [|[|]]; [|done|].
  - rewrite Hl' in Hk; [done|lia].
  - rewrite Hk' in Hl; [done|lia].
Qed.

Lemma lowest_bit_width (n l w : Z) : in_width w n -> lowest_bit n l -> l < w.
Proof.
  intros Hn (Hl0 & Hl & _). destruct (Z.lt_ge_cases l w); [done|].
  rewrite (in_width_high w) in Hl; done.
Qed.

Lemma lowest_bit_exists (n : Z) : 0 < n -> exists l, lowest_bit n l.
Proof.
  intros Hn.
  assert (forall k : nat, (exists l, lowest_bit n l) \/
            (forall i, 0 <= i < Z.of_nat k -> Z.testbit n i = false)) as H.
  { induction k as [|k [IH|IH]]; [right; lia|by left|].
    destruct (Z.testbit n (Z.of_nat k)) eqn:E.
    - left. exists (Z.of_nat k). split_and!; [lia|done|done].
    - right. intros i Hi. destruct (decide (i = Z.of_nat k)) as [->|]; [done|].
      apply IH. lia. }
  destruct (H (Z.to_nat (Z.log2 n + 1))) as [|H']; [done|].
  exfalso. pose proof (Z.bit_log2 n Hn) as Hb.
  rewrite H' in Hb; [done|]. pose proof (Z.log2_nonneg n). lia.
Qed.

Lemma lowest_bit_shiftl (n l X : Z) :
  0 <= X -> in_width 64 n -> lowest_bit n l -> l + X < 64 ->
  lowest_bit (u64 (Z.shiftl n X)) (l + X).
Proof.
  intros HX Hn (Hl0 & Hl & Hl') Hlt. split_and!; [lia| |].
  - autorewrite with bits. replace (l + X - X) with l by lia. zcmp. done.
  - intros i Hi. autorewrite with bits. zcmp. simpl.
    destruct (Z.lt_ge_cases i X); [by rewrite Z.testbit_neg_r by lia|].
    apply Hl'. lia.
Qed.

Lemma lowest_bit_pos (n l : Z) : 0 <= n -> lowest_bit n l -> 0 < n.
Proof.
  intros Hn (Hl0 & Hl & _). destruct (decide (n = 0)) as [->|]; [|lia].
  by rewrite Z.bits_0 in Hl.
Qed.

Lemma ctz_step_shift (n l X : Z) :
  0 <= X -> in_width 64 n -> lowest_bit n l -> u64 (Z.shiftl n X) = 0 <-> 64 <= l + X.
Proof.
  intros HX Hn Hl. split.
  - intros H. destruct (Z.lt_ge_cases (l + X) 64); [|done].
    pose proof (lowest_bit_shiftl n l X HX Hn Hl ltac:(done)) as (_ & Hb & _).
    by rewrite H, Z.bits_0 in Hb.
  - intros H. destruct Hl as (Hl0 & Hl & Hl'). apply Z.bits_inj'. intros i Hi.
    autorewrite with bits. zcmp. simpl.
    destruct (Z.lt_ge_cases i X); [by rewrite Z.testbit_neg_r by lia|].
    apply Hl'. lia.
Qed.

(** One step halves the window in which the lowest 1-bit can be. *)
Lemma CTZ_STEP_inv (X l n count : Z) :
  0 < X ->
  in_width 64 n -> lowest_bit n (l + (63 - count)) -> 63 - 2 * X < l + (63 - count) ->
  let '(n', count') := CTZ_STEP X (n, count) in
  in_width 64 n' /\ lowest_bit n' (l + (63 - count')) /\ 63 - X < l + (63 - count').
Proof.
  intros HX Hn Hl Hw. unfold CTZ_STEP.
  destruct (Z.eqb_spec (u64 (Z.shiftl n X)) 0) as [E|E];
    rewrite (ctz_step_shift n (l + (63 - count)) X) in E by (done || lia).
  - split_and!; [done..|lia].
  - split_and!; [apply wrap_width; lia| |lia].
    replace (l + (63 - (count - X))) with (l + (63 - count) + X) by lia.
    apply lowest_bit_shiftl; (done || lia).
Qed.

(** [scan_step inv step] runs the innermost step of a scan through its lemma. *)
Ltac scan_step inv step :=
  match goal with
  | |- context [step ?X (?n, ?c)] =>
      let H := fresh "Hstep" in
      pose proof (inv X _ n c ltac:(lia) ltac:(eassumption) ltac:(eassumption) ltac:(lia)) as H;
      destruct (step X (n, c)) as [? ?]; destruct H as (? & ? & ?)
  end.

(** [raw_ctz] finds the lowest 1-bit of every nonzero 64-bit word. *)
Lemma raw_ctz_lowest (n : Z) : 0 < n -> in_width 64 n -> lowest_bit n (raw_ctz n).
Proof.
  intros Hpos Hn. destruct (lowest_bit_exists n Hpos) as [l Hl].
  enough (raw_ctz n = l) as -> by done. unfold raw_ctz.
  pose proof (lowest_bit_width _ _ _ Hn Hl) as Hl64. pose proof (proj1 Hl).
  assert (lowest_bit n (l + (63 - 63))) as Hl1 by (by rewrite Z.sub_diag, Z.add_0_r).
  assert (63 - 2 * 32 < l + (63 - 63)) as Hl2 by lia.
  do 6 scan_step CTZ_STEP_inv CTZ_STEP.
  match goal with
  | Hw : in_width 64 ?m, Hb : lowest_bit ?m _ |- _ =>
      pose proof (lowest_bit_width _ _ _ Hw Hb)
  end. simpl. lia.
Qed.

Lemma CLZ_STEP_inv (X l n count : Z) :
  0 < X -> 0 < n -> Z.log2 n + (63 - count) = l -> Z.log2 n < 2 * X ->
  let '(n', count') := CLZ_STEP X (n, count) in
  0 < n' /\ Z.log2 n' + (63 - count') = l /\ Z.log2 n' < X.
Proof.
  intros HX Hn Hl Hw. unfold CLZ_STEP.
  destruct (Z.eqb_spec (Z.shiftr n X) 0) as [E|E].
  - split_and!; [done..|]. apply Z.shiftr_eq_0_iff in E. destruct E; lia.
  - pose proof (proj2 (Z.shiftr_nonneg n X) ltac:(lia)) as Hnn.
    rewrite Z.log2_shiftr by lia.
    assert (X <= Z.log2 n) as HX'.
    { destruct (Z.lt_ge_cases (Z.log2 n) X); [|lia].
      destruct E. apply Z.shiftr_eq_0; lia. }
    split_and!; lia.
Qed.

(** [raw_clz64] is [63 - log2 n]. *)
Lemma raw_clz64_log2 (n : Z) : 0 < n -> in_width 64 n -> raw_clz64 n = 63 - Z.log2 n.
Proof.
  intros Hpos [_ Hn]. unfold raw_clz64.
  assert (Z.log2 n < 64) as Hlog by (by apply Z.log2_lt_pow2).
  assert (exists l, Z.log2 n + (63 - 63) = l) as [l Hl1] by eauto.
  replace (63 - Z.log2 n) with (63 - l) by lia.
  assert (Z.log2 n < 2 * 32) as Hl2 by lia. do 6 scan_step CLZ_STEP_inv CLZ_STEP.
  match goal with Hb : 0 < ?m |- context [(?m, _)] => pose proof (Z.log2_nonneg m) end.
  simpl. lia.
Qed.

(** ** Counting 1-bits *)

(** Little-endian bytes of a word: the counting steps act byte by byte. *)
Fixpoint le_value (bs : list Z) : Z :=
  match bs with
  | [] => 0
  | b :: bs => b + 256 * le_value bs
  end.

Fixpoint le_bytes (n : nat) (x : Z) : list Z :=
  match n with
  | O => []
  | S n => x mod 256 :: le_bytes n (x / 256)
  end.

Definition is_byte (b : Z) : Prop := 0 <= b < 256.

Lemma le_bytes_value (n : nat) (x : Z) :
  0 <= x < 256 ^ Z.of_nat n -> le_value (le_bytes n x) = x.
Proof.
  revert x. induction n as [|n IH]; intros x Hx; simpl.
  - simpl in Hx. lia.
  - rewrite Nat2Z.inj_succ, Z.pow_succ_r in Hx by lia.
    rewrite IH; [|split; [apply Z.div_pos; lia|apply Z.div_lt_upper_bound; lia]].
    pose proof (Z.div_mod x 256). lia.
Qed.

Lemma le_bytes_Forall (n : nat) (x : Z) : Forall is_byte (le_bytes n x).
Proof.
  revert x. induction n; intros x; simpl; constructor; [|auto].
  apply Z.mod_pos_bound. lia.
Qed.

Lemma le_value_nonneg (bs : list Z) : Forall is_byte bs -> 0 <= le_value bs.
Proof. induction 1 as [|b bs Hb _ IH]; simpl; [lia|]. unfold is_byte in Hb. lia. Qed.

Lemma length_le_bytes (n : nat) (x : Z) : length (le_bytes n x) = n.
Proof. revert x. induction n; intros x; simpl; auto. Qed.

(** A check over all bytes is a proof for all bytes. *)
Definition all_bytes (f : Z -> bool) : bool := forallb (fun n => f (Z.of_nat n)) (seq 0 256).

Lemma all_bytes_spec (f : Z -> bool) (b : Z) : all_bytes f = true -> is_byte b -> f b = true.
Proof.
  unfold all_bytes, is_byte. rewrite forallb_forall. intros H Hb.
  specialize (H (Z.to_nat b)). rewrite Z2Nat.id in H by lia. apply H.
  apply in_seq. lia.
Qed.

Lemma testbit_byte_app (b y i : Z) :
  is_byte b -> 0 <= i -> Z.testbit (b + 256 * y) i = if i <? 8 then Z.testbit b i else Z.testbit y (i - 8).
Proof.
  intros Hb Hi. replace (b + 256 * y) with (Z.lor b (Z.shiftl y 8)).
  - autorewrite with bits. destruct (Z.ltb_spec i 8).
    + rewrite (Z.testbit_neg_r y) by lia. apply orb_false_r.
    + by rewrite (in_width_high 8 b).
  - assert (Z.land b (Z.shiftl y 8) = 0) as Hz.
    2:{ pose proof (Z.add_lor_land b (Z.shiftl y 8)).
        rewrite Z.shiftl_mul_pow2 in * by lia. lia. }
    apply land_zero_bits. intros k Hk Hbk. rewrite Z.shiftl_spec by lia.
    destruct (Z.lt_ge_cases k 8); [by rewrite Z.testbit_neg_r by lia|].
    by rewrite (in_width_high 8 b) in Hbk.
Qed.

Lemma land_bytes (b y m M : Z) :
  is_byte b -> is_byte m ->
  Z.land (b + 256 * y) (m + 256 * M) = Z.land b m + 256 * Z.land y M.
Proof.
  intros Hb Hm. apply Z.bits_inj'. intros i Hi.
  assert (is_byte (Z.land b m)) by (apply (in_width_land 8); (done || lia || apply Hm)).
  rewrite Z.land_spec, !testbit_byte_app by done.
  destruct (Z.ltb_spec i 8); by rewrite Z.land_spec.
Qed.

Lemma shiftr_bytes (j b y : Z) :
  0 <= j <= 8 ->
  Z.shiftr (b + 256 * y) j =
  (Z.shiftr b j + (y mod 2 ^ j) * 2 ^ (8 - j)) + 256 * Z.shiftr y j.
Proof.
  intros Hj. rewrite !Z.shiftr_div_pow2 by lia.
  assert (256 = 2 ^ (8 - j) * 2 ^ j) as E
    by (rewrite <- Z.pow_add_r by lia; replace (8 - j + j) with 8 by lia; done).
  assert (0 < 2 ^ j) by (apply Z.pow_pos_nonneg; lia).
  rewrite E at 1. replace (b + 2 ^ (8 - j) * 2 ^ j * y) with (b + 2 ^ (8 - j) * y * 2 ^ j) by ring.
  rewrite Z.div_add by lia. rewrite (Z.div_mod y (2 ^ j)) at 1 by lia. rewrite E. ring.
Qed.

(** The mask [m] repeated in every byte. *)
Fixpoint rep (m : Z) (k : nat) : Z := match k with O => 0 | S k => m + 256 * rep m k end.

(** [(x >> j) & m...m] is computed byte by byte when [m] has no bit from [8-j] on. *)
Lemma land_shiftr_bytes (j m : Z) (bs : list Z) :
  0 <= j <= 8 -> 0 <= m < 2 ^ (8 - j) -> Forall is_byte bs ->
  Z.land (Z.shiftr (le_value bs) j) (rep m (length bs)) =
  le_value (map (fun b => Z.land (Z.shiftr b j) m) bs).
Proof.
  intros Hj Hm. induction 1 as [|b bs Hb Hbs IH]; simpl; [apply Z.land_0_r|].
  assert (is_byte m) as Hm8.
  { apply (in_width_mono (8 - j) 8); [lia|done]. }
  assert (0 <= le_value bs mod 2 ^ j < 2 ^ j) as Hmod
    by (apply Z.mod_pos_bound, Z.pow_pos_nonneg; lia).
  assert (2 ^ (8 - j) * 2 ^ j = 256) as E
    by (rewrite <- Z.pow_add_r by lia; replace (8 - j + j) with 8 by lia; done).
  assert (0 <= Z.shiftr b j < 2 ^ (8 - j)) as Hsb.
  { rewrite Z.shiftr_div_pow2 by lia. unfold is_byte in Hb. split.
    - apply Z.div_pos; [lia|]. apply Z.pow_pos_nonneg; lia.
    - apply Z.div_lt_upper_bound; [apply Z.pow_pos_nonneg|]; lia. }
  rewrite shiftr_bytes, land_bytes, IH by (done || unfold is_byte; nia). f_equal.
  rewrite Z.add_comm. apply land_eq_bits. intros i Hi Hmi.
  assert (i < 8 - j).
  { destruct (Z.lt_ge_cases i (8 - j)); [done|].
    rewrite (in_width_high (8 - j) m) in Hmi; done. }
  rewrite <- (Z.mod_pow2_bits_low _ (8 - j)) by done.
  rewrite <- (Z.mod_pow2_bits_low (Z.shiftr b j) (8 - j)) by done.
  rewrite Z.add_comm, Z.mod_add; [done|]. apply Z.pow_nonzero; lia.
Qed.

(** The three counting steps on one byte. *)
Definition count2 (b : Z) : Z := b - Z.land (Z.shiftr b 1) 0x55.
Definition count4 (b : Z) : Z := Z.land b 0x33 + Z.land (Z.shiftr b 2) 0x33.
Definition count8 (b : Z) : Z := Z.land (b + Z.shiftr b 4) 0x0F.

Definition byte_ones (b : Z) : Z := Z.of_nat (length (one_bits b 8)).

Lemma count_byte (b : Z) :
  is_byte b ->
  is_byte (count2 b) /\ is_byte (count4 (count2 b)) /\
  (count4 (count2 b)) mod 16 <= 4 /\ (count4 (count2 b)) / 16 <= 4 /\
  count8 (count4 (count2 b)) = byte_ones b /\ 0 <= byte_ones b <= 8.
Proof.
  intros Hb.
  pose (f := fun b => let c := count2 b in let d := count4 c in
    (0 <=? c) && (c <? 256) && (0 <=? d) && (d <? 256) && (d mod 16 <=? 4) &&
    (d / 16 <=? 4) && (count8 d =? byte_ones b) && (0 <=? byte_ones b) && (byte_ones b <=? 8)).
  assert (f b = true) as H by (apply all_bytes_spec; [vm_compute; reflexivity|done]).
  unfold f in H. rewrite !andb_true_iff in H. unfold is_byte. lia.
Qed.

Lemma count2_bytes (bs : list Z) :
  Forall is_byte bs ->
  le_value bs - Z.land (Z.shiftr (le_value bs) 1) (rep 0x55 (length bs)) = le_value (map count2 bs).
Proof.
  intros H. rewrite land_shiftr_bytes by (done || lia).
  induction bs; simpl; [done|]. inversion H; subst. unfold count2 at 1. rewrite <- IHbs by done. lia.
Qed.

Lemma count4_bytes (bs : list Z) :
  Forall is_byte bs ->
  Z.land (le_value bs) (rep 0x33 (length bs)) +
  Z.land (Z.shiftr (le_value bs) 2) (rep 0x33 (length bs)) = le_value (map count4 bs).
Proof.
  intros H. pose proof (land_shiftr_bytes 0 0x33 bs ltac:(lia) ltac:(lia) H) as H0.
  rewrite Z.shiftr_0_r in H0. rewrite H0, land_shiftr_bytes by (done || lia).
  clear H0. induction bs; simpl; [done|]. inversion H; subst.
  unfold count4 at 1. rewrite <- IHbs by done. rewrite Z.shiftr_0_r. lia.
Qed.

Lemma count8_bytes (bs : list Z) :
  Forall (fun b => is_byte b /\ b mod 16 <= 4 /\ b / 16 <= 4) bs ->
  Z.land (le_value bs + Z.shiftr (le_value bs) 4) (rep 0x0F (length bs)) = le_value (map count8 bs).
Proof.
  induction 1 as [|b bs (Hb & Hlo & Hhi) Hbs IH]; simpl; [done|].
  rewrite shiftr_bytes by lia.
  assert (le_value bs mod 2 ^ 4 <= 4) as Hy.
  { destruct Hbs as [|c cs (Hc & Hclo & _)]; simpl; [by vm_compute|].
    change (2 ^ 4) with 16. replace (c + 256 * le_value cs) with (c + 16 * le_value cs * 16) by lia.
    rewrite Z.mod_add; lia. }
  pose proof (Z.mod_pos_bound (le_value bs) (2 ^ 4) ltac:(lia)) as Hy0.
  set (t := le_value bs mod 2 ^ 4) in *.
  replace (b + 256 * le_value bs + (Z.shiftr b 4 + t * 2 ^ (8 - 4) + 256 * Z.shiftr (le_value bs) 4))
    with ((b + Z.shiftr b 4 + t * 16) + 256 * (le_value bs + Z.shiftr (le_value bs) 4)) by lia.
  assert (0 <= Z.shiftr b 4 <= 4) as Hs.
  { rewrite Z.shiftr_div_pow2 by lia. change (2 ^ 4) with 16. unfold is_byte in Hb.
    split; [apply Z.div_pos; lia|done]. }
  rewrite land_bytes, IH; [|unfold is_byte in *; pose proof (Z.div_mod b 16); lia|unfold is_byte; lia].
  f_equal. unfold count8. apply land_eq_bits. intros i Hi Hm.
  assert (i < 4).
  { destruct (Z.lt_ge_cases i 4); [done|]. by rewrite (in_width_high 4 15) in Hm by (done || lia). }
  rewrite <- (Z.mod_pow2_bits_low _ 4), Z.mod_add, Z.mod_pow2_bits_low by lia. done.
Qed.

Definition sumZ (l : list Z) : Z := foldr Z.add 0 l.

Lemma one_bits_byte_app (b y : Z) (n : nat) :
  is_byte b ->
  one_bits (b + 256 * y) (8 + n) = one_bits b 8 ++ map (Nat.add 8) (one_bits y n).
Proof.
  intros Hb. unfold one_bits. rewrite seq_app, List.filter_app. f_equal.
  - apply filter_ext_in. intros i Hi. apply in_seq in Hi.
    rewrite testbit_byte_app by (done || lia). destruct (Z.ltb_spec (Z.of_nat i) 8); [done|lia].
  - change (seq (0 + 8) n) with (seq (8 + 0) n).
    rewrite <- (seq_add_map 8 0 n), filter_map_swap. f_equal.
    apply filter_ext_in. intros i Hi. rewrite testbit_byte_app by (done || lia).
    destruct (Z.ltb_spec (Z.of_nat (8 + i)) 8); [lia|]. f_equal. lia.
Qed.

Lemma length_one_bits_le_value (bs : list Z) :
  Forall is_byte bs ->
  Z.of_nat (length (one_bits (le_value bs) (8 * length bs))) = sumZ (map byte_ones bs).
Proof.
  induction 1 as [|b bs Hb Hbs IH]; [done|].
  replace (8 * length (b :: bs))%nat with (8 + 8 * length bs)%nat by (simpl; lia).
  cbn [le_value map sumZ foldr]. rewrite one_bits_byte_app, length_app, length_map by done.
  unfold byte_ones at 1. unfold sumZ in IH. lia.
Qed.

Lemma le_value_width (bs : list Z) :
  Forall is_byte bs -> 0 <= le_value bs < 256 ^ Z.of_nat (length bs).
Proof.
  induction 1 as [|b bs Hb Hbs IH]; [by vm_compute|]. cbn [le_value length].
  rewrite Nat2Z.inj_succ, Z.pow_succ_r by lia. unfold is_byte in Hb. lia.
Qed.

(** Multiplying by [0x01...01] adds up the bytes in the top byte. *)
Lemma h01_sum (a b c d e f g h : Z) :
  Forall (fun x => 0 <= x <= 8) [a; b; c; d; e; f; g; h] ->
  Z.shiftr (u64 (le_value [a; b; c; d; e; f; g; h] * h01)) 56 = sumZ [a; b; c; d; e; f; g; h].
Proof.
  rewrite !Forall_cons. intros H. rewrite Z.shiftr_div_pow2 by lia.
  pose (r := le_value [a; a + b; a + b + c; a + b + c + d; a + b + c + d + e;
                       a + b + c + d + e + f; a + b + c + d + e + f + g]).
  pose (q := le_value [b + c + d + e + f + g + h; c + d + e + f + g + h; d + e + f + g + h;
                       e + f + g + h; f + g + h; g + h; h]).
  assert (u64 (le_value [a; b; c; d; e; f; g; h] * h01) =
          (a + b + c + d + e + f + g + h) * 2 ^ 56 + r) as ->.
  { unfold wrap. symmetry. apply (Z.mod_unique_pos _ _ q); unfold r, q, h01; cbn [le_value]; lia. }
  symmetry. unfold sumZ. apply (Z.div_unique_pos _ _ _ r); unfold r; cbn [le_value foldr]; lia.
Qed.

Lemma nibble_sum_width (bs : list Z) :
  Forall (fun b => is_byte b /\ b mod 16 <= 4 /\ b / 16 <= 4) bs -> length bs = 8%nat ->
  in_width 64 (le_value bs + Z.shiftr (le_value bs) 4).
Proof.
  intros H Hl. do 8 (destruct bs as [|? bs]; [done|]). destruct bs; [|done].
  rewrite !Forall_cons in H. unfold is_byte, in_width in *.
  rewrite Z.shiftr_div_pow2 by lia. cbn [le_value].
  pose proof (fun x => Z.div_mod x 16 ltac:(lia)) as Hd.
  pose proof (Hd z); pose proof (Hd z0); pose proof (Hd z1); pose proof (Hd z2).
  pose proof (Hd z3); pose proof (Hd z4); pose proof (Hd z5); pose proof (Hd z6).
  change (2 ^ 4) with 16.
  match goal with |- 0 <= ?x + ?x / 16 < _ =>
    assert (0 <= x <= 0x4444444444444444) as Hx by lia; revert Hx; generalize x; clear
  end.
  intros x Hx. pose proof (Z.div_pos x 16 ltac:(lia) ltac:(lia)).
  assert (x / 16 <= x) by (apply Z.div_le_upper_bound; lia). lia.
Qed.

Lemma map_length_8 {A} (l : list A) :
  length l = 8%nat -> exists a b c d e f g h, l = [a; b; c; d; e; f; g; h].
Proof.
  intros H. do 8 (destruct l as [|? l]; [done|]). destruct l; [|done]. eauto 10.
Qed.

(** The SWAR (word-parallel) population count of lib/util.h counts the 1-bits. *)
Lemma count_1bits_spec (x : Z) :
  in_width 64 x -> count_1bits x = Z.of_nat (length (one_bits x 64)).
Proof.
  intros Hx. rewrite <- (le_bytes_value 8 x) by done.
  pose proof (le_bytes_Forall 8 x) as Hbs. pose proof (length_le_bytes 8 x) as Hlen.
  set (bs := le_bytes 8 x) in *. clearbody bs.
  assert (length_one_bits := length_one_bits_le_value bs Hbs). rewrite Hlen in length_one_bits.
  change (8 * 8)%nat with 64%nat in length_one_bits. rewrite length_one_bits.
  assert (Forall is_byte (map count2 bs)) as H2.
  { apply Forall_map. eapply Forall_impl; [exact Hbs|]. intros b Hb. by apply count_byte. }
  assert (Forall (fun b => is_byte b /\ b mod 16 <= 4 /\ b / 16 <= 4) (map count4 (map count2 bs))) as H4.
  { rewrite map_map. apply Forall_map. eapply Forall_impl; [exact Hbs|].
    intros b Hb. simpl. pose proof (count_byte b Hb). tauto. }
  assert (Forall is_byte (map count4 (map count2 bs))) as H4'
    by (eapply Forall_impl; [exact H4|]; simpl; tauto).
  assert (map count8 (map count4 (map count2 bs)) = map byte_ones bs) as H8.
  { rewrite !map_map. apply map_ext_in. intros b Hb. rewrite Forall_forall in Hbs.
    apply count_byte, Hbs. by apply list_elem_of_In. }
  assert (forall l, Forall is_byte l -> length l = 8%nat -> u64 (le_value l) = le_value l) as Hu.
  { intros l Hl Hl8. apply wrap_small. pose proof (le_value_width l Hl) as Hw. rewrite Hl8 in Hw. exact Hw. }
  unfold count_1bits.
  change h55 with (rep 0x55 8). change h33 with (rep 0x33 8). change h0F with (rep 0x0F 8).
  replace (rep 0x55 8) with (rep 0x55 (length bs)) by by rewrite Hlen.
  rewrite count2_bytes, (Hu (map count2 bs)) by (done || by rewrite length_map).
  replace (rep 0x33 8) with (rep 0x33 (length (map count2 bs))) by by rewrite length_map, Hlen.
  rewrite count4_bytes, Hu by (done || by rewrite !length_map).
  replace (rep 0x0F 8) with (rep 0x0F (length (map count4 (map count2 bs))))
    by by rewrite !length_map, Hlen.
  rewrite (wrap_small 64 (_ + _)) by (apply nibble_sum_width; [done|by rewrite !length_map]).
  rewrite count8_bytes, H8 by done.
  assert (Forall (fun c => 0 <= c <= 8) (map byte_ones bs)) as Hc.
  { apply Forall_map. eapply Forall_impl; [exact Hbs|]. intros b Hb. by apply count_byte. }
  destruct (map_length_8 (map byte_ones bs)) as (a & b & c & d & e & f & g & h & E);
    [by rewrite length_map|].
  rewrite E in *. by apply h01_sum.
Qed.

(** ** Clearing the lowest 1-bit *)

Lemma one_bits_In (x : Z) (n i : nat) :
  In i (one_bits x n) <-> (i < n)%nat /\ Z.testbit x (Z.of_nat i) = true.
Proof. unfold one_bits. rewrite filter_In, in_seq. intuition lia. Qed.

Lemma testbit_pred_lowest (x l i : Z) :
  lowest_bit x l -> 0 <= i -> l <= i ->
  Z.testbit (x - 1) i = Z.testbit x i && negb (i =? l).
Proof.
  intros (Hl0 & Hl & Hl') Hi Hli.
  assert (x mod 2 ^ l = 0) as Hmod.
  { apply Z.bits_inj'. intros k Hk. rewrite Z.testbit_mod_pow2, Z.bits_0 by lia.
    destruct (Z.ltb_spec k l); [|done]. simpl. apply Hl'. lia. }
  pose proof (Z.pow_pos_nonneg 2 l ltac:(lia) ltac:(lia)) as Hp.
  assert (x = 2 ^ l * (x / 2 ^ l)) as Ex by (pose proof (Z.div_mod x (2 ^ l)); lia).
  assert ((x - 1) / 2 ^ l = x / 2 ^ l - 1) as Ed.
  { symmetry. apply (Z.div_unique_pos _ _ _ (2 ^ l - 1)); lia. }
  replace i with (i - l + l) by lia. rewrite <- !Z.div_pow2_bits by lia. rewrite Ed.
  rewrite <- Z.shiftr_div_pow2 by lia.
  assert (Z.testbit (Z.shiftr x l) 0 = true) as Hodd by (rewrite Z.shiftr_spec by lia; done).
  set (h := Z.shiftr x l) in *. clearbody h.
  assert (h = 2 * (h / 2) + 1) as Eh.
  { rewrite Z.bit0_eqb in Hodd. apply Z.eqb_eq in Hodd. pose proof (Z.div_mod h 2). lia. }
  destruct (Z.eqb_spec (i - l + l) l) as [E|E].
  - replace (i - l) with 0 by lia. rewrite Z.bit0_eqb, andb_false_r.
    apply Z.eqb_neq. rewrite Eh. replace (2 * (h / 2) + 1 - 1) with (h / 2 * 2) by lia.
    rewrite Z.mod_mul; lia.
  - rewrite andb_true_r. replace (i - l) with (i - l - 1 + 1) by lia.
    rewrite <- !Z.div_pow2_bits by lia. change (2 ^ 1) with 2. f_equal.
    symmetry. apply (Z.div_unique_pos _ _ _ 0); lia.
Qed.

(** [zero_rightmost_1bit] clears exactly the lowest 1-bit. *)
Lemma zero_rightmost_1bit_testbit (x l i : Z) :
  in_width 64 x -> lowest_bit x l -> 0 <= i ->
  Z.testbit (zero_rightmost_1bit x) i = Z.testbit x i && negb (i =? l).
Proof.
  intros Hx Hl Hi. unfold zero_rightmost_1bit. rewrite Z.land_spec, wrap_testbit by lia.
  destruct (Z.ltb_spec i 64); [|by rewrite (in_width_high 64 x)].
  destruct (Z.lt_ge_cases i l).
  - destruct Hl as (_ & _ & ->); [done|lia].
  - rewrite andb_true_l, (testbit_pred_lowest x l i) by done.
    by destruct (Z.testbit x i), (i =? l).
Qed.

Lemma zero_rightmost_1bit_width (x : Z) : in_width 64 x -> in_width 64 (zero_rightmost_1bit x).
Proof. intros H. apply in_width_land; [lia|done|]. apply wrap_width. lia. Qed.

(** Peeling the lowest 1-bit peels the head of the list of 1-bits. *)
Lemma one_bits_peel (x : Z) :
  0 < x -> in_width 64 x ->
  one_bits x 64 = Z.to_nat (raw_ctz x) :: one_bits (zero_rightmost_1bit x) 64.
Proof.
  intros Hpos Hx. pose proof (raw_ctz_lowest x Hpos Hx) as Hl.
  pose proof (lowest_bit_width _ _ _ Hx Hl) as Hl64. pose proof (proj1 Hl) as Hl0.
  remember (raw_ctz x) as l eqn:El. clear El.
  assert (one_bits (zero_rightmost_1bit x) 64 =
          List.filter (fun i => Z.testbit x (Z.of_nat i) && negb (i =? Z.to_nat l)%nat) (seq 0 64)) as ->.
  { apply filter_ext_in. intros i Hi. rewrite (zero_rightmost_1bit_testbit x l) by (done || lia).
    f_equal. f_equal. destruct (Z.eqb_spec (Z.of_nat i) l), (Nat.eqb_spec i (Z.to_nat l)); lia. }
  unfold one_bits. replace 64%nat with (Z.to_nat l + (1 + (63 - Z.to_nat l)))%nat by lia.
  rewrite !seq_app, !List.filter_app. cbn [seq Nat.add].
  rewrite (filter_nil_in (fun i => Z.testbit x (Z.of_nat i)) (seq 0 (Z.to_nat l))).
  2:{ intros i Hi. apply in_seq in Hi. apply Hl. lia. }
  rewrite (filter_nil_in _ (seq 0 (Z.to_nat l))).
  2:{ intros i Hi. apply in_seq in Hi. destruct Hl as (_ & _ & ->); [done|lia]. }
  cbn [List.filter]. rewrite Z2Nat.id by lia. destruct Hl as (_ & Hl & _). rewrite Hl.
  rewrite Nat.eqb_refl. cbn. f_equal. apply filter_ext_in. intros i Hi. apply in_seq in Hi.
  destruct (Nat.eqb_spec i (Z.to_nat l)); [lia|]. by rewrite andb_true_r.
Qed.

Lemma length_one_bits (m : Z) (n : nat) : (length (one_bits m n) <= n)%nat.
Proof.
  unfold one_bits. etransitivity; [apply List.filter_length_le|]. by rewrite length_seq.
Qed.

Lemma one_bits_filter (x : Z) (n : nat) :
  one_bits x n = List.filter (fun i => Z.testbit x (Z.of_nat i)) (seq 0 n).
Proof. reflexivity. Qed.

Lemma one_bits_0 (n : nat) : one_bits 0 n = [].
Proof. apply filter_nil_in. intros i _. apply Z.bits_0. Qed.

Lemma zero_rightmost_1bit_land (x : Z) : zero_rightmost_1bit x = Z.land x (u64 (x - 1)).
Proof. reflexivity. Qed.

#[global] Opaque one_bits raw_ctz raw_clz64 count_1bits zero_rightmost_1bit.
