(* ===== verification/Flowmap.v ===== *)
(** * Flow maps (lib/flow.h)

    A [struct flowmap] has one bit for each 64-bit word of [struct flow].
    This file models its operations and the iteration over its 1-bits, and
    proves them against the set of indices the map stands for. *)

From S2P Require Import Prelude Util.
From stdpp Require Import prelude list.
From Stdlib Require Import ZArith Lia.
Open Scope Z_scope.
Open Scope ovs_scope.

(** ** Definitions *)

(** [sizeof(struct flow) / sizeof(uint64_t)]: 344 bytes of tunnel data, 24
    bytes of NSH and 304 bytes of other fields. *)
Definition FLOW_U64S : nat := 84.
Abbreviation MAP_T_BITS := 64%nat.
Definition FLOWMAP_UNITS : nat := (FLOW_U64S + MAP_T_BITS - 1) / MAP_T_BITS.

(** [map_t bits[FLOWMAP_UNITS]] *)
Abbreviation flowmap := (list Z).

Definition FLOWMAP_EMPTY_INITIALIZER : flowmap := replicate FLOWMAP_UNITS 0.

Definition flowmap_init : flowmap := replicate FLOWMAP_UNITS 0.

Definition flowmap_equal (a b : flowmap) : bool := bool_decide (a = b).

Definition flowmap_is_set (fm : flowmap) (idx : nat) : bool :=
  negb (Z.land (nth (idx / MAP_T_BITS) fm 0)
          (u64 (Z.shiftl 1 (Z.of_nat (idx mod MAP_T_BITS)))) =? 0).

Definition n_bits_mask (n_bits : nat) : Z := u64 (u64 (Z.shiftl 1 (Z.of_nat n_bits)) - 1).

Definition flowmap_are_set (fm : flowmap) (idx n_bits : nat) : bool :=
  let unit := (idx / MAP_T_BITS)%nat in
  let idx := (idx mod MAP_T_BITS)%nat in
  if negb (Z.land (nth unit fm 0) (u64 (Z.shiftl (n_bits_mask n_bits) (Z.of_nat idx))) =? 0)
  then true
  else if ((unit + 1 <? FLOWMAP_UNITS)%nat && (MAP_T_BITS <? idx + n_bits)%nat)
  then negb (Z.land (nth (unit + 1) fm 0)
               (Z.shiftr (n_bits_mask n_bits) (Z.of_nat (MAP_T_BITS - idx))) =? 0)
  else false.

Definition flowmap_set (fm : flowmap) (idx n_bits : nat) : flowmap :=
  let unit := (idx / MAP_T_BITS)%nat in
  let idx := (idx mod MAP_T_BITS)%nat in
  let fm := <[unit := Z.lor (nth unit fm 0)
                        (u64 (Z.shiftl (n_bits_mask n_bits) (Z.of_nat idx)))]> fm in
  if ((unit + 1 <? FLOWMAP_UNITS)%nat && (MAP_T_BITS <? idx + n_bits)%nat)
  then <[(unit + 1)%nat := Z.lor (nth (unit + 1) fm 0)
           (Z.shiftr (n_bits_mask n_bits) (Z.of_nat (MAP_T_BITS - idx)))]> fm
  else fm.

Definition flowmap_clear (fm : flowmap) (idx n_bits : nat) : flowmap :=
  let unit := (idx / MAP_T_BITS)%nat in
  let idx := (idx mod MAP_T_BITS)%nat in
  let fm := <[unit := Z.land (nth unit fm 0)
                        (u64 (Z.lnot (u64 (Z.shiftl (n_bits_mask n_bits) (Z.of_nat idx)))))]> fm in
  if ((unit + 1 <? FLOWMAP_UNITS)%nat && (MAP_T_BITS <? idx + n_bits)%nat)
  then <[(unit + 1)%nat := Z.land (nth (unit + 1) fm 0)
           (u64 (Z.lnot (Z.shiftr (n_bits_mask n_bits) (Z.of_nat (MAP_T_BITS - idx)))))]> fm
  else fm.

Definition flowmap_or (a b : flowmap) : flowmap :=
  map (fun unit => Z.lor (nth unit a 0) (nth unit b 0)) (seq 0 FLOWMAP_UNITS).

Definition flowmap_and (a b : flowmap) : flowmap :=
  map (fun unit => Z.land (nth unit a 0) (nth unit b 0)) (seq 0 FLOWMAP_UNITS).

Definition flowmap_is_empty (fm : flowmap) : bool := forallb (fun map => map =? 0) fm.

Definition flowmap_n_1bits (fm : flowmap) : Z :=
  foldl (fun n unit => n + count_1bits (nth unit fm 0)) 0 (seq 0 FLOWMAP_UNITS).

(** [ULLONG_FOR_EACH_1]: the values of [IDX], in order.  Each round clears a
    1-bit, so 64 rounds are enough. *)
Fixpoint ULLONG_FOR_EACH_1 (fuel : nat) (map__ : Z) : list nat :=
  match fuel with
  | O => []
  | S fuel =>
      if map__ =? 0 then []
      else Z.to_nat (raw_ctz map__) :: ULLONG_FOR_EACH_1 fuel (zero_rightmost_1bit map__)
  end.

Definition MAP_FOR_EACH_INDEX (map : Z) : list nat := ULLONG_FOR_EACH_1 MAP_T_BITS map.

(** [FLOWMAP_FOR_EACH_MAP] with a [MAP_FOR_EACH_INDEX] inside: the indices of
    the [uint64_t]s that are visited. *)
Definition FLOWMAP_FOR_EACH_MAP_INDEX (fm : flowmap) : list nat :=
  concat (map (fun unit => map (fun idx => (unit * MAP_T_BITS + idx)%nat)
                             (MAP_FOR_EACH_INDEX (nth unit fm 0)))
            (seq 0 FLOWMAP_UNITS)).

(** [struct flowmap_aux] is the pair of [unit] and [map]. *)
Fixpoint flowmap_next_index_loop (fuel : nat) (aux : nat * flowmap)
  : option (nat * (nat * flowmap)) :=
  match fuel with
  | O => None
  | S fuel =>
      let '(unit, map) := aux in
      let m := nth unit map 0 in
      if negb (m =? 0) then
        Some ((unit * MAP_T_BITS + Z.to_nat (raw_ctz m))%nat,
              (unit, <[unit := zero_rightmost_1bit m]> map))
      else if (FLOWMAP_UNITS <=? S unit)%nat then None
      else flowmap_next_index_loop fuel (S unit, map)
  end.

Definition flowmap_next_index (aux : nat * flowmap) : option (nat * (nat * flowmap)) :=
  flowmap_next_index_loop FLOWMAP_UNITS aux.

Fixpoint flowmap_for_each (fuel : nat) (aux : nat * flowmap) : list nat :=
  match fuel with
  | O => []
  | S fuel =>
      match flowmap_next_index aux with
      | Some (idx, aux) => idx :: flowmap_for_each fuel aux
      | None => []
      end
  end.

Definition FLOWMAP_FOR_EACH_INDEX (fm : flowmap) : list nat :=
  flowmap_for_each (FLOWMAP_UNITS * MAP_T_BITS + 1) (0%nat, fm).

(** ** Specification: the set of indices of a map *)

Definition N_IDX : nat := (FLOWMAP_UNITS * MAP_T_BITS)%nat.

(** The indices in the map, in increasing order. *)
Definition fm_indices (fm : flowmap) : list nat := List.filter (flowmap_is_set fm) (seq 0 N_IDX).

Definition flowmap_wf (fm : flowmap) : Prop :=
  length fm = FLOWMAP_UNITS /\ Forall (in_width 64) fm.

Lemma fm_indices_In (fm : flowmap) (i : nat) :
  In i (fm_indices fm) <-> (i < N_IDX)%nat /\ flowmap_is_set fm i = true.
Proof. unfold fm_indices. rewrite filter_In, in_seq. intuition lia. Qed.

Lemma flowmap_unit_width (fm : flowmap) (u : nat) : flowmap_wf fm -> in_width 64 (nth u fm 0).
Proof. intros [_ H]. apply nth_Forall; [done|]. unfold in_width. lia. Qed.

Lemma land_single_bit (x i : Z) :
  0 <= i -> negb (Z.land x (2 ^ i) =? 0) = Z.testbit x i.
Proof.
  intros Hi. destruct (Z.eqb_spec (Z.land x (2 ^ i)) 0) as [E|E]; simpl.
  - assert (Z.testbit (Z.land x (2 ^ i)) i = false) as H by by rewrite E, Z.bits_0.
    rewrite Z.land_spec, testbit_pow2, Z.eqb_refl, andb_true_r in H by done. done.
  - destruct (Z.testbit x i) eqn:H; [done|]. exfalso. apply E.
    apply Z.bits_inj'. intros k Hk. rewrite Z.land_spec, testbit_pow2, Z.bits_0 by done.
    destruct (Z.eqb_spec k i) as [->|]; [by rewrite H|apply andb_false_r].
Qed.

Lemma flowmap_is_set_testbit (fm : flowmap) (idx : nat) :
  flowmap_is_set fm idx =
  Z.testbit (nth (idx / MAP_T_BITS) fm 0) (Z.of_nat (idx mod MAP_T_BITS)).
Proof.
  unfold flowmap_is_set. rewrite Z.shiftl_1_l.
  pose proof (Nat.mod_upper_bound idx MAP_T_BITS ltac:(done)).
  rewrite wrap_small.
  - apply land_single_bit. lia.
  - split; [apply Z.pow_nonneg; lia|]. apply Z.pow_lt_mono_r; lia.
Qed.

(** Iterating with [ULLONG_FOR_EACH_1] visits the 1-bits in increasing order. *)
Lemma ULLONG_FOR_EACH_1_spec (fuel : nat) (m : Z) :
  in_width 64 m -> (length (one_bits m 64) <= fuel)%nat ->
  ULLONG_FOR_EACH_1 fuel m = one_bits m 64.
Proof.
  revert m. induction fuel as [|fuel IH]; intros m Hm Hf; simpl.
  - destruct (one_bits m 64); [done|simpl in Hf; lia].
  - destruct (Z.eqb_spec m 0) as [->|Hm0]; [by rewrite one_bits_0|].
    assert (0 < m) by (unfold in_width in Hm; lia).
    rewrite (one_bits_peel m) in * by done. f_equal.
    apply IH; [by apply zero_rightmost_1bit_width|simpl in Hf; lia].
Qed.

Lemma MAP_FOR_EACH_INDEX_spec (m : Z) : in_width 64 m -> MAP_FOR_EACH_INDEX m = one_bits m 64.
Proof. intros H. apply ULLONG_FOR_EACH_1_spec; [done|]. apply length_one_bits. Qed.

(** The indices of one unit of the map. *)
Definition unit_indices (fm : flowmap) (u : nat) : list nat :=
  map (Nat.add (u * MAP_T_BITS)) (one_bits (nth u fm 0) MAP_T_BITS).

Lemma filter_unit (fm : flowmap) (u : nat) :
  List.filter (flowmap_is_set fm) (seq (u * MAP_T_BITS) MAP_T_BITS) = unit_indices fm u.
Proof.
  unfold unit_indices. rewrite one_bits_filter.
  rewrite <- (Nat.add_0_r (u * MAP_T_BITS)) at 1. rewrite <- seq_add_map, filter_map_swap.
  f_equal. apply filter_ext_in. intros i Hi. apply in_seq in Hi.
  rewrite flowmap_is_set_testbit.
  rewrite (Nat.add_comm _ i), Nat.Div0.mod_add, Nat.div_add by done.
  rewrite Nat.div_small, Nat.mod_small by lia. done.
Qed.

Lemma fm_indices_units (fm : flowmap) :
  fm_indices fm = concat (map (unit_indices fm) (seq 0 FLOWMAP_UNITS)).
Proof.
  unfold fm_indices.
  change (seq 0 N_IDX) with (seq (0 * MAP_T_BITS) MAP_T_BITS ++ seq (1 * MAP_T_BITS) MAP_T_BITS).
  rewrite List.filter_app, !filter_unit. change (seq 0 FLOWMAP_UNITS) with [0; 1]%nat.
  cbn [map concat]. by rewrite app_nil_r.
Qed.

Lemma FLOWMAP_FOR_EACH_MAP_INDEX_spec (fm : flowmap) :
  flowmap_wf fm -> FLOWMAP_FOR_EACH_MAP_INDEX fm = fm_indices fm.
Proof.
  intros H. rewrite fm_indices_units. unfold FLOWMAP_FOR_EACH_MAP_INDEX. f_equal.
  apply map_ext. intros u. unfold unit_indices.
  rewrite MAP_FOR_EACH_INDEX_spec by by apply flowmap_unit_width. done.
Qed.

(** What is left to visit from [unit] on. *)
Definition rest_indices (aux : nat * flowmap) : list nat :=
  concat (map (unit_indices aux.2) (seq aux.1 (FLOWMAP_UNITS - aux.1))).

Lemma unit_indices_peel (fm : flowmap) (u : nat) :
  flowmap_wf fm -> (u < FLOWMAP_UNITS)%nat -> nth u fm 0 <> 0 ->
  unit_indices fm u =
  (u * MAP_T_BITS + Z.to_nat (raw_ctz (nth u fm 0%Z)))%nat ::
  unit_indices (<[u := zero_rightmost_1bit (nth u fm 0)]> fm) u.
Proof.
  intros Hwf Hu Hnz. pose proof (flowmap_unit_width fm u Hwf) as Hw.
  unfold unit_indices. rewrite nth_insert_eq by (destruct Hwf as [-> _]; done).
  rewrite (one_bits_peel (nth u fm 0)); [cbn [map]; reflexivity| |done].
  unfold in_width in Hw. lia.
Qed.

Lemma flowmap_wf_insert (fm : flowmap) (u : nat) (x : Z) :
  flowmap_wf fm -> in_width 64 x -> flowmap_wf (<[u := x]> fm).
Proof.
  intros [Hl Hf] Hx. split; [by rewrite length_insert|]. by apply Forall_insert.
Qed.

Lemma rest_indices_insert (fm : flowmap) (u v : nat) (x : Z) :
  (u < v)%nat -> rest_indices (v, <[u := x]> fm) = rest_indices (v, fm).
Proof.
  intros Huv. unfold rest_indices. simpl. f_equal. apply map_ext_in. intros w Hw.
  apply in_seq in Hw. unfold unit_indices. by rewrite nth_insert_ne by lia.
Qed.

Lemma rest_indices_cons (u : nat) (fm : flowmap) :
  (u < FLOWMAP_UNITS)%nat -> rest_indices (u, fm) = unit_indices fm u ++ rest_indices (S u, fm).
Proof.
  intros Hu. unfold rest_indices. simpl fst. simpl snd.
  replace (FLOWMAP_UNITS - u)%nat with (S (FLOWMAP_UNITS - S u)) by lia. done.
Qed.

Lemma flowmap_next_index_spec (fuel u : nat) (fm : flowmap) :
  flowmap_wf fm -> (u < FLOWMAP_UNITS)%nat -> (FLOWMAP_UNITS - u <= fuel)%nat ->
  match flowmap_next_index_loop fuel (u, fm) with
  | Some (idx, (u', fm')) =>
      rest_indices (u, fm) = idx :: rest_indices (u', fm') /\ flowmap_wf fm' /\
      (u' < FLOWMAP_UNITS)%nat
  | None => rest_indices (u, fm) = []
  end.
Proof.
  revert u. induction fuel as [|fuel IH]; intros u Hwf Hu Hf; [lia|].
  cbn [flowmap_next_index_loop].
  destruct (Z.eqb_spec (nth u fm 0) 0) as [E|E]; cbn [negb].
  - assert (unit_indices fm u = []) as Hnil
      by (unfold unit_indices; by rewrite E, one_bits_0).
    destruct (Nat.leb_spec FLOWMAP_UNITS (S u)) as [Hle|Hlt].
    + rewrite rest_indices_cons, Hnil by done. unfold rest_indices. simpl fst.
      replace (FLOWMAP_UNITS - S u)%nat with 0%nat by lia. done.
    + rewrite (rest_indices_cons u), Hnil by done. apply IH; (done || lia).
  - split_and!; [| |done].
    + rewrite (rest_indices_cons u), (unit_indices_peel fm u) by done.
      rewrite (rest_indices_cons u) by done. by rewrite rest_indices_insert by lia.
    + apply flowmap_wf_insert; [done|]. apply zero_rightmost_1bit_width, flowmap_unit_width. done.
Qed.

Lemma flowmap_for_each_spec (fuel u : nat) (fm : flowmap) :
  flowmap_wf fm -> (u < FLOWMAP_UNITS)%nat -> (length (rest_indices (u, fm)) < fuel)%nat ->
  flowmap_for_each fuel (u, fm) = rest_indices (u, fm).
Proof.
  revert u fm. induction fuel as [|fuel IH]; intros u fm Hwf Hu Hf; [lia|].
  simpl. unfold flowmap_next_index.
  pose proof (flowmap_next_index_spec FLOWMAP_UNITS u fm Hwf Hu ltac:(lia)) as H.
  destruct (flowmap_next_index_loop _ _) as [[idx [u' fm']]|]; [|done].
  destruct H as (E & Hwf' & Hu'). rewrite E in *. f_equal. apply IH; [done..|]. simpl in Hf. lia.
Qed.

Lemma length_fm_indices (fm : flowmap) : (length (fm_indices fm) <= N_IDX)%nat.
Proof.
  unfold fm_indices. etransitivity; [apply List.filter_length_le|]. by rewrite length_seq.
Qed.

Lemma FLOWMAP_FOR_EACH_INDEX_spec (fm : flowmap) :
  flowmap_wf fm -> FLOWMAP_FOR_EACH_INDEX fm = fm_indices fm.
Proof.
  intros H. rewrite fm_indices_units. unfold FLOWMAP_FOR_EACH_INDEX.
  rewrite flowmap_for_each_spec; [done|done|unfold FLOWMAP_UNITS; simpl; lia|].
  pose proof (length_fm_indices fm) as Hl. rewrite fm_indices_units in Hl.
  change (rest_indices (0%nat, fm)) with (concat (map (unit_indices fm) (seq 0 FLOWMAP_UNITS))).
  unfold N_IDX in Hl. lia.
Qed.

(** ** The map operations on indices *)

Lemma N_IDX_unit (i : nat) : (i < N_IDX)%nat -> (i / MAP_T_BITS < FLOWMAP_UNITS)%nat.
Proof. intros H. apply Nat.Div0.div_lt_upper_bound. unfold N_IDX in H. lia. Qed.

Lemma flowmap_or_is_set (a b : flowmap) (i : nat) :
  (i < N_IDX)%nat -> flowmap_is_set (flowmap_or a b) i = flowmap_is_set a i || flowmap_is_set b i.
Proof.
  intros Hi%N_IDX_unit. rewrite !flowmap_is_set_testbit. unfold flowmap_or.
  rewrite nth_map_seq by done. apply Z.lor_spec.
Qed.

Lemma flowmap_and_is_set (a b : flowmap) (i : nat) :
  (i < N_IDX)%nat -> flowmap_is_set (flowmap_and a b) i = flowmap_is_set a i && flowmap_is_set b i.
Proof.
  intros Hi%N_IDX_unit. rewrite !flowmap_is_set_testbit. unfold flowmap_and.
  rewrite nth_map_seq by done. apply Z.land_spec.
Qed.

Lemma flowmap_or_wf (a b : flowmap) : flowmap_wf a -> flowmap_wf b -> flowmap_wf (flowmap_or a b).
Proof.
  intros Ha Hb. split; [by unfold flowmap_or; rewrite length_map, length_seq|].
  apply Forall_map, Forall_forall. intros u _. apply in_width_lor; [lia|by apply flowmap_unit_width..].
Qed.

Lemma flowmap_and_wf (a b : flowmap) : flowmap_wf a -> flowmap_wf b -> flowmap_wf (flowmap_and a b).
Proof.
  intros Ha Hb. split; [by unfold flowmap_and; rewrite length_map, length_seq|].
  apply Forall_map, Forall_forall. intros u _.
  apply in_width_land; [lia|by apply flowmap_unit_width|]. by apply flowmap_unit_width.
Qed.

Lemma flowmap_init_wf : flowmap_wf flowmap_init.
Proof. split; [done|]. repeat constructor; done. Qed.

Lemma flowmap_init_is_set (i : nat) : flowmap_is_set flowmap_init i = false.
Proof.
  rewrite flowmap_is_set_testbit. replace (nth _ _ _) with 0; [apply Z.bits_0|].
  destruct (i / MAP_T_BITS)%nat as [|[|[]]]; done.
Qed.

Lemma n_bits_mask_ones (n : nat) : (n < 64)%nat -> n_bits_mask n = Z.ones (Z.of_nat n).
Proof.
  intros Hn. unfold n_bits_mask. rewrite Z.shiftl_1_l, Z.ones_equiv, Z.sub_1_r.
  assert (2 ^ Z.of_nat n < 2 ^ 64) by (apply Z.pow_lt_mono_r; lia).
  assert (0 < 2 ^ Z.of_nat n) by (apply Z.pow_pos_nonneg; lia).
  rewrite !wrap_small; [done|unfold in_width..]; rewrite ?wrap_small; unfold in_width; lia.
Qed.

(** The two words that hold the [n] bits from [idx] on. *)
Lemma range_bits_low (n k j : nat) :
  (n < 64)%nat -> (k < 64)%nat -> (j < 64)%nat ->
  Z.testbit (u64 (Z.shiftl (n_bits_mask n) (Z.of_nat k))) (Z.of_nat j) =
  (k <=? j)%nat && (j <? k + n)%nat.
Proof.
  intros Hn Hk Hj. rewrite n_bits_mask_ones, wrap_testbit, Z.shiftl_spec by lia.
  destruct (Z.ltb_spec (Z.of_nat j) 64); [|lia]. simpl.
  destruct (Nat.leb_spec k j).
  - rewrite testbit_ones by lia.
    destruct (Nat.ltb_spec j (k + n)), (Z.ltb_spec (Z.of_nat j - Z.of_nat k) (Z.of_nat n)); lia.
  - by rewrite Z.testbit_neg_r by lia.
Qed.

Lemma range_bits_high (n k j : nat) :
  (n < 64)%nat -> (k < 64)%nat -> (j < 64)%nat ->
  Z.testbit (Z.shiftr (n_bits_mask n) (Z.of_nat (64 - k))) (Z.of_nat j) = (j + 64 <? k + n)%nat.
Proof.
  intros Hn Hk Hj. rewrite n_bits_mask_ones, Z.shiftr_spec, testbit_ones by lia.
  destruct (Nat.ltb_spec (j + 64) (k + n)),
    (Z.ltb_spec (Z.of_nat j + Z.of_nat (64 - k)) (Z.of_nat n)); lia.
Qed.

(** Writing [f] over the bits of a range changes exactly the indices in it. *)
Lemma flowmap_range_update (f : bool -> bool -> bool) (op : Z -> Z -> Z) (fm : flowmap) (idx n j : nat) :
  (forall a b i, 0 <= i < 64 -> Z.testbit (op a b) i = f (Z.testbit a i) (Z.testbit b i)) ->
  (forall b, f b false = b) ->
  length fm = FLOWMAP_UNITS -> (n < 64)%nat -> (idx + n <= N_IDX)%nat -> (j < N_IDX)%nat ->
  let unit := (idx / MAP_T_BITS)%nat in
  let k := (idx mod MAP_T_BITS)%nat in
  let fm1 := <[unit := op (nth unit fm 0) (u64 (Z.shiftl (n_bits_mask n) (Z.of_nat k)))]> fm in
  flowmap_is_set
    (if ((unit + 1 <? FLOWMAP_UNITS)%nat && (MAP_T_BITS <? k + n)%nat)
     then <[(unit + 1)%nat := op (nth (unit + 1) fm1 0)
              (Z.shiftr (n_bits_mask n) (Z.of_nat (MAP_T_BITS - k)))]> fm1
     else fm1) j =
  f (flowmap_is_set fm j) ((idx <=? j)%nat && (j <? idx + n)%nat).
Proof.
  intros Hop Hf Hlen Hn Hidx Hj. cbn zeta.
  pose proof (Nat.div_mod_eq idx MAP_T_BITS) as Ei. pose proof (Nat.div_mod_eq j MAP_T_BITS) as Ej.
  pose proof (Nat.mod_upper_bound idx MAP_T_BITS ltac:(done)) as Hk.
  pose proof (Nat.mod_upper_bound j MAP_T_BITS ltac:(done)) as Hjk.
  rewrite !flowmap_is_set_testbit. pose proof (N_IDX_unit j Hj) as Huj.
  set (u := (idx / MAP_T_BITS)%nat) in *. set (k := (idx mod MAP_T_BITS)%nat) in *.
  set (uj := (j / MAP_T_BITS)%nat) in *. set (kj := (j mod MAP_T_BITS)%nat) in *.
  clearbody u k uj kj.
  assert (u < FLOWMAP_UNITS \/ n = 0)%nat as Hu by (unfold N_IDX in *; lia).
  change FLOWMAP_UNITS with 2%nat in *.
  destruct (decide (uj = u)) as [->|Hne].
  - assert (forall (c : bool) y, nth u (if c then <[(u + 1)%nat := y]>
        (<[u := op (nth u fm 0) (u64 (Z.shiftl (n_bits_mask n) (Z.of_nat k)))]> fm)
        else <[u := op (nth u fm 0) (u64 (Z.shiftl (n_bits_mask n) (Z.of_nat k)))]> fm) 0
        = op (nth u fm 0) (u64 (Z.shiftl (n_bits_mask n) (Z.of_nat k)))) as ->.
    { intros [] y; rewrite ?(nth_insert_ne _ (u + 1) u), nth_insert_eq by lia; done. }
    rewrite Hop, range_bits_low by lia. f_equal.
    destruct (Nat.leb_spec k kj), (Nat.leb_spec idx j), (Nat.ltb_spec kj (k + n)),
      (Nat.ltb_spec j (idx + n)); simpl; lia.
  - destruct (decide (uj = u + 1)%nat) as [->|Hne'].
    + destruct (Nat.ltb_spec (u + 1) 2) as [_|]; [|lia]. simpl.
      destruct (Nat.ltb_spec MAP_T_BITS (k + n)).
      * rewrite nth_insert_eq, nth_insert_ne, Hop, range_bits_high by (rewrite ?length_insert; lia).
        f_equal. destruct (Nat.ltb_spec (kj + 64) (k + n)), (Nat.leb_spec idx j),
          (Nat.ltb_spec j (idx + n)); simpl; lia.
      * rewrite nth_insert_ne by lia. rewrite <- (Hf (Z.testbit _ _)) at 1. f_equal.
        destruct (Nat.leb_spec idx j), (Nat.ltb_spec j (idx + n)); simpl; lia.
    + transitivity (Z.testbit (nth uj fm 0) (Z.of_nat kj)).
      * destruct (_ && _); rewrite ?nth_insert_ne by lia; done.
      * rewrite <- (Hf (Z.testbit _ _)) at 1. f_equal.
        destruct (Nat.leb_spec idx j), (Nat.ltb_spec j (idx + n)); simpl; lia.
Qed.

Lemma flowmap_set_is_set (fm : flowmap) (idx n j : nat) :
  flowmap_wf fm -> (n < 64)%nat -> (idx + n <= N_IDX)%nat -> (j < N_IDX)%nat ->
  flowmap_is_set (flowmap_set fm idx n) j =
  flowmap_is_set fm j || ((idx <=? j)%nat && (j <? idx + n)%nat).
Proof.
  intros [Hl _] Hn Hi Hj. apply (flowmap_range_update orb Z.lor); try done.
  - intros. apply Z.lor_spec.
  - apply orb_false_r.
Qed.

Lemma flowmap_clear_is_set (fm : flowmap) (idx n j : nat) :
  flowmap_wf fm -> (n < 64)%nat -> (idx + n <= N_IDX)%nat -> (j < N_IDX)%nat ->
  flowmap_is_set (flowmap_clear fm idx n) j =
  flowmap_is_set fm j && negb ((idx <=? j)%nat && (j <? idx + n)%nat).
Proof.
  intros [Hl _] Hn Hi Hj.
  apply (flowmap_range_update (fun a b => a && negb b) (fun a b => Z.land a (u64 (Z.lnot b)))); try done.
  - intros a b i Hi'. rewrite Z.land_spec, lnot_testbit by lia. zcmp. done.
  - apply andb_true_r.
Qed.

Lemma flowmap_set_wf (fm : flowmap) (idx n : nat) :
  (n < 64)%nat -> flowmap_wf fm -> flowmap_wf (flowmap_set fm idx n).
Proof.
  intros Hn H. assert (in_width 64 (n_bits_mask n)) by (apply wrap_width; lia).
  unfold flowmap_set. cbn zeta.
  assert (flowmap_wf (<[(idx / MAP_T_BITS)%nat := Z.lor (nth (idx / MAP_T_BITS) fm 0)
    (u64 (Z.shiftl (n_bits_mask n) (Z.of_nat (idx mod MAP_T_BITS))))]> fm)) as H1.
  { apply flowmap_wf_insert; [done|]. apply in_width_lor; [lia|by apply flowmap_unit_width|].
    apply wrap_width. lia. }
  destruct (_ && _); [|done]. apply flowmap_wf_insert; [done|].
  apply in_width_lor; [lia|by apply flowmap_unit_width|]. by apply in_width_shiftr; try lia.
Qed.

Lemma flowmap_clear_wf (fm : flowmap) (idx n : nat) :
  flowmap_wf fm -> flowmap_wf (flowmap_clear fm idx n).
Proof.
  intros H. unfold flowmap_clear. cbn zeta.
  assert (forall u x, flowmap_wf (<[u := Z.land (nth u fm 0) (u64 x)]> fm)) as H1.
  { intros u x. apply flowmap_wf_insert; [done|].
    apply in_width_land; [lia|by apply flowmap_unit_width|]. apply wrap_width. lia. }
  destruct (_ && _); [|apply H1]. apply flowmap_wf_insert; [apply H1|].
  apply in_width_land; [lia|by apply flowmap_unit_width|]. apply wrap_width. lia.
Qed.

(** The number of 1-bits is the number of indices. *)
Lemma flowmap_n_1bits_spec (fm : flowmap) :
  flowmap_wf fm -> flowmap_n_1bits fm = Z.of_nat (length (fm_indices fm)).
Proof.
  intros H. rewrite fm_indices_units. unfold flowmap_n_1bits.
  change (seq 0 FLOWMAP_UNITS) with [0; 1]%nat. cbn [map concat foldl].
  rewrite !count_1bits_spec by by apply flowmap_unit_width.
  unfold unit_indices. rewrite !length_app, !length_map. simpl. lia.
Qed.

Lemma flowmap_unit_zero (fm : flowmap) (u : nat) :
  flowmap_wf fm -> unit_indices fm u = [] <-> nth u fm 0 = 0.
Proof.
  intros H. pose proof (flowmap_unit_width fm u H) as Hw. unfold unit_indices. split.
  - intros E. destruct (decide (nth u fm 0 = 0)) as [|Hne]; [done|].
    rewrite one_bits_peel in E; [done| |done]. unfold in_width in Hw. lia.
  - intros ->. by rewrite one_bits_0.
Qed.

Lemma flowmap_is_empty_spec (fm : flowmap) :
  flowmap_wf fm -> flowmap_is_empty fm = true <-> fm_indices fm = [].
Proof.
  intros H. rewrite fm_indices_units. change (seq 0 FLOWMAP_UNITS) with [0; 1]%nat.
  cbn [map concat]. rewrite app_nil_r.
  pose proof (flowmap_unit_zero fm 0 H) as H0. pose proof (flowmap_unit_zero fm 1 H) as H1.
  destruct H as [Hl _]. destruct fm as [|a [|b []]]; try done.
  unfold flowmap_is_empty. cbn [forallb nth] in *.
  rewrite app_nil, H0, H1, !andb_true_iff, !Z.eqb_eq. tauto.
Qed.

Lemma N_IDX_eq : N_IDX = 128%nat.
Proof. reflexivity. Qed.

Lemma fm_indices_filter (fm : flowmap) :
  fm_indices fm = List.filter (flowmap_is_set fm) (seq 0 N_IDX).
Proof. reflexivity. Qed.

#[global] Opaque N_IDX fm_indices FLOWMAP_FOR_EACH_INDEX FLOWMAP_FOR_EACH_MAP_INDEX.
