(* ===== verification/Hash.v ===== *)
(** * The hash functions behind the flow tables (lib/hash.h)

    lib/hash.h selects its [hash_add], [hash_add64] and [hash_finish] by the target of the
    compiler (ARM CRC32, SSE4.2 CRC32 or the portable Murmur hash).  The
    users of the hash are proved against the class [Hash], for any such set
    of functions; the portable variant is the instance used to run them. *)

From S2P Require Import Prelude.
From stdpp Require Import prelude list.
From Stdlib Require Import ZArith Lia.
Open Scope Z_scope.
Open Scope ovs_scope.

Class Hash := {
  hash_add : Z -> Z -> Z;
  hash_add64 : Z -> Z -> Z;
  hash_finish : Z -> Z -> Z
}.

(** ** The portable variant *)

Definition hash_rot (x k : Z) : Z := Z.lor (u32 (Z.shiftl x k)) (Z.shiftr x (32 - k)).

Definition mhash_add__ (hash data : Z) : Z :=
  if data =? 0 then hash
  else
    let data := u32 (data * 0xcc9e2d51) in
    let data := hash_rot data 15 in
    let data := u32 (data * 0x1b873593) in
    Z.lxor hash data.

Definition mhash_add (hash data : Z) : Z :=
  let hash := mhash_add__ hash data in
  let hash := hash_rot hash 13 in
  u32 (hash * 5 + 0xe6546b64).

Definition mhash_finish (hash : Z) : Z :=
  let hash := Z.lxor hash (Z.shiftr hash 16) in
  let hash := u32 (hash * 0x85ebca6b) in
  let hash := Z.lxor hash (Z.shiftr hash 13) in
  let hash := u32 (hash * 0xc2b2ae35) in
  Z.lxor hash (Z.shiftr hash 16).

(** [hash_add(hash, data)] on the low word, then on the high word. *)
Definition portable_hash_add64 (hash data : Z) : Z :=
  mhash_add (mhash_add hash (u32 data)) (u32 (Z.shiftr data 32)).

Definition portable_hash_finish (hash final : Z) : Z := mhash_finish (Z.lxor hash (u32 final)).

#[export] Instance portable_hash : Hash := {
  hash_add := mhash_add;
  hash_add64 := portable_hash_add64;
  hash_finish := portable_hash_finish
}.
