(* ===== verification/Miniflow.v ===== *)
(** * Flows, miniflows, minimasks and minimatches (lib/flow.h, lib/flow.c,
      lib/match.c, lib/classifier-private.h)

    [struct flow] is an array of [FLOW_U64S] 64-bit words; a miniflow keeps
    only the words its map names.  The model is the [WORDS_BIGENDIAN] build,
    in which [ntohl] is the identity: word [i] of a flow is the big-endian
    reading of its bytes [8*i .. 8*i+7].  The sparse operations are proved
    against the dense flow they stand for. *)

From S2P Require Import Prelude Util Flowmap Hash.
From stdpp Require Import prelude list.
From Stdlib Require Import ZArith Lia.
Open Scope Z_scope.
Open Scope ovs_scope.

(** ** Data *)

Abbreviation flow := (list Z).

Record miniflow := Miniflow {
  mf_map : flowmap;
  mf_values : list Z     (* the [uint64_t]s that follow the map in memory *)
}.

(** [struct minimask] is a [struct miniflow] whose values are never zero. *)
Abbreviation minimask := miniflow.

Record minimatch := Minimatch {
  mm_flow : miniflow;
  mm_mask : minimask
}.

(** [struct match] without the tunnel-metadata allocation. *)
Record match_ := Match { m_flow : flow; m_wc : flow }.

(** ** Operations on flows *)

Definition flow_u64_value (f : flow) (index : nat) : Z := nth index f 0.

(** The [ovs_be32] at offset [ofs] of a flow: [((ovs_be32 * ) flow)[ofs]]. *)
Definition flow_be32 (f : flow) (ofs : nat) : Z :=
  let value := flow_u64_value f (ofs / 2) in
  if Nat.odd ofs then u32 value else Z.shiftr value 32.

Definition flow_set_be32 (f : flow) (ofs : nat) (x : Z) : flow :=
  let value := flow_u64_value f (ofs / 2) in
  <[(ofs / 2)%nat :=
      if Nat.odd ofs then Z.lor (Z.shiftl (Z.shiftr value 32) 32) x
      else Z.lor (Z.shiftl x 32) (u32 value)]> f.

Definition flow_equal_except (a b wc : flow) : bool :=
  forallb (fun i => Z.land (Z.lxor (nth i a 0) (nth i b 0)) (nth i wc 0) =? 0) (seq 0 FLOW_U64S).

Definition flow_wildcards_init_catchall : flow := replicate FLOW_U64S 0.

Definition flow_wildcards_is_catchall (wc : flow) : bool :=
  forallb (fun i => nth i wc 0 =? 0) (seq 0 FLOW_U64S).

Definition flow_wildcards_and (src1 src2 : flow) : flow :=
  map (fun i => Z.land (nth i src1 0) (nth i src2 0)) (seq 0 FLOW_U64S).

Definition flow_wildcards_or (src1 src2 : flow) : flow :=
  map (fun i => Z.lor (nth i src1 0) (nth i src2 0)) (seq 0 FLOW_U64S).

Definition flow_wildcards_has_extra (a b : flow) : bool :=
  negb (forallb (fun i => Z.land (nth i a 0) (nth i b 0) =? nth i b 0) (seq 0 FLOW_U64S)).

(** ** Operations on miniflows *)

Definition miniflow_n_values (mf : miniflow) : nat := Z.to_nat (flowmap_n_1bits (mf_map mf)).

(** Offset in [values] of the word [idx] of the first map unit. *)
Definition miniflow_values_get__ (map : Z) (idx : nat) : nat :=
  Z.to_nat (count_1bits (Z.land map (n_bits_mask idx))).

(** The loop of [miniflow_get__]; [values] is the offset reached so far. *)
Fixpoint miniflow_get_loop (fuel : nat) (map : list Z) (idx values : nat) : nat :=
  match fuel with
  | O => values
  | S fuel =>
      if (MAP_T_BITS <=? idx)%nat
      then miniflow_get_loop fuel (tl map) (idx - MAP_T_BITS)
             (values + Z.to_nat (count_1bits (hd 0 map)))
      else (values + miniflow_values_get__ (hd 0%Z map) idx)%nat
  end.

(** [miniflow_get__]: the position in [values] of the word [idx]. *)
Definition miniflow_get__ (mf : miniflow) (idx : nat) : nat :=
  miniflow_get_loop FLOWMAP_UNITS (mf_map mf) idx 0.

Definition miniflow_get (mf : miniflow) (idx : nat) : Z :=
  if flowmap_is_set (mf_map mf) idx then nth (miniflow_get__ mf idx) (mf_values mf) 0 else 0.

Definition miniflow_get_be32 (mf : miniflow) (ofs : nat) : Z :=
  let value := miniflow_get mf (ofs / 2) in
  if Nat.odd ofs then u32 value else Z.shiftr value 32.

(** [offsetof(struct flow, tp_src) / 4]: [tp_src] and [tp_dst] are one
    [ovs_be32]. *)
Definition TP_PORTS_OFS32 : nat := 164.

Definition miniflow_get_ports (mf : miniflow) : Z := miniflow_get_be32 mf TP_PORTS_OFS32.

Definition miniflow_map_init (src : flow) : flowmap :=
  foldl (fun fm i => if flow_u64_value src i =? 0 then fm else flowmap_set fm i 1)
    flowmap_init (seq 0 FLOW_U64S).

(** [miniflow_init]: the map of [dst] is computed by the caller. *)
Definition miniflow_init (map : flowmap) (src : flow) : miniflow :=
  Miniflow map (List.map (flow_u64_value src) (FLOWMAP_FOR_EACH_INDEX map)).

Definition miniflow_create (src : flow) : miniflow := miniflow_init (miniflow_map_init src) src.

Definition miniflow_clone (src : miniflow) (n_values : nat) : miniflow :=
  Miniflow (mf_map src) (firstn n_values (mf_values src)).

(** [dst_u64[idx] |= *p++] for each index of the subset. *)
Definition flow_union_with_miniflow_subset (dst : flow) (src : miniflow) (subset : flowmap) : flow :=
  fst (foldl (fun st idx =>
                let '(dst, p) := st in
                (<[idx := Z.lor (nth idx dst 0) (hd 0 p)]> dst, tl p))
         (dst, mf_values src) (FLOWMAP_FOR_EACH_MAP_INDEX subset)).

Definition flow_union_with_miniflow (dst : flow) (src : miniflow) : flow :=
  flow_union_with_miniflow_subset dst src (mf_map src).

Definition miniflow_expand (src : miniflow) : flow :=
  flow_union_with_miniflow (replicate FLOW_U64S 0) src.

(** The loop of [miniflow_equal] over the union of the two maps. *)
Fixpoint miniflow_equal_loop (a b : miniflow) (idxs : list nat) (ap bp : list Z) : bool :=
  match idxs with
  | [] => true
  | idx :: idxs =>
      let '(x, ap) := if flowmap_is_set (mf_map a) idx then (hd 0 ap, tl ap) else (0, ap) in
      let '(y, bp) := if flowmap_is_set (mf_map b) idx then (hd 0 bp, tl bp) else (0, bp) in
      if x =? y then miniflow_equal_loop a b idxs ap bp else false
  end.

Definition miniflow_equal (a b : miniflow) : bool :=
  if flowmap_equal (mf_map a) (mf_map b)
  then bool_decide (firstn (miniflow_n_values a) (mf_values a) =
                    firstn (miniflow_n_values a) (mf_values b))
  else miniflow_equal_loop a b
         (FLOWMAP_FOR_EACH_INDEX (flowmap_or (mf_map a) (mf_map b)))
         (mf_values a) (mf_values b).

(** A loop over the indices of a mask that consumes the mask's values. *)
Fixpoint forall_in_mask (P : nat -> Z -> bool) (idxs : list nat) (p : list Z) : bool :=
  match idxs with
  | [] => true
  | idx :: idxs => P idx (hd 0 p) && forall_in_mask P idxs (tl p)
  end.

Definition miniflow_equal_in_minimask (a b : miniflow) (mask : minimask) : bool :=
  forall_in_mask (fun idx p => Z.land (Z.lxor (miniflow_get a idx) (miniflow_get b idx)) p =? 0)
    (FLOWMAP_FOR_EACH_INDEX (mf_map mask)) (mf_values mask).

Definition miniflow_equal_flow_in_minimask (a : miniflow) (b : flow) (mask : minimask) : bool :=
  forall_in_mask (fun idx p => Z.land (Z.lxor (miniflow_get a idx) (flow_u64_value b idx)) p =? 0)
    (FLOWMAP_FOR_EACH_INDEX (mf_map mask)) (mf_values mask).

(** ** Operations on minimasks *)

Definition minimask_create (wc : flow) : minimask := miniflow_create wc.

Definition minimask_expand (mask : minimask) : flow := miniflow_expand mask.

Definition minimask_is_catchall (mask : minimask) : bool := flowmap_is_empty (mf_map mask).

Definition minimask_combine (a b : minimask) : minimask :=
  foldl (fun dst idx =>
           let mask := Z.land (nth (miniflow_get__ a idx) (mf_values a) 0)
                         (nth (miniflow_get__ b idx) (mf_values b) 0) in
           if mask =? 0 then dst
           else Miniflow (flowmap_set (mf_map dst) idx 1) (mf_values dst ++ [mask]))
    (Miniflow flowmap_init []) (FLOWMAP_FOR_EACH_INDEX (flowmap_and (mf_map a) (mf_map b))).

Definition minimask_equal (a b : minimask) : bool :=
  flowmap_equal (mf_map a) (mf_map b) &&
  bool_decide (firstn (miniflow_n_values a) (mf_values a) =
               firstn (miniflow_n_values a) (mf_values b)).

Definition minimask_has_extra (a b : minimask) : bool :=
  negb (forall_in_mask (fun idx b_u64 =>
          flowmap_is_set (mf_map a) idx &&
          (Z.land (nth (miniflow_get__ a idx) (mf_values a) 0) b_u64 =? b_u64))
          (FLOWMAP_FOR_EACH_INDEX (mf_map b)) (mf_values b)).

(** ** Operations on minimatches *)

Definition minimatch_init (src : match_) : minimatch :=
  let tmp := miniflow_map_init (m_wc src) in
  Minimatch (miniflow_init tmp (m_flow src)) (miniflow_init tmp (m_wc src)).

Definition minimatch_expand (src : minimatch) : match_ :=
  Match (miniflow_expand (mm_flow src)) (minimask_expand (mm_mask src)).

Definition minimatch_equal (a b : minimatch) : bool :=
  minimask_equal (mm_mask a) (mm_mask b) && miniflow_equal (mm_flow a) (mm_flow b).

(** [minimatch_get_ports] (lib/classifier.c). *)
Definition minimatch_get_ports (match_ : minimatch) : Z :=
  Z.land (miniflow_get_ports (mm_flow match_)) (miniflow_get_ports (mm_mask match_)).

(** [miniflow_and_mask_matches_flow] (lib/classifier.c): [flow] and [mask] have
    the same map. *)
Fixpoint mask_matches_loop (target : flow) (idxs : list nat) (flowp maskp : list Z) : bool :=
  match idxs with
  | [] => true
  | idx :: idxs =>
      if negb (Z.land (Z.lxor (hd 0 flowp) (nth idx target 0)) (hd 0 maskp) =? 0) then false
      else mask_matches_loop target idxs (tl flowp) (tl maskp)
  end.

Definition miniflow_and_mask_matches_flow (f : miniflow) (mask : minimask) (target : flow) : bool :=
  mask_matches_loop target (FLOWMAP_FOR_EACH_MAP_INDEX (mf_map mask)) (mf_values f) (mf_values mask).

(** ** Hashing (lib/classifier-private.h) *)

Section Hashing.
Context `{Hash}.

(** [hash_add64] over the words at [idxs], each masked by the next mask word;
    [p] is the position in [mask_values] of the next one. *)
Fixpoint hash_masked (f : flow) (mask_values : list Z) (idxs : list nat) (p : nat) (hash : Z)
  : Z * nat :=
  match idxs with
  | [] => (hash, p)
  | idx :: idxs =>
      hash_masked f mask_values idxs (S p)
        (hash_add64 hash (Z.land (nth idx f 0) (nth p mask_values 0)))
  end.

Definition flow_hash_in_minimask (f : flow) (mask : minimask) (basis : Z) : Z :=
  let '(hash, p) :=
    hash_masked f (mf_values mask) (FLOWMAP_FOR_EACH_MAP_INDEX (mf_map mask)) 0 basis in
  hash_finish hash (Z.of_nat p * 8).

(** [struct mf_for_each_in_map_aux]; [aux_values] is what is left of the values. *)
Record mf_for_each_in_map_aux := MfAux {
  aux_unit : nat;
  aux_fmap : flowmap;
  aux_map : flowmap;
  aux_values : list Z
}.

(** The "skip empty map units" loop. *)
Fixpoint mf_skip_empty_units (fuel : nat) (aux : mf_for_each_in_map_aux)
  : option mf_for_each_in_map_aux :=
  match fuel with
  | O => None
  | S fuel =>
      if nth (aux_unit aux) (aux_map aux) 0 =? 0 then
        let values := skipn (Z.to_nat (count_1bits (nth (aux_unit aux) (aux_fmap aux) 0)))
                        (aux_values aux) in
        let unit := S (aux_unit aux) in
        if (unit =? FLOWMAP_UNITS)%nat then None
        else mf_skip_empty_units fuel (MfAux unit (aux_fmap aux) (aux_map aux) values)
      else Some aux
  end.

Definition mf_get_next_in_map (aux : mf_for_each_in_map_aux)
  : option (Z * mf_for_each_in_map_aux) :=
  match mf_skip_empty_units FLOWMAP_UNITS aux with
  | None => None
  | Some aux =>
      let unit := aux_unit aux in
      let m := nth unit (aux_map aux) 0 in
      let rm1bit := rightmost_1bit m in
      let map := <[unit := m - rm1bit]> (aux_map aux) in
      let f := nth unit (aux_fmap aux) 0 in
      if negb (Z.land f rm1bit =? 0) then
        let trash := Z.land f (rm1bit - 1) in
        let fmap := <[unit := f - trash]> (aux_fmap aux) in
        let values := skipn (Z.to_nat (count_1bits trash)) (aux_values aux) in
        Some (hd 0 values, MfAux unit fmap map values)
      else Some (0, MfAux unit (aux_fmap aux) map (aux_values aux))
  end.

Fixpoint mf_for_each (fuel : nat) (aux : mf_for_each_in_map_aux) : list Z :=
  match fuel with
  | O => []
  | S fuel =>
      match mf_get_next_in_map aux with
      | Some (value, aux) => value :: mf_for_each fuel aux
      | None => []
      end
  end.

(** [MINIFLOW_FOR_EACH_IN_FLOWMAP]: the values visited. *)
Definition MINIFLOW_FOR_EACH_IN_FLOWMAP (mf : miniflow) (fm : flowmap) : list Z :=
  mf_for_each (FLOWMAP_UNITS * MAP_T_BITS + 1) (MfAux 0 (mf_map mf) fm (mf_values mf)).

Fixpoint hash_masked_values (vs mask_values : list Z) (p : nat) (hash : Z) : Z * nat :=
  match vs with
  | [] => (hash, p)
  | value :: vs =>
      hash_masked_values vs mask_values (S p)
        (hash_add64 hash (Z.land value (nth p mask_values 0)))
  end.

Definition miniflow_hash_in_minimask (f : miniflow) (mask : minimask) (basis : Z) : Z :=
  let '(hash, p) :=
    hash_masked_values (MINIFLOW_FOR_EACH_IN_FLOWMAP f (mf_map mask)) (mf_values mask) 0 basis in
  hash_finish hash (Z.of_nat p * 8).

(** [flow_hash_in_minimask_range]: returns the hash, [*offset] and [*basis]. *)
Definition flow_hash_in_minimask_range (f : flow) (mask : minimask) (range : flowmap)
    (offset : nat) (basis : Z) : Z * nat * Z :=
  let '(hash, p) :=
    hash_masked f (mf_values mask) (FLOWMAP_FOR_EACH_MAP_INDEX range) offset basis in
  (hash_finish hash (Z.of_nat p * 8), p, hash).

(** [minimatch_hash_range]: returns the hash, [*offset] and [*basis]. *)
Definition minimatch_hash_range (match_ : minimatch) (range : flowmap)
    (offset : nat) (basis : Z) : Z * nat * Z :=
  let p := skipn offset (mf_values (mm_flow match_)) in
  let q := skipn offset (mf_values (mm_mask match_)) in
  let n := Z.to_nat (flowmap_n_1bits range) in
  let hash := foldl (fun hash i => hash_add64 hash (Z.land (nth i p 0) (nth i q 0)))
                basis (seq 0 n) in
  (hash_finish hash (Z.of_nat (offset + n) * 8), (offset + n)%nat, hash).

Definition minimask_hash (mask : minimask) (basis : Z) : Z :=
  let hash := foldl hash_add64 basis (firstn (miniflow_n_values mask) (mf_values mask)) in
  let hash := foldl hash_add64 hash (mf_map mask) in
  hash_finish hash (Z.of_nat (miniflow_n_values mask)).

End Hashing.

Definition flow_wildcards_fold_minimask (wc : flow) (mask : minimask) : flow :=
  flow_union_with_miniflow wc mask.

Definition flow_wildcards_fold_minimask_in_map (wc : flow) (mask : minimask) (fmap : flowmap) : flow :=
  flow_union_with_miniflow_subset wc mask fmap.

(** ** Well-formedness *)

(** A flow is [FLOW_U64S] words. *)
Definition flow_wf (f : flow) : Prop := length f = FLOW_U64S /\ Forall (in_width 64) f.

(** The map names only words of [struct flow], and there is a value for each. *)
Record miniflow_wf (mf : miniflow) : Prop := {
  mwf_map : flowmap_wf (mf_map mf);
  mwf_bound : forall i, (i < N_IDX)%nat -> flowmap_is_set (mf_map mf) i = true -> (i < FLOW_U64S)%nat;
  mwf_length : length (mf_values mf) = length (fm_indices (mf_map mf));
  mwf_width : Forall (in_width 64) (mf_values mf)
}.

(** A minimask never has a zero value for a 1-bit of its map. *)
Record minimask_wf (mask : minimask) : Prop := {
  kwf_mf : miniflow_wf mask;
  kwf_nonzero : Forall (fun x => x <> 0) (mf_values mask)
}.

(** The two halves of a minimatch share one map. *)
Record minimatch_wf (m : minimatch) : Prop := {
  mmwf_flow : miniflow_wf (mm_flow m);
  mmwf_mask : minimask_wf (mm_mask m);
  mmwf_map : mf_map (mm_flow m) = mf_map (mm_mask m)
}.

#[export] Hint Resolve mwf_map kwf_mf mmwf_flow mmwf_mask : ovs.

(** ** The position of a value *)

(** [rank p i]: the number of elements below [i] that satisfy [p]. *)
Definition rank (p : nat -> bool) (i : nat) : nat := length (List.filter p (seq 0 i)).

Lemma rank_nth (p : nat -> bool) (n k : nat) :
  (k < rank p n)%nat -> rank p (nth k (List.filter p (seq 0 n)) 0%nat) = k.
Proof.
  unfold rank. induction n as [|n IH]; intros Hk; [simpl in Hk; lia|].
  rewrite seq_S, List.filter_app in Hk |- *. simpl in Hk |- *.
  destruct (p n) eqn:Hp; [|rewrite app_nil_r in Hk |- *; by apply IH].
  rewrite length_app in Hk. simpl in Hk.
  destruct (decide (k < length (List.filter p (seq 0 n)))%nat).
  - rewrite app_nth1 by done. by apply IH.
  - rewrite app_nth2 by lia.
    replace (k - length (List.filter p (seq 0 n)))%nat with 0%nat by lia. simpl. lia.
Qed.

Lemma rank_mono (p : nat -> bool) (i n : nat) :
  (i < n)%nat -> p i = true -> (rank p i < rank p n)%nat.
Proof.
  intros Hi Hp. unfold rank. replace n with (i + S (n - S i))%nat by lia.
  rewrite seq_app, List.filter_app, length_app. simpl. rewrite Hp. simpl. lia.
Qed.

Lemma nth_rank (p : nat -> bool) (n i : nat) :
  (i < n)%nat -> p i = true -> nth (rank p i) (List.filter p (seq 0 n)) 0%nat = i.
Proof.
  intros Hi Hp. unfold rank. replace n with (i + S (n - S i))%nat by lia.
  rewrite seq_app, List.filter_app, app_nth2 by lia.
  rewrite Nat.sub_diag. simpl. by rewrite Hp.
Qed.

(** The bits below [j] of a word. *)
Lemma one_bits_low (x : Z) (j : nat) :
  in_width 64 x -> (j < 64)%nat ->
  length (one_bits (Z.land x (n_bits_mask j)) 64) = rank (fun i => Z.testbit x (Z.of_nat i)) j.
Proof.
  intros Hx Hj. rewrite one_bits_filter. unfold rank.
  replace 64%nat with (j + (64 - j))%nat by lia.
  rewrite seq_app, List.filter_app, length_app.
  rewrite (filter_nil_in _ (seq (0 + j) _)).
  - simpl. rewrite Nat.add_0_r. f_equal. apply filter_ext_in. intros i Hi%in_seq.
    rewrite n_bits_mask_ones, Z.land_spec, testbit_ones by lia.
    destruct (Z.ltb_spec (Z.of_nat i) (Z.of_nat j)); [apply andb_true_r|lia].
  - intros i Hi%in_seq. rewrite n_bits_mask_ones, Z.land_spec, testbit_ones by lia.
    destruct (Z.ltb_spec (Z.of_nat i) (Z.of_nat j)); [lia|apply andb_false_r].
Qed.

Lemma rank_unit (fm : flowmap) (u j : nat) :
  (j <= MAP_T_BITS)%nat ->
  length (List.filter (flowmap_is_set fm) (seq (u * MAP_T_BITS) j)) =
  rank (fun i => Z.testbit (nth u fm 0) (Z.of_nat i)) j.
Proof.
  intros Hj. unfold rank.
  rewrite <- (Nat.add_0_r (u * MAP_T_BITS)) at 1. rewrite <- seq_add_map, filter_map_swap, length_map.
  f_equal. apply filter_ext_in. intros i Hi%in_seq. rewrite flowmap_is_set_testbit.
  replace (u * MAP_T_BITS + i)%nat with (i + u * MAP_T_BITS)%nat by lia.
  rewrite Nat.div_add, Nat.Div0.mod_add, Nat.div_small, Nat.mod_small by lia. done.
Qed.

Lemma rank_unit0 (a : Z) (fm : flowmap) (j : nat) :
  (j <= MAP_T_BITS)%nat ->
  rank (flowmap_is_set (a :: fm)) j = rank (fun i => Z.testbit a (Z.of_nat i)) j.
Proof. intros Hj. pose proof (rank_unit (a :: fm) 0 j Hj) as E. by rewrite Nat.mul_0_l in E. Qed.

Lemma rank_split (p : nat -> bool) (n k : nat) :
  rank p (n + k) = (rank p n + length (List.filter p (seq n k)))%nat.
Proof. unfold rank. by rewrite seq_app, List.filter_app, length_app. Qed.

Lemma miniflow_get_loop_S (fuel : nat) (m : list Z) (idx values : nat) :
  miniflow_get_loop (S fuel) m idx values =
  if (MAP_T_BITS <=? idx)%nat
  then miniflow_get_loop fuel (tl m) (idx - MAP_T_BITS) (values + Z.to_nat (count_1bits (hd 0 m)))
  else (values + miniflow_values_get__ (hd 0%Z m) idx)%nat.
Proof. done. Qed.

(** [miniflow_get__] finds the position of a word by counting map bits. *)
Lemma miniflow_get__rank (mf : miniflow) (idx : nat) :
  flowmap_wf (mf_map mf) -> (idx < N_IDX)%nat ->
  miniflow_get__ mf idx = rank (flowmap_is_set (mf_map mf)) idx.
Proof.
  intros Hwf Hi. destruct mf as [fm vs]. unfold miniflow_get__. cbn [mf_map] in *.
  pose proof (flowmap_unit_width fm 0 Hwf) as W0. pose proof (flowmap_unit_width fm 1 Hwf) as W1.
  destruct Hwf as [Hl _]. change FLOWMAP_UNITS with 2%nat in Hl |- *.
  destruct fm as [|a [|b []]]; try (simpl in Hl; lia).
  rewrite !miniflow_get_loop_S. cbn [hd tl].
  assert (forall x j, in_width 64 x -> (j < 64)%nat ->
            miniflow_values_get__ x j = rank (fun i => Z.testbit x (Z.of_nat i)) j) as Hv.
  { intros x j Hx Hj. unfold miniflow_values_get__. rewrite count_1bits_spec, Nat2Z.id.
    - by apply one_bits_low.
    - apply in_width_land; [lia|done|]. unfold n_bits_mask. apply wrap_width. lia. }
  rewrite N_IDX_eq in Hi.
  destruct (Nat.leb_spec MAP_T_BITS idx).
  - destruct (Nat.leb_spec MAP_T_BITS (idx - MAP_T_BITS)); [lia|].
    rewrite Hv by (done || lia). rewrite count_1bits_spec, Nat2Z.id, one_bits_filter by done.
    assert (rank (flowmap_is_set [a; b]) idx =
            rank (flowmap_is_set [a; b]) MAP_T_BITS +
            length (List.filter (flowmap_is_set [a; b]) (seq (1 * MAP_T_BITS) (idx - MAP_T_BITS))))%nat
      as -> by (rewrite <- rank_split; f_equal; lia).
    rewrite (rank_unit [a; b] 1), rank_unit0, Nat.add_0_l by lia.
    unfold rank. cbn [nth]. reflexivity.
  - by rewrite Hv, rank_unit0 by (done || lia).
Qed.

(** The values of a miniflow are its words in the order of the map. *)
Lemma mf_values_get (mf : miniflow) :
  flowmap_wf (mf_map mf) -> length (mf_values mf) = length (fm_indices (mf_map mf)) ->
  mf_values mf = map (miniflow_get mf) (fm_indices (mf_map mf)).
Proof.
  intros Hwf Hl. apply (nth_ext _ _ 0 0); [by rewrite length_map|].
  intros k Hk. rewrite (nth_indep (map _ _) 0 (miniflow_get mf 0)) by (rewrite length_map; lia).
  rewrite map_nth. rewrite Hl in Hk.
  pose proof (nth_In _ 0%nat Hk) as [Hi Hs]%fm_indices_In. unfold miniflow_get.
  rewrite Hs, miniflow_get__rank by done.
  rewrite fm_indices_filter in Hk |- *. rewrite rank_nth; [reflexivity|exact Hk].
Qed.

Lemma mf_values_wf (mf : miniflow) :
  miniflow_wf mf -> mf_values mf = map (miniflow_get mf) (fm_indices (mf_map mf)).
Proof. intros H. apply mf_values_get; [apply (mwf_map mf H)|apply (mwf_length mf H)]. Qed.

Lemma miniflow_get_set (mf : miniflow) (i : nat) :
  flowmap_is_set (mf_map mf) i = true ->
  nth (miniflow_get__ mf i) (mf_values mf) 0 = miniflow_get mf i.
Proof. unfold miniflow_get. by intros ->. Qed.

Lemma miniflow_get_unset (mf : miniflow) (i : nat) :
  flowmap_is_set (mf_map mf) i = false -> miniflow_get mf i = 0.
Proof. unfold miniflow_get. by intros ->. Qed.

Lemma miniflow_get_width (mf : miniflow) (i : nat) :
  miniflow_wf mf -> in_width 64 (miniflow_get mf i).
Proof.
  intros H. unfold miniflow_get. destruct (flowmap_is_set _ _); [|unfold in_width; lia].
  apply nth_Forall; [apply H|unfold in_width; lia].
Qed.

(** ** Expanding into a flow *)

Lemma fm_indices_NoDup (fm : flowmap) : List.NoDup (fm_indices fm).
Proof. rewrite fm_indices_filter. apply List.NoDup_filter, seq_NoDup. Qed.

Lemma flowmap_is_set_out (fm : flowmap) (i : nat) :
  flowmap_wf fm -> (N_IDX <= i)%nat -> flowmap_is_set fm i = false.
Proof.
  intros [Hl _] Hi. rewrite flowmap_is_set_testbit, nth_overflow; [apply Z.bits_0|].
  rewrite Hl. change FLOWMAP_UNITS with 2%nat. rewrite N_IDX_eq in Hi.
  apply Nat.div_le_lower_bound; lia.
Qed.

Lemma fm_indices_is_set (fm : flowmap) (i : nat) :
  flowmap_wf fm -> In i (fm_indices fm) <-> flowmap_is_set fm i = true.
Proof.
  intros H. rewrite fm_indices_In. split; [by intros []|]. intros Hs. split; [|done].
  destruct (decide (i < N_IDX)%nat); [done|]. rewrite flowmap_is_set_out in Hs; [done|done|lia].
Qed.

Lemma wf_set_bound (mf : miniflow) (i : nat) :
  miniflow_wf mf -> flowmap_is_set (mf_map mf) i = true -> (i < FLOW_U64S)%nat.
Proof.
  intros H Hs. apply (mwf_bound mf H); [|done].
  by apply (fm_indices_is_set _ _ (mwf_map mf H)), fm_indices_In in Hs as [Hi _].
Qed.

(** The loop that folds values into the words at [idxs]. *)
Lemma union_loop (g : nat -> Z) (idxs : list nat) (dst rest : list Z) :
  List.NoDup idxs -> (forall i, In i idxs -> (i < length dst)%nat) ->
  let r := fst (foldl (fun st idx =>
                  let '(dst, p) := st in
                  (<[idx := Z.lor (nth idx dst 0) (hd 0 p)]> dst, tl p))
             (dst, map g idxs ++ rest) idxs) in
  length r = length dst /\
  forall i, nth i r 0 = if existsb (Nat.eqb i) idxs then Z.lor (nth i dst 0) (g i) else nth i dst 0.
Proof.
  intros Hnd. revert dst. induction Hnd as [|x idxs Hx Hnd IH]; intros dst Hlt; [done|].
  cbn [map app foldl hd tl].
  destruct (IH (<[x := Z.lor (nth x dst 0) (g x)]> dst)) as [Hl H].
  { intros i Hi. rewrite length_insert. apply Hlt. by right. }
  split; [by rewrite Hl, length_insert|]. intros i. rewrite H. cbn [existsb].
  destruct (Nat.eqb_spec i x) as [->|Hne]; simpl.
  - rewrite nth_insert_eq by (apply Hlt; by left).
    destruct (existsb (Nat.eqb x) idxs) eqn:E; [|done].
    apply existsb_exists in E as (y & Hy & ->%Nat.eqb_eq). done.
  - by rewrite nth_insert_ne by done.
Qed.

(** [sub] is the part of [fm] below some index. *)
Definition flowmap_prefix (sub fm : flowmap) : Prop :=
  exists rest, fm_indices fm = fm_indices sub ++ rest.

Lemma flowmap_prefix_refl (fm : flowmap) : flowmap_prefix fm fm.
Proof. exists []. by rewrite app_nil_r. Qed.

Lemma existsb_fm_indices (fm : flowmap) (i : nat) :
  flowmap_wf fm -> existsb (Nat.eqb i) (fm_indices fm) = flowmap_is_set fm i.
Proof.
  intros H. apply eq_true_iff_eq. rewrite existsb_exists, <- fm_indices_is_set by done. split.
  - by intros (x & Hx & ->%Nat.eqb_eq).
  - intros Hi. exists i. by rewrite Nat.eqb_refl.
Qed.

(** Folding the part of a mask below some index into [dst]: bitwise or of those words. *)
Lemma union_subset_nth (dst : flow) (src : miniflow) (sub : flowmap) (i : nat) :
  length dst = FLOW_U64S -> miniflow_wf src -> flowmap_wf sub -> flowmap_prefix sub (mf_map src) ->
  nth i (flow_union_with_miniflow_subset dst src sub) 0 =
  if flowmap_is_set sub i then Z.lor (nth i dst 0) (miniflow_get src i) else nth i dst 0.
Proof.
  intros Hd Hwf Hsub [rest Hrest]. unfold flow_union_with_miniflow_subset.
  rewrite FLOWMAP_FOR_EACH_MAP_INDEX_spec by done.
  rewrite (mf_values_wf src), Hrest, map_app by done.
  destruct (union_loop (miniflow_get src) (fm_indices sub) dst (map (miniflow_get src) rest)) as [_ H].
  - apply fm_indices_NoDup.
  - intros j Hj. rewrite Hd. apply (wf_set_bound src); [done|].
    apply fm_indices_is_set; [apply Hwf|]. rewrite Hrest. apply in_or_app. by left.
  - by rewrite H, existsb_fm_indices.
Qed.

Lemma union_subset_length (dst : flow) (src : miniflow) (sub : flowmap) :
  length (flow_union_with_miniflow_subset dst src sub) = length dst.
Proof.
  unfold flow_union_with_miniflow_subset. generalize (mf_values src) as p.
  generalize (FLOWMAP_FOR_EACH_MAP_INDEX sub) as idxs. intros idxs. revert dst.
  induction idxs as [|x idxs IH]; intros dst p; [done|]. cbn [foldl]. rewrite IH. apply length_insert.
Qed.

Lemma union_nth (dst : flow) (src : miniflow) (i : nat) :
  length dst = FLOW_U64S -> miniflow_wf src ->
  nth i (flow_union_with_miniflow dst src) 0 = Z.lor (nth i dst 0) (miniflow_get src i).
Proof.
  intros Hd Hwf. unfold flow_union_with_miniflow.
  rewrite union_subset_nth; [|done|done|apply Hwf|apply flowmap_prefix_refl].
  destruct (flowmap_is_set (mf_map src) i) eqn:E; [done|].
  by rewrite miniflow_get_unset, Z.lor_0_r.
Qed.

Lemma nth_replicate_0 (n i : nat) : nth i (replicate n 0) 0 = 0.
Proof. revert i. induction n as [|n IH]; intros [|i]; simpl; auto. Qed.

(** The expanded flow has at each index the word [miniflow_get] gives. *)
Lemma expand_nth (mf : miniflow) (i : nat) :
  miniflow_wf mf -> nth i (miniflow_expand mf) 0 = miniflow_get mf i.
Proof.
  intros H. unfold miniflow_expand. rewrite union_nth by done.
  by rewrite nth_replicate_0.
Qed.

Lemma expand_length (mf : miniflow) : length (miniflow_expand mf) = FLOW_U64S.
Proof. apply union_subset_length. Qed.

Lemma expand_wf (mf : miniflow) : miniflow_wf mf -> flow_wf (miniflow_expand mf).
Proof.
  intros H. split; [apply expand_length|]. apply Forall_forall. intros x [i [Hi <-]]%list_elem_of_In%(In_nth _ _ 0).
  rewrite expand_nth by done. by apply miniflow_get_width.
Qed.

(** Equal words make equal flows. *)
Lemma flow_ext (a b : flow) :
  length a = FLOW_U64S -> length b = FLOW_U64S ->
  (forall i, (i < FLOW_U64S)%nat -> nth i a 0 = nth i b 0) -> a = b.
Proof.
  intros Ha Hb H. apply nth_ext_Z; [congruence|]. intros i.
  destruct (decide (i < FLOW_U64S)%nat); [by apply H|]. by rewrite !nth_overflow by lia.
Qed.

(** ** Building miniflows *)

Lemma miniflow_get_build (m : flowmap) (vs : list Z) (g : nat -> Z) (i : nat) :
  flowmap_wf m -> vs = map g (fm_indices m) ->
  miniflow_get (Miniflow m vs) i = if flowmap_is_set m i then g i else 0.
Proof.
  intros Hwf Hvs. destruct (flowmap_is_set m i) eqn:E; [|by apply miniflow_get_unset].
  pose proof (mf_values_get (Miniflow m vs) Hwf) as H. cbn [mf_map mf_values] in H.
  rewrite Hvs in H at 1 2. rewrite length_map in H. specialize (H eq_refl).
  symmetry. apply (proj1 map_ext_in_iff H). by apply fm_indices_is_set.
Qed.

Lemma miniflow_init_values (m : flowmap) (f : flow) :
  flowmap_wf m -> mf_values (miniflow_init m f) = map (flow_u64_value f) (fm_indices m).
Proof. intros H. cbn [miniflow_init mf_values]. by rewrite FLOWMAP_FOR_EACH_INDEX_spec. Qed.

Lemma miniflow_init_get (m : flowmap) (f : flow) (i : nat) :
  flowmap_wf m ->
  miniflow_get (miniflow_init m f) i = if flowmap_is_set m i then nth i f 0 else 0.
Proof.
  intros H. unfold miniflow_init. apply (miniflow_get_build m _ (flow_u64_value f)); [done|].
  by rewrite FLOWMAP_FOR_EACH_INDEX_spec.
Qed.

Lemma miniflow_init_wf (m : flowmap) (f : flow) :
  flowmap_wf m -> (forall i, (i < N_IDX)%nat -> flowmap_is_set m i = true -> (i < FLOW_U64S)%nat) ->
  Forall (in_width 64) f -> miniflow_wf (miniflow_init m f).
Proof.
  intros Hm Hb Hf. split; cbn [miniflow_init mf_map mf_values]; [done|done| |].
  - by rewrite length_map, FLOWMAP_FOR_EACH_INDEX_spec.
  - apply Forall_map, Forall_forall. intros i _. apply (nth_Forall (in_width 64) f i); [done|]. unfold in_width. lia.
Qed.

Lemma map_init_loop (f : flow) (n : nat) :
  (n <= FLOW_U64S)%nat ->
  let m := foldl (fun fm i => if flow_u64_value f i =? 0 then fm else flowmap_set fm i 1)
             flowmap_init (seq 0 n) in
  flowmap_wf m /\
  forall j, (j < N_IDX)%nat -> flowmap_is_set m j = (j <? n)%nat && negb (nth j f 0 =? 0).
Proof.
  induction n as [|n IH]; intros Hn.
  - split; [apply flowmap_init_wf|]. intros j _. by rewrite flowmap_init_is_set.
  - rewrite seq_S, foldl_app. cbn [foldl plus]. destruct IH as [Hwf H]; [lia|].
    set (m := foldl _ _ _) in *. unfold flow_u64_value. unfold FLOW_U64S in Hn.
    split; [destruct (_ =? 0); [done|apply flowmap_set_wf; [lia|done]]|].
    intros j Hj. destruct (Z.eqb_spec (nth n f 0) 0) as [E|E].
    + rewrite H by done. destruct (Nat.ltb_spec j n), (Nat.ltb_spec j (S n)); try lia.
      assert (j = n) as -> by lia. by rewrite E.
    + rewrite flowmap_set_is_set, H by (rewrite ?N_IDX_eq; done || lia).
      destruct (Nat.ltb_spec j n), (Nat.ltb_spec j (S n)), (Nat.leb_spec n j), (Nat.ltb_spec j (n + 1));
        try lia; simpl; rewrite ?orb_false_r; try done.
      assert (j = n) as -> by lia. destruct (Z.eqb_spec (nth n f 0) 0); done.
Qed.

Lemma miniflow_map_init_wf (f : flow) : flowmap_wf (miniflow_map_init f).
Proof. apply (map_init_loop f FLOW_U64S). lia. Qed.

Lemma miniflow_map_init_is_set (f : flow) (j : nat) :
  (j < N_IDX)%nat ->
  flowmap_is_set (miniflow_map_init f) j = (j <? FLOW_U64S)%nat && negb (nth j f 0 =? 0).
Proof. apply (map_init_loop f FLOW_U64S). lia. Qed.

#[global] Opaque miniflow_map_init.

Lemma miniflow_map_init_bound (f : flow) (j : nat) :
  (j < N_IDX)%nat -> flowmap_is_set (miniflow_map_init f) j = true -> (j < FLOW_U64S)%nat.
Proof. intros Hj. rewrite miniflow_map_init_is_set by done. by intros [?%Nat.ltb_lt _]%andb_prop. Qed.

Lemma miniflow_create_wf (f : flow) : flow_wf f -> miniflow_wf (miniflow_create f).
Proof.
  intros [_ Hf]. apply miniflow_init_wf; [apply miniflow_map_init_wf|apply miniflow_map_init_bound|done].
Qed.

Lemma FLOW_U64S_N_IDX (i : nat) : (i < FLOW_U64S)%nat -> (i < N_IDX)%nat.
Proof. rewrite N_IDX_eq. unfold FLOW_U64S. lia. Qed.

Lemma miniflow_create_get (f : flow) (i : nat) :
  (i < FLOW_U64S)%nat -> miniflow_get (miniflow_create f) i = nth i f 0.
Proof.
  intros Hi. unfold miniflow_create. rewrite miniflow_init_get by apply miniflow_map_init_wf.
  rewrite miniflow_map_init_is_set by by apply FLOW_U64S_N_IDX.
  destruct (Nat.ltb_spec i FLOW_U64S); [|lia].
  destruct (Z.eqb_spec (nth i f 0) 0) as [->|]; done.
Qed.

(** A mask built from a flow has no zero value. *)
Lemma minimask_create_wf (wc : flow) : flow_wf wc -> minimask_wf (minimask_create wc).
Proof.
  intros H. split; [by apply miniflow_create_wf|].
  unfold minimask_create, miniflow_create.
  rewrite miniflow_init_values by apply miniflow_map_init_wf.
  apply Forall_forall. intros x Hx%list_elem_of_In.
  apply in_map_iff in Hx as (i & <- & [Hi Hs]%fm_indices_In).
  rewrite miniflow_map_init_is_set in Hs by done.
  apply andb_prop in Hs as [_ Hs]. unfold flow_u64_value. by destruct (Z.eqb_spec (nth i wc 0) 0).
Qed.

(** ** Loops over a mask *)

Lemma forall_in_mask_map (P : nat -> Z -> bool) (g : nat -> Z) (idxs : list nat) :
  forall_in_mask P idxs (map g idxs) = forallb (fun i => P i (g i)) idxs.
Proof. induction idxs as [|i idxs IH]; [done|]. cbn. by rewrite IH. Qed.

(** A word outside the mask satisfies a condition that holds of a zero mask, so
    a loop over the mask is a loop over the whole flow. *)
Lemma forallb_mask (P : nat -> Z -> bool) (mask : miniflow) :
  miniflow_wf mask -> (forall i, P i 0 = true) ->
  forallb (fun i => P i (miniflow_get mask i)) (fm_indices (mf_map mask)) =
  forallb (fun i => P i (miniflow_get mask i)) (seq 0 FLOW_U64S).
Proof.
  intros Hwf H0. apply eq_true_iff_eq. rewrite !forallb_forall. split; intros H i Hi.
  - destruct (flowmap_is_set (mf_map mask) i) eqn:E.
    + apply H, fm_indices_is_set; [apply Hwf|done].
    + by rewrite miniflow_get_unset.
  - apply H, in_seq. split; [lia|]. apply (wf_set_bound mask); [done|].
    by apply fm_indices_is_set; [apply Hwf|].
Qed.

Lemma forall_in_mask_spec (P : nat -> Z -> bool) (mask : miniflow) :
  miniflow_wf mask -> (forall i, P i 0 = true) ->
  forall_in_mask P (FLOWMAP_FOR_EACH_INDEX (mf_map mask)) (mf_values mask) =
  forallb (fun i => P i (miniflow_get mask i)) (seq 0 FLOW_U64S).
Proof.
  intros Hwf H0. rewrite FLOWMAP_FOR_EACH_INDEX_spec by apply Hwf.
  rewrite (mf_values_wf mask) by done. rewrite forall_in_mask_map. by apply forallb_mask.
Qed.

Lemma forallb_seq_ext (P Q : nat -> bool) (n : nat) :
  (forall i, (i < n)%nat -> P i = Q i) -> forallb P (seq 0 n) = forallb Q (seq 0 n).
Proof.
  intros H. apply eq_true_iff_eq. rewrite !forallb_forall.
  split; intros Hp i Hi; pose proof (proj1 (in_seq _ _ _) Hi); [rewrite <- H by lia|rewrite H by lia]; auto.
Qed.

Lemma forallb_seq (P : nat -> bool) (n : nat) :
  forallb P (seq 0 n) = true <-> forall i, (i < n)%nat -> P i = true.
Proof.
  rewrite forallb_forall. split; intros H i Hi; apply H; [apply in_seq; lia|].
  apply in_seq in Hi. lia.
Qed.

Lemma equal_in_minimask_spec (a b : miniflow) (mask : minimask) :
  miniflow_wf a -> miniflow_wf b -> miniflow_wf mask ->
  miniflow_equal_in_minimask a b mask =
  flow_equal_except (miniflow_expand a) (miniflow_expand b) (miniflow_expand mask).
Proof.
  intros Ha Hb Hm. unfold miniflow_equal_in_minimask, flow_equal_except.
  rewrite forall_in_mask_spec by (done || intros; by rewrite Z.land_0_r).
  apply forallb_seq_ext. intros i _. by rewrite !expand_nth.
Qed.

Lemma equal_flow_in_minimask_spec (a : miniflow) (b : flow) (mask : minimask) :
  miniflow_wf a -> miniflow_wf mask ->
  miniflow_equal_flow_in_minimask a b mask =
  flow_equal_except (miniflow_expand a) b (miniflow_expand mask).
Proof.
  intros Ha Hm. unfold miniflow_equal_flow_in_minimask, flow_equal_except.
  rewrite forall_in_mask_spec by (done || intros; by rewrite Z.land_0_r).
  apply forallb_seq_ext. intros i _. by rewrite !expand_nth.
Qed.

Lemma mask_matches_loop_map (target : flow) (g h : nat -> Z) (idxs : list nat) :
  mask_matches_loop target idxs (map g idxs) (map h idxs) =
  forallb (fun i => Z.land (Z.lxor (g i) (nth i target 0)) (h i) =? 0) idxs.
Proof.
  induction idxs as [|i idxs IH]; [done|]. cbn [mask_matches_loop map hd tl forallb].
  rewrite IH. by destruct (_ =? 0).
Qed.

(** The match test of the classifier against the dense comparison. *)
Lemma mask_matches_flow_spec (m : minimatch) (target : flow) :
  minimatch_wf m ->
  miniflow_and_mask_matches_flow (mm_flow m) (mm_mask m) target =
  flow_equal_except (miniflow_expand (mm_flow m)) target (miniflow_expand (mm_mask m)).
Proof.
  intros [Hf [Hm _] He]. unfold miniflow_and_mask_matches_flow, flow_equal_except.
  rewrite FLOWMAP_FOR_EACH_MAP_INDEX_spec by apply Hm.
  rewrite (mf_values_wf (mm_flow m)), (mf_values_wf (mm_mask m)), He by done.
  rewrite mask_matches_loop_map.
  rewrite (forallb_mask (fun i h => Z.land (Z.lxor (miniflow_get (mm_flow m) i) (nth i target 0)) h =? 0))
    by (done || intros; by rewrite Z.land_0_r).
  apply forallb_seq_ext. intros i _. by rewrite !expand_nth.
Qed.

(** ** Equality *)

Lemma firstn_values (mf : miniflow) :
  miniflow_wf mf -> firstn (miniflow_n_values mf) (mf_values mf) = mf_values mf.
Proof.
  intros H. apply firstn_all2. unfold miniflow_n_values.
  rewrite flowmap_n_1bits_spec, Nat2Z.id, (mwf_length mf H) by apply H. done.
Qed.

(** A well-formed miniflow is its map and the words it names. *)
Lemma miniflow_ext (a b : miniflow) :
  miniflow_wf a -> miniflow_wf b -> mf_map a = mf_map b ->
  mf_values a = mf_values b <-> (forall i, miniflow_get a i = miniflow_get b i).
Proof.
  intros Ha Hb He. split.
  - intros Hv i. destruct a, b. simpl in *. by subst.
  - intros H. rewrite (mf_values_wf a), (mf_values_wf b), He by done.
    apply map_ext. done.
Qed.

Lemma equal_loop_map (a b : miniflow) (g h : nat -> Z) (idxs : list nat) :
  (forall i, flowmap_is_set (mf_map a) i = false -> g i = 0) ->
  (forall i, flowmap_is_set (mf_map b) i = false -> h i = 0) ->
  miniflow_equal_loop a b idxs
    (map g (List.filter (flowmap_is_set (mf_map a)) idxs))
    (map h (List.filter (flowmap_is_set (mf_map b)) idxs)) =
  forallb (fun i => g i =? h i) idxs.
Proof.
  intros Hg Hh. induction idxs as [|i idxs IH]; [done|].
  cbn [miniflow_equal_loop List.filter forallb].
  destruct (flowmap_is_set (mf_map a) i) eqn:Ea, (flowmap_is_set (mf_map b) i) eqn:Eb;
    cbn [map hd tl]; rewrite IH; rewrite ?(Hg i Ea), ?(Hh i Eb); by destruct (_ =? _).
Qed.

Lemma filter_fm_indices (p : nat -> bool) (fm : flowmap) :
  List.filter p (fm_indices fm) = List.filter (fun i => flowmap_is_set fm i && p i) (seq 0 N_IDX).
Proof.
  rewrite fm_indices_filter. induction (seq 0 N_IDX) as [|i l IH]; [done|]. simpl.
  destruct (flowmap_is_set fm i); simpl; [destruct (p i)|]; rewrite IH; done.
Qed.

Lemma miniflow_equal_loop_spec (a b : miniflow) :
  miniflow_wf a -> miniflow_wf b ->
  miniflow_equal_loop a b (FLOWMAP_FOR_EACH_INDEX (flowmap_or (mf_map a) (mf_map b)))
    (mf_values a) (mf_values b) = true <->
  (forall i, miniflow_get a i = miniflow_get b i).
Proof.
  intros Ha Hb. rewrite FLOWMAP_FOR_EACH_INDEX_spec by (apply flowmap_or_wf; [apply Ha|apply Hb]).
  assert (forall x, x = mf_map a \/ x = mf_map b ->
    fm_indices x = List.filter (flowmap_is_set x) (fm_indices (flowmap_or (mf_map a) (mf_map b)))) as Hx.
  { intros x Hx. rewrite filter_fm_indices, fm_indices_filter. apply filter_ext_in. intros i [_ Hi]%in_seq.
    rewrite flowmap_or_is_set by done.
    by destruct Hx as [-> | ->], (flowmap_is_set (mf_map a) i), (flowmap_is_set (mf_map b) i). }
  rewrite (mf_values_wf a), (mf_values_wf b) by done.
  rewrite (Hx (mf_map a)), (Hx (mf_map b)) by auto.
  rewrite equal_loop_map by (apply miniflow_get_unset). rewrite forallb_forall. split.
  - intros H i. destruct (decide (i < N_IDX)%nat) as [Hi|Hi].
    + destruct (flowmap_is_set (mf_map a) i || flowmap_is_set (mf_map b) i) eqn:E.
      * apply Z.eqb_eq, H, fm_indices_In. by rewrite flowmap_or_is_set.
      * apply orb_false_elim in E as [? ?]. by rewrite !miniflow_get_unset.
    + rewrite !miniflow_get_unset; [done|apply flowmap_is_set_out..]; (apply Ha || apply Hb || lia).
  - intros H i _. by rewrite H, Z.eqb_refl.
Qed.

Lemma expand_eq (a b : miniflow) :
  miniflow_wf a -> miniflow_wf b ->
  miniflow_expand a = miniflow_expand b <-> (forall i, miniflow_get a i = miniflow_get b i).
Proof.
  intros Ha Hb. split.
  - intros H i. by rewrite <- !expand_nth, H.
  - intros H. apply flow_ext; [apply expand_length..|]. intros i _. by rewrite !expand_nth.
Qed.

Lemma miniflow_equal_get (a b : miniflow) :
  miniflow_wf a -> miniflow_wf b ->
  miniflow_equal a b = true <-> (forall i, miniflow_get a i = miniflow_get b i).
Proof.
  intros Ha Hb. unfold miniflow_equal, flowmap_equal.
  case_bool_decide as He; [|by apply miniflow_equal_loop_spec].
  assert (miniflow_n_values a = miniflow_n_values b) as Hn by (unfold miniflow_n_values; by rewrite He).
  rewrite bool_decide_eq_true. rewrite Hn at 2. rewrite !firstn_values by done. by apply miniflow_ext.
Qed.

(** In a minimask the map is the set of words that are not zero. *)
Lemma minimask_is_set (m : minimask) (i : nat) :
  minimask_wf m -> flowmap_is_set (mf_map m) i = negb (miniflow_get m i =? 0).
Proof.
  intros [Hm Hnz]. destruct (flowmap_is_set (mf_map m) i) eqn:E; [|by rewrite miniflow_get_unset].
  destruct (Z.eqb_spec (miniflow_get m i) 0) as [H0|]; [|done]. exfalso.
  rewrite Forall_forall in Hnz. apply (Hnz (miniflow_get m i)); [|done].
  apply list_elem_of_In. rewrite (mf_values_wf m) by done. apply in_map.
  by apply fm_indices_is_set; [apply Hm|].
Qed.

(** A map is determined by its set of indices. *)
Lemma flowmap_ext (a b : flowmap) :
  flowmap_wf a -> flowmap_wf b ->
  (forall i, (i < N_IDX)%nat -> flowmap_is_set a i = flowmap_is_set b i) -> a = b.
Proof.
  intros Ha Hb H. apply nth_ext_Z; [by rewrite (proj1 Ha), (proj1 Hb)|]. intros u.
  destruct (decide (u < 2)%nat) as [Hu|Hu]; [|rewrite !nth_overflow; [done|rewrite (proj1 Hb)|rewrite (proj1 Ha)]; change FLOWMAP_UNITS with 2%nat; lia].
  apply Z.bits_inj'. intros j Hj. destruct (Z.lt_ge_cases j 64) as [Hlt|Hge].
  - specialize (H (u * MAP_T_BITS + Z.to_nat j)%nat). rewrite N_IDX_eq in H.
    rewrite !flowmap_is_set_testbit in H.
    rewrite Nat.add_comm, Nat.div_add, Nat.Div0.mod_add, Nat.div_small, Nat.mod_small, Z2Nat.id in H by lia.
    apply H. lia.
  - by rewrite !(in_width_high 64) by (done || by apply flowmap_unit_width).
Qed.

Lemma minimask_equal_get (a b : minimask) :
  minimask_wf a -> minimask_wf b ->
  minimask_equal a b = true <-> (forall i, miniflow_get a i = miniflow_get b i).
Proof.
  intros Ha Hb. unfold minimask_equal, flowmap_equal. rewrite andb_true_iff, !bool_decide_eq_true. split.
  - intros [He Hv]. assert (miniflow_n_values a = miniflow_n_values b) as Hn
      by (unfold miniflow_n_values; by rewrite He).
    rewrite Hn in Hv at 2. rewrite !firstn_values in Hv by eauto with ovs.
    by apply miniflow_ext; [apply Ha|apply Hb|..].
  - intros H. assert (mf_map a = mf_map b) as He.
    { apply flowmap_ext; [apply Ha|apply Hb|]. intros i _. by rewrite !minimask_is_set, H. }
    split; [done|]. f_equal. apply miniflow_ext; eauto with ovs.
Qed.

(** ** Combining masks *)

Section Combine.
Context (a b : minimask).

Let g (i : nat) : Z :=
  Z.land (nth (miniflow_get__ a i) (mf_values a) 0) (nth (miniflow_get__ b i) (mf_values b) 0).
Let keep (i : nat) : bool := negb (g i =? 0).
Let step (dst : minimask) (idx : nat) : minimask :=
  if g idx =? 0 then dst
  else Miniflow (flowmap_set (mf_map dst) idx 1) (mf_values dst ++ [g idx]).

Lemma combine_loop (idxs : list nat) :
  (forall i, In i idxs -> (i < N_IDX)%nat) ->
  let r := foldl step (Miniflow flowmap_init []) idxs in
  flowmap_wf (mf_map r) /\ mf_values r = map g (List.filter keep idxs) /\
  forall j, (j < N_IDX)%nat -> flowmap_is_set (mf_map r) j = existsb (Nat.eqb j) (List.filter keep idxs).
Proof.
  induction idxs as [|i idxs IH] using rev_ind; intros Hlt.
  - split_and!; [apply flowmap_init_wf|done|]. intros j _. apply flowmap_init_is_set.
  - rewrite foldl_app. cbn [foldl]. destruct IH as (Hwf & Hv & Hs).
    { intros j Hj. apply Hlt, in_or_app. by left. }
    set (r := foldl step _ idxs) in *. unfold step. rewrite List.filter_app. cbn [List.filter].
    unfold keep at 2 4. destruct (Z.eqb_spec (g i) 0) as [E|E]; cbn [negb mf_map mf_values].
    + by rewrite app_nil_r.
    + specialize (Hlt i ltac:(apply in_or_app; right; by left)).
      split_and!; [apply flowmap_set_wf; [lia|done]|by rewrite Hv, map_app|].
      intros j Hj. rewrite flowmap_set_is_set, Hs, existsb_app by (done || lia). f_equal. cbn [existsb].
      destruct (Nat.leb_spec i j), (Nat.ltb_spec j (i + 1)), (Nat.eqb_spec j i); lia.
Qed.

Lemma combine_result :
  minimask_wf a -> minimask_wf b ->
  let r := minimask_combine a b in
  flowmap_wf (mf_map r) /\ mf_values r = map g (fm_indices (mf_map r)) /\
  forall j, (j < N_IDX)%nat ->
    flowmap_is_set (mf_map r) j = flowmap_is_set (mf_map a) j && flowmap_is_set (mf_map b) j && keep j.
Proof.
  intros Ha Hb. assert (flowmap_wf (flowmap_and (mf_map a) (mf_map b))) as Hand
    by (apply flowmap_and_wf; eauto with ovs).
  assert (minimask_combine a b =
          foldl step (Miniflow flowmap_init []) (fm_indices (flowmap_and (mf_map a) (mf_map b)))) as ->
    by (by unfold minimask_combine; rewrite FLOWMAP_FOR_EACH_INDEX_spec).
  destruct (combine_loop (fm_indices (flowmap_and (mf_map a) (mf_map b)))) as (Hwf & Hv & Hs).
  { by intros i [Hi _]%fm_indices_In. }
  set (r := foldl step _ _) in *. cbn zeta.
  assert (forall j, (j < N_IDX)%nat -> flowmap_is_set (mf_map r) j =
            flowmap_is_set (flowmap_and (mf_map a) (mf_map b)) j && keep j) as Hs'.
  { intros j Hj. rewrite Hs by done. apply eq_true_iff_eq.
    rewrite existsb_exists, andb_true_iff. setoid_rewrite filter_In. setoid_rewrite fm_indices_In. split.
    - by intros (x & [[_ ?] ?] & ->%Nat.eqb_eq).
    - intros [? ?]. exists j. by rewrite Nat.eqb_refl. }
  split_and!; [done| |intros j Hj; by rewrite Hs', flowmap_and_is_set].
  rewrite Hv. f_equal. rewrite filter_fm_indices, (fm_indices_filter (mf_map r)). apply filter_ext_in.
  intros j [_ Hj]%in_seq. by rewrite Hs'.
Qed.

Lemma combine_g (j : nat) :
  flowmap_is_set (mf_map a) j && flowmap_is_set (mf_map b) j = true ->
  g j = Z.land (miniflow_get a j) (miniflow_get b j).
Proof. intros [? ?]%andb_prop. unfold g. by rewrite !miniflow_get_set. Qed.

Lemma combine_get (i : nat) :
  minimask_wf a -> minimask_wf b ->
  miniflow_get (minimask_combine a b) i = Z.land (miniflow_get a i) (miniflow_get b i).
Proof.
  intros Ha Hb. destruct (combine_result Ha Hb) as (Hwf & Hv & Hs).
  destruct (minimask_combine a b) as [m vs]. cbn [mf_map mf_values] in *.
  rewrite (miniflow_get_build m vs g) by done.
  destruct (decide (i < N_IDX)%nat) as [Hi|Hi].
  - rewrite Hs by done. unfold keep.
    destruct (flowmap_is_set (mf_map a) i && flowmap_is_set (mf_map b) i) eqn:E; cbn [andb].
    + rewrite <- combine_g by done. by destruct (Z.eqb_spec (g i) 0) as [-> |].
    + apply andb_false_iff in E as [E|E]; rewrite (miniflow_get_unset _ _ E); [done|by rewrite Z.land_0_r].
  - rewrite !flowmap_is_set_out by (done || lia).
    by rewrite (miniflow_get_unset a) by (apply flowmap_is_set_out; [eauto with ovs|lia]).
Qed.

Lemma combine_wf : minimask_wf a -> minimask_wf b -> minimask_wf (minimask_combine a b).
Proof.
  intros Ha Hb. destruct (combine_result Ha Hb) as (Hwf & Hv & Hs).
  assert (forall i, In i (fm_indices (mf_map (minimask_combine a b))) ->
            flowmap_is_set (mf_map a) i && flowmap_is_set (mf_map b) i = true /\ keep i = true) as Hin.
  { intros i [Hi Hi']%fm_indices_In. rewrite Hs in Hi' by done. by apply andb_prop. }
  split; [split|].
  - done.
  - intros i Hi Hi'. destruct (Hin i) as [[? _]%andb_prop _]; [by apply fm_indices_In|].
    apply (wf_set_bound a); eauto with ovs.
  - by rewrite Hv, length_map.
  - rewrite Hv. apply Forall_map, Forall_forall. intros i [Hi _]%list_elem_of_In%Hin.
    rewrite combine_g by done. apply in_width_land; [lia|apply miniflow_get_width; eauto with ovs..].
  - rewrite Hv. apply Forall_map, Forall_forall. intros i [_ Hk]%list_elem_of_In%Hin.
    unfold keep in Hk. by destruct (Z.eqb_spec (g i) 0).
Qed.

End Combine.

(** [minimask_has_extra] against the dense test. *)
Lemma minimask_has_extra_get (a b : minimask) :
  minimask_wf a -> minimask_wf b ->
  minimask_has_extra a b = false <->
  (forall i, Z.land (miniflow_get a i) (miniflow_get b i) = miniflow_get b i).
Proof.
  intros Ha Hb. unfold minimask_has_extra. rewrite negb_false_iff.
  rewrite FLOWMAP_FOR_EACH_INDEX_spec, (mf_values_wf b), forall_in_mask_map, forallb_forall by eauto with ovs.
  split.
  - intros H i. destruct (flowmap_is_set (mf_map b) i) eqn:E;
      [|by rewrite (miniflow_get_unset b), Z.land_0_r].
    specialize (H i). rewrite fm_indices_is_set in H by eauto with ovs.
    specialize (H E). apply andb_prop in H as [Hs H].
    rewrite miniflow_get_set in H by done. by apply Z.eqb_eq.
  - intros H i Hi. apply fm_indices_is_set in Hi; [|eauto with ovs].
    specialize (H i). rewrite minimask_is_set in Hi by done.
    assert (flowmap_is_set (mf_map a) i = true) as Hs.
    { destruct (flowmap_is_set (mf_map a) i) eqn:E; [done|].
      rewrite (miniflow_get_unset a), Z.land_0_l in H by done. by rewrite <- H in Hi. }
    rewrite Hs, miniflow_get_set, H by done. by rewrite Z.eqb_refl.
Qed.

(** ** Minimatches *)

Lemma minimatch_init_wf (m : match_) :
  flow_wf (m_flow m) -> flow_wf (m_wc m) -> minimatch_wf (minimatch_init m).
Proof.
  intros [_ Hf] Hw. split; cbn [minimatch_init mm_flow mm_mask].
  - apply miniflow_init_wf; [apply miniflow_map_init_wf|apply miniflow_map_init_bound|done].
  - by apply minimask_create_wf.
  - cbn [miniflow_init mf_map]. reflexivity.
Qed.

Lemma minimatch_init_get (m : match_) (i : nat) :
  (i < FLOW_U64S)%nat ->
  miniflow_get (mm_mask (minimatch_init m)) i = nth i (m_wc m) 0 /\
  miniflow_get (mm_flow (minimatch_init m)) i =
  if nth i (m_wc m) 0 =? 0 then 0 else nth i (m_flow m) 0.
Proof.
  intros Hi. split; [by apply miniflow_create_get|].
  cbn [minimatch_init mm_flow]. rewrite miniflow_init_get by apply miniflow_map_init_wf.
  rewrite miniflow_map_init_is_set by by apply FLOW_U64S_N_IDX.
  destruct (Nat.ltb_spec i FLOW_U64S); [|lia]. by destruct (_ =? 0).
Qed.

(** ** Hashes *)

Section HashSpec.
Context `{Hash}.

(** The unfinished hash of the masked words [idxs], the specification of all
    the hash functions of this file. *)
Definition masked_hash (f mask : nat -> Z) (idxs : list nat) (basis : Z) : Z :=
  foldl (fun hash i => hash_add64 hash (Z.land (f i) (mask i))) basis idxs.

(** [range] is a run of the words of [mask] that starts at value [offset]. *)
Definition in_segment (mask : minimask) (range : flowmap) (offset : nat) : Prop :=
  exists pre rest, fm_indices (mf_map mask) = pre ++ fm_indices range ++ rest /\ length pre = offset.

Lemma in_segment_all (mask : minimask) : in_segment mask (mf_map mask) 0.
Proof. exists [], []. by rewrite app_nil_r. Qed.

Lemma nth_app_map (g : nat -> Z) (pre rest : list Z) (x : nat) (l : list nat) (p : nat) :
  length pre = p -> nth p (pre ++ map g (x :: l) ++ rest) 0 = g x.
Proof. intros <-. rewrite app_nth2, Nat.sub_diag by lia. done. Qed.

Lemma app_map_shift (g : nat -> Z) (pre rest : list Z) (x : nat) (l : list nat) :
  pre ++ map g (x :: l) ++ rest = (pre ++ [g x]) ++ map g l ++ rest.
Proof. by rewrite <- app_assoc. Qed.

Lemma hash_masked_map (f : flow) (g : nat -> Z) (idxs : list nat) (pre rest : list Z) (p : nat) (h : Z) :
  length pre = p ->
  hash_masked f (pre ++ map g idxs ++ rest) idxs p h =
  (masked_hash (fun i => nth i f 0) g idxs h, (p + length idxs)%nat).
Proof.
  revert pre p h. induction idxs as [|x idxs IH]; intros pre p h Hp.
  - cbn. by rewrite Nat.add_0_r.
  - cbn [hash_masked length]. rewrite nth_app_map, app_map_shift, IH by
      (try rewrite length_app; simpl; lia || done). unfold masked_hash. cbn [foldl]. f_equal. lia.
Qed.

Lemma hash_masked_values_map (f g : nat -> Z) (idxs : list nat) (pre rest : list Z) (p : nat) (h : Z) :
  length pre = p ->
  hash_masked_values (map f idxs) (pre ++ map g idxs ++ rest) p h =
  (masked_hash f g idxs h, (p + length idxs)%nat).
Proof.
  revert pre p h. induction idxs as [|x idxs IH]; intros pre p h Hp.
  - cbn. by rewrite Nat.add_0_r.
  - cbn [hash_masked_values map length]. change (g x :: map g idxs) with (map g (x :: idxs)).
    rewrite nth_app_map, app_map_shift, IH by
      (try rewrite length_app; simpl; lia || done). unfold masked_hash. cbn [foldl]. f_equal. lia.
Qed.

Lemma foldl_masked_map (f g : nat -> Z) (idxs : list nat) (r1 r2 : list Z) (h : Z) :
  foldl (fun hash i => hash_add64 hash
           (Z.land (nth i (map f idxs ++ r1) 0) (nth i (map g idxs ++ r2) 0))) h (seq 0 (length idxs)) =
  masked_hash f g idxs h.
Proof.
  unfold masked_hash. revert h. induction idxs as [|x idxs IH]; intros h; [done|].
  cbn [length seq foldl map app nth]. rewrite <- IH. rewrite <- seq_shift, foldl_map. done.
Qed.

Lemma masked_hash_ext (f f' g : nat -> Z) (idxs : list nat) (h : Z) :
  (forall i, In i idxs -> Z.land (f i) (g i) = Z.land (f' i) (g i)) ->
  masked_hash f g idxs h = masked_hash f' g idxs h.
Proof.
  unfold masked_hash. revert h. induction idxs as [|x idxs IH]; intros h Hx; [done|].
  cbn [foldl]. rewrite (Hx x) by (by left). apply IH. intros i Hi. apply Hx. by right.
Qed.

Lemma flow_hash_range_spec (f : flow) (mask : minimask) (range : flowmap) (offset : nat) (basis : Z) :
  miniflow_wf mask -> flowmap_wf range -> in_segment mask range offset ->
  flow_hash_in_minimask_range f mask range offset basis =
  let hash := masked_hash (fun i => nth i f 0) (miniflow_get mask) (fm_indices range) basis in
  let offset := (offset + length (fm_indices range))%nat in
  (hash_finish hash (Z.of_nat offset * 8), offset, hash).
Proof.
  intros Hm Hr (pre & rest & Hs & <-). unfold flow_hash_in_minimask_range.
  rewrite FLOWMAP_FOR_EACH_MAP_INDEX_spec, (mf_values_wf mask), Hs, !map_app by done.
  by rewrite hash_masked_map by apply length_map.
Qed.

Lemma flow_hash_in_minimask_spec (f : flow) (mask : minimask) (basis : Z) :
  miniflow_wf mask ->
  flow_hash_in_minimask f mask basis =
  hash_finish (masked_hash (fun i => nth i f 0) (miniflow_get mask) (fm_indices (mf_map mask)) basis)
    (Z.of_nat (length (fm_indices (mf_map mask))) * 8).
Proof.
  intros Hm. pose proof (flow_hash_range_spec f mask (mf_map mask) 0 basis Hm (mwf_map _ Hm)
    (in_segment_all mask)) as E. unfold flow_hash_in_minimask_range in E. unfold flow_hash_in_minimask.
  destruct (hash_masked _ _ _ _ _) as [h p]. cbn zeta in E.
  rewrite Nat.add_0_l in E. congruence.
Qed.

Lemma skipn_map_app (g : nat -> Z) (pre : list nat) (k : list Z) :
  skipn (length pre) (map g pre ++ k) = k.
Proof. rewrite <- (length_map g pre), skipn_app, skipn_all, Nat.sub_diag. done. Qed.

Lemma minimatch_hash_range_spec (m : minimatch) (range : flowmap) (offset : nat) (basis : Z) :
  minimatch_wf m -> flowmap_wf range -> in_segment (mm_mask m) range offset ->
  minimatch_hash_range m range offset basis =
  let hash := masked_hash (miniflow_get (mm_flow m)) (miniflow_get (mm_mask m)) (fm_indices range) basis in
  let offset := (offset + length (fm_indices range))%nat in
  (hash_finish hash (Z.of_nat offset * 8), offset, hash).
Proof.
  intros [Hf [Hm _] He] Hr (pre & rest & Hs & <-). unfold minimatch_hash_range.
  rewrite flowmap_n_1bits_spec, Nat2Z.id by done.
  rewrite (mf_values_wf (mm_flow m)), (mf_values_wf (mm_mask m)), He, Hs, !map_app by done.
  by rewrite !skipn_map_app, foldl_masked_map.
Qed.

End HashSpec.

(** ** Iterating over the words of a map *)

Lemma rightmost_1bit_pow2 (x l : Z) :
  in_width 64 x -> lowest_bit x l -> rightmost_1bit x = 2 ^ l.
Proof.
  intros Hx Hl. pose proof (lowest_bit_width _ _ _ Hx Hl) as Hl64. pose proof (proj1 Hl).
  apply Z.bits_inj'. intros i Hi. unfold rightmost_1bit.
  rewrite Z.land_spec, wrap_testbit, testbit_pow2 by lia.
  replace (- x) with (Z.lnot (x - 1)) by (unfold Z.lnot; lia). rewrite Z.lnot_spec by done.
  destruct (Z.lt_ge_cases i l).
  - destruct Hl as (_ & _ & ->); [|done]. zcmp.
  - rewrite (testbit_pred_lowest x l i) by done. destruct (Z.eqb_spec i l) as [->|].
    + destruct (Z.ltb_spec l 64); [|lia]. destruct Hl as (_ & -> & _). done.
    + destruct (Z.testbit x i), (i <? 64); done.
Qed.

Lemma sub_rightmost_1bit (x : Z) :
  0 < x -> in_width 64 x -> x - rightmost_1bit x = zero_rightmost_1bit x.
Proof.
  intros Hpos Hx. pose proof (raw_ctz_lowest x Hpos Hx) as Hl. pose proof (proj1 Hl).
  rewrite (rightmost_1bit_pow2 x _ Hx Hl).
  rewrite Z.sub_nocarry_ldiff.
  - apply Z.bits_inj'. intros i Hi. rewrite (zero_rightmost_1bit_testbit x _ i Hx Hl Hi).
    by rewrite Z.ldiff_spec, testbit_pow2.
  - apply Z.bits_inj'. intros i Hi. rewrite Z.ldiff_spec, testbit_pow2, Z.bits_0 by done.
    destruct (Z.eqb_spec i (raw_ctz x)) as [->|]; [|done]. destruct Hl as (_ & -> & _). done.
Qed.

(** Dropping the bits below [l] of a word drops a prefix of its 1-bits. *)
Lemma one_bits_trash (x : Z) (l : nat) :
  in_width 64 x -> (l < 64)%nat ->
  let trash := Z.land x (2 ^ Z.of_nat l - 1) in
  one_bits x 64 = one_bits trash 64 ++ one_bits (x - trash) 64 /\
  in_width 64 (x - trash) /\
  forall i, 0 <= i -> Z.testbit (x - trash) i = (Z.of_nat l <=? i) && Z.testbit x i.
Proof.
  intros Hx Hl trash. assert (2 ^ Z.of_nat l - 1 = Z.ones (Z.of_nat l)) as E
    by (rewrite Z.ones_equiv; lia).
  assert (forall i, 0 <= i -> Z.testbit trash i = Z.testbit x i && (i <? Z.of_nat l)) as Ht.
  { intros i Hi. unfold trash. rewrite E, Z.land_spec, testbit_ones by lia. done. }
  assert (x - trash = Z.ldiff x trash) as Hsub.
  { apply Z.sub_nocarry_ldiff. apply Z.bits_inj'. intros i Hi. rewrite Z.ldiff_spec, Ht, Z.bits_0 by done.
    by destruct (Z.testbit x i), (i <? Z.of_nat l). }
  assert (forall i, 0 <= i -> Z.testbit (x - trash) i = (Z.of_nat l <=? i) && Z.testbit x i) as Hd.
  { intros i Hi. rewrite Hsub, Z.ldiff_spec, Ht by done.
    destruct (Z.testbit x i), (Z.ltb_spec i (Z.of_nat l)), (Z.leb_spec (Z.of_nat l) i); (done || lia). }
  split_and!; [|apply in_width_bits; [lia|]; split|done].
  - rewrite !one_bits_filter. replace 64%nat with (l + (64 - l))%nat by lia.
    rewrite !seq_app, !List.filter_app.
    rewrite (filter_nil_in (fun i => Z.testbit trash _) (seq (0 + l) _)), app_nil_r;
      [|intros i Hi%in_seq; rewrite Ht by lia; destruct (Z.testbit x _); zcmp; done].
    rewrite (filter_nil_in (fun i => Z.testbit (x - trash) _) (seq 0 l)), app_nil_l;
      [|intros i Hi%in_seq; rewrite Hd by lia; zcmp; done].
    f_equal; apply filter_ext_in; intros i Hi%in_seq; [rewrite Ht by lia|rewrite Hd by lia].
    + destruct (Z.ltb_spec (Z.of_nat i) (Z.of_nat l)); [by rewrite andb_true_r|lia].
    + destruct (Z.leb_spec (Z.of_nat l) (Z.of_nat i)); [done|lia].
  - rewrite Hsub. apply Z.ldiff_nonneg. left. apply Hx.
  - intros i Hi. rewrite Hd, (in_width_high 64 x) by (done || lia). apply andb_false_r.
Qed.

(** What [struct mf_for_each_in_map_aux] means: [values] are the values of the
    words left in [fmap], and [fmap] is still complete where [map] has a bit. *)
Record mf_inv (mf : miniflow) (aux : mf_for_each_in_map_aux) : Prop := {
  mi_fmap : flowmap_wf (aux_fmap aux);
  mi_map : flowmap_wf (aux_map aux);
  mi_unit : (aux_unit aux < FLOWMAP_UNITS)%nat;
  mi_values : aux_values aux = map (miniflow_get mf) (rest_indices (aux_unit aux, aux_fmap aux));
  mi_is_set : forall i, In i (rest_indices (aux_unit aux, aux_map aux)) ->
    flowmap_is_set (aux_fmap aux) i = flowmap_is_set (mf_map mf) i
}.

Lemma rest_indices_end (fm : flowmap) : rest_indices (FLOWMAP_UNITS, fm) = [].
Proof. unfold rest_indices. cbn [fst]. by rewrite Nat.sub_diag. Qed.

Lemma length_unit_indices (fm : flowmap) (u : nat) :
  flowmap_wf fm -> length (unit_indices fm u) = Z.to_nat (count_1bits (nth u fm 0)).
Proof.
  intros H. unfold unit_indices.
  by rewrite length_map, count_1bits_spec, Nat2Z.id by by apply flowmap_unit_width.
Qed.

Lemma mf_skip_spec (mf : miniflow) (fuel : nat) (aux : mf_for_each_in_map_aux) :
  mf_inv mf aux -> (FLOWMAP_UNITS - aux_unit aux <= fuel)%nat ->
  match mf_skip_empty_units fuel aux with
  | Some aux' =>
      mf_inv mf aux' /\ nth (aux_unit aux') (aux_map aux') 0 <> 0 /\
      rest_indices (aux_unit aux', aux_map aux') = rest_indices (aux_unit aux, aux_map aux)
  | None => rest_indices (aux_unit aux, aux_map aux) = []
  end.
Proof.
  revert aux. induction fuel as [|fuel IH]; intros aux Hinv Hf; pose proof (mi_unit mf aux Hinv) as Hu; [lia|].
  destruct aux as [u fm m vs]. destruct Hinv as [Hfm Hm _ Hv Hs]. cbn [aux_unit aux_fmap aux_map aux_values] in *.
  cbn [mf_skip_empty_units aux_unit aux_fmap aux_map aux_values].
  destruct (Z.eqb_spec (nth u m 0) 0) as [E|E]; [|split_and!; [split|..]; done].
  assert (rest_indices (u, m) = rest_indices (S u, m)) as Hr.
  { rewrite rest_indices_cons by done. by rewrite (proj2 (flowmap_unit_zero m u Hm) E). }
  destruct (Nat.eqb_spec (S u) FLOWMAP_UNITS) as [Eu|Eu].
  - by rewrite Hr, Eu, rest_indices_end.
  - rewrite Hr. apply IH; [|cbn; lia]. split; cbn [aux_unit aux_fmap aux_map aux_values]; [done|done|lia| |].
    + rewrite Hv, rest_indices_cons, <- length_unit_indices, map_app by done.
      by rewrite skipn_map_app.
    + intros i Hi. apply Hs. by rewrite Hr.
Qed.

Lemma rest_indices_head (u : nat) (m m' : flowmap) :
  (u < FLOWMAP_UNITS)%nat -> (forall v, (u < v)%nat -> nth v m 0 = nth v m' 0) ->
  rest_indices (S u, m) = rest_indices (S u, m').
Proof.
  intros Hu H. unfold rest_indices. cbn [fst snd]. f_equal. apply map_ext_in.
  intros v Hv%in_seq. unfold unit_indices. by rewrite H by lia.
Qed.

(** An index of the current unit at or above [l], or of a later unit, keeps its bit. *)
Lemma trash_is_set (fm : flowmap) (u l i : nat) (x : Z) :
  length fm = FLOWMAP_UNITS -> (u < FLOWMAP_UNITS)%nat -> (u * MAP_T_BITS + l <= i)%nat ->
  (forall k, 0 <= k -> Z.testbit x k = (Z.of_nat l <=? k) && Z.testbit (nth u fm 0) k) ->
  flowmap_is_set (<[u := x]> fm) i = flowmap_is_set fm i.
Proof.
  intros Hl Hu Hi Hx. rewrite !flowmap_is_set_testbit.
  pose proof (Nat.div_mod_eq i MAP_T_BITS) as Hdiv.
  destruct (decide (i / MAP_T_BITS = u)%nat) as [E|E].
  - rewrite E. rewrite nth_insert_eq by lia. rewrite Hx by lia.
    rewrite E in Hdiv. destruct (Z.leb_spec (Z.of_nat l) (Z.of_nat (i mod MAP_T_BITS))); [done|lia].
  - by rewrite nth_insert_ne.
Qed.

Lemma rest_indices_lower (u : nat) (m : flowmap) (i : nat) :
  In i (rest_indices (u, m)) -> (u * MAP_T_BITS <= i)%nat.
Proof.
  unfold rest_indices. cbn [fst snd]. intros (l & Hl & Hi)%in_concat.
  apply in_map_iff in Hl as (v & <- & Hv%in_seq). unfold unit_indices in Hi.
  apply in_map_iff in Hi as (k & <- & _). nia.
Qed.

Lemma unit_indices_zero_rightmost (m : flowmap) (u i : nat) :
  flowmap_wf m -> (u < FLOWMAP_UNITS)%nat -> nth u m 0 <> 0 ->
  In i (rest_indices (u, <[u := zero_rightmost_1bit (nth u m 0)]> m)) ->
  (u * MAP_T_BITS + Z.to_nat (raw_ctz (nth u m 0%Z)) <= i)%nat.
Proof.
  intros Hm Hu Hnz. pose proof (flowmap_unit_width m u Hm) as Hw.
  assert (0 < nth u m 0) as Hpos by (unfold in_width in Hw; lia).
  pose proof (raw_ctz_lowest _ Hpos Hw) as Hl. pose proof (lowest_bit_width _ _ _ Hw Hl).
  rewrite rest_indices_cons by done. intros [Hi|Hi]%in_app_or.
  - unfold unit_indices in Hi. apply in_map_iff in Hi as (k & <- & Hk).
    rewrite nth_insert_eq in Hk by (by rewrite (proj1 Hm)).
    apply one_bits_In in Hk as [Hk64 Hk]. rewrite (zero_rightmost_1bit_testbit _ _ _ Hw Hl) in Hk by lia.
    apply andb_prop in Hk as [Hk _].
    destruct (Z.lt_ge_cases (Z.of_nat k) (raw_ctz (nth u m 0))) as [Hlt|]; [|lia].
    destruct Hl as (_ & _ & Hl). rewrite Hl in Hk; [done|lia].
  - apply rest_indices_lower in Hi. lia.
Qed.

Lemma one_bits_head (x : Z) (l : nat) :
  in_width 64 x -> lowest_bit x (Z.of_nat l) -> exists t, one_bits x 64 = l :: t.
Proof.
  intros Hx Hl. assert (0 < x) as Hpos by (apply (lowest_bit_pos x (Z.of_nat l)); [apply Hx|done]).
  rewrite one_bits_peel by done.
  rewrite (lowest_bit_unique x _ _ (raw_ctz_lowest x Hpos Hx) Hl), Nat2Z.id. by eexists.
Qed.

(** Skipping the values below word [l] of unit [u], when that word is present. *)
Lemma mf_trash_spec (fm : flowmap) (u l : nat) (g : nat -> Z) :
  flowmap_wf fm -> (u < FLOWMAP_UNITS)%nat -> (l < 64)%nat ->
  Z.testbit (nth u fm 0) (Z.of_nat l) = true ->
  let trash := Z.land (nth u fm 0) (2 ^ Z.of_nat l - 1) in
  let fm' := <[u := nth u fm 0 - trash]> fm in
  flowmap_wf fm' /\ (exists t, rest_indices (u, fm') = (u * MAP_T_BITS + l)%nat :: t) /\
  skipn (Z.to_nat (count_1bits trash)) (map g (rest_indices (u, fm))) = map g (rest_indices (u, fm')) /\
  forall j, (u * MAP_T_BITS + l <= j)%nat -> flowmap_is_set fm' j = flowmap_is_set fm j.
Proof.
  intros Hfm Hu Hl Hbit trash fm'. pose proof (flowmap_unit_width fm u Hfm) as Hw.
  destruct (one_bits_trash (nth u fm 0) l Hw Hl) as (Hob & Hw' & Htb). fold trash in Hob, Hw', Htb.
  assert (nth u fm' 0 = nth u fm 0 - trash) as Hn
    by (unfold fm'; apply nth_insert_eq; by rewrite (proj1 Hfm)).
  assert (flowmap_wf fm') as Hfm' by (by apply flowmap_wf_insert).
  split_and!; [done| | |].
  - destruct (one_bits_head (nth u fm 0 - trash) l Hw') as [t Ht].
    { split_and!; [lia|rewrite Htb, Hbit by lia; zcmp; done|].
      intros i Hi. rewrite Htb by lia. zcmp. }
    rewrite rest_indices_cons by done. unfold unit_indices. rewrite Hn, Ht. by eexists.
  - rewrite !(rest_indices_cons u) by done.
    rewrite (rest_indices_head u fm' fm) by
      (done || intros v Hvu; unfold fm'; by rewrite nth_insert_ne by lia).
    unfold unit_indices. rewrite Hn, Hob, !map_app, <- app_assoc, count_1bits_spec, Nat2Z.id.
    + rewrite <- (length_map (Nat.add (u * MAP_T_BITS)) (one_bits trash 64)). apply skipn_map_app.
    + apply in_width_land; [lia|done|]. lia.
  - intros j Hj. apply (trash_is_set fm u l j); [apply Hfm|done..].
Qed.

Lemma mf_get_next_spec (mf : miniflow) (aux : mf_for_each_in_map_aux) :
  mf_inv mf aux ->
  match mf_get_next_in_map aux with
  | Some (value, aux') =>
      exists i, rest_indices (aux_unit aux, aux_map aux) = i :: rest_indices (aux_unit aux', aux_map aux') /\
        value = miniflow_get mf i /\ mf_inv mf aux'
  | None => rest_indices (aux_unit aux, aux_map aux) = []
  end.
Proof.
  intros Hinv. unfold mf_get_next_in_map.
  pose proof (mf_skip_spec mf FLOWMAP_UNITS aux Hinv ltac:(lia)) as Hskip.
  destruct (mf_skip_empty_units _ _) as [[u fm m vs]|]; [|done].
  destruct Hskip as ([Hfm Hm Hu Hv Hs] & Hnz & <-). clear Hinv aux.
  cbn [aux_unit aux_fmap aux_map aux_values] in *.
  pose proof (flowmap_unit_width m u Hm) as Hw. pose proof (flowmap_unit_width fm u Hfm) as Hwf.
  assert (0 < nth u m 0) as Hpos by (unfold in_width in Hw; lia).
  pose proof (raw_ctz_lowest _ Hpos Hw) as Hl. pose proof (lowest_bit_width _ _ _ Hw Hl) as Hl64.
  pose proof (unit_indices_zero_rightmost m u) as Hge. pose proof (unit_indices_peel m u Hm Hu Hnz) as Hpeel.
  rewrite sub_rightmost_1bit, (rightmost_1bit_pow2 _ _ Hw Hl) by done.
  assert (flowmap_wf (<[u := zero_rightmost_1bit (nth u m 0)]> m)) as Hm'
    by (apply flowmap_wf_insert; [done|by apply zero_rightmost_1bit_width]).
  destruct (Z_of_nat_complete (raw_ctz (nth u m 0)) (proj1 Hl)) as [l El]. rewrite El in *. clear El Hl.
  rewrite Nat2Z.id in *. rewrite land_single_bit by lia.
  set (m' := <[u := _]> m) in *. set (i := (u * MAP_T_BITS + l)%nat) in *.
  assert (rest_indices (u, m) = i :: rest_indices (u, m')) as Hrest.
  { rewrite !(rest_indices_cons u) by done. rewrite Hpeel. cbn [app]. f_equal. f_equal.
    apply rest_indices_head; [done|]. intros v Hvu. unfold m'. by rewrite nth_insert_ne by lia. }
  assert (flowmap_is_set fm i = Z.testbit (nth u fm 0) (Z.of_nat l)) as Hbit.
  { rewrite flowmap_is_set_testbit. unfold i. rewrite Nat.add_comm.
    by rewrite Nat.div_add, Nat.Div0.mod_add, Nat.div_small, Nat.mod_small by lia. }
  rewrite Hrest in Hs. specialize (Hs i ltac:(by left)) as Hi.
  rewrite <- Hbit, Hi. destruct (flowmap_is_set (mf_map mf) i) eqn:Ei; exists i.
  - destruct (mf_trash_spec fm u l (miniflow_get mf) Hfm Hu ltac:(lia) ltac:(by rewrite <- Hbit))
      as (Hfm' & [t Ht] & Hvs & Hset).
    rewrite Hv, Hvs. split_and!; [done|by rewrite Ht|].
    split; cbn [aux_unit aux_fmap aux_map aux_values]; try done.
    intros j Hj. rewrite Hset by (by apply Hge). apply Hs. by right.
  - split_and!; [done|by rewrite miniflow_get_unset|].
    split; cbn [aux_unit aux_fmap aux_map aux_values]; try done. intros j Hj. apply Hs. by right.
Qed.

Lemma mf_for_each_spec (mf : miniflow) (fuel : nat) (aux : mf_for_each_in_map_aux) :
  mf_inv mf aux -> (length (rest_indices (aux_unit aux, aux_map aux)) < fuel)%nat ->
  mf_for_each fuel aux = map (miniflow_get mf) (rest_indices (aux_unit aux, aux_map aux)).
Proof.
  revert aux. induction fuel as [|fuel IH]; intros aux Hinv Hf; [lia|]. cbn [mf_for_each].
  pose proof (mf_get_next_spec mf aux Hinv) as H.
  destruct (mf_get_next_in_map aux) as [[v aux']|]; [|by rewrite H].
  destruct H as (i & Hi & -> & Hinv'). rewrite Hi in Hf |- *. cbn [map length] in Hf |- *.
  f_equal. apply IH; [done|]. lia.
Qed.

(** The iterator yields the words of the map [fm], zero where [mf] has none. *)
Lemma MINIFLOW_FOR_EACH_spec (mf : miniflow) (fm : flowmap) :
  miniflow_wf mf -> flowmap_wf fm ->
  MINIFLOW_FOR_EACH_IN_FLOWMAP mf fm = map (miniflow_get mf) (fm_indices fm).
Proof.
  intros Hmf Hfm. unfold MINIFLOW_FOR_EACH_IN_FLOWMAP. rewrite fm_indices_units.
  assert (forall x, concat (map (unit_indices x) (seq 0 FLOWMAP_UNITS)) = rest_indices (0%nat, x)) as E
    by reflexivity.
  rewrite E, (mf_for_each_spec mf); [done| |].
  - split; cbn [aux_unit aux_fmap aux_map aux_values]; [apply Hmf|done|by apply Nat.ltb_lt| |done].
    by rewrite mf_values_wf, fm_indices_units, E.
  - cbn [aux_unit aux_map]. rewrite <- E, <- fm_indices_units. pose proof (length_fm_indices fm).
    rewrite N_IDX_eq in *. change (FLOWMAP_UNITS * MAP_T_BITS + 1)%nat with 129%nat. lia.
Qed.

Lemma miniflow_hash_in_minimask_spec `{Hash} (f : miniflow) (mask : minimask) (basis : Z) :
  miniflow_wf f -> miniflow_wf mask ->
  miniflow_hash_in_minimask f mask basis =
  hash_finish (masked_hash (miniflow_get f) (miniflow_get mask) (fm_indices (mf_map mask)) basis)
    (Z.of_nat (length (fm_indices (mf_map mask))) * 8).
Proof.
  intros Hf Hm. unfold miniflow_hash_in_minimask.
  rewrite MINIFLOW_FOR_EACH_spec by (done || apply Hm). rewrite (mf_values_wf mask) by done.
  pose proof (hash_masked_values_map (miniflow_get f) (miniflow_get mask)
    (fm_indices (mf_map mask)) [] [] 0 basis eq_refl) as E.
  rewrite app_nil_l, app_nil_r in E. by rewrite E.
Qed.

(** ** Properties *)

(** Sample data for the witnesses. *)
Definition flow_of (words : list (nat * Z)) : flow :=
  foldl (fun f '(i, x) => <[i := x]> f) (replicate FLOW_U64S 0) words.

Lemma flow_wf_check (f : flow) :
  (length f =? FLOW_U64S)%nat && forallb (fun x => (0 <=? x) && (x <? 2 ^ 64)) f = true -> flow_wf f.
Proof.
  intros [Hl%Nat.eqb_eq Hf]%andb_prop. split; [done|]. rewrite forallb_forall in Hf.
  apply Forall_forall. intros x [H0 H1]%list_elem_of_In%Hf%andb_prop. unfold in_width. lia.
Qed.

Ltac sample_wf :=
  repeat first
    [ apply minimatch_init_wf | apply minimask_create_wf | apply miniflow_create_wf
    | apply miniflow_map_init_wf | apply flow_wf_check; vm_compute; reflexivity ].

(** A run of the words of a rule's mask hashes alike in the rule and in a flow that
    it matches. *)
Lemma hash_range_matching `{Hash} (m : minimatch) (f : flow) (range : flowmap) (offset : nat) (basis : Z) :
  minimatch_wf m -> flowmap_wf range -> in_segment (mm_mask m) range offset ->
  miniflow_and_mask_matches_flow (mm_flow m) (mm_mask m) f = true ->
  flow_hash_in_minimask_range f (mm_mask m) range offset basis =
  minimatch_hash_range m range offset basis.
Proof.
  intros Hm Hr Hseg Hmatch.
  rewrite flow_hash_range_spec, minimatch_hash_range_spec by eauto with ovs.
  rewrite (masked_hash_ext _ (miniflow_get (mm_flow m))); [done|].
  intros i Hi. rewrite mask_matches_flow_spec in Hmatch by done.
  unfold flow_equal_except in Hmatch. rewrite forallb_seq in Hmatch.
  assert (i < FLOW_U64S)%nat as Hlt.
  { destruct Hseg as (pre & rest & Hs & _). apply (wf_set_bound (mm_mask m)); [eauto with ovs|].
    apply fm_indices_is_set; [eauto with ovs|]. rewrite Hs. apply in_or_app. right. apply in_or_app. by left. }
  specialize (Hmatch i Hlt). rewrite !expand_nth in Hmatch by eauto with ovs.
  apply land_eq_bits. intros k Hk Hb. symmetry. by apply (proj1 (lxor_land_zero _ _ _) (proj1 (Z.eqb_eq _ _) Hmatch)).
Qed.

(** C40: expanding the miniflow created from a flow gives back the flow. *)
Theorem miniflow_roundtrip (f : flow) :
  flow_wf f -> miniflow_expand (miniflow_create f) = f.
Proof.
  intros Hf. apply flow_ext; [apply expand_length|apply Hf|]. intros i Hi.
  rewrite expand_nth by by apply miniflow_create_wf. by apply miniflow_create_get.
Qed.

Lemma miniflow_roundtrip_witness :
  miniflow_expand (miniflow_create (flow_of [(2%nat, 7); (83%nat, 2 ^ 64 - 1)])) =
  flow_of [(2%nat, 7); (83%nat, 2 ^ 64 - 1)].
Proof. apply miniflow_roundtrip. sample_wf. Defined.

Lemma minimatch_init_expand (m : match_) :
  flow_wf (m_flow m) -> flow_wf (m_wc m) ->
  (forall i, nth i (m_wc m) 0 = 0 -> nth i (m_flow m) 0 = 0) ->
  minimatch_wf (minimatch_init m) /\ minimatch_expand (minimatch_init m) = m.
Proof.
  intros Hf Hw Hz. pose proof (minimatch_init_wf m Hf Hw) as Hwf. split; [done|].
  destruct m as [f wc]. cbn [m_flow m_wc] in *. unfold minimatch_expand, minimask_expand. f_equal.
  - apply flow_ext; [apply expand_length|apply Hf|]. intros i Hi. rewrite expand_nth by apply Hwf.
    destruct (minimatch_init_get (Match f wc) i Hi) as [_ ->]. cbn [m_flow m_wc].
    destruct (Z.eqb_spec (nth i wc 0) 0) as [E|]; [by rewrite Hz|done].
  - apply flow_ext; [apply expand_length|apply Hw|]. intros i Hi. rewrite expand_nth by apply Hwf.
    apply (minimatch_init_get (Match f wc) i Hi).
Qed.

(** a match that is zero wherever a whole word is wildcarded survives
    compression to a minimatch and expansion, and the minimatch is well formed. *)
Theorem minimatch_roundtrip (m : match_) :
  flow_wf (m_flow m) -> flow_wf (m_wc m) ->
  (forall i, nth i (m_wc m) 0 = 0 -> nth i (m_flow m) 0 = 0) ->
  minimatch_wf (minimatch_init m) /\ minimatch_expand (minimatch_init m) = m.
Proof. apply minimatch_init_expand. Qed.

Lemma minimatch_roundtrip_witness :
  let m := Match (flow_of [(2%nat, 7)]) (flow_of [(2%nat, 15); (70%nat, 1)]) in
  minimatch_wf (minimatch_init m) /\ minimatch_expand (minimatch_init m) = m.
Proof.
  apply minimatch_roundtrip; [sample_wf..|].
  intros i Hi. destruct (decide (i = 2)%nat) as [->|Hne]; [vm_compute in Hi; lia|].
  cbn [m_flow]. unfold flow_of. cbn [foldl]. rewrite nth_insert_ne by done. apply nth_replicate_0.
Defined.

(** the sparse comparison [miniflow_equal], on both of its paths, decides
    equality of the flows that the miniflows stand for. *)
Theorem miniflow_equal_iff (a b : miniflow) :
  miniflow_wf a -> miniflow_wf b ->
  miniflow_equal a b = true <-> miniflow_expand a = miniflow_expand b.
Proof. intros Ha Hb. rewrite miniflow_equal_get, expand_eq by done. done. Qed.

(** Two miniflows of one flow with different maps. *)
Lemma miniflow_equal_iff_witness :
  let a := miniflow_create (flow_of [(2%nat, 7)]) in
  let b := mm_flow (minimatch_init (Match (flow_of [(2%nat, 7)]) (flow_of [(2%nat, 7); (65%nat, 1)]))) in
  mf_map a <> mf_map b /\ (miniflow_equal a b = true <-> miniflow_expand a = miniflow_expand b).
Proof.
  split; [by vm_compute|]. apply miniflow_equal_iff; [sample_wf|].
  apply mmwf_flow. sample_wf.
Defined.

(** [minimask_combine] computes, in sparse form, the bitwise AND of the two
    masks, and its result is again a minimask without zero words. *)
Theorem minimask_combine_and (a b : minimask) :
  minimask_wf a -> minimask_wf b ->
  minimask_wf (minimask_combine a b) /\
  minimask_expand (minimask_combine a b) = flow_wildcards_and (minimask_expand a) (minimask_expand b).
Proof.
  intros Ha Hb. pose proof (combine_wf a b Ha Hb) as Hc. split; [done|]. unfold minimask_expand.
  apply flow_ext; [apply expand_length|by unfold flow_wildcards_and; rewrite length_map, length_seq|].
  intros i Hi. unfold flow_wildcards_and. rewrite nth_map_seq by done. cbn [Nat.add].
  rewrite !expand_nth, combine_get by eauto with ovs. done.
Qed.

Lemma minimask_combine_and_witness :
  let a := minimask_create (flow_of [(2%nat, 7); (70%nat, 12)]) in
  let b := minimask_create (flow_of [(2%nat, 8); (70%nat, 6)]) in
  minimask_wf (minimask_combine a b) /\
  minimask_expand (minimask_combine a b) = flow_wildcards_and (minimask_expand a) (minimask_expand b).
Proof. apply minimask_combine_and; sample_wf. Defined.

(** [minimask_has_extra] answers what [flow_wildcards_has_extra] answers on the
    expanded masks. *)
Theorem minimask_has_extra_dense (a b : minimask) :
  minimask_wf a -> minimask_wf b ->
  minimask_has_extra a b = flow_wildcards_has_extra (minimask_expand a) (minimask_expand b).
Proof.
  intros Ha Hb. apply Bool.eq_iff_eq_true. rewrite <- !not_false_iff_true. apply not_iff_compat.
  rewrite minimask_has_extra_get by done. unfold flow_wildcards_has_extra, minimask_expand.
  rewrite negb_false_iff, forallb_seq. setoid_rewrite Z.eqb_eq. split; intros H i.
  - intros _. rewrite !expand_nth by eauto with ovs. apply H.
  - specialize (H i). rewrite !expand_nth in H by eauto with ovs.
    destruct (decide (i < FLOW_U64S)%nat); [by apply H|].
    destruct (flowmap_is_set (mf_map b) i) eqn:E; [|by rewrite (miniflow_get_unset b), Z.land_0_r].
    apply wf_set_bound in E; [lia|eauto with ovs].
Qed.

Lemma minimask_has_extra_dense_witness :
  let a := minimask_create (flow_of [(2%nat, 7)]) in
  let b := minimask_create (flow_of [(70%nat, 6)]) in
  minimask_has_extra a b = flow_wildcards_has_extra (minimask_expand a) (minimask_expand b).
Proof. apply minimask_has_extra_dense; sample_wf. Defined.

(** the hash of a miniflow in a mask, computed with the iterator over two
    maps, is the hash of the flow it stands for in that mask. *)
Theorem miniflow_hash_is_flow_hash `{Hash} (f : miniflow) (mask : minimask) (basis : Z) :
  miniflow_wf f -> miniflow_wf mask ->
  miniflow_hash_in_minimask f mask basis = flow_hash_in_minimask (miniflow_expand f) mask basis.
Proof.
  intros Hf Hm. rewrite miniflow_hash_in_minimask_spec, flow_hash_in_minimask_spec by done.
  f_equal. apply masked_hash_ext. intros i _. by rewrite expand_nth.
Qed.

Lemma miniflow_hash_is_flow_hash_witness :
  let f := miniflow_create (flow_of [(2%nat, 7); (83%nat, 9)]) in
  let mask := miniflow_create (flow_of [(2%nat, 3); (4%nat, 1); (83%nat, 8)]) in
  miniflow_hash_in_minimask f mask 5 = flow_hash_in_minimask (miniflow_expand f) mask 5.
Proof. apply miniflow_hash_is_flow_hash; sample_wf. Defined.

(** on any run of the words of a rule's mask, the hash of a flow that the rule
    matches is the hash of the rule, with the same new offset and basis: a staged
    lookup finds in each stage's index what insertion put there. *)
Theorem range_hash_matching `{Hash} (m : minimatch) (f : flow) (range : flowmap) (offset : nat) (basis : Z) :
  minimatch_wf m -> flowmap_wf range -> in_segment (mm_mask m) range offset ->
  miniflow_and_mask_matches_flow (mm_flow m) (mm_mask m) f = true ->
  flow_hash_in_minimask_range f (mm_mask m) range offset basis =
  minimatch_hash_range m range offset basis.
Proof. apply hash_range_matching. Qed.

Lemma range_hash_matching_witness :
  let m := minimatch_init (Match (flow_of [(2%nat, 5); (70%nat, 1)]) (flow_of [(2%nat, 7); (70%nat, 1)])) in
  let f := flow_of [(2%nat, 13); (3%nat, 1); (70%nat, 1)] in
  flow_hash_in_minimask_range f (mm_mask m) (mf_map (mm_mask m)) 0 9 =
  minimatch_hash_range m (mf_map (mm_mask m)) 0 9.
Proof.
  apply range_hash_matching; [sample_wf|apply mwf_map, kwf_mf, mmwf_mask; sample_wf|apply in_segment_all|].
  by vm_compute.
Defined.

(** The rule match test walks the sparse words of the rule in step with its
    mask and answers as the comparison of the whole flows under the mask. *)
Theorem mask_matches_dense (m : minimatch) (target : flow) :
  minimatch_wf m ->
  miniflow_and_mask_matches_flow (mm_flow m) (mm_mask m) target =
  flow_equal_except (m_flow (minimatch_expand m)) target (m_wc (minimatch_expand m)).
Proof. apply mask_matches_flow_spec. Qed.

Lemma mask_matches_dense_witness :
  let m := minimatch_init (Match (flow_of [(2%nat, 5); (70%nat, 1)]) (flow_of [(2%nat, 7); (70%nat, 1)])) in
  let f := flow_of [(2%nat, 13); (3%nat, 1); (70%nat, 1)] in
  miniflow_and_mask_matches_flow (mm_flow m) (mm_mask m) f =
  flow_equal_except (m_flow (minimatch_expand m)) f (m_wc (minimatch_expand m)).
Proof. apply mask_matches_dense. sample_wf. Defined.

(** the comment on [flow_union_with_miniflow_subset] asks only that [subset] be
    a subset of the map of [src].  The loop takes the values in order from the
    first one, so a subset that is not an initial part of the map gets the words
    of other indices: here word 3 receives the value of word 2. *)
Theorem union_subset_not_prefix :
  let src := miniflow_create (flow_of [(2%nat, 7); (3%nat, 9)]) in
  let subset := flowmap_set flowmap_init 3 1 in
  (forall i, flowmap_is_set subset i = true -> flowmap_is_set (mf_map src) i = true) /\
  flow_union_with_miniflow_subset (flow_of []) src subset = flow_of [(3%nat, 7)].
Proof.
  split; [|by vm_compute]. intros i Hi. apply fm_indices_is_set in Hi.
  - vm_compute in Hi. destruct Hi as [<-|[]]. by vm_compute.
  - apply flowmap_set_wf; [lia|apply flowmap_init_wf].
Qed.
