(* ===== verification/MetaFlow.v ===== *)
(** * Match fields and their prerequisites (lib/meta-flow.c, lib/flow.h)

    The table of [struct mf_field]s is generated when the program is built,
    so a field is a record of the members the classifier reads.  The
    prerequisite test is modelled in full, with the wildcards it fills in. *)

From S2P Require Import Prelude Util Flowmap Hash Miniflow.
From stdpp Require Import prelude list.
From Stdlib Require Import ZArith Lia.
Open Scope Z_scope.
Open Scope ovs_scope.

Inductive mf_prereqs :=
| MFP_NONE | MFP_ETHERNET | MFP_ARP | MFP_VLAN_VID | MFP_IPV4 | MFP_IPV6 | MFP_IP_ANY | MFP_NSH
| MFP_MPLS | MFP_TCP | MFP_UDP | MFP_SCTP | MFP_ICMPV4 | MFP_ICMPV6 | MFP_CT_VALID
| MFP_ND | MFP_ND_SOLICIT | MFP_ND_ADVERT.

(** The members of [struct mf_field] that the classifier uses; [flow_be32ofs]
    is [None] for -1. *)
Record mf_field := MfField {
  mff_id : Z;
  mff_n_bytes : nat;
  mff_n_bits : nat;
  mff_prereqs : mf_prereqs;
  mff_flow_be32ofs : option nat
}.

(** ** Members of [struct flow] *)

(** A member that lies in one 64-bit word: its byte offset and its size. *)
Record member := Member { mb_ofs : nat; mb_size : nat }.

Definition packet_type : member := Member 444 4.
Definition ct_state : member := Member 436 1.
Definition dl_type : member := Member 484 2.
Definition vlan0_tci : member := Member 490 2.
Definition nw_frag : member := Member 596 1.
Definition nw_proto : member := Member 599 1.
Definition tp_src : member := Member 656 2.
Definition tp_dst : member := Member 658 2.

Definition mb_shift (mb : member) : Z := 64 - 8 * Z.of_nat (mb_ofs mb mod 8 + mb_size mb).
Definition mb_bits (mb : member) : Z := 8 * Z.of_nat (mb_size mb).

Definition flow_member (f : flow) (mb : member) : Z :=
  wrap (mb_bits mb) (Z.shiftr (nth (mb_ofs mb / 8) f 0) (mb_shift mb)).

(** [WC_MASK_FIELD_MASK] *)
Definition WC_MASK_FIELD_MASK (wc : flow) (mb : member) (mask : Z) : flow :=
  <[(mb_ofs mb / 8)%nat := Z.lor (nth (mb_ofs mb / 8) wc 0) (Z.shiftl mask (mb_shift mb))]> wc.

(** [WC_MASK_FIELD]: every bit of the member. *)
Definition WC_MASK_FIELD (wc : flow) (mb : member) : flow :=
  WC_MASK_FIELD_MASK wc mb (Z.ones (mb_bits mb)).

(** ** Constants *)

Definition ETH_TYPE_IP : Z := 0x0800.
Definition ETH_TYPE_ARP : Z := 0x0806.
Definition ETH_TYPE_IPV6 : Z := 0x86dd.
Definition ETH_TYPE_RARP : Z := 0x8035.
Definition ETH_TYPE_MPLS : Z := 0x8847.
Definition ETH_TYPE_MPLS_MCAST : Z := 0x8848.
Definition ETH_TYPE_NSH : Z := 0x894f.
Definition FLOW_DL_TYPE_NONE : Z := 0x5ff.
Definition PT_ETH : Z := 0.
Definition OFPHTN_ETHERTYPE : Z := 1.
Definition VLAN_CFI : Z := 0x1000.
Definition FLOW_NW_FRAG_LATER : Z := 2.
Definition CS_NEW : Z := 1.
Definition CS_ESTABLISHED : Z := 2.
Definition CS_RELATED : Z := 4.
Definition CS_REPLY_DIR : Z := 8.
Definition CS_INVALID : Z := 16.
Definition CS_TRACKED : Z := 32.
Definition CS_SRC_NAT : Z := 64.
Definition CS_DST_NAT : Z := 128.
Definition CS_VALID_MASK : Z := Z.lor (Z.lor CS_NEW CS_ESTABLISHED) CS_REPLY_DIR.
Definition IPPROTO_ICMP : Z := 1.
Definition IPPROTO_TCP : Z := 6.
Definition IPPROTO_UDP : Z := 17.
Definition IPPROTO_ICMPV6 : Z := 58.
Definition IPPROTO_SCTP : Z := 132.
Definition ND_NEIGHBOR_SOLICIT : Z := 135.
Definition ND_NEIGHBOR_ADVERT : Z := 136.

(** ** Tests on flows

    [wc] is [None] for a null pointer; each test returns its answer and the
    updated wildcards. *)

Definition is_ethernet (f : flow) (wc : option flow) : bool * option flow :=
  (flow_member f packet_type =? PT_ETH, option_map (fun wc => WC_MASK_FIELD wc packet_type) wc).

Definition get_dl_type (f : flow) : Z :=
  if flow_member f packet_type =? PT_ETH then flow_member f dl_type
  else if Z.shiftr (flow_member f packet_type) 16 =? OFPHTN_ETHERTYPE
  then u16 (flow_member f packet_type)
  else FLOW_DL_TYPE_NONE.

Definition is_vlan (f : flow) (wc : option flow) : bool * option flow :=
  let '(b, wc) := is_ethernet f wc in
  if negb b then (false, wc)
  else
    (negb (Z.land (flow_member f vlan0_tci) VLAN_CFI =? 0),
     option_map (fun wc => WC_MASK_FIELD_MASK wc vlan0_tci VLAN_CFI) wc).

Definition dl_type_is_ip_any (t : Z) : bool := (t =? ETH_TYPE_IP) || (t =? ETH_TYPE_IPV6).

Definition eth_type_mpls (t : Z) : bool := (t =? ETH_TYPE_MPLS) || (t =? ETH_TYPE_MPLS_MCAST).

Definition is_ip_any (f : flow) : bool := dl_type_is_ip_any (get_dl_type f).

Definition is_ip_proto (f : flow) (ip_proto : Z) (wc : option flow) : bool * option flow :=
  if is_ip_any f
  then (flow_member f nw_proto =? ip_proto, option_map (fun wc => WC_MASK_FIELD wc nw_proto) wc)
  else (false, wc).

Definition is_tcp (f : flow) := is_ip_proto f IPPROTO_TCP.
Definition is_udp (f : flow) := is_ip_proto f IPPROTO_UDP.
Definition is_sctp (f : flow) := is_ip_proto f IPPROTO_SCTP.

Definition is_icmpv4 (f : flow) (wc : option flow) : bool * option flow :=
  if get_dl_type f =? ETH_TYPE_IP
  then (flow_member f nw_proto =? IPPROTO_ICMP, option_map (fun wc => WC_MASK_FIELD wc nw_proto) wc)
  else (false, wc).

Definition is_icmpv6 (f : flow) (wc : option flow) : bool * option flow :=
  if get_dl_type f =? ETH_TYPE_IPV6
  then (flow_member f nw_proto =? IPPROTO_ICMPV6, option_map (fun wc => WC_MASK_FIELD wc nw_proto) wc)
  else (false, wc).

Definition is_nd (f : flow) (wc : option flow) : bool * option flow :=
  let '(b, wc) := is_icmpv6 f wc in
  if b then
    let wc := option_map (fun wc => WC_MASK_FIELD wc tp_dst) wc in
    if negb (flow_member f tp_dst =? 0) then (false, wc)
    else
      let wc := option_map (fun wc => WC_MASK_FIELD wc tp_src) wc in
      ((flow_member f tp_src =? ND_NEIGHBOR_SOLICIT) || (flow_member f tp_src =? ND_NEIGHBOR_ADVERT), wc)
  else (false, wc).

Definition is_ct_valid (f : flow) (mask : option flow) (wc : option flow) : bool * option flow :=
  let state := flow_member f ct_state in
  match mask, wc with
  | Some mask, None =>
      (negb (Z.land state (Z.lor CS_NEW (Z.lor CS_ESTABLISHED (Z.lor CS_RELATED
               (Z.lor CS_REPLY_DIR (Z.lor CS_SRC_NAT CS_DST_NAT))))) =? 0)
       || (negb (Z.land state CS_TRACKED =? 0)
           && negb (Z.land (flow_member mask ct_state) CS_INVALID =? 0)
           && (Z.land state CS_INVALID =? 0)), wc)
  | _, _ =>
      (negb (Z.land state CS_VALID_MASK =? 0),
       option_map (fun wc => WC_MASK_FIELD_MASK wc ct_state CS_VALID_MASK) wc)
  end.

Definition mf_are_prereqs_ok__ (mf : mf_field) (f : flow) (mask : option flow) (wc : option flow)
  : bool * option flow :=
  let t := get_dl_type f in
  let not_later := Z.land (flow_member f nw_frag) FLOW_NW_FRAG_LATER =? 0 in
  match mff_prereqs mf with
  | MFP_NONE => (true, wc)
  | MFP_ETHERNET => is_ethernet f wc
  | MFP_ARP => ((t =? ETH_TYPE_ARP) || (t =? ETH_TYPE_RARP), wc)
  | MFP_IPV4 => (t =? ETH_TYPE_IP, wc)
  | MFP_IPV6 => (t =? ETH_TYPE_IPV6, wc)
  | MFP_VLAN_VID => is_vlan f wc
  | MFP_MPLS => (eth_type_mpls t, wc)
  | MFP_IP_ANY => (is_ip_any f, wc)
  | MFP_NSH => (t =? ETH_TYPE_NSH, wc)
  | MFP_CT_VALID => is_ct_valid f mask wc
  | MFP_TCP => let '(b, wc) := is_tcp f wc in (b && not_later, wc)
  | MFP_UDP => let '(b, wc) := is_udp f wc in (b && not_later, wc)
  | MFP_SCTP => let '(b, wc) := is_sctp f wc in (b && not_later, wc)
  | MFP_ICMPV4 => is_icmpv4 f wc
  | MFP_ICMPV6 => is_icmpv6 f wc
  | MFP_ND => is_nd f wc
  | MFP_ND_SOLICIT => let '(b, wc) := is_nd f wc in (b && (flow_member f tp_src =? ND_NEIGHBOR_SOLICIT), wc)
  | MFP_ND_ADVERT => let '(b, wc) := is_nd f wc in (b && (flow_member f tp_src =? ND_NEIGHBOR_ADVERT), wc)
  end.

Definition mf_are_prereqs_ok (mf : mf_field) (f : flow) (wc : option flow) : bool * option flow :=
  mf_are_prereqs_ok__ mf f None wc.

Definition mf_are_match_prereqs_ok (mf : mf_field) (m : match_) : bool :=
  fst (mf_are_prereqs_ok__ mf (m_flow m) (Some (m_wc m)) None).

(** ** What the tests inspect *)

(** [wc] has every bit of [m] set at member [mb]. *)
Definition masked (wc : flow) (mb : member) (m : Z) : Prop :=
  forall i, 0 <= i -> Z.testbit m i = true -> Z.testbit (nth (mb_ofs mb / 8) wc 0) (i + mb_shift mb) = true.

(** The member is inside one word of the flow. *)
Definition member_ok (mb : member) : bool :=
  ((mb_ofs mb / 8 <? FLOW_U64S) && (mb_ofs mb mod 8 + mb_size mb <=? 8))%nat.

Lemma mb_shift_nonneg (mb : member) : member_ok mb = true -> 0 <= mb_shift mb.
Proof. unfold member_ok, mb_shift. intros [_ H%Nat.leb_le]%andb_prop. lia. Qed.

Lemma masked_set (wc : flow) (mb : member) (m : Z) :
  length wc = FLOW_U64S -> member_ok mb = true -> masked (WC_MASK_FIELD_MASK wc mb m) mb m.
Proof.
  intros Hl Hok i Hi Hm. pose proof (mb_shift_nonneg mb Hok).
  unfold member_ok in Hok. apply andb_prop in Hok as [Hb%Nat.ltb_lt _].
  unfold WC_MASK_FIELD_MASK. rewrite nth_insert_eq by lia.
  rewrite Z.lor_spec, Z.shiftl_spec by lia. replace (i + mb_shift mb - mb_shift mb) with i by lia.
  by rewrite Hm, orb_true_r.
Qed.

Lemma masked_mono (wc : flow) (mb mb' : member) (m m' : Z) :
  masked wc mb m -> masked (WC_MASK_FIELD_MASK wc mb' m') mb m.
Proof.
  intros H i Hi Hm. specialize (H i Hi Hm). unfold WC_MASK_FIELD_MASK.
  destruct (decide (mb_ofs mb' / 8 = mb_ofs mb / 8)%nat) as [E|E]; [|by rewrite nth_insert_ne].
  destruct (decide (mb_ofs mb / 8 < length wc)%nat).
  - rewrite E, nth_insert_eq by done. by rewrite Z.lor_spec, H.
  - by rewrite nth_overflow, Z.bits_0 in H by lia.
Qed.

Lemma length_WC_MASK_FIELD_MASK (wc : flow) (mb : member) (m : Z) :
  length (WC_MASK_FIELD_MASK wc mb m) = length wc.
Proof. apply length_insert. Qed.

Lemma flow_equal_except_bits (f f' wc : flow) (i : nat) (k : Z) :
  flow_equal_except f f' wc = true -> (i < FLOW_U64S)%nat -> 0 <= k ->
  Z.testbit (nth i wc 0) k = true -> Z.testbit (nth i f 0) k = Z.testbit (nth i f' 0) k.
Proof.
  unfold flow_equal_except. rewrite forallb_seq. intros H Hi Hk Hb.
  specialize (H i Hi). apply Z.eqb_eq in H. by apply (proj1 (lxor_land_zero _ _ _) H).
Qed.

(** Flows that agree under [wc] agree on the masked bits of a member. *)
Lemma masked_agree (f f' wc : flow) (mb : member) (m : Z) :
  flow_equal_except f f' wc = true -> member_ok mb = true -> masked wc mb m ->
  Z.land (flow_member f mb) m = Z.land (flow_member f' mb) m.
Proof.
  intros He Hok Hm. apply land_eq_bits. intros i Hi Hb. pose proof (mb_shift_nonneg mb Hok).
  unfold flow_member. rewrite !wrap_testbit by (unfold mb_bits; lia). f_equal.
  rewrite !Z.shiftr_spec by done. apply (flow_equal_except_bits f f' wc); [done| |lia|by apply Hm].
  unfold member_ok in Hok. by apply andb_prop in Hok as [Hb'%Nat.ltb_lt _].
Qed.

Lemma flow_member_ones (f : flow) (mb : member) :
  Z.land (flow_member f mb) (Z.ones (mb_bits mb)) = flow_member f mb.
Proof.
  assert (0 <= mb_bits mb) by (unfold mb_bits; lia).
  rewrite Z.land_ones by done. unfold flow_member, wrap. apply Z.mod_mod.
  apply Z.pow_nonzero; lia.
Qed.

Lemma masked_agree_all (f f' wc : flow) (mb : member) :
  flow_equal_except f f' wc = true -> member_ok mb = true -> masked wc mb (Z.ones (mb_bits mb)) ->
  flow_member f mb = flow_member f' mb.
Proof.
  intros He Hok Hm. rewrite <- (flow_member_ones f), <- (flow_member_ones f').
  by apply (masked_agree f f' wc).
Qed.

(** Proves that a member is masked in nested updates of the wildcards. *)
Ltac solve_masked :=
  unfold WC_MASK_FIELD in *;
  repeat first
    [ apply masked_set; [repeat rewrite length_WC_MASK_FIELD_MASK; assumption|reflexivity]
    | apply masked_mono ].

Ltac member_eq mb :=
  match goal with
  | H : flow_equal_except ?f ?f' ?wc = true |- _ =>
      rewrite <- (masked_agree_all f f' wc mb H eq_refl) by solve_masked
  end.

Ltac wc_length := unfold WC_MASK_FIELD; rewrite ?length_WC_MASK_FIELD_MASK; assumption.

Section Inspect.
Context (f f' : flow).
Hypothesis (Hpt : flow_member f packet_type = flow_member f' packet_type).
Hypothesis (Hdl : flow_member f dl_type = flow_member f' dl_type).

(** The answer on [f], with the wildcards it produced, is the answer on any
    [f'] that agrees with [f] under these wildcards. *)
Definition inspects (t : flow -> option flow -> bool * option flow) : Prop :=
  forall wc, length wc = FLOW_U64S ->
  exists b wc', t f (Some wc) = (b, Some wc') /\ length wc' = FLOW_U64S /\ fst (t f None) = b /\
    (flow_equal_except f f' wc' = true -> fst (t f' None) = b).

Lemma get_dl_type_eq : get_dl_type f' = get_dl_type f.
Proof. unfold get_dl_type. by rewrite Hpt, Hdl. Qed.

Lemma is_ip_any_eq : is_ip_any f' = is_ip_any f.
Proof. unfold is_ip_any. by rewrite get_dl_type_eq. Qed.

Lemma is_ethernet_inspects : inspects is_ethernet.
Proof.
  intros wc Hl. unfold is_ethernet. cbn [option_map fst]. do 2 eexists. split; [done|].
  split; [wc_length|]. by rewrite Hpt.
Qed.

Lemma is_vlan_inspects : inspects is_vlan.
Proof.
  intros wc Hl. unfold is_vlan, is_ethernet. cbn [option_map]. rewrite Hpt.
  destruct (_ =? PT_ETH); cbn [negb fst]; do 2 eexists; (split; [done|]);
    (split; [wc_length|split; [done|intros He]]); [|done].
  by rewrite (masked_agree f f' _ vlan0_tci VLAN_CFI He) by (reflexivity || solve_masked).
Qed.

Lemma is_ip_proto_inspects (p : Z) : inspects (fun f => is_ip_proto f p).
Proof.
  intros wc Hl. unfold is_ip_proto. rewrite is_ip_any_eq.
  destruct (is_ip_any f); cbn [option_map fst]; do 2 eexists; (split; [done|]);
    (split; [wc_length|split; [done|intros He]]); [|done].
  by member_eq nw_proto.
Qed.

Lemma is_icmpv4_inspects : inspects is_icmpv4.
Proof.
  intros wc Hl. unfold is_icmpv4. rewrite get_dl_type_eq.
  destruct (_ =? ETH_TYPE_IP); cbn [option_map fst]; do 2 eexists; (split; [done|]);
    (split; [wc_length|split; [done|intros He]]); [|done].
  by member_eq nw_proto.
Qed.

Lemma is_icmpv6_inspects : inspects is_icmpv6.
Proof.
  intros wc Hl. unfold is_icmpv6. rewrite get_dl_type_eq.
  destruct (_ =? ETH_TYPE_IPV6); cbn [option_map fst]; do 2 eexists; (split; [done|]);
    (split; [wc_length|split; [done|intros He]]); [|done].
  by member_eq nw_proto.
Qed.

Lemma is_ct_valid_inspects : inspects (fun f => is_ct_valid f None).
Proof.
  intros wc Hl. unfold is_ct_valid. cbn [option_map fst]. do 2 eexists. split; [done|].
  split; [wc_length|]. split; [done|]. intros He.
  by rewrite (masked_agree f f' _ ct_state CS_VALID_MASK He) by (reflexivity || solve_masked).
Qed.

(** [is_nd], followed by a test on [tp_src] that [is_nd] unwildcarded. *)
Lemma is_nd_inspects (P : Z -> bool) :
  inspects (fun f wc => let '(b, wc) := is_nd f wc in (b && P (flow_member f tp_src), wc)).
Proof.
  intros wc Hl. unfold is_nd, is_icmpv6. rewrite get_dl_type_eq.
  destruct (get_dl_type f =? ETH_TYPE_IPV6); cbn [option_map fst]; [|by exists false, wc].
  destruct (flow_member f nw_proto =? IPPROTO_ICMPV6) eqn:Ep.
  - destruct (flow_member f tp_dst =? 0) eqn:Ed; cbn [negb]; do 2 eexists; (split; [done|]);
      (split; [wc_length|split; [done|intros He]]).
    + rewrite <- (masked_agree_all f f' _ nw_proto He eq_refl), Ep by solve_masked.
      rewrite <- (masked_agree_all f f' _ tp_dst He eq_refl), Ed by solve_masked. cbn [negb].
      by rewrite <- (masked_agree_all f f' _ tp_src He eq_refl) by solve_masked.
    + rewrite <- (masked_agree_all f f' _ nw_proto He eq_refl), Ep by solve_masked.
      by rewrite <- (masked_agree_all f f' _ tp_dst He eq_refl), Ed by solve_masked.
  - exists false, (WC_MASK_FIELD wc nw_proto).
    split; [done|]. split; [wc_length|split; [done|intros He]].
    by rewrite <- (masked_agree_all f f' _ nw_proto He eq_refl), Ep by solve_masked.
Qed.

Lemma inspects_andb (t : flow -> option flow -> bool * option flow) (c : flow -> bool) :
  c f = c f' -> inspects t -> inspects (fun f wc => let '(b, wc) := t f wc in (b && c f, wc)).
Proof.
  intros Hc Ht wc Hl. destruct (Ht wc Hl) as (b & wc' & E & Hl' & En & Ha).
  exists (b && c f), wc'. rewrite E. split; [done|]. split; [done|].
  destruct (t f None) as [bn wn]. simpl in En. subst bn. split; [done|].
  intros He. specialize (Ha He). destruct (t f' None) as [b' w']. simpl in Ha |- *. by rewrite Ha, Hc.
Qed.

Lemma inspects_const (c : flow -> bool) : c f = c f' -> inspects (fun f wc => (c f, wc)).
Proof. intros Hc wc Hl. exists (c f), wc. by rewrite Hc. Qed.

End Inspect.

(** ** Properties *)

(** the prerequisite test unwildcards what it inspects.  If it answers [b] on
    a flow and leaves the wildcards [wc'], it answers [b] on every flow that
    agrees under [wc'] and on the packet type, the Ethernet type and the fragment
    flags, which the code takes as always matched. *)
Theorem prereqs_ok_unwildcards (mf : mf_field) (f f' wc : flow) :
  length wc = FLOW_U64S ->
  flow_member f packet_type = flow_member f' packet_type ->
  flow_member f dl_type = flow_member f' dl_type ->
  flow_member f nw_frag = flow_member f' nw_frag ->
  exists b wc', mf_are_prereqs_ok mf f (Some wc) = (b, Some wc') /\
    (flow_equal_except f f' wc' = true -> fst (mf_are_prereqs_ok mf f' None) = b).
Proof.
  intros Hl Hpt Hdl Hfr.
  enough (inspects f f' (mf_are_prereqs_ok mf)) as H.
  { destruct (H wc Hl) as (b & wc' & E & _ & _ & Ha). by exists b, wc'. }
  pose proof (get_dl_type_eq f f' Hpt Hdl) as Ht. pose proof (is_ip_any_eq f f' Hpt Hdl) as Hip.
  unfold mf_are_prereqs_ok, mf_are_prereqs_ok__. destruct (mff_prereqs mf);
    try (apply inspects_const; congruence);
    try (apply inspects_andb; [by rewrite Hfr|by apply is_ip_proto_inspects]).
  - by apply is_ethernet_inspects.
  - by apply is_vlan_inspects.
  - by apply is_icmpv4_inspects.
  - by apply is_icmpv6_inspects.
  - by apply is_ct_valid_inspects.
  - intros w Hw. destruct (is_nd_inspects f f' Hpt Hdl (fun _ => true) w Hw) as (b & wc' & E & Hl' & En & Ha).
    exists b, wc'. destruct (is_nd f (Some w)), (is_nd f None), (is_nd f' None). simpl in *.
    rewrite andb_true_r in *. by inversion E; subst.
  - by apply (is_nd_inspects f f' Hpt Hdl (fun p => p =? ND_NEIGHBOR_SOLICIT)).
  - by apply (is_nd_inspects f f' Hpt Hdl (fun p => p =? ND_NEIGHBOR_ADVERT)).
Qed.

Lemma prereqs_ok_unwildcards_witness :
  let f := flow_of [(60%nat, 0x0000000086dd0000); (74%nat, 58); (82%nat, 0x0087000000000000)] in
  let f' := flow_of [(60%nat, 0x0000000086dd0000); (74%nat, 58); (82%nat, 0x0087000000000007)] in
  exists b wc', mf_are_prereqs_ok (MfField 0 16 128 MFP_ND (Some 150%nat)) f (Some (flow_of [])) = (b, Some wc') /\
    (flow_equal_except f f' wc' = true ->
     fst (mf_are_prereqs_ok (MfField 0 16 128 MFP_ND (Some 150%nat)) f' None) = b).
Proof. apply prereqs_ok_unwildcards; by vm_compute. Defined.
