(* ===== verification/Trie.v ===== *)
(** * Prefix tries (lib/classifier.c, "A longest-prefix match tree")

    A trie stores, with a count, the prefixes of one field that occur in the
    rules.  Prefixes are arrays of [ovs_be32]; offsets count bits from the
    most significant bit of the first word.  Insertion, removal with pruning,
    and lookup are proved against the multiset of stored bit strings. *)

From S2P Require Import Prelude Util Flowmap Hash Miniflow MetaFlow.
From stdpp Require Import prelude list.
From Stdlib Require Import ZArith Lia.
Open Scope Z_scope.
Open Scope ovs_scope.

Definition TRIE_PREFIX_BITS : nat := 32.

(** [struct trie_node]; [TNull] is the null pointer. *)
Inductive trie :=
| TNull
| TNode (prefix : Z) (n_bits : nat) (n_rules : nat) (edge0 edge1 : trie).

(** ** Bits of prefixes *)

(** [pr] is an array of [ovs_be32]. *)
Definition raw_get_prefix (pr : list Z) (ofs plen : nat) : Z :=
  let k := (ofs / 32)%nat in
  let ofs := (ofs mod 32)%nat in
  let prefix := u32 (Z.shiftl (nth k pr 0) (Z.of_nat ofs)) in
  if (32 - ofs <? plen)%nat
  then Z.lor prefix (Z.shiftr (nth (k + 1) pr 0) (Z.of_nat (32 - ofs)))
  else prefix.

Definition trie_get_prefix (pr : list Z) (ofs plen : nat) : Z :=
  if (plen =? 0)%nat then 0
  else
    let plen := if (TRIE_PREFIX_BITS <? plen)%nat then TRIE_PREFIX_BITS else plen in
    Z.land (raw_get_prefix pr ofs plen) (u32 (Z.shiftl UINT32_MAX (Z.of_nat (32 - plen)))).

Definition prefix_equal_bits (prefix : Z) (n_bits : nat) (value : list Z) (ofs : nat) : nat :=
  let diff := Z.lxor prefix (raw_get_prefix value ofs n_bits) in
  Z.to_nat (raw_clz64 (Z.lor (u64 (Z.shiftl diff 32)) (u64 (Z.shiftl 1 (Z.of_nat (63 - n_bits)))))).

(** On a node; the offset never exceeds [plen]. *)
Definition trie_prefix_equal_bits (node_prefix : Z) (node_n_bits : nat) (prefix : list Z)
    (ofs plen : nat) : nat :=
  prefix_equal_bits node_prefix (Nat.min node_n_bits (plen - ofs)) prefix ofs.

(** The bytes of an array of [ovs_be32] are in network order. *)
Definition be_byte (value : list Z) (k : nat) : Z :=
  u8 (Z.shiftr (nth (k / 4) value 0) (24 - 8 * Z.of_nat (k mod 4))).

Definition be_get_bit_at (value : list Z) (ofs : nat) : bool :=
  negb (Z.land (Z.shiftr (be_byte value (ofs / 8)) (7 - Z.of_nat (ofs mod 8))) 1 =? 0).

Definition get_bit_at (prefix : Z) (ofs : nat) : bool :=
  negb (Z.land (Z.shiftr prefix (31 - Z.of_nat ofs)) 1 =? 0).

(** Or-ing a bit into byte [ofs / 8] of the array. *)
Definition be_set_bit_at (value : list Z) (ofs : nat) : list Z :=
  let k := (ofs / 8)%nat in
  <[(k / 4)%nat := Z.lor (nth (k / 4) value 0)
                     (Z.shiftl (Z.shiftl 1 (7 - Z.of_nat (ofs mod 8)))
                        (24 - 8 * Z.of_nat (k mod 4)))]> value.

(** ** Nodes *)

Definition edge (bit : bool) (e0 e1 : trie) : trie := if bit then e1 else e0.

Definition is_null (t : trie) : bool := match t with TNull => true | _ => false end.

Definition trie_is_leaf (e0 e1 : trie) : bool := is_null e0 && is_null e1.

(** A branch of one node, or of a chain of full nodes.  Each round takes
    [TRIE_PREFIX_BITS] bits, so [plen] rounds are enough. *)
Fixpoint trie_branch_create_loop (fuel : nat) (prefix : list Z) (ofs plen n_rules : nat) : trie :=
  match fuel with
  | O => TNull
  | S fuel =>
      if (plen <=? TRIE_PREFIX_BITS)%nat
      then TNode (trie_get_prefix prefix ofs plen) plen n_rules TNull TNull
      else
        let subnode := trie_branch_create_loop fuel prefix (ofs + TRIE_PREFIX_BITS)
                         (plen - TRIE_PREFIX_BITS) n_rules in
        let bit := match subnode with TNode p _ _ _ _ => get_bit_at p 0 | TNull => false end in
        TNode (trie_get_prefix prefix ofs plen) TRIE_PREFIX_BITS 0
          (if bit then TNull else subnode) (if bit then subnode else TNull)
  end.

Definition trie_branch_create (prefix : list Z) (ofs plen n_rules : nat) : trie :=
  trie_branch_create_loop (S plen) prefix ofs plen n_rules.

(** ** Insertion *)

(** The walk of [trie_insert_prefix] from the edge that holds [node]; the
    result is the new content of that edge. *)
Fixpoint trie_insert_walk (node : trie) (prefix : list Z) (ofs mlen : nat) : trie :=
  match node with
  | TNull => trie_branch_create prefix ofs (mlen - ofs) 1
  | TNode p n_bits n_rules e0 e1 =>
      let eqbits := trie_prefix_equal_bits p n_bits prefix ofs mlen in
      let ofs' := (ofs + eqbits)%nat in
      if (eqbits <? n_bits)%nat then
        let old_branch := get_bit_at p eqbits in
        let node := TNode (u32 (Z.shiftl p (Z.of_nat eqbits))) (n_bits - eqbits) n_rules e0 e1 in
        let other :=
          if (ofs' <? mlen)%nat then trie_branch_create prefix ofs' (mlen - ofs') 1 else TNull in
        match trie_branch_create prefix (ofs' - eqbits) eqbits (if (ofs' =? mlen)%nat then 1 else 0) with
        | TNode pp pn pr _ _ =>
            TNode pp pn pr (if old_branch then other else node) (if old_branch then node else other)
        | TNull => TNull
        end
      else if (ofs' =? mlen)%nat then TNode p n_bits (n_rules + 1) e0 e1
      else if be_get_bit_at prefix ofs'
      then TNode p n_bits n_rules e0 (trie_insert_walk e1 prefix ofs' mlen)
      else TNode p n_bits n_rules (trie_insert_walk e0 prefix ofs' mlen) e1
  end.

Definition trie_insert_prefix (root : trie) (prefix : list Z) (mlen : nat) : trie :=
  trie_insert_walk root prefix 0 mlen.

(** ** Removal *)

(** A node on the path to the current edge, with the side the path takes. *)
Record frame := Frame {
  fr_prefix : Z; fr_n_bits : nat; fr_n_rules : nat; fr_edge0 : trie; fr_edge1 : trie; fr_bit : bool
}.

(** Storing into the edge that a frame's path takes. *)
Definition set_edge (f : frame) (t : trie) : trie :=
  if fr_bit f then TNode (fr_prefix f) (fr_n_bits f) (fr_n_rules f) (fr_edge0 f) t
  else TNode (fr_prefix f) (fr_n_bits f) (fr_n_rules f) t (fr_edge1 f).

(** The trie with [t] at the end of the path [edges[depth], ..., edges[0]]. *)
Fixpoint plug (path : list frame) (t : trie) : trie :=
  match path with
  | [] => t
  | f :: path => plug path (set_edge f t)
  end.

(** The walk of [trie_remove_prefix]: the path to the node that holds exactly
    the prefix, and the node.  [path] stands for [edges[1..depth]]. *)
Fixpoint trie_remove_walk (node : trie) (path : list frame) (prefix : list Z) (ofs mlen : nat)
  : list frame * option trie :=
  match node with
  | TNull => (path, None)
  | TNode p n_bits n_rules e0 e1 =>
      let eqbits := trie_prefix_equal_bits p n_bits prefix ofs mlen in
      if (eqbits <? n_bits)%nat then (path, None)
      else
        let ofs := (ofs + eqbits)%nat in
        if (ofs =? mlen)%nat then (path, Some node)
        else
          let bit := be_get_bit_at prefix ofs in
          let path := Frame p n_bits n_rules e0 e1 bit :: path in
          if bit then trie_remove_walk e1 path prefix ofs mlen
          else trie_remove_walk e0 path prefix ofs mlen
  end.

(** The pruning loop; the result is the new trie. *)
Fixpoint trie_prune (path : list frame) (p : Z) (n_bits n_rules : nat) (e0 e1 : trie) : trie :=
  if negb (n_rules =? 0)%nat then plug path (TNode p n_bits n_rules e0 e1)
  else
    let next := if is_null e0 then e1 else e0 in
    if negb (is_null e0) && negb (is_null e1) then plug path (TNode p n_bits n_rules e0 e1)
    else
      match next with
      | TNode np nn nr ne0 ne1 =>
          if (TRIE_PREFIX_BITS <? n_bits + nn)%nat then plug path (TNode p n_bits n_rules e0 e1)
          else plug path (TNode (Z.lor p (Z.shiftr np (Z.of_nat n_bits))) (nn + n_bits) nr ne0 ne1)
      | TNull =>
          match path with
          | [] => TNull
          | f :: path =>
              if fr_bit f then trie_prune path (fr_prefix f) (fr_n_bits f) (fr_n_rules f) (fr_edge0 f) TNull
              else trie_prune path (fr_prefix f) (fr_n_bits f) (fr_n_rules f) TNull (fr_edge1 f)
          end
      end.

Definition trie_remove_prefix (root : trie) (prefix : list Z) (mlen : nat) : trie :=
  match trie_remove_walk root [] prefix 0 mlen with
  | (path, Some (TNode p n_bits n_rules e0 e1)) =>
      if (n_rules =? 0)%nat then root
      else trie_prune path p n_bits (n_rules - 1) e0 e1
  | _ => root
  end.

(** The number of entries of [edges[]] that the walk writes. *)
Definition edges_used (root : trie) (prefix : list Z) (mlen : nat) : nat :=
  S (length (fst (trie_remove_walk root [] prefix 0 mlen))).

(** [sizeof(union trie_prefix) * CHAR_BIT], the size of [edges[]]. *)
Definition N_EDGES : nat := 128.

(** ** Lookup *)

(** The loop of [trie_lookup_value]; [at_end] is [!prev || trie_is_leaf(prev)]. *)
Fixpoint trie_lookup_loop (node : trie) (at_end : bool) (value : list Z) (plens : list Z)
    (match_len n_bits : nat) : nat * list Z :=
  match node with
  | TNull => (if at_end then match_len else (match_len + 1)%nat, plens)
  | TNode p n n_rules e0 e1 =>
      let eqbits := prefix_equal_bits p n value match_len in
      let match_len := (match_len + eqbits)%nat in
      if (eqbits <? n)%nat then ((match_len + 1)%nat, plens)
      else
        let plens := if (0 <? n_rules)%nat then be_set_bit_at plens (match_len - 1) else plens in
        if (n_bits <=? match_len)%nat then (n_bits, plens)
        else if be_get_bit_at value match_len
        then trie_lookup_loop e1 (trie_is_leaf e0 e1) value plens match_len n_bits
        else trie_lookup_loop e0 (trie_is_leaf e0 e1) value plens match_len n_bits
  end.

Definition trie_lookup_value (root : trie) (value : list Z) (plens : list Z) (n_bits : nat) : nat * list Z :=
  trie_lookup_loop root true value plens 0 n_bits.

(** [struct cls_trie]: the field and the root. *)
Record cls_trie := ClsTrie { ct_field : option mf_field; ct_root : trie }.

Definition be32ofs_of (mf : mf_field) : nat := default 0%nat (mff_flow_be32ofs mf).

(** The words of the flow from offset [ofs] on: [&((ovs_be32 * )flow)[ofs]]. *)
Definition flow_be32s (f : flow) (ofs n : nat) : list Z := map (flow_be32 f) (seq ofs n).

(** [union trie_prefix] is four words. *)
Definition plens_zero : list Z := replicate 4 0.
Definition plens_all : list Z := replicate 4 UINT32_MAX.

Definition trie_lookup (mf : mf_field) (root : trie) (f : flow) (plens : list Z) : nat * list Z :=
  if fst (mf_are_prereqs_ok mf f None)
  then trie_lookup_value root (flow_be32s f (be32ofs_of mf) (mff_n_bytes mf / 4)) plens (mff_n_bits mf)
  else (0%nat, plens_all).

(** ** Prefixes of masks and matches *)

(** One step of the loop of [minimask_get_prefix_len]; [None] is its early return of 0. *)
Definition prefix_len_step (st : option (nat * Z)) (mask : Z) : option (nat * Z) :=
  match st with
  | None => None
  | Some (n_bits, mask_tz) =>
      if negb (mask_tz =? 0) then (if mask =? 0 then st else None)
      else
        let inv := u32 (Z.lnot mask) in
        if negb (Z.land inv (u32 (inv + 1)) =? 0) then None
        else
          let mask_tz := ctz32 mask in
          Some ((n_bits + Z.to_nat (32 - mask_tz))%nat, mask_tz)
  end.

Definition minimask_get_prefix_len (mask : minimask) (mf : mf_field) : nat :=
  let words := map (miniflow_get_be32 mask) (seq (be32ofs_of mf) (mff_n_bytes mf / 4)) in
  match foldl prefix_len_step (Some (0%nat, 0)) words with
  | Some (n_bits, _) => n_bits
  | None => 0%nat
  end.

(** The words of the rule's flow that the prefix pointer reaches.  The C pointer
    runs on into the next values; the mask being CIDR, the words of the field
    that are read are stored next to each other. *)
Definition minimatch_get_prefix (m : minimatch) (mf : mf_field) : list Z :=
  let u64_ofs := (be32ofs_of mf / 2)%nat in
  let vs := skipn (miniflow_get__ (mm_flow m) u64_ofs) (mf_values (mm_flow m)) in
  skipn (be32ofs_of mf mod 2)
    (concat (map (fun v => [Z.shiftr v 32; u32 v]) vs)).

Definition trie_insert (t : cls_trie) (m : minimatch) (mlen : nat) : cls_trie :=
  match ct_field t with
  | Some mf => ClsTrie (ct_field t) (trie_insert_prefix (ct_root t) (minimatch_get_prefix m mf) mlen)
  | None => t
  end.

Definition trie_remove (t : cls_trie) (m : minimatch) (mlen : nat) : cls_trie :=
  match ct_field t with
  | Some mf => ClsTrie (ct_field t) (trie_remove_prefix (ct_root t) (minimatch_get_prefix m mf) mlen)
  | None => t
  end.

(** ** Prefix bits of wildcards *)

Definition mask_set_prefix_bits (wc : flow) (be32ofs n_bits : nat) : flow :=
  let wc := foldl (fun wc i => flow_set_be32 wc (be32ofs + i) UINT32_MAX) wc (seq 0 (n_bits / 32)) in
  if negb (n_bits mod 32 =? 0)%nat then
    let i := (be32ofs + n_bits / 32)%nat in
    flow_set_be32 wc i
      (Z.lor (flow_be32 wc i) (u32 (Z.shiftl UINT32_MAX (Z.of_nat (32 - n_bits mod 32)))))
  else wc.

Definition mask_prefix_bits_set (wc : flow) (be32ofs n_bits : nat) : bool :=
  let zeroes := foldl (fun zeroes i => Z.lor zeroes (u32 (Z.lnot (flow_be32 wc (be32ofs + i))))) 0
                  (seq 0 (n_bits / 32)) in
  let zeroes :=
    if negb (n_bits mod 32 =? 0)%nat then
      Z.lor zeroes (Z.land (u32 (Z.lnot (flow_be32 wc (be32ofs + n_bits / 32))))
                      (u32 (Z.shiftl UINT32_MAX (Z.of_nat (32 - n_bits mod 32)))))
    else zeroes in
  zeroes =? 0.

(** ** Specification: bit strings *)

(** Bit [i] of an array of [ovs_be32]. *)
Definition vbit (value : list Z) (i : nat) : bool :=
  Z.testbit (nth (i / 32) value 0) (31 - Z.of_nat (i mod 32)).

Definition vbits (value : list Z) (ofs len : nat) : list bool := map (vbit value) (seq ofs len).

(** Bit [j] of a node's prefix, and its first [n] bits. *)
Definition pbit (p : Z) (j : nat) : bool := Z.testbit p (31 - Z.of_nat j).
Definition pbits (p : Z) (n : nat) : list bool := map (pbit p) (seq 0 n).

Definition be32s_wf (value : list Z) : Prop := Forall (in_width 32) value.

(** The number of times that the trie holds the bit string [b]. *)
Fixpoint tcount (t : trie) (b : list bool) : nat :=
  match t with
  | TNull => 0
  | TNode p n r e0 e1 =>
      if bool_decide (take n b = pbits p n)
      then match drop n b with
           | [] => r
           | c :: _ => tcount (if c then e1 else e0) (drop n b)
           end
      else 0
  end.

(** A prefix has no bits beyond its length. *)
Definition pfx_ok (p : Z) (n : nat) : Prop :=
  in_width 32 p /\ forall j, (n <= j < 32)%nat -> pbit p j = false.

(** The first bit of a child is the edge it hangs on. *)
Definition first_bit (t : trie) (b : bool) : Prop :=
  match t with TNull => True | TNode p _ _ _ _ => pbit p 0 = b end.

(** Well-formed tries: at most [TRIE_PREFIX_BITS] bits per node, none only in a
    root without rules, and children on the right edges. *)
Fixpoint twf (root : bool) (t : trie) : Prop :=
  match t with
  | TNull => True
  | TNode p n r e0 e1 =>
      (n <= TRIE_PREFIX_BITS)%nat /\ (n = 0%nat -> root = true /\ r = 0%nat) /\ pfx_ok p n /\
      twf false e0 /\ first_bit e0 false /\ twf false e1 /\ first_bit e1 true
  end.

(** The longest path, in bits. *)
Fixpoint theight (t : trie) : nat :=
  match t with
  | TNull => 0
  | TNode _ n _ e0 e1 => n + Nat.max (theight e0) (theight e1)
  end.

(** ** Bits *)

Lemma word_width (value : list Z) (k : nat) : be32s_wf value -> in_width 32 (nth k value 0).
Proof. intros H. apply nth_Forall; [done|]. unfold in_width. lia. Qed.

Lemma div_mod_32_add (ofs j : nat) :
  (j < 32)%nat ->
  ((ofs mod 32 + j < 32)%nat /\ ((ofs + j) / 32 = ofs / 32)%nat /\ ((ofs + j) mod 32 = ofs mod 32 + j)%nat) \/
  ((32 <= ofs mod 32 + j)%nat /\ ((ofs + j) / 32 = ofs / 32 + 1)%nat /\
   ((ofs + j) mod 32 = ofs mod 32 + j - 32)%nat).
Proof.
  intros Hj. pose proof (Nat.div_mod_eq ofs 32). pose proof (Nat.mod_upper_bound ofs 32).
  destruct (decide (ofs mod 32 + j < 32)%nat); [left|right]; (split; [lia|]).
  - assert ((ofs + j) / 32 = ofs / 32)%nat as E by (symmetry; apply (Nat.div_unique _ 32 _ (ofs mod 32 + j)); lia).
    split; [done|]. pose proof (Nat.div_mod_eq (ofs + j) 32). lia.
  - assert ((ofs + j) / 32 = ofs / 32 + 1)%nat as E
      by (symmetry; apply (Nat.div_unique _ 32 _ (ofs mod 32 + j - 32)); lia).
    split; [done|]. pose proof (Nat.div_mod_eq (ofs + j) 32). lia.
Qed.

(** [raw_get_prefix] reads the bits of the value from [ofs] on. *)
Lemma raw_get_prefix_bit (pr : list Z) (ofs plen j : nat) :
  be32s_wf pr -> (plen <= 32)%nat -> (j < plen)%nat ->
  pbit (raw_get_prefix pr ofs plen) j = vbit pr (ofs + j).
Proof.
  intros Hwf Hp Hj. unfold pbit, vbit, raw_get_prefix.
  pose proof (word_width pr (ofs / 32) Hwf) as W0. pose proof (word_width pr (ofs / 32 + 1) Hwf) as W1.
  pose proof (Nat.mod_upper_bound ofs 32 ltac:(lia)) as Ho.
  destruct (div_mod_32_add ofs j ltac:(lia)) as [(Hlt & -> & ->)|(Hge & -> & ->)].
  - assert (Z.testbit (u32 (Z.shiftl (nth (ofs / 32) pr 0) (Z.of_nat (ofs mod 32)))) (31 - Z.of_nat j) =
            Z.testbit (nth (ofs / 32) pr 0) (31 - Z.of_nat (ofs mod 32 + j))) as E.
    { rewrite wrap_testbit, Z.shiftl_spec by lia. destruct (Z.ltb_spec (31 - Z.of_nat j) 32); [|lia].
      simpl. f_equal. lia. }
    destruct (Nat.ltb_spec (32 - ofs mod 32) plen); [|done].
    rewrite Z.lor_spec, E, Z.shiftr_spec by lia. rewrite (in_width_high 32 (nth (ofs / 32 + 1) pr 0)) by (done || lia).
    apply orb_false_r.
  - destruct (Nat.ltb_spec (32 - ofs mod 32) plen); [|lia].
    rewrite Z.lor_spec, wrap_testbit, Z.shiftl_spec, Z.shiftr_spec by lia.
    rewrite (Z.testbit_neg_r (nth (ofs / 32) pr 0)) by lia. rewrite andb_false_r, orb_false_l. f_equal. lia.
Qed.

Lemma raw_get_prefix_width (pr : list Z) (ofs plen : nat) :
  be32s_wf pr -> in_width 32 (raw_get_prefix pr ofs plen).
Proof.
  intros Hwf. unfold raw_get_prefix. destruct (_ <? _)%nat; [|apply wrap_width; lia].
  apply in_width_lor; [lia|apply wrap_width; lia|].
  apply in_width_shiftr; [lia|lia|by apply word_width].
Qed.

(** [~0u << (32 - n)] *)
Lemma high_mask_bit (n j : nat) :
  (j < 32)%nat -> (n <= 32)%nat ->
  pbit (u32 (Z.shiftl UINT32_MAX (Z.of_nat (32 - n)))) j = (j <? n)%nat.
Proof.
  intros Hj Hn. unfold pbit. rewrite wrap_testbit, Z.shiftl_spec, UINT32_MAX_ones by lia.
  destruct (Z.ltb_spec (31 - Z.of_nat j) 32); [|lia]. simpl.
  destruct (Nat.ltb_spec j n).
  - rewrite testbit_ones by lia. destruct (Z.ltb_spec (31 - Z.of_nat j - Z.of_nat (32 - n)) 32); [done|lia].
  - apply Z.testbit_neg_r. lia.
Qed.

Lemma trie_get_prefix_bit (pr : list Z) (ofs plen j : nat) :
  be32s_wf pr -> (j < 32)%nat ->
  pbit (trie_get_prefix pr ofs plen) j = (j <? plen)%nat && vbit pr (ofs + j).
Proof.
  intros Hwf Hj. unfold trie_get_prefix. destruct (Nat.eqb_spec plen 0) as [->|Hp].
  { unfold pbit. apply Z.bits_0. }
  cbn zeta. set (n := if (TRIE_PREFIX_BITS <? plen)%nat then TRIE_PREFIX_BITS else plen).
  assert (n = Nat.min 32 plen) as En by (unfold n, TRIE_PREFIX_BITS; destruct (Nat.ltb_spec 32 plen); lia).
  unfold pbit at 1. rewrite Z.land_spec. fold (pbit (raw_get_prefix pr ofs n) j).
  fold (pbit (u32 (Z.shiftl UINT32_MAX (Z.of_nat (32 - n)))) j).
  rewrite high_mask_bit by lia. destruct (Nat.ltb_spec j n), (Nat.ltb_spec j plen); try lia.
  by rewrite andb_true_r, raw_get_prefix_bit by (done || lia).
Qed.

Lemma trie_get_prefix_width (pr : list Z) (ofs plen : nat) :
  be32s_wf pr -> in_width 32 (trie_get_prefix pr ofs plen).
Proof.
  intros Hwf. unfold trie_get_prefix. destruct (_ =? 0)%nat; [unfold in_width; lia|].
  apply in_width_land; [lia|by apply raw_get_prefix_width|]. apply wrap_width. lia.
Qed.

(** [prefix_equal_bits] is the length of the common prefix. *)
Lemma prefix_equal_bits_spec (p : Z) (n : nat) (value : list Z) (ofs : nat) :
  in_width 32 p -> be32s_wf value -> (n <= 32)%nat ->
  let k := prefix_equal_bits p n value ofs in
  (k <= n)%nat /\ (forall j, (j < k)%nat -> pbit p j = vbit value (ofs + j)) /\
  ((k < n)%nat -> pbit p k = negb (vbit value (ofs + k))).
Proof.
  intros Hp Hv Hn k.
  set (diff := Z.lxor p (raw_get_prefix value ofs n)).
  set (X := Z.lor (u64 (Z.shiftl diff 32)) (u64 (Z.shiftl 1 (Z.of_nat (63 - n))))).
  assert (in_width 32 diff) as Hd by (apply in_width_lxor; [lia|done|by apply raw_get_prefix_width]).
  assert (forall j, (j <= 63)%nat -> Z.testbit X (63 - Z.of_nat j) =
            ((j <? 32)%nat && Z.testbit diff (31 - Z.of_nat j)) || (j =? n)%nat) as HX.
  { intros j Hj. unfold X. rewrite Z.lor_spec, !wrap_testbit, !Z.shiftl_spec, testbit_1 by lia.
    destruct (Z.ltb_spec (63 - Z.of_nat j) 64); [|lia]. rewrite !andb_true_l. f_equal.
    - destruct (Nat.ltb_spec j 32); [simpl; f_equal; lia|]. apply Z.testbit_neg_r. lia.
    - destruct (Nat.eqb_spec j n), (Z.eqb_spec (63 - Z.of_nat j - Z.of_nat (63 - n)) 0); lia. }
  assert (in_width 64 X) as HXw by (apply in_width_lor; [lia|apply wrap_width; lia..]).
  assert (Z.testbit X (63 - Z.of_nat n) = true) as Hn1.
  { rewrite HX by lia. by rewrite Nat.eqb_refl, orb_true_r. }
  assert (0 < X) as Hpos.
  { destruct (decide (X = 0)) as [E|]; [by rewrite E, Z.bits_0 in Hn1|]. unfold in_width in HXw. lia. }
  assert (Z.log2 X < 64) as Hlog by (apply Z.log2_lt_pow2; [done|apply HXw]).
  assert (63 - Z.of_nat n <= Z.log2 X) as Hlow.
  { destruct (Z.lt_ge_cases (Z.log2 X) (63 - Z.of_nat n)) as [H|]; [|done].
    rewrite Z.bits_above_log2 in Hn1; [done|lia|done]. }
  assert (k = Z.to_nat (63 - Z.log2 X)) as Hk
    by (unfold k, prefix_equal_bits; fold diff; fold X; by rewrite raw_clz64_log2).
  assert (forall j, (j < n)%nat -> Z.testbit diff (31 - Z.of_nat j) =
            xorb (pbit p j) (vbit value (ofs + j))) as Hdiff.
  { intros j Hj. unfold diff. rewrite Z.lxor_spec. f_equal. by apply raw_get_prefix_bit. }
  assert (k <= n)%nat as Hkn by lia. split_and!; [done| |].
  - intros j Hj. pose proof (HX j ltac:(lia)) as E. rewrite Z.bits_above_log2 in E by lia.
    symmetry in E. apply orb_false_elim in E as [E _]. rewrite Hdiff in E by lia.
    destruct (Nat.ltb_spec j 32); [|lia]. by apply xorb_eq.
  - intros Hlt. pose proof (HX k ltac:(lia)) as E.
    replace (63 - Z.of_nat k) with (Z.log2 X) in E by lia. rewrite Z.bit_log2 in E by lia.
    symmetry in E. rewrite Hdiff in E by lia.
    destruct (Nat.eqb_spec k n); [lia|]. rewrite orb_false_r in E.
    apply andb_prop in E as [_ E]. by destruct (pbit p k), (vbit value (ofs + k)).
Qed.

(** ** Bit strings *)

Lemma length_pbits (p : Z) (n : nat) : length (pbits p n) = n.
Proof. unfold pbits. by rewrite length_map, length_seq. Qed.

Lemma length_vbits (v : list Z) (ofs n : nat) : length (vbits v ofs n) = n.
Proof. unfold vbits. by rewrite length_map, length_seq. Qed.

Lemma vbits_app (v : list Z) (ofs a b : nat) :
  vbits v ofs (a + b) = vbits v ofs a ++ vbits v (ofs + a) b.
Proof. unfold vbits. by rewrite seq_app, map_app. Qed.

Lemma vbits_S (v : list Z) (ofs n : nat) : vbits v ofs (S n) = vbit v ofs :: vbits v (S ofs) n.
Proof. done. Qed.

Lemma pbits_vbits (p : Z) (n : nat) (v : list Z) (ofs : nat) :
  pbits p n = vbits v ofs n <-> forall j, (j < n)%nat -> pbit p j = vbit v (ofs + j).
Proof.
  unfold pbits, vbits. rewrite <- (Nat.add_0_r ofs) at 1. rewrite <- seq_add_map, map_map.
  rewrite map_ext_in_iff. setoid_rewrite in_seq. split; intros H j Hj; apply H; lia.
Qed.

Lemma pbits_ext (p q : Z) (n : nat) :
  pbits p n = pbits q n <-> forall j, (j < n)%nat -> pbit p j = pbit q j.
Proof. unfold pbits. rewrite map_ext_in_iff. setoid_rewrite in_seq. split; intros H j Hj; apply H; lia. Qed.

Lemma pbit_shiftl (p : Z) (k j : nat) :
  (j < 32)%nat -> pbit (u32 (Z.shiftl p (Z.of_nat k))) j = pbit p (k + j).
Proof.
  intros Hj. unfold pbit. rewrite wrap_testbit, Z.shiftl_spec by lia.
  destruct (Z.ltb_spec (31 - Z.of_nat j) 32); [|lia]. simpl. f_equal. lia.
Qed.

Lemma pbits_app (p : Z) (k m : nat) :
  (m <= 32)%nat -> pbits p (k + m) = pbits p k ++ pbits (u32 (Z.shiftl p (Z.of_nat k))) m.
Proof.
  intros Hm. unfold pbits. rewrite seq_app, map_app. f_equal. simpl.
  rewrite <- (Nat.add_0_r k) at 1. rewrite <- seq_add_map, map_map. apply map_ext_in.
  intros j Hj%in_seq. by rewrite pbit_shiftl by lia.
Qed.

Lemma take_add {A} (a b : nat) (l : list A) : take (a + b) l = take a l ++ take b (drop a l).
Proof. revert l. induction a as [|a IH]; intros [|x l]; simpl; rewrite ?take_nil; [done..|]. by rewrite IH. Qed.

Lemma take_app_eq {A} (a b : nat) (l x y : list A) :
  length x = a -> length y = b ->
  take (a + b) l = x ++ y <-> take a l = x /\ take b (drop a l) = y.
Proof.
  intros Hx Hy. rewrite take_add. split; [|by intros [-> ->]].
  intros E. assert (length (take a l) = a) as Hl.
  { pose proof (f_equal length E) as El. rewrite !length_app, !length_take, length_drop in El.
    rewrite length_take. lia. }
  apply app_inj_1 in E; [done|]. by rewrite Hl, Hx.
Qed.

(** ** Counting *)

(** Splitting a node after [k] bits. *)
Lemma tcount_split (p : Z) (n r k : nat) (e0 e1 : trie) (b : list bool) :
  (k < n)%nat -> (n <= 32)%nat ->
  tcount (TNode p n r e0 e1) b =
  if bool_decide (take k b = pbits p k)
  then tcount (TNode (u32 (Z.shiftl p (Z.of_nat k))) (n - k) r e0 e1) (drop k b) else 0%nat.
Proof.
  intros Hk Hn. assert (exists m, n = k + m)%nat as [m ->] by (exists (n - k)%nat; lia).
  replace (k + m - k)%nat with m by lia. cbn [tcount]. rewrite drop_drop, pbits_app by lia.
  pose proof (take_app_eq k m b _ _ (length_pbits p k)
    (length_pbits (u32 (Z.shiftl p (Z.of_nat k))) m)) as Hiff.
  repeat case_bool_decide; tauto.
Qed.

Lemma tcount_nil (t : trie) : twf false t -> tcount t [] = 0%nat.
Proof.
  destruct t as [|p n r e0 e1]; [done|]. intros (_ & Hn & _). cbn [tcount].
  rewrite take_nil. case_bool_decide as E; [|done].
  pose proof (f_equal length E) as El. rewrite length_pbits in El. simpl in El. by destruct (Hn (eq_sym El)).
Qed.

Lemma pbits_cons (p : Z) (n : nat) : (0 < n)%nat -> exists l, pbits p n = pbit p 0 :: l.
Proof. intros H. destruct n as [|n]; [lia|]. by eexists. Qed.

Lemma tcount_first_bit (t : trie) (b : bool) (c : bool) (l : list bool) :
  twf false t -> first_bit t b -> c <> b -> tcount t (c :: l) = 0%nat.
Proof.
  destruct t as [|p n r e0 e1]; [done|]. intros (_ & Hn & _) Hb Hc. cbn [tcount].
  case_bool_decide as E; [|done]. exfalso. simpl in Hb.
  destruct (decide (n = 0)%nat) as [->|Hn0]; [by destruct (Hn eq_refl)|].
  destruct (pbits_cons p n) as [l' Hl']; [lia|]. rewrite Hl' in E.
  destruct n as [|n]; [lia|]. rewrite firstn_cons in E. by inversion E; subst.
Qed.

(** The count below the edge that [c] selects. *)
Lemma tcount_TNode (p : Z) (n r : nat) (e0 e1 : trie) (b l : list bool) :
  b = pbits p n ++ l ->
  tcount (TNode p n r e0 e1) b =
  match l with [] => r | c :: _ => tcount (if c then e1 else e0) l end.
Proof.
  intros ->. cbn [tcount].
  rewrite (take_app_length' _ _ n), (drop_app_length' _ _ n) by (symmetry; apply length_pbits).
  by rewrite bool_decide_eq_true_2.
Qed.

Lemma tcount_TNode_ne (p : Z) (n r : nat) (e0 e1 : trie) (b : list bool) :
  (forall l, b <> pbits p n ++ l) -> tcount (TNode p n r e0 e1) b = 0%nat.
Proof.
  intros H. cbn [tcount]. case_bool_decide as E; [|done].
  exfalso. apply (H (drop n b)). by rewrite <- E, take_drop.
Qed.

Lemma starts_dec (b s : list bool) : (exists l, b = s ++ l) \/ (forall l, b <> s ++ l).
Proof.
  destruct (decide (take (length s) b = s)) as [E|E].
  - left. exists (drop (length s) b). by rewrite <- E at 1; rewrite take_drop.
  - right. intros l ->. apply E. by rewrite take_app_length.
Qed.

(** ** Branches *)

Lemma get_prefix_bits (pr : list Z) (ofs plen n : nat) :
  be32s_wf pr -> (n <= plen)%nat -> (n <= 32)%nat ->
  pbits (trie_get_prefix pr ofs plen) n = vbits pr ofs n.
Proof.
  intros Hwf Hn Hn32. apply pbits_vbits. intros j Hj. rewrite trie_get_prefix_bit by (done || lia).
  destruct (Nat.ltb_spec j plen); [done|lia].
Qed.

Lemma get_prefix_ok (pr : list Z) (ofs plen : nat) :
  be32s_wf pr -> pfx_ok (trie_get_prefix pr ofs plen) (Nat.min plen 32).
Proof.
  intros Hwf. split; [by apply trie_get_prefix_width|]. intros j Hj.
  rewrite trie_get_prefix_bit by (done || lia). destruct (Nat.ltb_spec j plen); [lia|done].
Qed.

(** What a branch created for a prefix is. *)
Record branch_ok (t : trie) (pr : list Z) (ofs plen r : nat) : Prop := {
  bo_node : exists r' e0 e1, t = TNode (trie_get_prefix pr ofs plen) (Nat.min plen 32) r' e0 e1 /\
    ((plen <= 32)%nat -> r' = r /\ e0 = TNull /\ e1 = TNull);
  bo_wf : twf (plen =? 0)%nat t;
  bo_height : theight t = plen;
  bo_count : forall b, tcount t b = if bool_decide (b = vbits pr ofs plen) then r else 0%nat
}.

Lemma branch_leaf_ok (pr : list Z) (ofs plen r : nat) :
  be32s_wf pr -> (plen <= 32)%nat -> (plen = 0%nat -> r = 0%nat) ->
  branch_ok (TNode (trie_get_prefix pr ofs plen) plen r TNull TNull) pr ofs plen r.
Proof.
  intros Hwf Hp Hr. assert (Nat.min plen 32 = plen) as Em by lia. split.
  - exists r, TNull, TNull. by rewrite Em.
  - cbn [twf first_bit]. split_and!; try done.
    + intros ->. by rewrite Hr.
    + rewrite <- Em at 2. by apply get_prefix_ok.
  - cbn. lia.
  - intros b. destruct (starts_dec b (vbits pr ofs plen)) as [[l ->]|Hne].
    + rewrite (tcount_TNode _ _ _ _ _ _ l) by (by rewrite get_prefix_bits).
      destruct l as [|c l]; [by rewrite app_nil_r, bool_decide_eq_true_2|].
      rewrite bool_decide_eq_false_2; [by destruct c|].
      intros E. apply (f_equal length) in E. rewrite length_app in E. simpl in E. lia.
    + rewrite tcount_TNode_ne by (by rewrite get_prefix_bits).
      rewrite bool_decide_eq_false_2; [done|]. intros ->. apply (Hne []). by rewrite app_nil_r.
Qed.

Lemma branch_create_loop_ok (fuel : nat) (pr : list Z) (ofs plen r : nat) :
  be32s_wf pr -> (plen < fuel)%nat -> (plen = 0%nat -> r = 0%nat) ->
  branch_ok (trie_branch_create_loop fuel pr ofs plen r) pr ofs plen r.
Proof.
  revert ofs plen. induction fuel as [|fuel IH]; intros ofs plen Hwf Hf Hr; [lia|].
  cbn [trie_branch_create_loop]. unfold TRIE_PREFIX_BITS.
  destruct (Nat.leb_spec plen 32); [by apply branch_leaf_ok|].
  destruct (IH (ofs + 32)%nat (plen - 32)%nat Hwf ltac:(lia) ltac:(lia))
    as [(r' & e0 & e1 & Et & _) Hw Hh Hc].
  set (t := trie_branch_create_loop _ _ _ _ _) in *.
  replace (plen - 32 =? 0)%nat with false in Hw by (symmetry; apply Nat.eqb_neq; lia).
  set (bit := match t with TNull => _ | TNode _ _ _ _ _ => _ end).
  assert (first_bit t bit) as Hb.
  { unfold bit. rewrite Et. cbn [first_bit]. unfold get_bit_at, pbit. rewrite Z.land_comm.
    change (1) with (2 ^ 0) at 1. rewrite Z.land_comm, land_single_bit, Z.shiftr_spec by lia. done. }
  assert (Nat.min plen 32 = 32%nat) as Em by lia. split.
  - do 3 eexists. rewrite Em. split; [done|lia].
  - replace (plen =? 0)%nat with false by (symmetry; apply Nat.eqb_neq; lia).
    pose proof (get_prefix_ok pr ofs plen Hwf) as Hok. rewrite Em in Hok.
    cbn [twf]. split_and!; try (by destruct bit); done.
  - cbn [theight]. destruct bit; cbn [theight]; lia.
  - intros b. assert (vbits pr ofs plen = vbits pr ofs 32 ++ vbits pr (ofs + 32) (plen - 32)) as ->
      by (rewrite <- vbits_app; f_equal; lia).
    destruct (starts_dec b (vbits pr ofs 32)) as [[l ->]|Hne].
    + rewrite (tcount_TNode _ _ _ _ _ _ l) by (rewrite get_prefix_bits; (done || lia)).
      assert (tcount t l = if bool_decide (vbits pr ofs 32 ++ l = vbits pr ofs 32 ++ vbits pr (ofs + 32) (plen - 32))
                           then r else 0%nat) as <-.
      { rewrite Hc. case_bool_decide as E; [by rewrite E, bool_decide_eq_true_2|].
        rewrite bool_decide_eq_false_2; [done|]. intros E'. by apply app_inv_head in E'. }
      destruct l as [|c l]; [by rewrite tcount_nil|].
      destruct (decide (c = bit)) as [->|Hcb]; [by destruct bit|].
      rewrite (tcount_first_bit t bit c) by done. by destruct c, bit.
    + rewrite tcount_TNode_ne by (rewrite get_prefix_bits; (done || lia)).
      rewrite bool_decide_eq_false_2; [done|]. intros ->. by eapply Hne.
Qed.

Lemma branch_create_ok (pr : list Z) (ofs plen r : nat) :
  be32s_wf pr -> (plen = 0%nat -> r = 0%nat) ->
  branch_ok (trie_branch_create pr ofs plen r) pr ofs plen r.
Proof. intros Hwf Hr. apply branch_create_loop_ok; [done|lia|done]. Qed.

(** ** Reading and setting single bits *)

Lemma div_mod_8_32 (ofs : nat) :
  (ofs / 8 / 4 = ofs / 32)%nat /\ (8 * ((ofs / 8) mod 4) + ofs mod 8 = ofs mod 32)%nat.
Proof.
  split; [by rewrite Nat.Div0.div_div|].
  pose proof (Nat.Div0.mod_mul_r ofs 8 4) as E. change (8 * 4)%nat with 32%nat in E. lia.
Qed.

Lemma be_get_bit_at_spec (value : list Z) (ofs : nat) : be_get_bit_at value ofs = vbit value ofs.
Proof.
  unfold be_get_bit_at, be_byte, vbit. destruct (div_mod_8_32 ofs) as [-> Em].
  pose proof (Nat.mod_upper_bound ofs 8 ltac:(lia)). pose proof (Nat.mod_upper_bound (ofs / 8) 4 ltac:(lia)).
  change 1 with (2 ^ 0) at 1. rewrite land_single_bit, Z.shiftr_spec, wrap_testbit, Z.shiftr_spec by lia.
  destruct (Z.ltb_spec (0 + (7 - Z.of_nat (ofs mod 8))) 8); [|lia]. cbn [andb]. f_equal. lia.
Qed.

Lemma get_bit_at_spec (p : Z) (ofs : nat) : get_bit_at p ofs = pbit p ofs.
Proof.
  unfold get_bit_at, pbit. change 1 with (2 ^ 0) at 1. rewrite land_single_bit, Z.shiftr_spec by lia. done.
Qed.

Lemma be_set_bit_at_spec (value : list Z) (ofs i : nat) :
  (ofs < 32 * length value)%nat ->
  vbit (be_set_bit_at value ofs) i = vbit value i || (i =? ofs)%nat.
Proof.
  intros Hofs. unfold be_set_bit_at, vbit. destruct (div_mod_8_32 ofs) as [-> Em].
  pose proof (Nat.mod_upper_bound ofs 8 ltac:(lia)). pose proof (Nat.mod_upper_bound (ofs / 8) 4 ltac:(lia)).
  pose proof (Nat.mod_upper_bound i 32 ltac:(lia)).
  pose proof (Nat.div_mod_eq ofs 32). pose proof (Nat.div_mod_eq i 32).
  destruct (decide (ofs / 32 = i / 32)%nat) as [E|E].
  - rewrite E, nth_insert_eq by lia.
    rewrite Z.lor_spec, Z.shiftl_shiftl, Z.shiftl_spec, testbit_1 by lia. f_equal.
    match goal with |- (?x =? 0) = _ => destruct (Z.eqb_spec x 0) end;
      destruct (Nat.eqb_spec i ofs); try done; lia.
  - rewrite nth_insert_ne by done. destruct (Nat.eqb_spec i ofs) as [->|]; [done|]. by rewrite orb_false_r.
Qed.

Lemma length_be_set_bit_at (value : list Z) (ofs : nat) : length (be_set_bit_at value ofs) = length value.
Proof. apply length_insert. Qed.

(** ** Insertion *)

Lemma twf_root (root : bool) (t : trie) : twf false t -> twf root t.
Proof.
  destruct t as [|p n r e0 e1]; [done|]. intros (? & Hn & ?).
  split_and!; [done| |tauto..]. intros E. by destruct (Hn E).
Qed.

Lemma first_bit_shift (p : Z) (k n r : nat) (e0 e1 : trie) :
  first_bit (TNode (u32 (Z.shiftl p (Z.of_nat k))) n r e0 e1) (pbit p k).
Proof. cbn [first_bit]. rewrite pbit_shiftl by lia. f_equal. lia. Qed.

Lemma pfx_ok_shiftl (p : Z) (k n : nat) :
  pfx_ok p n -> (k <= n <= 32)%nat -> pfx_ok (u32 (Z.shiftl p (Z.of_nat k))) (n - k).
Proof.
  intros [Hw Hz] Hk. split; [apply wrap_width; lia|]. intros j Hj. rewrite pbit_shiftl by lia.
  destruct (decide (k + j < 32)%nat); [apply Hz; lia|]. unfold pbit. apply Z.testbit_neg_r. lia.
Qed.

(** What inserting the prefix does to a subtrie. *)
Record insert_ok (root : bool) (t t' : trie) (pr : list Z) (ofs mlen : nat) : Prop := {
  io_wf : twf root t';
  io_first : root = false -> first_bit t' (vbit pr ofs);
  io_height : (theight t' <= Nat.max (theight t) (mlen - ofs))%nat;
  io_count : forall b, (tcount t' b = tcount t b +
    if bool_decide (b = vbits pr ofs (mlen - ofs)) then 1 else 0)%nat
}.

(** The new branch of a split: nothing when the prefix ends at the split. *)
Lemma insert_other_ok (pr : list Z) (ofs mlen : nat) (bit : bool) :
  be32s_wf pr -> ((ofs < mlen)%nat -> bit = negb (vbit pr ofs)) ->
  let other := if (ofs <? mlen)%nat then trie_branch_create pr ofs (mlen - ofs) 1 else TNull in
  twf false other /\ first_bit other (negb bit) /\ (theight other <= mlen - ofs)%nat /\
  forall b, b <> [] -> (tcount other b = if bool_decide (b = vbits pr ofs (mlen - ofs)) then 1 else 0)%nat.
Proof.
  intros Hpr Hne. cbn zeta. destruct (Nat.ltb_spec ofs mlen) as [Hlt|Hge].
  - destruct (branch_create_ok pr ofs (mlen - ofs) 1 Hpr ltac:(lia)) as [(r' & x0 & x1 & Et & _) Hw Hh Hc].
    replace (mlen - ofs =? 0)%nat with false in Hw by (symmetry; apply Nat.eqb_neq; lia).
    split_and!; [done| |lia|by intros b _].
    rewrite Et. cbn [first_bit]. rewrite trie_get_prefix_bit by (done || lia).
    rewrite Hne by done. rewrite negb_involutive, Nat.add_0_r.
    destruct (Nat.ltb_spec 0 (mlen - ofs)); [done|lia].
  - split_and!; [done|done|cbn; lia|]. intros b Hb. rewrite bool_decide_eq_false_2; [done|].
    intros ->. apply Hb. by replace (mlen - ofs)%nat with 0%nat by lia.
Qed.

(** Counts below a node with a subtrie on either side. *)
Lemma split_count (p : Z) (k r : nat) (node other : trie) (bit : bool) (s rest b : list bool) :
  pbits p k = s -> twf false node -> first_bit node bit -> twf false other -> first_bit other (negb bit) ->
  r = (if bool_decide (rest = []) then 1 else 0)%nat ->
  (forall l, l <> [] -> (tcount other l = if bool_decide (l = rest) then 1 else 0)%nat) ->
  (tcount (TNode p k r (if bit then other else node) (if bit then node else other)) b =
   (if bool_decide (take k b = s) then tcount node (drop k b) else 0) +
   (if bool_decide (b = s ++ rest) then 1 else 0))%nat.
Proof.
  intros <- Hnode Hnb Ho Hob -> Hoc. destruct (starts_dec b (pbits p k)) as [[l ->]|Hb].
  - rewrite (tcount_TNode _ _ _ _ _ _ l) by done.
    rewrite (take_app_length' _ _ k), (drop_app_length' _ _ k) by (symmetry; apply length_pbits).
    rewrite (bool_decide_eq_true_2 (pbits p k = pbits p k)) by done.
    assert (bool_decide (pbits p k ++ l = pbits p k ++ rest) = bool_decide (l = rest)) as ->.
    { apply bool_decide_ext. split; [apply app_inv_head|by intros ->]. }
    destruct l as [|c l].
    + rewrite tcount_nil by done. cbn [Nat.add].
      assert (bool_decide (rest = []) = bool_decide ([] = rest)) as -> by (by apply bool_decide_ext). done.
    + destruct (decide (c = bit)) as [->|Hc].
      * rewrite <- (Hoc (bit :: l)) by done.
        rewrite (tcount_first_bit other (negb bit) bit) by (done || by destruct bit). destruct bit; lia.
      * assert (c = negb bit) as -> by (by destruct c, bit).
        rewrite (tcount_first_bit node bit (negb bit)) by (done || by destruct bit).
        rewrite <- Hoc by done. by destruct bit.
  - rewrite tcount_TNode_ne by done.
    rewrite bool_decide_eq_false_2 by (intros E; apply (Hb (drop k b)); by rewrite <- E, take_drop).
    rewrite bool_decide_eq_false_2; [done|]. intros ->. by eapply Hb.
Qed.

(** Splitting a node of [n] bits after [k] equal bits. *)
Lemma insert_split_ok (root : bool) (p : Z) (n r k : nat) (e0 e1 : trie) (pr : list Z) (ofs mlen : nat) :
  be32s_wf pr -> twf root (TNode p n r e0 e1) -> (ofs < mlen)%nat ->
  (root = false -> pbit p 0 = vbit pr ofs) ->
  (k < n)%nat -> (k <= mlen - ofs)%nat ->
  (forall j, (j < k)%nat -> pbit p j = vbit pr (ofs + j)) ->
  ((ofs + k < mlen)%nat -> pbit p k = negb (vbit pr (ofs + k))) ->
  let node := TNode (u32 (Z.shiftl p (Z.of_nat k))) (n - k) r e0 e1 in
  let other := if (ofs + k <? mlen)%nat then trie_branch_create pr (ofs + k) (mlen - (ofs + k)) 1 else TNull in
  let bit := pbit p k in
  insert_ok root (TNode p n r e0 e1)
    (TNode (trie_get_prefix pr ofs k) k (if (ofs + k =? mlen)%nat then 1%nat else 0%nat)
       (if bit then other else node) (if bit then node else other))
    pr ofs mlen.
Proof.
  intros Hpr (Hn & Hn0 & Hok & He0 & Hf0 & He1 & Hf1) Hm Hroot Hk Hkm Heq Hne node other bit.
  unfold TRIE_PREFIX_BITS in *.
  assert (twf false node) as Hnode.
  { unfold node. cbn [twf]. unfold TRIE_PREFIX_BITS. split_and!; try done; [lia|lia|].
    apply pfx_ok_shiftl; [done|lia]. }
  assert (first_bit node bit) as Hnb by apply first_bit_shift.
  destruct (insert_other_ok pr (ofs + k) mlen bit Hpr Hne) as (Ho & Hob & Hoh & Hoc). fold other in Ho, Hob, Hoh, Hoc.
  assert (root = false -> (0 < k)%nat) as Hk0.
  { intros Hr. specialize (Hroot Hr). destruct (decide (k = 0)%nat) as [E|]; [|lia]. subst k.
    specialize (Hne ltac:(lia)). rewrite Nat.add_0_r, <- Hroot in Hne. by destruct (pbit p 0). }
  split.
  - cbn [twf]. unfold TRIE_PREFIX_BITS. split_and!; try (by destruct bit); [lia| |].
    + intros Hz. destruct root; [|specialize (Hk0 eq_refl); lia].
      split; [done|]. destruct (Nat.eqb_spec (ofs + k) mlen); lia.
    + replace k with (Nat.min k 32) at 2 by lia. by apply get_prefix_ok.
  - intros Hr. specialize (Hk0 Hr). cbn [first_bit].
    rewrite trie_get_prefix_bit by (done || lia). rewrite Nat.add_0_r. destruct (Nat.ltb_spec 0 k); [done|lia].
  - cbn [theight]. unfold node. destruct bit; cbn [theight]; lia.
  - intros b. rewrite (tcount_split p n r k) by (done || lia). fold node.
    assert (vbits pr ofs (mlen - ofs) = vbits pr ofs k ++ vbits pr (ofs + k) (mlen - (ofs + k))) as ->
      by (rewrite <- vbits_app; f_equal; lia).
    rewrite (proj2 (pbits_vbits p k pr ofs) Heq).
    apply split_count; try done; [apply get_prefix_bits; (done || lia)|].
    destruct (Nat.eqb_spec (ofs + k) mlen) as [E|E].
    + by replace (mlen - (ofs + k))%nat with 0%nat by lia.
    + rewrite bool_decide_eq_false_2; [done|]. destruct (mlen - (ofs + k))%nat eqn:E'; [lia|done].
Qed.

(** Counts of a node when one child changes. *)
Lemma child_count (p : Z) (n r : nat) (e0 e1 e' : trie) (bit : bool) (x b : list bool) :
  (forall l, tcount e' l = tcount (edge bit e0 e1) l + if bool_decide (l = x) then 1 else 0)%nat ->
  (exists y, x = bit :: y) ->
  (tcount (TNode p n r (if bit then e0 else e') (if bit then e' else e1)) b =
   tcount (TNode p n r e0 e1) b + if bool_decide (b = pbits p n ++ x) then 1 else 0)%nat.
Proof.
  intros Hc [y ->]. destruct (starts_dec b (pbits p n)) as [[l ->]|Hb].
  - rewrite !(tcount_TNode _ _ _ _ _ _ l) by done.
    assert (bool_decide (pbits p n ++ l = pbits p n ++ bit :: y) = bool_decide (l = bit :: y)) as ->.
    { apply bool_decide_ext. split; [apply app_inv_head|by intros ->]. }
    destruct l as [|c l]; [rewrite bool_decide_eq_false_2 by done; lia|].
    destruct (decide (c = bit)) as [->|Hcb]; [rewrite <- Hc; by destruct bit|].
    rewrite bool_decide_eq_false_2 by (by intros [= ->]). destruct c, bit; (done || lia).
  - rewrite !tcount_TNode_ne by done. rewrite bool_decide_eq_false_2; [done|]. intros ->. by eapply Hb.
Qed.

Lemma insert_here_ok (root : bool) (p : Z) (n r : nat) (e0 e1 : trie) (pr : list Z) (ofs mlen : nat) :
  twf root (TNode p n r e0 e1) -> (ofs < mlen)%nat -> (ofs + n = mlen)%nat ->
  (root = false -> pbit p 0 = vbit pr ofs) -> pbits p n = vbits pr ofs n ->
  insert_ok root (TNode p n r e0 e1) (TNode p n (r + 1) e0 e1) pr ofs mlen.
Proof.
  intros (Hn & Hn0 & Hok & He0 & Hf0 & He1 & Hf1) Hm Hmn Hroot Hp.
  replace (mlen - ofs)%nat with n by lia. split.
  - cbn [twf]. split_and!; try done. intros ->. lia.
  - done.
  - cbn. lia.
  - intros b. replace (mlen - ofs)%nat with n by lia. rewrite <- Hp.
    destruct (starts_dec b (pbits p n)) as [[l ->]|Hb].
    + rewrite !(tcount_TNode _ _ _ _ _ _ l) by done. destruct l as [|c l].
      * by rewrite app_nil_r, bool_decide_eq_true_2.
      * rewrite bool_decide_eq_false_2; [lia|]. intros E%(f_equal length).
        rewrite length_app in E. simpl in E. lia.
    + rewrite !tcount_TNode_ne by done. rewrite bool_decide_eq_false_2; [done|].
      intros ->. apply (Hb []). by rewrite app_nil_r.
Qed.

Lemma equal_bits_spec (p : Z) (n : nat) (pr : list Z) (ofs mlen : nat) :
  in_width 32 p -> be32s_wf pr -> (n <= 32)%nat ->
  let k := trie_prefix_equal_bits p n pr ofs mlen in
  (k <= n)%nat /\ (k <= mlen - ofs)%nat /\
  (forall j, (j < k)%nat -> pbit p j = vbit pr (ofs + j)) /\
  ((k < n)%nat -> (ofs + k < mlen)%nat -> pbit p k = negb (vbit pr (ofs + k))).
Proof.
  intros Hp Hpr Hn. unfold trie_prefix_equal_bits.
  destruct (prefix_equal_bits_spec p (Nat.min n (mlen - ofs)) pr ofs Hp Hpr ltac:(lia)) as (H1 & H2 & H3).
  cbn zeta. split_and!; [lia|lia|done|]. intros Hk Hm. apply H3. lia.
Qed.

Lemma insert_walk_ok (t : trie) (root : bool) (pr : list Z) (ofs mlen : nat) :
  be32s_wf pr -> twf root t -> (root = false -> first_bit t (vbit pr ofs)) -> (ofs < mlen)%nat ->
  insert_ok root t (trie_insert_walk t pr ofs mlen) pr ofs mlen.
Proof.
  intros Hpr. revert root ofs. induction t as [|p n r e0 IH0 e1 IH1]; intros root ofs Hwf Hroot Hm.
  - cbn [trie_insert_walk].
    destruct (branch_create_ok pr ofs (mlen - ofs) 1 Hpr ltac:(lia)) as [(r' & x0 & x1 & Et & _) Hw Hh Hc].
    replace (mlen - ofs =? 0)%nat with false in Hw by (symmetry; apply Nat.eqb_neq; lia).
    split; [by apply twf_root| |lia|done].
    intros _. rewrite Et. cbn [first_bit]. rewrite trie_get_prefix_bit, Nat.add_0_r by (done || lia).
    destruct (Nat.ltb_spec 0 (mlen - ofs)); [done|lia].
  - pose proof Hwf as (Hn & Hn0 & Hok & He0 & Hf0 & He1 & Hf1). pose proof (proj1 Hok) as Hpw.
    cbn [trie_insert_walk].
    destruct (equal_bits_spec p n pr ofs mlen Hpw Hpr Hn) as (Hk & Hkm & Heq & Hne).
    set (k := trie_prefix_equal_bits p n pr ofs mlen) in *. cbn zeta.
    rewrite get_bit_at_spec, be_get_bit_at_spec. replace (ofs + k - k)%nat with ofs by lia.
    destruct (Nat.ltb_spec k n) as [Hlt|Hge].
    + unfold TRIE_PREFIX_BITS in Hn. unfold trie_branch_create at 1. cbn [trie_branch_create_loop].
      destruct (Nat.leb_spec k TRIE_PREFIX_BITS); [|unfold TRIE_PREFIX_BITS in *; lia].
      apply insert_split_ok; auto.
    + assert (k = n) as Ek by lia. rewrite Ek in *. clear k Ek Hge Hk Hne.
      apply pbits_vbits in Heq. destruct (Nat.eqb_spec (ofs + n) mlen) as [E|E]; [by apply insert_here_ok|].
      set (bit := vbit pr (ofs + n)).
      assert (insert_ok false (edge bit e0 e1) (trie_insert_walk (edge bit e0 e1) pr (ofs + n) mlen) pr (ofs + n) mlen)
        as [Iw If Ih Ic].
      { unfold bit. destruct (vbit pr (ofs + n)) eqn:Eb; [apply IH1|apply IH0]; (done || lia || by rewrite Eb). }
      set (e' := trie_insert_walk (edge bit e0 e1) pr (ofs + n) mlen) in *.
      replace (if bit then TNode p n r e0 (trie_insert_walk e1 pr (ofs + n) mlen)
               else TNode p n r (trie_insert_walk e0 pr (ofs + n) mlen) e1)
        with (TNode p n r (if bit then e0 else e') (if bit then e' else e1))
        by (unfold e'; by destruct bit).
      specialize (If eq_refl). fold bit in If.
      assert (exists y, vbits pr (ofs + n) (mlen - (ofs + n)) = bit :: y) as Hy.
      { replace (mlen - (ofs + n))%nat with (S (mlen - (ofs + n) - 1)) by lia. by eexists. }
      clearbody e' bit. split.
      * cbn [twf]. split_and!; first [done|by destruct bit].
      * done.
      * cbn [theight]. clear -Ih E Hkm Hm. destruct bit; cbn [edge] in Ih; lia.
      * intros b. rewrite (child_count p n r e0 e1 e' bit (vbits pr (ofs + n) (mlen - (ofs + n)))).
        -- rewrite Heq, <- vbits_app. by replace (n + (mlen - (ofs + n)))%nat with (mlen - ofs)%nat by lia.
        -- done.
        -- done.
Qed.

(** ** Removal *)

Definition is_nil {A} (l : list A) : bool := match l with [] => true | _ => false end.

(** A subtrie on the edge at the end of the path. *)
Definition on_edge (path : list frame) (t : trie) : Prop :=
  match path with [] => True | f :: _ => first_bit t (fr_bit f) end.

Fixpoint path_ok (path : list frame) : Prop :=
  match path with
  | [] => True
  | f :: path => twf (is_nil path) (set_edge f TNull) /\ on_edge path (set_edge f TNull) /\ path_ok path
  end.

Fixpoint path_bits (path : list frame) : list bool :=
  match path with [] => [] | f :: path => path_bits path ++ pbits (fr_prefix f) (fr_n_bits f) end.

Lemma set_edge_wf (root : bool) (f : frame) (t : trie) :
  twf root (set_edge f TNull) -> twf false t -> first_bit t (fr_bit f) -> twf root (set_edge f t).
Proof. unfold set_edge. destruct (fr_bit f); intros (?&?&?&?&?&?&?) ??; cbn [twf]; tauto. Qed.

Lemma on_edge_set_edge (path : list frame) (f : frame) (t t' : trie) :
  on_edge path (set_edge f t) -> on_edge path (set_edge f t').
Proof. destruct path; [done|]. unfold set_edge. by destruct (fr_bit f). Qed.

Lemma plug_wf (path : list frame) (t : trie) :
  path_ok path -> twf (is_nil path) t -> on_edge path t -> twf true (plug path t).
Proof.
  revert t. induction path as [|f path IH]; intros t Hp Ht He; [done|].
  destruct Hp as (Hf & Hfe & Hp). cbn [plug]. apply IH; [done|by apply set_edge_wf|].
  by eapply on_edge_set_edge.
Qed.

Lemma plug_height (path : list frame) (t t' : trie) :
  (theight t' <= theight t)%nat -> (theight (plug path t') <= theight (plug path t))%nat.
Proof.
  revert t t'. induction path as [|f path IH]; intros t t' H; [done|]. cbn [plug]. apply IH.
  unfold set_edge. destruct (fr_bit f); cbn [theight]; lia.
Qed.

Lemma plug_teq (path : list frame) (t t' : trie) :
  (forall b, tcount t b = tcount t' b) -> forall b, tcount (plug path t) b = tcount (plug path t') b.
Proof.
  revert t t'. induction path as [|f path IH]; intros t t' H; [done|]. cbn [plug]. apply IH.
  intros b. unfold set_edge. destruct (fr_bit f); cbn [tcount];
    (destruct (bool_decide _); [|done]); destruct (drop _ b) as [|[] l]; done.
Qed.

(** Adding one occurrence below a path adds one occurrence of the whole string. *)
Lemma plug_delta (path : list frame) (t t' : trie) (x : list bool) :
  path_ok path -> (match path with [] => True | f :: _ => exists y, x = fr_bit f :: y end) ->
  (forall l, tcount t l = tcount t' l + if bool_decide (l = x) then 1 else 0)%nat ->
  forall b, (tcount (plug path t) b =
             tcount (plug path t') b + if bool_decide (b = path_bits path ++ x) then 1 else 0)%nat.
Proof.
  revert t t' x. induction path as [|f path IH]; intros t t' x Hp Hx H; [done|].
  destruct Hp as (Hf & Hfe & Hp). destruct Hx as [y Hx]. cbn [plug path_bits]. rewrite <- app_assoc.
  apply IH; [done| |].
  - destruct path as [|g path]; [done|]. unfold set_edge in Hf, Hfe.
    destruct (pbits_cons (fr_prefix f) (fr_n_bits f)) as [z Hz].
    { destruct (decide (fr_n_bits f = 0)%nat) as [E|]; [|lia].
      destruct (fr_bit f); destruct Hf as (_ & Hf & _); by destruct (Hf E). }
    rewrite Hz. exists (z ++ x). cbn. f_equal. by destruct (fr_bit f).
  - intros l. rewrite Hx in H |- *. unfold set_edge. destruct (fr_bit f) eqn:Eb.
    + apply (child_count _ _ _ (fr_edge0 f) t' t true); [done|by eexists].
    + apply (child_count _ _ _ t' (fr_edge1 f) t false); [done|by eexists].
Qed.

(** Joining a node without rules with its only child. *)
Lemma combine_prefix (p np : Z) (n nn : nat) :
  pfx_ok p n -> pfx_ok np nn -> (n + nn <= 32)%nat ->
  let q := Z.lor p (Z.shiftr np (Z.of_nat n)) in
  pfx_ok q (nn + n) /\ (forall j, (j < n)%nat -> pbit q j = pbit p j) /\
  (forall j, (n <= j < 32)%nat -> pbit q j = pbit np (j - n)).
Proof.
  intros [Hp Hpz] [Hnp Hnz] Hn q.
  assert (forall j, (j < n)%nat -> pbit q j = pbit p j) as H1.
  { intros j Hj. unfold q, pbit. rewrite Z.lor_spec, Z.shiftr_spec by lia.
    rewrite (in_width_high 32 np) by (done || lia). apply orb_false_r. }
  assert (forall j, (n <= j < 32)%nat -> pbit q j = pbit np (j - n)) as H2.
  { intros j Hj. unfold q. unfold pbit at 1. rewrite Z.lor_spec, Z.shiftr_spec by lia.
    fold (pbit p j). rewrite Hpz, orb_false_l by lia. unfold pbit. f_equal. lia. }
  split_and!; [|done|done]. split.
  - apply in_width_lor; [lia|done|]. apply in_width_shiftr; [lia|lia|done].
  - intros j Hj. rewrite H2 by lia. apply Hnz. lia.
Qed.

Lemma combine_count (p np : Z) (n nn nr : nat) (bit : bool) (ne0 ne1 : trie) (b : list bool) :
  pfx_ok p n -> twf false (TNode np nn nr ne0 ne1) -> first_bit (TNode np nn nr ne0 ne1) bit ->
  (n + nn <= 32)%nat ->
  let next := TNode np nn nr ne0 ne1 in
  tcount (TNode p n 0 (if bit then TNull else next) (if bit then next else TNull)) b =
  tcount (TNode (Z.lor p (Z.shiftr np (Z.of_nat n))) (nn + n) nr ne0 ne1) b.
Proof.
  intros Hp Hnext Hb Hn next. pose proof Hnext as (Hnn & Hnn0 & Hnp & _).
  destruct (combine_prefix p np n nn Hp Hnp Hn) as (_ & H1 & H2).
  assert (0 < nn)%nat as Hpos.
  { destruct (decide (nn = 0)%nat) as [E|]; [by destruct (Hnn0 E)|lia]. }
  rewrite (tcount_split _ (nn + n) nr n) by lia. replace (nn + n - n)%nat with nn by lia.
  rewrite (proj2 (pbits_ext _ p n) H1).
  assert (forall l, tcount (TNode (u32 (Z.shiftl (Z.lor p (Z.shiftr np (Z.of_nat n))) (Z.of_nat n))) nn nr ne0 ne1) l
                    = tcount next l) as Hsame.
  { intros l. unfold next. cbn [tcount].
    assert (pbits (u32 (Z.shiftl (Z.lor p (Z.shiftr np (Z.of_nat n))) (Z.of_nat n))) nn = pbits np nn) as ->;
      [|done].
    apply pbits_ext. intros j Hj. rewrite pbit_shiftl, H2 by lia. f_equal. lia. }
  destruct (starts_dec b (pbits p n)) as [[l ->]|Hne].
  - rewrite (tcount_TNode _ _ _ _ _ _ l) by done.
    rewrite (take_app_length' _ _ n), (drop_app_length' _ _ n) by (symmetry; apply length_pbits).
    rewrite bool_decide_eq_true_2, Hsame by done.
    destruct l as [|c l]; [by rewrite tcount_nil|].
    destruct (decide (c = bit)) as [->|Hc]; [by destruct bit|].
    rewrite (tcount_first_bit next bit c) by done. by destruct c, bit.
  - rewrite tcount_TNode_ne by done.
    rewrite bool_decide_eq_false_2; [done|]. intros E. apply (Hne (drop n b)). by rewrite <- E, take_drop.
Qed.

(** The result of pruning: the same strings, well formed and no higher. *)
Record prune_ok (t t' : trie) : Prop := {
  po_wf : twf true t';
  po_height : (theight t' <= theight t)%nat;
  po_count : forall b, tcount t' b = tcount t b
}.

Lemma prune_ok_refl (t : trie) : twf true t -> prune_ok t t.
Proof. by split. Qed.

Lemma prune_join_ok (path : list frame) (p np : Z) (n nn nr : nat) (bit : bool) (ne0 ne1 : trie) :
  let next := TNode np nn nr ne0 ne1 in
  let node := TNode p n 0 (if bit then TNull else next) (if bit then next else TNull) in
  path_ok path -> twf (is_nil path) node -> on_edge path node -> (n + nn <= 32)%nat ->
  prune_ok (plug path node) (plug path (TNode (Z.lor p (Z.shiftr np (Z.of_nat n))) (nn + n) nr ne0 ne1)).
Proof.
  intros next node Hp Hwf He Hn. destruct Hwf as (_ & Hn0 & Hok & H0 & F0 & H1 & F1).
  assert (twf false next /\ first_bit next bit) as [Hnext Hb] by (by destruct bit).
  pose proof Hnext as (Hnn & Hnn0 & Hnp & Hne0 & Hfe0 & Hne1 & Hfe1).
  destruct (combine_prefix p np n nn Hok Hnp Hn) as (Hq & Hq1 & Hq2). split.
  - apply plug_wf; [done| |].
    + cbn [twf]. unfold TRIE_PREFIX_BITS. split_and!; try done; [lia|]. intros E.
      destruct (Hnn0 ltac:(lia)) as [? _]. done.
    + destruct path as [|f path]; [done|]. cbn [on_edge first_bit is_nil] in *. rewrite <- He.
      apply Hq1. destruct (decide (n = 0)%nat) as [E|]; [by destruct (Hn0 E)|lia].
  - apply plug_height. unfold node, next. destruct bit; cbn [theight]; lia.
  - apply plug_teq. intros b. symmetry. by apply combine_count.
Qed.

Lemma prune_spec (path : list frame) (p : Z) (n r : nat) (e0 e1 : trie) :
  path_ok path -> twf (is_nil path) (TNode p n r e0 e1) -> on_edge path (TNode p n r e0 e1) ->
  prune_ok (plug path (TNode p n r e0 e1)) (trie_prune path p n r e0 e1).
Proof.
  revert p n r e0 e1. induction path as [|f path IH]; intros p n r e0 e1 Hp Hwf He; cbn [trie_prune];
    (destruct (Nat.eqb_spec r 0) as [->|Hr]; cbn [negb]; [|by apply prune_ok_refl, plug_wf]);
    destruct e0 as [|p0 n0 r0 a0 b0], e1 as [|p1 n1 r1 a1 b1]; cbn [is_null negb andb];
    try (by apply prune_ok_refl, plug_wf);
    try (destruct (Nat.ltb_spec TRIE_PREFIX_BITS (n + n0)); [by apply prune_ok_refl, plug_wf|];
         by apply (prune_join_ok _ p p0 n n0 r0 false));
    try (destruct (Nat.ltb_spec TRIE_PREFIX_BITS (n + n1)); [by apply prune_ok_refl, plug_wf|];
         by apply (prune_join_ok _ p p1 n n1 r1 true)).
  - split; [done|cbn; lia|]. intros b. cbn. destruct (bool_decide _); [|done]. by destruct (drop n b) as [|[]].
  - destruct Hp as (Hf & Hfe & Hp). assert (forall b, tcount (TNode p n 0 TNull TNull) b = tcount TNull b) as Hnull.
    { intros b. cbn. destruct (bool_decide _); [|done]. by destruct (drop n b) as [|[]]. }
    assert (prune_ok (plug path (set_edge f TNull))
              (if fr_bit f then trie_prune path (fr_prefix f) (fr_n_bits f) (fr_n_rules f) (fr_edge0 f) TNull
               else trie_prune path (fr_prefix f) (fr_n_bits f) (fr_n_rules f) TNull (fr_edge1 f))) as [Hw Hh Hc].
    { unfold set_edge in *. destruct (fr_bit f); by apply IH. }
    split; [done| |].
    + etransitivity; [exact Hh|]. apply (plug_height (f :: path)). cbn. lia.
    + intros b. rewrite Hc. symmetry. by apply (plug_teq (f :: path)).
Qed.

Definition rules_at (res : option trie) : nat :=
  match res with Some (TNode _ _ r _ _) => r | _ => 0 end.

(** What the walk down finds. *)
Record walk_ok (path : list frame) (node : trie) (pr : list Z) (ofs mlen : nat)
    (path' : list frame) (res : option trie) : Prop := {
  wo_rules : tcount node (vbits pr ofs (mlen - ofs)) = rules_at res;
  wo_node : forall t, res = Some t -> exists p n r e0 e1,
    t = TNode p n r e0 e1 /\ plug path' t = plug path node /\
    path_ok path' /\ twf (is_nil path') t /\ on_edge path' t /\
    path_bits path' ++ pbits p n = path_bits path ++ vbits pr ofs (mlen - ofs);
  wo_depth : (length path' <= length path + (mlen - ofs))%nat
}.

Lemma walk_stop (path : list frame) (node : trie) (pr : list Z) (ofs mlen : nat) :
  tcount node (vbits pr ofs (mlen - ofs)) = 0%nat -> walk_ok path node pr ofs mlen path None.
Proof. intros H. split; [done|done|lia]. Qed.

Lemma pbits_neq_take (p : Z) (n k : nat) (pr : list Z) (ofs len : nat) :
  (k < n)%nat -> (k < len -> pbit p k = negb (vbit pr (ofs + k)))%nat ->
  forall l, vbits pr ofs len <> pbits p n ++ l.
Proof.
  intros Hk Hne l E. assert (k < len)%nat as Hlt.
  { apply (f_equal length) in E. rewrite length_vbits, length_app, length_pbits in E. lia. }
  specialize (Hne Hlt). apply (f_equal (fun x => nth k x false)) in E.
  unfold vbits, pbits in E.
  rewrite app_nth1 in E by (rewrite length_map, length_seq; lia). rewrite !nth_map_seq in E by lia.
  rewrite Nat.add_0_l, Hne in E. by destruct (vbit pr (ofs + k)).
Qed.

Lemma vbits_split (pr : list Z) (ofs mlen n : nat) :
  (n <= mlen - ofs)%nat -> vbits pr ofs (mlen - ofs) = vbits pr ofs n ++ vbits pr (ofs + n) (mlen - (ofs + n)).
Proof. intros H. rewrite <- vbits_app. f_equal. lia. Qed.

Lemma remove_walk_ok (node : trie) (path : list frame) (pr : list Z) (ofs mlen : nat) :
  be32s_wf pr -> path_ok path -> twf (is_nil path) node -> on_edge path node -> (ofs <= mlen)%nat ->
  let '(path', res) := trie_remove_walk node path pr ofs mlen in
  walk_ok path node pr ofs mlen path' res /\
  (is_nil path = false -> (ofs < mlen)%nat -> (length path' < length path + (mlen - ofs))%nat).
Proof.
  intros Hpr. revert path ofs. induction node as [|p n r e0 IH0 e1 IH1]; intros path ofs Hp Hwf He Ho;
    cbn [trie_remove_walk]; [split; [by apply walk_stop|lia]|].
  pose proof Hwf as (Hn & Hn0 & Hok & He0 & Hf0 & He1 & Hf1).
  destruct (equal_bits_spec p n pr ofs mlen (proj1 Hok) Hpr Hn) as (Hk & Hkm & Heq & Hne).
  set (k := trie_prefix_equal_bits p n pr ofs mlen) in *. clearbody k.
  destruct (Nat.ltb_spec k n) as [Hlt|Hge].
  { split; [|lia]. apply walk_stop, tcount_TNode_ne, (pbits_neq_take p n k); [done|]. intros. apply Hne; lia. }
  assert (k = n) as -> by lia. clear Hge Hk Hne. apply pbits_vbits in Heq.
  assert (is_nil path = false -> (0 < n)%nat) as Hnpos.
  { intros E. destruct (decide (n = 0)%nat) as [E'|]; [|lia]. destruct (Hn0 E') as [? _]. congruence. }
  destruct (Nat.eqb_spec (ofs + n) mlen) as [E|E].
  - assert (mlen - ofs = n)%nat as En by lia. split; [|lia]. split; [|intros t [= <-]|lia].
    + rewrite En. rewrite (tcount_TNode _ _ _ _ _ _ []); [done|]. by rewrite app_nil_r.
    + exists p, n, r, e0, e1. split_and!; try done. by rewrite En, Heq.
  - rewrite be_get_bit_at_spec. set (bit := vbit pr (ofs + n)).
    set (f := Frame p n r e0 e1 bit).
    assert (set_edge f (edge bit e0 e1) = TNode p n r e0 e1) as Hset by (unfold f, set_edge; cbn; by destruct bit).
    assert (path_ok (f :: path)) as Hfp.
    { cbn [path_ok]. split_and!; [|by apply (on_edge_set_edge path f (edge bit e0 e1)); rewrite Hset|done].
      unfold f, set_edge. cbn [fr_bit fr_prefix fr_n_bits fr_n_rules fr_edge0 fr_edge1].
      destruct bit; cbn [twf first_bit]; split_and!; done. }
    assert (let '(path', res) := trie_remove_walk (edge bit e0 e1) (f :: path) pr (ofs + n) mlen in
            walk_ok (f :: path) (edge bit e0 e1) pr (ofs + n) mlen path' res /\
            ((ofs + n < mlen)%nat -> (length path' < length (f :: path) + (mlen - (ofs + n)))%nat)) as Hw.
    { clearbody bit. assert (first_bit (edge bit e0 e1) bit) as Hb by (by destruct bit).
      assert (twf false (edge bit e0 e1)) as Ht by (by destruct bit).
      destruct bit; cbn [edge] in *; [pose proof (IH1 (f :: path) (ofs + n)%nat Hfp Ht Hb ltac:(lia)) as Hw|
        pose proof (IH0 (f :: path) (ofs + n)%nat Hfp Ht Hb ltac:(lia)) as Hw];
        destruct (trie_remove_walk _ _ _ _ _); destruct Hw as [? Hd]; (split; [done|by apply Hd]). }
    replace (if bit then trie_remove_walk e1 (f :: path) pr (ofs + n) mlen
             else trie_remove_walk e0 (f :: path) pr (ofs + n) mlen)
      with (trie_remove_walk (edge bit e0 e1) (f :: path) pr (ofs + n) mlen) by (by destruct bit).
    destruct (trie_remove_walk _ _ _ _ _) as [path' res]. destruct Hw as [[Wr Wn Wd] Wd'].
    specialize (Wd' ltac:(lia)). cbn [length] in Wd, Wd'. split; [split|].
    + rewrite (vbits_split pr ofs mlen n), <- Heq, <- Wr by lia.
      rewrite (tcount_TNode _ _ _ _ _ _ (vbits pr (ofs + n) (mlen - (ofs + n)))) by done.
      replace (mlen - (ofs + n))%nat with (S (mlen - (ofs + n) - 1)) by lia. rewrite vbits_S. done.
    + intros t Ht. destruct (Wn t Ht) as (p' & n' & r' & x0 & x1 & -> & Hplug & Hpo & Htw & Hoe & Hbits).
      exists p', n', r', x0, x1. split_and!; try done.
      * rewrite Hplug. cbn [plug]. by rewrite Hset.
      * rewrite Hbits. cbn [path_bits]. unfold f. cbn [fr_prefix fr_n_bits].
        by rewrite <- app_assoc, Heq, <- vbits_split by lia.
    + lia.
    + intros Hnil _. specialize (Hnpos Hnil). lia.
Qed.

(** ** Lookup *)

(** The count of the first [L] bits of a value, from bit [m] on, at a node whose
    prefix the value has. *)
Lemma node_count_vbits (p : Z) (n r : nat) (e0 e1 : trie) (v : list Z) (m L : nat) :
  pbits p n = vbits v m n -> (m <= L)%nat ->
  tcount (TNode p n r e0 e1) (vbits v m (L - m)) =
  if (L <? m + n)%nat then 0%nat else if (L =? m + n)%nat then r
  else tcount (edge (vbit v (m + n)) e0 e1) (vbits v (m + n) (L - (m + n))).
Proof.
  intros Hp HL. destruct (Nat.ltb_spec L (m + n)).
  { apply tcount_TNode_ne. intros l E%(f_equal length). rewrite length_vbits, length_app, length_pbits in E. lia. }
  rewrite (vbits_split v m L n), <- Hp by lia. rewrite (tcount_TNode _ _ _ _ _ _ (vbits v (m + n) (L - (m + n)))) by done.
  destruct (Nat.eqb_spec L (m + n)) as [E|E].
  - by replace (L - (m + n))%nat with 0%nat by lia.
  - replace (L - (m + n))%nat with (S (L - (m + n) - 1)) by lia. by rewrite vbits_S.
Qed.

Lemma theight_pos (t : trie) : twf false t -> theight t = 0%nat -> t = TNull.
Proof.
  destruct t as [|p n r e0 e1]; [done|]. intros (_ & Hn & _) Hh. cbn in Hh.
  destruct (Hn ltac:(lia)) as [? _]. done.
Qed.

Definition has_prefix (t : trie) (v : list Z) (m L : nat) : bool :=
  (m <=? L)%nat && (0 <? tcount t (vbits v m (L - m)))%nat.

(** The loop marks exactly the lengths at which the value has a stored prefix. *)
Lemma lookup_loop_plens (t : trie) (root at_end : bool) (v plens : list Z) (m N : nat) :
  be32s_wf v -> twf root t -> (m + theight t <= N)%nat -> (N <= 32 * length plens)%nat ->
  let r := trie_lookup_loop t at_end v plens m N in
  length (snd r) = length plens /\
  forall L, (0 < L)%nat -> vbit (snd r) (L - 1) = vbit plens (L - 1) || has_prefix t v m L.
Proof.
  intros Hv. revert root at_end plens m. induction t as [|p n r e0 IH0 e1 IH1]; intros root at_end plens m Hwf Hh HN.
  { split; [done|]. intros L _. unfold has_prefix. cbn. by rewrite andb_false_r, orb_false_r. }
  pose proof Hwf as (Hn & Hn0 & Hok & He0 & Hf0 & He1 & Hf1). cbn [theight] in Hh. cbn [trie_lookup_loop].
  destruct (prefix_equal_bits_spec p n v m (proj1 Hok) Hv Hn) as (Hk & Heq & Hne).
  set (k := prefix_equal_bits p n v m) in *. clearbody k.
  destruct (Nat.ltb_spec k n) as [Hlt|Hge].
  { split; [done|]. intros L _. cbn [snd]. unfold has_prefix. rewrite (tcount_TNode_ne p n).
    - by rewrite andb_false_r, orb_false_r.
    - apply (pbits_neq_take p n k); [done|]. intros _. by apply Hne. }
  assert (k = n) as -> by lia. clear Hge Hk Hne. apply pbits_vbits in Heq.
  set (plens' := if (0 <? r)%nat then be_set_bit_at plens (m + n - 1) else plens).
  assert (length plens' = length plens) as Hl by (unfold plens'; destruct (_ <? _)%nat; [apply length_be_set_bit_at|done]).
  assert (forall L, (0 < L)%nat -> vbit plens' (L - 1) =
            vbit plens (L - 1) || ((L =? m + n)%nat && (0 <? r)%nat)) as Hp'.
  { intros L HL. unfold plens'. destruct (Nat.ltb_spec 0 r); [|by rewrite andb_false_r, orb_false_r].
    assert (0 < n)%nat by (destruct (decide (n = 0)%nat) as [E|]; [destruct (Hn0 E)|]; lia).
    rewrite be_set_bit_at_spec, andb_true_r by lia. f_equal.
    destruct (Nat.eqb_spec (L - 1) (m + n - 1)), (Nat.eqb_spec L (m + n)); lia. }
  assert (forall L, has_prefix (TNode p n r e0 e1) v m L =
            ((L =? m + n)%nat && (0 <? r)%nat) || has_prefix (edge (vbit v (m + n)) e0 e1) v (m + n) L) as Hs.
  { intros L. unfold has_prefix. destruct (Nat.leb_spec m L); cbn [andb].
    - rewrite node_count_vbits by done. destruct (Nat.ltb_spec L (m + n)), (Nat.eqb_spec L (m + n)), (Nat.leb_spec (m + n) L); try lia; try done.
      replace (L - (m + n))%nat with 0%nat by lia. change (vbits v (m + n) 0) with (@nil bool).
      rewrite tcount_nil by (by destruct (vbit v (m + n))). by rewrite orb_false_r.
    - destruct (Nat.eqb_spec L (m + n)), (Nat.leb_spec (m + n) L); try lia; done. }
  rewrite be_get_bit_at_spec. destruct (Nat.leb_spec N (m + n)) as [HNle|HNgt].
  - cbn [snd]. split; [done|]. intros L HL. rewrite Hp', Hs by done.
    rewrite (theight_pos e0), (theight_pos e1) by (done || lia). unfold has_prefix. destruct (vbit v (m + n)); cbn;
      by rewrite andb_false_r, orb_false_r.
  - destruct (vbit v (m + n)); cbn [edge] in Hs;
      [destruct (IH1 false (trie_is_leaf e0 e1) plens' (m + n)%nat He1 ltac:(lia) ltac:(lia)) as [Hl' Hr]|
       destruct (IH0 false (trie_is_leaf e0 e1) plens' (m + n)%nat He0 ltac:(lia) ltac:(lia)) as [Hl' Hr]];
      (split; [by rewrite Hl', Hl|]); intros L HL; rewrite Hr, Hp', Hs by done; by rewrite orb_assoc.
Qed.

(** The number of bits returned covers every bit that was looked at. *)
Lemma lookup_loop_ge (t : trie) (root at_end : bool) (v plens : list Z) (m N : nat) :
  be32s_wf v -> twf root t -> (m + theight t <= N)%nat ->
  let mb := fst (trie_lookup_loop t at_end v plens m N) in
  (m <= mb)%nat /\ (root = false -> t <> TNull -> m < mb)%nat /\
  ((at_end = true \/ (m < N)%nat) -> (mb <= N)%nat).
Proof.
  intros Hv. revert root at_end plens m. induction t as [|p n r e0 IH0 e1 IH1]; intros root at_end plens m Hwf Hh.
  { cbn in *. destruct at_end; split_and!; try done; lia. }
  pose proof Hwf as (Hn & Hn0 & Hok & He0 & Hf0 & He1 & Hf1). cbn [theight] in Hh. cbn [trie_lookup_loop].
  assert (root = false -> (0 < n)%nat) as Hnp.
  { intros ->. destruct (decide (n = 0)%nat) as [E|]; [by destruct (Hn0 E)|lia]. }
  destruct (prefix_equal_bits_spec p n v m (proj1 Hok) Hv Hn) as (Hk & _ & _).
  set (k := prefix_equal_bits p n v m) in *. clearbody k.
  destruct (Nat.ltb_spec k n) as [Hlt|Hge]; [cbn [fst]; split_and!; lia|].
  set (plens' := if (0 <? r)%nat then _ else _). assert (k = n) as -> by lia.
  destruct (Nat.leb_spec N (m + n)) as [HNle|HNgt]; [cbn [fst]; split_and!; try lia; intros; specialize (Hnp ltac:(done)); lia|].
  set (at_end' := trie_is_leaf e0 e1).
  assert (forall e, e = e0 \/ e = e1 ->
    let mb := fst (trie_lookup_loop e at_end' v plens' (m + n) N) in (m + n <= mb <= N)%nat) as He.
  { intros e [->| ->]; [destruct (IH0 false at_end' plens' (m + n)%nat He0 ltac:(lia)) as (? & _ & H4)|
      destruct (IH1 false at_end' plens' (m + n)%nat He1 ltac:(lia)) as (? & _ & H4)]; specialize (H4 ltac:(lia)); done. }
  assert (m < N)%nat by lia.
  destruct (be_get_bit_at v (m + n)); [specialize (He e1 ltac:(auto))|specialize (He e0 ltac:(auto))]; cbn zeta in *;
    split_and!; try lia; intros; try specialize (Hnp ltac:(done)); lia.
Qed.

(** A stored prefix of the value lies within the bits returned. *)
Lemma lookup_loop_covers (t : trie) (root at_end : bool) (v plens : list Z) (m N L : nat) :
  be32s_wf v -> twf root t -> (m + theight t <= N)%nat -> (m <= L)%nat ->
  (0 < tcount t (vbits v m (L - m)))%nat -> (L <= fst (trie_lookup_loop t at_end v plens m N))%nat.
Proof.
  intros Hv. revert root at_end plens m. induction t as [|p n r e0 IH0 e1 IH1];
    intros root at_end plens m Hwf Hh HL Hc; [cbn in Hc; lia|].
  pose proof Hwf as (Hn & Hn0 & Hok & He0 & Hf0 & He1 & Hf1). cbn [theight] in Hh. cbn [trie_lookup_loop].
  destruct (prefix_equal_bits_spec p n v m (proj1 Hok) Hv Hn) as (Hk & Heq & Hne).
  set (k := prefix_equal_bits p n v m) in *. clearbody k.
  destruct (Nat.ltb_spec k n) as [Hlt|Hge].
  { rewrite (tcount_TNode_ne p n) in Hc; [lia|]. apply (pbits_neq_take p n k); [done|]. intros _. by apply Hne. }
  assert (k = n) as -> by lia. apply pbits_vbits in Heq. rewrite node_count_vbits in Hc by done.
  destruct (Nat.ltb_spec L (m + n)); [lia|]. set (plens' := if (0 <? r)%nat then _ else _).
  destruct (Nat.leb_spec N (m + n)) as [HNle|HNgt].
  { cbn [fst]. destruct (Nat.eqb_spec L (m + n)); [lia|].
    rewrite (theight_pos e0), (theight_pos e1) in Hc by (done || lia). by destruct (vbit v (m + n)); cbn in Hc; lia. }
  rewrite be_get_bit_at_spec. destruct (Nat.eqb_spec L (m + n)) as [->|].
  - destruct (vbit v (m + n)); [apply (lookup_loop_ge e1 false)|apply (lookup_loop_ge e0 false)]; (done || lia).
  - destruct (vbit v (m + n)); [apply (IH1 false)|apply (IH0 false)]; (done || lia).
Qed.

Lemma equal_bits_stable (p : Z) (n : nat) (v v' : list Z) (m : nat) :
  in_width 32 p -> be32s_wf v -> be32s_wf v' -> (n <= 32)%nat ->
  let k := prefix_equal_bits p n v m in
  (forall j, (j < m + k)%nat -> vbit v' j = vbit v j) ->
  ((k < n)%nat -> vbit v' (m + k) = vbit v (m + k)) ->
  prefix_equal_bits p n v' m = k.
Proof.
  intros Hp Hv Hv' Hn k Hag Hag1.
  destruct (prefix_equal_bits_spec p n v m Hp Hv Hn) as (Hk & Heq & Hne). fold k in Hk, Heq, Hne.
  destruct (prefix_equal_bits_spec p n v' m Hp Hv' Hn) as (Hk' & Heq' & Hne').
  set (k' := prefix_equal_bits p n v' m) in *. clearbody k k'.
  destruct (Nat.lt_trichotomy k' k) as [H|[H|H]]; [exfalso|done|exfalso].
  - specialize (Hne' ltac:(lia)). rewrite Hag, <- Heq in Hne' by lia. by destruct (pbit p k').
  - specialize (Hne ltac:(lia)). specialize (Heq' k H).
    rewrite Hag1, Hne in Heq' by lia. by destruct (vbit v (m + k)).
Qed.

(** A value that has the bits that were looked at gets the same result. *)
Lemma lookup_loop_stable (t : trie) (root at_end : bool) (v v' plens : list Z) (m N : nat) :
  be32s_wf v -> be32s_wf v' -> twf root t -> (m + theight t <= N)%nat ->
  (forall j, (j < fst (trie_lookup_loop t at_end v plens m N))%nat -> vbit v' j = vbit v j) ->
  trie_lookup_loop t at_end v' plens m N = trie_lookup_loop t at_end v plens m N.
Proof.
  intros Hv Hv'. revert root at_end plens m. induction t as [|p n r e0 IH0 e1 IH1]; intros root at_end plens m Hwf Hh Hag;
    [done|].
  pose proof (lookup_loop_ge (TNode p n r e0 e1) root at_end v plens m N Hv Hwf Hh) as (Hge0 & _).
  pose proof Hwf as (Hn & Hn0 & Hok & He0 & Hf0 & He1 & Hf1). cbn [theight] in Hh.
  cbn [trie_lookup_loop] in *.
  destruct (prefix_equal_bits_spec p n v m (proj1 Hok) Hv Hn) as (Hk & _ & _).
  pose proof (equal_bits_stable p n v v' m (proj1 Hok) Hv Hv' Hn) as Hst. cbn zeta in Hst.
  set (k := prefix_equal_bits p n v m) in *. clearbody k.
  destruct (Nat.ltb_spec k n) as [Hlt|Hge].
  { cbn [fst] in Hag. rewrite Hst by (intros; apply Hag; lia).
    destruct (Nat.ltb_spec k n); [done|lia]. }
  assert (k = n) as -> by lia.
  set (plens' := if (0 <? r)%nat then be_set_bit_at plens (m + n - 1) else plens) in *.
  destruct (Nat.leb_spec N (m + n)) as [HNle|HNgt].
  { cbn [fst] in Hag. rewrite Hst by (intros; first [lia|apply Hag; lia]).
    destruct (Nat.ltb_spec n n); [lia|]. fold plens'. by destruct (Nat.leb_spec N (m + n)); [|lia]. }
  assert (forall e, e = e0 \/ e = e1 ->
    (m + n <= fst (trie_lookup_loop e (trie_is_leaf e0 e1) v plens' (m + n) N))%nat /\
    (trie_is_leaf e0 e1 = false -> (m + n < fst (trie_lookup_loop e (trie_is_leaf e0 e1) v plens' (m + n) N))%nat)) as Hch.
  { intros e Hin. assert (twf false e /\ (m + n + theight e <= N)%nat) as [Hew Heh]
      by (destruct Hin as [->| ->]; (split; [done|lia])).
    destruct (lookup_loop_ge e false (trie_is_leaf e0 e1) v plens' (m + n) N Hv Hew Heh) as (H1 & H2 & _).
    split; [done|]. intros Hleaf. destruct e; [|by apply H2]. rewrite Hleaf. cbn. lia. }
  rewrite !be_get_bit_at_spec in *.
  assert (prefix_equal_bits p n v' m = n) as ->.
  { apply Hst; [|lia]. intros j Hj. apply Hag.
    destruct (vbit v (m + n)); [destruct (Hch e1 ltac:(auto))|destruct (Hch e0 ltac:(auto))]; lia. }
  destruct (Nat.ltb_spec n n); [lia|]. fold plens'. destruct (Nat.leb_spec N (m + n)); [lia|].
  destruct (trie_is_leaf e0 e1) eqn:Hleaf.
  - apply andb_prop in Hleaf as [Hl0 Hl1]. destruct e0, e1; try done. by destruct (vbit v' (m + n)), (vbit v (m + n)).
  - assert (vbit v' (m + n) = vbit v (m + n)) as ->.
    { apply Hag. destruct (vbit v (m + n)); [destruct (Hch e1 ltac:(auto)) as [_ H']|
        destruct (Hch e0 ltac:(auto)) as [_ H']]; by apply H'. }
    destruct (vbit v (m + n)); [apply (IH1 false)|apply (IH0 false)]; (done || lia).
Qed.

(** ** Removal of a prefix *)

Lemma remove_prefix_ok (t : trie) (pr : list Z) (mlen : nat) :
  be32s_wf pr -> twf true t ->
  let t' := trie_remove_prefix t pr mlen in
  twf true t' /\ (theight t' <= theight t)%nat /\
  forall b, (tcount t' b = tcount t b - if bool_decide (b = vbits pr 0 mlen) then 1 else 0)%nat.
Proof.
  intros Hpr Hwf. unfold trie_remove_prefix.
  pose proof (remove_walk_ok t [] pr 0 mlen Hpr I Hwf I ltac:(lia)) as H.
  destruct (trie_remove_walk t [] pr 0 mlen) as [path res]. destruct H as [[Wr Wn _] _].
  rewrite Nat.sub_0_r in *.
  assert (rules_at res = 0%nat -> twf true t /\ (theight t <= theight t)%nat /\
    forall b, (tcount t b = tcount t b - if bool_decide (b = vbits pr 0 mlen) then 1 else 0)%nat) as Hsame.
  { intros E. split_and!; [done|lia|]. intros b. case_bool_decide as Eb; [|lia]. subst b. rewrite Wr, E. lia. }
  destruct res as [node|]; [|by apply Hsame].
  destruct (Wn node eq_refl) as (p & n & r & e0 & e1 & -> & Hplug & Hp & Htw & Hoe & Hbits).
  cbn [rules_at] in *. destruct (Nat.eqb_spec r 0) as [E|E]; [by apply Hsame|].
  pose proof Htw as (? & Hn0 & ? & ? & ? & ? & ?).
  destruct (prune_spec path p n (r - 1) e0 e1 Hp) as [Hw Hh Hc].
  { cbn [twf]. split_and!; try done. intros E'. destruct (Hn0 E'). split; [done|lia]. }
  { destruct path; done. }
  cbn [plug] in Hplug. split_and!; [done| |].
  - etransitivity; [exact Hh|]. rewrite <- Hplug. by apply plug_height.
  - intros b. rewrite Hc, <- Hplug.
    assert (forall l, (tcount (TNode p n r e0 e1) l =
              tcount (TNode p n (r - 1) e0 e1) l + if bool_decide (l = pbits p n) then 1 else 0)%nat) as Hd.
    { intros l. destruct (starts_dec l (pbits p n)) as [[x ->]|Hne].
      - rewrite !(tcount_TNode _ _ _ _ _ _ x) by done. destruct x as [|c x].
        + rewrite app_nil_r, bool_decide_eq_true_2 by done. lia.
        + rewrite bool_decide_eq_false_2; [lia|]. intros E'%(f_equal length).
          rewrite length_app in E'. simpl in E'. lia.
      - rewrite !tcount_TNode_ne by done. rewrite bool_decide_eq_false_2; [done|].
        intros ->. apply (Hne []). by rewrite app_nil_r. }
    cbn [path_bits app] in Hbits.
    rewrite (plug_delta path (TNode p n r e0 e1) (TNode p n (r - 1) e0 e1) (pbits p n)), Hbits; [lia|done| |done].
    destruct path as [|f path]; [done|]. cbn [is_nil] in Hn0.
    destruct (pbits_cons p n) as [z Hz]; [destruct (decide (n = 0)%nat) as [E0|]; [by destruct (Hn0 E0)|lia]|].
    exists z. rewrite Hz. f_equal. exact Hoe.
Qed.

(** ** Properties *)

Ltac sample_be32s := repeat constructor; unfold in_width; lia.

(** C37: inserting a prefix keeps the trie well formed, and adds exactly one
    occurrence of exactly that bit string, whichever nodes are split or created. *)
Theorem trie_insert_adds (t : trie) (pr : list Z) (mlen : nat) :
  be32s_wf pr -> twf true t -> (0 < mlen)%nat ->
  twf true (trie_insert_prefix t pr mlen) /\
  forall b, tcount (trie_insert_prefix t pr mlen) b =
    (tcount t b + if bool_decide (b = vbits pr 0 mlen) then 1 else 0)%nat.
Proof.
  intros Hpr Hwf Hm. destruct (insert_walk_ok t true pr 0 mlen Hpr Hwf) as [Hw _ _ Hc]; [done|done|].
  rewrite Nat.sub_0_r in Hc. by split.
Qed.

Lemma trie_insert_adds_witness :
  let t := trie_insert_prefix TNull [0x0a000000] 8 in
  twf true (trie_insert_prefix t [0x0a010000] 16) /\
  forall b, tcount (trie_insert_prefix t [0x0a010000] 16) b =
    (tcount t b + if bool_decide (b = vbits [0x0a010000%Z] 0 16) then 1 else 0)%nat.
Proof.
  apply trie_insert_adds; [sample_be32s| |lia]. vm_compute. split_and!; try done; try lia.
  intros j Hj. do 32 (destruct j as [|j]; [try done; lia|]). lia.
Defined.



(** a lookup marks prefix length [L] exactly when the first [L] bits of the
    value are a stored prefix. *)
Theorem trie_lookup_marks_stored (t : trie) (value : list Z) (n_bits L : nat) :
  be32s_wf value -> twf true t -> (theight t <= n_bits <= 128)%nat -> (0 < L <= 128)%nat ->
  be_get_bit_at (snd (trie_lookup_value t value plens_zero n_bits)) (L - 1) =
  (0 <? tcount t (vbits value 0 L))%nat.
Proof.
  intros Hv Hwf Hh HL. rewrite be_get_bit_at_spec. unfold trie_lookup_value.
  destruct (lookup_loop_plens t true true value plens_zero 0 n_bits Hv Hwf ltac:(lia)) as [_ H];
    [cbn; lia|].
  rewrite H by lia. unfold has_prefix. rewrite Nat.sub_0_r. cbn [Nat.leb andb].
  unfold vbit. replace (nth ((L - 1) / 32) plens_zero 0) with 0; [by rewrite Z.bits_0|].
  symmetry. apply nth_replicate_0.
Qed.

Lemma trie_lookup_marks_stored_witness :
  let t := trie_insert_prefix (trie_insert_prefix TNull [0x0a000000] 8) [0x0a010000] 16 in
  be_get_bit_at (snd (trie_lookup_value t [0x0a01ffff] plens_zero 32)) (16 - 1) =
  (0 <? tcount t (vbits [0x0a01ffff%Z] 0 16))%nat.
Proof.
  apply trie_lookup_marks_stored; [sample_be32s| |vm_compute; lia|lia].
  apply insert_walk_ok; [sample_be32s| |done|lia]. apply insert_walk_ok; [sample_be32s|done|done|lia].
Defined.

(** C39: the number of bits that a lookup returns is within the field and enough to
    repeat its answer: any value with the same leading bits gets the same set of
    prefix lengths and the same number of bits. *)
Theorem trie_lookup_bits_suffice (t : trie) (value value' plens : list Z) (n_bits : nat) :
  be32s_wf value -> be32s_wf value' -> twf true t -> (theight t <= n_bits)%nat ->
  let '(maskbits, plens') := trie_lookup_value t value plens n_bits in
  (maskbits <= n_bits)%nat /\
  (vbits value' 0 maskbits = vbits value 0 maskbits ->
   trie_lookup_value t value' plens n_bits = (maskbits, plens')).
Proof.
  intros Hv Hv' Hwf Hh. unfold trie_lookup_value.
  pose proof (lookup_loop_ge t true true value plens 0 n_bits Hv Hwf Hh) as (_ & _ & Hle).
  pose proof (lookup_loop_stable t true true value value' plens 0 n_bits Hv Hv' Hwf Hh) as Hst.
  destruct (trie_lookup_loop t true value plens 0 n_bits) as [mb plens']. cbn [fst] in *.
  split; [apply Hle; by left|]. intros E. apply Hst. intros j Hj.
  apply (f_equal (fun l => nth j l false)) in E. unfold vbits in E. by rewrite !nth_map_seq in E by done.
Qed.

Lemma trie_lookup_bits_suffice_witness :
  let t := trie_insert_prefix (trie_insert_prefix TNull [0x0a000000] 8) [0x0a010000] 16 in
  let '(maskbits, plens') := trie_lookup_value t [0x0a020001] plens_zero 32 in
  (maskbits <= 32)%nat /\
  (vbits [0x0a0200ff%Z] 0 maskbits = vbits [0x0a020001%Z] 0 maskbits ->
   trie_lookup_value t [0x0a0200ff] plens_zero 32 = (maskbits, plens')).
Proof.
  apply trie_lookup_bits_suffice; [sample_be32s|sample_be32s| |vm_compute; lia].
  apply insert_walk_ok; [sample_be32s| |done|lia]. apply insert_walk_ok; [sample_be32s|done|done|lia].
Defined.

(** The walk of a removal writes at most [mlen + 1] entries of [edges[]]. *)
Theorem trie_remove_edges_bound (t : trie) (pr : list Z) (mlen : nat) :
  be32s_wf pr -> twf true t -> (edges_used t pr mlen <= mlen + 1)%nat.
Proof.
  intros Hpr Hwf. unfold edges_used.
  pose proof (remove_walk_ok t [] pr 0 mlen Hpr I Hwf I ltac:(lia)) as H.
  destruct (trie_remove_walk t [] pr 0 mlen) as [path res]. destruct H as [[_ _ Hd] _]. cbn in *. lia.
Qed.

Lemma trie_remove_edges_bound_witness :
  (edges_used (trie_insert_prefix (trie_insert_prefix TNull [0%Z] 8) [0x80000000%Z] 8) [0%Z] 8 <= 8 + 1)%nat.
Proof.
  apply trie_remove_edges_bound; [sample_be32s|].
  apply insert_walk_ok; [sample_be32s| |done|lia]. apply insert_walk_ok; [sample_be32s|done|done|lia].
Defined.

(** The trie of the 128 non-empty prefixes of the IPv6 address [::] and of the
    prefix [8000::/1]. *)
Definition deep_trie : trie :=
  trie_insert_prefix (foldl (fun t mlen => trie_insert_prefix t [0; 0; 0; 0] mlen) TNull (seq 1 128))
    [0x80000000; 0; 0; 0] 1.

(** [edges[]] has 128 entries, but removing the prefix [::/128] from a trie that
    holds every prefix of [::] and one prefix with the other first bit writes 129:
    the root has no bits and is followed by 128 nodes of one bit each. *)
Theorem trie_remove_edges_overflow :
  (N_EDGES < edges_used deep_trie [0%Z; 0%Z; 0%Z; 0%Z] 128)%nat.
Proof. apply Nat.ltb_lt. vm_compute. reflexivity. Qed.
