(* ===== verification/FlowBits.v ===== *)
(** * Bits of flows, prefixes and wildcards

    Flows, masks and wildcards as sequences of bits, the most significant bit
    of the first word first: in this view the 64-bit words of the sparse
    representations, the [ovs_be32] words of the prefix tries, and the prefix
    bits that a lookup unwildcards are parts of one sequence. *)

From S2P Require Import Prelude Util Flowmap Hash Miniflow MetaFlow Trie.
From stdpp Require Import prelude list.
From Stdlib Require Import ZArith Lia.
Open Scope Z_scope.
Open Scope ovs_scope.

Definition FLOW_BITS : nat := 64 * FLOW_U64S.

Definition fbit (f : flow) (i : nat) : bool := Z.testbit (nth (i / 64) f 0) (63 - Z.of_nat (i mod 64)).

(** [f] and [f'] agree on the bits of [wc]. *)
Definition agree (wc f f' : flow) : Prop := forall i, fbit wc i = true -> fbit f i = fbit f' i.

Lemma fbit_word (f : flow) (k : nat) (b : Z) :
  0 <= b < 64 -> Z.testbit (nth k f 0) b = fbit f (64 * k + Z.to_nat (63 - b)).
Proof.
  intros Hb. unfold fbit. rewrite Nat.mul_comm, Nat.add_comm, Nat.div_add, Nat.Div0.mod_add by lia.
  rewrite Nat.div_small, Nat.mod_small by lia. cbn [Nat.add]. f_equal. lia.
Qed.

Lemma fbit_out (f : flow) (i : nat) : flow_wf f -> (FLOW_BITS <= i)%nat -> fbit f i = false.
Proof.
  intros [Hl _] Hi. unfold fbit. rewrite nth_overflow; [apply Z.bits_0|]. rewrite Hl.
  apply Nat.div_le_lower_bound; [lia|]. unfold FLOW_BITS in Hi. lia.
Qed.

Lemma flow_word_width (f : flow) (k : nat) : flow_wf f -> in_width 64 (nth k f 0).
Proof. intros [_ H]. apply nth_Forall; [done|]. unfold in_width. lia. Qed.

Lemma fbit_ext (a b : flow) : flow_wf a -> flow_wf b -> (forall i, fbit a i = fbit b i) -> a = b.
Proof.
  intros Ha Hb H. apply flow_ext; [apply Ha|apply Hb|]. intros k _. apply Z.bits_inj'. intros n Hn.
  destruct (Z.lt_ge_cases n 64); [by rewrite !fbit_word by lia|].
  by rewrite !(in_width_high 64) by (done || by apply flow_word_width).
Qed.

Lemma flow_equal_except_agree (f f' wc : flow) :
  flow_wf wc -> flow_equal_except f f' wc = true <-> agree wc f f'.
Proof.
  intros Hwc. unfold flow_equal_except. rewrite forallb_seq. setoid_rewrite Z.eqb_eq.
  setoid_rewrite lxor_land_zero. split.
  - intros H i Hi. destruct (decide (i < FLOW_BITS)%nat) as [Hlt|Hge].
    + unfold fbit in *. pose proof (Nat.mod_upper_bound i 64 ltac:(lia)). apply H; [|lia|done].
      apply Nat.Div0.div_lt_upper_bound. unfold FLOW_BITS in Hlt. lia.
    + by rewrite fbit_out in Hi by (done || lia).
  - intros H k Hk b Hb Hm. destruct (Z.lt_ge_cases b 64).
    + rewrite !fbit_word by lia. apply H. by rewrite <- fbit_word by lia.
    + rewrite (in_width_high 64) in Hm; [done|by apply flow_word_width|done].
Qed.

Lemma agree_refl (wc f : flow) : agree wc f f.
Proof. by intros i _. Qed.

Lemma agree_sym (wc f f' : flow) : agree wc f f' -> agree wc f' f.
Proof. intros H i Hi. symmetry. by apply H. Qed.

Lemma agree_mono (wc wc' f f' : flow) :
  (forall i, fbit wc i = true -> fbit wc' i = true) -> agree wc' f f' -> agree wc f f'.
Proof. intros H Ha i Hi. by apply Ha, H. Qed.

(** ** 32-bit words *)

Lemma div_mod_32_64 (ofs j : nat) :
  (j < 32)%nat ->
  ((32 * ofs + j) / 64 = ofs / 2)%nat /\
  ((32 * ofs + j) mod 64 = if Nat.odd ofs then 32 + j else j)%nat.
Proof.
  intros Hj. pose proof (Nat.div_mod_eq ofs 2) as E. rewrite <- Nat.bit0_mod in E. rewrite <- Nat.bit0_odd.
  set (q := (ofs / 2)%nat) in *. destruct (Nat.testbit ofs 0); cbn [Nat.b2n] in E.
  - split; [symmetry; apply (Nat.div_unique _ 64 _ (32 + j)); lia|
      symmetry; apply (Nat.mod_unique _ 64 q (32 + j)); lia].
  - split; [symmetry; apply (Nat.div_unique _ 64 _ j); lia|
      symmetry; apply (Nat.mod_unique _ 64 q j); lia].
Qed.

Lemma flow_be32_bit (f : flow) (ofs j : nat) :
  (j < 32)%nat -> pbit (flow_be32 f ofs) j = fbit f (32 * ofs + j).
Proof.
  intros Hj. unfold pbit, flow_be32, fbit, flow_u64_value.
  destruct (div_mod_32_64 ofs j Hj) as [-> ->]. destruct (Nat.odd ofs).
  - rewrite wrap_testbit by lia. destruct (Z.ltb_spec (31 - Z.of_nat j) 32); [|lia]. cbn [andb]. f_equal. lia.
  - rewrite Z.shiftr_spec by lia. f_equal. lia.
Qed.

Lemma shiftr_32_width (x : Z) : in_width 64 x -> in_width 32 (Z.shiftr x 32).
Proof.
  intros Hx. apply in_width_bits; [lia|]. split; [apply Z.shiftr_nonneg; apply Hx|].
  intros i Hi. rewrite Z.shiftr_spec by lia. apply (in_width_high 64); [done|lia].
Qed.

Lemma flow_be32_width (f : flow) (ofs : nat) : flow_wf f -> in_width 32 (flow_be32 f ofs).
Proof.
  intros Hf. unfold flow_be32. destruct (Nat.odd ofs); [apply wrap_width; lia|].
  by apply shiftr_32_width, flow_word_width.
Qed.

Lemma miniflow_get_be32_expand (mf : miniflow) (ofs : nat) :
  miniflow_wf mf -> miniflow_get_be32 mf ofs = flow_be32 (miniflow_expand mf) ofs.
Proof. intros H. unfold miniflow_get_be32, flow_be32, flow_u64_value. by rewrite expand_nth. Qed.

Lemma be32s_bit (f : flow) (ofs n i : nat) :
  (i < 32 * n)%nat -> vbit (flow_be32s f ofs n) i = fbit f (32 * ofs + i).
Proof.
  intros Hi. unfold vbit, flow_be32s. pose proof (Nat.mod_upper_bound i 32 ltac:(lia)).
  assert (i / 32 < n)%nat by (apply Nat.Div0.div_lt_upper_bound; lia).
  rewrite nth_map_seq by done. fold (pbit (flow_be32 f (ofs + i / 32)) (i mod 32)).
  rewrite flow_be32_bit by done. f_equal. pose proof (Nat.div_mod_eq i 32). lia.
Qed.

Lemma be32s_wf_flow (f : flow) (ofs n : nat) : flow_wf f -> be32s_wf (flow_be32s f ofs n).
Proof. intros Hf. apply Forall_map, Forall_forall. intros i _. by apply flow_be32_width. Qed.

(** Storing a 32-bit word. *)
Lemma flow_set_be32_bit (f : flow) (ofs : nat) (x : Z) (i : nat) :
  flow_wf f -> in_width 32 x -> (ofs / 2 < FLOW_U64S)%nat ->
  fbit (flow_set_be32 f ofs x) i = if (i / 32 =? ofs)%nat then pbit x (i mod 32) else fbit f i.
Proof.
  intros [Hl Hf] Hx Ho. pose proof (Nat.div_mod_eq i 32) as Ei. pose proof (Nat.mod_upper_bound i 32 ltac:(lia)) as Hm.
  set (o := (i / 32)%nat) in *. set (j := (i mod 32)%nat) in *. rewrite Ei.
  unfold fbit, flow_set_be32, flow_u64_value, pbit. destruct (div_mod_32_64 o j Hm) as [-> ->].
  destruct (decide (ofs / 2 = o / 2)%nat) as [E|E].
  - rewrite <- E, nth_insert_eq by lia.
    assert ((o =? ofs)%nat = Bool.eqb (Nat.odd o) (Nat.odd ofs)) as ->.
    { pose proof (Nat.div_mod_eq o 2) as E1. pose proof (Nat.div_mod_eq ofs 2) as E2.
      rewrite <- Nat.bit0_mod in E1, E2. rewrite <- !Nat.bit0_odd.
      destruct (Nat.testbit o 0), (Nat.testbit ofs 0), (Nat.eqb_spec o ofs); cbn [Nat.b2n Bool.eqb] in *; (done || lia). }
    set (v := nth (ofs / 2) f 0).
    destruct (Nat.odd o), (Nat.odd ofs); cbn [Bool.eqb]; rewrite Z.lor_spec.
    + rewrite Z.shiftl_spec by lia. rewrite Z.testbit_neg_r by lia. cbn [orb]. f_equal. lia.
    + rewrite Z.shiftl_spec by lia. rewrite Z.testbit_neg_r, wrap_testbit by lia. cbn [orb].
      destruct (Z.ltb_spec (63 - Z.of_nat (32 + j)) 32); [done|lia].
    + rewrite Z.shiftl_spec, Z.shiftr_spec by lia. rewrite (in_width_high 32 x) by (done || lia).
      rewrite orb_false_r. f_equal. lia.
    + rewrite Z.shiftl_spec, wrap_testbit by lia. destruct (Z.ltb_spec (63 - Z.of_nat j) 32); [lia|].
      cbn [andb]. rewrite orb_false_r. f_equal. lia.
  - rewrite nth_insert_ne by done. destruct (Nat.eqb_spec o ofs) as [->|]; done.
Qed.

Lemma flow_set_be32_wf (f : flow) (ofs : nat) (x : Z) :
  flow_wf f -> in_width 32 x -> flow_wf (flow_set_be32 f ofs x).
Proof.
  intros Hf Hx. pose proof (flow_word_width f (ofs / 2) Hf) as Hw. destruct Hf as [Hl Hf].
  split; [by unfold flow_set_be32; rewrite length_insert|]. apply Forall_insert; [done|].
  assert (forall y, in_width 32 y -> in_width 64 (Z.shiftl y 32)) as Hsh.
  { intros y Hy. apply in_width_bits; [lia|]. split; [apply Z.shiftl_nonneg; apply Hy|].
    intros i Hi. rewrite Z.shiftl_spec by lia. apply (in_width_high 32); [done|lia]. }
  unfold flow_u64_value. destruct (Nat.odd ofs); (apply in_width_lor; [lia|apply Hsh|]).
  - by apply shiftr_32_width.
  - by apply (in_width_mono 32); [lia|].
  - done.
  - apply (in_width_mono 32); [lia|]. apply wrap_width. lia.
Qed.

(** ** Prefix bits of wildcards *)

(** Bit [i] is one of the first [n] bits from 32-bit word [ofs] on. *)
Definition in_prefix (ofs n i : nat) : bool := ((32 * ofs <=? i) && (i <? 32 * ofs + n))%nat.

Lemma UINT32_MAX_bit (j : nat) : (j < 32)%nat -> pbit UINT32_MAX j = true.
Proof.
  intros Hj. unfold pbit. rewrite UINT32_MAX_ones, testbit_ones by lia.
  destruct (Z.ltb_spec (31 - Z.of_nat j) 32); [done|lia].
Qed.

Lemma UINT32_MAX_width : in_width 32 UINT32_MAX.
Proof. unfold in_width, UINT32_MAX. lia. Qed.

Lemma set_whole_words (wc : flow) (ofs n : nat) :
  flow_wf wc -> (ofs + n <= 2 * FLOW_U64S)%nat ->
  let wc' := foldl (fun wc i => flow_set_be32 wc (ofs + i) UINT32_MAX) wc (seq 0 n) in
  flow_wf wc' /\ forall i, fbit wc' i = fbit wc i || in_prefix ofs (32 * n) i.
Proof.
  intros Hwc. induction n as [|n IH]; intros Hn.
  - split; [done|]. intros i. unfold in_prefix.
    destruct (Nat.leb_spec (32 * ofs) i), (Nat.ltb_spec i (32 * ofs + 32 * 0)); try lia; by rewrite orb_false_r.
  - rewrite seq_S, foldl_app. cbn [foldl Nat.add]. destruct IH as [Hwf Hb]; [lia|].
    split; [apply flow_set_be32_wf; [done|apply UINT32_MAX_width]|]. intros i.
    rewrite flow_set_be32_bit by (done || apply UINT32_MAX_width || (apply Nat.Div0.div_lt_upper_bound; lia)).
    pose proof (Nat.div_mod_eq i 32). pose proof (Nat.mod_upper_bound i 32 ltac:(lia)).
    unfold in_prefix in *. destruct (Nat.eqb_spec (i / 32) (ofs + n)) as [E|E].
    + rewrite UINT32_MAX_bit by lia.
      destruct (Nat.leb_spec (32 * ofs) i), (Nat.ltb_spec i (32 * ofs + 32 * S n)); try lia; by rewrite ?orb_true_r.
    + rewrite Hb. f_equal. f_equal.
      destruct (Nat.ltb_spec i (32 * ofs + 32 * n)), (Nat.ltb_spec i (32 * ofs + 32 * S n)); lia.
Qed.

(** [mask_set_prefix_bits] sets exactly the first [n_bits] bits of the field. *)
Lemma mask_set_prefix_bits_spec (wc : flow) (ofs n : nat) :
  flow_wf wc -> (32 * ofs + n <= FLOW_BITS)%nat ->
  flow_wf (mask_set_prefix_bits wc ofs n) /\
  forall i, fbit (mask_set_prefix_bits wc ofs n) i = fbit wc i || in_prefix ofs n i.
Proof.
  intros Hwc Hn. pose proof (Nat.div_mod_eq n 32) as En. pose proof (Nat.mod_upper_bound n 32 ltac:(lia)) as Hr.
  unfold FLOW_BITS in Hn. unfold mask_set_prefix_bits.
  destruct (set_whole_words wc ofs (n / 32) Hwc ltac:(lia)) as [Hwf Hb].
  set (wc1 := foldl _ wc _) in *. cbn zeta.
  destruct (Nat.eqb_spec (n mod 32) 0) as [E|E]; cbn [negb].
  - split; [done|]. intros i. rewrite Hb. by replace (32 * (n / 32))%nat with n by lia.
  - assert ((ofs + n / 32) / 2 < FLOW_U64S)%nat as Ho by (apply Nat.Div0.div_lt_upper_bound; lia).
    set (m := u32 (Z.shiftl UINT32_MAX (Z.of_nat (32 - n mod 32)))).
    assert (in_width 32 (Z.lor (flow_be32 wc1 (ofs + n / 32)) m)) as Hw.
    { apply in_width_lor; [lia|by apply flow_be32_width|apply wrap_width; lia]. }
    split; [by apply flow_set_be32_wf|]. intros i. rewrite flow_set_be32_bit by done.
    pose proof (Nat.div_mod_eq i 32). pose proof (Nat.mod_upper_bound i 32 ltac:(lia)).
    destruct (Nat.eqb_spec (i / 32) (ofs + n / 32)) as [Ei|Ei].
    + unfold pbit at 1. rewrite Z.lor_spec. fold (pbit (flow_be32 wc1 (ofs + n / 32)) (i mod 32)).
      fold (pbit m (i mod 32)). unfold m. rewrite high_mask_bit, flow_be32_bit, Hb by lia.
      replace (32 * (ofs + n / 32) + i mod 32)%nat with i by lia. rewrite <- orb_assoc. f_equal.
      unfold in_prefix. destruct (Nat.leb_spec (32 * ofs) i), (Nat.ltb_spec i (32 * ofs + 32 * (n / 32))),
        (Nat.ltb_spec (i mod 32) (n mod 32)), (Nat.ltb_spec i (32 * ofs + n)); (done || lia).
    + rewrite Hb. f_equal. unfold in_prefix. f_equal.
      destruct (Nat.ltb_spec i (32 * ofs + 32 * (n / 32))), (Nat.ltb_spec i (32 * ofs + n)); (done || lia).
Qed.

Lemma lor_zero (a b : Z) : Z.lor a b = 0 <-> a = 0 /\ b = 0.
Proof. apply Z.lor_eq_0_iff. Qed.

Lemma foldl_lor_zero (g : nat -> Z) (l : list nat) (z : Z) :
  foldl (fun z i => Z.lor z (g i)) z l = 0 <-> z = 0 /\ forall i, In i l -> g i = 0.
Proof.
  revert z. induction l as [|x l IH]; intros z; cbn [foldl]; [intuition done|].
  rewrite IH, lor_zero. cbn. split; [intros [[Hz Hx] Hl]; split; [done|]; intros i [<-|]; auto|].
  intros [Hz Hl]. auto.
Qed.

Lemma zero_bits32 (x : Z) : in_width 32 x -> x = 0 <-> forall j, (j < 32)%nat -> pbit x j = false.
Proof.
  intros Hx. split; [intros ->; intros; apply Z.bits_0|]. intros H. apply Z.bits_inj'. intros i Hi.
  rewrite Z.bits_0. destruct (Z.lt_ge_cases i 32); [|by apply (in_width_high 32)].
  specialize (H (Z.to_nat (31 - i)) ltac:(lia)). unfold pbit in H. rewrite Z2Nat.id in H by lia.
  by replace (31 - (31 - i)) with i in H by lia.
Qed.

Lemma pbit_lnot (x : Z) (j : nat) : (j < 32)%nat -> pbit (u32 (Z.lnot x)) j = negb (pbit x j).
Proof.
  intros Hj. unfold pbit. rewrite lnot_testbit by lia. destruct (Z.ltb_spec (31 - Z.of_nat j) 32); [done|lia].
Qed.

(** [mask_prefix_bits_set] tests exactly the first [n_bits] bits of the field. *)
Lemma mask_prefix_bits_set_spec (wc : flow) (ofs n : nat) :
  flow_wf wc ->
  mask_prefix_bits_set wc ofs n = true <-> forall i, in_prefix ofs n i = true -> fbit wc i = true.
Proof.
  intros Hwc. pose proof (Nat.div_mod_eq n 32) as En. pose proof (Nat.mod_upper_bound n 32 ltac:(lia)) as Hr.
  unfold mask_prefix_bits_set. cbn zeta. rewrite Z.eqb_eq.
  set (g := fun i => u32 (Z.lnot (flow_be32 wc (ofs + i)))).
  set (m := u32 (Z.shiftl UINT32_MAX (Z.of_nat (32 - n mod 32)))).
  assert (forall k, g k = 0 <-> forall j, (j < 32)%nat -> fbit wc (32 * (ofs + k) + j) = true) as Hg.
  { intros k. rewrite zero_bits32 by (apply wrap_width; lia).
    split; intros H j Hj; specialize (H j Hj); unfold g in *; rewrite pbit_lnot, flow_be32_bit in * by done;
      by apply negb_false_iff in H || rewrite H. }
  assert (Z.land (g (n / 32)%nat) m = 0 <->
          forall j, (j < n mod 32)%nat -> fbit wc (32 * (ofs + n / 32) + j) = true) as Hlast.
  { rewrite zero_bits32 by (apply in_width_land; [lia|apply wrap_width; lia|apply wrap_width; lia]).
    assert (forall j, (j < 32)%nat -> pbit (Z.land (g (n / 32)%nat) m) j =
              negb (fbit wc (32 * (ofs + n / 32) + j)) && (j <? n mod 32)%nat) as Hp.
    { intros j Hj. unfold pbit. rewrite Z.land_spec. fold (pbit (g (n / 32)%nat) j) (pbit m j).
      unfold m, g. by rewrite high_mask_bit, pbit_lnot, flow_be32_bit by lia. }
    split; intros H j Hj.
    - specialize (H j ltac:(lia)). rewrite Hp in H by lia. destruct (Nat.ltb_spec j (n mod 32)); [|lia].
      rewrite andb_true_r in H. by apply negb_false_iff in H.
    - rewrite Hp by done. destruct (Nat.ltb_spec j (n mod 32)); [|by rewrite andb_false_r].
      by rewrite H. }
  assert ((if negb (n mod 32 =? 0)%nat then Z.lor (foldl (fun z i => Z.lor z (g i)) 0 (seq 0 (n / 32)))
            (Z.land (g (n / 32)%nat) m) else foldl (fun z i => Z.lor z (g i)) 0 (seq 0 (n / 32))) = 0 <->
          (forall k, (k < n / 32)%nat -> g k = 0) /\ Z.land (g (n / 32)%nat) m = 0) as Hiff.
  { assert (foldl (fun z i => Z.lor z (g i)) 0 (seq 0 (n / 32)) = 0 <-> forall k, (k < n / 32)%nat -> g k = 0) as Hf.
    { rewrite foldl_lor_zero. setoid_rewrite in_seq. split; [intros [_ H] k Hk; apply H; lia|].
      intros H. split; [done|]. intros i Hi. apply H. lia. }
    destruct (Nat.eqb_spec (n mod 32) 0) as [E|E]; cbn [negb]; [|by rewrite lor_zero, Hf].
    rewrite Hf. split; [|by intros []]. intros H. split; [done|]. apply Hlast. lia. }
  apply (iff_trans Hiff). rewrite Hlast. setoid_rewrite Hg. unfold in_prefix. split.
  - intros [H1 H2] i [Hi1%Nat.leb_le Hi2%Nat.ltb_lt]%andb_prop.
    pose proof (Nat.div_mod_eq (i - 32 * ofs) 32). pose proof (Nat.mod_upper_bound (i - 32 * ofs) 32 ltac:(lia)).
    set (k := ((i - 32 * ofs) / 32)%nat) in *. set (j := ((i - 32 * ofs) mod 32)%nat) in *.
    replace i with (32 * (ofs + k) + j)%nat by lia. destruct (decide (k < n / 32)%nat); [by apply H1; lia|].
    replace k with (n / 32)%nat by lia. apply H2. lia.
  - intros H. split; intros; apply H; apply andb_true_intro; (split; [apply Nat.leb_le|apply Nat.ltb_lt]); lia.
Qed.

(** ** Folding masks into wildcards *)

Lemma fold_mask_spec (wc : flow) (mask : minimask) (sub : flowmap) :
  flow_wf wc -> miniflow_wf mask -> flowmap_wf sub -> flowmap_prefix sub (mf_map mask) ->
  flow_wf (flow_wildcards_fold_minimask_in_map wc mask sub) /\
  forall i, fbit (flow_wildcards_fold_minimask_in_map wc mask sub) i =
    fbit wc i || (flowmap_is_set sub (i / 64) && fbit (miniflow_expand mask) i).
Proof.
  intros [Hl Hf] Hm Hs Hp. unfold flow_wildcards_fold_minimask_in_map.
  assert (forall k, nth k (flow_union_with_miniflow_subset wc mask sub) 0 =
    if flowmap_is_set sub k then Z.lor (nth k wc 0) (miniflow_get mask k) else nth k wc 0) as Hn
    by (intros k; by apply union_subset_nth).
  split; [split|].
  - by rewrite union_subset_length.
  - apply Forall_forall. intros x (k & _ & <-)%list_elem_of_In%(In_nth _ _ 0). rewrite Hn.
    assert (in_width 64 (nth k wc 0)) by (apply nth_Forall; [done|unfold in_width; lia]).
    destruct (flowmap_is_set sub k); [|done]. apply in_width_lor; [lia|done|by apply miniflow_get_width].
  - intros i. unfold fbit. rewrite Hn, expand_nth by done.
    destruct (flowmap_is_set sub (i / 64)); [by rewrite Z.lor_spec|by rewrite orb_false_r].
Qed.

Lemma fold_whole_mask_spec (wc : flow) (mask : minimask) :
  flow_wf wc -> miniflow_wf mask ->
  flow_wf (flow_wildcards_fold_minimask wc mask) /\
  forall i, fbit (flow_wildcards_fold_minimask wc mask) i = fbit wc i || fbit (miniflow_expand mask) i.
Proof.
  intros Hwc Hm. destruct (fold_mask_spec wc mask (mf_map mask) Hwc Hm (mwf_map _ Hm) (flowmap_prefix_refl _))
    as [Hwf Hb].
  split; [done|]. intros i. etransitivity; [apply Hb|]. f_equal.
  destruct (flowmap_is_set (mf_map mask) (i / 64)) eqn:E; [done|].
  unfold fbit. by rewrite expand_nth, miniflow_get_unset, Z.bits_0.
Qed.

(** ** CIDR masks *)

(** A word without a 0-bit below a 1-bit is [2^t - 1]. *)
Lemma contiguous_low (x : Z) :
  in_width 32 x -> Z.land x (u32 (x + 1)) = 0 -> exists t, (t <= 32)%nat /\ x = Z.ones (Z.of_nat t).
Proof.
  intros Hx H. destruct (decide (x = UINT32_MAX)) as [->|Hne].
  { exists 32%nat. split; [done|]. by rewrite UINT32_MAX_ones. }
  unfold in_width, UINT32_MAX in *. rewrite wrap_small in H by (unfold in_width; lia).
  assert (in_width 64 (x + 1)) as Hw by (unfold in_width; lia).
  destruct (lowest_bit_exists (x + 1)) as [l Hl]; [lia|]. pose proof (proj1 Hl).
  assert (x + 1 = 2 ^ l) as E.
  { apply Z.bits_inj'. intros i Hi. rewrite testbit_pow2 by done.
    assert (Z.testbit (zero_rightmost_1bit (x + 1)) i = false) as Hz.
    { replace (zero_rightmost_1bit (x + 1)) with 0; [apply Z.bits_0|].
      rewrite zero_rightmost_1bit_land. replace (x + 1 - 1) with x by lia.
      rewrite wrap_small by (unfold in_width; lia). by rewrite Z.land_comm, H. }
    rewrite (zero_rightmost_1bit_testbit (x + 1) l i Hw Hl Hi) in Hz.
    destruct (Z.eqb_spec i l) as [->|]; [apply Hl|]. by rewrite andb_true_r in Hz. }
  exists (Z.to_nat l). assert (l <= 31).
  { destruct (Z.le_gt_cases l 31); [done|]. assert (2 ^ 32 <= 2 ^ l) by (apply Z.pow_le_mono_r; lia). lia. }
  split; [lia|]. rewrite Z2Nat.id, Z.ones_equiv by lia. lia.
Qed.

(** The test of one mask word: it is [n] ones followed by zeros, and [ctz32] counts these. *)
Lemma mask_word_spec (mask : Z) :
  in_width 32 mask ->
  Z.land (u32 (Z.lnot mask)) (u32 (u32 (Z.lnot mask) + 1)) = 0 ->
  exists n, (n <= 32)%nat /\ ctz32 mask = Z.of_nat (32 - n) /\ forall j, (j < 32)%nat -> pbit mask j = (j <? n)%nat.
Proof.
  intros Hm H. destruct (contiguous_low _ (wrap_width 32 (Z.lnot mask) ltac:(lia)) H) as (t & Ht & E).
  assert (forall j, (j < 32)%nat -> pbit mask j = (j <? 32 - t)%nat) as Hb.
  { intros j Hj. rewrite <- (negb_involutive (pbit mask j)), <- pbit_lnot, E by done.
    unfold pbit. rewrite testbit_ones by lia.
    destruct (Z.ltb_spec (31 - Z.of_nat j) (Z.of_nat t)), (Nat.ltb_spec j (32 - t)); (done || lia). }
  exists (32 - t)%nat. split_and!; [lia| |done]. unfold ctz32. destruct (Z.eqb_spec mask 0) as [Hz|Hz].
  - destruct (decide (t = 32)%nat) as [->|]; [lia|]. exfalso.
    specialize (Hb 0%nat ltac:(lia)). rewrite Hz in Hb. unfold pbit in Hb. rewrite Z.bits_0 in Hb.
    symmetry in Hb. apply Nat.ltb_ge in Hb. lia.
  - assert (in_width 64 mask) as Hw by (apply (in_width_mono 32); [lia|done]).
    assert (0 < mask) as Hpos by (unfold in_width in Hm; lia).
    apply (lowest_bit_unique mask); [by apply raw_ctz_lowest|].
    assert (forall i, 0 <= i < 32 -> Z.testbit mask i = (31 - i <? Z.of_nat (32 - t))) as Hb'.
    { intros i Hi. specialize (Hb (Z.to_nat (31 - i)) ltac:(lia)). unfold pbit in Hb.
      rewrite Z2Nat.id in Hb by lia. replace (31 - (31 - i)) with i in Hb by lia. rewrite Hb.
      destruct (Nat.ltb_spec (Z.to_nat (31 - i)) (32 - t)), (Z.ltb_spec (31 - i) (Z.of_nat (32 - t))); (done || lia). }
    destruct (decide (t = 32)%nat) as [->|].
    { exfalso. apply Hz. apply zero_bits32; [done|]. intros j Hj. rewrite Hb by done. apply Nat.ltb_ge. lia. }
    split_and!; [lia|rewrite Hb' by lia; apply Z.ltb_lt; lia|]. intros i Hi. rewrite Hb' by lia. apply Z.ltb_ge. lia.
Qed.

(** After [k] words the mask so far is [n] ones followed by zeros. *)
Definition prefix_len_inv (words : list Z) (n : nat) (tz : Z) : Prop :=
  (n <= 32 * length words)%nat /\ (tz = 0 -> n = (32 * length words)%nat) /\ 0 <= tz /\
  forall i, (i < 32 * length words)%nat -> vbit words i = (i <? n)%nat.

Lemma prefix_len_step_inv (words : list Z) (w : Z) (n n' : nat) (tz tz' : Z) :
  in_width 32 w -> prefix_len_inv words n tz ->
  prefix_len_step (Some (n, tz)) w = Some (n', tz') -> prefix_len_inv (words ++ [w]) n' tz'.
Proof.
  intros Hw (Hn & Htz & Htz0 & Hb) Hstep. unfold prefix_len_inv. rewrite length_app. cbn [length].
  assert (forall i, (i < 32 * length words)%nat -> vbit (words ++ [w]) i = vbit words i) as Hlow.
  { intros i Hi. unfold vbit. rewrite app_nth1; [done|]. apply Nat.Div0.div_lt_upper_bound. lia. }
  assert (forall j, (j < 32)%nat -> vbit (words ++ [w]) (32 * length words + j) = pbit w j) as Hhigh.
  { intros j Hj. unfold vbit, pbit. rewrite Nat.mul_comm, Nat.add_comm, Nat.div_add, Nat.Div0.mod_add by lia.
    rewrite Nat.div_small, Nat.mod_small by lia. rewrite app_nth2, Nat.add_0_l, Nat.sub_diag by lia. done. }
  assert (forall P : nat -> Prop, (forall i, (i < 32 * length words)%nat -> P i) ->
    (forall j, (j < 32)%nat -> P (32 * length words + j)%nat) -> forall i, (i < 32 * (length words + 1))%nat -> P i) as Hcases.
  { intros P H1 H2 i Hi. destruct (decide (i < 32 * length words)%nat); [by apply H1|].
    replace i with (32 * length words + (i - 32 * length words))%nat by lia. apply H2. lia. }
  unfold prefix_len_step in Hstep. destruct (Z.eqb_spec tz 0) as [->|Hne]; cbn [negb] in Hstep.
  - destruct (negb _) eqn:E in Hstep; [done|]. apply negb_false_iff, Z.eqb_eq in E.
    destruct (mask_word_spec w Hw E) as (c & Hc & Hctz & Hbits). injection Hstep as <- <-.
    rewrite Hctz. rewrite (Htz eq_refl) in *. split_and!; [lia|lia|lia|].
    apply Hcases.
    + intros i Hi. rewrite Hlow, Hb by done. destruct (Nat.ltb_spec i (32 * length words)), (Nat.ltb_spec i (32 * length words + Z.to_nat (32 - Z.of_nat (32 - c)))); (done || lia).
    + intros j Hj. rewrite Hhigh, Hbits by done.
      destruct (Nat.ltb_spec j c), (Nat.ltb_spec (32 * length words + j) (32 * length words + Z.to_nat (32 - Z.of_nat (32 - c)))); (done || lia).
  - destruct (Z.eqb_spec w 0) as [->|]; [|done]. injection Hstep as <- <-. split_and!; [lia|lia|done|].
    apply Hcases; [intros i Hi; by rewrite Hlow, Hb|]. intros j Hj. rewrite Hhigh by done.
    unfold pbit. rewrite Z.bits_0. symmetry. apply Nat.ltb_ge. lia.
Qed.

(** A non-zero prefix length says that the field's mask is that many ones
    followed by zeros. *)
Lemma minimask_get_prefix_len_spec (mask : minimask) (mf : mf_field) (i : nat) :
  miniflow_wf mask -> minimask_get_prefix_len mask mf <> 0%nat -> (i < 32 * (mff_n_bytes mf / 4))%nat ->
  fbit (miniflow_expand mask) (32 * be32ofs_of mf + i) = (i <? minimask_get_prefix_len mask mf)%nat /\
  (minimask_get_prefix_len mask mf <= 32 * (mff_n_bytes mf / 4))%nat.
Proof.
  intros Hm. unfold minimask_get_prefix_len. set (K := (mff_n_bytes mf / 4)%nat).
  set (words := map (miniflow_get_be32 mask) (seq (be32ofs_of mf) K)).
  assert (words = flow_be32s (miniflow_expand mask) (be32ofs_of mf) K) as Ew.
  { unfold words, flow_be32s. apply map_ext. intros k. by apply miniflow_get_be32_expand. }
  assert (Forall (in_width 32) words) as Hwf by (rewrite Ew; by apply be32s_wf_flow, expand_wf).
  assert (length words = K) as Hl by (unfold words; by rewrite length_map, length_seq).
  assert (forall n tz, foldl prefix_len_step (Some (0%nat, 0)) words = Some (n, tz) -> prefix_len_inv words n tz) as Hinv.
  { clear Hl Ew. clearbody words. induction words as [|w ws IH] using rev_ind; intros n tz.
    - intros [= <- <-]. split_and!; try done. simpl. lia.
    - rewrite foldl_app. cbn [foldl]. apply Forall_app in Hwf as [Hws Hw]. rewrite Forall_singleton in Hw.
      destruct (foldl prefix_len_step _ ws) as [[n0 tz0]|]; [|done].
      intros Hs. apply (prefix_len_step_inv ws w n0 n tz0 tz); [done| |done].
      by apply IH. }
  destruct (foldl prefix_len_step (Some (0%nat, 0)) words) as [[n tz]|]; [|done].
  intros _ Hi. destruct (Hinv n tz eq_refl) as (Hn & _ & _ & Hb). rewrite Hl in *. split; [|done].
  rewrite <- Hb by done. rewrite Ew. symmetry. by apply be32s_bit.
Qed.

(** ** The prefix of a match *)

Lemma nth_concat_pairs (vs : list Z) (d b : nat) :
  (b < 2)%nat ->
  nth (2 * d + b) (concat (map (fun v => [Z.shiftr v 32; u32 v]) vs)) 0 =
  if (d <? length vs)%nat then (if (b =? 0)%nat then Z.shiftr (nth d vs 0) 32 else u32 (nth d vs 0)) else 0.
Proof.
  intros Hb. revert d. induction vs as [|v vs IH]; intros d; [destruct (2 * d + b)%nat; done|].
  destruct d as [|d]; [destruct b as [|[|]]; (done || lia)|].
  replace (2 * S d + b)%nat with (S (S (2 * d + b))) by lia. cbn [map concat app nth length]. apply IH.
Qed.

(** Consecutive words of the map have consecutive values. *)
Lemma values_run (mf : miniflow) (u d : nat) :
  miniflow_wf mf -> (forall e, (e <= d)%nat -> flowmap_is_set (mf_map mf) (u + e) = true) ->
  nth (miniflow_get__ mf u + d) (mf_values mf) 0 = miniflow_get mf (u + d) /\
  (miniflow_get__ mf u + d < length (mf_values mf))%nat.
Proof.
  intros Hwf Hset.
  assert (forall e, (e <= d)%nat -> (u + e < N_IDX)%nat) as Hlt.
  { intros e He. apply (fm_indices_In (mf_map mf)), fm_indices_is_set; [apply Hwf|by apply Hset]. }
  assert (miniflow_get__ mf u + d = miniflow_get__ mf (u + d))%nat as E.
  { clear -Hwf Hset Hlt. induction d as [|d IH]; [by rewrite !Nat.add_0_r|].
    rewrite Nat.add_succ_r, IH by (intros; (apply Hset || apply Hlt); lia).
    rewrite !miniflow_get__rank by (apply Hwf || (apply Hlt; lia) || (pose proof (Hlt d ltac:(lia)); lia)).
    replace (u + S d)%nat with (u + d + 1)%nat by lia. rewrite (rank_split _ (u + d)). cbn [seq List.filter].
    rewrite Hset by lia. cbn [length]. lia. }
  rewrite E. pose proof (Hset d ltac:(lia)) as Hs. split; [by apply miniflow_get_set|].
  rewrite (mwf_length mf Hwf), miniflow_get__rank by (apply Hwf || by apply Hlt).
  rewrite fm_indices_filter. by apply rank_mono; [apply Hlt|].
Qed.

Lemma nth_skipn_Z (n k : nat) (l : list Z) : nth k (skipn n l) 0 = nth (n + k) l 0.
Proof. rewrite nth_skipn. done. Qed.

(** The prefix pointer of a rule reaches the leading bits of its field. *)
Lemma minimatch_get_prefix_bit (m : minimatch) (mf : mf_field) (i : nat) :
  minimatch_wf m -> minimask_get_prefix_len (mm_mask m) mf <> 0%nat ->
  (i < minimask_get_prefix_len (mm_mask m) mf)%nat ->
  vbit (minimatch_get_prefix m mf) i = fbit (miniflow_expand (mm_flow m)) (32 * be32ofs_of mf + i).
Proof.
  intros Hm Hp Hi. set (ofs := be32ofs_of mf) in *.
  destruct (minimask_get_prefix_len_spec (mm_mask m) mf 0 ltac:(eauto with ovs) Hp) as [_ Hle].
  { destruct (decide (mff_n_bytes mf / 4 = 0)%nat) as [E|]; [|lia]. exfalso. apply Hp.
    unfold minimask_get_prefix_len. by rewrite E. }
  pose proof (Nat.div_mod_eq i 32) as Ei. pose proof (Nat.mod_upper_bound i 32 ltac:(lia)) as Hj.
  set (k := (i / 32)%nat) in *. set (j := (i mod 32)%nat) in *.
  set (u := (ofs / 2)%nat). set (d := ((ofs + k) / 2 - u)%nat). set (b := ((ofs + k) mod 2)%nat).
  pose proof (Nat.div_mod_eq ofs 2) as Eo. pose proof (Nat.div_mod_eq (ofs + k) 2) as Eok.
  pose proof (Nat.mod_upper_bound ofs 2 ltac:(lia)). pose proof (Nat.mod_upper_bound (ofs + k) 2 ltac:(lia)) as Hb.
  assert (u <= (ofs + k) / 2)%nat as Hud by (apply Nat.Div0.div_le_mono; lia).
  assert (forall e, (e <= d)%nat -> flowmap_is_set (mf_map (mm_flow m)) (u + e) = true) as Hset.
  { intros e He. rewrite (mmwf_map m Hm), minimask_is_set by eauto with ovs.
    apply negb_true_iff, Z.eqb_neq. intros Hz.
    set (i' := (32 * Nat.max ofs (2 * (u + e)) - 32 * ofs)%nat).
    destruct (minimask_get_prefix_len_spec (mm_mask m) mf i' ltac:(eauto with ovs) Hp) as [Hbit _]; [lia|].
    fold ofs in Hbit. replace (i' <? minimask_get_prefix_len (mm_mask m) mf)%nat with true in Hbit
      by (symmetry; apply Nat.ltb_lt; lia).
    unfold fbit in Hbit. assert ((32 * ofs + i') / 64 = u + e)%nat as Ew.
    { symmetry. apply (Nat.div_unique _ 64 _ (32 * ofs + i' - 64 * (u + e))); lia. }
    rewrite Ew, expand_nth, Hz, Z.bits_0 in Hbit by eauto with ovs. done. }
  destruct (values_run (mm_flow m) u d ltac:(eauto with ovs) Hset) as [Hv Hlen].
  unfold minimatch_get_prefix, vbit. fold ofs. fold u. fold k j. rewrite nth_skipn_Z.
  replace (ofs mod 2 + k)%nat with (2 * d + b)%nat by (unfold d, b; fold u in Eo; lia).
  rewrite nth_concat_pairs by done. rewrite length_drop, nth_skipn_Z, Hv.
  destruct (Nat.ltb_spec d (length (mf_values (mm_flow m)) - miniflow_get__ (mm_flow m) u)); [|lia].
  rewrite Ei, Nat.add_assoc, <- Nat.mul_add_distr_l, <- flow_be32_bit by done.
  unfold pbit, flow_be32, flow_u64_value. rewrite expand_nth by eauto with ovs.
  replace (u + d)%nat with ((ofs + k) / 2)%nat by lia. rewrite <- Nat.bit0_odd.
  pose proof (Nat.bit0_mod (ofs + k)) as Hb0. fold b in Hb0.
  destruct (Nat.testbit (ofs + k) 0); cbn [Nat.b2n] in Hb0; by rewrite <- Hb0.
Qed.
