(* ===== verification/FlowFields.v ===== *)
(** * The members of [struct flow] as bytes (include/openvswitch/flow.h,
      include/openvswitch/packets.h)

    Every member of [struct flow], also the Ethernet and IPv6 addresses that
    lie across 64-bit words, is read and stored as a big-endian number of its
    bytes.  A store of a value is the C assignment: it keeps the low bits that
    fit the member.  Two lemmas give the bits of a read and of a store in the
    bit sequence of [FlowBits]; everything else about members follows. *)

From S2P Require Import Prelude Util Flowmap Hash Miniflow MetaFlow Trie FlowBits.
From stdpp Require Import prelude list.
From Stdlib Require Import ZArith Lia.
Open Scope Z_scope.
Open Scope ovs_scope.

(** ** Bytes of a flow *)

Definition byte_shift (i : nat) : Z := 56 - 8 * Z.of_nat (i mod 8).

Definition flow_byte (f : flow) (i : nat) : Z := u8 (Z.shiftr (nth (i / 8) f 0) (byte_shift i)).

Definition set_byte (f : flow) (i : nat) (b : Z) : flow :=
  let w := nth (i / 8) f 0 in
  <[(i / 8)%nat := Z.lor (Z.ldiff w (Z.shiftl 0xff (byte_shift i))) (Z.shiftl (u8 b) (byte_shift i))]> f.

(** The [n] bytes from [ofs] on as a big-endian number. *)
Fixpoint get_bytes (f : flow) (ofs n : nat) : Z :=
  match n with
  | O => 0
  | S n => get_bytes f ofs n * 256 + flow_byte f (ofs + n)
  end.

Fixpoint set_bytes (f : flow) (ofs n : nat) (x : Z) : flow :=
  match n with
  | O => f
  | S n => set_byte (set_bytes f ofs n (Z.shiftr x 8)) (ofs + n) x
  end.

Definition fget (f : flow) (mb : member) : Z := get_bytes f (mb_ofs mb) (mb_size mb).
Definition fset (f : flow) (mb : member) (x : Z) : flow := set_bytes f (mb_ofs mb) (mb_size mb) x.

(** ** Members *)

(** [struct flow_tnl] *)
Definition tun_ip_dst : member := Member 0 4.
Definition tun_ipv6_dst : member := Member 4 16.
Definition tun_ip_src : member := Member 20 4.
Definition tun_ipv6_src : member := Member 24 16.
Definition tun_id : member := Member 40 8.
Definition tun_flags : member := Member 48 2.
Definition tun_ip_tos : member := Member 50 1.
Definition tun_ip_ttl : member := Member 51 1.
Definition tun_tp_src : member := Member 52 2.
Definition tun_tp_dst : member := Member 54 2.
Definition tun_gbp_id : member := Member 56 2.
Definition tun_gbp_flags : member := Member 58 1.
Definition tun_erspan_ver : member := Member 59 1.
Definition tun_erspan_idx : member := Member 60 4.
Definition tun_erspan_dir : member := Member 64 1.
Definition tun_erspan_hwid : member := Member 65 1.
Definition tun_gtpu_flags : member := Member 66 1.
Definition tun_gtpu_msgtype : member := Member 67 1.

(** Metadata *)
Definition metadata : member := Member 344 8.
Definition regs (i : nat) : member := Member (352 + 4 * i) 4.
Definition skb_priority : member := Member 416 4.
Definition pkt_mark : member := Member 420 4.
Definition dp_hash : member := Member 424 4.
Definition in_port : member := Member 428 4.
Definition recirc_id : member := Member 432 4.
Definition ct_nw_proto : member := Member 437 1.
Definition ct_zone : member := Member 438 2.
Definition ct_mark : member := Member 440 4.
Definition ct_label : member := Member 448 16.
Definition conj_id : member := Member 464 4.
Definition actset_output : member := Member 468 4.

(** L2 *)
Definition dl_dst : member := Member 472 6.
Definition dl_src : member := Member 478 6.
Definition vlan_tpid (i : nat) : member := Member (488 + 4 * i) 2.
Definition vlan_tci (i : nat) : member := Member (490 + 4 * i) 2.
Definition mpls_lse (i : nat) : member := Member (496 + 4 * i) 4.

(** L3 *)
Definition nw_src : member := Member 512 4.
Definition nw_dst : member := Member 516 4.
Definition ct_nw_src : member := Member 520 4.
Definition ct_nw_dst : member := Member 524 4.
Definition ipv6_src : member := Member 528 16.
Definition ipv6_dst : member := Member 544 16.
Definition ct_ipv6_src : member := Member 560 16.
Definition ct_ipv6_dst : member := Member 576 16.
Definition ipv6_label : member := Member 592 4.
Definition nw_tos : member := Member 597 1.
Definition nw_ttl : member := Member 598 1.

(** L4 *)
Definition nd_target : member := Member 600 16.
Definition arp_sha : member := Member 616 6.
Definition arp_tha : member := Member 622 6.
Definition tcp_flags : member := Member 628 2.
Definition nsh_flags : member := Member 632 1.
Definition nsh_ttl : member := Member 633 1.
Definition nsh_mdtype : member := Member 634 1.
Definition nsh_np : member := Member 635 1.
Definition nsh_path_hdr : member := Member 636 4.
Definition nsh_context (i : nat) : member := Member (640 + 4 * i) 4.
Definition ct_tp_src : member := Member 660 2.
Definition ct_tp_dst : member := Member 662 2.
Definition igmp_group_ip4 : member := Member 664 4.

(** ** Bits of reads and stores *)

Definition mb_in (mb : member) : Prop := (mb_ofs mb + mb_size mb <= 8 * FLOW_U64S)%nat.

Lemma byte_shift_range (i : nat) : 0 <= byte_shift i <= 56.
Proof. unfold byte_shift. pose proof (Nat.mod_upper_bound i 8). lia. Qed.

Lemma flow_byte_testbit (f : flow) (i : nat) (j : Z) :
  0 <= j < 8 -> Z.testbit (flow_byte f i) j = fbit f (8 * i + Z.to_nat (7 - j)).
Proof.
  intros Hj. pose proof (byte_shift_range i) as Hs. unfold flow_byte.
  rewrite wrap_testbit, Z.shiftr_spec by lia. destruct (Z.ltb_spec j 8); [|lia]. cbn [andb].
  rewrite fbit_word by lia. f_equal. unfold byte_shift in *.
  pose proof (Nat.div_mod_eq i 8). lia.
Qed.

Lemma flow_byte_width (f : flow) (i : nat) : in_width 8 (flow_byte f i).
Proof. by apply wrap_width. Qed.

Lemma length_set_byte (f : flow) (i : nat) (b : Z) : length (set_byte f i b) = length f.
Proof. apply length_insert. Qed.

Lemma set_byte_fbit (f : flow) (i : nat) (b : Z) (k : nat) :
  (i < 8 * length f)%nat ->
  fbit (set_byte f i b) k = if (k / 8 =? i)%nat then Z.testbit b (7 - Z.of_nat (k mod 8)) else fbit f k.
Proof.
  intros Hi. unfold fbit, set_byte. pose proof (byte_shift_range i) as Hs.
  assert (k / 64 = k / 8 / 8)%nat as E by (rewrite Nat.Div0.div_div; done).
  pose proof (Nat.div_mod_eq k 64). pose proof (Nat.div_mod_eq k 8). pose proof (Nat.div_mod_eq (k / 8) 8).
  pose proof (Nat.mod_upper_bound k 8). pose proof (Nat.mod_upper_bound k 64).
  pose proof (Nat.mod_upper_bound (k / 8) 8). pose proof (Nat.div_mod_eq i 8). pose proof (Nat.mod_upper_bound i 8).
  destruct (Nat.eq_dec (k / 64) (i / 8)) as [Ek|Ek].
  - rewrite Ek, nth_insert_eq by (apply Nat.Div0.div_lt_upper_bound; lia).
    rewrite Z.lor_spec, Z.ldiff_spec, !Z.shiftl_spec, wrap_testbit by lia.
    change 0xff with (Z.ones 8). unfold byte_shift in *.
    destruct (Nat.eqb_spec (k / 8) i) as [<-|Hne].
    + rewrite testbit_ones by lia. zcmp. rewrite andb_false_r. cbn [orb andb]. f_equal. lia.
    + rewrite Z.testbit_ones by lia. zcmp; zbits_simpl; cbn [andb negb orb]; by rewrite ?andb_true_r, ?orb_false_r.
  - rewrite nth_insert_ne by lia. destruct (Nat.eqb_spec (k / 8) i) as [<-|Hne]; [lia|done].
Qed.

Lemma length_set_bytes (f : flow) (ofs n : nat) (x : Z) : length (set_bytes f ofs n x) = length f.
Proof. revert x. induction n as [|n IH]; intros x; [done|]. cbn [set_bytes]. by rewrite length_set_byte. Qed.

Lemma get_bytes_width (f : flow) (ofs n : nat) : in_width (8 * Z.of_nat n) (get_bytes f ofs n).
Proof.
  unfold in_width. induction n as [|n IH]; [done|]. cbn [get_bytes].
  pose proof (flow_byte_width f (ofs + n)) as [H0 H1].
  replace (8 * Z.of_nat (S n)) with (8 * Z.of_nat n + 8) by lia. rewrite Z.pow_add_r by lia. lia.
Qed.

(** Bit [j] of a read, counted from the least significant one. *)
Lemma get_bytes_testbit (f : flow) (ofs n : nat) (j : Z) :
  0 <= j < 8 * Z.of_nat n -> Z.testbit (get_bytes f ofs n) j = fbit f (8 * (ofs + n) - 1 - Z.to_nat j).
Proof.
  revert j. induction n as [|n IH]; intros j Hj; [lia|]. cbn [get_bytes].
  pose proof (flow_byte_width f (ofs + n)) as Hb.
  rewrite Z.add_comm, Z.mul_comm, testbit_byte_app by (done || lia).
  destruct (Z.ltb_spec j 8).
  - rewrite flow_byte_testbit by lia. f_equal. lia.
  - rewrite IH by lia. f_equal. lia.
Qed.

(** The bits of a store. *)
Lemma set_bytes_fbit (f : flow) (ofs n : nat) (x : Z) (k : nat) :
  (ofs + n <= 8 * length f)%nat ->
  fbit (set_bytes f ofs n x) k =
  if (8 * ofs <=? k)%nat && (k <? 8 * (ofs + n))%nat
  then Z.testbit x (8 * Z.of_nat (ofs + n) - 1 - Z.of_nat k) else fbit f k.
Proof.
  revert x. induction n as [|n IH]; intros x Hn; cbn [set_bytes].
  - destruct (Nat.leb_spec (8 * ofs) k), (Nat.ltb_spec k (8 * (ofs + 0))); try lia; done.
  - rewrite set_byte_fbit by (rewrite length_set_bytes; lia). rewrite IH by lia.
    pose proof (Nat.div_mod_eq k 8). pose proof (Nat.mod_upper_bound k 8).
    destruct (Nat.eqb_spec (k / 8) (ofs + n)).
    + destruct (Nat.leb_spec (8 * ofs) k), (Nat.ltb_spec k (8 * (ofs + S n))); try lia. cbn [andb]. f_equal. lia.
    + destruct (Nat.leb_spec (8 * ofs) k), (Nat.ltb_spec k (8 * (ofs + S n))), (Nat.ltb_spec k (8 * (ofs + n)));
        try lia; cbn [andb]; try done.
      rewrite Z.shiftr_spec by lia. f_equal. lia.
Qed.

Lemma fget_width (f : flow) (mb : member) : in_width (mb_bits mb) (fget f mb).
Proof. apply get_bytes_width. Qed.

Lemma fget_testbit (f : flow) (mb : member) (j : Z) :
  0 <= j < mb_bits mb -> Z.testbit (fget f mb) j = fbit f (8 * (mb_ofs mb + mb_size mb) - 1 - Z.to_nat j).
Proof. apply get_bytes_testbit. Qed.

Lemma length_fset (f : flow) (mb : member) (x : Z) : length (fset f mb x) = length f.
Proof. apply length_set_bytes. Qed.

(** Bit [k] lies in the member. *)
Definition mb_has (mb : member) (k : nat) : bool :=
  (8 * mb_ofs mb <=? k)%nat && (k <? 8 * (mb_ofs mb + mb_size mb))%nat.

(** The place of bit [k] in the value of the member. *)
Definition mb_pos (mb : member) (k : nat) : Z := 8 * Z.of_nat (mb_ofs mb + mb_size mb) - 1 - Z.of_nat k.

Lemma mb_has_spec (mb : member) (k : nat) : mb_has mb k = true <-> (8 * mb_ofs mb <= k < 8 * (mb_ofs mb + mb_size mb))%nat.
Proof. unfold mb_has. rewrite andb_true_iff, Nat.leb_le, Nat.ltb_lt. done. Qed.

Lemma mb_pos_range (mb : member) (k : nat) : mb_has mb k = true -> 0 <= mb_pos mb k < mb_bits mb.
Proof. rewrite mb_has_spec. unfold mb_pos, mb_bits. lia. Qed.

Lemma fset_fbit (f : flow) (mb : member) (x : Z) (k : nat) :
  mb_in mb -> length f = FLOW_U64S ->
  fbit (fset f mb x) k = if mb_has mb k then Z.testbit x (mb_pos mb k) else fbit f k.
Proof. intros Hm Hf. apply set_bytes_fbit. by rewrite Hf. Qed.

Lemma fget_fbit (f : flow) (mb : member) (k : nat) :
  mb_has mb k = true -> Z.testbit (fget f mb) (mb_pos mb k) = fbit f k.
Proof.
  intros Hk. pose proof (mb_pos_range mb k Hk) as Hp. rewrite fget_testbit by done. f_equal.
  apply mb_has_spec in Hk. unfold mb_pos in *. lia.
Qed.

(** ** Reads after stores *)

Lemma fget_fset (f : flow) (mb : member) (x : Z) :
  mb_in mb -> length f = FLOW_U64S -> fget (fset f mb x) mb = wrap (mb_bits mb) x.
Proof.
  intros Hm Hf. apply Z.bits_inj'. intros j Hj. rewrite wrap_testbit by (unfold mb_bits; lia).
  destruct (Z.ltb_spec j (mb_bits mb)); [|by rewrite (in_width_high (mb_bits mb)) by (apply fget_width || done)].
  rewrite fget_testbit, fset_fbit by done. unfold mb_bits in *.
  assert (mb_has mb (8 * (mb_ofs mb + mb_size mb) - 1 - Z.to_nat j) = true) as -> by (apply mb_has_spec; lia).
  cbn [andb]. f_equal. unfold mb_pos. lia.
Qed.

Definition mb_disj (a b : member) : Prop := (mb_ofs a + mb_size a <= mb_ofs b \/ mb_ofs b + mb_size b <= mb_ofs a)%nat.

Lemma fget_fset_other (f : flow) (a b : member) (x : Z) :
  mb_in a -> length f = FLOW_U64S -> mb_disj a b -> fget (fset f a x) b = fget f b.
Proof.
  intros Hm Hf Hd. apply Z.bits_inj'. intros j Hj.
  destruct (Z.lt_ge_cases j (mb_bits b)) as [Hl|Hl];
    [|by rewrite !(in_width_high (mb_bits b)) by (apply fget_width || done)].
  rewrite !fget_testbit, fset_fbit by done. unfold mb_bits, mb_disj in *.
  destruct (mb_has a _) eqn:Hh; [|done]. apply mb_has_spec in Hh. lia.
Qed.

Lemma set_byte_wf (f : flow) (i : nat) (b : Z) : flow_wf f -> flow_wf (set_byte f i b).
Proof.
  intros Hf. pose proof (byte_shift_range i) as Hs. split; [rewrite length_set_byte; apply Hf|].
  apply Forall_insert; [apply Hf|]. apply in_width_lor; [done| |].
  - pose proof (flow_word_width f (i / 8) Hf) as Hw. apply in_width_bits; [done|]. split.
    + apply Z.ldiff_nonneg. left. apply Hw.
    + intros j Hj. rewrite Z.ldiff_spec, (in_width_high 64); done.
  - apply in_width_bits; [done|]. split; [apply Z.shiftl_nonneg; apply wrap_width; done|].
    intros j Hj. rewrite Z.shiftl_spec, wrap_testbit by lia. zcmp; try done.
Qed.

Lemma fset_wf (f : flow) (mb : member) (x : Z) : flow_wf f -> flow_wf (fset f mb x).
Proof.
  intros Hf. unfold fset. generalize (mb_ofs mb). revert x.
  induction (mb_size mb) as [|n IH]; intros x ofs; [done|]. cbn [set_bytes]. apply set_byte_wf, IH.
Qed.

(** A member that lies in one word: the reading of [MetaFlow]. *)
Lemma flow_member_fget (f : flow) (mb : member) :
  (mb_ofs mb mod 8 + mb_size mb <= 8)%nat -> flow_member f mb = fget f mb.
Proof.
  intros Hm. pose proof (fget_width f mb) as Hw. apply Z.bits_inj'. intros j Hj.
  unfold flow_member. rewrite wrap_testbit by (unfold mb_bits; lia).
  destruct (Z.ltb_spec j (mb_bits mb)); [|by rewrite (in_width_high _ _ _ Hw)].
  cbn [andb]. unfold mb_shift, mb_bits in *. rewrite Z.shiftr_spec, fbit_word by lia.
  rewrite fget_testbit by (unfold mb_bits; lia). f_equal. pose proof (Nat.div_mod_eq (mb_ofs mb) 8). lia.
Qed.

#[export] Hint Resolve fset_wf : ovs.
