(* ===== verification/MetaFields.v ===== *)
(** * Fields of flows (lib/meta-flow.c, include/openvswitch/meta-flow.h)

    The fields that OpenFlow matches and actions name, and the functions that
    read a field of a flow, store it, test whether it is wildcarded and
    unwildcard it.  A [union mf_value] is its 128 bytes: a store through a
    member of the union changes only the bytes of that member, so a read of
    more bytes than the last store sees what was there before.

    The 64 fields [MFF_TUN_METADATA0] .. [MFF_TUN_METADATA63], whose values
    live in the tunnel TLV table of lib/tun-metadata.c, are left out. *)

From S2P Require Import Prelude Util Flowmap Hash Miniflow MetaFlow Trie FlowBits FlowFields.
From stdpp Require Import prelude list.
From Stdlib Require Import ZArith Lia.
Open Scope Z_scope.
Open Scope ovs_scope.

(** ** Constants *)

Definition FLOW_N_REGS : nat := 16.
Definition FLOW_N_XREGS : nat := 8.
Definition FLOW_N_XXREGS : nat := 4.
Definition FLOW_TNL_PUB_F_MASK : Z := Z.shiftl 1 1 - 1.
Definition VLAN_VID_MASK : Z := 0x0fff.
Definition VLAN_PCP_MASK : Z := 0xe000.
Definition VLAN_PCP_SHIFT : Z := 13.
Definition OFP10_VLAN_NONE : Z := 0xffff.
Definition ETH_TYPE_VLAN_8021Q : Z := 0x8100.
Definition MPLS_TTL_MASK : Z := 0x000000ff.
Definition MPLS_TTL_SHIFT : Z := 0.
Definition MPLS_BOS_MASK : Z := 0x00000100.
Definition MPLS_BOS_SHIFT : Z := 8.
Definition MPLS_TC_MASK : Z := 0x00000e00.
Definition MPLS_TC_SHIFT : Z := 9.
Definition MPLS_LABEL_MASK : Z := 0xfffff000.
Definition MPLS_LABEL_SHIFT : Z := 12.
Definition IP_ECN_MASK : Z := 0x03.
Definition IP_DSCP_MASK : Z := 0xfc.
Definition IPV6_LABEL_MASK : Z := 0x000fffff.
Definition FLOW_NW_FRAG_MASK : Z := 3.
Definition CS_SUPPORTED_MASK : Z := 0xff.
Definition NSH_SPI_MASK : Z := 0xffffff00.
Definition NSH_SPI_SHIFT : Z := 8.
Definition NSH_SI_MASK : Z := 0x000000ff.
Definition NSH_SI_SHIFT : Z := 0.
Definition OFPP_MAX : Z := 0xff00.
Definition OFPP_NONE : Z := 0xffff.
Definition OFPP11_MAX : Z := 0xffffff00.
Definition OFPP11_OFFSET : Z := OFPP11_MAX - OFPP_MAX.

(** ** Values *)

Abbreviation mf_value := (list Z).

Definition SIZEOF_MF_VALUE : nat := 128.

(** The first [n] bytes as a big-endian number: [value->u8], [value->be16],
    [value->be32], [value->mac], [value->be64], [value->be128] and [value->ipv6]
    for 1, 2, 4, 6, 8 and 16 bytes. *)
Fixpoint be (value : mf_value) (n : nat) : Z :=
  match n with
  | O => 0
  | S n => be value n * 256 + nth n value 0
  end.

(** The store through that member. *)
Fixpoint put (value : mf_value) (n : nat) (x : Z) : mf_value :=
  match n with
  | O => value
  | S n => <[n := u8 x]> (put value n (Z.shiftr x 8))
  end.

Definition is_all_byte (p : mf_value) (n : nat) (byte : Z) : bool :=
  forallb (fun i => nth i p 0 =? byte) (seq 0 n).

Definition is_all_zeros (p : mf_value) (n : nat) : bool := is_all_byte p n 0.
Definition is_all_ones (p : mf_value) (n : nat) : bool := is_all_byte p n 0xff.

Definition exact_match_mask : mf_value := replicate SIZEOF_MF_VALUE 0xff.

(** ** Parts of members (lib/packets.h, lib/packets.c, lib/flow.h, lib/flow.c,
       include/openvswitch/nsh.h, lib/ofp-port.c) *)

(** Registers; an [ovs_u128] is one 128-bit number. *)
Definition flow_get_xreg (f : flow) (idx : nat) : Z :=
  Z.lor (Z.shiftl (fget f (regs (idx * 2))) 32) (fget f (regs (idx * 2 + 1))).

Definition flow_set_xreg (f : flow) (idx : nat) (value : Z) : flow :=
  fset (fset f (regs (idx * 2)) (Z.shiftr value 32)) (regs (idx * 2 + 1)) value.

Definition flow_get_xxreg (f : flow) (idx : nat) : Z :=
  let hi := Z.lor (Z.shiftl (fget f (regs (idx * 4))) 32) (fget f (regs (idx * 4 + 1))) in
  let lo := Z.lor (Z.shiftl (fget f (regs (idx * 4 + 2))) 32) (fget f (regs (idx * 4 + 3))) in
  Z.lor (Z.shiftl hi 64) lo.

Definition flow_set_xxreg (f : flow) (idx : nat) (value : Z) : flow :=
  let hi := Z.shiftr value 64 in
  let lo := u64 value in
  let f := fset f (regs (idx * 4)) (Z.shiftr hi 32) in
  let f := fset f (regs (idx * 4 + 1)) hi in
  let f := fset f (regs (idx * 4 + 2)) (Z.shiftr lo 32) in
  fset f (regs (idx * 4 + 3)) lo.

(** VLAN headers *)
Definition vlan_tci_to_pcp (tci : Z) : Z := Z.shiftr (Z.land tci VLAN_PCP_MASK) VLAN_PCP_SHIFT.

Definition flow_set_dl_vlan (f : flow) (vid : Z) (id : nat) : flow :=
  if vid =? OFP10_VLAN_NONE then fset f (vlan_tci id) 0
  else
    let vid := Z.land vid VLAN_VID_MASK in
    let f := fset f (vlan_tci id) (Z.ldiff (fget f (vlan_tci id)) VLAN_VID_MASK) in
    fset f (vlan_tci id) (Z.lor (fget f (vlan_tci id)) (Z.lor VLAN_CFI vid)).

Definition flow_fix_vlan_tpid (f : flow) : flow :=
  if (fget f (vlan_tpid 0) =? 0) && negb (fget f (vlan_tci 0) =? 0)
  then fset f (vlan_tpid 0) ETH_TYPE_VLAN_8021Q else f.

Definition flow_set_vlan_vid (f : flow) (vid : Z) : flow :=
  let mask := Z.lor VLAN_VID_MASK VLAN_CFI in
  let f := fset f (vlan_tci 0) (Z.ldiff (fget f (vlan_tci 0)) mask) in
  fset f (vlan_tci 0) (Z.lor (fget f (vlan_tci 0)) (Z.land vid mask)).

Definition flow_set_vlan_pcp (f : flow) (pcp : Z) (id : nat) : flow :=
  let pcp := Z.land pcp 0x07 in
  let f := fset f (vlan_tci id) (Z.ldiff (fget f (vlan_tci id)) VLAN_PCP_MASK) in
  fset f (vlan_tci id) (Z.lor (fget f (vlan_tci id)) (Z.lor (Z.shiftl pcp VLAN_PCP_SHIFT) VLAN_CFI)).

(** MPLS label stack entries *)
Definition mpls_lse_to_label (lse : Z) : Z := Z.shiftr (Z.land lse MPLS_LABEL_MASK) MPLS_LABEL_SHIFT.
Definition mpls_lse_to_tc (lse : Z) : Z := Z.shiftr (Z.land lse MPLS_TC_MASK) MPLS_TC_SHIFT.
Definition mpls_lse_to_ttl (lse : Z) : Z := Z.shiftr (Z.land lse MPLS_TTL_MASK) MPLS_TTL_SHIFT.
Definition mpls_lse_to_bos (lse : Z) : Z := if Z.land lse MPLS_BOS_MASK =? 0 then 0 else 1.

Definition set_mpls_lse_ttl (lse ttl : Z) : Z :=
  Z.lor (Z.ldiff lse MPLS_TTL_MASK) (Z.land (Z.shiftl ttl MPLS_TTL_SHIFT) MPLS_TTL_MASK).
Definition set_mpls_lse_tc (lse tc : Z) : Z :=
  Z.lor (Z.ldiff lse MPLS_TC_MASK) (Z.land (Z.shiftl tc MPLS_TC_SHIFT) MPLS_TC_MASK).
Definition set_mpls_lse_label (lse label : Z) : Z :=
  Z.lor (Z.ldiff lse MPLS_LABEL_MASK) (Z.land (Z.shiftl label MPLS_LABEL_SHIFT) MPLS_LABEL_MASK).
Definition set_mpls_lse_bos (lse bos : Z) : Z :=
  Z.lor (Z.ldiff lse MPLS_BOS_MASK) (Z.land (Z.shiftl bos MPLS_BOS_SHIFT) MPLS_BOS_MASK).

Definition flow_set_mpls_label (f : flow) (idx : nat) (label : Z) : flow :=
  fset f (mpls_lse idx) (set_mpls_lse_label (fget f (mpls_lse idx)) label).
Definition flow_set_mpls_ttl (f : flow) (idx : nat) (ttl : Z) : flow :=
  fset f (mpls_lse idx) (set_mpls_lse_ttl (fget f (mpls_lse idx)) ttl).
Definition flow_set_mpls_tc (f : flow) (idx : nat) (tc : Z) : flow :=
  fset f (mpls_lse idx) (set_mpls_lse_tc (fget f (mpls_lse idx)) tc).
Definition flow_set_mpls_bos (f : flow) (idx : nat) (bos : Z) : flow :=
  fset f (mpls_lse idx) (set_mpls_lse_bos (fget f (mpls_lse idx)) bos).

(** The NSH service path header *)
Definition nsh_path_hdr_to_spi (path_hdr : Z) : Z := Z.shiftr (Z.land path_hdr NSH_SPI_MASK) NSH_SPI_SHIFT.
Definition nsh_path_hdr_to_si (path_hdr : Z) : Z := Z.shiftr (Z.land path_hdr NSH_SI_MASK) NSH_SI_SHIFT.
Definition nsh_path_hdr_set_spi (path_hdr spi : Z) : Z :=
  Z.lor (Z.ldiff path_hdr NSH_SPI_MASK) (Z.land (Z.shiftl spi NSH_SPI_SHIFT) NSH_SPI_MASK).
Definition nsh_path_hdr_set_si (path_hdr si : Z) : Z :=
  Z.lor (Z.ldiff path_hdr NSH_SI_MASK) (Z.land (Z.shiftl si NSH_SI_SHIFT) NSH_SI_MASK).

(** OpenFlow 1.0 and 1.1+ port numbers; [from] returns whether the port is in
    the supported range, and the port. *)
Definition ofputil_port_from_ofp11 (ofp11_port : Z) : bool * Z :=
  if ofp11_port <? OFPP_MAX then (true, u16 ofp11_port)
  else if OFPP11_MAX <=? ofp11_port then (true, u16 (ofp11_port - OFPP11_OFFSET))
  else (false, OFPP_NONE).

Definition ofputil_port_to_ofp11 (ofp10_port : Z) : Z :=
  if u16 ofp10_port <? OFPP_MAX then u16 ofp10_port else u16 ofp10_port + OFPP11_OFFSET.

(** ** Fields *)

Inductive mf_field_id :=
| MFF_DP_HASH | MFF_RECIRC_ID | MFF_PACKET_TYPE | MFF_CONJ_ID | MFF_TUN_ID | MFF_TUN_SRC
| MFF_TUN_DST | MFF_TUN_IPV6_SRC | MFF_TUN_IPV6_DST | MFF_TUN_FLAGS | MFF_TUN_TTL | MFF_TUN_TOS
| MFF_TUN_GBP_ID | MFF_TUN_GBP_FLAGS | MFF_TUN_ERSPAN_IDX | MFF_TUN_ERSPAN_VER
| MFF_TUN_ERSPAN_DIR | MFF_TUN_ERSPAN_HWID | MFF_TUN_GTPU_FLAGS | MFF_TUN_GTPU_MSGTYPE
| MFF_METADATA | MFF_IN_PORT | MFF_IN_PORT_OXM | MFF_ACTSET_OUTPUT | MFF_SKB_PRIORITY
| MFF_PKT_MARK | MFF_CT_STATE | MFF_CT_ZONE | MFF_CT_MARK | MFF_CT_LABEL | MFF_CT_NW_PROTO
| MFF_CT_NW_SRC | MFF_CT_NW_DST | MFF_CT_IPV6_SRC | MFF_CT_IPV6_DST | MFF_CT_TP_SRC
| MFF_CT_TP_DST | MFF_REG (i : nat) | MFF_XREG (i : nat) | MFF_XXREG (i : nat) | MFF_ETH_SRC
| MFF_ETH_DST | MFF_ETH_TYPE | MFF_VLAN_TCI | MFF_DL_VLAN | MFF_VLAN_VID | MFF_DL_VLAN_PCP
| MFF_VLAN_PCP | MFF_MPLS_LABEL | MFF_MPLS_TC | MFF_MPLS_BOS | MFF_MPLS_TTL | MFF_IPV4_SRC
| MFF_IPV4_DST | MFF_IPV6_SRC | MFF_IPV6_DST | MFF_IPV6_LABEL | MFF_IP_PROTO | MFF_IP_DSCP
| MFF_IP_DSCP_SHIFTED | MFF_IP_ECN | MFF_IP_TTL | MFF_IP_FRAG | MFF_ARP_OP | MFF_ARP_SPA
| MFF_ARP_TPA | MFF_ARP_SHA | MFF_ARP_THA | MFF_TCP_SRC | MFF_TCP_DST | MFF_TCP_FLAGS
| MFF_UDP_SRC | MFF_UDP_DST | MFF_SCTP_SRC | MFF_SCTP_DST | MFF_ICMPV4_TYPE | MFF_ICMPV4_CODE
| MFF_ICMPV6_TYPE | MFF_ICMPV6_CODE | MFF_ND_TARGET | MFF_ND_SLL | MFF_ND_TLL | MFF_ND_RESERVED
| MFF_ND_OPTIONS_TYPE | MFF_NSH_FLAGS | MFF_NSH_MDTYPE | MFF_NSH_NP | MFF_NSH_SPI | MFF_NSH_SI
| MFF_NSH_C (i : nat) | MFF_NSH_TTL.

(** The numbered fields are within their ranges. *)
Definition mf_id_ok (mf : mf_field_id) : bool :=
  match mf with
  | MFF_REG i => (i <? FLOW_N_REGS)%nat
  | MFF_XREG i => (i <? FLOW_N_XREGS)%nat
  | MFF_XXREG i => (i <? FLOW_N_XXREGS)%nat
  | MFF_NSH_C i => (i <? 4)%nat
  | _ => true
  end.

(** The table of the fields, which the build generates from the comments of
    meta-flow.h: "Type", "Maskable", "Access" and "Prerequisites". *)
Definition mf_n_bytes (mf : mf_field_id) : nat :=
  match mf with
  | MFF_DP_HASH | MFF_RECIRC_ID | MFF_PACKET_TYPE | MFF_CONJ_ID | MFF_TUN_SRC | MFF_TUN_DST
  | MFF_TUN_ERSPAN_IDX | MFF_IN_PORT_OXM | MFF_ACTSET_OUTPUT | MFF_SKB_PRIORITY | MFF_PKT_MARK
  | MFF_CT_STATE | MFF_CT_MARK | MFF_CT_NW_SRC | MFF_CT_NW_DST | MFF_REG _ | MFF_MPLS_LABEL
  | MFF_IPV4_SRC | MFF_IPV4_DST | MFF_IPV6_LABEL | MFF_ARP_SPA | MFF_ARP_TPA | MFF_ND_RESERVED
  | MFF_NSH_SPI | MFF_NSH_C _ => 4
  | MFF_TUN_ID | MFF_METADATA | MFF_XREG _ => 8
  | MFF_TUN_IPV6_SRC | MFF_TUN_IPV6_DST | MFF_CT_LABEL | MFF_CT_IPV6_SRC | MFF_CT_IPV6_DST | MFF_XXREG _
  | MFF_IPV6_SRC | MFF_IPV6_DST | MFF_ND_TARGET => 16
  | MFF_TUN_FLAGS | MFF_TUN_GBP_ID | MFF_IN_PORT | MFF_CT_ZONE | MFF_CT_TP_SRC | MFF_CT_TP_DST
  | MFF_ETH_TYPE | MFF_VLAN_TCI | MFF_DL_VLAN | MFF_VLAN_VID | MFF_ARP_OP | MFF_TCP_SRC | MFF_TCP_DST
  | MFF_TCP_FLAGS | MFF_UDP_SRC | MFF_UDP_DST | MFF_SCTP_SRC | MFF_SCTP_DST => 2
  | MFF_TUN_TTL | MFF_TUN_TOS | MFF_TUN_GBP_FLAGS | MFF_TUN_ERSPAN_VER | MFF_TUN_ERSPAN_DIR
  | MFF_TUN_ERSPAN_HWID | MFF_TUN_GTPU_FLAGS | MFF_TUN_GTPU_MSGTYPE | MFF_CT_NW_PROTO | MFF_DL_VLAN_PCP
  | MFF_VLAN_PCP | MFF_MPLS_TC | MFF_MPLS_BOS | MFF_MPLS_TTL | MFF_IP_PROTO | MFF_IP_DSCP
  | MFF_IP_DSCP_SHIFTED | MFF_IP_ECN | MFF_IP_TTL | MFF_IP_FRAG | MFF_ICMPV4_TYPE | MFF_ICMPV4_CODE
  | MFF_ICMPV6_TYPE | MFF_ICMPV6_CODE | MFF_ND_OPTIONS_TYPE | MFF_NSH_FLAGS | MFF_NSH_MDTYPE
  | MFF_NSH_NP | MFF_NSH_SI | MFF_NSH_TTL => 1
  | MFF_ETH_SRC | MFF_ETH_DST | MFF_ARP_SHA | MFF_ARP_THA | MFF_ND_SLL | MFF_ND_TLL => 6
  end%nat.

Definition mf_n_bits (mf : mf_field_id) : nat :=
  match mf with
  | MFF_TUN_FLAGS | MFF_TUN_ERSPAN_DIR | MFF_MPLS_BOS => 1
  | MFF_TUN_ERSPAN_IDX | MFF_MPLS_LABEL | MFF_IPV6_LABEL => 20
  | MFF_TUN_ERSPAN_VER => 4
  | MFF_TUN_ERSPAN_HWID | MFF_IP_DSCP_SHIFTED => 6
  | MFF_DL_VLAN | MFF_VLAN_VID | MFF_TCP_FLAGS => 12
  | MFF_DL_VLAN_PCP | MFF_VLAN_PCP | MFF_MPLS_TC => 3
  | MFF_IP_ECN | MFF_IP_FRAG => 2
  | MFF_NSH_SPI => 24
  | _ => 8 * mf_n_bytes mf
  end%nat.

Definition mf_maskable (mf : mf_field_id) : bool :=
  match mf with
  | MFF_DP_HASH | MFF_TUN_ID | MFF_TUN_SRC | MFF_TUN_DST | MFF_TUN_IPV6_SRC | MFF_TUN_IPV6_DST
  | MFF_TUN_FLAGS | MFF_TUN_GBP_ID | MFF_TUN_GBP_FLAGS | MFF_TUN_ERSPAN_IDX | MFF_TUN_ERSPAN_VER
  | MFF_TUN_ERSPAN_DIR | MFF_TUN_ERSPAN_HWID | MFF_TUN_GTPU_FLAGS | MFF_TUN_GTPU_MSGTYPE | MFF_METADATA
  | MFF_PKT_MARK | MFF_CT_STATE | MFF_CT_MARK | MFF_CT_LABEL | MFF_CT_NW_SRC | MFF_CT_NW_DST
  | MFF_CT_IPV6_SRC | MFF_CT_IPV6_DST | MFF_CT_TP_SRC | MFF_CT_TP_DST | MFF_REG _ | MFF_XREG _
  | MFF_XXREG _ | MFF_ETH_SRC | MFF_ETH_DST | MFF_VLAN_TCI | MFF_VLAN_VID | MFF_IPV4_SRC | MFF_IPV4_DST
  | MFF_IPV6_SRC | MFF_IPV6_DST | MFF_IPV6_LABEL | MFF_IP_FRAG | MFF_ARP_SPA | MFF_ARP_TPA | MFF_ARP_SHA
  | MFF_ARP_THA | MFF_TCP_SRC | MFF_TCP_DST | MFF_TCP_FLAGS | MFF_UDP_SRC | MFF_UDP_DST | MFF_SCTP_SRC
  | MFF_SCTP_DST | MFF_ND_TARGET | MFF_ND_SLL | MFF_ND_TLL | MFF_NSH_FLAGS | MFF_NSH_C _ => true
  | _ => false
  end.

Definition mf_writable (mf : mf_field_id) : bool :=
  match mf with
  | MFF_DP_HASH | MFF_RECIRC_ID | MFF_PACKET_TYPE | MFF_CONJ_ID | MFF_TUN_TTL | MFF_TUN_TOS
  | MFF_TUN_GTPU_FLAGS | MFF_TUN_GTPU_MSGTYPE | MFF_ACTSET_OUTPUT | MFF_SKB_PRIORITY | MFF_CT_STATE
  | MFF_CT_ZONE | MFF_CT_NW_PROTO | MFF_CT_NW_SRC | MFF_CT_NW_DST | MFF_CT_IPV6_SRC | MFF_CT_IPV6_DST
  | MFF_CT_TP_SRC | MFF_CT_TP_DST | MFF_ETH_TYPE | MFF_MPLS_BOS | MFF_IP_PROTO | MFF_IP_FRAG
  | MFF_TCP_FLAGS | MFF_NSH_MDTYPE | MFF_NSH_NP => false
  | _ => true
  end.

Definition mf_prereqs_of (mf : mf_field_id) : mf_prereqs :=
  match mf with
  | MFF_CT_NW_PROTO | MFF_CT_NW_SRC | MFF_CT_NW_DST | MFF_CT_IPV6_SRC | MFF_CT_IPV6_DST | MFF_CT_TP_SRC
  | MFF_CT_TP_DST => MFP_CT_VALID
  | MFF_ETH_SRC | MFF_ETH_DST | MFF_ETH_TYPE | MFF_VLAN_TCI | MFF_DL_VLAN | MFF_VLAN_VID
  | MFF_DL_VLAN_PCP => MFP_ETHERNET
  | MFF_VLAN_PCP => MFP_VLAN_VID
  | MFF_MPLS_LABEL | MFF_MPLS_TC | MFF_MPLS_BOS | MFF_MPLS_TTL => MFP_MPLS
  | MFF_IPV4_SRC | MFF_IPV4_DST => MFP_IPV4
  | MFF_IPV6_SRC | MFF_IPV6_DST | MFF_IPV6_LABEL => MFP_IPV6
  | MFF_IP_PROTO | MFF_IP_DSCP | MFF_IP_DSCP_SHIFTED | MFF_IP_ECN | MFF_IP_TTL | MFF_IP_FRAG => MFP_IP_ANY
  | MFF_ARP_OP | MFF_ARP_SPA | MFF_ARP_TPA | MFF_ARP_SHA | MFF_ARP_THA => MFP_ARP
  | MFF_TCP_SRC | MFF_TCP_DST | MFF_TCP_FLAGS => MFP_TCP
  | MFF_UDP_SRC | MFF_UDP_DST => MFP_UDP
  | MFF_SCTP_SRC | MFF_SCTP_DST => MFP_SCTP
  | MFF_ICMPV4_TYPE | MFF_ICMPV4_CODE => MFP_ICMPV4
  | MFF_ICMPV6_TYPE | MFF_ICMPV6_CODE => MFP_ICMPV6
  | MFF_ND_TARGET | MFF_ND_RESERVED | MFF_ND_OPTIONS_TYPE => MFP_ND
  | MFF_ND_SLL => MFP_ND_SOLICIT
  | MFF_ND_TLL => MFP_ND_ADVERT
  | MFF_NSH_FLAGS | MFF_NSH_MDTYPE | MFF_NSH_NP | MFF_NSH_SPI | MFF_NSH_SI | MFF_NSH_C _ | MFF_NSH_TTL => MFP_NSH
  | _ => MFP_NONE
  end.

(** ** Reading a field *)

(** The cases of the switch up to the registers. *)
Definition mf_get_metadata (mf : mf_field_id) (f : flow) (value : mf_value) : mf_value :=
  match mf with
  | MFF_DP_HASH => put value 4 (fget f dp_hash)
  | MFF_RECIRC_ID => put value 4 (fget f recirc_id)
  | MFF_PACKET_TYPE => put value 4 (fget f packet_type)
  | MFF_CONJ_ID => put value 4 (fget f conj_id)
  | MFF_TUN_ID => put value 8 (fget f tun_id)
  | MFF_TUN_SRC => put value 4 (fget f tun_ip_src)
  | MFF_TUN_DST => put value 4 (fget f tun_ip_dst)
  | MFF_TUN_IPV6_SRC => put value 16 (fget f tun_ipv6_src)
  | MFF_TUN_IPV6_DST => put value 16 (fget f tun_ipv6_dst)
  | MFF_TUN_FLAGS => put value 2 (Z.land (fget f tun_flags) FLOW_TNL_PUB_F_MASK)
  | MFF_TUN_GBP_ID => put value 2 (fget f tun_gbp_id)
  | MFF_TUN_GBP_FLAGS => put value 1 (fget f tun_gbp_flags)
  | MFF_TUN_TTL => put value 1 (fget f tun_ip_ttl)
  | MFF_TUN_TOS => put value 1 (fget f tun_ip_tos)
  | MFF_TUN_ERSPAN_VER => put value 1 (fget f tun_erspan_ver)
  | MFF_TUN_ERSPAN_IDX => put value 4 (fget f tun_erspan_idx)
  | MFF_TUN_ERSPAN_DIR => put value 1 (fget f tun_erspan_dir)
  | MFF_TUN_ERSPAN_HWID => put value 1 (fget f tun_erspan_hwid)
  | MFF_TUN_GTPU_FLAGS => put value 1 (fget f tun_gtpu_flags)
  | MFF_TUN_GTPU_MSGTYPE => put value 1 (fget f tun_gtpu_msgtype)
  | MFF_METADATA => put value 8 (fget f metadata)
  | MFF_IN_PORT => put value 2 (fget f in_port)
  | MFF_IN_PORT_OXM => put value 4 (ofputil_port_to_ofp11 (fget f in_port))
  | MFF_ACTSET_OUTPUT => put value 4 (ofputil_port_to_ofp11 (fget f actset_output))
  | MFF_SKB_PRIORITY => put value 4 (fget f skb_priority)
  | MFF_PKT_MARK => put value 4 (fget f pkt_mark)
  | MFF_CT_STATE => put value 4 (fget f ct_state)
  | MFF_CT_ZONE => put value 2 (fget f ct_zone)
  | MFF_CT_MARK => put value 4 (fget f ct_mark)
  | MFF_CT_LABEL => put value 16 (fget f ct_label)
  | MFF_CT_NW_PROTO => put value 1 (fget f ct_nw_proto)
  | MFF_CT_NW_SRC => put value 4 (fget f ct_nw_src)
  | MFF_CT_NW_DST => put value 4 (fget f ct_nw_dst)
  | MFF_CT_IPV6_SRC => put value 16 (fget f ct_ipv6_src)
  | MFF_CT_IPV6_DST => put value 16 (fget f ct_ipv6_dst)
  | MFF_CT_TP_SRC => put value 2 (fget f ct_tp_src)
  | MFF_CT_TP_DST => put value 2 (fget f ct_tp_dst)
  | MFF_REG i => put value 4 (fget f (regs i))
  | MFF_XREG i => put value 8 (flow_get_xreg f i)
  | MFF_XXREG i => put value 16 (flow_get_xxreg f i)
  | _ => value
  end.

Definition mf_get_value (mf : mf_field_id) (f : flow) (value : mf_value) : mf_value :=
  match mf with
  | MFF_ETH_SRC => put value 6 (fget f dl_src)
  | MFF_ETH_DST => put value 6 (fget f dl_dst)
  | MFF_ETH_TYPE => put value 2 (fget f dl_type)
  | MFF_VLAN_TCI => put value 2 (fget f (vlan_tci 0))
  | MFF_DL_VLAN => put value 2 (Z.land (fget f (vlan_tci 0)) VLAN_VID_MASK)
  | MFF_VLAN_VID => put value 2 (Z.land (fget f (vlan_tci 0)) (Z.lor VLAN_VID_MASK VLAN_CFI))
  | MFF_DL_VLAN_PCP | MFF_VLAN_PCP => put value 1 (vlan_tci_to_pcp (fget f (vlan_tci 0)))
  | MFF_MPLS_LABEL => put value 4 (mpls_lse_to_label (fget f (mpls_lse 0)))
  | MFF_MPLS_TC => put value 1 (mpls_lse_to_tc (fget f (mpls_lse 0)))
  | MFF_MPLS_BOS => put value 1 (mpls_lse_to_bos (fget f (mpls_lse 0)))
  | MFF_MPLS_TTL => put value 1 (mpls_lse_to_ttl (fget f (mpls_lse 0)))
  | MFF_IPV4_SRC => put value 4 (fget f nw_src)
  | MFF_IPV4_DST => put value 4 (fget f nw_dst)
  | MFF_IPV6_SRC => put value 16 (fget f ipv6_src)
  | MFF_IPV6_DST => put value 16 (fget f ipv6_dst)
  | MFF_IPV6_LABEL => put value 4 (fget f ipv6_label)
  | MFF_IP_PROTO => put value 1 (fget f nw_proto)
  | MFF_IP_DSCP => put value 1 (Z.land (fget f nw_tos) IP_DSCP_MASK)
  | MFF_IP_DSCP_SHIFTED => put value 1 (Z.shiftr (fget f nw_tos) 2)
  | MFF_IP_ECN => put value 1 (Z.land (fget f nw_tos) IP_ECN_MASK)
  | MFF_IP_TTL => put value 1 (fget f nw_ttl)
  | MFF_IP_FRAG => put value 1 (fget f nw_frag)
  | MFF_ARP_OP => put value 2 (fget f nw_proto)
  | MFF_ARP_SPA => put value 4 (fget f nw_src)
  | MFF_ARP_TPA => put value 4 (fget f nw_dst)
  | MFF_ARP_SHA | MFF_ND_SLL => put value 6 (fget f arp_sha)
  | MFF_ARP_THA | MFF_ND_TLL => put value 6 (fget f arp_tha)
  | MFF_TCP_SRC | MFF_UDP_SRC | MFF_SCTP_SRC => put value 2 (fget f tp_src)
  | MFF_TCP_DST | MFF_UDP_DST | MFF_SCTP_DST => put value 2 (fget f tp_dst)
  | MFF_TCP_FLAGS | MFF_ND_OPTIONS_TYPE => put value 2 (fget f tcp_flags)
  | MFF_ND_RESERVED => put value 4 (fget f igmp_group_ip4)
  | MFF_ICMPV4_TYPE | MFF_ICMPV6_TYPE => put value 1 (fget f tp_src)
  | MFF_ICMPV4_CODE | MFF_ICMPV6_CODE => put value 1 (fget f tp_dst)
  | MFF_ND_TARGET => put value 16 (fget f nd_target)
  | MFF_NSH_FLAGS => put value 1 (fget f nsh_flags)
  | MFF_NSH_TTL => put value 1 (fget f nsh_ttl)
  | MFF_NSH_MDTYPE => put value 1 (fget f nsh_mdtype)
  | MFF_NSH_NP => put value 1 (fget f nsh_np)
  | MFF_NSH_SPI =>
      let value := put value 4 (nsh_path_hdr_to_spi (fget f nsh_path_hdr)) in
      if be value 4 =? Z.shiftr NSH_SPI_MASK NSH_SPI_SHIFT then put value 4 UINT32_MAX else value
  | MFF_NSH_SI => put value 1 (nsh_path_hdr_to_si (fget f nsh_path_hdr))
  | MFF_NSH_C i => put value 4 (fget f (nsh_context i))
  | _ => mf_get_metadata mf f value
  end.

Definition mf_get_mask (mf : mf_field_id) (wc : flow) (mask : mf_value) : mf_value := mf_get_value mf wc mask.

(** The value and the mask of a field of a match. *)
Definition mf_get (mf : mf_field_id) (m : match_) (value mask : mf_value) : mf_value * mf_value :=
  (mf_get_value mf (m_flow m) value, mf_get_mask mf (m_wc m) mask).

Definition mf_is_set (mf : mf_field_id) (f : flow) (value : mf_value) : bool :=
  negb (is_all_zeros (mf_get_value mf f value) (mf_n_bytes mf)).

(** ** Storing a field *)

Definition mf_set_flow_metadata (mf : mf_field_id) (value : mf_value) (f : flow) : flow :=
  match mf with
  | MFF_DP_HASH => fset f dp_hash (be value 4)
  | MFF_RECIRC_ID => fset f recirc_id (be value 4)
  | MFF_PACKET_TYPE => fset f packet_type (be value 4)
  | MFF_CONJ_ID => fset f conj_id (be value 4)
  | MFF_TUN_ID => fset f tun_id (be value 8)
  | MFF_TUN_SRC => fset f tun_ip_src (be value 4)
  | MFF_TUN_DST => fset f tun_ip_dst (be value 4)
  | MFF_TUN_IPV6_SRC => fset f tun_ipv6_src (be value 16)
  | MFF_TUN_IPV6_DST => fset f tun_ipv6_dst (be value 16)
  | MFF_TUN_FLAGS => fset f tun_flags (Z.lor (Z.ldiff (fget f tun_flags) FLOW_TNL_PUB_F_MASK) (be value 2))
  | MFF_TUN_GBP_ID => fset f tun_gbp_id (be value 2)
  | MFF_TUN_GBP_FLAGS => fset f tun_gbp_flags (be value 1)
  | MFF_TUN_TOS => fset f tun_ip_tos (be value 1)
  | MFF_TUN_TTL => fset f tun_ip_ttl (be value 1)
  | MFF_TUN_ERSPAN_VER => fset f tun_erspan_ver (be value 1)
  | MFF_TUN_ERSPAN_IDX => fset f tun_erspan_idx (be value 4)
  | MFF_TUN_ERSPAN_DIR => fset f tun_erspan_dir (be value 1)
  | MFF_TUN_ERSPAN_HWID => fset f tun_erspan_hwid (be value 1)
  | MFF_TUN_GTPU_FLAGS => fset f tun_gtpu_flags (be value 1)
  | MFF_TUN_GTPU_MSGTYPE => fset f tun_gtpu_msgtype (be value 1)
  | MFF_METADATA => fset f metadata (be value 8)
  | MFF_IN_PORT => fset f in_port (be value 2)
  | MFF_IN_PORT_OXM => fset f in_port (snd (ofputil_port_from_ofp11 (be value 4)))
  | MFF_ACTSET_OUTPUT => fset f actset_output (snd (ofputil_port_from_ofp11 (be value 4)))
  | MFF_SKB_PRIORITY => fset f skb_priority (be value 4)
  | MFF_PKT_MARK => fset f pkt_mark (be value 4)
  | MFF_CT_STATE => fset f ct_state (be value 4)
  | MFF_CT_ZONE => fset f ct_zone (be value 2)
  | MFF_CT_MARK => fset f ct_mark (be value 4)
  | MFF_CT_LABEL => fset f ct_label (be value 16)
  | MFF_CT_NW_PROTO => fset f ct_nw_proto (be value 1)
  | MFF_CT_NW_SRC => fset f ct_nw_src (be value 4)
  | MFF_CT_NW_DST => fset f ct_nw_dst (be value 4)
  | MFF_CT_IPV6_SRC => fset f ct_ipv6_src (be value 16)
  | MFF_CT_IPV6_DST => fset f ct_ipv6_dst (be value 16)
  | MFF_CT_TP_SRC => fset f ct_tp_src (be value 2)
  | MFF_CT_TP_DST => fset f ct_tp_dst (be value 2)
  | MFF_REG i => fset f (regs i) (be value 4)
  | MFF_XREG i => flow_set_xreg f i (be value 8)
  | MFF_XXREG i => flow_set_xxreg f i (be value 16)
  | _ => f
  end.

Definition mf_set_flow_value (mf : mf_field_id) (value : mf_value) (f : flow) : flow :=
  match mf with
  | MFF_ETH_SRC => fset f dl_src (be value 6)
  | MFF_ETH_DST => fset f dl_dst (be value 6)
  | MFF_ETH_TYPE => fset f dl_type (be value 2)
  | MFF_VLAN_TCI => flow_fix_vlan_tpid (fset f (vlan_tci 0) (be value 2))
  | MFF_DL_VLAN => flow_fix_vlan_tpid (flow_set_dl_vlan f (be value 2) 0)
  | MFF_VLAN_VID => flow_fix_vlan_tpid (flow_set_vlan_vid f (be value 2))
  | MFF_DL_VLAN_PCP | MFF_VLAN_PCP => flow_fix_vlan_tpid (flow_set_vlan_pcp f (be value 1) 0)
  | MFF_MPLS_LABEL => flow_set_mpls_label f 0 (be value 4)
  | MFF_MPLS_TC => flow_set_mpls_tc f 0 (be value 1)
  | MFF_MPLS_BOS => flow_set_mpls_bos f 0 (be value 1)
  | MFF_MPLS_TTL => flow_set_mpls_ttl f 0 (be value 1)
  | MFF_IPV4_SRC => fset f nw_src (be value 4)
  | MFF_IPV4_DST => fset f nw_dst (be value 4)
  | MFF_IPV6_SRC => fset f ipv6_src (be value 16)
  | MFF_IPV6_DST => fset f ipv6_dst (be value 16)
  | MFF_IPV6_LABEL => fset f ipv6_label (Z.land (be value 4) IPV6_LABEL_MASK)
  | MFF_IP_PROTO => fset f nw_proto (be value 1)
  | MFF_IP_DSCP =>
      let f := fset f nw_tos (Z.ldiff (fget f nw_tos) IP_DSCP_MASK) in
      fset f nw_tos (Z.lor (fget f nw_tos) (Z.land (be value 1) IP_DSCP_MASK))
  | MFF_IP_DSCP_SHIFTED =>
      let f := fset f nw_tos (Z.ldiff (fget f nw_tos) IP_DSCP_MASK) in
      fset f nw_tos (Z.lor (fget f nw_tos) (Z.shiftl (be value 1) 2))
  | MFF_IP_ECN =>
      let f := fset f nw_tos (Z.ldiff (fget f nw_tos) IP_ECN_MASK) in
      fset f nw_tos (Z.lor (fget f nw_tos) (Z.land (be value 1) IP_ECN_MASK))
  | MFF_IP_TTL => fset f nw_ttl (be value 1)
  | MFF_IP_FRAG => fset f nw_frag (Z.land (be value 1) FLOW_NW_FRAG_MASK)
  | MFF_ARP_OP => fset f nw_proto (be value 2)
  | MFF_ARP_SPA => fset f nw_src (be value 4)
  | MFF_ARP_TPA => fset f nw_dst (be value 4)
  | MFF_ARP_SHA | MFF_ND_SLL => fset f arp_sha (be value 6)
  | MFF_ARP_THA | MFF_ND_TLL => fset f arp_tha (be value 6)
  | MFF_TCP_SRC | MFF_UDP_SRC | MFF_SCTP_SRC => fset f tp_src (be value 2)
  | MFF_TCP_DST | MFF_UDP_DST | MFF_SCTP_DST => fset f tp_dst (be value 2)
  | MFF_TCP_FLAGS => fset f tcp_flags (be value 2)
  | MFF_ICMPV4_TYPE | MFF_ICMPV6_TYPE => fset f tp_src (be value 1)
  | MFF_ICMPV4_CODE | MFF_ICMPV6_CODE => fset f tp_dst (be value 1)
  | MFF_ND_TARGET => fset f nd_target (be value 16)
  | MFF_ND_RESERVED => fset f igmp_group_ip4 (be value 4)
  | MFF_ND_OPTIONS_TYPE => fset f tcp_flags (be value 1)
  | MFF_NSH_FLAGS => fset f nsh_flags (be value 1)
  | MFF_NSH_TTL => fset f nsh_ttl (be value 1)
  | MFF_NSH_MDTYPE => fset f nsh_mdtype (be value 1)
  | MFF_NSH_NP => fset f nsh_np (be value 1)
  | MFF_NSH_SPI => fset f nsh_path_hdr (nsh_path_hdr_set_spi (fget f nsh_path_hdr) (be value 4))
  | MFF_NSH_SI => fset f nsh_path_hdr (nsh_path_hdr_set_si (fget f nsh_path_hdr) (be value 1))
  | MFF_NSH_C i => fset f (nsh_context i) (be value 4)
  | _ => mf_set_flow_metadata mf value f
  end.

Definition apply_mask (src mask dst : mf_value) (n : nat) : mf_value :=
  foldl (fun dst i => <[i := Z.lor (Z.land (nth i src 0) (nth i mask 0)) (Z.ldiff (nth i dst 0) (nth i mask 0))]> dst)
    dst (seq 0 n).

Definition mf_set_flow_value_masked (mf : mf_field_id) (value mask tmp : mf_value) (f : flow) : flow :=
  mf_set_flow_value mf (apply_mask value mask (mf_get_value mf f tmp) (mf_n_bytes mf)) f.

(** ** Wildcards *)

Definition mf_is_all_wild_metadata (mf : mf_field_id) (wc : flow) : bool :=
  match mf with
  | MFF_DP_HASH => fget wc dp_hash =? 0
  | MFF_RECIRC_ID => fget wc recirc_id =? 0
  | MFF_PACKET_TYPE => fget wc packet_type =? 0
  | MFF_CONJ_ID => fget wc conj_id =? 0
  | MFF_TUN_SRC => fget wc tun_ip_src =? 0
  | MFF_TUN_DST => fget wc tun_ip_dst =? 0
  | MFF_TUN_IPV6_SRC => fget wc tun_ipv6_src =? 0
  | MFF_TUN_IPV6_DST => fget wc tun_ipv6_dst =? 0
  | MFF_TUN_ID => fget wc tun_id =? 0
  | MFF_TUN_TOS => fget wc tun_ip_tos =? 0
  | MFF_TUN_TTL => fget wc tun_ip_ttl =? 0
  | MFF_TUN_FLAGS => Z.land (fget wc tun_flags) FLOW_TNL_PUB_F_MASK =? 0
  | MFF_TUN_GBP_ID => fget wc tun_gbp_id =? 0
  | MFF_TUN_GBP_FLAGS => fget wc tun_gbp_flags =? 0
  | MFF_TUN_ERSPAN_VER => fget wc tun_erspan_ver =? 0
  | MFF_TUN_ERSPAN_IDX => fget wc tun_erspan_idx =? 0
  | MFF_TUN_ERSPAN_DIR => fget wc tun_erspan_dir =? 0
  | MFF_TUN_ERSPAN_HWID => fget wc tun_erspan_hwid =? 0
  | MFF_METADATA => fget wc metadata =? 0
  | MFF_IN_PORT | MFF_IN_PORT_OXM => fget wc in_port =? 0
  | MFF_SKB_PRIORITY => fget wc skb_priority =? 0
  | MFF_PKT_MARK => fget wc pkt_mark =? 0
  | MFF_CT_STATE => fget wc ct_state =? 0
  | MFF_CT_ZONE => fget wc ct_zone =? 0
  | MFF_CT_MARK => fget wc ct_mark =? 0
  | MFF_CT_LABEL => fget wc ct_label =? 0
  | MFF_CT_NW_PROTO => fget wc ct_nw_proto =? 0
  | MFF_CT_NW_SRC => fget wc ct_nw_src =? 0
  | MFF_CT_NW_DST => fget wc ct_nw_dst =? 0
  | MFF_CT_TP_SRC => fget wc ct_tp_src =? 0
  | MFF_CT_TP_DST => fget wc ct_tp_dst =? 0
  | MFF_CT_IPV6_SRC => fget wc ct_ipv6_src =? 0
  | MFF_CT_IPV6_DST => fget wc ct_ipv6_dst =? 0
  | MFF_REG i => fget wc (regs i) =? 0
  | MFF_XREG i => flow_get_xreg wc i =? 0
  | MFF_XXREG i => flow_get_xxreg wc i =? 0
  | _ => false
  end.

Definition mf_is_all_wild (mf : mf_field_id) (wc : flow) : bool :=
  match mf with
  | MFF_ACTSET_OUTPUT => fget wc actset_output =? 0
  | MFF_ETH_SRC => fget wc dl_src =? 0
  | MFF_ETH_DST => fget wc dl_dst =? 0
  | MFF_ETH_TYPE => fget wc dl_type =? 0
  | MFF_ARP_SHA | MFF_ND_SLL => fget wc arp_sha =? 0
  | MFF_ARP_THA | MFF_ND_TLL => fget wc arp_tha =? 0
  | MFF_VLAN_TCI => fget wc (vlan_tci 0) =? 0
  | MFF_DL_VLAN => Z.land (fget wc (vlan_tci 0)) VLAN_VID_MASK =? 0
  | MFF_VLAN_VID => Z.land (fget wc (vlan_tci 0)) (Z.lor VLAN_VID_MASK VLAN_CFI) =? 0
  | MFF_DL_VLAN_PCP | MFF_VLAN_PCP => Z.land (fget wc (vlan_tci 0)) VLAN_PCP_MASK =? 0
  | MFF_MPLS_LABEL => Z.land (fget wc (mpls_lse 0)) MPLS_LABEL_MASK =? 0
  | MFF_MPLS_TC => Z.land (fget wc (mpls_lse 0)) MPLS_TC_MASK =? 0
  | MFF_MPLS_BOS => Z.land (fget wc (mpls_lse 0)) MPLS_BOS_MASK =? 0
  | MFF_MPLS_TTL => Z.land (fget wc (mpls_lse 0)) MPLS_TTL_MASK =? 0
  | MFF_IPV4_SRC => fget wc nw_src =? 0
  | MFF_IPV4_DST => fget wc nw_dst =? 0
  | MFF_IPV6_SRC => fget wc ipv6_src =? 0
  | MFF_IPV6_DST => fget wc ipv6_dst =? 0
  | MFF_IPV6_LABEL => fget wc ipv6_label =? 0
  | MFF_IP_PROTO => fget wc nw_proto =? 0
  | MFF_IP_DSCP | MFF_IP_DSCP_SHIFTED => Z.land (fget wc nw_tos) IP_DSCP_MASK =? 0
  | MFF_IP_ECN => Z.land (fget wc nw_tos) IP_ECN_MASK =? 0
  | MFF_IP_TTL => fget wc nw_ttl =? 0
  | MFF_ND_TARGET => fget wc nd_target =? 0
  | MFF_ND_RESERVED => fget wc igmp_group_ip4 =? 0
  | MFF_ND_OPTIONS_TYPE => fget wc tcp_flags =? 0
  | MFF_IP_FRAG => Z.land (fget wc nw_frag) FLOW_NW_FRAG_MASK =? 0
  | MFF_ARP_OP => fget wc nw_proto =? 0
  | MFF_ARP_SPA => fget wc nw_src =? 0
  | MFF_ARP_TPA => fget wc nw_dst =? 0
  | MFF_TCP_SRC | MFF_UDP_SRC | MFF_SCTP_SRC | MFF_ICMPV4_TYPE | MFF_ICMPV6_TYPE => fget wc tp_src =? 0
  | MFF_TCP_DST | MFF_UDP_DST | MFF_SCTP_DST | MFF_ICMPV4_CODE | MFF_ICMPV6_CODE => fget wc tp_dst =? 0
  | MFF_TCP_FLAGS => fget wc tcp_flags =? 0
  | MFF_NSH_FLAGS => fget wc nsh_flags =? 0
  | MFF_NSH_TTL => fget wc nsh_ttl =? 0
  | MFF_NSH_MDTYPE => fget wc nsh_mdtype =? 0
  | MFF_NSH_NP => fget wc nsh_np =? 0
  | MFF_NSH_SPI => Z.land (fget wc nsh_path_hdr) NSH_SPI_MASK =? 0
  | MFF_NSH_SI => Z.land (fget wc nsh_path_hdr) NSH_SI_MASK =? 0
  | MFF_NSH_C i => fget wc (nsh_context i) =? 0
  | MFF_TUN_GTPU_FLAGS => fget wc tun_gtpu_flags =? 0
  | MFF_TUN_GTPU_MSGTYPE => fget wc tun_gtpu_msgtype =? 0
  | _ => mf_is_all_wild_metadata mf wc
  end.

Definition mf_is_mask_valid (mf : mf_field_id) (mask : mf_value) : bool :=
  if mf_maskable mf then true
  else is_all_zeros mask (mf_n_bytes mf) || is_all_ones mask (mf_n_bytes mf).

(** The fields for which [mf_is_value_valid] looks at the value. *)
Definition mf_is_value_valid (mf : mf_field_id) (value : mf_value) : bool :=
  match mf with
  | MFF_IN_PORT_OXM | MFF_ACTSET_OUTPUT => fst (ofputil_port_from_ofp11 (be value 4))
  | MFF_IP_DSCP => Z.ldiff (be value 1) IP_DSCP_MASK =? 0
  | MFF_IP_DSCP_SHIFTED => Z.land (be value 1) (Z.shiftr (Z.lnot IP_DSCP_MASK) 2) =? 0
  | MFF_IP_ECN => Z.ldiff (be value 1) IP_ECN_MASK =? 0
  | MFF_IP_FRAG => Z.ldiff (be value 1) FLOW_NW_FRAG_MASK =? 0
  | MFF_TCP_FLAGS => Z.ldiff (be value 2) 0x0fff =? 0
  | MFF_ARP_OP => Z.land (be value 2) 0xff00 =? 0
  | MFF_DL_VLAN => Z.land (be value 2) (Z.lor VLAN_CFI VLAN_PCP_MASK) =? 0
  | MFF_VLAN_VID => Z.land (be value 2) VLAN_PCP_MASK =? 0
  | MFF_DL_VLAN_PCP | MFF_VLAN_PCP => Z.ldiff (be value 1) (Z.shiftr VLAN_PCP_MASK VLAN_PCP_SHIFT) =? 0
  | MFF_IPV6_LABEL => Z.ldiff (be value 4) IPV6_LABEL_MASK =? 0
  | MFF_MPLS_LABEL => Z.ldiff (be value 4) (Z.shiftr MPLS_LABEL_MASK MPLS_LABEL_SHIFT) =? 0
  | MFF_MPLS_TC => Z.ldiff (be value 1) (Z.shiftr MPLS_TC_MASK MPLS_TC_SHIFT) =? 0
  | MFF_MPLS_BOS => Z.ldiff (be value 1) (Z.shiftr MPLS_BOS_MASK MPLS_BOS_SHIFT) =? 0
  | MFF_TUN_FLAGS => Z.ldiff (be value 2) FLOW_TNL_PUB_F_MASK =? 0
  | MFF_CT_STATE => Z.ldiff (be value 4) CS_SUPPORTED_MASK =? 0
  | MFF_NSH_TTL => be value 1 <=? 63
  | MFF_NSH_MDTYPE => (be value 1 =? 1) || (be value 1 =? 2)
  | MFF_NSH_SPI => Z.land (be value 4) 0xFF000000 =? 0
  | _ => true
  end.

(** [mask_value.b[i] |= mask->b[i]] over the bytes of the field. *)
Definition or_bytes (dst src : mf_value) (n : nat) : mf_value :=
  foldl (fun dst i => <[i := Z.lor (nth i dst 0) (nth i src 0)]> dst) dst (seq 0 n).

Definition mf_mask_field_masked (mf : mf_field_id) (mask tmp : mf_value) (wc : flow) : flow :=
  let mask := match mf with MFF_DL_VLAN => put tmp 2 (Z.land VLAN_VID_MASK (be mask 2)) | _ => mask end in
  let mask_value := or_bytes (mf_get_value mf wc tmp) mask (mf_n_bytes mf) in
  mf_set_flow_value mf mask_value wc.

Definition mf_mask_field (mf : mf_field_id) (tmp : mf_value) (wc : flow) : flow :=
  mf_mask_field_masked mf exact_match_mask tmp wc.

(** ** Values as numbers *)

Definition value_wf (value : mf_value) : Prop := length value = SIZEOF_MF_VALUE /\ Forall is_byte value.

Lemma length_put (value : mf_value) (n : nat) (x : Z) : length (put value n x) = length value.
Proof. revert x. induction n as [|n IH]; intros x; [done|]. cbn [put]. by rewrite length_insert. Qed.

Lemma nth_byte (value : mf_value) (i : nat) : Forall is_byte value -> is_byte (nth i value 0).
Proof. intros H. apply nth_Forall; [done|]. unfold is_byte. lia. Qed.

Lemma be_ext (v w : mf_value) (n : nat) : (forall i, (i < n)%nat -> nth i v 0 = nth i w 0) -> be v n = be w n.
Proof. induction n as [|n IH]; intros H; [done|]. cbn [be]. rewrite (H n), IH by lia || (intros; apply H; lia). done. Qed.

Lemma put_nth_ge (value : mf_value) (n i : nat) (x : Z) : (n <= i)%nat -> nth i (put value n x) 0 = nth i value 0.
Proof. revert x. induction n as [|n IH]; intros x H; [done|]. cbn [put]. rewrite nth_insert_ne by lia. apply IH. lia. Qed.

Lemma be_put (value : mf_value) (n : nat) (x : Z) :
  (n <= length value)%nat -> be (put value n x) n = wrap (8 * Z.of_nat n) x.
Proof.
  revert x. induction n as [|n IH]; intros x H; cbn [be put].
  - unfold wrap. by rewrite Z.mod_1_r.
  - rewrite nth_insert_eq by (rewrite length_put; lia).
    rewrite (be_ext _ (put value n (Z.shiftr x 8))) by (intros; rewrite nth_insert_ne by lia; done).
    rewrite IH by lia. pose proof (wrap_width 8 x ltac:(lia)) as Hb.
    apply Z.bits_inj'. intros i Hi. rewrite Z.add_comm, Z.mul_comm, testbit_byte_app by done.
    destruct (Z.ltb_spec i 8); autorewrite with bits; zcmp; cbn [andb]; try done. f_equal. lia.
Qed.

Lemma be_width (value : mf_value) (n : nat) : Forall is_byte value -> in_width (8 * Z.of_nat n) (be value n).
Proof.
  intros Hv. unfold in_width. induction n as [|n IH]; [done|]. cbn [be].
  pose proof (nth_byte value n Hv) as Hb. unfold is_byte in Hb.
  replace (8 * Z.of_nat (S n)) with (8 * Z.of_nat n + 8) by lia. rewrite Z.pow_add_r by lia. lia.
Qed.

Lemma is_all_byte_S (p : mf_value) (n : nat) (b : Z) : is_all_byte p (S n) b = is_all_byte p n b && (nth n p 0 =? b).
Proof. unfold is_all_byte. rewrite seq_S, forallb_app. cbn. by rewrite andb_true_r. Qed.

Lemma is_all_zeros_be (value : mf_value) (n : nat) :
  Forall is_byte value -> is_all_zeros value n = (be value n =? 0).
Proof.
  intros Hv. unfold is_all_zeros. induction n as [|n IH]; [done|]. rewrite is_all_byte_S, IH. cbn [be].
  pose proof (nth_byte value n Hv) as Hb. pose proof (be_width value n Hv) as Hw. unfold is_byte, in_width in *.
  zcmp; done.
Qed.

Lemma is_all_ones_be (value : mf_value) (n : nat) :
  Forall is_byte value -> is_all_ones value n = (be value n =? Z.ones (8 * Z.of_nat n)).
Proof.
  intros Hv. unfold is_all_ones. induction n as [|n IH]; [done|]. rewrite is_all_byte_S, IH. cbn [be].
  pose proof (nth_byte value n Hv) as Hb. pose proof (be_width value n Hv) as Hw. unfold is_byte, in_width in *.
  rewrite !Z.ones_equiv. replace (8 * Z.of_nat (S n)) with (8 * Z.of_nat n + 8) by lia.
  rewrite Z.pow_add_r by lia. zcmp; done.
Qed.

Lemma put_wf (value : mf_value) (n : nat) (x : Z) : value_wf value -> value_wf (put value n x).
Proof.
  intros [Hl Hv]. split; [by rewrite length_put|]. revert x. induction n as [|n IH]; intros x; [done|].
  cbn [put]. apply Forall_insert; [apply IH|]. apply (wrap_width 8). lia.
Qed.

(** A store of a member, read back through the union. *)
Lemma get_set_member (f : flow) (mb : member) (value : mf_value) (n : nat) (x : Z) :
  value_wf value -> flow_wf f -> (n <= SIZEOF_MF_VALUE)%nat -> mb_in mb ->
  in_width (mb_bits mb) x -> in_width (8 * Z.of_nat n) x ->
  be (put value n (fget (fset f mb x) mb)) n = x.
Proof.
  intros [Hl _] [Hf _] Hn Hm Hx Hx'. rewrite be_put, fget_fset by (done || lia).
  rewrite (wrap_small (mb_bits mb)) by done. by apply wrap_small.
Qed.
