(* ===== verification/Packet.v ===== *)
(** * Packets and their headers (lib/dp-packet.h, lib/packets.h, lib/flow.c)

    A packet is a list of bytes.  The parsers of lib/flow.c walk over it with
    a cursor, the pair [*datap], [*sizep] of the C code.  Every read of the
    packet is checked: a read outside of the packet, a pull of more bytes
    than are left, or a failed [ovs_assert] is [None].  A parser that returns
    [Some] has therefore stayed inside of the packet. *)

From S2P Require Import Prelude Util Flowmap Hash Miniflow MetaFlow Trie FlowBits FlowFields MetaFields.
From stdpp Require Import prelude list.
From Stdlib Require Import ZArith Lia.
Open Scope Z_scope.
Open Scope ovs_scope.

(** ** Bytes *)

(** The [n] bytes from [o] on, and the big-endian number they are. *)
Definition bytes_at (p : list Z) (o n : nat) : list Z := take n (drop o p).
Definition get (p : list Z) (o n : nat) : Z := be (drop o p) n.

(** The same reads, of a packet. *)
Definition rd_bytes (p : list Z) (o n : nat) : option (list Z) :=
  if (o + n <=? length p)%nat then Some (bytes_at p o n) else None.
Definition rd (p : list Z) (o n : nat) : option Z :=
  if (o + n <=? length p)%nat then Some (get p o n) else None.

(** A number of [n] bytes in network byte order. *)
Definition be_bytes (n : nat) (x : Z) : list Z :=
  map (fun k => u8 (Z.shiftr x (8 * (Z.of_nat n - 1 - Z.of_nat k)))) (seq 0 n).

(** [ovs_assert] *)
Definition ovs_assert (b : bool) : option unit := if b then Some tt else None.

(** ** The cursor *)

Record cursor := Cursor { c_data : nat; c_size : nat }.

Definition data_pull (c : cursor) (size : nat) : option (nat * cursor) :=
  if (size <=? c_size c)%nat then Some (c_data c, Cursor (c_data c + size) (c_size c - size)) else None.

(** [None] is the null pointer. *)
Definition data_try_pull (c : cursor) (size : nat) : option (nat * cursor) :=
  if (size <=? c_size c)%nat then data_pull c size else None.

(** ** Constants *)

Definition ETH_ADDR_LEN : nat := 6.
Definition ETH_HEADER_LEN : nat := 14.
Definition ETH_TYPE_MIN : Z := 0x600.
Definition ETH_TYPE_VLAN_8021AD : Z := 0x88a8.
Definition FLOW_DL_TYPE_NONE : Z := 0x5ff.
Definition FLOW_MAX_MPLS_LABELS : nat := 3.
Definition FLOW_MAX_VLAN_HEADERS : Z := 2.
Definition FLOW_NW_FRAG_ANY : Z := 1.
Definition UINT16_MAX : Z := 0xffff.
Definition IP_HEADER_LEN : nat := 20.
Definition IPV6_HEADER_LEN : nat := 40.
Definition ARP_ETH_HEADER_LEN : nat := 28.
Definition TCP_HEADER_LEN : nat := 20.
Definition UDP_HEADER_LEN : nat := 8.
Definition SCTP_HEADER_LEN : nat := 12.
Definition ICMP_HEADER_LEN : nat := 8.
Definition IGMP_HEADER_LEN : nat := 8.
Definition ICMP6_DATA_HEADER_LEN : nat := 8.
Definition LLC_SNAP_HEADER_LEN : nat := 8.
Definition NSH_BASE_HDR_LEN : nat := 8.
Definition NSH_M_TYPE1_LEN : nat := 24.
Definition IPV6_LABEL_MASK : Z := 0x000fffff.

Definition IPPROTO_HOPOPTS : Z := 0.
Definition IPPROTO_IGMP : Z := 2.
Definition IPPROTO_ROUTING : Z := 43.
Definition IPPROTO_FRAGMENT : Z := 44.
Definition IPPROTO_AH : Z := 51.
Definition IPPROTO_DSTOPTS : Z := 60.

Definition ND_NEIGHBOR_SOLICIT : Z := 135.
Definition ND_NEIGHBOR_ADVERT : Z := 136.
Definition ND_OPT_SOURCE_LINKADDR : Z := 1.
Definition ND_OPT_TARGET_LINKADDR : Z := 2.
Definition ND_LLA_OPT_LEN : Z := 8.

(** ** Link layer *)

Definition eth_type_vlan (eth_type : Z) : bool :=
  (eth_type =? ETH_TYPE_VLAN_8021Q) || (eth_type =? ETH_TYPE_VLAN_8021AD).

(** [flow_vlan_limit] after a call of [flow_limit_vlans]. *)
Definition flow_limit_vlans (vlan_limit : Z) : Z :=
  if vlan_limit <=? 0 then FLOW_MAX_VLAN_HEADERS else MIN vlan_limit FLOW_MAX_VLAN_HEADERS.

(** The stack of labels up to the one with the bottom-of-stack bit.  One
    label is four bytes, so [fuel] more than the bytes left is enough. *)
Fixpoint parse_mpls_loop (fuel : nat) (p : list Z) (c : cursor) (count : nat) : option (nat * cursor) :=
  match fuel with
  | O => None
  | S fuel =>
    match data_try_pull c 4 with
    | None => Some (count, c)
    | Some (mh, c) =>
      lo ← rd p (mh + 2) 2;
      if negb (Z.land lo (Z.shiftl 1 8) =? 0) then Some (S count, c) else parse_mpls_loop fuel p c (S count)
    end
  end.

Definition parse_mpls (p : list Z) (c : cursor) : option (nat * cursor) :=
  '(count, c) ← parse_mpls_loop (S (c_size c)) p c 0;
  Some (Nat.min count FLOW_MAX_MPLS_LABELS, c).

(** The loop of [parse_vlan], [n_left] headers below [flow_vlan_limit]. *)
Fixpoint parse_vlan_loop (n_left : nat) (p : list Z) (c : cursor) : option (list Z * cursor) :=
  eth_type ← rd p (c_data c) 2;
  match n_left with
  | O => Some ([], c)
  | S n_left =>
    if eth_type_vlan eth_type then
      if (c_size c <? 6)%nat then Some ([], c)
      else
        '(qp, c) ← data_pull c 4;
        qtag ← rd p qp 4;
        '(vlan_hdrs, c) ← parse_vlan_loop n_left p c;
        Some (Z.lor qtag VLAN_CFI :: vlan_hdrs, c)
    else Some ([], c)
  end.

Definition parse_vlan (flow_vlan_limit : Z) (p : list Z) (c : cursor) : option (list Z * cursor) :=
  '(_, c) ← data_pull c (ETH_ADDR_LEN * 2);
  parse_vlan_loop (Z.to_nat flow_vlan_limit) p c.

Definition parse_ethertype (p : list Z) (c : cursor) : option (Z * cursor) :=
  '(o, c) ← data_pull c 2;
  proto ← rd p o 2;
  if ETH_TYPE_MIN <=? proto then Some (proto, c)
  else if (c_size c <? LLC_SNAP_HEADER_LEN)%nat then Some (FLOW_DL_TYPE_NONE, c)
  else
    let llc := c_data c in
    dsap ← rd p llc 1;
    ssap ← rd p (llc + 1) 1;
    cntl ← rd p (llc + 2) 1;
    snap_org ← rd p (llc + 3) 3;
    if negb (dsap =? 0xaa) || negb (ssap =? 0xaa) || negb (cntl =? 3) || negb (snap_org =? 0)
    then Some (FLOW_DL_TYPE_NONE, c)
    else
      '(_, c) ← data_pull c LLC_SNAP_HEADER_LEN;
      snap_type ← rd p (llc + 6) 2;
      if ETH_TYPE_MIN <=? snap_type then Some (snap_type, c) else Some (FLOW_DL_TYPE_NONE, c).

(** ** Neighbor discovery *)

Definition icmp6_is_nd (p : list Z) (icmp6 : nat) : option bool :=
  code ← rd p (icmp6 + 1) 1;
  if negb (code =? 0) then Some false
  else
    type ← rd p icmp6 1;
    Some ((type =? ND_NEIGHBOR_SOLICIT) || (type =? ND_NEIGHBOR_ADVERT)).

(** What [parse_icmpv6] fills in.  [nd_target_p] is a place in the packet. *)
Record nd_info := NdInfo {
  nd_rso_flags : Z;
  nd_target_p : option nat;
  nd_sll : Z;
  nd_tll : Z;
  nd_opt_type : Z
}.

Definition set_sll (i : nd_info) (mac type : Z) : nd_info :=
  NdInfo (nd_rso_flags i) (nd_target_p i) mac (nd_tll i) (if nd_opt_type i =? 0 then type else nd_opt_type i).
Definition set_tll (i : nd_info) (mac type : Z) : nd_info :=
  NdInfo (nd_rso_flags i) (nd_target_p i) (nd_sll i) mac (if nd_opt_type i =? 0 then type else nd_opt_type i).
Definition nd_invalid (i : nd_info) : nd_info := NdInfo (nd_rso_flags i) None 0 0 (nd_opt_type i).

(** The loop over the options; each takes at least one byte. *)
Fixpoint nd_opts_loop (fuel : nat) (p : list Z) (c : cursor) (i : nd_info) : option (nd_info * cursor) :=
  match fuel with
  | O => None
  | S fuel =>
    if (c_size c <? 8)%nat then Some (i, c)
    else
      let lla_opt := c_data c in
      len ← rd p (lla_opt + 1) 1;
      let opt_len := len * ND_LLA_OPT_LEN in
      if (opt_len =? 0) || (Z.of_nat (c_size c) <? opt_len) then Some (i, c)
      else
        type ← rd p lla_opt 1;
        let next i :=
          match data_try_pull c (Z.to_nat opt_len) with
          | None => Some (i, c)
          | Some (_, c) => nd_opts_loop fuel p c i
          end in
        if (type =? ND_OPT_SOURCE_LINKADDR) && (opt_len =? 8) then
          if nd_sll i =? 0 then
            mac ← rd p (lla_opt + 2) 6;
            next (set_sll i mac type)
          else Some (nd_invalid i, c)
        else if (type =? ND_OPT_TARGET_LINKADDR) && (opt_len =? 8) then
          if nd_tll i =? 0 then
            mac ← rd p (lla_opt + 2) 6;
            next (set_tll i mac type)
          else Some (nd_invalid i, c)
        else next i
  end.

(** [None] inside is the result false. *)
Definition parse_icmpv6 (p : list Z) (c : cursor) (icmp6 : nat) : option (option nd_info * cursor) :=
  nd ← icmp6_is_nd p icmp6;
  if negb nd then Some (None, c)
  else
    rso_flags ← rd p (icmp6 + 4) 4;
    match data_try_pull c 16 with
    | None => Some (Some (NdInfo rso_flags None 0 0 0), c)
    | Some (target, c) =>
      '(i, c) ← nd_opts_loop (S (c_size c)) p c (NdInfo rso_flags (Some target) 0 0 0);
      Some (Some i, c)
    end.

(** ** IPv6 extension headers *)

(** The cursor, [*nw_proto], [*nw_frag], [*frag_hdr] and [*rt_hdr]. *)
Record ext_state := ExtState {
  es_c : cursor;
  es_nw_proto : Z;
  es_nw_frag : Z;
  es_frag_hdr : option nat;
  es_rt_hdr : option nat
}.

Definition is_ext_hdr (nw_proto : Z) : bool :=
  (nw_proto =? IPPROTO_HOPOPTS) || (nw_proto =? IPPROTO_ROUTING) || (nw_proto =? IPPROTO_DSTOPTS)
  || (nw_proto =? IPPROTO_AH) || (nw_proto =? IPPROTO_FRAGMENT).

(** [nw_proto] is stored before the header is pulled. *)
Definition ext_pull (s : ext_state) (nxt : Z) (len : nat) : bool * ext_state :=
  match data_try_pull (es_c s) len with
  | None => (false, ExtState (es_c s) nxt (es_nw_frag s) (es_frag_hdr s) (es_rt_hdr s))
  | Some (_, c) => (true, ExtState c nxt (es_nw_frag s) (es_frag_hdr s) (es_rt_hdr s))
  end.

(** The [while (1)] loop; every header takes at least eight bytes. *)
Fixpoint ext_hdrs_loop (fuel : nat) (p : list Z) (s : ext_state) : option (bool * ext_state) :=
  match fuel with
  | O => None
  | S fuel =>
    let nw_proto := es_nw_proto s in
    if negb (is_ext_hdr nw_proto) then Some (true, s)
    else if (c_size (es_c s) <? 8)%nat then Some (false, s)
    else
      let hdr := c_data (es_c s) in
      let next r := if fst r : bool then ext_hdrs_loop fuel p (snd r) else Some (false, snd r) in
      nxt ← rd p hdr 1;
      if (nw_proto =? IPPROTO_HOPOPTS) || (nw_proto =? IPPROTO_DSTOPTS) then
        len ← rd p (hdr + 1) 1;
        next (ext_pull s nxt (Z.to_nat ((len + 1) * 8)))
      else if nw_proto =? IPPROTO_ROUTING then
        len ← rd p (hdr + 1) 1;
        next (ext_pull (ExtState (es_c s) nw_proto (es_nw_frag s) (es_frag_hdr s) (Some hdr))
                nxt (Z.to_nat ((len + 1) * 8)))
      else if nw_proto =? IPPROTO_AH then
        len ← rd p (hdr + 1) 1;
        next (ext_pull s nxt (Z.to_nat ((len + 2) * 4)))
      else
        let r := ext_pull (ExtState (es_c s) nw_proto (es_nw_frag s) (Some hdr) (es_rt_hdr s)) nxt 8 in
        if negb (fst r) then Some (false, snd r)
        else
          let s := snd r in
          offlg ← rd p (hdr + 2) 2;
          if negb (offlg =? 0) then
            if negb (Z.land offlg 0xfff8 =? 0) then
              Some (true, ExtState (es_c s) IPPROTO_FRAGMENT (Z.lor FLOW_NW_FRAG_ANY FLOW_NW_FRAG_LATER)
                            (es_frag_hdr s) (es_rt_hdr s))
            else next (true, ExtState (es_c s) (es_nw_proto s) FLOW_NW_FRAG_ANY (es_frag_hdr s) (es_rt_hdr s))
          else next (true, s)
  end.

Definition parse_ipv6_ext_hdrs (p : list Z) (c : cursor) (nw_proto nw_frag : Z) : option (bool * ext_state) :=
  ext_hdrs_loop (S (c_size c)) p (ExtState c nw_proto nw_frag None None).

(** ** NSH *)

Record ovs_key_nsh := KeyNsh {
  nk_flags : Z; nk_ttl : Z; nk_mdtype : Z; nk_np : Z; nk_path_hdr : Z; nk_context : list Z
}.

Definition nsh_hdr_len (w : Z) : Z := Z.shiftl (Z.land w 0x003f) 2.
Definition nsh_get_ver (w : Z) : Z := Z.shiftr (Z.land w 0xc000) 14.
Definition nsh_get_flags (w : Z) : Z := Z.shiftr (Z.land w 0x3000) 12.
Definition nsh_get_ttl (w : Z) : Z := Z.shiftr (Z.land w 0x0fc0) 6.

(** [None] inside is the result false. *)
Definition parse_nsh (p : list Z) (c : cursor) : option (option ovs_key_nsh * cursor) :=
  let nsh := c_data c in
  if (c_size c <? NSH_BASE_HDR_LEN)%nat then Some (None, c)
  else
    w ← rd p nsh 2;
    let length := nsh_hdr_len w in
    if (Z.of_nat (c_size c) <? length) || negb (nsh_get_ver w =? 0) then Some (None, c)
    else
      mdtype ← rd p (nsh + 2) 1;
      np ← rd p (nsh + 3) 1;
      path_hdr ← rd p (nsh + 4) 4;
      let done ctx :=
        '(_, c) ← data_pull c (Z.to_nat length);
        Some (Some (KeyNsh (nsh_get_flags w) (nsh_get_ttl w) mdtype np path_hdr ctx), c) in
      if mdtype =? 1 then
        if negb (length =? Z.of_nat NSH_M_TYPE1_LEN) then Some (None, c)
        else
          ctx ← mapM (fun i => rd p (nsh + 8 + 4 * i) 4) (seq 0 4);
          done ctx
      else if mdtype =? 2 then
        if length <? Z.of_nat NSH_BASE_HDR_LEN then Some (None, c) else done [0; 0; 0; 0]
      else done [0; 0; 0; 0].

(** ** IP *)

(** [Some (ip_len, tot_len)] inside is the result true. *)
Definition ipv4_sanity_check (p : list Z) (nh size : nat) : option (option (nat * nat)) :=
  if (size <? IP_HEADER_LEN)%nat then Some None
  else
    ihl_ver ← rd p nh 1;
    let ip_len := Z.to_nat (Z.land ihl_ver 15 * 4) in
    if (ip_len <? IP_HEADER_LEN)%nat || (size <? ip_len)%nat then Some None
    else
      tot_len ← rd p (nh + 2) 2;
      let tot_len := Z.to_nat tot_len in
      if (size <? tot_len)%nat || (tot_len <? ip_len)%nat || (UINT16_MAX <? Z.of_nat (size - tot_len))
      then Some None
      else Some (Some (ip_len, tot_len)).

Definition ipv4_get_nw_frag (p : list Z) (nh : nat) : option Z :=
  ip_frag_off ← rd p (nh + 6) 2;
  Some (if negb (Z.land ip_frag_off (Z.lor 0x2000 0x1fff) =? 0) then
          if negb (Z.land ip_frag_off 0x1fff =? 0) then Z.lor FLOW_NW_FRAG_ANY FLOW_NW_FRAG_LATER
          else FLOW_NW_FRAG_ANY
        else 0).

Definition ipv6_sanity_check (p : list Z) (nh size : nat) : option bool :=
  if (size <? IPV6_HEADER_LEN)%nat then Some false
  else
    plen ← rd p (nh + 4) 2;
    if Z.of_nat size <? plen + Z.of_nat IPV6_HEADER_LEN then Some false
    else if UINT16_MAX <? Z.of_nat size - (plen + Z.of_nat IPV6_HEADER_LEN) then Some false
    else Some true.

(** ** Packets and their metadata *)

(** [struct ovs_key_ct_tuple_ipv4] and [struct ovs_key_ct_tuple_ipv6] *)
Record ct_tuple := CtTuple {
  tup_src : Z; tup_dst : Z; tup_src_port : Z; tup_dst_port : Z; tup_proto : Z
}.

(** [struct pkt_metadata].  The union [ct_orig_tuple] is one tuple with
    addresses of 4 or 16 bytes, as [md_ct_orig_tuple_ipv6] says; [md_tunnel]
    is the 344 bytes of a [struct flow_tnl]. *)
Record pkt_metadata := PktMetadata {
  md_recirc_id : Z;
  md_dp_hash : Z;
  md_skb_priority : Z;
  md_pkt_mark : Z;
  md_ct_state : Z;
  md_ct_orig_tuple_ipv6 : bool;
  md_ct_zone : Z;
  md_ct_mark : Z;
  md_ct_label : Z;
  md_in_port : Z;
  md_ct_orig_tuple : ct_tuple;
  md_tunnel : list Z
}.

Definition tnl_ip_dst (tnl : list Z) : Z := get tnl 0 4.
Definition tnl_ipv6_dst (tnl : list Z) : Z := get tnl 4 16.
Definition tnl_flags (tnl : list Z) : Z := get tnl 48 2.
Definition tnl_present_map (tnl : list Z) : Z := get tnl 72 8.
Definition tnl_present_len (tnl : list Z) : Z := get tnl 72 1.

Definition flow_tnl_dst_is_set (tnl : list Z) : bool :=
  negb (tnl_ip_dst tnl =? 0) || negb (tnl_ipv6_dst tnl =? 0).

(** [struct dp_packet] *)
Record dp_packet := DpPacket {
  dp_data : list Z;
  dp_packet_type : Z;
  dp_md : pkt_metadata;
  dp_offloads : Z;
  dp_has_hash : bool;
  dp_rss_hash : Z;
  dp_l2_pad_size : Z;
  dp_l2_5_ofs : Z;
  dp_l3_ofs : Z;
  dp_l4_ofs : Z;
  dp_inner_l3_ofs : Z;
  dp_inner_l4_ofs : Z
}.

Definition set_ofs (b : dp_packet) (pad l2_5 l3 l4 : Z) : dp_packet :=
  DpPacket (dp_data b) (dp_packet_type b) (dp_md b) (dp_offloads b) (dp_has_hash b) (dp_rss_hash b)
    pad l2_5 l3 l4 (dp_inner_l3_ofs b) (dp_inner_l4_ofs b).
Definition set_offloads (b : dp_packet) (x : Z) : dp_packet :=
  DpPacket (dp_data b) (dp_packet_type b) (dp_md b) x (dp_has_hash b) (dp_rss_hash b)
    (dp_l2_pad_size b) (dp_l2_5_ofs b) (dp_l3_ofs b) (dp_l4_ofs b) (dp_inner_l3_ofs b) (dp_inner_l4_ofs b).

(** The offsets are [uint16_t]. *)
Definition set_l2_5_ofs (b : dp_packet) (o : Z) : dp_packet :=
  set_ofs b (dp_l2_pad_size b) (u16 o) (dp_l3_ofs b) (dp_l4_ofs b).
Definition set_l3_ofs (b : dp_packet) (o : Z) : dp_packet :=
  set_ofs b (dp_l2_pad_size b) (dp_l2_5_ofs b) (u16 o) (dp_l4_ofs b).
Definition set_l4_ofs (b : dp_packet) (o : Z) : dp_packet :=
  set_ofs b (dp_l2_pad_size b) (dp_l2_5_ofs b) (dp_l3_ofs b) (u16 o).

Definition dp_packet_is_eth (b : dp_packet) : bool := dp_packet_type b =? PT_ETH.

Definition dp_packet_reset_outer_offsets (b : dp_packet) : dp_packet :=
  set_ofs b 0 UINT16_MAX UINT16_MAX UINT16_MAX.

Definition dp_packet_reset_offsets (b : dp_packet) : dp_packet :=
  let b := dp_packet_reset_outer_offsets b in
  DpPacket (dp_data b) (dp_packet_type b) (dp_md b) (dp_offloads b) (dp_has_hash b) (dp_rss_hash b)
    (dp_l2_pad_size b) (dp_l2_5_ofs b) (dp_l3_ofs b) (dp_l4_ofs b) UINT16_MAX UINT16_MAX.

Definition dp_packet_set_l2_pad_size (b : dp_packet) (pad_size : Z) : option dp_packet :=
  let pad_size := u16 pad_size in
  _ ← ovs_assert (pad_size <=? Z.of_nat (length (dp_data b)));
  Some (set_ofs b pad_size (dp_l2_5_ofs b) (dp_l3_ofs b) (dp_l4_ofs b)).

Definition DP_PACKET_OL_L4_PROTO_TCP : Z := Z.shiftl 1 9.
Definition DP_PACKET_OL_L4_PROTO_UDP : Z := Z.shiftl 1 10.
Definition DP_PACKET_OL_L4_PROTO_MASK : Z := Z.lor DP_PACKET_OL_L4_PROTO_TCP DP_PACKET_OL_L4_PROTO_UDP.
Definition DP_PACKET_OL_TUNNEL_MASK : Z := Z.lor (Z.shiftl 1 11) (Z.shiftl 1 12).

Definition dp_packet_tunnel (b : dp_packet) : bool := negb (Z.land (dp_offloads b) DP_PACKET_OL_TUNNEL_MASK =? 0).

Definition dp_packet_l4_proto_set_tcp (b : dp_packet) : dp_packet :=
  set_offloads b (Z.lor (Z.ldiff (dp_offloads b) DP_PACKET_OL_L4_PROTO_UDP) DP_PACKET_OL_L4_PROTO_TCP).
Definition dp_packet_l4_proto_set_udp (b : dp_packet) : dp_packet :=
  set_offloads b (Z.lor (Z.ldiff (dp_offloads b) DP_PACKET_OL_L4_PROTO_TCP) DP_PACKET_OL_L4_PROTO_UDP).
Definition dp_packet_l4_proto_set_sctp (b : dp_packet) : dp_packet :=
  set_offloads b (Z.lor (dp_offloads b) DP_PACKET_OL_L4_PROTO_MASK).

Definition dp_packet_l4_proto_tcp (b : dp_packet) : bool :=
  Z.land (dp_offloads b) DP_PACKET_OL_L4_PROTO_MASK =? DP_PACKET_OL_L4_PROTO_TCP.
Definition dp_packet_l4_proto_udp (b : dp_packet) : bool :=
  Z.land (dp_offloads b) DP_PACKET_OL_L4_PROTO_MASK =? DP_PACKET_OL_L4_PROTO_UDP.
Definition dp_packet_l4_proto_sctp (b : dp_packet) : bool :=
  Z.land (dp_offloads b) DP_PACKET_OL_L4_PROTO_MASK =? DP_PACKET_OL_L4_PROTO_MASK.

Definition dp_packet_set_rss_hash (b : dp_packet) (hash : Z) : dp_packet :=
  DpPacket (dp_data b) (dp_packet_type b) (dp_md b) (dp_offloads b) true (u32 hash)
    (dp_l2_pad_size b) (dp_l2_5_ofs b) (dp_l3_ofs b) (dp_l4_ofs b) (dp_inner_l3_ofs b) (dp_inner_l4_ofs b).

Definition dp_packet_calc_hash_ipv4 `{Hash} (pkt : list Z) (l3_ofs : nat) (hash : Z) : option Z :=
  ip_src ← rd pkt (l3_ofs + 12) 4;
  ip_dst ← rd pkt (l3_ofs + 16) 4;
  let hash := hash_add hash ip_src in
  let hash := hash_add hash ip_dst in
  ip_proto ← rd pkt (l3_ofs + 9) 1;
  Some (hash_add hash ip_proto).

Definition dp_packet_update_rss_hash_ipv4_tcp_udp `{Hash} (b : dp_packet) : option dp_packet :=
  if dp_has_hash b then Some b
  else
    let pkt := dp_data b in
    hash ← dp_packet_calc_hash_ipv4 pkt (Z.to_nat (dp_l3_ofs b)) 0;
    ports ← rd pkt (Z.to_nat (dp_l4_ofs b)) 4;
    Some (dp_packet_set_rss_hash b (hash_finish (hash_add hash ports) 42)).

Definition dp_packet_update_rss_hash_ipv6_tcp_udp `{Hash} (b : dp_packet) : option dp_packet :=
  if dp_has_hash b then Some b
  else
    let pkt := dp_data b in
    let l3_ofs := Z.to_nat (dp_l3_ofs b) in
    ipv6_src_lo ← rd pkt (l3_ofs + 8) 8;
    ipv6_src_hi ← rd pkt (l3_ofs + 8 + 8) 8;
    ipv6_dst_lo ← rd pkt (l3_ofs + 24) 8;
    ipv6_dst_hi ← rd pkt (l3_ofs + 24 + 8) 8;
    ports ← rd pkt (Z.to_nat (dp_l4_ofs b)) 4;
    ip6_nxt ← rd pkt (l3_ofs + 6) 1;
    let hash := hash_add64 0 ipv6_src_lo in
    let hash := hash_add64 hash ipv6_src_hi in
    let hash := hash_add64 hash ipv6_dst_lo in
    let hash := hash_add64 hash ipv6_dst_hi in
    let hash := hash_add hash ip6_nxt in
    Some (dp_packet_set_rss_hash b (hash_finish (hash_add hash ports) 42)).

(** ** Lemmas on bytes *)

Lemma nth_drop_Z (l : list Z) (n k : nat) : nth k (drop n l) 0 = nth (n + k) l 0.
Proof. by rewrite !nth_lookup, lookup_drop. Qed.

Lemma be_digit (bs : list Z) (n k : nat) :
  Forall is_byte bs -> (k < n)%nat -> u8 (Z.shiftr (be bs n) (8 * (Z.of_nat n - 1 - Z.of_nat k))) = nth k bs 0.
Proof.
  intros Hb. induction n as [|n IH]; intros Hk; [lia|]. cbn [be].
  pose proof (nth_byte bs n Hb) as Hn. unfold is_byte in Hn.
  destruct (decide (k = n)) as [->|].
  - replace (8 * _) with 0 by lia. rewrite Z.shiftr_0_r. unfold wrap. change (2 ^ 8) with 256.
    rewrite Z.add_comm, Z.mod_add by lia. by apply Z.mod_small.
  - rewrite <- IH by lia. replace (8 * (Z.of_nat (S n) - 1 - Z.of_nat k)) with (8 + 8 * (Z.of_nat n - 1 - Z.of_nat k)) by lia.
    rewrite <- Z.shiftr_shiftr by lia. do 2 f_equal. rewrite Z.shiftr_div_pow2 by lia. change (2 ^ 8) with 256.
    rewrite Z.add_comm, Z.div_add by lia. rewrite Z.div_small by done. done.
Qed.
