(* ===== verification/PacketProps.v ===== *)
(** * The header parsers stay inside of the packet

    Every parser of [Packet], on a cursor inside of the packet, returns: its
    loops end within the fuel, all of its reads are in bounds, and the new
    cursor is further on in the same packet.  The IPv6 extension headers and
    the MPLS label stack are also described by rules of their own. *)

From S2P Require Import Prelude Util Flowmap Hash Miniflow MetaFlow Trie FlowBits FlowFields MetaFields Packet.
From stdpp Require Import prelude list.
From Stdlib Require Import ZArith Lia.
Open Scope Z_scope.
Open Scope ovs_scope.

(** ** Reads *)

Lemma rd_some (p : list Z) (o n : nat) : (o + n <= length p)%nat -> rd p o n = Some (get p o n).
Proof. intros H. unfold rd. by destruct (Nat.leb_spec (o + n) (length p)); [|lia]. Qed.

Lemma rd_bytes_some (p : list Z) (o n : nat) : (o + n <= length p)%nat -> rd_bytes p o n = Some (bytes_at p o n).
Proof. intros H. unfold rd_bytes. by destruct (Nat.leb_spec (o + n) (length p)); [|lia]. Qed.

Lemma length_bytes_at (p : list Z) (o n : nat) : (o + n <= length p)%nat -> length (bytes_at p o n) = n.
Proof. intros H. unfold bytes_at. rewrite length_take, length_drop. lia. Qed.

Lemma bytes_at_byte (p : list Z) (o n : nat) : Forall is_byte p -> Forall is_byte (bytes_at p o n).
Proof. intros H. by apply Forall_take, Forall_drop. Qed.

Lemma get_width (p : list Z) (o n : nat) : Forall is_byte p -> in_width (8 * Z.of_nat n) (get p o n).
Proof. intros H. by apply be_width, Forall_drop. Qed.

Lemma get_nonneg (p : list Z) (o n : nat) : Forall is_byte p -> 0 <= get p o n.
Proof. intros H. apply (get_width p o n H). Qed.

(** ** Cursors *)

Definition cursor_ok (p : list Z) (c : cursor) : Prop := (c_data c + c_size c <= length p)%nat.

(** [c'] is further on than [c], with the same end. *)
Definition cursor_adv (c c' : cursor) : Prop :=
  (c_data c <= c_data c' /\ c_data c' + c_size c' = c_data c + c_size c)%nat.

Lemma cursor_adv_refl (c : cursor) : cursor_adv c c.
Proof. unfold cursor_adv. lia. Qed.

Lemma cursor_adv_trans (a b c : cursor) : cursor_adv a b -> cursor_adv b c -> cursor_adv a c.
Proof. unfold cursor_adv. lia. Qed.

Lemma cursor_adv_ok (p : list Z) (c c' : cursor) : cursor_ok p c -> cursor_adv c c' -> cursor_ok p c'.
Proof. unfold cursor_ok, cursor_adv. lia. Qed.

Lemma data_pull_some (c : cursor) (n : nat) :
  (n <= c_size c)%nat -> data_pull c n = Some (c_data c, Cursor (c_data c + n) (c_size c - n)).
Proof. intros H. unfold data_pull. by destruct (Nat.leb_spec n (c_size c)); [|lia]. Qed.

Lemma data_try_pull_eq (c : cursor) (n : nat) :
  data_try_pull c n =
  if (n <=? c_size c)%nat then Some (c_data c, Cursor (c_data c + n) (c_size c - n)) else None.
Proof. unfold data_try_pull. destruct (Nat.leb_spec n (c_size c)); [by apply data_pull_some|done]. Qed.

Ltac in_packet :=
  repeat match goal with c := Cursor _ _ |- _ => subst c end;
  unfold cursor_ok, cursor_adv in *; cbn [c_data c_size es_c fst snd] in *; lia.

(** The reads that are in bounds. *)
Ltac rds :=
  repeat match goal with
  | |- context [mbind _ (rd ?p ?o ?n)] => rewrite (rd_some p o n) by in_packet; cbn [mbind option_bind]
  end.

(** ** Link layer *)

Lemma parse_mpls_loop_ok (p : list Z) (fuel count : nat) (c : cursor) :
  cursor_ok p c -> (c_size c < fuel)%nat ->
  exists n c', parse_mpls_loop fuel p c count = Some ((count + n)%nat, c') /\ cursor_adv c c' /\
    (c_data c' = c_data c + 4 * n)%nat /\ ((4 <= c_size c)%nat -> (0 < n)%nat).
Proof.
  revert count c. induction fuel as [|fuel IH]; intros count c Hc Hf; [lia|]. cbn [parse_mpls_loop].
  rewrite data_try_pull_eq. destruct (Nat.leb_spec 4 (c_size c)).
  2: { exists 0%nat, c. rewrite Nat.add_0_r. split_and!; [done|apply cursor_adv_refl|lia|lia]. }
  rds. set (c1 := Cursor _ _). assert (cursor_adv c c1) as Ha by (unfold cursor_adv; cbn; lia).
  destruct (negb _).
  - exists 1%nat, c1. split_and!; [by rewrite Nat.add_1_r|done|done|lia].
  - destruct (IH (S count) c1) as (n & c' & -> & Ha' & Hd & _); [by apply (cursor_adv_ok p c)|cbn; lia|].
    exists (S n), c'. split_and!; [do 2 f_equal; lia|by apply (cursor_adv_trans c c1)|cbn in Hd; lia|lia].
Qed.

Lemma parse_mpls_ok (p : list Z) (c : cursor) :
  cursor_ok p c ->
  exists n c', parse_mpls p c = Some (n, c') /\ cursor_adv c c' /\ (n <= 3)%nat /\
    (c_data c + 4 * n <= c_data c')%nat /\ ((4 <= c_size c)%nat -> (0 < n)%nat).
Proof.
  intros Hc. unfold parse_mpls.
  destruct (parse_mpls_loop_ok p (S (c_size c)) 0 c) as (n & c' & -> & Ha & Hd & Hp); [done|lia|].
  cbn [mbind option_bind Nat.add]. eexists _, c'. split; [done|]. unfold FLOW_MAX_MPLS_LABELS. split_and!; [done| | |]; lia.
Qed.

Lemma parse_vlan_loop_ok (p : list Z) (n : nat) (c : cursor) :
  cursor_ok p c -> (2 <= c_size c)%nat ->
  exists hdrs c', parse_vlan_loop n p c = Some (hdrs, c') /\ cursor_adv c c' /\ (length hdrs <= n)%nat /\
    (2 <= c_size c')%nat /\ (c_data c' = c_data c + 4 * length hdrs)%nat.
Proof.
  revert c. induction n as [|n IH]; intros c Hc Hs; cbn [parse_vlan_loop]; rds.
  - exists [], c. split_and!; [done|apply cursor_adv_refl|done|done|cbn; lia].
  - assert (exists hdrs c', Some (@nil Z, c) = Some (hdrs, c') /\ cursor_adv c c' /\
      (length hdrs <= S n)%nat /\ (2 <= c_size c')%nat /\ (c_data c' = c_data c + 4 * length hdrs)%nat) as Hnil.
    { exists [], c. split_and!; [done|apply cursor_adv_refl|cbn; lia|done|cbn; lia]. }
    destruct (eth_type_vlan _); [|done]. destruct (Nat.ltb_spec (c_size c) 6); [done|].
    rewrite data_pull_some by lia. cbn [mbind option_bind]. rds. set (c1 := Cursor _ _).
    assert (cursor_adv c c1) as Ha by (unfold cursor_adv; cbn; lia).
    destruct (IH c1) as (hdrs & c' & -> & Ha' & Hl & Hs' & Hd); [by apply (cursor_adv_ok p c)|cbn; lia|].
    eexists _, c'. split; [done|]. cbn [length]. cbn in Hd.
    split_and!; [by apply (cursor_adv_trans c c1)|lia|done|lia].
Qed.

Lemma parse_vlan_ok (p : list Z) (limit : Z) (c : cursor) :
  cursor_ok p c -> (14 <= c_size c)%nat ->
  exists hdrs c', parse_vlan limit p c = Some (hdrs, c') /\ cursor_adv c c' /\ (length hdrs <= Z.to_nat limit)%nat /\
    (2 <= c_size c')%nat /\ (c_data c' = c_data c + 12 + 4 * length hdrs)%nat.
Proof.
  intros Hc Hs. unfold parse_vlan, ETH_ADDR_LEN. rewrite data_pull_some by lia. cbn [mbind option_bind].
  set (c1 := Cursor _ _). assert (cursor_adv c c1) as Ha by (unfold cursor_adv; cbn; lia).
  destruct (parse_vlan_loop_ok p (Z.to_nat limit) c1) as (hdrs & c' & -> & Ha' & Hl & Hs' & Hd);
    [by apply (cursor_adv_ok p c)|cbn; lia|].
  exists hdrs, c'. split_and!; [done|by apply (cursor_adv_trans c c1)|done|done|done].
Qed.

Lemma parse_ethertype_ok (p : list Z) (c : cursor) :
  cursor_ok p c -> (2 <= c_size c)%nat ->
  exists t c', parse_ethertype p c = Some (t, c') /\ cursor_adv c c' /\ (c_data c' <= c_data c + 10)%nat.
Proof.
  intros Hc Hs. unfold parse_ethertype, LLC_SNAP_HEADER_LEN. rewrite data_pull_some by lia. cbn [mbind option_bind].
  rds. set (c1 := Cursor _ _). assert (cursor_adv c c1) as Ha by (unfold cursor_adv; cbn; lia).
  assert (forall t : Z, exists t' c', Some (t, c1) = Some (t', c') /\ cursor_adv c c' /\ (c_data c' <= c_data c + 10)%nat) as Hret.
  { intros t. exists t, c1. split_and!; [done|done|cbn; lia]. }
  destruct (ETH_TYPE_MIN <=? _); [apply Hret|]. destruct (Nat.ltb_spec (c_size c1) 8) as [|H8]; [apply Hret|].
  cbn in H8. rds. destruct (_ || _); [apply Hret|]. rewrite data_pull_some by (cbn; lia). cbn [mbind option_bind]. rds.
  destruct (ETH_TYPE_MIN <=? _); eexists _, _; (split; [done|]); unfold cursor_adv; cbn; lia.
Qed.

(** ** Neighbor discovery *)

Definition target_ok (p : list Z) (i : nd_info) : Prop :=
  match nd_target_p i with Some o => (o + 16 <= length p)%nat | None => True end.

Lemma icmp6_is_nd_ok (p : list Z) (o : nat) :
  (o + 2 <= length p)%nat ->
  icmp6_is_nd p o = Some ((get p (o + 1) 1 =? 0)
    && ((get p o 1 =? ND_NEIGHBOR_SOLICIT) || (get p o 1 =? ND_NEIGHBOR_ADVERT))).
Proof. intros Ho. unfold icmp6_is_nd. rds. destruct (_ =? 0); cbn [negb andb]; [by rds|done]. Qed.

Lemma nd_opts_loop_ok (p : list Z) (fuel : nat) (c : cursor) (i : nd_info) :
  Forall is_byte p -> cursor_ok p c -> (c_size c < fuel)%nat -> target_ok p i ->
  exists i' c', nd_opts_loop fuel p c i = Some (i', c') /\ cursor_adv c c' /\ target_ok p i'.
Proof.
  intros Hp. revert c i. induction fuel as [|fuel IH]; intros c i Hc Hf Ht; [lia|]. cbn [nd_opts_loop].
  assert (forall i, target_ok p i -> exists i' c', Some (i, c) = Some (i', c') /\ cursor_adv c c' /\ target_ok p i') as Hret.
  { intros i1 Hi. exists i1, c. split_and!; [done|apply cursor_adv_refl|done]. }
  destruct (Nat.ltb_spec (c_size c) 8); [by apply Hret|]. rds.
  pose proof (get_nonneg p (c_data c + 1) 1 Hp). set (opt_len := _ * ND_LLA_OPT_LEN).
  destruct (Z.eqb_spec opt_len 0); [by apply Hret|]. destruct (Z.ltb_spec (Z.of_nat (c_size c)) opt_len); [by apply Hret|].
  cbn [orb]. rds. assert (0 < opt_len) by (unfold opt_len, ND_LLA_OPT_LEN in *; lia).
  assert (forall i, target_ok p i -> exists i' c',
    match data_try_pull c (Z.to_nat opt_len) with None => Some (i, c) | Some (_, c) => nd_opts_loop fuel p c i end
    = Some (i', c') /\ cursor_adv c c' /\ target_ok p i') as Hnext.
  { intros i1 Hi. rewrite data_try_pull_eq. destruct (Nat.leb_spec (Z.to_nat opt_len) (c_size c)); [|by apply Hret].
    set (c1 := Cursor _ _). assert (cursor_adv c c1) as Ha by in_packet.
    destruct (IH c1 i1) as (i' & c' & E & Ha' & Hi'); [by apply (cursor_adv_ok p c)|in_packet|done|].
    exists i', c'. split_and!; [done|by apply (cursor_adv_trans c c1)|done]. }
  repeat (case_match; rds); by first [apply Hnext|apply Hret].
Qed.

Lemma parse_icmpv6_ok (p : list Z) (c : cursor) (icmp6 : nat) :
  Forall is_byte p -> cursor_ok p c -> (icmp6 + 8 <= length p)%nat ->
  exists r c', parse_icmpv6 p c icmp6 = Some (r, c') /\ cursor_adv c c' /\
    match r with Some i => target_ok p i | None => True end.
Proof.
  intros Hp Hc Ho. unfold parse_icmpv6. rewrite icmp6_is_nd_ok by lia. cbn [mbind option_bind].
  destruct (negb _); [exists None, c; split_and!; [done|apply cursor_adv_refl|done]|]. rds.
  rewrite data_try_pull_eq. destruct (Nat.leb_spec 16 (c_size c)).
  - set (c1 := Cursor _ _). assert (cursor_adv c c1) as Ha by in_packet.
    destruct (nd_opts_loop_ok p (S (c_size c1)) c1 (NdInfo (get p (icmp6 + 4) 4) (Some (c_data c)) 0 0 0))
      as (i & c' & -> & Ha' & Hi); [done|by apply (cursor_adv_ok p c)|lia|unfold target_ok; cbn; in_packet|].
    exists (Some i), c'. split_and!; [done|by apply (cursor_adv_trans c c1)|done].
  - eexists _, c. split_and!; [done|apply cursor_adv_refl|done].
Qed.

(** ** IPv6 extension headers *)

(** The length of an extension header. *)
Definition ext_len (p : list Z) (nw_proto : Z) (o : nat) : nat :=
  if nw_proto =? IPPROTO_FRAGMENT then 8
  else if nw_proto =? IPPROTO_AH then Z.to_nat ((get p (o + 1) 1 + 2) * 4)
  else Z.to_nat ((get p (o + 1) 1 + 1) * 8).

(** A fragment that is not the first one. *)
Definition ext_later (p : list Z) (nw_proto : Z) (o : nat) : bool :=
  (nw_proto =? IPPROTO_FRAGMENT) && negb (Z.land (get p (o + 2) 2) 0xfff8 =? 0).

Definition ext_frag (p : list Z) (nw_proto : Z) (o : nat) (nw_frag : Z) : Z :=
  if (nw_proto =? IPPROTO_FRAGMENT) && negb (get p (o + 2) 2 =? 0) then FLOW_NW_FRAG_ANY else nw_frag.

(** The chain of headers from a cursor, a protocol and a fragment flag: its
    end, or [None] when a header is cut off. *)
Inductive ext_chain (p : list Z) : cursor -> Z -> Z -> option (cursor * Z * Z) -> Prop :=
| chain_end c proto frag :
    is_ext_hdr proto = false -> ext_chain p c proto frag (Some (c, proto, frag))
| chain_cut c proto frag :
    is_ext_hdr proto = true -> (c_size c < 8 \/ c_size c < ext_len p proto (c_data c))%nat ->
    ext_chain p c proto frag None
| chain_later c proto frag :
    is_ext_hdr proto = true -> (8 <= c_size c)%nat -> ext_later p proto (c_data c) = true ->
    ext_chain p c proto frag
      (Some (Cursor (c_data c + 8) (c_size c - 8), IPPROTO_FRAGMENT, Z.lor FLOW_NW_FRAG_ANY FLOW_NW_FRAG_LATER))
| chain_next c proto frag r :
    is_ext_hdr proto = true -> (8 <= c_size c)%nat -> (ext_len p proto (c_data c) <= c_size c)%nat ->
    ext_later p proto (c_data c) = false ->
    ext_chain p (Cursor (c_data c + ext_len p proto (c_data c)) (c_size c - ext_len p proto (c_data c)))
      (get p (c_data c) 1) (ext_frag p proto (c_data c) frag) r ->
    ext_chain p c proto frag r.

Definition ext_result (r : bool * ext_state) : option (cursor * Z * Z) :=
  if fst r then Some (es_c (snd r), es_nw_proto (snd r), es_nw_frag (snd r)) else None.

(** One round of the loop. *)
Lemma ext_hdrs_loop_step (p : list Z) (fuel : nat) (s : ext_state) :
  cursor_ok p (es_c s) -> is_ext_hdr (es_nw_proto s) = true -> (8 <= c_size (es_c s))%nat ->
  let o := c_data (es_c s) in
  let len := ext_len p (es_nw_proto s) o in
  (c_size (es_c s) < len)%nat /\ (exists s', ext_hdrs_loop (S fuel) p s = Some (false, s') /\ es_c s' = es_c s) \/
  (len <= c_size (es_c s))%nat /\ ext_later p (es_nw_proto s) o = true /\
    (exists fh rh, ext_hdrs_loop (S fuel) p s =
      Some (true, ExtState (Cursor (o + 8) (c_size (es_c s) - 8)) IPPROTO_FRAGMENT
                    (Z.lor FLOW_NW_FRAG_ANY FLOW_NW_FRAG_LATER) fh rh)) \/
  (len <= c_size (es_c s))%nat /\ ext_later p (es_nw_proto s) o = false /\
    (exists fh rh, ext_hdrs_loop (S fuel) p s =
      ext_hdrs_loop fuel p (ExtState (Cursor (o + len) (c_size (es_c s) - len)) (get p o 1)
                              (ext_frag p (es_nw_proto s) o (es_nw_frag s)) fh rh)).
Proof.
  intros Hc He H8 o len. cbn [ext_hdrs_loop]. rewrite He. cbn [negb].
  destruct (Nat.ltb_spec (c_size (es_c s)) 8); [lia|]. rds. fold o. unfold ext_pull, ext_later, ext_frag.
  assert (forall n, data_try_pull (es_c s) n =
    if (n <=? c_size (es_c s))%nat then Some (o, Cursor (o + n) (c_size (es_c s) - n)) else None) as Hpull
    by (intros n; apply data_try_pull_eq).
  subst len. unfold is_ext_hdr in He. rewrite !orb_true_iff, !Z.eqb_eq in He.
  destruct He as [[[[E|E]|E]|E]|E]; unfold ext_len; rewrite !E.
  1-4: cbn [Z.eqb Pos.eqb orb andb es_c IPPROTO_HOPOPTS IPPROTO_DSTOPTS IPPROTO_ROUTING IPPROTO_AH IPPROTO_FRAGMENT];
    rds; rewrite Hpull;
    match goal with |- context [if (?a <=? ?b)%nat then Some _ else None] => destruct (Nat.leb_spec a b) end;
    cbn [fst snd es_nw_frag es_frag_hdr es_rt_hdr]; [right; right; eauto|left; eauto].
  cbn [Z.eqb Pos.eqb orb andb es_c IPPROTO_HOPOPTS IPPROTO_DSTOPTS IPPROTO_ROUTING IPPROTO_AH IPPROTO_FRAGMENT].
  rewrite Hpull. destruct (Nat.leb_spec 8 (c_size (es_c s))); [|lia]. cbn [fst snd negb es_c es_nw_proto es_frag_hdr es_rt_hdr].
  rds. destruct (Z.eqb_spec (get p (o + 2) 2) 0) as [E0|E0]; cbn [negb].
  - rewrite E0. right. right. eauto.
  - right. destruct (Z.land _ _ =? 0); cbn [negb]; [right|left]; eauto.
Qed.

Lemma ext_hdrs_loop_chain (p : list Z) (fuel : nat) (s : ext_state) :
  Forall is_byte p -> cursor_ok p (es_c s) -> (c_size (es_c s) < fuel)%nat ->
  exists r, ext_hdrs_loop fuel p s = Some r /\ cursor_adv (es_c s) (es_c (snd r)) /\
    ext_chain p (es_c s) (es_nw_proto s) (es_nw_frag s) (ext_result r).
Proof.
  intros Hp. revert s. induction fuel as [|fuel IH]; intros s Hc Hf; [lia|].
  destruct (is_ext_hdr (es_nw_proto s)) eqn:He.
  2: { exists (true, s). cbn [ext_hdrs_loop]. rewrite He.
       split_and!; [done|apply cursor_adv_refl|by apply chain_end]. }
  destruct (decide (8 <= c_size (es_c s))%nat) as [H8|H8].
  2: { exists (false, s). cbn [ext_hdrs_loop]. rewrite He. cbn [negb]. destruct (Nat.ltb_spec (c_size (es_c s)) 8); [|lia].
       split_and!; [done|apply cursor_adv_refl|apply chain_cut; [done|lia]]. }
  pose proof (ext_hdrs_loop_step p fuel s Hc He H8) as Hstep. cbn zeta in Hstep.
  destruct Hstep as [(Hl & s' & E & Es)|[(Hl & Hlt & fh & rh & E)|(Hl & Hlt & fh & rh & E)]]; rewrite E.
  - exists (false, s'). split_and!; [done|cbn [snd]; rewrite Es; apply cursor_adv_refl|apply chain_cut; [done|lia]].
  - eexists. split; [done|]. split; [in_packet|]. by apply chain_later.
  - set (s1 := ExtState _ _ _ _ _). assert (cursor_adv (es_c s) (es_c s1)) as Ha by (subst s1; in_packet).
    assert (0 < ext_len p (es_nw_proto s) (c_data (es_c s)))%nat.
    { unfold ext_len. pose proof (get_nonneg p (c_data (es_c s) + 1) 1 Hp). repeat case_match; lia. }
    destruct (IH s1) as (r & Er & Har & Hr); [by apply (cursor_adv_ok p (es_c s))|subst s1; in_packet|].
    exists r. split_and!; [done|by apply (cursor_adv_trans _ (es_c s1))|by apply chain_next].
Qed.

Lemma ext_chain_det (p : list Z) (c : cursor) (proto frag : Z) (r r' : option (cursor * Z * Z)) :
  ext_chain p c proto frag r -> ext_chain p c proto frag r' -> r = r'.
Proof.
  intros Hr. revert r'. induction Hr as [c proto frag E|c proto frag E H|c proto frag E H8 Hl|c proto frag r E H8 Hle Hl Hr IH];
    intros r' Hr'; inversion Hr' as [? ? ? E'|? ? ? E' H'|? ? ? E' H8' Hl'|? ? ? ? E' H8' Hle' Hl' Hn]; subst; try congruence;
    try (unfold ext_later, ext_len in *; destruct (_ =? IPPROTO_FRAGMENT); cbn [andb] in *; (done || lia)).
  by apply IH.
Qed.

(** The parser follows the chain of headers to its end. *)
Lemma parse_ipv6_ext_hdrs_chain (p : list Z) (c : cursor) (nw_proto nw_frag : Z) :
  Forall is_byte p -> cursor_ok p c ->
  exists r, parse_ipv6_ext_hdrs p c nw_proto nw_frag = Some r /\ cursor_adv c (es_c (snd r)) /\
    ext_chain p c nw_proto nw_frag (ext_result r).
Proof. intros Hp Hc. apply (ext_hdrs_loop_chain p (S (c_size c)) (ExtState c nw_proto nw_frag None None)); [done|done|cbn; lia]. Qed.

(** ** NSH *)

Lemma nsh_hdr_len_nonneg (w : Z) : 0 <= nsh_hdr_len w.
Proof. unfold nsh_hdr_len. apply Z.shiftl_nonneg, Z.land_nonneg. by right. Qed.

Lemma parse_nsh_ok (p : list Z) (c : cursor) :
  cursor_ok p c -> exists r c', parse_nsh p c = Some (r, c') /\ cursor_adv c c' /\
    match r with Some k => length (nk_context k) = 4%nat | None => True end.
Proof.
  intros Hc. unfold parse_nsh, NSH_BASE_HDR_LEN.
  assert (exists r c', Some (@None ovs_key_nsh, c) = Some (r, c') /\ cursor_adv c c' /\
    match r with Some k => length (nk_context k) = 4%nat | None => True end) as Hret
    by (exists None, c; split_and!; [done|apply cursor_adv_refl|done]).
  destruct (Nat.ltb_spec (c_size c) 8); [done|]. rds. pose proof (nsh_hdr_len_nonneg (get p (c_data c) 2)).
  destruct (Z.ltb_spec (Z.of_nat (c_size c)) (nsh_hdr_len (get p (c_data c) 2))); [done|]. cbn [orb].
  destruct (negb _); [done|]. rds.
  assert (forall ctx, length ctx = 4%nat -> exists r c',
    ('(_, c1) ← data_pull c (Z.to_nat (nsh_hdr_len (get p (c_data c) 2)));
     Some (Some (KeyNsh (nsh_get_flags (get p (c_data c) 2)) (nsh_get_ttl (get p (c_data c) 2)) (get p (c_data c + 2) 1)
                   (get p (c_data c + 3) 1) (get p (c_data c + 4) 4) ctx), c1)) = Some (r, c') /\ cursor_adv c c' /\
    match r with Some k => length (nk_context k) = 4%nat | None => True end) as Hdone.
  { intros ctx Hctx. rewrite data_pull_some by lia. eexists _, _. split; [done|]. split; [in_packet|done]. }
  destruct (_ =? 1).
  - destruct (Z.eqb_spec (nsh_hdr_len (get p (c_data c) 2)) (Z.of_nat NSH_M_TYPE1_LEN)) as [El|]; cbn [negb]; [|done].
    unfold NSH_M_TYPE1_LEN in El. cbn [seq mapM]. rds. cbn [mret option_ret mbind option_bind]. by apply Hdone.
  - destruct (_ =? 2); [|by apply Hdone]. destruct (_ <? _); [done|by apply Hdone].
Qed.

(** ** IP *)

Lemma ipv4_sanity_check_ok (p : list Z) (nh size : nat) :
  (nh + size <= length p)%nat ->
  exists r, ipv4_sanity_check p nh size = Some r /\
    match r with
    | Some (ip_len, tot_len) =>
      (20 <= ip_len <= 60 /\ ip_len <= tot_len /\ tot_len <= size)%nat /\ Z.of_nat (size - tot_len) <= UINT16_MAX
    | None => True
    end.
Proof.
  intros Hs. unfold ipv4_sanity_check, IP_HEADER_LEN. destruct (Nat.ltb_spec size 20); [by eexists|].
  rds. set (ip_len := Z.to_nat _). destruct (Nat.ltb_spec ip_len 20); [by eexists|].
  destruct (Nat.ltb_spec size ip_len); [by eexists|]. cbn [orb]. rds. set (tot_len := Z.to_nat _).
  destruct (Nat.ltb_spec size tot_len); [by eexists|]. destruct (Nat.ltb_spec tot_len ip_len); [by eexists|].
  destruct (Z.ltb_spec UINT16_MAX (Z.of_nat (size - tot_len))); [by eexists|]. cbn [orb].
  eexists. split; [done|]. assert (ip_len <= 60)%nat by (subst ip_len;
    change 15 with (Z.ones 4); rewrite Z.land_ones by lia; pose proof (Z.mod_pos_bound (get p nh 1) (2 ^ 4)); lia).
  clearbody ip_len tot_len. split; [lia|done].
Qed.

Lemma ipv4_get_nw_frag_ok (p : list Z) (nh : nat) :
  (nh + 8 <= length p)%nat -> exists frag, ipv4_get_nw_frag p nh = Some frag.
Proof. intros H. unfold ipv4_get_nw_frag. rds. by eexists. Qed.

Lemma ipv6_sanity_check_ok (p : list Z) (nh size : nat) :
  (nh + size <= length p)%nat ->
  exists r, ipv6_sanity_check p nh size = Some r /\
    (r = true -> (40 <= size)%nat /\ get p (nh + 4) 2 + 40 <= Z.of_nat size /\
      Z.of_nat size - (get p (nh + 4) 2 + 40) <= UINT16_MAX).
Proof.
  intros Hs. unfold ipv6_sanity_check, IPV6_HEADER_LEN. destruct (Nat.ltb_spec size 40); [by eexists|]. rds.
  destruct (Z.ltb_spec (Z.of_nat size) (get p (nh + 4) 2 + Z.of_nat 40)); [by eexists|].
  destruct (Z.ltb_spec UINT16_MAX (Z.of_nat size - (get p (nh + 4) 2 + Z.of_nat 40))); eexists; (split; [done|]);
    [done|]. intros _. lia.
Qed.
