(* ===== verification/MfCtx.v ===== *)
(** * Pushing fields to a miniflow (lib/flow.c, the [miniflow_push_*] macros)

    [miniflow_extract] fills a miniflow from left to right: a field that
    starts a 64-bit word sets the bit of the word in the map, a field that
    ends one moves on to the next word of the buffer.  The context is the
    map, the bytes of the buffer (with whatever was in it before) and the
    word that is written next.

    Every store outside of the buffer is [None].  The [MINIFLOW_ASSERT]s are
    compiled only where [FLOW_WC_SEQ] differs from 42; [asserts] says whether
    they are, and then a failed one is [None], too.

    [mf_sim] relates a context to the [struct flow] that its words and map
    stand for; one lemma, [mf_sim_push], carries all of the macros. *)

From S2P Require Import Prelude Util Flowmap Hash Miniflow MetaFlow Trie FlowBits FlowFields MetaFields Packet.
From stdpp Require Import prelude list.
From Stdlib Require Import ZArith Lia.
Open Scope Z_scope.
Open Scope ovs_scope.

(** ** The context *)

(** [mc_data] counts the words before [MF.data]; [MF.end] is the word
    [FLOW_U64S] of the buffer. *)
Record mf_ctx := MfCtx { mc_map : flowmap; mc_buf : list Z; mc_data : nat }.

Definition with_map (mf : mf_ctx) (m : flowmap) : mf_ctx := MfCtx m (mc_buf mf) (mc_data mf).
Definition advance (mf : mf_ctx) (n : nat) : mf_ctx := MfCtx (mc_map mf) (mc_buf mf) (mc_data mf + n).

(** A store of bytes at the address [a] of the buffer. *)
Definition store (mf : mf_ctx) (a : nat) (bs : list Z) : option mf_ctx :=
  if (a + length bs <=? length (mc_buf mf))%nat
  then Some (MfCtx (mc_map mf) (take a (mc_buf mf) ++ bs ++ drop (a + length bs) (mc_buf mf)) (mc_data mf))
  else None.

(** A load of a byte. *)
Definition load (mf : mf_ctx) (a : nat) : option Z := mc_buf mf !! a.

Definition DIV_ROUND_UP (x y : nat) : nat := ((x + (y - 1)) / y)%nat.

Section Push.
Variable asserts : bool.

Definition MINIFLOW_ASSERT (x : bool) : option unit := ovs_assert (negb asserts || x).

Definition flowmap_not_set (fm : flowmap) (idx : nat) : bool :=
  (Z.land (nth (idx / MAP_T_BITS) fm 0) (u64 (Z.shiftl UINT64_MAX (Z.of_nat (idx mod MAP_T_BITS)))) =? 0)
  && forallb (fun x => x =? 0) (drop (idx / MAP_T_BITS + 1) fm).

Definition ASSERT_FLOWMAP_NOT_SET (fm : flowmap) (idx : nat) : option unit :=
  MINIFLOW_ASSERT (flowmap_not_set fm idx).

Definition miniflow_set_map (mf : mf_ctx) (idx : nat) : option mf_ctx :=
  _ ← ASSERT_FLOWMAP_NOT_SET (mc_map mf) idx;
  Some (with_map mf (flowmap_set (mc_map mf) idx 1)).

Definition miniflow_assert_in_map (mf : mf_ctx) (idx : nat) : option unit :=
  _ ← MINIFLOW_ASSERT (flowmap_is_set (mc_map mf) idx);
  ASSERT_FLOWMAP_NOT_SET (mc_map mf) (idx + 1).

Definition assert_space (mf : mf_ctx) : option unit := MINIFLOW_ASSERT (mc_data mf <? FLOW_U64S)%nat.

(** The store of a value of [n] bytes at byte [o] of the word [MF.data]. *)
Definition store_in_word (mf : mf_ctx) (o n : nat) (value : Z) : option mf_ctx :=
  store mf (8 * mc_data mf + o) (be_bytes n value).

Definition miniflow_push_uint32_ (mf : mf_ctx) (ofs : nat) (value : Z) : option mf_ctx :=
  _ ← assert_space mf;
  if (ofs mod 8 =? 0)%nat then
    mf ← miniflow_set_map mf (ofs / 8);
    store_in_word mf 0 4 value
  else if (ofs mod 8 =? 4)%nat then
    _ ← miniflow_assert_in_map mf (ofs / 8);
    mf ← store_in_word mf 4 4 value;
    Some (advance mf 1)
  else Some mf.

Definition miniflow_push_uint16_ (mf : mf_ctx) (ofs : nat) (value : Z) : option mf_ctx :=
  _ ← assert_space mf;
  if (ofs mod 8 =? 0)%nat then
    mf ← miniflow_set_map mf (ofs / 8);
    store_in_word mf 0 2 value
  else if (ofs mod 8 =? 2)%nat then
    _ ← miniflow_assert_in_map mf (ofs / 8);
    store_in_word mf 2 2 value
  else if (ofs mod 8 =? 4)%nat then
    _ ← miniflow_assert_in_map mf (ofs / 8);
    store_in_word mf 4 2 value
  else if (ofs mod 8 =? 6)%nat then
    _ ← miniflow_assert_in_map mf (ofs / 8);
    mf ← store_in_word mf 6 2 value;
    Some (advance mf 1)
  else Some mf.

Definition miniflow_push_uint8_ (mf : mf_ctx) (ofs : nat) (value : Z) : option mf_ctx :=
  _ ← assert_space mf;
  if (ofs mod 8 =? 0)%nat then
    mf ← miniflow_set_map mf (ofs / 8);
    store_in_word mf 0 1 value
  else if (ofs mod 8 =? 7)%nat then
    _ ← miniflow_assert_in_map mf (ofs / 8);
    mf ← store_in_word mf 7 1 value;
    Some (advance mf 1)
  else
    _ ← miniflow_assert_in_map mf (ofs / 8);
    store_in_word mf (ofs mod 8) 1 value.

Definition miniflow_pad_to_64_ (mf : mf_ctx) (ofs : nat) : option mf_ctx :=
  _ ← MINIFLOW_ASSERT (negb (ofs mod 8 =? 0)%nat);
  _ ← miniflow_assert_in_map mf (ofs / 8);
  mf ← store mf (8 * mc_data mf + ofs mod 8) (replicate (8 - ofs mod 8) 0);
  Some (advance mf 1).

Definition miniflow_pad_from_64_ (mf : mf_ctx) (ofs : nat) : option mf_ctx :=
  _ ← assert_space mf;
  _ ← MINIFLOW_ASSERT (negb (ofs mod 8 =? 0)%nat);
  mf ← miniflow_set_map mf (ofs / 8);
  store mf (8 * mc_data mf) (replicate (ofs mod 8) 0).

Definition miniflow_set_maps (mf : mf_ctx) (ofs n_words : nat) : option mf_ctx :=
  _ ← MINIFLOW_ASSERT (negb (n_words =? 0)%nat && (mc_data mf + n_words <=? FLOW_U64S)%nat);
  _ ← ASSERT_FLOWMAP_NOT_SET (mc_map mf) ofs;
  Some (with_map mf (flowmap_set (mc_map mf) ofs n_words)).

(** [valuep] is the bytes that are copied, [n_words] times eight of them. *)
Definition miniflow_push_words_ (mf : mf_ctx) (ofs : nat) (valuep : list Z) (n_words : nat) : option mf_ctx :=
  _ ← MINIFLOW_ASSERT (ofs mod 8 =? 0)%nat;
  mf ← miniflow_set_maps mf (ofs / 8) n_words;
  mf ← store mf (8 * mc_data mf) valuep;
  Some (advance mf n_words).

(** [valuep] is [n_words] times four bytes; the second half of the last word
    is zeroed when the number is odd. *)
Definition miniflow_push_words_32_ (mf : mf_ctx) (ofs : nat) (valuep : list Z) (n_words : nat) : option mf_ctx :=
  mf ← miniflow_set_maps mf (ofs / 8) (DIV_ROUND_UP n_words 2);
  mf ← store mf (8 * mc_data mf) valuep;
  let mf := advance mf (DIV_ROUND_UP n_words 2) in
  if Nat.odd n_words then store mf (8 * mc_data mf - 4) (be_bytes 4 0) else Some mf.

(** The first word is done, the second one has four bytes to go. *)
Definition miniflow_push_macs_ (mf : mf_ctx) (ofs : nat) (valuep : list Z) : option mf_ctx :=
  mf ← miniflow_set_maps mf (ofs / 8) 2;
  mf ← store mf (8 * mc_data mf) valuep;
  Some (advance mf 1).

(** The macros on members of [struct flow]. *)
Definition miniflow_push_uint32 (mf : mf_ctx) (mb : member) := miniflow_push_uint32_ mf (mb_ofs mb).
Definition miniflow_push_uint16 (mf : mf_ctx) (mb : member) := miniflow_push_uint16_ mf (mb_ofs mb).
Definition miniflow_push_uint8 (mf : mf_ctx) (mb : member) := miniflow_push_uint8_ mf (mb_ofs mb).
Definition miniflow_pad_to_64 (mf : mf_ctx) (mb : member) := miniflow_pad_to_64_ mf (mb_ofs mb + mb_size mb).
Definition miniflow_pad_from_64 (mf : mf_ctx) (mb : member) := miniflow_pad_from_64_ mf (mb_ofs mb).
Definition miniflow_push_words (mf : mf_ctx) (mb : member) := miniflow_push_words_ mf (mb_ofs mb).
Definition miniflow_push_words_32 (mf : mf_ctx) (mb : member) := miniflow_push_words_32_ mf (mb_ofs mb).
Definition miniflow_push_macs (mf : mf_ctx) (mb : member) := miniflow_push_macs_ mf (mb_ofs mb).
End Push.

(** [miniflow_pointer]: the address of a field that is pushed next. *)
Definition miniflow_pointer (mf : mf_ctx) (mb : member) : nat := (8 * mc_data mf + mb_ofs mb mod 8)%nat.

(** ** The miniflow in the buffer *)

(** Word [i] of the buffer. *)
Definition buf_word (buf : list Z) (i : nat) : Z := get buf (8 * i) 8.

(** The values are the words with a 1-bit in the map. *)
Definition mf_result (mf : mf_ctx) : miniflow :=
  Miniflow (mc_map mf) (map (buf_word (mc_buf mf)) (seq 0 (length (fm_indices (mc_map mf))))).

(** ** Ranks *)

Lemma rank_ext (p q : nat -> bool) (i : nat) : (forall k, (k < i)%nat -> p k = q k) -> rank p i = rank q i.
Proof.
  intros H. unfold rank. f_equal. apply List.filter_ext_in. intros k Hk. apply H.
  apply in_seq in Hk. lia.
Qed.

Lemma rank_add (p : nat -> bool) (a n : nat) : rank p (a + n) = (rank p a + length (List.filter p (seq a n)))%nat.
Proof. unfold rank. by rewrite seq_app, List.filter_app, length_app. Qed.

Lemma rank_gap (p : nat -> bool) (a b : nat) :
  (a <= b)%nat -> (forall k, (a <= k < b)%nat -> p k = false) -> rank p b = rank p a.
Proof.
  intros Hab H. replace b with (a + (b - a))%nat by lia. rewrite rank_add.
  rewrite (List.filter_ext_in p (fun _ => false)) by (intros k Hk; apply in_seq in Hk; apply H; lia).
  replace (List.filter _ _) with (@nil nat); [simpl; lia|]. by induction (seq a (b - a)).
Qed.

Lemma rank_full (p : nat -> bool) (a b : nat) :
  (a <= b)%nat -> (forall k, (a <= k < b)%nat -> p k = true) -> rank p b = (rank p a + (b - a))%nat.
Proof.
  intros Hab H. replace b with (a + (b - a))%nat at 1 by lia. rewrite rank_add.
  rewrite (List.filter_ext_in p (fun _ => true)) by (intros k Hk; apply in_seq in Hk; apply H; lia).
  rewrite List.filter_true. by rewrite length_seq.
Qed.

Lemma rank_le (p : nat -> bool) (i : nat) : (rank p i <= i)%nat.
Proof. unfold rank. rewrite <- (length_seq i 0) at 2. apply List.filter_length_le. Qed.

Lemma rank_le_mono (p : nat -> bool) (a b : nat) : (a <= b)%nat -> (rank p a <= rank p b)%nat.
Proof. intros H. replace b with (a + (b - a))%nat by lia. rewrite rank_add. lia. Qed.

(** ** Bytes *)

Lemma length_be_bytes (n : nat) (x : Z) : length (be_bytes n x) = n.
Proof. unfold be_bytes. by rewrite length_map, length_seq. Qed.

Lemma nth_be_bytes (n k : nat) (x : Z) :
  (k < n)%nat -> nth k (be_bytes n x) 0 = u8 (Z.shiftr x (8 * (Z.of_nat n - 1 - Z.of_nat k))).
Proof.
  intros Hk. unfold be_bytes.
  rewrite (nth_indep _ 0 (u8 (Z.shiftr x (8 * (Z.of_nat n - 1 - Z.of_nat 0))))) by (by rewrite length_map, length_seq).
  rewrite (map_nth (fun k => u8 (Z.shiftr x (8 * (Z.of_nat n - 1 - Z.of_nat k))))), seq_nth by done. done.
Qed.

Lemma be_bytes_byte (n : nat) (x : Z) : Forall is_byte (be_bytes n x).
Proof. apply Forall_map, Forall_forall. intros k _. by apply (wrap_width 8). Qed.

Lemma be_bytes_zero (n : nat) : be_bytes n 0 = replicate n 0.
Proof.
  apply nth_ext_Z; [by rewrite length_be_bytes, length_replicate|]. intros k.
  destruct (decide (k < n)%nat).
  - rewrite nth_be_bytes, nth_replicate_0 by done. by rewrite Z.shiftr_0_l.
  - rewrite !nth_overflow by (rewrite ?length_be_bytes, ?length_replicate; lia). done.
Qed.

(** The bytes of a member after a store. *)
Lemma flow_byte_fset (f : flow) (mb : member) (x : Z) (j : nat) :
  mb_in mb -> length f = FLOW_U64S ->
  flow_byte (fset f mb x) j =
  if ((mb_ofs mb <=? j) && (j <? mb_ofs mb + mb_size mb))%nat
  then u8 (Z.shiftr x (8 * (Z.of_nat (mb_ofs mb + mb_size mb) - 1 - Z.of_nat j))) else flow_byte f j.
Proof.
  intros Hm Hf. apply Z.bits_inj'. intros i Hi.
  destruct (Z.lt_ge_cases i 8) as [H8|H8].
  2: { rewrite (in_width_high 8) by (apply flow_byte_width || done).
       destruct (_ && _); symmetry; apply (in_width_high 8); try done;
         [apply wrap_width; lia|apply flow_byte_width]. }
  rewrite flow_byte_testbit, fset_fbit by done. unfold mb_has, mb_pos.
  destruct (Nat.leb_spec (mb_ofs mb) j), (Nat.ltb_spec j (mb_ofs mb + mb_size mb));
    destruct (Nat.leb_spec (8 * mb_ofs mb) (8 * j + Z.to_nat (7 - i))),
      (Nat.ltb_spec (8 * j + Z.to_nat (7 - i)) (8 * (mb_ofs mb + mb_size mb))); try lia; cbn [andb];
    rewrite ?flow_byte_testbit by lia; try done.
  rewrite wrap_testbit, Z.shiftr_spec by lia. destruct (Z.ltb_spec i 8); [|lia]. cbn [andb]. f_equal. lia.
Qed.

Lemma flow_bytes_ext (f g : flow) :
  flow_wf f -> flow_wf g -> (forall j, (j < 8 * FLOW_U64S)%nat -> flow_byte f j = flow_byte g j) -> f = g.
Proof.
  intros Hf Hg H. apply fbit_ext; [done|done|]. intros k.
  pose proof (Nat.div_mod_eq k 8). pose proof (Nat.mod_upper_bound k 8 ltac:(lia)).
  replace k with (8 * (k / 8) + Z.to_nat (7 - (7 - Z.of_nat (k mod 8))))%nat by lia.
  rewrite <- !flow_byte_testbit by lia. destruct (decide (k / 8 < 8 * FLOW_U64S)%nat); [by rewrite H|].
  unfold flow_byte. rewrite !nth_overflow; [done| |];
    (rewrite (proj1 Hf) || rewrite (proj1 Hg)); unfold FLOW_U64S in *; apply Nat.div_le_lower_bound; lia.
Qed.

(** ** The simulation *)

Definition set_in (mf : mf_ctx) (i : nat) : bool := flowmap_is_set (mc_map mf) i.

(** The context holds the bytes of [f] below [pos]: the words with a 1-bit in
    the map are in the buffer, one after the other, and the other bytes of
    [f] are zero. *)
Record mf_sim (mf : mf_ctx) (f : flow) (pos : nat) : Prop := {
  ms_flow : flow_wf f;
  ms_map : flowmap_wf (mc_map mf);
  ms_buf : length (mc_buf mf) = (8 * FLOW_U64S)%nat;
  ms_bytes : Forall is_byte (mc_buf mf);
  ms_pos : (pos <= 8 * FLOW_U64S)%nat;
  ms_below : forall i, (i < N_IDX)%nat -> set_in mf i = true -> (8 * i < pos)%nat;
  ms_open : (pos mod 8 <> 0)%nat -> set_in mf (pos / 8) = true;
  ms_data : mc_data mf = rank (set_in mf) (pos / 8);
  ms_value : forall j, (j < pos)%nat -> set_in mf (j / 8) = true ->
    nth (8 * rank (set_in mf) (j / 8) + j mod 8) (mc_buf mf) 0 = flow_byte f j;
  ms_zero : forall j, (j < 8 * FLOW_U64S)%nat -> (pos <= j)%nat \/ set_in mf (j / 8) = false -> flow_byte f j = 0
}.

Lemma nth_store (buf bs : list Z) (a k : nat) :
  (a + length bs <= length buf)%nat ->
  nth k (take a buf ++ bs ++ drop (a + length bs) buf) 0 =
  if ((a <=? k) && (k <? a + length bs))%nat then nth (k - a) bs 0 else nth k buf 0.
Proof.
  intros Ha. assert (length (take a buf) = a) as Ht by (rewrite length_take; lia).
  destruct (Nat.leb_spec a k), (Nat.ltb_spec k (a + length bs)); cbn [andb].
  - rewrite app_nth2, Ht, app_nth1 by lia. done.
  - rewrite app_nth2, Ht, app_nth2 by lia. rewrite !nth_lookup, lookup_drop. do 2 f_equal. lia.
  - rewrite app_nth1 by lia. rewrite !nth_lookup, lookup_take_lt by done. done.
  - lia.
Qed.

Lemma length_store (buf bs : list Z) (a : nat) :
  (a + length bs <= length buf)%nat -> length (take a buf ++ bs ++ drop (a + length bs) buf) = length buf.
Proof. intros Ha. rewrite !length_app, length_take, length_drop. lia. Qed.

Lemma store_byte (buf bs : list Z) (a : nat) :
  Forall is_byte buf -> Forall is_byte bs -> Forall is_byte (take a buf ++ bs ++ drop (a + length bs) buf).
Proof. intros Hb Hs. by repeat apply Forall_app_2; [apply Forall_take| |apply Forall_drop]. Qed.

(** Word [i] has a byte in [ofs, ofs + n). *)
Definition touched (ofs n i : nat) : bool := ((ofs <=? 8 * i + 7) && (8 * i <? ofs + n))%nat.

Lemma touched_spec (ofs n i : nat) : touched ofs n i = true <-> (ofs <= 8 * i + 7 /\ 8 * i < ofs + n)%nat.
Proof. unfold touched. rewrite andb_true_iff, Nat.leb_le, Nat.ltb_lt. done. Qed.

(** The next [n] bytes may be pushed at [ofs]. *)
Definition may_push (pos ofs : nat) : Prop := ofs = pos \/ (pos mod 8 = 0 /\ ofs mod 8 = 0 /\ pos <= ofs)%nat.

Lemma div8 (a : nat) : (8 * (a / 8) <= a < 8 * (a / 8) + 8)%nat.
Proof. pose proof (Nat.div_mod_eq a 8). pose proof (Nat.mod_upper_bound a 8). lia. Qed.

Lemma idx_bound (i : nat) : (i <= FLOW_U64S)%nat -> (i < N_IDX)%nat.
Proof. unfold FLOW_U64S. change N_IDX with 128%nat. lia. Qed.

Section PushLemma.
Variables (mf mf' : mf_ctx) (f : flow) (pos ofs n : nat) (v : Z).
Hypothesis Hsim : mf_sim mf f pos.
Hypothesis Hofs : may_push pos ofs.
Hypothesis Hin : (ofs + n <= 8 * FLOW_U64S)%nat.
Hypothesis Hwf : flowmap_wf (mc_map mf').
Hypothesis Hmap : forall i, (i < N_IDX)%nat -> set_in mf' i = set_in mf i || touched ofs n i.

Lemma push_pos_le : (pos <= ofs)%nat.
Proof. destruct Hofs as [->|]; lia. Qed.

(** The words below [pos] are as before. *)
Lemma push_same (i : nat) : (8 * i < pos)%nat -> set_in mf' i = set_in mf i.
Proof.
  intros Hi. pose proof push_pos_le. pose proof (ms_pos _ _ _ Hsim).
  rewrite Hmap by (apply idx_bound; lia). destruct (touched ofs n i) eqn:Ht; [|apply orb_false_r].
  apply touched_spec in Ht. destruct Hofs as [->|(H1 & H2 & H3)].
  - assert (i = pos / 8)%nat as -> by (pose proof (div8 pos); lia).
    rewrite (ms_open _ _ _ Hsim); [done|]. pose proof (Nat.div_mod_eq pos 8). lia.
  - pose proof (Nat.div_mod_eq pos 8). pose proof (Nat.div_mod_eq ofs 8). lia.
Qed.

Lemma push_rank_below (i : nat) : (8 * i < pos + 8)%nat -> rank (set_in mf') i = rank (set_in mf) i.
Proof. intros Hi. apply rank_ext. intros k Hk. apply push_same. lia. Qed.

Lemma push_unset (i : nat) : (pos <= 8 * i)%nat -> (i < ofs / 8)%nat -> set_in mf' i = false.
Proof.
  intros H1 H2. pose proof (div8 ofs). rewrite Hmap by (apply idx_bound; unfold FLOW_U64S in *; lia).
  destruct (set_in mf i) eqn:Hs; [apply (ms_below _ _ _ Hsim) in Hs; [lia|apply idx_bound; unfold FLOW_U64S in *; lia]|].
  destruct (touched ofs n i) eqn:Ht; [apply touched_spec in Ht; lia|done].
Qed.

(** [MF.data] is the place of the word of [ofs]. *)
Lemma push_data : mc_data mf = rank (set_in mf') (ofs / 8).
Proof.
  rewrite (ms_data _ _ _ Hsim), <- push_rank_below by (pose proof (div8 pos); lia).
  destruct Hofs as [->|(H1 & H2 & H3)]; [done|].
  symmetry. apply rank_gap; [by apply Nat.Div0.div_le_mono|]. intros k Hk. apply push_unset; [|lia].
  pose proof (Nat.div_mod_eq pos 8). lia.
Qed.

Lemma push_rank_in (i : nat) :
  (ofs / 8 <= i)%nat -> (8 * i < ofs + n + 8)%nat -> rank (set_in mf') i = (mc_data mf + (i - ofs / 8))%nat.
Proof.
  intros H1 H2. rewrite push_data. apply rank_full; [done|]. intros k Hk. pose proof (div8 ofs).
  rewrite Hmap by (apply idx_bound; unfold FLOW_U64S in *; lia).
  assert (touched ofs n k = true) as -> by (apply touched_spec; lia). apply orb_true_r.
Qed.

Lemma push_room : (8 * mc_data mf + ofs mod 8 + n <= 8 * FLOW_U64S)%nat.
Proof. rewrite push_data. pose proof (rank_le (set_in mf') (ofs / 8)). pose proof (Nat.div_mod_eq ofs 8). lia. Qed.

(** A byte below [pos] keeps its place, before the bytes that are stored. *)
Lemma push_value_old (j : nat) :
  (j < pos)%nat -> set_in mf' (j / 8) = true ->
  (8 * rank (set_in mf') (j / 8) + j mod 8 < 8 * mc_data mf + ofs mod 8)%nat.
Proof.
  intros Hj Hs. rewrite push_data. pose proof push_pos_le.
  pose proof (Nat.div_mod_eq j 8). pose proof (Nat.mod_upper_bound j 8 ltac:(lia)).
  pose proof (Nat.div_mod_eq ofs 8). pose proof (Nat.mod_upper_bound ofs 8 ltac:(lia)).
  destruct (decide (j / 8 < ofs / 8)%nat) as [Hlt|]; [pose proof (rank_mono (set_in mf') _ _ Hlt Hs); lia|].
  replace (ofs / 8)%nat with (j / 8)%nat by lia. lia.
Qed.

Lemma mf_sim_push_value (j : nat) :
  (j < ofs + n)%nat -> set_in mf' (j / 8) = true ->
  let buf := take (8 * mc_data mf + ofs mod 8) (mc_buf mf) ++ be_bytes n v
             ++ drop (8 * mc_data mf + ofs mod 8 + n) (mc_buf mf) in
  nth (8 * rank (set_in mf') (j / 8) + j mod 8) buf 0 = flow_byte (fset f (Member ofs n) v) j.
Proof.
  intros Hj Hs buf. pose proof push_room. pose proof push_pos_le.
  pose proof (Nat.div_mod_eq j 8). pose proof (Nat.div_mod_eq ofs 8).
  subst buf. rewrite <- (length_be_bytes n v) at 2.
  rewrite nth_store by (rewrite length_be_bytes, (ms_buf _ _ _ Hsim); lia). rewrite length_be_bytes.
  rewrite flow_byte_fset by (done || apply Hsim). cbn [mb_ofs mb_size].
  destruct (decide (j < pos)%nat) as [Hp|Hp].
  - pose proof (push_value_old j Hp Hs).
    destruct (Nat.leb_spec (8 * mc_data mf + ofs mod 8) (8 * rank (set_in mf') (j / 8) + j mod 8)); [lia|].
    destruct (Nat.leb_spec ofs j); [lia|]. cbn [andb]. pose proof (div8 j).
    rewrite push_rank_below by lia. apply (ms_value _ _ _ Hsim); [done|]. rewrite <- push_same by lia. done.
  - assert (ofs <= j)%nat.
    { destruct (decide (ofs <= j)%nat) as [|Hn]; [done|]. destruct Hofs as [|(Hp8 & Ho8 & Hle)]; [lia|].
      rewrite push_unset in Hs; [done| |]; pose proof (Nat.div_mod_eq pos 8); pose proof (div8 j); lia. }
    rewrite push_rank_in by (try apply Nat.Div0.div_le_mono; pose proof (div8 j); lia).
    assert (ofs / 8 <= j / 8)%nat by (by apply Nat.Div0.div_le_mono).
    destruct (Nat.leb_spec (8 * mc_data mf + ofs mod 8) (8 * (mc_data mf + (j / 8 - ofs / 8)) + j mod 8)); [|lia].
    destruct (Nat.ltb_spec (8 * (mc_data mf + (j / 8 - ofs / 8)) + j mod 8) (8 * mc_data mf + ofs mod 8 + n)); [|lia].
    destruct (Nat.leb_spec ofs j), (Nat.ltb_spec j (ofs + n)); try lia. cbn [andb].
    rewrite nth_be_bytes by lia. do 2 f_equal. lia.
Qed.

(** The store of [n] bytes at [ofs], and the move to the word that is next. *)
Lemma mf_sim_push (Hbuf : mc_buf mf' = mc_buf mf) (Hdata : mc_data mf' = mc_data mf) :
  exists mf'', store mf' (8 * mc_data mf' + ofs mod 8) (be_bytes n v) = Some mf'' /\
    mf_sim (advance mf'' ((ofs mod 8 + n) / 8)) (fset f (Member ofs n) v) (ofs + n).
Proof.
  pose proof push_room as Hroom. pose proof push_pos_le.
  pose proof (Nat.div_mod_eq ofs 8). pose proof (Nat.mod_upper_bound ofs 8 ltac:(lia)).
  unfold store. rewrite length_be_bytes, Hbuf, Hdata, (ms_buf _ _ _ Hsim).
  destruct (Nat.leb_spec (8 * mc_data mf + ofs mod 8 + n) (8 * FLOW_U64S)); [|lia].
  eexists. split; [done|]. split; cbn [mc_map mc_buf mc_data advance]; change (set_in _) with (set_in mf').
  - apply fset_wf, Hsim.
  - done.
  - rewrite <- (length_be_bytes n v) at 2.
    rewrite length_store by (rewrite length_be_bytes, (ms_buf _ _ _ Hsim); lia). apply Hsim.
  - rewrite <- (length_be_bytes n v) at 2. apply store_byte; [apply Hsim|apply be_bytes_byte].
  - done.
  - intros i Hi Hs. rewrite Hmap in Hs by done. apply orb_true_iff in Hs as [Hs|Hs].
    + apply (ms_below _ _ _ Hsim) in Hs; [lia|done].
    + apply touched_spec in Hs. lia.
  - intros Hm. pose proof (Nat.div_mod_eq (ofs + n) 8). pose proof (div8 (ofs + n)).
    rewrite Hmap by (apply idx_bound; unfold FLOW_U64S in *; lia).
    destruct (decide (n = 0)%nat) as [->|].
    + rewrite Nat.add_0_r in *. destruct Hofs as [->|]; [|lia]. by rewrite (ms_open _ _ _ Hsim).
    + assert (touched ofs n ((ofs + n) / 8) = true) as -> by (apply touched_spec; lia). apply orb_true_r.
  - rewrite push_rank_in; [|apply Nat.Div0.div_le_mono; lia|pose proof (div8 (ofs + n)); lia].
    f_equal. replace (ofs + n)%nat with (ofs mod 8 + n + ofs / 8 * 8)%nat by lia. rewrite Nat.div_add by lia. lia.
  - intros j Hj Hs. by apply mf_sim_push_value.
  - intros j Hj Hz. rewrite flow_byte_fset by (done || apply Hsim). cbn [mb_ofs mb_size].
    pose proof (div8 j). rewrite Hmap in Hz by (apply idx_bound; unfold FLOW_U64S in *; lia).
    destruct (Nat.leb_spec ofs j), (Nat.ltb_spec j (ofs + n)); cbn [andb].
    { destruct Hz as [|Hz]; [lia|]. apply orb_false_iff in Hz as [_ Hz].
      assert (touched ofs n (j / 8) = true) by (apply touched_spec; lia). congruence. }
    all: apply (ms_zero _ _ _ Hsim); [done|]; destruct Hz as [|[Hz _]%orb_false_iff]; [left; lia|by right].
Qed.
End PushLemma.

(** ** The macros *)

(** The words that are there stay where they are. *)
Definition mf_ext (mf mf' : mf_ctx) : Prop :=
  forall i, (i < N_IDX)%nat -> set_in mf i = true -> set_in mf' i = true /\ rank (set_in mf') i = rank (set_in mf) i.

Lemma mf_ext_refl (mf : mf_ctx) : mf_ext mf mf.
Proof. done. Qed.

Lemma mf_ext_trans (a b c : mf_ctx) : mf_ext a b -> mf_ext b c -> mf_ext a c.
Proof. intros H1 H2 i Hi Hs. destruct (H1 i Hi Hs) as [Hb <-]. by apply H2. Qed.

(** The result of a push. *)
Definition pushes (mf : mf_ctx) (r : option mf_ctx) (f : flow) (pos : nat) : Prop :=
  exists mf', r = Some mf' /\ mf_sim mf' f pos /\ mf_ext mf mf'.

(** Nothing but the set bits of the map and the place in the buffer count. *)
Lemma flowmap_not_set_intro (fm : flowmap) (idx : nat) :
  flowmap_wf fm -> (idx < N_IDX)%nat ->
  (forall i, (idx <= i < N_IDX)%nat -> flowmap_is_set fm i = false) -> flowmap_not_set fm idx = true.
Proof.
  intros Hwf Hidx H. change N_IDX with 128%nat in *.
  pose proof (Nat.div_mod_eq idx 64). pose proof (Nat.mod_upper_bound idx 64 ltac:(lia)).
  assert (forall u b, (idx <= 64 * u + b < 128)%nat -> (b < 64)%nat -> Z.testbit (nth u fm 0) (Z.of_nat b) = false) as Hb.
  { intros u b Hub Hb. rewrite <- (H (64 * u + b)%nat) by lia. rewrite flowmap_is_set_testbit by done.
    rewrite Nat.mul_comm, Nat.add_comm, Nat.div_add, Nat.Div0.mod_add, Nat.div_small, Nat.mod_small by lia. done. }
  assert (forall u, in_width 64 (nth u fm 0)) as Hw by (intros u; by apply flowmap_unit_width).
  unfold flowmap_not_set. apply andb_true_iff. split.
  - apply Z.eqb_eq. apply Z.bits_inj_0. intros i. rewrite Z.land_spec, wrap_testbit by lia.
    destruct (Z.ltb_spec i 0); [by rewrite !Z.testbit_neg_r|]. rewrite Z.shiftl_spec by done.
    destruct (Z.ltb_spec i 64); [|by rewrite andb_false_r]. cbn [andb].
    destruct (Z.ltb_spec i (Z.of_nat (idx mod 64))); [rewrite (Z.testbit_neg_r _ (_ - _)) by lia; apply andb_false_r|].
    rewrite <- (Z2Nat.id i) by done. rewrite Hb by lia. done.
  - apply forallb_forall. intros x Hx. apply Z.eqb_eq.
    apply (In_nth _ _ 0) in Hx as (k & Hk & <-). rewrite length_drop, (proj1 Hwf) in Hk.
    change FLOWMAP_UNITS with 2%nat in Hk. rewrite nth_drop_Z.
    apply Z.bits_inj_0. intros i. destruct (Z.ltb_spec i 0); [by rewrite Z.testbit_neg_r|].
    destruct (Z.lt_ge_cases i 64); [|by apply (in_width_high 64)].
    rewrite <- (Z2Nat.id i) by done. apply Hb; lia.
Qed.

Section Macros.
Variable asserts : bool.

Lemma assert_ok (x : bool) : x = true -> MINIFLOW_ASSERT asserts x = Some tt.
Proof. intros ->. unfold MINIFLOW_ASSERT. by rewrite orb_true_r. Qed.

Section Sim.
Variables (mf : mf_ctx) (f : flow) (pos ofs : nat).
Hypothesis Hsim : mf_sim mf f pos.

Lemma sim_not_set (idx : nat) :
  (pos <= 8 * idx)%nat -> (idx <= FLOW_U64S)%nat -> flowmap_not_set (mc_map mf) idx = true.
Proof.
  intros H1 H2. apply flowmap_not_set_intro; [apply Hsim|by apply idx_bound|]. intros i Hi.
  change (set_in mf i = false). destruct (set_in mf i) eqn:Hs; [|done].
  apply (ms_below _ _ _ Hsim) in Hs; lia.
Qed.

Lemma sim_space : (pos < 8 * FLOW_U64S)%nat -> assert_space asserts mf = Some tt.
Proof.
  intros Hp. apply assert_ok, Nat.ltb_lt. rewrite (ms_data _ _ _ Hsim).
  pose proof (rank_le (set_in mf) (pos / 8)). pose proof (div8 pos). lia.
Qed.

Lemma sim_set_map :
  (pos <= 8 * (ofs / 8))%nat -> (ofs < 8 * FLOW_U64S)%nat ->
  miniflow_set_map asserts mf (ofs / 8) = Some (with_map mf (flowmap_set (mc_map mf) (ofs / 8) 1)).
Proof.
  intros H1 H2. unfold miniflow_set_map, ASSERT_FLOWMAP_NOT_SET.
  rewrite sim_not_set by (pose proof (div8 ofs); lia). by rewrite assert_ok.
Qed.

Lemma sim_in_map :
  ofs = pos -> (ofs mod 8 <> 0)%nat -> miniflow_assert_in_map asserts mf (ofs / 8) = Some tt.
Proof.
  intros -> Hm. pose proof (ms_pos _ _ _ Hsim). pose proof (Nat.div_mod_eq pos 8). pose proof (div8 pos).
  unfold miniflow_assert_in_map, ASSERT_FLOWMAP_NOT_SET.
  change (flowmap_is_set (mc_map mf)) with (set_in mf). rewrite (ms_open _ _ _ Hsim) by done.
  rewrite sim_not_set by lia. by rewrite !assert_ok.
Qed.

(** A store into the words [ofs / 8], ..., [ofs / 8 + k - 1], new ones. *)
Lemma sim_new (n k : nat) (v : Z) :
  (pos mod 8 = 0)%nat -> (ofs mod 8 = 0)%nat -> (pos <= ofs)%nat -> (ofs + n <= 8 * FLOW_U64S)%nat ->
  (n <= 8 * k < n + 8)%nat -> (k < 64)%nat ->
  exists mf', store (with_map mf (flowmap_set (mc_map mf) (ofs / 8) k)) (8 * mc_data mf) (be_bytes n v) = Some mf' /\
    mf_sim (advance mf' (n / 8)) (fset f (Member ofs n) v) (ofs + n) /\ mf_ext mf mf'.
Proof.
  intros H1 H2 H3 H4 Hk H5. set (mf1 := with_map _ _).
  assert (forall i, (i < N_IDX)%nat -> set_in mf1 i = set_in mf i || touched ofs n i) as Hmap.
  { intros i Hi. unfold set_in, mf1. cbn [mc_map with_map]. pose proof (Nat.div_mod_eq ofs 8).
    rewrite flowmap_set_is_set; [|apply Hsim|done| |done].
    - f_equal. unfold touched.
      destruct (Nat.leb_spec (ofs / 8) i), (Nat.ltb_spec i (ofs / 8 + k)), (Nat.leb_spec ofs (8 * i + 7)),
        (Nat.ltb_spec (8 * i) (ofs + n)); (lia || done).
    - change N_IDX with 128%nat. unfold FLOW_U64S in *. lia. }
  assert (flowmap_wf (mc_map mf1)) as Hwf by (apply flowmap_set_wf; [done|apply Hsim]).
  assert (may_push pos ofs) as Hp by (right; lia).
  destruct (mf_sim_push mf mf1 f pos ofs n v Hsim Hp H4 Hwf Hmap eq_refl eq_refl) as (mf2 & Hst & Hs).
  rewrite H2, Nat.add_0_r in Hst. exists mf2. split; [done|]. rewrite H2 in Hs. split; [done|].
  assert (set_in mf2 = set_in mf1) as Hm2.
  { unfold store in Hst. case_match; [|done]. by injection Hst as <-. }
  intros i Hi Hset. rewrite Hm2. apply (ms_below _ _ _ Hsim) in Hset as Hlt; [|done].
  split; [by rewrite (push_same mf mf1 f pos ofs n)|].
  apply (push_rank_below mf mf1 f pos ofs n); (done || lia).
Qed.

(** A store into the word that is being filled. *)
Lemma sim_fill (n : nat) (v : Z) :
  ofs = pos -> (ofs mod 8 <> 0)%nat -> (0 < n)%nat -> (ofs mod 8 + n <= 8)%nat ->
  exists mf', store mf (8 * mc_data mf + ofs mod 8) (be_bytes n v) = Some mf' /\
    mf_sim (advance mf' ((ofs mod 8 + n) / 8)) (fset f (Member ofs n) v) (ofs + n) /\ mf_ext mf mf'.
Proof.
  intros -> H2 H3 H4. pose proof (ms_pos _ _ _ Hsim). pose proof (Nat.div_mod_eq pos 8).
  assert (forall i, (i < N_IDX)%nat -> set_in mf i = set_in mf i || touched pos n i) as Hmap.
  { intros i Hi. destruct (touched pos n i) eqn:Ht; [|by rewrite orb_false_r]. apply touched_spec in Ht.
    rewrite orb_true_r. replace i with (pos / 8)%nat by lia. by apply (ms_open _ _ _ Hsim). }
  assert (pos + n <= 8 * FLOW_U64S)%nat as Hin by lia.
  destruct (mf_sim_push mf mf f pos pos n v Hsim (or_introl eq_refl) Hin (ms_map _ _ _ Hsim) Hmap eq_refl eq_refl)
    as (mf2 & Hst & Hs).
  exists mf2. split; [done|]. split; [done|]. unfold store in Hst. case_match; [|done]. by injection Hst as <-.
Qed.
End Sim.

Lemma advance_0 (mf : mf_ctx) : advance mf 0 = mf.
Proof. destruct mf. unfold advance. cbn. by rewrite Nat.add_0_r. Qed.

Lemma mf_ext_advance (mf mf' : mf_ctx) (n : nat) : mf_ext mf mf' -> mf_ext mf (advance mf' n).
Proof. done. Qed.

(** The first part of a word. *)
Lemma push_first (mf : mf_ctx) (f : flow) (pos ofs n : nat) (v : Z) :
  mf_sim mf f pos -> (pos mod 8 = 0)%nat -> (ofs mod 8 = 0)%nat -> (pos <= ofs)%nat -> (ofs < 8 * FLOW_U64S)%nat ->
  (0 < n < 8)%nat ->
  pushes mf (_ ← assert_space asserts mf; mf ← miniflow_set_map asserts mf (ofs / 8); store_in_word mf 0 n v)
    (fset f (Member ofs n) v) (ofs + n).
Proof.
  intros Hs H1 H2 H3 H4 Hn. pose proof (Nat.div_mod_eq ofs 8).
  rewrite (sim_space mf f pos Hs), (sim_set_map mf f pos ofs Hs) by lia.
  destruct (sim_new mf f pos ofs Hs n 1 v) as (mf' & Hst & Hs' & He); try (unfold FLOW_U64S in *; lia).
  exists mf'. unfold store_in_word. cbn [mbind option_bind mc_data with_map]. rewrite Nat.add_0_r.
  rewrite (Nat.div_small n 8), advance_0 in Hs' by lia. done.
Qed.

(** A further part of a word, and the last one. *)
Lemma push_part (mf : mf_ctx) (f : flow) (pos ofs n : nat) (v : Z) :
  mf_sim mf f pos -> ofs = pos -> (ofs mod 8 <> 0)%nat -> (0 < n)%nat -> (ofs mod 8 + n < 8)%nat ->
  pushes mf (_ ← assert_space asserts mf; _ ← miniflow_assert_in_map asserts mf (ofs / 8);
             store_in_word mf (ofs mod 8) n v)
    (fset f (Member ofs n) v) (ofs + n).
Proof.
  intros Hs H1 H2 H3 H4. pose proof (Nat.div_mod_eq ofs 8). pose proof (ms_pos _ _ _ Hs).
  rewrite (sim_space mf f pos Hs), (sim_in_map mf f pos ofs Hs) by (unfold FLOW_U64S in *; lia).
  destruct (sim_fill mf f pos ofs Hs n v) as (mf' & Hst & Hs' & He); try lia.
  exists mf'. rewrite (Nat.div_small _ 8), advance_0 in Hs' by lia. done.
Qed.

Lemma push_last (mf : mf_ctx) (f : flow) (pos ofs n : nat) (v : Z) :
  mf_sim mf f pos -> ofs = pos -> (ofs mod 8 <> 0)%nat -> (0 < n)%nat -> (ofs mod 8 + n = 8)%nat ->
  pushes mf (_ ← assert_space asserts mf; _ ← miniflow_assert_in_map asserts mf (ofs / 8);
             mf ← store_in_word mf (ofs mod 8) n v; Some (advance mf 1))
    (fset f (Member ofs n) v) (ofs + n).
Proof.
  intros Hs H1 H2 H3 H4. pose proof (Nat.div_mod_eq ofs 8). pose proof (ms_pos _ _ _ Hs).
  rewrite (sim_space mf f pos Hs), (sim_in_map mf f pos ofs Hs) by (unfold FLOW_U64S in *; lia).
  destruct (sim_fill mf f pos ofs Hs n v) as (mf' & Hst & Hs' & He); try lia.
  exists (advance mf' 1). unfold store_in_word. cbn [mbind option_bind]. rewrite Hst. rewrite H4 in Hs'. done.
Qed.

Lemma push_uint32_sim (mf : mf_ctx) (f : flow) (pos ofs : nat) (v : Z) :
  mf_sim mf f pos -> may_push pos ofs -> (ofs mod 4 = 0)%nat -> (ofs < 8 * FLOW_U64S)%nat ->
  pushes mf (miniflow_push_uint32_ asserts mf ofs v) (fset f (Member ofs 4) v) (ofs + 4).
Proof.
  intros Hs Hp H1 H2. unfold miniflow_push_uint32_.
  destruct (Nat.eqb_spec (ofs mod 8) 0) as [E|E].
  - apply push_first with pos; (done || lia || destruct Hp as [->|]; lia).
  - assert (ofs mod 8 = 4)%nat as E4.
    { pose proof (Nat.div_mod_eq ofs 8). pose proof (Nat.div_mod_eq ofs 4). pose proof (Nat.mod_upper_bound ofs 8). lia. }
    rewrite E4. cbn [Nat.eqb]. pose proof (push_last mf f pos ofs 4 v Hs) as H. rewrite E4 in H.
    apply H; destruct Hp as [->|]; lia.
Qed.

Lemma push_uint16_sim (mf : mf_ctx) (f : flow) (pos ofs : nat) (v : Z) :
  mf_sim mf f pos -> may_push pos ofs -> (ofs mod 2 = 0)%nat -> (ofs < 8 * FLOW_U64S)%nat ->
  pushes mf (miniflow_push_uint16_ asserts mf ofs v) (fset f (Member ofs 2) v) (ofs + 2).
Proof.
  intros Hs Hp H1 H2. unfold miniflow_push_uint16_.
  assert (ofs mod 8 = 0 \/ ofs mod 8 = 2 \/ ofs mod 8 = 4 \/ ofs mod 8 = 6)%nat as [E|[E|[E|E]]].
  { pose proof (Nat.div_mod_eq ofs 8). pose proof (Nat.div_mod_eq ofs 2). pose proof (Nat.mod_upper_bound ofs 8). lia. }
  all: rewrite E; cbn [Nat.eqb].
  - apply push_first with pos; (done || lia || destruct Hp as [->|]; lia).
  - pose proof (push_part mf f pos ofs 2 v Hs) as H. rewrite E in H. apply H; destruct Hp as [->|]; lia.
  - pose proof (push_part mf f pos ofs 2 v Hs) as H. rewrite E in H. apply H; destruct Hp as [->|]; lia.
  - pose proof (push_last mf f pos ofs 2 v Hs) as H. rewrite E in H. apply H; destruct Hp as [->|]; lia.
Qed.

Lemma push_uint8_sim (mf : mf_ctx) (f : flow) (pos ofs : nat) (v : Z) :
  mf_sim mf f pos -> may_push pos ofs -> (ofs < 8 * FLOW_U64S)%nat ->
  pushes mf (miniflow_push_uint8_ asserts mf ofs v) (fset f (Member ofs 1) v) (ofs + 1).
Proof.
  intros Hs Hp H2. unfold miniflow_push_uint8_. pose proof (Nat.mod_upper_bound ofs 8 ltac:(lia)).
  destruct (Nat.eqb_spec (ofs mod 8) 0) as [E|E]; [apply push_first with pos; (done || lia || destruct Hp as [->|]; lia)|].
  destruct (Nat.eqb_spec (ofs mod 8) 7) as [E7|E7].
  - pose proof (push_last mf f pos ofs 1 v Hs) as Hl. rewrite E7 in Hl. apply Hl; destruct Hp as [->|]; lia.
  - apply push_part with pos; (done || lia || destruct Hp as [->|]; lia).
Qed.

(** Zeros stored in place of zeros. *)
Lemma fset_zero (f : flow) (mb : member) :
  flow_wf f -> mb_in mb ->
  (forall j, (mb_ofs mb <= j < mb_ofs mb + mb_size mb)%nat -> flow_byte f j = 0) -> fset f mb 0 = f.
Proof.
  intros Hf Hm H. apply flow_bytes_ext; [by apply fset_wf|done|]. intros j Hj.
  rewrite flow_byte_fset by (done || apply Hf).
  destruct (Nat.leb_spec (mb_ofs mb) j), (Nat.ltb_spec j (mb_ofs mb + mb_size mb)); cbn [andb]; try done.
  by rewrite H, Z.shiftr_0_l by lia.
Qed.

Lemma fset_zero_sim (mf : mf_ctx) (f : flow) (pos : nat) (mb : member) :
  mf_sim mf f pos -> mb_in mb -> (pos <= mb_ofs mb)%nat -> fset f mb 0 = f.
Proof.
  intros Hs Hm Hp. apply fset_zero; [apply Hs|done|]. intros j Hj. unfold mb_in in Hm.
  apply (ms_zero _ _ _ Hs); lia.
Qed.

Lemma pad_to_64_sim (mf : mf_ctx) (f : flow) (pos ofs : nat) :
  mf_sim mf f pos -> ofs = pos -> (ofs mod 8 <> 0)%nat ->
  pushes mf (miniflow_pad_to_64_ asserts mf ofs) f (ofs + (8 - ofs mod 8)).
Proof.
  intros Hs H1 H2. pose proof (Nat.mod_upper_bound ofs 8 ltac:(lia)).
  pose proof (Nat.div_mod_eq ofs 8). pose proof (ms_pos _ _ _ Hs).
  unfold miniflow_pad_to_64_. rewrite (sim_in_map mf f pos ofs Hs) by done.
  rewrite assert_ok by (apply negb_true_iff, Nat.eqb_neq; done). rewrite <- be_bytes_zero.
  destruct (sim_fill mf f pos ofs Hs (8 - ofs mod 8) 0) as (mf' & Hst & Hs' & He); try lia.
  rewrite (fset_zero_sim mf f pos) in Hs' by (unfold mb_in; cbn [mb_ofs mb_size]; unfold FLOW_U64S in *; (done || lia)).
  exists (advance mf' 1). cbn [mbind option_bind]. rewrite Hst.
  replace ((ofs mod 8 + (8 - ofs mod 8)) / 8)%nat with 1%nat in Hs' by (replace (ofs mod 8 + _)%nat with 8%nat by lia; done).
  done.
Qed.

Lemma pad_from_64_sim (mf : mf_ctx) (f : flow) (pos ofs : nat) :
  mf_sim mf f pos -> (pos mod 8 = 0)%nat -> (pos <= ofs)%nat -> (ofs mod 8 <> 0)%nat -> (ofs < 8 * FLOW_U64S)%nat ->
  pushes mf (miniflow_pad_from_64_ asserts mf ofs) f ofs.
Proof.
  intros Hs H1 H2 H3 H4. pose proof (Nat.mod_upper_bound ofs 8 ltac:(lia)).
  pose proof (Nat.div_mod_eq ofs 8). pose proof (Nat.div_mod_eq pos 8).
  unfold miniflow_pad_from_64_. rewrite (sim_space mf f pos Hs), (sim_set_map mf f pos ofs Hs) by lia.
  rewrite assert_ok by (apply negb_true_iff, Nat.eqb_neq; done). rewrite <- be_bytes_zero.
  assert (8 * (ofs / 8) / 8 = ofs / 8)%nat as E by (rewrite Nat.mul_comm; by apply Nat.div_mul).
  destruct (sim_new mf f pos (8 * (ofs / 8)) Hs (ofs mod 8) 1 0) as (mf' & Hst & Hs' & He);
    try (unfold FLOW_U64S in *; lia).
  { by rewrite Nat.mul_comm, Nat.Div0.mod_mul. }
  rewrite E in Hst. rewrite (fset_zero_sim mf f pos) in Hs' by (unfold mb_in; cbn [mb_ofs mb_size]; unfold FLOW_U64S in *; (done || lia)).
  rewrite (Nat.div_small (ofs mod 8)), advance_0 in Hs' by done.
  exists mf'. cbn [mbind option_bind mc_data with_map]. replace (8 * (ofs / 8) + ofs mod 8)%nat with ofs in Hs' by lia. done.
Qed.

Lemma be_bytes_be (bs : list Z) : Forall is_byte bs -> be_bytes (length bs) (be bs (length bs)) = bs.
Proof.
  intros Hb. apply nth_ext_Z; [apply length_be_bytes|]. intros k. destruct (decide (k < length bs)%nat).
  - rewrite nth_be_bytes by done. by apply be_digit.
  - rewrite !nth_overflow by (rewrite ?length_be_bytes; lia). done.
Qed.

Lemma set_maps_sim (mf : mf_ctx) (f : flow) (pos ofs k : nat) :
  mf_sim mf f pos -> (pos <= ofs)%nat -> (ofs mod 8 = 0)%nat -> (ofs + 8 * k <= 8 * FLOW_U64S)%nat ->
  (asserts = true -> k <> 0%nat) ->
  miniflow_set_maps asserts mf (ofs / 8) k = Some (with_map mf (flowmap_set (mc_map mf) (ofs / 8) k)).
Proof.
  intros Hs H1 H2 H3 Hk. pose proof (Nat.div_mod_eq ofs 8). unfold miniflow_set_maps, ASSERT_FLOWMAP_NOT_SET.
  rewrite (sim_not_set mf f pos Hs) by lia. rewrite (assert_ok true) by done.
  assert (MINIFLOW_ASSERT asserts (negb (k =? 0)%nat && (mc_data mf + k <=? FLOW_U64S)%nat) = Some tt) as ->; [|done].
  unfold MINIFLOW_ASSERT. destruct asserts; [|done]. specialize (Hk eq_refl). cbn [negb orb].
  destruct (Nat.eqb_spec k 0); [done|]. destruct (Nat.leb_spec (mc_data mf + k) FLOW_U64S); [done|].
  rewrite (ms_data _ _ _ Hs) in *. pose proof (rank_le (set_in mf) (pos / 8)). pose proof (div8 pos). lia.
Qed.

(** Whole words. *)
Lemma push_words_sim (mf : mf_ctx) (f : flow) (pos ofs k : nat) (bs : list Z) :
  mf_sim mf f pos -> (pos mod 8 = 0)%nat -> (ofs mod 8 = 0)%nat -> (pos <= ofs)%nat ->
  (ofs + 8 * k <= 8 * FLOW_U64S)%nat -> (0 < k < 64)%nat -> length bs = (8 * k)%nat -> Forall is_byte bs ->
  pushes mf (miniflow_push_words_ asserts mf ofs bs k) (fset f (Member ofs (8 * k)) (be bs (8 * k))) (ofs + 8 * k).
Proof.
  intros Hs H1 H2 H3 H4 Hk Hl Hb. unfold miniflow_push_words_.
  rewrite assert_ok by (by rewrite H2). rewrite (set_maps_sim mf f pos) by (done || lia).
  destruct (sim_new mf f pos ofs Hs (8 * k) k (be bs (8 * k))) as (mf' & Hst & Hs' & He); try lia.
  rewrite <- Hl, be_bytes_be in Hst by done. exists (advance mf' k).
  cbn [mbind option_bind mc_data with_map]. rewrite Hst. rewrite Nat.mul_comm, Nat.div_mul in Hs' by lia.
  by rewrite Nat.mul_comm.
Qed.

(** A pair of Ethernet addresses. *)
Lemma push_macs_sim (mf : mf_ctx) (f : flow) (pos ofs : nat) (bs : list Z) :
  mf_sim mf f pos -> (pos mod 8 = 0)%nat -> (ofs mod 8 = 0)%nat -> (pos <= ofs)%nat ->
  (ofs + 16 <= 8 * FLOW_U64S)%nat -> length bs = 12%nat -> Forall is_byte bs ->
  pushes mf (miniflow_push_macs_ asserts mf ofs bs) (fset f (Member ofs 12) (be bs 12)) (ofs + 12).
Proof.
  intros Hs H1 H2 H3 H4 Hl Hb. unfold miniflow_push_macs_.
  rewrite (set_maps_sim mf f pos) by (done || lia).
  destruct (sim_new mf f pos ofs Hs 12 2 (be bs 12)) as (mf' & Hst & Hs' & He); try lia.
  rewrite <- Hl, be_bytes_be in Hst by done. exists (advance mf' 1).
  cbn [mbind option_bind mc_data with_map]. by rewrite Hst.
Qed.

Lemma store_advance (mf : mf_ctx) (a x : nat) (bs : list Z) :
  store (advance mf a) x bs = (fun mf => advance mf a) <$> store mf x bs.
Proof. unfold store. cbn [mc_buf advance]. by case_match. Qed.

Lemma odd_mod (n : nat) : Nat.odd n = negb (n mod 2 =? 0)%nat.
Proof.
  pose proof (Nat.div_mod_eq n 2). pose proof (Nat.mod_upper_bound n 2 ltac:(lia)).
  destruct (Nat.odd n) eqn:E.
  - apply Nat.odd_spec in E as [m E]. destruct (Nat.eqb_spec (n mod 2) 0); [lia|done].
  - rewrite <- Nat.negb_even in E. apply negb_false_iff, Nat.even_spec in E as [m E].
    destruct (Nat.eqb_spec (n mod 2) 0); [done|lia].
Qed.

(** Words of 32 bits, with padding. *)
Lemma push_words_32_sim (mf : mf_ctx) (f : flow) (pos ofs n : nat) (bs : list Z) :
  mf_sim mf f pos -> (pos mod 8 = 0)%nat -> (ofs mod 8 = 0)%nat -> (pos <= ofs)%nat ->
  (ofs + 4 * n + 4 <= 8 * FLOW_U64S)%nat -> (n < 64)%nat -> length bs = (4 * n)%nat -> Forall is_byte bs ->
  (asserts = true -> n <> 0%nat) ->
  pushes mf (miniflow_push_words_32_ asserts mf ofs bs n)
    (fset f (Member ofs (4 * n)) (be bs (4 * n))) (ofs + 8 * DIV_ROUND_UP n 2).
Proof.
  intros Hs H1 H2 H3 H4 Hn Hl Hb Ha. unfold miniflow_push_words_32_, DIV_ROUND_UP.
  change (2 - 1)%nat with 1%nat. set (k := ((n + 1) / 2)%nat).
  assert (2 * k = n + 1 \/ 2 * k = n)%nat as Hk.
  { pose proof (Nat.div_mod_eq (n + 1) 2). pose proof (Nat.mod_upper_bound (n + 1) 2). subst k. lia. }
  rewrite (set_maps_sim mf f pos) by (done || lia || (intros E; specialize (Ha E); lia)).
  destruct (sim_new mf f pos ofs Hs (4 * n) k (be bs (4 * n))) as (mf' & Hst & Hs' & He); try lia.
  rewrite <- Hl, be_bytes_be in Hst by done.
  cbn [mbind option_bind mc_data with_map]. rewrite Hst.
  assert (4 * n = n / 2 * 8 + 4 * (n mod 2))%nat as En by (pose proof (Nat.div_mod_eq n 2); lia).
  pose proof (Nat.mod_upper_bound n 2 ltac:(lia)) as Hm.
  assert (4 * n / 8 = n / 2)%nat as E8 by (symmetry; apply (Nat.div_unique _ _ _ (4 * (n mod 2))); lia).
  rewrite E8 in Hs'.
  pose proof (Nat.div_mod_eq n 2). cbn [mbind option_bind]. rewrite store_advance. cbn [mc_data advance].
  rewrite odd_mod.
  pose proof (Nat.div_mod_eq ofs 8).
  destruct (Nat.eqb_spec (n mod 2) 0) as [E0|E0]; cbn [negb].
  - exists (advance mf' k). split; [done|]. split; [|done].
    replace (ofs + 8 * k)%nat with (ofs + 4 * n)%nat by lia. by replace k with (n / 2)%nat by lia.
  - assert ((ofs + 4 * n) mod 8 = 4)%nat as E4.
    { replace (ofs + 4 * n)%nat with (4 + (ofs / 8 + n / 2) * 8)%nat by lia. by rewrite Nat.Div0.mod_add. }
    destruct (sim_fill _ _ _ (ofs + 4 * n) Hs' 4 0) as (mf2 & Hst2 & Hs2 & He2); try lia.
    rewrite E4, store_advance in Hst2. cbn [mc_data advance] in Hst2.
    assert (mc_data mf' = mc_data mf) as Hd by (unfold store in Hst; case_match; [|done]; by injection Hst as <-).
    replace (8 * (mc_data mf' + k) - 4)%nat with (8 * (mc_data mf' + n / 2) + 4)%nat by lia.
    destruct (store mf' _ _) as [mf3|]; [|done]. injection Hst2 as <-. rewrite E4 in Hs2. change ((4 + 4) / 8)%nat with 1%nat in Hs2.
    rewrite (fset_zero_sim _ _ _ _ Hs') in Hs2 by (unfold mb_in; cbn [mb_ofs mb_size]; lia).
    eexists. split; [done|]. split; [|by apply (mf_ext_trans _ mf')].
    replace (ofs + 8 * k)%nat with (ofs + 4 * n + 4)%nat by lia.
    replace (advance mf3 k) with (advance (advance mf3 (n / 2)) 1); [done|].
    unfold advance. cbn [mc_map mc_buf mc_data]. f_equal. lia.
Qed.
End Macros.

(** ** A byte that is changed later *)

(** The address of byte [j] of the flow. *)
Definition addr_of (mf : mf_ctx) (j : nat) : nat := (8 * rank (set_in mf) (j / 8) + j mod 8)%nat.

Lemma addr_of_inj (mf : mf_ctx) (j k : nat) :
  set_in mf (j / 8) = true -> set_in mf (k / 8) = true -> addr_of mf j = addr_of mf k -> j = k.
Proof.
  unfold addr_of. intros Hj Hk E.
  pose proof (Nat.div_mod_eq j 8). pose proof (Nat.mod_upper_bound j 8 ltac:(lia)).
  pose proof (Nat.div_mod_eq k 8). pose proof (Nat.mod_upper_bound k 8 ltac:(lia)).
  destruct (Nat.lt_trichotomy (j / 8) (k / 8)) as [Hlt|[Heq|Hlt]].
  - pose proof (rank_mono _ _ _ Hlt Hj). lia.
  - rewrite Heq in E. lia.
  - pose proof (rank_mono _ _ _ Hlt Hk). lia.
Qed.

Lemma addr_of_lt (mf : mf_ctx) (f : flow) (pos j : nat) :
  mf_sim mf f pos -> (j < pos)%nat -> (addr_of mf j < length (mc_buf mf))%nat.
Proof.
  intros Hs Hj. rewrite (ms_buf _ _ _ Hs). pose proof (ms_pos _ _ _ Hs). unfold addr_of.
  pose proof (rank_le (set_in mf) (j / 8)). pose proof (Nat.div_mod_eq j 8). lia.
Qed.

Lemma poke_sim (mf : mf_ctx) (f : flow) (pos j : nat) (v : Z) :
  mf_sim mf f pos -> (j < pos)%nat -> set_in mf (j / 8) = true ->
  pushes mf (store mf (addr_of mf j) (be_bytes 1 v)) (fset f (Member j 1) v) pos.
Proof.
  intros Hs Hj Hset. pose proof (addr_of_lt mf f pos j Hs Hj) as Ha. pose proof (ms_pos _ _ _ Hs).
  assert (mb_in (Member j 1)) as Hm by (unfold mb_in; cbn [mb_ofs mb_size]; lia).
  pose proof (length_be_bytes 1 v) as Hl.
  unfold store. rewrite Hl. destruct (Nat.leb_spec (addr_of mf j + 1) (length (mc_buf mf))); [|lia].
  eexists. split; [done|]. rewrite <- Hl at 2. split; [|done].
  split; cbn [mc_map mc_buf mc_data]; change (set_in _) with (set_in mf); try apply Hs.
  - apply fset_wf, Hs.
  - rewrite length_store; [apply Hs|lia].
  - apply store_byte; [apply Hs|apply be_bytes_byte].
  - intros k Hk Hk'. change (nth (addr_of mf k) (take (addr_of mf j) (mc_buf mf) ++ be_bytes 1 v ++
      drop (addr_of mf j + length (be_bytes 1 v)) (mc_buf mf)) 0 = flow_byte (fset f (Member j 1) v) k).
    rewrite nth_store by lia. rewrite Hl, flow_byte_fset by (done || apply Hs). cbn [mb_ofs mb_size].
    destruct (decide (k = j)) as [->|Hne].
    + rewrite !Nat.leb_refl. destruct (Nat.ltb_spec (addr_of mf j) (addr_of mf j + 1)), (Nat.ltb_spec j (j + 1)); try lia.
      cbn [andb]. rewrite Nat.sub_diag, nth_be_bytes by lia. do 2 f_equal. lia.
    + assert (addr_of mf k <> addr_of mf j) as Hna by (intros E; by apply addr_of_inj in E).
      destruct (Nat.leb_spec (addr_of mf j) (addr_of mf k)), (Nat.ltb_spec (addr_of mf k) (addr_of mf j + 1)),
        (Nat.leb_spec j k), (Nat.ltb_spec k (j + 1)); try lia; cbn [andb]; by apply (ms_value _ _ _ Hs).
  - intros k Hk Hz. rewrite flow_byte_fset by (done || apply Hs). cbn [mb_ofs mb_size].
    destruct (Nat.leb_spec j k), (Nat.ltb_spec k (j + 1)); cbn [andb]; try by apply (ms_zero _ _ _ Hs).
    replace k with j in Hz by lia. destruct Hz; [lia|congruence].
Qed.

Lemma load_sim (mf : mf_ctx) (f : flow) (pos j : nat) :
  mf_sim mf f pos -> (j < pos)%nat -> set_in mf (j / 8) = true -> load mf (addr_of mf j) = Some (flow_byte f j).
Proof.
  intros Hs Hj Hset. unfold load. rewrite <- (ms_value _ _ _ Hs) by done.
  rewrite nth_lookup. change (8 * rank (set_in mf) (j / 8) + j mod 8)%nat with (addr_of mf j).
  destruct (lookup_lt_is_Some_2 (mc_buf mf) (addr_of mf j)) as [x ->]; [by apply (addr_of_lt mf f pos)|done].
Qed.

(** ** Start and end *)

Definition zero_flow : flow := replicate FLOW_U64S 0.

Lemma zero_flow_byte (j : nat) : flow_byte zero_flow j = 0.
Proof. unfold flow_byte, zero_flow. by rewrite nth_replicate_0, Z.shiftr_0_l. Qed.

Lemma mf_sim_init (buf : list Z) :
  length buf = (8 * FLOW_U64S)%nat -> Forall is_byte buf ->
  mf_sim (MfCtx FLOWMAP_EMPTY_INITIALIZER buf 0) zero_flow 0.
Proof.
  intros Hl Hb. split; cbn [mc_map mc_buf mc_data]; try done; try lia.
  - split; [done|]. apply Forall_replicate. unfold in_width. lia.
  - split; [done|]. apply Forall_replicate. unfold in_width. lia.
  - intros i _ Hs. unfold set_in in Hs. cbn [mc_map] in Hs. change FLOWMAP_EMPTY_INITIALIZER with flowmap_init in Hs.
    by rewrite flowmap_init_is_set in Hs.
  - intros j _ _. apply zero_flow_byte.
Qed.

Lemma be_get_bytes (bs : list Z) (f : flow) (o n : nat) :
  (forall k, (k < n)%nat -> nth k bs 0 = flow_byte f (o + k)) -> be bs n = get_bytes f o n.
Proof.
  induction n as [|n IH]; intros H; [done|]. cbn [be get_bytes]. rewrite IH, H by (lia || intros; apply H; lia). done.
Qed.

Lemma get_bytes_word (f : flow) (i : nat) : flow_wf f -> get_bytes f (8 * i) 8 = nth i f 0.
Proof.
  intros Hf. pose proof (get_bytes_width f (8 * i) 8) as Hg. pose proof (flow_word_width f i Hf) as Hw.
  apply Z.bits_inj'. intros j Hj. destruct (Z.lt_ge_cases j 64).
  - rewrite get_bytes_testbit, fbit_word by lia. f_equal. lia.
  - rewrite (in_width_high 64) by done. symmetry. by apply (in_width_high 64).
Qed.

Lemma fm_indices_rank (fm : flowmap) (k : nat) :
  (k < length (fm_indices fm))%nat -> rank (flowmap_is_set fm) (nth k (fm_indices fm) 0%nat) = k.
Proof. exact (rank_nth (flowmap_is_set fm) N_IDX k). Qed.

Section Result.
Variables (mf : mf_ctx) (f : flow) (pos : nat).
Hypothesis Hsim : mf_sim mf f pos.
Hypothesis Hpos : (pos mod 8 = 0)%nat.

Lemma sim_word (i : nat) : (i < N_IDX)%nat -> set_in mf i = true -> buf_word (mc_buf mf) (rank (set_in mf) i) = nth i f 0.
Proof.
  intros Hi Hs. apply (ms_below _ _ _ Hsim) in Hs as Hlt; [|done]. pose proof (Nat.div_mod_eq pos 8).
  rewrite <- get_bytes_word by apply Hsim. apply be_get_bytes. intros k Hk. rewrite nth_drop_Z.
  assert ((8 * i + k) / 8 = i)%nat as Ed by (symmetry; apply (Nat.div_unique _ _ _ k); lia).
  assert ((8 * i + k) mod 8 = k)%nat as Em by (symmetry; apply (Nat.mod_unique _ _ i); lia).
  rewrite <- (ms_value _ _ _ Hsim) by (rewrite ?Ed; (done || lia)). by rewrite Ed, Em.
Qed.

Lemma mf_result_values : mf_values (mf_result mf) = map (flow_u64_value f) (fm_indices (mc_map mf)).
Proof.
  cbn [mf_result mf_values]. apply (nth_ext _ _ 0 0); [by rewrite !length_map, length_seq|].
  intros k Hk. rewrite length_map, length_seq in Hk.
  rewrite (nth_indep _ 0 (buf_word (mc_buf mf) 0)) by (by rewrite length_map, length_seq).
  rewrite (nth_indep (map (flow_u64_value f) _) 0 (flow_u64_value f 0)) by (by rewrite length_map).
  rewrite !map_nth, seq_nth by done. cbn [Nat.add].
  pose proof (fm_indices_rank (mc_map mf) k Hk) as Hr.
  rewrite <- Hr at 1. assert (In (nth k (fm_indices (mc_map mf)) 0%nat) (fm_indices (mc_map mf))) as Hin by (by apply nth_In).
  apply fm_indices_In in Hin as [Hi Hs]. by apply sim_word.
Qed.

Lemma mf_result_wf : miniflow_wf (mf_result mf).
Proof.
  split; cbn [mf_result mf_map].
  - apply Hsim.
  - intros i Hi Hs. apply (ms_below _ _ _ Hsim) in Hs; [|done]. pose proof (ms_pos _ _ _ Hsim). lia.
  - rewrite mf_result_values. apply length_map.
  - rewrite mf_result_values. apply Forall_map, Forall_forall. intros i _. apply flow_word_width, Hsim.
Qed.

(** The miniflow in the buffer is the flow. *)
Lemma mf_result_expand : miniflow_expand (mf_result mf) = f.
Proof.
  pose proof mf_result_wf as Hwf.
  apply flow_ext; [apply expand_length|apply Hsim|]. intros i Hi. rewrite expand_nth by done.
  pose proof (miniflow_get_build (mc_map mf) _ (flow_u64_value f) i (ms_map _ _ _ Hsim) mf_result_values) as Hg.
  change (Miniflow _ _) with (mf_result mf) in Hg. rewrite Hg. destruct (flowmap_is_set (mc_map mf) i) eqn:E; [done|].
  symmetry. rewrite <- get_bytes_word by apply Hsim. rewrite <- (be_get_bytes (replicate 8 0)); [done|].
  intros k Hk. rewrite nth_replicate_0. symmetry. apply (ms_zero _ _ _ Hsim); [unfold FLOW_U64S in *; lia|].
  right. change (set_in mf i = false) in E. rewrite <- E. f_equal. symmetry. apply (Nat.div_unique _ _ _ k); lia.
Qed.
End Result.
