(* ===== verification/FlowExtract.v ===== *)
(** * Flow extraction (lib/flow.c, [miniflow_extract] and [flow_extract])

    The fields of a packet and of its metadata are pushed to a miniflow in
    the order of [struct flow], while the layer offsets of the packet, its
    offload flags and its hash are set.  The code threads the packet and the
    miniflow through some forty pushes and leaves by [goto out] from several
    places; [xM] is the monad of those effects.  [packet_fields] is the
    reference: the list of the members of [struct flow] that the headers of
    the packet determine, with their values. *)

From S2P Require Import Prelude Util Flowmap Hash Miniflow MetaFlow Trie FlowBits FlowFields MetaFields Packet MfCtx.
From stdpp Require Import prelude list.
From Stdlib Require Import ZArith Lia.
Open Scope Z_scope.
Open Scope ovs_scope.

(** ** The monad *)

Record xst := Xst { x_pkt : dp_packet; x_mf : mf_ctx }.

(** [None]: a read or a store out of bounds, or a failed assertion;
    [Some (None, s)]: [goto out]. *)
Definition xM (A : Type) : Type := xst -> option (option A * xst).

Definition xret {A} (a : A) : xM A := fun s => Some (Some a, s).
Definition xbind {A B} (m : xM A) (k : A -> xM B) : xM B := fun s =>
  match m s with
  | Some (Some a, s) => k a s
  | Some (None, s) => Some (None, s)
  | None => None
  end.
Definition goto_out {A} : xM A := fun s => Some (None, s).

(** A computation on the side, a push to the miniflow, an update of the packet. *)
Definition pure {A} (r : option A) : xM A := fun s =>
  match r with Some a => Some (Some a, s) | None => None end.
Definition push (g : mf_ctx -> option mf_ctx) : xM unit := fun s =>
  match g (x_mf s) with Some mf => Some (Some tt, Xst (x_pkt s) mf) | None => None end.
Definition update (g : dp_packet -> option dp_packet) : xM unit := fun s =>
  match g (x_pkt s) with Some b => Some (Some tt, Xst b (x_mf s)) | None => None end.
Definition from_mf {A} (g : mf_ctx -> option A) : xM A := fun s => pure (g (x_mf s)) s.

Declare Scope extract_scope.
Notation "'let!' x := m 'in' k" := (xbind m (fun x => k))
  (at level 10, x name, k at level 200) : extract_scope.
Notation "'let!' ' x := m 'in' k" := (xbind m (fun x => k))
  (at level 10, x strict pattern, k at level 200) : extract_scope.
Notation "m ';;;' k" := (xbind m (fun _ => k)) (at level 199, right associativity) : extract_scope.
Open Scope extract_scope.

(** ** Members that are pushed as a whole *)

Definition tunnel : member := Member 0 72.
Definition tun_metadata : member := Member 72 272.
Definition tun_present : member := Member 72 8.
Definition tun_opts_gnv : member := Member 88 256.
Definition vlans : member := Member 488 8.
Definition nsh : member := Member 632 24.

Definition FLOW_TNL_F_UDPIF : Z := Z.shiftl 1 4.

Section Extract.
Context `{Hash}.
Variable asserts : bool.
Variable flow_vlan_limit : Z.

Definition push_uint32 (mb : member) (v : Z) : xM unit := push (fun mf => miniflow_push_uint32 asserts mf mb v).
Definition push_uint16 (mb : member) (v : Z) : xM unit := push (fun mf => miniflow_push_uint16 asserts mf mb v).
Definition push_uint8 (mb : member) (v : Z) : xM unit := push (fun mf => miniflow_push_uint8 asserts mf mb v).
Definition pad_to_64 (mb : member) : xM unit := push (fun mf => miniflow_pad_to_64 asserts mf mb).
Definition pad_from_64 (mb : member) : xM unit := push (fun mf => miniflow_pad_from_64 asserts mf mb).
Definition push_words (mb : member) (bs : list Z) (n : nat) : xM unit :=
  push (fun mf => miniflow_push_words asserts mf mb bs n).
Definition push_words_32 (mb : member) (bs : list Z) (n : nat) : xM unit :=
  push (fun mf => miniflow_push_words_32 asserts mf mb bs n).
Definition push_macs (mb : member) (bs : list Z) : xM unit := push (fun mf => miniflow_push_macs asserts mf mb bs).

(** ** Metadata *)

Definition extract_tunnel (tnl : list Z) : xM unit :=
  if flow_tnl_dst_is_set tnl then
    push_words tunnel (bytes_at tnl 0 72) 9;;;
    if Z.land (tnl_flags tnl) FLOW_TNL_F_UDPIF =? 0 then
      if negb (tnl_present_map tnl =? 0) then push_words tun_metadata (bytes_at tnl 72 272) 34 else xret tt
    else
      if negb (tnl_present_len tnl =? 0) then
        let n := DIV_ROUND_UP (Z.to_nat (tnl_present_len tnl)) 8 in
        push_words tun_present (bytes_at tnl 72 8) 1;;;
        push_words tun_opts_gnv (bytes_at tnl 88 (8 * n)) n
      else xret tt
  else xret tt.

(** The result is [ct_nw_proto_p]. *)
Definition extract_ct (md : pkt_metadata) (pkt_type : Z) : xM (option nat) :=
  if negb (md_ct_state md =? 0) then
    push_uint32 recirc_id (md_recirc_id md);;;
    push_uint8 ct_state (md_ct_state md);;;
    let! ct_nw_proto_p := from_mf (fun mf => Some (miniflow_pointer mf ct_nw_proto)) in
    push_uint8 ct_nw_proto 0;;;
    push_uint16 ct_zone (md_ct_zone md);;;
    push_uint32 ct_mark (md_ct_mark md);;;
    push_uint32 packet_type pkt_type;;;
    (if negb (md_ct_label md =? 0) then push_words ct_label (be_bytes 16 (md_ct_label md)) 2 else xret tt);;;
    xret (Some ct_nw_proto_p)
  else
    (if negb (md_recirc_id md =? 0) then push_uint32 recirc_id (md_recirc_id md);;; pad_to_64 recirc_id else xret tt);;;
    pad_from_64 packet_type;;;
    push_uint32 packet_type pkt_type;;;
    xret None.

Definition extract_metadata (md : pkt_metadata) (pkt_type : Z) : xM (option nat) :=
  extract_tunnel (md_tunnel md);;;
  (if negb (md_skb_priority md =? 0) || negb (md_pkt_mark md =? 0) then
     push_uint32 skb_priority (md_skb_priority md);;;
     push_uint32 pkt_mark (md_pkt_mark md)
   else xret tt);;;
  push_uint32 dp_hash (md_dp_hash md);;;
  push_uint32 in_port (md_in_port md);;;
  extract_ct md pkt_type.

(** ** Link layer *)

Definition extract_l2 (p : list Z) (pkt_type : Z) (c : cursor) : xM (Z * cursor) :=
  if pkt_type =? PT_ETH then
    if (c_size c <? ETH_HEADER_LEN)%nat then goto_out
    else
      let! macs := pure (rd_bytes p (c_data c) 12) in
      push_macs dl_dst macs;;;
      let! '(vlan_hdrs, c) := pure (parse_vlan flow_vlan_limit p c) in
      let! '(dl_type_, c) := pure (parse_ethertype p c) in
      push_uint16 dl_type dl_type_;;;
      pad_to_64 dl_type;;;
      (if (0 <? length vlan_hdrs)%nat
       then push_words_32 vlans (concat (map (be_bytes 4) vlan_hdrs)) (length vlan_hdrs) else xret tt);;;
      xret (dl_type_, c)
  else
    let dl_type_ := u16 pkt_type in
    pad_from_64 dl_type;;;
    push_uint16 dl_type dl_type_;;;
    pad_to_64 dl_type;;;
    xret (dl_type_, c).

Definition extract_mpls (p : list Z) (dl_type_ : Z) (c : cursor) : xM cursor :=
  if eth_type_mpls dl_type_ then
    let mpls := c_data c in
    update (fun b => Some (set_l2_5_ofs b (Z.of_nat (c_data c))));;;
    let! '(count, c) := pure (parse_mpls p c) in
    let! bs := pure (rd_bytes p mpls (4 * count)) in
    push_words_32 (mpls_lse 0) bs count;;;
    xret c
  else xret c.

(** ** Network layer *)

(** What the network layer leaves to the transport layer. *)
Record l3_info := L3Info {
  l3_c : cursor;
  l3_nw_frag : Z;
  l3_nw_tos : Z;
  l3_nw_ttl : Z;
  l3_nw_proto : Z;
  l3_ct_tp_src : Z;
  l3_ct_tp_dst : Z
}.

(** [*ct_nw_proto_p = proto; if ( *ct_nw_proto_p ) ...]: the addresses of the
    original direction tuple, and its ports. *)
Definition extract_ct_tuple (ct_nw_proto_p : nat) (t : ct_tuple) (mb : member) (n : nat) : xM (Z * Z) :=
  push (fun mf => store mf ct_nw_proto_p (be_bytes 1 (tup_proto t)));;;
  let! proto := from_mf (fun mf => load mf ct_nw_proto_p) in
  if negb (proto =? 0) then
    push_words mb (be_bytes (4 * n) (tup_src t) ++ be_bytes (4 * n) (tup_dst t)) n;;;
    xret (tup_src_port t, tup_dst_port t)
  else xret (0, 0).

Definition extract_ipv4 (p : list Z) (md : pkt_metadata) (ct_nw_proto_p : option nat) (c : cursor) : xM l3_info :=
  let nh := c_data c in
  let! ok := pure (ipv4_sanity_check p nh (c_size c)) in
  match ok with
  | None => goto_out
  | Some (ip_len, tot_len) =>
    update (fun b => dp_packet_set_l2_pad_size b (Z.of_nat (c_size c - tot_len)));;;
    let c := Cursor (c_data c) tot_len in
    let! addrs := pure (rd_bytes p (nh + 12) 8) in
    push_words nw_src addrs 1;;;
    let! '(tp_src_, tp_dst_) :=
      match ct_nw_proto_p with
      | Some a => if negb (md_ct_orig_tuple_ipv6 md) then extract_ct_tuple a (md_ct_orig_tuple md) ct_nw_src 1
                  else xret (0, 0)
      | None => xret (0, 0)
      end in
    push_uint32 ipv6_label 0;;;
    let! tos := pure (rd p (nh + 1) 1) in
    let! ttl := pure (rd p (nh + 8) 1) in
    let! proto := pure (rd p (nh + 9) 1) in
    let! frag := pure (ipv4_get_nw_frag p nh) in
    let! '(_, c) := pure (data_pull c ip_len) in
    xret (L3Info c frag tos ttl proto tp_src_ tp_dst_)
  end.

Definition extract_ipv6 (p : list Z) (md : pkt_metadata) (ct_nw_proto_p : option nat) (c : cursor) : xM l3_info :=
  let nh := c_data c in
  let! ok := pure (ipv6_sanity_check p nh (c_size c)) in
  if negb ok then goto_out
  else
    let! '(_, c) := pure (data_pull c IPV6_HEADER_LEN) in
    let! plen := pure (rd p (nh + 4) 2) in
    update (fun b => dp_packet_set_l2_pad_size b (Z.of_nat (c_size c) - plen));;;
    let c := Cursor (c_data c) (Z.to_nat plen) in
    let! src := pure (rd_bytes p (nh + 8) 16) in
    push_words ipv6_src src 2;;;
    let! dst := pure (rd_bytes p (nh + 24) 16) in
    push_words ipv6_dst dst 2;;;
    let! '(tp_src_, tp_dst_) :=
      match ct_nw_proto_p with
      | Some a => if md_ct_orig_tuple_ipv6 md then extract_ct_tuple a (md_ct_orig_tuple md) ct_ipv6_src 4
                  else xret (0, 0)
      | None => xret (0, 0)
      end in
    let! tc_flow := pure (rd p nh 4) in
    let! ttl := pure (rd p (nh + 7) 1) in
    let! nxt := pure (rd p (nh + 6) 1) in
    let! '(ok, s) := pure (parse_ipv6_ext_hdrs p c nxt 0) in
    if negb ok then goto_out
    else
      push_uint32 ipv6_label (Z.land tc_flow IPV6_LABEL_MASK);;;
      xret (L3Info (es_c s) (es_nw_frag s) (u8 (Z.shiftr tc_flow 20)) ttl (es_nw_proto s) tp_src_ tp_dst_).

Definition extract_arp (p : list Z) (c : cursor) : xM unit :=
  match data_try_pull c ARP_ETH_HEADER_LEN with
  | None => xret tt
  | Some (arp, c) =>
    let! hrd := pure (rd p arp 2) in
    let! pro := pure (rd p (arp + 2) 2) in
    let! hln := pure (rd p (arp + 4) 1) in
    let! pln := pure (rd p (arp + 5) 1) in
    if (hrd =? 1) && (pro =? ETH_TYPE_IP) && (hln =? Z.of_nat ETH_ADDR_LEN) && (pln =? 4) then
      let! spa := pure (rd p (arp + 14) 4) in
      push_uint32 nw_src spa;;;
      let! tpa := pure (rd p (arp + 24) 4) in
      push_uint32 nw_dst tpa;;;
      let! op := pure (rd p (arp + 6) 2) in
      (if op <=? 0xff then push_uint32 ipv6_label 0;;; push_uint32 nw_frag op else xret tt);;;
      let! sha := pure (rd_bytes p (arp + 8) 6) in
      let! tha := pure (rd_bytes p (arp + 18) 6) in
      push_macs arp_sha (sha ++ tha);;;
      pad_to_64 arp_tha
    else xret tt
  end.

Definition nsh_bytes (k : ovs_key_nsh) : list Z :=
  be_bytes 1 (nk_flags k) ++ be_bytes 1 (nk_ttl k) ++ be_bytes 1 (nk_mdtype k) ++ be_bytes 1 (nk_np k)
  ++ be_bytes 4 (nk_path_hdr k) ++ concat (map (be_bytes 4) (nk_context k)).

Definition extract_nsh (p : list Z) (c : cursor) : xM unit :=
  let! '(key, c) := pure (parse_nsh p c) in
  match key with
  | Some key => push_words nsh (nsh_bytes key) 3
  | None => xret tt
  end.

Definition extract_l3 (p : list Z) (md : pkt_metadata) (ct_nw_proto_p : option nat) (dl_type_ : Z) (c : cursor)
    : xM l3_info :=
  update (fun b => Some (set_l3_ofs b (Z.of_nat (c_data c))));;;
  if dl_type_ =? ETH_TYPE_IP then extract_ipv4 p md ct_nw_proto_p c
  else if dl_type_ =? ETH_TYPE_IPV6 then extract_ipv6 p md ct_nw_proto_p c
  else
    (if (dl_type_ =? ETH_TYPE_ARP) || (dl_type_ =? ETH_TYPE_RARP) then extract_arp p c
     else if dl_type_ =? ETH_TYPE_NSH then extract_nsh p c
     else xret tt);;;
    goto_out.

(** ** Transport layer *)

Definition update_rss_hash (dl_type_ : Z) : xM unit :=
  if dl_type_ =? ETH_TYPE_IP then update dp_packet_update_rss_hash_ipv4_tcp_udp
  else if dl_type_ =? ETH_TYPE_IPV6 then update dp_packet_update_rss_hash_ipv6_tcp_udp
  else xret tt.

(** The two ports, and those of the original direction tuple. *)
Definition push_ports (src dst ct_src ct_dst : Z) : xM unit :=
  push_uint16 tp_src src;;;
  push_uint16 tp_dst dst;;;
  push_uint16 ct_tp_src ct_src;;;
  push_uint16 ct_tp_dst ct_dst.

Definition extract_tcp (p : list Z) (dl_type_ : Z) (i : l3_info) : xM unit :=
  let tcp := c_data (l3_c i) in
  if (TCP_HEADER_LEN <=? c_size (l3_c i))%nat then
    let! tcp_ctl := pure (rd p (tcp + 12) 2) in
    let tcp_hdr_len := Z.to_nat (Z.shiftr tcp_ctl 12 * 4) in
    if (TCP_HEADER_LEN <=? tcp_hdr_len)%nat && (tcp_hdr_len <=? c_size (l3_c i))%nat then
      pad_from_64 tcp_flags;;;
      push_uint32 tcp_flags (Z.shiftl (Z.land tcp_ctl 0x0fff) 16);;;
      let! src := pure (rd p tcp 2) in
      let! dst := pure (rd p (tcp + 2) 2) in
      push_ports src dst (l3_ct_tp_src i) (l3_ct_tp_dst i);;;
      update_rss_hash dl_type_;;;
      update (fun b => Some (dp_packet_l4_proto_set_tcp b))
    else xret tt
  else xret tt.

Definition extract_udp (p : list Z) (dl_type_ : Z) (i : l3_info) : xM unit :=
  let udp := c_data (l3_c i) in
  if (UDP_HEADER_LEN <=? c_size (l3_c i))%nat then
    let! src := pure (rd p udp 2) in
    let! dst := pure (rd p (udp + 2) 2) in
    push_ports src dst (l3_ct_tp_src i) (l3_ct_tp_dst i);;;
    update_rss_hash dl_type_;;;
    update (fun b => Some (dp_packet_l4_proto_set_udp b))
  else xret tt.

Definition extract_sctp (p : list Z) (i : l3_info) : xM unit :=
  let sctp := c_data (l3_c i) in
  if (SCTP_HEADER_LEN <=? c_size (l3_c i))%nat then
    let! src := pure (rd p sctp 2) in
    let! dst := pure (rd p (sctp + 2) 2) in
    push_ports src dst (l3_ct_tp_src i) (l3_ct_tp_dst i);;;
    update (fun b => Some (dp_packet_l4_proto_set_sctp b))
  else xret tt.

Definition extract_icmp (p : list Z) (i : l3_info) : xM unit :=
  let icmp := c_data (l3_c i) in
  if (ICMP_HEADER_LEN <=? c_size (l3_c i))%nat then
    let! type := pure (rd p icmp 1) in
    let! code := pure (rd p (icmp + 1) 1) in
    push_ports type code (l3_ct_tp_src i) (l3_ct_tp_dst i)
  else xret tt.

(** Type and code, and a word in place of [ct_tp_src] and [ct_tp_dst]. *)
Definition push_igmp (type code group : Z) : xM unit :=
  push_uint16 tp_src type;;;
  push_uint16 tp_dst code;;;
  pad_to_64 tp_dst;;;
  push_uint32 igmp_group_ip4 group;;;
  pad_to_64 igmp_group_ip4.

Definition extract_igmp (p : list Z) (i : l3_info) : xM unit :=
  let igmp := c_data (l3_c i) in
  if (IGMP_HEADER_LEN <=? c_size (l3_c i))%nat then
    let! type := pure (rd p igmp 1) in
    let! code := pure (rd p (igmp + 1) 1) in
    let! group := pure (rd p (igmp + 4) 4) in
    push_igmp type code group
  else xret tt.

Definition extract_icmpv6 (p : list Z) (i : l3_info) : xM unit :=
  if (ICMP6_DATA_HEADER_LEN <=? c_size (l3_c i))%nat then
    let! '(icmp6, c) := pure (data_pull (l3_c i) ICMP6_DATA_HEADER_LEN) in
    let! '(nd, _) := pure (parse_icmpv6 p c icmp6) in
    let! type := pure (rd p icmp6 1) in
    let! code := pure (rd p (icmp6 + 1) 1) in
    match nd with
    | Some nd =>
      match nd_target_p nd with
      | Some target => let! bs := pure (rd_bytes p target 16) in push_words nd_target bs 2
      | None => xret tt
      end;;;
      push_macs arp_sha (be_bytes 6 (nd_sll nd) ++ be_bytes 6 (nd_tll nd));;;
      (if negb (nd_opt_type nd =? 0) then push_uint16 tcp_flags (nd_opt_type nd);;; pad_to_64 tcp_flags
       else pad_to_64 arp_tha);;;
      push_igmp type code (nd_rso_flags nd)
    | None => push_ports type code (l3_ct_tp_src i) (l3_ct_tp_dst i)
    end
  else xret tt.

(** A later fragment has the ports of the original direction tuple only. *)
Definition extract_later_frag (p : list Z) (ct_nw_proto_p : option nat) (i : l3_info) : xM unit :=
  match ct_nw_proto_p with
  | None => xret tt
  | Some a =>
    let! proto := from_mf (fun mf => load mf a) in
    let! has_ports :=
      if (proto =? IPPROTO_TCP) || (proto =? IPPROTO_UDP) || (proto =? IPPROTO_SCTP) || (proto =? IPPROTO_ICMP)
      then xret true
      else if proto =? IPPROTO_ICMPV6 then
        let! nd := pure (icmp6_is_nd p (c_data (l3_c i))) in xret (negb nd)
      else xret false in
    if has_ports : bool then
      pad_from_64 ct_tp_src;;;
      push_uint16 ct_tp_src (l3_ct_tp_src i);;;
      push_uint16 ct_tp_dst (l3_ct_tp_dst i)
    else xret tt
  end.

Definition extract_l4 (p : list Z) (ct_nw_proto_p : option nat) (dl_type_ : Z) (i : l3_info) : xM unit :=
  update (fun b => Some (set_l4_ofs b (Z.of_nat (c_data (l3_c i)))));;;
  push_uint32 nw_frag
    (Z.lor (Z.shiftl (l3_nw_frag i) 24)
      (Z.lor (Z.shiftl (l3_nw_tos i) 16) (Z.lor (Z.shiftl (l3_nw_ttl i) 8) (l3_nw_proto i))));;;
  if Z.land (l3_nw_frag i) FLOW_NW_FRAG_LATER =? 0 then
    if l3_nw_proto i =? IPPROTO_TCP then extract_tcp p dl_type_ i
    else if l3_nw_proto i =? IPPROTO_UDP then extract_udp p dl_type_ i
    else if l3_nw_proto i =? IPPROTO_SCTP then extract_sctp p i
    else if l3_nw_proto i =? IPPROTO_ICMP then extract_icmp p i
    else if l3_nw_proto i =? IPPROTO_IGMP then extract_igmp p i
    else if l3_nw_proto i =? IPPROTO_ICMPV6 then extract_icmpv6 p i
    else xret tt
  else extract_later_frag p ct_nw_proto_p i.

(** ** The whole packet *)

Definition extract_packet (p : list Z) (md : pkt_metadata) (pkt_type : Z) : xM unit :=
  let! ct_nw_proto_p := extract_metadata md pkt_type in
  update (fun b => Some (if dp_packet_tunnel b then dp_packet_reset_outer_offsets b else dp_packet_reset_offsets b));;;
  let! '(dl_type_, c) := extract_l2 p pkt_type (Cursor 0 (length p)) in
  let! c := extract_mpls p dl_type_ c in
  let! i := extract_l3 p md ct_nw_proto_p dl_type_ c in
  extract_l4 p ct_nw_proto_p dl_type_ i.

(** [buf] is what is in the space for the values of [dst] before the call. *)
Definition miniflow_extract (buf : list Z) (b : dp_packet) : option (miniflow * dp_packet) :=
  match extract_packet (dp_data b) (dp_md b) (dp_packet_type b) (Xst b (MfCtx FLOWMAP_EMPTY_INITIALIZER buf 0)) with
  | Some (_, s) => Some (mf_result (x_mf s), x_pkt s)
  | None => None
  end.

Definition flow_extract (buf : list Z) (b : dp_packet) : option (flow * dp_packet) :=
  '(mf, b) ← miniflow_extract buf b;
  Some (miniflow_expand mf, b).
End Extract.

(** ** TCP flags alone *)

(** [first_vlan_tci_p] is set when there is a VLAN header. *)
Definition parse_dl_type (flow_vlan_limit : Z) (p : list Z) (c : cursor) : option (Z * option Z * cursor) :=
  '(vlan_hdrs, c) ← parse_vlan flow_vlan_limit p c;
  '(t, c) ← parse_ethertype p c;
  Some (t, wrap 16 <$> head vlan_hdrs, c).

(** The result and what is stored through the pointers, if anything. *)
Record tcp_flags_result := TcpFlagsResult {
  tf_flags : Z;
  tf_dl_type : option Z;
  tf_nw_frag : option Z;
  tf_first_vlan_tci : option Z;
  tf_packet : dp_packet
}.

Definition parse_tcp_flags_l4 (p : list Z) (b : dp_packet) (c : cursor) (t nw_frag_ nw_proto_ : Z) (tci : option Z)
    : option tcp_flags_result :=
  let b := set_l4_ofs b (Z.of_nat (c_data c)) in
  let ret flags b := Some (TcpFlagsResult flags (Some t) (Some nw_frag_) tci b) in
  if Z.land nw_frag_ FLOW_NW_FRAG_LATER =? 0 then
    if (nw_proto_ =? IPPROTO_TCP) && (TCP_HEADER_LEN <=? c_size c)%nat then
      tcp_ctl ← rd p (c_data c + 12) 2;
      ret (Z.land tcp_ctl 0x0fff) (dp_packet_l4_proto_set_tcp b)
    else if (nw_proto_ =? IPPROTO_UDP) && (UDP_HEADER_LEN <=? c_size c)%nat then
      ret 0 (dp_packet_l4_proto_set_udp b)
    else if (nw_proto_ =? IPPROTO_SCTP) && (SCTP_HEADER_LEN <=? c_size c)%nat then
      ret 0 (dp_packet_l4_proto_set_sctp b)
    else ret 0 b
  else ret 0 b.

Definition parse_tcp_flags (flow_vlan_limit : Z) (b : dp_packet) : option tcp_flags_result :=
  let p := dp_data b in
  if negb (dp_packet_is_eth b) then Some (TcpFlagsResult 0 None None None b)
  else
    let b := dp_packet_reset_offsets b in
    '(t, tci, c) ← parse_dl_type flow_vlan_limit p (Cursor 0 (length p));
    let b := if eth_type_mpls t then set_l2_5_ofs b (Z.of_nat (c_data c)) else b in
    let b := set_l3_ofs b (Z.of_nat (c_data c)) in
    let nh := c_data c in
    if t =? ETH_TYPE_IP then
      ok ← ipv4_sanity_check p nh (c_size c);
      match ok with
      | None => Some (TcpFlagsResult 0 (Some t) None tci b)
      | Some (ip_len, tot_len) =>
        b ← dp_packet_set_l2_pad_size b (Z.of_nat (c_size c - tot_len));
        proto ← rd p (nh + 9) 1;
        frag ← ipv4_get_nw_frag p nh;
        '(_, c) ← data_pull (Cursor (c_data c) tot_len) ip_len;
        parse_tcp_flags_l4 p b c t frag proto tci
      end
    else if t =? ETH_TYPE_IPV6 then
      ok ← ipv6_sanity_check p nh (c_size c);
      if negb ok then Some (TcpFlagsResult 0 (Some t) None tci b)
      else
        '(_, c) ← data_pull c IPV6_HEADER_LEN;
        plen ← rd p (nh + 4) 2;
        b ← dp_packet_set_l2_pad_size b (Z.of_nat (c_size c) - plen);
        nxt ← rd p (nh + 6) 1;
        '(ok, s) ← parse_ipv6_ext_hdrs p (Cursor (c_data c) (Z.to_nat plen)) nxt 0;
        if negb ok then Some (TcpFlagsResult 0 (Some t) None tci b)
        else parse_tcp_flags_l4 p b (es_c s) t (es_nw_frag s) (es_nw_proto s) tci
    else Some (TcpFlagsResult 0 (Some t) None tci b).
