(* ===== verification/ExtractSpec.v ===== *)
(** * What flow extraction promises

    The reference for [miniflow_extract]: plain reads of header fields (no
    bounds checks, no buffer, no map), one list entry for each member of
    [struct flow] that gets a value, and the new packet.  A member that no
    entry names is zero. *)

From S2P Require Import Prelude Util Flowmap Hash Miniflow MetaFlow Trie FlowBits FlowFields MetaFields Packet MfCtx FlowExtract.
From stdpp Require Import prelude list.
From Stdlib Require Import ZArith Lia.
Open Scope Z_scope.
Open Scope ovs_scope.

(** ** Fields *)

Definition field : Type := member * Z.

Definition set_fields (f : flow) (l : list field) : flow := foldl (fun f x => fset f (fst x) (snd x)) f l.

Definition vlan_qtag (i : nat) : member := Member (488 + 4 * i) 4.

(** The 32-bit members [mb 0], [mb 1], ... *)
Definition word_fields (mb : nat -> member) (vs : list Z) : list field := imap (fun i v => (mb i, v)) vs.

(** ** Metadata *)

Definition tunnel_fields (tnl : list Z) : list field :=
  if flow_tnl_dst_is_set tnl then
    (tunnel, get tnl 0 72) ::
    if Z.land (tnl_flags tnl) FLOW_TNL_F_UDPIF =? 0 then
      if tnl_present_map tnl =? 0 then [] else [(tun_metadata, get tnl 72 272)]
    else
      let n := (8 * DIV_ROUND_UP (Z.to_nat (tnl_present_len tnl)) 8)%nat in
      if tnl_present_len tnl =? 0 then [] else [(tun_present, get tnl 72 8); (Member 88 n, get tnl 88 n)]
  else [].

Definition has_ct (md : pkt_metadata) : bool := negb (md_ct_state md =? 0).

Definition metadata_fields (md : pkt_metadata) (pkt_type : Z) : list field :=
  tunnel_fields (md_tunnel md)
  ++ [(skb_priority, md_skb_priority md); (pkt_mark, md_pkt_mark md); (dp_hash, md_dp_hash md);
      (in_port, md_in_port md); (recirc_id, md_recirc_id md)]
  ++ (if has_ct md then [(ct_state, md_ct_state md); (ct_zone, md_ct_zone md); (ct_mark, md_ct_mark md)] else [])
  ++ [(packet_type, pkt_type)]
  ++ (if has_ct md then [(ct_label, md_ct_label md)] else []).

(** ** Layers *)

Section Spec.
Context `{Hash}.
Variable flow_vlan_limit : Z.

(** The fields of a layer, the packet after it, and what the next layer needs
    (none when there is no next layer). *)
Definition layer (A : Type) : Type := list field * dp_packet * option A.

Definition l2_spec (p : list Z) (b : dp_packet) : layer (Z * cursor) :=
  if dp_packet_is_eth b then
    if (length p <? ETH_HEADER_LEN)%nat then ([], b, None)
    else
      match parse_vlan flow_vlan_limit p (Cursor 0 (length p)) with
      | Some (hdrs, c) =>
        match parse_ethertype p c with
        | Some (t, c) =>
          ([(dl_dst, get p 0 6); (dl_src, get p 6 6); (dl_type, t)] ++ word_fields vlan_qtag hdrs, b, Some (t, c))
        | None => ([], b, None)
        end
      | None => ([], b, None)
      end
  else ([(dl_type, u16 (dp_packet_type b))], b, Some (u16 (dp_packet_type b), Cursor 0 (length p))).

Definition mpls_spec (p : list Z) (t : Z) (c : cursor) (b : dp_packet) : layer cursor :=
  if eth_type_mpls t then
    match parse_mpls p c with
    | Some (count, c') =>
      (word_fields mpls_lse (map (fun i => get p (c_data c + 4 * i) 4) (seq 0 count)),
       set_l2_5_ofs b (Z.of_nat (c_data c)), Some c')
    | None => ([], b, None)
    end
  else ([], b, Some c).

Definition pad_of (b : dp_packet) (n : Z) : dp_packet :=
  set_ofs b n (dp_l2_5_ofs b) (dp_l3_ofs b) (dp_l4_ofs b).

(** The tuple counts when it is for this IP version and its protocol is set. *)
Definition tuple_of (md : pkt_metadata) (ipv6 : bool) : option ct_tuple :=
  if has_ct md && eqb (md_ct_orig_tuple_ipv6 md) ipv6 then Some (md_ct_orig_tuple md) else None.

Definition tuple_ports (t : option ct_tuple) : Z * Z :=
  match t with
  | Some t => if u8 (tup_proto t) =? 0 then (0, 0) else (tup_src_port t, tup_dst_port t)
  | None => (0, 0)
  end.

Definition tuple_fields (t : option ct_tuple) (src dst : member) : list field :=
  match t with
  | Some t => (ct_nw_proto, tup_proto t) ::
              if u8 (tup_proto t) =? 0 then [] else [(src, tup_src t); (dst, tup_dst t)]
  | None => []
  end.

Definition ipv4_spec (p : list Z) (c : cursor) (b : dp_packet) : layer l3_info :=
  let nh := c_data c in
  let t := tuple_of (dp_md b) false in
  match ipv4_sanity_check p nh (c_size c) with
  | Some (Some (ip_len, tot_len)) =>
    ([(nw_src, get p (nh + 12) 4); (nw_dst, get p (nh + 16) 4)] ++ tuple_fields t ct_nw_src ct_nw_dst,
     pad_of b (Z.of_nat (c_size c - tot_len)),
     Some (L3Info (Cursor (nh + ip_len) (tot_len - ip_len)) (default 0 (ipv4_get_nw_frag p nh))
             (get p (nh + 1) 1) (get p (nh + 8) 1) (get p (nh + 9) 1) (tuple_ports t).1 (tuple_ports t).2))
  | _ => ([], b, None)
  end.

Definition ipv6_spec (p : list Z) (c : cursor) (b : dp_packet) : layer l3_info :=
  let nh := c_data c in
  let t := tuple_of (dp_md b) true in
  match ipv6_sanity_check p nh (c_size c) with
  | Some true =>
    let plen := Z.to_nat (get p (nh + 4) 2) in
    let fields := [(ipv6_src, get p (nh + 8) 16); (ipv6_dst, get p (nh + 24) 16)]
                  ++ tuple_fields t ct_ipv6_src ct_ipv6_dst in
    let b := pad_of b (Z.of_nat (c_size c - 40 - plen)) in
    match parse_ipv6_ext_hdrs p (Cursor (nh + 40) plen) (get p (nh + 6) 1) 0 with
    | Some (true, s) =>
      (fields ++ [(ipv6_label, Z.land (get p nh 4) IPV6_LABEL_MASK)], b,
       Some (L3Info (es_c s) (es_nw_frag s) (u8 (Z.shiftr (get p nh 4) 20)) (get p (nh + 7) 1) (es_nw_proto s)
               (tuple_ports t).1 (tuple_ports t).2))
    | _ => (fields, b, None)
    end
  | _ => ([], b, None)
  end.

Definition arp_fields (p : list Z) (c : cursor) : list field :=
  let arp := c_data c in
  if (c_size c <? ARP_ETH_HEADER_LEN)%nat then []
  else if (get p arp 2 =? 1) && (get p (arp + 2) 2 =? ETH_TYPE_IP) && (get p (arp + 4) 1 =? 6) && (get p (arp + 5) 1 =? 4)
  then
    [(nw_src, get p (arp + 14) 4); (nw_dst, get p (arp + 24) 4)]
    ++ (if get p (arp + 6) 2 <=? 0xff then [(nw_proto, get p (arp + 6) 2)] else [])
    ++ [(arp_sha, get p (arp + 8) 6); (arp_tha, get p (arp + 18) 6)]
  else [].

Definition nsh_fields (p : list Z) (c : cursor) : list field :=
  match parse_nsh p c with
  | Some (Some k, _) =>
    [(nsh_flags, nk_flags k); (nsh_ttl, nk_ttl k); (nsh_mdtype, nk_mdtype k); (nsh_np, nk_np k);
     (nsh_path_hdr, nk_path_hdr k)] ++ word_fields nsh_context (nk_context k)
  | _ => []
  end.

Definition l3_spec (p : list Z) (t : Z) (c : cursor) (b : dp_packet) : layer l3_info :=
  let b := set_l3_ofs b (Z.of_nat (c_data c)) in
  if t =? ETH_TYPE_IP then ipv4_spec p c b
  else if t =? ETH_TYPE_IPV6 then ipv6_spec p c b
  else if (t =? ETH_TYPE_ARP) || (t =? ETH_TYPE_RARP) then (arp_fields p c, b, None)
  else if t =? ETH_TYPE_NSH then (nsh_fields p c, b, None)
  else ([], b, None).

Definition hashed (t : Z) (b : dp_packet) : dp_packet :=
  default b (if t =? ETH_TYPE_IP then dp_packet_update_rss_hash_ipv4_tcp_udp b
             else if t =? ETH_TYPE_IPV6 then dp_packet_update_rss_hash_ipv6_tcp_udp b
             else Some b).

Definition port_fields (src dst : Z) (i : l3_info) : list field :=
  [(tp_src, src); (tp_dst, dst); (ct_tp_src, l3_ct_tp_src i); (ct_tp_dst, l3_ct_tp_dst i)].

(** The header of the TCP segment is complete. *)
Definition tcp_ok (p : list Z) (c : cursor) : bool :=
  let len := Z.to_nat (Z.shiftr (get p (c_data c + 12) 2) 12 * 4) in
  (20 <=? c_size c)%nat && (20 <=? len)%nat && (len <=? c_size c)%nat.

Definition nd_fields (p : list Z) (nd : nd_info) : list field :=
  match nd_target_p nd with Some o => [(nd_target, get p o 16)] | None => [] end
  ++ [(arp_sha, nd_sll nd); (arp_tha, nd_tll nd); (tcp_flags, nd_opt_type nd)].

Definition icmpv6_fields (p : list Z) (i : l3_info) : list field :=
  let o := c_data (l3_c i) in
  match parse_icmpv6 p (Cursor (o + 8) (c_size (l3_c i) - 8)) o with
  | Some (Some nd, _) =>
    nd_fields p nd ++ [(tp_src, get p o 1); (tp_dst, get p (o + 1) 1); (igmp_group_ip4, nd_rso_flags nd)]
  | Some (None, _) => port_fields (get p o 1) (get p (o + 1) 1) i
  | None => []
  end.

(** The transport layer of a packet that is not a later fragment. *)
Definition transport_spec (p : list Z) (t : Z) (i : l3_info) (b : dp_packet) : list field * dp_packet :=
  let o := c_data (l3_c i) in
  let size := c_size (l3_c i) in
  let ports := port_fields (get p o 2) (get p (o + 2) 2) i in
  let proto := l3_nw_proto i in
  if proto =? IPPROTO_TCP then
    if tcp_ok p (l3_c i) then
      ((tcp_flags, Z.land (get p (o + 12) 2) 0x0fff) :: ports, dp_packet_l4_proto_set_tcp (hashed t b))
    else ([], b)
  else if proto =? IPPROTO_UDP then
    if (8 <=? size)%nat then (ports, dp_packet_l4_proto_set_udp (hashed t b)) else ([], b)
  else if proto =? IPPROTO_SCTP then
    if (12 <=? size)%nat then (ports, dp_packet_l4_proto_set_sctp b) else ([], b)
  else if proto =? IPPROTO_ICMP then
    if (8 <=? size)%nat then (port_fields (get p o 1) (get p (o + 1) 1) i, b) else ([], b)
  else if proto =? IPPROTO_IGMP then
    if (8 <=? size)%nat then
      ([(tp_src, get p o 1); (tp_dst, get p (o + 1) 1); (igmp_group_ip4, get p (o + 4) 4)], b)
    else ([], b)
  else if proto =? IPPROTO_ICMPV6 then
    if (8 <=? size)%nat then (icmpv6_fields p i, b) else ([], b)
  else ([], b).

(** The protocol in the tuple of the original direction. *)
Definition ct_proto (md : pkt_metadata) (t : Z) : Z :=
  match tuple_of md (negb (t =? ETH_TYPE_IP)) with Some t => u8 (tup_proto t) | None => 0 end.

(** The bytes past a later fragment look like neighbor discovery. *)
Definition looks_nd (p : list Z) (o : nat) : bool :=
  (get p (o + 1) 1 =? 0) && ((get p o 1 =? ND_NEIGHBOR_SOLICIT) || (get p o 1 =? ND_NEIGHBOR_ADVERT)).

Definition later_frag_fields (p : list Z) (t : Z) (i : l3_info) (b : dp_packet) : list field :=
  let proto := ct_proto (dp_md b) t in
  if (proto =? IPPROTO_TCP) || (proto =? IPPROTO_UDP) || (proto =? IPPROTO_SCTP) || (proto =? IPPROTO_ICMP)
     || (proto =? IPPROTO_ICMPV6) && negb (looks_nd p (c_data (l3_c i)))
  then [(ct_tp_src, l3_ct_tp_src i); (ct_tp_dst, l3_ct_tp_dst i)] else [].

Definition l4_spec (p : list Z) (t : Z) (i : l3_info) (b : dp_packet) : list field * dp_packet :=
  let b := set_l4_ofs b (Z.of_nat (c_data (l3_c i))) in
  let fields := [(nw_frag, l3_nw_frag i); (nw_tos, l3_nw_tos i); (nw_ttl, l3_nw_ttl i); (nw_proto, l3_nw_proto i)] in
  if Z.land (l3_nw_frag i) FLOW_NW_FRAG_LATER =? 0 then
    let r := transport_spec p t i b in (fields ++ r.1, r.2)
  else (fields ++ later_frag_fields p t i b, b).

(** ** The packet *)

Definition then_layer {A B} (r : layer A) (k : A -> dp_packet -> layer B) : layer B :=
  match r with
  | (fields, b, Some a) => let '(fields', b, x) := k a b in (fields ++ fields', b, x)
  | (fields, b, None) => (fields, b, None)
  end.

Definition packet_spec (b : dp_packet) : list field * dp_packet :=
  let p := dp_data b in
  let start := if dp_packet_tunnel b then dp_packet_reset_outer_offsets b else dp_packet_reset_offsets b in
  let '(fields, b', _) :=
    then_layer (l2_spec p start) (fun '(t, c) b =>
    then_layer (mpls_spec p t c b) (fun c b =>
    then_layer (l3_spec p t c b) (fun i b =>
    let r := l4_spec p t i b in (r.1, r.2, @None unit)))) in
  (metadata_fields (dp_md b) (dp_packet_type b) ++ fields, b').

Definition packet_fields (b : dp_packet) : list field := (packet_spec b).1.
Definition packet_after (b : dp_packet) : dp_packet := (packet_spec b).2.
End Spec.
