(* ===== verification/ExtractFields.v ===== *)
(** * Blocks of fields

    The extraction copies whole runs of bytes of a packet into the flow; the
    reference sets one member after the other.  [fset_bytes] is the store of
    a run of bytes, and the lemmas here split such a store into members. *)

From S2P Require Import Prelude Util Flowmap Hash Miniflow MetaFlow Trie FlowBits FlowFields MetaFields Packet PacketProps MfCtx.
From S2P Require Import FlowExtract ExtractSpec.
From stdpp Require Import prelude list.
From Stdlib Require Import ZArith Lia.
Open Scope Z_scope.
Open Scope ovs_scope.

Definition fset_bytes (f : flow) (o : nat) (bs : list Z) : flow := fset f (Member o (length bs)) (be bs (length bs)).

Lemma fset_bytes_wf (f : flow) (o : nat) (bs : list Z) : flow_wf f -> flow_wf (fset_bytes f o bs).
Proof. apply fset_wf. Qed.

Lemma set_fields_wf (l : list field) (f : flow) : flow_wf f -> flow_wf (set_fields f l).
Proof. revert f. induction l as [|x l IH]; intros f Hf; [done|]. by apply IH, fset_wf. Qed.

Lemma set_fields_app (l k : list field) (f : flow) : set_fields f (l ++ k) = set_fields (set_fields f l) k.
Proof. apply foldl_app. Qed.

Lemma flow_byte_fset_bytes (f : flow) (o : nat) (bs : list Z) (j : nat) :
  flow_wf f -> Forall is_byte bs -> (o + length bs <= 8 * FLOW_U64S)%nat ->
  flow_byte (fset_bytes f o bs) j =
  if ((o <=? j) && (j <? o + length bs))%nat then nth (j - o) bs 0 else flow_byte f j.
Proof.
  intros Hf Hb Ho. unfold fset_bytes. rewrite flow_byte_fset by (done || apply Hf). cbn [mb_ofs mb_size].
  destruct (Nat.leb_spec o j), (Nat.ltb_spec j (o + length bs)); cbn [andb]; try done.
  rewrite <- (be_digit bs (length bs) (j - o)) by (done || lia). do 2 f_equal. lia.
Qed.

Lemma fset_bytes_app (f : flow) (o : nat) (x y : list Z) :
  flow_wf f -> Forall is_byte x -> Forall is_byte y -> (o + length x + length y <= 8 * FLOW_U64S)%nat ->
  fset_bytes f o (x ++ y) = fset_bytes (fset_bytes f o x) (o + length x) y.
Proof.
  intros Hf Hx Hy Ho. apply flow_bytes_ext; [by apply fset_bytes_wf|by repeat apply fset_bytes_wf|]. intros j Hj.
  rewrite flow_byte_fset_bytes by (try apply Forall_app_2; rewrite ?length_app; (done || lia)).
  rewrite flow_byte_fset_bytes by (try apply fset_bytes_wf; (done || lia)).
  rewrite flow_byte_fset_bytes by (done || lia). rewrite length_app.
  destruct (Nat.leb_spec o j), (Nat.ltb_spec j (o + (length x + length y))), (Nat.leb_spec (o + length x) j),
    (Nat.ltb_spec j (o + length x + length y)), (Nat.ltb_spec j (o + length x)); try lia; cbn [andb]; try done.
  - rewrite app_nth2 by lia. f_equal. lia.
  - by rewrite app_nth1 by lia.
Qed.

Lemma fset_bytes_be (f : flow) (o n : nat) (v : Z) :
  flow_wf f -> (o + n <= 8 * FLOW_U64S)%nat -> fset_bytes f o (be_bytes n v) = fset f (Member o n) v.
Proof.
  intros Hf Ho. apply flow_bytes_ext; [by apply fset_bytes_wf|by apply fset_wf|]. intros j Hj.
  rewrite flow_byte_fset_bytes by (try apply be_bytes_byte; rewrite ?length_be_bytes; done).
  rewrite flow_byte_fset by (done || apply Hf). cbn [mb_ofs mb_size]. rewrite length_be_bytes.
  destruct (Nat.leb_spec o j), (Nat.ltb_spec j (o + n)); cbn [andb]; try done.
  rewrite nth_be_bytes by lia. do 2 f_equal. lia.
Qed.

Lemma be_bytes_at (p : list Z) (o n : nat) : be (bytes_at p o n) n = get p o n.
Proof.
  unfold bytes_at, get. apply be_ext. intros i Hi. rewrite !nth_lookup, lookup_take_lt by done. done.
Qed.

Lemma fset_bytes_at (f : flow) (o : nat) (p : list Z) (q n : nat) :
  (q + n <= length p)%nat -> fset_bytes f o (bytes_at p q n) = fset f (Member o n) (get p q n).
Proof. intros Hq. unfold fset_bytes. rewrite length_bytes_at by done. by rewrite be_bytes_at. Qed.

Lemma bytes_at_app (p : list Z) (o n m : nat) : bytes_at p o (n + m) = bytes_at p o n ++ bytes_at p (o + n) m.
Proof. unfold bytes_at. by rewrite take_add, drop_drop. Qed.

(** A run of the packet that is two members. *)
Lemma fset_bytes_at2 (f : flow) (o : nat) (p : list Z) (q n a b : nat) :
  n = (a + b)%nat -> flow_wf f -> Forall is_byte p -> (q + n <= length p)%nat -> (o + n <= 8 * FLOW_U64S)%nat ->
  fset_bytes f o (bytes_at p q n) = fset (fset f (Member o a) (get p q a)) (Member (o + a) b) (get p (q + a) b).
Proof.
  intros -> Hf Hp Hq Ho. rewrite bytes_at_app, fset_bytes_app
    by (done || (by apply bytes_at_byte) || (rewrite !length_bytes_at by lia; lia)).
  by rewrite length_bytes_at, !fset_bytes_at by lia.
Qed.

Lemma be_bytes_of (bs : list Z) (n : nat) : length bs = n -> Forall is_byte bs -> be_bytes n (be bs n) = bs.
Proof. intros <-. apply be_bytes_be. Qed.

(** Words of 32 bits. *)
Definition words_bytes (vs : list Z) : list Z := concat (map (be_bytes 4) vs).

Lemma words_bytes_byte (vs : list Z) : Forall is_byte (words_bytes vs).
Proof.
  unfold words_bytes. induction vs as [|v vs IH]; [constructor|]. cbn [map concat].
  apply Forall_app_2; [apply be_bytes_byte|done].
Qed.

Lemma length_words_bytes (vs : list Z) : length (words_bytes vs) = (4 * length vs)%nat.
Proof.
  unfold words_bytes. induction vs as [|v vs IH]; [done|]. cbn [map concat length].
  rewrite length_app, length_be_bytes, IH. lia.
Qed.

Lemma fset_bytes_words (vs : list Z) (f : flow) (o : nat) :
  flow_wf f -> (o + 4 * length vs <= 8 * FLOW_U64S)%nat ->
  fset_bytes f o (words_bytes vs) = set_fields f (word_fields (fun i => Member (o + 4 * i) 4) vs).
Proof.
  revert f o. induction vs as [|v vs IH]; intros f o Hf Ho; cbn [length] in Ho.
  - by apply fset_bytes_be with (n := 0%nat) (v := 0).
  - change (words_bytes (v :: vs)) with (be_bytes 4 v ++ words_bytes vs).
    rewrite fset_bytes_app by (apply be_bytes_byte || apply words_bytes_byte || done
      || rewrite length_be_bytes, length_words_bytes; lia).
    rewrite length_be_bytes, fset_bytes_be by (done || lia).
    rewrite IH by (apply fset_wf; done) || lia. unfold word_fields. cbn [imap set_fields foldl fst snd].
    rewrite Nat.mul_0_r, Nat.add_0_r. f_equal. apply imap_ext. intros i x _. cbn. do 2 f_equal. lia.
Qed.

(** Members of any sizes, one after the other. *)
Definition pack (l : list (nat * Z)) : list Z := concat (map (fun x => be_bytes x.1 x.2) l).

Fixpoint pack_fields (o : nat) (l : list (nat * Z)) : list field :=
  match l with
  | [] => []
  | (n, v) :: l => (Member o n, v) :: pack_fields (o + n) l
  end.

Lemma pack_byte (l : list (nat * Z)) : Forall is_byte (pack l).
Proof. unfold pack. induction l as [|x l IH]; [constructor|]. apply Forall_app_2; [apply be_bytes_byte|done]. Qed.

Lemma fset_bytes_pack (l : list (nat * Z)) (f : flow) (o : nat) :
  flow_wf f -> (o + length (pack l) <= 8 * FLOW_U64S)%nat -> fset_bytes f o (pack l) = set_fields f (pack_fields o l).
Proof.
  revert f o. induction l as [|[n v] l IH]; intros f o Hf Ho.
  - by apply fset_bytes_be with (n := 0%nat) (v := 0).
  - change (pack ((n, v) :: l)) with (be_bytes n v ++ pack l) in *. rewrite length_app, length_be_bytes in Ho.
    rewrite fset_bytes_app by (apply be_bytes_byte || apply pack_byte || done || rewrite length_be_bytes; lia).
    rewrite length_be_bytes, fset_bytes_be by (done || lia). by rewrite IH by (apply fset_wf; done) || lia.
Qed.

Lemma bytes_at_words (p : list Z) (q n : nat) :
  Forall is_byte p -> (q + 4 * n <= length p)%nat ->
  bytes_at p q (4 * n) = words_bytes (map (fun i => get p (q + 4 * i) 4) (seq 0 n)).
Proof.
  intros Hp. induction n as [|n IH]; intros Hq.
  - by rewrite Nat.mul_0_r.
  - replace (4 * S n)%nat with (4 * n + 4)%nat by lia. rewrite bytes_at_app, IH by lia.
    rewrite seq_S, map_app. unfold words_bytes. rewrite map_app, concat_app. f_equal. cbn [map concat Nat.add].
    rewrite app_nil_r, <- be_bytes_at. symmetry. apply be_bytes_of; [apply length_bytes_at; lia|by apply bytes_at_byte].
Qed.

Lemma be_bytes_1 (b : Z) : is_byte b -> be_bytes 1 b = [b].
Proof. intros Hb. unfold be_bytes. cbn. rewrite Z.shiftr_0_r. by rewrite wrap_small. Qed.

Lemma be_bytes_app (n m : nat) (v : Z) : be_bytes (n + m) v = be_bytes n (Z.shiftr v (8 * Z.of_nat m)) ++ be_bytes m v.
Proof.
  apply nth_ext_Z; [by rewrite length_app, !length_be_bytes|]. intros k.
  destruct (decide (k < n)%nat).
  - rewrite app_nth1 by (by rewrite length_be_bytes). rewrite !nth_be_bytes by lia.
    rewrite Z.shiftr_shiftr by lia. do 2 f_equal. lia.
  - rewrite app_nth2, length_be_bytes by (rewrite length_be_bytes; lia).
    destruct (decide (k < n + m)%nat).
    + rewrite !nth_be_bytes by lia. do 2 f_equal. lia.
    + rewrite !nth_overflow by (rewrite length_be_bytes; lia). done.
Qed.

(** ** Members of one 32-bit push *)

Lemma fset_split (f : flow) (o n a b : nat) (v : Z) :
  n = (a + b)%nat -> flow_wf f -> (o + n <= 8 * FLOW_U64S)%nat ->
  fset f (Member o n) v = fset (fset f (Member o a) (Z.shiftr v (8 * Z.of_nat b))) (Member (o + a) b) v.
Proof.
  intros -> Hf Ho. rewrite <- (fset_bytes_be f o (a + b)) by done.
  rewrite be_bytes_app, fset_bytes_app by (apply be_bytes_byte || done || rewrite !length_be_bytes; lia).
  rewrite length_be_bytes, !fset_bytes_be by (done || lia || by apply fset_bytes_wf). done.
Qed.

Lemma fset_low (f : flow) (mb : member) (v w : Z) :
  flow_wf f -> mb_in mb -> wrap (mb_bits mb) v = wrap (mb_bits mb) w -> fset f mb v = fset f mb w.
Proof.
  intros Hf Hm E. apply flow_bytes_ext; [by apply fset_wf|by apply fset_wf|]. intros j Hj.
  rewrite !flow_byte_fset by (done || apply Hf).
  destruct (Nat.leb_spec (mb_ofs mb) j), (Nat.ltb_spec j (mb_ofs mb + mb_size mb)); cbn [andb]; try done.
  apply Z.bits_inj'. intros i Hi. rewrite !wrap_testbit, !Z.shiftr_spec by lia. destruct (Z.ltb_spec i 8); [|done]. cbn [andb].
  assert (forall x, Z.testbit x (i + 8 * (Z.of_nat (mb_ofs mb + mb_size mb) - 1 - Z.of_nat j)) =
    Z.testbit (wrap (mb_bits mb) x) (i + 8 * (Z.of_nat (mb_ofs mb + mb_size mb) - 1 - Z.of_nat j))) as Hb.
  { intros x. rewrite wrap_testbit by (unfold mb_bits; lia). unfold mb_bits. zcmp. done. }
  by rewrite (Hb v), (Hb w), E.
Qed.

(** [bytes_to_be32] *)
Lemma bytes_to_be32_be (b0 b1 b2 b3 : Z) :
  is_byte b0 -> is_byte b1 -> is_byte b2 -> is_byte b3 ->
  Z.lor (Z.shiftl b0 24) (Z.lor (Z.shiftl b1 16) (Z.lor (Z.shiftl b2 8) b3)) = be [b0; b1; b2; b3] 4.
Proof.
  intros H0 H1 H2 H3. cbn [be nth]. apply Z.bits_inj'. intros i Hi.
  rewrite !(Z.add_comm (_ * 256)), !(Z.mul_comm _ 256).
  rewrite !Z.lor_spec, !Z.shiftl_spec by lia. rewrite testbit_byte_app by done.
  destruct (Z.ltb_spec i 8); [rewrite !(Z.testbit_neg_r _ (i - _)) by lia; done|].
  rewrite (in_width_high 8 b3) by done. rewrite testbit_byte_app by (done || lia).
  destruct (Z.ltb_spec (i - 8) 8); [rewrite !(Z.testbit_neg_r _ (i - 16)), !(Z.testbit_neg_r _ (i - 24)) by lia; cbn; by rewrite orb_false_r|].
  rewrite (in_width_high 8 b2) by (done || lia). rewrite testbit_byte_app by (done || lia).
  destruct (Z.ltb_spec (i - 8 - 8) 8).
  - rewrite (Z.testbit_neg_r _ (i - 24)) by lia. cbn. rewrite orb_false_r. f_equal. lia.
  - rewrite (in_width_high 8 b1) by (done || lia). rewrite testbit_byte_app by (done || lia).
    destruct (Z.ltb_spec (i - 8 - 8 - 8) 8).
    + cbn. rewrite orb_false_r. f_equal. lia.
    + rewrite (in_width_high 8 b0) by (done || lia). by rewrite Z.testbit_0_l.
Qed.

Lemma fset_nw_frag (f : flow) (b0 b1 b2 b3 : Z) :
  flow_wf f -> is_byte b0 -> is_byte b1 -> is_byte b2 -> is_byte b3 ->
  fset f (Member 596 4) (Z.lor (Z.shiftl b0 24) (Z.lor (Z.shiftl b1 16) (Z.lor (Z.shiftl b2 8) b3))) =
  set_fields f [(nw_frag, b0); (nw_tos, b1); (nw_ttl, b2); (nw_proto, b3)].
Proof.
  intros Hf H0 H1 H2 H3. rewrite bytes_to_be32_be by done.
  change (fset f (Member 596 4) (be [b0; b1; b2; b3] 4)) with (fset_bytes f 596 ([b0] ++ [b1] ++ [b2] ++ [b3])).
  rewrite <- !(be_bytes_1 b0), <- !(be_bytes_1 b1), <- !(be_bytes_1 b2), <- !(be_bytes_1 b3) by done.
  repeat (rewrite fset_bytes_app; [|by repeat apply fset_bytes_wf|apply be_bytes_byte|
    by repeat (apply Forall_app_2; [apply be_bytes_byte|]); apply be_bytes_byte|
    rewrite ?length_app, !length_be_bytes; unfold FLOW_U64S; lia]).
  rewrite !length_be_bytes. rewrite !fset_bytes_be by (unfold FLOW_U64S; (lia || by repeat apply fset_bytes_wf || by repeat apply fset_wf)).
  done.
Qed.
