(* ===== verification/ExtractSim.v ===== *)
(** * Flow extraction implements its reference, layer by layer

    [xok m s Qo Q]: from the state [s], [m] neither reads nor stores out of
    bounds and fails no assertion; it ends with [Q], or leaves by [goto out]
    with [Qo].  There is a rule for each kind of step, and one lemma for each
    layer, which relates the pushes of the layer to its list of fields. *)

From S2P Require Import Prelude Util Flowmap Hash Miniflow MetaFlow Trie FlowBits FlowFields MetaFields Packet PacketProps MfCtx.
From S2P Require Import FlowExtract ExtractSpec ExtractFields.
From stdpp Require Import prelude list.
From Stdlib Require Import ZArith Lia.
Open Scope Z_scope.
Open Scope ovs_scope.

#[local] Opaque fset fget.

(** ** Steps *)

Definition xok {A} (m : xM A) (s : xst) (Qo : xst -> Prop) (Q : A -> xst -> Prop) : Prop :=
  match m s with
  | Some (Some a, s') => Q a s'
  | Some (None, s') => Qo s'
  | None => False
  end.

Lemma xok_bind {A B} (m : xM A) (k : A -> xM B) (s : xst) Qo Q :
  xok m s Qo (fun a s' => xok (k a) s' Qo Q) -> xok (xbind m k) s Qo Q.
Proof. unfold xok, xbind. destruct (m s) as [[[a|] s']|]; done. Qed.

Lemma xok_ret {A} (a : A) (s : xst) Qo (Q : A -> xst -> Prop) : Q a s -> xok (xret a) s Qo Q.
Proof. done. Qed.

Lemma xok_out {A} (s : xst) (Qo : xst -> Prop) Q : Qo s -> xok (@goto_out A) s Qo Q.
Proof. done. Qed.

Lemma xok_pure {A} (r : option A) (a : A) (s : xst) Qo (Q : A -> xst -> Prop) : r = Some a -> Q a s -> xok (pure r) s Qo Q.
Proof. by intros ->. Qed.

Lemma xok_update (g : dp_packet -> option dp_packet) (b b' : dp_packet) (mf : mf_ctx) Qo Q :
  g b = Some b' -> Q tt (Xst b' mf) -> xok (update g) (Xst b mf) Qo Q.
Proof. intros H. unfold xok, update. cbn. by rewrite H. Qed.

Lemma xok_mono {A} (m : xM A) (s : xst) (Qo Qo' : xst -> Prop) (Q Q' : A -> xst -> Prop) :
  xok m s Qo Q -> (forall s', Qo s' -> Qo' s') -> (forall a s', Q a s' -> Q' a s') -> xok m s Qo' Q'.
Proof. unfold xok. destruct (m s) as [[[a|] s']|]; auto. Qed.

(** ** The state *)

(** The address that [ct_nw_proto_p] points to, and the byte there. *)
Definition ghost : Type := option (nat * Z).

Definition sim (mf : mf_ctx) (f : flow) (pos : nat) (g : ghost) : Prop :=
  mf_sim mf f pos /\
  match g with
  | Some (a, v) => (438 <= pos)%nat /\ set_in mf 54 = true /\ a = addr_of mf 437 /\ flow_byte f 437 = v
  | None => True
  end.

Lemma sim_mf (mf : mf_ctx) (f : flow) (pos : nat) (g : ghost) : sim mf f pos g -> mf_sim mf f pos.
Proof. by intros [H _]. Qed.

Lemma addr_of_ext (mf mf' : mf_ctx) : mf_ext mf mf' -> set_in mf 54 = true -> addr_of mf' 437 = addr_of mf 437.
Proof.
  intros He Hs. unfold addr_of. change (437 / 8)%nat with 54%nat.
  by rewrite (proj2 (He 54%nat ltac:(by apply idx_bound; unfold FLOW_U64S; lia) Hs)).
Qed.

(** A push past the byte that [ct_nw_proto_p] points to. *)
Lemma sim_after (mf mf' : mf_ctx) (f f' : flow) (pos pos' : nat) (g : ghost) :
  sim mf f pos g -> mf_sim mf' f' pos' -> mf_ext mf mf' -> (pos <= pos')%nat ->
  ((438 <= pos)%nat -> flow_byte f' 437 = flow_byte f 437) -> sim mf' f' pos' g.
Proof.
  intros [_ Hg] Hs He Hp Hf. split; [done|]. destruct g as [[a v]|]; [|done].
  destruct Hg as (H1 & H2 & -> & H4).
  split; [lia|]. split; [apply He; [by apply idx_bound; unfold FLOW_U64S; lia|done]|].
  split; [symmetry; by apply addr_of_ext|]. by rewrite Hf.
Qed.

Lemma fset_byte_other (f : flow) (mb : member) (v : Z) (j : nat) :
  flow_wf f -> mb_in mb -> (j < mb_ofs mb)%nat -> flow_byte (fset f mb v) j = flow_byte f j.
Proof.
  intros Hf Hm Hj. rewrite flow_byte_fset by (done || apply Hf).
  by destruct (Nat.leb_spec (mb_ofs mb) j); [lia|].
Qed.

Lemma xok_push (gg : mf_ctx -> option mf_ctx) (b : dp_packet) (mf : mf_ctx) (f : flow) (pos pos' : nat) (g : ghost)
    (mb : member) (v : Z) Qo (Q : unit -> xst -> Prop) :
  sim mf f pos g -> pushes mf (gg mf) (fset f mb v) pos' -> (pos <= mb_ofs mb)%nat -> (mb_ofs mb <= pos')%nat -> mb_in mb ->
  (forall mf', sim mf' (fset f mb v) pos' g -> Q tt (Xst b mf')) -> xok (push gg) (Xst b mf) Qo Q.
Proof.
  intros Hs (mf' & E & Hs' & He) H1 H2 Hm HQ. unfold xok, push. cbn [x_mf x_pkt]. rewrite E. apply HQ.
  apply (sim_after mf mf' f _ pos pos' g Hs Hs' He); [lia|]. intros Hp.
  apply fset_byte_other; [apply Hs|done|lia].
Qed.

Lemma xok_pad (gg : mf_ctx -> option mf_ctx) (b : dp_packet) (mf : mf_ctx) (f : flow) (pos pos' : nat) (g : ghost)
    Qo (Q : unit -> xst -> Prop) :
  sim mf f pos g -> pushes mf (gg mf) f pos' -> (pos <= pos')%nat ->
  (forall mf', sim mf' f pos' g -> Q tt (Xst b mf')) -> xok (push gg) (Xst b mf) Qo Q.
Proof.
  intros Hs (mf' & E & Hs' & He) H1 HQ. unfold xok, push. cbn [x_mf x_pkt]. rewrite E. apply HQ.
  by apply (sim_after mf mf' f _ pos pos' g Hs Hs' He).
Qed.

Lemma may_push_le (pos ofs : nat) : may_push pos ofs -> (pos <= ofs)%nat.
Proof. intros [->|]; lia. Qed.

Section Rules.
Variable asserts : bool.
Variables (b : dp_packet) (mf : mf_ctx) (f : flow) (pos : nat) (g : ghost).
Variables (Qo : xst -> Prop) (Q : unit -> xst -> Prop).
Hypothesis Hsim : sim mf f pos g.

(** The macro names a member for its offset only. *)
Lemma xok_push_uint32 (mb : member) (v : Z) :
  (mb_ofs mb mod 4 = 0 /\ mb_ofs mb + 4 <= 8 * FLOW_U64S)%nat -> may_push pos (mb_ofs mb) ->
  (forall mf', sim mf' (fset f (Member (mb_ofs mb) 4) v) (mb_ofs mb + 4) g -> Q tt (Xst b mf')) ->
  xok (push_uint32 asserts mb v) (Xst b mf) Qo Q.
Proof.
  intros (H2 & H3) H4 HQ.
  apply (xok_push _ b mf f pos (mb_ofs mb + 4) g (Member (mb_ofs mb) 4) v); cbn [mb_ofs mb_size];
    [done|apply push_uint32_sim with pos; (apply Hsim || done || lia)|by apply may_push_le|lia|done|done].
Qed.

Lemma xok_push_uint16 (mb : member) (v : Z) :
  (mb_size mb = 2 /\ mb_ofs mb mod 2 = 0 /\ mb_ofs mb + 2 <= 8 * FLOW_U64S)%nat -> may_push pos (mb_ofs mb) ->
  (forall mf', sim mf' (fset f mb v) (mb_ofs mb + 2) g -> Q tt (Xst b mf')) ->
  xok (push_uint16 asserts mb v) (Xst b mf) Qo Q.
Proof.
  intros (H1 & H2 & H3) H4 HQ. destruct mb as [o n]. cbn [mb_ofs mb_size] in *. subst n.
  apply (xok_push _ b mf f pos (o + 2) g (Member o 2) v); cbn [mb_ofs mb_size];
    [done|apply push_uint16_sim with pos; (apply Hsim || done || lia)|by apply may_push_le|lia|done|done].
Qed.

Lemma xok_push_uint8 (mb : member) (v : Z) :
  (mb_size mb = 1 /\ mb_ofs mb + 1 <= 8 * FLOW_U64S)%nat -> may_push pos (mb_ofs mb) ->
  (forall mf', sim mf' (fset f mb v) (mb_ofs mb + 1) g -> Q tt (Xst b mf')) ->
  xok (push_uint8 asserts mb v) (Xst b mf) Qo Q.
Proof.
  intros (H1 & H3) H4 HQ. destruct mb as [o n]. cbn [mb_ofs mb_size] in *. subst n.
  apply (xok_push _ b mf f pos (o + 1) g (Member o 1) v); cbn [mb_ofs mb_size];
    [done|apply push_uint8_sim with pos; (apply Hsim || done || lia)|by apply may_push_le|lia|done|done].
Qed.

Lemma xok_pad_to_64 (mb : member) :
  (mb_ofs mb + mb_size mb = pos)%nat -> (pos mod 8 <> 0)%nat ->
  (forall mf', sim mf' f (pos + (8 - pos mod 8)) g -> Q tt (Xst b mf')) ->
  xok (pad_to_64 asserts mb) (Xst b mf) Qo Q.
Proof.
  intros H1 H2 HQ. eapply xok_pad; [done| | |exact HQ]; [|lia].
  unfold miniflow_pad_to_64. rewrite H1. apply pad_to_64_sim with pos; (apply Hsim || done).
Qed.

Lemma xok_pad_from_64 (mb : member) :
  (pos mod 8 = 0)%nat -> (pos <= mb_ofs mb)%nat -> (mb_ofs mb mod 8 <> 0 /\ mb_ofs mb < 8 * FLOW_U64S)%nat ->
  (forall mf', sim mf' f (mb_ofs mb) g -> Q tt (Xst b mf')) ->
  xok (pad_from_64 asserts mb) (Xst b mf) Qo Q.
Proof.
  intros H1 H2 H3 HQ. eapply xok_pad; [done| | |exact HQ]; [|lia].
  apply pad_from_64_sim with pos; (apply Hsim || lia).
Qed.

Lemma xok_push_words (mb : member) (bs : list Z) (n : nat) :
  (pos mod 8 = 0)%nat -> (pos <= mb_ofs mb)%nat -> (mb_ofs mb mod 8 = 0)%nat -> (mb_ofs mb + 8 * n <= 8 * FLOW_U64S)%nat ->
  (0 < n < 64)%nat -> length bs = (8 * n)%nat -> Forall is_byte bs ->
  (forall mf', sim mf' (fset_bytes f (mb_ofs mb) bs) (mb_ofs mb + 8 * n) g -> Q tt (Xst b mf')) ->
  xok (push_words asserts mb bs n) (Xst b mf) Qo Q.
Proof.
  intros H1 H2 H3 H4 H5 H6 H7 HQ. unfold fset_bytes in HQ. rewrite H6 in HQ.
  eapply xok_push; [done| | | | |exact HQ]; cbn [mb_ofs mb_size]; [|lia|lia|done].
  by apply push_words_sim with pos; [apply Hsim|..].
Qed.

Lemma xok_push_macs (mb : member) (bs : list Z) :
  (pos mod 8 = 0)%nat -> (pos <= mb_ofs mb)%nat -> (mb_ofs mb mod 8 = 0)%nat -> (mb_ofs mb + 16 <= 8 * FLOW_U64S)%nat ->
  length bs = 12%nat -> Forall is_byte bs ->
  (forall mf', sim mf' (fset_bytes f (mb_ofs mb) bs) (mb_ofs mb + 12) g -> Q tt (Xst b mf')) ->
  xok (push_macs asserts mb bs) (Xst b mf) Qo Q.
Proof.
  intros H1 H2 H3 H4 H5 H6 HQ. unfold fset_bytes in HQ. rewrite H5 in HQ.
  eapply xok_push; [done| | | | |exact HQ]; cbn [mb_ofs mb_size]; [|lia|lia|unfold mb_in; cbn [mb_ofs mb_size]; lia].
  by apply push_macs_sim with pos; [apply Hsim|..].
Qed.

Lemma xok_push_words_32 (mb : member) (bs : list Z) (n : nat) :
  (pos mod 8 = 0)%nat -> (pos <= mb_ofs mb)%nat -> (mb_ofs mb mod 8 = 0)%nat ->
  (mb_ofs mb + 4 * n + 4 <= 8 * FLOW_U64S)%nat -> (n < 64)%nat -> length bs = (4 * n)%nat -> Forall is_byte bs ->
  (asserts = true -> n <> 0%nat) ->
  (forall mf', sim mf' (fset_bytes f (mb_ofs mb) bs) (mb_ofs mb + 8 * DIV_ROUND_UP n 2) g -> Q tt (Xst b mf')) ->
  xok (push_words_32 asserts mb bs n) (Xst b mf) Qo Q.
Proof.
  intros H1 H2 H3 H4 H5 H6 H7 H8 HQ. unfold fset_bytes in HQ. rewrite H6 in HQ.
  eapply xok_push; [done| | | | |exact HQ]; cbn [mb_ofs mb_size]; [|lia|lia|unfold mb_in; cbn [mb_ofs mb_size]; lia].
  by apply push_words_32_sim with pos; [apply Hsim|..].
Qed.
End Rules.

(** ** Automation *)

(** The numbers of concrete members. *)
Ltac members := repeat split; (reflexivity || assumption || (unfold mb_in, FLOW_U64S; cbn; lia)).

Ltac may_push_tac := first [left; reflexivity | right; repeat split; (reflexivity || assumption || (cbn; lia))].

(** One push: the side conditions are numbers. *)
Ltac xpush :=
  lazymatch goal with
  | |- xok (xbind _ _) _ _ _ => apply xok_bind; xpush
  | Hs : sim ?mf _ _ _ |- xok (push_uint32 _ _ _) (Xst _ ?mf) _ _ =>
      eapply xok_push_uint32; [exact Hs|members|may_push_tac|]; clear mf Hs; intros mf Hs
  | Hs : sim ?mf _ _ _ |- xok (push_uint16 _ _ _) (Xst _ ?mf) _ _ =>
      eapply xok_push_uint16; [exact Hs|members|may_push_tac|]; clear mf Hs; intros mf Hs
  | Hs : sim ?mf _ _ _ |- xok (push_uint8 _ _ _) (Xst _ ?mf) _ _ =>
      eapply xok_push_uint8; [exact Hs|members|may_push_tac|]; clear mf Hs; intros mf Hs
  | Hs : sim ?mf _ _ _ |- xok (pad_to_64 _ _) (Xst _ ?mf) _ _ =>
      eapply xok_pad_to_64; [exact Hs|reflexivity|by vm_compute|]; clear mf Hs; intros mf Hs
  | Hs : sim ?mf _ _ _ |- xok (pad_from_64 _ _) (Xst _ ?mf) _ _ =>
      eapply xok_pad_from_64; [exact Hs|members|members|members|]; clear mf Hs; intros mf Hs
  | Hs : sim ?mf _ _ _ |- xok (push_words _ _ _ _) (Xst _ ?mf) _ _ =>
      eapply xok_push_words; [exact Hs|members|members|members|members|members| | |]; [..|clear mf Hs; intros mf Hs]
  | Hs : sim ?mf _ _ _ |- xok (push_macs _ _ _) (Xst _ ?mf) _ _ =>
      eapply xok_push_macs; [exact Hs|members|members|members|members| | |]; [..|clear mf Hs; intros mf Hs]
  | |- xok (xret _) _ _ _ => apply xok_ret
  | |- xok goto_out _ _ _ => apply xok_out
  end.

(** A computation on the side. *)
Tactic Notation "xpure" tactic(t) := apply xok_bind; eapply xok_pure; [solve [t]|]; cbn beta iota.

Lemma sim_zero (mf : mf_ctx) (f : flow) (pos : nat) (g : ghost) (mb : member) :
  sim mf f pos g -> mb_in mb -> (pos <= mb_ofs mb)%nat -> fset f mb 0 = f.
Proof. intros [Hs _]. by apply (fset_zero_sim mf). Qed.

Lemma sim_flow_wf (mf : mf_ctx) (f : flow) (pos : nat) (g : ghost) : sim mf f pos g -> flow_wf f.
Proof. by intros [[] _]. Qed.

(** The pushes of 32 bits that are one member and padding. *)
Lemma fset_arp_op (mf : mf_ctx) (f : flow) (g : ghost) (op : Z) :
  sim mf f 596 g -> is_byte op -> fset f (Member 596 4) op = fset f nw_proto op.
Proof.
  intros Hs Hop. pose proof (sim_flow_wf _ _ _ _ Hs) as Hf.
  rewrite (fset_split f 596 4 3 1) by (done || unfold FLOW_U64S; lia).
  replace (Z.shiftr op (8 * Z.of_nat 1)) with 0; [|symmetry; rewrite Z.shiftr_div_pow2 by lia; by apply Z.div_small].
  rewrite (sim_zero mf f 596 g (Member 596 3)) by (done || members). done.
Qed.

Lemma fset_tcp_flags (mf : mf_ctx) (f : flow) (g : ghost) (x : Z) :
  sim mf f 628 g -> fset f (Member 628 4) (Z.shiftl x 16) = fset f tcp_flags x.
Proof.
  intros Hs. pose proof (sim_flow_wf _ _ _ _ Hs) as Hf.
  rewrite (fset_split f 628 4 2 2) by (done || unfold FLOW_U64S; lia).
  rewrite Z.shiftr_shiftl_l by lia. change (16 - 8 * Z.of_nat 2) with 0. rewrite Z.shiftl_0_r.
  rewrite (fset_low _ _ _ 0).
  - apply fset_zero; [by apply fset_wf|members|]. cbn [mb_ofs mb_size]. intros j Hj.
    rewrite flow_byte_fset by (apply Hf || members). cbn [tcp_flags mb_ofs mb_size].
    destruct (Nat.leb_spec 628 j), (Nat.ltb_spec j (628 + 2)); cbn [andb]; try lia;
      apply (ms_zero _ _ _ (sim_mf _ _ _ _ Hs)); unfold FLOW_U64S; lia.
  - by apply fset_wf.
  - members.
  - change (mb_bits (Member (628 + 2) 2)) with 16. unfold wrap. rewrite Z.shiftl_mul_pow2 by lia.
    by rewrite Z.mod_mul.
Qed.

(** ** Metadata *)

Section Metadata.
Variable asserts : bool.

Lemma extract_tunnel_ok (b : dp_packet) (mf : mf_ctx) (f : flow) (tnl : list Z) Qo (Q : unit -> xst -> Prop) :
  length tnl = 344%nat -> Forall is_byte tnl -> sim mf f 0 None ->
  (forall mf pos, sim mf (set_fields f (tunnel_fields tnl)) pos None -> (pos mod 8 = 0)%nat -> (pos <= 344)%nat ->
    Q tt (Xst b mf)) ->
  xok (extract_tunnel asserts tnl) (Xst b mf) Qo Q.
Proof.
  intros Hl Hb Hs HQ. unfold extract_tunnel, tunnel_fields in *.
  destruct (flow_tnl_dst_is_set tnl); [|by eapply HQ; [exact Hs|reflexivity|cbn; lia]].
  xpush; [by rewrite length_bytes_at by (rewrite Hl; lia)|by apply bytes_at_byte|].
  rewrite fset_bytes_at in Hs by (rewrite Hl; lia).
  destruct (_ =? 0).
  - destruct (_ =? 0); cbn [negb]; [by eapply HQ; [exact Hs|reflexivity|cbn; lia]|].
    xpush; [by rewrite length_bytes_at by (rewrite Hl; lia)|by apply bytes_at_byte|].
    rewrite fset_bytes_at in Hs by (rewrite Hl; lia). by eapply HQ; [exact Hs|reflexivity|cbn; lia].
  - destruct (Z.eqb_spec (tnl_present_len tnl) 0) as [|E]; cbn [negb]; [by eapply HQ; [exact Hs|reflexivity|cbn; lia]|].
    set (n := DIV_ROUND_UP _ 8) in *. assert (0 < n <= 32)%nat as Hn.
    { pose proof (get_width tnl 72 1 Hb) as Hw. unfold in_width in Hw. change (2 ^ (8 * Z.of_nat 1)) with 256 in Hw.
      unfold tnl_present_len in E. subst n. unfold DIV_ROUND_UP, tnl_present_len.
      split; [apply Nat.div_str_pos; lia|]. apply Nat.lt_succ_r, Nat.Div0.div_lt_upper_bound. lia. }
    xpush; [by rewrite length_bytes_at by (rewrite Hl; lia)|by apply bytes_at_byte|].
    rewrite fset_bytes_at in Hs by (rewrite Hl; lia). clearbody n.
    eapply xok_push_words; [exact Hs|members|members|members|unfold FLOW_U64S; cbn; lia|lia| | |].
    + rewrite length_bytes_at by (rewrite Hl; lia). done.
    + by apply bytes_at_byte.
    + clear mf Hs. intros mf Hs. rewrite fset_bytes_at in Hs by (rewrite Hl; lia).
      eapply HQ; [exact Hs| |cbn; lia]. cbn [tun_opts_gnv mb_ofs]. rewrite Nat.mul_comm, Nat.Div0.mod_add. done.
Qed.

(** The push of [ct_nw_proto], and the pointer to it. *)
Lemma xok_ct_nw_proto (b : dp_packet) (mf : mf_ctx) (f : flow) Qo (Q : unit -> xst -> Prop) :
  sim mf f 437 None ->
  (forall mf', sim mf' f 438 (Some (miniflow_pointer mf ct_nw_proto, 0)) -> Q tt (Xst b mf')) ->
  xok (push_uint8 asserts ct_nw_proto 0) (Xst b mf) Qo Q.
Proof.
  intros Hs HQ. pose proof (sim_zero mf f 437 None ct_nw_proto Hs ltac:(members) ltac:(cbn; lia)) as Hz.
  destruct Hs as [Hs _].
  destruct (push_uint8_sim asserts mf f 437 437 0 Hs) as (mf' & E & Hs' & He); [by left|unfold FLOW_U64S; lia|].
  unfold xok, push_uint8, push. cbn [x_mf x_pkt]. unfold miniflow_push_uint8. cbn [ct_nw_proto mb_ofs].
  rewrite E. apply HQ. change (Member 437 1) with ct_nw_proto in Hs'. rewrite Hz in Hs'.
  assert (set_in mf 54 = true) as H54 by (by apply (ms_open _ _ _ Hs)).
  split; [exact Hs'|]. split; [lia|]. split; [apply He; [by apply idx_bound; unfold FLOW_U64S; lia|done]|]. split.
  - rewrite (addr_of_ext mf mf' He H54). unfold miniflow_pointer, addr_of. rewrite (ms_data _ _ _ Hs). exact eq_refl.
  - apply (ms_zero _ _ _ Hs); [unfold FLOW_U64S; lia|left; lia].
Qed.

(** The state in which [extract_metadata] leaves the miniflow. *)
Definition after_metadata (md : pkt_metadata) (pkt_type : Z) (ct_nw_proto_p : option nat) (mf : mf_ctx) (pos : nat) : Prop :=
  (pos mod 8 = 0)%nat /\ (440 <= pos <= 464)%nat /\ (is_Some ct_nw_proto_p <-> has_ct md = true) /\
  sim mf (set_fields zero_flow (metadata_fields md pkt_type)) pos (fmap (fun a => (a, 0)) ct_nw_proto_p).

Lemma set_zero_field (mf : mf_ctx) (f : flow) (pos : nat) (g : ghost) (mb : member) (v : Z) :
  v = 0 -> sim mf f pos g -> mb_in mb -> (pos <= mb_ofs mb)%nat -> sim mf (fset f mb v) pos g.
Proof. intros -> Hs Hm Hp. by rewrite (sim_zero mf f pos g). Qed.

Lemma extract_ct_ok (b : dp_packet) (mf : mf_ctx) (f : flow) (md : pkt_metadata) (pkt_type : Z) Qo Q :
  sim mf f 432 None ->
  (forall mf pos p, (pos mod 8 = 0)%nat -> (440 <= pos <= 464)%nat -> (is_Some p <-> has_ct md = true) ->
    sim mf (set_fields f ([(recirc_id, md_recirc_id md)]
      ++ (if has_ct md then [(ct_state, md_ct_state md); (ct_zone, md_ct_zone md); (ct_mark, md_ct_mark md)] else [])
      ++ [(packet_type, pkt_type)] ++ (if has_ct md then [(ct_label, md_ct_label md)] else [])))
      pos (fmap (fun a => (a, 0)) p) -> Q p (Xst b mf)) ->
  xok (extract_ct asserts md pkt_type) (Xst b mf) Qo Q.
Proof.
  intros Hs HQ. unfold extract_ct, has_ct in *. destruct (md_ct_state md =? 0); cbn [negb] in *.
  - apply xok_bind. destruct (Z.eqb_spec (md_recirc_id md) 0) as [E|E]; cbn [negb].
    + apply (set_zero_field _ _ _ _ recirc_id _ E) in Hs; [|members|members].
      do 4 xpush. eapply (HQ _ 448%nat None); [reflexivity|lia| |exact Hs]. split; [by intros []|done].
    + do 5 xpush. eapply (HQ _ 448%nat None); [reflexivity|lia| |exact Hs]. split; [by intros []|done].
  - do 2 xpush. apply xok_bind. eapply xok_pure; [reflexivity|]. cbn [x_mf]. apply xok_bind, (xok_ct_nw_proto b mf _ Qo _ Hs).
    intros mf' Hs'. revert Hs'. generalize (miniflow_pointer mf ct_nw_proto) as a. clear mf Hs. intros a Hs. rename mf' into mf.
    do 3 xpush. apply xok_bind. destruct (Z.eqb_spec (md_ct_label md) 0) as [E|E]; cbn [negb].
    + apply (set_zero_field _ _ _ _ ct_label _ E) in Hs; [|members|members].
      do 2 xpush. eapply (HQ _ 448%nat (Some a)); [reflexivity|lia|by split; [|intros _; eexists]|exact Hs].
    + pose proof (sim_flow_wf _ _ _ _ Hs) as Hwf. xpush; [by rewrite length_be_bytes|apply be_bytes_byte|].
      rewrite fset_bytes_be in Hs by (exact Hwf || members).
      xpush. eapply (HQ _ 464%nat (Some a)); [reflexivity|lia|by split; [|intros _; eexists]|exact Hs].
Qed.

Lemma extract_metadata_ok (b : dp_packet) (mf : mf_ctx) (md : pkt_metadata) (pkt_type : Z) Qo Q :
  length (md_tunnel md) = 344%nat -> Forall is_byte (md_tunnel md) -> mf_sim mf zero_flow 0 ->
  (forall mf pos p, after_metadata md pkt_type p mf pos -> Q p (Xst b mf)) ->
  xok (extract_metadata asserts md pkt_type) (Xst b mf) Qo Q.
Proof.
  intros Hl Hb Hs HQ. unfold extract_metadata. apply xok_bind, (extract_tunnel_ok b mf zero_flow); [done|done|done|].
  clear mf Hs. intros mf pos Hs Hm Hp. apply xok_bind.
  assert (forall mf q, (q mod 8 = 0)%nat -> (q <= 424)%nat -> sim mf (set_fields zero_flow (tunnel_fields (md_tunnel md)
    ++ [(skb_priority, md_skb_priority md); (pkt_mark, md_pkt_mark md)])) q None ->
    xok (xbind (push_uint32 asserts dp_hash (md_dp_hash md)) (fun _ =>
         xbind (push_uint32 asserts in_port (md_in_port md)) (fun _ => extract_ct asserts md pkt_type)))
      (Xst b mf) Qo Q) as Hrest.
  { clear mf pos Hs Hm Hp. intros mf pos Hm Hp Hs. do 2 xpush. apply (extract_ct_ok b mf _ md pkt_type Qo Q Hs).
    clear mf Hs. intros mf q p H1 H2 H3 Hs. apply (HQ mf q p). split_and!; try done; try lia.
    unfold metadata_fields. rewrite !set_fields_app in *. exact Hs. }
  destruct (Z.eqb_spec (md_skb_priority md) 0) as [E1|E1].
  - destruct (Z.eqb_spec (md_pkt_mark md) 0) as [E2|E2]; cbn [negb orb].
    + xpush. apply (Hrest mf pos); [done|lia|]. rewrite set_fields_app.
      do 2 (apply set_zero_field; [done| |members|cbn; lia]). exact Hs.
    + do 2 xpush. eapply Hrest; [..|rewrite set_fields_app; exact Hs]; [reflexivity|cbn; lia].
  - cbn [negb orb]. do 2 xpush. eapply Hrest; [..|rewrite set_fields_app; exact Hs]; [reflexivity|cbn; lia].
Qed.
End Metadata.
