(* ===== verification/ExtractLayers.v ===== *)
(** * The layers of a packet

    For each layer of [miniflow_extract]: it is safe, and it ends with the
    fields, the packet and the result that [ExtractSpec] gives. *)

From S2P Require Import Prelude Util Flowmap Hash Miniflow MetaFlow Trie FlowBits FlowFields MetaFields Packet PacketProps MfCtx.
From S2P Require Import FlowExtract ExtractSpec ExtractFields ExtractSim.
From stdpp Require Import prelude list.
From Stdlib Require Import ZArith Lia.
Open Scope Z_scope.
Open Scope ovs_scope.

#[local] Opaque fset fget.

(** The computation ends as the reference says, with [next] when there is a
    next layer. *)
Definition layer_ok {A} (m : xM A) (b : dp_packet) (mf : mf_ctx) (f : flow) (r : layer A)
    (next : A -> mf_ctx -> flow -> Prop) : Prop :=
  xok m (Xst b mf)
    (fun s => r.2 = None /\ x_pkt s = r.1.2 /\
      exists pos, (pos mod 8 = 0)%nat /\ mf_sim (x_mf s) (set_fields f r.1.1) pos)
    (fun a s => r.2 = Some a /\ x_pkt s = r.1.2 /\ next a (x_mf s) (set_fields f r.1.1)).

(** What holds between the layers. *)
Definition at_layer (p : list Z) (g : ghost) (lim : nat) (c : cursor) (mf : mf_ctx) (f : flow) : Prop :=
  cursor_ok p c /\ exists pos, (pos mod 8 = 0)%nat /\ (pos <= lim)%nat /\ sim mf f pos g.

Section Layers.
Context `{Hash}.
Variable asserts : bool.
Variable flow_vlan_limit : Z.
Hypothesis Hlimit : flow_vlan_limit <= FLOW_MAX_VLAN_HEADERS.
Variables (p : list Z) (g : ghost).
Hypothesis Hp : Forall is_byte p.

(** ** Link layer *)

Lemma extract_l2_ok (b : dp_packet) (mf : mf_ctx) (f : flow) (pos : nat) :
  (pos mod 8 = 0)%nat -> (pos <= 464)%nat -> sim mf f pos g ->
  layer_ok (extract_l2 asserts flow_vlan_limit p (dp_packet_type b) (Cursor 0 (length p))) b mf f
    (l2_spec flow_vlan_limit p b)
    (fun tc mf f => at_layer p g 496 tc.2 mf f /\ (c_data tc.2 <= 30)%nat).
Proof.
  intros Hm Hpos Hs. unfold layer_ok, extract_l2, l2_spec, dp_packet_is_eth. cbn [c_data c_size].
  destruct (dp_packet_type b =? PT_ETH).
  2: { do 4 xpush. split_and!; [done|done| |cbn; lia]. split; [unfold cursor_ok; cbn; lia|].
       exists 488%nat. split; [done|]. split; [lia|]. exact Hs. }
  destruct (Nat.ltb_spec (length p) ETH_HEADER_LEN) as [|H14]; unfold ETH_HEADER_LEN in *.
  { xpush. split_and!; [done|done|]. exists pos. split; [done|]. apply Hs. }
  destruct (parse_vlan_ok p flow_vlan_limit (Cursor 0 (length p))) as (hdrs & c1 & Ev & Ha1 & Hl1 & Hs1 & Hd1);
    [unfold cursor_ok; cbn; lia|cbn; lia|].
  assert (cursor_ok p c1) as Hc1 by (apply (cursor_adv_ok p (Cursor 0 (length p))); [unfold cursor_ok; cbn; lia|done]).
  destruct (parse_ethertype_ok p c1) as (t & c & Et & Ha & Hd); [done|done|].
  assert (length hdrs <= 2)%nat as Hn by (unfold FLOW_MAX_VLAN_HEADERS in Hlimit; lia).
  rewrite Ev, Et. xpure (apply rd_bytes_some; lia).
  pose proof (sim_flow_wf _ _ _ _ Hs) as Hwf.
  xpush; [by rewrite length_bytes_at by lia|by apply bytes_at_byte|].
  rewrite (fset_bytes_at2 _ _ _ _ _ 6 6) in Hs by (done || lia || members).
  xpure (done). xpure (done).
  do 2 xpush. apply xok_bind. pose proof (sim_flow_wf _ _ _ _ Hs) as Hwf1.
  assert (c_data c <= 30)%nat as Hc30 by (cbn in Hd1; lia).
  assert (cursor_ok p c) as Hc by (by apply (cursor_adv_ok p c1)).
  destruct (Nat.ltb_spec 0 (length hdrs)) as [Hpos'|Hz].
  - change (concat (map (be_bytes 4) hdrs)) with (words_bytes hdrs).
    eapply xok_push_words_32; [exact Hs|members|members|members|unfold FLOW_U64S; cbn; lia|lia|apply length_words_bytes|
      apply words_bytes_byte|lia|]. clear mf Hs. intros mf Hs. rewrite fset_bytes_words in Hs by (done || unfold FLOW_U64S; cbn; lia).
    xpush. split_and!; [done|done| |done]. split; [done|]. exists 496%nat.
    assert (DIV_ROUND_UP (length hdrs) 2 = 1)%nat as E1 by (by destruct hdrs as [|? [|? [|]]]; cbn in *; try lia).
    rewrite E1 in Hs. split; [done|]. split; [lia|]. exact Hs.
  - destruct hdrs; [|cbn in Hz; lia]. do 2 xpush. split_and!; [done|done| |done]. split; [done|].
    exists 488%nat. split; [done|]. split; [lia|]. exact Hs.
Qed.

Lemma extract_mpls_ok (b : dp_packet) (mf : mf_ctx) (f : flow) (t : Z) (c : cursor) :
  at_layer p g 496 c mf f -> (asserts = true -> eth_type_mpls t = true -> (4 <= c_size c)%nat) ->
  layer_ok (extract_mpls asserts p t c) b mf f (mpls_spec p t c b)
    (fun c' mf f => at_layer p g 512 c' mf f /\ cursor_adv c c' /\ (eth_type_mpls t = false -> c' = c)).
Proof.
  intros (Hc & pos & Hm & Hpos & Hs) Ha. unfold layer_ok, extract_mpls, mpls_spec. destruct (eth_type_mpls t).
  2: { xpush. split_and!; [done|done| |apply cursor_adv_refl|done]. split; [done|]. exists pos. split_and!; [done|lia|done]. }
  destruct (parse_mpls_ok p c Hc) as (n & c' & E & Hadv & Hn & Hd & Hn0). rewrite E.
  assert (c_data c + 4 * n <= length p)%nat as Hlen by (unfold cursor_ok, cursor_adv in *; lia).
  apply xok_bind. eapply xok_update; [done|]. xpure (done).
  xpure (by apply rd_bytes_some).
  pose proof (sim_flow_wf _ _ _ _ Hs) as Hwf.
  rewrite bytes_at_words by done. set (vs := map _ _). assert (length vs = n) as Hvs by (subst vs; by rewrite length_map, length_seq).
  apply xok_bind. eapply xok_push_words_32; [exact Hs|done|cbn; lia|done|unfold FLOW_U64S; cbn; lia|lia| |
    apply words_bytes_byte| |].
  - by rewrite length_words_bytes, Hvs.
  - intros Ht. specialize (Ha Ht eq_refl). lia.
  - clear mf Hs. intros mf Hs. rewrite fset_bytes_words in Hs by (done || rewrite Hvs; unfold FLOW_U64S; cbn; lia).
    xpush. split_and!; [done|done| |done|done]. split; [by apply (cursor_adv_ok p c)|].
    exists (496 + 8 * DIV_ROUND_UP n 2)%nat.
    assert (DIV_ROUND_UP n 2 <= 2)%nat by (destruct n as [|[|[|[|]]]]; cbn; lia).
    split_and!; [by rewrite Nat.mul_comm, Nat.Div0.mod_add|lia|]. exact Hs.
Qed.
End Layers.

(** ** Network layer *)

Lemma set_l2_pad_size_ok (b : dp_packet) (x : Z) :
  0 <= x <= UINT16_MAX -> x <= Z.of_nat (length (dp_data b)) -> dp_packet_set_l2_pad_size b x = Some (pad_of b x).
Proof.
  intros H1 H2. unfold dp_packet_set_l2_pad_size, ovs_assert. unfold UINT16_MAX in H1.
  rewrite (wrap_small 16) by (unfold in_width; lia). by destruct (Z.leb_spec x (Z.of_nat (length (dp_data b)))); [|lia].
Qed.

Lemma sim_poke (mf : mf_ctx) (f : flow) (pos a : nat) (v w : Z) (b : dp_packet) Qo (Q : unit -> xst -> Prop) :
  sim mf f pos (Some (a, v)) ->
  (forall mf', sim mf' (fset f ct_nw_proto w) pos (Some (a, u8 w)) -> load mf' a = Some (u8 w) -> Q tt (Xst b mf')) ->
  xok (push (fun mf => store mf a (be_bytes 1 w))) (Xst b mf) Qo Q.
Proof.
  intros [Hs (H1 & H2 & -> & H4)] HQ.
  destruct (poke_sim mf f pos 437 w Hs) as (mf' & E & Hs' & He); [lia|exact H2|].
  change (Member 437 1) with ct_nw_proto in Hs'. unfold xok, push. cbn [x_mf x_pkt]. rewrite E.
  assert (flow_byte (fset f ct_nw_proto w) 437 = u8 w) as Hw.
  { rewrite flow_byte_fset by (apply Hs || members). cbn. by rewrite Z.shiftr_0_r. }
  assert (set_in mf' 54 = true) as H54 by (apply He; [by apply idx_bound; unfold FLOW_U64S; lia|done]).
  assert (addr_of mf 437 = addr_of mf' 437) as Ea by (symmetry; by apply addr_of_ext).
  apply HQ.
  - split; [done|]. split; [done|]. split; [done|]. split; [done|exact Hw].
  - rewrite Ea, <- Hw. apply (load_sim mf' _ pos); [done|lia|exact H54].
Qed.

Section Network.
Context `{Hash}.
Variable asserts : bool.
Variables (p : list Z) (md : pkt_metadata) (ctp : option nat).
Hypothesis Hp : Forall is_byte p.
Hypothesis Hctp : is_Some ctp <-> has_ct md = true.

(** The byte at [ct_nw_proto_p] after the network layer. *)
Definition ct_byte (ipv6 : bool) : Z :=
  match tuple_of md ipv6 with Some t => u8 (tup_proto t) | None => 0 end.

Definition ghost_of (v : Z) : ghost := fmap (fun a => (a, v)) ctp.

Lemma extract_ct_tuple_ok (b : dp_packet) (mf : mf_ctx) (f : flow) (pos a : nat) (t : ct_tuple) (mb src dst : member) (n : nat)
    Qo (Q : Z * Z -> xst -> Prop) :
  (pos mod 8 = 0)%nat -> (pos <= mb_ofs mb)%nat -> (mb_ofs mb mod 8 = 0 /\ mb_ofs mb + 8 * n <= 8 * FLOW_U64S)%nat ->
  (0 < n < 64)%nat -> src = Member (mb_ofs mb) (4 * n) -> dst = Member (mb_ofs mb + 4 * n) (4 * n) ->
  sim mf f pos (Some (a, 0)) ->
  (forall mf pos', (pos' mod 8 = 0)%nat -> (pos' <= mb_ofs mb + 8 * n)%nat ->
    sim mf (set_fields f (tuple_fields (Some t) src dst)) pos' (Some (a, u8 (tup_proto t))) ->
    Q (tuple_ports (Some t)) (Xst b mf)) ->
  xok (extract_ct_tuple asserts a t mb n) (Xst b mf) Qo Q.
Proof.
  intros H1 H2 [H3 H3'] H4 -> -> Hs HQ. unfold extract_ct_tuple, tuple_fields, tuple_ports in *.
  apply xok_bind, (sim_poke mf f pos a 0 (tup_proto t) b Qo _ Hs). clear mf Hs. intros mf Hs Hl.
  xpure (exact Hl). destruct (u8 (tup_proto t) =? 0); cbn [negb].
  - xpush. by apply (HQ mf pos); [|lia|].
  - pose proof (sim_flow_wf _ _ _ _ Hs) as Hwf.
    apply xok_bind. eapply xok_push_words; [exact Hs|done|done|done|done|done| | |].
    + rewrite length_app, !length_be_bytes. lia.
    + apply Forall_app_2; apply be_bytes_byte.
    + clear mf Hs Hl. intros mf Hs.
      rewrite fset_bytes_app in Hs by (done || apply be_bytes_byte || rewrite !length_be_bytes; lia).
      rewrite length_be_bytes, !fset_bytes_be in Hs by (done || lia || by apply fset_bytes_wf).
      xpush. apply (HQ mf (mb_ofs mb + 8 * n)%nat); [|lia|exact Hs].
      by rewrite Nat.mul_comm, Nat.Div0.mod_add.
Qed.

(** The part of the network layer that depends on connection tracking. *)
Lemma extract_tuple_ok (b : dp_packet) (mf : mf_ctx) (f : flow) (pos : nat) (v6 cond : bool)
    (mb src dst : member) (n : nat) Qo (Q : Z * Z -> xst -> Prop) :
  cond = eqb (md_ct_orig_tuple_ipv6 md) v6 ->
  (pos mod 8 = 0)%nat -> (pos <= mb_ofs mb)%nat -> (mb_ofs mb mod 8 = 0 /\ mb_ofs mb + 8 * n <= 8 * FLOW_U64S)%nat ->
  (0 < n < 64)%nat -> src = Member (mb_ofs mb) (4 * n) -> dst = Member (mb_ofs mb + 4 * n) (4 * n) ->
  sim mf f pos (ghost_of 0) ->
  (forall mf pos', (pos' mod 8 = 0)%nat -> (pos' <= mb_ofs mb + 8 * n)%nat ->
    sim mf (set_fields f (tuple_fields (tuple_of md v6) src dst)) pos' (ghost_of (ct_byte v6)) ->
    Q (tuple_ports (tuple_of md v6)) (Xst b mf)) ->
  xok match ctp with
      | Some a => if cond then extract_ct_tuple asserts a (md_ct_orig_tuple md) mb n
                  else xret (0, 0)
      | None => xret (0, 0)
      end (Xst b mf) Qo Q.
Proof.
  intros -> H1 H2 H3 H4 H5 H6 Hs HQ. unfold ct_byte, ghost_of in *. unfold tuple_of in *.
  destruct ctp as [a|].
  - rewrite (proj1 Hctp) in HQ by (by eexists). cbn [andb fmap option_fmap option_map] in *.
    destruct (eqb (md_ct_orig_tuple_ipv6 md) v6); [|xpush; by apply (HQ mf pos); [|lia|]].
    by apply (extract_ct_tuple_ok b mf f pos a _ mb src dst n).
  - assert (has_ct md = false) as E.
    { destruct (has_ct md); [|done]. by destruct (proj2 Hctp eq_refl). }
    rewrite E in HQ. cbn [andb] in HQ. xpush. by apply (HQ mf pos); [|lia|].
Qed.

(** What the network layer leaves to the transport layer. *)
Definition l3_next (v6 : bool) (i : l3_info) (mf : mf_ctx) (f : flow) : Prop :=
  cursor_ok p (l3_c i) /\
  (is_byte (l3_nw_frag i) /\ is_byte (l3_nw_tos i) /\ is_byte (l3_nw_ttl i) /\ is_byte (l3_nw_proto i)) /\
  sim mf f 596 (ghost_of (ct_byte v6)).

Lemma get_byte (o : nat) : is_byte (get p o 1).
Proof. apply (get_width p o 1 Hp). Qed.

Lemma ipv4_frag_byte (nh : nat) (frag : Z) : ipv4_get_nw_frag p nh = Some frag -> is_byte frag.
Proof.
  unfold ipv4_get_nw_frag. destruct (rd p (nh + 6) 2); [|done]. cbn [mbind option_bind]. intros [= <-].
  unfold is_byte, FLOW_NW_FRAG_ANY, FLOW_NW_FRAG_LATER. repeat case_match; try change (Z.lor 1 2) with 3; lia.
Qed.

Lemma extract_ipv4_ok (b : dp_packet) (mf : mf_ctx) (f : flow) (c : cursor) :
  dp_data b = p -> dp_md b = md -> at_layer p (ghost_of 0) 512 c mf f ->
  layer_ok (extract_ipv4 asserts p md ctp c) b mf f (ipv4_spec p c b)
    (fun i mf f => l3_next false i mf f /\ (c_data c + 20 <= length p)%nat).
Proof.
  intros Hb Hmd (Hc & pos & Hm & Hpos & Hs). unfold layer_ok, extract_ipv4, ipv4_spec. rewrite Hmd.
  destruct (ipv4_sanity_check_ok p (c_data c) (c_size c)) as (r & -> & Hr); [done|]. xpure done.
  destruct r as [[ip_len tot_len]|].
  2: { xpush. split_and!; [done|done|]. exists pos. split; [done|apply Hs]. }
  destruct Hr as [Hr Hpad]. unfold cursor_ok in Hc.
  apply xok_bind. eapply xok_update; [apply set_l2_pad_size_ok; rewrite ?Hb; lia|].
  xpure (apply rd_bytes_some; lia). pose proof (sim_flow_wf _ _ _ _ Hs) as Hwf.
  xpush; [by rewrite length_bytes_at by lia|by apply bytes_at_byte|].
  rewrite (fset_bytes_at2 _ _ _ _ _ 4 4) in Hs by (done || lia || members). replace (c_data c + 12 + 4)%nat with (c_data c + 16)%nat in Hs by lia.
  destruct (ipv4_get_nw_frag_ok p (c_data c)) as [frag Ef]; [lia|].
  apply xok_bind. eapply (extract_tuple_ok _ mf _ _ false _ ct_nw_src ct_nw_src ct_nw_dst 1); [..|exact Hs|];
    [by destruct (md_ct_orig_tuple_ipv6 md)|members|members|members|lia|done|done|].
  clear mf Hs. intros mf pos' Hm' Hp' Hs. cbn beta iota.
  rewrite (surjective_pairing (tuple_ports _)). cbn beta iota.
  assert (pos' <= 592)%nat as Hp592 by (cbn in Hp'; lia). clear Hp'.
  pose proof (sim_zero _ _ _ _ ipv6_label Hs ltac:(members) ltac:(cbn; lia)) as Hz. xpush.
  change (Member (mb_ofs ipv6_label) 4) with ipv6_label in Hs. rewrite Hz in Hs.
  do 3 (xpure (apply rd_some; lia)). xpure (exact Ef). xpure (apply data_pull_some; cbn [c_size]; lia).
  xpush. rewrite Ef. cbn [default from_option c_data c_size]. split_and!; [done|done| |lia].
  split; [unfold cursor_ok; cbn [l3_c c_data c_size]; lia|]. split; [|exact Hs].
  cbn. split_and!; [by apply (ipv4_frag_byte (c_data c))| | |]; apply get_byte.
Qed.

Lemma ext_chain_bytes (c : cursor) (proto frag : Z) (r : option (cursor * Z * Z)) :
  ext_chain p c proto frag r -> is_byte proto -> is_byte frag ->
  match r with Some (_, proto, frag) => is_byte proto /\ is_byte frag | None => True end.
Proof.
  induction 1 as [| |c proto frag|c proto frag r ? ? ? ? _ IH]; intros Hb1 Hb2; try done.
  apply IH; [apply get_byte|]. unfold ext_frag. by destruct (_ && _).
Qed.

Lemma extract_ipv6_ok (b : dp_packet) (mf : mf_ctx) (f : flow) (c : cursor) :
  dp_data b = p -> dp_md b = md -> at_layer p (ghost_of 0) 512 c mf f ->
  layer_ok (extract_ipv6 asserts p md ctp c) b mf f (ipv6_spec p c b)
    (fun i mf f => l3_next true i mf f /\ (c_data c + 40 <= length p)%nat).
Proof.
  intros Hb Hmd (Hc & pos & Hm & Hpos & Hs). unfold layer_ok, extract_ipv6, ipv6_spec. rewrite Hmd.
  destruct (ipv6_sanity_check_ok p (c_data c) (c_size c)) as (r & -> & Hr); [done|]. xpure done.
  destruct r; cbn [negb].
  2: { xpush. split_and!; [done|done|]. exists pos. split; [done|apply Hs]. }
  destruct (Hr eq_refl) as (H40 & Hlen & Hpad). clear Hr. unfold cursor_ok in Hc.
  pose proof (get_nonneg p (c_data c + 4) 2 Hp) as Hpl.
  xpure (apply data_pull_some; unfold IPV6_HEADER_LEN; lia). unfold IPV6_HEADER_LEN. cbn [c_data c_size].
  xpure (apply rd_some; lia). apply xok_bind.
  replace (Z.of_nat (c_size c - 40) - get p (c_data c + 4) 2)
    with (Z.of_nat (c_size c - 40 - Z.to_nat (get p (c_data c + 4) 2))) by lia.
  eapply xok_update; [apply set_l2_pad_size_ok; rewrite ?Hb; lia|].
  set (c1 := Cursor (c_data c + 40) (Z.to_nat (get p (c_data c + 4) 2))).
  assert (cursor_ok p c1) as Hc1 by in_packet.
  destruct (parse_ipv6_ext_hdrs_chain p c1 (get p (c_data c + 6) 1) 0 Hp Hc1) as (r & Er & Hadv & Hchain).
  xpure (apply rd_bytes_some; lia).
  xpush; [by rewrite length_bytes_at by lia|by apply bytes_at_byte|]. rewrite fset_bytes_at in Hs by lia.
  xpure (apply rd_bytes_some; lia).
  xpush; [by rewrite length_bytes_at by lia|by apply bytes_at_byte|]. rewrite fset_bytes_at in Hs by lia.
  apply xok_bind. eapply (extract_tuple_ok _ mf _ _ true _ ct_ipv6_src ct_ipv6_src ct_ipv6_dst 4); [..|exact Hs|];
    [by destruct (md_ct_orig_tuple_ipv6 md)|members|members|members|lia|done|done|].
  clear mf Hs. intros mf pos' Hm' Hp' Hs. cbn beta iota.
  rewrite (surjective_pairing (tuple_ports _)). cbn beta iota.
  assert (pos' <= 592)%nat as Hp592 by (cbn in Hp'; lia). clear Hp'.
  do 3 (xpure (apply rd_some; lia)). xpure (exact Er). rewrite Er.
  assert (is_byte 0) as H0 by done. pose proof (ext_chain_bytes _ _ _ _ Hchain (get_byte _) H0) as Hbytes.
  destruct r as [[] s]; cbn [negb fst snd] in *.
  - xpush. xpush. split_and!; [done|done| |lia]. rewrite set_fields_app.
    split; [by apply (cursor_adv_ok p c1)|]. split; [|exact Hs]. cbn in Hbytes |- *.
    split_and!; [apply Hbytes|by apply (wrap_width 8)|apply get_byte|apply Hbytes].
  - xpush. split_and!; [done|done|]. exists pos'. split; [done|]. apply Hs.
Qed.

Lemma extract_arp_ok (b : dp_packet) (mf : mf_ctx) (f : flow) (c : cursor) (v : Z) Qo (Q : unit -> xst -> Prop) :
  at_layer p (ghost_of v) 512 c mf f ->
  (forall mf pos, (pos mod 8 = 0)%nat -> mf_sim mf (set_fields f (arp_fields p c)) pos -> Q tt (Xst b mf)) ->
  xok (extract_arp asserts p c) (Xst b mf) Qo Q.
Proof.
  intros (Hc & pos & Hm & Hpos & Hs) HQ. unfold extract_arp, arp_fields in *. rewrite data_try_pull_eq.
  unfold ARP_ETH_HEADER_LEN, cursor_ok in *. destruct (Nat.leb_spec 28 (c_size c)), (Nat.ltb_spec (c_size c) 28); try lia.
  2: { xpush. apply (HQ mf pos); [done|apply Hs]. }
  do 4 (xpure (apply rd_some; lia)). change (Z.of_nat ETH_ADDR_LEN) with 6.
  destruct (_ && _); [|xpush; apply (HQ mf pos); [done|apply Hs]].
  xpure (apply rd_some; lia). xpush. xpure (apply rd_some; lia). xpush. xpure (apply rd_some; lia).
  set (op := get p (c_data c + 6) 2) in *. set (fs := if op <=? 0xff then _ else _) in HQ.
  apply xok_bind. set (f1 := fset _ _ _) in Hs. pose proof (sim_flow_wf _ _ _ _ Hs) as Hwf.
  assert (forall mf pos, (pos mod 8 = 0)%nat -> (pos <= 616)%nat -> sim mf (set_fields f1 fs) pos (ghost_of v) ->
    xok (xbind (pure (rd_bytes p (c_data c + 8) 6)) (fun sha => xbind (pure (rd_bytes p (c_data c + 18) 6)) (fun tha =>
         xbind (push_macs asserts arp_sha (sha ++ tha)) (fun _ => pad_to_64 asserts arp_tha)))) (Xst b mf) Qo Q) as Hrest.
  { clear mf pos Hm Hpos Hs. intros mf pos Hm Hpos Hs. pose proof (sim_flow_wf _ _ _ _ Hs) as Hwf1.
    do 2 (xpure (apply rd_bytes_some; lia)).
    xpush; [by rewrite length_app, !length_bytes_at by lia|by apply Forall_app_2; apply bytes_at_byte|].
    rewrite fset_bytes_app in Hs by (done || (by apply bytes_at_byte) || (rewrite !length_bytes_at by lia; members)).
    rewrite length_bytes_at, !fset_bytes_at in Hs by lia. xpush.
    eapply HQ; [|rewrite !set_fields_app; exact (sim_mf _ _ _ _ Hs)]. reflexivity. }
  subst fs. destruct (Z.leb_spec op 0xff) as [Hop|Hop].
  - pose proof (sim_zero _ _ _ _ ipv6_label Hs ltac:(members) ltac:(cbn; lia)) as Hz. xpush.
    change (Member (mb_ofs ipv6_label) 4) with ipv6_label in Hs. rewrite Hz in Hs.
    assert (is_byte op) as Hb by (pose proof (get_nonneg p (c_data c + 6) 2 Hp); unfold is_byte; subst op; lia).
    pose proof (fset_arp_op _ _ _ op Hs Hb) as Eop. xpush.
    change (Member (mb_ofs nw_frag) 4) with (Member 596 4) in Hs. rewrite Eop in Hs.
    eapply Hrest; [..|exact Hs]; [reflexivity|cbn; lia].
  - xpush. eapply Hrest; [..|exact Hs]; [reflexivity|cbn; lia].
Qed.

Lemma extract_nsh_ok (b : dp_packet) (mf : mf_ctx) (f : flow) (c : cursor) (v : Z) Qo (Q : unit -> xst -> Prop) :
  at_layer p (ghost_of v) 512 c mf f ->
  (forall mf pos, (pos mod 8 = 0)%nat -> mf_sim mf (set_fields f (nsh_fields p c)) pos -> Q tt (Xst b mf)) ->
  xok (extract_nsh asserts p c) (Xst b mf) Qo Q.
Proof.
  intros (Hc & pos & Hm & Hpos & Hs) HQ. unfold extract_nsh, nsh_fields in *.
  destruct (parse_nsh_ok p c Hc) as (r & c' & E & Ha & Hr). rewrite E in HQ. xpure (exact E).
  destruct r as [k|]; [|xpush; apply (HQ mf pos); [done|apply Hs]].
  pose proof (sim_flow_wf _ _ _ _ Hs) as Hwf. destruct k as [fl ttl mdt np path ctx].
  cbn in Hr. do 4 (destruct ctx as [|? ctx]; [done|]). destruct ctx; [|done].
  set (l := [(1%nat, fl); (1%nat, ttl); (1%nat, mdt); (1%nat, np); (4%nat, path); (4%nat, z); (4%nat, z0); (4%nat, z1); (4%nat, z2)]).
  change (nsh_bytes _) with (pack l).
  xpush; [reflexivity|apply pack_byte|]. rewrite fset_bytes_pack in Hs by (done || members).
  eapply HQ; [|exact (sim_mf _ _ _ _ Hs)]. reflexivity.
Qed.

Lemma extract_l3_ok (b : dp_packet) (mf : mf_ctx) (f : flow) (t : Z) (c : cursor) :
  dp_data b = p -> dp_md b = md -> at_layer p (ghost_of 0) 512 c mf f ->
  layer_ok (extract_l3 asserts p md ctp t c) b mf f (l3_spec p t c b)
    (fun i mf f => l3_next (negb (t =? ETH_TYPE_IP)) i mf f /\
      (t = ETH_TYPE_IP /\ c_data c + 20 <= length p \/ t = ETH_TYPE_IPV6 /\ c_data c + 40 <= length p)%nat).
Proof.
  intros Hb Hmd Hbt. unfold layer_ok, extract_l3, l3_spec. apply xok_bind. eapply xok_update; [done|].
  destruct (Z.eqb_spec t ETH_TYPE_IP) as [->|_].
  { eapply xok_mono; [by apply extract_ipv4_ok|done|]. intros i s (H1 & H2 & H3 & H4). split_and!; [done|done|done|auto]. }
  destruct (Z.eqb_spec t ETH_TYPE_IPV6) as [->|_].
  { eapply xok_mono; [by apply extract_ipv6_ok|done|]. intros i s (H1 & H2 & H3 & H4). split_and!; [done|done|done|auto]. }
  destruct Hbt as (Hc & pos & Hm & Hpos & Hs).
  assert (at_layer p (ghost_of 0) 512 c mf f) as Hbt by (split; [done|]; eauto).
  apply xok_bind. destruct (_ || _).
  { eapply extract_arp_ok; [done|]. clear mf pos Hm Hpos Hs Hbt. intros mf pos Hm Hs. xpush. split_and!; [done|done|]. eauto. }
  destruct (t =? ETH_TYPE_NSH).
  { eapply extract_nsh_ok; [done|]. clear mf pos Hm Hpos Hs Hbt. intros mf pos Hm Hs. xpush. split_and!; [done|done|]. eauto. }
  do 2 xpush. split_and!; [done|done|]. exists pos. split; [done|]. apply Hs.
Qed.

(** ** Transport layer *)

Lemma push_ports_ok (b : dp_packet) (mf : mf_ctx) (f : flow) (pos : nat) (v src dst : Z) (i : l3_info) Qo (Q : unit -> xst -> Prop) :
  sim mf f pos (ghost_of v) -> (pos mod 8 = 0)%nat -> (pos <= 656)%nat ->
  (forall mf, sim mf (set_fields f (port_fields src dst i)) 664 (ghost_of v) -> Q tt (Xst b mf)) ->
  xok (push_ports asserts src dst (l3_ct_tp_src i) (l3_ct_tp_dst i)) (Xst b mf) Qo Q.
Proof. intros Hs Hm Hpos HQ. unfold push_ports. do 4 xpush. apply HQ. exact Hs. Qed.

Lemma push_igmp_ok (b : dp_packet) (mf : mf_ctx) (f : flow) (pos : nat) (v type code group : Z) Qo (Q : unit -> xst -> Prop) :
  sim mf f pos (ghost_of v) -> (pos mod 8 = 0)%nat -> (pos <= 656)%nat ->
  (forall mf, sim mf (set_fields f [(tp_src, type); (tp_dst, code); (igmp_group_ip4, group)]) 672 (ghost_of v) ->
    Q tt (Xst b mf)) ->
  xok (push_igmp asserts type code group) (Xst b mf) Qo Q.
Proof. intros Hs Hm Hpos HQ. unfold push_igmp. do 5 xpush. apply HQ. exact Hs. Qed.

(** The reads of the hash are in bounds. *)
Definition rss_room (t : Z) (b : dp_packet) : Prop :=
  dp_data b = p /\ (Z.to_nat (dp_l4_ofs b) + 4 <= length p)%nat /\
  (t = ETH_TYPE_IP /\ Z.to_nat (dp_l3_ofs b) + 20 <= length p \/
   t = ETH_TYPE_IPV6 /\ Z.to_nat (dp_l3_ofs b) + 40 <= length p)%nat.

Lemma update_rss_hash_ok (b : dp_packet) (mf : mf_ctx) (t : Z) Qo (Q : unit -> xst -> Prop) :
  rss_room t b -> Q tt (Xst (hashed t b) mf) -> xok (update_rss_hash t) (Xst b mf) Qo Q.
Proof.
  intros (Hb & H4 & H3) HQ. unfold update_rss_hash, hashed in *.
  destruct H3 as [[-> H3]|[-> H3]]; cbn [Z.eqb Pos.eqb ETH_TYPE_IP ETH_TYPE_IPV6] in *; (eapply xok_update; [|exact HQ]).
  - unfold dp_packet_update_rss_hash_ipv4_tcp_udp, dp_packet_calc_hash_ipv4. destruct (dp_has_hash b); [done|].
    rewrite Hb. rds. done.
  - unfold dp_packet_update_rss_hash_ipv6_tcp_udp. destruct (dp_has_hash b); [done|]. rewrite Hb. rds. done.
Qed.

Definition l4_done (f : flow) (r : list field * dp_packet) (s : xst) : Prop :=
  x_pkt s = r.2 /\ exists pos, (pos mod 8 = 0)%nat /\ mf_sim (x_mf s) (set_fields f r.1) pos.

Ltac l4_end Hs := split; [done|]; eexists; split; [|exact (sim_mf _ _ _ _ Hs)]; reflexivity.

Lemma nd_fields_ok (b : dp_packet) (mf : mf_ctx) (f : flow) (v type code : Z) (nd : nd_info) Qo (Q : unit -> xst -> Prop) :
  sim mf f 600 (ghost_of v) -> target_ok p nd ->
  (forall mf, sim mf (set_fields f (nd_fields p nd
    ++ [(tp_src, type); (tp_dst, code); (igmp_group_ip4, nd_rso_flags nd)])) 672 (ghost_of v) -> Q tt (Xst b mf)) ->
  xok (xbind match nd_target_p nd with
             | Some target => xbind (pure (rd_bytes p target 16)) (fun bs => push_words asserts nd_target bs 2)
             | None => xret tt
             end (fun _ =>
       xbind (push_macs asserts arp_sha (be_bytes 6 (nd_sll nd) ++ be_bytes 6 (nd_tll nd))) (fun _ =>
       xbind (if negb (nd_opt_type nd =? 0)
              then xbind (push_uint16 asserts tcp_flags (nd_opt_type nd)) (fun _ => pad_to_64 asserts tcp_flags)
              else pad_to_64 asserts arp_tha) (fun _ =>
       push_igmp asserts type code (nd_rso_flags nd))))) (Xst b mf) Qo Q.
Proof.
  intros Hs Ht HQ. unfold nd_fields, target_ok in *.
  set (f0 := set_fields f (match nd_target_p nd with Some o => [(nd_target, get p o 16)] | None => [] end)).
  assert (forall mf pos, (pos mod 8 = 0)%nat -> (pos <= 616)%nat -> sim mf f0 pos (ghost_of v) ->
    xok (xbind (push_macs asserts arp_sha (be_bytes 6 (nd_sll nd) ++ be_bytes 6 (nd_tll nd))) (fun _ =>
         xbind (if negb (nd_opt_type nd =? 0)
                then xbind (push_uint16 asserts tcp_flags (nd_opt_type nd)) (fun _ => pad_to_64 asserts tcp_flags)
                else pad_to_64 asserts arp_tha) (fun _ =>
         push_igmp asserts type code (nd_rso_flags nd)))) (Xst b mf) Qo Q) as Hrest.
  { clear mf Hs. intros mf pos Hm Hpos Hs. pose proof (sim_flow_wf _ _ _ _ Hs) as Hwf.
    change (be_bytes 6 (nd_sll nd) ++ be_bytes 6 (nd_tll nd)) with (pack [(6%nat, nd_sll nd); (6%nat, nd_tll nd)]).
    xpush; [reflexivity|apply pack_byte|]. rewrite fset_bytes_pack in Hs by (done || members).
    apply xok_bind. destruct (Z.eqb_spec (nd_opt_type nd) 0) as [E|E]; cbn [negb].
    - apply (set_zero_field _ _ _ _ tcp_flags _ E) in Hs; [|members|cbn; lia]. xpush.
      eapply push_igmp_ok; [exact Hs|reflexivity|cbn; lia|]. clear mf Hs. intros mf Hs. apply HQ.
      rewrite !set_fields_app. exact Hs.
    - do 2 xpush. eapply push_igmp_ok; [exact Hs|reflexivity|cbn; lia|]. clear mf Hs. intros mf Hs. apply HQ.
      rewrite !set_fields_app. exact Hs. }
  apply xok_bind. subst f0. destruct (nd_target_p nd) as [o|].
  - xpure (by apply rd_bytes_some).
    xpush; [by rewrite length_bytes_at by lia|by apply bytes_at_byte|]. rewrite fset_bytes_at in Hs by lia.
    eapply Hrest; [..|exact Hs]; [reflexivity|cbn; lia].
  - xpush. eapply Hrest; [..|exact Hs]; [reflexivity|lia].
Qed.

Lemma extract_icmpv6_ok (b : dp_packet) (mf : mf_ctx) (f : flow) (v : Z) (i : l3_info) Qo :
  sim mf f 600 (ghost_of v) -> cursor_ok p (l3_c i) ->
  xok (extract_icmpv6 asserts p i) (Xst b mf) Qo
    (fun _ => l4_done f (if (8 <=? c_size (l3_c i))%nat then icmpv6_fields p i else [], b)).
Proof.
  intros Hs Hc. unfold extract_icmpv6, icmpv6_fields, ICMP6_DATA_HEADER_LEN, cursor_ok in *.
  destruct (Nat.leb_spec 8 (c_size (l3_c i))); [|xpush; l4_end Hs].
  xpure (by apply data_pull_some). set (c1 := Cursor _ _). assert (cursor_ok p c1) as Hc1 by in_packet.
  destruct (parse_icmpv6_ok p c1 (c_data (l3_c i)) Hp Hc1) as (r & c' & E & Ha & Ht); [lia|]. rewrite E.
  xpure done. do 2 (xpure (apply rd_some; lia)). destruct r as [nd|].
  - eapply nd_fields_ok; [exact Hs|done|]. clear mf Hs. intros mf Hs. l4_end Hs.
  - eapply push_ports_ok; [exact Hs|reflexivity|lia|]. clear mf Hs. intros mf Hs. l4_end Hs.
Qed.

Lemma transport_ok (b : dp_packet) (mf : mf_ctx) (f : flow) (v t : Z) (i : l3_info) Qo :
  sim mf f 600 (ghost_of v) -> cursor_ok p (l3_c i) -> ((8 <= c_size (l3_c i))%nat -> rss_room t b) ->
  xok (if l3_nw_proto i =? IPPROTO_TCP then extract_tcp asserts p t i
       else if l3_nw_proto i =? IPPROTO_UDP then extract_udp asserts p t i
       else if l3_nw_proto i =? IPPROTO_SCTP then extract_sctp asserts p i
       else if l3_nw_proto i =? IPPROTO_ICMP then extract_icmp asserts p i
       else if l3_nw_proto i =? IPPROTO_IGMP then extract_igmp asserts p i
       else if l3_nw_proto i =? IPPROTO_ICMPV6 then extract_icmpv6 asserts p i
       else xret tt) (Xst b mf) Qo (fun _ => l4_done f (transport_spec p t i b)).
Proof.
  intros Hs Hc Hroom. unfold cursor_ok in Hc. unfold transport_spec.
  destruct (_ =? IPPROTO_TCP).
  { unfold extract_tcp, tcp_ok, TCP_HEADER_LEN. destruct (Nat.leb_spec 20 (c_size (l3_c i))); cbn [andb]; [|xpush; l4_end Hs].
    xpure (apply rd_some; lia). destruct (_ && _); [|xpush; l4_end Hs].
    xpush. pose proof (fset_tcp_flags _ _ _ (Z.land (get p (c_data (l3_c i) + 12) 2) 0x0fff) Hs) as Ef. xpush.
    change (Member (mb_ofs tcp_flags) 4) with (Member 628 4) in Hs. rewrite Ef in Hs.
    do 2 (xpure (apply rd_some; lia)). apply xok_bind. eapply push_ports_ok; [exact Hs|reflexivity|cbn; lia|].
    clear mf Hs Ef. intros mf Hs. apply xok_bind, update_rss_hash_ok; [apply Hroom; lia|]. eapply xok_update; [done|]. l4_end Hs. }
  destruct (_ =? IPPROTO_UDP).
  { unfold extract_udp, UDP_HEADER_LEN. destruct (Nat.leb_spec 8 (c_size (l3_c i))); [|xpush; l4_end Hs].
    do 2 (xpure (apply rd_some; lia)). apply xok_bind. eapply push_ports_ok; [exact Hs|reflexivity|lia|].
    clear mf Hs. intros mf Hs. apply xok_bind, update_rss_hash_ok; [by apply Hroom|]. eapply xok_update; [done|]. l4_end Hs. }
  destruct (_ =? IPPROTO_SCTP).
  { unfold extract_sctp, SCTP_HEADER_LEN. destruct (Nat.leb_spec 12 (c_size (l3_c i))); [|xpush; l4_end Hs].
    do 2 (xpure (apply rd_some; lia)). apply xok_bind. eapply push_ports_ok; [exact Hs|reflexivity|lia|].
    clear mf Hs. intros mf Hs. eapply xok_update; [done|]. l4_end Hs. }
  destruct (_ =? IPPROTO_ICMP).
  { unfold extract_icmp, ICMP_HEADER_LEN. destruct (Nat.leb_spec 8 (c_size (l3_c i))); [|xpush; l4_end Hs].
    do 2 (xpure (apply rd_some; lia)). eapply push_ports_ok; [exact Hs|reflexivity|lia|]. clear mf Hs. intros mf Hs. l4_end Hs. }
  destruct (_ =? IPPROTO_IGMP).
  { unfold extract_igmp, IGMP_HEADER_LEN. destruct (Nat.leb_spec 8 (c_size (l3_c i))); [|xpush; l4_end Hs].
    do 3 (xpure (apply rd_some; lia)). eapply push_igmp_ok; [exact Hs|reflexivity|lia|]. clear mf Hs. intros mf Hs. l4_end Hs. }
  destruct (_ =? IPPROTO_ICMPV6); [|xpush; l4_end Hs].
  eapply xok_mono; [by eapply extract_icmpv6_ok|done|]. intros a s. by destruct (8 <=? c_size (l3_c i))%nat.
Qed.

Lemma sim_load (mf : mf_ctx) (f : flow) (pos a : nat) (v : Z) : sim mf f pos (Some (a, v)) -> load mf a = Some v.
Proof. intros [Hs (H1 & H2 & -> & <-)]. apply (load_sim mf f pos); [done|lia|exact H2]. Qed.

(** [icmp6_is_nd] reads two bytes past the headers of a later fragment. *)
Definition later_frag_safe (t : Z) (i : l3_info) : Prop :=
  Z.land (l3_nw_frag i) FLOW_NW_FRAG_LATER <> 0 -> ct_proto md t = IPPROTO_ICMPV6 -> (c_data (l3_c i) + 2 <= length p)%nat.

Lemma extract_later_frag_ok (b : dp_packet) (mf : mf_ctx) (f : flow) (t : Z) (i : l3_info) Qo :
  dp_md b = md -> sim mf f 600 (ghost_of (ct_proto md t)) ->
  (ct_proto md t = IPPROTO_ICMPV6 -> (c_data (l3_c i) + 2 <= length p)%nat) ->
  xok (extract_later_frag asserts p ctp i) (Xst b mf) Qo (fun _ => l4_done f (later_frag_fields p t i b, b)).
Proof.
  intros Hmd Hs Hsafe. unfold extract_later_frag, later_frag_fields, ghost_of in *. rewrite Hmd.
  set (v := ct_proto md t) in *. destruct ctp as [a|].
  2: { assert (v = 0) as Ev.
       { subst v. unfold ct_proto, tuple_of. destruct (has_ct md); [by destruct (proj2 Hctp eq_refl)|done]. }
       xpush. rewrite Ev. cbn. l4_end Hs. }
  cbn [fmap option_fmap option_map] in Hs. apply xok_bind. eapply xok_pure; [exact (sim_load _ _ _ _ _ Hs)|].
  assert (forall mf, sim mf f 600 (Some (a, v)) -> xok (xbind (pad_from_64 asserts ct_tp_src) (fun _ =>
      xbind (push_uint16 asserts ct_tp_src (l3_ct_tp_src i)) (fun _ => push_uint16 asserts ct_tp_dst (l3_ct_tp_dst i))))
      (Xst b mf) Qo (fun _ => l4_done f ([(ct_tp_src, l3_ct_tp_src i); (ct_tp_dst, l3_ct_tp_dst i)], b))) as Hports.
  { clear mf Hs. intros mf Hs. do 3 xpush. l4_end Hs. }
  apply xok_bind. destruct (_ || _); cbn [orb]; [xpush; by apply Hports|].
  destruct (Z.eqb_spec v IPPROTO_ICMPV6) as [E|E]; cbn [andb]; [|do 2 xpush; l4_end Hs].
  xpure (apply icmp6_is_nd_ok, Hsafe, E). xpush. unfold looks_nd. destruct (negb _); [by apply Hports|xpush; l4_end Hs].
Qed.

Lemma extract_l4_ok (b : dp_packet) (mf : mf_ctx) (f : flow) (t : Z) (i : l3_info) Qo :
  dp_data b = p -> dp_md b = md -> l3_next (negb (t =? ETH_TYPE_IP)) i mf f ->
  (t = ETH_TYPE_IP /\ Z.to_nat (dp_l3_ofs b) + 20 <= length p \/
   t = ETH_TYPE_IPV6 /\ Z.to_nat (dp_l3_ofs b) + 40 <= length p)%nat ->
  later_frag_safe t i ->
  xok (extract_l4 asserts p ctp t i) (Xst b mf) Qo (fun _ => l4_done f (l4_spec p t i b)).
Proof.
  intros Hb Hmd (Hc & (H1 & H2 & H3 & H4) & Hs) Hl3 Hsafe. unfold extract_l4, l4_spec.
  apply xok_bind. eapply xok_update; [done|]. pose proof (sim_flow_wf _ _ _ _ Hs) as Hwf. xpush.
  change (Member (mb_ofs nw_frag) 4) with (Member 596 4) in Hs. rewrite fset_nw_frag in Hs by done.
  set (b1 := set_l4_ofs b _). set (fs := [_; _; _; _]) in *. unfold l4_done.
  destruct (Z.eqb_spec (Z.land (l3_nw_frag i) FLOW_NW_FRAG_LATER) 0) as [E|E].
  - eapply xok_mono; [eapply (transport_ok b1 mf _ _ t i Qo Hs Hc)|done|].
    + intros H8. split; [done|]. split; [|done]. unfold cursor_ok in Hc. cbn [b1 set_l4_ofs set_ofs dp_l4_ofs].
      pose proof (Z.mod_le (Z.of_nat (c_data (l3_c i))) (2 ^ 16) ltac:(lia) ltac:(lia)). unfold wrap. lia.
    + intros a s (Hp1 & pos & Hm & Hs1). split; [done|]. exists pos. split; [done|]. cbn [fst]. by rewrite set_fields_app.
  - eapply xok_mono; [eapply (extract_later_frag_ok b1 mf _ t i Qo Hmd Hs)|done|].
    + intros Ep. by apply Hsafe.
    + intros a s (Hp1 & pos & Hm & Hs1). split; [done|]. exists pos. split; [done|]. cbn [fst]. by rewrite set_fields_app.
Qed.
End Network.
