(* ===== verification/ExtractProps.v ===== *)
(** * Flow extraction: the properties *)

From S2P Require Import Prelude Util Flowmap Hash Miniflow MetaFlow Trie FlowBits FlowFields MetaFields Packet PacketProps MfCtx.
From S2P Require Import FlowExtract ExtractSpec ExtractFields ExtractSim ExtractLayers.
From stdpp Require Import prelude list.
From Stdlib Require Import ZArith Lia.
Open Scope Z_scope.
Open Scope ovs_scope.

#[local] Opaque fset fget.

(** ** Packets *)

Record packet_wf (b : dp_packet) : Prop := {
  pw_data : Forall is_byte (dp_data b);
  pw_tunnel_length : length (md_tunnel (dp_md b)) = 344%nat;
  pw_tunnel : Forall is_byte (md_tunnel (dp_md b))
}.

(** The packet with its offsets reset. *)
Definition restarted (b : dp_packet) : dp_packet :=
  if dp_packet_tunnel b then dp_packet_reset_outer_offsets b else dp_packet_reset_offsets b.

Lemma restarted_same (b : dp_packet) :
  dp_data (restarted b) = dp_data b /\ dp_md (restarted b) = dp_md b /\ dp_packet_type (restarted b) = dp_packet_type b.
Proof. unfold restarted. by destruct (dp_packet_tunnel b). Qed.

Section Whole.
Context `{Hash}.
Variable asserts : bool.
Variable flow_vlan_limit : Z.

(** What the layers below hand to the MPLS and to the transport layer. *)
Definition mpls_input (b : dp_packet) : option (Z * cursor) := (l2_spec flow_vlan_limit (dp_data b) (restarted b)).2.

Definition transport_input (b : dp_packet) : option (Z * l3_info) :=
  match l2_spec flow_vlan_limit (dp_data b) (restarted b) with
  | (_, b1, Some (t, c)) =>
    match mpls_spec (dp_data b) t c b1 with
    | (_, b2, Some c) =>
      match l3_spec (dp_data b) t c b2 with
      | (_, _, Some i) => Some (t, i)
      | _ => None
      end
    | _ => None
    end
  | _ => None
  end.

(** An MPLS packet with less than one label. *)
Definition short_mpls (b : dp_packet) : bool :=
  match mpls_input b with Some (t, c) => eth_type_mpls t && (c_size c <? 4)%nat | None => false end.

(** A later fragment, in a tracked ICMPv6 connection, with less than two bytes
    after its headers: [icmp6_is_nd] reads past the end of the packet. *)
Definition reads_past_end (b : dp_packet) : bool :=
  match transport_input b with
  | Some (t, i) =>
    negb (Z.land (l3_nw_frag i) FLOW_NW_FRAG_LATER =? 0) && (ct_proto (dp_md b) t =? IPPROTO_ICMPV6)
    && (length (dp_data b) <? c_data (l3_c i) + 2)%nat
  | None => false
  end.

Hypothesis Hlimit : flow_vlan_limit <= FLOW_MAX_VLAN_HEADERS.

Lemma l2_spec_packet (p : list Z) (b : dp_packet) : (l2_spec flow_vlan_limit p b).1.2 = b.
Proof. unfold l2_spec. by repeat case_match. Qed.

Lemma mpls_spec_packet (p : list Z) (t : Z) (c : cursor) (b : dp_packet) :
  (mpls_spec p t c b).1.2 = b \/ (mpls_spec p t c b).1.2 = set_l2_5_ofs b (Z.of_nat (c_data c)).
Proof. unfold mpls_spec. by repeat case_match; auto. Qed.

Lemma l3_spec_packet (p : list Z) (t : Z) (c : cursor) (b : dp_packet) :
  let b' := (l3_spec p t c b).1.2 in
  dp_data b' = dp_data b /\ dp_md b' = dp_md b /\ dp_l3_ofs b' = u16 (Z.of_nat (c_data c)).
Proof. unfold l3_spec, ipv4_spec, ipv6_spec. by repeat case_match. Qed.

(** Layers compose as their specifications do. *)
Lemma layer_bind {A} (m : xM A) (k : A -> xM unit) (b : dp_packet) (mf : mf_ctx) (f : flow) (r : layer A)
    (rk : A -> dp_packet -> layer unit) (next : A -> mf_ctx -> flow -> Prop) :
  layer_ok m b mf f r next ->
  (forall a mf, r.2 = Some a -> next a mf (set_fields f r.1.1) ->
    xok (k a) (Xst r.1.2 mf) (l4_done (set_fields f r.1.1) (rk a r.1.2).1)
      (fun _ => l4_done (set_fields f r.1.1) (rk a r.1.2).1)) ->
  xok (xbind m k) (Xst b mf) (l4_done f (then_layer r rk).1) (fun _ => l4_done f (then_layer r rk).1).
Proof.
  intros Hm Hk. destruct r as [[fs b1] x]. apply xok_bind. eapply xok_mono; [exact Hm| |]; cbn [fst snd].
  - intros s (-> & H2 & pos & H3 & H4). cbn. split; [done|]. eauto.
  - intros a [b2 mf'] (-> & H2 & H3). cbn in H2. subst b2. specialize (Hk a mf' eq_refl H3). cbn [fst snd then_layer] in *.
    destruct (rk a b1) as [[fs' b2] y]. cbn [fst snd] in *.
    eapply xok_mono; [exact Hk| |]; [intros s|intros u s]; unfold l4_done; cbn [fst snd]; by rewrite set_fields_app.
Qed.

(** Everything after the metadata. *)
Lemma extract_rest_ok (b : dp_packet) (mf : mf_ctx) (f : flow) (pos : nat) (ctp : option nat) :
  packet_wf b -> (is_Some ctp <-> has_ct (dp_md b) = true) ->
  (pos mod 8 = 0)%nat -> (pos <= 464)%nat -> sim mf f pos (fmap (fun a => (a, 0)) ctp) ->
  reads_past_end b = false -> (asserts = true -> short_mpls b = false) ->
  let p := dp_data b in
  let r := then_layer (l2_spec flow_vlan_limit p (restarted b)) (fun '(t, c) b =>
           then_layer (mpls_spec p t c b) (fun c b =>
           then_layer (l3_spec p t c b) (fun i b => let r := l4_spec p t i b in (r.1, r.2, @None unit)))) in
  xok (xbind (extract_l2 asserts flow_vlan_limit p (dp_packet_type b) (Cursor 0 (length p))) (fun '(t, c) =>
       xbind (extract_mpls asserts p t c) (fun c =>
       xbind (extract_l3 asserts p (dp_md b) ctp t c) (fun i => extract_l4 asserts p ctp t i))))
    (Xst (restarted b) mf) (l4_done f r.1) (fun _ => l4_done f r.1).
Proof.
  intros Hwf Hctp Hm Hpos Hs Hrp Hsm p r. pose proof (pw_data b Hwf) as Hp. fold p in Hp.
  destruct (restarted_same b) as (Ed & Em & Et). rewrite <- Et.
  unfold reads_past_end, transport_input, short_mpls, mpls_input in Hrp, Hsm. fold p in Hrp, Hsm.
  eapply layer_bind; [by apply extract_l2_ok with (pos := pos) (g := fmap (fun a => (a, 0)) ctp)|].
  intros [t c] mf1 E1 (Hbt & Hc30). cbn [snd] in Hbt, Hc30.
  pose proof (l2_spec_packet p (restarted b)) as Eb1.
  destruct (l2_spec _ _ _) as [[fs1 b1] x1]. cbn [fst snd] in *. subst x1 b1.
  eapply layer_bind; [apply (extract_mpls_ok asserts p _ Hp _ mf1 _ t c Hbt)|].
  { intros Ha Ht. specialize (Hsm Ha). rewrite Ht in Hsm. cbn [andb] in Hsm. by apply Nat.ltb_ge in Hsm. }
  intros c2 mf2 E2 (Hbt2 & Hadv & Hsame).
  pose proof (mpls_spec_packet p t c (restarted b)) as Eb2.
  destruct (mpls_spec _ _ _ _) as [[fs2 b2] x2]. cbn [fst snd] in *. subst x2.
  assert (dp_data b2 = p) as Ed2 by (by destruct Eb2 as [->| ->]).
  assert (dp_md b2 = dp_md b) as Em2 by (by destruct Eb2 as [->| ->]).
  eapply layer_bind; [by apply (extract_l3_ok asserts p (dp_md b) ctp Hp Hctp b2 mf2 _ t c2 Ed2 Em2)|].
  intros i mf3 E3 (Hn & Hlen). pose proof (l3_spec_packet p t c2 b2) as (Ed3 & Em3 & Eo3).
  destruct (l3_spec _ _ _ _) as [[fs3 b3] x3]. cbn [fst snd] in *. subst x3.
  eapply xok_mono; [apply (extract_l4_ok asserts p (dp_md b) ctp Hp Hctp b3 mf3 (set_fields (set_fields (set_fields f fs1) fs2) fs3)
    t i (fun _ => False))| |].
  - congruence.
  - congruence.
  - done.
  - rewrite Eo3. assert (Z.to_nat (u16 (Z.of_nat (c_data c2))) <= c_data c2)%nat.
    { pose proof (Z.mod_le (Z.of_nat (c_data c2)) (2 ^ 16) ltac:(lia) ltac:(lia)). unfold wrap. lia. }
    destruct Hlen as [[-> Hl]|[-> Hl]]; [left|right]; (split; [done|lia]).
  - intros Hf Hc. apply Nat.nlt_ge. intros Hlt. apply Nat.ltb_lt in Hlt. rewrite Hlt, Hc in Hrp.
    destruct (Z.eqb_spec (Z.land (l3_nw_frag i) FLOW_NW_FRAG_LATER) 0); [done|]. by cbn in Hrp.
  - done.
  - done.
Qed.

(** The extraction of a whole packet. *)
Lemma extract_packet_ok (buf : list Z) (b : dp_packet) :
  packet_wf b -> length buf = (8 * FLOW_U64S)%nat -> Forall is_byte buf ->
  reads_past_end b = false -> (asserts = true -> short_mpls b = false) ->
  exists mf, miniflow_extract asserts flow_vlan_limit buf b = Some (mf, packet_after flow_vlan_limit b) /\
    miniflow_wf mf /\ miniflow_expand mf = set_fields zero_flow (packet_fields flow_vlan_limit b).
Proof.
  intros Hwf Hl Hb Hrp Hsm. unfold miniflow_extract, packet_after, packet_fields, packet_spec, extract_packet.
  pose proof (mf_sim_init buf Hl Hb) as Hinit. set (mf0 := MfCtx _ buf 0) in *.
  set (fin := then_layer _ _).
  assert (xok (extract_packet asserts flow_vlan_limit (dp_data b) (dp_md b) (dp_packet_type b)) (Xst b mf0)
    (l4_done (set_fields zero_flow (metadata_fields (dp_md b) (dp_packet_type b))) fin.1)
    (fun _ => l4_done (set_fields zero_flow (metadata_fields (dp_md b) (dp_packet_type b))) fin.1)) as Hok.
  { unfold extract_packet. apply xok_bind. apply (extract_metadata_ok asserts b mf0); [apply Hwf|apply Hwf|done|].
    clear mf0 Hinit. intros mf pos ctp (H1 & H2 & H3 & H4). apply xok_bind. eapply xok_update; [done|].
    by apply (extract_rest_ok b mf _ pos ctp); [| | |lia| | |]. }
  unfold xok, extract_packet in Hok. destruct (xbind _ _ _) as [[x s]|]; [|done].
  assert (l4_done (set_fields zero_flow (metadata_fields (dp_md b) (dp_packet_type b))) fin.1 s) as (H1 & pos & Hm & Hs)
    by (by destruct x). destruct fin as [[fs b'] y]. cbn [fst snd] in *. rewrite <- set_fields_app in Hs.
  exists (mf_result (x_mf s)). rewrite H1. split; [done|]. split; [by apply (mf_result_wf _ _ _ Hs)|by apply (mf_result_expand _ _ _ Hs)].
Qed.
End Whole.

(** ** Offsets *)

Definition ofs_of (b : dp_packet) : Z * Z * Z * Z := (dp_l2_pad_size b, dp_l2_5_ofs b, dp_l3_ofs b, dp_l4_ofs b).

(** The offsets that [miniflow_extract] leaves in a packet of [n] bytes. *)
Definition offsets_ok (n : Z) (o : Z * Z * Z * Z) : Prop :=
  let '(pad, l2_5, l3, l4) := o in
  (l3 = UINT16_MAX /\ l2_5 = UINT16_MAX \/ 0 <= l3 <= n) /\
  (l2_5 = UINT16_MAX \/ 0 <= l2_5 <= l3) /\
  (l4 = UINT16_MAX \/ l3 + 20 <= l4 /\ l4 + pad <= n) /\
  0 <= pad <= n.

Section Offsets.
Context `{Hash}.
Variable flow_vlan_limit : Z.
Variable p : list Z.
Hypothesis Hp : Forall is_byte p.
Hypothesis Hlen : Z.of_nat (length p) < UINT16_MAX.

Lemma hashed_ofs (t : Z) (b : dp_packet) : ofs_of (hashed t b) = ofs_of b.
Proof.
  assert (forall b', dp_packet_update_rss_hash_ipv4_tcp_udp b = Some b' -> ofs_of b' = ofs_of b) as H4.
  { unfold dp_packet_update_rss_hash_ipv4_tcp_udp. intros b'. destruct (dp_has_hash b); intros E; by simplify_option_eq. }
  assert (forall b', dp_packet_update_rss_hash_ipv6_tcp_udp b = Some b' -> ofs_of b' = ofs_of b) as H6.
  { unfold dp_packet_update_rss_hash_ipv6_tcp_udp. intros b'. destruct (dp_has_hash b); intros E; by simplify_option_eq. }
  unfold hashed. destruct (t =? ETH_TYPE_IP); [|destruct (t =? ETH_TYPE_IPV6); [|done]].
  - destruct (dp_packet_update_rss_hash_ipv4_tcp_udp b); [by apply H4|done].
  - destruct (dp_packet_update_rss_hash_ipv6_tcp_udp b); [by apply H6|done].
Qed.

Lemma u16_small (o : nat) : (o <= length p)%nat -> u16 (Z.of_nat o) = Z.of_nat o.
Proof. intros Ho. apply wrap_small. unfold in_width, UINT16_MAX in *. lia. Qed.

Lemma l2_spec_cursor (b : dp_packet) (t : Z) (c : cursor) :
  (l2_spec flow_vlan_limit p b).2 = Some (t, c) -> cursor_ok p c.
Proof.
  unfold l2_spec. destruct (dp_packet_is_eth b).
  2: { cbn. intros [= <- <-]. unfold cursor_ok. cbn. lia. }
  destruct (Nat.ltb_spec (length p) ETH_HEADER_LEN) as [|H14]; [done|]. unfold ETH_HEADER_LEN in H14.
  destruct (parse_vlan_ok p flow_vlan_limit (Cursor 0 (length p))) as (hdrs & c1 & -> & Ha1 & _ & Hs1 & _);
    [unfold cursor_ok; cbn; lia|cbn; lia|].
  assert (cursor_ok p c1) as Hc1 by (apply (cursor_adv_ok p (Cursor 0 (length p))); [unfold cursor_ok; cbn; lia|done]).
  destruct (parse_ethertype_ok p c1) as (t' & c' & -> & Ha & _); [done|done|]. cbn. intros [= <- <-].
  by apply (cursor_adv_ok p c1).
Qed.

Lemma transport_spec_ofs (t : Z) (i : l3_info) (b : dp_packet) : ofs_of (transport_spec p t i b).2 = ofs_of b.
Proof.
  pose proof (hashed_ofs t b) as Hh. unfold transport_spec, ofs_of in *.
  repeat case_match; cbn; try done; injection Hh; congruence.
Qed.

Lemma l4_spec_ofs (t : Z) (i : l3_info) (b : dp_packet) :
  ofs_of (l4_spec p t i b).2 = ofs_of (set_l4_ofs b (Z.of_nat (c_data (l3_c i)))).
Proof. unfold l4_spec. case_match; [cbn [snd]; apply transport_spec_ofs|done]. Qed.

(** The network layer, from a packet without offsets of its own. *)
Lemma l3_spec_ofs (t : Z) (c : cursor) (b : dp_packet) :
  cursor_ok p c -> dp_l4_ofs b = UINT16_MAX -> dp_l2_pad_size b = 0 ->
  (dp_l2_5_ofs b = UINT16_MAX \/ 0 <= dp_l2_5_ofs b <= Z.of_nat (c_data c)) ->
  offsets_ok (Z.of_nat (length p)) (ofs_of (l3_spec p t c b).1.2) /\
  (forall i, (l3_spec p t c b).2 = Some i ->
    offsets_ok (Z.of_nat (length p)) (ofs_of (set_l4_ofs (l3_spec p t c b).1.2 (Z.of_nat (c_data (l3_c i)))))).
Proof.
  intros Hc H4 Hpad H25. unfold cursor_ok in Hc. pose proof (u16_small (c_data c) ltac:(lia)) as E3.
  unfold l3_spec. destruct (t =? ETH_TYPE_IP); [|destruct (t =? ETH_TYPE_IPV6)].
  - unfold ipv4_spec. destruct (ipv4_sanity_check_ok p (c_data c) (c_size c)) as (r & -> & Hr); [lia|].
    destruct r as [[ip_len tot_len]|]; cbn -[Z.of_nat]; rewrite E3, ?H4, ?Hpad.
    + split; [lia|]. intros i [= <-]. cbn -[Z.of_nat]. rewrite (u16_small (c_data c + ip_len)) by lia. lia.
    + split; [lia|done].
  - unfold ipv6_spec. destruct (ipv6_sanity_check_ok p (c_data c) (c_size c)) as (r & -> & Hr); [lia|].
    destruct r; [|cbn -[Z.of_nat]; rewrite E3, H4, Hpad; split; [lia|done]].
    destruct (Hr eq_refl) as (H40 & Hl6 & _). pose proof (get_nonneg p (c_data c + 4) 2 Hp) as Hpl.
    set (plen := get p (c_data c + 4) 2) in *. clearbody plen. set (c1 := Cursor (c_data c + 40) (Z.to_nat plen)).
    destruct (parse_ipv6_ext_hdrs_chain p c1 (get p (c_data c + 6) 1) 0 Hp) as (r & -> & Ha & _); [in_packet|].
    destruct r as [[] es]; cbn -[Z.of_nat]; rewrite E3, ?H4; [|split; [lia|done]].
    split; [lia|]. intros i [= <-]. cbn -[Z.of_nat]. unfold cursor_adv in Ha. cbn [c1 c_data c_size snd] in Ha.
    rewrite (u16_small (c_data (es_c es))) by lia. lia.
  - assert (offsets_ok (Z.of_nat (length p)) (ofs_of (set_l3_ofs b (Z.of_nat (c_data c))))) as Hok
      by (cbn -[Z.of_nat]; rewrite E3, H4, Hpad; lia).
    destruct (_ || _); [done|]. by destruct (t =? ETH_TYPE_NSH).
Qed.

Lemma mpls_spec_ofs (t : Z) (c : cursor) (b : dp_packet) :
  cursor_ok p c -> dp_l2_5_ofs b = UINT16_MAX ->
  exists c', (mpls_spec p t c b).2 = Some c' /\ cursor_ok p c' /\
    let b' := (mpls_spec p t c b).1.2 in
    dp_l4_ofs b' = dp_l4_ofs b /\ dp_l2_pad_size b' = dp_l2_pad_size b /\
    (dp_l2_5_ofs b' = UINT16_MAX \/ 0 <= dp_l2_5_ofs b' <= Z.of_nat (c_data c')).
Proof.
  intros Hc Hb. unfold mpls_spec. destruct (eth_type_mpls t); [|exists c; cbn; split_and!; auto].
  destruct (parse_mpls_ok p c Hc) as (n & c' & -> & Ha & _). exists c'. split; [done|].
  split; [by apply (cursor_adv_ok p c)|]. cbn -[Z.of_nat]. unfold cursor_adv, cursor_ok in *.
  rewrite u16_small by lia. split_and!; [done|done|]. lia.
Qed.
End Offsets.

Lemma packet_after_offsets `{Hash} (flow_vlan_limit : Z) (b : dp_packet) :
  packet_wf b -> Z.of_nat (length (dp_data b)) < UINT16_MAX ->
  offsets_ok (Z.of_nat (length (dp_data b))) (ofs_of (packet_after flow_vlan_limit b)).
Proof.
  intros Hwf Hlen. pose proof (pw_data b Hwf) as Hp. set (p := dp_data b) in *.
  unfold packet_after, packet_spec. fold (restarted b). fold p. set (b0 := restarted b).
  assert (ofs_of b0 = (0, UINT16_MAX, UINT16_MAX, UINT16_MAX)) as E0
    by (subst b0; unfold restarted; by destruct (dp_packet_tunnel b)).
  pose proof (l2_spec_cursor flow_vlan_limit p b0) as Hc. pose proof (l2_spec_packet flow_vlan_limit p b0) as Eb.
  destruct (l2_spec _ p b0) as [[fs1 b1] x1]. cbn [fst snd] in *. subst b1.
  assert (offsets_ok (Z.of_nat (length p)) (ofs_of b0)) as Hok0 by (rewrite E0; cbn -[Z.of_nat]; lia).
  destruct x1 as [[t c]|]; [|done]. specialize (Hc t c eq_refl). unfold ofs_of in E0. injection E0 as E1 E2 E3 E4.
  destruct (mpls_spec_ofs p Hlen t c b0 Hc E2) as (c' & Ec & Hc' & H4 & Hpd & H25).
  cbn [then_layer]. destruct (mpls_spec p t c b0) as [[fs2 b2] x2]. cbn [fst snd] in *. subst x2. cbn [then_layer].
  destruct (l3_spec_ofs p Hp Hlen t c' b2) as [Hok3 Hok4]; [done|congruence|congruence|done|].
  destruct (l3_spec p t c' b2) as [[fs3 b3] [i|]]; cbn [fst snd then_layer] in *; [|done].
  rewrite l4_spec_ofs. by apply Hok4.
Qed.
