(* ===== verification/ExtractPadding.v ===== *)
(** * Bytes after an IP packet do not matter

    [miniflow_extract] never looks at the padding of a frame (flow.c, the
    comments "Never pull padding").  Bytes that are added after a complete IP
    packet change the size of the padding and nothing else.  The parsers are
    monotone: a parser that has stayed inside of the packet does the same in
    a longer one. *)

From S2P Require Import Prelude Util Flowmap Hash Miniflow MetaFlow Trie FlowBits FlowFields MetaFields Packet PacketProps MfCtx.
From S2P Require Import FlowExtract ExtractSpec ExtractFields ExtractSim ExtractLayers ExtractProps.
From stdpp Require Import prelude list.
From Stdlib Require Import ZArith Lia.
Open Scope Z_scope.
Open Scope ovs_scope.

(** ** Reads *)

Section Padding.
Variables (p q : list Z).

(** The same place in the longer packet. *)
Definition grow (c : cursor) : cursor := Cursor (c_data c) (c_size c + length q).

Lemma get_app (o n : nat) : (o + n <= length p)%nat -> get (p ++ q) o n = get p o n.
Proof.
  intros Ho. unfold get. apply be_ext. intros i Hi. rewrite !nth_drop_Z, app_nth1 by lia. done.
Qed.

Lemma rd_app (o n : nat) (x : Z) : rd p o n = Some x -> rd (p ++ q) o n = Some x.
Proof.
  unfold rd. rewrite length_app. destruct (Nat.leb_spec (o + n) (length p)); [|done]. intros [= <-].
  destruct (Nat.leb_spec (o + n) (length p + length q)); [|lia]. by rewrite get_app.
Qed.

(** The reads that succeed in [p]. *)
Ltac rd_both :=
  repeat match goal with
  | |- context [mbind _ (rd p ?o ?n)] =>
      let E := fresh "E" in destruct (rd p o n) as [?|] eqn:E; [|done]; try rewrite (rd_app _ _ _ E); cbn [mbind option_bind]
  end.

Lemma parse_vlan_loop_app (n : nat) (c c' : cursor) (hdrs : list Z) :
  parse_vlan_loop n p c = Some (hdrs, c') -> (6 <= c_size c')%nat ->
  parse_vlan_loop n (p ++ q) (grow c) = Some (hdrs, grow c').
Proof.
  revert c c' hdrs. induction n as [|n IH]; intros c c' hdrs; cbn [parse_vlan_loop grow c_data c_size]; rd_both.
  - by intros [= <- <-].
  - destruct (eth_type_vlan _); [|by intros [= <- <-]].
    destruct (Nat.ltb_spec (c_size c) 6); [intros [= <- <-]; lia|].
    destruct (Nat.ltb_spec (c_size c + length q) 6); [lia|].
    rewrite !data_pull_some by (cbn; lia). cbn [mbind option_bind grow c_data c_size]. rd_both.
    destruct (parse_vlan_loop n p _) as [[h1 c1]|] eqn:Ev; [|done]. cbn [mbind option_bind]. intros [= <- <-] H6.
    apply IH in Ev; [|done]. unfold grow in Ev. cbn [c_data c_size] in Ev.
    replace (c_size c + length q - 4)%nat with (c_size c - 4 + length q)%nat by lia. by rewrite Ev.
Qed.

Lemma parse_vlan_app (limit : Z) (c c' : cursor) (hdrs : list Z) :
  parse_vlan limit p c = Some (hdrs, c') -> (6 <= c_size c')%nat -> parse_vlan limit (p ++ q) (grow c) = Some (hdrs, grow c').
Proof.
  unfold parse_vlan, data_pull. cbn [grow c_data c_size].
  destruct (Nat.leb_spec (ETH_ADDR_LEN * 2) (c_size c)); [|done].
  destruct (Nat.leb_spec (ETH_ADDR_LEN * 2) (c_size c + length q)); [|lia]. cbn [mbind option_bind]. intros Ev H6.
  apply parse_vlan_loop_app in Ev; [|done]. unfold grow in Ev. cbn [c_data c_size] in Ev.
  replace (c_size c + length q - ETH_ADDR_LEN * 2)%nat with (c_size c - ETH_ADDR_LEN * 2 + length q)%nat by lia. done.
Qed.

Lemma parse_ethertype_app (c c' : cursor) (t : Z) :
  parse_ethertype p c = Some (t, c') -> (8 <= c_size c')%nat -> parse_ethertype (p ++ q) (grow c) = Some (t, grow c').
Proof.
  unfold parse_ethertype, data_pull, LLC_SNAP_HEADER_LEN. cbn [grow c_data c_size].
  destruct (Nat.leb_spec 2 (c_size c)); [|done].
  destruct (Nat.leb_spec 2 (c_size c + length q)); [|lia]. cbn [mbind option_bind]. rd_both.
  replace (c_size c + length q - 2)%nat with (c_size c - 2 + length q)%nat by lia.
  destruct (_ <=? _); [by intros [= <- <-]|]. cbn [c_data c_size].
  destruct (Nat.ltb_spec (c_size c - 2) 8); [intros [= <- <-]; cbn; lia|].
  destruct (Nat.ltb_spec (c_size c - 2 + length q) 8); [lia|]. rd_both.
  destruct (_ || _); [by intros [= <- <-]|].
  destruct (Nat.leb_spec 8 (c_size c - 2)); [|lia].
  destruct (Nat.leb_spec 8 (c_size c - 2 + length q)); [|lia]. cbn [mbind option_bind]. rd_both.
  replace (c_size c - 2 + length q - 8)%nat with (c_size c - 2 - 8 + length q)%nat by lia.
  by destruct (_ <=? _); intros [= <- <-].
Qed.

Lemma ipv4_sanity_check_app (nh size ip_len tot_len : nat) :
  ipv4_sanity_check p nh size = Some (Some (ip_len, tot_len)) -> Z.of_nat (size + length q - tot_len) <= UINT16_MAX ->
  ipv4_sanity_check (p ++ q) nh (size + length q) = Some (Some (ip_len, tot_len)).
Proof.
  unfold ipv4_sanity_check, IP_HEADER_LEN. destruct (Nat.ltb_spec size 20); [done|].
  destruct (Nat.ltb_spec (size + length q) 20); [lia|]. rd_both. set (il := Z.to_nat (Z.land _ _ * 4)).
  destruct (Nat.ltb_spec il 20); [done|]. destruct (Nat.ltb_spec size il); [done|].
  destruct (Nat.ltb_spec (size + length q) il); [lia|]. cbn [orb]. rd_both. set (tl := Z.to_nat _).
  destruct (Nat.ltb_spec size tl); [done|]. destruct (Nat.ltb_spec tl il); [done|].
  destruct (Z.ltb_spec UINT16_MAX (Z.of_nat (size - tl))); [done|]. cbn [orb]. intros [= <- <-] Hq.
  destruct (Nat.ltb_spec (size + length q) tl); [lia|]. cbn [orb].
  by destruct (Z.ltb_spec UINT16_MAX (Z.of_nat (size + length q - tl))); [lia|].
Qed.

Lemma ipv4_get_nw_frag_app (nh : nat) (x : Z) : ipv4_get_nw_frag p nh = Some x -> ipv4_get_nw_frag (p ++ q) nh = Some x.
Proof. unfold ipv4_get_nw_frag. by rd_both. Qed.

Lemma ipv6_sanity_check_app (nh size : nat) :
  ipv6_sanity_check p nh size = Some true ->
  Z.of_nat (size + length q) - (get p (nh + 4) 2 + 40) <= UINT16_MAX ->
  ipv6_sanity_check (p ++ q) nh (size + length q) = Some true.
Proof.
  unfold ipv6_sanity_check, IPV6_HEADER_LEN. destruct (Nat.ltb_spec size 40); [done|].
  destruct (Nat.ltb_spec (size + length q) 40); [lia|]. rd_both.
  assert (z = get p (nh + 4) 2) as -> by (unfold rd in E; by case_match; simplify_eq).
  destruct (Z.ltb_spec (Z.of_nat size) (get p (nh + 4) 2 + Z.of_nat 40)); [done|].
  destruct (Z.ltb_spec UINT16_MAX (Z.of_nat size - (get p (nh + 4) 2 + Z.of_nat 40))); [done|]. intros _ Hq.
  destruct (Z.ltb_spec (Z.of_nat (size + length q)) (get p (nh + 4) 2 + Z.of_nat 40)); [lia|].
  by destruct (Z.ltb_spec UINT16_MAX (Z.of_nat (size + length q) - (get p (nh + 4) 2 + Z.of_nat 40))); [lia|].
Qed.

Lemma ext_hdrs_loop_app (fuel : nat) (s : ext_state) (r : bool * ext_state) :
  ext_hdrs_loop fuel p s = Some r -> ext_hdrs_loop fuel (p ++ q) s = Some r.
Proof.
  revert s. induction fuel as [|fuel IH]; intros s; [done|]. cbn [ext_hdrs_loop].
  destruct (negb (is_ext_hdr _)); [done|]. destruct (_ <? _)%nat; [done|]. rd_both.
  assert (forall x : bool * ext_state, (if x.1 then ext_hdrs_loop fuel p x.2 else Some (false, x.2)) = Some r ->
    (if x.1 then ext_hdrs_loop fuel (p ++ q) x.2 else Some (false, x.2)) = Some r) as Hnext
    by (intros [[] s']; [apply IH|done]).
  repeat (case_match; rd_both; try apply Hnext; try apply IH; try done).
Qed.

Lemma icmp6_is_nd_app (o : nat) (x : bool) : icmp6_is_nd p o = Some x -> icmp6_is_nd (p ++ q) o = Some x.
Proof. unfold icmp6_is_nd. rd_both. destruct (negb _); [done|]. by rd_both. Qed.

Lemma nd_opts_loop_app (fuel : nat) (c : cursor) (i : nd_info) (r : nd_info * cursor) :
  nd_opts_loop fuel p c i = Some r -> nd_opts_loop fuel (p ++ q) c i = Some r.
Proof.
  revert c i. induction fuel as [|fuel IH]; intros c i; [done|]. cbn [nd_opts_loop].
  destruct (_ <? _)%nat; [done|]. rd_both. destruct (_ || _); [done|]. rd_both.
  repeat (case_match; rd_both; try apply IH; try done).
Qed.

Lemma parse_icmpv6_app (c : cursor) (o : nat) (r : option nd_info * cursor) :
  parse_icmpv6 p c o = Some r -> parse_icmpv6 (p ++ q) c o = Some r.
Proof.
  unfold parse_icmpv6. destruct (icmp6_is_nd p o) as [nd|] eqn:En; [|done]. rewrite (icmp6_is_nd_app _ _ En).
  cbn [mbind option_bind]. destruct (negb nd); [done|]. rd_both. destruct (data_try_pull c 16) as [[o' c']|]; [|done].
  destruct (nd_opts_loop _ p c' _) as [r'|] eqn:Er; [|done]. by rewrite (nd_opts_loop_app _ _ _ _ Er).
Qed.
End Padding.

(** ** Layers *)

(** The packet with bytes added at its end. *)
Definition padded (b : dp_packet) (q : list Z) : dp_packet :=
  DpPacket (dp_data b ++ q) (dp_packet_type b) (dp_md b) (dp_offloads b) (dp_has_hash b) (dp_rss_hash b)
    (dp_l2_pad_size b) (dp_l2_5_ofs b) (dp_l3_ofs b) (dp_l4_ofs b) (dp_inner_l3_ofs b) (dp_inner_l4_ofs b).

Section Layers.
Context `{Hash}.
Variable flow_vlan_limit : Z.
Variables (p q : list Z).
Hypothesis Hp : Forall is_byte p.
Hypothesis Hq : Forall is_byte q.

Lemma l2_spec_app (b b' : dp_packet) (fs : list field) (b1 : dp_packet) (t : Z) (c : cursor) :
  dp_packet_type b' = dp_packet_type b -> l2_spec flow_vlan_limit p b = (fs, b1, Some (t, c)) -> (8 <= c_size c)%nat ->
  l2_spec flow_vlan_limit (p ++ q) b' = (fs, b', Some (t, grow q c)).
Proof.
  intros Et. unfold l2_spec, dp_packet_is_eth. rewrite Et, length_app. destruct (_ =? PT_ETH); [|by intros [= <- <- <- <-]].
  destruct (Nat.ltb_spec (length p) ETH_HEADER_LEN) as [|H14]; [done|]. unfold ETH_HEADER_LEN in *.
  destruct (Nat.ltb_spec (length p + length q) 14); [lia|].
  destruct (parse_vlan _ p _) as [[hdrs c1]|] eqn:Ev; [|done].
  destruct (parse_ethertype p c1) as [[t1 c2]|] eqn:Ee; [|done]. intros [= <- <- <- <-] H8.
  destruct (parse_vlan_ok p flow_vlan_limit (Cursor 0 (length p))) as (h' & c' & Ev' & Ha1 & _ & Hs1 & _);
    [unfold cursor_ok; cbn; lia|cbn; lia|]. rewrite Ev in Ev'. injection Ev' as <- <-.
  assert (cursor_ok p c1) as Hc1 by (apply (cursor_adv_ok p (Cursor 0 (length p))); [unfold cursor_ok; cbn; lia|done]).
  destruct (parse_ethertype_ok p c1 Hc1 Hs1) as (t' & c' & Ee' & Ha & _). rewrite Ee in Ee'. injection Ee' as <- <-.
  apply (parse_vlan_app p q) in Ev; [|unfold cursor_adv in *; lia].
  change (grow q (Cursor 0 (length p))) with (Cursor 0 (length p + length q)) in Ev. rewrite Ev.
  rewrite (parse_ethertype_app p q _ _ _ Ee) by done. by rewrite !get_app by lia.
Qed.

Lemma ipv4_spec_app (c : cursor) (b b' : dp_packet) (fs : list field) (b1 : dp_packet) (i : l3_info) :
  cursor_ok p c -> dp_md b' = dp_md b -> ipv4_spec p c b = (fs, b1, Some i) ->
  dp_l2_pad_size b1 + Z.of_nat (length q) <= UINT16_MAX ->
  exists b1', ipv4_spec (p ++ q) (grow q c) b' = (fs, b1', Some i) /\ dp_md b1' = dp_md b' /\
    dp_l2_pad_size b1' = dp_l2_pad_size b1 + Z.of_nat (length q).
Proof.
  intros Hc Hmd. unfold ipv4_spec. cbn [grow c_data c_size]. rewrite Hmd.
  destruct (ipv4_sanity_check_ok p (c_data c) (c_size c) Hc) as (r & E & Hr). rewrite E.
  destruct r as [[ip_len tot_len]|]; [|done]. intros [= <- <- <-]. cbn [dp_l2_pad_size dp_md pad_of set_ofs]. intros Hpad.
  unfold cursor_ok in Hc. rewrite (ipv4_sanity_check_app p q _ _ _ _ E) by lia.
  destruct (ipv4_get_nw_frag_ok p (c_data c)) as [frag Ef]; [lia|]. rewrite Ef, (ipv4_get_nw_frag_app p q _ _ Ef).
  rewrite !get_app by lia. eexists. split; [done|]. cbn [dp_l2_pad_size dp_md pad_of set_ofs]. split; [done|lia].
Qed.

Lemma ipv6_spec_app (c : cursor) (b b' : dp_packet) (fs : list field) (b1 : dp_packet) (i : l3_info) :
  cursor_ok p c -> dp_md b' = dp_md b -> ipv6_spec p c b = (fs, b1, Some i) ->
  dp_l2_pad_size b1 + Z.of_nat (length q) <= UINT16_MAX ->
  exists b1', ipv6_spec (p ++ q) (grow q c) b' = (fs, b1', Some i) /\ dp_md b1' = dp_md b' /\
    dp_l2_pad_size b1' = dp_l2_pad_size b1 + Z.of_nat (length q).
Proof.
  intros Hc Hmd. unfold ipv6_spec. cbn [grow c_data c_size]. rewrite Hmd.
  destruct (ipv6_sanity_check_ok p (c_data c) (c_size c) Hc) as (r & E & Hr). rewrite E.
  destruct r; [|done]. destruct (Hr eq_refl) as (H40 & Hlen & _). pose proof (get_nonneg p (c_data c + 4) 2 Hp) as Hpl.
  unfold cursor_ok in Hc. rewrite !(get_app p q) by lia.
  destruct (parse_ipv6_ext_hdrs p _ _ _) as [[[] s]|] eqn:Ex; [|done|done].
  intros [= <- <- <-]. cbn [dp_l2_pad_size dp_md pad_of set_ofs]. intros Hpad.
  rewrite (ipv6_sanity_check_app p q _ _ E) by lia. unfold parse_ipv6_ext_hdrs in *.
  rewrite (ext_hdrs_loop_app p q _ _ _ Ex). eexists. split; [done|]. cbn [dp_l2_pad_size dp_md pad_of set_ofs]. split; [done|lia].
Qed.

Lemma transport_fields_app (t : Z) (i : l3_info) (b b' : dp_packet) :
  cursor_ok p (l3_c i) -> (transport_spec (p ++ q) t i b').1 = (transport_spec p t i b).1.
Proof.
  intros Hc. unfold cursor_ok in Hc. unfold transport_spec.
  destruct (_ =? IPPROTO_TCP).
  { unfold tcp_ok. destruct (Nat.leb_spec 20 (c_size (l3_c i))); cbn [andb]; [|done]. rewrite !get_app by lia. by case_match. }
  destruct (_ =? IPPROTO_UDP); [case_match eqn:E; [apply Nat.leb_le in E; by rewrite !get_app by lia|done]|].
  destruct (_ =? IPPROTO_SCTP); [case_match eqn:E; [apply Nat.leb_le in E; by rewrite !get_app by lia|done]|].
  destruct (_ =? IPPROTO_ICMP); [case_match eqn:E; [apply Nat.leb_le in E; by rewrite !get_app by lia|done]|].
  destruct (_ =? IPPROTO_IGMP); [case_match eqn:E; [apply Nat.leb_le in E; by rewrite !get_app by lia|done]|].
  destruct (_ =? IPPROTO_ICMPV6); [|done]. case_match eqn:E; [apply Nat.leb_le in E|done]. cbn [fst]. unfold icmpv6_fields.
  set (c1 := Cursor _ _). destruct (parse_icmpv6_ok p c1 (c_data (l3_c i)) Hp) as (r & c' & Ei & _ & Ht); [in_packet|lia|].
  rewrite Ei, (parse_icmpv6_app p q _ _ _ Ei). destruct r as [nd|]; rewrite !get_app by lia; [|done].
  f_equal. unfold nd_fields, target_ok in *. destruct (nd_target_p nd); [by rewrite get_app|done].
Qed.

Lemma l4_fields_app (t : Z) (i : l3_info) (b b' : dp_packet) :
  cursor_ok p (l3_c i) -> dp_md b' = dp_md b -> later_frag_safe p (dp_md b) t i ->
  (l4_spec (p ++ q) t i b').1 = (l4_spec p t i b).1.
Proof.
  intros Hc Hmd Hsafe. unfold l4_spec, later_frag_safe in *.
  destruct (Z.eqb_spec (Z.land (l3_nw_frag i) FLOW_NW_FRAG_LATER) 0); cbn [fst]; f_equal; [by apply transport_fields_app|].
  unfold later_frag_fields. cbn. rewrite Hmd. destruct (Z.eqb_spec (ct_proto (dp_md b) t) IPPROTO_ICMPV6) as [E|]; [|done].
  unfold looks_nd. by rewrite !get_app by (specialize (Hsafe ltac:(done) E); lia).
Qed.
End Layers.

(** ** Packets *)

Lemma restarted_padded (b : dp_packet) (q : list Z) : restarted (padded b q) = padded (restarted b) q.
Proof. unfold restarted, padded, dp_packet_tunnel. cbn. by case_match. Qed.

Lemma l3_spec_app `{Hash} (p q : list Z) (t : Z) (c : cursor) (b b' b1 : dp_packet) (fs : list field) (i : l3_info) :
  Forall is_byte p -> cursor_ok p c -> dp_md b' = dp_md b -> l3_spec p t c b = (fs, b1, Some i) ->
  dp_l2_pad_size b1 + Z.of_nat (length q) <= UINT16_MAX ->
  exists b1', l3_spec (p ++ q) t (grow q c) b' = (fs, b1', Some i) /\ dp_md b1' = dp_md b' /\
    dp_l2_pad_size b1' = dp_l2_pad_size b1 + Z.of_nat (length q).
Proof.
  intros Hp Hc Hmd. unfold l3_spec. cbn [grow c_data]. fold (grow q c).
  destruct (t =? ETH_TYPE_IP); [intros E Hpad; by eapply ipv4_spec_app in E as (b1' & ? & ? & ?); eauto|].
  destruct (t =? ETH_TYPE_IPV6); [intros E Hpad; by eapply ipv6_spec_app in E as (b1' & ? & ? & ?); eauto|].
  destruct (_ || _); [done|]. by destruct (t =? ETH_TYPE_NSH).
Qed.

(** There is a transport layer only above IP. *)
Lemma l3_spec_ip (p : list Z) (t : Z) (c : cursor) (b b1 : dp_packet) (fs : list field) (i : l3_info) :
  Forall is_byte p -> cursor_ok p c -> l3_spec p t c b = (fs, b1, Some i) ->
  eth_type_mpls t = false /\ (8 <= c_size c)%nat /\ cursor_ok p (l3_c i) /\ dp_md b1 = dp_md b.
Proof.
  intros Hp Hc. unfold l3_spec. destruct (Z.eqb_spec t ETH_TYPE_IP) as [->|_]; [|destruct (Z.eqb_spec t ETH_TYPE_IPV6) as [->|_]].
  - unfold ipv4_spec. destruct (ipv4_sanity_check_ok p (c_data c) (c_size c) Hc) as (r & -> & Hr).
    destruct r as [[ip_len tot_len]|]; [|done]. intros [= <- <- <-]. unfold cursor_ok in *. cbn [l3_c c_data c_size].
    split_and!; [done|lia|lia|done].
  - unfold ipv6_spec. destruct (ipv6_sanity_check_ok p (c_data c) (c_size c) Hc) as (r & -> & Hr).
    destruct r; [|done]. destruct (Hr eq_refl) as (H40 & Hlen & _). pose proof (get_nonneg p (c_data c + 4) 2 Hp).
    set (c1 := Cursor _ _). assert (cursor_ok p c1) as Hc1 by in_packet.
    destruct (parse_ipv6_ext_hdrs_chain p c1 (get p (c_data c + 6) 1) 0 Hp Hc1) as ([[] s] & -> & Ha & _); [|done].
    intros [= <- <- <-]. split_and!; [done|lia|by apply (cursor_adv_ok p c1)|done].
  - destruct (_ || _); [done|]. by destruct (t =? ETH_TYPE_NSH).
Qed.

Lemma mpls_spec_ip (p : list Z) (t : Z) (c : cursor) (b : dp_packet) :
  cursor_ok p c ->
  exists fs b' c', mpls_spec p t c b = (fs, b', Some c') /\ cursor_ok p c' /\
    (eth_type_mpls t = false -> fs = [] /\ b' = b /\ c' = c) /\ dp_md b' = dp_md b.
Proof.
  intros Hc. unfold mpls_spec. destruct (eth_type_mpls t); [|by eexists _, _, _].
  destruct (parse_mpls_ok p c Hc) as (n & c' & -> & Ha & _). eexists _, _, c'. split; [done|].
  split; [by apply (cursor_adv_ok p c)|done].
Qed.

Lemma padded_spec `{Hash} (limit : Z) (b : dp_packet) (q : list Z) (t : Z) (i : l3_info) :
  packet_wf b -> transport_input limit b = Some (t, i) -> reads_past_end limit b = false ->
  dp_l2_pad_size (packet_after limit b) + Z.of_nat (length q) <= UINT16_MAX ->
  packet_fields limit (padded b q) = packet_fields limit b /\
  dp_l2_pad_size (packet_after limit (padded b q)) = dp_l2_pad_size (packet_after limit b) + Z.of_nat (length q) /\
  reads_past_end limit (padded b q) = false /\ short_mpls limit (padded b q) = false.
Proof.
  intros Hwf Hti Hrp. pose proof (pw_data b Hwf) as Hp. unfold reads_past_end in Hrp. rewrite Hti in Hrp.
  unfold short_mpls, mpls_input, reads_past_end, transport_input, packet_fields, packet_after, packet_spec in *.
  fold (restarted b) (restarted (padded b q)). rewrite restarted_padded. cbn [padded dp_data dp_md dp_packet_type].
  destruct (restarted_same b) as (Ed & Em & Et). set (p := dp_data b) in *.
  pose proof (l2_spec_cursor limit p (restarted b)) as Hc. pose proof (l2_spec_packet limit p (restarted b)) as Eb.
  destruct (l2_spec limit p (restarted b)) as [[fs1 b1] [[t1 c1]|]] eqn:E2; [|done]. cbn [fst snd] in *. subst b1.
  specialize (Hc t1 c1 eq_refl).
  destruct (mpls_spec_ip p t1 c1 (restarted b) Hc) as (fs2 & b2 & c2 & Em2 & Hc2 & Hsame & Emd). rewrite Em2 in *.
  destruct (l3_spec p t1 c2 b2) as [[fs3 b3] [i3|]] eqn:E3; [|done]. injection Hti as -> ->.
  destruct (l3_spec_ip p t c2 b2 b3 fs3 i Hp Hc2 E3) as (Hnm & H8 & Hci & Emd3).
  destruct (Hsame Hnm) as (-> & -> & ->).
  rewrite (l2_spec_app limit p q (restarted b) (padded (restarted b) q) _ _ _ _ eq_refl E2 H8). cbn [then_layer fst snd].
  assert (forall c b, mpls_spec (p ++ q) t c b = ([], b, Some c)) as Hmp by (intros; unfold mpls_spec; by rewrite Hnm).
  rewrite Hmp, Em2. cbn [then_layer fst snd]. rewrite E3. cbn [then_layer fst snd]. intros Hpad.
  assert (forall b, dp_l2_pad_size (l4_spec p t i b).2 = dp_l2_pad_size b) as Hl4
    by (intros b4; pose proof (l4_spec_ofs p t i b4) as Eo; unfold ofs_of in Eo; by injection Eo).
  assert (forall b, dp_l2_pad_size (l4_spec (p ++ q) t i b).2 = dp_l2_pad_size b) as Hl4'
    by (intros b4; pose proof (l4_spec_ofs (p ++ q) t i b4) as Eo; unfold ofs_of in Eo; by injection Eo).
  rewrite Hl4 in *.
  destruct (l3_spec_app p q t c1 (restarted b) (padded (restarted b) q) b3 fs3 i Hp Hc eq_refl E3 Hpad) as (b3' & -> & Emd3' & Epad).
  cbn [then_layer fst snd]. rewrite Hl4'.
  assert (later_frag_safe p (dp_md b3) t i) as Hsafe.
  { intros Hf Hct. apply Nat.nlt_ge. intros Hlt. apply Nat.ltb_lt in Hlt. rewrite Hlt in Hrp.
    rewrite Emd3, Em in Hct. rewrite Hct in Hrp.
    destruct (Z.eqb_spec (Z.land (l3_nw_frag i) FLOW_NW_FRAG_LATER) 0); [done|]. by cbn in Hrp. }
  split_and!; [|done| |by rewrite Hnm].
  - do 4 f_equal. apply l4_fields_app; [done|done|by rewrite Emd3', Emd3|done].
  - rewrite length_app. destruct (negb _ && _); [|done]. cbn [andb] in *. apply Nat.ltb_ge in Hrp. apply Nat.ltb_ge. lia.
Qed.
