(* ===== verification/ExtractFlags.v ===== *)
(** * The TCP flags of a packet

    The value of single members of an extracted flow, and the outputs of
    [parse_tcp_flags] from the same layers. *)

From S2P Require Import Prelude Util Flowmap Hash Miniflow MetaFlow Trie FlowBits FlowFields MetaFields Packet PacketProps MfCtx.
From S2P Require Import FlowExtract ExtractSpec ExtractFields ExtractSim ExtractLayers ExtractProps ExtractPadding.
From stdpp Require Import prelude list.
From Stdlib Require Import ZArith Lia.
Open Scope Z_scope.
Open Scope ovs_scope.

#[local] Opaque fset fget.

(** ** Single fields *)

(** A member outside of the bytes [lo], ..., [hi - 1]. *)
Definition avoids (lo hi : nat) (mb : member) : Prop :=
  mb_in mb /\ (mb_ofs mb + mb_size mb <= lo \/ hi <= mb_ofs mb)%nat.

Definition all_avoid (lo hi : nat) (l : list field) : Prop := Forall (fun x => avoids lo hi x.1) l.

Lemma fget_set_fields_skip (l : list field) (f : flow) (mb : member) :
  flow_wf f -> all_avoid (mb_ofs mb) (mb_ofs mb + mb_size mb) l -> fget (set_fields f l) mb = fget f mb.
Proof.
  intros Hf Hl. revert f Hf. induction Hl as [|x l [Hm Hd] _ IH]; intros f Hf; [done|]. cbn [set_fields foldl].
  rewrite IH by (by apply fset_wf). apply fget_fset_other; [done|apply Hf|]. unfold mb_disj. lia.
Qed.

Lemma fget_set_fields_last (f : flow) (l1 l2 : list field) (mb : member) (v : Z) :
  flow_wf f -> mb_in mb -> all_avoid (mb_ofs mb) (mb_ofs mb + mb_size mb) l2 ->
  fget (set_fields f (l1 ++ (mb, v) :: l2)) mb = wrap (mb_bits mb) v.
Proof.
  intros Hf Hm Hl. rewrite set_fields_app. pose proof (set_fields_wf l1 f Hf) as Hw. cbn [set_fields foldl fst snd].
  rewrite fget_set_fields_skip by (done || by apply fset_wf). by rewrite fget_fset by (done || apply Hw).
Qed.

Lemma all_avoid_app (lo hi : nat) (l k : list field) : all_avoid lo hi l -> all_avoid lo hi k -> all_avoid lo hi (l ++ k).
Proof. apply Forall_app_2. Qed.

Lemma all_avoid_words (lo hi : nat) (mb : nat -> member) (vs : list Z) :
  (forall i, (i < length vs)%nat -> avoids lo hi (mb i)) -> all_avoid lo hi (word_fields mb vs).
Proof.
  intros Hi. apply Forall_lookup_2. intros i x Hx. unfold word_fields in Hx. rewrite list_lookup_imap in Hx.
  destruct (vs !! i) as [v|] eqn:Ev; [|done]. injection Hx as <-. apply Hi. by apply lookup_lt_Some in Ev.
Qed.

(** Lists of concrete members. *)
Ltac fields_tac := unfold all_avoid; repeat first [apply Forall_nil_2|apply Forall_cons_2]; cbn [fst].

Ltac avoid_tac := fields_tac; unfold avoids, mb_in, FLOW_U64S; cbn; lia.

Lemma tuple_fields_avoid (lo hi : nat) (t : option ct_tuple) (src dst : member) :
  avoids lo hi ct_nw_proto -> avoids lo hi src -> avoids lo hi dst -> all_avoid lo hi (tuple_fields t src dst).
Proof. intros H1 H2 H3. unfold tuple_fields, all_avoid. repeat case_match; fields_tac; done. Qed.

(** The bytes that matter here: those of [dl_type] and [vlans], and [nw_frag]. *)
Definition window (lo hi : nat) : Prop := (lo, hi) = (472, 496)%nat \/ (lo, hi) = (596, 597)%nat.

Section Windows.
Context `{Hash}.
Variables (p : list Z) (lo hi : nat).
Hypothesis Hw : window lo hi.

Ltac win := destruct Hw as [[= -> ->]|[= -> ->]]; avoid_tac.
Ltac win1 := destruct Hw as [[= -> ->]|[= -> ->]]; unfold avoids, mb_in, FLOW_U64S; cbn; lia.

Lemma mpls_fields_avoid (t : Z) (c : cursor) (b : dp_packet) : cursor_ok p c -> all_avoid lo hi (mpls_spec p t c b).1.1.
Proof.
  intros Hc. unfold mpls_spec. destruct (eth_type_mpls t); [|constructor].
  destruct (parse_mpls_ok p c Hc) as (n & c' & -> & _ & Hn & _). cbn [fst].
  apply all_avoid_words. rewrite length_map, length_seq. intros i Hi.
  unfold avoids, mb_in, FLOW_U64S, mpls_lse. cbn [mb_ofs mb_size]. destruct Hw as [[= -> ->]|[= -> ->]]; lia.
Qed.

Lemma l3_fields_avoid (t : Z) (c : cursor) (b : dp_packet) : cursor_ok p c -> all_avoid lo hi (l3_spec p t c b).1.1.
Proof.
  intros Hc. unfold l3_spec, ipv4_spec, ipv6_spec, arp_fields, nsh_fields.
  destruct (parse_nsh_ok p c Hc) as (r & c' & -> & _ & Hr).
  assert (forall t src dst, avoids lo hi src -> avoids lo hi dst -> all_avoid lo hi (tuple_fields t src dst)) as Ht
    by (intros; apply tuple_fields_avoid; [win1|done|done]).
  repeat case_match; cbn [fst]; try win;
    repeat apply all_avoid_app; try win; try (apply Ht; win1).
  apply all_avoid_words. rewrite Hr. intros i Hi. unfold avoids, mb_in, FLOW_U64S, nsh_context. cbn [mb_ofs mb_size].
  destruct Hw as [[= -> ->]|[= -> ->]]; lia.
Qed.

Lemma transport_fields_avoid (t : Z) (i : l3_info) (b : dp_packet) : all_avoid lo hi (transport_spec p t i b).1.
Proof.
  unfold transport_spec, icmpv6_fields, nd_fields, port_fields. repeat case_match; cbn [fst]; try win;
    repeat apply all_avoid_app; win.
Qed.

Lemma later_frag_fields_avoid (t : Z) (i : l3_info) (b : dp_packet) : all_avoid lo hi (later_frag_fields p t i b).
Proof. unfold later_frag_fields. case_match; win. Qed.
End Windows.

Lemma metadata_fields_avoid (lo hi : nat) (md : pkt_metadata) (pkt_type : Z) :
  window lo hi -> Forall is_byte (md_tunnel md) -> all_avoid lo hi (metadata_fields md pkt_type).
Proof.
  intros Hw Hb. assert (464 <= lo)%nat as Hlo by (destruct Hw as [[= -> ->]|[= -> ->]]; lia).
  assert (forall l : list field, Forall (fun x => mb_ofs x.1 + mb_size x.1 <= 464)%nat l -> all_avoid lo hi l) as Hl.
  { intros l Hl. eapply Forall_impl; [exact Hl|]. intros x Hx. cbn beta in Hx. unfold avoids, mb_in, FLOW_U64S. lia. }
  apply Hl. unfold metadata_fields, tunnel_fields. pose proof (get_width (md_tunnel md) 72 1 Hb) as Hlen.
  unfold in_width in Hlen. change (2 ^ (8 * Z.of_nat 1)) with 256 in Hlen.
  assert (8 * DIV_ROUND_UP (Z.to_nat (tnl_present_len (md_tunnel md))) 8 <= 256)%nat as Hn.
  { unfold DIV_ROUND_UP, tnl_present_len. assert ((Z.to_nat (get (md_tunnel md) 72 1) + (8 - 1)) / 8 < 33)%nat; [|lia].
    apply Nat.Div0.div_lt_upper_bound. lia. }
  repeat apply Forall_app_2; repeat case_match; repeat first [apply Forall_nil_2|apply Forall_cons_2];
    cbn [fst mb_ofs mb_size]; first [lia|cbn; lia].
Qed.

(** ** The TCP flags *)

Section TcpFlags.
Context `{Hash}.
Variable flow_vlan_limit : Z.
Hypothesis Hlimit : flow_vlan_limit <= FLOW_MAX_VLAN_HEADERS.
Variable b : dp_packet.
Hypothesis Hwf : packet_wf b.
Hypothesis Heth : dp_packet_is_eth b = true.
Hypothesis Hlen : (14 <= length (dp_data b))%nat.

Let p := dp_data b.

Lemma eth_l2 :
  exists hdrs c1 t c, parse_vlan flow_vlan_limit p (Cursor 0 (length p)) = Some (hdrs, c1) /\
    parse_ethertype p c1 = Some (t, c) /\ cursor_ok p c /\ in_width 16 t /\ (length hdrs <= 2)%nat /\
    l2_spec flow_vlan_limit p (restarted b) =
      ([(dl_dst, get p 0 6); (dl_src, get p 6 6); (dl_type, t)] ++ word_fields vlan_qtag hdrs, restarted b, Some (t, c)).
Proof.
  pose proof (pw_data b Hwf) as Hp. fold p in Hp.
  destruct (parse_vlan_ok p flow_vlan_limit (Cursor 0 (length p))) as (hdrs & c1 & Ev & Ha1 & Hn & Hs1 & _);
    [unfold cursor_ok; cbn; lia|exact Hlen|].
  assert (cursor_ok p c1) as Hc1 by (apply (cursor_adv_ok p (Cursor 0 (length p))); [unfold cursor_ok; cbn; lia|done]).
  destruct (parse_ethertype_ok p c1 Hc1 Hs1) as (t & c & Et & Ha & _).
  exists hdrs, c1, t, c. split_and!; [done|done|by apply (cursor_adv_ok p c1)| |unfold FLOW_MAX_VLAN_HEADERS in *; lia|].
  - clear -Et Hp. unfold parse_ethertype, data_pull in Et. cbn [grow c_data c_size] in Et.
    assert (forall o, in_width 16 (get p o 2)) as Hg by (intros o; apply (get_width p o 2 Hp)).
    unfold rd in Et. repeat (case_match; simplify_option_eq); (apply Hg || done).
  - unfold l2_spec. replace (dp_packet_is_eth (restarted b)) with true.
    + destruct (Nat.ltb_spec (length p) ETH_HEADER_LEN); [unfold ETH_HEADER_LEN, p in *; lia|]. by rewrite Ev, Et.
    + unfold dp_packet_is_eth in *. destruct (restarted_same b) as (_ & _ & ->). done.
Qed.

Lemma parse_tcp_flags_l4_ok (b1 : dp_packet) (c : cursor) (t frag proto : Z) (tci : option Z) :
  cursor_ok p c ->
  exists r, parse_tcp_flags_l4 p b1 c t frag proto tci = Some r /\ tf_dl_type r = Some t /\ tf_first_vlan_tci r = tci /\
    tf_nw_frag r = Some frag /\
    (tcp_ok p c = true -> proto = IPPROTO_TCP -> Z.land frag FLOW_NW_FRAG_LATER = 0 ->
      tf_flags r = Z.land (get p (c_data c + 12) 2) 0x0fff).
Proof.
  intros Hc. unfold parse_tcp_flags_l4, TCP_HEADER_LEN, tcp_ok.
  destruct (Z.eqb_spec (Z.land frag FLOW_NW_FRAG_LATER) 0); [|by eexists].
  destruct (Z.eqb_spec proto IPPROTO_TCP) as [->|]; cbn [andb].
  - destruct (Nat.leb_spec 20 (c_size c)); cbn [andb]; [rds; by eexists|]. cbn. by eexists.
  - repeat case_match; by eexists.
Qed.

(** The outputs of [parse_tcp_flags], from the layers of the reference. *)
Lemma parse_tcp_flags_spec (hdrs : list Z) (c1 c : cursor) (t : Z) :
  parse_vlan flow_vlan_limit p (Cursor 0 (length p)) = Some (hdrs, c1) -> parse_ethertype p c1 = Some (t, c) ->
  cursor_ok p c ->
  l2_spec flow_vlan_limit p (restarted b) =
    ([(dl_dst, get p 0 6); (dl_src, get p 6 6); (dl_type, t)] ++ word_fields vlan_qtag hdrs, restarted b, Some (t, c)) ->
  exists r, parse_tcp_flags flow_vlan_limit b = Some r /\ tf_dl_type r = Some t /\
    tf_first_vlan_tci r = wrap 16 <$> head hdrs /\
    match transport_input flow_vlan_limit b with
    | Some (_, i) => tf_nw_frag r = Some (l3_nw_frag i) /\
        (tcp_ok p (l3_c i) = true -> l3_nw_proto i = IPPROTO_TCP -> Z.land (l3_nw_frag i) FLOW_NW_FRAG_LATER = 0 ->
          tf_flags r = Z.land (get p (c_data (l3_c i) + 12) 2) 0x0fff)
    | None => tf_nw_frag r = None /\ tf_flags r = 0
    end.
Proof.
  intros Ev Et Hc El2. pose proof (pw_data b Hwf) as Hp. fold p in Hp.
  unfold parse_tcp_flags, parse_dl_type, transport_input. fold p. rewrite Heth. cbn [negb]. rewrite Ev. cbn [mbind option_bind].
  rewrite Et. cbn [mbind option_bind]. rewrite El2.
  destruct (mpls_spec_ip p t c (restarted b) Hc) as (fs2 & b2 & c2 & -> & Hc2 & Hsame & _).
  unfold l3_spec, IPV6_HEADER_LEN. destruct (Z.eqb_spec t ETH_TYPE_IP) as [->|]; [|destruct (Z.eqb_spec t ETH_TYPE_IPV6) as [->|]].
  - destruct (Hsame eq_refl) as (_ & _ & ->). unfold ipv4_spec.
    destruct (ipv4_sanity_check_ok p (c_data c) (c_size c) Hc) as (r & -> & Hr). cbn [mbind option_bind].
    destruct r as [[ip_len tot_len]|]; [|(eexists; split; [reflexivity|done])]. unfold cursor_ok in Hc.
    rewrite set_l2_pad_size_ok by (cbn; fold p; lia). cbn [mbind option_bind]. rds.
    destruct (ipv4_get_nw_frag_ok p (c_data c)) as [frag ->]; [lia|]. cbn [mbind option_bind default from_option].
    rewrite data_pull_some by (cbn; lia). cbn [mbind option_bind c_data c_size l3_c l3_nw_frag l3_nw_proto].
    match goal with |- context [parse_tcp_flags_l4 p ?b1 ?c1 _ _ ?proto ?tci] =>
      destruct (parse_tcp_flags_l4_ok b1 c1 ETH_TYPE_IP frag proto tci) as (r & -> & H1 & H2 & H3 & H4); [in_packet|] end.
    by exists r.
  - destruct (Hsame eq_refl) as (_ & _ & ->). unfold ipv6_spec.
    destruct (ipv6_sanity_check_ok p (c_data c) (c_size c) Hc) as (r & -> & Hr). cbn [mbind option_bind].
    destruct r; cbn [negb]; [|(eexists; split; [reflexivity|done])]. destruct (Hr eq_refl) as (H40 & Hl & Hpad). unfold cursor_ok in Hc.
    pose proof (get_nonneg p (c_data c + 4) 2 Hp) as Hpl.
    rewrite data_pull_some by lia. cbn [mbind option_bind c_data c_size]. rds.
    rewrite set_l2_pad_size_ok by (cbn -[Z.of_nat get]; fold p; lia). cbn [mbind option_bind]. rds.
    set (c3 := Cursor (c_data c + 40) _). assert (cursor_ok p c3) as Hc3 by in_packet.
    destruct (parse_ipv6_ext_hdrs_chain p c3 (get p (c_data c + 6) 1) 0 Hp Hc3) as ([ok s] & -> & Ha & _). cbn [mbind option_bind].
    destruct ok; cbn [negb l3_c l3_nw_frag l3_nw_proto]; [|(eexists; split; [reflexivity|done])].
    match goal with |- context [parse_tcp_flags_l4 p ?b1 _ _ _ _ ?tci] =>
      destruct (parse_tcp_flags_l4_ok b1 (es_c s) ETH_TYPE_IPV6 (es_nw_frag s) (es_nw_proto s) tci)
        as (r & -> & H1 & H2 & H3 & H4); [by apply (cursor_adv_ok p c3)|] end. by exists r.
  - repeat case_match; (eexists; split; [reflexivity|done]).
Qed.

(** The list of fields, cut at the layers. *)
Lemma packet_fields_split (f2 : list field) (t : Z) (c : cursor) :
  l2_spec flow_vlan_limit p (restarted b) = (f2, restarted b, Some (t, c)) -> cursor_ok p c ->
  exists b3 fm f3, packet_fields flow_vlan_limit b =
      metadata_fields (dp_md b) (dp_packet_type b) ++ f2 ++ fm ++ f3
      ++ match transport_input flow_vlan_limit b with Some (t, i) => (l4_spec p t i b3).1 | None => [] end /\
    forall lo hi, window lo hi -> all_avoid lo hi fm /\ all_avoid lo hi f3.
Proof.
  intros El2 Hc. unfold packet_fields, packet_spec, transport_input. fold p (restarted b). rewrite El2. cbn [then_layer].
  pose proof (mpls_fields_avoid p) as Hm.
  destruct (mpls_spec_ip p t c (restarted b) Hc) as (fm & b2 & c2 & E2 & Hc2 & _).
  specialize (fun lo hi Hw => Hm lo hi Hw t c (restarted b) Hc). rewrite E2 in *. cbn [then_layer].
  pose proof (fun lo hi Hw => l3_fields_avoid p lo hi Hw t c2 b2 Hc2) as H3.
  destruct (l3_spec p t c2 b2) as [[f3 b3] [i|]]; cbn [then_layer fst snd] in *;
    exists b3, fm, f3; (split; [by rewrite ?app_nil_r|]); auto.
Qed.

(** The flow that is extracted. *)
Definition extracted_flow : flow := set_fields zero_flow (packet_fields flow_vlan_limit b).

Lemma zero_wf : flow_wf zero_flow.
Proof. split; [done|]. apply Forall_replicate. unfold in_width. lia. Qed.

Lemma fget_zero (mb : member) : fget zero_flow mb = 0.
Proof.
  apply Z.bits_inj'. intros j Hj. rewrite Z.testbit_0_l. pose proof (fget_width zero_flow mb) as Hw.
  destruct (Z.lt_ge_cases j (mb_bits mb)); [|by apply (in_width_high (mb_bits mb))].
  rewrite fget_testbit by done. unfold fbit, zero_flow. by rewrite nth_replicate_0, Z.testbit_0_l.
Qed.

Lemma l4_fields_avoid (t : Z) (i : l3_info) (b3 : dp_packet) : all_avoid 472 496 (l4_spec p t i b3).1.
Proof.
  unfold l4_spec. assert (window 472 496) as Hw by (by left).
  case_match; cbn [fst]; (apply all_avoid_app; [avoid_tac|]);
    [by apply transport_fields_avoid|by apply later_frag_fields_avoid].
Qed.

Lemma set_fields_mid (f : flow) (l1 l2 l3 l4 : list field) (x : field) :
  set_fields f (l1 ++ (l2 ++ x :: l3) ++ l4) = set_fields f ((l1 ++ l2) ++ x :: (l3 ++ l4)).
Proof. by rewrite <- !app_assoc. Qed.

(** The two halves of a VLAN header. *)
Lemma set_vlan_tci (f : flow) (l1 l2 : list field) (h : Z) :
  set_fields f (l1 ++ (vlan_qtag 0, h) :: l2) =
  set_fields f ((l1 ++ [(vlan_tpid 0, Z.shiftr h 16)]) ++ (vlan_tci 0, h) :: l2).
Proof.
  by rewrite !set_fields_app.
Qed.

(** [dl_type] and the first VLAN header of the flow. *)
Lemma extracted_l2 (hdrs : list Z) (t : Z) (c : cursor) :
  (length hdrs <= 2)%nat -> in_width 16 t -> cursor_ok p c ->
  l2_spec flow_vlan_limit p (restarted b) =
    ([(dl_dst, get p 0 6); (dl_src, get p 6 6); (dl_type, t)] ++ word_fields vlan_qtag hdrs, restarted b, Some (t, c)) ->
  fget extracted_flow dl_type = t /\ fget extracted_flow (vlan_tci 0) = default 0 (wrap 16 <$> head hdrs).
Proof.
  intros Hn Ht Hc El2. unfold extracted_flow.
  destruct (packet_fields_split _ t c El2 Hc) as (b3 & fm & f3 & -> & Hav).
  set (l4 := match transport_input _ _ with Some _ => _ | None => _ end).
  assert (all_avoid 472 496 (fm ++ f3 ++ l4)) as Hrest.
  { destruct (Hav 472%nat 496%nat) as [H1 H2]; [by left|]. repeat apply all_avoid_app; [done|done|].
    subst l4. destruct (transport_input _ _) as [[? ?]|]; [apply l4_fields_avoid|constructor]. }
  assert (forall mb, (472 <= mb_ofs mb)%nat -> (mb_ofs mb + mb_size mb <= 496)%nat ->
    all_avoid (mb_ofs mb) (mb_ofs mb + mb_size mb) (fm ++ f3 ++ l4)) as Hsub.
  { intros mb H1 H2. eapply Forall_impl; [exact Hrest|]. intros x [Hin Hd]. split; [done|lia]. }
  pose proof zero_wf as Hz. split.
  - change ([(dl_dst, get p 0 6); (dl_src, get p 6 6); (dl_type, t)] ++ word_fields vlan_qtag hdrs)
      with ([(dl_dst, get p 0 6); (dl_src, get p 6 6)] ++ (dl_type, t) :: word_fields vlan_qtag hdrs).
    rewrite set_fields_mid.
    rewrite fget_set_fields_last; [by apply wrap_small|done|members|].
    apply all_avoid_app; [|apply Hsub; cbn; lia].
    apply all_avoid_words. intros i Hi. unfold avoids, mb_in, FLOW_U64S, vlan_qtag. cbn. lia.
  - set (first3 := [_; _; _]).
    destruct hdrs as [|h hdrs]; cbn [head fmap option_fmap option_map default from_option].
    + rewrite fget_set_fields_skip, fget_zero; [done|done|]. apply all_avoid_app.
      * eapply Forall_impl; [apply (metadata_fields_avoid 472 496 (dp_md b) (dp_packet_type b)); [by left|apply Hwf]|].
        intros x [Hin Hd]. split; [done|cbn; lia].
      * apply all_avoid_app; [unfold first3; avoid_tac|apply Hsub; cbn; lia].
    + unfold word_fields. cbn [imap]. change (imap ((fun i v => (vlan_qtag i, v)) ∘ S) hdrs) with (word_fields (fun i => vlan_qtag (S i)) hdrs).
      rewrite set_fields_mid, set_vlan_tci. change 16 with (mb_bits (vlan_tci 0)).
      apply fget_set_fields_last; [done|members|]. apply all_avoid_app; [|apply Hsub; cbn; lia].
      apply all_avoid_words. intros i Hi. unfold avoids, mb_in, FLOW_U64S, vlan_qtag. cbn in *. lia.
Qed.

(** [nw_frag] of the flow. *)
Lemma extracted_frag (hdrs : list Z) (t : Z) (c : cursor) :
  (length hdrs <= 2)%nat -> cursor_ok p c ->
  l2_spec flow_vlan_limit p (restarted b) =
    ([(dl_dst, get p 0 6); (dl_src, get p 6 6); (dl_type, t)] ++ word_fields vlan_qtag hdrs, restarted b, Some (t, c)) ->
  fget extracted_flow nw_frag = match transport_input flow_vlan_limit b with Some (_, i) => u8 (l3_nw_frag i) | None => 0 end.
Proof.
  intros Hn Hc El2. unfold extracted_flow. destruct (packet_fields_split _ t c El2 Hc) as (b3 & fm & f3 & -> & Hav).
  assert (window 596 597) as Hw by (by right). destruct (Hav _ _ Hw) as [H1 H2].
  rewrite !app_assoc. match goal with |- context [set_fields _ (?l ++ match transport_input _ _ with _ => _ end)] => set (pre := l) end. assert (all_avoid 596 597 pre) as Hpre.
  { unfold pre. do 2 (apply all_avoid_app; [|done]). apply all_avoid_app;
      [apply all_avoid_app; [apply metadata_fields_avoid; [done|apply Hwf]|avoid_tac]|].
    apply all_avoid_words. intros i Hi. unfold avoids, mb_in, FLOW_U64S, vlan_qtag. cbn. lia. }
  destruct (transport_input _ _) as [[t' i]|].
  - change 8 with (mb_bits nw_frag). unfold l4_spec.
    case_match; cbn [fst app]; (apply fget_set_fields_last; [apply zero_wf|members|]);
      repeat apply Forall_cons_2; try (unfold avoids, mb_in, FLOW_U64S; cbn; lia).
    + by apply transport_fields_avoid.
    + by apply later_frag_fields_avoid.
  - rewrite app_nil_r, fget_set_fields_skip by (done || apply zero_wf). apply fget_zero.
Qed.

(** [tcp_flags] of a flow with a complete TCP header. *)
Lemma extracted_tcp (f2 : list field) (t : Z) (c : cursor) (t' : Z) (i : l3_info) :
  cursor_ok p c -> l2_spec flow_vlan_limit p (restarted b) = (f2, restarted b, Some (t, c)) ->
  transport_input flow_vlan_limit b = Some (t', i) ->
  tcp_ok p (l3_c i) = true -> l3_nw_proto i = IPPROTO_TCP -> Z.land (l3_nw_frag i) FLOW_NW_FRAG_LATER = 0 ->
  fget extracted_flow tcp_flags = Z.land (get p (c_data (l3_c i) + 12) 2) 0x0fff.
Proof.
  intros Hc El2 Ei Hok Ep Ef. unfold extracted_flow. destruct (packet_fields_split _ t c El2 Hc) as (b3 & fm & f3 & -> & _).
  rewrite Ei. unfold l4_spec, transport_spec. rewrite Ef, Ep, Hok. cbn [Z.eqb fst]. change (IPPROTO_TCP =? IPPROTO_TCP) with true.
  cbn [fst]. rewrite !app_assoc. rewrite fget_set_fields_last; [|apply zero_wf|members|avoid_tac].
  apply wrap_small. change (mb_bits tcp_flags) with 16. rewrite Z.land_comm. apply in_width_land; [lia|unfold in_width; lia|apply get_nonneg, Hwf].
Qed.

Lemma ext_chain_frag (q : list Z) (c0 : cursor) (proto frag : Z) (r : option (cursor * Z * Z)) :
  ext_chain q c0 proto frag r -> in_width 8 frag -> forall x, r = Some x -> in_width 8 x.2.
Proof.
  induction 1 as [c1 proto frag E|c1 proto frag E H1|c1 proto frag E H8 Hl|c1 proto frag r E H8 Hle Hl Hr IH]; intros Hf x Hx.
  - by injection Hx as <-.
  - done.
  - injection Hx as <-. done.
  - apply IH; [|done]. unfold ext_frag. repeat case_match; done.
Qed.

(** The fragment bits fit in a byte. *)
Lemma transport_frag (t : Z) (i : l3_info) : transport_input flow_vlan_limit b = Some (t, i) -> in_width 8 (l3_nw_frag i).
Proof.
  pose proof (pw_data b Hwf) as Hp. fold p in Hp. unfold transport_input. fold p.
  pose proof (l2_spec_cursor flow_vlan_limit p (restarted b)) as Hc1.
  destruct (l2_spec _ _ _) as [[fs1 b1] [[t1 c1]|]]; [|done]. specialize (Hc1 t1 c1 eq_refl).
  destruct (mpls_spec_ip p t1 c1 b1 Hc1) as (fs2 & b2 & c2 & -> & Hc2 & _). unfold l3_spec, ipv4_spec, ipv6_spec.
  destruct (t1 =? ETH_TYPE_IP); [|destruct (t1 =? ETH_TYPE_IPV6); [|repeat case_match; done]].
  - destruct (ipv4_sanity_check _ _ _) as [[[ip_len tot_len]|]|]; [|done..]. intros [= <- <-]. cbn [l3_nw_frag].
    unfold ipv4_get_nw_frag. destruct (rd _ _ _); cbn [mbind option_bind default from_option]; repeat case_match; done.
  - destruct (ipv6_sanity_check_ok p (c_data c2) (c_size c2) Hc2) as (r & -> & Hr). destruct r; [|done].
    assert (cursor_ok p (Cursor (c_data c2 + 40) (Z.to_nat (get p (c_data c2 + 4) 2)))) as Hc.
    { destruct (Hr eq_refl) as (H40 & Hpl & _). pose proof (get_nonneg p (c_data c2 + 4) 2 Hp). in_packet. }
    destruct (parse_ipv6_ext_hdrs_chain p _ (get p (c_data c2 + 6) 1) 0 Hp Hc) as ([ok s] & -> & _ & Hch).
    destruct ok; [|done]. intros [= <- <-]. cbn [l3_nw_frag].
    by apply (ext_chain_frag _ _ _ _ _ Hch ltac:(done) (es_c s, es_nw_proto s, es_nw_frag s)).
Qed.
End TcpFlags.
