(* ===== verification/ExtractTheorems.v ===== *)
(** * Flow extraction: theorems

    [miniflow_extract] against its reference, the offsets it leaves in the
    packet, padding, the agreement of [parse_tcp_flags] with it, IPv6 extension
    headers, and two packets on which the code does what it should not. *)

From S2P Require Import Prelude Util Flowmap Hash Miniflow MetaFlow Trie FlowBits FlowFields MetaFields Packet PacketProps MfCtx.
From S2P Require Import FlowExtract ExtractSpec ExtractFields ExtractSim ExtractLayers ExtractProps ExtractPadding ExtractFlags.
From stdpp Require Import prelude list.
From Stdlib Require Import ZArith Lia.
Open Scope Z_scope.
Open Scope ovs_scope.

#[local] Opaque fset fget.

(** ** Sample packets *)

Definition sample_tuple : ct_tuple := CtTuple 0 0 0 0 0.

Definition sample_md (ct_state : Z) (ipv6 : bool) (t : ct_tuple) : pkt_metadata :=
  PktMetadata 0 0 0 0 ct_state ipv6 0 0 0 1 t (replicate 344 0).

Definition sample_packet (md : pkt_metadata) (bytes : list Z) : dp_packet :=
  DpPacket bytes 0 md 0 false 0 0 UINT16_MAX UINT16_MAX UINT16_MAX UINT16_MAX UINT16_MAX.

(** A SYN segment over IPv4 with a VLAN tag, for VLAN 5. *)
Definition syn_bytes : list Z :=
  [0;1;2;3;4;5; 6;7;8;9;10;11; 0x81;0x00; 0x00;0x05; 0x08;0x00;
   0x45;0;0;40; 0;0;0;0; 64;6;0;0; 10;0;0;1; 10;0;0;2;
   0x30;0x39;0;80; 0;0;0;1; 0;0;0;0; 0x50;0x02;0x20;0; 0;0;0;0].

Definition syn : dp_packet := sample_packet (sample_md 0 false sample_tuple) syn_bytes.

(** A later fragment over IPv6 without payload. *)
Definition empty_fragment_bytes : list Z :=
  [0;1;2;3;4;5; 6;7;8;9;10;11; 0x86;0xdd;
   0x60;0;0;0; 0;8;44;64] ++ replicate 15 0 ++ [1] ++ replicate 15 0 ++ [2] ++ [58;0;0;8; 0;0;0;1].

(** An Ethernet header whose type is MPLS, and nothing more. *)
Definition short_mpls_bytes : list Z := [0;1;2;3;4;5; 6;7;8;9;10;11; 0x88;0x47].

Definition zero_buf : list Z := replicate (8 * FLOW_U64S) 0.

Lemma forallb_bytes (l : list Z) : forallb (fun x => (0 <=? x) && (x <? 256)) l = true -> Forall is_byte l.
Proof.
  rewrite forallb_forall. intros Hl. apply Forall_forall. intros x Hx%list_elem_of_In%Hl.
  apply andb_true_iff in Hx as [H1%Z.leb_le H2%Z.ltb_lt]. unfold is_byte. lia.
Qed.

Lemma sample_packet_wf (n : Z) (v6 : bool) (t : ct_tuple) (l : list Z) :
  forallb (fun x => (0 <=? x) && (x <? 256)) l = true -> packet_wf (sample_packet (sample_md n v6 t) l).
Proof. intros Hl. split; [by apply forallb_bytes|done|by apply forallb_bytes]. Qed.

Lemma syn_wf : packet_wf syn.
Proof. by apply sample_packet_wf. Qed.

Lemma zero_buf_ok : length zero_buf = (8 * FLOW_U64S)%nat /\ Forall is_byte zero_buf.
Proof. split; [done|by apply forallb_bytes]. Qed.

Lemma syn_input : transport_input 2 syn =
  Some (ETH_TYPE_IP, L3Info (Cursor 38 20) 0 0 64 6 0 0).
Proof. by vm_compute. Qed.

Lemma syn_checks : reads_past_end 2 syn = false /\ short_mpls 2 syn = false /\ dp_l2_pad_size (packet_after 2 syn) = 0.
Proof. by vm_compute. Qed.

(** ** Theorems *)



(** the offsets that extraction leaves in a packet of less than 65,535 bytes:
    [l3_ofs] is inside the packet or unset, [l2_5_ofs] is unset or not past
    [l3_ofs], [l4_ofs] is unset or at least an IPv4 header past [l3_ofs], and
    [l4_ofs] and the padding [l2_pad_size] together stay inside the packet. *)
Theorem extract_offsets `{Hash} (asserts : bool) (flow_vlan_limit : Z) (buf : list Z) (b : dp_packet) :
  packet_wf b -> length buf = (8 * FLOW_U64S)%nat -> Forall is_byte buf -> flow_vlan_limit <= FLOW_MAX_VLAN_HEADERS ->
  reads_past_end flow_vlan_limit b = false -> (asserts = true -> short_mpls flow_vlan_limit b = false) ->
  Z.of_nat (length (dp_data b)) < UINT16_MAX ->
  exists mf b', miniflow_extract asserts flow_vlan_limit buf b = Some (mf, b') /\
    offsets_ok (Z.of_nat (length (dp_data b))) (ofs_of b').
Proof.
  intros Hwf Hl Hb Hlim Hr Hs Hlen.
  destruct (extract_packet_ok asserts flow_vlan_limit Hlim buf b Hwf Hl Hb Hr Hs) as (mf & E & _).
  eexists mf, _. split; [exact E|]. by apply packet_after_offsets.
Qed.

Lemma extract_offsets_witness :
  exists mf b', miniflow_extract true 2 zero_buf syn = Some (mf, b') /\ offsets_ok 58 (ofs_of b').
Proof.
  apply (extract_offsets true 2 zero_buf syn); [apply syn_wf|apply zero_buf_ok|apply zero_buf_ok|done|apply syn_checks| |done].
  intros _. apply syn_checks.
Defined.



(** C19: [parse_tcp_flags] sees what extraction sees: on an Ethernet packet it returns,
    the type it stores is [dl_type] of the extracted flow, the tag is the flow's
    first VLAN tag (zero when there is none), the fragment bits are [nw_frag]
    (zero when they are not stored), and when the transport header is a complete
    TCP header the flags are the flow's [tcp_flags]. *)
Theorem parse_tcp_flags_agrees `{Hash} (asserts : bool) (flow_vlan_limit : Z) (buf : list Z) (b : dp_packet) :
  packet_wf b -> length buf = (8 * FLOW_U64S)%nat -> Forall is_byte buf -> flow_vlan_limit <= FLOW_MAX_VLAN_HEADERS ->
  reads_past_end flow_vlan_limit b = false -> (asserts = true -> short_mpls flow_vlan_limit b = false) ->
  dp_packet_is_eth b = true -> (ETH_HEADER_LEN <= length (dp_data b))%nat ->
  exists f b' r, flow_extract asserts flow_vlan_limit buf b = Some (f, b') /\ parse_tcp_flags flow_vlan_limit b = Some r /\
    tf_dl_type r = Some (fget f dl_type) /\
    default 0 (tf_first_vlan_tci r) = fget f (vlan_tci 0) /\
    default 0 (tf_nw_frag r) = fget f nw_frag /\
    forall t i, transport_input flow_vlan_limit b = Some (t, i) -> tcp_ok (dp_data b) (l3_c i) = true ->
      l3_nw_proto i = IPPROTO_TCP -> Z.land (l3_nw_frag i) FLOW_NW_FRAG_LATER = 0 -> tf_flags r = fget f tcp_flags.
Proof.
  intros Hwf Hl Hb Hlim Hr Hs Heth Hlen. unfold ETH_HEADER_LEN in Hlen.
  destruct (extract_packet_ok asserts flow_vlan_limit Hlim buf b Hwf Hl Hb Hr Hs) as (mf & E & _ & Hx).
  destruct (eth_l2 flow_vlan_limit Hlim b Hwf Heth Hlen) as (hdrs & c1 & t & c & Ev & Et & Hc & Ht & Hn & El2).
  destruct (parse_tcp_flags_spec flow_vlan_limit b Hwf Heth Hlen hdrs c1 c t Ev Et Hc El2) as (r & Er & Hd & Hv & Hi).
  destruct (extracted_l2 flow_vlan_limit b Hwf Hlen hdrs t c Hn Ht Hc El2) as [Fd Fv].
  pose proof (extracted_frag flow_vlan_limit b Hwf Hlen hdrs t c Hn Hc El2) as Ff.
  exists (extracted_flow flow_vlan_limit b), (packet_after flow_vlan_limit b), r. unfold flow_extract. rewrite E.
  cbn [mbind option_bind]. rewrite Hx, Hd, Fd, Hv, Fv, Ff. split_and!; [done..| |].
  - pose proof (transport_frag flow_vlan_limit b Hwf Hlen) as Hw.
    destruct (transport_input _ _) as [[t' i]|]; destruct Hi as [-> _]; [|done]. symmetry. by apply wrap_small, (Hw t').
  - intros t' i Ei Hok Hp Hf. rewrite Ei in Hi. destruct Hi as [_ ->]; [|done..].
    by rewrite (extracted_tcp flow_vlan_limit b Hwf Hlen _ t c t' i Hc El2 Ei Hok Hp Hf).
Qed.

Lemma parse_tcp_flags_agrees_witness :
  exists f b' r, flow_extract true 2 zero_buf syn = Some (f, b') /\ parse_tcp_flags 2 syn = Some r /\
    tf_dl_type r = Some (fget f dl_type) /\ default 0 (tf_first_vlan_tci r) = fget f (vlan_tci 0) /\
    default 0 (tf_nw_frag r) = fget f nw_frag /\ tf_flags r = fget f tcp_flags.
Proof.
  destruct (parse_tcp_flags_agrees true 2 zero_buf syn syn_wf (proj1 zero_buf_ok) (proj2 zero_buf_ok) ltac:(done)
    (proj1 syn_checks) (fun _ => proj1 (proj2 syn_checks)) eq_refl) as (f & b' & r & H1 & H2 & H3 & H4 & H5 & H6).
  { apply Nat.leb_le. reflexivity. }
  exists f, b', r. split_and!; try assumption. apply (H6 _ _ syn_input); reflexivity.
Defined.

(** [parse_ipv6_ext_hdrs] returns on every packet, without a read outside of
    it, and its answer is the end of the chain of extension headers: it succeeds
    with a data pointer, a protocol and fragment bits exactly when the chain
    ends there, fails exactly when a header is cut off, and the pointer only moves
    forward inside the packet. *)
Theorem parse_ipv6_ext_hdrs_spec (p : list Z) (c : cursor) (nw_proto nw_frag : Z) :
  Forall is_byte p -> cursor_ok p c ->
  exists r, parse_ipv6_ext_hdrs p c nw_proto nw_frag = Some r /\
    (forall x, ext_chain p c nw_proto nw_frag x <-> ext_result r = x) /\
    cursor_adv c (es_c (snd r)) /\ cursor_ok p (es_c (snd r)).
Proof.
  intros Hp Hc. destruct (parse_ipv6_ext_hdrs_chain p c nw_proto nw_frag Hp Hc) as (r & E & Ha & Hr).
  exists r. split_and!; [done| |done|by apply (cursor_adv_ok p c)].
  intros x. split; [by apply ext_chain_det|by intros <-].
Qed.

Lemma parse_ipv6_ext_hdrs_spec_witness :
  exists r, parse_ipv6_ext_hdrs [44; 0; 1; 2; 3; 4; 5; 6; 17; 0; 0; 1; 0; 0; 0; 9; 1; 2] (Cursor 0 18) 0 0 = Some r /\
    ext_result r = Some (Cursor 16 2, 17, 1).
Proof.
  destruct (parse_ipv6_ext_hdrs_spec [44; 0; 1; 2; 3; 4; 5; 6; 17; 0; 0; 1; 0; 0; 0; 9; 1; 2] (Cursor 0 18) 0 0)
    as (r & E & Hr & _).
  - by apply forallb_bytes.
  - apply le_n.
  - exists r. split; [assumption|]. apply Hr.
    do 2 (apply chain_next; [done|apply Nat.leb_le; reflexivity|apply Nat.leb_le; reflexivity|done|]).
    apply chain_end. reflexivity.
Defined.

(** A later fragment of a tracked ICMPv6 connection, with its payload. *)
Definition tracked_fragment (payload : list Z) : dp_packet :=
  sample_packet (sample_md 0x20 true (CtTuple 1 2 7 9 IPPROTO_ICMPV6)) (empty_fragment_bytes ++ payload).

Definition ct_tp_src_of (r : option (flow * dp_packet)) : option Z := (fun '(f, _) => fget f ct_tp_src) <$> r.

(** a valid IPv6 packet that ends with the header of a later fragment makes
    extraction read past its end when connection tracking knows its connection as
    ICMPv6: the test for neighbor discovery takes the first two bytes after the
    headers without looking at the size.  With two bytes of Ethernet padding after
    the packet, the padding decides whether the flow has the ports of the
    connection. *)
Theorem later_fragment_reads_past_end :
  packet_wf (tracked_fragment []) /\
  miniflow_extract false 2 zero_buf (tracked_fragment []) = None /\
  ct_tp_src_of (flow_extract false 2 zero_buf (tracked_fragment [0; 0])) = Some 7 /\
  ct_tp_src_of (flow_extract false 2 zero_buf (tracked_fragment [ND_NEIGHBOR_SOLICIT; 0])) = Some 0.
Proof. split; [by apply sample_packet_wf|by vm_compute]. Qed.

(** an Ethernet header with an MPLS type and no label is extracted, with the type
    alone, when the assertions on the miniflow are compiled out, and trips one of
    them (a push of zero words) when they are compiled in. *)
Theorem short_mpls_asserts :
  let b := sample_packet (sample_md 0 false sample_tuple) short_mpls_bytes in
  packet_wf b /\ miniflow_extract true 2 zero_buf b = None /\
  (fun '(f, _) => (fget f dl_type, fget f (mpls_lse 0))) <$> flow_extract false 2 zero_buf b = Some (ETH_TYPE_MPLS, 0).
Proof. split; [by apply sample_packet_wf|by vm_compute]. Qed.
