(* ===== verification/MatchSet.v ===== *)
(** * Matches on fields (lib/match.c, lib/meta-flow.c)

    A match is a flow and its wildcards.  The [match_set_*] functions make a
    match compare a field with a value, exactly or under a mask, or leave it
    out; [mf_set_value], [mf_set_wild] and [mf_set] select among them by field.
    The tunnel-metadata allocation of a match is left out with the
    tunnel-metadata fields. *)

From S2P Require Import Prelude Util Flowmap Hash Miniflow MetaFlow Trie FlowBits FlowFields MetaFields.
From stdpp Require Import prelude list.
From Stdlib Require Import ZArith Lia.
Open Scope Z_scope.
Open Scope ovs_scope.

Definition UINT8_MAX : Z := 2 ^ 8 - 1.
Definition UINT16_MAX : Z := 2 ^ 16 - 1.
Definition UINT48_MAX : Z := 2 ^ 48 - 1.
Definition UINT128_MAX : Z := 2 ^ 128 - 1.

(** A member of the flow and the same member of the wildcards. *)
Definition mset (m : match_) (mb : member) (value mask : Z) : match_ :=
  Match (fset (m_flow m) mb value) (fset (m_wc m) mb mask).

Definition MATCH_SET_FIELD_MASKED (m : match_) (mb : member) (value msk : Z) : match_ :=
  mset m mb (Z.land value msk) msk.

Definition flow_zero_wildcards (f wc : flow) : flow :=
  map (fun i => Z.land (nth i f 0) (nth i wc 0)) (seq 0 FLOW_U64S).

Definition match_zero_wildcarded_fields (m : match_) : match_ :=
  Match (flow_zero_wildcards (m_flow m) (m_wc m)) (m_wc m).

Definition match_init (f wc : flow) : match_ := match_zero_wildcarded_fields (Match f wc).

Definition match_init_catchall : match_ := Match (replicate FLOW_U64S 0) flow_wildcards_init_catchall.

Definition flow_wildcards_set_reg_mask (wc : flow) (idx : nat) (mask : Z) : flow := fset wc (regs idx) mask.
Definition flow_wildcards_set_xreg_mask (wc : flow) (idx : nat) (mask : Z) : flow := flow_set_xreg wc idx mask.
Definition flow_wildcards_set_xxreg_mask (wc : flow) (idx : nat) (mask : Z) : flow := flow_set_xxreg wc idx mask.

(** ** Setting a member; [None] is a failed assertion *)

Definition match_set_dp_hash_masked (m : match_) (value mask : Z) : match_ :=
  mset m dp_hash (Z.land value mask) mask.

Definition match_set_dp_hash (m : match_) (value : Z) : match_ :=
  match_set_dp_hash_masked m value UINT32_MAX.

Definition match_set_recirc_id (m : match_) (value : Z) : match_ :=
  mset m recirc_id value UINT32_MAX.

Definition match_set_conj_id (m : match_) (value : Z) : match_ :=
  mset m conj_id value UINT32_MAX.

Definition match_set_reg_masked (m : match_) (reg_idx : nat) (value mask : Z) : option match_ :=
  if (reg_idx <? FLOW_N_REGS)%nat
  then Some (Match (fset (m_flow m) (regs reg_idx) (Z.land value mask)) (flow_wildcards_set_reg_mask (m_wc m) reg_idx mask))
  else None.

Definition match_set_reg (m : match_) (reg_idx : nat) (value : Z) : option match_ :=
  match_set_reg_masked m reg_idx value UINT32_MAX.

Definition match_set_xreg_masked (m : match_) (xreg_idx : nat) (value mask : Z) : option match_ :=
  if (xreg_idx <? FLOW_N_XREGS)%nat
  then Some (Match (flow_set_xreg (m_flow m) xreg_idx (Z.land value mask)) (flow_wildcards_set_xreg_mask (m_wc m) xreg_idx mask))
  else None.

Definition match_set_xreg (m : match_) (xreg_idx : nat) (value : Z) : option match_ :=
  match_set_xreg_masked m xreg_idx value UINT64_MAX.

Definition match_set_xxreg_masked (m : match_) (xxreg_idx : nat) (value mask : Z) : option match_ :=
  if (xxreg_idx <? FLOW_N_XXREGS)%nat
  then Some (Match (flow_set_xxreg (m_flow m) xxreg_idx (Z.land value mask)) (flow_wildcards_set_xxreg_mask (m_wc m) xxreg_idx mask))
  else None.

Definition match_set_xxreg (m : match_) (xxreg_idx : nat) (value : Z) : option match_ :=
  match_set_xxreg_masked m xxreg_idx value UINT128_MAX.

Definition match_set_actset_output (m : match_) (actset_output_ : Z) : match_ :=
  mset m actset_output actset_output_ UINT16_MAX.

Definition match_set_metadata_masked (m : match_) (metadata_ mask : Z) : match_ :=
  mset m metadata (Z.land metadata_ mask) mask.

Definition match_set_metadata (m : match_) (metadata : Z) : match_ :=
  match_set_metadata_masked m metadata UINT64_MAX.

Definition match_set_tun_id_masked (m : match_) (tun_id_ mask : Z) : match_ :=
  mset m tun_id (Z.land tun_id_ mask) mask.

Definition match_set_tun_id (m : match_) (tun_id : Z) : match_ :=
  match_set_tun_id_masked m tun_id UINT64_MAX.

Definition match_set_tun_src_masked (m : match_) (src mask : Z) : match_ :=
  mset m tun_ip_src (Z.land src mask) mask.

Definition match_set_tun_src (m : match_) (src : Z) : match_ :=
  match_set_tun_src_masked m src UINT32_MAX.

Definition match_set_tun_dst_masked (m : match_) (dst mask : Z) : match_ :=
  mset m tun_ip_dst (Z.land dst mask) mask.

Definition match_set_tun_dst (m : match_) (dst : Z) : match_ :=
  match_set_tun_dst_masked m dst UINT32_MAX.

Definition match_set_tun_ipv6_src (m : match_) (src : Z) : match_ :=
  mset m tun_ipv6_src src UINT128_MAX.

Definition match_set_tun_ipv6_src_masked (m : match_) (src mask : Z) : match_ :=
  mset m tun_ipv6_src (Z.land src mask) mask.

Definition match_set_tun_ipv6_dst (m : match_) (dst : Z) : match_ :=
  mset m tun_ipv6_dst dst UINT128_MAX.

Definition match_set_tun_ipv6_dst_masked (m : match_) (dst mask : Z) : match_ :=
  mset m tun_ipv6_dst (Z.land dst mask) mask.

Definition match_set_tun_ttl_masked (m : match_) (ttl mask : Z) : match_ :=
  mset m tun_ip_ttl (Z.land ttl mask) mask.

Definition match_set_tun_ttl (m : match_) (ttl : Z) : match_ :=
  match_set_tun_ttl_masked m ttl UINT8_MAX.

Definition match_set_tun_tos_masked (m : match_) (tos mask : Z) : match_ :=
  mset m tun_ip_tos (Z.land tos mask) mask.

Definition match_set_tun_tos (m : match_) (tos : Z) : match_ :=
  match_set_tun_tos_masked m tos UINT8_MAX.

Definition match_set_tun_flags_masked (m : match_) (flags mask : Z) : match_ :=
  let mask := Z.land mask FLOW_TNL_PUB_F_MASK in
  mset m tun_flags (Z.land flags mask) mask.

Definition match_set_tun_flags (m : match_) (flags : Z) : match_ :=
  match_set_tun_flags_masked m flags UINT16_MAX.

Definition match_set_tun_gbp_id_masked (m : match_) (gbp_id mask : Z) : match_ :=
  mset m tun_gbp_id (Z.land gbp_id mask) mask.

Definition match_set_tun_gbp_id (m : match_) (gbp_id : Z) : match_ :=
  match_set_tun_gbp_id_masked m gbp_id UINT16_MAX.

Definition match_set_tun_gbp_flags_masked (m : match_) (flags mask : Z) : match_ :=
  mset m tun_gbp_flags (Z.land flags mask) mask.

Definition match_set_tun_gbp_flags (m : match_) (flags : Z) : match_ :=
  match_set_tun_gbp_flags_masked m flags UINT8_MAX.

Definition match_set_tun_erspan_ver_masked (m : match_) (ver mask : Z) : match_ :=
  mset m tun_erspan_ver (Z.land ver mask) ver.

Definition match_set_tun_erspan_ver (m : match_) (ver : Z) : match_ :=
  match_set_tun_erspan_ver_masked m ver UINT8_MAX.

Definition match_set_tun_erspan_idx_masked (m : match_) (erspan_idx mask : Z) : match_ :=
  mset m tun_erspan_idx (Z.land erspan_idx mask) mask.

Definition match_set_tun_erspan_idx (m : match_) (erspan_idx : Z) : match_ :=
  match_set_tun_erspan_idx_masked m erspan_idx UINT32_MAX.

Definition match_set_tun_erspan_dir_masked (m : match_) (dir mask : Z) : match_ :=
  mset m tun_erspan_dir (Z.land dir mask) dir.

Definition match_set_tun_erspan_dir (m : match_) (dir : Z) : match_ :=
  match_set_tun_erspan_dir_masked m dir UINT8_MAX.

Definition match_set_tun_erspan_hwid_masked (m : match_) (hwid mask : Z) : match_ :=
  mset m tun_erspan_hwid (Z.land hwid mask) hwid.

Definition match_set_tun_erspan_hwid (m : match_) (hwid : Z) : match_ :=
  match_set_tun_erspan_hwid_masked m hwid UINT8_MAX.

Definition match_set_tun_gtpu_flags_masked (m : match_) (flags mask : Z) : match_ :=
  mset m tun_gtpu_flags (Z.land flags mask) flags.

Definition match_set_tun_gtpu_flags (m : match_) (flags : Z) : match_ :=
  match_set_tun_gtpu_flags_masked m flags UINT8_MAX.

Definition match_set_tun_gtpu_msgtype_masked (m : match_) (msgtype mask : Z) : match_ :=
  mset m tun_gtpu_msgtype (Z.land msgtype mask) msgtype.

Definition match_set_tun_gtpu_msgtype (m : match_) (msgtype : Z) : match_ :=
  match_set_tun_gtpu_msgtype_masked m msgtype UINT8_MAX.

Definition match_set_in_port (m : match_) (ofp_port : Z) : match_ :=
  mset m in_port ofp_port UINT16_MAX.

Definition match_set_skb_priority (m : match_) (skb_priority_ : Z) : match_ :=
  mset m skb_priority skb_priority_ UINT32_MAX.

Definition match_set_pkt_mark_masked (m : match_) (pkt_mark_ mask : Z) : match_ :=
  mset m pkt_mark (Z.land pkt_mark_ mask) mask.

Definition match_set_pkt_mark (m : match_) (pkt_mark : Z) : match_ :=
  match_set_pkt_mark_masked m pkt_mark UINT32_MAX.

Definition match_set_ct_state_masked (m : match_) (ct_state_ mask : Z) : match_ :=
  mset m ct_state (Z.land (Z.land ct_state_ mask) UINT8_MAX) (Z.land mask UINT8_MAX).

Definition match_set_ct_state (m : match_) (ct_state : Z) : match_ :=
  match_set_ct_state_masked m ct_state UINT32_MAX.

Definition match_set_ct_zone_masked (m : match_) (ct_zone_ mask : Z) : match_ :=
  mset m ct_zone (Z.land ct_zone_ mask) mask.

Definition match_set_ct_zone (m : match_) (ct_zone : Z) : match_ :=
  match_set_ct_zone_masked m ct_zone UINT16_MAX.

Definition match_set_ct_mark_masked (m : match_) (ct_mark_ mask : Z) : match_ :=
  mset m ct_mark (Z.land ct_mark_ mask) mask.

Definition match_set_ct_mark (m : match_) (ct_mark : Z) : match_ :=
  match_set_ct_mark_masked m ct_mark UINT32_MAX.

Definition match_set_ct_label_masked (m : match_) (value mask : Z) : match_ :=
  mset m ct_label (Z.land value mask) mask.

Definition match_set_ct_label (m : match_) (value : Z) : match_ :=
  match_set_ct_label_masked m value UINT128_MAX.

Definition match_set_ct_nw_src (m : match_) (ct_nw_src_ : Z) : match_ :=
  mset m ct_nw_src ct_nw_src_ UINT32_MAX.

Definition match_set_ct_nw_src_masked (m : match_) (ct_nw_src_ mask : Z) : match_ :=
  mset m ct_nw_src (Z.land ct_nw_src_ mask) mask.

Definition match_set_ct_nw_dst (m : match_) (ct_nw_dst_ : Z) : match_ :=
  mset m ct_nw_dst ct_nw_dst_ UINT32_MAX.

Definition match_set_ct_nw_dst_masked (m : match_) (ct_nw_dst_ mask : Z) : match_ :=
  mset m ct_nw_dst (Z.land ct_nw_dst_ mask) mask.

Definition match_set_ct_nw_proto (m : match_) (ct_nw_proto_ : Z) : match_ :=
  mset m ct_nw_proto ct_nw_proto_ UINT8_MAX.

Definition match_set_ct_tp_src_masked (m : match_) (port mask : Z) : match_ :=
  mset m ct_tp_src (Z.land port mask) mask.

Definition match_set_ct_tp_src (m : match_) (ct_tp_src : Z) : match_ :=
  match_set_ct_tp_src_masked m ct_tp_src UINT16_MAX.

Definition match_set_ct_tp_dst_masked (m : match_) (port mask : Z) : match_ :=
  mset m ct_tp_dst (Z.land port mask) mask.

Definition match_set_ct_tp_dst (m : match_) (ct_tp_dst : Z) : match_ :=
  match_set_ct_tp_dst_masked m ct_tp_dst UINT16_MAX.

Definition match_set_ct_ipv6_src (m : match_) (src : Z) : match_ :=
  mset m ct_ipv6_src src UINT128_MAX.

Definition match_set_ct_ipv6_src_masked (m : match_) (src mask : Z) : match_ :=
  mset m ct_ipv6_src (Z.land src mask) mask.

Definition match_set_ct_ipv6_dst (m : match_) (dst : Z) : match_ :=
  mset m ct_ipv6_dst dst UINT128_MAX.

Definition match_set_ct_ipv6_dst_masked (m : match_) (dst mask : Z) : match_ :=
  mset m ct_ipv6_dst (Z.land dst mask) mask.

Definition match_set_packet_type (m : match_) (packet_type_ : Z) : match_ :=
  mset m packet_type packet_type_ UINT32_MAX.

Definition match_set_default_packet_type (m : match_) : match_ :=
  if fget (m_wc m) packet_type =? 0 then match_set_packet_type m PT_ETH else m.

Definition match_set_dl_type (m : match_) (dl_type_ : Z) : match_ :=
  mset m dl_type dl_type_ UINT16_MAX.

Definition match_set_dl_src (m : match_) (dl_src_ : Z) : match_ :=
  mset m dl_src dl_src_ UINT48_MAX.

Definition match_set_dl_src_masked (m : match_) (dl_src_ mask : Z) : match_ :=
  mset m dl_src (Z.land dl_src_ mask) mask.

Definition match_set_dl_dst (m : match_) (dl_dst_ : Z) : match_ :=
  mset m dl_dst dl_dst_ UINT48_MAX.

Definition match_set_dl_dst_masked (m : match_) (dl_dst_ mask : Z) : match_ :=
  mset m dl_dst (Z.land dl_dst_ mask) mask.

Definition match_set_dl_tci_masked (m : match_) (tci mask : Z) : match_ :=
  mset m (vlan_tci 0) (Z.land tci mask) mask.

Definition match_set_dl_tci (m : match_) (tci : Z) : match_ :=
  match_set_dl_tci_masked m tci 0xffff.

Definition match_set_any_vid (m : match_) : match_ :=
  if negb (Z.land (fget (m_wc m) (vlan_tci 0)) VLAN_PCP_MASK =? 0)
  then mset m (vlan_tci 0) (Z.ldiff (fget (m_flow m) (vlan_tci 0)) VLAN_VID_MASK)
         (Z.ldiff (fget (m_wc m) (vlan_tci 0)) VLAN_VID_MASK)
  else match_set_dl_tci_masked m 0 0.

Definition match_set_dl_vlan (m : match_) (dl_vlan : Z) (id : nat) : match_ :=
  Match (flow_set_dl_vlan (m_flow m) dl_vlan id)
    (fset (m_wc m) (vlan_tci id)
       (if dl_vlan =? OFP10_VLAN_NONE then UINT16_MAX
        else Z.lor (fget (m_wc m) (vlan_tci id)) (Z.lor VLAN_VID_MASK VLAN_CFI))).

Definition match_set_vlan_vid_masked (m : match_) (vid mask : Z) : match_ :=
  let pcp_mask := VLAN_PCP_MASK in
  let vid_mask := Z.lor VLAN_VID_MASK VLAN_CFI in
  let mask := Z.land mask vid_mask in
  Match (flow_set_vlan_vid (m_flow m) (Z.land vid mask))
    (fset (m_wc m) (vlan_tci 0) (Z.lor mask (Z.land (fget (m_wc m) (vlan_tci 0)) pcp_mask))).

Definition match_set_vlan_vid (m : match_) (vid : Z) : match_ :=
  match_set_vlan_vid_masked m vid (Z.lor VLAN_VID_MASK VLAN_CFI).

Definition match_set_any_pcp (m : match_) : match_ :=
  if negb (Z.land (fget (m_wc m) (vlan_tci 0)) VLAN_VID_MASK =? 0)
  then mset m (vlan_tci 0) (Z.ldiff (fget (m_flow m) (vlan_tci 0)) VLAN_PCP_MASK)
         (Z.ldiff (fget (m_wc m) (vlan_tci 0)) VLAN_PCP_MASK)
  else match_set_dl_tci_masked m 0 0.

Definition match_set_dl_vlan_pcp (m : match_) (dl_vlan_pcp : Z) (id : nat) : match_ :=
  Match (flow_set_vlan_pcp (m_flow m) dl_vlan_pcp id)
    (fset (m_wc m) (vlan_tci id) (Z.lor (fget (m_wc m) (vlan_tci id)) (Z.lor VLAN_CFI VLAN_PCP_MASK))).

Definition match_set_any_mpls_label (m : match_) (idx : nat) : match_ :=
  Match (flow_set_mpls_label (m_flow m) idx 0)
    (fset (m_wc m) (mpls_lse idx) (Z.ldiff (fget (m_wc m) (mpls_lse idx)) MPLS_LABEL_MASK)).

Definition match_set_mpls_label (m : match_) (idx : nat) (mpls_label : Z) : match_ :=
  Match (flow_set_mpls_label (m_flow m) idx mpls_label)
    (fset (m_wc m) (mpls_lse idx) (Z.lor (fget (m_wc m) (mpls_lse idx)) MPLS_LABEL_MASK)).

Definition match_set_any_mpls_tc (m : match_) (idx : nat) : match_ :=
  Match (flow_set_mpls_tc (m_flow m) idx 0)
    (fset (m_wc m) (mpls_lse idx) (Z.ldiff (fget (m_wc m) (mpls_lse idx)) MPLS_TC_MASK)).

Definition match_set_mpls_tc (m : match_) (idx : nat) (mpls_tc : Z) : match_ :=
  Match (flow_set_mpls_tc (m_flow m) idx mpls_tc)
    (fset (m_wc m) (mpls_lse idx) (Z.lor (fget (m_wc m) (mpls_lse idx)) MPLS_TC_MASK)).

Definition match_set_any_mpls_bos (m : match_) (idx : nat) : match_ :=
  Match (flow_set_mpls_bos (m_flow m) idx 0)
    (fset (m_wc m) (mpls_lse idx) (Z.ldiff (fget (m_wc m) (mpls_lse idx)) MPLS_BOS_MASK)).

Definition match_set_mpls_bos (m : match_) (idx : nat) (mpls_bos : Z) : match_ :=
  Match (flow_set_mpls_bos (m_flow m) idx mpls_bos)
    (fset (m_wc m) (mpls_lse idx) (Z.lor (fget (m_wc m) (mpls_lse idx)) MPLS_BOS_MASK)).

Definition match_set_any_mpls_ttl (m : match_) (idx : nat) : match_ :=
  Match (flow_set_mpls_ttl (m_flow m) idx 0)
    (fset (m_wc m) (mpls_lse idx) (Z.ldiff (fget (m_wc m) (mpls_lse idx)) MPLS_TTL_MASK)).

Definition match_set_mpls_ttl (m : match_) (idx : nat) (mpls_ttl : Z) : match_ :=
  Match (flow_set_mpls_ttl (m_flow m) idx mpls_ttl)
    (fset (m_wc m) (mpls_lse idx) (Z.lor (fget (m_wc m) (mpls_lse idx)) MPLS_TTL_MASK)).

Definition match_set_tp_src_masked (m : match_) (port mask : Z) : match_ :=
  mset m tp_src (Z.land port mask) mask.

Definition match_set_tp_src (m : match_) (tp_src : Z) : match_ :=
  match_set_tp_src_masked m tp_src UINT16_MAX.

Definition match_set_tp_dst_masked (m : match_) (port mask : Z) : match_ :=
  mset m tp_dst (Z.land port mask) mask.

Definition match_set_tp_dst (m : match_) (tp_dst : Z) : match_ :=
  match_set_tp_dst_masked m tp_dst UINT16_MAX.

Definition match_set_tcp_flags_masked (m : match_) (flags mask : Z) : match_ :=
  mset m tcp_flags (Z.land flags mask) mask.

Definition match_set_tcp_flags (m : match_) (flags : Z) : match_ :=
  match_set_tcp_flags_masked m flags UINT16_MAX.

Definition match_set_nw_proto (m : match_) (nw_proto_ : Z) : match_ :=
  mset m nw_proto nw_proto_ UINT8_MAX.

Definition match_set_nw_src (m : match_) (nw_src_ : Z) : match_ :=
  mset m nw_src nw_src_ UINT32_MAX.

Definition match_set_nw_src_masked (m : match_) (nw_src_ mask : Z) : match_ :=
  mset m nw_src (Z.land nw_src_ mask) mask.

Definition match_set_nw_dst (m : match_) (nw_dst_ : Z) : match_ :=
  mset m nw_dst nw_dst_ UINT32_MAX.

Definition match_set_nw_dst_masked (m : match_) (ip mask : Z) : match_ :=
  mset m nw_dst (Z.land ip mask) mask.

Definition match_set_nw_dscp (m : match_) (nw_dscp : Z) : match_ :=
  let f := fset (m_flow m) nw_tos (Z.ldiff (fget (m_flow m) nw_tos) IP_DSCP_MASK) in
  Match (fset f nw_tos (Z.lor (fget f nw_tos) (Z.land nw_dscp IP_DSCP_MASK)))
    (fset (m_wc m) nw_tos (Z.lor (fget (m_wc m) nw_tos) IP_DSCP_MASK)).

Definition match_set_nw_ecn (m : match_) (nw_ecn : Z) : match_ :=
  let f := fset (m_flow m) nw_tos (Z.ldiff (fget (m_flow m) nw_tos) IP_ECN_MASK) in
  Match (fset f nw_tos (Z.lor (fget f nw_tos) (Z.land nw_ecn IP_ECN_MASK)))
    (fset (m_wc m) nw_tos (Z.lor (fget (m_wc m) nw_tos) IP_ECN_MASK)).

Definition match_set_nw_ttl (m : match_) (nw_ttl_ : Z) : match_ :=
  mset m nw_ttl nw_ttl_ UINT8_MAX.

Definition match_set_nw_frag (m : match_) (nw_frag_ : Z) : match_ :=
  mset m nw_frag nw_frag_ (Z.lor (fget (m_wc m) nw_frag) FLOW_NW_FRAG_MASK).

Definition match_set_nw_frag_masked (m : match_) (nw_frag_ mask : Z) : match_ :=
  mset m nw_frag (Z.land nw_frag_ mask) mask.

Definition match_set_icmp_type (m : match_) (icmp_type : Z) : match_ :=
  match_set_tp_src m icmp_type.

Definition match_set_icmp_code (m : match_) (icmp_code : Z) : match_ :=
  match_set_tp_dst m icmp_code.

Definition match_set_arp_sha (m : match_) (sha : Z) : match_ :=
  mset m arp_sha sha UINT48_MAX.

Definition match_set_arp_sha_masked (m : match_) (arp_sha_ mask : Z) : match_ :=
  mset m arp_sha (Z.land arp_sha_ mask) mask.

Definition match_set_arp_tha (m : match_) (tha : Z) : match_ :=
  mset m arp_tha tha UINT48_MAX.

Definition match_set_arp_tha_masked (m : match_) (arp_tha_ mask : Z) : match_ :=
  mset m arp_tha (Z.land arp_tha_ mask) mask.

Definition match_set_ipv6_src (m : match_) (src : Z) : match_ :=
  mset m ipv6_src src UINT128_MAX.

Definition match_set_ipv6_src_masked (m : match_) (src mask : Z) : match_ :=
  mset m ipv6_src (Z.land src mask) mask.

Definition match_set_ipv6_dst (m : match_) (dst : Z) : match_ :=
  mset m ipv6_dst dst UINT128_MAX.

Definition match_set_ipv6_dst_masked (m : match_) (dst mask : Z) : match_ :=
  mset m ipv6_dst (Z.land dst mask) mask.

Definition match_set_ipv6_label (m : match_) (ipv6_label_ : Z) : match_ :=
  mset m ipv6_label ipv6_label_ UINT32_MAX.

Definition match_set_ipv6_label_masked (m : match_) (ipv6_label_ mask : Z) : match_ :=
  mset m ipv6_label (Z.land ipv6_label_ mask) mask.

Definition match_set_nd_target (m : match_) (target : Z) : match_ :=
  mset m nd_target target UINT128_MAX.

Definition match_set_nd_target_masked (m : match_) (target mask : Z) : match_ :=
  mset m nd_target (Z.land target mask) mask.

Definition match_set_nd_reserved (m : match_) (value : Z) : match_ :=
  mset m igmp_group_ip4 value UINT32_MAX.

Definition match_set_nd_options_type (m : match_) (option : Z) : match_ :=
  match_set_tcp_flags m option.

Definition match_add_ethernet_prereq (m : match_) (field : mf_field_id) : match_ :=
  match mf_prereqs_of field with
  | MFP_NONE => m
  | _ => match_set_default_packet_type m
  end.

(** ** Setting a field *)

(** The cases up to the registers. *)
Definition mf_set_value_metadata (mf : mf_field_id) (value : mf_value) (m : match_) : option match_ :=
  match mf with
  | MFF_DP_HASH => Some (match_set_dp_hash m (be value 4))
  | MFF_RECIRC_ID => Some (match_set_recirc_id m (be value 4))
  | MFF_PACKET_TYPE => Some (match_set_packet_type m (be value 4))
  | MFF_CONJ_ID => Some (match_set_conj_id m (be value 4))
  | MFF_TUN_ID => Some (match_set_tun_id m (be value 8))
  | MFF_TUN_SRC => Some (match_set_tun_src m (be value 4))
  | MFF_TUN_DST => Some (match_set_tun_dst m (be value 4))
  | MFF_TUN_IPV6_SRC => Some (match_set_tun_ipv6_src m (be value 16))
  | MFF_TUN_IPV6_DST => Some (match_set_tun_ipv6_dst m (be value 16))
  | MFF_TUN_FLAGS => Some (match_set_tun_flags m (be value 2))
  | MFF_TUN_GBP_ID => Some (match_set_tun_gbp_id m (be value 2))
  | MFF_TUN_GBP_FLAGS => Some (match_set_tun_gbp_flags m (be value 1))
  | MFF_TUN_TOS => Some (match_set_tun_tos m (be value 1))
  | MFF_TUN_TTL => Some (match_set_tun_ttl m (be value 1))
  | MFF_TUN_ERSPAN_VER => Some (match_set_tun_erspan_ver m (be value 1))
  | MFF_TUN_ERSPAN_IDX => Some (match_set_tun_erspan_idx m (be value 4))
  | MFF_TUN_ERSPAN_DIR => Some (match_set_tun_erspan_dir m (be value 1))
  | MFF_TUN_ERSPAN_HWID => Some (match_set_tun_erspan_hwid m (be value 1))
  | MFF_TUN_GTPU_FLAGS => Some (match_set_tun_gtpu_flags m (be value 1))
  | MFF_TUN_GTPU_MSGTYPE => Some (match_set_tun_gtpu_msgtype m (be value 1))
  | MFF_METADATA => Some (match_set_metadata m (be value 8))
  | MFF_IN_PORT => Some (match_set_in_port m (be value 2))
  | MFF_IN_PORT_OXM =>
      let port := snd (ofputil_port_from_ofp11 (be value 4)) in Some (match_set_in_port m port)
  | MFF_ACTSET_OUTPUT =>
      let port := snd (ofputil_port_from_ofp11 (be value 4)) in Some (match_set_actset_output m port)
  | MFF_SKB_PRIORITY => Some (match_set_skb_priority m (be value 4))
  | MFF_PKT_MARK => Some (match_set_pkt_mark m (be value 4))
  | MFF_CT_STATE => Some (match_set_ct_state m (be value 4))
  | MFF_CT_ZONE => Some (match_set_ct_zone m (be value 2))
  | MFF_CT_MARK => Some (match_set_ct_mark m (be value 4))
  | MFF_CT_LABEL => Some (match_set_ct_label m (be value 16))
  | MFF_CT_NW_PROTO => Some (match_set_ct_nw_proto m (be value 1))
  | MFF_CT_NW_SRC => Some (match_set_ct_nw_src m (be value 4))
  | MFF_CT_NW_DST => Some (match_set_ct_nw_dst m (be value 4))
  | MFF_CT_IPV6_SRC => Some (match_set_ct_ipv6_src m (be value 16))
  | MFF_CT_IPV6_DST => Some (match_set_ct_ipv6_dst m (be value 16))
  | MFF_CT_TP_SRC => Some (match_set_ct_tp_src m (be value 2))
  | MFF_CT_TP_DST => Some (match_set_ct_tp_dst m (be value 2))
  | MFF_REG i => match_set_reg m i (be value 4)
  | MFF_XREG i => match_set_xreg m i (be value 8)
  | MFF_XXREG i => match_set_xxreg m i (be value 16)
  | _ => None
  end.

Definition mf_set_value (mf : mf_field_id) (value : mf_value) (m : match_) : option match_ :=
  match mf with
  | MFF_ETH_SRC => Some (match_set_dl_src m (be value 6))
  | MFF_ETH_DST => Some (match_set_dl_dst m (be value 6))
  | MFF_ETH_TYPE => Some (match_set_dl_type m (be value 2))
  | MFF_VLAN_TCI => Some (match_set_dl_tci m (be value 2))
  | MFF_DL_VLAN => Some (match_set_dl_vlan m (be value 2) 0)
  | MFF_VLAN_VID => Some (match_set_vlan_vid m (be value 2))
  | MFF_DL_VLAN_PCP | MFF_VLAN_PCP => Some (match_set_dl_vlan_pcp m (be value 1) 0)
  | MFF_MPLS_LABEL => Some (match_set_mpls_label m 0 (be value 4))
  | MFF_MPLS_TC => Some (match_set_mpls_tc m 0 (be value 1))
  | MFF_MPLS_BOS => Some (match_set_mpls_bos m 0 (be value 1))
  | MFF_MPLS_TTL => Some (match_set_mpls_ttl m 0 (be value 1))
  | MFF_IPV4_SRC => Some (match_set_nw_src m (be value 4))
  | MFF_IPV4_DST => Some (match_set_nw_dst m (be value 4))
  | MFF_IPV6_SRC => Some (match_set_ipv6_src m (be value 16))
  | MFF_IPV6_DST => Some (match_set_ipv6_dst m (be value 16))
  | MFF_IPV6_LABEL => Some (match_set_ipv6_label m (be value 4))
  | MFF_IP_PROTO => Some (match_set_nw_proto m (be value 1))
  | MFF_IP_DSCP => Some (match_set_nw_dscp m (be value 1))
  | MFF_IP_DSCP_SHIFTED => Some (match_set_nw_dscp m (u8 (Z.shiftl (be value 1) 2)))
  | MFF_IP_ECN => Some (match_set_nw_ecn m (be value 1))
  | MFF_IP_TTL => Some (match_set_nw_ttl m (be value 1))
  | MFF_IP_FRAG => Some (match_set_nw_frag m (be value 1))
  | MFF_ARP_OP => Some (match_set_nw_proto m (be value 2))
  | MFF_ARP_SPA => Some (match_set_nw_src m (be value 4))
  | MFF_ARP_TPA => Some (match_set_nw_dst m (be value 4))
  | MFF_ARP_SHA | MFF_ND_SLL => Some (match_set_arp_sha m (be value 6))
  | MFF_ARP_THA | MFF_ND_TLL => Some (match_set_arp_tha m (be value 6))
  | MFF_TCP_SRC | MFF_UDP_SRC | MFF_SCTP_SRC => Some (match_set_tp_src m (be value 2))
  | MFF_TCP_DST | MFF_UDP_DST | MFF_SCTP_DST => Some (match_set_tp_dst m (be value 2))
  | MFF_TCP_FLAGS => Some (match_set_tcp_flags m (be value 2))
  | MFF_ICMPV4_TYPE | MFF_ICMPV6_TYPE => Some (match_set_icmp_type m (be value 1))
  | MFF_ICMPV4_CODE | MFF_ICMPV6_CODE => Some (match_set_icmp_code m (be value 1))
  | MFF_ND_TARGET => Some (match_set_nd_target m (be value 16))
  | MFF_ND_RESERVED => Some (match_set_nd_reserved m (be value 4))
  | MFF_ND_OPTIONS_TYPE => Some (match_set_nd_options_type m (be value 1))
  | MFF_NSH_FLAGS => Some (MATCH_SET_FIELD_MASKED m nsh_flags (be value 1) UINT8_MAX)
  | MFF_NSH_TTL => Some (MATCH_SET_FIELD_MASKED m nsh_ttl (be value 1) UINT8_MAX)
  | MFF_NSH_MDTYPE => Some (MATCH_SET_FIELD_MASKED m nsh_mdtype (be value 1) UINT8_MAX)
  | MFF_NSH_NP => Some (MATCH_SET_FIELD_MASKED m nsh_np (be value 1) UINT8_MAX)
  | MFF_NSH_SPI =>
      Some (Match (fset (m_flow m) nsh_path_hdr (nsh_path_hdr_set_spi (fget (m_flow m) nsh_path_hdr) (be value 4)))
              (fset (m_wc m) nsh_path_hdr (Z.lor (fget (m_wc m) nsh_path_hdr) NSH_SPI_MASK)))
  | MFF_NSH_SI =>
      Some (Match (fset (m_flow m) nsh_path_hdr (nsh_path_hdr_set_si (fget (m_flow m) nsh_path_hdr) (be value 1)))
              (fset (m_wc m) nsh_path_hdr (Z.lor (fget (m_wc m) nsh_path_hdr) NSH_SI_MASK)))
  | MFF_NSH_C i => Some (MATCH_SET_FIELD_MASKED m (nsh_context i) (be value 4) UINT32_MAX)
  | _ => mf_set_value_metadata mf value m
  end.

Definition mf_set_wild_metadata (mf : mf_field_id) (m : match_) : option match_ :=
  match mf with
  | MFF_DP_HASH => Some (mset m dp_hash 0 0)
  | MFF_RECIRC_ID => Some (mset m recirc_id 0 0)
  | MFF_PACKET_TYPE => Some (mset m packet_type 0 0)
  | MFF_CONJ_ID => Some (mset m conj_id 0 0)
  | MFF_TUN_ID => Some (match_set_tun_id_masked m 0 0)
  | MFF_TUN_SRC => Some (match_set_tun_src_masked m 0 0)
  | MFF_TUN_DST => Some (match_set_tun_dst_masked m 0 0)
  | MFF_TUN_IPV6_SRC => Some (mset m tun_ipv6_src 0 0)
  | MFF_TUN_IPV6_DST => Some (mset m tun_ipv6_dst 0 0)
  | MFF_TUN_FLAGS => Some (match_set_tun_flags_masked m 0 0)
  | MFF_TUN_GBP_ID => Some (match_set_tun_gbp_id_masked m 0 0)
  | MFF_TUN_GBP_FLAGS => Some (match_set_tun_gbp_flags_masked m 0 0)
  | MFF_TUN_TOS => Some (match_set_tun_tos_masked m 0 0)
  | MFF_TUN_TTL => Some (match_set_tun_ttl_masked m 0 0)
  | MFF_TUN_ERSPAN_VER => Some (match_set_tun_erspan_ver_masked m 0 0)
  | MFF_TUN_ERSPAN_IDX => Some (match_set_tun_erspan_idx_masked m 0 0)
  | MFF_TUN_ERSPAN_DIR => Some (match_set_tun_erspan_dir_masked m 0 0)
  | MFF_TUN_ERSPAN_HWID => Some (match_set_tun_erspan_hwid_masked m 0 0)
  | MFF_TUN_GTPU_FLAGS => Some (match_set_tun_gtpu_flags_masked m 0 0)
  | MFF_TUN_GTPU_MSGTYPE => Some (match_set_tun_gtpu_msgtype_masked m 0 0)
  | MFF_METADATA => Some (match_set_metadata_masked m 0 0)
  | MFF_IN_PORT | MFF_IN_PORT_OXM => Some (mset m in_port 0 0)
  | MFF_ACTSET_OUTPUT => Some (mset m actset_output 0 0)
  | MFF_SKB_PRIORITY => Some (mset m skb_priority 0 0)
  | MFF_PKT_MARK => Some (mset m pkt_mark 0 0)
  | MFF_CT_STATE => Some (mset m ct_state 0 0)
  | MFF_CT_ZONE => Some (mset m ct_zone 0 0)
  | MFF_CT_MARK => Some (mset m ct_mark 0 0)
  | MFF_CT_LABEL => Some (mset m ct_label 0 0)
  | MFF_CT_NW_PROTO => Some (mset m ct_nw_proto 0 0)
  | MFF_CT_NW_SRC => Some (mset m ct_nw_src 0 0)
  | MFF_CT_NW_DST => Some (mset m ct_nw_dst 0 0)
  | MFF_CT_IPV6_SRC => Some (mset m ct_ipv6_src 0 0)
  | MFF_CT_IPV6_DST => Some (mset m ct_ipv6_dst 0 0)
  | MFF_CT_TP_SRC => Some (mset m ct_tp_src 0 0)
  | MFF_CT_TP_DST => Some (mset m ct_tp_dst 0 0)
  | MFF_REG i => match_set_reg_masked m i 0 0
  | MFF_XREG i => match_set_xreg_masked m i 0 0
  | MFF_XXREG i => match_set_xxreg_masked m i 0 0
  | _ => None
  end.

Definition mf_set_wild (mf : mf_field_id) (m : match_) : option match_ :=
  match mf with
  | MFF_ETH_SRC => Some (mset m dl_src 0 0)
  | MFF_ETH_DST => Some (mset m dl_dst 0 0)
  | MFF_ETH_TYPE => Some (mset m dl_type 0 0)
  | MFF_VLAN_TCI => Some (match_set_dl_tci_masked m 0 0)
  | MFF_DL_VLAN | MFF_VLAN_VID => Some (match_set_any_vid m)
  | MFF_DL_VLAN_PCP | MFF_VLAN_PCP => Some (match_set_any_pcp m)
  | MFF_MPLS_LABEL => Some (match_set_any_mpls_label m 0)
  | MFF_MPLS_TC => Some (match_set_any_mpls_tc m 0)
  | MFF_MPLS_BOS => Some (match_set_any_mpls_bos m 0)
  | MFF_MPLS_TTL => Some (match_set_any_mpls_ttl m 0)
  | MFF_IPV4_SRC | MFF_ARP_SPA => Some (match_set_nw_src_masked m 0 0)
  | MFF_IPV4_DST | MFF_ARP_TPA => Some (match_set_nw_dst_masked m 0 0)
  | MFF_IPV6_SRC => Some (mset m ipv6_src 0 0)
  | MFF_IPV6_DST => Some (mset m ipv6_dst 0 0)
  | MFF_IPV6_LABEL => Some (mset m ipv6_label 0 0)
  | MFF_IP_PROTO => Some (mset m nw_proto 0 0)
  | MFF_IP_DSCP | MFF_IP_DSCP_SHIFTED => Some (mset m nw_tos (Z.ldiff (fget (m_flow m) nw_tos) IP_DSCP_MASK) (Z.ldiff (fget (m_wc m) nw_tos) IP_DSCP_MASK))
  | MFF_IP_ECN => Some (mset m nw_tos (Z.ldiff (fget (m_flow m) nw_tos) IP_ECN_MASK) (Z.ldiff (fget (m_wc m) nw_tos) IP_ECN_MASK))
  | MFF_IP_TTL => Some (mset m nw_ttl 0 0)
  | MFF_IP_FRAG => Some (mset m nw_frag (Z.ldiff (fget (m_flow m) nw_frag) FLOW_NW_FRAG_MASK) (Z.ldiff (fget (m_wc m) nw_frag) FLOW_NW_FRAG_MASK))
  | MFF_ARP_OP => Some (mset m nw_proto 0 0)
  | MFF_ARP_SHA | MFF_ND_SLL => Some (mset m arp_sha 0 0)
  | MFF_ARP_THA | MFF_ND_TLL => Some (mset m arp_tha 0 0)
  | MFF_ND_RESERVED => Some (mset m igmp_group_ip4 0 0)
  | MFF_TCP_SRC | MFF_UDP_SRC | MFF_SCTP_SRC | MFF_ICMPV4_TYPE | MFF_ICMPV6_TYPE => Some (mset m tp_src 0 0)
  | MFF_TCP_DST | MFF_UDP_DST | MFF_SCTP_DST | MFF_ICMPV4_CODE | MFF_ICMPV6_CODE => Some (mset m tp_dst 0 0)
  | MFF_TCP_FLAGS | MFF_ND_OPTIONS_TYPE => Some (mset m tcp_flags 0 0)
  | MFF_ND_TARGET => Some (mset m nd_target 0 0)
  | MFF_NSH_FLAGS => Some (MATCH_SET_FIELD_MASKED m nsh_flags 0 0)
  | MFF_NSH_TTL => Some (MATCH_SET_FIELD_MASKED m nsh_ttl 0 0)
  | MFF_NSH_MDTYPE => Some (MATCH_SET_FIELD_MASKED m nsh_mdtype 0 0)
  | MFF_NSH_NP => Some (MATCH_SET_FIELD_MASKED m nsh_np 0 0)
  | MFF_NSH_SPI =>
      Some (Match (fset (m_flow m) nsh_path_hdr (nsh_path_hdr_set_spi (fget (m_flow m) nsh_path_hdr) 0))
              (fset (m_wc m) nsh_path_hdr (Z.ldiff (fget (m_wc m) nsh_path_hdr) NSH_SPI_MASK)))
  | MFF_NSH_SI =>
      Some (Match (fset (m_flow m) nsh_path_hdr (nsh_path_hdr_set_si (fget (m_flow m) nsh_path_hdr) 0))
              (fset (m_wc m) nsh_path_hdr (Z.ldiff (fget (m_wc m) nsh_path_hdr) NSH_SI_MASK)))
  | MFF_NSH_C i => Some (MATCH_SET_FIELD_MASKED m (nsh_context i) 0 0)
  | _ => mf_set_wild_metadata mf m
  end.

(** The fields that cannot be masked: [mf_set] returns without a change. *)
Definition mf_not_masked (mf : mf_field_id) : bool :=
  match mf with
  | MFF_CT_ZONE | MFF_CT_NW_PROTO | MFF_RECIRC_ID | MFF_PACKET_TYPE | MFF_CONJ_ID | MFF_IN_PORT
  | MFF_IN_PORT_OXM | MFF_ACTSET_OUTPUT | MFF_SKB_PRIORITY | MFF_ETH_TYPE | MFF_DL_VLAN
  | MFF_DL_VLAN_PCP | MFF_VLAN_PCP | MFF_MPLS_LABEL | MFF_MPLS_TC | MFF_MPLS_BOS | MFF_MPLS_TTL
  | MFF_IP_PROTO | MFF_IP_TTL | MFF_IP_DSCP | MFF_IP_DSCP_SHIFTED | MFF_IP_ECN | MFF_ARP_OP
  | MFF_ICMPV4_TYPE | MFF_ICMPV4_CODE | MFF_ICMPV6_TYPE | MFF_ICMPV6_CODE | MFF_ND_RESERVED
  | MFF_ND_OPTIONS_TYPE => true
  | _ => false
  end.

Definition mf_set_masked (mf : mf_field_id) (value mask : mf_value) (m : match_) : option match_ :=
  match mf with
  | MFF_DP_HASH => Some (match_set_dp_hash_masked m (be value 4) (be mask 4))
  | MFF_TUN_ID => Some (match_set_tun_id_masked m (be value 8) (be mask 8))
  | MFF_TUN_SRC => Some (match_set_tun_src_masked m (be value 4) (be mask 4))
  | MFF_TUN_DST => Some (match_set_tun_dst_masked m (be value 4) (be mask 4))
  | MFF_TUN_IPV6_SRC => Some (match_set_tun_ipv6_src_masked m (be value 16) (be mask 16))
  | MFF_TUN_IPV6_DST => Some (match_set_tun_ipv6_dst_masked m (be value 16) (be mask 16))
  | MFF_TUN_FLAGS => Some (match_set_tun_flags_masked m (be value 2) (be mask 2))
  | MFF_TUN_GBP_ID => Some (match_set_tun_gbp_id_masked m (be value 2) (be mask 2))
  | MFF_TUN_GBP_FLAGS => Some (match_set_tun_gbp_flags_masked m (be value 1) (be mask 1))
  | MFF_TUN_TTL => Some (match_set_tun_ttl_masked m (be value 1) (be mask 1))
  | MFF_TUN_TOS => Some (match_set_tun_tos_masked m (be value 1) (be mask 1))
  | MFF_TUN_ERSPAN_VER => Some (match_set_tun_erspan_ver_masked m (be value 1) (be mask 1))
  | MFF_TUN_ERSPAN_IDX => Some (match_set_tun_erspan_idx_masked m (be value 4) (be mask 4))
  | MFF_TUN_ERSPAN_DIR => Some (match_set_tun_erspan_dir_masked m (be value 1) (be mask 1))
  | MFF_TUN_ERSPAN_HWID => Some (match_set_tun_erspan_hwid_masked m (be value 1) (be mask 1))
  | MFF_TUN_GTPU_FLAGS => Some (match_set_tun_gtpu_flags_masked m (be value 1) (be mask 1))
  | MFF_TUN_GTPU_MSGTYPE => Some (match_set_tun_gtpu_msgtype_masked m (be value 1) (be mask 1))
  | MFF_METADATA => Some (match_set_metadata_masked m (be value 8) (be mask 8))
  | MFF_REG i => match_set_reg_masked m i (be value 4) (be mask 4)
  | MFF_XREG i => match_set_xreg_masked m i (be value 8) (be mask 8)
  | MFF_XXREG i => match_set_xxreg_masked m i (be value 16) (be mask 16)
  | MFF_PKT_MARK => Some (match_set_pkt_mark_masked m (be value 4) (be mask 4))
  | MFF_CT_STATE => Some (match_set_ct_state_masked m (be value 4) (be mask 4))
  | MFF_CT_MARK => Some (match_set_ct_mark_masked m (be value 4) (be mask 4))
  | MFF_CT_LABEL => Some (match_set_ct_label_masked m (be value 16) (be mask 16))
  | MFF_CT_NW_SRC => Some (match_set_ct_nw_src_masked m (be value 4) (be mask 4))
  | MFF_CT_NW_DST => Some (match_set_ct_nw_dst_masked m (be value 4) (be mask 4))
  | MFF_CT_IPV6_SRC => Some (match_set_ct_ipv6_src_masked m (be value 16) (be mask 16))
  | MFF_CT_IPV6_DST => Some (match_set_ct_ipv6_dst_masked m (be value 16) (be mask 16))
  | MFF_CT_TP_SRC => Some (match_set_ct_tp_src_masked m (be value 2) (be mask 2))
  | MFF_CT_TP_DST => Some (match_set_ct_tp_dst_masked m (be value 2) (be mask 2))
  | MFF_ETH_DST => Some (match_set_dl_dst_masked m (be value 6) (be mask 6))
  | MFF_ETH_SRC => Some (match_set_dl_src_masked m (be value 6) (be mask 6))
  | MFF_ARP_SHA | MFF_ND_SLL => Some (match_set_arp_sha_masked m (be value 6) (be mask 6))
  | MFF_ARP_THA | MFF_ND_TLL => Some (match_set_arp_tha_masked m (be value 6) (be mask 6))
  | MFF_VLAN_TCI => Some (match_set_dl_tci_masked m (be value 2) (be mask 2))
  | MFF_VLAN_VID => Some (match_set_vlan_vid_masked m (be value 2) (be mask 2))
  | MFF_IPV4_SRC => Some (match_set_nw_src_masked m (be value 4) (be mask 4))
  | MFF_IPV4_DST => Some (match_set_nw_dst_masked m (be value 4) (be mask 4))
  | MFF_IPV6_SRC => Some (match_set_ipv6_src_masked m (be value 16) (be mask 16))
  | MFF_IPV6_DST => Some (match_set_ipv6_dst_masked m (be value 16) (be mask 16))
  | MFF_IPV6_LABEL =>
      if Z.land (be mask 4) IPV6_LABEL_MASK =? IPV6_LABEL_MASK then mf_set_value mf value m
      else Some (match_set_ipv6_label_masked m (be value 4) (be mask 4))
  | MFF_ND_TARGET => Some (match_set_nd_target_masked m (be value 16) (be mask 16))
  | MFF_IP_FRAG => Some (match_set_nw_frag_masked m (be value 1) (Z.land (be mask 1) FLOW_NW_FRAG_MASK))
  | MFF_ARP_SPA => Some (match_set_nw_src_masked m (be value 4) (be mask 4))
  | MFF_ARP_TPA => Some (match_set_nw_dst_masked m (be value 4) (be mask 4))
  | MFF_TCP_SRC | MFF_UDP_SRC | MFF_SCTP_SRC => Some (match_set_tp_src_masked m (be value 2) (be mask 2))
  | MFF_TCP_DST | MFF_UDP_DST | MFF_SCTP_DST => Some (match_set_tp_dst_masked m (be value 2) (be mask 2))
  | MFF_TCP_FLAGS => Some (match_set_tcp_flags_masked m (be value 2) (be mask 2))
  | MFF_NSH_FLAGS => Some (MATCH_SET_FIELD_MASKED m nsh_flags (be value 1) (be mask 1))
  | MFF_NSH_TTL => Some (MATCH_SET_FIELD_MASKED m nsh_ttl (be value 1) (be mask 1))
  | MFF_NSH_MDTYPE => Some (MATCH_SET_FIELD_MASKED m nsh_mdtype (be value 1) (be mask 1))
  | MFF_NSH_NP => Some (MATCH_SET_FIELD_MASKED m nsh_np (be value 1) (be mask 1))
  | MFF_NSH_SPI =>
      Some (Match (fset (m_flow m) nsh_path_hdr
                     (nsh_path_hdr_set_spi (fget (m_flow m) nsh_path_hdr) (Z.land (be value 4) (be mask 4))))
              (fset (m_wc m) nsh_path_hdr (Z.lor (fget (m_wc m) nsh_path_hdr) (be mask 4))))
  | MFF_NSH_SI =>
      Some (Match (fset (m_flow m) nsh_path_hdr
                     (nsh_path_hdr_set_si (fget (m_flow m) nsh_path_hdr) (Z.land (be value 1) (be mask 1))))
              (fset (m_wc m) nsh_path_hdr (Z.lor (fget (m_wc m) nsh_path_hdr) (be mask 1))))
  | MFF_NSH_C i => Some (MATCH_SET_FIELD_MASKED m (nsh_context i) (be value 4) (be mask 4))
  | _ => Some m
  end.

(** [mask] is [None] for a null pointer; the set of usable protocols that the
    function also returns is left out. *)
Definition mf_set (mf : mf_field_id) (value : mf_value) (mask : option mf_value) (m : match_) : option match_ :=
  match mask with
  | None => mf_set_value mf value m
  | Some mask =>
      if is_all_ones mask (mf_n_bytes mf) then mf_set_value mf value m
      else if is_all_zeros mask (mf_n_bytes mf) then mf_set_wild mf m
      else if mf_not_masked mf then Some m
      else mf_set_masked mf value mask m
  end.

Create HintDb mset.
#[export] Hint Unfold
  match_set_dp_hash_masked match_set_dp_hash match_set_recirc_id match_set_conj_id
  match_set_reg_masked match_set_reg match_set_xreg_masked match_set_xreg match_set_xxreg_masked
  match_set_xxreg match_set_actset_output match_set_metadata_masked match_set_metadata
  match_set_tun_id_masked match_set_tun_id match_set_tun_src_masked match_set_tun_src
  match_set_tun_dst_masked match_set_tun_dst match_set_tun_ipv6_src match_set_tun_ipv6_src_masked
  match_set_tun_ipv6_dst match_set_tun_ipv6_dst_masked match_set_tun_ttl_masked match_set_tun_ttl
  match_set_tun_tos_masked match_set_tun_tos match_set_tun_flags_masked match_set_tun_flags
  match_set_tun_gbp_id_masked match_set_tun_gbp_id match_set_tun_gbp_flags_masked
  match_set_tun_gbp_flags match_set_tun_erspan_ver_masked match_set_tun_erspan_ver
  match_set_tun_erspan_idx_masked match_set_tun_erspan_idx match_set_tun_erspan_dir_masked
  match_set_tun_erspan_dir match_set_tun_erspan_hwid_masked match_set_tun_erspan_hwid
  match_set_tun_gtpu_flags_masked match_set_tun_gtpu_flags match_set_tun_gtpu_msgtype_masked
  match_set_tun_gtpu_msgtype match_set_in_port match_set_skb_priority match_set_pkt_mark_masked
  match_set_pkt_mark match_set_ct_state_masked match_set_ct_state match_set_ct_zone_masked
  match_set_ct_zone match_set_ct_mark_masked match_set_ct_mark match_set_ct_label_masked
  match_set_ct_label match_set_ct_nw_src match_set_ct_nw_src_masked match_set_ct_nw_dst
  match_set_ct_nw_dst_masked match_set_ct_nw_proto match_set_ct_tp_src_masked match_set_ct_tp_src
  match_set_ct_tp_dst_masked match_set_ct_tp_dst match_set_ct_ipv6_src match_set_ct_ipv6_src_masked
  match_set_ct_ipv6_dst match_set_ct_ipv6_dst_masked match_set_packet_type
  match_set_default_packet_type match_set_dl_type match_set_dl_src match_set_dl_src_masked
  match_set_dl_dst match_set_dl_dst_masked match_set_dl_tci_masked match_set_dl_tci
  match_set_any_vid match_set_dl_vlan match_set_vlan_vid_masked match_set_vlan_vid match_set_any_pcp
  match_set_dl_vlan_pcp match_set_any_mpls_label match_set_mpls_label match_set_any_mpls_tc
  match_set_mpls_tc match_set_any_mpls_bos match_set_mpls_bos match_set_any_mpls_ttl
  match_set_mpls_ttl match_set_tp_src_masked match_set_tp_src match_set_tp_dst_masked
  match_set_tp_dst match_set_tcp_flags_masked match_set_tcp_flags match_set_nw_proto
  match_set_nw_src match_set_nw_src_masked match_set_nw_dst match_set_nw_dst_masked
  match_set_nw_dscp match_set_nw_ecn match_set_nw_ttl match_set_nw_frag match_set_nw_frag_masked
  match_set_icmp_type match_set_icmp_code match_set_arp_sha match_set_arp_sha_masked
  match_set_arp_tha match_set_arp_tha_masked match_set_ipv6_src match_set_ipv6_src_masked
  match_set_ipv6_dst match_set_ipv6_dst_masked match_set_ipv6_label match_set_ipv6_label_masked
  match_set_nd_target match_set_nd_target_masked match_set_nd_reserved match_set_nd_options_type
  MATCH_SET_FIELD_MASKED : mset.
