(* ===== verification/MetaProps.v ===== *)
(** * Correctness of the field accessors (lib/meta-flow.c)

    Storing a valid value and reading it back, the storage of a field, and the
    wildcard tests. *)

From S2P Require Import Prelude Util Flowmap Hash Miniflow MetaFlow Trie FlowBits FlowFields MetaFields.
From stdpp Require Import prelude list.
From Stdlib Require Import ZArith Lia.
Open Scope Z_scope.
Open Scope ovs_scope.

(** ** Bits of the masks *)

Lemma run_testbit (lo n i : Z) :
  0 <= lo -> 0 <= n -> 0 <= i -> Z.testbit (Z.shiftl (Z.ones n) lo) i = (lo <=? i) && (i <? lo + n).
Proof.
  intros Hlo Hn Hi. rewrite Z.shiftl_spec by done. destruct (Z.leb_spec lo i).
  - rewrite testbit_ones by lia. zcmp; done.
  - by rewrite Z.testbit_neg_r by lia.
Qed.

Ltac run lo n := intros; match goal with |- Z.testbit ?m _ = _ => change m with (Z.shiftl (Z.ones n) lo) end;
  rewrite run_testbit by lia; reflexivity.

Lemma VLAN_VID_MASK_bit (i : Z) : 0 <= i -> Z.testbit VLAN_VID_MASK i = (0 <=? i) && (i <? 12).
Proof. run 0 12. Qed.
Lemma VLAN_CFI_bit (i : Z) : 0 <= i -> Z.testbit VLAN_CFI i = (12 <=? i) && (i <? 13).
Proof. run 12 1. Qed.
Lemma VLAN_PCP_MASK_bit (i : Z) : 0 <= i -> Z.testbit VLAN_PCP_MASK i = (13 <=? i) && (i <? 16).
Proof. run 13 3. Qed.
Lemma MPLS_TTL_MASK_bit (i : Z) : 0 <= i -> Z.testbit MPLS_TTL_MASK i = (0 <=? i) && (i <? 8).
Proof. run 0 8. Qed.
Lemma MPLS_BOS_MASK_bit (i : Z) : 0 <= i -> Z.testbit MPLS_BOS_MASK i = (8 <=? i) && (i <? 9).
Proof. run 8 1. Qed.
Lemma MPLS_TC_MASK_bit (i : Z) : 0 <= i -> Z.testbit MPLS_TC_MASK i = (9 <=? i) && (i <? 12).
Proof. run 9 3. Qed.
Lemma MPLS_LABEL_MASK_bit (i : Z) : 0 <= i -> Z.testbit MPLS_LABEL_MASK i = (12 <=? i) && (i <? 32).
Proof. run 12 20. Qed.
Lemma IP_ECN_MASK_bit (i : Z) : 0 <= i -> Z.testbit IP_ECN_MASK i = (0 <=? i) && (i <? 2).
Proof. run 0 2. Qed.
Lemma IP_DSCP_MASK_bit (i : Z) : 0 <= i -> Z.testbit IP_DSCP_MASK i = (2 <=? i) && (i <? 8).
Proof. run 2 6. Qed.
Lemma IPV6_LABEL_MASK_bit (i : Z) : 0 <= i -> Z.testbit IPV6_LABEL_MASK i = (0 <=? i) && (i <? 20).
Proof. run 0 20. Qed.
Lemma FLOW_NW_FRAG_MASK_bit (i : Z) : 0 <= i -> Z.testbit FLOW_NW_FRAG_MASK i = (0 <=? i) && (i <? 2).
Proof. run 0 2. Qed.
Lemma FLOW_TNL_PUB_F_MASK_bit (i : Z) : 0 <= i -> Z.testbit FLOW_TNL_PUB_F_MASK i = (0 <=? i) && (i <? 1).
Proof. run 0 1. Qed.
Lemma NSH_SPI_MASK_bit (i : Z) : 0 <= i -> Z.testbit NSH_SPI_MASK i = (8 <=? i) && (i <? 32).
Proof. run 8 24. Qed.
Lemma NSH_SI_MASK_bit (i : Z) : 0 <= i -> Z.testbit NSH_SI_MASK i = (0 <=? i) && (i <? 8).
Proof. run 0 8. Qed.
Lemma low3_bit (i : Z) : 0 <= i -> Z.testbit 0x07 i = (0 <=? i) && (i <? 3).
Proof. run 0 3. Qed.

#[export] Hint Rewrite VLAN_VID_MASK_bit VLAN_CFI_bit VLAN_PCP_MASK_bit MPLS_TTL_MASK_bit MPLS_BOS_MASK_bit
  MPLS_TC_MASK_bit MPLS_LABEL_MASK_bit IP_ECN_MASK_bit IP_DSCP_MASK_bit IPV6_LABEL_MASK_bit
  FLOW_NW_FRAG_MASK_bit FLOW_TNL_PUB_F_MASK_bit NSH_SPI_MASK_bit NSH_SI_MASK_bit low3_bit using lia : bits.

(** ** Validity as a width *)

Lemma ldiff_run_width (x n : Z) : 0 <= n -> 0 <= x -> Z.ldiff x (Z.ones n) = 0 -> in_width n x.
Proof.
  intros Hn Hx H. apply in_width_bits; [done|]. split; [done|]. intros i Hi.
  assert (Z.testbit (Z.ldiff x (Z.ones n)) i = false) as E by (rewrite H; apply Z.bits_0).
  rewrite Z.ldiff_spec, testbit_ones in E by lia. destruct (Z.ltb_spec i n); [lia|].
  by rewrite andb_true_r in E.
Qed.

Lemma land_run_width (x m n w : Z) :
  0 <= n <= w -> in_width w x -> m = Z.shiftl (Z.ones (w - n)) n -> Z.land x m = 0 -> in_width n x.
Proof.
  intros Hn Hx -> H. apply in_width_bits; [lia|]. split; [apply Hx|]. intros i Hi.
  destruct (Z.lt_ge_cases i w) as [Hw|Hw]; [|by rewrite (in_width_high w)].
  assert (Z.testbit (Z.land x (Z.shiftl (Z.ones (w - n)) n)) i = false) as E by (rewrite H; apply Z.bits_0).
  rewrite Z.land_spec, run_testbit in E by lia. destruct (Z.leb_spec n i), (Z.ltb_spec i (n + (w - n))); try lia.
  by rewrite andb_true_r in E.
Qed.

(** [zfield x w]: an equation of words in which [x] has [w] bits. *)
Ltac zhigh :=
  repeat match goal with
  | H : in_width ?w ?x |- context [Z.testbit ?x ?i] => rewrite (in_width_high w x i H) by lia
  end.

Ltac zfield :=
  apply Z.bits_inj'; intros ?i ?; do 3 (autorewrite with bits; zcmp; zbits_simpl); zhigh;
  rewrite ?andb_true_r, ?andb_false_r, ?andb_true_l, ?andb_false_l,
    ?orb_true_r, ?orb_false_r, ?orb_true_l, ?orb_false_l; cbn [negb andb orb]; try reflexivity;
  try (f_equal; lia).

(** ** Subfields *)

Lemma mpls_bos_rt (t x : Z) : in_width 1 x -> mpls_lse_to_bos (u32 (set_mpls_lse_bos t x)) = x.
Proof.
  intros Hx. unfold mpls_lse_to_bos, set_mpls_lse_bos, MPLS_BOS_SHIFT.
  replace (Z.land (u32 (Z.lor (Z.ldiff t MPLS_BOS_MASK) (Z.land (Z.shiftl x 8) MPLS_BOS_MASK))) MPLS_BOS_MASK)
    with (Z.shiftl x 8) by zfield.
  rewrite Z.shiftl_mul_pow2 by lia. unfold in_width in Hx. zcmp; done.
Qed.

Lemma nsh_spi_rt (t x : Z) : in_width 24 x -> nsh_path_hdr_to_spi (u32 (nsh_path_hdr_set_spi t x)) = x.
Proof. intros Hx. unfold nsh_path_hdr_to_spi, nsh_path_hdr_set_spi, NSH_SPI_SHIFT. zfield. Qed.

(** The two halves of a word. *)
Lemma halves (w x : Z) :
  0 <= w -> Z.lor (Z.shiftl (wrap w (Z.shiftr x w)) w) (wrap w x) = wrap (2 * w) x.
Proof. intros Hw. zfield. Qed.

(** ** Reading what was stored *)

(** The stores that a read does not give back: the read of the ND option type
    takes the high byte of [tcp_flags] and the store writes the low one, and
    the read of an all-ones SPI extends it to 32 ones. *)
Definition mf_lossy (mf : mf_field_id) (value : mf_value) : bool :=
  match mf with
  | MFF_ND_OPTIONS_TYPE => negb (be value 1 =? 0)
  | MFF_NSH_SPI => be value 4 =? 0xffffff
  | _ => false
  end.

Ltac mbin :=
  unfold mb_in, FLOW_U64S;
  first [cbn [mb_ofs mb_size regs nsh_context vlan_tpid vlan_tci mpls_lse]; lia | vm_compute; lia].

Ltac mbdisj :=
  unfold mb_disj;
  first [cbn [mb_ofs mb_size regs nsh_context vlan_tpid vlan_tci mpls_lse]; lia | vm_compute; lia].

Lemma ofp11_roundtrip (x : Z) :
  in_width 32 x -> fst (ofputil_port_from_ofp11 x) = true ->
  ofputil_port_to_ofp11 (u32 (snd (ofputil_port_from_ofp11 x))) = x.
Proof.
  unfold ofputil_port_from_ofp11, ofputil_port_to_ofp11, in_width, OFPP11_OFFSET, OFPP11_MAX, OFPP_MAX, wrap.
  intros Hx. destruct (Z.ltb_spec x 65280).
  - intros _. cbn [snd]. rewrite !(Z.mod_small x) by lia. zcmp; done.
  - destruct (Z.leb_spec 4294967040 x); [|done]. intros _. cbn [snd].
    rewrite !(Z.mod_small (x - (4294967040 - 65280))) by lia. zcmp.
Qed.

(** The registers of an extended register after a store. *)
Lemma xreg_regs (f : flow) (i : nat) (x : Z) :
  flow_wf f -> (i < FLOW_N_XREGS)%nat ->
  fget (flow_set_xreg f i x) (regs (i * 2)) = u32 (Z.shiftr x 32) /\
  fget (flow_set_xreg f i x) (regs (i * 2 + 1)) = u32 x.
Proof.
  intros Hf Hi. unfold FLOW_N_XREGS in Hi. pose proof (fset_wf f (regs (i * 2)) (Z.shiftr x 32) Hf) as Hf'.
  unfold flow_set_xreg. rewrite fget_fset, fget_fset_other, fget_fset by (apply Hf || apply Hf' || mbin || mbdisj). done.
Qed.

Lemma xreg_roundtrip (f : flow) (i : nat) (x : Z) :
  flow_wf f -> (i < FLOW_N_XREGS)%nat -> in_width 64 x -> flow_get_xreg (flow_set_xreg f i x) i = x.
Proof.
  intros Hf Hi Hx. destruct (xreg_regs f i x Hf Hi) as [E0 E1]. unfold flow_get_xreg. rewrite E0, E1.
  rewrite (halves 32) by done. by apply wrap_small.
Qed.

Lemma xxreg_regs (f : flow) (i : nat) (x : Z) :
  flow_wf f -> (i < FLOW_N_XXREGS)%nat ->
  fget (flow_set_xxreg f i x) (regs (i * 4)) = u32 (Z.shiftr (Z.shiftr x 64) 32) /\
  fget (flow_set_xxreg f i x) (regs (i * 4 + 1)) = u32 (Z.shiftr x 64) /\
  fget (flow_set_xxreg f i x) (regs (i * 4 + 2)) = u32 (Z.shiftr (u64 x) 32) /\
  fget (flow_set_xxreg f i x) (regs (i * 4 + 3)) = u32 (u64 x).
Proof.
  intros Hf Hi. unfold FLOW_N_XXREGS in Hi. unfold flow_set_xxreg. cbn zeta.
  set (f1 := fset f _ _). set (f2 := fset f1 _ _). set (f3 := fset f2 _ _).
  assert (flow_wf f1) as H1 by (by apply fset_wf). assert (flow_wf f2) as H2 by (by apply fset_wf).
  assert (flow_wf f3) as H3 by (by apply fset_wf).
  rewrite !(fget_fset_other f3), (fget_fset f3) by (apply H3 || mbdisj || mbin).
  unfold f3. rewrite !(fget_fset_other f2), (fget_fset f2) by (apply H2 || mbdisj || mbin).
  unfold f2. rewrite !(fget_fset_other f1), (fget_fset f1) by (apply H1 || mbdisj || mbin).
  unfold f1. rewrite (fget_fset f) by (apply Hf || mbin). done.
Qed.

Lemma xxreg_roundtrip (f : flow) (i : nat) (x : Z) :
  flow_wf f -> (i < FLOW_N_XXREGS)%nat -> in_width 128 x -> flow_get_xxreg (flow_set_xxreg f i x) i = x.
Proof.
  intros Hf Hi Hx. destruct (xxreg_regs f i x Hf Hi) as (E0 & E1 & E2 & E3). unfold flow_get_xxreg. cbn zeta.
  rewrite E0, E1, E2, E3, !(halves 32) by done. change (2 * 32) with 64.
  rewrite (wrap_small 64 (u64 x)) by (by apply wrap_width). rewrite (halves 64) by done. by apply wrap_small.
Qed.

Lemma fix_tpid_tci (f : flow) : flow_wf f -> fget (flow_fix_vlan_tpid f) (vlan_tci 0) = fget f (vlan_tci 0).
Proof.
  intros Hf. unfold flow_fix_vlan_tpid. case_match; [|done].
  apply fget_fset_other; [mbin|apply Hf|mbdisj].
Qed.

(** The bits of a valid value. *)
Definition mf_valid_bits (mf : mf_field_id) : Z :=
  match mf with
  | MFF_TUN_FLAGS | MFF_MPLS_BOS => 1
  | MFF_IP_ECN | MFF_IP_FRAG => 2
  | MFF_DL_VLAN_PCP | MFF_VLAN_PCP | MFF_MPLS_TC => 3
  | MFF_IP_DSCP_SHIFTED => 6
  | MFF_CT_STATE | MFF_ARP_OP => 8
  | MFF_DL_VLAN | MFF_TCP_FLAGS => 12
  | MFF_VLAN_VID => 13
  | MFF_MPLS_LABEL | MFF_IPV6_LABEL => 20
  | MFF_NSH_SPI => 24
  | _ => 8 * Z.of_nat (mf_n_bytes mf)
  end.

Lemma valid_width (mf : mf_field_id) (value : mf_value) :
  Forall is_byte value -> mf_is_value_valid mf value = true ->
  in_width (mf_valid_bits mf) (be value (mf_n_bytes mf)).
Proof.
  intros Hv. assert (forall n, in_width (8 * Z.of_nat n) (be value n)) as Hw by (intros; by apply be_width).
  destruct mf; try (intros _; apply Hw); cbn [mf_is_value_valid mf_valid_bits mf_n_bytes]; intros H%Z.eqb_eq.
  all: try (apply ldiff_run_width; [lia|apply Hw|exact H]).
  - apply (land_run_width _ (Z.lor VLAN_CFI VLAN_PCP_MASK) _ 16); [lia|apply (Hw 2%nat)|reflexivity|done].
  - apply (land_run_width _ VLAN_PCP_MASK _ 16); [lia|apply (Hw 2%nat)|reflexivity|done].
  - apply (land_run_width _ 0xff00 _ 16); [lia|apply (Hw 2%nat)|reflexivity|done].
  - apply (land_run_width _ 0xFF000000 _ 32); [lia|apply (Hw 4%nat)|reflexivity|done].
Qed.

Lemma dscp_low (x : Z) : in_width 8 x -> Z.ldiff x IP_DSCP_MASK = 0 -> Z.land x IP_DSCP_MASK = x.
Proof.
  intros Hx H. apply Z.bits_inj'. intros i Hi.
  assert (Z.testbit (Z.ldiff x IP_DSCP_MASK) i = false) as E by (rewrite H; apply Z.bits_0).
  revert E. rewrite Z.ldiff_spec, Z.land_spec. destruct (Z.testbit x i), (Z.testbit IP_DSCP_MASK i); done.
Qed.

(** [mf_part mb g s]: [g] reads from a member what [s] put there. *)
Lemma get_set_part (f : flow) (mb : member) (tmp : mf_value) (n : nat) (g s : Z -> Z) (x : Z) :
  value_wf tmp -> flow_wf f -> (n <= SIZEOF_MF_VALUE)%nat -> mb_in mb ->
  g (wrap (mb_bits mb) (s (fget f mb))) = x -> in_width (8 * Z.of_nat n) x ->
  be (put tmp n (g (fget (fset f mb (s (fget f mb))) mb))) n = x.
Proof.
  intros [Hl _] [Hf _] Hn Hm Hg Hx. rewrite be_put, fget_fset by (done || lia). rewrite Hg. by apply wrap_small.
Qed.

(** Two stores of one member. *)
Lemma fset_fset (f : flow) (mb : member) (x y : Z) : flow_wf f -> mb_in mb -> fset (fset f mb x) mb y = fset f mb y.
Proof.
  intros Hf Hm. apply fbit_ext; [eauto with ovs..|]. intros k.
  rewrite !fset_fbit by (done || apply Hf || (rewrite length_fset; apply Hf)). by destruct (mb_has mb k).
Qed.

(** [f->mb = s1(f->mb); f->mb = s2(f->mb)] *)
Lemma fset_twice (f : flow) (mb : member) (s1 : Z) (s2 : Z -> Z) :
  flow_wf f -> mb_in mb ->
  fset (fset f mb s1) mb (s2 (fget (fset f mb s1) mb)) = fset f mb (s2 (wrap (mb_bits mb) s1)).
Proof. intros Hf Hm. rewrite fset_fset, fget_fset by (done || apply Hf). done. Qed.

(** The stores of a VLAN header, as one store of the TCI. *)
Definition dl_vlan_tci (vid t : Z) : Z :=
  if vid =? OFP10_VLAN_NONE then 0
  else Z.lor (u16 (Z.ldiff t VLAN_VID_MASK)) (Z.lor VLAN_CFI (Z.land vid VLAN_VID_MASK)).

Definition vlan_vid_tci (vid t : Z) : Z :=
  Z.lor (u16 (Z.ldiff t (Z.lor VLAN_VID_MASK VLAN_CFI))) (Z.land vid (Z.lor VLAN_VID_MASK VLAN_CFI)).

Definition vlan_pcp_tci (pcp t : Z) : Z :=
  Z.lor (u16 (Z.ldiff t VLAN_PCP_MASK)) (Z.lor (Z.shiftl (Z.land pcp 0x07) VLAN_PCP_SHIFT) VLAN_CFI).

Definition tos_store (mask x t : Z) : Z := Z.lor (u8 (Z.ldiff t mask)) x.

Lemma set_dl_vlan_tci (f : flow) (vid : Z) :
  flow_wf f -> flow_set_dl_vlan f vid 0 = fset f (vlan_tci 0) (dl_vlan_tci vid (fget f (vlan_tci 0))).
Proof.
  intros Hf. unfold flow_set_dl_vlan, dl_vlan_tci. case_match; [done|].
  exact (fset_twice f (vlan_tci 0) _ (fun t => Z.lor t _) Hf ltac:(mbin)).
Qed.

Lemma set_vlan_vid_tci (f : flow) (vid : Z) :
  flow_wf f -> flow_set_vlan_vid f vid = fset f (vlan_tci 0) (vlan_vid_tci vid (fget f (vlan_tci 0))).
Proof. intros Hf. exact (fset_twice f (vlan_tci 0) _ (fun t => Z.lor t _) Hf ltac:(mbin)). Qed.

Lemma set_vlan_pcp_tci (f : flow) (pcp : Z) :
  flow_wf f -> flow_set_vlan_pcp f pcp 0 = fset f (vlan_tci 0) (vlan_pcp_tci pcp (fget f (vlan_tci 0))).
Proof. intros Hf. exact (fset_twice f (vlan_tci 0) _ (fun t => Z.lor t _) Hf ltac:(mbin)). Qed.

Lemma tos_store_eq (f : flow) (mask x : Z) :
  flow_wf f ->
  (let f := fset f nw_tos (Z.ldiff (fget f nw_tos) mask) in fset f nw_tos (Z.lor (fget f nw_tos) x)) =
  fset f nw_tos (tos_store mask x (fget f nw_tos)).
Proof. intros Hf. exact (fset_twice f nw_tos _ (fun t => Z.lor t x) Hf ltac:(mbin)). Qed.

(** A part of a member that is stored with [s] and read with [g]. *)
Ltac part mb g s :=
  apply (get_set_part _ mb _ _ g s); [done|done|unfold SIZEOF_MF_VALUE; lia|mbin| |assumption];
  match goal with |- context [wrap (mb_bits ?m)] => let b := eval cbv in (mb_bits m) in change (mb_bits m) with b end.

(** The fields that are a part of a member. *)
Lemma roundtrip_parts (mf : mf_field_id) (value tmp : mf_value) (f : flow) :
  flow_wf f -> value_wf tmp -> Forall is_byte value ->
  mf_is_value_valid mf value = true ->
  in_width (mf_valid_bits mf) (be value (mf_n_bytes mf)) ->
  match mf with
  | MFF_TUN_FLAGS | MFF_DL_VLAN | MFF_VLAN_VID | MFF_DL_VLAN_PCP | MFF_VLAN_PCP
  | MFF_MPLS_LABEL | MFF_MPLS_TC | MFF_MPLS_BOS | MFF_MPLS_TTL
  | MFF_IP_DSCP | MFF_IP_DSCP_SHIFTED | MFF_IP_ECN | MFF_NSH_SI => True
  | _ => False
  end ->
  be (mf_get_value mf (mf_set_flow_value mf value f) tmp) (mf_n_bytes mf) = be value (mf_n_bytes mf).
Proof.
  intros Hf Ht Hv Hok Hx Hmf. pose proof (be_width value (mf_n_bytes mf) Hv) as Hw.
  destruct mf; try done; clear Hmf;
    cbn [mf_get_value mf_get_metadata mf_set_flow_value mf_set_flow_metadata mf_n_bytes mf_valid_bits] in *.
  - part tun_flags (fun t => Z.land t FLOW_TNL_PUB_F_MASK) (fun t => Z.lor (Z.ldiff t FLOW_TNL_PUB_F_MASK) (be value 2)).
    zfield.
  - rewrite set_dl_vlan_tci, fix_tpid_tci by eauto with ovs.
    part (vlan_tci 0) (fun t => Z.land t VLAN_VID_MASK) (dl_vlan_tci (be value 2)).
    unfold dl_vlan_tci. destruct (Z.eqb_spec (be value 2) OFP10_VLAN_NONE) as [E|_]; [|zfield].
    unfold in_width, OFP10_VLAN_NONE in *. lia.
  - rewrite set_vlan_vid_tci, fix_tpid_tci by eauto with ovs.
    part (vlan_tci 0) (fun t => Z.land t (Z.lor VLAN_VID_MASK VLAN_CFI)) (vlan_vid_tci (be value 2)). unfold vlan_vid_tci. zfield.
  - rewrite set_vlan_pcp_tci, fix_tpid_tci by eauto with ovs.
    part (vlan_tci 0) vlan_tci_to_pcp (vlan_pcp_tci (be value 1)). unfold vlan_tci_to_pcp, vlan_pcp_tci, VLAN_PCP_SHIFT. zfield.
  - rewrite set_vlan_pcp_tci, fix_tpid_tci by eauto with ovs.
    part (vlan_tci 0) vlan_tci_to_pcp (vlan_pcp_tci (be value 1)). unfold vlan_tci_to_pcp, vlan_pcp_tci, VLAN_PCP_SHIFT. zfield.
  - part (mpls_lse 0) mpls_lse_to_label (fun t => set_mpls_lse_label t (be value 4)).
    unfold mpls_lse_to_label, set_mpls_lse_label, MPLS_LABEL_SHIFT. zfield.
  - part (mpls_lse 0) mpls_lse_to_tc (fun t => set_mpls_lse_tc t (be value 1)).
    unfold mpls_lse_to_tc, set_mpls_lse_tc, MPLS_TC_SHIFT. zfield.
  - part (mpls_lse 0) mpls_lse_to_bos (fun t => set_mpls_lse_bos t (be value 1)).
    by apply mpls_bos_rt.
  - part (mpls_lse 0) mpls_lse_to_ttl (fun t => set_mpls_lse_ttl t (be value 1)).
    unfold mpls_lse_to_ttl, set_mpls_lse_ttl, MPLS_TTL_SHIFT. zfield.
  - rewrite tos_store_eq by done. apply Z.eqb_eq, dscp_low in Hok; [|done].
    part nw_tos (fun t => Z.land t IP_DSCP_MASK) (tos_store IP_DSCP_MASK (Z.land (be value 1) IP_DSCP_MASK)).
    unfold tos_store. rewrite Hok. rewrite <- Hok at 2. zfield.
  - rewrite tos_store_eq by done.
    part nw_tos (fun t => Z.shiftr t 2) (tos_store IP_DSCP_MASK (Z.shiftl (be value 1) 2)). unfold tos_store. zfield.
  - rewrite tos_store_eq by done.
    part nw_tos (fun t => Z.land t IP_ECN_MASK) (tos_store IP_ECN_MASK (Z.land (be value 1) IP_ECN_MASK)). unfold tos_store. zfield.
  - part nsh_path_hdr nsh_path_hdr_to_si (fun t => nsh_path_hdr_set_si t (be value 1)).
    unfold nsh_path_hdr_to_si, nsh_path_hdr_set_si, NSH_SI_SHIFT. zfield.
Qed.

Lemma put2_high (value : mf_value) (x : Z) : (2 <= length value)%nat -> be (put value 2 x) 1 = u8 (Z.shiftr x 8).
Proof.
  intros H. cbn [be put]. rewrite nth_insert_ne, nth_insert_eq by (rewrite ?length_insert; lia). lia.
Qed.

Lemma spi_roundtrip (f : flow) (tmp : mf_value) (x : Z) :
  flow_wf f -> value_wf tmp -> in_width 24 x -> x <> 0xffffff ->
  be (mf_get_value MFF_NSH_SPI (fset f nsh_path_hdr (nsh_path_hdr_set_spi (fget f nsh_path_hdr) x)) tmp) 4 = x.
Proof.
  intros Hf Ht Hx Hn. cbn [mf_get_value]. assert (in_width (8 * Z.of_nat 4) x) as Hw by (eapply in_width_mono; [|exact Hx]; done).
  assert (be (put tmp 4 (nsh_path_hdr_to_spi (fget (fset f nsh_path_hdr
    (nsh_path_hdr_set_spi (fget f nsh_path_hdr) x)) nsh_path_hdr))) 4 = x) as E.
  { part nsh_path_hdr nsh_path_hdr_to_spi (fun t => nsh_path_hdr_set_spi t x). by apply nsh_spi_rt. }
  cbn zeta. rewrite E. destruct (Z.eqb_spec x (Z.shiftr NSH_SPI_MASK NSH_SPI_SHIFT)); [done|exact E].
Qed.

Lemma set_get_core (mf : mf_field_id) (value tmp : mf_value) (f : flow) :
  mf_id_ok mf = true -> flow_wf f -> value_wf value -> value_wf tmp ->
  mf_is_value_valid mf value = true -> mf_lossy mf value = false ->
  be (mf_get_value mf (mf_set_flow_value mf value f) tmp) (mf_n_bytes mf) = be value (mf_n_bytes mf).
Proof.
  intros Hi Hf [Hl Hv] Ht Hok Hlo. pose proof (valid_width mf value Hv Hok) as Hx.
  assert (forall n, in_width (8 * Z.of_nat n) (be value n)) as Hw by (intros; by apply be_width).
  pose proof (Hw 4%nat) as Hw4. pose proof (proj1 Ht) as Hlt. unfold SIZEOF_MF_VALUE in Hlt.
  destruct mf; first [apply roundtrip_parts; done|idtac];
    cbn [mf_get_value mf_get_metadata mf_set_flow_value mf_set_flow_metadata mf_n_bytes mf_valid_bits] in *.
  all: try (apply get_set_member; [done|done|unfold SIZEOF_MF_VALUE; lia|mbin
    |eapply in_width_mono; [|exact Hx]; by vm_compute|apply Hw]).
  - part in_port ofputil_port_to_ofp11 (fun _ : Z => snd (ofputil_port_from_ofp11 (be value 4))). by apply ofp11_roundtrip.
  - part actset_output ofputil_port_to_ofp11 (fun _ : Z => snd (ofputil_port_from_ofp11 (be value 4))). by apply ofp11_roundtrip.
  - apply Nat.ltb_lt in Hi. unfold FLOW_N_REGS in Hi. apply get_set_member; [done|done|unfold SIZEOF_MF_VALUE; lia|mbin|apply Hw..].
  - apply Nat.ltb_lt in Hi. rewrite be_put, xreg_roundtrip by (apply (Hw 8%nat) || done || lia). apply wrap_small, Hw.
  - apply Nat.ltb_lt in Hi. rewrite be_put, xxreg_roundtrip by (apply (Hw 16%nat) || done || lia). apply wrap_small, Hw.
  - rewrite fix_tpid_tci by eauto with ovs. apply get_set_member; [done|done|unfold SIZEOF_MF_VALUE; lia|mbin|apply Hw..].
  - part ipv6_label (fun t : Z => t) (fun _ : Z => Z.land (be value 4) IPV6_LABEL_MASK). zfield.
  - pose proof (Hw 1%nat). part nw_frag (fun t : Z => t) (fun _ : Z => Z.land (be value 1) FLOW_NW_FRAG_MASK). zfield.
  - cbn [mf_lossy] in Hlo. apply negb_false_iff, Z.eqb_eq in Hlo. rewrite Hlo, fget_fset, put2_high by (mbin || apply Hf || lia). done.
  - apply spi_roundtrip; [done..|]. by apply Z.eqb_neq.
  - apply (proj1 (Nat.ltb_lt i 4)) in Hi. apply get_set_member; [done|done|unfold SIZEOF_MF_VALUE; lia|mbin|apply Hw..].
Qed.

(** ** The storage of a field *)

Definition mf_storage (mf : mf_field_id) : list member :=
  match mf with
  | MFF_DP_HASH => [dp_hash]
  | MFF_RECIRC_ID => [recirc_id]
  | MFF_PACKET_TYPE => [packet_type]
  | MFF_CONJ_ID => [conj_id]
  | MFF_TUN_ID => [tun_id]
  | MFF_TUN_SRC => [tun_ip_src]
  | MFF_TUN_DST => [tun_ip_dst]
  | MFF_TUN_IPV6_SRC => [tun_ipv6_src]
  | MFF_TUN_IPV6_DST => [tun_ipv6_dst]
  | MFF_TUN_FLAGS => [tun_flags]
  | MFF_TUN_GBP_ID => [tun_gbp_id]
  | MFF_TUN_GBP_FLAGS => [tun_gbp_flags]
  | MFF_TUN_TOS => [tun_ip_tos]
  | MFF_TUN_TTL => [tun_ip_ttl]
  | MFF_TUN_ERSPAN_VER => [tun_erspan_ver]
  | MFF_TUN_ERSPAN_IDX => [tun_erspan_idx]
  | MFF_TUN_ERSPAN_DIR => [tun_erspan_dir]
  | MFF_TUN_ERSPAN_HWID => [tun_erspan_hwid]
  | MFF_TUN_GTPU_FLAGS => [tun_gtpu_flags]
  | MFF_TUN_GTPU_MSGTYPE => [tun_gtpu_msgtype]
  | MFF_METADATA => [metadata]
  | MFF_IN_PORT | MFF_IN_PORT_OXM => [in_port]
  | MFF_ACTSET_OUTPUT => [actset_output]
  | MFF_SKB_PRIORITY => [skb_priority]
  | MFF_PKT_MARK => [pkt_mark]
  | MFF_CT_STATE => [ct_state]
  | MFF_CT_ZONE => [ct_zone]
  | MFF_CT_MARK => [ct_mark]
  | MFF_CT_LABEL => [ct_label]
  | MFF_CT_NW_PROTO => [ct_nw_proto]
  | MFF_CT_NW_SRC => [ct_nw_src]
  | MFF_CT_NW_DST => [ct_nw_dst]
  | MFF_CT_IPV6_SRC => [ct_ipv6_src]
  | MFF_CT_IPV6_DST => [ct_ipv6_dst]
  | MFF_CT_TP_SRC => [ct_tp_src]
  | MFF_CT_TP_DST => [ct_tp_dst]
  | MFF_REG i => [regs i]
  | MFF_XREG i => [regs (i * 2); regs (i * 2 + 1)]
  | MFF_XXREG i => [regs (i * 4); regs (i * 4 + 1); regs (i * 4 + 2); regs (i * 4 + 3)]
  | MFF_ETH_SRC => [dl_src]
  | MFF_ETH_DST => [dl_dst]
  | MFF_ETH_TYPE => [dl_type]
  | MFF_VLAN_TCI | MFF_DL_VLAN | MFF_VLAN_VID | MFF_DL_VLAN_PCP | MFF_VLAN_PCP => [vlan_tpid 0; vlan_tci 0]
  | MFF_MPLS_LABEL | MFF_MPLS_TC | MFF_MPLS_BOS | MFF_MPLS_TTL => [mpls_lse 0]
  | MFF_IPV4_SRC | MFF_ARP_SPA => [nw_src]
  | MFF_IPV4_DST | MFF_ARP_TPA => [nw_dst]
  | MFF_IPV6_SRC => [ipv6_src]
  | MFF_IPV6_DST => [ipv6_dst]
  | MFF_IPV6_LABEL => [ipv6_label]
  | MFF_IP_PROTO | MFF_ARP_OP => [nw_proto]
  | MFF_IP_DSCP | MFF_IP_DSCP_SHIFTED | MFF_IP_ECN => [nw_tos]
  | MFF_IP_TTL => [nw_ttl]
  | MFF_IP_FRAG => [nw_frag]
  | MFF_ARP_SHA | MFF_ND_SLL => [arp_sha]
  | MFF_ARP_THA | MFF_ND_TLL => [arp_tha]
  | MFF_TCP_SRC | MFF_UDP_SRC | MFF_SCTP_SRC | MFF_ICMPV4_TYPE | MFF_ICMPV6_TYPE => [tp_src]
  | MFF_TCP_DST | MFF_UDP_DST | MFF_SCTP_DST | MFF_ICMPV4_CODE | MFF_ICMPV6_CODE => [tp_dst]
  | MFF_TCP_FLAGS | MFF_ND_OPTIONS_TYPE => [tcp_flags]
  | MFF_ND_TARGET => [nd_target]
  | MFF_ND_RESERVED => [igmp_group_ip4]
  | MFF_NSH_FLAGS => [nsh_flags]
  | MFF_NSH_TTL => [nsh_ttl]
  | MFF_NSH_MDTYPE => [nsh_mdtype]
  | MFF_NSH_NP => [nsh_np]
  | MFF_NSH_SPI | MFF_NSH_SI => [nsh_path_hdr]
  | MFF_NSH_C i => [nsh_context i]
  end.

(** Bit [k] of the flow belongs to the field. *)
Definition in_storage (mf : mf_field_id) (k : nat) : bool := existsb (fun mb => mb_has mb k) (mf_storage mf).

Lemma fset_outside (f : flow) (mb : member) (x : Z) (k : nat) :
  flow_wf f -> mb_in mb -> mb_has mb k = false -> fbit (fset f mb x) k = fbit f k.
Proof. intros Hf Hm Hk. rewrite fset_fbit by (done || apply Hf). by rewrite Hk. Qed.

Lemma fget_ext (f g : flow) (mb : member) :
  (forall k, mb_has mb k = true -> fbit f k = fbit g k) -> fget f mb = fget g mb.
Proof.
  intros H. apply Z.bits_inj'. intros j Hj.
  destruct (Z.lt_ge_cases j (mb_bits mb)) as [Hl|Hl];
    [|by rewrite !(in_width_high (mb_bits mb)) by (apply fget_width || done)].
  rewrite !fget_testbit by done. apply H, mb_has_spec. unfold mb_bits in Hl. lia.
Qed.

Ltac storage_cases H :=
  cbn [in_storage mf_storage existsb] in H; rewrite ?orb_false_r in H; rewrite ?orb_false_iff in H; destruct_and?.

Ltac outside := repeat (rewrite fset_outside; [|by eauto with ovs|mbin|done]); done.

Lemma fix_tpid_outside (f : flow) (x : Z) (k : nat) :
  flow_wf f -> mb_has (vlan_tpid 0) k = false -> mb_has (vlan_tci 0) k = false ->
  fbit (flow_fix_vlan_tpid (fset f (vlan_tci 0) x)) k = fbit f k.
Proof. intros Hf H0 H1. unfold flow_fix_vlan_tpid. case_match; outside. Qed.

Lemma set_outside (mf : mf_field_id) (value : mf_value) (f : flow) (k : nat) :
  mf_id_ok mf = true -> flow_wf f -> in_storage mf k = false ->
  fbit (mf_set_flow_value mf value f) k = fbit f k.
Proof.
  intros Hi Hf Hk. unfold in_storage in Hk.
  destruct mf; cbn [mf_set_flow_value mf_set_flow_metadata]; storage_cases Hk.
  all: try (apply fset_outside; [done|mbin|done]).
  all: rewrite ?set_dl_vlan_tci, ?set_vlan_vid_tci, ?set_vlan_pcp_tci by done.
  all: try (by apply fix_tpid_outside).
  all: try (cbn zeta; outside).
  all: apply Nat.ltb_lt in Hi || apply (proj1 (Nat.ltb_lt i 4)) in Hi.
  all: unfold FLOW_N_REGS, FLOW_N_XREGS, FLOW_N_XXREGS, flow_set_xreg, flow_set_xxreg in *; cbn zeta; outside.
Qed.

Lemma get_inside (mf : mf_field_id) (f g : flow) (tmp : mf_value) :
  (forall k, in_storage mf k = true -> fbit f k = fbit g k) -> mf_get_value mf f tmp = mf_get_value mf g tmp.
Proof.
  intros H. assert (forall mb, In mb (mf_storage mf) -> fget f mb = fget g mb) as Hg.
  { intros mb Hmb. apply fget_ext. intros k Hk. apply H. apply existsb_exists. by exists mb. }
  clear H. destruct mf; cbn [mf_storage] in Hg; cbn [mf_get_value mf_get_metadata];
    unfold flow_get_xreg, flow_get_xxreg; rewrite !Hg by (cbn; tauto); done.
Qed.

(** [mf_set_flow_value] leaves every field alone that shares no bit with the
    field it stores: [mf_get_value] of it reads the same value as before. *)
Theorem mf_set_other_fields (mf mf' : mf_field_id) (value tmp : mf_value) (f : flow) :
  mf_id_ok mf = true -> flow_wf f ->
  (forall k, in_storage mf k = true -> in_storage mf' k = false) ->
  mf_get_value mf' (mf_set_flow_value mf value f) tmp = mf_get_value mf' f tmp.
Proof.
  intros Hi Hf Hd. apply get_inside. intros k Hk. apply set_outside; [done..|].
  destruct (in_storage mf k) eqn:E; [|done]. by rewrite (Hd k E) in Hk.
Qed.

(** ** Wildcards *)

(** The fields whose test for "all wild" looks at more or fewer bits than the
    mask that [mf_get_mask] returns: the ports are 32 bits of which the mask
    has 16, the ICMP fields 16 of which it has 8, and the ND option type and
    the fragment bits are tested on other bits than the mask shows. *)
Definition mf_wild_differs (mf : mf_field_id) : bool :=
  match mf with
  | MFF_IN_PORT | MFF_IN_PORT_OXM | MFF_ACTSET_OUTPUT | MFF_IP_FRAG | MFF_ND_OPTIONS_TYPE
  | MFF_ICMPV4_TYPE | MFF_ICMPV4_CODE | MFF_ICMPV6_TYPE | MFF_ICMPV6_CODE => true
  | _ => false
  end.

Lemma zeros_put (tmp : mf_value) (n : nat) (x : Z) :
  value_wf tmp -> (n <= SIZEOF_MF_VALUE)%nat -> in_width (8 * Z.of_nat n) x ->
  is_all_zeros (put tmp n x) n = (x =? 0).
Proof.
  intros Ht Hn Hx. rewrite is_all_zeros_be by apply (put_wf tmp n x Ht).
  rewrite be_put by (destruct Ht; lia). by rewrite wrap_small.
Qed.

Lemma shiftr_run_zero (t m lo n : Z) :
  0 <= lo -> 0 <= n -> m = Z.shiftl (Z.ones n) lo -> (Z.shiftr (Z.land t m) lo =? 0) = (Z.land t m =? 0).
Proof.
  intros Hlo Hn ->. apply eq_true_iff_eq. rewrite !Z.eqb_eq. split; intros H; [|by rewrite H, Z.shiftr_0_l].
  apply Z.bits_inj'. intros i Hi. rewrite Z.bits_0, Z.land_spec, run_testbit by done.
  destruct (Z.leb_spec lo i); cbn [andb]; [|apply andb_false_r].
  assert (Z.testbit (Z.shiftr (Z.land t (Z.shiftl (Z.ones n) lo)) lo) (i - lo) = false) as E by (rewrite H; apply Z.bits_0).
  rewrite Z.shiftr_spec, Z.land_spec, run_testbit in E by lia. revert E.
  replace (i - lo + lo) with i by lia. by destruct (Z.leb_spec lo i); [|lia].
Qed.

Lemma run_width (t lo k : Z) : 0 <= lo -> 0 <= k -> 0 <= t -> in_width k (Z.shiftr (Z.land t (Z.shiftl (Z.ones k) lo)) lo).
Proof.
  intros Hlo Hk Ht. apply in_width_bits; [done|]. split.
  - apply Z.shiftr_nonneg, Z.land_nonneg. by left.
  - intros i Hi. rewrite Z.shiftr_spec, Z.land_spec, run_testbit by lia. zcmp; apply andb_false_r.
Qed.

(** The mask of a part of a member. *)
Lemma zeros_run (tmp : mf_value) (n : nat) (t m lo k : Z) :
  value_wf tmp -> (n <= SIZEOF_MF_VALUE)%nat -> 0 <= t -> 0 <= lo -> 0 <= k <= 8 * Z.of_nat n ->
  m = Z.shiftl (Z.ones k) lo ->
  is_all_zeros (put tmp n (Z.shiftr (Z.land t m) lo)) n = (Z.land t m =? 0).
Proof.
  intros Ht Hn H0 Hlo Hk ->. rewrite zeros_put; [apply (shiftr_run_zero _ _ lo k); [lia|lia|done]|done|done|].
  apply (in_width_mono k); [lia|]. apply run_width; lia.
Qed.

Lemma fget_nonneg (f : flow) (mb : member) : 0 <= fget f mb.
Proof. apply fget_width. Qed.

Lemma regs_width (f : flow) (a b : nat) : in_width 64 (Z.lor (Z.shiftl (fget f (regs a)) 32) (fget f (regs b))).
Proof.
  apply in_width_lor; [done| |eapply in_width_mono; [|apply fget_width]; done].
  apply (in_width_shiftl 32 32); [done..|]. apply (fget_width f (regs a)).
Qed.

Lemma xxreg_width (f : flow) (i : nat) : in_width 128 (flow_get_xxreg f i).
Proof.
  apply in_width_lor; [done| |eapply in_width_mono; [|apply regs_width]; done].
  apply (in_width_shiftl 64 64); [done..|]. apply regs_width.
Qed.

Lemma spi_zeros (wc : flow) (tmp : mf_value) :
  value_wf tmp ->
  is_all_zeros (mf_get_value MFF_NSH_SPI wc tmp) 4 = (Z.land (fget wc nsh_path_hdr) NSH_SPI_MASK =? 0).
Proof.
  intros Ht. cbn [mf_get_value]. cbn zeta. match goal with |- context [?a =? Z.shiftr _ _] => destruct (Z.eqb_spec a (Z.shiftr NSH_SPI_MASK NSH_SPI_SHIFT)) as [E|E] end.
  - rewrite zeros_put; [|by apply put_wf|unfold SIZEOF_MF_VALUE; lia|done].
    rewrite be_put in E by (destruct Ht; unfold SIZEOF_MF_VALUE in *; lia).
    unfold nsh_path_hdr_to_spi in E. destruct (Z.eqb_spec (Z.land (fget wc nsh_path_hdr) NSH_SPI_MASK) 0) as [E0|]; [|done].
    by rewrite E0 in E.
  - apply (zeros_run tmp 4 _ NSH_SPI_MASK 8 24); [done|unfold SIZEOF_MF_VALUE; lia|apply fget_nonneg|lia..|done].
Qed.

Ltac zrun lo k := apply (zeros_run _ _ _ _ lo k); [done|unfold SIZEOF_MF_VALUE; lia|apply fget_nonneg|lia|lia|reflexivity].

(** [mf_is_all_wild] holds exactly when the mask that [mf_get_mask] returns is
    all zeros, for every field but the nine of [mf_wild_differs]. *)
Theorem mf_is_all_wild_mask (mf : mf_field_id) (wc : flow) (tmp : mf_value) :
  mf_id_ok mf = true -> flow_wf wc -> value_wf tmp -> mf_wild_differs mf = false ->
  mf_is_all_wild mf wc = is_all_zeros (mf_get_mask mf wc tmp) (mf_n_bytes mf).
Proof.
  intros Hi Hf Ht Hd. symmetry. unfold mf_get_mask.
  destruct mf; try done; clear Hd; try (by apply spi_zeros);
    cbn [mf_get_value mf_get_metadata mf_is_all_wild mf_is_all_wild_metadata mf_n_bytes].
  all: try (rewrite zeros_put; [done|done|unfold SIZEOF_MF_VALUE; lia|eapply in_width_mono; [|apply fget_width]; done]).
  - zrun 0 1.
  - rewrite zeros_put; [done|done|unfold SIZEOF_MF_VALUE; lia|apply regs_width].
  - rewrite zeros_put; [done|done|unfold SIZEOF_MF_VALUE; lia|apply xxreg_width].
  - zrun 0 12.
  - zrun 0 13.
  - zrun 13 3.
  - zrun 13 3.
  - zrun 12 20.
  - zrun 9 3.
  - unfold mpls_lse_to_bos. destruct (Z.eqb_spec (Z.land (fget wc (mpls_lse 0)) MPLS_BOS_MASK) 0);
      rewrite zeros_put; try done; unfold SIZEOF_MF_VALUE; lia.
  - zrun 0 8.
  - rewrite zeros_put; [done|done|unfold SIZEOF_MF_VALUE; lia|]. apply in_width_land; [done|apply fget_width|done].
  - pose proof (fget_width wc nw_tos) as Hw. change (mb_bits nw_tos) with 8 in Hw.
    replace (Z.shiftr (fget wc nw_tos) 2) with (Z.shiftr (Z.land (fget wc nw_tos) IP_DSCP_MASK) 2) by zfield. zrun 2 6.
  - zrun 0 2.
  - zrun 0 8.
Qed.

(** C34: for every field, a valid value that [mf_set_flow_value] stores is the value
    that [mf_get_value] reads back, but for the two cases of [mf_lossy]. *)
Theorem mf_set_get_roundtrip (mf : mf_field_id) (value tmp : mf_value) (f : flow) :
  mf_id_ok mf = true -> flow_wf f -> value_wf value -> value_wf tmp ->
  mf_is_value_valid mf value = true -> mf_lossy mf value = false ->
  be (mf_get_value mf (mf_set_flow_value mf value f) tmp) (mf_n_bytes mf) = be value (mf_n_bytes mf).
Proof. apply set_get_core. Qed.

(** A value buffer of zeros but for its first bytes. *)
Definition sample_value (n : nat) (x : Z) : mf_value := put (replicate SIZEOF_MF_VALUE 0) n x.

Lemma sample_value_wf (n : nat) (x : Z) : value_wf (sample_value n x).
Proof. apply put_wf. split; [by rewrite length_replicate|]. apply Forall_replicate. done. Qed.

Lemma zero_flow_wf : flow_wf (replicate FLOW_U64S 0).
Proof. split; [by rewrite length_replicate|]. apply Forall_replicate. done. Qed.

Lemma mf_set_get_roundtrip_witness :
  be (mf_get_value MFF_MPLS_LABEL (mf_set_flow_value MFF_MPLS_LABEL (sample_value 4 0x12345) (replicate FLOW_U64S 0)) (sample_value 0 0)) 4
  = be (sample_value 4 0x12345) 4.
Proof.
  apply (mf_set_get_roundtrip MFF_MPLS_LABEL (sample_value 4 0x12345) (sample_value 0 0));
    [reflexivity|apply zero_flow_wf|apply sample_value_wf|apply sample_value_wf|vm_compute; reflexivity|reflexivity].
Defined.

Lemma mf_set_other_fields_witness :
  mf_get_value MFF_TCP_DST (mf_set_flow_value MFF_TCP_SRC (sample_value 2 80) (replicate FLOW_U64S 0)) (sample_value 0 0)
  = mf_get_value MFF_TCP_DST (replicate FLOW_U64S 0) (sample_value 0 0).
Proof.
  apply (mf_set_other_fields MFF_TCP_SRC MFF_TCP_DST); [reflexivity|apply zero_flow_wf|].
  intros k. unfold in_storage, mf_storage, existsb, mb_has, tp_src, tp_dst. cbn [mb_ofs mb_size].
  rewrite !orb_false_r, andb_true_iff, andb_false_iff, Nat.leb_le, Nat.ltb_lt, Nat.leb_gt. lia.
Defined.

Lemma mf_is_all_wild_mask_witness :
  mf_is_all_wild MFF_MPLS_LABEL (fset (replicate FLOW_U64S 0) (mpls_lse 0) 0x1000)
  = is_all_zeros (mf_get_mask MFF_MPLS_LABEL (fset (replicate FLOW_U64S 0) (mpls_lse 0) 0x1000) (sample_value 0 0)) 4.
Proof.
  apply (mf_is_all_wild_mask MFF_MPLS_LABEL); [reflexivity|apply fset_wf, zero_flow_wf|apply sample_value_wf|reflexivity].
Defined.
