(* ===== verification/MatchProps.v ===== *)
(** * Correctness of the matches on fields (lib/match.c, lib/meta-flow.c)

    Every [mf_set] keeps the invariant that a match has no bit set that it
    wildcards, which the sparse representation of Miniflow and the classifier
    rely on; and a packet that satisfies the match has the value that was set. *)

From S2P Require Import Prelude Util Flowmap Hash Miniflow MetaFlow Trie FlowBits FlowFields MetaFields MatchSet MetaProps.
From stdpp Require Import prelude list.
From Stdlib Require Import ZArith Lia.
Open Scope Z_scope.
Open Scope ovs_scope.

#[local] Opaque fset fget.

Lemma UINT8_MAX_bit (i : Z) : 0 <= i -> Z.testbit UINT8_MAX i = (0 <=? i) && (i <? 8).
Proof. run 0 8. Qed.
Lemma UINT16_MAX_bit (i : Z) : 0 <= i -> Z.testbit UINT16_MAX i = (0 <=? i) && (i <? 16).
Proof. run 0 16. Qed.
Lemma UINT32_MAX_testbit (i : Z) : 0 <= i -> Z.testbit UINT32_MAX i = (0 <=? i) && (i <? 32).
Proof. run 0 32. Qed.

#[export] Hint Rewrite UINT8_MAX_bit UINT16_MAX_bit UINT32_MAX_testbit using lia : bits.

(** ** The invariant of matches *)

Record match_wf (m : match_) : Prop := {
  mw_flow : flow_wf (m_flow m);
  mw_wc : flow_wf (m_wc m);
  mw_norm : forall k, fbit (m_flow m) k = true -> fbit (m_wc m) k = true
}.

(** The bits of a member of a match. *)
Lemma norm_member (m : match_) (mb : member) (j : Z) :
  match_wf m -> 0 <= j < mb_bits mb ->
  Z.testbit (fget (m_flow m) mb) j = true -> Z.testbit (fget (m_wc m) mb) j = true.
Proof. intros Hm Hj. rewrite !fget_testbit by done. apply Hm. Qed.

Lemma mset_wf (m : match_) (mb : member) (v k : Z) :
  match_wf m -> mb_in mb ->
  (forall j, 0 <= j < mb_bits mb -> Z.testbit v j = true -> Z.testbit k j = true) ->
  match_wf (mset m mb v k).
Proof.
  intros [Hf Hw Hn] Hm H. unfold mset. split; cbn [m_flow m_wc]; [by apply fset_wf..|].
  intros i. rewrite !fset_fbit by (done || apply Hf || apply Hw). destruct (mb_has mb i) eqn:E; [|apply Hn].
  apply H, mb_pos_range, E.
Qed.

(** A masked store, an exact one and a cleared member. *)
Lemma mset_masked_wf (m : match_) (mb : member) (v k : Z) :
  match_wf m -> mb_in mb -> match_wf (mset m mb (Z.land v k) k).
Proof.
  intros Hm Hb. apply mset_wf; [done..|]. intros j Hj. rewrite Z.land_spec, andb_true_iff. tauto.
Qed.

Lemma mset_exact_wf (m : match_) (mb : member) (v k : Z) :
  match_wf m -> mb_in mb -> k = Z.ones (mb_bits mb) -> match_wf (mset m mb v k).
Proof.
  intros Hm Hb ->. apply mset_wf; [done..|]. intros j Hj _. rewrite testbit_ones by lia. zcmp; done.
Qed.

Lemma mset_zero_wf (m : match_) (mb : member) : match_wf m -> mb_in mb -> match_wf (mset m mb 0 0).
Proof. intros Hm Hb. apply mset_wf; [done..|]. intros j Hj. by rewrite Z.bits_0. Qed.

(** A part of a member that is stored in the flow and set, or cleared, in the
    wildcards. *)
Lemma mset_part_wf (m : match_) (mb : member) (s k : Z -> Z) :
  match_wf m -> mb_in mb ->
  (forall t w, in_width (mb_bits mb) t -> in_width (mb_bits mb) w ->
     (forall j, 0 <= j < mb_bits mb -> Z.testbit t j = true -> Z.testbit w j = true) ->
     forall j, 0 <= j < mb_bits mb -> Z.testbit (s t) j = true -> Z.testbit (k w) j = true) ->
  match_wf (Match (fset (m_flow m) mb (s (fget (m_flow m) mb))) (fset (m_wc m) mb (k (fget (m_wc m) mb)))).
Proof.
  intros Hm Hb H. apply (mset_wf m mb (s _) (k _)); [done..|].
  apply H; [apply fget_width..|]. intros j. by apply norm_member.
Qed.

(** The value under its own bits as a mask. *)
Lemma mset_self_wf (m : match_) (mb : member) (v k : Z) :
  match_wf m -> mb_in mb -> match_wf (mset m mb (Z.land v k) v).
Proof. intros Hm Hb. rewrite Z.land_comm. by apply mset_masked_wf. Qed.

Lemma mset_width_wf (m : match_) (mb : member) (v k w : Z) :
  match_wf m -> mb_in mb -> 0 <= w -> in_width w v -> k = Z.ones w -> match_wf (mset m mb v k).
Proof.
  intros Hm Hb Hw Hv ->. apply mset_wf; [done..|]. intros j Hj Hvj. rewrite testbit_ones by lia.
  destruct (Z.ltb_spec j w); [done|]. by rewrite (in_width_high w) in Hvj.
Qed.

(** An implication between bits. *)
Ltac bitcase :=
  autorewrite with bits; zcmp; zbits_simpl;
  repeat match goal with |- context [Z.testbit ?x ?j] => destruct (Z.testbit x j) end; cbn; auto.

(** [partwf mb s k]: the store [s] of the flow and [k] of the wildcards. *)
Ltac partwf m mb s k :=
  apply (mset_part_wf m mb s k); [done|mbin|];
  intros t w Ht Hw Hn j Hj; specialize (Hn j Hj); revert Hn;
  let b := eval cbv in (mb_bits mb) in change (mb_bits mb) with b in *.

Lemma set_any_vid_wf (m : match_) : match_wf m -> match_wf (match_set_any_vid m).
Proof.
  intros Hm. unfold match_set_any_vid. case_match; [|apply mset_masked_wf; [done|mbin]].
  unfold mset. partwf m (vlan_tci 0) (fun t => Z.ldiff t VLAN_VID_MASK) (fun w => Z.ldiff w VLAN_VID_MASK).
  bitcase.
Qed.

Lemma set_any_pcp_wf (m : match_) : match_wf m -> match_wf (match_set_any_pcp m).
Proof.
  intros Hm. unfold match_set_any_pcp. case_match; [|apply mset_masked_wf; [done|mbin]].
  unfold mset. partwf m (vlan_tci 0) (fun t => Z.ldiff t VLAN_PCP_MASK) (fun w => Z.ldiff w VLAN_PCP_MASK).
  bitcase.
Qed.

Lemma set_dl_vlan_wf (m : match_) (vid : Z) : match_wf m -> match_wf (match_set_dl_vlan m vid 0).
Proof.
  intros Hm. unfold match_set_dl_vlan. rewrite set_dl_vlan_tci by apply Hm. unfold dl_vlan_tci.
  case_match; [apply mset_exact_wf; [done|mbin|done]|].
  partwf m (vlan_tci 0)
    (fun t => Z.lor (u16 (Z.ldiff t VLAN_VID_MASK)) (Z.lor VLAN_CFI (Z.land vid VLAN_VID_MASK)))
    (fun w => Z.lor w (Z.lor VLAN_VID_MASK VLAN_CFI)).
  bitcase.
Qed.

Lemma set_vlan_vid_wf (m : match_) (vid mask : Z) : match_wf m -> match_wf (match_set_vlan_vid_masked m vid mask).
Proof.
  intros Hm. unfold match_set_vlan_vid_masked. cbn zeta. rewrite set_vlan_vid_tci by apply Hm.
  partwf m (vlan_tci 0) (vlan_vid_tci (Z.land vid (Z.land mask (Z.lor VLAN_VID_MASK VLAN_CFI))))
    (fun w => Z.lor (Z.land mask (Z.lor VLAN_VID_MASK VLAN_CFI)) (Z.land w VLAN_PCP_MASK)).
  unfold vlan_vid_tci. bitcase.
Qed.

Lemma set_dl_vlan_pcp_wf (m : match_) (pcp : Z) : match_wf m -> match_wf (match_set_dl_vlan_pcp m pcp 0).
Proof.
  intros Hm. unfold match_set_dl_vlan_pcp. rewrite set_vlan_pcp_tci by apply Hm.
  partwf m (vlan_tci 0) (vlan_pcp_tci pcp) (fun w => Z.lor w (Z.lor VLAN_CFI VLAN_PCP_MASK)).
  unfold vlan_pcp_tci, VLAN_PCP_SHIFT. bitcase.
Qed.

(** The MPLS label stack entry. *)
Ltac mplswf m s k :=
  partwf m (mpls_lse 0) s k;
  unfold set_mpls_lse_label, set_mpls_lse_tc, set_mpls_lse_bos, set_mpls_lse_ttl; bitcase.

Lemma set_mpls_wf (m : match_) (x : Z) :
  match_wf m ->
  match_wf (match_set_mpls_label m 0 x) /\ match_wf (match_set_mpls_tc m 0 x) /\
  match_wf (match_set_mpls_bos m 0 x) /\ match_wf (match_set_mpls_ttl m 0 x).
Proof.
  intros Hm. repeat split_and.
  - mplswf m (fun t => set_mpls_lse_label t x) (fun w => Z.lor w MPLS_LABEL_MASK).
  - mplswf m (fun t => set_mpls_lse_tc t x) (fun w => Z.lor w MPLS_TC_MASK).
  - mplswf m (fun t => set_mpls_lse_bos t x) (fun w => Z.lor w MPLS_BOS_MASK).
  - mplswf m (fun t => set_mpls_lse_ttl t x) (fun w => Z.lor w MPLS_TTL_MASK).
Qed.

Lemma set_any_mpls_wf (m : match_) :
  match_wf m ->
  match_wf (match_set_any_mpls_label m 0) /\ match_wf (match_set_any_mpls_tc m 0) /\
  match_wf (match_set_any_mpls_bos m 0) /\ match_wf (match_set_any_mpls_ttl m 0).
Proof.
  intros Hm. repeat split_and.
  - mplswf m (fun t => set_mpls_lse_label t 0) (fun w => Z.ldiff w MPLS_LABEL_MASK).
  - mplswf m (fun t => set_mpls_lse_tc t 0) (fun w => Z.ldiff w MPLS_TC_MASK).
  - mplswf m (fun t => set_mpls_lse_bos t 0) (fun w => Z.ldiff w MPLS_BOS_MASK).
  - mplswf m (fun t => set_mpls_lse_ttl t 0) (fun w => Z.ldiff w MPLS_TTL_MASK).
Qed.

(** The bits of [nw_tos]. *)
Lemma set_tos_wf (m : match_) (mask x : Z) :
  match_wf m -> (mask = IP_DSCP_MASK \/ mask = IP_ECN_MASK) ->
  match_wf (Match (let f := fset (m_flow m) nw_tos (Z.ldiff (fget (m_flow m) nw_tos) mask) in
                   fset f nw_tos (Z.lor (fget f nw_tos) (Z.land x mask)))
              (fset (m_wc m) nw_tos (Z.lor (fget (m_wc m) nw_tos) mask))).
Proof.
  intros Hm Hk. rewrite tos_store_eq by apply Hm.
  partwf m nw_tos (tos_store mask (Z.land x mask)) (fun w => Z.lor w mask). unfold tos_store.
  destruct Hk as [-> | ->]; bitcase.
Qed.

Lemma clear_part_wf (m : match_) (mb : member) (mask : Z) :
  match_wf m -> mb_in mb ->
  match_wf (mset m mb (Z.ldiff (fget (m_flow m) mb) mask) (Z.ldiff (fget (m_wc m) mb) mask)).
Proof.
  intros Hm Hb. apply (mset_part_wf m mb (fun t => Z.ldiff t mask) (fun w => Z.ldiff w mask)); [done..|].
  intros t w _ _ Hn j Hj. specialize (Hn j Hj). revert Hn. bitcase.
Qed.

(** The NSH path header. *)
Lemma set_nsh_path_wf (m : match_) (x : Z) :
  match_wf m ->
  match_wf (Match (fset (m_flow m) nsh_path_hdr (nsh_path_hdr_set_spi (fget (m_flow m) nsh_path_hdr) x))
              (fset (m_wc m) nsh_path_hdr (Z.lor (fget (m_wc m) nsh_path_hdr) NSH_SPI_MASK))) /\
  match_wf (Match (fset (m_flow m) nsh_path_hdr (nsh_path_hdr_set_si (fget (m_flow m) nsh_path_hdr) x))
              (fset (m_wc m) nsh_path_hdr (Z.lor (fget (m_wc m) nsh_path_hdr) NSH_SI_MASK))).
Proof.
  intros Hm. split.
  - partwf m nsh_path_hdr (fun t => nsh_path_hdr_set_spi t x) (fun w => Z.lor w NSH_SPI_MASK).
    unfold nsh_path_hdr_set_spi. bitcase.
  - partwf m nsh_path_hdr (fun t => nsh_path_hdr_set_si t x) (fun w => Z.lor w NSH_SI_MASK).
    unfold nsh_path_hdr_set_si. bitcase.
Qed.

Lemma wild_nsh_path_wf (m : match_) :
  match_wf m ->
  match_wf (Match (fset (m_flow m) nsh_path_hdr (nsh_path_hdr_set_spi (fget (m_flow m) nsh_path_hdr) 0))
              (fset (m_wc m) nsh_path_hdr (Z.ldiff (fget (m_wc m) nsh_path_hdr) NSH_SPI_MASK))) /\
  match_wf (Match (fset (m_flow m) nsh_path_hdr (nsh_path_hdr_set_si (fget (m_flow m) nsh_path_hdr) 0))
              (fset (m_wc m) nsh_path_hdr (Z.ldiff (fget (m_wc m) nsh_path_hdr) NSH_SI_MASK))).
Proof.
  intros Hm. split.
  - partwf m nsh_path_hdr (fun t => nsh_path_hdr_set_spi t 0) (fun w => Z.ldiff w NSH_SPI_MASK).
    unfold nsh_path_hdr_set_spi. bitcase.
  - partwf m nsh_path_hdr (fun t => nsh_path_hdr_set_si t 0) (fun w => Z.ldiff w NSH_SI_MASK).
    unfold nsh_path_hdr_set_si. bitcase.
Qed.

(** The registers. *)
Lemma set_xreg_wf (m : match_) (i : nat) (x k : Z) :
  match_wf m -> (i < FLOW_N_XREGS)%nat ->
  match_wf (Match (flow_set_xreg (m_flow m) i (Z.land x k)) (flow_set_xreg (m_wc m) i k)).
Proof.
  unfold FLOW_N_XREGS. intros Hm Hi. unfold flow_set_xreg. rewrite Z.shiftr_land.
  apply (mset_masked_wf (mset m (regs (i * 2)) (Z.land (Z.shiftr x 32) (Z.shiftr k 32)) (Z.shiftr k 32)));
    [apply mset_masked_wf; [done|mbin]|mbin].
Qed.

Lemma set_xxreg_wf (m : match_) (i : nat) (x k : Z) :
  match_wf m -> (i < FLOW_N_XXREGS)%nat ->
  match_wf (Match (flow_set_xxreg (m_flow m) i (Z.land x k)) (flow_set_xxreg (m_wc m) i k)).
Proof.
  unfold FLOW_N_XXREGS. intros Hm Hi. unfold flow_set_xxreg. cbn zeta.
  assert (u64 (Z.land x k) = Z.land (u64 x) (u64 k)) as -> by zbits. rewrite !Z.shiftr_land.
  pose (m1 := mset m (regs (i * 4)) (Z.land (Z.shiftr (Z.shiftr x 64) 32) (Z.shiftr (Z.shiftr k 64) 32)) (Z.shiftr (Z.shiftr k 64) 32)).
  pose (m2 := mset m1 (regs (i * 4 + 1)) (Z.land (Z.shiftr x 64) (Z.shiftr k 64)) (Z.shiftr k 64)).
  pose (m3 := mset m2 (regs (i * 4 + 2)) (Z.land (Z.shiftr (u64 x) 32) (Z.shiftr (u64 k) 32)) (Z.shiftr (u64 k) 32)).
  assert (match_wf m1) as H1 by (apply mset_masked_wf; [done|mbin]).
  assert (match_wf m2) as H2 by (apply mset_masked_wf; [done|mbin]).
  assert (match_wf m3) as H3 by (apply mset_masked_wf; [done|mbin]).
  apply (mset_masked_wf m3); [done|mbin].
Qed.

(** ** [mf_set] keeps the invariant *)

(** Ends a goal [exists m', Some m0 = Some m' /\ match_wf m'] for the stores of
    one member. *)
Ltac msimple :=
  eexists; split; [reflexivity|];
  first [ apply mset_masked_wf; [done|mbin] | apply mset_exact_wf; [done|mbin|reflexivity]
        | apply mset_self_wf; [done|mbin] | apply mset_zero_wf; [done|mbin] | apply clear_part_wf; [done|mbin] ].

Ltac msome tac := eexists; split; [reflexivity|]; tac.

(** The index of a register or of an NSH context header is in range. *)
Ltac index_ok Hi :=
  match type of Hi with
  | mf_id_ok (MFF_NSH_C ?i) = true => apply (proj1 (Nat.ltb_lt i 4)) in Hi
  | _ => apply Nat.ltb_lt in Hi
  end.

(** A port number has 16 bits. *)
Lemma port_width (x : Z) : in_width 16 (snd (ofputil_port_from_ofp11 x)).
Proof. unfold ofputil_port_from_ofp11. repeat case_match; cbn [snd]; [by apply wrap_width..|done]. Qed.

Lemma set_nw_frag_wf (m : match_) (x : Z) : match_wf m -> in_width 2 x -> match_wf (match_set_nw_frag m x).
Proof.
  intros Hm Hx. apply mset_wf; [done|mbin|]. intros j Hj. destruct (Z.lt_ge_cases j 2).
  - intros _. autorewrite with bits. zcmp; apply orb_true_r.
  - by rewrite (in_width_high 2).
Qed.

Lemma set_reg_wf (m : match_) (i : nat) (x k : Z) :
  match_wf m -> (i < FLOW_N_REGS)%nat -> exists m', match_set_reg_masked m i x k = Some m' /\ match_wf m'.
Proof.
  intros Hm Hi. unfold match_set_reg_masked. destruct (Nat.ltb_spec i FLOW_N_REGS); [|lia].
  unfold FLOW_N_REGS in *. msome ltac:(apply mset_masked_wf; [done|mbin]).
Qed.

Lemma set_xreg_some (m : match_) (i : nat) (x k : Z) :
  match_wf m -> (i < FLOW_N_XREGS)%nat -> exists m', match_set_xreg_masked m i x k = Some m' /\ match_wf m'.
Proof.
  intros Hm Hi. unfold match_set_xreg_masked. destruct (Nat.ltb_spec i FLOW_N_XREGS); [|lia].
  msome ltac:(by apply set_xreg_wf).
Qed.

Lemma set_xxreg_some (m : match_) (i : nat) (x k : Z) :
  match_wf m -> (i < FLOW_N_XXREGS)%nat -> exists m', match_set_xxreg_masked m i x k = Some m' /\ match_wf m'.
Proof.
  intros Hm Hi. unfold match_set_xxreg_masked. destruct (Nat.ltb_spec i FLOW_N_XXREGS); [|lia].
  msome ltac:(by apply set_xxreg_wf).
Qed.

(** The stores of a part of a member. *)
Ltac mpart :=
  eexists; split; [reflexivity|];
  first [ by apply set_dl_vlan_wf | by apply set_vlan_vid_wf | by apply set_dl_vlan_pcp_wf | by apply set_any_vid_wf
        | by apply set_any_pcp_wf | apply set_mpls_wf; done | apply set_any_mpls_wf; done
        | apply set_tos_wf; auto; done | by apply set_nw_frag_wf | apply set_nsh_path_wf; done
        | apply wild_nsh_path_wf; done ].

Ltac mregs Hi := index_ok Hi; first [by apply set_reg_wf | by apply set_xreg_some | by apply set_xxreg_some].

Lemma mf_set_value_wf (mf : mf_field_id) (value : mf_value) (m : match_) :
  mf_id_ok mf = true -> match_wf m -> Forall is_byte value -> mf_is_value_valid mf value = true ->
  exists m', mf_set_value mf value m = Some m' /\ match_wf m'.
Proof.
  intros Hi Hm Hv Hok. pose proof (valid_width mf value Hv Hok) as Hx.
  destruct mf; cbn [mf_set_value mf_set_value_metadata mf_valid_bits mf_n_bytes] in *.
  all: try (autounfold with mset; msimple).
  all: try mpart.
  all: try mregs Hi.
  - msome ltac:(apply (mset_width_wf _ _ _ _ 16); [done|mbin|done..]).
  - msome ltac:(apply (mset_width_wf _ _ _ _ 16); [done|mbin|done|apply port_width|done]).
  - msome ltac:(apply (mset_width_wf _ _ _ _ 16); [done|mbin|done|apply port_width|done]).
  - index_ok Hi. msome ltac:(apply mset_masked_wf; [done|mbin]).
Qed.

Lemma mf_set_wild_wf (mf : mf_field_id) (m : match_) :
  mf_id_ok mf = true -> match_wf m -> exists m', mf_set_wild mf m = Some m' /\ match_wf m'.
Proof.
  intros Hi Hm. destruct mf; cbn [mf_set_wild mf_set_wild_metadata].
  all: try (autounfold with mset; msimple).
  all: try mpart.
  all: try mregs Hi.
  index_ok Hi. msome ltac:(apply mset_masked_wf; [done|mbin]).
Qed.

Lemma mf_set_masked_wf (mf : mf_field_id) (value mask : mf_value) (m : match_) :
  mf_id_ok mf = true -> match_wf m -> Forall is_byte value -> mf_is_value_valid mf value = true ->
  mf_maskable mf = true -> exists m', mf_set_masked mf value mask m = Some m' /\ match_wf m'.
Proof.
  intros Hi Hm Hv Hok Hk. pose proof (mf_set_value_wf mf value m Hi Hm Hv Hok) as Hs.
  destruct mf; try done; clear Hk; cbn [mf_set_masked].
  all: try (autounfold with mset; msimple).
  all: try mpart.
  all: try mregs Hi.
  - msome ltac:(apply mset_wf; [done|mbin|]). intros j Hj. bitcase.
  - case_match; [exact Hs|]. autounfold with mset. msimple.
  - index_ok Hi. msome ltac:(apply mset_masked_wf; [done|mbin]).
Qed.

Lemma mf_set_wf (mf : mf_field_id) (value : mf_value) (mask : option mf_value) (m : match_) :
  mf_id_ok mf = true -> match_wf m -> Forall is_byte value ->
  mf_is_value_valid mf value = true ->
  match mask with Some k => mf_is_mask_valid mf k = true | None => True end ->
  exists m', mf_set mf value mask m = Some m' /\ match_wf m'.
Proof.
  intros Hi Hm Hv Hok Hk. unfold mf_set. destruct mask as [mask|]; [|by apply mf_set_value_wf].
  destruct (is_all_ones mask (mf_n_bytes mf)) eqn:E1; [by apply mf_set_value_wf|].
  destruct (is_all_zeros mask (mf_n_bytes mf)) eqn:E0; [by apply mf_set_wild_wf|].
  destruct (mf_not_masked mf); [by exists m|]. apply mf_set_masked_wf; [done..|].
  unfold mf_is_mask_valid in Hk. rewrite E1, E0 in Hk. by destruct (mf_maskable mf).
Qed.

Lemma match_catchall_wf : match_wf match_init_catchall.
Proof. split; [apply zero_flow_wf|apply zero_flow_wf|done]. Qed.

(** ** A sequence of settings *)

Record mf_setting := MfSetting { ms_field : mf_field_id; ms_value : mf_value; ms_mask : option mf_value }.

Definition setting_ok (s : mf_setting) : bool :=
  mf_id_ok (ms_field s) && mf_is_value_valid (ms_field s) (ms_value s) &&
  match ms_mask s with Some k => mf_is_mask_valid (ms_field s) k | None => true end.

Fixpoint mf_set_all (l : list mf_setting) (m : match_) : option match_ :=
  match l with
  | [] => Some m
  | s :: l => m' ← mf_set (ms_field s) (ms_value s) (ms_mask s) m; mf_set_all l m'
  end.

Lemma mf_set_all_wf (l : list mf_setting) (m : match_) :
  match_wf m -> Forall (fun s => setting_ok s = true /\ Forall is_byte (ms_value s)) l ->
  exists m', mf_set_all l m = Some m' /\ match_wf m'.
Proof.
  intros Hm Hl. revert m Hm. induction Hl as [|s l [Hs Hv] _ IH]; intros m Hm; cbn [mf_set_all]; [by exists m|].
  unfold setting_ok in Hs. rewrite !andb_true_iff in Hs. destruct Hs as ((Hi & Hok) & Hk).
  destruct (mf_set_wf (ms_field s) (ms_value s) (ms_mask s) m) as (m' & -> & Hm'); try done; [by destruct (ms_mask s)|].
  cbn. by apply IH.
Qed.

(** ** What a match on a field means *)

(** The bits that the value of a field depends on: members and masks. *)
Definition mf_sig (mf : mf_field_id) : list (member * Z) :=
  match mf with
  | MFF_TUN_FLAGS => [(tun_flags, FLOW_TNL_PUB_F_MASK)]
  | MFF_IN_PORT | MFF_IN_PORT_OXM => [(in_port, UINT16_MAX)]
  | MFF_ACTSET_OUTPUT => [(actset_output, UINT16_MAX)]
  | MFF_VLAN_TCI => [(vlan_tci 0, UINT16_MAX)]
  | MFF_DL_VLAN => [(vlan_tci 0, VLAN_VID_MASK)]
  | MFF_VLAN_VID => [(vlan_tci 0, Z.lor VLAN_VID_MASK VLAN_CFI)]
  | MFF_DL_VLAN_PCP | MFF_VLAN_PCP => [(vlan_tci 0, VLAN_PCP_MASK)]
  | MFF_MPLS_LABEL => [(mpls_lse 0, MPLS_LABEL_MASK)]
  | MFF_MPLS_TC => [(mpls_lse 0, MPLS_TC_MASK)]
  | MFF_MPLS_BOS => [(mpls_lse 0, MPLS_BOS_MASK)]
  | MFF_MPLS_TTL => [(mpls_lse 0, MPLS_TTL_MASK)]
  | MFF_IP_DSCP | MFF_IP_DSCP_SHIFTED => [(nw_tos, IP_DSCP_MASK)]
  | MFF_IP_ECN => [(nw_tos, IP_ECN_MASK)]
  | MFF_ICMPV4_TYPE | MFF_ICMPV6_TYPE => [(tp_src, UINT8_MAX)]
  | MFF_ICMPV4_CODE | MFF_ICMPV6_CODE => [(tp_dst, UINT8_MAX)]
  | MFF_NSH_SPI => [(nsh_path_hdr, NSH_SPI_MASK)]
  | MFF_NSH_SI => [(nsh_path_hdr, NSH_SI_MASK)]
  | _ => map (fun mb => (mb, Z.ones (mb_bits mb))) (mf_storage mf)
  end.

Lemma land_ones_width (b x : Z) : 0 <= b -> in_width b x -> Z.land x (Z.ones b) = x.
Proof. intros Hb Hx. rewrite Z.land_ones by done. by apply wrap_small. Qed.

Lemma fget_ones (f : flow) (mb : member) : Z.land (fget f mb) (Z.ones (mb_bits mb)) = fget f mb.
Proof. apply land_ones_width; [unfold mb_bits; lia|apply fget_width]. Qed.

Lemma put_wrap (tmp : mf_value) (n : nat) (x y : Z) :
  wrap (8 * Z.of_nat n) x = wrap (8 * Z.of_nat n) y -> put tmp n x = put tmp n y.
Proof.
  revert x y. induction n as [|n IH]; intros x y H; [done|]. cbn [put].
  assert (forall i, 0 <= i < 8 * Z.of_nat (S n) -> Z.testbit x i = Z.testbit y i) as Hb.
  { intros i Hi. assert (Z.testbit (wrap (8 * Z.of_nat (S n)) x) i = Z.testbit (wrap (8 * Z.of_nat (S n)) y) i) as E by by rewrite H.
    rewrite !wrap_testbit in E by lia. destruct (Z.ltb_spec i (8 * Z.of_nat (S n))); [done|lia]. }
  f_equal.
  - apply Z.bits_inj'. intros i Hi. rewrite !wrap_testbit by lia. destruct (Z.ltb_spec i 8); [|done]. cbn. apply Hb. lia.
  - apply IH. apply Z.bits_inj'. intros i Hi. rewrite !wrap_testbit by lia. destruct (Z.ltb_spec i (8 * Z.of_nat n)); [|done].
    cbn [andb]. rewrite !Z.shiftr_spec by lia. apply Hb. lia.
Qed.

Lemma wrap_land (b x : Z) : 0 <= b -> wrap b x = Z.land x (Z.ones b).
Proof. intros Hb. by rewrite Z.land_ones. Qed.

(** The value of a field is a function of its significant bits. *)
Lemma get_sig (mf : mf_field_id) (f g : flow) (tmp : mf_value) :
  (forall mb k, In (mb, k) (mf_sig mf) -> Z.land (fget f mb) k = Z.land (fget g mb) k) ->
  mf_get_value mf f tmp = mf_get_value mf g tmp.
Proof.
  intros H.
  assert (forall mb, In (mb, Z.ones (mb_bits mb)) (mf_sig mf) -> fget f mb = fget g mb) as Hs.
  { intros mb Hmb. specialize (H mb _ Hmb). by rewrite !fget_ones in H. }
  destruct mf; cbn [mf_sig mf_storage map] in H, Hs; cbn [mf_get_value mf_get_metadata];
    unfold flow_get_xreg, flow_get_xxreg.
  all: try (rewrite !Hs by (cbn; tauto); done).
  all: pose proof (H _ _ (or_introl eq_refl)) as E; clear H Hs.
  all: unfold vlan_tci_to_pcp, mpls_lse_to_label, mpls_lse_to_tc, mpls_lse_to_bos, mpls_lse_to_ttl,
    nsh_path_hdr_to_spi, nsh_path_hdr_to_si, ofputil_port_to_ofp11.
  all: try (rewrite E; done).
  all: try (rewrite !(wrap_land 16) by done; change (Z.ones 16) with UINT16_MAX; rewrite E; done).
  all: try (apply put_wrap; rewrite !wrap_land by lia; exact E).
  pose proof (fget_width f nw_tos) as Hf. pose proof (fget_width g nw_tos) as Hg.
  assert (forall t, in_width 8 t -> Z.shiftr t 2 = Z.shiftr (Z.land t IP_DSCP_MASK) 2) as Hr by (intros t Ht; zfield).
  by rewrite (Hr _ Hf), (Hr _ Hg), E.
Qed.

(** The fields for which [mf_set_value] does not unwildcard every significant
    bit.  The first five are set with the value in the place of the mask; of
    the fragment bits only the two defined ones are matched. *)
Definition mf_inexact (mf : mf_field_id) : bool :=
  match mf with
  | MFF_TUN_ERSPAN_VER | MFF_TUN_ERSPAN_DIR | MFF_TUN_ERSPAN_HWID | MFF_TUN_GTPU_FLAGS | MFF_TUN_GTPU_MSGTYPE
  | MFF_IP_FRAG => true
  | _ => false
  end.

Lemma fget_fset_ones (f : flow) (mb : member) (x k : Z) :
  flow_wf f -> mb_in mb -> k = Z.ones (mb_bits mb) -> fget (fset f mb (Z.land x k)) mb = fget (fset f mb x) mb.
Proof.
  intros Hf Hm ->. rewrite !fget_fset by (done || apply Hf). assert (0 <= mb_bits mb) by (unfold mb_bits; lia).
  rewrite !wrap_land, <- Z.land_assoc, Z.land_diag by done. done.
Qed.

Lemma fget_wc_ones (f : flow) (mb : member) (x k : Z) :
  flow_wf f -> mb_in mb -> Z.land (wrap (mb_bits mb) x) k = k -> Z.land (fget (fset f mb x) mb) k = k.
Proof. intros Hf Hm H. by rewrite fget_fset by (done || apply Hf). Qed.

(** An equation of the parts of a member. *)
Ltac sigbits :=
  match goal with |- context [mb_bits ?mb] => let b := eval cbv in (mb_bits mb) in change (mb_bits mb) with b end;
  change 65535 with UINT16_MAX; zfield.

Lemma reg_sig (m m' : match_) (i : nat) (x : Z) :
  flow_wf (m_flow m) -> flow_wf (m_wc m) -> mf_id_ok (MFF_REG i) = true ->
  match_set_reg m i x = Some m' ->
  forall mb k, In (mb, k) (mf_sig (MFF_REG i)) ->
    Z.land (fget (m_wc m') mb) k = k /\ Z.land (fget (m_flow m') mb) k = Z.land (fget (fset (m_flow m) (regs i) x) mb) k.
Proof.
  intros Hf Hw Hi. autounfold with mset. cbn [mf_id_ok] in Hi. rewrite Hi. intros <-%(inj Some) mb k.
  apply Nat.ltb_lt in Hi. unfold FLOW_N_REGS in Hi. intros [[= <- <-]|[]]. cbn [m_flow m_wc]. split.
  - apply fget_wc_ones; [done|mbin|reflexivity].
  - f_equal. apply fget_fset_ones; [done|mbin|reflexivity].
Qed.

Lemma xreg_sig (m m' : match_) (i : nat) (x : Z) :
  flow_wf (m_flow m) -> flow_wf (m_wc m) -> mf_id_ok (MFF_XREG i) = true -> in_width 64 x ->
  match_set_xreg m i x = Some m' ->
  forall mb k, In (mb, k) (mf_sig (MFF_XREG i)) ->
    Z.land (fget (m_wc m') mb) k = k /\ Z.land (fget (m_flow m') mb) k = Z.land (fget (flow_set_xreg (m_flow m) i x) mb) k.
Proof.
  intros Hf Hw Hi Hx. autounfold with mset. cbn [mf_id_ok] in Hi. rewrite Hi. intros <-%(inj Some) mb k Hin.
  apply Nat.ltb_lt in Hi. cbn [m_flow m_wc]. rewrite (land_ones_width 64) by done. split; [|done].
  destruct (xreg_regs (m_wc m) i UINT64_MAX Hw Hi) as [E0 E1]. unfold flow_wildcards_set_xreg_mask.
  destruct Hin as [[= <- <-]|[[= <- <-]|[]]]; [by rewrite E0|by rewrite E1].
Qed.

Lemma xxreg_sig (m m' : match_) (i : nat) (x : Z) :
  flow_wf (m_flow m) -> flow_wf (m_wc m) -> mf_id_ok (MFF_XXREG i) = true -> in_width 128 x ->
  match_set_xxreg m i x = Some m' ->
  forall mb k, In (mb, k) (mf_sig (MFF_XXREG i)) ->
    Z.land (fget (m_wc m') mb) k = k /\ Z.land (fget (m_flow m') mb) k = Z.land (fget (flow_set_xxreg (m_flow m) i x) mb) k.
Proof.
  intros Hf Hw Hi Hx. autounfold with mset. cbn [mf_id_ok] in Hi. rewrite Hi. intros <-%(inj Some) mb k Hin.
  apply Nat.ltb_lt in Hi. cbn [m_flow m_wc]. rewrite (land_ones_width 128) by done. split; [|done].
  destruct (xxreg_regs (m_wc m) i UINT128_MAX Hw Hi) as (E0 & E1 & E2 & E3). unfold flow_wildcards_set_xxreg_mask.
  destruct Hin as [[= <- <-]|[[= <- <-]|[[= <- <-]|[[= <- <-]|[]]]]]; [by rewrite E0|by rewrite E1|by rewrite E2|by rewrite E3].
Qed.

Lemma set_value_sig (mf : mf_field_id) (value : mf_value) (m m' : match_) :
  match_wf m -> mf_id_ok mf = true -> Forall is_byte value -> mf_is_value_valid mf value = true ->
  mf_inexact mf = false -> mf_set_value mf value m = Some m' ->
  forall mb k, In (mb, k) (mf_sig mf) ->
    Z.land (fget (m_wc m') mb) k = k /\
    Z.land (fget (m_flow m') mb) k = Z.land (fget (mf_set_flow_value mf value (m_flow m)) mb) k.
Proof.
  intros Hm Hi Hv Hok Hne. pose proof (valid_width mf value Hv Hok) as Hx. destruct Hm as [Hf Hw Hn].
  destruct mf; first [discriminate Hne|clear Hne]; cbn [mf_valid_bits mf_n_bytes] in Hx;
    cbn [mf_set_value mf_set_value_metadata mf_sig mf_storage map mf_set_flow_value mf_set_flow_metadata];
    autounfold with mset; unfold mset; try (intros <-%(inj Some) mb k; cbn [m_flow m_wc In]).
  all: try (intros [[= <- <-]|[]]; split;
    [apply fget_wc_ones; [done|mbin|reflexivity] | first [done | f_equal; apply fget_fset_ones; [done|mbin|reflexivity]]]).
  all: try (intros [[= <- <-]|[]]; split; [apply fget_wc_ones; [done|mbin|]; sigbits|]).
  all: try reflexivity.
  all: rewrite ?fix_tpid_tci by (rewrite ?set_dl_vlan_tci, ?set_vlan_vid_tci, ?set_vlan_pcp_tci by done; by apply fset_wf).
  all: rewrite ?set_vlan_vid_tci, ?tos_store_eq by done.
  all: try reflexivity.
  all: try (rewrite !fget_fset by (mbin || apply Hf); unfold tos_store, vlan_vid_tci; sigbits).
  - by apply reg_sig.
  - by apply xreg_sig.
  - by apply xxreg_sig.
  - index_ok Hi. intros [[= <- <-]|[]]. split; [apply fget_wc_ones; [done|mbin|reflexivity]|].
    f_equal. apply fget_fset_ones; [done|mbin|reflexivity].
Qed.

