(* ===== verification/MatchTheorems.v ===== *)
(** * Theorems on matches

    What a match that is built with [mf_set], [mf_set_value] and [mf_set_wild]
    says of the packets that satisfy it. *)

From S2P Require Import Prelude Util Flowmap Hash Miniflow MetaFlow FlowBits FlowFields MetaFields MatchSet.
From S2P Require Import MetaProps MatchProps.
From stdpp Require Import prelude list.
From Stdlib Require Import ZArith Lia.
Open Scope Z_scope.
Open Scope ovs_scope.

#[local] Opaque fset fget.

(** A flow that satisfies a match agrees with it on the bits of a member that the match is about. *)
Lemma agree_member (m : match_) (pkt : flow) (mb : member) (k : Z) :
  agree (m_wc m) (m_flow m) pkt -> Z.land (fget (m_wc m) mb) k = k ->
  Z.land (fget pkt mb) k = Z.land (fget (m_flow m) mb) k.
Proof.
  intros Ha Hk. assert (forall f, Z.land (fget f mb) k = Z.land (Z.land (fget f mb) (fget (m_wc m) mb)) k) as E
    by (intros f; by rewrite <- Z.land_assoc, Hk). rewrite (E pkt), (E (m_flow m)). f_equal.
  apply Z.bits_inj'. intros j Hj. rewrite !Z.land_spec.
  destruct (Z_lt_dec j (mb_bits mb)) as [Hlt|Hge];
    [|rewrite !(in_width_high (mb_bits mb) _ j) by (apply fget_width || lia); done].
  rewrite !fget_testbit by lia. set (n := (_ - _ - _)%nat).
  destruct (fbit (m_wc m) n) eqn:En; [|by rewrite !andb_false_r]. by rewrite (Ha n En).
Qed.

(** The flow of a well formed match has no bit in a word that is wildcarded. *)
Lemma match_wf_words (m : match_) : match_wf m -> forall i, nth i (m_wc m) 0 = 0 -> nth i (m_flow m) 0 = 0.
Proof.
  intros [Hf Hw Hn] i Hi. apply Z.bits_inj'. intros j Hj. rewrite Z.bits_0.
  destruct (Z_lt_dec j 64) as [Hlt|Hge]; [|apply (in_width_high 64); [by apply flow_word_width|lia]].
  specialize (Hn (64 * i + Z.to_nat (63 - j))%nat). rewrite <- !fbit_word, Hi, Z.bits_0 in Hn by lia.
  destruct (Z.testbit (nth i (m_flow m) 0) j); [symmetry; by apply Hn|done].
Qed.

Lemma land_ldiff_same (x k w : Z) : 0 <= w -> Z.land (wrap w (Z.ldiff x k)) k = 0.
Proof.
  intros Hw. apply Z.bits_inj'. intros i Hi. rewrite Z.land_spec, wrap_testbit, Z.ldiff_spec, Z.bits_0 by done.
  destruct (i <? w), (Z.testbit x i), (Z.testbit k i); done.
Qed.

(** Clearing one part of the TCI, or all of it, clears the part. *)
Lemma any_tci_wild (m : match_) (c : bool) (v k : Z) :
  flow_wf (m_wc m) ->
  (Z.land (fget (m_wc (if c then Match (fset (m_flow m) (vlan_tci 0) v)
                                   (fset (m_wc m) (vlan_tci 0) (Z.ldiff (fget (m_wc m) (vlan_tci 0)) k))
                       else Match (fset (m_flow m) (vlan_tci 0) (Z.land 0 0)) (fset (m_wc m) (vlan_tci 0) 0)))
             (vlan_tci 0)) k =? 0) = true.
Proof.
  intros Hw. apply Z.eqb_eq. destruct c; cbn [m_wc]; rewrite fget_fset by (mbin || apply Hw); [by apply land_ldiff_same|done].
Qed.



(** after [mf_set_wild] the field is all wild, except that a VLAN_VID keeps
    the CFI bit of its mask while the match is on the PCP. *)
Theorem mf_set_wild_all_wild (mf : mf_field_id) (m m' : match_) :
  mf_id_ok mf = true -> match_wf m -> mf_set_wild mf m = Some m' ->
  mf_is_all_wild mf (m_wc m') = true \/
  (mf = MFF_VLAN_VID /\ Z.land (fget (m_wc m) (vlan_tci 0)) VLAN_PCP_MASK <> 0).
Proof.
  intros Hi [Hf Hw _]. destruct mf;
    cbn [mf_set_wild mf_set_wild_metadata mf_is_all_wild mf_is_all_wild_metadata];
    autounfold with mset; unfold mset; try intros <-%(inj Some); cbn [m_flow m_wc].
  all: try (left; rewrite fget_fset by (mbin || apply Hw); reflexivity).
  all: try (left; rewrite fget_fset by (mbin || apply Hw); apply Z.eqb_eq, land_ldiff_same; done).
  - cbn [mf_id_ok] in Hi. rewrite Hi. apply Nat.ltb_lt in Hi. unfold FLOW_N_REGS in Hi. intros <-%(inj Some).
    left. cbn [m_wc]. unfold flow_wildcards_set_reg_mask. by rewrite fget_fset by (mbin || apply Hw).
  - cbn [mf_id_ok] in Hi. rewrite Hi. apply Nat.ltb_lt in Hi. intros <-%(inj Some). left. cbn [m_wc].
    unfold flow_wildcards_set_xreg_mask. by rewrite xreg_roundtrip.
  - cbn [mf_id_ok] in Hi. rewrite Hi. apply Nat.ltb_lt in Hi. intros <-%(inj Some). left. cbn [m_wc].
    unfold flow_wildcards_set_xxreg_mask. by rewrite xxreg_roundtrip.
  - left. by apply any_tci_wild.
  - destruct (Z.eqb_spec (Z.land (fget (m_wc m) (vlan_tci 0)) VLAN_PCP_MASK) 0) as [E|E]; [left|by right].
    cbn [negb m_wc]. by rewrite fget_fset by (mbin || apply Hw).
  - left. by apply any_tci_wild.
  - left. by apply any_tci_wild.
  - left. index_ok Hi. by rewrite fget_fset by (mbin || apply Hw).
Qed.

(** setting one of the fields of [mf_inexact] but the fragment bits to the
    value zero leaves it wildcarded: [match_set_tun_erspan_ver_masked] and the
    four functions like it store the value where the mask belongs.  A match on
    ERSPAN version 0 is satisfied by every version, and one on version 2 by
    version 3 too. *)
Theorem mf_set_value_erspan_gtpu :
  Forall (fun mf => mf_is_all_wild mf ∘ m_wc <$> mf_set_value mf (sample_value 1 0) match_init_catchall = Some true)
    [MFF_TUN_ERSPAN_VER; MFF_TUN_ERSPAN_DIR; MFF_TUN_ERSPAN_HWID; MFF_TUN_GTPU_FLAGS; MFF_TUN_GTPU_MSGTYPE] /\
  exists m, mf_set_value MFF_TUN_ERSPAN_VER (sample_value 1 2) match_init_catchall = Some m /\
    flow_equal_except (m_flow m) (mf_set_flow_value MFF_TUN_ERSPAN_VER (sample_value 1 3) (m_flow match_init_catchall)) (m_wc m) = true.
Proof. split; [repeat constructor; by vm_compute|]. eexists. split; by vm_compute. Qed.



Lemma mf_set_wild_all_wild_witness :
  let m := match_set_tp_dst match_init_catchall 80 in
  mf_is_all_wild MFF_TCP_DST (m_wc (mset m tp_dst 0 0)) = true \/
  (MFF_TCP_DST = MFF_VLAN_VID /\ Z.land (fget (m_wc m) (vlan_tci 0)) VLAN_PCP_MASK <> 0).
Proof.
  intros m. apply (mf_set_wild_all_wild MFF_TCP_DST m); [reflexivity| |reflexivity].
  apply mset_exact_wf; [apply match_catchall_wf|mbin|reflexivity].
Defined.
