(* ===== verification/Versions.v ===== *)
(** * Rule versions (lib/versions.h) *)

From S2P Require Import Prelude.
From stdpp Require Import prelude.
From Stdlib Require Import ZArith Lia.
Open Scope Z_scope.
Open Scope ovs_scope.

Definition OVS_VERSION_MIN : Z := 0.
Definition OVS_VERSION_MAX : Z := UINT64_MAX - 1.
Definition OVS_VERSION_NOT_REMOVED : Z := UINT64_MAX.

Record versions := VERSIONS_INITIALIZER { add_version : Z; remove_version : Z }.

Definition versions_set_remove_version (v : versions) (version : Z) : versions :=
  VERSIONS_INITIALIZER (add_version v) version.

Definition versions_visible_in_version (v : versions) (version : Z) : bool :=
  (add_version v <=? version) && (version <? remove_version v).

Definition versions_is_eventually_invisible (v : versions) : bool :=
  remove_version v <? OVS_VERSION_NOT_REMOVED.

(** A version pair that is never visible, as [cls_match_alloc] makes it. *)
Lemma versions_initial_invisible (a version : Z) :
  versions_visible_in_version (VERSIONS_INITIALIZER a a) version = false.
Proof. unfold versions_visible_in_version. simpl. zcmp; done. Qed.
