(* ===== verification/Pvector.v ===== *)
(** * Priority vectors (lib/pvector.c, lib/pvector.h)

    Readers iterate over a published vector that is sorted by decreasing
    priority.  Writers append or update in place when that keeps the order, and
    otherwise work on a copy, [temp], which [pvector_publish] sorts and
    publishes.  Pointers are numbers.  [qsort] is the C library's: the model
    takes any function that sorts. *)

From S2P Require Import Prelude.
From stdpp Require Import prelude list sorting gmap.
From Stdlib Require Import ZArith Lia.
Open Scope Z_scope.
Open Scope ovs_scope.

Definition PVECTOR_EXTRA_ALLOC : nat := 4.

Record pvector_entry := PvectorEntry { pe_priority : Z; pe_ptr : Z }.

(** [size] is the length of [vector]. *)
Record pvector_impl := PvectorImpl { pi_allocated : nat; pi_vector : list pvector_entry }.

Record pvector := Pvector { pv_impl : pvector_impl; pv_temp : option pvector_impl }.

#[global] Instance pvector_entry_eq_dec : EqDecision pvector_entry.
Proof. solve_decision. Defined.

Definition pvector_entry_cmp (a b : pvector_entry) : Z :=
  if pe_priority b <? pe_priority a then -1 else if pe_priority a <? pe_priority b then 1 else 0.

(** Order of the entries of a published vector: [pvector_entry_cmp] is not positive. *)
Definition entry_le (a b : pvector_entry) : Prop := pvector_entry_cmp a b <= 0.

(** What the C standard says of [qsort]. *)
Class Qsort := {
  qsort : list pvector_entry -> list pvector_entry;
  qsort_perm : forall l, Permutation (qsort l) l;
  qsort_sorted : forall l, StronglySorted entry_le (qsort l)
}.

Definition pvector_impl_alloc (size : nat) : pvector_impl := PvectorImpl size [].

Definition pvector_impl_dup (old : pvector_impl) : pvector_impl :=
  PvectorImpl (length (pi_vector old) + PVECTOR_EXTRA_ALLOC) (pi_vector old).

Definition pvector_init : pvector := Pvector (pvector_impl_alloc PVECTOR_EXTRA_ALLOC) None.

Fixpoint pvector_find_from (l : list pvector_entry) (target : Z) (index : nat) : option nat :=
  match l with
  | [] => None
  | e :: l => if pe_ptr e =? target then Some index else pvector_find_from l target (S index)
  end.

(** [None] is -1. *)
Definition pvector_impl_find (impl : pvector_impl) (target : Z) : option nat :=
  pvector_find_from (pi_vector impl) target 0.

Definition entry_at (l : list pvector_entry) (i : nat) : pvector_entry := nth i l (PvectorEntry 0 0).

(** Appending; there is room for one more entry. *)
Definition push_entry (impl : pvector_impl) (e : pvector_entry) : pvector_impl :=
  PvectorImpl (pi_allocated impl) (pi_vector impl ++ [e]).

Definition pvector_insert (pvec : pvector) (ptr priority : Z) : pvector :=
  let e := PvectorEntry priority ptr in
  let old := pv_impl pvec in
  let size := length (pi_vector old) in
  match pv_temp pvec with
  | None =>
      if (size <? pi_allocated old)%nat
         && ((size =? 0)%nat || (priority <=? pe_priority (entry_at (pi_vector old) (size - 1))))
      then Pvector (push_entry old e) None
      else Pvector old (Some (push_entry (pvector_impl_dup old) e))
  | Some temp =>
      let temp := if (length (pi_vector temp) =? pi_allocated temp)%nat then pvector_impl_dup temp else temp in
      Pvector old (Some (push_entry temp e))
  end.

(** [None] is a failed assertion: the pointer is not in the vector. *)
Definition pvector_remove (pvec : pvector) (ptr : Z) : option pvector :=
  let temp := default (pvector_impl_dup (pv_impl pvec)) (pv_temp pvec) in
  match pvector_impl_find temp ptr with
  | None => None
  | Some index =>
      let size := (length (pi_vector temp) - 1)%nat in
      let vector :=
        if (index =? size)%nat then pi_vector temp
        else <[index := entry_at (pi_vector temp) size]> (pi_vector temp) in
      Some (Pvector (pv_impl pvec) (Some (PvectorImpl (pi_allocated temp) (take size vector))))
  end.

Definition set_priority (impl : pvector_impl) (index : nat) (priority : Z) : pvector_impl :=
  PvectorImpl (pi_allocated impl)
    (<[index := PvectorEntry priority (pe_ptr (entry_at (pi_vector impl) index))]> (pi_vector impl)).

Definition pvector_change_priority (pvec : pvector) (ptr priority : Z) : option pvector :=
  let old := default (pv_impl pvec) (pv_temp pvec) in
  match pvector_impl_find old ptr with
  | None => None
  | Some index =>
      let prio i := pe_priority (entry_at (pi_vector old) i) in
      let reorder :=
        ((prio index <? priority) && (0 <? index)%nat && (prio (index - 1)%nat <? priority))
        || ((priority <? prio index) && (index <? length (pi_vector old) - 1)%nat
            && (priority <? prio (index + 1)%nat)) in
      Some
        (match pv_temp pvec with
         | Some temp => Pvector (pv_impl pvec) (Some (set_priority temp index priority))
         | None =>
             if reorder then Pvector (pv_impl pvec) (Some (set_priority (pvector_impl_dup old) index priority))
             else Pvector (set_priority old index priority) None
         end)
  end.

Definition pvector_publish `{Qsort} (pvec : pvector) : pvector :=
  match pv_temp pvec with
  | Some temp => Pvector (PvectorImpl (pi_allocated temp) (qsort (pi_vector temp))) None
  | None => pvec
  end.

Definition pvector_count (pvec : pvector) : nat := length (pi_vector (pv_impl pvec)).

Definition pvector_is_empty (pvec : pvector) : bool := (pvector_count pvec =? 0)%nat.

(** ** Iteration *)

(** [struct pvector_cursor]; [pc_next] is [entry_idx + 1]. *)
Record pvector_cursor := PvectorCursor { pc_next : nat; pc_vector : list pvector_entry }.

Definition pvector_cursor_init (pvec : pvector) : pvector_cursor :=
  PvectorCursor 0 (pi_vector (pv_impl pvec)).

Definition pvector_cursor_next (cursor : pvector_cursor) (lowest_priority : Z)
  : option Z * pvector_cursor :=
  let idx := pc_next cursor in
  (if (idx <? length (pc_vector cursor))%nat
      && (lowest_priority <=? pe_priority (entry_at (pc_vector cursor) idx))
   then Some (pe_ptr (entry_at (pc_vector cursor) idx)) else None,
   PvectorCursor (S idx) (pc_vector cursor)).

(** ** Specification *)

(** The entries as the writer sees them. *)
Definition pv_entries (pvec : pvector) : list pvector_entry :=
  pi_vector (default (pv_impl pvec) (pv_temp pvec)).

(** What readers rely on: the published vector is in order.  Pointers are
    distinct, and no vector is over its allocation. *)
Record pvector_wf (pvec : pvector) : Prop := {
  pvwf_sorted : StronglySorted entry_le (pi_vector (pv_impl pvec));
  pvwf_nodup : NoDup (map pe_ptr (pv_entries pvec));
  pvwf_alloc : (length (pi_vector (pv_impl pvec)) <= pi_allocated (pv_impl pvec))%nat;
  pvwf_temp : forall t, pv_temp pvec = Some t -> (length (pi_vector t) <= pi_allocated t)%nat
}.

Lemma entry_le_spec (a b : pvector_entry) : entry_le a b <-> pe_priority b <= pe_priority a.
Proof. unfold entry_le, pvector_entry_cmp. zcmp. Qed.

(** ** Order by index *)

Definition prio (l : list pvector_entry) (i : nat) : Z := pe_priority (entry_at l i).

Lemma sorted_prio (l : list pvector_entry) :
  StronglySorted entry_le l <-> forall i j, (i < j < length l)%nat -> prio l j <= prio l i.
Proof.
  induction l as [|e l IH]; [split; [simpl; lia|constructor]|]. split.
  - intros H. inversion H as [|? ? Hs Hf]; subst. intros i j Hij. destruct j as [|j]; [lia|].
    simpl in Hij. unfold prio, entry_at. destruct i as [|i]; cbn [nth].
    + apply entry_le_spec. rewrite Forall_forall in Hf. apply Hf, list_elem_of_In, nth_In. lia.
    + apply (proj1 IH Hs). lia.
  - intros H. constructor.
    + apply IH. intros i j Hij. apply (H (S i) (S j)). simpl. lia.
    + apply Forall_forall. intros x (k & Hk & <-)%list_elem_of_In%(In_nth _ _ (PvectorEntry 0 0)).
      apply entry_le_spec, (H 0%nat (S k)). simpl. lia.
Qed.

Lemma prio_insert_eq (l : list pvector_entry) (i : nat) (e : pvector_entry) :
  (i < length l)%nat -> prio (<[i := e]> l) i = pe_priority e.
Proof. intros H. unfold prio, entry_at. rewrite nth_lookup, list_lookup_insert_eq by done. done. Qed.

Lemma prio_insert_ne (l : list pvector_entry) (i j : nat) (e : pvector_entry) :
  i <> j -> prio (<[i := e]> l) j = prio l j.
Proof. intros H. unfold prio, entry_at. by rewrite !nth_lookup, list_lookup_insert_ne. Qed.

Lemma sorted_push (l : list pvector_entry) (e : pvector_entry) :
  StronglySorted entry_le l ->
  (length l = 0%nat \/ pe_priority e <= prio l (length l - 1)) -> StronglySorted entry_le (l ++ [e]).
Proof.
  rewrite !sorted_prio. intros H He i j Hij. rewrite length_app in Hij. simpl in Hij.
  unfold prio, entry_at. rewrite (app_nth1 _ _ _ (n := i)) by lia.
  destruct (decide (j < length l)%nat).
  - rewrite app_nth1 by done. apply H. lia.
  - rewrite app_nth2 by lia. replace (j - length l)%nat with 0%nat by lia. simpl.
    destruct He as [He|He]; [lia|]. fold (entry_at l i). fold (prio l i).
    destruct (decide (i = length l - 1)%nat) as [->|]; [done|].
    etransitivity; [exact He|]. apply H. lia.
Qed.

Lemma sorted_change (l : list pvector_entry) (k : nat) (e : pvector_entry) :
  StronglySorted entry_le l -> (k < length l)%nat ->
  ((prio l k <? pe_priority e) && (0 <? k)%nat && (prio l (k - 1) <? pe_priority e))
  || ((pe_priority e <? prio l k) && (k <? length l - 1)%nat && (pe_priority e <? prio l (k + 1))) = false ->
  StronglySorted entry_le (<[k := e]> l).
Proof.
  rewrite !sorted_prio. intros H Hk Hr i j Hij. rewrite length_insert in Hij.
  apply orb_false_elim in Hr as [H1 H2]. set (p := pe_priority e) in *.
  destruct (decide (j = k)) as [->|Hjk]; [|destruct (decide (i = k)) as [->|Hik]].
  - rewrite prio_insert_eq, prio_insert_ne by lia. fold p.
    pose proof (H i k ltac:(lia)). destruct (Z.ltb_spec (prio l k) p); [|lia]. simpl in H1.
    destruct (Nat.ltb_spec 0 k); [|lia]. simpl in H1. apply Z.ltb_ge in H1.
    destruct (decide (i = k - 1)%nat) as [->|]; [lia|]. pose proof (H i (k - 1)%nat ltac:(lia)). lia.
  - rewrite prio_insert_eq, prio_insert_ne by lia. fold p.
    pose proof (H k j ltac:(lia)). destruct (Z.ltb_spec p (prio l k)); [|lia]. simpl in H2.
    destruct (Nat.ltb_spec k (length l - 1)); [|lia]. simpl in H2. apply Z.ltb_ge in H2.
    destruct (decide (j = k + 1)%nat) as [->|]; [lia|]. pose proof (H (k + 1)%nat j ltac:(lia)). lia.
  - rewrite !prio_insert_ne by lia. apply H. lia.
Qed.

(** ** Finding a pointer *)

Lemma find_from_Some (l : list pvector_entry) (t : Z) (s k : nat) :
  pvector_find_from l t s = Some k ->
  (s <= k < s + length l)%nat /\ pe_ptr (entry_at l (k - s)) = t.
Proof.
  revert s. induction l as [|e l IH]; intros s; [done|]. simpl. destruct (Z.eqb_spec (pe_ptr e) t).
  - intros [= ->]. split; [lia|]. by rewrite Nat.sub_diag.
  - intros [Hk Hp]%IH. split; [lia|]. unfold entry_at in *.
    replace (k - s)%nat with (S (k - S s)) by lia. done.
Qed.

Lemma find_from_None (l : list pvector_entry) (t : Z) (s : nat) :
  pvector_find_from l t s = None <-> ~ In t (map pe_ptr l).
Proof.
  revert s. induction l as [|e l IH]; intros s; [simpl; tauto|]. simpl.
  destruct (Z.eqb_spec (pe_ptr e) t) as [E|E]; [intuition done|]. rewrite IH. tauto.
Qed.

Lemma impl_find_Some (impl : pvector_impl) (t : Z) (k : nat) :
  pvector_impl_find impl t = Some k ->
  (k < length (pi_vector impl))%nat /\ pe_ptr (entry_at (pi_vector impl) k) = t.
Proof. intros [H E]%find_from_Some. rewrite Nat.sub_0_r in E. split; [lia|done]. Qed.

Lemma impl_find_total (impl : pvector_impl) (t : Z) :
  In t (map pe_ptr (pi_vector impl)) -> exists k, pvector_impl_find impl t = Some k.
Proof.
  intros H. destruct (pvector_impl_find impl t) as [k|] eqn:E; [by exists k|].
  by apply find_from_None in E.
Qed.

(** Splitting a vector at an entry. *)
Lemma entry_split (l : list pvector_entry) (k : nat) :
  (k < length l)%nat -> l = take k l ++ entry_at l k :: drop (S k) l.
Proof.
  intros H. rewrite <- (take_drop k l) at 1. f_equal.
  rewrite (drop_S l (entry_at l k)); [done|]. unfold entry_at. rewrite nth_lookup.
  destruct (lookup_lt_is_Some_2 l k H) as [x Hx]. by rewrite Hx.
Qed.

Lemma replace_perm (l : list pvector_entry) (x : pvector_entry) (k : nat) :
  (k < length l)%nat -> Permutation (l ++ [x]) (entry_at l k :: <[k := x]> l).
Proof.
  intros Hk. rewrite (entry_split l k) at 1 by done. rewrite insert_take_drop by done.
  rewrite <- app_assoc. simpl. rewrite <- Permutation_middle. apply perm_skip.
  rewrite app_assoc. rewrite (Permutation_app_comm (_ ++ _) [x]). simpl. by rewrite Permutation_middle.
Qed.

(** The swap with the last entry removes exactly the entry. *)
Lemma swap_remove_perm (l : list pvector_entry) (k : nat) :
  (k < length l)%nat ->
  let size := (length l - 1)%nat in
  Permutation l (entry_at l k ::
    take size (if (k =? size)%nat then l else <[k := entry_at l size]> l)).
Proof.
  intros Hk size.
  assert (l = take size l ++ [entry_at l size]) as El.
  { rewrite (entry_split l size) at 1 by lia. by rewrite (drop_ge l) by lia. }
  destruct (Nat.eqb_spec k size) as [->|E].
  - rewrite El at 1. by rewrite Permutation_app_comm.
  - assert (length (take size l) = size) as Ht by (rewrite length_take; lia).
    assert (entry_at l k = entry_at (take size l) k) as ->.
    { unfold entry_at. rewrite El at 1. by rewrite app_nth1 by lia. }
    rewrite take_insert_lt by lia. rewrite El at 1. apply replace_perm. lia.
Qed.

(** ** Operations *)

Lemma pvector_init_wf : pvector_wf pvector_init.
Proof. split; [constructor|constructor|cbn; lia|done]. Qed.

Lemma pvector_insert_entries (pvec : pvector) (ptr priority : Z) :
  pv_entries (pvector_insert pvec ptr priority) = pv_entries pvec ++ [PvectorEntry priority ptr].
Proof.
  unfold pvector_insert, pv_entries. destruct (pv_temp pvec) as [t|]; cbn.
  - by destruct (_ =? _)%nat.
  - by destruct (_ && _).
Qed.

Lemma NoDup_snoc (l : list Z) (x : Z) : NoDup l -> x ∉ l -> NoDup (l ++ [x]).
Proof.
  intros Hl Hx. apply NoDup_app. split_and!; [done| |apply NoDup_singleton].
  intros y Hy ->%list_elem_of_singleton. done.
Qed.

Lemma pvector_insert_wf (pvec : pvector) (ptr priority : Z) :
  pvector_wf pvec -> ptr ∉ map pe_ptr (pv_entries pvec) -> pvector_wf (pvector_insert pvec ptr priority).
Proof.
  intros [Hs Hn Ha Ht] Hp. split.
  - unfold pvector_insert. destruct (pv_temp pvec) as [t|]; [done|].
    destruct (_ && _) eqn:E; [|done]. cbn. apply andb_prop in E as [_ E]. apply sorted_push; [done|].
    apply orb_prop in E as [E%Nat.eqb_eq|E%Z.leb_le]; [by left|by right].
  - rewrite pvector_insert_entries, map_app. by apply NoDup_snoc.
  - unfold pvector_insert. destruct (pv_temp pvec) as [t|]; [done|].
    destruct (_ && _) eqn:E; [|done]. cbn. apply andb_prop in E as [E%Nat.ltb_lt _].
    rewrite length_app. simpl. lia.
  - intros t'. unfold pvector_insert. destruct (pv_temp pvec) as [t|]; cbn.
    + intros [= <-]. specialize (Ht t eq_refl). destruct (Nat.eqb_spec (length (pi_vector t)) (pi_allocated t)); cbn;
        rewrite length_app; cbn; unfold PVECTOR_EXTRA_ALLOC; lia.
    + destruct (_ && _); [done|]. intros [= <-]. cbn. rewrite length_app. cbn. unfold PVECTOR_EXTRA_ALLOC. lia.
Qed.

Lemma pv_entries_dup (pvec : pvector) :
  pi_vector (default (pvector_impl_dup (pv_impl pvec)) (pv_temp pvec)) = pv_entries pvec.
Proof. unfold pv_entries. by destruct (pv_temp pvec). Qed.

(** Removal takes away exactly the entry of the pointer. *)
Lemma pvector_remove_spec (pvec : pvector) (ptr : Z) :
  pvector_wf pvec -> In ptr (map pe_ptr (pv_entries pvec)) ->
  exists pvec' e, pvector_remove pvec ptr = Some pvec' /\ pvector_wf pvec' /\ pe_ptr e = ptr /\
    Permutation (pv_entries pvec) (e :: pv_entries pvec').
Proof.
  intros [Hs Hn Ha Ht] Hin. unfold pvector_remove. set (temp := default _ _).
  assert (pi_vector temp = pv_entries pvec) as Et by apply pv_entries_dup.
  destruct (impl_find_total temp ptr) as [k Hk]; [by rewrite Et|]. rewrite Hk.
  apply impl_find_Some in Hk as [Hk Hp]. pose proof (swap_remove_perm (pi_vector temp) k Hk) as Hperm. cbn zeta in Hperm.
  eexists _, (entry_at (pi_vector temp) k). rewrite Et in Hperm at 1. split_and!; [done| |done|exact Hperm].
  split; cbn [pv_impl pv_temp]; [done| |done|].
  - apply (Permutation_map pe_ptr) in Hperm. apply NoDup_Permutation_proper in Hperm.
    apply Hperm in Hn. cbn in Hn. by apply NoDup_cons in Hn as [_ Hn].
  - intros t [= <-]. cbn. rewrite length_take.
    assert (length (pi_vector temp) <= pi_allocated temp)%nat as Hle.
    { unfold temp. destruct (pv_temp pvec) as [t|] eqn:E; cbn; [by apply Ht|lia]. }
    destruct (_ =? _)%nat; rewrite ?length_insert; lia.
Qed.

(** Changing a priority changes exactly the entry of the pointer. *)
Lemma pvector_change_spec (pvec : pvector) (ptr priority : Z) :
  pvector_wf pvec -> In ptr (map pe_ptr (pv_entries pvec)) ->
  exists pvec' k, pvector_change_priority pvec ptr priority = Some pvec' /\ pvector_wf pvec' /\
    (k < length (pv_entries pvec))%nat /\ pe_ptr (entry_at (pv_entries pvec) k) = ptr /\
    pv_entries pvec' = <[k := PvectorEntry priority ptr]> (pv_entries pvec).
Proof.
  intros [Hs Hn Ha Ht] Hin. unfold pvector_change_priority. set (old := default _ _).
  assert (pi_vector old = pv_entries pvec) as Eo by done.
  destruct (impl_find_total old ptr) as [k Hk]; [by rewrite Eo|]. rewrite Hk.
  apply impl_find_Some in Hk as [Hk Hp]. eexists _, k. split; [reflexivity|].
  assert (NoDup (map pe_ptr (<[k := PvectorEntry priority ptr]> (pv_entries pvec)))) as Hn'.
  { rewrite <- Eo in *. rewrite insert_take_drop by done. rewrite (entry_split (pi_vector old) k), map_app in Hn by done.
    rewrite map_app. cbn -[entry_at] in Hn |- *. by rewrite Hp in Hn. }
  set (r := _ || _). destruct (pv_temp pvec) as [t|] eqn:Etemp.
  - change old with t in *. split_and!; [|by rewrite <- Eo|by rewrite <- Eo|].
    + split; [done| |done|].
      * unfold pv_entries. cbn -[entry_at]. rewrite Hp. unfold pv_entries in Hn'. by rewrite Etemp in Hn'.
      * intros t' [= <-]. cbn -[entry_at]. rewrite length_insert. by apply Ht.
    + unfold pv_entries. cbn -[entry_at]. rewrite Hp. by rewrite Etemp.
  - change old with (pv_impl pvec) in *.
    assert (pv_entries pvec = pi_vector (pv_impl pvec)) as Ee by done. rewrite Ee in *.
    destruct r eqn:Er; (split_and!; [|done|done|by unfold pv_entries; cbn -[entry_at]; rewrite Hp]).
    + split; [done| |done|].
      * unfold pv_entries. cbn -[entry_at]. by rewrite Hp.
      * intros t' [= <-]. cbn -[entry_at]. rewrite length_insert. lia.
    + split; cbn [pv_impl pv_temp]; [|unfold pv_entries; cbn -[entry_at]; by rewrite Hp|by cbn -[entry_at]; rewrite length_insert|done].
      cbn -[entry_at]. rewrite Hp. by apply sorted_change.
Qed.

Lemma pvector_publish_wf `{Qsort} (pvec : pvector) :
  pvector_wf pvec -> pvector_wf (pvector_publish pvec) /\
  Permutation (pi_vector (pv_impl (pvector_publish pvec))) (pv_entries pvec) /\
  pv_temp (pvector_publish pvec) = None.
Proof.
  intros [Hs Hn Ha Ht]. unfold pvector_publish, pv_entries. destruct (pv_temp pvec) as [t|] eqn:E; cbn.
  - split_and!; [|apply qsort_perm|done]. split; cbn; [apply qsort_sorted| | |done].
    + unfold pv_entries. cbn. unfold pv_entries in Hn. rewrite E in Hn. cbn in Hn.
      by rewrite (Permutation_map pe_ptr (qsort_perm (pi_vector t))).
    + rewrite qsort_perm. by apply Ht.
  - split_and!; [|done|done]. split; try done. by rewrite E.
Qed.

(** ** Refinement of a map from pointers to priorities *)

Inductive pv_op :=
| PvInsert (ptr priority : Z)
| PvRemove (ptr : Z)
| PvChange (ptr priority : Z)
| PvPublish.

Definition pv_step `{Qsort} (pvec : pvector) (op : pv_op) : option pvector :=
  match op with
  | PvInsert ptr priority => Some (pvector_insert pvec ptr priority)
  | PvRemove ptr => pvector_remove pvec ptr
  | PvChange ptr priority => pvector_change_priority pvec ptr priority
  | PvPublish => Some (pvector_publish pvec)
  end.

(** The contract: a pointer is inserted once, and removed or changed when present. *)
Definition abs_step (m : gmap Z Z) (op : pv_op) : option (gmap Z Z) :=
  match op with
  | PvInsert ptr priority => if decide (m !! ptr = None) then Some (<[ptr := priority]> m) else None
  | PvRemove ptr => if decide (m !! ptr = None) then None else Some (delete ptr m)
  | PvChange ptr priority => if decide (m !! ptr = None) then None else Some (<[ptr := priority]> m)
  | PvPublish => Some m
  end.

Fixpoint run {A} (step : A -> pv_op -> option A) (a : A) (ops : list pv_op) : option A :=
  match ops with
  | [] => Some a
  | op :: ops => match step a op with Some a => run step a ops | None => None end
  end.

(** The vector represents the map. *)
Record pv_repr (pvec : pvector) (m : gmap Z Z) : Prop := {
  pr_wf : pvector_wf pvec;
  pr_entries : forall e, In e (pv_entries pvec) <-> m !! pe_ptr e = Some (pe_priority e)
}.

Lemma repr_ptrs (pvec : pvector) (m : gmap Z Z) (ptr : Z) :
  pv_repr pvec m -> In ptr (map pe_ptr (pv_entries pvec)) <-> m !! ptr <> None.
Proof.
  intros [_ H]. rewrite in_map_iff. split.
  - intros (e & <- & He). apply H in He. by rewrite He.
  - intros Hm. destruct (m !! ptr) as [p|] eqn:E; [|done].
    exists (PvectorEntry p ptr). split; [done|]. by apply H.
Qed.

Lemma nodup_ptr_unique (l : list pvector_entry) (e e' : pvector_entry) :
  NoDup (map pe_ptr l) -> In e l -> In e' l -> pe_ptr e = pe_ptr e' -> e = e'.
Proof.
  induction l as [|x l IH]; [done|]. cbn. intros [Hx Hn]%NoDup_cons He He' E.
  assert (forall y, In y l -> pe_ptr y <> pe_ptr x) as Hne.
  { intros y Hy Exy. apply Hx. rewrite <- Exy. apply list_elem_of_In. by apply in_map. }
  destruct He as [<-|He], He' as [<-|He']; [done| | |by apply IH].
  - by destruct (Hne e' He').
  - by destruct (Hne e He).
Qed.

Lemma remove_repr (pvec : pvector) (m : gmap Z Z) (ptr : Z) :
  pv_repr pvec m -> m !! ptr <> None ->
  exists pvec', pvector_remove pvec ptr = Some pvec' /\ pv_repr pvec' (delete ptr m).
Proof.
  intros Hr Hm. destruct (pvector_remove_spec pvec ptr (pr_wf _ _ Hr)) as (pvec' & e & Hrem & Hwf' & Hp & Hperm);
    [by apply (repr_ptrs _ _ _ Hr)|].
  exists pvec'. split; [done|]. split; [done|]. intros x.
  pose proof (pvwf_nodup _ (pr_wf _ _ Hr)) as Hn. rewrite (Permutation_map pe_ptr Hperm) in Hn. cbn in Hn.
  apply NoDup_cons in Hn as [Hne _]. pose proof (pr_entries _ _ Hr x) as Hx. rewrite Hperm in Hx. cbn in Hx.
  destruct (decide (pe_ptr x = ptr)) as [E|E].
  - rewrite E, lookup_delete_eq. split; [|done]. intros Hin. exfalso. apply Hne. rewrite Hp, <- E.
    apply list_elem_of_In. by apply in_map.
  - rewrite lookup_delete_ne by done. rewrite <- Hx. split; [by right|]. intros [->|]; done.
Qed.

Lemma change_repr (pvec : pvector) (m : gmap Z Z) (ptr priority : Z) :
  pv_repr pvec m -> m !! ptr <> None ->
  exists pvec', pvector_change_priority pvec ptr priority = Some pvec' /\ pv_repr pvec' (<[ptr := priority]> m).
Proof.
  intros Hr Hm. destruct (pvector_change_spec pvec ptr priority (pr_wf _ _ Hr)) as (pvec' & k & Hc & Hwf' & Hk & Hp & He);
    [by apply (repr_ptrs _ _ _ Hr)|].
  exists pvec'. split; [done|]. split; [done|]. intros x. rewrite He, insert_take_drop by done.
  pose proof (pr_entries _ _ Hr x) as Hx. pose proof (pvwf_nodup _ (pr_wf _ _ Hr)) as Hn.
  rewrite (entry_split (pv_entries pvec) k) in Hx, Hn by done.
  assert (forall y, In y (take k (pv_entries pvec)) \/ In y (drop (S k) (pv_entries pvec)) -> pe_ptr y <> ptr) as Hne.
  { intros y Hy E. rewrite map_app in Hn. cbn -[entry_at] in Hn. rewrite Hp in Hn. rewrite <- Permutation_middle in Hn.
    apply NoDup_cons in Hn as [Hn _]. apply Hn. rewrite <- E, <- map_app. apply list_elem_of_In, in_map, in_or_app. done. }
  rewrite in_app_iff in Hx |- *. cbn -[entry_at] in Hx |- *.
  destruct (decide (pe_ptr x = ptr)) as [E|E].
  - rewrite E, lookup_insert_eq. split.
    + intros [?|[<-|?]]; [|done|]; exfalso; by apply (Hne x); auto.
    + intros [= ->]. right. left. by destruct x; simpl in *; subst.
  - rewrite lookup_insert_ne by done. rewrite <- Hx. split; intros [?|[Ex|?]]; auto.
    + by rewrite <- Ex in E.
    + by rewrite <- Ex in E.
Qed.

Lemma insert_repr (pvec : pvector) (m : gmap Z Z) (ptr priority : Z) :
  pv_repr pvec m -> m !! ptr = None -> pv_repr (pvector_insert pvec ptr priority) (<[ptr := priority]> m).
Proof.
  intros Hr Hm. split.
  - apply pvector_insert_wf; [apply Hr|]. rewrite list_elem_of_In, (repr_ptrs _ _ _ Hr). intros H. by apply H.
  - intros x. rewrite pvector_insert_entries, in_app_iff. pose proof (pr_entries _ _ Hr x) as Hx. cbn.
    destruct (decide (pe_ptr x = ptr)) as [E|E].
    + rewrite E in *. rewrite lookup_insert_eq. split.
      * intros [H|[<-|[]]]; [|done]. apply Hx in H. by rewrite Hm in H.
      * intros [= ->]. right. left. by destruct x; simpl in *; subst.
    + rewrite lookup_insert_ne by done. rewrite Hx. split; [|by left]. intros [?|[<-|[]]]; done.
Qed.

(** ** Properties *)

(** A [qsort] for the witnesses: insertion sort. *)
Fixpoint insert_sorted (e : pvector_entry) (l : list pvector_entry) : list pvector_entry :=
  match l with
  | [] => [e]
  | x :: l => if pe_priority x <=? pe_priority e then e :: x :: l else x :: insert_sorted e l
  end.

Definition insertion_sort (l : list pvector_entry) : list pvector_entry := foldr insert_sorted [] l.

Lemma insert_sorted_perm (e : pvector_entry) (l : list pvector_entry) : Permutation (insert_sorted e l) (e :: l).
Proof.
  induction l as [|x l IH]; [done|]. simpl. destruct (_ <=? _); [done|]. rewrite IH. apply perm_swap.
Qed.

Lemma insert_sorted_sorted (e : pvector_entry) (l : list pvector_entry) :
  StronglySorted entry_le l -> StronglySorted entry_le (insert_sorted e l).
Proof.
  induction 1 as [|x l Hs IH Hf]; simpl; [repeat constructor|].
  destruct (Z.leb_spec (pe_priority x) (pe_priority e)) as [H|H].
  - constructor; [by constructor|]. constructor; [by apply entry_le_spec|].
    eapply Forall_impl; [exact Hf|]. intros y. rewrite !entry_le_spec. lia.
  - constructor; [done|]. rewrite insert_sorted_perm. constructor; [|done]. apply entry_le_spec. lia.
Qed.

#[export] Instance insertion_qsort : Qsort.
Proof.
  refine {| qsort := insertion_sort |}.
  - induction l as [|x l IH]; [done|]. simpl. by rewrite insert_sorted_perm, IH.
  - induction l as [|x l IH]; [constructor|]. simpl. by apply insert_sorted_sorted.
Defined.

(** C13: the priority vector refines a map from pointers to priorities.  Every
    sequence of writer operations that the map accepts runs without a failed
    assertion; at each point the vector that readers iterate over is sorted by
    decreasing priority, and after [pvector_publish] it holds exactly the
    entries of the map. *)
Theorem pvector_refines_map `{Qsort} (ops : list pv_op) (m : gmap Z Z) :
  run abs_step ∅ ops = Some m ->
  exists pvec, run pv_step pvector_init ops = Some pvec /\
    StronglySorted entry_le (pi_vector (pv_impl pvec)) /\
    forall e, In e (pi_vector (pv_impl (pvector_publish pvec))) <-> m !! pe_ptr e = Some (pe_priority e).
Proof.
  intros Hrun. enough (forall pvec m0, pv_repr pvec m0 -> run abs_step m0 ops = Some m ->
    exists pvec', run pv_step pvec ops = Some pvec' /\ pv_repr pvec' m) as Hgen.
  { destruct (Hgen pvector_init ∅) as (pvec & Hr & [Hwf He]); [|done|].
    - split; [apply pvector_init_wf|]. intros e. cbn. by rewrite lookup_empty.
    - exists pvec. split_and!; [done|apply Hwf|]. intros e.
      destruct (pvector_publish_wf pvec Hwf) as (_ & Hp & _). by rewrite Hp, He. }
  clear Hrun. induction ops as [|op ops IH]; intros pvec m0 Hr Hrun; cbn [run] in *; [exists pvec; by simplify_eq|].
  destruct op as [ptr p|ptr|ptr p|]; cbn [abs_step pv_step] in *.
  - case_decide; [|done]. apply (IH _ (<[ptr := p]> m0)); [by apply insert_repr|done].
  - case_decide; [done|]. destruct (remove_repr pvec m0 ptr Hr) as (pvec' & -> & Hr'); [done|].
    by apply (IH _ (delete ptr m0)).
  - case_decide; [done|]. destruct (change_repr pvec m0 ptr p Hr) as (pvec' & -> & Hr'); [done|].
    by apply (IH _ (<[ptr := p]> m0)).
  - apply (IH _ m0); [|done]. destruct Hr as [Hwf He]. destruct (pvector_publish_wf pvec Hwf) as (Hwf' & Hp & Ht).
    split; [done|]. intros e. unfold pv_entries. rewrite Ht. cbn. by rewrite Hp.
Qed.

Lemma pvector_refines_map_witness :
  exists pvec, run pv_step pvector_init [PvInsert 1 5; PvInsert 2 9; PvChange 1 12; PvRemove 2; PvPublish] = Some pvec /\
    StronglySorted entry_le (pi_vector (pv_impl pvec)) /\
    forall e, In e (pi_vector (pv_impl (pvector_publish pvec))) <->
      (delete 2 (<[1 := 12]> (<[2 := 9]> (<[1 := 5]> (∅ : gmap Z Z))))) !! pe_ptr e = Some (pe_priority e).
Proof. apply pvector_refines_map. vm_compute. reflexivity. Defined.
