(* ===== verification/Classifier.v ===== *)
(** * The tuple space search classifier (lib/classifier.c)

    Data and operations.  Rules with the same mask share a subtable; within a
    subtable, rules with the same flow form a list of decreasing priority whose
    head is in the hash table [rules].  The model is of the exclusive writer
    and of readers that run between its operations: what [ovsrcu_postpone]
    frees later stays readable in [cls_heap].

    [struct cmap] is a list of nodes with their hashes, and [struct ccmap] a
    count per hash: the behaviour that the comments of lib/cmap.c and
    lib/ccmap.c promise to a single thread. *)

From S2P Require Import Prelude Util Flowmap Hash Miniflow MetaFlow Trie FlowBits Versions Pvector.
From stdpp Require Import prelude list gmap.
From Stdlib Require Import ZArith Lia.
Open Scope Z_scope.
Open Scope ovs_scope.

Definition CLS_MAX_INDICES : nat := 3.
Definition CLS_MAX_TRIES : nat := 4.

(** ** Rules and matches *)

Record cls_conjunction := ClsConjunction { cj_id : Z; cj_clause : Z; cj_n_clauses : Z }.

#[global] Instance cls_conjunction_eq_dec : EqDecision cls_conjunction.
Proof. solve_decision. Defined.

(** [struct cls_conjunction_set]; its [match] link is kept by whoever holds the set. *)
Record cls_conjunction_set := ClsConjunctionSet {
  cs_priority : Z;
  cs_min_n_clauses : Z;
  cs_conj : list cls_conjunction
}.

(** [struct cls_rule]; [cr_id] stands for its address. *)
Record cls_rule := ClsRule { cr_id : Z; cr_priority : Z; cr_match : minimatch }.

(** [struct cls_match]; the [next] links are the lists of [st_rules]. *)
Record cls_match := ClsMatch {
  cm_rule : cls_rule;
  cm_priority : Z;
  cm_versions : versions;
  cm_flow : miniflow;
  cm_conj_set : option cls_conjunction_set
}.

Definition cls_conjunction_set_alloc (priority : Z) (conj : list cls_conjunction)
  : option cls_conjunction_set :=
  match conj with
  | [] => None
  | c :: rest =>
      Some (ClsConjunctionSet priority
              (foldl (fun m c => Z.min m (cj_n_clauses c)) (cj_n_clauses c) rest) conj)
  end.

Definition cls_match_alloc (rule : cls_rule) (version : Z) (conj : list cls_conjunction) : cls_match :=
  ClsMatch rule (cr_priority rule) (VERSIONS_INITIALIZER version version)
    (miniflow_clone (mm_flow (cr_match rule)) (miniflow_n_values (mm_flow (cr_match rule))))
    (cls_conjunction_set_alloc (cr_priority rule) conj).

Definition cls_match_set_remove_version (rule : cls_match) (version : Z) : cls_match :=
  ClsMatch (cm_rule rule) (cm_priority rule) (versions_set_remove_version (cm_versions rule) version)
    (cm_flow rule) (cm_conj_set rule).

Definition cls_match_visible_in_version (rule : cls_match) (version : Z) : bool :=
  versions_visible_in_version (cm_versions rule) version.

Definition cls_match_is_eventually_invisible (rule : cls_match) : bool :=
  versions_is_eventually_invisible (cm_versions rule).

(** A pointer to a match of a list, with the matches that follow it. *)
Record match_ptr := MatchPtr { mp_match : cls_match; mp_next : list cls_match }.

(** [CLS_MATCH_FOR_EACH] up to the first visible match. *)
Fixpoint first_visible (version : Z) (l : list cls_match) : option match_ptr :=
  match l with
  | [] => None
  | rule :: next =>
      if cls_match_visible_in_version rule version then Some (MatchPtr rule next)
      else first_visible version next
  end.

Definition next_visible_rule_in_list (rule : match_ptr) (version : Z) : option match_ptr :=
  first_visible version (mp_next rule).

(** ** Subtables *)

(** [struct ccmap]: the counts that are not zero. *)
Abbreviation ccmap := (gmap Z nat).

Definition ccmap_find (m : ccmap) (hash : Z) : nat := default 0%nat (m !! hash).

Definition ccmap_inc (m : ccmap) (hash : Z) : ccmap := <[hash := S (ccmap_find m hash)]> m.

(** [None] is the failed assertion that the count is not zero. *)
Definition ccmap_dec (m : ccmap) (hash : Z) : option ccmap :=
  match ccmap_find m hash with
  | O => None
  | S O => Some (delete hash m)
  | S n => Some (<[hash := n]> m)
  end.

(** [st_rules] has, for each head, its hash and the list that it starts. *)
Record cls_subtable := ClsSubtable {
  st_max_priority : Z;
  st_max_count : Z;
  st_rules_list : list cls_rule;
  st_n_indices : nat;
  st_index_maps : list flowmap;
  st_trie_plen : list nat;
  st_ports_mask_len : nat;
  st_indices : list ccmap;
  st_ports_trie : trie;
  st_rules : list (Z * list cls_match);
  st_mask : minimask
}.

(** [struct classifier_tss].  [cls_heap] holds the subtables by address, those
    waiting to be freed included; [cls_next] is the next free address. *)
Record classifier := Classifier {
  cls_n_rules : Z;
  cls_flow_segments : list nat;
  cls_subtables_map : list (Z * Z);
  cls_subtables : pvector;
  cls_tries : list cls_trie;
  cls_n_tries : nat;
  cls_publish : bool;
  cls_heap : gmap Z cls_subtable;
  cls_next : Z
}.

Definition set_n_rules (n : Z) (cls : classifier) : classifier :=
  Classifier n (cls_flow_segments cls) (cls_subtables_map cls) (cls_subtables cls) (cls_tries cls)
    (cls_n_tries cls) (cls_publish cls) (cls_heap cls) (cls_next cls).

Definition set_subtables (v : pvector) (cls : classifier) : classifier :=
  Classifier (cls_n_rules cls) (cls_flow_segments cls) (cls_subtables_map cls) v (cls_tries cls)
    (cls_n_tries cls) (cls_publish cls) (cls_heap cls) (cls_next cls).

Definition set_subtables_map (m : list (Z * Z)) (cls : classifier) : classifier :=
  Classifier (cls_n_rules cls) (cls_flow_segments cls) m (cls_subtables cls) (cls_tries cls)
    (cls_n_tries cls) (cls_publish cls) (cls_heap cls) (cls_next cls).

Definition set_tries (t : list cls_trie) (n : nat) (cls : classifier) : classifier :=
  Classifier (cls_n_rules cls) (cls_flow_segments cls) (cls_subtables_map cls) (cls_subtables cls) t
    n (cls_publish cls) (cls_heap cls) (cls_next cls).

Definition set_publish (p : bool) (cls : classifier) : classifier :=
  Classifier (cls_n_rules cls) (cls_flow_segments cls) (cls_subtables_map cls) (cls_subtables cls)
    (cls_tries cls) (cls_n_tries cls) p (cls_heap cls) (cls_next cls).

(** Writing to the subtable at an address. *)
Definition store (id : Z) (st : cls_subtable) (cls : classifier) : classifier :=
  Classifier (cls_n_rules cls) (cls_flow_segments cls) (cls_subtables_map cls) (cls_subtables cls)
    (cls_tries cls) (cls_n_tries cls) (cls_publish cls) (<[id := st]> (cls_heap cls)) (cls_next cls).

Definition set_priorities (max_priority max_count : Z) (st : cls_subtable) : cls_subtable :=
  ClsSubtable max_priority max_count (st_rules_list st) (st_n_indices st) (st_index_maps st)
    (st_trie_plen st) (st_ports_mask_len st) (st_indices st) (st_ports_trie st) (st_rules st) (st_mask st).

Definition set_rules_list (l : list cls_rule) (st : cls_subtable) : cls_subtable :=
  ClsSubtable (st_max_priority st) (st_max_count st) l (st_n_indices st) (st_index_maps st)
    (st_trie_plen st) (st_ports_mask_len st) (st_indices st) (st_ports_trie st) (st_rules st) (st_mask st).

Definition set_trie_plen (l : list nat) (st : cls_subtable) : cls_subtable :=
  ClsSubtable (st_max_priority st) (st_max_count st) (st_rules_list st) (st_n_indices st)
    (st_index_maps st) l (st_ports_mask_len st) (st_indices st) (st_ports_trie st) (st_rules st) (st_mask st).

Definition set_rules (l : list (Z * list cls_match)) (st : cls_subtable) : cls_subtable :=
  ClsSubtable (st_max_priority st) (st_max_count st) (st_rules_list st) (st_n_indices st)
    (st_index_maps st) (st_trie_plen st) (st_ports_mask_len st) (st_indices st) (st_ports_trie st) l
    (st_mask st).

(** The structures that the heads, and only they, are in. *)
Definition set_lookup (ports : trie) (indices : list ccmap) (l : list (Z * list cls_match))
    (st : cls_subtable) : cls_subtable :=
  ClsSubtable (st_max_priority st) (st_max_count st) (st_rules_list st) (st_n_indices st)
    (st_index_maps st) (st_trie_plen st) (st_ports_mask_len st) indices ports l (st_mask st).

(** The subtables of [subtables_map], with their addresses, in the order of iteration. *)
Definition subtables_of (cls : classifier) : list (Z * cls_subtable) :=
  omap (fun e => st ← cls_heap cls !! snd e; Some (snd e, st)) (cls_subtables_map cls).

(** ** Initialization *)

(** [flow_segments] ends with an entry that is not below [FLOW_U64S]. *)
Fixpoint read_flow_segments (room : nat) (flow_segments : list nat) : list nat :=
  match room, flow_segments with
  | S room, s :: rest => if (s <? FLOW_U64S)%nat then s :: read_flow_segments room rest else []
  | _, _ => []
  end.

Definition classifier_init_tss (flow_segments : list nat) : classifier :=
  Classifier 0 (read_flow_segments CLS_MAX_INDICES flow_segments) [] pvector_init
    (replicate CLS_MAX_TRIES (ClsTrie None TNull)) 0 true ∅ 1.

(** The boundaries that lib/flow.c provides, for the layout of [struct flow]. *)
Definition flow_segment_u64s : list nat := [59; 64; 75; FLOW_U64S]%nat.

Definition classifier_defer (cls : classifier) : classifier := set_publish false cls.

Definition classifier_publish `{Qsort} (cls : classifier) : classifier :=
  set_subtables (pvector_publish (cls_subtables cls)) (set_publish true cls).

Definition classifier_is_empty (cls : classifier) : bool := (length (cls_subtables_map cls) =? 0)%nat.

Definition classifier_count (cls : classifier) : Z := cls_n_rules cls.

(** ** Subtables of a classifier *)

Definition find_subtable `{Hash} (cls : classifier) (mask : minimask) : option (Z * cls_subtable) :=
  let hash := minimask_hash mask 0 in
  match List.find (fun e : Z * (Z * cls_subtable) =>
                     (fst e =? hash) && minimask_equal mask (st_mask (snd (snd e))))
          (omap (fun e => st ← cls_heap cls !! snd e; Some (fst e, (snd e, st))) (cls_subtables_map cls)) with
  | Some e => Some (snd e)
  | None => None
  end.

(** [while (start >= MAP_T_BITS)]; [start] is a byte, so at most three rounds. *)
Fixpoint clear_units_before (fuel : nat) (map : flowmap) (start ofs : nat) : flowmap * nat * nat :=
  match fuel with
  | O => (map, start, ofs)
  | S fuel =>
      if (MAP_T_BITS <=? start)%nat
      then clear_units_before fuel (<[((start - MAP_T_BITS) / MAP_T_BITS)%nat := 0]> map)
             (start - MAP_T_BITS) (ofs + MAP_T_BITS)
      else (map, start, ofs)
  end.

(** [None] is the failed assertion on [end]. *)
Definition miniflow_get_map_in_range (mf : miniflow) (start end_ : nat) : option flowmap :=
  let '(map, start, ofs) := clear_units_before 3 (mf_map mf) start 0 in
  let map := if (0 <? start)%nat then flowmap_clear map ofs start else map in
  if (end_ <? FLOW_U64S)%nat then
    if (FLOW_U64S - end_ <=? MAP_T_BITS)%nat
    then Some (flowmap_clear map end_ (FLOW_U64S - end_)) else None
  else Some map.

(** The maps of the stages that add mask bits, and the last boundary. *)
Definition stage_step (mask : minimask) (acc : option (list flowmap * nat)) (segment : nat)
  : option (list flowmap * nat) :=
  '(maps, prev) ← acc;
  stage_map ← miniflow_get_map_in_range mask prev segment;
  Some (if flowmap_is_empty stage_map then maps else maps ++ [stage_map], segment).

(** [index_maps] and [n_indices] of a new subtable. *)
Definition subtable_stages (segments : list nat) (mask : minimask) : option (list flowmap * nat) :=
  '(maps, prev) ← foldl (stage_step mask) (Some ([], 0%nat)) segments;
  final ← miniflow_get_map_in_range mask prev FLOW_U64S;
  let index := length maps in
  Some (maps ++ [final], if ((0 <? index)%nat && flowmap_is_empty final) then (index - 1)%nat else index).

(** [subtable->trie_plen]; the entries from [n_tries] on stay zero. *)
Definition subtable_trie_plen (tries : list cls_trie) (n_tries : nat) (mask : minimask) : list nat :=
  map (fun t => match ct_field t with Some mf => minimask_get_prefix_len mask mf | None => 0%nat end)
    (firstn n_tries tries) ++ replicate (CLS_MAX_TRIES - n_tries) 0%nat.

Definition insert_subtable `{Hash} (cls : classifier) (mask : minimask) : option (classifier * Z) :=
  '(index_maps, n_indices) ← subtable_stages (cls_flow_segments cls) mask;
  let subtable :=
    ClsSubtable 0 0 [] n_indices index_maps
      (subtable_trie_plen (cls_tries cls) (cls_n_tries cls) mask)
      (Z.to_nat (32 - ctz32 (miniflow_get_ports mask)))
      (replicate n_indices ∅) TNull [] (miniflow_clone mask (miniflow_n_values mask)) in
  let id := cls_next cls in
  Some (Classifier (cls_n_rules cls) (cls_flow_segments cls)
          (cls_subtables_map cls ++ [(minimask_hash mask 0, id)]) (cls_subtables cls) (cls_tries cls)
          (cls_n_tries cls) (cls_publish cls) (<[id := subtable]> (cls_heap cls)) (id + 1), id).

(** [None] is the failed assertion of [pvector_remove]. *)
Definition destroy_subtable (cls : classifier) (id : Z) : option classifier :=
  v ← pvector_remove (cls_subtables cls) id;
  Some (set_subtables_map (List.filter (fun e => negb (snd e =? id)) (cls_subtables_map cls))
          (set_subtables v cls)).

(** ** Prefix tries of a classifier *)

Definition trie_destroy (t : cls_trie) : cls_trie := ClsTrie None TNull.

(** Adding the heads of a subtable to a trie. *)
Definition trie_insert_heads (t : cls_trie) (plen : nat) (rules : list (Z * list cls_match)) : cls_trie :=
  foldl (fun t e => match snd e with
                    | head :: _ => trie_insert t (cr_match (cm_rule head)) plen
                    | [] => t
                    end) t rules.

Definition trie_init_step (trie_idx : nat) (field : mf_field) (acc : cls_trie * classifier)
    (e : Z * cls_subtable) : cls_trie * classifier :=
  let '(t, cls) := acc in
  let '(id, subtable) := e in
  let plen := minimask_get_prefix_len (st_mask subtable) field in
  (if (plen =? 0)%nat then t else trie_insert_heads t plen (st_rules subtable),
   store id (set_trie_plen (<[trie_idx := plen]> (st_trie_plen subtable)) subtable) cls).

(** [None] is the failed assertion that the trie has no field. *)
Definition trie_init (cls : classifier) (trie_idx : nat) (field : mf_field) : option classifier :=
  match ct_field (nth trie_idx (cls_tries cls) (ClsTrie None TNull)) with
  | Some _ => None
  | None =>
      let '(t, cls) := foldl (trie_init_step trie_idx field) (ClsTrie (Some field) TNull, cls)
                         (subtables_of cls) in
      Some (set_tries (<[trie_idx := t]> (cls_tries cls)) (cls_n_tries cls) cls)
  end.

#[global] Instance mf_prereqs_eq_dec : EqDecision mf_prereqs.
Proof. solve_decision. Defined.

#[global] Instance mf_field_eq_dec : EqDecision mf_field.
Proof. solve_decision. Defined.

(** State of the first loop of [classifier_set_prefix_fields]: [new_fields], the
    fields seen so far, and [first_changed] when [changed] is set. *)
Definition prefix_field_step (cls : classifier) (mf_from_id : Z -> mf_field)
    (st : list (option mf_field) * list Z * option nat) (id : Z)
  : list (option mf_field) * list Z * option nat :=
  let '(new_fields, seen, changed) := st in
  let n_tries := length new_fields in
  let field := mf_from_id id in
  if negb (n_tries <? CLS_MAX_TRIES)%nat then st
  else if bool_decide (mff_flow_be32ofs field = None) || negb (mff_n_bits field mod 32 =? 0)%nat then st
  else if bool_decide (id ∈ seen) then st
  else if (cls_n_tries cls <=? n_tries)%nat
          || bool_decide (ct_field (nth n_tries (cls_tries cls) (ClsTrie None TNull)) <> Some field)
  then (new_fields ++ [Some field], id :: seen,
        Some (default n_tries changed))
  else (new_fields ++ [None], id :: seen, changed).

(** Destroying the tries [i], ..., [n - 1]. *)
Definition destroy_tries (i n : nat) (tries : list cls_trie) : list cls_trie :=
  foldl (fun tries k => alter trie_destroy k tries) tries (seq i (n - i)).

Definition set_up_trie (acc : option classifier) (e : nat * option mf_field) : option classifier :=
  cls ← acc;
  match snd e with
  | None => Some cls
  | Some field =>
      trie_init (set_tries (alter trie_destroy (fst e) (cls_tries cls)) (cls_n_tries cls) cls) (fst e) field
  end.

Definition classifier_set_prefix_fields (cls : classifier) (mf_from_id : Z -> mf_field)
    (trie_fields : list Z) : option (classifier * bool) :=
  let '(new_fields, _, changed) :=
    foldl (prefix_field_step cls mf_from_id) ([], [], None) trie_fields in
  let n_tries := length new_fields in
  let old_n_tries := cls_n_tries cls in
  if bool_decide (is_Some changed) || (n_tries <? old_n_tries)%nat then
    let first_changed := default n_tries changed in
    let cls := set_tries (cls_tries cls) first_changed cls in
    cls ← foldl set_up_trie (Some cls)
            (skipn first_changed (combine (seq 0 n_tries) new_fields));
    Some (set_tries (destroy_tries n_tries old_n_tries (cls_tries cls)) n_tries cls, true)
  else Some (cls, false).

(** ** Rules of a subtable *)

(** [CMAP_FOR_EACH_WITH_HASH] over the heads, up to the first equal one. *)
Definition find_equal (subtable : cls_subtable) (f : miniflow) (hash : Z) : option (list cls_match) :=
  match List.find (fun e : Z * list cls_match =>
                     (fst e =? hash) &&
                     match snd e with head :: _ => miniflow_equal (cm_flow head) f | [] => false end)
          (st_rules subtable) with
  | Some e => Some (snd e)
  | None => None
  end.

Definition same_rule (rule : cls_rule) (m : cls_match) : bool := cr_id (cm_rule m) =? cr_id rule.

(** The list that starts at the head [head] becomes [l]: [cmap_replace] when the
    head changes, a change of [next] links otherwise. *)
Definition set_chain (head : cls_match) (l : list cls_match) (rules : list (Z * list cls_match))
  : list (Z * list cls_match) :=
  map (fun e => match snd e with
                | h :: _ => if same_rule (cm_rule head) h then (fst e, l) else e
                | [] => e
                end) rules.

(** [cmap_remove] of the head of [rule]. *)
Definition remove_chain (rule : cls_rule) (rules : list (Z * list cls_match)) : list (Z * list cls_match) :=
  List.filter (fun e => match snd e with h :: _ => negb (same_rule rule h) | [] => true end) rules.

(** The hashes of the stages [maps] in turn. *)
Fixpoint hash_stages `{Hash} (m : minimatch) (maps : list flowmap) (mask_offset : nat) (basis : Z) : list Z :=
  match maps with
  | [] => []
  | map :: maps =>
      let '(hash, mask_offset, basis) := minimatch_hash_range m map mask_offset basis in
      hash :: hash_stages m maps mask_offset basis
  end.

(** [ihash] and [hash]. *)
Definition rule_hashes `{Hash} (subtable : cls_subtable) (m : minimatch) : list Z * Z :=
  let n_indices := st_n_indices subtable in
  let hashes := hash_stages m (firstn (S n_indices) (st_index_maps subtable)) 0 0 in
  (firstn n_indices hashes, nth n_indices hashes 0).

(** [trie_op] on the tries with a prefix of the subtable. *)
Definition update_tries (trie_op : cls_trie -> minimatch -> nat -> cls_trie) (plens : list nat)
    (n_tries : nat) (m : minimatch) (tries : list cls_trie) : list cls_trie :=
  imap (fun i t => let plen := nth i plens 0%nat in
                   if ((i <? n_tries) && (0 <? plen))%nat then trie_op t m plen else t) tries.

(** Whether [rule] goes before [iter]: the first such [iter] ends the scan. *)
Definition insertion_point (rule : cls_rule) (iter : cls_match) : bool :=
  (cm_priority iter <? cr_priority rule)
  || ((cr_priority rule =? cm_priority iter) && negb (cls_match_is_eventually_invisible iter)).

(** The list with [new] in it, and the match that [new] replaces. *)
Fixpoint insert_in_list (new : cls_match) (l : list cls_match) : list cls_match * option cls_match :=
  match l with
  | [] => ([new], None)
  | iter :: next =>
      if insertion_point (cm_rule new) iter then
        if cm_priority new =? cm_priority iter then (new :: next, Some iter) else (new :: iter :: next, None)
      else let '(l, old) := insert_in_list new next in (iter :: l, old)
  end.

(** A rule that is the first of its flow: it enters the tries, the ports trie,
    the stage indices and the hash table. *)
Definition insert_head (cls : classifier) (id : Z) (subtable : cls_subtable) (new : cls_match)
    (ihash : list Z) (hash : Z) : classifier * cls_subtable :=
  let m := cr_match (cm_rule new) in
  let tries := update_tries trie_insert (st_trie_plen subtable) (cls_n_tries cls) m (cls_tries cls) in
  let ports :=
    if (0 <? st_ports_mask_len subtable)%nat
    then trie_insert_prefix (st_ports_trie subtable) [minimatch_get_ports m] (st_ports_mask_len subtable)
    else st_ports_trie subtable in
  let indices := zip_with ccmap_inc (st_indices subtable) ihash in
  (set_tries tries (cls_n_tries cls) cls,
   set_lookup ports indices (st_rules subtable ++ [(hash, [new])]) subtable).

(** The maximum priority of the subtable after the insertion of [rule], with the
    pvector; [n_rules] is what [cmap_insert] returned, or 0. *)
Definition insert_priority (v : pvector) (id : Z) (subtable : cls_subtable) (rule : cls_rule)
    (n_rules : nat) : option (pvector * cls_subtable) :=
  let priority := cr_priority rule in
  if (n_rules =? 1)%nat then Some (pvector_insert v id priority, set_priorities priority 1 subtable)
  else if priority =? st_max_priority subtable
  then Some (v, set_priorities (st_max_priority subtable) (u32 (st_max_count subtable + 1)) subtable)
  else if st_max_priority subtable <? priority
  then v ← pvector_change_priority v id priority; Some (v, set_priorities priority 1 subtable)
  else Some (v, subtable).

Definition maybe_publish `{Qsort} (cls : classifier) : classifier :=
  if cls_publish cls then set_subtables (pvector_publish (cls_subtables cls)) cls else cls.

(** The subtable of a rule, made if there is none. *)
Definition get_subtable `{Hash} (cls : classifier) (mask : minimask)
  : option (classifier * Z * cls_subtable) :=
  match find_subtable cls mask with
  | Some (id, st) => Some (cls, id, st)
  | None =>
      '(cls, id) ← insert_subtable cls mask;
      st ← cls_heap cls !! id;
      Some (cls, id, st)
  end.

(** The end of [classifier_replace] when nothing is replaced. *)
Definition finish_insert `{Qsort} (cls : classifier) (id : Z) (subtable : cls_subtable) (rule : cls_rule)
    (n_rules : nat) : option (classifier * option cls_rule) :=
  let subtable := set_rules_list (st_rules_list subtable ++ [rule]) subtable in
  '(v, subtable) ← insert_priority (cls_subtables cls) id subtable rule n_rules;
  let cls := set_n_rules (cls_n_rules cls + 1) (store id subtable (set_subtables v cls)) in
  Some (maybe_publish cls, None).

(** [None] is a failed assertion.  No step between the insertion of the new match
    and the end reads its version, so the model inserts it already visible. *)
Definition classifier_replace `{Hash} `{Qsort} (cls : classifier) (rule : cls_rule) (version : Z)
    (conjs : list cls_conjunction) : option (classifier * option cls_rule) :=
  let new := cls_match_set_remove_version (cls_match_alloc rule version conjs) OVS_VERSION_NOT_REMOVED in
  '(cls, id, subtable) ← get_subtable cls (mm_mask (cr_match rule));
  let '(ihash, hash) := rule_hashes subtable (cr_match rule) in
  match find_equal subtable (mm_flow (cr_match rule)) hash with
  | None | Some [] =>
      let '(cls, subtable) := insert_head cls id subtable new ihash hash in
      finish_insert cls id subtable rule (length (st_rules subtable))
  | Some (head :: next) =>
      let '(l, replaced) := insert_in_list new (head :: next) in
      let subtable := set_rules (set_chain head l (st_rules subtable)) subtable in
      match replaced with
      | Some old =>
          let rules_list :=
            map (fun r => if cr_id r =? cr_id (cm_rule old) then rule else r) (st_rules_list subtable) in
          Some (store id (set_rules_list rules_list subtable) cls, Some (cm_rule old))
      | None => finish_insert cls id subtable rule 0
      end
  end.

(** [None] is a failed assertion, also that nothing was displaced. *)
Definition classifier_insert `{Hash} `{Qsort} (cls : classifier) (rule : cls_rule) (version : Z)
    (conjs : list cls_conjunction) : option classifier :=
  match classifier_replace cls rule version conjs with
  | Some (cls, None) => Some cls
  | _ => None
  end.

(** ** The match of a rule *)

(** [rule->cls_match]: the match of the rule in the lists of the subtables, if
    the rule is in the classifier.  [classifier_replace] and [classifier_remove]
    set the pointer when they link and unlink the match. *)
Definition get_cls_match (cls : classifier) (rule : cls_rule) : option cls_match :=
  List.find (same_rule rule)
    (concat (map (fun e : Z * cls_subtable => concat (map snd (st_rules (snd e)))) (subtables_of cls))).

(** Writing through [rule->cls_match]. *)
Definition update_cls_match (cls : classifier) (rule : cls_rule) (f : cls_match -> cls_match) : classifier :=
  foldl (fun cls e =>
           store (fst e)
             (set_rules (map (fun c : Z * list cls_match =>
                                (fst c, map (fun m => if same_rule rule m then f m else m) (snd c)))
                           (st_rules (snd e))) (snd e)) cls)
    cls (subtables_of cls).

(** ** Removal *)

(** The new [max_priority] and [max_count] over the heads; the count starts at
    the zero that the decrement left. *)
Definition max_priority_of (rules : list (Z * list cls_match)) : Z * Z :=
  foldl (fun '(max_priority, max_count) (e : Z * list cls_match) =>
           match snd e with
           | head :: _ =>
               if max_priority <? cm_priority head then (cm_priority head, 1)
               else if cm_priority head =? max_priority then (max_priority, u32 (max_count + 1))
               else (max_priority, max_count)
           | [] => (max_priority, max_count)
           end) (INT_MIN, 0) rules.

(** From the label [check_priority]. *)
Definition check_priority (v : pvector) (id : Z) (subtable : cls_subtable) (priority : Z)
  : option (pvector * cls_subtable) :=
  if st_max_priority subtable =? priority then
    let max_count := u32 (st_max_count subtable - 1) in
    if max_count =? 0 then
      let '(max_priority, max_count) := max_priority_of (st_rules subtable) in
      v ← pvector_change_priority v id max_priority;
      Some (v, set_priorities max_priority max_count subtable)
    else Some (v, set_priorities (st_max_priority subtable) max_count subtable)
  else Some (v, subtable).

(** Removal of the only rule with its flow. *)
Definition remove_head (cls : classifier) (subtable : cls_subtable) (rule : cls_rule) (ihash : list Z)
  : option (classifier * cls_subtable) :=
  let m := cr_match rule in
  let ports :=
    if (0 <? st_ports_mask_len subtable)%nat
    then trie_remove_prefix (st_ports_trie subtable) [minimatch_get_ports m] (st_ports_mask_len subtable)
    else st_ports_trie subtable in
  let tries := update_tries trie_remove (st_trie_plen subtable) (cls_n_tries cls) m (cls_tries cls) in
  indices ← mapM (fun '(c, h) => ccmap_dec c h) (combine (st_indices subtable) ihash);
  Some (set_tries tries (cls_n_tries cls) cls,
        set_lookup ports indices (remove_chain rule (st_rules subtable)) subtable).

(** [check_priority] and the store of the subtable. *)
Definition finish_remove (cls : classifier) (id : Z) (subtable : cls_subtable) (priority : Z)
  : option classifier :=
  '(v, subtable) ← check_priority (cls_subtables cls) id subtable priority;
  Some (store id subtable (set_subtables v cls)).

(** Unlinking [rule] from the list of equal rules [chain]. *)
Definition remove_from_chain (cls : classifier) (id : Z) (subtable : cls_subtable) (rule : cls_rule)
    (priority : Z) (ihash : list Z) (chain : list cls_match) : option classifier :=
  match chain with
  | [] => None
  | head :: next =>
      if negb (same_rule rule head) then
        if existsb (same_rule rule) next then
          finish_remove cls id
            (set_rules (set_chain head (head :: List.filter (fun m => negb (same_rule rule m)) next)
                          (st_rules subtable)) subtable) priority
        else None
      else if (0 <? length next)%nat then
        finish_remove cls id (set_rules (set_chain head next (st_rules subtable)) subtable) priority
      else
        '(cls, subtable) ← remove_head cls subtable rule ihash;
        if (length (st_rules subtable) =? 0)%nat
        then destroy_subtable (store id subtable cls) id
        else finish_remove cls id subtable priority
  end.

(** [None] is a failed assertion. *)
Definition classifier_remove `{Hash} `{Qsort} (cls : classifier) (rule : cls_rule)
  : option (classifier * bool) :=
  match get_cls_match cls rule with
  | None => Some (cls, false)
  | Some m =>
      '(id, subtable) ← find_subtable cls (mm_mask (cr_match rule));
      let subtable :=
        set_rules_list (List.filter (fun r => negb (cr_id r =? cr_id rule)) (st_rules_list subtable))
          subtable in
      let '(ihash, hash) := rule_hashes subtable (cr_match rule) in
      chain ← find_equal subtable (mm_flow (cr_match rule)) hash;
      cls ← remove_from_chain cls id subtable rule (cm_priority m) ihash chain;
      let cls := maybe_publish cls in
      Some (set_n_rules (cls_n_rules cls - 1) cls, true)
  end.

(** [None] is a failed assertion, also that the rule was in the classifier. *)
Definition classifier_remove_assert `{Hash} `{Qsort} (cls : classifier) (rule : cls_rule) : option classifier :=
  match classifier_remove cls rule with
  | Some (cls, true) => Some cls
  | _ => None
  end.

(** Freeing the tries and the subtables. *)
Definition classifier_destroy_tss (cls : classifier) : option classifier :=
  foldl (fun acc e => cls ← acc; destroy_subtable cls (snd e))
    (Some (set_tries (destroy_tries 0 (cls_n_tries cls) (cls_tries cls)) (cls_n_tries cls) cls))
    (cls_subtables_map cls).

(** ** Properties of rules *)

Definition cls_rule_init (id : Z) (m : match_) (priority : Z) : cls_rule :=
  ClsRule id priority (minimatch_init m).

Definition minimatch_clone (m : minimatch) : minimatch :=
  let n := miniflow_n_values (mm_mask m) in
  Minimatch (Miniflow (mf_map (mm_mask m)) (firstn n (mf_values (mm_flow m))))
    (Miniflow (mf_map (mm_mask m)) (firstn n (mf_values (mm_mask m)))).

Definition cls_rule_init_from_minimatch (id : Z) (m : minimatch) (priority : Z) : cls_rule :=
  ClsRule id priority (minimatch_clone m).

Definition cls_rule_clone (id : Z) (src : cls_rule) : cls_rule :=
  ClsRule id (cr_priority src) (minimatch_clone (cr_match src)).

Definition cls_rule_equal (a b : cls_rule) : bool :=
  (cr_priority a =? cr_priority b) && minimatch_equal (cr_match a) (cr_match b).

Definition cls_rule_is_catchall (rule : cls_rule) : bool := minimask_is_catchall (mm_mask (cr_match rule)).

Definition cls_rule_visible_in_version (cls : classifier) (rule : cls_rule) (version : Z) : bool :=
  match get_cls_match cls rule with
  | Some m => cls_match_visible_in_version m version
  | None => false
  end.

(** [None]: the rule is not in the classifier, or the assertion fails. *)
Definition cls_rule_make_invisible_in_version (cls : classifier) (rule : cls_rule) (remove_version : Z)
  : option classifier :=
  m ← get_cls_match cls rule;
  if add_version (cm_versions m) <=? remove_version
  then Some (update_cls_match cls rule (fun m => cls_match_set_remove_version m remove_version)) else None.

Definition cls_rule_restore_visibility (cls : classifier) (rule : cls_rule) : option classifier :=
  _ ← get_cls_match cls rule;
  Some (update_cls_match cls rule (fun m => cls_match_set_remove_version m OVS_VERSION_NOT_REMOVED)).

Definition set_conj_set (conj : list cls_conjunction) (m : cls_match) : cls_match :=
  let old_conj := match cm_conj_set m with Some s => cs_conj s | None => [] end in
  if bool_decide (old_conj <> conj)
  then ClsMatch (cm_rule m) (cm_priority m) (cm_versions m) (cm_flow m)
         (cls_conjunction_set_alloc (cm_priority m) conj)
  else m.

Definition cls_rule_set_conjunctions (cls : classifier) (cr : cls_rule) (conj : list cls_conjunction)
  : option classifier :=
  _ ← get_cls_match cls cr;
  Some (update_cls_match cls cr (set_conj_set conj)).

Definition cls_rule_is_loose_match (rule : cls_rule) (criteria : minimatch) : bool :=
  negb (minimask_has_extra (mm_mask (cr_match rule)) (mm_mask criteria))
  && miniflow_equal_in_minimask (mm_flow (cr_match rule)) (mm_flow criteria) (mm_mask criteria).

(** ** Lookup in a subtable *)

(** [struct trie_ctx]. *)
Record trie_ctx := TrieCtx {
  tc_trie : cls_trie;
  tc_lookup_done : bool;
  tc_be32ofs : nat;
  tc_maskbits : nat;
  tc_match_plens : list Z
}.

Definition trie_ctx_init (t : cls_trie) : trie_ctx :=
  TrieCtx t false (match ct_field t with Some mf => be32ofs_of mf | None => 0%nat end) 0 plens_zero.

(** The on-demand lookup of [check_tries]. *)
Definition trie_ctx_lookup (ctx : trie_ctx) (f : flow) : trie_ctx :=
  if tc_lookup_done ctx then ctx
  else match ct_field (tc_trie ctx) with
       | Some mf =>
           let '(maskbits, plens) := trie_lookup mf (ct_root (tc_trie ctx)) f plens_zero in
           TrieCtx (tc_trie ctx) true (tc_be32ofs ctx) maskbits plens
       | None => ctx
       end.

(** [trie_ctx] has the [n_tries] contexts. *)
Fixpoint check_tries (ctxs : list trie_ctx) (field_plen : list nat) (range_map : flowmap) (f wc : flow)
  : bool * list trie_ctx * flow :=
  match ctxs, field_plen with
  | ctx :: ctxs, plen :: field_plen =>
      if (negb (plen =? 0)%nat && flowmap_is_set range_map (tc_be32ofs ctx / 2)) then
        let ctx := trie_ctx_lookup ctx f in
        if negb (be_get_bit_at (tc_match_plens ctx) (plen - 1)) then
          if (tc_maskbits ctx <=? plen)%nat
          then (true, ctx :: ctxs, mask_set_prefix_bits wc (tc_be32ofs ctx) (tc_maskbits ctx))
          else if mask_prefix_bits_set wc (tc_be32ofs ctx) (tc_maskbits ctx)
          then (true, ctx :: ctxs, wc)
          else let '(skip, ctxs, wc) := check_tries ctxs field_plen range_map f wc in
               (skip, ctx :: ctxs, wc)
        else let '(skip, ctxs, wc) := check_tries ctxs field_plen range_map f wc in
             (skip, ctx :: ctxs, wc)
      else let '(skip, ctxs, wc) := check_tries ctxs field_plen range_map f wc in
           (skip, ctx :: ctxs, wc)
  | _, _ => (false, ctxs, wc)
  end.

(** [CMAP_FOR_EACH_WITH_HASH]: a head that matches and has no visible rule does
    not end the search. *)
Fixpoint find_match_in (rules : list (Z * list cls_match)) (mask : minimask) (version : Z) (f : flow)
    (hash : Z) : option match_ptr :=
  match rules with
  | [] => None
  | (h, l) :: rules =>
      match (if (h =? hash)
                && match l with
                   | head :: _ => miniflow_and_mask_matches_flow (cm_flow head) mask f
                   | [] => false
                   end
             then first_visible version l else None) with
      | Some rule => Some rule
      | None => find_match_in rules mask version f hash
      end
  end.

Definition find_match (subtable : cls_subtable) (version : Z) (f : flow) (hash : Z) : option match_ptr :=
  find_match_in (st_rules subtable) (st_mask subtable) version f hash.

(** What the stages leave behind: [None] is the jump to [no_match]. *)
Record stage_state := StageState {
  ss_ctxs : list trie_ctx;
  ss_wc : flow;
  ss_stages_map : flowmap;
  ss_offset : nat;
  ss_basis : Z
}.

Definition no_match (subtable : cls_subtable) (ctxs : list trie_ctx) (wc : flow) (stages_map : flowmap)
    (ports_mask : option Z) : option match_ptr * list trie_ctx * flow :=
  let wc := flow_wildcards_fold_minimask_in_map wc (st_mask subtable) stages_map in
  (None, ctxs, match ports_mask with Some p => flow_set_be32 wc TP_PORTS_OFS32 p | None => wc end).

(** After the last stage. *)
Definition find_match_final `{Hash} (subtable : cls_subtable) (version : Z) (f : flow) (range : flowmap)
    (st : stage_state) : option match_ptr * list trie_ctx * flow :=
  let '(skip, ctxs, wc) := check_tries (ss_ctxs st) (st_trie_plen subtable) range f (ss_wc st) in
  if skip then no_match subtable ctxs wc (ss_stages_map st) None
  else
    let stages_map := flowmap_or (ss_stages_map st) range in
    let '(hash, _, _) := flow_hash_in_minimask_range f (st_mask subtable) range (ss_offset st) (ss_basis st) in
    match find_match subtable version f hash with
    | None =>
        if (0 <? st_ports_mask_len subtable)%nat then
          let ports_mask := miniflow_get_ports (st_mask subtable) in
          let value := Z.land (flow_be32 f TP_PORTS_OFS32) ports_mask in
          let '(mbits, _) := trie_lookup_value (st_ports_trie subtable) [value] [0] 32 in
          let ports_mask := Z.land ports_mask (be32_prefix_mask (Z.of_nat mbits)) in
          let ports_mask := Z.lor ports_mask (flow_be32 wc TP_PORTS_OFS32) in
          no_match subtable ctxs wc stages_map (Some ports_mask)
        else (None, ctxs, flow_wildcards_fold_minimask wc (st_mask subtable))
    | rule => (rule, ctxs, flow_wildcards_fold_minimask wc (st_mask subtable))
    end.

(** The stages that have an index, then the last one. *)
Fixpoint find_match_stages `{Hash} (subtable : cls_subtable) (version : Z) (f : flow)
    (stages : list (flowmap * ccmap)) (final : flowmap) (st : stage_state)
  : option match_ptr * list trie_ctx * flow :=
  match stages with
  | [] => find_match_final subtable version f final st
  | (range, index) :: stages =>
      let '(skip, ctxs, wc) := check_tries (ss_ctxs st) (st_trie_plen subtable) range f (ss_wc st) in
      if skip then no_match subtable ctxs wc (ss_stages_map st) None
      else
        let stages_map := flowmap_or (ss_stages_map st) range in
        let '(hash, offset, basis) :=
          flow_hash_in_minimask_range f (st_mask subtable) range (ss_offset st) (ss_basis st) in
        if (ccmap_find index hash =? 0)%nat then no_match subtable ctxs wc stages_map None
        else find_match_stages subtable version f stages final (StageState ctxs wc stages_map offset basis)
  end.

Definition find_match_wc `{Hash} (subtable : cls_subtable) (version : Z) (f : flow)
    (ctxs : list trie_ctx) (wc : option flow) : option match_ptr * list trie_ctx * option flow :=
  match wc with
  | None => (find_match subtable version f (flow_hash_in_minimask f (st_mask subtable) 0), ctxs, None)
  | Some wc =>
      let n_indices := st_n_indices subtable in
      let '(rule, ctxs, wc) :=
        find_match_stages subtable version f
          (combine (firstn n_indices (st_index_maps subtable)) (st_indices subtable))
          (nth n_indices (st_index_maps subtable) FLOWMAP_EMPTY_INITIALIZER)
          (StageState ctxs wc FLOWMAP_EMPTY_INITIALIZER 0 0) in
      (rule, ctxs, Some wc)
  end.

(** ** Conjunctive matches *)

(** An element of [soft]: a conjunction set with the match it belongs to. *)
Record soft_match := SoftMatch { sf_set : cls_conjunction_set; sf_match : match_ptr }.

Definition sf_priority (s : soft_match) : Z := cs_priority (sf_set s).

Definition soft_of (m : match_ptr) : option soft_match :=
  match cm_conj_set (mp_match m) with Some set => Some (SoftMatch set m) | None => None end.

(** [conj_flows] is a set of rules, by address; [None] is a null pointer. *)
Definition insert_conj_flows (conj_flows : option (gset Z)) (id priority : Z) (soft : list soft_match)
  : option (gset Z) :=
  flows ← conj_flows;
  Some (foldl (fun flows s =>
                 if negb (sf_priority s =? priority) then flows
                 else if existsb (fun c => cj_id c =? id) (cs_conj (sf_set s))
                 then {[cr_id (cm_rule (mp_match (sf_match s)))]} ∪ flows
                 else flows) flows soft).

(** The conjunctions of one set; [matches] has the clauses seen of each
    conjunction.  The result has the id of a conjunction with all its clauses. *)
Fixpoint find_conjunctive_match_loop (conjs : list cls_conjunction) (max_n_clauses : Z)
    (matches : gmap Z Z) : option Z * gmap Z Z :=
  match conjs with
  | [] => (None, matches)
  | c :: conjs =>
      if max_n_clauses <? cj_n_clauses c then find_conjunctive_match_loop conjs max_n_clauses matches
      else
        let clauses := default (u64 (Z.shiftl UINT64_MAX (Z.land (cj_n_clauses c) 63))) (matches !! cj_id c) in
        let clauses := Z.lor clauses (u64 (Z.shiftl 1 (cj_clause c))) in
        let matches := <[cj_id c := clauses]> matches in
        if clauses =? UINT64_MAX then (Some (cj_id c), matches)
        else find_conjunctive_match_loop conjs max_n_clauses matches
  end.

Definition find_conjunctive_match (set : cls_conjunction_set) (max_n_clauses : Z) (matches : gmap Z Z)
  : option Z * gmap Z Z :=
  if max_n_clauses <? cs_min_n_clauses set then (None, matches)
  else find_conjunctive_match_loop (cs_conj set) max_n_clauses matches.

(** [for (int i = 0; i < n_soft; )]: a match to delete is overwritten with the
    last one.  Each round passes an element or drops one. *)
Fixpoint delete_soft (fuel : nat) (hard_pri : Z) (soft : list (option soft_match)) (i : nat)
  : list (option soft_match) :=
  match fuel with
  | O => soft
  | S fuel =>
      match soft !! i with
      | None => soft
      | Some s =>
          if match s with None => true | Some s => sf_priority s <=? hard_pri end
          then delete_soft fuel hard_pri (take (length soft - 1) (<[i := default None (last soft)]> soft)) i
          else delete_soft fuel hard_pri soft (S i)
      end
  end.

(** [soft_pri] and [n_soft_pri]. *)
Definition soft_priority (soft : list soft_match) : Z * Z :=
  foldl (fun '(soft_pri, n) s =>
           if soft_pri <? sf_priority s then (sf_priority s, 1)
           else if sf_priority s =? soft_pri then (soft_pri, n + 1) else (soft_pri, n)) (INT_MIN, 0) soft.

(** Replacing the soft matches of the highest priority with the next ones of
    their lists. *)
Definition next_soft (version soft_pri : Z) (hard : option cls_match) (hard_pri : Z)
    (soft : list soft_match) : list (option soft_match) * option cls_match * Z :=
  foldl (fun '(res, hard, hard_pri) s =>
           if negb (sf_priority s =? soft_pri) then (res ++ [Some s], hard, hard_pri)
           else match next_visible_rule_in_list (sf_match s) version with
                | None => (res ++ [None], hard, hard_pri)
                | Some m =>
                    match soft_of m with
                    | Some s' => (res ++ [Some s'], hard, hard_pri)
                    | None =>
                        if hard_pri <? cm_priority (mp_match m)
                        then (res ++ [None], Some (mp_match m), cm_priority (mp_match m))
                        else (res ++ [None], hard, hard_pri)
                    end
                end) ([], hard, hard_pri) soft.

(** ** Lookup *)

(** [offsetof(struct flow, conj_id) / 4]. *)
Definition CONJ_ID_OFS32 : nat := 116.

Record lookup_state := LookupState {
  ls_hard : option cls_match;
  ls_hard_pri : Z;
  ls_soft : list soft_match;
  ls_soft_pri : Z;
  ls_ctxs : list trie_ctx;
  ls_wc : option flow
}.

(** The body of the main loop. *)
Definition lookup_step `{Hash} (version : Z) (f : flow) (allow_conjunctive_matches : bool)
    (subtable : cls_subtable) (st : lookup_state) : lookup_state :=
  let '(m, ctxs, wc) := find_match_wc subtable version f (ls_ctxs st) (ls_wc st) in
  let skip := LookupState (ls_hard st) (ls_hard_pri st) (ls_soft st) (ls_soft_pri st) ctxs wc in
  match m with
  | None => skip
  | Some m =>
      let pri := cm_priority (mp_match m) in
      if pri <=? ls_hard_pri st then skip
      else match soft_of m with
           | None => LookupState (Some (mp_match m)) pri (ls_soft st) (ls_soft_pri st) ctxs wc
           | Some s =>
               if allow_conjunctive_matches
               then LookupState (ls_hard st) (ls_hard_pri st) (ls_soft st ++ [s])
                      (if ls_soft_pri st <? pri then pri else ls_soft_pri st) ctxs wc
               else skip
           end
  end.

(** [PVECTOR_FOR_EACH_PRIORITY] with the priority [hard_pri + 1]; each round takes
    one entry of the vector. *)
Fixpoint lookup_loop `{Hash} (fuel : nat) (cls : classifier) (version : Z) (f : flow)
    (allow_conjunctive_matches : bool) (cursor : pvector_cursor) (st : lookup_state) : lookup_state :=
  match fuel with
  | O => st
  | S fuel =>
      let '(ptr, cursor) := pvector_cursor_next cursor (ls_hard_pri st + 1) in
      match ptr with
      | None => st
      | Some ptr =>
          let st := match cls_heap cls !! ptr with
                    | Some subtable => lookup_step version f allow_conjunctive_matches subtable st
                    | None => st
                    end in
          lookup_loop fuel cls version f allow_conjunctive_matches cursor st
      end
  end.

Definition lookup_main `{Hash} (cls : classifier) (version : Z) (f : flow) (wc : option flow)
    (allow_conjunctive_matches : bool) : lookup_state :=
  lookup_loop (S (pvector_count (cls_subtables cls))) cls version f allow_conjunctive_matches
    (pvector_cursor_init (cls_subtables cls))
    (LookupState None INT_MIN [] INT_MIN
       (map trie_ctx_init (firstn (cls_n_tries cls) (cls_tries cls))) wc).

(** [classifier_lookup__] without conjunctive matches: there are no soft matches,
    so the function ends after its main loop. *)
Definition lookup_hard `{Hash} (cls : classifier) (version : Z) (f : flow) (wc : option flow)
  : option cls_rule * option flow :=
  let st := lookup_main cls version f wc false in
  (cm_rule <$> ls_hard st, ls_wc st).

(** The search for a real match among the soft matches of priority [soft_pri]:
    the rule found and the conjunction's id, which is a [uint32_t]. *)
Fixpoint find_real_match `{Hash} (cls : classifier) (version : Z) (f : flow) (soft_pri n_soft_pri : Z)
    (soft : list soft_match) (matches : gmap Z Z) (wc : option flow)
  : option (cls_rule * Z) * option flow :=
  match soft with
  | [] => (None, wc)
  | s :: soft =>
      if sf_priority s =? soft_pri then
        match find_conjunctive_match (sf_set s) n_soft_pri matches with
        | (Some id, matches) =>
            match lookup_hard cls version (flow_set_be32 f CONJ_ID_OFS32 (u32 id)) wc with
            | (Some rule, wc) => (Some (rule, id), wc)
            | (None, wc) => find_real_match cls version f soft_pri n_soft_pri soft matches wc
            end
        | (None, matches) => find_real_match cls version f soft_pri n_soft_pri soft matches wc
        end
      else find_real_match cls version f soft_pri n_soft_pri soft matches wc
  end.

(** Steps left in the lists of the soft matches; every round of the soft match
    loop takes at least one. *)
Definition soft_measure (soft : list (option soft_match)) : nat :=
  foldr (fun s n => match s with
                    | Some s => S (length (mp_next (sf_match s))) + n
                    | None => n
                    end)%nat 0%nat soft.

(** The soft match loop: the rule with the conjunctive flows, and the wildcards.
    [None] is out of fuel. *)
Fixpoint soft_loop `{Hash} (fuel : nat) (cls : classifier) (version : Z) (f : flow)
    (hard : option cls_match) (hard_pri : Z) (soft : list (option soft_match)) (wc : option flow)
    (conj_flows : option (gset Z)) : option (option cls_rule * option (gset Z)) * option flow :=
  match fuel with
  | O => (None, wc)
  | S fuel =>
      let soft := omap id (delete_soft (S (length soft + length soft)) hard_pri soft 0) in
      match soft with
      | [] => (Some (cm_rule <$> hard, conj_flows), wc)
      | _ =>
          let '(soft_pri, n_soft_pri) := soft_priority soft in
          match find_real_match cls version f soft_pri n_soft_pri soft ∅ wc with
          | (Some (rule, id), wc) =>
              (Some (Some rule, insert_conj_flows conj_flows id soft_pri soft), wc)
          | (None, wc) =>
              let '(soft, hard, hard_pri) := next_soft version soft_pri hard hard_pri soft in
              soft_loop fuel cls version f hard hard_pri soft wc conj_flows
          end
      end
  end.

Definition classifier_lookup `{Hash} (cls : classifier) (version : Z) (f : flow) (wc : option flow)
    (conj_flows : option (gset Z)) : option (option cls_rule * option (gset Z)) * option flow :=
  let st := lookup_main cls version f wc true in
  if ls_soft_pri st <=? ls_hard_pri st then (Some (cm_rule <$> ls_hard st, conj_flows), ls_wc st)
  else soft_loop (S (soft_measure (map Some (ls_soft st)))) cls version f (ls_hard st) (ls_hard_pri st)
         (map Some (ls_soft st)) (ls_wc st) conj_flows.

(** ** Exact search *)

(** [CLS_MATCH_FOR_EACH] down to the priority of the target. *)
Fixpoint find_priority (l : list cls_match) (priority version : Z) : option cls_rule :=
  match l with
  | [] => None
  | rule :: next =>
      if cm_priority rule <? priority then None
      else if (cm_priority rule =? priority) && cls_match_visible_in_version rule version
      then Some (cm_rule rule)
      else find_priority next priority version
  end.

Definition classifier_find_rule_exactly `{Hash} (cls : classifier) (target : cls_rule) (version : Z)
  : option cls_rule :=
  '(_, subtable) ← find_subtable cls (mm_mask (cr_match target));
  head ← find_equal subtable (mm_flow (cr_match target))
           (miniflow_hash_in_minimask (mm_flow (cr_match target)) (mm_mask (cr_match target)) 0);
  find_priority head (cr_priority target) version.

Definition classifier_find_match_exactly `{Hash} (cls : classifier) (target : match_) (priority version : Z)
  : option cls_rule :=
  classifier_find_rule_exactly cls (cls_rule_init 0 target priority) version.

Definition classifier_find_minimatch_exactly `{Hash} (cls : classifier) (target : minimatch)
    (priority version : Z) : option cls_rule :=
  classifier_find_rule_exactly cls (cls_rule_init_from_minimatch 0 target priority) version.

(** ** Overlap *)

(** The subtables of the vector from the highest priority down to
    [lowest_priority]. *)
Fixpoint pvector_subtables (fuel : nat) (cls : classifier) (lowest_priority : Z) (cursor : pvector_cursor)
  : list (Z * cls_subtable) :=
  match fuel with
  | O => []
  | S fuel =>
      match pvector_cursor_next cursor lowest_priority with
      | (None, _) => []
      | (Some ptr, cursor) =>
          match cls_heap cls !! ptr with
          | Some st => (ptr, st) :: pvector_subtables fuel cls lowest_priority cursor
          | None => pvector_subtables fuel cls lowest_priority cursor
          end
      end
  end.

Definition classifier_rule_overlaps (cls : classifier) (target : cls_rule) (version : Z) : bool :=
  existsb (fun e : Z * cls_subtable =>
             let mask := minimask_combine (mm_mask (cr_match target)) (st_mask (snd e)) in
             existsb (fun rule =>
                        (cr_priority rule =? cr_priority target)
                        && miniflow_equal_in_minimask (mm_flow (cr_match target)) (mm_flow (cr_match rule)) mask
                        && cls_rule_visible_in_version cls rule version)
               (st_rules_list (snd e)))
    (pvector_subtables (S (pvector_count (cls_subtables cls))) cls (cr_priority target)
       (pvector_cursor_init (cls_subtables cls))).

(** ** Iteration *)

(** [struct cls_cursor]: [cc_rest] has the rules of [subtable] after the current
    one, and [cc_subtables] the subtables still to come. *)
Record cls_cursor := ClsCursor {
  cc_target : option cls_rule;
  cc_version : Z;
  cc_subtables : list (Z * cls_subtable);
  cc_rest : list cls_rule;
  cc_rule : option cls_rule
}.

Definition rule_matches (cls : classifier) (rule : cls_rule) (target : option cls_rule) (version : Z) : bool :=
  cls_rule_visible_in_version cls rule version
  && match target with
     | None => true
     | Some t => miniflow_equal_in_minimask (mm_flow (cr_match rule)) (mm_flow (cr_match t)) (mm_mask (cr_match t))
     end.

(** The first rule that matches, with the rules after it. *)
Fixpoint next_rule (cls : classifier) (target : option cls_rule) (version : Z) (rules : list cls_rule)
  : option (cls_rule * list cls_rule) :=
  match rules with
  | [] => None
  | rule :: rules =>
      if rule_matches cls rule target version then Some (rule, rules)
      else next_rule cls target version rules
  end.

Definition search_subtable (cls : classifier) (subtable : cls_subtable) (target : option cls_rule)
    (version : Z) : option (cls_rule * list cls_rule) :=
  if match target with
     | None => true
     | Some t => negb (minimask_has_extra (st_mask subtable) (mm_mask (cr_match t)))
     end
  then next_rule cls target version (st_rules_list subtable)
  else None.

(** [PVECTOR_CURSOR_FOR_EACH(_CONTINUE)] up to the first subtable with a match. *)
Fixpoint search_subtables (cls : classifier) (target : option cls_rule) (version : Z)
    (subtables : list (Z * cls_subtable)) : cls_cursor :=
  match subtables with
  | [] => ClsCursor target version [] [] None
  | e :: subtables =>
      match search_subtable cls (snd e) target version with
      | Some (rule, rest) => ClsCursor target version subtables rest (Some rule)
      | None => search_subtables cls target version subtables
      end
  end.

Definition cls_cursor_start (cls : classifier) (target : option cls_rule) (version : Z) : cls_cursor :=
  let target := t ← target; if cls_rule_is_catchall t then None else Some t in
  search_subtables cls target version
    (pvector_subtables (S (pvector_count (cls_subtables cls))) cls INT_MIN
       (pvector_cursor_init (cls_subtables cls))).

Definition cls_cursor_advance (cls : classifier) (cursor : cls_cursor) : cls_cursor :=
  match next_rule cls (cc_target cursor) (cc_version cursor) (cc_rest cursor) with
  | Some (rule, rest) =>
      ClsCursor (cc_target cursor) (cc_version cursor) (cc_subtables cursor) rest (Some rule)
  | None => search_subtables cls (cc_target cursor) (cc_version cursor) (cc_subtables cursor)
  end.

(** [CLS_FOR_EACH_TARGET]: the rules that the loop visits, with fuel. *)
Fixpoint cursor_rules (fuel : nat) (cls : classifier) (cursor : cls_cursor) : list cls_rule :=
  match fuel, cc_rule cursor with
  | S fuel, Some rule => rule :: cursor_rules fuel cls (cls_cursor_advance cls cursor)
  | _, _ => []
  end.
