(* ===== verification/Subtable.v ===== *)
(** * Lookup in a subtable

    What [find_match_wc] of lib/classifier.c returns, and what it writes to the
    wildcards.  The reference is [subtable_match]: the first visible rule of the
    only list whose flow matches.  The wildcards are right when every flow with
    the same unwildcarded bits gets the same answer; this covers the four ways
    to finish early: prefix tries, stage indices, the ports trie, and a whole
    mask. *)

From S2P Require Import Prelude Util Flowmap Hash Miniflow MetaFlow Trie FlowBits Versions Pvector Classifier.
From stdpp Require Import prelude list gmap sorting.
From Stdlib Require Import ZArith Lia.
Open Scope Z_scope.
Open Scope ovs_scope.

(** ** Rules and flows *)

Definition key_matches (k : minimatch) (f : flow) : bool :=
  miniflow_and_mask_matches_flow (mm_flow k) (mm_mask k) f.

(** [struct match]'s invariant: no flow bit where the mask has none. *)
Definition match_normal (k : minimatch) : Prop :=
  forall i, fbit (miniflow_expand (mm_mask k)) i = false -> fbit (miniflow_expand (mm_flow k)) i = false.

Definition key_ok (k : minimatch) : Prop := minimatch_wf k /\ match_normal k.

Lemma key_matches_agree (k : minimatch) (f : flow) :
  minimatch_wf k ->
  key_matches k f = true <-> agree (miniflow_expand (mm_mask k)) (miniflow_expand (mm_flow k)) f.
Proof.
  intros Hk. unfold key_matches. rewrite mask_matches_flow_spec by done.
  apply flow_equal_except_agree, expand_wf. eauto with ovs.
Qed.

Lemma key_eq (a b : minimatch) :
  minimatch_wf a -> minimatch_wf b -> mm_mask a = mm_mask b ->
  miniflow_expand (mm_flow a) = miniflow_expand (mm_flow b) -> a = b.
Proof.
  intros Ha Hb Hm Hf. assert (mf_map (mm_flow a) = mf_map (mm_flow b)) as Hmap
    by (by rewrite (mmwf_map a Ha), (mmwf_map b Hb), Hm).
  assert (mf_values (mm_flow a) = mf_values (mm_flow b)) as Hv.
  { apply miniflow_ext; [eauto with ovs..|done|]. intros i. by rewrite <- !expand_nth, Hf by eauto with ovs. }
  destruct a as [[] ?], b as [[] ?]. cbn in *. congruence.
Qed.

(** Two rules of a subtable that match one flow have the same flow. *)
Lemma key_unique (a b : minimatch) (f : flow) :
  key_ok a -> key_ok b -> mm_mask a = mm_mask b ->
  key_matches a f = true -> key_matches b f = true -> a = b.
Proof.
  intros [Ha Na] [Hb Nb] Hm Ma%key_matches_agree Mb%key_matches_agree; [|done..].
  apply key_eq; [done..|]. apply fbit_ext; [apply expand_wf; eauto with ovs..|]. intros i.
  specialize (Ma i). specialize (Mb i). specialize (Na i). specialize (Nb i). rewrite Hm in Ma, Na.
  destruct (fbit (miniflow_expand (mm_mask b)) i); [by rewrite Ma, Mb|by rewrite Na, Nb].
Qed.

(** Flows that agree on the mask of a rule are matched alike. *)
Lemma key_matches_congr (k : minimatch) (wc f f' : flow) :
  minimatch_wf k -> (forall i, fbit (miniflow_expand (mm_mask k)) i = true -> fbit wc i = true) ->
  agree wc f f' -> key_matches k f' = key_matches k f.
Proof.
  intros Hk Hwc Hag. apply eq_true_iff_eq. rewrite !key_matches_agree by done.
  split; intros H i Hi; rewrite H by done; [symmetry|]; by apply Hag, Hwc.
Qed.

(** ** The reference *)

Definition chain_key (l : list cls_match) : option minimatch :=
  match l with m :: _ => Some (cr_match (cm_rule m)) | [] => None end.

(** The matches of the heads. *)
Definition keys (rules : list (Z * list cls_match)) : list minimatch := omap (fun e => chain_key (snd e)) rules.

Definition chain_matches (f : flow) (e : Z * list cls_match) : bool :=
  match chain_key (snd e) with Some k => key_matches k f | None => false end.

Definition subtable_match (st : cls_subtable) (version : Z) (f : flow) : option match_ptr :=
  match List.find (chain_matches f) (st_rules st) with
  | Some e => first_visible version (snd e)
  | None => None
  end.

(** ** Stages *)

Section Stages.
Context `{HH : Hash}.

(** The hash of the words [idxs], in the form that ends a stage. *)
Definition stage_hash (g mask : nat -> Z) (idxs : list nat) : Z :=
  hash_finish (masked_hash g mask idxs 0) (Z.of_nat (length idxs) * 8).

(** The words of the first [n] stages. *)
Definition stage_idxs (maps : list flowmap) (n : nat) : list nat := concat (map fm_indices (firstn n maps)).

Definition key_hash (maps : list flowmap) (k : minimatch) (i : nat) : Z :=
  stage_hash (miniflow_get (mm_flow k)) (miniflow_get (mm_mask k)) (stage_idxs maps (S i)).

(** The stages cut the words of the mask into consecutive runs. *)
Record stages_ok (mask : minimask) (maps : list flowmap) (n : nat) : Prop := {
  sg_length : (n < length maps)%nat;
  sg_wf : Forall flowmap_wf maps;
  sg_cover : stage_idxs maps (S n) = fm_indices (mf_map mask)
}.

(** An entry of the hash table: rules with one flow, under its hash. *)
Definition chain_ok (mask : minimask) (maps : list flowmap) (n : nat) (e : Z * list cls_match) : Prop :=
  exists k, chain_key (snd e) = Some k /\ key_ok k /\ mm_mask k = mask /\ fst e = key_hash maps k n /\
    Forall (fun m => cr_match (cm_rule m) = k /\ cm_flow m = mm_flow k) (snd e).

(** The structures for readers, against the rules they index. *)
Record subtable_ok (st : cls_subtable) : Prop := {
  so_mask : minimask_wf (st_mask st);
  so_stages : stages_ok (st_mask st) (st_index_maps st) (st_n_indices st);
  so_chains : Forall (chain_ok (st_mask st) (st_index_maps st) (st_n_indices st)) (st_rules st);
  so_nodup : NoDup (keys (st_rules st));
  so_n_indices : length (st_indices st) = st_n_indices st;
  so_indices : forall i c h, st_indices st !! i = Some c ->
      ccmap_find c h = length (List.filter (fun k => key_hash (st_index_maps st) k i =? h) (keys (st_rules st)));
  so_ports_len : st_ports_mask_len st = Z.to_nat (32 - ctz32 (miniflow_get_ports (st_mask st)));
  so_ports_wf : twf true (st_ports_trie st) /\ (theight (st_ports_trie st) <= 32)%nat;
  so_ports : (0 < st_ports_mask_len st)%nat -> forall b, tcount (st_ports_trie st) b =
      length (List.filter (fun k => bool_decide (b = vbits [minimatch_get_ports k] 0 (st_ports_mask_len st)))
                (keys (st_rules st)))
}.

Lemma stage_idxs_S (maps : list flowmap) (n : nat) (m : flowmap) :
  maps !! n = Some m -> stage_idxs maps (S n) = stage_idxs maps n ++ fm_indices m.
Proof.
  intros Hm. unfold stage_idxs. rewrite (take_S_r _ _ m) by done. rewrite map_app, concat_app. cbn.
  by rewrite app_nil_r.
Qed.

Lemma stage_idxs_prefix (mask : minimask) (maps : list flowmap) (n i : nat) :
  stages_ok mask maps n -> (i <= S n)%nat ->
  exists rest, fm_indices (mf_map mask) = stage_idxs maps i ++ rest.
Proof.
  intros Hs Hi. exists (concat (map fm_indices (firstn (S n - i) (skipn i maps)))).
  rewrite <- (sg_cover _ _ _ Hs). unfold stage_idxs.
  rewrite <- concat_app, <- map_app. do 2 f_equal.
  replace (S n) with (i + (S n - i))%nat at 1 by lia. by rewrite <- take_take_drop.
Qed.

Lemma stage_segment (mask : minimask) (maps : list flowmap) (n i : nat) (m : flowmap) :
  stages_ok mask maps n -> (i <= n)%nat -> maps !! i = Some m ->
  in_segment mask m (length (stage_idxs maps i)).
Proof.
  intros Hs Hi Hm. destruct (stage_idxs_prefix mask maps n (S i) Hs ltac:(lia)) as [rest Hr].
  rewrite (stage_idxs_S _ _ m) in Hr by done. exists (stage_idxs maps i), rest. by rewrite Hr, <- app_assoc.
Qed.

Lemma stage_range (f : flow) (mask : minimask) (maps : list flowmap) (n i : nat) (m : flowmap) :
  miniflow_wf mask -> stages_ok mask maps n -> (i <= n)%nat -> maps !! i = Some m ->
  let g := fun i => nth i f 0 in
  flow_hash_in_minimask_range f mask m (length (stage_idxs maps i))
    (masked_hash g (miniflow_get mask) (stage_idxs maps i) 0) =
  (stage_hash g (miniflow_get mask) (stage_idxs maps (S i)), length (stage_idxs maps (S i)),
   masked_hash g (miniflow_get mask) (stage_idxs maps (S i)) 0).
Proof.
  intros Hw Hs Hi Hm g. rewrite flow_hash_range_spec; [|done| |by apply (stage_segment mask maps n)].
  - rewrite (stage_idxs_S _ _ m) by done. unfold stage_hash, masked_hash. cbn zeta.
    by rewrite foldl_app, length_app.
  - apply (Forall_lookup_1 _ _ _ _ (sg_wf _ _ _ Hs) Hm).
Qed.

Lemma hash_stages_spec (k : minimatch) (maps : list flowmap) (n i d : nat) :
  minimatch_wf k -> stages_ok (mm_mask k) maps n -> (i + d = S n)%nat ->
  hash_stages k (firstn d (skipn i maps)) (length (stage_idxs maps i))
    (masked_hash (miniflow_get (mm_flow k)) (miniflow_get (mm_mask k)) (stage_idxs maps i) 0) =
  map (key_hash maps k) (seq i d).
Proof.
  intros Hk Hs. revert i. induction d as [|d IH]; intros i Hd; [done|].
  pose proof (sg_length _ _ _ Hs). destruct (lookup_lt_is_Some_2 maps i ltac:(lia)) as [m Hm].
  rewrite (drop_S maps m i) by done. cbn [firstn hash_stages seq map].
  rewrite minimatch_hash_range_spec; [|done| |apply (stage_segment (mm_mask k) maps n); done || lia].
  2: { apply (Forall_lookup_1 _ _ _ _ (sg_wf _ _ _ Hs) Hm). }
  cbn zeta. unfold key_hash at 1, stage_hash. rewrite (stage_idxs_S _ _ m) by done.
  rewrite length_app. f_equal.
  - f_equal. unfold masked_hash. by rewrite foldl_app.
  - rewrite <- (IH (S i)) by lia. rewrite (stage_idxs_S _ _ m) by done.
    rewrite length_app. unfold masked_hash. by rewrite foldl_app.
Qed.

Lemma rule_hashes_spec (st : cls_subtable) (k : minimatch) :
  minimatch_wf k -> stages_ok (mm_mask k) (st_index_maps st) (st_n_indices st) ->
  rule_hashes st k = (map (key_hash (st_index_maps st) k) (seq 0 (st_n_indices st)),
                      key_hash (st_index_maps st) k (st_n_indices st)).
Proof.
  intros Hk Hs. unfold rule_hashes.
  pose proof (hash_stages_spec k (st_index_maps st) (st_n_indices st) 0 (S (st_n_indices st)) Hk Hs eq_refl) as E.
  rewrite drop_0 in E. change (length (stage_idxs (st_index_maps st) 0)) with 0%nat in E.
  change (masked_hash _ _ (stage_idxs _ 0) 0) with 0 in E. rewrite E. f_equal.
  - rewrite firstn_map. f_equal. rewrite <- (Nat.add_1_r (st_n_indices st)), seq_app, take_app_length'; [done|].
    by rewrite length_seq.
  - by rewrite nth_map_seq by lia.
Qed.

(** The words of a rule under its mask are those of a flow that it matches. *)
Lemma key_matches_land (k : minimatch) (f : flow) (i : nat) :
  minimatch_wf k -> key_matches k f = true ->
  Z.land (nth i f 0) (miniflow_get (mm_mask k) i) =
  Z.land (miniflow_get (mm_flow k) i) (miniflow_get (mm_mask k) i).
Proof.
  intros Hk Hm%key_matches_agree; [|done]. rewrite <- !expand_nth by eauto with ovs.
  apply land_eq_bits. intros b Hb Hbit. destruct (Z.lt_ge_cases b 64).
  - rewrite !fbit_word in * by lia. symmetry. by apply Hm.
  - rewrite (in_width_high 64) in Hbit; [done| |done]. apply flow_word_width, expand_wf. eauto with ovs.
Qed.

Lemma key_matches_hash (k : minimatch) (maps : list flowmap) (f : flow) (i : nat) :
  minimatch_wf k -> key_matches k f = true ->
  stage_hash (fun i => nth i f 0) (miniflow_get (mm_mask k)) (stage_idxs maps (S i)) = key_hash maps k i.
Proof.
  intros Hk Hm. unfold key_hash, stage_hash. f_equal. apply masked_hash_ext. intros j _.
  by apply key_matches_land.
Qed.

(** ** [find_match] *)

Lemma chain_key_In (rules : list (Z * list cls_match)) (e : Z * list cls_match) (k : minimatch) :
  In e rules -> chain_key (snd e) = Some k -> In k (keys rules).
Proof. intros He Hk. apply list_elem_of_In, list_elem_of_omap. exists e. by rewrite list_elem_of_In. Qed.

Lemma find_none {A} (p : A -> bool) (l : list A) : (forall x, In x l -> p x = false) -> List.find p l = None.
Proof.
  induction l as [|x l IH]; [done|]. intros H. cbn. rewrite (H x) by (by left).
  apply IH. intros y Hy. apply H. by right.
Qed.

Lemma find_match_spec (st : cls_subtable) (version : Z) (f : flow) :
  subtable_ok st ->
  find_match st version f
    (stage_hash (fun i => nth i f 0) (miniflow_get (st_mask st)) (stage_idxs (st_index_maps st) (S (st_n_indices st)))) =
  subtable_match st version f.
Proof.
  intros Hst. unfold find_match, subtable_match. pose proof (so_chains st Hst) as Hc.
  pose proof (so_nodup st Hst) as Hnd. set (hash := stage_hash _ _ _).
  induction (st_rules st) as [|[h l] rules IH]; [done|].
  apply Forall_cons in Hc as [(k & Hk & Hok & Hmask & Hh & Hl) Hc]. cbn [fst snd] in *.
  unfold keys in Hnd. cbn [omap list_omap snd] in Hnd. rewrite Hk in Hnd.
  apply NoDup_cons in Hnd as [Hnin Hnd]. specialize (IH Hc Hnd).
  cbn [find_match_in List.find]. unfold chain_matches at 1. cbn [snd]. rewrite Hk.
  destruct l as [|m l]; [done|]. injection Hk as Hk. apply Forall_cons in Hl as [[_ Hfl] _].
  rewrite Hfl, <- Hmask. fold (key_matches k f). destruct (key_matches k f) eqn:Hmt.
  - rewrite Hh. assert (hash = key_hash (st_index_maps st) k (st_n_indices st)) as <-
      by (unfold hash; rewrite <- Hmask; apply key_matches_hash; [apply Hok|done]).
    rewrite Z.eqb_refl. cbn [andb snd]. destruct (first_visible version (m :: l)); [done|].
    rewrite Hmask, IH. rewrite find_none; [done|]. intros e He.
    unfold chain_matches. rewrite Forall_forall in Hc.
    destruct (Hc e) as (k' & Hk' & Hok' & Hm' & _); [by apply list_elem_of_In|]. rewrite Hk'.
    destruct (key_matches k' f) eqn:Hmt'; [|done]. destruct Hnin.
    rewrite (key_unique k k' f) by (done || congruence).
    apply list_elem_of_In. by apply (chain_key_In _ e).
  - rewrite andb_false_r, Hmask. apply IH.
Qed.

(** The hash of the whole mask is that of the last stage. *)
Lemma whole_hash (st : cls_subtable) (f : flow) :
  subtable_ok st ->
  flow_hash_in_minimask f (st_mask st) 0 =
  stage_hash (fun i => nth i f 0) (miniflow_get (st_mask st)) (stage_idxs (st_index_maps st) (S (st_n_indices st))).
Proof.
  intros Hst. rewrite (sg_cover _ _ _ (so_stages st Hst)).
  apply flow_hash_in_minimask_spec, kwf_mf, so_mask, Hst.
Qed.

(** No rule matches: no answer. *)
Lemma subtable_match_none (st : cls_subtable) (version : Z) (f : flow) :
  (forall k, In k (keys (st_rules st)) -> key_matches k f = false) -> subtable_match st version f = None.
Proof.
  intros H. unfold subtable_match. rewrite find_none; [done|]. intros e He. unfold chain_matches.
  destruct (chain_key (snd e)) as [k|] eqn:Hk; [|done]. apply H. by apply (chain_key_In _ e).
Qed.

Lemma subtable_match_congr (st : cls_subtable) (version : Z) (f f' : flow) :
  (forall k, In k (keys (st_rules st)) -> key_matches k f' = key_matches k f) ->
  subtable_match st version f' = subtable_match st version f.
Proof.
  intros H. unfold subtable_match. replace (List.find (chain_matches f') (st_rules st))
    with (List.find (chain_matches f) (st_rules st)); [done|].
  assert (forall e, In e (st_rules st) -> chain_matches f e = chain_matches f' e) as He.
  { intros e Hin. unfold chain_matches. destruct (chain_key (snd e)) as [k|] eqn:Hk; [|done].
    symmetry. apply H. by apply (chain_key_In _ e). }
  clear H. induction (st_rules st) as [|e l IH]; [done|]. cbn. rewrite He by (by left).
  destruct (chain_matches f' e); [done|]. apply IH. intros; apply He. by right.
Qed.

Lemma keys_ok (st : cls_subtable) (k : minimatch) :
  subtable_ok st -> In k (keys (st_rules st)) -> key_ok k /\ mm_mask k = st_mask st.
Proof.
  intros Hst (e & He & Hk)%list_elem_of_In%list_elem_of_omap.
  pose proof (so_chains st Hst) as Hc. rewrite Forall_forall in Hc.
  destruct (Hc e He) as (k' & Hk' & ? & ? & _). replace k with k' by congruence. done.
Qed.

End Stages.

(** ** Prefix tries *)

(** A field that [classifier_set_prefix_fields] accepts, and its trie. *)
Record field_ok (mf : mf_field) : Prop := {
  fo_ofs : mff_flow_be32ofs mf = Some (be32ofs_of mf);
  fo_bits : mff_n_bits mf = (32 * (mff_n_bytes mf / 4))%nat;
  fo_max : (mff_n_bits mf <= 128)%nat;
  fo_bound : (32 * be32ofs_of mf + mff_n_bits mf <= FLOW_BITS)%nat
}.

Record trie_ok (t : cls_trie) (mf : mf_field) : Prop := {
  to_field : ct_field t = Some mf;
  to_ok : field_ok mf;
  to_wf : twf true (ct_root t);
  to_height : (theight (ct_root t) <= mff_n_bits mf)%nat
}.

(** The prefixes of a subtable's rules are in the trie. *)
Definition trie_covers (t : cls_trie) (mask : minimask) (ks : list minimatch) (plen : nat) : Prop :=
  forall mf, ct_field t = Some mf ->
    plen = minimask_get_prefix_len mask mf /\
    (plen <> 0%nat -> forall k, In k ks -> (0 < tcount (ct_root t) (vbits (minimatch_get_prefix k mf) 0 plen))%nat).

Definition tries_cover (tries : list cls_trie) (mask : minimask) (ks : list minimatch) (plens : list nat) : Prop :=
  Forall (fun e => trie_covers (fst e) mask ks (snd e)) (combine tries plens).

(** A context holds the result of the lookup for [f], or nothing yet. *)
Definition ctx_ok (f : flow) (ctx : trie_ctx) : Prop :=
  exists mf, trie_ok (tc_trie ctx) mf /\ tc_be32ofs ctx = be32ofs_of mf /\
    (tc_lookup_done ctx = true ->
     trie_lookup mf (ct_root (tc_trie ctx)) f plens_zero = (tc_maskbits ctx, tc_match_plens ctx)).

Lemma trie_ctx_lookup_ok (f : flow) (ctx : trie_ctx) :
  ctx_ok f ctx -> ctx_ok f (trie_ctx_lookup ctx f) /\ tc_trie (trie_ctx_lookup ctx f) = tc_trie ctx /\
    tc_lookup_done (trie_ctx_lookup ctx f) = true /\ tc_be32ofs (trie_ctx_lookup ctx f) = tc_be32ofs ctx.
Proof.
  intros (mf & Ht & Hofs & Hdone). unfold trie_ctx_lookup. destruct (tc_lookup_done ctx) eqn:E.
  { split_and!; try done. exists mf. by rewrite E. }
  rewrite (to_field _ _ Ht). destruct (trie_lookup _ _ _ _) as [mb pl] eqn:El.
  split_and!; try done. exists mf. by split_and!.
Qed.

Lemma plens_all_bit (i : nat) : (i < 128)%nat -> vbit plens_all i = true.
Proof.
  intros Hi. unfold vbit, plens_all. assert (i / 32 < 4)%nat by (apply Nat.Div0.div_lt_upper_bound; lia).
  pose proof (Nat.mod_upper_bound i 32 ltac:(lia)).
  assert (nth (i / 32) (replicate 4 UINT32_MAX) 0 = UINT32_MAX) as ->
    by (destruct (i / 32)%nat as [|[|[|[|]]]]; done || lia).
  rewrite UINT32_MAX_ones, testbit_ones by lia. zcmp.
Qed.

(** The bits of a rule's prefix are those of a flow that it matches. *)
Lemma key_prefix_bits (k : minimatch) (mf : mf_field) (f : flow) :
  let plen := minimask_get_prefix_len (mm_mask k) mf in
  minimatch_wf k -> field_ok mf -> plen <> 0%nat -> key_matches k f = true ->
  (plen <= mff_n_bits mf)%nat /\
  vbits (minimatch_get_prefix k mf) 0 plen = vbits (flow_be32s f (be32ofs_of mf) (mff_n_bytes mf / 4)) 0 plen.
Proof.
  intros plen Hk Hmf Hp Hm%key_matches_agree; [|done].
  assert (plen <= 32 * (mff_n_bytes mf / 4))%nat as Hle.
  { destruct (decide (mff_n_bytes mf / 4 = 0)%nat) as [E|E].
    - unfold plen, minimask_get_prefix_len in Hp. by rewrite E in Hp.
    - apply (minimask_get_prefix_len_spec (mm_mask k) mf 0); [eauto with ovs|done|lia]. }
  split; [by rewrite (fo_bits _ Hmf)|]. unfold vbits. apply map_ext_in. intros i [_ Hi]%in_seq. cbn [Nat.add] in Hi.
  rewrite minimatch_get_prefix_bit, be32s_bit by (done || lia). apply Hm.
  destruct (minimask_get_prefix_len_spec (mm_mask k) mf i) as [-> _]; [eauto with ovs|done|lia|].
  apply Nat.ltb_lt. done.
Qed.

Lemma trie_lookup_bound (t : cls_trie) (mf : mf_field) (f : flow) (mb : nat) (pl : list Z) :
  trie_ok t mf -> flow_wf f -> trie_lookup mf (ct_root t) f plens_zero = (mb, pl) -> (mb <= mff_n_bits mf)%nat.
Proof.
  intros [_ _ Hwf Hh] Hf Hl. unfold trie_lookup in Hl. destruct (fst _); [|injection Hl as <- _; lia].
  destruct (lookup_loop_ge (ct_root t) true true (flow_be32s f (be32ofs_of mf) (mff_n_bytes mf / 4)) plens_zero 0
    (mff_n_bits mf) ltac:(by apply be32s_wf_flow) Hwf Hh) as (_ & _ & Hmb).
  unfold trie_lookup_value in Hl. rewrite Hl in Hmb. by apply Hmb; left.
Qed.

(** A trie lookup that does not mark the subtable's prefix length rules out every
    rule of the subtable, for all flows with the same first [maskbits] bits. *)
Lemma trie_skip (t : cls_trie) (mf : mf_field) (f f' : flow) (k : minimatch) (mb : nat) (pl : list Z) :
  let plen := minimask_get_prefix_len (mm_mask k) mf in
  trie_ok t mf -> flow_wf f -> flow_wf f' -> minimatch_wf k -> plen <> 0%nat ->
  trie_lookup mf (ct_root t) f plens_zero = (mb, pl) -> be_get_bit_at pl (plen - 1) = false ->
  (0 < tcount (ct_root t) (vbits (minimatch_get_prefix k mf) 0 plen))%nat ->
  (forall i, in_prefix (be32ofs_of mf) mb i = true -> fbit f' i = fbit f i) ->
  key_matches k f' = false.
Proof.
  intros plen [Hfld Hmf Hwf Hh] Hf Hf' Hk Hp Hl Hbit Hc Hag.
  destruct (key_matches k f') eqn:Hm; [|done]. exfalso.
  destruct (key_prefix_bits k mf f' Hk Hmf Hp Hm) as [Hle Hv]. fold plen in Hle, Hv.
  pose proof (fo_max _ Hmf). unfold trie_lookup in Hl. rewrite be_get_bit_at_spec in Hbit.
  destruct (fst (mf_are_prereqs_ok mf f None)).
  2: { injection Hl as <- <-. rewrite plens_all_bit in Hbit; [done|lia]. }
  set (v := flow_be32s f _ _) in Hl. set (v' := flow_be32s f' _ _) in Hv.
  assert (be32s_wf v /\ be32s_wf v') as [Hvw Hvw'] by (split; by apply be32s_wf_flow).
  assert (trie_lookup_loop (ct_root t) true v' plens_zero 0 (mff_n_bits mf) = (mb, pl)) as Hl'.
  { rewrite <- Hl. apply (lookup_loop_stable _ true); [done..|lia|]. unfold trie_lookup_value in Hl. rewrite Hl.
    destruct (lookup_loop_ge (ct_root t) true true v plens_zero 0 (mff_n_bits mf) Hvw Hwf Hh) as (_ & _ & Hmb).
    rewrite Hl in Hmb. specialize (Hmb (or_introl eq_refl)). cbn [fst] in *.
    intros j Hj. rewrite (fo_bits _ Hmf) in Hmb. unfold v, v'. rewrite !be32s_bit by lia. apply Hag.
    unfold in_prefix. apply andb_true_intro. split; [apply Nat.leb_le|apply Nat.ltb_lt]; lia. }
  destruct (lookup_loop_plens (ct_root t) true true v' plens_zero 0 (mff_n_bits mf) Hvw' Hwf Hh ltac:(cbn; lia))
    as [_ Hpl]. rewrite Hl' in Hpl. cbn [snd] in Hpl. rewrite Hpl in Hbit by lia.
  apply orb_false_elim in Hbit as [_ Hno]. unfold has_prefix in Hno. cbn [Nat.leb andb] in Hno.
  rewrite Nat.sub_0_r, <- Hv in Hno. apply Nat.ltb_ge in Hno. lia.
Qed.

(** The wildcards only grow. *)
Definition wc_le (wc wc' : flow) : Prop := forall i, fbit wc i = true -> fbit wc' i = true.

Lemma wc_le_refl (wc : flow) : wc_le wc wc.
Proof. by intros i. Qed.

Lemma wc_le_trans (a b c : flow) : wc_le a b -> wc_le b c -> wc_le a c.
Proof. intros H1 H2 i Hi. by apply H2, H1. Qed.

#[export] Hint Resolve wc_le_refl : ovs.

(** What [check_tries] leaves: the contexts and the wildcards stay right, and a
    skipped subtable has no rule for any flow that agrees on the wildcards. *)
Definition check_ok (ks : list minimatch) (f wc : flow) (ctxs : list trie_ctx)
    (res : bool * list trie_ctx * flow) : Prop :=
  let '(skip, ctxs', wc') := res in
  Forall (ctx_ok f) ctxs' /\ map tc_trie ctxs' = map tc_trie ctxs /\ flow_wf wc' /\ wc_le wc wc' /\
  (skip = true -> forall f', flow_wf f' -> agree wc' f f' -> forall k, In k ks -> key_matches k f' = false).

Lemma check_ok_cons (ks : list minimatch) (f wc : flow) (ctx ctx' : trie_ctx) (ctxs : list trie_ctx)
    (res : bool * list trie_ctx * flow) :
  ctx_ok f ctx' -> tc_trie ctx' = tc_trie ctx -> check_ok ks f wc ctxs res ->
  check_ok ks f wc (ctx :: ctxs) (let '(skip, ctxs, wc) := res in (skip, ctx' :: ctxs, wc)).
Proof.
  destruct res as [[skip ctxs'] wc']. intros Hc Ht (H1 & H2 & H3). unfold check_ok. cbn [map].
  split_and!; [by constructor|by rewrite Ht, H2|apply H3..].
Qed.

Lemma in_prefix_mono (ofs n m i : nat) : (n <= m)%nat -> in_prefix ofs n i = true -> in_prefix ofs m i = true.
Proof. unfold in_prefix. rewrite !andb_true_iff, !Nat.leb_le, !Nat.ltb_lt. lia. Qed.

Lemma check_tries_ok (mask : minimask) (ks : list minimatch) (range : flowmap) (f wc : flow)
    (ctxs : list trie_ctx) (plens : list nat) :
  flow_wf f -> flow_wf wc -> (forall k, In k ks -> key_ok k /\ mm_mask k = mask) ->
  Forall (ctx_ok f) ctxs -> tries_cover (map tc_trie ctxs) mask ks plens ->
  check_ok ks f wc ctxs (check_tries ctxs plens range f wc).
Proof.
  intros Hf Hwc Hks. revert plens. induction ctxs as [|ctx ctxs IH]; intros plens Hctx Hcov;
    [cbn; split_and!; eauto with ovs; done|].
  destruct plens as [|plen plens]; [cbn [check_tries check_ok]; split_and!; eauto with ovs; done|].
  pose proof Hctx as [Hc Hcs]%Forall_cons. cbn [map combine] in Hcov.
  apply Forall_cons in Hcov as [Hcv Hcov]. cbn [fst snd] in Hcv. specialize (IH plens Hcs Hcov).
  cbn [check_tries]. destruct (_ && _) eqn:Hg; [|by apply (check_ok_cons _ _ _ ctx)].
  apply andb_prop in Hg as [Hp _]. apply negb_true_iff, Nat.eqb_neq in Hp.
  destruct (trie_ctx_lookup_ok f ctx Hc) as (Hc' & Ht' & Hd & _).
  set (ctx' := trie_ctx_lookup ctx f) in *. clearbody ctx'.
  destruct (be_get_bit_at (tc_match_plens ctx') (plen - 1)) eqn:Hbit; cbn [negb]; [by apply check_ok_cons|].
  destruct Hc' as (mf & Ht & Hofs & Hlook). specialize (Hlook Hd). rewrite Hofs.
  assert (forall wc', (forall i, in_prefix (be32ofs_of mf) (tc_maskbits ctx') i = true -> fbit wc' i = true) ->
    forall f', flow_wf f' -> agree wc' f f' -> forall k, In k ks -> key_matches k f' = false) as Hskip.
  { intros wc' Hw f' Hf' Hag k Hk. destruct (Hks k Hk) as [[Hkw _] Hm].
    destruct (Hcv mf) as [Hpl Hcnt]; [by rewrite <- Ht', (to_field _ _ Ht)|]. subst mask plen.
    apply (trie_skip (tc_trie ctx') mf f f' k (tc_maskbits ctx') (tc_match_plens ctx')); try done.
    - rewrite Ht'. by apply Hcnt.
    - intros i Hi. symmetry. by apply Hag, Hw. }
  assert (check_ok ks f wc (ctx :: ctxs) (let '(skip, ctxs, wc) := check_tries ctxs plens range f wc in
    (skip, ctx' :: ctxs, wc))) as Hrest by (apply check_ok_cons; [by exists mf|done|done]).
  destruct (Nat.leb_spec (tc_maskbits ctx') plen) as [Hle|Hgt].
  - assert (32 * be32ofs_of mf + tc_maskbits ctx' <= FLOW_BITS)%nat as Hb.
    { pose proof (trie_lookup_bound _ _ _ _ _ Ht Hf Hlook). pose proof (fo_bound _ (to_ok _ _ Ht)). lia. }
    destruct (mask_set_prefix_bits_spec wc (be32ofs_of mf) (tc_maskbits ctx') Hwc Hb) as [Hw Hbits].
    cbn [check_ok map]. split_and!; [constructor; [by exists mf|done]|by rewrite Ht'|done| |].
    + intros i Hi. by rewrite Hbits, Hi.
    + intros _. apply Hskip. intros i Hi. by rewrite Hbits, Hi, orb_true_r.
  - destruct (mask_prefix_bits_set wc _ _) eqn:Hset; [|done].
    pose proof (proj1 (mask_prefix_bits_set_spec wc _ _ Hwc) Hset). cbn [check_ok map].
    split_and!; [constructor; [by exists mf|done]|by rewrite Ht'|done|apply wc_le_refl|].
    intros _. by apply Hskip.
Qed.

(** ** The stages *)

Lemma sorted_lt_ext (l k : list nat) :
  StronglySorted lt l -> StronglySorted lt k -> (forall i, In i l <-> In i k) -> l = k.
Proof.
  intros Hl. revert k. induction Hl as [|x l Hl IH Hx]; intros k Hk H.
  { destruct k as [|y k]; [done|]. destruct (proj2 (H y)). by left. }
  destruct Hk as [|y k Hk Hy]; [destruct (proj1 (H x)); by left|].
  rewrite Forall_forall in Hx, Hy. setoid_rewrite list_elem_of_In in Hx. setoid_rewrite list_elem_of_In in Hy.
  assert (x = y) as <-.
  { destruct (proj1 (H x)) as [E|Hin]; [by left|done|]. destruct (proj2 (H y)) as [E'|Hin']; [by left|done|].
    specialize (Hy x Hin). specialize (Hx y Hin'). lia. }
  f_equal. apply IH; [done|]. intros i. split; intros Hi.
  - destruct (proj1 (H i)) as [<-|]; [by right| |done]. specialize (Hx _ Hi). lia.
  - destruct (proj2 (H i)) as [<-|]; [by right| |done]. specialize (Hy _ Hi). lia.
Qed.

Lemma seq_sorted (s n : nat) : StronglySorted lt (seq s n).
Proof.
  revert s. induction n as [|n IH]; intros s; cbn; [constructor|]. constructor; [apply IH|].
  apply Forall_forall. intros x Hx%list_elem_of_In%in_seq. lia.
Qed.

Lemma filter_sorted (p : nat -> bool) (l : list nat) : StronglySorted lt l -> StronglySorted lt (List.filter p l).
Proof.
  induction 1 as [|x l Hl IH Hx]; cbn; [constructor|]. destruct (p x); [|done]. constructor; [done|].
  rewrite Forall_forall in *. intros y Hy. apply Hx. rewrite list_elem_of_In in *. by apply filter_In in Hy as [].
Qed.

Lemma sorted_prefix (l k : list nat) : StronglySorted lt (l ++ k) -> StronglySorted lt l.
Proof.
  induction l as [|x l IH]; cbn; [constructor|]. intros [Hs Hx]%StronglySorted_inv.
  constructor; [by apply IH|]. by apply Forall_app in Hx as [].
Qed.

Lemma fm_indices_sorted (fm : flowmap) : StronglySorted lt (fm_indices fm).
Proof. rewrite fm_indices_filter. apply filter_sorted, seq_sorted. Qed.

(** Adding the next run of the mask to the map. *)
Lemma fm_indices_or (a b : flowmap) (rest : list nat) :
  flowmap_wf a -> flowmap_wf b -> StronglySorted lt ((fm_indices a ++ fm_indices b) ++ rest) ->
  fm_indices (flowmap_or a b) = fm_indices a ++ fm_indices b.
Proof.
  intros Ha Hb Hs. apply sorted_lt_ext; [apply fm_indices_sorted|by apply sorted_prefix in Hs|]. intros i.
  rewrite in_app_iff, !fm_indices_In. destruct (decide (i < N_IDX)%nat) as [Hi|Hi]; [|tauto].
  rewrite flowmap_or_is_set, orb_true_iff by done. tauto.
Qed.

(** ** The ports word *)

Lemma vbit_single (x : Z) (j : nat) : (j < 32)%nat -> vbit [x] j = pbit x j.
Proof. intros Hj. unfold vbit, pbit. rewrite Nat.div_small, Nat.mod_small by lia. done. Qed.

Lemma pbit_land (a b : Z) (j : nat) : pbit (Z.land a b) j = pbit a j && pbit b j.
Proof. apply Z.land_spec. Qed.

Lemma pbit_lor (a b : Z) (j : nat) : pbit (Z.lor a b) j = pbit a j || pbit b j.
Proof. apply Z.lor_spec. Qed.

Lemma be32_prefix_mask_bit (n j : nat) :
  (n <= 32)%nat -> (j < 32)%nat -> pbit (be32_prefix_mask (Z.of_nat n)) j = (j <? n)%nat.
Proof.
  intros Hn Hj. unfold be32_prefix_mask, pbit. rewrite !wrap_testbit, Z.shiftl_spec by lia.
  rewrite UINT32_MAX_ones. destruct (Nat.ltb_spec j n).
  - rewrite testbit_ones by lia. zcmp.
  - rewrite Z.testbit_neg_r by lia. by rewrite !andb_false_r.
Qed.

(** A word has no 1-bit after its first [32 - ctz32] bits. *)
Lemma ctz32_bits (x : Z) (j : nat) :
  in_width 32 x -> (Z.to_nat (32 - ctz32 x) <= j < 32)%nat -> pbit x j = false.
Proof.
  intros Hx Hj. unfold ctz32, pbit in *. destruct (Z.eqb_spec x 0) as [->|Hne]; [apply Z.bits_0|].
  assert (0 < x) by (destruct Hx; lia).
  destruct (raw_ctz_lowest x ltac:(done) (in_width_mono 32 64 x ltac:(lia) Hx)) as (H0 & _ & Hz). apply Hz. lia.
Qed.

Lemma ctz32_le (x : Z) : in_width 32 x -> (Z.to_nat (32 - ctz32 x) <= 32)%nat.
Proof.
  intros Hx. unfold ctz32. destruct (Z.eqb_spec x 0) as [->|Hne]; [lia|]. assert (0 < x) by (destruct Hx; lia).
  destruct (raw_ctz_lowest x ltac:(done) (in_width_mono 32 64 x ltac:(lia) Hx)) as (H0 & _). lia.
Qed.

Lemma ports_bit (mf : miniflow) (j : nat) :
  miniflow_wf mf -> (j < 32)%nat ->
  pbit (miniflow_get_ports mf) j = fbit (miniflow_expand mf) (32 * TP_PORTS_OFS32 + j).
Proof. intros Hm Hj. unfold miniflow_get_ports. by rewrite miniflow_get_be32_expand, flow_be32_bit. Qed.

Lemma ports_width (mf : miniflow) : miniflow_wf mf -> in_width 32 (miniflow_get_ports mf).
Proof. intros Hm. unfold miniflow_get_ports. rewrite miniflow_get_be32_expand by done. by apply flow_be32_width, expand_wf. Qed.

(** The masked ports of a rule are those of a flow that it matches. *)
Lemma key_ports (k : minimatch) (f : flow) (n : nat) :
  minimatch_wf k -> key_matches k f = true -> (n <= 32)%nat ->
  vbits [minimatch_get_ports k] 0 n = vbits [Z.land (flow_be32 f TP_PORTS_OFS32) (miniflow_get_ports (mm_mask k))] 0 n.
Proof.
  intros Hk Hm%key_matches_agree Hn; [|done]. unfold vbits. apply map_ext_in. intros j [_ Hj]%in_seq.
  cbn [Nat.add] in Hj. rewrite !vbit_single by lia. unfold minimatch_get_ports. rewrite !pbit_land.
  rewrite !ports_bit, flow_be32_bit by (eauto with ovs || lia).
  destruct (fbit (miniflow_expand (mm_mask k)) _) eqn:E; [by rewrite Hm|by rewrite !andb_false_r].
Qed.

Lemma word_lookup_bound (t : trie) (x : Z) (mb : nat) (pl : list Z) :
  twf true t -> (theight t <= 32)%nat -> in_width 32 x ->
  trie_lookup_value t [x] [0] 32 = (mb, pl) -> (mb <= 32)%nat.
Proof.
  intros Htw Hth Hx Hl. destruct (lookup_loop_ge t true true [x] [0] 0 32) as (_ & _ & Hmb);
    [by apply Forall_singleton|done..|]. unfold trie_lookup_value in Hl. rewrite Hl in Hmb. by apply Hmb; left.
Qed.

(** Lookup of one word: the bits it looked at decide whether a prefix is stored,
    and cover the prefix if it is. *)
Lemma word_lookup_stable (t : trie) (x x' : Z) (mb len : nat) (pl : list Z) :
  twf true t -> (theight t <= 32)%nat -> in_width 32 x -> in_width 32 x' -> (0 < len)%nat ->
  trie_lookup_value t [x] [0] 32 = (mb, pl) -> (forall j, (j < mb)%nat -> (j < 32)%nat -> pbit x' j = pbit x j) ->
  (0 <? tcount t (vbits [x'] 0 len))%nat = (0 <? tcount t (vbits [x] 0 len))%nat /\
  ((0 < tcount t (vbits [x] 0 len))%nat -> (len <= mb)%nat).
Proof.
  intros Htw Hth Hx Hx' Hlen Hl Hag. unfold trie_lookup_value in Hl.
  assert (forall y, in_width 32 y -> be32s_wf [y]) as Hvw by (intros; by apply Forall_singleton).
  pose proof (Hvw x Hx) as Hv. pose proof (Hvw x' Hx') as Hv'.
  destruct (lookup_loop_ge t true true [x] [0] 0 32 Hv Htw Hth) as (_ & _ & Hmb). rewrite Hl in Hmb.
  specialize (Hmb (or_introl eq_refl)). cbn [fst] in Hmb. split.
  - assert (trie_lookup_loop t true [x'] [0] 0 32 = (mb, pl)) as Hl'.
    { rewrite <- Hl. apply (lookup_loop_stable _ true); [done..|lia|]. rewrite Hl. cbn [fst]. intros j Hj.
      rewrite !vbit_single by lia. apply Hag; lia. }
    destruct (lookup_loop_plens t true true [x] [0] 0 32 Hv Htw Hth ltac:(cbn; lia)) as [_ Hpl].
    destruct (lookup_loop_plens t true true [x'] [0] 0 32 Hv' Htw Hth ltac:(cbn; lia)) as [_ Hpl'].
    rewrite Hl in Hpl. rewrite Hl' in Hpl'. specialize (Hpl len Hlen). rewrite (Hpl' len Hlen) in Hpl.
    assert (vbit [0] (len - 1) = false) as Hz
      by (unfold vbit; destruct ((len - 1) / 32)%nat as [|[]]; apply Z.bits_0).
    rewrite Hz in Hpl. unfold has_prefix in Hpl. cbn [Nat.leb andb orb] in Hpl. by rewrite Nat.sub_0_r in Hpl.
  - intros Hc. pose proof (lookup_loop_covers t true true [x] [0] 0 32 len Hv Htw Hth ltac:(lia)) as Hcv.
    rewrite Nat.sub_0_r, Hl in Hcv. by apply Hcv.
Qed.

Section FindMatch.
Context `{HH : Hash} (st : cls_subtable) (version : Z) (f : flow) (tries : list cls_trie).
Hypothesis Hst : subtable_ok st.
Hypothesis Hf : flow_wf f.
Hypothesis Hcov : tries_cover tries (st_mask st) (keys (st_rules st)) (st_trie_plen st).

Local Abbreviation maps := (st_index_maps st).
Local Abbreviation mask := (st_mask st).

(** The answer, and that it only depends on the bits of the new wildcards. *)
Definition find_ok (wc : flow) (res : option match_ptr * list trie_ctx * flow) : Prop :=
  let '(rule, ctxs', wc') := res in
  Forall (ctx_ok f) ctxs' /\ map tc_trie ctxs' = tries /\ flow_wf wc' /\ wc_le wc wc' /\
  forall f', flow_wf f' -> agree wc' f f' -> subtable_match st version f' = rule.

(** The state after [i] stages. *)
Record stage_ok (wc : flow) (i : nat) (ss : stage_state) : Prop := {
  ss_ctx : Forall (ctx_ok f) (ss_ctxs ss);
  ss_tries : map tc_trie (ss_ctxs ss) = tries;
  ss_wf : flow_wf (ss_wc ss);
  ss_le : wc_le wc (ss_wc ss);
  ss_map_wf : flowmap_wf (ss_stages_map ss);
  ss_map : fm_indices (ss_stages_map ss) = stage_idxs maps i;
  ss_ofs : ss_offset ss = length (stage_idxs maps i);
  ss_bas : ss_basis ss = masked_hash (fun i => nth i f 0) (miniflow_get mask) (stage_idxs maps i) 0
}.

Lemma mask_wf : miniflow_wf mask.
Proof. apply kwf_mf, so_mask, Hst. Qed.

Lemma stages_or (i : nat) (sm m : flowmap) :
  flowmap_wf sm -> fm_indices sm = stage_idxs maps i -> (i <= st_n_indices st)%nat -> maps !! i = Some m ->
  flowmap_wf (flowmap_or sm m) /\ fm_indices (flowmap_or sm m) = stage_idxs maps (S i).
Proof.
  intros Hw Hi Hle Hm. assert (flowmap_wf m) by apply (Forall_lookup_1 _ _ _ _ (sg_wf _ _ _ (so_stages st Hst)) Hm).
  split; [by apply flowmap_or_wf|].
  destruct (stage_idxs_prefix mask maps _ (S i) (so_stages st Hst) ltac:(lia)) as [rest Hr].
  rewrite (stage_idxs_S _ _ m), <- Hi in * by done. apply (fm_indices_or _ _ rest); [done..|].
  rewrite <- Hr. apply fm_indices_sorted.
Qed.

Lemma stages_prefix (i : nat) (sm : flowmap) :
  fm_indices sm = stage_idxs maps i -> (i <= S (st_n_indices st))%nat -> flowmap_prefix sm (mf_map mask).
Proof. intros Hi Hle. unfold flowmap_prefix. rewrite Hi. apply (stage_idxs_prefix _ _ _ _ (so_stages st Hst) Hle). Qed.

(** A mask bit lies in a word of its map. *)
Lemma expand_bit_set (i : nat) : fbit (miniflow_expand mask) i = true -> flowmap_is_set (mf_map mask) (i / 64) = true.
Proof.
  intros Hi. destruct (flowmap_is_set _ _) eqn:E; [done|]. unfold fbit in Hi.
  by rewrite expand_nth, miniflow_get_unset, Z.bits_0 in Hi by (done || apply mask_wf).
Qed.

(** Leaving without a match, with the stages so far folded in. *)
Lemma no_match_ok (wc wc1 : flow) (ctxs : list trie_ctx) (i : nat) (sm : flowmap) :
  Forall (ctx_ok f) ctxs -> map tc_trie ctxs = tries -> flow_wf wc1 -> wc_le wc wc1 ->
  flowmap_wf sm -> fm_indices sm = stage_idxs maps i -> (i <= S (st_n_indices st))%nat ->
  (forall f', flow_wf f' -> agree (flow_wildcards_fold_minimask_in_map wc1 mask sm) f f' ->
     forall k, In k (keys (st_rules st)) -> key_matches k f' = false) ->
  find_ok wc (no_match st ctxs wc1 sm None).
Proof.
  intros Hc Ht Hw Hle Hsw Hsm Hi Hno.
  destruct (fold_mask_spec wc1 mask sm Hw mask_wf Hsw (stages_prefix _ _ Hsm Hi)) as [Hw' Hb].
  unfold no_match, find_ok. split_and!; try done.
  - intros j Hj. rewrite Hb. by rewrite (Hle j Hj).
  - intros f' Hf' Hag. apply subtable_match_none. by apply Hno.
Qed.

(** Stage hashes of flows that agree on the folded words. *)
Lemma stage_hash_agree (wc1 f' : flow) (sm : flowmap) (i : nat) :
  flow_wf wc1 -> flowmap_wf sm -> fm_indices sm = stage_idxs maps i -> (i <= S (st_n_indices st))%nat ->
  agree (flow_wildcards_fold_minimask_in_map wc1 mask sm) f f' ->
  stage_hash (fun i => nth i f' 0) (miniflow_get mask) (stage_idxs maps i) =
  stage_hash (fun i => nth i f 0) (miniflow_get mask) (stage_idxs maps i).
Proof.
  intros Hw Hsw Hsm Hi Hag. unfold stage_hash. f_equal. apply masked_hash_ext. intros j Hj.
  rewrite <- Hsm, fm_indices_is_set in Hj by done.
  destruct (fold_mask_spec wc1 mask sm Hw mask_wf Hsw (stages_prefix _ _ Hsm Hi)) as [_ Hb].
  rewrite <- expand_nth by apply mask_wf. apply land_eq_bits. intros b Hb0 Hbit.
  destruct (Z.lt_ge_cases b 64).
  - rewrite !fbit_word in * by lia. symmetry. apply Hag. rewrite Hb, Hbit.
    replace ((64 * j + Z.to_nat (63 - b)) / 64)%nat with j; [by rewrite Hj, orb_true_r|].
    apply (Nat.div_unique _ 64 _ (Z.to_nat (63 - b))); lia.
  - rewrite (in_width_high 64) in Hbit; [done|apply flow_word_width, expand_wf, mask_wf|done].
Qed.

(** The rules with the ports of a flow under the mask. *)
Lemma ports_stored (f' : flow) (k : minimatch) :
  (0 < st_ports_mask_len st)%nat -> In k (keys (st_rules st)) -> key_matches k f' = true ->
  (0 <? tcount (st_ports_trie st)
     (vbits [Z.land (flow_be32 f' TP_PORTS_OFS32) (miniflow_get_ports mask)] 0 (st_ports_mask_len st)))%nat = true.
Proof.
  intros Hlen Hk Hm. destruct (keys_ok st k Hst Hk) as [[Hkw _] Hkm]. apply Nat.ltb_lt.
  rewrite (so_ports st Hst Hlen). rewrite <- Hkm, <- (key_ports k f') by (done ||
    rewrite (so_ports_len st Hst); apply ctz32_le, ports_width, mask_wf).
  apply length_filter_pos. exists k. split; [done|]. by apply bool_decide_true.
Qed.

(** The ports trie: the bits it looked at decide whether any rule has the ports. *)
Lemma ports_lookup (f' wc' : flow) (mb : nat) (pl : list Z) :
  let pm := miniflow_get_ports mask in
  flow_wf f' -> (0 < st_ports_mask_len st)%nat ->
  trie_lookup_value (st_ports_trie st) [Z.land (flow_be32 f TP_PORTS_OFS32) pm] [0] 32 = (mb, pl) ->
  agree wc' f f' ->
  (forall i, fbit (miniflow_expand mask) i = true -> (i / 32 <> TP_PORTS_OFS32)%nat -> fbit wc' i = true) ->
  (forall j, (j < mb)%nat -> (j < 32)%nat -> pbit pm j = true -> fbit wc' (32 * TP_PORTS_OFS32 + j) = true) ->
  subtable_match st version f' = subtable_match st version f.
Proof.
  intros pm Hf' Hlen Hl Hag Hwo Hwp. destruct (so_ports_wf st Hst) as [Htw Hth].
  assert (in_width 32 pm) as Hpmw by apply ports_width, mask_wf.
  assert (forall g, flow_wf g -> in_width 32 (Z.land (flow_be32 g TP_PORTS_OFS32) pm)) as Hvw
    by (intros g Hg; apply in_width_land; [lia|by apply flow_be32_width|apply Hpmw]).
  destruct (word_lookup_stable _ _ (Z.land (flow_be32 f' TP_PORTS_OFS32) pm) mb (st_ports_mask_len st) pl Htw Hth
    (Hvw f Hf) (Hvw f' Hf') Hlen Hl) as [Hsame Hle].
  { intros j Hj Hj32. rewrite !pbit_land. destruct (pbit pm j) eqn:Ep; [|by rewrite !andb_false_r].
    rewrite !flow_be32_bit by lia. by rewrite (Hag (32 * TP_PORTS_OFS32 + j)%nat) by (by apply Hwp). }
  destruct (0 <? tcount _ (vbits [Z.land (flow_be32 f TP_PORTS_OFS32) pm] 0 _))%nat eqn:Hin.
  - apply Nat.ltb_lt, Hle in Hin. apply subtable_match_congr. intros k Hk.
    destruct (keys_ok st k Hst Hk) as [[Hkw _] Hkm].
    apply (key_matches_congr k wc'); [done| |done]. rewrite Hkm. intros i Hi.
    destruct (decide (i / 32 = TP_PORTS_OFS32)%nat) as [E|]; [|by apply Hwo].
    assert (i = 32 * TP_PORTS_OFS32 + i mod 32)%nat as Ei by (rewrite <- E; apply Nat.div_mod_eq).
    pose proof (Nat.mod_upper_bound i 32 ltac:(lia)). rewrite Ei in Hi |- *.
    rewrite <- ports_bit in Hi by (apply mask_wf || done). apply Hwp; [|done..].
    destruct (decide (i mod 32 < st_ports_mask_len st)%nat) as [|Hge]; [lia|].
    rewrite ctz32_bits in Hi; [done|done|]. rewrite (so_ports_len st Hst) in Hge. lia.
  - rewrite !subtable_match_none; [done| |]; intros k Hk;
      [destruct (key_matches k f) eqn:Hm|destruct (key_matches k f') eqn:Hm]; try done;
      apply ports_stored in Hm; try done; fold pm in Hm; congruence.
Qed.

Lemma ports_no_match_ok (wc wc1 : flow) (ctxs : list trie_ctx) (sm : flowmap) (mb : nat) (pl : list Z) :
  let pm := miniflow_get_ports mask in
  Forall (ctx_ok f) ctxs -> map tc_trie ctxs = tries -> flow_wf wc1 -> wc_le wc wc1 ->
  flowmap_wf sm -> fm_indices sm = stage_idxs maps (S (st_n_indices st)) ->
  subtable_match st version f = None -> (0 < st_ports_mask_len st)%nat ->
  trie_lookup_value (st_ports_trie st) [Z.land (flow_be32 f TP_PORTS_OFS32) pm] [0] 32 = (mb, pl) ->
  find_ok wc (no_match st ctxs wc1 sm
    (Some (Z.lor (Z.land pm (be32_prefix_mask (Z.of_nat mb))) (flow_be32 wc1 TP_PORTS_OFS32)))).
Proof.
  intros pm Hc Ht Hw Hle Hsw Hsm Hnone Hlen Hl.
  destruct (fold_mask_spec wc1 mask sm Hw mask_wf Hsw (stages_prefix _ _ Hsm ltac:(lia))) as [Hw' Hb].
  rewrite (sg_cover _ _ _ (so_stages st Hst)) in Hsm.
  assert (in_width 32 pm) as Hpm by apply ports_width, mask_wf.
  assert (mb <= 32)%nat as Hmb.
  { apply (word_lookup_bound _ _ _ _ (proj1 (so_ports_wf st Hst)) (proj2 (so_ports_wf st Hst))) in Hl; [done|].
    apply in_width_land; [lia|by apply flow_be32_width|apply Hpm]. }
  unfold no_match, find_ok. set (wc2 := flow_wildcards_fold_minimask_in_map _ _ _) in *.
  set (p := Z.lor _ _). assert (in_width 32 p) as Hp.
  { apply in_width_lor; [lia| |by apply flow_be32_width]. apply in_width_land; [lia|done|].
    apply wrap_width. lia. }
  assert (forall i, fbit (flow_set_be32 wc2 TP_PORTS_OFS32 p) i =
    if (i / 32 =? TP_PORTS_OFS32)%nat then pbit p (i mod 32) else fbit wc2 i) as Hset.
  { intros i. apply flow_set_be32_bit; [done|done|vm_compute; lia]. }
  split_and!; try done.
  - by apply flow_set_be32_wf.
  - intros i Hi. rewrite Hset. destruct (Nat.eqb_spec (i / 32) TP_PORTS_OFS32) as [E|].
    + unfold p. rewrite pbit_lor.
      rewrite flow_be32_bit by (apply Nat.mod_upper_bound; lia). rewrite <- E, <- Nat.div_mod_eq.
      by rewrite (Hle i Hi), orb_true_r.
    + by rewrite Hb, (Hle i Hi).
  - intros f' Hf' Hag. rewrite <- Hnone. apply (ports_lookup f' _ mb pl Hf' Hlen Hl Hag).
    + intros i Hi Hne. rewrite Hset. destruct (Nat.eqb_spec (i / 32) TP_PORTS_OFS32); [done|].
      rewrite Hb, Hi. replace (flowmap_is_set sm (i / 64)) with true; [by rewrite orb_true_r|]. symmetry.
      apply fm_indices_is_set; [done|]. rewrite Hsm. apply fm_indices_is_set; [apply mask_wf|].
      by apply expand_bit_set.
    + intros j Hj Hj32 Hpj. rewrite Hset.
      assert ((32 * TP_PORTS_OFS32 + j) / 32 = TP_PORTS_OFS32)%nat as -> by (symmetry; apply (Nat.div_unique _ 32 _ j); lia).
      assert ((32 * TP_PORTS_OFS32 + j) mod 32 = j)%nat as -> by (symmetry; apply (Nat.mod_unique _ 32 TP_PORTS_OFS32 j); lia).
      rewrite Nat.eqb_refl. unfold p. rewrite pbit_lor, pbit_land, (Hpj : pbit pm j = true), be32_prefix_mask_bit by lia.
      by destruct (Nat.ltb_spec j mb); [|lia].
Qed.

Lemma check_stage_ok (wc : flow) (i : nat) (ss : stage_state) (range : flowmap) :
  stage_ok wc i ss ->
  check_ok (keys (st_rules st)) f (ss_wc ss) (ss_ctxs ss)
    (check_tries (ss_ctxs ss) (st_trie_plen st) range f (ss_wc ss)).
Proof.
  intros Hss. apply (check_tries_ok mask); [done|apply Hss|by intros; apply keys_ok|apply Hss|].
  by rewrite (ss_tries _ _ _ Hss).
Qed.

(** A stage that the tries skip. *)
Lemma skip_ok (wc wc1 : flow) (i : nat) (ss : stage_state) (ctxs : list trie_ctx) :
  stage_ok wc i ss -> (i <= st_n_indices st)%nat ->
  check_ok (keys (st_rules st)) f (ss_wc ss) (ss_ctxs ss) (true, ctxs, wc1) ->
  find_ok wc (no_match st ctxs wc1 (ss_stages_map ss) None).
Proof.
  intros Hss Hi (Hc & Ht & Hw & Hle & Hskip). destruct Hss as [_ Hst' _ Hle0 Hmw Hm _ _].
  apply (no_match_ok _ _ _ i); try done; [by rewrite Ht|by apply (wc_le_trans _ (ss_wc ss))|lia|].
  intros f' Hf' Hag. apply Hskip; [done|done|]. eapply agree_mono; [|done].
  intros j Hj. destruct (fold_mask_spec wc1 mask (ss_stages_map ss) Hw mask_wf Hmw (stages_prefix i _ Hm ltac:(lia)))
    as [_ Hb]. by rewrite Hb, Hj.
Qed.

Lemma find_match_final_ok (wc : flow) (ss : stage_state) (m : flowmap) :
  stage_ok wc (st_n_indices st) ss -> maps !! st_n_indices st = Some m ->
  find_ok wc (find_match_final st version f m ss).
Proof.
  intros Hss Hm. unfold find_match_final. pose proof (check_stage_ok wc _ ss m Hss) as Hck.
  destruct (check_tries _ _ _ _ _) as [[skip ctxs] wc1]. destruct skip; [by apply (skip_ok wc wc1 (st_n_indices st))|].
  destruct Hck as (Hc & Ht & Hw & Hle & _). destruct Hss as [_ Htr _ Hle0 Hmw Hmi Hofs Hbas].
  rewrite Hofs, Hbas. rewrite (stage_range f mask maps _ _ m mask_wf (so_stages st Hst)) by (done || lia).
  cbn zeta. rewrite find_match_spec by done.
  destruct (stages_or _ _ m Hmw Hmi ltac:(lia) Hm) as [Hor Hori].
  assert (find_ok wc (subtable_match st version f, ctxs, flow_wildcards_fold_minimask wc1 mask)) as Hwhole.
  { destruct (fold_whole_mask_spec wc1 mask Hw mask_wf) as [Hw' Hb].
    unfold find_ok. split_and!; try done; [by rewrite Ht| |].
    - intros i Hi. by rewrite Hb, (Hle i (Hle0 i Hi)).
    - intros f' Hf' Hag. apply subtable_match_congr. intros k Hk. destruct (keys_ok st k Hst Hk) as [[Hkw _] Hkm].
      eapply key_matches_congr; [done| |done]. rewrite Hkm. intros i Hi. by rewrite Hb, Hi, orb_true_r. }
  destruct (subtable_match st version f) as [r|] eqn:Hsm; [done|].
  destruct (Nat.ltb_spec 0 (st_ports_mask_len st)); [|done].
  destruct (trie_lookup_value _ _ _ _) as [mb pl] eqn:Hl.
  apply (ports_no_match_ok _ _ _ _ mb pl); try done; [by rewrite Ht|by apply (wc_le_trans _ (ss_wc ss))].
Qed.

Lemma find_match_stages_ok (wc : flow) (d i : nat) (ss : stage_state) (m : flowmap) :
  stage_ok wc i ss -> (i + d = st_n_indices st)%nat -> maps !! st_n_indices st = Some m ->
  find_ok wc (find_match_stages st version f
    (combine (firstn d (skipn i maps)) (skipn i (st_indices st))) m ss).
Proof.
  revert i ss. induction d as [|d IH]; intros i ss Hss Hd Hm.
  { cbn [firstn combine find_match_stages]. apply find_match_final_ok; [|done]. by replace (st_n_indices st) with i by lia. }
  pose proof (sg_length _ _ _ (so_stages st Hst)) as Hlen. pose proof (so_n_indices st Hst) as Hni.
  destruct (lookup_lt_is_Some_2 maps i ltac:(lia)) as [r Hr].
  destruct (lookup_lt_is_Some_2 (st_indices st) i ltac:(lia)) as [c Hc].
  rewrite (drop_S maps r i), (drop_S (st_indices st) c i) by done. cbn [firstn combine find_match_stages].
  pose proof (check_stage_ok wc _ ss r Hss) as Hck.
  destruct (check_tries _ _ _ _ _) as [[skip ctxs] wc1]. destruct skip; [apply (skip_ok wc wc1 i); (done || lia)|].
  destruct Hck as (Hcx & Ht & Hw & Hle & _). pose proof Hss as [_ Htr _ Hle0 Hmw Hmi Hofs Hbas].
  rewrite Hofs, Hbas. rewrite (stage_range f mask maps _ _ r mask_wf (so_stages st Hst)) by (done || lia).
  cbn zeta. destruct (stages_or _ _ r Hmw Hmi ltac:(lia) Hr) as [Hor Hori].
  assert (wc_le wc wc1) as Hle1 by (by apply (wc_le_trans _ (ss_wc ss))).
  destruct (Nat.eqb_spec (ccmap_find c (stage_hash (fun i => nth i f 0) (miniflow_get mask) (stage_idxs maps (S i)))) 0)
    as [Hz|_].
  - apply (no_match_ok _ _ _ (S i)); try done; [by rewrite Ht|lia|]. intros f' Hf' Hag k Hk.
    destruct (key_matches k f') eqn:Hm'; [|done]. exfalso. destruct (keys_ok st k Hst Hk) as [[Hkw _] Hkm].
    rewrite (so_indices st Hst i c) in Hz by done.
    apply (Nat.lt_irrefl 0). rewrite <- Hz at 2.
    apply length_filter_pos. exists k. split; [done|]. apply Z.eqb_eq.
    rewrite <- (stage_hash_agree wc1 f' (flowmap_or (ss_stages_map ss) r) (S i)) by (done || lia).
    rewrite <- Hkm. symmetry. by apply key_matches_hash.
  - apply IH; [|lia|done]. constructor; cbn; try done. by rewrite Ht.
Qed.

Lemma find_match_wc_ok (wc : flow) (ctxs : list trie_ctx) :
  flow_wf wc -> Forall (ctx_ok f) ctxs -> map tc_trie ctxs = tries ->
  exists rule ctxs' wc', find_match_wc st version f ctxs (Some wc) = (rule, ctxs', Some wc') /\
    find_ok wc (rule, ctxs', wc').
Proof.
  intros Hw Hc Ht. unfold find_match_wc. pose proof (sg_length _ _ _ (so_stages st Hst)) as Hlen.
  destruct (lookup_lt_is_Some_2 maps (st_n_indices st) Hlen) as [m Hm].
  pose proof (find_match_stages_ok wc (st_n_indices st) 0
    (StageState ctxs wc FLOWMAP_EMPTY_INITIALIZER 0 0) m) as Hok.
  rewrite !drop_0, <- (nth_lookup_Some maps _ FLOWMAP_EMPTY_INITIALIZER m Hm) in Hok.
  destruct (find_match_stages _ _ _ _ _ _) as [[rule ctxs'] wc'].
  exists rule, ctxs', wc'. split; [done|]. apply Hok; [|lia|by rewrite (nth_lookup_Some maps _ _ m Hm)].
  constructor; cbn; try done; [apply wc_le_refl|apply flowmap_init_wf].
Qed.

Lemma find_match_no_wc_ok (ctxs : list trie_ctx) :
  find_match_wc st version f ctxs None = (subtable_match st version f, ctxs, None).
Proof. unfold find_match_wc. by rewrite whole_hash, find_match_spec. Qed.

End FindMatch.
