(* ===== verification/ClassifierInv.v ===== *)
(** * The invariant of the classifier

    The stages that [insert_subtable] computes, the invariant of a subtable and
    of the classifier, and what the invariant means for its set of rules. *)

From S2P Require Import Prelude Util Flowmap Hash Miniflow MetaFlow Trie FlowBits Versions Pvector Classifier Subtable.
From stdpp Require Import prelude list sorting gmap.
From Stdlib Require Import ZArith Lia.
Open Scope Z_scope.
Open Scope ovs_scope.

(** ** Stages of a new subtable *)

Definition in_range (start end_ i : nat) : bool := ((start <=? i) && (i <? end_))%nat.

(** [miniflow_get_map_in_range] up to the clearing of the indices before [start]. *)
Lemma clear_before_spec (fm : flowmap) (start : nat) :
  flowmap_wf fm -> (start < 128)%nat ->
  let m := let '(map, start, ofs) := clear_units_before 3 fm start 0 in
           if (0 <? start)%nat then flowmap_clear map ofs start else map in
  flowmap_wf m /\
  forall i, (i < N_IDX)%nat -> flowmap_is_set m i = flowmap_is_set fm i && (start <=? i)%nat.
Proof.
  intros Hw Hs. cbn [clear_units_before].
  destruct (Nat.leb_spec 64 start) as [Hge|Hlt].
  - destruct (Nat.leb_spec 64 (start - 64)); [lia|]. rewrite (Nat.div_small (start - 64)) by lia.
    assert (flowmap_wf (<[0%nat := 0]> fm)) as Hw0 by (apply flowmap_wf_insert; [done|unfold in_width; lia]).
    assert (forall i, (i < N_IDX)%nat -> flowmap_is_set (<[0%nat := 0]> fm) i =
      flowmap_is_set fm i && (64 <=? i)%nat) as H0.
    { intros i Hi. rewrite !flowmap_is_set_testbit. destruct (Nat.leb_spec 64 i).
      - rewrite nth_insert_ne, andb_true_r; [done|]. assert (1 <= i / 64)%nat by (apply Nat.div_le_lower_bound; lia). lia.
      - rewrite Nat.div_small, nth_insert_eq, Z.bits_0, andb_false_r by (lia || destruct Hw as [-> _]; vm_compute; lia).
        done. }
    destruct (Nat.ltb_spec 0 (start - 64)).
    + split; [by apply flowmap_clear_wf|]. intros i Hi. rewrite flowmap_clear_is_set, H0 by (done || rewrite ?N_IDX_eq; lia).
      destruct (flowmap_is_set fm i), (Nat.leb_spec 64 i), (Nat.ltb_spec i (0 + 64 + (start - 64))),
        (Nat.leb_spec start i), (Nat.leb_spec (0 + 64) i); try done; lia.
    + split; [done|]. intros i Hi. rewrite H0 by done.
      by replace start with 64%nat by lia.
  - destruct (Nat.ltb_spec 0 start).
    + split; [by apply flowmap_clear_wf|]. intros i Hi. rewrite flowmap_clear_is_set by (done || rewrite ?N_IDX_eq; lia).
      destruct (Nat.leb_spec start i), (Nat.ltb_spec i (0 + start)), (Nat.leb_spec 0 i); try lia; done.
    + split; [done|]. intros i Hi. replace start with 0%nat by lia. by rewrite andb_true_r.
Qed.

(** The indices of a map in [start, end). *)
Lemma map_in_range_spec (mf : miniflow) (start end_ : nat) :
  miniflow_wf mf -> (start <= FLOW_U64S)%nat -> (FLOW_U64S - 64 < end_ <= FLOW_U64S)%nat ->
  exists m, miniflow_get_map_in_range mf start end_ = Some m /\ flowmap_wf m /\
    fm_indices m = List.filter (in_range start end_) (fm_indices (mf_map mf)).
Proof.
  intros Hmf Hs He. unfold miniflow_get_map_in_range.
  pose proof (mwf_map mf Hmf) as Hw. assert (FLOW_U64S = 84)%nat as HU by done.
  pose proof (clear_before_spec (mf_map mf) start Hw ltac:(lia)) as [Hw1 Hm1].
  destruct (clear_units_before 3 (mf_map mf) start 0) as [[m0 s0] o0]. cbn zeta in *.
  set (m1 := if (0 <? s0)%nat then _ else _) in *. clearbody m1.
  assert (forall m, flowmap_wf m -> (forall i, (i < N_IDX)%nat -> flowmap_is_set m i =
    flowmap_is_set (mf_map mf) i && in_range start end_ i) ->
    fm_indices m = List.filter (in_range start end_) (fm_indices (mf_map mf))) as Hidx.
  { intros m Hm Hset. apply sorted_lt_ext; [apply fm_indices_sorted|apply filter_sorted, fm_indices_sorted|].
    intros i. rewrite filter_In, !fm_indices_In. destruct (decide (i < N_IDX)%nat) as [Hi|]; [|tauto].
    rewrite Hset, andb_true_iff by done. tauto. }
  destruct (Nat.ltb_spec end_ FLOW_U64S).
  - destruct (Nat.leb_spec (FLOW_U64S - end_) 64); [|lia]. eexists. split; [done|].
    assert (flowmap_wf (flowmap_clear m1 end_ (FLOW_U64S - end_))) as Hw2 by (by apply flowmap_clear_wf).
    split; [done|]. apply Hidx; [done|]. intros i Hi.
    rewrite flowmap_clear_is_set, Hm1 by (done || rewrite ?N_IDX_eq; lia). rewrite <- andb_assoc.
    destruct (flowmap_is_set (mf_map mf) i) eqn:Eset; [|done]. pose proof (mwf_bound mf Hmf i Hi Eset).
    unfold in_range. f_equal. f_equal.
    destruct (Nat.leb_spec end_ i), (Nat.ltb_spec i (end_ + (FLOW_U64S - end_))), (Nat.ltb_spec i end_); lia.
  - eexists. split; [done|]. split; [done|]. apply Hidx; [done|]. intros i Hi. rewrite Hm1 by done.
    destruct (flowmap_is_set (mf_map mf) i) eqn:Eset; [|done]. pose proof (mwf_bound mf Hmf i Hi Eset).
    unfold in_range. destruct (Nat.ltb_spec i end_); [|lia]. by rewrite andb_true_r.
Qed.

Lemma filter_range_app (l : list nat) (a b c : nat) :
  StronglySorted lt l -> (a <= b <= c)%nat ->
  List.filter (in_range a b) l ++ List.filter (in_range b c) l = List.filter (in_range a c) l.
Proof.
  intros Hl Hab. induction Hl as [|x l Hl IH Hx]; [done|]. cbn [List.filter].
  destruct (in_range a b x) eqn:E1, (in_range b c x) eqn:E2, (in_range a c x) eqn:E3;
    unfold in_range in E1, E2, E3;
    repeat match goal with
    | H : (_ && _) = true |- _ => apply andb_prop in H as [?%Nat.leb_le ?%Nat.ltb_lt]
    | H : (_ && _) = false |- _ => apply andb_false_iff in H; rewrite ?Nat.leb_gt, ?Nat.ltb_ge in H
    end; try lia; cbn [app]; rewrite <- ?IH; try done.
  rewrite (filter_nil_in (in_range a b) l); [done|]. intros y Hy. rewrite Forall_forall in Hx.
  specialize (Hx y). rewrite list_elem_of_In in Hx. specialize (Hx Hy). unfold in_range.
  destruct (Nat.ltb_spec y b); [lia|]. apply andb_false_r.
Qed.

(** Segment boundaries as [classifier_init] wants them: increasing, and no more than
    63 words from the end. *)
Fixpoint segments_ok (prev : nat) (segments : list nat) : Prop :=
  match segments with
  | [] => True
  | s :: rest => (prev <= s)%nat /\ (FLOW_U64S - 64 < s < FLOW_U64S)%nat /\ segments_ok s rest
  end.

Record stages_inv (mask : minimask) (maps : list flowmap) (prev : nat) : Prop := {
  sv_wf : Forall flowmap_wf maps;
  sv_prev : (prev <= FLOW_U64S)%nat;
  sv_cover : concat (map fm_indices maps) = List.filter (in_range 0 prev) (fm_indices (mf_map mask))
}.

Lemma stage_fold_ok (mask : minimask) (segments : list nat) (maps : list flowmap) (prev : nat) :
  miniflow_wf mask -> segments_ok prev segments -> stages_inv mask maps prev ->
  exists maps' prev', foldl (stage_step mask) (Some (maps, prev)) segments = Some (maps', prev') /\
    stages_inv mask maps' prev'.
Proof.
  intros Hm. revert maps prev. induction segments as [|s segments IH]; intros maps prev; [by eauto|].
  intros (Hps & Hs & Hseg) Hinv. cbn [foldl]. unfold stage_step at 2. cbn.
  destruct (map_in_range_spec mask prev s Hm) as (m & -> & Hmw & Hmi); [apply Hinv|lia|]. cbn.
  apply IH; [done|]. destruct Hinv as [Hw Hp Hc].
  destruct (flowmap_is_empty m) eqn:Ee; split; try lia; try done.
  - apply flowmap_is_empty_spec in Ee; [|done]. rewrite <- (filter_range_app _ 0 prev s), <- Hmi, <- Hc, Ee, app_nil_r;
      [done|apply fm_indices_sorted|lia].
  - apply Forall_app. by split; [|constructor].
  - rewrite map_app, concat_app. cbn. rewrite app_nil_r, <- (filter_range_app _ 0 prev s), <- Hmi, <- Hc;
      [done|apply fm_indices_sorted|lia].
Qed.

Lemma subtable_stages_ok (mask : minimask) (segments : list nat) :
  miniflow_wf mask -> segments_ok 0 segments ->
  exists maps n, subtable_stages segments mask = Some (maps, n) /\ stages_ok mask maps n.
Proof.
  intros Hm Hseg. unfold subtable_stages.
  destruct (stage_fold_ok mask segments [] 0 Hm Hseg) as (maps & prev & -> & [Hw Hp Hc]).
  { split; [constructor|lia|]. rewrite filter_nil_in; [done|]. intros i _. unfold in_range.
    destruct (Nat.ltb_spec i 0); [lia|apply andb_false_r]. }
  cbn -[Nat.ltb Nat.sub]. destruct (map_in_range_spec mask prev FLOW_U64S Hm Hp) as (m & -> & Hmw & Hmi); [unfold FLOW_U64S; lia|]. cbn -[Nat.ltb Nat.sub].
  assert (concat (map fm_indices maps) ++ fm_indices m = fm_indices (mf_map mask)) as Hall.
  { rewrite Hc, Hmi, filter_range_app by (apply fm_indices_sorted || lia). apply filter_all_in.
    intros i Hi%fm_indices_is_set; [|apply Hm]. apply (wf_set_bound mask i Hm) in Hi. unfold in_range.
    by destruct (Nat.ltb_spec i FLOW_U64S); [|lia]. }
  eexists _, _. split; [done|].
  assert (Forall flowmap_wf (maps ++ [m])) by (apply Forall_app; by split; [|constructor]).
  destruct (_ && _) eqn:E.
  - apply andb_prop in E as [E%Nat.ltb_lt Ee]. apply flowmap_is_empty_spec in Ee; [|done].
    split; [rewrite length_app; cbn; lia|done|].
    unfold stage_idxs. replace (S (length maps - 1)) with (length maps) by lia.
    by rewrite take_app_length, <- Hall, Ee, app_nil_r.
  - split; [rewrite length_app; cbn; lia|done|]. unfold stage_idxs.
    rewrite firstn_all2 by (rewrite length_app; cbn; lia). rewrite map_app, concat_app. cbn. by rewrite app_nil_r.
Qed.

(** ** The invariant *)

(** A match repeats the priority of its rule, and so does its conjunction set. *)
Definition match_ok (m : cls_match) : Prop :=
  cm_priority m = cr_priority (cm_rule m) /\ INT_MIN < cm_priority m /\
  forall s, cm_conj_set m = Some s -> cs_priority s = cm_priority m.

(** A list of equal rules has decreasing priorities. *)
Definition chain_sorted (l : list cls_match) : Prop :=
  StronglySorted (fun a b => cm_priority b <= cm_priority a) l.

(** All matches of a hash table, and of all subtables. *)
Definition rules_matches (rules : list (Z * list cls_match)) : list cls_match := concat (map snd rules).

Definition st_matches (st : cls_subtable) : list cls_match := rules_matches (st_rules st).

Definition all_matches (subs : list (Z * cls_subtable)) : list cls_match :=
  concat (map (fun e => st_matches (snd e)) subs).

Definition all_keys (subs : list (Z * cls_subtable)) : list minimatch :=
  concat (map (fun e => keys (st_rules (snd e))) subs).

Definition match_id (m : cls_match) : Z := cr_id (cm_rule m).

(** [max_priority] is the maximum, and [max_count] counts some of the rules with it. *)
Record max_ok (st : cls_subtable) : Prop := {
  mx_le : Forall (fun m => cm_priority m <= st_max_priority st) (st_matches st);
  mx_pos : 1 <= st_max_count st;
  mx_count : st_max_count st <=
    Z.of_nat (length (List.filter (fun m => cm_priority m =? st_max_priority st) (st_matches st)))
}.

(** The trie counts the prefixes of the rules that have one on its field. *)
Definition trie_counts (t : cls_trie) (mf : mf_field) (ks : list minimatch) : Prop :=
  forall b, tcount (ct_root t) b =
    length (List.filter (fun k => let plen := minimask_get_prefix_len (mm_mask k) mf in
              negb (plen =? 0)%nat && bool_decide (b = vbits (minimatch_get_prefix k mf) 0 plen)) ks).

Section Inv.
Context `{HH : Hash}.

Record subtable_core (st : cls_subtable) : Prop := {
  sc_ok : subtable_ok st;
  sc_sorted : Forall (fun e => chain_sorted (snd e)) (st_rules st);
  sc_match : Forall match_ok (st_matches st);
  sc_list : Permutation (st_rules_list st) (map cm_rule (st_matches st));
  sc_plen : length (st_trie_plen st) = CLS_MAX_TRIES
}.

(** [cls] has the subtables [subs]. *)
Record cls_rep (cls : classifier) (subs : list (Z * cls_subtable)) : Prop := {
  cp_segs : segments_ok 0 (cls_flow_segments cls);
  cp_map : cls_subtables_map cls = map (fun e => (minimask_hash (st_mask (snd e)) 0, fst e)) subs;
  cp_heap : Forall (fun e => cls_heap cls !! fst e = Some (snd e)) subs;
  cp_ids : NoDup (map fst subs);
  cp_masks : NoDup (map (fun e => st_mask (snd e)) subs);
  cp_subs : Forall (fun e => subtable_core (snd e) /\ max_ok (snd e)) subs;
  cp_fresh : forall id, is_Some (cls_heap cls !! id) -> id < cls_next cls;
  cp_pvwf : pvector_wf (cls_subtables cls);
  cp_pub : cls_publish cls = true -> pv_temp (cls_subtables cls) = None;
  cp_pv : Permutation (pv_entries (cls_subtables cls))
            (map (fun e => PvectorEntry (st_max_priority (snd e)) (fst e)) subs);
  cp_n_tries : (cls_n_tries cls <= CLS_MAX_TRIES)%nat;
  cp_length : length (cls_tries cls) = CLS_MAX_TRIES;
  cp_tries : forall i t, (i < cls_n_tries cls)%nat -> cls_tries cls !! i = Some t ->
    exists mf, trie_ok t mf /\ trie_counts t mf (all_keys subs) /\
      Forall (fun e => nth i (st_trie_plen (snd e)) 0%nat = minimask_get_prefix_len (st_mask (snd e)) mf) subs;
  cp_rules : NoDup (map match_id (all_matches subs));
  cp_count : cls_n_rules cls = Z.of_nat (length (all_matches subs))
}.

Definition cls_inv (cls : classifier) : Prop := exists subs, cls_rep cls subs.

Lemma subtables_of_rep (cls : classifier) (subs : list (Z * cls_subtable)) :
  cls_rep cls subs -> subtables_of cls = subs.
Proof.
  intros H. unfold subtables_of. rewrite (cp_map _ _ H). pose proof (cp_heap _ _ H) as Hh. clear H.
  induction subs as [|[id st] subs IH]; [done|]. apply Forall_cons in Hh as [He Hh].
  cbn in He |- *. rewrite He. cbn. f_equal. by apply IH.
Qed.

(** The tries hold the prefixes of each subtable's rules. *)
Lemma rep_tries_cover (cls : classifier) (subs : list (Z * cls_subtable)) (id : Z) (st : cls_subtable) :
  cls_rep cls subs -> In (id, st) subs ->
  tries_cover (firstn (cls_n_tries cls) (cls_tries cls)) (st_mask st) (keys (st_rules st)) (st_trie_plen st).
Proof.
  intros H Hin. apply Forall_lookup. intros i [t plen] Hl.
  rewrite combine_zip in Hl. apply lookup_zip_Some in Hl as [Ht Hp].
  apply lookup_take_Some in Ht as [Ht Hi]. cbn [fst snd].
  destruct (cp_tries _ _ H i t Hi Ht) as (mf & Hok & Hcnt & Hplen). intros mf' Hmf'.
  rewrite (to_field _ _ Hok) in Hmf'. injection Hmf' as <-. rewrite Forall_forall in Hplen.
  specialize (Hplen (id, st)). cbn [snd] in Hplen.
  rewrite (nth_lookup_Some _ _ _ _ Hp) in Hplen. specialize (Hplen ltac:(by apply list_elem_of_In)). split; [done|].
  intros Hne k Hk. rewrite Hcnt. apply length_filter_pos. exists k. split.
  - unfold all_keys. apply in_concat. exists (keys (st_rules st)). split; [|done]. apply in_map_iff. by exists (id, st).
  - pose proof (cp_subs _ _ H) as Hs. rewrite Forall_forall in Hs.
    destruct (Hs (id, st)) as [Hc _]; [by apply list_elem_of_In|].
    destruct (keys_ok st k (sc_ok _ Hc) Hk) as [_ ->]. rewrite <- Hplen. cbn zeta.
    destruct (Nat.eqb_spec plen 0); [done|]. by apply bool_decide_true.
Qed.

Lemma rep_sub (cls : classifier) (subs : list (Z * cls_subtable)) (id : Z) (st : cls_subtable) :
  cls_rep cls subs -> In (id, st) subs ->
  cls_heap cls !! id = Some st /\ subtable_core st /\ max_ok st.
Proof.
  intros H Hin. apply list_elem_of_In in Hin.
  pose proof (proj1 (Forall_forall _ _) (cp_heap _ _ H) _ Hin) as Hh.
  pose proof (proj1 (Forall_forall _ _) (cp_subs _ _ H) _ Hin) as [Hc Hm]. done.
Qed.

(** A pointer of the vector is the address of a subtable. *)
Lemma rep_entry (cls : classifier) (subs : list (Z * cls_subtable)) (e : pvector_entry) :
  cls_rep cls subs -> In e (pv_entries (cls_subtables cls)) ->
  exists st, In (pe_ptr e, st) subs /\ pe_priority e = st_max_priority st.
Proof.
  intros H He. apply (Permutation_in _ (cp_pv _ _ H)), in_map_iff in He as ([id st] & <- & Hin). by exists st.
Qed.

(** Tries of the classifier have usable contexts. *)
Lemma rep_ctx_ok (cls : classifier) (subs : list (Z * cls_subtable)) (f : flow) :
  cls_rep cls subs ->
  Forall (ctx_ok f) (map trie_ctx_init (firstn (cls_n_tries cls) (cls_tries cls))).
Proof.
  intros H. apply Forall_map, Forall_lookup. intros i t [Ht Hi]%lookup_take_Some.
  destruct (cp_tries _ _ H i t Hi Ht) as (mf & Hok & _). exists mf. cbn.
  by rewrite (to_field _ _ Hok).
Qed.

End Inv.
