(* ===== verification/ClassifierLookup.v ===== *)
(** * Lookup in the classifier

    [classifier_lookup] of lib/classifier.c, with its conjunctive matches.  The
    main results: the lookup always ends; the wildcards it computes are right,
    that is, every flow that agrees with the looked-up flow on the unwildcarded
    bits gets the same rule; and without conjunctive rules the answer is a
    visible rule of the highest priority among those that match. *)

From S2P Require Import Prelude Util Flowmap Hash Miniflow MetaFlow Trie FlowBits Versions Pvector Classifier Subtable.
From S2P Require Import ClassifierInv.
From stdpp Require Import prelude list sorting gmap.
From Stdlib Require Import ZArith Lia.
Open Scope Z_scope.
Open Scope ovs_scope.

(** ** The main loop *)

(** The part of the state that the answer depends on. *)
Definition lookup_core : Type := option cls_match * Z * list soft_match * Z.

Definition core (st : lookup_state) : lookup_core := (ls_hard st, ls_hard_pri st, ls_soft st, ls_soft_pri st).

(** One subtable, given its match. *)
Definition core_step (allow : bool) (m : option match_ptr) (c : lookup_core) : lookup_core :=
  let '(hard, hard_pri, soft, soft_pri) := c in
  match m with
  | None => c
  | Some m =>
      let pri := cm_priority (mp_match m) in
      if pri <=? hard_pri then c
      else match soft_of m with
           | None => (Some (mp_match m), pri, soft, soft_pri)
           | Some s => if allow then (hard, hard_pri, soft ++ [s], if soft_pri <? pri then pri else soft_pri) else c
           end
  end.

(** The subtables in the order of the vector, down to the priority of the hard match;
    [M] gives the match of each. *)
Fixpoint main_core (heap : gmap Z cls_subtable) (M : cls_subtable -> option match_ptr) (allow : bool)
    (v : list pvector_entry) (c : lookup_core) : lookup_core :=
  match v with
  | [] => c
  | e :: v =>
      if snd (fst (fst c)) + 1 <=? pe_priority e
      then main_core heap M allow v
             (match heap !! pe_ptr e with Some st => core_step allow (M st) c | None => c end)
      else c
  end.

Definition core_init : lookup_core := (None, INT_MIN, [], INT_MIN).

Definition wc_ok (wc : option flow) : Prop := match wc with Some wc => flow_wf wc | None => True end.

Section Lookup.
Context `{HH : Hash} `{QQ : Qsort} (cls : classifier) (subs : list (Z * cls_subtable)) (version : Z).
Hypothesis Hrep : cls_rep cls subs.
Hypothesis Hpub : pv_temp (cls_subtables cls) = None.

Local Abbreviation vector := (pi_vector (pv_impl (cls_subtables cls))).

Lemma vector_entries : vector = pv_entries (cls_subtables cls).
Proof. unfold pv_entries. by rewrite Hpub. Qed.

Lemma vector_sub (i : nat) (e : pvector_entry) :
  vector !! i = Some e ->
  exists st, cls_heap cls !! pe_ptr e = Some st /\ subtable_ok st /\ pe_priority e = st_max_priority st /\
    In (pe_ptr e, st) subs.
Proof.
  intros He. apply list_elem_of_lookup_2, list_elem_of_In in He. rewrite vector_entries in He.
  destruct (rep_entry _ _ _ Hrep He) as (st & Hin & Hp).
  destruct (rep_sub _ _ _ _ Hrep Hin) as (Hh & Hc & _). exists st. split_and!; [done|apply Hc|done..].
Qed.

Lemma lookup_step_core (f : flow) (allow : bool) (st : cls_subtable) (s : lookup_state) :
  core (lookup_step version f allow st s) =
  core_step allow (fst (fst (find_match_wc st version f (ls_ctxs s) (ls_wc s)))) (core s) /\
  ls_ctxs (lookup_step version f allow st s) = snd (fst (find_match_wc st version f (ls_ctxs s) (ls_wc s))) /\
  ls_wc (lookup_step version f allow st s) = snd (find_match_wc st version f (ls_ctxs s) (ls_wc s)).
Proof.
  unfold lookup_step, core_step, core. destruct (find_match_wc _ _ _ _ _) as [[m ctxs] wc]. cbn [fst snd].
  destruct m as [m|]; [|done]. destruct (_ <=? _); [done|]. destruct (soft_of m); [|done]. by destruct allow.
Qed.

Lemma cursor_next_entry (i : nat) (p : Z) :
  pvector_cursor_next (PvectorCursor i vector) p =
  (match vector !! i with Some e => if p <=? pe_priority e then Some (pe_ptr e) else None | None => None end,
   PvectorCursor (S i) vector).
Proof.
  unfold pvector_cursor_next. cbn [pc_next pc_vector]. f_equal.
  destruct (vector !! i) as [e|] eqn:E.
  - pose proof (lookup_lt_Some _ _ _ E). destruct (Nat.ltb_spec i (length vector)); [|lia]. cbn [andb].
    unfold entry_at. by rewrite (nth_lookup_Some _ _ _ _ E).
  - apply lookup_ge_None in E. by destruct (Nat.ltb_spec i (length vector)); [lia|].
Qed.

(** With wildcards: they grow, and every flow that agrees on them takes the same way. *)
Lemma lookup_loop_wc (f : flow) (allow : bool) (fuel i : nat) (s : lookup_state) (wc : flow) :
  flow_wf f -> (length vector < fuel + i)%nat -> ls_wc s = Some wc -> flow_wf wc -> Forall (ctx_ok f) (ls_ctxs s) ->
  map tc_trie (ls_ctxs s) = firstn (cls_n_tries cls) (cls_tries cls) ->
  let s' := lookup_loop fuel cls version f allow (PvectorCursor i vector) s in
  exists wc', ls_wc s' = Some wc' /\ flow_wf wc' /\ wc_le wc wc' /\
    forall f', flow_wf f' -> agree wc' f f' ->
      main_core (cls_heap cls) (fun st => subtable_match st version f') allow (skipn i vector) (core s) = core s'.
Proof.
  intros Hf. revert i s wc. induction fuel as [|fuel IH]; intros i s wc Hfuel Hwc Hwf Hctx Htr.
  { cbn. exists wc. rewrite drop_ge by lia. eauto with ovs. }
  cbn zeta. cbn [lookup_loop]. rewrite cursor_next_entry. destruct (vector !! i) as [e|] eqn:He.
  2: { exists wc. rewrite drop_ge by (by apply lookup_ge_None). eauto with ovs. }
  rewrite (drop_S _ e) by done. cbn [main_core core fst snd].
  destruct (ls_hard_pri s + 1 <=? pe_priority e) eqn:Hp; [|exists wc; eauto with ovs].
  destruct (vector_sub i e He) as (st & Hst & Hok & _ & Hin). rewrite Hst.
  destruct (find_match_wc_ok st version f (firstn (cls_n_tries cls) (cls_tries cls)) Hok Hf
    (rep_tries_cover _ _ _ _ Hrep Hin) wc (ls_ctxs s) Hwf Hctx Htr) as (rule & ctxs' & wc' & Hfm & Hc' & Ht' & Hw' & Hle & Hag).
  pose proof (lookup_step_core f allow st s) as (Hcore & Hcs & Hws). rewrite Hwc, Hfm in Hcore, Hcs, Hws.
  cbn [fst snd] in Hcore, Hcs, Hws. set (s1 := lookup_step version f allow st s) in *.
  destruct (IH (S i) s1 wc') as (wc'' & Hwc'' & Hwf'' & Hle'' & Hag''); [lia|done|done|by rewrite Hcs|by rewrite Hcs|].
  exists wc''. split_and!; [done|done|by apply (wc_le_trans _ wc')|]. intros f' Hf' Ha.
  rewrite <- (Hag'' f' Hf' Ha). f_equal. rewrite Hcore. f_equal. apply Hag; [done|]. by apply (agree_mono _ wc'').
Qed.

Lemma lookup_loop_no_wc (f : flow) (allow : bool) (fuel i : nat) (s : lookup_state) :
  flow_wf f -> (length vector < fuel + i)%nat -> ls_wc s = None ->
  let s' := lookup_loop fuel cls version f allow (PvectorCursor i vector) s in
  ls_wc s' = None /\
  main_core (cls_heap cls) (fun st => subtable_match st version f) allow (skipn i vector) (core s) = core s'.
Proof.
  intros Hf. revert i s. induction fuel as [|fuel IH]; intros i s Hfuel Hwc.
  { cbn. by rewrite drop_ge by lia. }
  cbn zeta. cbn [lookup_loop]. rewrite cursor_next_entry. destruct (vector !! i) as [e|] eqn:He.
  2: { by rewrite drop_ge by (by apply lookup_ge_None). }
  rewrite (drop_S _ e) by done. cbn [main_core core fst snd].
  destruct (ls_hard_pri s + 1 <=? pe_priority e) eqn:Hp; [|done].
  destruct (vector_sub i e He) as (st & Hst & Hok & _ & Hin). rewrite Hst.
  pose proof (lookup_step_core f allow st s) as (Hcore & Hcs & Hws).
  rewrite Hwc, find_match_no_wc_ok in Hcore, Hws by done. cbn [fst snd] in Hcore, Hws.
  destruct (IH (S i) (lookup_step version f allow st s)) as [Hn Hm]; [lia|done|]. rewrite <- Hcore. done.
Qed.

Definition spec_core (allow : bool) (f : flow) : lookup_core :=
  main_core (cls_heap cls) (fun st => subtable_match st version f) allow vector core_init.

(** The main loop computes [spec_core], and its wildcards cover what it depends on. *)
Lemma lookup_main_ok (f : flow) (allow : bool) (wc : option flow) :
  flow_wf f -> wc_ok wc ->
  let s := lookup_main cls version f wc allow in
  core s = spec_core allow f /\ wc_ok (ls_wc s) /\
  (forall w, wc = Some w -> exists w', ls_wc s = Some w' /\ wc_le w w' /\
     forall f', flow_wf f' -> agree w' f f' -> spec_core allow f' = spec_core allow f).
Proof.
  intros Hf Hwc. unfold lookup_main, pvector_count, pvector_cursor_init. cbn zeta.
  set (s0 := LookupState _ _ _ _ _ _). destruct wc as [w|].
  - destruct (lookup_loop_wc f allow (S (length vector)) 0 s0 w) as (w' & Hw' & Hwf & Hle & Hag);
      [done|lia|done|done|apply (rep_ctx_ok _ _ f Hrep)|cbn; by rewrite map_map, map_id|].
    rewrite drop_0 in Hag. set (s' := lookup_loop _ _ _ _ _ _ _) in *. clearbody s'.
    assert (core s' = spec_core allow f) as Hc by (symmetry; apply Hag; [done|apply agree_refl]).
    split_and!; [done|by rewrite Hw'|]. intros ? [= <-]. exists w'. split_and!; [done|done|].
    intros f' Hf' Ha. rewrite <- Hc. by apply Hag.
  - destruct (lookup_loop_no_wc f allow (S (length vector)) 0 s0) as [Hn Hm]; [done|lia|done|].
    rewrite drop_0 in Hm. split_and!; [done|by rewrite Hn|done].
Qed.

(** ** What a computation depends on *)

(** [F] looks up a flow and returns an answer with wildcards.  Its answer is the
    same for every flow that agrees on the wildcards, whatever wildcards that
    lookup starts from. *)
Definition covered {A} (F : flow -> option flow -> A * option flow) : Prop :=
  forall f wc, flow_wf f -> wc_ok wc ->
    wc_ok (snd (F f wc)) /\
    forall w, wc = Some w -> exists w', snd (F f wc) = Some w' /\ wc_le w w' /\
      forall f' wc2, flow_wf f' -> agree w' f f' -> wc_ok wc2 -> fst (F f' wc2) = fst (F f wc).

Lemma covered_ret {A} (a : A) : covered (fun _ wc => (a, wc)).
Proof. intros f wc Hf Hwc. split; [done|]. intros w ->. exists w. eauto with ovs. Qed.

Lemma covered_ext {A} (F G : flow -> option flow -> A * option flow) :
  (forall f wc, F f wc = G f wc) -> covered G -> covered F.
Proof.
  intros E HG f wc Hf Hwc. destruct (HG f wc Hf Hwc) as [Hok Hcov]. rewrite E. split; [done|].
  intros w Hw. destruct (Hcov w Hw) as (w' & Hw' & Hle & Hag). exists w'. split_and!; [done|done|].
  intros f' wc2 Hf' Ha Hwc2. rewrite E. by apply Hag.
Qed.

(** Sequencing: the second lookup starts from the wildcards of the first. *)
Lemma covered_bind {A B} (F : flow -> option flow -> A * option flow)
    (G : A -> flow -> option flow -> B * option flow) :
  covered F -> (forall a, covered (G a)) ->
  covered (fun f wc => let '(a, wc) := F f wc in G a f wc).
Proof.
  intros HF HG f wc Hf Hwc. destruct (HF f wc Hf Hwc) as [Hok1 Hcov1].
  destruct (F f wc) as [a wc1] eqn:E1. cbn [fst snd] in *.
  destruct (HG a f wc1 Hf Hok1) as [Hok2 Hcov2]. split; [done|]. intros w ->.
  destruct (Hcov1 w eq_refl) as (w1 & -> & Hle1 & Hag1). destruct (Hcov2 w1 eq_refl) as (w2 & Hw2 & Hle2 & Hag2).
  exists w2. split_and!; [done|by apply (wc_le_trans _ w1)|]. intros f' wc2 Hf' Ha Hwc2.
  assert (agree w1 f f') as Ha1 by (by apply (agree_mono _ w2)).
  specialize (Hag1 f' wc2 Hf' Ha1 Hwc2). destruct (HF f' wc2 Hf' Hwc2) as [Hok' _].
  destruct (F f' wc2) as [a' wc'] eqn:E'. cbn [fst snd] in *. subst a'. by apply Hag2.
Qed.

Lemma conj_id_bit (f : flow) (id : Z) (i : nat) :
  flow_wf f ->
  fbit (flow_set_be32 f CONJ_ID_OFS32 (u32 id)) i =
  if (i / 32 =? CONJ_ID_OFS32)%nat then pbit (u32 id) (i mod 32) else fbit f i.
Proof. intros Hf. apply flow_set_be32_bit; [done|apply wrap_width; lia|vm_compute; lia]. Qed.

(** Looking up the flow with another [conj_id]. *)
Lemma covered_conj_id {A} (F : flow -> option flow -> A * option flow) (id : Z) :
  covered F -> covered (fun f wc => F (flow_set_be32 f CONJ_ID_OFS32 (u32 id)) wc).
Proof.
  intros HF f wc Hf Hwc.
  assert (forall g, flow_wf g -> flow_wf (flow_set_be32 g CONJ_ID_OFS32 (u32 id))) as Hset
    by (intros g Hg; apply flow_set_be32_wf; [done|apply wrap_width; lia]).
  destruct (HF _ wc (Hset f Hf) Hwc) as [Hok Hcov]. split; [done|]. intros w Hw.
  destruct (Hcov w Hw) as (w' & Hw' & Hle & Hag). exists w'. split_and!; [done|done|].
  intros f' wc2 Hf' Ha Hwc2. apply Hag; [by apply Hset| |done]. intros i Hi. rewrite !conj_id_bit by done.
  destruct (_ =? _)%nat; [done|]. by apply Ha.
Qed.

Lemma lookup_hard_covered : covered (lookup_hard cls version).
Proof.
  intros f wc Hf Hwc. destruct (lookup_main_ok f false wc Hf Hwc) as (Hc & Hok & Hcov). cbn zeta in *.
  assert (forall g wc, fst (lookup_hard cls version g wc) = cm_rule <$> fst (fst (fst (core (lookup_main cls version g wc false)))))
    as Hfst by done.
  split; [done|]. intros w Hw. destruct (Hcov w Hw) as (w' & Hw' & Hle & Hag). exists w'. split_and!; [done|done|].
  intros f' wc2 Hf' Ha Hwc2. destruct (lookup_main_ok f' false wc2 Hf' Hwc2) as (Hc' & _). cbn zeta in Hc'.
  by rewrite !Hfst, Hc, Hc', Hag.
Qed.

Lemma find_real_match_covered (soft_pri n_soft_pri : Z) (soft : list soft_match) (matches : gmap Z Z) :
  covered (fun f wc => find_real_match cls version f soft_pri n_soft_pri soft matches wc).
Proof.
  revert matches. induction soft as [|s soft IH]; intros matches; [apply (covered_ret None)|].
  cbn [find_real_match]. destruct (_ =? soft_pri); [|apply IH].
  destruct (find_conjunctive_match _ _ _) as [[id|] matches']; [|apply IH].
  pose proof (covered_bind (fun f wc => lookup_hard cls version (flow_set_be32 f CONJ_ID_OFS32 (u32 id)) wc)
    (fun r f wc => match r with
                   | Some rule => (Some (rule, id), wc)
                   | None => find_real_match cls version f soft_pri n_soft_pri soft matches' wc
                   end)) as HB.
  eapply covered_ext; [|apply HB].
  - intros f wc. cbn beta. by destruct (lookup_hard _ _ _ _) as [[r|] wc'].
  - apply (covered_conj_id (lookup_hard cls version)), lookup_hard_covered.
  - intros [r|]; [apply covered_ret|apply IH].
Qed.

Lemma soft_loop_covered (fuel : nat) (hard : option cls_match) (hard_pri : Z) (soft : list (option soft_match))
    (cf : option (gset Z)) :
  covered (fun f wc => soft_loop fuel cls version f hard hard_pri soft wc cf).
Proof.
  revert hard hard_pri soft. induction fuel as [|fuel IH]; intros hard hard_pri soft; [apply (covered_ret None)|].
  cbn [soft_loop]. set (soft' := omap id _). destruct soft' as [|s0 soft0] eqn:Es; [apply covered_ret|]. rewrite <- Es.
  destruct (soft_priority soft') as [soft_pri n_soft_pri].
  pose proof (covered_bind (fun f wc => find_real_match cls version f soft_pri n_soft_pri soft' ∅ wc)
    (fun r f wc => match r with
                   | Some (rule, id) => (Some (Some rule, insert_conj_flows cf id soft_pri soft'), wc)
                   | None => let '(soft, hard, hard_pri) := next_soft version soft_pri hard hard_pri soft' in
                             soft_loop fuel cls version f hard hard_pri soft wc cf
                   end)) as HB.
  eapply covered_ext; [|apply HB].
  - intros f wc. cbn beta. by destruct (find_real_match _ _ _ _ _ _ _ _) as [[[r id]|] wc'].
  - apply find_real_match_covered.
  - intros [[r id]|]; [apply covered_ret|]. destruct (next_soft _ _ _ _ _) as [[soft1 hard1] pri1]. apply IH.
Qed.

Lemma lookup_main_covered (allow : bool) :
  covered (fun f wc => (core (lookup_main cls version f wc allow), ls_wc (lookup_main cls version f wc allow))).
Proof.
  intros f wc Hf Hwc. destruct (lookup_main_ok f allow wc Hf Hwc) as (Hc & Hok & Hcov). cbn [fst snd] in *.
  split; [done|]. intros w Hw. destruct (Hcov w Hw) as (w' & Hw' & Hle & Hag). exists w'. split_and!; [done|done|].
  intros f' wc2 Hf' Ha Hwc2. destruct (lookup_main_ok f' allow wc2 Hf' Hwc2) as (Hc' & _). cbn zeta in Hc'.
  by rewrite Hc, Hc', Hag.
Qed.

Lemma classifier_lookup_covered (cf : option (gset Z)) :
  covered (fun f wc => classifier_lookup cls version f wc cf).
Proof.
  pose proof (covered_bind _ (fun c f wc =>
    let '(hard, hard_pri, soft, soft_pri) := c in
    if soft_pri <=? hard_pri then (Some (cm_rule <$> hard, cf), wc)
    else soft_loop (S (soft_measure (map Some soft))) cls version f hard hard_pri (map Some soft) wc cf)
    (lookup_main_covered true)) as HB.
  eapply covered_ext; [|apply HB]; [done|]. intros [[[hard hard_pri] soft] soft_pri].
  destruct (_ <=? _); [apply covered_ret|apply soft_loop_covered].
Qed.

(** ** The soft match loop ends *)

Definition soft_len (s : option soft_match) : nat :=
  match s with Some s => S (length (mp_next (sf_match s))) | None => 0%nat end.

Lemma soft_measure_sum (l : list (option soft_match)) : soft_measure l = sum_list_with soft_len l.
Proof. induction l as [|[s|] l IH]; cbn; [done|by rewrite <- IH|done]. Qed.

Lemma soft_measure_insert (l : list (option soft_match)) (i : nat) (s t : option soft_match) :
  l !! i = Some s -> (soft_measure (<[i := t]> l) + soft_len s = soft_measure l + soft_len t)%nat.
Proof.
  rewrite !soft_measure_sum. revert i. induction l as [|x l IH]; intros [|i] Hi; try done.
  - injection Hi as ->. cbn -[soft_len]. lia.
  - cbn -[soft_len]. specialize (IH i Hi). unfold insert in *. lia.
Qed.

Lemma soft_measure_app (l k : list (option soft_match)) : soft_measure (l ++ k) = (soft_measure l + soft_measure k)%nat.
Proof. rewrite !soft_measure_sum. induction l as [|x l IH]; cbn; [done|]. rewrite IH. lia. Qed.

Lemma delete_soft_measure (fuel : nat) (pri : Z) (soft : list (option soft_match)) (i : nat) :
  (soft_measure (delete_soft fuel pri soft i) <= soft_measure soft)%nat.
Proof.
  revert soft i. induction fuel as [|fuel IH]; intros soft i; [done|]. cbn [delete_soft].
  destruct (soft !! i) as [s|] eqn:E; [|done]. destruct (match s with None => true | _ => _ end); [|apply IH].
  etransitivity; [apply IH|]. pose proof (lookup_lt_Some _ _ _ E) as Hi.
  destruct (last soft) as [x|] eqn:El; [|by apply last_None in El as ->]. change (default None (Some x)) with x.
  rewrite last_lookup in El. pose proof (soft_measure_insert soft i s x E) as Hm.
  assert (soft_measure (take (length soft - 1) (<[i := x]> soft)) + soft_len x <= soft_measure (<[i := x]> soft) )%nat; [|lia].
  rewrite <- (take_drop (length soft - 1) (<[i := x]> soft)) at 2. rewrite soft_measure_app.
  assert (<[i := x]> soft !! (length soft - 1)%nat = Some x) as Hlast.
  { destruct (decide (i = length soft - 1)%nat) as [<-|]; [by rewrite list_lookup_insert_eq|].
    rewrite list_lookup_insert_ne by done. rewrite <- El. f_equal. lia. }
  rewrite (drop_S _ x) by done. cbn [soft_measure foldr]. destruct x; cbn; lia.
Qed.

Lemma soft_measure_omap (l : list (option soft_match)) : soft_measure (map Some (omap id l)) = soft_measure l.
Proof.
  induction l as [|[s|] l IH]; [done| |done]. change (omap id (Some s :: l)) with (s :: omap id l).
  unfold soft_measure in *. cbn [map foldr]. by rewrite IH.
Qed.

(** The highest priority is that of some soft match, if any is above [INT_MIN]. *)
Lemma soft_priority_attained (soft : list soft_match) (acc : Z * Z) (pri n : Z) :
  foldl (fun '(soft_pri, n) s =>
           if soft_pri <? sf_priority s then (sf_priority s, 1)
           else if sf_priority s =? soft_pri then (soft_pri, n + 1) else (soft_pri, n)) acc soft = (pri, n) ->
  fst acc <= pri /\ (forall s, In s soft -> sf_priority s <= pri) /\
  (fst acc < pri -> exists s, In s soft /\ sf_priority s = pri).
Proof.
  revert acc. induction soft as [|s soft IH]; intros [p m] H.
  { cbn in H. injection H as -> ->. cbn. split_and!; [lia|done|lia]. }
  cbn [foldl] in H. apply IH in H as (Hle & Hall & Hex). clear IH. cbn [fst].
  destruct (Z.ltb_spec p (sf_priority s)) as [Hlt|Hge]; cbn [fst] in *.
  - split_and!; [lia|by intros t [<-|Ht]; [|apply Hall]|]. intros _.
    destruct (decide (sf_priority s < pri)) as [H1|H1].
    + destruct (Hex H1) as (t & Ht & <-). exists t. split; [by right|done].
    + exists s. split; [by left|lia].
  - destruct (Z.eqb_spec (sf_priority s) p); cbn [fst] in *;
      (split_and!; [lia|intros t [<-|Ht]; [lia|by apply Hall]|]; intros H1;
       destruct (Hex H1) as (t & Ht & <-); exists t; split; [by right|done]).
Qed.

(** What replaces a soft match after a round at priority [soft_pri]. *)
Definition soft_next (soft_pri : Z) (s : soft_match) : option soft_match :=
  if sf_priority s =? soft_pri
  then m ← next_visible_rule_in_list (sf_match s) version; soft_of m else Some s.

(** One round takes a step in each list of the highest priority. *)
Lemma next_soft_spec (soft_pri : Z) (hard : option cls_match) (hard_pri : Z) (soft : list soft_match)
    (soft' : list (option soft_match)) (hard' : option cls_match) (hard_pri' : Z) :
  next_soft version soft_pri hard hard_pri soft = (soft', hard', hard_pri') ->
  soft' = map (soft_next soft_pri) soft /\
  hard_pri <= hard_pri'.
Proof.
  unfold next_soft. set (F := fun '(res, hard, hard_pri) s => _).
  assert (forall soft res hard hard_pri, exists hard' hard_pri',
    foldl F (res, hard, hard_pri) soft =
    (res ++ map (soft_next soft_pri) soft,
     hard', hard_pri') /\ hard_pri <= hard_pri') as H.
  { clear. induction soft as [|s soft IH]; intros res hard hard_pri.
    - exists hard, hard_pri. cbn. rewrite app_nil_r. split; [done|lia].
    - cbn [foldl map]. assert (exists hard1 pri1, F (res, hard, hard_pri) s =
        (res ++ [soft_next soft_pri s], hard1, pri1) /\
        hard_pri <= pri1) as (hard1 & pri1 & -> & Hle).
      { unfold F, soft_next. destruct (sf_priority s =? soft_pri); cbn [negb]; [|eexists _, _; split; [done|lia]].
        destruct (next_visible_rule_in_list _ _) as [m|]; [|eexists _, _; split; [done|lia]].
        change (Some m ≫= _) with (soft_of m). destruct (soft_of m); [eexists _, _; split; [done|lia]|].
        destruct (Z.ltb_spec hard_pri (cm_priority (mp_match m))); eexists _, _; (split; [done|lia]). }
      destruct (IH (res ++ [soft_next soft_pri s]) hard1 pri1)
        as (hard2 & pri2 & -> & Hle2). exists hard2, pri2. rewrite <- app_assoc. split; [done|lia]. }
  intros E. destruct (H soft [] hard hard_pri) as (h & p & E2 & Hle). rewrite E2 in E. by injection E as <- <- <-.
Qed.

Lemma first_visible_shorter (l : list cls_match) (m : match_ptr) :
  first_visible version l = Some m -> (S (length (mp_next m)) <= length l)%nat.
Proof.
  induction l as [|x l IH]; [done|]. cbn. destruct (cls_match_visible_in_version _ _).
  - intros [= <-]. cbn. lia.
  - intros H. apply IH in H. lia.
Qed.

Lemma next_soft_measure (soft_pri : Z) (soft : list soft_match) :
  (exists s, In s soft /\ sf_priority s = soft_pri) ->
  (soft_measure (map (soft_next soft_pri) soft) <
   soft_measure (map Some soft))%nat.
Proof.
  rewrite !soft_measure_sum. set (nx := soft_next soft_pri).
  assert (forall s, (soft_len (nx s) <= soft_len (Some s))%nat /\
    (sf_priority s = soft_pri -> soft_len (nx s) < soft_len (Some s))%nat) as Hnx.
  { intros s. unfold nx, soft_next. destruct (Z.eqb_spec (sf_priority s) soft_pri); [|split; [done|lia]].
    unfold next_visible_rule_in_list. destruct (first_visible version _) as [m|] eqn:E; [|cbn; lia].
    apply first_visible_shorter in E. change (Some m ≫= _) with (soft_of m). unfold soft_of.
    destruct (cm_conj_set _); cbn; lia. }
  clearbody nx. intros (s & Hin & Hs).
  assert (forall l, sum_list_with soft_len (map nx l) <= sum_list_with soft_len (map Some l))%nat as Hle.
  { induction l as [|x l IH]; [done|]. cbn -[soft_len]. destruct (Hnx x). lia. }
  induction soft as [|x soft IH]; [done|]. cbn -[soft_len]. destruct (Hnx x) as [H1 H2]. specialize (Hle soft).
  destruct Hin as [->|Hin]; [specialize (H2 Hs); lia|]. specialize (IH Hin). lia.
Qed.

Definition soft_good (pri : Z) (s : option soft_match) : Prop :=
  exists s', s = Some s' /\ pri < sf_priority s'.

Lemma delete_soft_good (fuel : nat) (pri : Z) (soft : list (option soft_match)) (i : nat) :
  (length soft < fuel + i)%nat -> Forall (soft_good pri) (take i soft) ->
  Forall (soft_good pri) (delete_soft fuel pri soft i).
Proof.
  revert soft i. induction fuel as [|fuel IH]; intros soft i Hfuel Hg.
  { cbn. by rewrite firstn_all2 in Hg by lia. }
  cbn [delete_soft]. destruct (soft !! i) as [s|] eqn:E.
  2: { apply lookup_ge_None in E. by rewrite firstn_all2 in Hg by lia. }
  pose proof (lookup_lt_Some _ _ _ E) as Hi.
  destruct (match s with None => true | _ => _ end) eqn:Ed.
  - apply IH; [rewrite length_take, length_insert; lia|].
    rewrite take_take. rewrite Nat.min_l by lia. by rewrite take_insert_ge by lia.
  - apply IH; [lia|]. rewrite (take_S_r _ _ s) by done. apply Forall_app. split; [done|].
    constructor; [|constructor]. destruct s as [s'|]; [|done]. exists s'. split; [done|]. by apply Z.leb_gt.
Qed.

Lemma soft_loop_total (fuel : nat) (f : flow) (hard : option cls_match) (hard_pri : Z)
    (soft : list (option soft_match)) (wc : option flow) (cf : option (gset Z)) :
  INT_MIN <= hard_pri -> (soft_measure soft < fuel)%nat ->
  is_Some (fst (soft_loop fuel cls version f hard hard_pri soft wc cf)).
Proof.
  revert hard hard_pri soft wc. induction fuel as [|fuel IH]; intros hard hard_pri soft wc Hpri Hfuel; [lia|].
  cbn [soft_loop]. set (del := delete_soft _ _ _ _).
  assert (Forall (soft_good hard_pri) del) as Hgood by (apply delete_soft_good; [lia|constructor]).
  pose proof (delete_soft_measure (S (length soft + length soft)) hard_pri soft 0) as Hmeas. fold del in Hmeas.
  rewrite <- soft_measure_omap in Hmeas. set (soft' := omap id del) in *.
  destruct soft' as [|s0 soft0] eqn:Es; [by eexists|]. rewrite <- Es in *.
  destruct (soft_priority soft') as [soft_pri n_soft_pri] eqn:Ep.
  assert (exists s, In s soft' /\ sf_priority s = soft_pri) as Hat.
  { destruct (soft_priority_attained soft' (INT_MIN, 0) soft_pri n_soft_pri Ep) as (_ & Hall & Hex). apply Hex. cbn [fst].
    assert (In s0 soft') as Hin by (rewrite Es; by left). pose proof (Hall s0 Hin).
    apply list_elem_of_In, list_elem_of_omap in Hin as (x & Hx & Hs).
    rewrite Forall_forall in Hgood. destruct (Hgood x Hx) as (s' & -> & Hlt). injection Hs as ->. lia. }
  destruct (find_real_match _ _ _ _ _ _ _ _) as [[[r id]|] wc']; [by eexists|].
  destruct (next_soft _ _ _ _ _) as [[soft1 hard1] pri1] eqn:En.
  apply next_soft_spec in En as [-> Hle]. apply IH; [lia|]. apply next_soft_measure in Hat. lia.
Qed.

Lemma main_core_pri (M : cls_subtable -> option match_ptr) (allow : bool) (v : list pvector_entry) (c : lookup_core) :
  snd (fst (fst c)) <= snd (fst (fst (main_core (cls_heap cls) M allow v c))).
Proof.
  revert c. induction v as [|e v IH]; intros c; [done|]. cbn [main_core]. destruct (_ <=? _); [|done].
  etransitivity; [|apply IH]. destruct (cls_heap cls !! _) as [st|]; [|done].
  destruct c as [[[hard hard_pri] soft] soft_pri]. unfold core_step. destruct (M st) as [m|]; [|done].
  destruct (Z.leb_spec (cm_priority (mp_match m)) hard_pri); [done|]. destruct (soft_of m); [by destruct allow|]. cbn. lia.
Qed.

Lemma classifier_lookup_total (f : flow) (wc : option flow) (cf : option (gset Z)) :
  flow_wf f -> wc_ok wc -> is_Some (fst (classifier_lookup cls version f wc cf)).
Proof.
  intros Hf Hwc. unfold classifier_lookup. destruct (lookup_main_ok f true wc Hf Hwc) as (Hc & _). cbn zeta in Hc.
  set (s := lookup_main _ _ _ _ _) in *. destruct (_ <=? _); [by eexists|]. apply soft_loop_total; [|lia].
  change (ls_hard_pri s) with (snd (fst (fst (core s)))). rewrite Hc. apply (main_core_pri _ _ _ core_init).
Qed.


(** ** The highest priority *)

(** A match that is visible and matches the flow. *)
Definition candidate (f : flow) (m : cls_match) : bool :=
  cls_match_visible_in_version m version && key_matches (cr_match (cm_rule m)) f.

Lemma first_visible_spec (l : list cls_match) :
  chain_sorted l ->
  match first_visible version l with
  | Some p => In (mp_match p) l /\ cls_match_visible_in_version (mp_match p) version = true /\
      forall m, In m l -> cls_match_visible_in_version m version = true -> cm_priority m <= cm_priority (mp_match p)
  | None => forall m, In m l -> cls_match_visible_in_version m version = false
  end.
Proof.
  induction 1 as [|x l Hl IH Hx]; [by intros ? []|]. cbn. destruct (cls_match_visible_in_version x version) eqn:Ev.
  - cbn. split_and!; [by left|done|]. rewrite Forall_forall in Hx. intros m [<-|Hm] _; [lia|].
    apply Hx. by apply list_elem_of_In.
  - destruct (first_visible version l) as [p|].
    + destruct IH as (Hin & Hv & Hmax). split_and!; [by right|done|]. intros m [<-|Hm] Hmv; [congruence|by apply Hmax].
    + intros m [<-|Hm]; [done|by apply IH].
Qed.

(** A match of a subtable that matches the flow is in the list that [subtable_match] uses. *)
Lemma st_matches_chain (st : cls_subtable) (f : flow) (m : cls_match) :
  subtable_ok st -> In m (st_matches st) -> key_matches (cr_match (cm_rule m)) f = true ->
  exists e, List.find (chain_matches f) (st_rules st) = Some e /\ In m (snd e).
Proof.
  intros Hok Hm Hk. unfold st_matches, rules_matches in Hm. apply in_concat in Hm as (l & Hl & Hm).
  apply in_map_iff in Hl as ([h l'] & <- & He). cbn [snd] in Hm.
  pose proof (so_chains st Hok) as Hc. pose proof (so_nodup st Hok) as Hnd.
  induction (st_rules st) as [|x rules IH]; [done|]. apply Forall_cons in Hc as [Hx Hc].
  destruct Hx as (k & Hkx & Hkok & Hkm & _ & Hall). unfold keys in Hnd. cbn [omap list_omap] in Hnd. rewrite Hkx in Hnd.
  apply NoDup_cons in Hnd as [Hnin Hnd]. cbn [List.find]. unfold chain_matches at 1. rewrite Hkx.
  destruct He as [->|He].
  - cbn [snd] in *. rewrite Forall_forall in Hall. destruct (Hall m) as [E _]; [by apply list_elem_of_In|].
    rewrite <- E, Hk. by exists (h, l').
  - destruct (key_matches k f) eqn:Ek; [|by apply IH]. exfalso. rewrite Forall_forall in Hc.
    destruct (Hc (h, l')) as (k' & Hk' & Hok' & Hkm' & _ & Hall'); [by apply list_elem_of_In|]. cbn [snd] in *.
    rewrite Forall_forall in Hall'. destruct (Hall' m) as [E' _]; [by apply list_elem_of_In|].
    apply Hnin. rewrite (key_unique k k' f); [|done..|congruence|done|by rewrite <- E'].
    apply list_elem_of_In, (chain_key_In _ (h, l')); done.
Qed.

Lemma subtable_match_best (st : cls_subtable) (f : flow) :
  subtable_core st ->
  match subtable_match st version f with
  | Some p => In (mp_match p) (st_matches st) /\ candidate f (mp_match p) = true /\
      forall m, In m (st_matches st) -> candidate f m = true -> cm_priority m <= cm_priority (mp_match p)
  | None => forall m, In m (st_matches st) -> candidate f m = false
  end.
Proof.
  intros Hc. pose proof (sc_ok _ Hc) as Hok. unfold subtable_match.
  assert (forall m, In m (st_matches st) -> candidate f m = true -> exists e,
    List.find (chain_matches f) (st_rules st) = Some e /\ In m (snd e) /\ cls_match_visible_in_version m version = true)
    as Hcand.
  { intros m Hm [Hv Hk]%andb_prop. destruct (st_matches_chain st f m Hok Hm Hk) as (e & He & Hin). by exists e. }
  destruct (List.find (chain_matches f) (st_rules st)) as [e|] eqn:Ef.
  2: { intros m Hm. destruct (candidate f m) eqn:E; [|done]. by destruct (Hcand m Hm E) as (e & ? & _). }
  apply find_some in Ef as [Hin Hmt].
  pose proof (proj1 (Forall_forall _ _) (sc_sorted _ Hc) e ltac:(by apply list_elem_of_In)) as Hs.
  pose proof (first_visible_spec (snd e) Hs) as Hfv. destruct (first_visible version (snd e)) as [p|].
  - destruct Hfv as (Hp & Hv & Hmax). split_and!.
    + apply in_concat. exists (snd e). split; [by apply in_map|done].
    + unfold candidate. rewrite Hv. unfold chain_matches in Hmt. cbn [andb].
      pose proof (proj1 (Forall_forall _ _) (so_chains _ Hok) e ltac:(by apply list_elem_of_In)) as (k & Hk & _ & _ & _ & Hall).
      rewrite Hk in Hmt. rewrite Forall_forall in Hall. by destruct (Hall (mp_match p) ltac:(by apply list_elem_of_In)) as [-> _].
    + intros m Hm Hcm. destruct (Hcand m Hm Hcm) as (e' & [= <-] & Hme & Hmv). by apply Hmax.
  - intros m Hm. destruct (candidate f m) eqn:E; [|done]. destruct (Hcand m Hm E) as (e' & [= <-] & Hme & Hmv).
    by rewrite Hfv in Hmv.
Qed.

(** The hard match is the best among [ms]. *)
Definition best (f : flow) (ms : list cls_match) (c : lookup_core) : Prop :=
  exists hard hard_pri, c = (hard, hard_pri, [], INT_MIN) /\
    match hard with
    | Some m => hard_pri = cm_priority m /\ In m ms /\ candidate f m = true
    | None => hard_pri = INT_MIN
    end /\
    forall m, In m ms -> candidate f m = true -> cm_priority m <= hard_pri.

Definition entry_matches (e : pvector_entry) : list cls_match :=
  match cls_heap cls !! pe_ptr e with Some st => st_matches st | None => [] end.

Lemma step_best (f : flow) (ms : list cls_match) (st : cls_subtable) (c : lookup_core) :
  subtable_core st -> Forall (fun m => cm_conj_set m = None) (st_matches st) -> best f ms c ->
  best f (ms ++ st_matches st) (core_step true (subtable_match st version f) c).
Proof.
  intros Hc Hnc (hard & hp & -> & Hh & Hmax). pose proof (subtable_match_best st f Hc) as Hb. unfold core_step.
  assert (forall m, In m ms \/ In m (st_matches st) -> In m (ms ++ st_matches st)) as Hin by (intros; by apply in_or_app).
  destruct (subtable_match st version f) as [p|].
  - destruct Hb as (Hp & Hcand & Hbest). destruct (Z.leb_spec (cm_priority (mp_match p)) hp) as [Hle|Hgt].
    + exists hard, hp. split_and!; [done| |].
      * destruct hard as [m|]; [|done]. destruct Hh as (? & ? & ?). split_and!; auto.
      * intros m [Hm|Hm]%in_app_or Hcm; [by apply Hmax|]. specialize (Hbest m Hm Hcm). lia.
    + rewrite Forall_forall in Hnc. unfold soft_of. rewrite Hnc by (by apply list_elem_of_In).
      eexists _, _. split_and!; [done| |].
      * split_and!; auto.
      * intros m [Hm|Hm]%in_app_or Hcm; [specialize (Hmax m Hm Hcm); lia|by apply Hbest].
  - exists hard, hp. split_and!; [done| |].
    + destruct hard as [m|]; [|done]. destruct Hh as (? & ? & ?). split_and!; auto.
    + intros m [Hm|Hm]%in_app_or Hcm; [by apply Hmax|]. rewrite Hb in Hcm; done.
Qed.

Lemma main_core_best (f : flow) (v : list pvector_entry) (ms : list cls_match) (c : lookup_core) :
  StronglySorted entry_le v -> (forall e, In e v -> In e vector) ->
  Forall (fun m => cm_conj_set m = None) (all_matches subs) -> best f ms c ->
  best f (ms ++ concat (map entry_matches v))
    (main_core (cls_heap cls) (fun st => subtable_match st version f) true v c).
Proof.
  intros Hs Hin Hnc. revert ms c. induction Hs as [|e v Hs IH He]; intros ms c Hb.
  { cbn. by rewrite app_nil_r. }
  cbn [main_core map concat].
  assert (forall e, In e vector -> exists st, cls_heap cls !! pe_ptr e = Some st /\ subtable_core st /\
    Forall (fun m => cm_priority m <= pe_priority e) (st_matches st) /\
    Forall (fun m => cm_conj_set m = None) (st_matches st)) as Hent.
  { intros x (i & Hi)%list_elem_of_In%list_elem_of_lookup_1. destruct (vector_sub i x Hi) as (st & Hst & _ & Hp & Hsub).
    destruct (rep_sub _ _ _ _ Hrep Hsub) as (_ & Hc & Hm). exists st. split_and!; [done|done|rewrite Hp; apply Hm|].
    rewrite Forall_forall in *. intros m Hm'. apply Hnc. apply list_elem_of_In, in_concat.
    exists (st_matches st). split; [by apply (in_map (fun e => st_matches (snd e)) _ _ Hsub)|by apply list_elem_of_In]. }
  destruct (Z.leb_spec (snd (fst (fst c)) + 1) (pe_priority e)) as [Hp|Hp].
  - rewrite app_assoc. apply IH; [intros; apply Hin; by right|].
    destruct (Hent e ltac:(apply Hin; by left)) as (st & Hst & Hc & _ & Hn). unfold entry_matches. rewrite Hst.
    by apply step_best.
  - destruct Hb as (hard & hp & -> & Hh & Hmax). cbn [fst snd] in Hp. exists hard, hp. split_and!; [done| |].
    + destruct hard as [m|]; [|done]. destruct Hh as (? & ? & ?). split_and!; [done|apply in_or_app; by left|done].
    + change (entry_matches e ++ concat (map entry_matches v)) with (concat (map entry_matches (e :: v))).
      intros m [Hm|(l & Hl & Hm)%in_concat]%in_app_or Hcm; [by apply Hmax|].
      apply in_map_iff in Hl as (x & <- & Hx). destruct (Hent x (Hin x Hx)) as (st & Hst & _ & Hle & _).
      unfold entry_matches in Hm. rewrite Hst in Hm. rewrite Forall_forall in Hle.
      specialize (Hle m ltac:(by apply list_elem_of_In)). destruct Hx as [<-|Hx]; [lia|].
      rewrite Forall_forall in He. specialize (He x ltac:(by apply list_elem_of_In)). apply entry_le_spec in He. lia.
Qed.

Lemma vector_matches (m : cls_match) : In m (all_matches subs) -> In m (concat (map entry_matches vector)).
Proof.
  intros (l & Hl & Hm)%in_concat. apply in_map_iff in Hl as ([id st] & <- & Hin).
  destruct (rep_sub _ _ _ _ Hrep Hin) as (Hh & _ & _). apply in_concat. exists (st_matches st). split; [|done].
  apply in_map_iff. exists (PvectorEntry (st_max_priority st) id). split; [unfold entry_matches; cbn; by rewrite Hh|].
  rewrite vector_entries. apply (Permutation_in _ (Permutation_sym (cp_pv _ _ Hrep))).
  apply in_map_iff. by exists (id, st).
Qed.

Lemma matches_vector (m : cls_match) : In m (concat (map entry_matches vector)) -> In m (all_matches subs).
Proof.
  intros (l & Hl & Hm)%in_concat. apply in_map_iff in Hl as (e & <- & He).
  apply list_elem_of_In, list_elem_of_lookup_1 in He as (i & Hi).
  destruct (vector_sub i e Hi) as (st & Hst & _ & _ & Hsub). unfold entry_matches in Hm. rewrite Hst in Hm.
  apply in_concat. exists (st_matches st). split; [|done]. by apply (in_map (fun e => st_matches (snd e)) _ _ Hsub).
Qed.

Lemma lookup_best (f : flow) (wc : option flow) (cf : option (gset Z)) :
  flow_wf f -> wc_ok wc -> Forall (fun m => cm_conj_set m = None) (all_matches subs) ->
  exists hard, fst (classifier_lookup cls version f wc cf) = Some (cm_rule <$> hard, cf) /\
    match hard with
    | Some m => In m (all_matches subs) /\ candidate f m = true /\
        forall m', In m' (all_matches subs) -> candidate f m' = true -> cm_priority m' <= cm_priority m
    | None => forall m', In m' (all_matches subs) -> candidate f m' = false
    end.
Proof.
  intros Hf Hwc Hnc. unfold classifier_lookup. destruct (lookup_main_ok f true wc Hf Hwc) as (Hc & _). cbn zeta in Hc.
  set (s := lookup_main _ _ _ _ _) in *. clearbody s.
  destruct (main_core_best f vector [] core_init (pvwf_sorted _ (cp_pvwf _ _ Hrep)) ltac:(done) Hnc) as (hard & hp & E & Hh & Hmax).
  { exists None, INT_MIN. by split_and!. }
  unfold spec_core in Hc. rewrite E in Hc. unfold core in Hc. injection Hc as E1 E2 _ E4. rewrite E1, E2, E4.
  assert (INT_MIN <= hp) as Hhp.
  { pose proof (main_core_pri (fun st => subtable_match st version f) true vector core_init) as Hp. by rewrite E in Hp. }
  destruct (Z.leb_spec INT_MIN hp); [|lia]. exists hard. split; [done|].
  destruct hard as [m|].
  - destruct Hh as (-> & Hin & Hcand). split_and!; [by apply matches_vector|done|].
    intros m' Hm' Hcm'. apply Hmax; [by apply vector_matches|done].
  - intros m' Hm'. destruct (candidate f m') eqn:Ec; [|done]. exfalso.
    specialize (Hmax m' (vector_matches m' Hm') Ec). subst hp.
    apply in_concat in Hm' as (l & Hl & Hm'). apply in_map_iff in Hl as ([id st] & <- & Hin).
    destruct (rep_sub _ _ _ _ Hrep Hin) as (_ & Hc & _). pose proof (sc_match _ Hc) as Hmo. rewrite Forall_forall in Hmo.
    destruct (Hmo m' ltac:(by apply list_elem_of_In)) as (_ & Hlt & _). lia.
Qed.

End Lookup.
