(* ===== verification/ClassifierUpdate.v ===== *)
(** * Insertion of rules

    [classifier_replace] of lib/classifier.c keeps the
    invariant, never fails an assertion, and changes the set of rules as its
    comment says. *)

From S2P Require Import Prelude Util Flowmap Hash Miniflow MetaFlow Trie FlowBits Versions Pvector Classifier Subtable.
From S2P Require Import ClassifierInv.
From stdpp Require Import prelude list sorting gmap.
From Stdlib Require Import ZArith Lia.
Open Scope Z_scope.
Open Scope ovs_scope.

(** ** Lists of equal rules *)

Lemma miniflow_equal_key (a b : minimatch) :
  minimatch_wf a -> minimatch_wf b -> mm_mask a = mm_mask b ->
  miniflow_equal (mm_flow a) (mm_flow b) = true <-> a = b.
Proof.
  intros Ha Hb Hm. rewrite miniflow_equal_get by eauto with ovs. split; [|by intros ->]. intros H.
  apply key_eq; [done..|]. apply flow_ext; [apply expand_length..|]. intros i _. by rewrite !expand_nth by eauto with ovs.
Qed.

Lemma minimask_equal_eq (a b : minimask) : minimask_wf a -> minimask_wf b -> minimask_equal a b = true <-> a = b.
Proof.
  intros Ha Hb. unfold minimask_equal. rewrite andb_true_iff. unfold flowmap_equal. rewrite !bool_decide_eq_true. split.
  - intros [Hm Hv]. assert (miniflow_n_values a = miniflow_n_values b) as En by (unfold miniflow_n_values; by rewrite Hm).
    rewrite (firstn_values a), En, (firstn_values b) in Hv by eauto with ovs. destruct a, b. cbn in *. congruence.
  - by intros ->.
Qed.

Lemma find_split {A} (p : A -> bool) (l : list A) (x : A) :
  List.find p l = Some x -> exists l1 l2, l = l1 ++ x :: l2 /\ p x = true.
Proof.
  induction l as [|y l IH]; [done|]. cbn. destruct (p y) eqn:E.
  - intros [= <-]. by exists [], l.
  - intros (l1 & l2 & -> & Hx)%IH. by exists (y :: l1), l2.
Qed.

Lemma keys_app (l k : list (Z * list cls_match)) : keys (l ++ k) = keys l ++ keys k.
Proof. apply omap_app. Qed.

Lemma keys_cons (h : Z) (l : list cls_match) (k : minimatch) (rules : list (Z * list cls_match)) :
  chain_key l = Some k -> keys ((h, l) :: rules) = k :: keys rules.
Proof. intros Hk. unfold keys. cbn. by rewrite Hk. Qed.

Lemma rules_matches_app (l k : list (Z * list cls_match)) :
  rules_matches (l ++ k) = rules_matches l ++ rules_matches k.
Proof. unfold rules_matches. by rewrite map_app, concat_app. Qed.

Lemma rules_matches_cons (h : Z) (l : list cls_match) (rules : list (Z * list cls_match)) :
  rules_matches ((h, l) :: rules) = l ++ rules_matches rules.
Proof. done. Qed.

(** Only the list with the given head changes. *)
Lemma set_chain_split (r1 r2 : list (Z * list cls_match)) (h : Z) (head : cls_match) (next l : list cls_match) :
  NoDup (map match_id (rules_matches (r1 ++ (h, head :: next) :: r2))) ->
  set_chain head l (r1 ++ (h, head :: next) :: r2) = r1 ++ (h, l) :: r2.
Proof.
  intros Hnd. unfold set_chain. rewrite map_app. cbn [map snd fst]. unfold same_rule at 2. rewrite Z.eqb_refl.
  rewrite rules_matches_app, rules_matches_cons, !map_app in Hnd. cbn [map app] in Hnd.
  assert (forall r, (forall m, In m (rules_matches r) -> match_id m <> match_id head) ->
    map (fun e : Z * list cls_match => match snd e with
                | h :: _ => if same_rule (cm_rule head) h then (fst e, l) else e
                | [] => e
                end) r = r) as Hid.
  { induction r as [|[x c] r IH]; intros Hr; [done|]. cbn [map snd fst]. rewrite IH.
    - destruct c as [|y c]; [done|]. unfold same_rule. destruct (Z.eqb_spec (cr_id (cm_rule y)) (cr_id (cm_rule head))); [|done].
      destruct (Hr y); [by left|done].
    - intros m Hm. apply Hr. rewrite rules_matches_cons. apply in_or_app. by right. }
  apply NoDup_app in Hnd as (_ & Hdis & [Hnin _]%NoDup_cons). rewrite elem_of_app in Hnin.
  rewrite !Hid; [done| |]; intros m Hm E; apply (in_map match_id), list_elem_of_In in Hm.
  - apply Hnin. right. by rewrite <- E.
  - apply (Hdis _ Hm). rewrite E. apply list_elem_of_here.
Qed.

Lemma remove_chain_split (r1 r2 : list (Z * list cls_match)) (h : Z) (head : cls_match) (next : list cls_match) :
  NoDup (map match_id (rules_matches (r1 ++ (h, head :: next) :: r2))) ->
  remove_chain (cm_rule head) (r1 ++ (h, head :: next) :: r2) = r1 ++ r2.
Proof.
  intros Hnd. unfold remove_chain. rewrite List.filter_app. cbn [List.filter snd]. unfold same_rule at 2.
  rewrite Z.eqb_refl. cbn [negb].
  rewrite rules_matches_app, rules_matches_cons, !map_app in Hnd. cbn [map app] in Hnd.
  apply NoDup_app in Hnd as (_ & Hdis & [Hnin _]%NoDup_cons). rewrite elem_of_app in Hnin.
  rewrite !filter_all_in; [done| |]; intros [x [|y c]] Hin; try done; cbn [snd]; unfold same_rule; apply negb_true_iff, Z.eqb_neq;
    intros E; change (match_id y = match_id head) in E.
  - apply Hnin. right. apply list_elem_of_In. rewrite <- E. apply (in_map match_id _ y).
    apply in_concat. exists (y :: c). split; [by apply (in_map snd _ _ Hin)|by left].
  - apply (Hdis (match_id y)); [|rewrite E; apply list_elem_of_here]. apply list_elem_of_In, (in_map match_id _ y).
    apply in_concat. exists (y :: c). split; [by apply (in_map snd _ _ Hin)|by left].
Qed.

(** ** Counting *)

Lemma filter_length_app {A} (p : A -> bool) (l k : list A) :
  length (List.filter p (l ++ k)) = (length (List.filter p l) + length (List.filter p k))%nat.
Proof. by rewrite List.filter_app, length_app. Qed.

Lemma filter_length_cons {A} (p : A -> bool) (x : A) (l : list A) :
  length (List.filter p (x :: l)) = ((if p x then 1 else 0) + length (List.filter p l))%nat.
Proof. cbn. by destruct (p x). Qed.

Lemma filter_length_perm {A} (p : A -> bool) (l k : list A) :
  Permutation l k -> length (List.filter p l) = length (List.filter p k).
Proof.
  induction 1; cbn; repeat match goal with |- context [if ?b then _ else _] => destruct b end; cbn; lia.
Qed.

Lemma ccmap_find_inc (c : ccmap) (x h : Z) :
  ccmap_find (ccmap_inc c x) h = (ccmap_find c h + if (x =? h)%Z then 1 else 0)%nat.
Proof.
  unfold ccmap_inc. unfold ccmap_find at 1. destruct (Z.eqb_spec x h) as [->|].
  - rewrite lookup_insert_eq. cbn. lia.
  - rewrite lookup_insert_ne by done. fold (ccmap_find c h). lia.
Qed.

Lemma ccmap_find_dec (c : ccmap) (x : Z) :
  (0 < ccmap_find c x)%nat ->
  exists c', ccmap_dec c x = Some c' /\
    forall h, ccmap_find c' h = (ccmap_find c h - if (x =? h)%Z then 1 else 0)%nat.
Proof.
  intros Hp. unfold ccmap_dec. destruct (ccmap_find c x) as [|[|n]] eqn:E; [lia| |]; eexists; (split; [done|]); intros h;
    unfold ccmap_find at 1; destruct (Z.eqb_spec x h) as [->|].
  - rewrite lookup_delete_eq, E. done.
  - rewrite lookup_delete_ne by done. fold (ccmap_find c h). lia.
  - rewrite lookup_insert_eq, E. cbn. lia.
  - rewrite lookup_insert_ne by done. fold (ccmap_find c h). lia.
Qed.

Section Update.
Context `{HH : Hash}.

Lemma find_equal_spec (st : cls_subtable) (k : minimatch) :
  subtable_ok st -> key_ok k -> mm_mask k = st_mask st ->
  match find_equal st (mm_flow k) (key_hash (st_index_maps st) k (st_n_indices st)) with
  | Some l => exists r1 r2 h head next, l = head :: next /\ st_rules st = r1 ++ (h, l) :: r2 /\ chain_key l = Some k
  | None => ~ In k (keys (st_rules st))
  end.
Proof.
  intros Hok [Hk _] Hm. unfold find_equal. set (p := fun e : Z * list cls_match => _).
  assert (forall e k', In e (st_rules st) -> chain_key (snd e) = Some k' -> p e = true <-> k' = k) as Hp.
  { intros e k' He Hk'. pose proof (proj1 (Forall_forall _ _) (so_chains _ Hok) e ltac:(by apply list_elem_of_In))
      as (k'' & Hk'' & [Hw'' _] & Hm'' & Hh & Hall). assert (k'' = k') as -> by congruence.
    unfold p. destruct (snd e) as [|head next]; [done|]. apply Forall_cons in Hall as [[_ Hfl] _].
    rewrite Hfl, andb_true_iff, Z.eqb_eq, miniflow_equal_key by (done || congruence). rewrite Hh.
    split; [by intros []|]. by intros ->. }
  destruct (List.find p (st_rules st)) as [e|] eqn:Ef.
  - apply find_split in Ef as (r1 & r2 & Er & He).
    assert (In e (st_rules st)) as Hin by (rewrite Er; apply in_or_app; right; by left).
    pose proof (proj1 (Forall_forall _ _) (so_chains _ Hok) e ltac:(by apply list_elem_of_In)) as (k' & Hk' & _).
    apply (Hp e k' Hin Hk') in He as ->. destruct e as [h [|head next]]; [done|].
    by exists r1, r2, h, head, next.
  - intros (e & He & Hke)%list_elem_of_In%list_elem_of_omap. apply list_elem_of_In in He.
    apply (List.find_none _ _ Ef) in He as Hf.
    by rewrite (proj2 (Hp e k He Hke) eq_refl) in Hf.
Qed.

(** Changing lists without changing their flows. *)
Lemma subtable_ok_chain (st st' : cls_subtable) :
  subtable_ok st -> st_mask st' = st_mask st -> st_index_maps st' = st_index_maps st ->
  st_n_indices st' = st_n_indices st -> st_indices st' = st_indices st ->
  st_ports_mask_len st' = st_ports_mask_len st -> st_ports_trie st' = st_ports_trie st ->
  keys (st_rules st') = keys (st_rules st) ->
  Forall (chain_ok (st_mask st) (st_index_maps st) (st_n_indices st)) (st_rules st') -> subtable_ok st'.
Proof.
  intros [] E1 E2 E3 E4 E5 E6 E7 Hc. split; rewrite ?E1, ?E2, ?E3, ?E4, ?E5, ?E6, ?E7; done.
Qed.

Lemma keys_nodup_snoc (ks : list minimatch) (k : minimatch) : NoDup ks -> ~ In k ks -> NoDup (ks ++ [k]).
Proof.
  intros Hn Hk. apply NoDup_app. split_and!; [done| |apply NoDup_singleton].
  intros x Hx ->%list_elem_of_singleton. apply Hk. by apply list_elem_of_In.
Qed.

Lemma ports_key_width (k : minimatch) : minimatch_wf k -> be32s_wf [minimatch_get_ports k].
Proof.
  intros Hk. apply Forall_singleton. apply in_width_land; [lia|apply ports_width; eauto with ovs|].
  apply (ports_width (mm_mask k)). eauto with ovs.
Qed.

Lemma ports_len_le (st : cls_subtable) : subtable_ok st -> (st_ports_mask_len st <= 32)%nat.
Proof. intros H. rewrite (so_ports_len _ H). apply ctz32_le, ports_width, kwf_mf, so_mask, H. Qed.

(** A new flow enters the indices, the ports trie and the hash table. *)
Lemma subtable_ok_insert (st st' : cls_subtable) (k : minimatch) (h : Z) (l : list cls_match) :
  subtable_ok st -> chain_ok (st_mask st) (st_index_maps st) (st_n_indices st) (h, l) -> chain_key l = Some k ->
  ~ In k (keys (st_rules st)) ->
  st_mask st' = st_mask st -> st_index_maps st' = st_index_maps st -> st_n_indices st' = st_n_indices st ->
  st_ports_mask_len st' = st_ports_mask_len st -> st_rules st' = st_rules st ++ [(h, l)] ->
  st_indices st' = zip_with ccmap_inc (st_indices st) (map (key_hash (st_index_maps st) k) (seq 0 (st_n_indices st))) ->
  st_ports_trie st' = (if (0 <? st_ports_mask_len st)%nat
    then trie_insert_prefix (st_ports_trie st) [minimatch_get_ports k] (st_ports_mask_len st) else st_ports_trie st) ->
  subtable_ok st'.
Proof.
  intros Hok Hc Hk Hnew E1 E2 E3 E4 E5 E6 E7. pose proof Hc as (k' & Hk' & [Hkw _] & _). cbn [snd] in Hk'.
  assert (k' = k) as -> by congruence.
  assert (keys (st_rules st') = keys (st_rules st) ++ [k]) as Ek by (by rewrite E5, keys_app, (keys_cons h l k)).
  pose proof (ports_len_le st Hok) as Hlen. destruct (so_ports_wf _ Hok) as [Htw Hth].
  assert ((0 < st_ports_mask_len st)%nat -> insert_ok true (st_ports_trie st)
    (trie_insert_prefix (st_ports_trie st) [minimatch_get_ports k] (st_ports_mask_len st)) [minimatch_get_ports k]
    0 (st_ports_mask_len st)) as Hins.
  { intros Hp. apply insert_walk_ok; [by apply ports_key_width|done|done|done]. }
  pose proof (so_n_indices _ Hok) as Hni.
  split; rewrite ?E1, ?E2, ?E3, ?E4; try apply Hok.
  - rewrite E5. apply Forall_app. split; [apply Hok|]. by constructor.
  - rewrite Ek. apply keys_nodup_snoc; [apply Hok|done].
  - rewrite E6, length_zip_with, length_map, length_seq. lia.
  - intros i c hh Hc'. rewrite E6 in Hc'. apply lookup_zip_with_Some in Hc' as (c0 & x & -> & Hc0 & Hx).
    rewrite Ek, filter_length_app, filter_length_cons. cbn [List.filter length].
    rewrite ccmap_find_inc, (so_indices _ Hok i c0) by done.
    rewrite list_lookup_fmap in Hx.
    rewrite lookup_seq_lt in Hx by (rewrite <- Hni; by eapply lookup_lt_Some). injection Hx as <-. cbn [Nat.add]. lia.
  - rewrite E7. destruct (Nat.ltb_spec 0 (st_ports_mask_len st)) as [Hp|]; [|done]. destruct (Hins Hp). split; [done|].
    rewrite Nat.sub_0_r in *. lia.
  - intros Hp b. rewrite E7, Ek, filter_length_app, filter_length_cons. destruct (Nat.ltb_spec 0 (st_ports_mask_len st)); [|lia].
    rewrite (io_count _ _ _ _ _ _ (Hins Hp)), (so_ports _ Hok Hp), Nat.sub_0_r. cbn [List.filter length].
    by case_bool_decide; rewrite Nat.add_0_r.
Qed.

(** Decrementing the counts of one flow in all the indices. *)
Lemma indices_dec (cs : list ccmap) (hs : list Z) :
  length cs = length hs ->
  (forall i c h, cs !! i = Some c -> hs !! i = Some h -> (0 < ccmap_find c h)%nat) ->
  exists cs', mapM (fun '(c, h) => ccmap_dec c h) (List.combine cs hs) = Some cs' /\ length cs' = length cs /\
    forall i c' h, cs' !! i = Some c' -> hs !! i = Some h -> exists c, cs !! i = Some c /\
      forall x, ccmap_find c' x = (ccmap_find c x - if (h =? x)%Z then 1 else 0)%nat.
Proof.
  revert hs. induction cs as [|c cs IH]; intros [|h hs] Hl Hpos; try done; [by exists []|].
  destruct (ccmap_find_dec c h) as (c' & Hd & Hc'); [by apply (Hpos 0%nat)|].
  destruct (IH hs) as (cs' & Hm & Hl' & Hcs'); [by injection Hl|intros i; apply (Hpos (S i))|].
  exists (c' :: cs'). split_and!.
  - cbn in Hm |- *. rewrite Hd. cbn. by rewrite Hm.
  - cbn. by rewrite Hl'.
  - intros [|i] x y Hx Hy; [|by apply (Hcs' i)]. injection Hx as <-. injection Hy as <-. by exists c.
Qed.

(** A flow leaves the indices, the ports trie and the hash table. *)
Lemma subtable_ok_remove (st st' : cls_subtable) (k : minimatch) (h : Z) (l : list cls_match)
    (r1 r2 : list (Z * list cls_match)) :
  subtable_ok st -> st_rules st = r1 ++ (h, l) :: r2 -> chain_key l = Some k ->
  st_mask st' = st_mask st -> st_index_maps st' = st_index_maps st -> st_n_indices st' = st_n_indices st ->
  st_ports_mask_len st' = st_ports_mask_len st -> st_rules st' = r1 ++ r2 ->
  mapM (fun '(c, h) => ccmap_dec c h)
    (List.combine (st_indices st) (map (key_hash (st_index_maps st) k) (seq 0 (st_n_indices st)))) = Some (st_indices st') ->
  st_ports_trie st' = (if (0 <? st_ports_mask_len st)%nat
    then trie_remove_prefix (st_ports_trie st) [minimatch_get_ports k] (st_ports_mask_len st) else st_ports_trie st) ->
  subtable_ok st'.
Proof.
  intros Hok Er Hk E1 E2 E3 E4 E5 E6 E7.
  assert (keys (st_rules st) = keys r1 ++ k :: keys r2) as Ek by (by rewrite Er, keys_app, (keys_cons h l k)).
  assert (keys (st_rules st') = keys r1 ++ keys r2) as Ek' by (by rewrite E5, keys_app).
  assert (In k (keys (st_rules st))) as Hin by (rewrite Ek; apply in_or_app; right; by left).
  destruct (keys_ok st k Hok Hin) as [[Hkw _] _]. destruct (so_ports_wf _ Hok) as [Htw Hth].
  destruct (remove_prefix_ok (st_ports_trie st) [minimatch_get_ports k] (st_ports_mask_len st) (ports_key_width k Hkw) Htw)
    as (Hrw & Hrh & Hrc). pose proof (so_n_indices _ Hok) as Hni.
  destruct (indices_dec (st_indices st) (map (key_hash (st_index_maps st) k) (seq 0 (st_n_indices st))))
    as (cs' & Hm & Hl' & Hcs'); [by rewrite length_map, length_seq| |].
  { intros i c x Hc Hx. rewrite (so_indices _ Hok i c) by done. apply length_filter_pos. exists k. split; [done|].
    rewrite list_lookup_fmap, lookup_seq_lt in Hx by (rewrite <- Hni; by eapply lookup_lt_Some).
    injection Hx as <-. apply Z.eqb_refl. }
  rewrite Hm in E6. injection E6 as E6.
  split; rewrite ?E1, ?E2, ?E3, ?E4; try apply Hok.
  - pose proof (so_chains _ Hok) as Hc. rewrite Er in Hc. rewrite E5. apply Forall_app in Hc as [Hc1 Hc2].
    apply Forall_cons in Hc2 as [_ Hc2]. by apply Forall_app.
  - pose proof (so_nodup _ Hok) as Hnd. rewrite Ek in Hnd. rewrite Ek'.
    apply (NoDup_Permutation_proper (keys r1 ++ k :: keys r2) (k :: keys r1 ++ keys r2)) in Hnd;
      [by apply NoDup_cons in Hnd as [_ Hnd]|by rewrite Permutation_middle].
  - by rewrite <- E6, Hl'.
  - intros i c x Hc. rewrite <- E6 in Hc. assert (i < st_n_indices st)%nat as Hi
      by (rewrite <- Hni, <- Hl'; by eapply lookup_lt_Some).
    destruct (Hcs' i c (key_hash (st_index_maps st) k i) Hc) as (c0 & Hc0 & ->).
    { by rewrite list_lookup_fmap, lookup_seq_lt. }
    rewrite (so_indices _ Hok i c0 x Hc0), Ek, Ek', !filter_length_app, filter_length_cons. destruct (_ =? x); lia.
  - rewrite E7. destruct (Nat.ltb_spec 0 (st_ports_mask_len st)); [|done]. split; [done|]. lia.
  - intros Hp b. rewrite E7, Ek'. destruct (Nat.ltb_spec 0 (st_ports_mask_len st)); [|lia].
    rewrite Hrc, (so_ports _ Hok Hp), Ek, !filter_length_app, filter_length_cons. case_bool_decide; lia.
Qed.

(** ** Tries *)

Lemma minimatch_get_prefix_wf (k : minimatch) (mf : mf_field) :
  minimatch_wf k -> be32s_wf (minimatch_get_prefix k mf).
Proof.
  intros Hk. unfold minimatch_get_prefix. apply Forall_drop, Forall_concat, Forall_map, Forall_drop.
  eapply Forall_impl; [apply (mwf_width _ (mmwf_flow _ Hk))|]. intros v Hv. cbn.
  constructor; [by apply shiftr_32_width|]. constructor; [|constructor]. apply wrap_width. lia.
Qed.

Lemma prefix_len_le (mask : minimask) (mf : mf_field) :
  miniflow_wf mask -> field_ok mf -> (minimask_get_prefix_len mask mf <= mff_n_bits mf)%nat.
Proof.
  intros Hm Hf. rewrite (fo_bits _ Hf). destruct (decide (minimask_get_prefix_len mask mf = 0%nat)) as [->|Hne]; [lia|].
  destruct (decide (mff_n_bytes mf / 4 = 0)%nat) as [E|E].
  - unfold minimask_get_prefix_len in Hne. by rewrite E in Hne.
  - apply (minimask_get_prefix_len_spec mask mf 0 Hm Hne). lia.
Qed.

Lemma trie_counts_perm (t : cls_trie) (mf : mf_field) (ks ks' : list minimatch) :
  Permutation ks ks' -> trie_counts t mf ks -> trie_counts t mf ks'.
Proof. intros Hp H b. rewrite (H b). by apply filter_length_perm. Qed.

Lemma trie_insert_ok (t : cls_trie) (mf : mf_field) (k : minimatch) (ks : list minimatch) :
  let plen := minimask_get_prefix_len (mm_mask k) mf in
  trie_ok t mf -> trie_counts t mf ks -> minimatch_wf k -> plen <> 0%nat ->
  trie_ok (trie_insert t k plen) mf /\ trie_counts (trie_insert t k plen) mf (k :: ks).
Proof.
  intros plen [Hf Hfo Hw Hh] Hc Hk Hp. unfold trie_insert, trie_insert_prefix. rewrite Hf.
  destruct (insert_walk_ok (ct_root t) true (minimatch_get_prefix k mf) 0 plen) as [Iw _ Ih Ic];
    [by apply minimatch_get_prefix_wf|done|done|lia|].
  rewrite Nat.sub_0_r in *.
  assert (plen <= mff_n_bits mf)%nat by (apply prefix_len_le; [eauto with ovs|done]). split.
  - split; [done|done|done|]. cbn [ct_root]. lia.
  - intros b. cbn [ct_root]. rewrite Ic, Hc, filter_length_cons. cbn zeta. fold plen.
    destruct (Nat.eqb_spec plen 0); [lia|]. cbn [negb andb]. case_bool_decide; lia.
Qed.

Lemma trie_remove_ok (t : cls_trie) (mf : mf_field) (k : minimatch) (ks : list minimatch) :
  let plen := minimask_get_prefix_len (mm_mask k) mf in
  trie_ok t mf -> trie_counts t mf (k :: ks) -> minimatch_wf k -> plen <> 0%nat ->
  trie_ok (trie_remove t k plen) mf /\ trie_counts (trie_remove t k plen) mf ks.
Proof.
  intros plen [Hf Hfo Hw Hh] Hc Hk Hp. unfold trie_remove. rewrite Hf.
  destruct (remove_prefix_ok (ct_root t) (minimatch_get_prefix k mf) plen) as (Iw & Ih & Ic);
    [by apply minimatch_get_prefix_wf|done|]. split.
  - split; [done|done|done|]. cbn [ct_root]. lia.
  - intros b. cbn [ct_root]. rewrite Ic, Hc, filter_length_cons. cbn zeta. fold plen.
    destruct (Nat.eqb_spec plen 0); [lia|]. cbn [negb andb]. case_bool_decide; lia.
Qed.

Lemma trie_counts_no_prefix (t : cls_trie) (mf : mf_field) (k : minimatch) (ks : list minimatch) :
  minimask_get_prefix_len (mm_mask k) mf = 0%nat -> trie_counts t mf (k :: ks) <-> trie_counts t mf ks.
Proof.
  intros Hp. unfold trie_counts. setoid_rewrite filter_length_cons. cbn zeta. rewrite Hp. cbn. done.
Qed.

(** ** The vector of subtables *)

Definition sub_entry (e : Z * cls_subtable) : pvector_entry := PvectorEntry (st_max_priority (snd e)) (fst e).

Lemma pv_change_perm (v : pvector) (ptr p0 p : Z) (rest : list pvector_entry) :
  pvector_wf v -> Permutation (pv_entries v) (PvectorEntry p0 ptr :: rest) ->
  exists v', pvector_change_priority v ptr p = Some v' /\ pvector_wf v' /\
    Permutation (pv_entries v') (PvectorEntry p ptr :: rest).
Proof.
  intros Hw Hp. assert (In (PvectorEntry p0 ptr) (pv_entries v)) as Hin
    by (apply (Permutation_in _ (Permutation_sym Hp)); by left).
  destruct (pvector_change_spec v ptr p Hw) as (v' & k & Hc & Hw' & Hk & Hkp & Hv'); [by apply (in_map pe_ptr) in Hin|].
  exists v'. split_and!; [done|done|]. rewrite Hv'. set (l := pv_entries v) in *.
  assert (entry_at l k = PvectorEntry p0 ptr) as Ek.
  { apply (nodup_ptr_unique l); [apply Hw| |done|done]. by apply nth_In. }
  pose proof (replace_perm l (PvectorEntry p ptr) k Hk) as Hr. rewrite Ek in Hr.
  apply (Permutation_cons_inv (a := PvectorEntry p0 ptr)). rewrite <- Hr, Permutation_app_comm. cbn [app].
  rewrite Hp. apply perm_swap.
Qed.

Lemma pv_remove_perm (v : pvector) (ptr p0 : Z) (rest : list pvector_entry) :
  pvector_wf v -> Permutation (pv_entries v) (PvectorEntry p0 ptr :: rest) ->
  exists v', pvector_remove v ptr = Some v' /\ pvector_wf v' /\ Permutation (pv_entries v') rest.
Proof.
  intros Hw Hp. assert (In (PvectorEntry p0 ptr) (pv_entries v)) as Hin
    by (apply (Permutation_in _ (Permutation_sym Hp)); by left).
  destruct (pvector_remove_spec v ptr Hw) as (v' & e & Hr & Hw' & He & Hperm); [by apply (in_map pe_ptr) in Hin|].
  exists v'. split_and!; [done|done|].
  assert (e = PvectorEntry p0 ptr) as ->.
  { apply (nodup_ptr_unique (pv_entries v)); [apply Hw| |done|done].
    apply (Permutation_in _ (Permutation_sym Hperm)). by left. }
  apply (Permutation_cons_inv (a := PvectorEntry p0 ptr)). by rewrite <- Hperm.
Qed.

Lemma sub_entries_focus (l1 l2 : list (Z * cls_subtable)) (e : Z * cls_subtable) :
  Permutation (map sub_entry (l1 ++ e :: l2)) (sub_entry e :: map sub_entry (l1 ++ l2)).
Proof. rewrite !map_app. cbn [map]. by rewrite Permutation_middle. Qed.

(** ** Replacing a subtable *)

(** [tries'] holds the prefixes of [ks]. *)
Definition tries_hold (cls : classifier) (tries' : list cls_trie) (ks : list minimatch) : Prop :=
  length tries' = CLS_MAX_TRIES /\
  forall i t', (i < cls_n_tries cls)%nat -> tries' !! i = Some t' ->
    exists t mf, cls_tries cls !! i = Some t /\ trie_ok t mf /\ trie_ok t' mf /\ trie_counts t' mf ks.

Lemma all_keys_focus (l1 l2 : list (Z * cls_subtable)) (id : Z) (st : cls_subtable) :
  Permutation (all_keys (l1 ++ (id, st) :: l2)) (keys (st_rules st) ++ all_keys (l1 ++ l2)).
Proof.
  unfold all_keys. rewrite !map_app, !concat_app. cbn [map concat snd].
  rewrite !app_assoc. apply Permutation_app_tail, Permutation_app_comm.
Qed.

Lemma all_keys_rules (l1 l2 : list (Z * cls_subtable)) (id : Z) (st st' : cls_subtable) :
  keys (st_rules st) = keys (st_rules st') -> all_keys (l1 ++ (id, st) :: l2) = all_keys (l1 ++ (id, st') :: l2).
Proof. intros E. unfold all_keys. rewrite !map_app. cbn [map snd]. by rewrite E. Qed.

Lemma all_matches_focus (l1 l2 : list (Z * cls_subtable)) (id : Z) (st : cls_subtable) :
  Permutation (all_matches (l1 ++ (id, st) :: l2)) (st_matches st ++ all_matches (l1 ++ l2)).
Proof.
  unfold all_matches. rewrite !map_app, !concat_app. cbn [map concat snd].
  rewrite !app_assoc. apply Permutation_app_tail, Permutation_app_comm.
Qed.

Lemma focus_Forall {A} (P : A -> Prop) (l1 l2 : list A) (x y : A) :
  Forall P (l1 ++ x :: l2) -> P y -> Forall P (l1 ++ y :: l2).
Proof. rewrite !Forall_app, !Forall_cons. tauto. Qed.

Lemma rep_update (cls : classifier) (l1 l2 : list (Z * cls_subtable)) (id : Z) (st st' : cls_subtable)
    (v' : pvector) (tries' : list cls_trie) (n' : Z) :
  cls_rep cls (l1 ++ (id, st) :: l2) ->
  st_mask st' = st_mask st -> st_trie_plen st' = st_trie_plen st -> subtable_core st' -> max_ok st' ->
  pvector_wf v' -> (cls_publish cls = true -> pv_temp v' = None) ->
  Permutation (pv_entries v') (map sub_entry (l1 ++ (id, st') :: l2)) ->
  tries_hold cls tries' (all_keys (l1 ++ (id, st') :: l2)) ->
  NoDup (map match_id (all_matches (l1 ++ (id, st') :: l2))) ->
  n' = Z.of_nat (length (all_matches (l1 ++ (id, st') :: l2))) ->
  cls_rep (Classifier n' (cls_flow_segments cls) (cls_subtables_map cls) v' tries' (cls_n_tries cls)
             (cls_publish cls) (<[id := st']> (cls_heap cls)) (cls_next cls)) (l1 ++ (id, st') :: l2).
Proof.
  intros Hrep Em Ep Hc Hmx Hv Hpub Hpv [Htl Ht] Hnd Hn. split; cbn; try done.
  - apply Hrep.
  - rewrite (cp_map _ _ Hrep), !map_app. cbn. by rewrite Em.
  - pose proof (cp_ids _ _ Hrep) as Hids. rewrite map_app in Hids. cbn in Hids.
    apply NoDup_app in Hids as (_ & Hdis & [Hnin _]%NoDup_cons).
    pose proof (cp_heap _ _ Hrep) as Hh. apply Forall_app in Hh as [Hh1 [_ Hh2]%Forall_cons].
    assert (forall l, Forall (fun e => cls_heap cls !! fst e = Some (snd e)) l -> id ∉ map fst l ->
      Forall (fun e : Z * cls_subtable => <[id := st']> (cls_heap cls) !! fst e = Some (snd e)) l) as Hother.
    { intros l Hl Hni. rewrite Forall_forall in *. intros e He. rewrite lookup_insert_ne; [by apply Hl|].
      intros ->. apply Hni. apply list_elem_of_In. by apply in_map, list_elem_of_In. }
    apply Forall_app. split; [|constructor; [cbn; by rewrite lookup_insert_eq|]]; apply Hother; try done.
    intros Hin. apply (Hdis _ Hin), list_elem_of_here.
  - pose proof (cp_ids _ _ Hrep) as Hids. by rewrite map_app in *.
  - pose proof (cp_masks _ _ Hrep) as Hms. rewrite map_app in *. cbn in *. by rewrite Em.
  - apply (focus_Forall _ _ _ (id, st)); [apply Hrep|done].
  - intros i [x Hx]. apply lookup_insert_Some in Hx as [[<- _]|[_ Hx]]; apply (cp_fresh _ _ Hrep); [|by eexists].
    pose proof (cp_heap _ _ Hrep) as Hh. apply Forall_app in Hh as [_ [Hh _]%Forall_cons]. cbn in Hh. by eexists.
  - apply Hrep.
  - intros i t' Hi Ht'. destruct (Ht i t' Hi Ht') as (t & mf & Htt & Hok & Hok' & Hcnt). exists mf. split_and!; [done..|].
    destruct (cp_tries _ _ Hrep i t Hi Htt) as (mf' & Hok'' & _ & Hpl).
    assert (mf' = mf) as -> by (pose proof (to_field _ _ Hok); pose proof (to_field _ _ Hok''); congruence).
    apply (focus_Forall _ _ _ (id, st)); [done|]. cbn. rewrite Ep, Em. by apply Forall_app in Hpl as [_ [? _]%Forall_cons].
Qed.

(** A subtable at a fresh address. *)
Lemma rep_add (cls : classifier) (subs : list (Z * cls_subtable)) (st : cls_subtable)
    (v' : pvector) (tries' : list cls_trie) (n' : Z) (heap' : gmap Z cls_subtable) :
  let id := cls_next cls in
  cls_rep cls subs -> ~ In (st_mask st) (map (fun e => st_mask (snd e)) subs) ->
  subtable_core st -> max_ok st ->
  heap' !! id = Some st -> (forall i, i <> id -> heap' !! i = cls_heap cls !! i) ->
  pvector_wf v' -> (cls_publish cls = true -> pv_temp v' = None) ->
  Permutation (pv_entries v') (map sub_entry (subs ++ [(id, st)])) ->
  tries_hold cls tries' (all_keys (subs ++ [(id, st)])) ->
  (forall i t mf, (i < cls_n_tries cls)%nat -> cls_tries cls !! i = Some t -> ct_field t = Some mf ->
     nth i (st_trie_plen st) 0%nat = minimask_get_prefix_len (st_mask st) mf) ->
  NoDup (map match_id (all_matches (subs ++ [(id, st)]))) ->
  n' = Z.of_nat (length (all_matches (subs ++ [(id, st)]))) ->
  cls_rep (Classifier n' (cls_flow_segments cls) (cls_subtables_map cls ++ [(minimask_hash (st_mask st) 0, id)]) v'
             tries' (cls_n_tries cls) (cls_publish cls) heap' (id + 1)) (subs ++ [(id, st)]).
Proof.
  intros id Hrep Hmask Hc Hmx Hh1 Hh2 Hv Hpub Hpv [Htl Ht] Hpl Hnd Hn.
  assert (forall e, In e subs -> fst e < id) as Hlt.
  { intros e He. apply (cp_fresh _ _ Hrep). pose proof (cp_heap _ _ Hrep) as Hh. rewrite Forall_forall in Hh.
    eexists. apply Hh. by apply list_elem_of_In. }
  split; cbn; try done.
  - apply Hrep.
  - rewrite (cp_map _ _ Hrep), !map_app. done.
  - apply Forall_app. split; [|by constructor]. pose proof (cp_heap _ _ Hrep) as Hh. rewrite Forall_forall in *.
    intros e He. rewrite Hh2; [by apply Hh|]. specialize (Hlt e ltac:(by apply list_elem_of_In)). lia.
  - rewrite map_app. apply NoDup_snoc; [apply Hrep|]. intros (e & E & He)%list_elem_of_In%in_map_iff.
    specialize (Hlt e He). cbn in E. lia.
  - rewrite map_app. apply NoDup_app. split_and!; [apply Hrep| |apply NoDup_singleton].
    intros x Hx ->%list_elem_of_singleton. apply Hmask. by apply list_elem_of_In.
  - apply Forall_app. split; [apply Hrep|by constructor].
  - intros i Hi. destruct (decide (i = id)) as [->|Hne]; [lia|]. rewrite Hh2 in Hi by done.
    apply (cp_fresh _ _ Hrep) in Hi. unfold id in *. lia.
  - apply Hrep.
  - intros i t' Hi Ht'. destruct (Ht i t' Hi Ht') as (t & mf & Htt & Hok & Hok' & Hcnt). exists mf. split_and!; [done..|].
    destruct (cp_tries _ _ Hrep i t Hi Htt) as (mf' & Hok'' & _ & Hpl').
    assert (mf' = mf) as -> by (pose proof (to_field _ _ Hok); pose proof (to_field _ _ Hok''); congruence).
    apply Forall_app. split; [done|]. constructor; [|done]. cbn. apply (Hpl i t); [done..|apply Hok].
Qed.

(** Without one of the subtables; its memory may still be there. *)
Lemma rep_drop (cls : classifier) (l1 l2 : list (Z * cls_subtable)) (id : Z) (st : cls_subtable)
    (v' : pvector) (tries' : list cls_trie) (n' : Z) (heap' : gmap Z cls_subtable) (map' : list (Z * Z)) :
  cls_rep cls (l1 ++ (id, st) :: l2) ->
  map' = map (fun e => (minimask_hash (st_mask (snd e)) 0, fst e)) (l1 ++ l2) ->
  (forall i, i <> id -> heap' !! i = cls_heap cls !! i) ->
  pvector_wf v' -> (cls_publish cls = true -> pv_temp v' = None) ->
  Permutation (pv_entries v') (map sub_entry (l1 ++ l2)) ->
  tries_hold cls tries' (all_keys (l1 ++ l2)) -> n' = Z.of_nat (length (all_matches (l1 ++ l2))) ->
  cls_rep (Classifier n' (cls_flow_segments cls) map' v' tries' (cls_n_tries cls) (cls_publish cls) heap'
             (cls_next cls)) (l1 ++ l2).
Proof.
  intros Hrep -> Hh2 Hv Hpub Hpv [Htl Ht] Hn.
  assert (forall A (f : Z * cls_subtable -> A), NoDup (map f (l1 ++ (id, st) :: l2)) -> NoDup (map f (l1 ++ l2))) as Hdup.
  { intros A f. rewrite !map_app. cbn. rewrite (Permutation_sym (Permutation_middle _ _ _)). by intros [_ H]%NoDup_cons. }
  assert (forall P, Forall P (l1 ++ (id, st) :: l2) -> Forall P (l1 ++ l2)) as Hall.
  { intros P. rewrite !Forall_app, !Forall_cons. tauto. }
  split; cbn; try done.
  - apply Hrep.
  - pose proof (cp_ids _ _ Hrep) as Hids. rewrite map_app in Hids. cbn in Hids.
    rewrite (Permutation_sym (Permutation_middle _ _ _)) in Hids. apply NoDup_cons in Hids as [Hnin _].
    pose proof (Hall _ (cp_heap _ _ Hrep)) as Hh. rewrite Forall_forall in *. intros e He. rewrite Hh2; [by apply Hh|].
    intros <-. apply Hnin. rewrite <- map_app. apply list_elem_of_In. by apply in_map, list_elem_of_In.
  - apply Hdup, Hrep.
  - apply (Hdup _ (fun e => st_mask (snd e))), Hrep.
  - apply Hall, Hrep.
  - intros i Hi. destruct (decide (i = id)) as [->|Hne]; [|rewrite Hh2 in Hi by done]; apply (cp_fresh _ _ Hrep); [|done].
    pose proof (cp_heap _ _ Hrep) as Hh. apply Forall_app in Hh as [_ [Hh _]%Forall_cons]. cbn in Hh. by eexists.
  - apply Hrep.
  - intros i t' Hi Ht'. destruct (Ht i t' Hi Ht') as (t & mf & Htt & Hok & Hok' & Hcnt). exists mf. split_and!; [done..|].
    destruct (cp_tries _ _ Hrep i t Hi Htt) as (mf' & Hok'' & _ & Hpl').
    assert (mf' = mf) as -> by (pose proof (to_field _ _ Hok); pose proof (to_field _ _ Hok''); congruence).
    by apply Hall.
  - pose proof (cp_rules _ _ Hrep) as Hr. rewrite all_matches_focus, map_app in Hr. by apply NoDup_app in Hr as (_ & _ & ?).
Qed.

(** The tries after the insertion or removal of a flow. *)
Lemma tries_update (cls : classifier) (subs : list (Z * cls_subtable)) (k : minimatch) (plens : list nat)
    (op : cls_trie -> minimatch -> nat -> cls_trie) (ks ks' : list minimatch) :
  cls_rep cls subs -> Permutation (all_keys subs) ks ->
  (forall i t mf, (i < cls_n_tries cls)%nat -> cls_tries cls !! i = Some t -> ct_field t = Some mf ->
     nth i plens 0%nat = minimask_get_prefix_len (mm_mask k) mf) ->
  (forall t mf, let plen := minimask_get_prefix_len (mm_mask k) mf in trie_ok t mf -> trie_counts t mf ks -> plen <> 0%nat ->
     trie_ok (op t k plen) mf /\ trie_counts (op t k plen) mf ks') ->
  (forall t mf, minimask_get_prefix_len (mm_mask k) mf = 0%nat -> trie_counts t mf ks -> trie_counts t mf ks') ->
  tries_hold cls (update_tries op plens (cls_n_tries cls) k (cls_tries cls)) ks'.
Proof.
  intros Hrep Hks Hpl Hop Hnop. split; [unfold update_tries; rewrite length_imap; apply Hrep|].
  intros i t' Hi Ht'. unfold update_tries in Ht'. rewrite list_lookup_imap in Ht'.
  destruct (cls_tries cls !! i) as [t|] eqn:Et; [|done]. cbn -[Nat.ltb] in Ht'. injection Ht' as <-.
  destruct (cp_tries _ _ Hrep i t Hi Et) as (mf & Hok & Hcnt & _). exists t, mf. split; [done|]. split; [done|].
  apply (trie_counts_perm _ _ _ _ Hks) in Hcnt. rewrite (Hpl i t mf Hi Et (to_field _ _ Hok)).
  destruct (Nat.ltb_spec i (cls_n_tries cls)); [|lia]. cbn [andb].
  destruct (Nat.ltb_spec 0 (minimask_get_prefix_len (mm_mask k) mf)).
  - apply Hop; [done|done|lia].
  - split; [done|]. apply Hnop; [lia|done].
Qed.

Lemma find_subtable_spec (cls : classifier) (subs : list (Z * cls_subtable)) (mask : minimask) :
  cls_rep cls subs -> minimask_wf mask ->
  match find_subtable cls mask with
  | Some (id, st) => st_mask st = mask /\ exists l1 l2, subs = l1 ++ (id, st) :: l2
  | None => ~ In mask (map (fun e => st_mask (snd e)) subs)
  end.
Proof.
  intros Hrep Hm. unfold find_subtable.
  assert (omap (fun e => st ← cls_heap cls !! snd e; Some (fst e, (snd e, st))) (cls_subtables_map cls) =
    map (fun e => (minimask_hash (st_mask (snd e)) 0, e)) subs) as ->.
  { rewrite (cp_map _ _ Hrep). pose proof (cp_heap _ _ Hrep) as Hh. clear -Hh.
    induction subs as [|[id st] subs IH]; [done|]. apply Forall_cons in Hh as [He Hh]. cbn in He |- *. rewrite He. cbn.
    f_equal. by apply IH. }
  set (p := fun e : Z * (Z * cls_subtable) => _).
  assert (forall e, In e subs -> p (minimask_hash (st_mask (snd e)) 0, e) = true <-> st_mask (snd e) = mask) as Hp.
  { intros [id st] He. destruct (rep_sub _ _ _ _ Hrep He) as (_ & Hc & _). unfold p. cbn [fst snd].
    rewrite andb_true_iff, Z.eqb_eq, minimask_equal_eq by (done || apply so_mask, Hc). split; [by intros [_ ->]|by intros ->]. }
  destruct (List.find p _) as [[h [id st]]|] eqn:Ef.
  - apply find_split in Ef as (k1 & k2 & Ek & Hpe). apply map_eq_app in Ek as (l1 & l2 & -> & <- & E2).
    apply map_eq_cons in E2 as (e & l2' & -> & Ee & <-). injection Ee as <- ->. cbn [snd]. split; [|by exists l1, l2'].
    apply (Hp (id, st)); [apply in_or_app; right; by left|done].
  - intros (e & E & He)%in_map_iff. apply (Hp e He) in E. eapply List.find_none in Ef; [|by apply in_map].
    cbn beta in Ef. congruence.
Qed.

(** ** Insertion into a list of equal rules *)

(** [l'] is [l] with [new], in place of [old] if there is one. *)
Definition inserted (new : cls_match) (l l' : list cls_match) (old : option cls_match) : Prop :=
  chain_sorted l' /\
  match old with
  | None => Permutation l' (new :: l)
  | Some m => cm_priority m = cm_priority new /\ cls_match_is_eventually_invisible m = false /\
      exists rest, Permutation l (m :: rest) /\ Permutation l' (new :: rest)
  end.

Lemma inserted_cons (new x : cls_match) (l l' : list cls_match) (old : option cls_match) :
  cm_priority new <= cm_priority x -> Forall (fun b => cm_priority b <= cm_priority x) l ->
  inserted new l l' old -> inserted new (x :: l) (x :: l') old.
Proof.
  intros Hn Hx [Hs Hp]. split.
  - constructor; [done|]. rewrite Forall_forall in *. intros y Hy. destruct old as [m|].
    + destruct Hp as (_ & _ & rest & P1 & P2). rewrite P2 in Hy. apply elem_of_cons in Hy as [->|Hy]; [lia|].
      apply Hx. rewrite P1. by right.
    + rewrite Hp in Hy. apply elem_of_cons in Hy as [->|Hy]; [lia|by apply Hx].
  - destruct old as [m|].
    + destruct Hp as (? & ? & rest & P1 & P2). split_and!; [done..|]. exists (x :: rest).
      rewrite P1, P2. split; apply perm_swap.
    + rewrite Hp. apply perm_swap.
Qed.

Lemma insert_in_list_spec (new : cls_match) (l : list cls_match) :
  match_ok new -> chain_sorted l ->
  let '(l', old) := insert_in_list new l in inserted new l l' old.
Proof.
  intros [Hp _] Hs. induction Hs as [|x l Hl IH Hx]; [cbn; split; [repeat constructor|done]|].
  cbn [insert_in_list]. unfold insertion_point. rewrite <- Hp.
  destruct (Z.ltb_spec (cm_priority x) (cm_priority new)) as [Hlt|Hge]; cbn [orb].
  - destruct (Z.eqb_spec (cm_priority new) (cm_priority x)); [lia|]. split; [|done].
    constructor; [by constructor|]. constructor; [lia|]. eapply Forall_impl; [done|]. cbn. lia.
  - destruct (insert_in_list new l) as [l' old]. destruct (Z.eqb_spec (cm_priority new) (cm_priority x)) as [E|E]; cbn [andb].
    + destruct (cls_match_is_eventually_invisible x) eqn:Ev; cbn [negb]; [by apply inserted_cons|].
      split; [constructor; [done|]; eapply Forall_impl; [done|]; cbn; lia|]. split_and!; [lia|done|]. by exists l.
    + by apply inserted_cons.
Qed.

(** ** Priorities *)

Lemma max_ok_set (st : cls_subtable) (p c : Z) :
  Forall (fun m => cm_priority m <= p) (st_matches st) -> 1 <= c ->
  c <= Z.of_nat (length (List.filter (fun m => cm_priority m =? p) (st_matches st))) ->
  max_ok (set_priorities p c st).
Proof. by split. Qed.

Lemma max_ok_insert (v : pvector) (id : Z) (st st' : cls_subtable) (new : cls_match) (rule : cls_rule)
    (n_rules : nat) (rest : list pvector_entry) :
  max_ok st -> Permutation (st_matches st') (new :: st_matches st) -> cm_priority new = cr_priority rule ->
  st_max_priority st' = st_max_priority st -> st_max_count st' = st_max_count st ->
  Z.of_nat (length (st_matches st)) < 2 ^ 31 -> n_rules <> 1%nat ->
  pvector_wf v -> Permutation (pv_entries v) (sub_entry (id, st) :: rest) ->
  exists v' p c, insert_priority v id st' rule n_rules = Some (v', set_priorities p c st') /\
    max_ok (set_priorities p c st') /\ pvector_wf v' /\
    Permutation (pv_entries v') (sub_entry (id, set_priorities p c st') :: rest).
Proof.
  intros [Hle Hpos Hcnt] Hperm Hpri Ep Ec Hb Hn Hv Hpv. unfold insert_priority. rewrite <- Hpri, Ep, Ec.
  assert (forall p, length (List.filter p (st_matches st')) =
    ((if p new then 1 else 0) + length (List.filter p (st_matches st)))%nat) as Hf
    by (intros p; rewrite <- filter_length_cons; by apply filter_length_perm).
  assert (forall q, (forall m, m = new \/ In m (st_matches st) -> cm_priority m <= q) ->
    Forall (fun m => cm_priority m <= q) (st_matches st')) as Hall.
  { intros q Hq. rewrite Hperm. constructor; [apply Hq; by left|]. apply Forall_forall. intros m Hm. apply Hq. right.
    by apply list_elem_of_In. }
  rewrite Forall_forall in Hle. setoid_rewrite list_elem_of_In in Hle.
  destruct (Nat.eqb_spec n_rules 1); [done|].
  destruct (Z.eqb_spec (cm_priority new) (st_max_priority st)) as [E|E].
  - assert (u32 (st_max_count st + 1) = st_max_count st + 1) as ->.
    { pose proof (List.filter_length_le (fun m => cm_priority m =? st_max_priority st) (st_matches st)).
      apply wrap_small. unfold in_width. lia. }
    exists v, (st_max_priority st), (st_max_count st + 1). split_and!; [done| |done|done].
    apply max_ok_set; [apply Hall; intros m [->|Hm]; [lia|by apply Hle]|lia|]. rewrite Hf, E, Z.eqb_refl. lia.
  - destruct (Z.ltb_spec (st_max_priority st) (cm_priority new)) as [Hlt|Hge].
    + destruct (pv_change_perm v id (st_max_priority st) (cm_priority new) rest Hv Hpv) as (v' & -> & Hv' & Hp').
      exists v', (cm_priority new), 1. split_and!; [done| |done|done].
      apply max_ok_set; [apply Hall; intros m [->|Hm]; [lia|specialize (Hle m Hm); lia]|lia|].
      rewrite Hf, Z.eqb_refl. lia.
    + exists v, (st_max_priority st), (st_max_count st).
      assert (set_priorities (st_max_priority st) (st_max_count st) st' = st') as E'
        by (rewrite <- Ep, <- Ec; by destruct st').
      rewrite E' at 1. split_and!; [done| |done|done].
      apply max_ok_set; [apply Hall; intros m [->|Hm]; [lia|by apply Hle]|lia|]. rewrite Hf. destruct (_ =? _); lia.
Qed.

Lemma pub_ok `{QQ : Qsort} (b : bool) (v : pvector) :
  pvector_wf v ->
  let v' := if b then pvector_publish v else v in
  pvector_wf v' /\ (b = true -> pv_temp v' = None) /\ Permutation (pv_entries v') (pv_entries v).
Proof.
  intros Hv. destruct b; [|done]. destruct (pvector_publish_wf v Hv) as (Hw & Hp & Ht). split_and!; [done|done|].
  unfold pv_entries at 1. by rewrite Ht.
Qed.

(** ** A rule to insert *)

Definition rule_ok (rule : cls_rule) : Prop := key_ok (cr_match rule) /\ INT_MIN < cr_priority rule.

(** The match that [classifier_replace] links, once it is visible. *)
Definition new_match (rule : cls_rule) (version : Z) (conjs : list cls_conjunction) : cls_match :=
  cls_match_set_remove_version (cls_match_alloc rule version conjs) OVS_VERSION_NOT_REMOVED.

Lemma new_match_ok (rule : cls_rule) (version : Z) (conjs : list cls_conjunction) :
  rule_ok rule ->
  match_ok (new_match rule version conjs) /\ cm_flow (new_match rule version conjs) = mm_flow (cr_match rule).
Proof.
  intros [[Hk _] Hp]. split.
  - split_and!; [done|done|]. intros s. cbn. unfold cls_conjunction_set_alloc. destruct conjs; [done|]. by intros [= <-].
  - cbn. unfold miniflow_clone. rewrite firstn_values by eauto with ovs. by destruct (mm_flow _).
Qed.

(** The list that consists of the new match. *)
Lemma new_chain_ok (mask : minimask) (maps : list flowmap) (n : nat) (rule : cls_rule) (version : Z)
    (conjs : list cls_conjunction) :
  rule_ok rule -> mm_mask (cr_match rule) = mask ->
  chain_ok mask maps n (key_hash maps (cr_match rule) n, [new_match rule version conjs]).
Proof.
  intros Hr Hm. exists (cr_match rule). split_and!; [done|apply Hr|done|done|]. constructor; [|done].
  split; [done|]. by apply new_match_ok.
Qed.

(** A rule with a new flow. *)
Lemma core_insert_head (cls : classifier) (id : Z) (st : cls_subtable) (rule : cls_rule) (version : Z)
    (conjs : list cls_conjunction) (p c : Z) :
  let k := cr_match rule in
  let new := new_match rule version conjs in
  let st1 := snd (insert_head cls id st new (map (key_hash (st_index_maps st) k) (seq 0 (st_n_indices st)))
                    (key_hash (st_index_maps st) k (st_n_indices st))) in
  let st' := set_priorities p c (set_rules_list (st_rules_list st1 ++ [rule]) st1) in
  subtable_core st -> rule_ok rule -> mm_mask k = st_mask st -> ~ In k (keys (st_rules st)) ->
  subtable_core st' /\ st_matches st' = st_matches st ++ [new] /\ keys (st_rules st') = keys (st_rules st) ++ [k].
Proof.
  intros k new st1 st' [Hok Hs Hm Hl Hp] Hr Hmask Hnew.
  assert (st_rules st' = st_rules st ++ [(key_hash (st_index_maps st) k (st_n_indices st), [new])]) as Er by done.
  assert (st_matches st' = st_matches st ++ [new]) as Em by (unfold st_matches; by rewrite Er, rules_matches_app).
  split_and!; [|done|by rewrite Er, keys_app, (keys_cons _ [new] k)].
  destruct (new_match_ok rule version conjs Hr) as [Hmo _]. split.
  - eapply (subtable_ok_insert st st' k); [done|by apply new_chain_ok|done..].
  - rewrite Er. apply Forall_app. split; [done|]. constructor; [|done]. repeat constructor.
  - rewrite Em. apply Forall_app. split; [done|]. by constructor.
  - rewrite Em, map_app. change (st_rules_list st') with (st_rules_list st ++ [rule]). by rewrite Hl.
  - done.
Qed.

(** The matches of one list. *)
Definition of_key (key : minimatch) (m : cls_match) : Prop :=
  match_ok m /\ cr_match (cm_rule m) = key /\ cm_flow m = mm_flow key.

(** A change of one list that keeps its flow. *)
Lemma core_set_chain (st : cls_subtable) (r1 r2 : list (Z * list cls_match)) (h : Z) (l l' : list cls_match)
    (k : minimatch) (rl : list cls_rule) (p c : Z) :
  let st' := set_priorities p c (set_rules_list rl (set_rules (r1 ++ (h, l') :: r2) st)) in
  subtable_core st -> st_rules st = r1 ++ (h, l) :: r2 -> chain_key l = Some k -> l' <> [] ->
  chain_sorted l' -> Forall (of_key k) l' ->
  Permutation rl (map cm_rule (rules_matches (r1 ++ (h, l') :: r2))) ->
  subtable_core st' /\ keys (st_rules st') = keys (st_rules st).
Proof.
  intros st' [Hok Hs Hm Hl Hp] Er Hk Hne Hs' Hall Hrl.
  assert (st_rules st' = r1 ++ (h, l') :: r2) as Er' by done.
  assert (chain_key l' = Some k) as Hk'.
  { destruct l' as [|m l']; [done|]. apply Forall_cons in Hall as [(_ & Hmk & _) _]. cbn. by rewrite Hmk. }
  assert (keys (st_rules st') = keys (st_rules st)) as Ek.
  { by rewrite Er, Er', !keys_app, (keys_cons h l k), (keys_cons h l' k). }
  split; [|done]. split; [..|done].
  - eapply (subtable_ok_chain st); [done..|]. rewrite Er'.
    pose proof (so_chains _ Hok) as Hc. rewrite Er in Hc. apply (focus_Forall _ _ _ (h, l)); [done|].
    apply Forall_app in Hc as [_ [(k' & Hk'' & Hko & Hkm & Hh & _) _]%Forall_cons]. cbn in Hk''.
    assert (k' = k) as -> by congruence. exists k. split_and!; [done..|]. eapply Forall_impl; [done|]. by intros m (_ & ? & ?).
  - rewrite Er in Hs. rewrite Er'. by apply (focus_Forall _ _ _ (h, l)).
  - unfold st_matches in *. rewrite Er'. rewrite Er in Hm. rewrite rules_matches_app, rules_matches_cons in *.
    rewrite !Forall_app in *. destruct Hm as (? & _ & ?). split_and!; [done| |done].
    eapply Forall_impl; [done|]. by intros m (? & _).
  - unfold st_matches. by rewrite Er'.
Qed.

(** ** [classifier_replace] *)

Context `{QQ : Qsort}.

Lemma all_matches_bound (l1 l2 : list (Z * cls_subtable)) (id : Z) (st : cls_subtable) :
  (length (st_matches st) <= length (all_matches (l1 ++ (id, st) :: l2)))%nat.
Proof. rewrite all_matches_focus, length_app. lia. Qed.

Lemma finish_insert_ok (cls : classifier) (l1 l2 : list (Z * cls_subtable)) (id : Z) (st st1 : cls_subtable)
    (rule : cls_rule) (new : cls_match) (n : nat) (tries' : list cls_trie) :
  cls_rep cls (l1 ++ (id, st) :: l2) ->
  (forall p c, subtable_core (set_priorities p c (set_rules_list (st_rules_list st1 ++ [rule]) st1))) ->
  st_mask st1 = st_mask st -> st_trie_plen st1 = st_trie_plen st ->
  st_max_priority st1 = st_max_priority st -> st_max_count st1 = st_max_count st ->
  Permutation (st_matches st1) (new :: st_matches st) ->
  tries_hold cls tries' (all_keys (l1 ++ (id, st1) :: l2)) ->
  cm_priority new = cr_priority rule -> ~ In (match_id new) (map match_id (all_matches (l1 ++ (id, st) :: l2))) ->
  cls_n_rules cls < 2 ^ 31 -> n <> 1%nat ->
  exists cls' subs', finish_insert (set_tries tries' (cls_n_tries cls) cls) id st1 rule n = Some (cls', None) /\
    cls_rep cls' subs' /\ Permutation (all_matches subs') (new :: all_matches (l1 ++ (id, st) :: l2)).
Proof.
  intros Hrep Hcore Em Ep Emp Emc Hperm Htries Hpri Hfresh Hn Hn1. unfold finish_insert.
  set (st2 := set_rules_list (st_rules_list st1 ++ [rule]) st1).
  pose proof (cp_pv _ _ Hrep) as Hpv. fold sub_entry in Hpv. rewrite sub_entries_focus in Hpv.
  destruct (rep_sub _ _ id st Hrep) as (_ & _ & Hmx); [apply in_or_app; right; by left|].
  destruct (max_ok_insert (cls_subtables cls) id st st2 new rule n (map sub_entry (l1 ++ l2)) Hmx Hperm Hpri Emp Emc)
    as (v' & p & c & Hins & Hmx' & Hv' & Hpv'); [|done|apply Hrep|done|].
  { pose proof (all_matches_bound l1 l2 id st). pose proof (cp_count _ _ Hrep). lia. }
  cbn [cls_subtables set_tries]. rewrite Hins. cbn [mbind option_bind].
  set (st3 := set_priorities p c st2) in *.
  destruct (pub_ok (cls_publish cls) v' Hv') as (Hw & Ht & Hpp).
  set (v'' := if cls_publish cls then pvector_publish v' else v') in *.
  assert (Permutation (all_matches (l1 ++ (id, st3) :: l2)) (new :: all_matches (l1 ++ (id, st) :: l2))) as Hall.
  { rewrite !all_matches_focus. change (st_matches st3) with (st_matches st1). by rewrite Hperm. }
  exists (Classifier (cls_n_rules cls + 1) (cls_flow_segments cls) (cls_subtables_map cls) v''
    tries' (cls_n_tries cls) (cls_publish cls) (<[id := st3]> (cls_heap cls)) (cls_next cls)), (l1 ++ (id, st3) :: l2).
  split; [|split; [|done]].
  - unfold maybe_publish, v''. cbn. destruct (cls_publish cls) eqn:E;
      unfold set_subtables, set_n_rules, store, set_subtables, set_tries; cbn; by rewrite E.
  - apply (rep_update _ _ _ _ st); try done.
    + apply Hcore.
    + rewrite Hpp, Hpv'. by rewrite sub_entries_focus.
    + by rewrite (all_keys_rules _ _ id st3 st1).
    + rewrite Hall. cbn [map]. constructor; [by rewrite list_elem_of_In|apply Hrep].
    + rewrite Hall. cbn [length]. pose proof (cp_count _ _ Hrep). lia.
Qed.

Section Replace.
Variables (rule : cls_rule) (version : Z) (conjs : list cls_conjunction).
Hypothesis Hrule : rule_ok rule.
Local Abbreviation k := (cr_match rule).
Local Abbreviation new := (new_match rule version conjs).

(** What [classifier_replace] does to the rules: the new one is added, or takes the
    place of one with the same match and priority that no version hides. *)
Definition replaced (before after : list cls_match) (old : option cls_rule) : Prop :=
  match old with
  | None => Permutation after (new :: before)
  | Some r => exists m rest, r = cm_rule m /\ cr_match r = k /\ cm_priority m = cr_priority rule /\
      cls_match_is_eventually_invisible m = false /\
      Permutation before (m :: rest) /\ Permutation after (new :: rest)
  end.

Lemma trie_insert_hold (cls : classifier) (subs : list (Z * cls_subtable)) (plens : list nat) :
  cls_rep cls subs ->
  (forall i t mf, (i < cls_n_tries cls)%nat -> cls_tries cls !! i = Some t -> ct_field t = Some mf ->
     nth i plens 0%nat = minimask_get_prefix_len (mm_mask k) mf) ->
  tries_hold cls (update_tries trie_insert plens (cls_n_tries cls) k (cls_tries cls)) (k :: all_keys subs).
Proof.
  intros Hrep Hpl. destruct Hrule as [[Hk _] _].
  apply (tries_update cls subs k plens trie_insert (all_keys subs)); [done|done|done| |].
  - intros t mf plen Hok Hc Hp. by apply trie_insert_ok.
  - intros t mf Hp Hc. by apply trie_counts_no_prefix.
Qed.

Lemma tries_hold_perm (cls : classifier) (tries' : list cls_trie) (ks ks' : list minimatch) :
  Permutation ks ks' -> tries_hold cls tries' ks -> tries_hold cls tries' ks'.
Proof.
  intros Hp [Hl H]. split; [done|]. intros i t' Hi Ht'. destruct (H i t' Hi Ht') as (t & mf & ? & ? & ? & Hc).
  exists t, mf. split_and!; [done..|]. by apply (trie_counts_perm _ _ ks).
Qed.

Lemma rep_plens (cls : classifier) (l1 l2 : list (Z * cls_subtable)) (id : Z) (st : cls_subtable) (i : nat)
    (t : cls_trie) (mf : mf_field) :
  cls_rep cls (l1 ++ (id, st) :: l2) -> (i < cls_n_tries cls)%nat -> cls_tries cls !! i = Some t ->
  ct_field t = Some mf -> nth i (st_trie_plen st) 0%nat = minimask_get_prefix_len (st_mask st) mf.
Proof.
  intros Hrep Hi Ht Hf. destruct (cp_tries _ _ Hrep i t Hi Ht) as (mf' & Hok & _ & Hpl).
  assert (mf' = mf) as -> by (pose proof (to_field _ _ Hok); congruence).
  by apply Forall_app in Hpl as [_ [? _]%Forall_cons].
Qed.

Lemma replace_head_ok (cls : classifier) (l1 l2 : list (Z * cls_subtable)) (id : Z) (st : cls_subtable) :
  cls_rep cls (l1 ++ (id, st) :: l2) -> st_mask st = mm_mask k -> ~ In k (keys (st_rules st)) ->
  ~ In (cr_id rule) (map match_id (all_matches (l1 ++ (id, st) :: l2))) -> cls_n_rules cls < 2 ^ 31 ->
  let '(cls1, st1) := insert_head cls id st new (map (key_hash (st_index_maps st) k) (seq 0 (st_n_indices st)))
                        (key_hash (st_index_maps st) k (st_n_indices st)) in
  exists cls' subs', finish_insert cls1 id st1 rule (length (st_rules st1)) = Some (cls', None) /\
    cls_rep cls' subs' /\ Permutation (all_matches subs') (new :: all_matches (l1 ++ (id, st) :: l2)).
Proof.
  intros Hrep Hm Hnew Hfresh Hn. destruct (rep_sub _ _ id st Hrep) as (_ & Hcore & Hmx);
    [apply in_or_app; right; by left|].
  pose proof (fun p c => core_insert_head cls id st rule version conjs p c Hcore Hrule ltac:(done) Hnew) as Hci.
  cbn zeta in Hci. unfold insert_head in *. cbn [snd] in Hci.
  set (tries' := update_tries _ _ _ _ _) in *. set (st1 := set_lookup _ _ _ _) in *.
  destruct (Hci 0 0) as (_ & Hma & Hke).
  apply (finish_insert_ok cls l1 l2 id st st1); try done.
  - intros p c. apply (Hci p c).
  - change (st_matches st1) with (st_matches (set_priorities 0 0 (set_rules_list (st_rules_list st1 ++ [rule]) st1))).
    rewrite Hma. by rewrite Permutation_app_comm.
  - apply (tries_hold_perm _ _ (k :: all_keys (l1 ++ (id, st) :: l2))).
    + change (keys (st_rules st1) = keys (st_rules st) ++ [k]) in Hke. rewrite !all_keys_focus, Hke.
      by rewrite (Permutation_app_comm (keys (st_rules st)) [k]).
    + apply trie_insert_hold; [done|]. intros i t mf Hi Ht Hf. rewrite <- Hm. by apply (rep_plens cls l1 l2 id st i t).
  - change (st_rules st1) with (st_rules st ++ [(key_hash (st_index_maps st) k (st_n_indices st), [new])]).
    rewrite length_app. cbn. destruct (st_rules st) eqn:E; [|cbn; lia].
    pose proof (mx_count _ Hmx) as Hc. unfold st_matches in Hc. rewrite E in Hc. cbn in Hc.
    pose proof (mx_pos _ Hmx). lia.
Qed.

Lemma tries_hold_same (cls : classifier) (subs : list (Z * cls_subtable)) :
  cls_rep cls subs -> tries_hold cls (cls_tries cls) (all_keys subs).
Proof.
  intros Hrep. split; [apply Hrep|]. intros i t Hi Ht. destruct (cp_tries _ _ Hrep i t Hi Ht) as (mf & Hok & Hc & _).
  by exists t, mf.
Qed.

Lemma set_tries_same (cls : classifier) : set_tries (cls_tries cls) (cls_n_tries cls) cls = cls.
Proof. by destruct cls. Qed.

(** The matches of a subtable around one list. *)
Lemma rules_matches_focus (r1 r2 : list (Z * list cls_match)) (h : Z) (l : list cls_match) :
  Permutation (rules_matches (r1 ++ (h, l) :: r2)) (l ++ rules_matches (r1 ++ r2)).
Proof.
  rewrite !rules_matches_app, rules_matches_cons, !app_assoc. apply Permutation_app_tail, Permutation_app_comm.
Qed.

Lemma map_replace_perm (l rest : list cls_rule) (old r : cls_rule) :
  Permutation l (old :: rest) -> NoDup (map cr_id l) ->
  Permutation (map (fun x => if cr_id x =? cr_id old then r else x) l) (r :: rest).
Proof.
  intros Hp Hnd. assert (NoDup (map cr_id (old :: rest))) as Hnd' by (by rewrite <- Hp). rewrite Hp. cbn [map].
  rewrite Z.eqb_refl. apply perm_skip. apply NoDup_cons in Hnd' as [Hnin _].
  rewrite (map_ext_in _ id); [by rewrite map_id|]. intros x Hx. destruct (Z.eqb_spec (cr_id x) (cr_id old)) as [E|]; [|done].
  destruct Hnin. rewrite <- E. by apply list_elem_of_In, in_map.
Qed.

Lemma max_ok_swap (st : cls_subtable) (st' : cls_subtable) (m n : cls_match) (rest : list cls_match) :
  max_ok st -> Permutation (st_matches st) (m :: rest) -> Permutation (st_matches st') (n :: rest) ->
  cm_priority m = cm_priority n -> st_max_priority st' = st_max_priority st -> st_max_count st' = st_max_count st ->
  max_ok st'.
Proof.
  intros [Hle Hpos Hcnt] P P' E Ep Ec. split; rewrite ?Ep, ?Ec; [|done|].
  - rewrite P'. rewrite P in Hle. apply Forall_cons in Hle as [? ?]. constructor; [lia|done].
  - rewrite (filter_length_perm _ _ _ P') . rewrite (filter_length_perm _ _ _ P) in Hcnt.
    rewrite filter_length_cons in *. by rewrite <- E.
Qed.

Lemma chain_of_key (st : cls_subtable) (r1 r2 : list (Z * list cls_match)) (h : Z) (l : list cls_match) (key : minimatch) :
  subtable_core st -> st_rules st = r1 ++ (h, l) :: r2 -> chain_key l = Some key -> Forall (of_key key) l.
Proof.
  intros Hc Er Hk. pose proof (sc_match _ Hc) as Hm. unfold st_matches in Hm.
  rewrite Er, rules_matches_app, rules_matches_cons in Hm. apply Forall_app in Hm as [_ [Hm _]%Forall_app].
  pose proof (so_chains _ (sc_ok _ Hc)) as Hch. rewrite Er in Hch.
  apply Forall_app in Hch as [_ [(k' & Hk' & _ & _ & _ & Hall) _]%Forall_cons]. cbn in Hk', Hall.
  assert (k' = key) as -> by congruence. rewrite Forall_forall in *. intros m Hin. split; [by apply Hm|by apply Hall].
Qed.

(** The new match in a list of equal rules. *)
Lemma replace_list_core (st : cls_subtable) (r1 r2 : list (Z * list cls_match)) (h p c : Z) (l l' : list cls_match)
    (old : option cls_match) (rl : list cls_rule) :
  subtable_core st -> st_rules st = r1 ++ (h, l) :: r2 -> chain_key l = Some k ->
  inserted new l l' old -> Permutation rl (map cm_rule (rules_matches (r1 ++ (h, l') :: r2))) ->
  let st' := set_priorities p c (set_rules_list rl (set_rules (r1 ++ (h, l') :: r2) st)) in
  subtable_core st' /\ keys (st_rules st') = keys (st_rules st).
Proof.
  intros Hc Er Hk [Hs Hp] Hrl. destruct (new_match_ok rule version conjs Hrule) as [Hmo Hfl].
  pose proof (chain_of_key st r1 r2 h l k Hc Er Hk) as Hl.
  assert (forall rest, Permutation l' (new :: rest) -> (forall m, In m rest -> In m l) ->
    l' <> [] /\ Forall (of_key k) l') as Hl'.
  { intros rest Hpr Hin. split; [intros ->; by apply Permutation_nil_cons in Hpr|]. rewrite Hpr. constructor; [done|].
    rewrite Forall_forall in *. intros m Hm. apply Hl. by apply list_elem_of_In, Hin, list_elem_of_In. }
  assert (l' <> [] /\ Forall (of_key k) l') as [Hne Hall].
  { destruct old as [m|]; [|by apply (Hl' l)]. destruct Hp as (_ & _ & rest & P1 & P2). apply (Hl' rest P2).
    intros x Hx. apply (Permutation_in _ (Permutation_sym P1)). by right. }
  by apply (core_set_chain st r1 r2 h l l' k rl p c).
Qed.

(** Taking the place of an equal rule. *)
Lemma replace_swap_ok (cls : classifier) (l1 l2 : list (Z * cls_subtable)) (id : Z) (st : cls_subtable)
    (r1 r2 : list (Z * list cls_match)) (h : Z) (l l' : list cls_match) (m : cls_match) :
  cls_rep cls (l1 ++ (id, st) :: l2) -> st_rules st = r1 ++ (h, l) :: r2 -> chain_key l = Some k ->
  ~ In (cr_id rule) (map match_id (all_matches (l1 ++ (id, st) :: l2))) -> inserted new l l' (Some m) ->
  let rl := map (fun r => if cr_id r =? cr_id (cm_rule m) then rule else r) (st_rules_list st) in
  exists subs', cls_rep (store id (set_rules_list rl (set_rules (r1 ++ (h, l') :: r2) st)) cls) subs' /\
    replaced (all_matches (l1 ++ (id, st) :: l2)) (all_matches subs') (Some (cm_rule m)).
Proof.
  intros Hrep Er Hk Hfresh Hins rl. destruct (rep_sub _ _ id st Hrep) as (_ & Hcore & Hmx); [apply in_or_app; right; by left|].
  assert (NoDup (map match_id (st_matches st))) as Hnd.
  { pose proof (cp_rules _ _ Hrep) as Hr. rewrite all_matches_focus, map_app in Hr. by apply NoDup_app in Hr as (? & _). }
  pose proof Hins as [Hs' (Hpm & Hev & rest & P1 & P2)].
  set (st2 := set_rules_list rl (set_rules (r1 ++ (h, l') :: r2) st)).
  assert (Permutation (st_matches st) (m :: rest ++ rules_matches (r1 ++ r2))) as Pm
    by (unfold st_matches; by rewrite Er, rules_matches_focus, P1).
  assert (Permutation (st_matches st2) (new :: rest ++ rules_matches (r1 ++ r2))) as Pm2
    by (unfold st_matches; cbn [st_rules st2 set_rules_list set_rules]; by rewrite rules_matches_focus, P2).
  assert (Permutation rl (map cm_rule (st_matches st2))) as Prl.
  { pose proof (sc_list _ Hcore) as Hl. unfold rl. rewrite Pm2. cbn [map]. change (cm_rule new) with rule.
    apply map_replace_perm; [by rewrite Hl, Pm|]. rewrite Hl. by rewrite map_map. }
  destruct (replace_list_core st r1 r2 h (st_max_priority st) (st_max_count st) l l' (Some m) rl Hcore Er Hk Hins Prl)
    as [Hc2 Hk2]. change (set_priorities _ _ _) with st2 in Hc2, Hk2.
  assert (Permutation (all_matches (l1 ++ (id, st) :: l2)) (m :: rest ++ rules_matches (r1 ++ r2) ++ all_matches (l1 ++ l2)))
    as Pa by (rewrite all_matches_focus, Pm; cbn [app]; by rewrite <- app_assoc).
  assert (Permutation (all_matches (l1 ++ (id, st2) :: l2)) (new :: rest ++ rules_matches (r1 ++ r2) ++ all_matches (l1 ++ l2)))
    as Pa2 by (rewrite all_matches_focus, Pm2; cbn [app]; by rewrite <- app_assoc).
  exists (l1 ++ (id, st2) :: l2). split.
  - apply (rep_update _ _ _ _ st); try done; try apply Hrep.
    + by apply (max_ok_swap st st2 m new (rest ++ rules_matches (r1 ++ r2))).
    + rewrite (cp_pv _ _ Hrep). fold sub_entry. by rewrite !sub_entries_focus.
    + rewrite (all_keys_rules _ _ id st2 st) by done. by apply tries_hold_same.
    + rewrite Pa2. cbn [map]. pose proof (cp_rules _ _ Hrep) as Hr. rewrite Pa in Hr, Hfresh. cbn [map] in Hr, Hfresh.
      apply NoDup_cons in Hr as [_ Hr]. constructor; [|done]. rewrite list_elem_of_In. intros Hin. apply Hfresh. by right.
    + rewrite (cp_count _ _ Hrep), Pa, Pa2. done.
  - exists m, (rest ++ rules_matches (r1 ++ r2) ++ all_matches (l1 ++ l2)). split_and!; try done.
    pose proof (chain_of_key st r1 r2 h l k Hcore Er Hk) as Hl. rewrite P1 in Hl. by apply Forall_cons in Hl as [(_ & ? & _) _].
Qed.

(** Joining a list of equal rules. *)
Lemma replace_join_ok (cls : classifier) (l1 l2 : list (Z * cls_subtable)) (id : Z) (st : cls_subtable)
    (r1 r2 : list (Z * list cls_match)) (h : Z) (l l' : list cls_match) :
  cls_rep cls (l1 ++ (id, st) :: l2) -> st_rules st = r1 ++ (h, l) :: r2 -> chain_key l = Some k ->
  ~ In (cr_id rule) (map match_id (all_matches (l1 ++ (id, st) :: l2))) -> cls_n_rules cls < 2 ^ 31 ->
  inserted new l l' None ->
  exists cls' subs', finish_insert cls id (set_rules (r1 ++ (h, l') :: r2) st) rule 0 = Some (cls', None) /\
    cls_rep cls' subs' /\ replaced (all_matches (l1 ++ (id, st) :: l2)) (all_matches subs') None.
Proof.
  intros Hrep Er Hk Hfresh Hn Hins. destruct (rep_sub _ _ id st Hrep) as (_ & Hcore & Hmx); [apply in_or_app; right; by left|].
  set (st1 := set_rules (r1 ++ (h, l') :: r2) st). pose proof Hins as [_ P].
  assert (Permutation (st_matches st1) (new :: st_matches st)) as Pm.
  { unfold st_matches. cbn [st_rules st1 set_rules]. by rewrite Er, !rules_matches_focus, P. }
  assert (forall p c, let st' := set_priorities p c (set_rules_list (st_rules_list st1 ++ [rule]) st1) in
    subtable_core st' /\ keys (st_rules st') = keys (st_rules st)) as Hci.
  { intros p c. apply (replace_list_core st r1 r2 h p c l l' None); [done..|].
    change (rules_matches _) with (st_matches st1). rewrite Pm. cbn [map]. change (cm_rule new) with rule.
    change (st_rules_list st1) with (st_rules_list st). by rewrite (sc_list _ Hcore), Permutation_app_comm. }
  pose proof (finish_insert_ok cls l1 l2 id st st1 rule new 0 (cls_tries cls)) as Hfin. rewrite set_tries_same in Hfin.
  apply Hfin; try done; clear Hfin.
  - intros p c. apply (Hci p c).
  - rewrite (all_keys_rules _ _ id st1 st) by apply (Hci 0 0). by apply tries_hold_same.
Qed.

Lemma replace_list_ok (cls : classifier) (l1 l2 : list (Z * cls_subtable)) (id : Z) (st : cls_subtable)
    (r1 r2 : list (Z * list cls_match)) (h : Z) (head : cls_match) (next : list cls_match) :
  cls_rep cls (l1 ++ (id, st) :: l2) -> st_rules st = r1 ++ (h, head :: next) :: r2 ->
  chain_key (head :: next) = Some k ->
  ~ In (cr_id rule) (map match_id (all_matches (l1 ++ (id, st) :: l2))) -> cls_n_rules cls < 2 ^ 31 ->
  let '(l, old) := insert_in_list new (head :: next) in
  inserted new (head :: next) l old /\ set_chain head l (st_rules st) = r1 ++ (h, l) :: r2.
Proof.
  intros Hrep Er Hk Hfresh Hn. destruct (rep_sub _ _ id st Hrep) as (_ & Hcore & _); [apply in_or_app; right; by left|].
  pose proof (sc_sorted _ Hcore) as Hs. rewrite Er in Hs. apply Forall_app in Hs as [_ [Hs _]%Forall_cons].
  pose proof (insert_in_list_spec new (head :: next) (proj1 (new_match_ok rule version conjs Hrule)) Hs) as Hins.
  destruct (insert_in_list new (head :: next)) as [l' old]. split; [done|]. rewrite Er. apply set_chain_split.
  pose proof (cp_rules _ _ Hrep) as Hr. rewrite all_matches_focus, map_app in Hr. apply NoDup_app in Hr as (Hr & _).
  unfold st_matches in Hr. by rewrite Er in Hr.
Qed.

(** ** A new subtable *)

Lemma trie_plen_spec (cls : classifier) (subs : list (Z * cls_subtable)) (mask : minimask) :
  cls_rep cls subs ->
  let plens := subtable_trie_plen (cls_tries cls) (cls_n_tries cls) mask in
  length plens = CLS_MAX_TRIES /\
  forall i t mf, (i < cls_n_tries cls)%nat -> cls_tries cls !! i = Some t -> ct_field t = Some mf ->
    nth i plens 0%nat = minimask_get_prefix_len mask mf.
Proof.
  intros Hrep plens. pose proof (cp_n_tries _ _ Hrep). pose proof (cp_length _ _ Hrep). unfold plens, subtable_trie_plen. split.
  - rewrite length_app, length_map, length_take, length_replicate. lia.
  - intros i t mf Hi Ht Hf. apply nth_lookup_Some. rewrite lookup_app_l by (rewrite length_map, length_take; lia).
    rewrite list_lookup_fmap, lookup_take_lt, Ht by done. cbn. by rewrite Hf.
Qed.

Lemma insert_subtable_ok (cls : classifier) (subs : list (Z * cls_subtable)) (mask : minimask) :
  cls_rep cls subs -> minimask_wf mask ->
  exists st, insert_subtable cls mask =
    Some (Classifier (cls_n_rules cls) (cls_flow_segments cls)
            (cls_subtables_map cls ++ [(minimask_hash mask 0, cls_next cls)]) (cls_subtables cls) (cls_tries cls)
            (cls_n_tries cls) (cls_publish cls) (<[cls_next cls := st]> (cls_heap cls)) (cls_next cls + 1), cls_next cls) /\
    subtable_core st /\ st_mask st = mask /\ st_rules st = [] /\
    st_trie_plen st = subtable_trie_plen (cls_tries cls) (cls_n_tries cls) mask.
Proof.
  intros Hrep Hm. unfold insert_subtable.
  destruct (subtable_stages_ok mask (cls_flow_segments cls) (kwf_mf _ Hm) (cp_segs _ _ Hrep)) as (maps & n & -> & Hst).
  cbn [mbind option_bind]. eexists. split; [reflexivity|].
  assert (miniflow_clone mask (miniflow_n_values mask) = mask) as Em.
  { unfold miniflow_clone. rewrite firstn_values by eauto with ovs. by destruct mask. }
  split_and!; [|done..]. split; [|constructor|constructor|done|by eapply trie_plen_spec].
  split; cbn [st_mask st_index_maps st_n_indices st_rules st_indices st_ports_mask_len st_ports_trie]; rewrite ?Em; try done.
  - constructor.
  - apply length_replicate.
  - intros i c h [-> _]%lookup_replicate. done.
  - by split; [|cbn; lia].
Qed.

Lemma replace_fresh_ok (cls : classifier) (subs : list (Z * cls_subtable)) (st : cls_subtable) (cls0 : classifier) :
  let id := cls_next cls in
  cls_rep cls subs -> ~ In (mm_mask k) (map (fun e => st_mask (snd e)) subs) ->
  ~ In (cr_id rule) (map match_id (all_matches subs)) ->
  cls0 = Classifier (cls_n_rules cls) (cls_flow_segments cls)
           (cls_subtables_map cls ++ [(minimask_hash (mm_mask k) 0, id)]) (cls_subtables cls) (cls_tries cls)
           (cls_n_tries cls) (cls_publish cls) (<[id := st]> (cls_heap cls)) (id + 1) ->
  subtable_core st -> st_mask st = mm_mask k -> st_rules st = [] ->
  st_trie_plen st = subtable_trie_plen (cls_tries cls) (cls_n_tries cls) (mm_mask k) ->
  let '(cls1, st1) := insert_head cls0 id st new (map (key_hash (st_index_maps st) k) (seq 0 (st_n_indices st)))
                        (key_hash (st_index_maps st) k (st_n_indices st)) in
  exists cls' subs', finish_insert cls1 id st1 rule (length (st_rules st1)) = Some (cls', None) /\
    cls_rep cls' subs' /\ Permutation (all_matches subs') (new :: all_matches subs).
Proof.
  intros id Hrep Hmask Hfresh -> Hcore Hm Hr0 Hpl.
  assert (~ In k (keys (st_rules st))) as Hnin by (rewrite Hr0; by intros []).
  pose proof (fun p c => core_insert_head cls id st rule version conjs p c Hcore Hrule ltac:(done) Hnin) as Hci.
  cbn zeta in Hci. unfold insert_head in *. cbn [snd cls_n_tries cls_tries] in *.
  set (tries' := update_tries _ _ _ _ _) in *. set (st1 := set_lookup _ _ _ _) in *.
  assert (length (st_rules st1) = 1%nat) as E1 by (cbn [st_rules st1 set_lookup]; by rewrite Hr0).
  unfold finish_insert, insert_priority. rewrite E1. cbn [Nat.eqb mbind option_bind cls_subtables set_tries].
  set (v := pvector_insert _ _ _). set (st3 := set_priorities _ _ _).
  destruct (Hci (cr_priority rule) 1) as (Hc3 & Hma & Hke). change (set_priorities _ _ _) with st3 in Hc3, Hma, Hke.
  unfold st_matches in Hma at 2. rewrite Hr0 in Hma, Hke. cbn [app rules_matches map concat keys omap list_omap] in Hma, Hke.
  assert (pvector_wf v) as Hv.
  { apply pvector_insert_wf; [apply Hrep|]. rewrite (cp_pv _ _ Hrep), map_map. cbn.
    intros (e & E & He)%list_elem_of_In%in_map_iff. pose proof (cp_heap _ _ Hrep) as Hh. rewrite Forall_forall in Hh.
    specialize (Hh e ltac:(by apply list_elem_of_In)). pose proof (cp_fresh _ _ Hrep (fst e) ltac:(by eexists)). unfold id in E. lia. }
  destruct (pub_ok (cls_publish cls) v Hv) as (Hw & Ht & Hpp). set (v'' := if cls_publish cls then pvector_publish v else v) in *.
  assert (Permutation (all_matches (subs ++ [(id, st3)])) (new :: all_matches subs)) as Hall
    by (rewrite all_matches_focus, Hma, app_nil_r; done).
  exists (Classifier (cls_n_rules cls + 1) (cls_flow_segments cls)
    (cls_subtables_map cls ++ [(minimask_hash (st_mask st3) 0, id)]) v'' tries' (cls_n_tries cls) (cls_publish cls)
    (<[id := st3]> (<[id := st]> (cls_heap cls))) (id + 1)), (subs ++ [(id, st3)]).
  split; [|split; [|done]].
  - change (st_mask st3) with (st_mask st). rewrite Hm. unfold maybe_publish, v''. cbn.
    destruct (cls_publish cls) eqn:E; unfold set_subtables, set_n_rules, store, set_tries; cbn; by rewrite ?E.
  - apply rep_add; try done.
    + change (st_mask st3) with (st_mask st). by rewrite Hm.
    + change (st_matches st3) with (st_matches (set_rules_list (st_rules_list st1 ++ [rule]) st1)) in Hma.
      apply max_ok_set; rewrite ?Hma; [by constructor; [|constructor]|lia|]. cbn. by rewrite Z.eqb_refl.
    + by rewrite lookup_insert_eq.
    + intros i Hi. by rewrite !lookup_insert_ne by done.
    + rewrite Hpp. unfold v. rewrite pvector_insert_entries, (cp_pv _ _ Hrep), map_app. done.
    + apply (tries_hold_perm _ _ (k :: all_keys subs)); [rewrite all_keys_focus, Hke, app_nil_r; done|].
      apply trie_insert_hold; [done|]. rewrite Hpl. by eapply trie_plen_spec.
    + intros i t mf Hi Htt Hf. change (st_mask st3) with (st_mask st). change (st_trie_plen st3) with (st_trie_plen st).
      rewrite Hpl, Hm. by eapply trie_plen_spec.
    + fold id. rewrite Hall. cbn [map]. constructor; [by rewrite list_elem_of_In|apply Hrep].
    + fold id. rewrite Hall. cbn [length]. pose proof (cp_count _ _ Hrep). lia.
Qed.

(** [classifier_replace] always returns, keeps the invariant, and changes the rules as it says. *)
Lemma classifier_replace_ok (cls : classifier) (subs : list (Z * cls_subtable)) :
  cls_rep cls subs -> ~ In (cr_id rule) (map match_id (all_matches subs)) -> cls_n_rules cls < 2 ^ 31 ->
  exists cls' old subs', classifier_replace cls rule version conjs = Some (cls', old) /\ cls_rep cls' subs' /\
    replaced (all_matches subs) (all_matches subs') old.
Proof.
  intros Hrep Hfresh Hn. pose proof Hrule as [[Hkw Hkn] _]. assert (minimask_wf (mm_mask k)) as Hmw by eauto with ovs.
  unfold classifier_replace, get_subtable. fold (new_match rule version conjs).
  pose proof (find_subtable_spec cls subs (mm_mask k) Hrep Hmw) as Hfs.
  destruct (find_subtable cls (mm_mask k)) as [[id st]|].
  - destruct Hfs as (Hm & l1 & l2 & ->). cbn [mbind option_bind].
    destruct (rep_sub _ _ id st Hrep) as (_ & Hcore & _); [apply in_or_app; right; by left|].
    pose proof (sc_ok _ Hcore) as Hok.
    rewrite rule_hashes_spec; [|done|rewrite <- Hm; apply Hok]. cbn zeta.
    pose proof (find_equal_spec st k Hok (conj Hkw Hkn) (eq_sym Hm)) as Hfe.
    destruct (find_equal _ _ _) as [l|].
    + destruct Hfe as (r1 & r2 & h & head & next & -> & Er & Hk).
      pose proof (replace_list_ok cls l1 l2 id st r1 r2 h head next Hrep Er Hk Hfresh Hn) as Hins.
      destruct (insert_in_list new (head :: next)) as [l' [m|]]; destruct Hins as [Hins Hset]; rewrite Hset.
      * destruct (replace_swap_ok cls l1 l2 id st r1 r2 h (head :: next) l' m Hrep Er Hk Hfresh Hins) as (subs' & Hr' & Heff).
        eexists _, _, subs'. split; [reflexivity|]. done.
      * destruct (replace_join_ok cls l1 l2 id st r1 r2 h (head :: next) l' Hrep Er Hk Hfresh Hn Hins)
          as (cls' & subs' & Hf & Hr' & Heff). by exists cls', None, subs'.
    + pose proof (replace_head_ok cls l1 l2 id st Hrep Hm Hfe Hfresh Hn) as Hh.
      destruct (insert_head _ _ _ _ _ _) as [cls1 st1]. destruct Hh as (cls' & subs' & Hf & Hr' & Heff).
      by exists cls', None, subs'.
  - destruct (insert_subtable_ok cls subs (mm_mask k) Hrep Hmw) as (st & -> & Hcore & Hm & Hr0 & Hpl).
    cbn [mbind option_bind cls_heap]. rewrite lookup_insert_eq. cbn [mbind option_bind].
    rewrite rule_hashes_spec; [|done|rewrite <- Hm; apply Hcore]. cbn zeta.
    unfold find_equal. rewrite Hr0. cbn [List.find].
    pose proof (replace_fresh_ok cls subs st _ Hrep Hfs Hfresh eq_refl Hcore Hm Hr0 Hpl) as Hh.
    destruct (insert_head _ _ _ _ _ _) as [cls1 st1]. destruct Hh as (cls' & subs' & Hf & Hr' & Heff).
    by exists cls', None, subs'.
Qed.
End Replace.

End Update.
