(* ===== verification/ClassifierRemove.v ===== *)
(** * Removal from the classifier

    [classifier_remove] always returns, keeps the invariant, and takes exactly the
    match of the rule away; the new maximum priority of the subtable is right even
    though the loop that finds it reads only the heads of the lists. *)

From S2P Require Import Prelude Util Flowmap Hash Miniflow MetaFlow Trie FlowBits Versions Pvector Classifier.
From S2P Require Import Subtable ClassifierInv ClassifierUpdate.
From stdpp Require Import prelude list sorting gmap.
From Stdlib Require Import ZArith Lia.
Open Scope Z_scope.
Open Scope ovs_scope.

Section Remove.
Context `{HH : Hash}.

(** ** The new maximum *)

(** The loop over the heads for the new maximum. *)
Definition heads (rules : list (Z * list cls_match)) : list cls_match := omap (fun e => head (snd e)) rules.

Lemma max_priority_loop (rules : list (Z * list cls_match)) (p c p' c' : Z) :
  0 <= c -> c + Z.of_nat (length rules) < 2 ^ 32 ->
  foldl (fun '(max_priority, max_count) (e : Z * list cls_match) =>
           match snd e with
           | head :: _ =>
               if max_priority <? cm_priority head then (cm_priority head, 1)
               else if cm_priority head =? max_priority then (max_priority, u32 (max_count + 1))
               else (max_priority, max_count)
           | [] => (max_priority, max_count)
           end) (p, c) rules = (p', c') ->
  p <= p' /\ (forall m, In m (heads rules) -> cm_priority m <= p') /\
  (p' = p \/ exists m, In m (heads rules) /\ cm_priority m = p') /\
  c' = (if p' =? p then c else 0) + Z.of_nat (length (List.filter (fun m => cm_priority m =? p') (heads rules))).
Proof.
  revert p c. induction rules as [|[h l] rules IH]; intros p c Hc Hb Hf.
  { cbn in Hf. injection Hf as <- <-. split_and!; [lia|done|by left|]. rewrite Z.eqb_refl. cbn. lia. }
  cbn [foldl snd] in Hf. cbn [length] in Hb. destruct l as [|m l].
  { apply IH in Hf; [|lia..]. done. }
  change (heads ((h, m :: l) :: rules)) with (m :: heads rules). rewrite filter_length_cons.
  assert (forall q, cm_priority m <= p' -> (p' = q \/ exists x, In x (heads rules) /\ cm_priority x = p') ->
    q = p \/ q = cm_priority m -> p' = p \/ exists x, In x (m :: heads rules) /\ cm_priority x = p') as Hat.
  { intros q _ [->|(x & Hx & E)] [->| ->]; eauto using in_cons, in_eq. }
  destruct (Z.ltb_spec p (cm_priority m)) as [Hlt|Hge].
  - apply IH in Hf as (H1 & H2 & H3 & ->); [|lia..]. split_and!; [lia|by intros x [<-|Hx]; [|apply H2]|eauto|].
    destruct (Z.eqb_spec p' p), (Z.eqb_spec p' (cm_priority m)), (Z.eqb_spec (cm_priority m) p'); lia.
  - destruct (Z.eqb_spec (cm_priority m) p) as [E|E].
    + assert (u32 (c + 1) = c + 1) as Ew by (apply wrap_small; unfold in_width; lia). rewrite Ew in Hf.
      apply IH in Hf as (H1 & H2 & H3 & ->); [|lia..].
      split_and!; [lia|intros x [<-|Hx]; [lia|by apply H2]|apply (Hat p); [lia|done|by left]|].
      destruct (Z.eqb_spec p' p), (Z.eqb_spec (cm_priority m) p'); lia.
    + apply IH in Hf as (H1 & H2 & H3 & ->); [|lia..].
      split_and!; [lia|intros x [<-|Hx]; [lia|by apply H2]|apply (Hat p); [lia|done|by left]|].
      destruct (Z.eqb_spec p' p), (Z.eqb_spec (cm_priority m) p'); lia.
Qed.

(** Each match has a head of its list above it. *)
Lemma heads_above (rules : list (Z * list cls_match)) (m : cls_match) :
  Forall (fun e => chain_sorted (snd e)) rules -> In m (rules_matches rules) ->
  exists hd, In hd (heads rules) /\ cm_priority m <= cm_priority hd.
Proof.
  intros Hs. induction Hs as [|[h l] rules Hl Hs IH]; [done|]. rewrite rules_matches_cons.
  cbn [snd] in Hl. intros [Hm|Hm]%in_app_or.
  - destruct l as [|x l]; [done|]. exists x. split; [by left|]. apply StronglySorted_inv in Hl as [_ Hx].
    destruct Hm as [<-|Hm]; [lia|]. rewrite Forall_forall in Hx. apply Hx. by apply list_elem_of_In.
  - destruct (IH Hm) as (hd & Hin & Hle). exists hd. split; [|done]. destruct l; [done|]. by right.
Qed.

Lemma heads_count (p : cls_match -> bool) (rules : list (Z * list cls_match)) :
  (length (List.filter p (heads rules)) <= length (List.filter p (rules_matches rules)))%nat.
Proof.
  induction rules as [|[h [|x l]] rules IH]; [done|done|].
  change (heads ((h, x :: l) :: rules)) with (x :: heads rules). rewrite rules_matches_cons. cbn [app].
  rewrite !filter_length_cons, filter_length_app. lia.
Qed.

Lemma max_priority_of_ok (rules : list (Z * list cls_match)) (p c : Z) :
  Forall (fun e => chain_sorted (snd e)) rules -> Forall match_ok (rules_matches rules) -> rules_matches rules <> [] ->
  Z.of_nat (length rules) < 2 ^ 32 -> max_priority_of rules = (p, c) ->
  Forall (fun m => cm_priority m <= p) (rules_matches rules) /\ 1 <= c /\
  c <= Z.of_nat (length (List.filter (fun m => cm_priority m =? p) (rules_matches rules))).
Proof.
  intros Hs Hm Hne Hb Hp. apply max_priority_loop in Hp as (H1 & H2 & H3 & Hc); [|lia..].
  assert (Forall (fun m => cm_priority m <= p) (rules_matches rules)) as Hle.
  { apply Forall_forall. intros m Hin%list_elem_of_In. destruct (heads_above rules m Hs Hin) as (hd & Hhd & Hle).
    specialize (H2 hd Hhd). lia. }
  assert (exists hd, In hd (heads rules) /\ INT_MIN < cm_priority hd) as (hd & Hhd & Hpos).
  { destruct (rules_matches rules) as [|m ms] eqn:E; [done|]. destruct (heads_above rules m Hs) as (hd & Hhd & Hge);
      [rewrite E; by left|]. exists hd. split; [done|]. apply Forall_cons in Hm as [(_ & ? & _) _]. lia. }
  pose proof (H2 hd Hhd). destruct (Z.eqb_spec p INT_MIN); [lia|].
  destruct H3 as [|(x & Hx & Ex)]; [done|].
  assert (0 < length (List.filter (fun m => (cm_priority m =? p)%Z) (heads rules)))%nat
    by (apply length_filter_pos; exists x; split; [done|by apply Z.eqb_eq]).
  split_and!; [done|lia|pose proof (heads_count (fun m => cm_priority m =? p) rules); lia].
Qed.

(** ** The label [check_priority] *)

Lemma max_ok_remove (v : pvector) (id : Z) (st st1 : cls_subtable) (m : cls_match) (rest : list pvector_entry) :
  max_ok st -> Permutation (st_matches st) (m :: st_matches st1) -> st_matches st1 <> [] ->
  Forall (fun e => chain_sorted (snd e)) (st_rules st1) -> Forall match_ok (st_matches st1) ->
  st_max_priority st1 = st_max_priority st -> st_max_count st1 = st_max_count st ->
  Z.of_nat (length (st_matches st)) < 2 ^ 32 -> Z.of_nat (length (st_rules st1)) < 2 ^ 32 ->
  pvector_wf v -> Permutation (pv_entries v) (sub_entry (id, st) :: rest) ->
  exists v' p c, check_priority v id st1 (cm_priority m) = Some (v', set_priorities p c st1) /\
    max_ok (set_priorities p c st1) /\ pvector_wf v' /\
    Permutation (pv_entries v') (sub_entry (id, set_priorities p c st1) :: rest).
Proof.
  intros [Hle Hpos Hcnt] Hperm Hne Hs Hm Ep Ec Hb Hb1 Hv Hpv. unfold check_priority. rewrite Ep, Ec.
  rewrite Hperm in Hle. apply Forall_cons in Hle as [Hlem Hle].
  rewrite (filter_length_perm _ _ _ Hperm), filter_length_cons in Hcnt.
  destruct (Z.eqb_spec (st_max_priority st) (cm_priority m)) as [E|E].
  - assert (u32 (st_max_count st - 1) = st_max_count st - 1) as ->.
    { pose proof (List.filter_length_le (fun m => cm_priority m =? st_max_priority st) (st_matches st1)).
      rewrite Hperm in Hb. cbn [length] in Hb. apply wrap_small. unfold in_width. destruct (_ =? _); lia. }
    destruct (Z.eqb_spec (st_max_count st - 1) 0) as [Ez|Ez].
    + destruct (max_priority_of (st_rules st1)) as [p c] eqn:Emp.
      destruct (max_priority_of_ok (st_rules st1) p c Hs Hm Hne Hb1 Emp) as (? & ? & ?).
      destruct (pv_change_perm v id (st_max_priority st) p rest Hv Hpv) as (v' & -> & Hv' & Hp').
      exists v', p, c. split_and!; [done|by apply max_ok_set|done|done].
    + exists v, (st_max_priority st), (st_max_count st - 1). split_and!; [done| |done|done].
      apply max_ok_set; [done|lia|]. destruct (_ =? _); lia.
  - exists v, (st_max_priority st), (st_max_count st).
    assert (set_priorities (st_max_priority st) (st_max_count st) st1 = st1) as E'
      by (rewrite <- Ep, <- Ec; by destruct st1).
    rewrite E' at 1. split_and!; [done| |done|done].
    apply max_ok_set; [done|lia|]. destruct (Z.eqb_spec (cm_priority m) (st_max_priority st)); [lia|]. lia.
Qed.

Context `{QQ : Qsort}.

(** The end of [classifier_remove]. *)
Definition removed (cls : classifier) : classifier :=
  let cls := maybe_publish cls in set_n_rules (cls_n_rules cls - 1) cls.

Lemma finish_remove_ok (cls : classifier) (l1 l2 : list (Z * cls_subtable)) (id : Z) (st st1 : cls_subtable)
    (m : cls_match) (tries' : list cls_trie) :
  cls_rep cls (l1 ++ (id, st) :: l2) ->
  (forall p c, subtable_core (set_priorities p c st1)) ->
  st_mask st1 = st_mask st -> st_trie_plen st1 = st_trie_plen st ->
  st_max_priority st1 = st_max_priority st -> st_max_count st1 = st_max_count st ->
  Permutation (st_matches st) (m :: st_matches st1) -> st_matches st1 <> [] ->
  Z.of_nat (length (st_rules st1)) < 2 ^ 32 ->
  tries_hold cls tries' (all_keys (l1 ++ (id, st1) :: l2)) -> cls_n_rules cls < 2 ^ 32 ->
  exists cls' subs', finish_remove (set_tries tries' (cls_n_tries cls) cls) id st1 (cm_priority m) = Some cls' /\
    cls_rep (removed cls') subs' /\ Permutation (all_matches (l1 ++ (id, st) :: l2)) (m :: all_matches subs').
Proof.
  intros Hrep Hcore Em Ep Emp Emc Hperm Hne Hb Htries Hn. unfold finish_remove.
  pose proof (cp_pv _ _ Hrep) as Hpv. fold sub_entry in Hpv. rewrite sub_entries_focus in Hpv.
  destruct (rep_sub _ _ id st Hrep) as (_ & _ & Hmx); [apply in_or_app; right; by left|].
  pose proof (all_matches_bound l1 l2 id st) as Hbound. pose proof (cp_count _ _ Hrep) as Hcount.
  pose proof (Hcore 0 0) as Hc0.
  destruct (max_ok_remove (cls_subtables cls) id st st1 m (map sub_entry (l1 ++ l2)))
    as (v' & p & c & Hchk & Hmx' & Hv' & Hpv'); try done; [apply Hc0|apply (sc_match _ Hc0)|lia|apply Hrep|].
  cbn [cls_subtables set_tries]. rewrite Hchk. cbn [mbind option_bind].
  set (st3 := set_priorities p c st1) in *.
  destruct (pub_ok (cls_publish cls) v' Hv') as (Hw & Ht & Hpp).
  set (v'' := if cls_publish cls then pvector_publish v' else v') in *.
  assert (Permutation (all_matches (l1 ++ (id, st) :: l2)) (m :: all_matches (l1 ++ (id, st3) :: l2))) as Hall.
  { rewrite !all_matches_focus. change (st_matches st3) with (st_matches st1). by rewrite Hperm. }
  eexists _, (l1 ++ (id, st3) :: l2). split; [reflexivity|split; [|done]].
  replace (removed _) with (Classifier (cls_n_rules cls - 1) (cls_flow_segments cls) (cls_subtables_map cls) v''
    tries' (cls_n_tries cls) (cls_publish cls) (<[id := st3]> (cls_heap cls)) (cls_next cls)).
  2: { unfold removed, maybe_publish, v''. cbn. destruct (cls_publish cls) eqn:E;
         unfold set_subtables, set_n_rules, store, set_tries; cbn; by rewrite ?E. }
  apply (rep_update _ _ _ _ st); try done.
  - apply Hcore.
  - rewrite Hpp, Hpv'. by rewrite sub_entries_focus.
  - by rewrite (all_keys_rules _ _ id st3 st1).
  - pose proof (cp_rules _ _ Hrep) as Hr. rewrite Hall in Hr. by apply NoDup_cons in Hr as [_ ?].
  - rewrite Hall in Hcount. cbn [length] in Hcount. lia.
Qed.

(** ** Unlinking a match *)

Lemma filter_out_perm {A} (f : A -> Z) (x : A) (l : list A) :
  NoDup (map f l) -> In x l -> Permutation l (x :: List.filter (fun y => negb (f y =? f x)) l).
Proof.
  intros Hnd (a & b & ->)%in_split. rewrite map_app in Hnd. cbn [map] in Hnd.
  rewrite (Permutation_sym (Permutation_middle _ _ _)) in Hnd. apply NoDup_cons in Hnd as [Hnin _].
  rewrite List.filter_app. cbn [List.filter]. rewrite Z.eqb_refl. cbn [negb].
  assert (forall k, (forall y, In y k -> In (f y) (map f a ++ map f b)) ->
    List.filter (fun y => negb (f y =? f x)) k = k) as Hid.
  { intros k Hk. apply filter_all_in. intros y Hy. apply negb_true_iff, Z.eqb_neq. intros E.
    apply Hnin, list_elem_of_In. rewrite <- E. by apply Hk. }
  rewrite !Hid; [by rewrite Permutation_middle| |]; intros y Hy; apply in_or_app; [right|left]; by apply in_map.
Qed.

Lemma rules_list_perm (rl : list cls_rule) (rest : list cls_rule) (r : cls_rule) :
  NoDup (map cr_id rl) -> Permutation rl (r :: rest) ->
  Permutation (List.filter (fun x => negb (cr_id x =? cr_id r)) rl) rest.
Proof.
  intros Hnd Hp. apply (Permutation_cons_inv (a := r)). rewrite <- Hp. symmetry.
  apply filter_out_perm; [done|]. apply (Permutation_in _ (Permutation_sym Hp)). by left.
Qed.

Lemma chain_sorted_filter (p : cls_match -> bool) (l : list cls_match) :
  chain_sorted l -> chain_sorted (List.filter p l).
Proof.
  intros Hs. induction Hs as [|x l Hl IH Hx]; [constructor|]. cbn [List.filter]. destruct (p x); [|done].
  constructor; [done|]. rewrite Forall_forall in *. intros y Hy. apply Hx.
  apply list_elem_of_In in Hy. apply List.filter_In in Hy as [Hy _]. by apply list_elem_of_In.
Qed.

Lemma rules_length (rules : list (Z * list cls_match)) :
  Forall (fun e => snd e <> []) rules -> (length rules <= length (rules_matches rules))%nat.
Proof.
  induction 1 as [|[h l] rules Hl _ IH]; [done|]. rewrite rules_matches_cons, length_app. cbn [snd] in Hl.
  destruct l; [done|]. cbn [length]. lia.
Qed.

Lemma core_rules_length (st : cls_subtable) :
  subtable_core st -> (length (st_rules st) <= length (st_matches st))%nat.
Proof.
  intros Hc. apply rules_length. eapply Forall_impl; [apply so_chains, Hc|]. intros [h l] (k & Hk & _). by destruct l.
Qed.

Lemma rep_ids (cls : classifier) (l1 l2 : list (Z * cls_subtable)) (id : Z) (st : cls_subtable) :
  cls_rep cls (l1 ++ (id, st) :: l2) -> NoDup (map match_id (st_matches st)).
Proof.
  intros Hrep. pose proof (cp_rules _ _ Hrep) as Hr. rewrite all_matches_focus, map_app in Hr.
  by apply NoDup_app in Hr as (? & _).
Qed.

(** The rest of the subtable's rules list. *)
Lemma rules_list_rest (st : cls_subtable) (m : cls_match) (rest : list cls_match) :
  subtable_core st -> NoDup (map match_id (st_matches st)) -> Permutation (st_matches st) (m :: rest) ->
  Permutation (List.filter (fun r => negb (cr_id r =? cr_id (cm_rule m))) (st_rules_list st)) (map cm_rule rest).
Proof.
  intros Hc Hnd Hp. pose proof (sc_list _ Hc) as Hl. apply rules_list_perm.
  - rewrite Hl, map_map. done.
  - by rewrite Hl, Hp.
Qed.

(** The list of the match stays. *)
Lemma remove_list_ok (cls : classifier) (l1 l2 : list (Z * cls_subtable)) (id : Z) (st : cls_subtable)
    (r1 r2 : list (Z * list cls_match)) (h : Z) (l l' : list cls_match) (m : cls_match) (k : minimatch) :
  let rl := List.filter (fun r => negb (cr_id r =? cr_id (cm_rule m))) (st_rules_list st) in
  cls_rep cls (l1 ++ (id, st) :: l2) -> cls_n_rules cls < 2 ^ 32 ->
  st_rules st = r1 ++ (h, l) :: r2 -> chain_key l = Some k ->
  Permutation l (m :: l') -> l' <> [] -> chain_sorted l' ->
  exists cls' subs', finish_remove cls id (set_rules (r1 ++ (h, l') :: r2) (set_rules_list rl st)) (cm_priority m) = Some cls' /\
    cls_rep (removed cls') subs' /\ Permutation (all_matches (l1 ++ (id, st) :: l2)) (m :: all_matches subs').
Proof.
  intros rl Hrep Hn Er Hk Hl Hne Hs. destruct (rep_sub _ _ id st Hrep) as (_ & Hcore & _); [apply in_or_app; right; by left|].
  set (st1 := set_rules _ _).
  assert (Permutation (st_matches st) (m :: st_matches st1)) as Pm.
  { unfold st_matches. rewrite Er. cbn [st_rules st1 set_rules]. by rewrite !rules_matches_focus, Hl. }
  assert (Forall (of_key k) l') as Hall.
  { pose proof (chain_of_key st r1 r2 h l k Hcore Er Hk) as Hc. rewrite Hl in Hc. by apply Forall_cons in Hc as [_ ?]. }
  pose proof (rules_list_rest st m (st_matches st1) Hcore (rep_ids _ _ _ _ _ Hrep) Pm) as Hrl.
  pose proof (fun p c => core_set_chain st r1 r2 h l l' k rl p c Hcore Er Hk Hne Hs Hall Hrl) as Hci.
  pose proof (finish_remove_ok cls l1 l2 id st st1 m (cls_tries cls)) as Hfin. rewrite set_tries_same in Hfin.
  apply Hfin; try done; clear Hfin.
  - intros p c. apply (Hci p c).
  - unfold st_matches. cbn [st_rules st1 set_rules]. intros E%length_zero_iff_nil. rewrite rules_matches_focus, length_app in E.
    destruct l'; [done|]. cbn [length] in E. lia.
  - pose proof (core_rules_length _ (proj1 (Hci 0 0))) as Hb. change (length (st_rules st1) <= length (st_matches st1))%nat in Hb.
    pose proof (all_matches_bound l1 l2 id st) as Hb'. pose proof (cp_count _ _ Hrep). rewrite Pm in Hb'. cbn [length] in Hb'. lia.
  - rewrite (all_keys_rules _ _ id st1 st) by apply (Hci 0 0). by apply tries_hold_same.
Qed.

(** ** Removing the last rule of a flow *)

Lemma trie_remove_hold (cls : classifier) (l1 l2 : list (Z * cls_subtable)) (id : Z) (st : cls_subtable)
    (k : minimatch) (ks : list minimatch) :
  cls_rep cls (l1 ++ (id, st) :: l2) -> minimatch_wf k -> mm_mask k = st_mask st ->
  Permutation (all_keys (l1 ++ (id, st) :: l2)) (k :: ks) ->
  tries_hold cls (update_tries trie_remove (st_trie_plen st) (cls_n_tries cls) k (cls_tries cls)) ks.
Proof.
  intros Hrep Hk Hm Hp. apply (tries_update cls _ k (st_trie_plen st) trie_remove (k :: ks) ks Hrep Hp).
  - intros i t mf Hi Ht Hf. rewrite Hm. by apply (rep_plens cls l1 l2 id st i t).
  - intros t mf plen Hok Hc Hpl. by apply trie_remove_ok.
  - intros t mf Hpl Hc. by apply (trie_counts_no_prefix _ _ k).
Qed.

(** The subtable without the flow. *)
Lemma remove_head_core (cls : classifier) (l1 l2 : list (Z * cls_subtable)) (id : Z) (st : cls_subtable)
    (r1 r2 : list (Z * list cls_match)) (h : Z) (m : cls_match) :
  let k := cr_match (cm_rule m) in
  let rl := List.filter (fun r => negb (cr_id r =? cr_id (cm_rule m))) (st_rules_list st) in
  cls_rep cls (l1 ++ (id, st) :: l2) -> st_rules st = r1 ++ (h, [m]) :: r2 ->
  exists st1 tries',
    remove_head cls (set_rules_list rl st) (cm_rule m)
      (map (key_hash (st_index_maps st) k) (seq 0 (st_n_indices st))) =
      Some (set_tries tries' (cls_n_tries cls) cls, st1) /\
    (forall p c, subtable_core (set_priorities p c st1)) /\ st_rules st1 = r1 ++ r2 /\
    st_mask st1 = st_mask st /\ st_trie_plen st1 = st_trie_plen st /\
    st_max_priority st1 = st_max_priority st /\ st_max_count st1 = st_max_count st /\
    (forall ks, Permutation (all_keys (l1 ++ (id, st) :: l2)) (k :: ks) -> tries_hold cls tries' ks).
Proof.
  intros k rl Hrep Er. destruct (rep_sub _ _ id st Hrep) as (_ & Hcore & _); [apply in_or_app; right; by left|].
  pose proof (sc_ok _ Hcore) as Hok. pose proof (rep_ids _ _ _ _ _ Hrep) as Hnd. pose proof Hnd as Hnd'.
  unfold st_matches in Hnd'. rewrite Er in Hnd'.
  assert (In k (keys (st_rules st))) as Hin
    by (rewrite Er, keys_app, (keys_cons h [m] k) by done; apply in_or_app; right; by left).
  destruct (keys_ok st k Hok Hin) as [[Hkw _] Hkm].
  destruct (indices_dec (st_indices st) (map (key_hash (st_index_maps st) k) (seq 0 (st_n_indices st))))
    as (cs' & Hcs' & _); [rewrite length_map, length_seq; apply Hok| |].
  { intros i c x Hc Hx. rewrite (so_indices _ Hok i c) by done. apply length_filter_pos. exists k. split; [done|].
    rewrite list_lookup_fmap, lookup_seq_lt in Hx by (rewrite <- (so_n_indices _ Hok); by eapply lookup_lt_Some).
    injection Hx as <-. apply Z.eqb_refl. }
  unfold remove_head. cbn [st_ports_mask_len st_ports_trie st_trie_plen st_indices st_rules set_rules_list].
  fold k. rewrite Hcs'. cbn [mbind option_bind]. rewrite Er, remove_chain_split by done.
  set (st1 := set_lookup _ _ _ _). eexists st1, _. split; [reflexivity|]. split_and!; try done.
  - intros p c. assert (Permutation (st_matches st) (m :: rules_matches (r1 ++ r2))) as Pm
      by (unfold st_matches; by rewrite Er, rules_matches_focus).
    split; [eapply (subtable_ok_remove st _ k h [m] r1 r2); done|..|by apply (sc_plen _ Hcore)].
    + pose proof (sc_sorted _ Hcore) as Hs. rewrite Er in Hs. change (st_rules _) with (r1 ++ r2).
      apply Forall_app in Hs as [? [_ ?]%Forall_cons]. by apply Forall_app.
    + change (st_matches _) with (rules_matches (r1 ++ r2)). pose proof (sc_match _ Hcore) as Hm. rewrite Pm in Hm.
      by apply Forall_cons in Hm as [_ ?].
    + by apply rules_list_rest.
  - intros ks Hp. by apply (trie_remove_hold cls l1 l2 id st).
Qed.

Lemma drop_sub_map (l1 l2 : list (Z * cls_subtable)) (id : Z) (st : cls_subtable) (f : Z * cls_subtable -> Z * Z) :
  (forall e, snd (f e) = fst e) -> NoDup (map fst (l1 ++ (id, st) :: l2)) ->
  List.filter (fun e => negb (snd e =? id)) (map f (l1 ++ (id, st) :: l2)) = map f (l1 ++ l2).
Proof.
  intros Hf Hnd. rewrite !map_app, List.filter_app. cbn [map List.filter]. rewrite Hf. cbn [fst]. rewrite Z.eqb_refl. cbn [negb].
  rewrite map_app in Hnd. cbn [map fst] in Hnd. rewrite (Permutation_sym (Permutation_middle _ _ _)) in Hnd.
  apply NoDup_cons in Hnd as [Hnin _].
  rewrite !filter_all_in; [done| |]; intros x (e & <- & He)%in_map_iff; rewrite Hf; apply negb_true_iff, Z.eqb_neq;
    intros <-; apply Hnin, list_elem_of_In, in_or_app; [right|left]; by apply in_map.
Qed.

(** The subtable goes with its last flow. *)
Lemma destroy_ok (cls : classifier) (l1 l2 : list (Z * cls_subtable)) (id : Z) (st st1 : cls_subtable)
    (m : cls_match) (tries' : list cls_trie) :
  cls_rep cls (l1 ++ (id, st) :: l2) -> st_matches st = [m] -> tries_hold cls tries' (all_keys (l1 ++ l2)) ->
  exists cls' subs', destroy_subtable (store id st1 (set_tries tries' (cls_n_tries cls) cls)) id = Some cls' /\
    cls_rep (removed cls') subs' /\ Permutation (all_matches (l1 ++ (id, st) :: l2)) (m :: all_matches subs').
Proof.
  intros Hrep Hm Htries. unfold destroy_subtable. cbn [cls_subtables store set_tries].
  pose proof (cp_pv _ _ Hrep) as Hpv. fold sub_entry in Hpv. rewrite sub_entries_focus in Hpv.
  destruct (pv_remove_perm (cls_subtables cls) id (st_max_priority st) (map sub_entry (l1 ++ l2))) as (v' & -> & Hv' & Hp');
    [apply Hrep|done|]. cbn [mbind option_bind].
  destruct (pub_ok (cls_publish cls) v' Hv') as (Hw & Ht & Hpp).
  set (v'' := if cls_publish cls then pvector_publish v' else v') in *.
  assert (Permutation (all_matches (l1 ++ (id, st) :: l2)) (m :: all_matches (l1 ++ l2))) as Hall
    by (rewrite all_matches_focus, Hm; done).
  eexists _, (l1 ++ l2). split; [reflexivity|]. split; [|done].
  replace (removed _) with (Classifier (cls_n_rules cls - 1) (cls_flow_segments cls)
    (List.filter (fun e => negb (snd e =? id)) (cls_subtables_map cls)) v'' tries' (cls_n_tries cls) (cls_publish cls)
    (<[id := st1]> (cls_heap cls)) (cls_next cls)).
  2: { unfold removed, maybe_publish, v''. cbn. destruct (cls_publish cls) eqn:E;
         unfold set_subtables, set_n_rules, store, set_tries, set_subtables_map; cbn; by rewrite ?E. }
  apply (rep_drop cls l1 l2 id st); try done.
  - rewrite (cp_map _ _ Hrep). apply drop_sub_map; [done|apply Hrep].
  - intros i Hi. by rewrite lookup_insert_ne by done.
  - by rewrite Hpp.
  - pose proof (cp_count _ _ Hrep) as Hc. rewrite Hall in Hc. cbn [length] in Hc. lia.
Qed.

Lemma remove_from_chain_ok (cls : classifier) (l1 l2 : list (Z * cls_subtable)) (id : Z) (st : cls_subtable)
    (r1 r2 : list (Z * list cls_match)) (h : Z) (l : list cls_match) (m : cls_match) :
  let k := cr_match (cm_rule m) in
  let rl := List.filter (fun r => negb (cr_id r =? cr_id (cm_rule m))) (st_rules_list st) in
  cls_rep cls (l1 ++ (id, st) :: l2) -> cls_n_rules cls < 2 ^ 32 ->
  st_rules st = r1 ++ (h, l) :: r2 -> chain_key l = Some k -> In m l ->
  exists cls' subs',
    remove_from_chain cls id (set_rules_list rl st) (cm_rule m) (cm_priority m)
      (map (key_hash (st_index_maps st) k) (seq 0 (st_n_indices st))) l = Some cls' /\
    cls_rep (removed cls') subs' /\ Permutation (all_matches (l1 ++ (id, st) :: l2)) (m :: all_matches subs').
Proof.
  intros k rl Hrep Hn Er Hk Hin. destruct (rep_sub _ _ id st Hrep) as (_ & Hcore & _); [apply in_or_app; right; by left|].
  pose proof (sc_sorted _ Hcore) as Hs. rewrite Er in Hs. apply Forall_app in Hs as [_ [Hs _]%Forall_cons]. cbn [snd] in Hs.
  pose proof (rep_ids _ _ _ _ _ Hrep) as Hnd. unfold st_matches in Hnd. rewrite Er in Hnd.
  assert (NoDup (map match_id l)) as Hndl.
  { rewrite rules_matches_focus, map_app in Hnd. by apply NoDup_app in Hnd as (? & _). }
  destruct l as [|hd next]; [done|]. unfold remove_from_chain.
  cbn [st_rules set_rules_list]. unfold same_rule at 1. destruct (Z.eqb_spec (cr_id (cm_rule hd)) (cr_id (cm_rule m))) as [E|E]; cbn [negb].
  - assert (hd = m) as ->.
    { destruct Hin as [?|Hin]; [done|]. cbn [map] in Hndl. apply NoDup_cons in Hndl as [Hnin _]. destruct Hnin.
      unfold match_id at 1. rewrite E. by apply list_elem_of_In, (in_map match_id). }
    destruct next as [|y next]; cbn [length Nat.ltb Nat.leb].
    + destruct (remove_head_core cls l1 l2 id st r1 r2 h m Hrep Er)
        as (st1 & tries' & Erh & Hc1 & Er1 & Em & Ep & Emp & Emc & Hh). cbn zeta in Erh. fold k rl in Erh.
      rewrite Erh. cbn [mbind option_bind].
      assert (Permutation (all_keys (l1 ++ (id, st) :: l2)) (k :: all_keys (l1 ++ (id, st1) :: l2))) as Pk.
      { rewrite !all_keys_focus, Er, Er1, !keys_app, (keys_cons h [m] k) by done.
        cbn [app]. rewrite <- (Permutation_middle (keys r1)). done. }
      specialize (Hh _ Pk). destruct (Nat.eqb_spec (length (st_rules st1)) 0) as [Ez|Ez].
      * apply length_zero_iff_nil in Ez. rewrite Ez in Er1. symmetry in Er1. apply app_eq_nil in Er1 as [-> ->].
        apply (destroy_ok _ _ _ _ st); [done|unfold st_matches; by rewrite Er|].
        apply (tries_hold_perm _ _ (all_keys (l1 ++ (id, st1) :: l2))); [|done]. rewrite all_keys_focus, Ez. done.
      * assert (Permutation (st_matches st) (m :: st_matches st1)) as Pm.
        { unfold st_matches. rewrite Er, Er1. by rewrite rules_matches_focus. }
        pose proof (core_rules_length _ (Hc1 0 0)) as Hlen. change (length (st_rules st1) <= length (st_matches st1))%nat in Hlen.
        pose proof (all_matches_bound l1 l2 id st) as Hb. pose proof (cp_count _ _ Hrep). rewrite Pm in Hb. cbn [length] in Hb.
        apply (finish_remove_ok cls l1 l2 id st st1); try done; [|lia].
        intros E0. rewrite E0 in Hlen. cbn in Hlen. lia.
    + rewrite Er, set_chain_split by done. apply StronglySorted_inv in Hs as [Hs _].
      by apply (remove_list_ok _ _ _ _ _ r1 r2 h (m :: y :: next) (y :: next) m k).
  - destruct Hin as [->|Hin]; [done|].
    assert (existsb (same_rule (cm_rule m)) next = true) as ->.
    { apply existsb_exists. exists m. split; [done|]. apply Z.eqb_refl. }
    rewrite Er, set_chain_split by done. cbn [map] in Hndl. apply NoDup_cons in Hndl as [_ Hndl].
    apply (remove_list_ok _ _ _ _ _ r1 r2 h (hd :: next) _ m k); [done..| |done|].
    + rewrite (filter_out_perm match_id m next Hndl Hin) at 1. by rewrite perm_swap.
    + apply StronglySorted_inv in Hs as [Hs Hx]. constructor; [by apply chain_sorted_filter|].
      rewrite Forall_forall in *. intros y Hy. apply Hx. apply list_elem_of_In in Hy.
      apply List.filter_In in Hy as [Hy _]. by apply list_elem_of_In.
Qed.

(** ** [classifier_remove] *)

Lemma find_nodup {A} (f : A -> Z) (l : list A) (x : A) :
  NoDup (map f l) -> In x l -> List.find (fun y => f y =? f x) l = Some x.
Proof.
  intros Hnd. induction l as [|y l IH]; [done|]. cbn [map] in Hnd. apply NoDup_cons in Hnd as [Hnin Hnd].
  cbn [List.find]. intros [->|Hin]; [by rewrite Z.eqb_refl|].
  destruct (Z.eqb_spec (f y) (f x)) as [E|]; [|by apply IH].
  destruct Hnin. rewrite E. by apply list_elem_of_In, in_map.
Qed.

Lemma get_cls_match_rep (cls : classifier) (subs : list (Z * cls_subtable)) (rule : cls_rule) :
  cls_rep cls subs -> get_cls_match cls rule = List.find (same_rule rule) (all_matches subs).
Proof. intros Hrep. unfold get_cls_match. by rewrite (subtables_of_rep cls subs). Qed.

Lemma get_cls_match_in (cls : classifier) (subs : list (Z * cls_subtable)) (m : cls_match) :
  cls_rep cls subs -> In m (all_matches subs) -> get_cls_match cls (cm_rule m) = Some m.
Proof.
  intros Hrep Hin. rewrite (get_cls_match_rep cls subs) by done.
  apply (find_nodup match_id); [apply Hrep|done].
Qed.

Lemma get_cls_match_out (cls : classifier) (subs : list (Z * cls_subtable)) (rule : cls_rule) :
  cls_rep cls subs -> ~ In (cr_id rule) (map match_id (all_matches subs)) -> get_cls_match cls rule = None.
Proof.
  intros Hrep Hnin. rewrite (get_cls_match_rep cls subs) by done.
  destruct (List.find _ _) as [m|] eqn:E; [|done]. apply List.find_some in E as [Hin E%Z.eqb_eq].
  destruct Hnin. rewrite <- E. by apply (in_map match_id).
Qed.

Lemma omap_some {A B} (f : A -> B) (l : list A) : omap (fun x => Some (f x)) l = map f l.
Proof. induction l as [|x l IH]; [done|]. cbn. by rewrite <- IH. Qed.

(** Where the match of a rule is. *)
Lemma match_place (cls : classifier) (subs : list (Z * cls_subtable)) (m : cls_match) :
  let k := cr_match (cm_rule m) in
  cls_rep cls subs -> In m (all_matches subs) ->
  exists l1 l2 id st r1 r2 h l, subs = l1 ++ (id, st) :: l2 /\ st_rules st = r1 ++ (h, l) :: r2 /\
    chain_key l = Some k /\ In m l /\ key_ok k /\ mm_mask k = st_mask st.
Proof.
  intros k Hrep (ms & ([id st] & <- & Hst)%in_map_iff & Hm)%in_concat. cbn [snd] in Hm.
  destruct (rep_sub _ _ _ _ Hrep Hst) as (_ & Hcore & _).
  apply in_concat in Hm as (l & ([h l'] & <- & Hl)%in_map_iff & Hm). cbn [snd] in Hm.
  pose proof (proj1 (Forall_forall _ _) (so_chains _ (sc_ok _ Hcore)) (h, l') ltac:(by apply list_elem_of_In))
    as (k' & Hk' & Hko & Hkm & _ & Hall). cbn [snd fst] in *. rewrite Forall_forall in Hall.
  destruct (Hall m) as [Hmk _]; [by apply list_elem_of_In|]. subst k'.
  apply in_split in Hst as (l1 & l2 & ->). apply in_split in Hl as (r1 & r2 & Er).
  by exists l1, l2, id, st, r1, r2, h, l'.
Qed.

Lemma focus_unique {A B} (f : A -> option B) (l1 l2 k1 k2 : list A) (x y : A) (b : B) :
  l1 ++ x :: l2 = k1 ++ y :: k2 -> NoDup (omap f (l1 ++ x :: l2)) -> f x = Some b -> f y = Some b ->
  l1 = k1 /\ x = y /\ l2 = k2.
Proof.
  revert k1. induction l1 as [|a l1 IH]; intros [|c k1] E Hnd Hx Hy; injection E as -> E.
  - done.
  - exfalso. rewrite E in Hnd. cbn in Hnd. rewrite Hx in Hnd. apply NoDup_cons in Hnd as [Hnin _].
    apply Hnin. apply list_elem_of_omap. exists y. split; [apply elem_of_app; right; by left|done].
  - exfalso. cbn in Hnd. rewrite Hy in Hnd. apply NoDup_cons in Hnd as [Hnin _].
    apply Hnin. apply list_elem_of_omap. exists x. split; [apply elem_of_app; right; by left|done].
  - destruct (IH k1 E) as (-> & -> & ->); [|done..]. cbn in Hnd. destruct (f c); [by apply NoDup_cons in Hnd as [_ ?]|done].
Qed.

Lemma classifier_remove_ok (cls : classifier) (subs : list (Z * cls_subtable)) (m : cls_match) :
  cls_rep cls subs -> In m (all_matches subs) -> cls_n_rules cls < 2 ^ 32 ->
  exists cls' subs', classifier_remove cls (cm_rule m) = Some (cls', true) /\ cls_rep cls' subs' /\
    Permutation (all_matches subs) (m :: all_matches subs').
Proof.
  intros Hrep Hin Hn. unfold classifier_remove. rewrite (get_cls_match_in cls subs m) by done.
  destruct (match_place cls subs m Hrep Hin) as (l1 & l2 & id & st & r1 & r2 & h & l & -> & Er & Hk & Hml & Hko & Hkm).
  set (k := cr_match (cm_rule m)) in *.
  pose proof (find_subtable_spec cls _ (mm_mask k) Hrep ltac:(destruct Hko; eauto with ovs)) as Hfs.
  destruct (find_subtable cls (mm_mask k)) as [[id' st']|].
  2: { destruct Hfs. rewrite map_app, Hkm. apply in_or_app. right. by left. }
  destruct Hfs as (Hm' & k1 & k2 & E). pose proof (cp_masks _ _ Hrep) as Hnm.
  destruct (focus_unique (fun e : Z * cls_subtable => Some (st_mask (snd e))) l1 l2 k1 k2 (id, st) (id', st') (mm_mask k) E)
    as (<- & [= <- <-] & <-); [by rewrite omap_some|cbn; congruence|cbn; congruence|]. clear E Hm'.
  destruct (rep_sub _ _ id st Hrep) as (_ & Hcore & _); [apply in_or_app; right; by left|].
  pose proof (sc_ok _ Hcore) as Hok. cbn [mbind option_bind].
  rewrite rule_hashes_spec; [|apply Hko|rewrite Hkm; apply Hok]. cbn [st_index_maps st_n_indices set_rules_list].
  change (find_equal (set_rules_list _ st)) with (find_equal st).
  pose proof (find_equal_spec st k Hok Hko Hkm) as Hfe. destruct (find_equal _ _ _) as [l'|].
  2: { destruct Hfe. rewrite Er, keys_app, (keys_cons h l k) by done. apply in_or_app. right. by left. }
  destruct Hfe as (s1 & s2 & h' & hd & next & El & Es & Hk'). pose proof (so_nodup _ Hok) as Hndk. rewrite Er in Es, Hndk.
  destruct (focus_unique (fun e : Z * list cls_match => chain_key (snd e)) r1 r2 s1 s2 (h, l) (h', l') k Es Hndk Hk Hk')
    as (<- & [= <- <-] & <-). cbn [mbind option_bind].
  destruct (remove_from_chain_ok cls l1 l2 id st r1 r2 h l m Hrep Hn Er Hk Hml) as (cls' & subs' & Hrm & Hrep' & Hp).
  cbn zeta in Hrm. fold k in Hrm. rewrite Hrm. cbn [mbind option_bind]. eexists _, subs'. split; [reflexivity|]. by split.
Qed.

End Remove.
