(* ===== verification/ClassifierOps.v ===== *)
(** * Other operations on the classifier

    Initialization, changes of the visibility and of the conjunctions of a rule,
    deferred publication, the configuration of prefix tries, and destruction: each
    returns, and keeps the invariant with the rules that it should. *)

From S2P Require Import Prelude Util Flowmap Hash Miniflow MetaFlow Trie FlowBits Versions Pvector Classifier.
From S2P Require Import Subtable ClassifierInv ClassifierUpdate ClassifierRemove.
From stdpp Require Import prelude list sorting gmap.
From Stdlib Require Import ZArith Lia.
Open Scope Z_scope.
Open Scope ovs_scope.

Section Ops.
Context `{HH : Hash}.

(** ** Initialization and publication *)

Lemma classifier_init_rep (flow_segments : list nat) :
  segments_ok 0 (read_flow_segments CLS_MAX_INDICES flow_segments) ->
  cls_rep (classifier_init_tss flow_segments) [].
Proof.
  intros Hs. split; cbn; try done; try lia; try apply pvector_init_wf; try apply NoDup_nil_2.
  - intros id [x Hx]. by rewrite lookup_empty in Hx.
Qed.

Lemma classifier_defer_rep (cls : classifier) (subs : list (Z * cls_subtable)) :
  cls_rep cls subs -> cls_rep (classifier_defer cls) subs.
Proof. intros []. by split. Qed.

Lemma classifier_publish_rep `{QQ : Qsort} (cls : classifier) (subs : list (Z * cls_subtable)) :
  cls_rep cls subs ->
  cls_rep (classifier_publish cls) subs /\ pv_temp (cls_subtables (classifier_publish cls)) = None.
Proof.
  intros []. destruct (pub_ok true (cls_subtables cls)) as (Hw & Ht & Hp); [done|]. cbn in *. split; [|by apply Ht].
  split; cbn; try done. by rewrite Hp.
Qed.

(** ** Writing to every subtable *)

(** What a write to a subtable may change: its [trie_plen] and the contents of its matches. *)
Record sub_change (g : cls_subtable -> cls_subtable) (st : cls_subtable) : Prop := {
  sg_mask : st_mask (g st) = st_mask st;
  sg_keys : keys (st_rules (g st)) = keys (st_rules st);
  sg_prio : st_max_priority (g st) = st_max_priority st;
  sg_ids : map match_id (st_matches (g st)) = map match_id (st_matches st);
  sg_core : subtable_core (g st);
  sg_max : max_ok (g st)
}.

Definition store_all (g : cls_subtable -> cls_subtable) (l : list (Z * cls_subtable)) (cls : classifier) : classifier :=
  foldl (fun cls e => store (fst e) (g (snd e)) cls) cls l.

Definition sub_map (g : cls_subtable -> cls_subtable) (subs : list (Z * cls_subtable)) : list (Z * cls_subtable) :=
  map (fun e => (fst e, g (snd e))) subs.

Lemma store_all_eq (g : cls_subtable -> cls_subtable) (l : list (Z * cls_subtable)) (cls : classifier) :
  store_all g l cls =
  Classifier (cls_n_rules cls) (cls_flow_segments cls) (cls_subtables_map cls) (cls_subtables cls) (cls_tries cls)
    (cls_n_tries cls) (cls_publish cls) (cls_heap (store_all g l cls)) (cls_next cls).
Proof.
  unfold store_all. revert cls. induction l as [|e l IH]; intros cls; [by destruct cls|].
  cbn [foldl]. rewrite IH at 1. done.
Qed.

Lemma store_all_heap (g : cls_subtable -> cls_subtable) (l : list (Z * cls_subtable)) (cls : classifier) (id : Z) :
  NoDup (map fst l) ->
  (forall st, In (id, st) l -> cls_heap (store_all g l cls) !! id = Some (g st)) /\
  (~ In id (map fst l) -> cls_heap (store_all g l cls) !! id = cls_heap cls !! id).
Proof.
  unfold store_all. revert cls. induction l as [|[i x] l IH]; intros cls Hnd; [done|].
  cbn [map fst] in Hnd. apply NoDup_cons in Hnd as [Hnin Hnd]. rewrite list_elem_of_In in Hnin. cbn [foldl fst snd].
  destruct (IH (store i (g x) cls) Hnd) as [H1 H2]. split.
  - intros st [E|Hin]; [|by apply H1]. injection E as -> ->. rewrite H2 by done. cbn. by rewrite lookup_insert_eq.
  - cbn [map fst]. intros Hn. rewrite H2 by (intros ?; apply Hn; by right). cbn. rewrite lookup_insert_ne; [done|].
    intros ->. apply Hn. by left.
Qed.

Lemma store_all_same_heap (g : cls_subtable -> cls_subtable) (l : list (Z * cls_subtable)) (cls cls' : classifier) :
  cls_heap cls = cls_heap cls' -> cls_heap (store_all g l cls) = cls_heap (store_all g l cls').
Proof.
  unfold store_all. revert cls cls'. induction l as [|e l IH]; intros cls cls' E; [done|].
  cbn [foldl]. apply IH. cbn. by rewrite E.
Qed.

Lemma sub_map_map {A} (f : Z * cls_subtable -> A) (g : cls_subtable -> cls_subtable) (subs : list (Z * cls_subtable)) :
  (forall e, In e subs -> f (fst e, g (snd e)) = f e) -> map f (sub_map g subs) = map f subs.
Proof. intros H. unfold sub_map. rewrite map_map. by apply map_ext_in. Qed.

Lemma sub_map_Forall (P : Z * cls_subtable -> Prop) (g : cls_subtable -> cls_subtable) (subs : list (Z * cls_subtable)) :
  (forall e, In e subs -> P (fst e, g (snd e))) -> Forall P (sub_map g subs).
Proof. intros H. apply Forall_map, Forall_forall. intros e He. by apply H, list_elem_of_In. Qed.

(** The matches by address. *)
Lemma all_ids_sub_map (g : cls_subtable -> cls_subtable) (subs : list (Z * cls_subtable)) :
  (forall e, In e subs -> sub_change g (snd e)) ->
  map match_id (all_matches (sub_map g subs)) = map match_id (all_matches subs) /\
  all_keys (sub_map g subs) = all_keys subs.
Proof.
  intros Hg. unfold all_matches, all_keys. rewrite !concat_map. unfold sub_map. rewrite !map_map. cbn [snd].
  split; f_equal; apply map_ext_in; intros e He; apply (Hg e He).
Qed.

(** The state without any use of the tries. *)
Lemma rep_no_tries (cls : classifier) (subs : list (Z * cls_subtable)) (n : nat) :
  cls_rep cls subs -> (n <= cls_n_tries cls)%nat -> cls_rep (set_tries (cls_tries cls) n cls) subs.
Proof. intros [] Hn. split; cbn; try done; [lia|]. intros i t Hi. apply cp_tries. lia. Qed.

Lemma store_all_rep (g : cls_subtable -> cls_subtable) (cls : classifier) (subs : list (Z * cls_subtable)) :
  cls_rep cls subs -> (forall e, In e subs -> sub_change g (snd e)) ->
  (forall i t mf, (i < cls_n_tries cls)%nat -> cls_tries cls !! i = Some t -> ct_field t = Some mf ->
     forall e, In e subs -> nth i (st_trie_plen (g (snd e))) 0%nat = nth i (st_trie_plen (snd e)) 0%nat) ->
  cls_rep (store_all g subs cls) (sub_map g subs).
Proof.
  intros Hrep Hg Hpl. destruct (all_ids_sub_map g subs Hg) as [Eids Ekeys]. rewrite store_all_eq.
  pose proof (fun id => store_all_heap g subs cls id (cp_ids _ _ Hrep)) as Hheap.
  assert (length (all_matches (sub_map g subs)) = length (all_matches subs)) as Elen
    by (apply (f_equal length) in Eids; by rewrite !length_map in Eids).
  destruct Hrep as [Hsegs Hmap Hh Hid Hms Hsubs Hfr Hpw Hpub Hpv Hnt Hlen Htr Hru Hct].
  split; cbn; try done.
  - rewrite Hmap. symmetry. apply sub_map_map. intros e He. cbn. by rewrite (sg_mask _ _ (Hg e He)).
  - apply sub_map_Forall. intros [id st] He. cbn. by apply Hheap.
  - by rewrite (sub_map_map fst).
  - rewrite (sub_map_map (fun e => st_mask (snd e))); [done|]. intros e He. apply (Hg e He).
  - apply sub_map_Forall. intros e He. cbn. destruct (Hg e He). done.
  - intros id Hs. destruct (in_dec Z.eq_dec id (map fst subs)) as [Hin|Hnin].
    + apply in_map_iff in Hin as ([i x] & <- & Hin). apply Hfr. rewrite Forall_forall in Hh.
      exists x. apply (Hh (i, x)). by apply list_elem_of_In.
    + apply Hfr. by rewrite <- (proj2 (Hheap id) Hnin).
  - rewrite Hpv. rewrite (sub_map_map (fun e => PvectorEntry (st_max_priority (snd e)) (fst e))); [done|].
    intros e He. cbn. by rewrite (sg_prio _ _ (Hg e He)).
  - intros i t Hi Ht. destruct (Htr i t Hi Ht) as (mf & Hok & Hc & Hp). exists mf. split_and!; [done|by rewrite Ekeys|].
    apply sub_map_Forall. intros e He. cbn. rewrite (sg_mask _ _ (Hg e He)), (Hpl i t mf Hi Ht (to_field _ _ Hok) e He).
    rewrite Forall_forall in Hp. by apply Hp, list_elem_of_In.
  - by rewrite Eids.
  - by rewrite Elen.
Qed.

(** ** Writing through [rule->cls_match] *)

(** A write that keeps what the lookup structures depend on. *)
Definition keeps (f : cls_match -> cls_match) : Prop :=
  forall m, cm_rule (f m) = cm_rule m /\ cm_priority (f m) = cm_priority m /\ cm_flow (f m) = cm_flow m /\
    (match_ok m -> match_ok (f m)).

Definition upd_match (rule : cls_rule) (f : cls_match -> cls_match) (m : cls_match) : cls_match :=
  if same_rule rule m then f m else m.

Definition upd_sub (rule : cls_rule) (f : cls_match -> cls_match) (st : cls_subtable) : cls_subtable :=
  set_rules (map (fun c : Z * list cls_match => (fst c, map (upd_match rule f) (snd c))) (st_rules st)) st.

Lemma upd_match_keeps (rule : cls_rule) (f : cls_match -> cls_match) : keeps f -> keeps (upd_match rule f).
Proof. intros Hf m. unfold upd_match. destruct (same_rule rule m); [apply Hf|by split_and!]. Qed.

Lemma map_rules_matches (g : cls_match -> cls_match) (rules : list (Z * list cls_match)) :
  rules_matches (map (fun c : Z * list cls_match => (fst c, map g (snd c))) rules) = map g (rules_matches rules).
Proof. unfold rules_matches. by rewrite concat_map, !map_map. Qed.

Lemma map_chain_key (g : cls_match -> cls_match) (l : list cls_match) :
  keeps g -> chain_key (map g l) = chain_key l.
Proof. intros Hg. destruct l as [|m l]; [done|]. cbn. by destruct (Hg m) as [-> _]. Qed.

Lemma chain_sorted_map (g : cls_match -> cls_match) (l : list cls_match) :
  keeps g -> chain_sorted l -> chain_sorted (map g l).
Proof.
  intros Hg Hs. induction Hs as [|x l Hl IH Hx]; [constructor|]. cbn [map]. constructor; [done|].
  apply Forall_map. eapply Forall_impl; [exact Hx|]. intros y Hy. cbn.
  destruct (Hg x) as (_ & -> & _), (Hg y) as (_ & -> & _). done.
Qed.

Lemma upd_sub_change (rule : cls_rule) (f : cls_match -> cls_match) (st : cls_subtable) :
  keeps f -> subtable_core st -> max_ok st -> sub_change (upd_sub rule f) st.
Proof.
  intros Hf [Hok Hs Hm Hl Hp] [Hle Hpos Hcnt]. pose proof (upd_match_keeps rule f Hf) as Hg. set (g := upd_match rule f) in *.
  assert (st_matches (upd_sub rule f st) = map g (st_matches st)) as Em by apply map_rules_matches.
  assert (keys (st_rules (upd_sub rule f st)) = keys (st_rules st)) as Ek.
  { unfold keys, upd_sub. cbn [st_rules set_rules]. fold g.
    generalize (st_rules st) as r. induction r as [|[h l] r IH]; [done|]. cbn.
    rewrite map_chain_key by done. destruct (chain_key l); [f_equal|]; exact IH. }
  split; try done.
  - rewrite Em, map_map. apply map_ext. intros m. unfold match_id. by destruct (Hg m) as [-> _].
  - split; [|..|done].
    + eapply (subtable_ok_chain st); [done..|]. apply Forall_map. eapply Forall_impl; [apply Hok|].
      intros [h l] (k & Hk & ? & ? & ? & Hall). exists k. cbn [fst snd] in *. fold g. rewrite map_chain_key by done. split_and!; try done.
      apply Forall_map. eapply Forall_impl; [exact Hall|]. intros m [? ?]. cbn. by destruct (Hg m) as (-> & _ & -> & _).
    + apply Forall_map. eapply Forall_impl; [exact Hs|]. intros [h l] Hc. cbn. by apply chain_sorted_map.
    + rewrite Em. apply Forall_map. eapply Forall_impl; [exact Hm|]. intros m Hmo. cbn. by apply Hg.
    + rewrite Em, map_map. rewrite (map_ext _ cm_rule); [done|]. intros m. apply (Hg m).
  - split; [|done|].
    + rewrite Em. apply Forall_map. eapply Forall_impl; [exact Hle|]. intros m Hle'. cbn. by destruct (Hg m) as (_ & -> & _).
    + rewrite Em. change (st_max_count (upd_sub rule f st)) with (st_max_count st).
      change (st_max_priority (upd_sub rule f st)) with (st_max_priority st).
      etransitivity; [exact Hcnt|]. apply inj_le, Nat.eq_le_incl. generalize (st_matches st) as ms.
      induction ms as [|m ms IH]; [done|]. cbn [map]. rewrite !filter_length_cons. destruct (Hg m) as (_ & -> & _). by rewrite IH.
Qed.

Lemma update_cls_match_rep (cls : classifier) (subs : list (Z * cls_subtable)) (rule : cls_rule) (f : cls_match -> cls_match) :
  keeps f -> cls_rep cls subs ->
  exists subs', cls_rep (update_cls_match cls rule f) subs' /\ all_matches subs' = map (upd_match rule f) (all_matches subs).
Proof.
  intros Hf Hrep. exists (sub_map (upd_sub rule f) subs). split.
  - unfold update_cls_match. rewrite (subtables_of_rep cls subs) by done.
    apply (store_all_rep (upd_sub rule f)); [done| |done]. intros [id st] He.
    destruct (rep_sub _ _ _ _ Hrep He) as (_ & Hc & Hm). by apply upd_sub_change.
  - unfold all_matches, sub_map. rewrite concat_map, !map_map. f_equal. apply map_ext. intros e. apply map_rules_matches.
Qed.

(** With the rule of a match of the classifier. *)
Lemma upd_match_perm (ms rest : list cls_match) (m : cls_match) (f : cls_match -> cls_match) :
  NoDup (map match_id ms) -> Permutation ms (m :: rest) ->
  Permutation (map (upd_match (cm_rule m) f) ms) (f m :: rest).
Proof.
  intros Hnd Hp. rewrite Hp in Hnd |- *. cbn [map] in *. apply NoDup_cons in Hnd as [Hnin _].
  unfold upd_match at 1, same_rule. rewrite Z.eqb_refl. apply perm_skip.
  rewrite (map_ext_in _ id); [by rewrite map_id|]. intros x Hx. unfold upd_match, same_rule.
  destruct (Z.eqb_spec (cr_id (cm_rule x)) (cr_id (cm_rule m))) as [E|]; [|done].
  destruct Hnin. change (match_id m) with (cr_id (cm_rule m)). rewrite <- E. by apply list_elem_of_In, (in_map match_id).
Qed.

(** One match of the classifier becomes [f m]. *)
Definition updated (m : cls_match) (f : cls_match -> cls_match) (cls : classifier) (before : list cls_match) : Prop :=
  exists subs' rest, cls_rep cls subs' /\ Permutation before (m :: rest) /\ Permutation (all_matches subs') (f m :: rest).

Lemma update_in_rep (cls : classifier) (subs : list (Z * cls_subtable)) (m : cls_match) (f : cls_match -> cls_match) :
  keeps f -> cls_rep cls subs -> In m (all_matches subs) ->
  updated m f (update_cls_match cls (cm_rule m) f) (all_matches subs).
Proof.
  intros Hf Hrep Hin. destruct (update_cls_match_rep cls subs (cm_rule m) f Hf Hrep) as (subs' & Hr' & E).
  pose proof (cp_rules _ _ Hrep) as Hnd. pose proof (filter_out_perm match_id m _ Hnd Hin) as Hp.
  eexists subs', _. split_and!; [done|exact Hp|]. rewrite E. by apply upd_match_perm.
Qed.

Lemma set_remove_version_keeps (v : Z) : keeps (fun m => cls_match_set_remove_version m v).
Proof. intros m. by split_and!. Qed.

Lemma set_conj_set_keeps (conj : list cls_conjunction) : keeps (set_conj_set conj).
Proof.
  intros m. unfold set_conj_set. case_bool_decide; [|by split_and!]. split_and!; try done.
  intros (? & ? & _). split_and!; try done. cbn. intros s Hs. unfold cls_conjunction_set_alloc in Hs.
  destruct conj; [done|]. by injection Hs as <-.
Qed.

Lemma make_invisible_ok (cls : classifier) (subs : list (Z * cls_subtable)) (m : cls_match) (v : Z) :
  cls_rep cls subs -> In m (all_matches subs) -> add_version (cm_versions m) <= v ->
  exists cls', cls_rule_make_invisible_in_version cls (cm_rule m) v = Some cls' /\
    updated m (fun m => cls_match_set_remove_version m v) cls' (all_matches subs).
Proof.
  intros Hrep Hin Hv. unfold cls_rule_make_invisible_in_version. rewrite (get_cls_match_in cls subs) by done.
  cbn [mbind option_bind]. destruct (Z.leb_spec (add_version (cm_versions m)) v); [|lia].
  eexists. split; [done|]. apply update_in_rep; [apply set_remove_version_keeps|done..].
Qed.

Lemma restore_visibility_ok (cls : classifier) (subs : list (Z * cls_subtable)) (m : cls_match) :
  cls_rep cls subs -> In m (all_matches subs) ->
  exists cls', cls_rule_restore_visibility cls (cm_rule m) = Some cls' /\
    updated m (fun m => cls_match_set_remove_version m OVS_VERSION_NOT_REMOVED) cls' (all_matches subs).
Proof.
  intros Hrep Hin. unfold cls_rule_restore_visibility. rewrite (get_cls_match_in cls subs) by done.
  eexists. split; [done|]. apply update_in_rep; [apply set_remove_version_keeps|done..].
Qed.

Lemma set_conjunctions_ok (cls : classifier) (subs : list (Z * cls_subtable)) (m : cls_match) (conj : list cls_conjunction) :
  cls_rep cls subs -> In m (all_matches subs) ->
  exists cls', cls_rule_set_conjunctions cls (cm_rule m) conj = Some cls' /\
    updated m (set_conj_set conj) cls' (all_matches subs).
Proof.
  intros Hrep Hin. unfold cls_rule_set_conjunctions. rewrite (get_cls_match_in cls subs) by done.
  eexists. split; [done|]. apply update_in_rep; [apply set_conj_set_keeps|done..].
Qed.

(** ** A new prefix trie *)

Definition set_plen (idx : nat) (field : mf_field) (st : cls_subtable) : cls_subtable :=
  set_trie_plen (<[idx := minimask_get_prefix_len (st_mask st) field]> (st_trie_plen st)) st.

Lemma set_plen_change (idx : nat) (field : mf_field) (st : cls_subtable) :
  subtable_core st -> max_ok st -> sub_change (set_plen idx field) st.
Proof.
  intros [Hok Hs Hm Hl Hp] [Hle Hpos Hcnt]. split; try done. split; try done.
  - eapply (subtable_ok_chain st); try done. apply Hok.
  - unfold set_plen. cbn. by rewrite length_insert.
Qed.

(** The trie that [trie_init] fills. *)
Definition insert_sub (field : mf_field) (t : cls_trie) (e : Z * cls_subtable) : cls_trie :=
  let plen := minimask_get_prefix_len (st_mask (snd e)) field in
  if (plen =? 0)%nat then t else trie_insert_heads t plen (st_rules (snd e)).

Lemma trie_init_fold (idx : nat) (field : mf_field) (subs : list (Z * cls_subtable)) (t : cls_trie) (cls : classifier) :
  foldl (trie_init_step idx field) (t, cls) subs =
  (foldl (insert_sub field) t subs, store_all (set_plen idx field) subs cls).
Proof.
  revert t cls. induction subs as [|[id st] subs IH]; intros t cls; [done|]. cbn [foldl]. unfold trie_init_step at 2. by rewrite IH.
Qed.

Lemma insert_heads_ok (st : cls_subtable) (mf : mf_field) (rules : list (Z * list cls_match)) (t : cls_trie) (ks : list minimatch) :
  let plen := minimask_get_prefix_len (st_mask st) mf in
  Forall (chain_ok (st_mask st) (st_index_maps st) (st_n_indices st)) rules -> plen <> 0%nat ->
  trie_ok t mf -> trie_counts t mf ks ->
  trie_ok (trie_insert_heads t plen rules) mf /\ trie_counts (trie_insert_heads t plen rules) mf (keys rules ++ ks).
Proof.
  intros plen Hc Hp. revert t ks. induction Hc as [|[h l] rules (k & Hk & [Hkw _] & Hkm & _) Hc IH]; intros t ks Ht Hcnt; [done|].
  rewrite (keys_cons h l k) by done. unfold trie_insert_heads. cbn [foldl snd] in *. destruct l as [|m l]; [done|].
  cbn in Hk. injection Hk as <-.
  destruct (trie_insert_ok t mf (cr_match (cm_rule m)) ks Ht Hcnt Hkw) as [Ht' Hc']; [by rewrite Hkm|].
  rewrite Hkm in Ht', Hc'. fold plen in Ht', Hc'. destruct (IH _ _ Ht' Hc') as [H1 H2]. split; [exact H1|].
  apply (trie_counts_perm _ _ (keys rules ++ cr_match (cm_rule m) :: ks)); [|exact H2].
  cbn [app]. by rewrite <- Permutation_middle.
Qed.

Lemma no_prefix_keys (t : cls_trie) (mf : mf_field) (st : cls_subtable) (ks : list minimatch) :
  subtable_ok st -> minimask_get_prefix_len (st_mask st) mf = 0%nat -> trie_counts t mf ks ->
  trie_counts t mf (keys (st_rules st) ++ ks).
Proof.
  intros Hok Hp Hc. assert (forall k, In k (keys (st_rules st)) -> mm_mask k = st_mask st) as Hm by (intros k Hk; by apply keys_ok).
  induction (keys (st_rules st)) as [|k l IH]; [done|]. cbn [app]. apply trie_counts_no_prefix.
  - rewrite (Hm k); [done|by left].
  - apply IH. intros x Hx. apply Hm. by right.
Qed.

Lemma insert_subs_ok (field : mf_field) (subs : list (Z * cls_subtable)) (t : cls_trie) (ks : list minimatch) :
  Forall (fun e => subtable_ok (snd e)) subs -> trie_ok t field -> trie_counts t field ks ->
  trie_ok (foldl (insert_sub field) t subs) field /\
  trie_counts (foldl (insert_sub field) t subs) field (ks ++ all_keys subs).
Proof.
  intros Hs. revert t ks. induction Hs as [|[id st] subs Hst Hs IH]; intros t ks Ht Hc; [cbn; by rewrite app_nil_r|].
  cbn [foldl]. change (all_keys ((id, st) :: subs)) with (keys (st_rules st) ++ all_keys subs). cbn [snd] in Hst.
  assert (trie_ok (insert_sub field t (id, st)) field /\
          trie_counts (insert_sub field t (id, st)) field (keys (st_rules st) ++ ks)) as [Ht' Hc'].
  { unfold insert_sub. cbn [snd]. destruct (Nat.eqb_spec (minimask_get_prefix_len (st_mask st) field) 0) as [E|E].
    - split; [done|]. by apply no_prefix_keys.
    - apply insert_heads_ok; [apply Hst|done..]. }
  destruct (IH _ _ Ht' Hc') as [H1 H2]. split; [exact H1|].
  eapply trie_counts_perm; [|exact H2]. rewrite !app_assoc. apply Permutation_app_tail, Permutation_app_comm.
Qed.

Definition init_trie (field : mf_field) (subs : list (Z * cls_subtable)) : cls_trie :=
  foldl (insert_sub field) (ClsTrie (Some field) TNull) subs.

Lemma init_trie_ok (field : mf_field) (subs : list (Z * cls_subtable)) :
  field_ok field -> Forall (fun e => subtable_ok (snd e)) subs ->
  trie_ok (init_trie field subs) field /\ trie_counts (init_trie field subs) field (all_keys subs).
Proof.
  intros Hf Hs. apply (insert_subs_ok field subs _ []); [done| |by intros b].
  split; [done|done|done|cbn; lia].
Qed.

(** Trie [i] indexes the field [mf] of all rules. *)
Definition trie_rep (cls : classifier) (subs : list (Z * cls_subtable)) (i : nat) (mf : mf_field) : Prop :=
  exists t, cls_tries cls !! i = Some t /\ trie_ok t mf /\ trie_counts t mf (all_keys subs) /\
    Forall (fun e => nth i (st_trie_plen (snd e)) 0%nat = minimask_get_prefix_len (st_mask (snd e)) mf) subs.

(** The invariant without the tries. *)
Definition base_rep (cls : classifier) (subs : list (Z * cls_subtable)) : Prop :=
  cls_rep (set_tries (cls_tries cls) 0 cls) subs.

Lemma base_rep_tries (cls : classifier) (subs : list (Z * cls_subtable)) (tries : list cls_trie) (n : nat) :
  base_rep cls subs -> length tries = CLS_MAX_TRIES -> (n <= CLS_MAX_TRIES)%nat ->
  (forall i, (i < n)%nat -> exists mf, trie_rep (set_tries tries n cls) subs i mf) ->
  cls_rep (set_tries tries n cls) subs.
Proof.
  intros [] Hl Hn Ht. split; cbn in *; try done. intros i t Hi Hti. destruct (Ht i Hi) as (mf & t' & Hti' & H). cbn in Hti'.
  assert (t' = t) as -> by congruence. by exists mf.
Qed.

Lemma rep_trie_rep (cls : classifier) (subs : list (Z * cls_subtable)) (i : nat) :
  cls_rep cls subs -> (i < cls_n_tries cls)%nat ->
  exists mf, trie_rep cls subs i mf /\ ct_field (nth i (cls_tries cls) (ClsTrie None TNull)) = Some mf.
Proof.
  intros Hrep Hi. destruct (cls_tries cls !! i) as [t|] eqn:E.
  - destruct (cp_tries _ _ Hrep i t Hi E) as (mf & Hok & Hc & Hp). exists mf. split; [by exists t|].
    rewrite (nth_lookup_Some _ _ _ _ E). apply Hok.
  - apply lookup_ge_None in E. pose proof (cp_length _ _ Hrep). pose proof (cp_n_tries _ _ Hrep). lia.
Qed.

Lemma set_up_trie_ok (cls : classifier) (subs : list (Z * cls_subtable)) (i : nat) (field : mf_field) :
  base_rep cls subs -> (i < CLS_MAX_TRIES)%nat -> field_ok field ->
  exists cls' subs', set_up_trie (Some cls) (i, Some field) = Some cls' /\ base_rep cls' subs' /\
    all_matches subs' = all_matches subs /\ cls_n_tries cls' = cls_n_tries cls /\ trie_rep cls' subs' i field /\
    (forall j mf, j <> i -> trie_rep cls subs j mf -> trie_rep cls' subs' j mf).
Proof.
  intros Hrep Hi Hf. unfold set_up_trie, trie_init. cbn [mbind option_bind snd fst].
  set (cls1 := set_tries (alter trie_destroy i (cls_tries cls)) (cls_n_tries cls) cls).
  pose proof (cp_length _ _ Hrep) as Hlen. cbn [cls_tries set_tries] in Hlen.
  destruct (cls_tries cls !! i) as [t0|] eqn:Et; [|apply lookup_ge_None in Et; lia].
  rewrite (nth_lookup_Some _ i _ (trie_destroy t0)) by (cbn [cls1 cls_tries set_tries]; by rewrite list_lookup_alter_eq, Et).
  cbn [trie_destroy ct_field].
  assert (subtables_of cls1 = subs) as -> by (apply subtables_of_rep in Hrep; exact Hrep).
  rewrite trie_init_fold. fold (init_trie field subs). set (g := set_plen i field).
  assert (forall e, In e subs -> sub_change g (snd e)) as Hg.
  { intros [id st] He. destruct (rep_sub _ _ _ _ Hrep He) as (_ & Hc & Hm). by apply set_plen_change. }
  destruct (all_ids_sub_map g subs Hg) as [_ Ek].
  assert (Forall (fun e => subtable_ok (snd e)) subs) as Hoks.
  { eapply Forall_impl; [apply (cp_subs _ _ Hrep)|]. intros e [Hc _]. apply Hc. }
  destruct (init_trie_ok field subs Hf Hoks) as [Hok Hcnt].
  eexists _, (sub_map g subs). split; [reflexivity|].
  pose proof (store_all_rep g _ subs Hrep Hg ltac:(cbn; lia)) as Hst. split_and!.
  - rewrite store_all_eq in Hst. rewrite (store_all_same_heap g subs _ cls1) in Hst by done.
    destruct Hst. rewrite store_all_eq. split; cbn in *; try done.
    + by rewrite length_insert, length_alter.
    + lia.
  - unfold all_matches, sub_map. by rewrite map_map.
  - by rewrite store_all_eq.
  - exists (init_trie field subs). split_and!; [|done|by rewrite Ek|].
    + rewrite store_all_eq. cbn. apply list_lookup_insert_eq. rewrite length_alter. lia.
    + apply sub_map_Forall. intros e He. cbn. destruct (Hg e He) as [_ _ _ _ [_ _ _ _ Hpl] _]. cbn in Hpl.
      rewrite length_insert in Hpl. apply nth_lookup_Some. apply list_lookup_insert_eq. lia.
  - intros j mf Hj (t & Htj & Htok & Htc & Htp). exists t. split_and!; [|done|by rewrite Ek|].
    + rewrite store_all_eq. cbn. by rewrite list_lookup_insert_ne, list_lookup_alter_ne by done.
    + apply sub_map_Forall. intros e He. cbn. rewrite Forall_forall in Htp.
      rewrite <- (Htp e) by (by apply list_elem_of_In). rewrite !nth_lookup. by rewrite list_lookup_insert_ne.
Qed.

(** The tries of a list of positions; [None] leaves a position alone. *)
Lemma set_up_tries_ok (l : list (nat * option mf_field)) (cls : classifier) (subs : list (Z * cls_subtable)) :
  base_rep cls subs -> NoDup (map fst l) ->
  (forall i o, In (i, o) l -> (i < CLS_MAX_TRIES)%nat /\ forall f, o = Some f -> field_ok f) ->
  exists cls' subs', foldl set_up_trie (Some cls) l = Some cls' /\ base_rep cls' subs' /\
    all_matches subs' = all_matches subs /\ cls_n_tries cls' = cls_n_tries cls /\
    (forall i f, In (i, Some f) l -> trie_rep cls' subs' i f) /\
    (forall j mf, (forall f, ~ In (j, Some f) l) -> trie_rep cls subs j mf -> trie_rep cls' subs' j mf).
Proof.
  revert cls subs. induction l as [|[i o] l IH]; intros cls subs Hrep Hnd Hl; [by exists cls, subs|].
  cbn [map fst] in Hnd. apply NoDup_cons in Hnd as [Hnin Hnd]. rewrite list_elem_of_In in Hnin. cbn [foldl].
  destruct (Hl i o) as [Hi Ho]; [by left|].
  assert (forall i' o', In (i', o') l -> (i' < CLS_MAX_TRIES)%nat /\ forall f, o' = Some f -> field_ok f) as Hl'
    by (intros; apply Hl; by right).
  destruct o as [f|].
  - destruct (set_up_trie_ok cls subs i f Hrep Hi (Ho f eq_refl)) as (cls1 & subs1 & -> & Hrep1 & Em1 & En1 & Hti & Hoth).
    destruct (IH cls1 subs1 Hrep1 Hnd Hl') as (cls2 & subs2 & E & Hrep2 & Em2 & En2 & Hin & Hout).
    exists cls2, subs2. split_and!; [done|done|congruence|congruence| |].
    + intros i' f' [[= <- <-]|Hin']; [|by apply Hin]. apply Hout; [|done].
      intros f' Hf'. apply Hnin. by apply (in_map fst) in Hf'.
    + intros j mf Hj Htr. apply Hout; [intros f' Hf'; apply (Hj f'); by right|].
      apply Hoth; [|done]. intros ->. apply (Hj f). by left.
  - change (set_up_trie (Some cls) (i, None)) with (Some cls).
    destruct (IH cls subs Hrep Hnd Hl') as (cls2 & subs2 & E & Hrep2 & Em2 & En2 & Hin & Hout).
    exists cls2, subs2. split_and!; [done..| |].
    + intros i' f' [[=]|Hin']. by apply Hin.
    + intros j mf Hj Htr. apply Hout; [|done]. intros f' Hf'. apply (Hj f'). by right.
Qed.

(** ** [classifier_set_prefix_fields] *)

Section PrefixFields.
Variable mf_from_id : Z -> mf_field.

(** The field can be used in a trie. *)
Definition usable (id : Z) : bool :=
  bool_decide (mff_flow_be32ofs (mf_from_id id) <> None) && (mff_n_bits (mf_from_id id) mod 32 =? 0)%nat.

(** The fields that a configuration asks for: the first usable ones, each once. *)
Definition select_field (sel : list Z) (id : Z) : list Z :=
  if (length sel <? CLS_MAX_TRIES)%nat && usable id && bool_decide (id ∉ sel) then sel ++ [id] else sel.

Definition selected (ids : list Z) : list Z := foldl select_field [] ids.

(** What the first loop has found. *)
Record step_inv (cls : classifier) (st : list (option mf_field) * list Z * option nat) (sel : list Z) : Prop := {
  si_length : length (fst (fst st)) = length sel;
  si_max : (length sel <= CLS_MAX_TRIES)%nat;
  si_seen : forall id, id ∈ snd (fst st) <-> id ∈ sel;
  si_usable : Forall (fun id => usable id = true) sel;
  si_field : forall i id, sel !! i = Some id ->
    match fst (fst st) !! i with
    | Some (Some f) => f = mf_from_id id /\
        ((cls_n_tries cls <= i)%nat \/ ct_field (nth i (cls_tries cls) (ClsTrie None TNull)) <> Some f)
    | _ => (i < cls_n_tries cls)%nat /\ ct_field (nth i (cls_tries cls) (ClsTrie None TNull)) = Some (mf_from_id id)
    end;
  si_changed : match snd st with
    | Some c => (c < length sel)%nat /\ (exists f, fst (fst st) !! c = Some (Some f)) /\
        forall i, (i < c)%nat -> fst (fst st) !! i = Some None
    | None => forall i f, fst (fst st) !! i <> Some (Some f)
    end
}.

Lemma prefix_field_step_ok (cls : classifier) (st : list (option mf_field) * list Z * option nat) (sel : list Z) (id : Z) :
  step_inv cls st sel -> step_inv cls (prefix_field_step cls mf_from_id st id) (select_field sel id).
Proof.
  intros Hinv. pose proof Hinv as [Hlen Hmax Hseen Hus Hf Hch]. destruct st as [[nf seen] changed]. cbn [fst snd] in *.
  unfold prefix_field_step, select_field, usable. rewrite Hlen.
  destruct (Nat.ltb_spec (length sel) CLS_MAX_TRIES) as [Hlt|]; cbn [negb andb]; [|done].
  destruct (bool_decide (mff_flow_be32ofs (mf_from_id id) = None)) eqn:Eb.
  { apply bool_decide_eq_true_1 in Eb. by rewrite (bool_decide_false (mff_flow_be32ofs _ <> _)) by (intros Hn; by apply Hn). }
  apply bool_decide_eq_false_1 in Eb. rewrite (bool_decide_true (mff_flow_be32ofs _ <> _)) by done. cbn [orb andb].
  destruct (_ mod 32 =? 0)%nat eqn:Em; cbn [negb andb]; [|done].
  destruct (decide (id ∈ sel)) as [Hin|Hnin].
  { rewrite (bool_decide_true (id ∈ seen)) by (by apply Hseen).
    by rewrite (bool_decide_false (id ∉ sel)) by (intros Hn; by apply Hn). }
  rewrite (bool_decide_false (id ∈ seen)) by (by rewrite Hseen). rewrite (bool_decide_true (id ∉ sel)) by done.
  assert (Forall (fun id => usable id = true) (sel ++ [id])) as Hus'.
  { apply Forall_app. split; [done|]. constructor; [|done]. unfold usable. rewrite bool_decide_true by done. by rewrite Em. }
  assert (forall i x, (sel ++ [id]) !! i = Some x -> (sel !! i = Some x /\ (i < length sel)%nat) \/ (i = length sel /\ x = id)) as Hsnoc.
  { intros i x [Hi|[Hi Hx]]%lookup_app_Some; [left; split; [done|by eapply lookup_lt_Some]|].
    apply list_lookup_singleton_Some in Hx as [? ->]. right. split; [lia|done]. }
  assert (nf !! length sel = None) as Hnone by (apply lookup_ge_None; lia).
  destruct (_ || _) eqn:Et.
  - split; cbn [fst snd]; [rewrite !length_app, Hlen; done|rewrite length_app; cbn; lia| |done| |].
    + intros x. rewrite elem_of_cons, elem_of_app, list_elem_of_singleton, Hseen. tauto.
    + intros i x [[Hx Hi]|[-> ->]]%Hsnoc; [rewrite lookup_app_l by lia; by apply Hf|].
      rewrite list_lookup_middle by done. split; [done|]. apply orb_prop in Et as [Et%Nat.leb_le|Et%bool_decide_eq_true_1]; tauto.
    + destruct changed as [c|]; cbn.
      * destruct Hch as (Hc & (f & Hfc) & Hlow). split_and!; [rewrite length_app; cbn; lia| |].
        -- exists f. by rewrite lookup_app_l by lia.
        -- intros i Hi. rewrite lookup_app_l by lia. by apply Hlow.
      * split_and!; [rewrite length_app; cbn; lia|exists (mf_from_id id); by apply list_lookup_middle|].
        intros i Hi. rewrite lookup_app_l by lia. destruct (nf !! i) as [[f|]|] eqn:E; [by apply Hch in E|done|].
        apply lookup_ge_None in E. lia.
  - apply orb_false_iff in Et as [Et1%Nat.leb_gt Et2%bool_decide_eq_false_1].
    split; cbn [fst snd]; [rewrite !length_app, Hlen; done|rewrite length_app; cbn; lia| |done| |].
    + intros x. rewrite elem_of_cons, elem_of_app, list_elem_of_singleton, Hseen. tauto.
    + intros i x [[Hx Hi]|[-> ->]]%Hsnoc; [rewrite lookup_app_l by lia; by apply Hf|].
      rewrite list_lookup_middle by done. split; [done|]. by destruct (decide (ct_field (nth (length sel) (cls_tries cls) (ClsTrie None TNull)) = Some (mf_from_id id))).
    + destruct changed as [c|].
      * destruct Hch as (Hc & (f & Hfc) & Hlow). split_and!; [rewrite length_app; cbn; lia| |].
        -- exists f. by rewrite lookup_app_l by lia.
        -- intros i Hi. rewrite lookup_app_l by lia. by apply Hlow.
      * intros i f [Hi|[Hi Hx]]%lookup_app_Some; [by apply Hch in Hi|]. by apply list_lookup_singleton_Some in Hx as [_ ?].
Qed.

Lemma prefix_fields_ok (cls : classifier) (ids : list Z) :
  step_inv cls (foldl (prefix_field_step cls mf_from_id) ([], [], None) ids) (selected ids).
Proof.
  unfold selected.
  assert (forall st sel, step_inv cls st sel ->
    step_inv cls (foldl (prefix_field_step cls mf_from_id) st ids) (foldl select_field sel ids)) as H.
  { induction ids as [|id ids IH]; intros st sel Hinv; [done|]. cbn [foldl]. by apply IH, prefix_field_step_ok. }
  apply H. split; cbn; try done. lia.
Qed.

Definition trie_fields (cls : classifier) : list (option mf_field) := map ct_field (firstn (cls_n_tries cls) (cls_tries cls)).

Lemma destroy_tries_lookup (a b : nat) (tries : list cls_trie) :
  length (destroy_tries a b tries) = length tries /\
  forall i, (i < a)%nat -> destroy_tries a b tries !! i = tries !! i.
Proof.
  unfold destroy_tries. assert (forall l tries, (forall k, In k l -> (a <= k)%nat) ->
    length (foldl (fun tries k => alter trie_destroy k tries) tries l) = length tries /\
    forall i, (i < a)%nat -> foldl (fun tries k => alter trie_destroy k tries) tries l !! i = tries !! i) as H.
  { induction l as [|k l IH]; intros ts Hl; [done|]. cbn [foldl].
    destruct (IH (alter trie_destroy k ts)) as [H1 H2]; [intros; apply Hl; by right|]. split; [by rewrite H1, length_alter|].
    intros i Hi. rewrite H2 by done. apply list_lookup_alter_ne. specialize (Hl k ltac:(by left)). lia. }
  apply H. intros k Hk%in_seq. lia.
Qed.

(** The positions that the second loop visits. *)
Lemma new_fields_in (nf : list (option mf_field)) (fc i : nat) (o : option mf_field) :
  In (i, o) (skipn fc (List.combine (seq 0 (length nf)) nf)) <-> (fc <= i)%nat /\ nf !! i = Some o.
Proof.
  rewrite <- list_elem_of_In, list_elem_of_lookup. rewrite combine_zip. split.
  - intros (j & Hj). rewrite lookup_drop in Hj. apply lookup_zip_Some in Hj as [H1 H2]. apply lookup_seq in H1 as [-> _].
    split; [lia|done].
  - intros [Hi Ho]. exists (i - fc)%nat. rewrite lookup_drop. apply lookup_zip_Some.
    replace (fc + (i - fc))%nat with i by lia. split; [|done]. apply lookup_seq. split; [lia|by eapply lookup_lt_Some].
Qed.

Lemma new_fields_nodup (nf : list (option mf_field)) (fc : nat) :
  NoDup (map fst (skipn fc (List.combine (seq 0 (length nf)) nf))).
Proof.
  rewrite combine_zip, <- skipn_map. change (map fst) with (fmap (M := list) (@fst nat (option mf_field))).
  rewrite fst_zip by (rewrite length_seq; lia). eapply sublist_NoDup; [apply NoDup_seq|apply sublist_drop].
Qed.

Hypothesis Hfields : forall id, usable id = true -> field_ok (mf_from_id id).

(** The tries of the new configuration. *)
Lemma new_tries_ok (cls : classifier) (subs : list (Z * cls_subtable)) (nf : list (option mf_field)) (seen sel : list Z)
    (changed : option nat) (m : nat) :
  cls_rep cls subs -> step_inv cls (nf, seen, changed) sel ->
  exists cls' subs',
    foldl set_up_trie (Some (set_tries (cls_tries cls) m cls))
      (skipn (default (length nf) changed) (List.combine (seq 0 (length nf)) nf)) = Some cls' /\
    base_rep cls' subs' /\ all_matches subs' = all_matches subs /\
    forall i id, sel !! i = Some id -> trie_rep cls' subs' i (mf_from_id id).
Proof.
  intros Hrep Hinv. pose proof Hinv as [Hlen Hmax _ Hus Hf Hch]. cbn [fst snd] in *.
  set (fc := default (length nf) changed). set (cls0 := set_tries (cls_tries cls) m cls).
  destruct (set_up_tries_ok (skipn fc (List.combine (seq 0 (length nf)) nf)) cls0 subs)
    as (cls' & subs' & -> & Hb & Em & _ & Hin & Hout).
  - by apply (rep_no_tries cls subs 0); [|lia].
  - apply new_fields_nodup.
  - intros i o [Hi Ho]%new_fields_in. apply lookup_lt_Some in Ho as Hlt. split; [lia|]. intros f ->.
    destruct (lookup_lt_is_Some_2 sel i) as [id Hid]; [lia|]. specialize (Hf i id Hid). rewrite Ho in Hf. destruct Hf as [-> _].
    apply Hfields. rewrite Forall_forall in Hus. apply Hus. by eapply list_elem_of_lookup_2.
  - exists cls', subs'. split_and!; [done..|]. intros i id Hid. specialize (Hf i id Hid). apply lookup_lt_Some in Hid as Hlt.
    destruct (lookup_lt_is_Some_2 nf i) as [o Ho]; [lia|]. rewrite Ho in Hf. destruct o as [f|].
    + destruct Hf as [-> _]. apply Hin, new_fields_in. split; [|done]. unfold fc. destruct changed as [c|]; cbn.
      * destruct (le_lt_dec c i) as [|Hlt']; [done|]. destruct Hch as (_ & _ & Hlow). rewrite Hlow in Ho by done. done.
      * by apply Hch in Ho.
    + destruct Hf as [Hi Hct]. destruct (rep_trie_rep cls subs i Hrep Hi) as (mf & Htr & E).
      assert (mf = mf_from_id id) as -> by congruence.
      apply Hout; [|exact Htr]. intros f [_ Hf']%new_fields_in. congruence.
Qed.

Lemma trie_fields_lookup (cls : classifier) (subs : list (Z * cls_subtable)) (i : nat) :
  cls_rep cls subs -> (i < cls_n_tries cls)%nat ->
  trie_fields cls !! i = Some (ct_field (nth i (cls_tries cls) (ClsTrie None TNull))).
Proof.
  intros Hrep Hi. destruct (lookup_lt_is_Some_2 (cls_tries cls) i) as [t Ht].
  { pose proof (cp_length _ _ Hrep). pose proof (cp_n_tries _ _ Hrep). lia. }
  unfold trie_fields. rewrite list_lookup_fmap, lookup_take_lt, Ht by done. cbn. by rewrite (nth_lookup_Some _ _ _ _ Ht).
Qed.

Lemma trie_fields_length (cls : classifier) (subs : list (Z * cls_subtable)) :
  cls_rep cls subs -> length (trie_fields cls) = cls_n_tries cls.
Proof.
  intros Hrep. pose proof (cp_length _ _ Hrep). pose proof (cp_n_tries _ _ Hrep). unfold trie_fields.
  rewrite length_map, length_take. lia.
Qed.

(** The tries index the fields of [sel] already. *)
Definition same_fields (cls : classifier) (sel : list Z) : Prop :=
  trie_fields cls = map (fun id => Some (mf_from_id id)) sel.

Lemma same_fields_iff (cls : classifier) (subs : list (Z * cls_subtable)) (nf : list (option mf_field)) (seen sel : list Z)
    (changed : option nat) :
  cls_rep cls subs -> step_inv cls (nf, seen, changed) sel ->
  bool_decide (is_Some changed) || (length nf <? cls_n_tries cls)%nat = false <-> same_fields cls sel.
Proof.
  intros Hrep Hinv. pose proof Hinv as [Hlen Hmax _ _ Hf Hch]. cbn [fst snd] in *. unfold same_fields.
  rewrite orb_false_iff, bool_decide_eq_false, Nat.ltb_ge. split.
  - intros [Hnc Hn]. assert (changed = None) as -> by (destruct changed; [destruct Hnc; by eexists|done]).
    assert (forall i id, sel !! i = Some id -> (i < cls_n_tries cls)%nat /\
      ct_field (nth i (cls_tries cls) (ClsTrie None TNull)) = Some (mf_from_id id)) as Hall.
    { intros i id Hid. specialize (Hf i id Hid). destruct (nf !! i) as [[f|]|] eqn:E; [by apply Hch in E|done..]. }
    apply list_eq. intros i. rewrite list_lookup_fmap. destruct (sel !! i) as [id|] eqn:Hid.
    + destruct (Hall i id Hid) as [Hi E]. rewrite (trie_fields_lookup cls subs) by done. cbn. by rewrite E.
    + cbn. apply lookup_ge_None. rewrite (trie_fields_length cls subs) by done. apply lookup_ge_None in Hid. lia.
  - intros E. assert (cls_n_tries cls = length sel) as En.
    { rewrite <- (trie_fields_length cls subs) by done. by rewrite E, length_map. }
    split; [|lia]. intros [c ->]. destruct Hch as (Hc & (f & Hfc) & _).
    destruct (lookup_lt_is_Some_2 sel c Hc) as [id Hid]. specialize (Hf c id Hid). rewrite Hfc in Hf.
    destruct Hf as [-> [?|Hne]]; [lia|]. apply Hne.
    pose proof (trie_fields_lookup cls subs c Hrep ltac:(lia)) as Hl. rewrite E, list_lookup_fmap, Hid in Hl. cbn in Hl. congruence.
Qed.

Lemma set_prefix_fields_ok (cls : classifier) (subs : list (Z * cls_subtable)) (ids : list Z) :
  cls_rep cls subs ->
  exists cls' subs' b, classifier_set_prefix_fields cls mf_from_id ids = Some (cls', b) /\ cls_rep cls' subs' /\
    all_matches subs' = all_matches subs /\ same_fields cls' (selected ids) /\ (b = false <-> same_fields cls (selected ids)).
Proof.
  intros Hrep. unfold classifier_set_prefix_fields. pose proof (prefix_fields_ok cls ids) as Hinv.
  destruct (foldl _ _ ids) as [[nf seen] changed]. pose proof (same_fields_iff cls subs nf seen _ changed Hrep Hinv) as Hsame.
  destruct (_ || _) eqn:Ec.
  2: { exists cls, subs, false. split_and!; try done. by apply Hsame. }
  set (fc := default (length nf) changed).
  destruct (new_tries_ok cls subs nf seen _ changed fc Hrep Hinv) as (cls2 & subs2 & E & Hb & Em & Htr). fold fc in E. rewrite E.
  cbn [mbind option_bind]. set (n := length nf). set (tries' := destroy_tries _ _ _).
  pose proof (si_length _ _ _ Hinv) as Hlen. pose proof (si_max _ _ _ Hinv) as Hmax. cbn [fst snd] in Hlen. fold n in Hlen.
  destruct (destroy_tries_lookup n (cls_n_tries cls) (cls_tries cls2)) as [Hdl Hdi].
  assert (forall i id, selected ids !! i = Some id -> trie_rep (set_tries tries' n cls2) subs2 i (mf_from_id id)) as Htr'.
  { intros i id Hid. destruct (Htr i id Hid) as (t & Ht & ?). exists t. split; [|done]. cbn. unfold tries'.
    rewrite Hdi; [done|]. apply lookup_lt_Some in Hid. lia. }
  assert (cls_rep (set_tries tries' n cls2) subs2) as Hrep'.
  { apply base_rep_tries; [done|unfold tries'; rewrite Hdl; apply (cp_length _ _ Hb)|lia|].
    intros i Hi. destruct (lookup_lt_is_Some_2 (selected ids) i) as [id Hid]; [lia|]. eexists. by apply (Htr' i id). }
  eexists _, subs2, true. split_and!; [reflexivity|done|done| |split; [done|by intros ?%Hsame]].
  apply list_eq. intros i. rewrite list_lookup_fmap. destruct (selected ids !! i) as [id|] eqn:Hid.
  - apply lookup_lt_Some in Hid as Hlt. rewrite (trie_fields_lookup _ subs2) by (done || cbn; lia).
    destruct (Htr' i id Hid) as (t & Ht & Hok & _). cbn. by rewrite (nth_lookup_Some _ _ _ _ Ht), (to_field _ _ Hok).
  - change (trie_fields (set_tries tries' n cls2) !! i = None). apply lookup_ge_None. rewrite (trie_fields_length _ subs2) by done. cbn. apply lookup_ge_None in Hid. lia.
Qed.
End PrefixFields.

(** ** Destruction *)

Lemma destroy_all_ok (subs : list (Z * cls_subtable)) (f : Z * cls_subtable -> Z * Z) (cls : classifier) :
  (forall e, snd (f e) = fst e) -> NoDup (map fst subs) -> cls_subtables_map cls = map f subs ->
  pvector_wf (cls_subtables cls) -> Permutation (pv_entries (cls_subtables cls)) (map sub_entry subs) ->
  exists cls', foldl (fun acc e => cls ← acc; destroy_subtable cls (snd e)) (Some cls) (map f subs) = Some cls' /\
    classifier_is_empty cls' = true /\ pv_entries (cls_subtables cls') = [] /\ cls_tries cls' = cls_tries cls.
Proof.
  intros Hf. revert cls. induction subs as [|[id st] subs IH]; intros cls Hnd Hm Hw Hp.
  { exists cls. split_and!; [done| |by apply Permutation_nil_r in Hp|done]. unfold classifier_is_empty. by rewrite Hm. }
  cbn [map foldl mbind option_bind]. rewrite Hf. cbn [fst]. unfold destroy_subtable at 2.
  destruct (pv_remove_perm (cls_subtables cls) id (st_max_priority st) (map sub_entry subs) Hw Hp) as (v' & -> & Hw' & Hp').
  cbn [mbind option_bind]. rewrite Hm. pose proof (drop_sub_map [] subs id st f Hf Hnd) as Ed. cbn [app] in Ed. rewrite Ed.
  cbn [map fst] in Hnd. apply NoDup_cons in Hnd as [_ Hnd].
  destruct (IH (set_subtables_map (map f subs) (set_subtables v' cls)) Hnd) as (cls' & E & ?); [done..|].
  by exists cls'.
Qed.

Lemma classifier_destroy_ok (cls : classifier) (subs : list (Z * cls_subtable)) :
  cls_rep cls subs ->
  exists cls', classifier_destroy_tss cls = Some cls' /\ classifier_is_empty cls' = true /\
    pv_entries (cls_subtables cls') = [] /\
    forall i, (i < cls_n_tries cls)%nat -> cls_tries cls' !! i = Some (ClsTrie None TNull).
Proof.
  intros Hrep. unfold classifier_destroy_tss. rewrite (cp_map _ _ Hrep).
  destruct (destroy_all_ok subs (fun e => (minimask_hash (st_mask (snd e)) 0, fst e))
    (set_tries (destroy_tries 0 (cls_n_tries cls) (cls_tries cls)) (cls_n_tries cls) cls)) as (cls' & -> & He & Hv & Ht);
    try done; try apply Hrep. exists cls'. split_and!; [done..|]. intros i Hi. rewrite Ht. cbn. clear -Hi Hrep.
  pose proof (cp_length _ _ Hrep) as Hl. pose proof (cp_n_tries _ _ Hrep) as Hn. unfold destroy_tries. rewrite Nat.sub_0_r.
  destruct (cls_tries cls) as [|[] [|[] [|[] [|[] []]]]]; try discriminate Hl. unfold CLS_MAX_TRIES in Hn.
  destruct (cls_n_tries cls) as [|[|[|[|[|]]]]]; try lia; destruct i as [|[|[|[|]]]]; try lia; reflexivity.
Qed.

End Ops.
