(* ===== verification/ClassifierQuery.v ===== *)
(** * Queries other than lookup

    Exact search, overlap detection, non-strict ("loose") matching and iteration,
    each against what it means for the set of rules and for flows. *)

From S2P Require Import Prelude Util Flowmap Hash Miniflow MetaFlow Trie FlowBits Versions Pvector Classifier.
From S2P Require Import Subtable ClassifierInv ClassifierLookup ClassifierUpdate ClassifierRemove.
From stdpp Require Import prelude list sorting gmap.
From Stdlib Require Import ZArith Lia.
Open Scope Z_scope.
Open Scope ovs_scope.

(** ** Masks and matches by bits *)

Lemma fbit_combine (a b : minimask) (i : nat) :
  minimask_wf a -> minimask_wf b ->
  fbit (miniflow_expand (minimask_combine a b)) i = fbit (miniflow_expand a) i && fbit (miniflow_expand b) i.
Proof.
  intros Ha Hb. pose proof (combine_wf a b Ha Hb) as Hc. unfold fbit.
  rewrite !expand_nth, combine_get by eauto with ovs. apply Z.land_spec.
Qed.

Lemma has_extra_bits (a b : minimask) :
  minimask_wf a -> minimask_wf b ->
  minimask_has_extra a b = false <->
  forall i, fbit (miniflow_expand b) i = true -> fbit (miniflow_expand a) i = true.
Proof.
  intros Ha Hb. rewrite minimask_has_extra_get by done. split.
  - intros H i. unfold fbit. rewrite !expand_nth by eauto with ovs. rewrite <- (H (i / 64)%nat), Z.land_spec. by intros [? _]%andb_prop.
  - intros H k. apply Z.bits_inj'. intros n Hn. rewrite Z.land_spec.
    destruct (Z.testbit (miniflow_get b k) n) eqn:E; [|by rewrite andb_false_r]. rewrite andb_true_r.
    rewrite <- expand_nth in E |- * by eauto with ovs. destruct (Z.lt_ge_cases n 64) as [Hlt|Hge].
    + rewrite fbit_word in E |- * by lia. by apply H.
    + rewrite (in_width_high 64) in E; [done| |done]. apply flow_word_width, expand_wf. eauto with ovs.
Qed.

Lemma equal_in_minimask_agree (a b : miniflow) (mask : minimask) :
  miniflow_wf a -> miniflow_wf b -> miniflow_wf mask ->
  miniflow_equal_in_minimask a b mask = true <-> agree (miniflow_expand mask) (miniflow_expand a) (miniflow_expand b).
Proof. intros Ha Hb Hm. rewrite equal_in_minimask_spec by done. by apply flow_equal_except_agree, expand_wf. Qed.

(** The bitwise OR of two flows. *)
Definition flow_or (a b : flow) : flow := zip_with Z.lor a b.

Lemma flow_or_wf (a b : flow) : flow_wf a -> flow_wf b -> flow_wf (flow_or a b).
Proof.
  intros [La Wa] [Lb Wb]. split; [unfold flow_or; rewrite length_zip_with; lia|].
  apply Forall_lookup. intros i x (y & z & -> & Hy & Hz)%lookup_zip_with_Some.
  rewrite Forall_lookup in Wa, Wb. apply in_width_lor; [lia|by eapply Wa|by eapply Wb].
Qed.

Lemma flow_or_bit (a b : flow) (i : nat) : length a = length b -> fbit (flow_or a b) i = fbit a i || fbit b i.
Proof.
  intros Hl. unfold fbit, flow_or. set (k := (i / 64)%nat). rewrite !nth_lookup, lookup_zip_with.
  destruct (a !! k) as [x|] eqn:Ea, (b !! k) as [y|] eqn:Eb; cbn; rewrite ?Z.bits_0; try apply Z.lor_spec; try done.
  - apply lookup_lt_Some in Ea. apply lookup_ge_None in Eb. lia.
  - apply lookup_lt_Some in Eb. apply lookup_ge_None in Ea. lia.
Qed.

(** The flow with bit [i] inverted. *)
Definition flow_flip (f : flow) (i : nat) : flow :=
  <[(i / 64)%nat := Z.lxor (nth (i / 64) f 0) (Z.shiftl 1 (63 - Z.of_nat (i mod 64)))]> f.

Lemma flow_flip_bit (f : flow) (i j : nat) :
  length f = FLOW_U64S -> (i < FLOW_BITS)%nat -> fbit (flow_flip f i) j = if (i =? j)%nat then negb (fbit f j) else fbit f j.
Proof.
  intros Hl Hi. unfold fbit, flow_flip. pose proof (Nat.mod_upper_bound i 64 ltac:(lia)). pose proof (Nat.mod_upper_bound j 64 ltac:(lia)).
  assert (i / 64 < length f)%nat by (rewrite Hl; apply Nat.Div0.div_lt_upper_bound; unfold FLOW_BITS in Hi; lia).
  destruct (decide (i / 64 = j / 64)%nat) as [E|E].
  - rewrite <- E, (nth_lookup_Some _ _ _ _ (list_lookup_insert_eq f _ _ ltac:(done))), Z.lxor_spec, Z.shiftl_1_l, Z.pow2_bits_eqb by lia.
    pose proof (Nat.div_mod_eq i 64). pose proof (Nat.div_mod_eq j 64). destruct (Nat.eqb_spec i j) as [<-|Hne].
    + rewrite Z.eqb_refl. apply xorb_true_r.
    + destruct (Z.eqb_spec (63 - Z.of_nat (i mod 64)) (63 - Z.of_nat (j mod 64))); [lia|]. apply xorb_false_r.
  - destruct (Nat.eqb_spec i j) as [->|_]; [done|]. rewrite !nth_lookup. by rewrite list_lookup_insert_ne.
Qed.

Lemma flow_flip_wf (f : flow) (i : nat) : flow_wf f -> flow_wf (flow_flip f i).
Proof.
  intros [Hl Hw]. pose proof (Nat.mod_upper_bound i 64 ltac:(lia)). split; [unfold flow_flip; by rewrite length_insert|].
  apply Forall_insert; [done|]. apply in_width_lxor; [lia|by apply flow_word_width|].
  unfold in_width. rewrite Z.shiftl_mul_pow2, Z.mul_1_l by lia. split; [lia|]. apply Z.pow_lt_mono_r; lia.
Qed.

(** ** Overlap *)

(** Two rules agree where both look exactly when some flow matches both. *)
Lemma overlap_iff (a b : minimatch) :
  key_ok a -> key_ok b ->
  miniflow_equal_in_minimask (mm_flow a) (mm_flow b) (minimask_combine (mm_mask a) (mm_mask b)) = true <->
  exists f, flow_wf f /\ key_matches a f = true /\ key_matches b f = true.
Proof.
  intros [Ha Na] [Hb Nb]. assert (minimask_wf (mm_mask a)) by eauto with ovs. assert (minimask_wf (mm_mask b)) by eauto with ovs.
  pose proof (combine_wf (mm_mask a) (mm_mask b) ltac:(done) ltac:(done)) as Hc.
  rewrite equal_in_minimask_agree by eauto with ovs. setoid_rewrite key_matches_agree; [|done..].
  assert (flow_wf (miniflow_expand (mm_flow a))) as Wa by (apply expand_wf; eauto with ovs).
  assert (flow_wf (miniflow_expand (mm_flow b))) as Wb by (apply expand_wf; eauto with ovs).
  split.
  - intros Hag. exists (flow_or (miniflow_expand (mm_flow a)) (miniflow_expand (mm_flow b))). split; [by apply flow_or_wf|].
    assert (length (miniflow_expand (mm_flow a)) = length (miniflow_expand (mm_flow b))) as Hl by (rewrite (proj1 Wa), (proj1 Wb); done).
    split; intros i Hi; rewrite flow_or_bit by done; specialize (Hag i); rewrite fbit_combine, Hi in Hag by done;
      specialize (Na i); specialize (Nb i).
    + destruct (fbit (miniflow_expand (mm_mask b)) i); [rewrite <- Hag by done|rewrite Nb by done];
        by destruct (fbit (miniflow_expand (mm_flow a)) i).
    + rewrite andb_true_r in Hag. destruct (fbit (miniflow_expand (mm_mask a)) i); [rewrite Hag by done|rewrite Na by done];
        by destruct (fbit (miniflow_expand (mm_flow b)) i).
  - intros (f & _ & Hfa & Hfb) i Hi. rewrite fbit_combine in Hi by done. apply andb_prop in Hi as [Hia Hib].
    by rewrite Hfa, Hfb.
Qed.

(** ** Loose matching *)

(** [rule] loosely matches [criteria] exactly when the criteria match every flow that the rule matches. *)
Lemma loose_match_iff (rule : cls_rule) (criteria : minimatch) :
  key_ok (cr_match rule) -> key_ok criteria ->
  cls_rule_is_loose_match rule criteria = true <->
  forall f, flow_wf f -> key_matches (cr_match rule) f = true -> key_matches criteria f = true.
Proof.
  intros [Hr _] [Hc _]. set (r := cr_match rule) in *.
  assert (minimask_wf (mm_mask r)) by eauto with ovs. assert (minimask_wf (mm_mask criteria)) by eauto with ovs.
  assert (flow_wf (miniflow_expand (mm_flow r))) as Wr by (apply expand_wf; eauto with ovs).
  unfold cls_rule_is_loose_match. fold r. rewrite andb_true_iff, negb_true_iff, has_extra_bits, equal_in_minimask_agree by eauto with ovs.
  setoid_rewrite key_matches_agree; [|done..]. split.
  - intros [Hm Hag] f _ Hf i Hi. rewrite <- (Hag i Hi). by apply Hf, Hm.
  - intros Hall. assert (agree (miniflow_expand (mm_mask criteria)) (miniflow_expand (mm_flow criteria)) (miniflow_expand (mm_flow r))) as Hag
      by (apply Hall; [done|apply agree_refl]).
    split; [|by apply agree_sym]. intros i Hi. destruct (fbit (miniflow_expand (mm_mask r)) i) eqn:E; [done|]. exfalso.
    assert (i < FLOW_BITS)%nat as Hb.
    { destruct (le_lt_dec FLOW_BITS i) as [Hge|]; [|done]. rewrite fbit_out in Hi; [done|apply expand_wf; eauto with ovs|done]. }
    pose proof (Hall (flow_flip (miniflow_expand (mm_flow r)) i) (flow_flip_wf _ _ Wr)) as Hflip.
    assert (agree (miniflow_expand (mm_mask criteria)) (miniflow_expand (mm_flow criteria)) (flow_flip (miniflow_expand (mm_flow r)) i)) as Hag'.
    { apply Hflip. intros j Hj. rewrite flow_flip_bit by (done || apply Wr). by destruct (Nat.eqb_spec i j) as [<-|]; [congruence|]. }
    specialize (Hag i Hi). specialize (Hag' i Hi). rewrite flow_flip_bit, Nat.eqb_refl, <- Hag in Hag' by (done || apply Wr).
    by destruct (fbit (miniflow_expand (mm_flow criteria)) i).
Qed.

Section Query.
Context `{HH : Hash} (cls : classifier) (subs : list (Z * cls_subtable)) (version : Z).
Hypothesis Hrep : cls_rep cls subs.

(** ** Exact search *)

Lemma key_hash_whole (st : cls_subtable) (k : minimatch) :
  subtable_ok st -> minimatch_wf k -> mm_mask k = st_mask st ->
  miniflow_hash_in_minimask (mm_flow k) (mm_mask k) 0 = key_hash (st_index_maps st) k (st_n_indices st).
Proof.
  intros Hok Hk Hm. rewrite miniflow_hash_in_minimask_spec by eauto with ovs. unfold key_hash, stage_hash.
  by rewrite (sg_cover _ _ _ (so_stages _ Hok)), Hm.
Qed.

Lemma find_priority_spec (l : list cls_match) (priority : Z) :
  chain_sorted l ->
  match find_priority l priority version with
  | Some r => exists m, In m l /\ r = cm_rule m /\ cm_priority m = priority /\ cls_match_visible_in_version m version = true
  | None => forall m, In m l -> cm_priority m = priority -> cls_match_visible_in_version m version = false
  end.
Proof.
  induction 1 as [|x l Hl IH Hx]; [by intros ? []|]. cbn [find_priority]. destruct (Z.ltb_spec (cm_priority x) priority) as [Hlt|Hge].
  - intros m [<-|Hm] E; [lia|]. rewrite Forall_forall in Hx. specialize (Hx m ltac:(by apply list_elem_of_In)). lia.
  - destruct (Z.eqb_spec (cm_priority x) priority) as [E|E]; cbn [andb].
    + destruct (cls_match_visible_in_version x version) eqn:Ev; [exists x; split_and!; [by left|done..]|].
      destruct (find_priority l priority version) as [r|].
      * destruct IH as (m & Hm & ?). exists m. split; [by right|done].
      * intros m [<-|Hm]; [done|by apply IH].
    + destruct (find_priority l priority version) as [r|].
      * destruct IH as (m & Hm & ?). exists m. split; [by right|done].
      * intros m [<-|Hm]; [done|by apply IH].
Qed.

(** A visible rule with the match and the priority of the target. *)
Definition exact_match (target : cls_rule) (m : cls_match) : Prop :=
  cr_match (cm_rule m) = cr_match target /\ cm_priority m = cr_priority target /\ cls_match_visible_in_version m version = true.

Lemma find_rule_exactly_ok (target : cls_rule) :
  key_ok (cr_match target) ->
  match classifier_find_rule_exactly cls target version with
  | Some r => exists m, In m (all_matches subs) /\ r = cm_rule m /\ exact_match target m
  | None => forall m, In m (all_matches subs) -> ~ exact_match target m
  end.
Proof.
  intros Hk. set (k := cr_match target) in *. unfold classifier_find_rule_exactly. fold k.
  pose proof (find_subtable_spec cls subs (mm_mask k) Hrep ltac:(destruct Hk; eauto with ovs)) as Hfs.
  assert (forall m, In m (all_matches subs) -> exact_match target m -> exists l1 l2 id st r1 r2 h l,
    subs = l1 ++ (id, st) :: l2 /\ st_rules st = r1 ++ (h, l) :: r2 /\ chain_key l = Some k /\ In m l /\ mm_mask k = st_mask st) as Hplace.
  { intros m Hm (E & _). destruct (match_place cls subs m Hrep Hm) as (l1 & l2 & id & st & r1 & r2 & h & l & -> & Er & Hck & Hml & _ & Hkm).
    fold k in E. rewrite E in Hck, Hkm. by exists l1, l2, id, st, r1, r2, h, l. }
  destruct (find_subtable cls (mm_mask k)) as [[id st]|]; cbn [mbind option_bind].
  2: { intros m Hm He. destruct (Hplace m Hm He) as (l1 & l2 & id & st & r1 & r2 & h & l & -> & _ & _ & _ & Hkm).
       apply Hfs. rewrite map_app, Hkm. apply in_or_app. right. by left. }
  destruct Hfs as (Hm & l1 & l2 & Esubs). assert (In (id, st) subs) as Hin by (rewrite Esubs; apply in_or_app; right; by left).
  destruct (rep_sub _ _ _ _ Hrep Hin) as (_ & Hcore & _). pose proof (sc_ok _ Hcore) as Hok.
  assert (forall m, In m (all_matches subs) -> exact_match target m -> exists r1 r2 h l, st_rules st = r1 ++ (h, l) :: r2 /\
    chain_key l = Some k /\ In m l) as Hplace'.
  { intros m Hmin He. destruct (Hplace m Hmin He) as (k1 & k2 & id' & st' & r1 & r2 & h & l & E & Er & Hck & Hml & Hkm).
    pose proof (cp_masks _ _ Hrep) as Hnm. rewrite Esubs in E, Hnm.
    destruct (focus_unique (fun e : Z * cls_subtable => Some (st_mask (snd e))) l1 l2 k1 k2 (id, st) (id', st') (mm_mask k) E)
      as (_ & [= _ <-] & _); [by rewrite omap_some|cbn; congruence|cbn; congruence|]. by exists r1, r2, h, l. }
  rewrite (key_hash_whole st k Hok (proj1 Hk) (eq_sym Hm)).
  pose proof (find_equal_spec st k Hok Hk (eq_sym Hm)) as Hfe. destruct (find_equal _ _ _) as [l|]; cbn [mbind option_bind].
  2: { intros m Hmin He. destruct (Hplace' m Hmin He) as (r1 & r2 & h & l & Er & Hck & _). apply Hfe.
       rewrite Er, keys_app, (keys_cons h l k) by done. apply in_or_app. right. by left. }
  destruct Hfe as (s1 & s2 & h & hd & next & -> & Es & Hck).
  pose proof (sc_sorted _ Hcore) as Hs. rewrite Es in Hs. apply Forall_app in Hs as [_ [Hs _]%Forall_cons]. cbn [snd] in Hs.
  pose proof (find_priority_spec _ (cr_priority target) Hs) as Hfp.
  assert (forall m, In m (hd :: next) -> In m (all_matches subs)) as Hall.
  { intros m Hml. apply in_concat. exists (st_matches st). split; [by apply (in_map (fun e => st_matches (snd e)) _ _ Hin)|].
    unfold st_matches. rewrite Es, rules_matches_app, rules_matches_cons. apply in_or_app. right. apply in_or_app. by left. }
  destruct (find_priority _ _ _) as [r|].
  - destruct Hfp as (m & Hml & -> & Hp & Hv). exists m. split_and!; [by apply Hall|done|]. split_and!; [|done|done].
    pose proof (chain_of_key st s1 s2 h (hd :: next) k Hcore Es Hck) as Hof. rewrite Forall_forall in Hof.
    by destruct (Hof m ltac:(by apply list_elem_of_In)) as (_ & ? & _).
  - intros m Hmin He. destruct (Hplace' m Hmin He) as (r1 & r2 & h' & l & Er & Hck' & Hml).
    pose proof (so_nodup _ Hok) as Hndk. rewrite Es in Er, Hndk.
    destruct (focus_unique (fun e : Z * list cls_match => chain_key (snd e)) s1 s2 r1 r2 (h, hd :: next) (h', l) k Er Hndk Hck Hck')
      as (_ & [= _ <-] & _). destruct He as (_ & Hp & Hv). by rewrite (Hfp m Hml Hp) in Hv.
Qed.

(** ** The subtables of the published vector *)

Hypothesis Hpub : pv_temp (cls_subtables cls) = None.
Local Abbreviation vector := (pi_vector (pv_impl (cls_subtables cls))).

(** The subtables from the front of the vector, down to a priority. *)
Fixpoint sub_prefix (p : Z) (v : list pvector_entry) : list (Z * cls_subtable) :=
  match v with
  | [] => []
  | e :: v =>
      if p <=? pe_priority e then
        match cls_heap cls !! pe_ptr e with
        | Some st => (pe_ptr e, st) :: sub_prefix p v
        | None => sub_prefix p v
        end
      else []
  end.

Lemma pvector_subtables_prefix (p : Z) (fuel i : nat) :
  (length vector < fuel + i)%nat -> pvector_subtables fuel cls p (PvectorCursor i vector) = sub_prefix p (skipn i vector).
Proof.
  revert i. induction fuel as [|fuel IH]; intros i Hf.
  { cbn. by rewrite skipn_all2 by lia. }
  cbn [pvector_subtables]. rewrite (cursor_next_entry cls i p). destruct (vector !! i) as [e|] eqn:E.
  - rewrite (drop_S _ _ _ E). cbn [sub_prefix]. destruct (p <=? pe_priority e); [|done].
    rewrite IH by lia. done.
  - apply lookup_ge_None in E. by rewrite skipn_all2 by lia.
Qed.

Lemma vector_perm : Permutation vector (map (fun e => PvectorEntry (st_max_priority (snd e)) (fst e)) subs).
Proof. rewrite <- (cp_pv _ _ Hrep). unfold pv_entries. by rewrite Hpub. Qed.

Lemma sub_prefix_in (p : Z) (e : Z * cls_subtable) :
  In e (sub_prefix p vector) <-> In e subs /\ p <= st_max_priority (snd e).
Proof.
  assert (forall v, (forall x, In x v -> In x vector) -> StronglySorted entry_le v ->
    In e (sub_prefix p v) <-> In (PvectorEntry (st_max_priority (snd e)) (fst e)) v /\ In e subs /\ p <= st_max_priority (snd e)) as H.
  { intros v Hv Hs. induction Hs as [|x v Hs IH Hx]; [cbn; tauto|]. cbn [sub_prefix].
    assert (In x vector) as Hxv by (apply Hv; by left).
    assert (exists st, In (pe_ptr x, st) subs /\ pe_priority x = st_max_priority st) as (st & Hst & Hpr).
    { apply (Permutation_in _ vector_perm), in_map_iff in Hxv as ([id st] & <- & Hin). by exists st. }
    destruct (rep_sub _ _ _ _ Hrep Hst) as (Hh & _). rewrite Hh.
    destruct (Z.leb_spec p (pe_priority x)) as [Hp|Hp].
    - cbn [In]. rewrite IH by (intros; apply Hv; by right). split.
      + intros [<-|?]; [|tauto]. cbn [fst snd]. split_and!; [left; by destruct x; cbn in *; subst|done|lia].
      + intros ([E|Hin] & He & Hle); [left|tauto]. subst x. cbn [pe_ptr] in *. destruct e as [id st']. cbn [fst snd] in *.
        destruct (rep_sub _ _ _ _ Hrep He) as (Hh' & _). congruence.
    - split; [done|]. intros ([E|Hin] & _ & Hle); [subst x; cbn in Hp; lia|].
      rewrite Forall_forall in Hx. specialize (Hx _ ltac:(by apply list_elem_of_In)). apply entry_le_spec in Hx. cbn in Hx. lia. }
  rewrite H; [|done|apply (pvwf_sorted _ (cp_pvwf _ _ Hrep))]. split; [tauto|]. intros [He Hp]. split_and!; [|done..].
  apply (Permutation_in _ (Permutation_sym vector_perm)), in_map_iff. by exists e.
Qed.

Lemma sub_prefix_nodup (p : Z) (v : list pvector_entry) : NoDup (map pe_ptr v) -> NoDup (map fst (sub_prefix p v)).
Proof.
  assert (forall v x, In x (map fst (sub_prefix p v)) -> In x (map pe_ptr v)) as Hin.
  { clear. induction v as [|e v IH]; intros x; [done|]. cbn. destruct (_ <=? _); [|done].
    destruct (cls_heap cls !! pe_ptr e); [intros [<-|?]; [by left|]|intros ?]; right; by apply IH. }
  induction v as [|e v IH]; intros Hnd; [constructor|]. cbn [map] in Hnd. apply NoDup_cons in Hnd as [Hn Hnd]. cbn [sub_prefix].
  destruct (_ <=? _); [|constructor]. destruct (cls_heap cls !! pe_ptr e); [|by apply IH]. cbn [map fst]. constructor; [|by apply IH].
  rewrite list_elem_of_In. intros H%Hin. apply Hn. by apply list_elem_of_In.
Qed.

Lemma max_priority_above (e : Z * cls_subtable) : In e subs -> INT_MIN < st_max_priority (snd e).
Proof.
  intros He. destruct e as [id st]. destruct (rep_sub _ _ _ _ Hrep He) as (_ & Hc & [_ Hpos Hcnt]). cbn [snd].
  assert (0 < length (List.filter (fun m => (cm_priority m =? st_max_priority st)%Z) (st_matches st)))%nat as Hl by lia.
  apply length_filter_pos in Hl as (m & Hm & E%Z.eqb_eq). rewrite <- E. pose proof (sc_match _ Hc) as Hmo.
  rewrite Forall_forall in Hmo. apply Hmo. by apply list_elem_of_In.
Qed.

Lemma sub_prefix_all : Permutation (sub_prefix INT_MIN vector) subs.
Proof.
  assert (forall l, NoDup (map fst l) -> NoDup (A := Z * cls_subtable) l) as Hnd by (intros l; apply NoDup_fmap_1).
  apply NoDup_Permutation.
  - apply Hnd, sub_prefix_nodup. rewrite vector_perm, map_map. cbn. apply Hrep.
  - apply Hnd, Hrep.
  - intros e. rewrite !list_elem_of_In, sub_prefix_in. split; [tauto|]. intros He. split; [done|].
    pose proof (max_priority_above e He). lia.
Qed.

(** ** Overlap *)

Lemma rules_list_in (id : Z) (st : cls_subtable) (r : cls_rule) :
  In (id, st) subs -> In r (st_rules_list st) <-> exists m, In m (st_matches st) /\ cm_rule m = r.
Proof.
  intros Hin. destruct (rep_sub _ _ _ _ Hrep Hin) as (_ & Hc & _). pose proof (sc_list _ Hc) as Hl. split.
  - intros (m & E & Hm)%(Permutation_in _ Hl)%in_map_iff. by exists m.
  - intros (m & Hm & <-). apply (Permutation_in _ (Permutation_sym Hl)). by apply in_map.
Qed.

Lemma st_matches_all (id : Z) (st : cls_subtable) (m : cls_match) :
  In (id, st) subs -> In m (st_matches st) -> In m (all_matches subs).
Proof.
  intros Hin Hm. apply in_concat. exists (st_matches st). split; [|done]. by apply (in_map (fun e => st_matches (snd e)) _ _ Hin).
Qed.

Lemma st_matches_mask (id : Z) (st : cls_subtable) (m : cls_match) :
  In (id, st) subs -> In m (st_matches st) -> key_ok (cr_match (cm_rule m)) /\ mm_mask (cr_match (cm_rule m)) = st_mask st.
Proof.
  intros Hin (l & ([h l'] & <- & Hl)%in_map_iff & Hm)%in_concat. cbn [snd] in Hm.
  destruct (rep_sub _ _ _ _ Hrep Hin) as (_ & Hc & _).
  pose proof (proj1 (Forall_forall _ _) (so_chains _ (sc_ok _ Hc)) (h, l') ltac:(by apply list_elem_of_In))
    as (k & _ & Hko & Hkm & _ & Hall). cbn [snd] in Hall. rewrite Forall_forall in Hall.
  destruct (Hall m) as [-> _]; [by apply list_elem_of_In|done].
Qed.

Lemma visible_in (m : cls_match) :
  In m (all_matches subs) -> cls_rule_visible_in_version cls (cm_rule m) version = cls_match_visible_in_version m version.
Proof. intros Hm. unfold cls_rule_visible_in_version. by rewrite (get_cls_match_in cls subs). Qed.

Lemma rule_overlaps_ok (target : cls_rule) :
  key_ok (cr_match target) ->
  classifier_rule_overlaps cls target version = true <->
  exists m f, In m (all_matches subs) /\ cm_priority m = cr_priority target /\
    cls_match_visible_in_version m version = true /\
    flow_wf f /\ key_matches (cr_match (cm_rule m)) f = true /\ key_matches (cr_match target) f = true.
Proof.
  intros Hk. unfold classifier_rule_overlaps. change (pvector_cursor_init (cls_subtables cls)) with (PvectorCursor 0 vector).
  rewrite pvector_subtables_prefix by (unfold pvector_count; lia). cbn [skipn]. rewrite existsb_exists.
  setoid_rewrite existsb_exists. setoid_rewrite sub_prefix_in. split.
  - intros ([id st] & [Hin _] & r & Hr & Hcond). cbn [snd] in *. apply (rules_list_in id st r Hin) in Hr as (m & Hm & <-).
    pose proof (st_matches_all id st m Hin Hm) as Hall. destruct (st_matches_mask id st m Hin Hm) as [Hko Hkm].
    rewrite !andb_true_iff, visible_in, <- Hkm in Hcond by done. destruct Hcond as [[Hp%Z.eqb_eq Heq] Hv].
    apply overlap_iff in Heq as (f & Hf & H1 & H2); [|done..]. exists m, f. split_and!; try done.
    destruct (rep_sub _ _ _ _ Hrep Hin) as (_ & Hc & _). pose proof (sc_match _ Hc) as Hmo. rewrite Forall_forall in Hmo.
    destruct (Hmo m ltac:(by apply list_elem_of_In)) as [-> _]. done.
  - intros (m & f & Hm & Hp & Hv & Hf & H1 & H2). pose proof Hm as Hall.
    apply in_concat in Hm as (ms & ([id st] & <- & Hin)%in_map_iff & Hm). cbn [snd] in Hm.
    destruct (st_matches_mask id st m Hin Hm) as [Hko Hkm]. destruct (rep_sub _ _ _ _ Hrep Hin) as (_ & Hc & Hmx).
    pose proof (sc_match _ Hc) as Hmo. pose proof (mx_le _ Hmx) as Hle. rewrite Forall_forall in Hmo, Hle.
    specialize (Hmo m ltac:(by apply list_elem_of_In)). specialize (Hle m ltac:(by apply list_elem_of_In)).
    exists (id, st). split; [split; [done|cbn; lia]|]. exists (cm_rule m). split; [apply (rules_list_in id st); [done|by exists m]|].
    cbn [snd]. rewrite !andb_true_iff, visible_in by done. split_and!; [|rewrite <- Hkm; apply overlap_iff; [done..|by exists f]|done].
    apply Z.eqb_eq. destruct Hmo as [<- _]. done.
Qed.

(** ** Iteration *)

Section Cursor.
Variable target : option cls_rule.

(** Whether a subtable can have rules for the target. *)
Definition sub_eligible (st : cls_subtable) : bool :=
  match target with
  | None => true
  | Some t => negb (minimask_has_extra (st_mask st) (mm_mask (cr_match t)))
  end.

(** The rules that are still to come from whole subtables. *)
Definition sub_rules (l : list (Z * cls_subtable)) : list cls_rule :=
  concat (map (fun e => if sub_eligible (snd e)
                        then List.filter (fun r => rule_matches cls r target version) (st_rules_list (snd e)) else []) l).

(** The rules that a cursor visits, its current one first. *)
Definition cursor_rest (c : cls_cursor) : list cls_rule :=
  match cc_rule c with
  | None => []
  | Some r => r :: List.filter (fun r => rule_matches cls r target version) (cc_rest c) ++ sub_rules (cc_subtables c)
  end.

Lemma next_rule_spec (rules : list cls_rule) :
  match next_rule cls target version rules with
  | Some (r, rest) => List.filter (fun r => rule_matches cls r target version) rules =
      r :: List.filter (fun r => rule_matches cls r target version) rest
  | None => List.filter (fun r => rule_matches cls r target version) rules = []
  end.
Proof. induction rules as [|r rules IH]; [done|]. cbn. by destruct (rule_matches cls r target version). Qed.

Lemma search_subtables_rest (l : list (Z * cls_subtable)) :
  let c := search_subtables cls target version l in
  cursor_rest c = sub_rules l /\ cc_target c = target /\ cc_version c = version.
Proof.
  induction l as [|[id st] l IH]; [done|]. cbn [search_subtables snd]. unfold search_subtable, sub_rules. cbn [map concat snd].
  fold (sub_rules l). fold (sub_eligible st). destruct (sub_eligible st); [|done].
  pose proof (next_rule_spec (st_rules_list st)) as Hn. destruct (next_rule _ _ _ _) as [[r rest]|]; rewrite Hn; [|done].
  split_and!; done.
Qed.

Lemma cursor_advance_rest (c : cls_cursor) (r : cls_rule) :
  cc_target c = target -> cc_version c = version -> cc_rule c = Some r ->
  let c' := cls_cursor_advance cls c in
  cursor_rest c = r :: cursor_rest c' /\ cc_target c' = target /\ cc_version c' = version.
Proof.
  intros Et Ev Er. unfold cls_cursor_advance. rewrite Et, Ev. unfold cursor_rest at 1. rewrite Er.
  pose proof (next_rule_spec (cc_rest c)) as Hn. destruct (next_rule _ _ _ _) as [[r' rest]|]; rewrite Hn.
  - split_and!; done.
  - destruct (search_subtables_rest (cc_subtables c)) as (-> & ? & ?). split_and!; done.
Qed.

Lemma cursor_rules_rest (fuel : nat) (c : cls_cursor) :
  cc_target c = target -> cc_version c = version -> (length (cursor_rest c) <= fuel)%nat ->
  cursor_rules fuel cls c = cursor_rest c.
Proof.
  revert c. induction fuel as [|fuel IH]; intros c Et Ev Hl.
  { cbn. symmetry. apply length_zero_iff_nil. lia. }
  cbn [cursor_rules]. destruct (cc_rule c) as [r|] eqn:Er; [|unfold cursor_rest; by rewrite Er].
  destruct (cursor_advance_rest c r Et Ev Er) as (E & Et' & Ev'). rewrite E in Hl |- *. cbn [length] in Hl.
  f_equal. apply IH; [done..|]. apply le_S_n. exact Hl.
Qed.

(** A match that the iteration is after. *)
Definition wanted (m : cls_match) : bool :=
  cls_match_visible_in_version m version &&
  match target with None => true | Some t => cls_rule_is_loose_match (cm_rule m) (cr_match t) end.

Lemma filter_map_comm {A B} (f : A -> B) (p : B -> bool) (l : list A) :
  List.filter p (map f l) = map f (List.filter (fun x => p (f x)) l).
Proof. induction l as [|x l IH]; [done|]. cbn. destruct (p (f x)); cbn; by rewrite IH. Qed.

Lemma filter_perm {A} (p : A -> bool) (l k : list A) : Permutation l k -> Permutation (List.filter p l) (List.filter p k).
Proof.
  induction 1 as [|x l k _ IH|x y l|]; cbn; [done| | |by etransitivity].
  - destruct (p x); [by apply perm_skip|done].
  - destruct (p x), (p y); try done. apply perm_swap.
Qed.

Lemma sub_rules_wanted (id : Z) (st : cls_subtable) :
  In (id, st) subs ->
  Permutation (if sub_eligible st then List.filter (fun r => rule_matches cls r target version) (st_rules_list st) else [])
    (map cm_rule (List.filter wanted (st_matches st))).
Proof.
  intros Hin. destruct (rep_sub _ _ _ _ Hrep Hin) as (_ & Hc & _).
  assert (forall m, In m (st_matches st) ->
    wanted m = sub_eligible st && rule_matches cls (cm_rule m) target version) as Hw.
  { intros m Hm. pose proof (st_matches_all id st m Hin Hm). destruct (st_matches_mask id st m Hin Hm) as [_ Hkm].
    unfold wanted, rule_matches, sub_eligible, cls_rule_is_loose_match. rewrite visible_in by done.
    destruct (cls_match_visible_in_version m version), target as [t|]; cbn; rewrite ?Hkm, ?andb_false_r; try done. }
  destruct (sub_eligible st).
  - etransitivity; [apply filter_perm, (sc_list _ Hc)|]. rewrite filter_map_comm.
    by erewrite List.filter_ext_in; [|intros m Hm; symmetry; apply (Hw m Hm)].
  - rewrite (List.filter_ext_in wanted (fun _ => false)); [|intros m Hm; apply (Hw m Hm)].
    induction (st_matches st) as [|m ms IH]; [done|]. apply IH. intros x Hx. apply Hw. by right.
Qed.

Lemma sub_rules_all : Permutation (sub_rules (sub_prefix INT_MIN vector)) (map cm_rule (List.filter wanted (all_matches subs))).
Proof.
  assert (forall l, (forall e, In e l -> In e subs) -> Permutation (sub_rules l) (map cm_rule (List.filter wanted (all_matches l)))) as H.
  { induction l as [|[id st] l IH]; intros Hl; [done|]. unfold sub_rules, all_matches. cbn [map concat snd].
    rewrite List.filter_app, map_app. apply Permutation_app; [apply (sub_rules_wanted id); apply Hl; by left|].
    apply IH. intros e He. apply Hl. by right. }
  etransitivity; [apply H; intros e He; by apply sub_prefix_in in He as [? _]|].
  apply Permutation_map, filter_perm. unfold all_matches. rewrite <- !flat_map_concat_map. apply Permutation_flat_map, sub_prefix_all.
Qed.
End Cursor.

Lemma catchall_loose (t : cls_rule) (r : cls_rule) :
  minimatch_wf (cr_match t) -> cls_rule_is_catchall t = true -> cls_rule_is_loose_match r (cr_match t) = true.
Proof.
  intros Ht Hc. unfold cls_rule_is_catchall, minimask_is_catchall in Hc.
  apply flowmap_is_empty_spec in Hc; [|apply (mwf_map _ (kwf_mf _ (mmwf_mask _ Ht)))].
  unfold cls_rule_is_loose_match, minimask_has_extra, miniflow_equal_in_minimask.
  rewrite !FLOWMAP_FOR_EACH_INDEX_spec, Hc by apply (mwf_map _ (kwf_mf _ (mmwf_mask _ Ht))). done.
Qed.

(** The loop over a cursor visits the visible rules that loosely match the target, each once. *)
Lemma cursor_ok (target : option cls_rule) (fuel : nat) :
  (forall t, target = Some t -> minimatch_wf (cr_match t)) -> (length (all_matches subs) <= fuel)%nat ->
  Permutation (cursor_rules fuel cls (cls_cursor_start cls target version))
    (map cm_rule (List.filter (wanted target) (all_matches subs))).
Proof.
  intros Ht Hfuel. unfold cls_cursor_start. cbn zeta. set (tg := t ← target; if cls_rule_is_catchall t then None else Some t).
  change (pvector_cursor_init (cls_subtables cls)) with (PvectorCursor 0 vector).
  rewrite pvector_subtables_prefix by (unfold pvector_count; lia). rewrite drop_0.
  destruct (search_subtables_rest tg (sub_prefix INT_MIN vector)) as (Er & Et & Ev).
  pose proof (sub_rules_all tg) as Hall. rewrite (cursor_rules_rest tg); [|done..|].
  - rewrite Er, Hall. unfold tg, wanted. destruct target as [t|]; [|done]. cbn [mbind option_bind].
    destruct (cls_rule_is_catchall t) eqn:Ec; [|done].
    erewrite List.filter_ext; [done|]. intros m. cbn beta. by rewrite (catchall_loose t) by auto.
  - rewrite Er, Hall, length_map. etransitivity; [apply List.filter_length_le|done].
Qed.

End Query.
