(* ===== verification/Conjunction.v ===== *)
(** * Conjunctive matches (lib/classifier.c, [find_conjunctive_match])

    A soft match with [conjunction(id, k/n)] stands for clause [k] of conjunction
    [id].  The search over the soft matches of one priority finds a conjunction
    exactly when all its clauses are there, as long as it has fewer than 64. *)

From S2P Require Import Prelude Util Classifier.
From stdpp Require Import prelude list gmap.
From Stdlib Require Import ZArith Lia.
Open Scope Z_scope.
Open Scope ovs_scope.

(** The loop over the soft matches of the highest priority, up to the first
    conjunction that is complete. *)
Fixpoint conj_scan (sets : list cls_conjunction_set) (max_n_clauses : Z) (matches : gmap Z Z) : option Z :=
  match sets with
  | [] => None
  | set :: sets =>
      match find_conjunctive_match set max_n_clauses matches with
      | (Some id, _) => Some id
      | (None, matches) => conj_scan sets max_n_clauses matches
      end
  end.

(** [c] is clause [k] of conjunction [id]. *)
Definition is_clause (id k : Z) (c : cls_conjunction) : Prop := cj_id c = id /\ cj_clause c = k.

Section Conj.
(** The number of clauses of each conjunction. *)
Variable n_clauses : Z -> Z.

Definition conj_ok (c : cls_conjunction) : Prop :=
  cj_n_clauses c = n_clauses (cj_id c) /\ 2 <= cj_n_clauses c < 64 /\ 0 <= cj_clause c < cj_n_clauses c.

Definition seen (cs : list cls_conjunction) (id k : Z) : Prop := exists c, In c cs /\ is_clause id k c.

(** Every clause of the conjunction is in [cs]. *)
Definition complete (cs : list cls_conjunction) (id : Z) : Prop :=
  2 <= n_clauses id /\ forall k, 0 <= k < n_clauses id -> seen cs id k.

(** The bits of [clauses] after the conjunctions [cs]: those from [n_clauses] on
    are set, and those of the clauses that were seen. *)
Definition clauses_ok (cs : list cls_conjunction) (id clauses : Z) : Prop :=
  in_width 64 clauses /\ forall k, 0 <= k < 64 -> Z.testbit clauses k = true <-> n_clauses id <= k \/ seen cs id k.

Definition matches_ok (cs : list cls_conjunction) (matches : gmap Z Z) : Prop :=
  Forall conj_ok cs /\
  forall id, match matches !! id with
    | Some v => (exists c, In c cs /\ cj_id c = id) /\ clauses_ok cs id v
    | None => forall c, In c cs -> cj_id c <> id
    end.

Lemma seen_snoc (cs : list cls_conjunction) (c : cls_conjunction) (id k : Z) :
  seen (cs ++ [c]) id k <-> seen cs id k \/ is_clause id k c.
Proof.
  unfold seen. split.
  - intros (x & [Hx|[<-|[]]]%in_app_or & ?); [left; by exists x|by right].
  - intros [(x & Hx & ?)|?]; [exists x|exists c]; split; try done; apply in_or_app; [by left|right; by left].
Qed.

Lemma seen_app_l (cs cs' : list cls_conjunction) (id k : Z) : seen cs id k -> seen (cs ++ cs') id k.
Proof. intros (c & Hc & ?). exists c. split; [|done]. apply in_or_app. by left. Qed.

(** The initial value of a conjunction. *)
Lemma initial_clauses (id : Z) (cs : list cls_conjunction) :
  2 <= n_clauses id < 64 -> (forall c, In c cs -> cj_id c <> id) ->
  clauses_ok cs id (u64 (Z.shiftl UINT64_MAX (Z.land (n_clauses id) 63))).
Proof.
  intros Hn Hno. assert (Z.land (n_clauses id) 63 = n_clauses id) as ->.
  { change 63 with (Z.ones 6). rewrite Z.land_ones, Z.mod_small; lia. }
  split; [apply wrap_width; lia|]. intros k Hk. rewrite wrap_testbit by lia.
  destruct (Z.ltb_spec k 64); [|lia]. rewrite Z.shiftl_spec by lia.
  change UINT64_MAX with (Z.ones 64). rewrite Z.testbit_ones by lia.
  destruct (Z.leb_spec 0 (k - n_clauses id)), (Z.ltb_spec (k - n_clauses id) 64); cbn; try lia.
  split; [done|]. intros [?|(c & Hc & E & _)]; [lia|]. by apply Hno in Hc.
Qed.

(** Adding the clause [c]. *)
Lemma add_clause (cs : list cls_conjunction) (c : cls_conjunction) (v : Z) :
  conj_ok c -> clauses_ok cs (cj_id c) v ->
  clauses_ok (cs ++ [c]) (cj_id c) (Z.lor v (u64 (Z.shiftl 1 (cj_clause c)))).
Proof.
  intros (_ & Hn & Hk) [Hw Hv].
  assert (forall k, 0 <= k < 64 -> Z.testbit (u64 (Z.shiftl 1 (cj_clause c))) k = (cj_clause c =? k)) as Hbit.
  { intros k Hk'. rewrite wrap_testbit by lia. destruct (Z.ltb_spec k 64); [|lia].
    by rewrite Z.shiftl_1_l, Z.pow2_bits_eqb by lia. }
  split; [apply in_width_lor; [lia|done|apply wrap_width; lia]|]. intros k Hk'.
  rewrite Z.lor_spec, Hbit, orb_true_iff, Hv, seen_snoc, Z.eqb_eq by done. unfold is_clause. tauto.
Qed.

Lemma clauses_other (cs : list cls_conjunction) (c : cls_conjunction) (id v : Z) :
  cj_id c <> id -> clauses_ok cs id v -> clauses_ok (cs ++ [c]) id v.
Proof.
  intros Hne [Hw Hv]. split; [done|]. intros k Hk. rewrite Hv, seen_snoc by done. unfold is_clause. tauto.
Qed.

Lemma all_ones (v : Z) : in_width 64 v -> v = UINT64_MAX <-> forall k, 0 <= k < 64 -> Z.testbit v k = true.
Proof.
  intros Hw. change UINT64_MAX with (Z.ones 64). split.
  - intros ->. intros k Hk. rewrite Z.testbit_ones by lia. destruct (Z.leb_spec 0 k), (Z.ltb_spec k 64); lia.
  - intros H. apply Z.bits_inj'. intros k Hk. rewrite Z.testbit_ones by lia.
    destruct (Z.leb_spec 0 k); [|lia]. destruct (Z.ltb_spec k 64); [by apply H|]. by apply (in_width_high 64).
Qed.

Lemma clauses_complete (cs : list cls_conjunction) (id v : Z) :
  2 <= n_clauses id < 64 -> clauses_ok cs id v -> v = UINT64_MAX <-> complete cs id.
Proof.
  intros Hn [Hw Hv]. rewrite all_ones by done. unfold complete. split.
  - intros H. split; [lia|]. intros k Hk. specialize (H k ltac:(lia)). apply Hv in H as [?|?]; [lia|done|lia].
  - intros [_ H] k Hk. apply Hv; [done|]. destruct (Z.le_gt_cases (n_clauses id) k); [by left|]. right. apply H. lia.
Qed.

(** The conjunctions of a set that are not skipped. *)
Definition usable_conjs (max : Z) (cs : list cls_conjunction) : list cls_conjunction :=
  List.filter (fun c => cj_n_clauses c <=? max) cs.

Lemma loop_step (cs : list cls_conjunction) (c : cls_conjunction) (matches : gmap Z Z) :
  let clauses := Z.lor (default (u64 (Z.shiftl UINT64_MAX (Z.land (cj_n_clauses c) 63))) (matches !! cj_id c))
                   (u64 (Z.shiftl 1 (cj_clause c))) in
  conj_ok c -> matches_ok cs matches ->
  clauses_ok (cs ++ [c]) (cj_id c) clauses /\ matches_ok (cs ++ [c]) (<[cj_id c := clauses]> matches).
Proof.
  intros clauses Hc [Hall Hm]. pose proof Hc as (En & Hn & _).
  assert (clauses_ok cs (cj_id c) (default (u64 (Z.shiftl UINT64_MAX (Z.land (cj_n_clauses c) 63))) (matches !! cj_id c))) as Hv.
  { specialize (Hm (cj_id c)). destruct (matches !! cj_id c) as [v|]; [apply Hm|]. cbn. rewrite En. apply initial_clauses; [lia|done]. }
  pose proof (add_clause cs c _ Hc Hv) as Ha. split; [exact Ha|]. split; [apply Forall_app; by split; [|constructor]|].
  intros id. destruct (decide (cj_id c = id)) as [<-|Hne].
  - rewrite lookup_insert_eq. split; [|exact Ha]. exists c. split; [apply in_or_app; right; by left|done].
  - rewrite lookup_insert_ne by done. specialize (Hm id). destruct (matches !! id) as [v|].
    + destruct Hm as [(x & Hx & ?) Hok]. split; [exists x; split; [apply in_or_app; by left|done]|by apply clauses_other].
    + intros x [Hx|[<-|[]]]%in_app_or; [by apply Hm|done].
Qed.

Lemma loop_ok (conjs cs : list cls_conjunction) (max : Z) (matches : gmap Z Z) :
  Forall conj_ok conjs -> matches_ok cs matches -> (forall id, ~ complete cs id) ->
  match find_conjunctive_match_loop conjs max matches with
  | (Some id, _) => complete (cs ++ usable_conjs max conjs) id
  | (None, matches') => matches_ok (cs ++ usable_conjs max conjs) matches' /\
      forall id, ~ complete (cs ++ usable_conjs max conjs) id
  end.
Proof.
  intros Hc. revert cs matches. induction Hc as [|c conjs Hc Hcs IH]; intros cs matches Hm Hno.
  { cbn. by rewrite app_nil_r. }
  cbn [find_conjunctive_match_loop usable_conjs List.filter]. rewrite Z.leb_antisym.
  destruct (Z.ltb_spec max (cj_n_clauses c)) as [Hlt|Hge]; cbn [negb]; [by apply IH|].
  destruct (loop_step cs c matches Hc Hm) as [Hcl Hm']. set (clauses := Z.lor _ _) in *. cbn zeta in *.
  change (cs ++ c :: ?l) with (cs ++ [c] ++ l). rewrite app_assoc.
  pose proof Hc as (En & Hn & _). pose proof (clauses_complete (cs ++ [c]) (cj_id c) clauses ltac:(lia) Hcl) as Hiff.
  destruct (Z.eqb_spec clauses UINT64_MAX) as [E|E].
  - apply Hiff in E as [H2 Hk]. split; [done|]. intros k Hk'. by apply seen_app_l, Hk.
  - apply IH; [done|]. intros id [H2 Hk]. destruct (decide (cj_id c = id)) as [<-|Hne]; [apply E, Hiff; by split|].
    apply (Hno id). split; [done|]. intros k Hk'. specialize (Hk k Hk'). apply seen_snoc in Hk as [?|[? _]]; [done|done].
Qed.

(** [min_n_clauses] is a lower bound, as [cls_conjunction_set_alloc] makes it. *)
Definition set_ok (s : cls_conjunction_set) : Prop :=
  Forall conj_ok (cs_conj s) /\ Forall (fun c => cs_min_n_clauses s <= cj_n_clauses c) (cs_conj s).

Lemma find_conjunctive_match_ok (s : cls_conjunction_set) (cs : list cls_conjunction) (max : Z) (matches : gmap Z Z) :
  set_ok s -> matches_ok cs matches -> (forall id, ~ complete cs id) ->
  match find_conjunctive_match s max matches with
  | (Some id, _) => complete (cs ++ usable_conjs max (cs_conj s)) id
  | (None, matches') => matches_ok (cs ++ usable_conjs max (cs_conj s)) matches' /\
      forall id, ~ complete (cs ++ usable_conjs max (cs_conj s)) id
  end.
Proof.
  intros [Hall Hmin] Hm Hno. unfold find_conjunctive_match. destruct (Z.ltb_spec max (cs_min_n_clauses s)); [|by apply loop_ok].
  assert (usable_conjs max (cs_conj s) = []) as ->; [|by rewrite app_nil_r].
  clear -Hmin H. unfold usable_conjs. induction Hmin as [|c l Hc Hl IH]; [done|]. cbn.
  destruct (Z.leb_spec (cj_n_clauses c) max); [lia|done].
Qed.

Lemma conj_scan_ok (sets : list cls_conjunction_set) (cs : list cls_conjunction) (max : Z) (matches : gmap Z Z) :
  Forall set_ok sets -> matches_ok cs matches -> (forall id, ~ complete cs id) ->
  match conj_scan sets max matches with
  | Some id => complete (cs ++ usable_conjs max (concat (map cs_conj sets))) id
  | None => forall id, ~ complete (cs ++ usable_conjs max (concat (map cs_conj sets))) id
  end.
Proof.
  intros Hs. revert cs matches. induction Hs as [|s sets Hs Hss IH]; intros cs matches Hm Hno.
  { cbn. by rewrite app_nil_r. }
  cbn [conj_scan map concat]. unfold usable_conjs. rewrite List.filter_app, app_assoc. fold (usable_conjs max (cs_conj s)).
  fold (usable_conjs max (concat (map cs_conj sets))).
  pose proof (find_conjunctive_match_ok s cs max matches Hs Hm Hno) as Hf.
  destruct (find_conjunctive_match s max matches) as [[id|] matches'].
  - destruct Hf as [H2 Hk]. split; [done|]. intros k Hk'. by apply seen_app_l, Hk.
  - destruct Hf as [Hm' Hno']. by apply IH.
Qed.

(** The clauses of [id] in each set; a soft match has at most one per conjunction. *)
Definition one_per_set (s : cls_conjunction_set) : Prop :=
  forall c c', In c (cs_conj s) -> In c' (cs_conj s) -> cj_id c = cj_id c' -> c = c'.

(** So a complete conjunction has no more clauses than there are sets. *)
Lemma complete_bound (sets : list cls_conjunction_set) (id : Z) :
  Forall one_per_set sets -> complete (concat (map cs_conj sets)) id -> n_clauses id <= Z.of_nat (length sets).
Proof.
  intros Hone [H2 Hk].
  set (f := fun s : cls_conjunction_set => match List.find (fun c => cj_id c =? id) (cs_conj s) with Some c => cj_clause c | None => -1 end).
  assert (length (seqZ 0 (n_clauses id)) <= length (map f sets))%nat as Hl.
  { apply List.NoDup_incl_length; [apply NoDup_ListNoDup, NoDup_seqZ|]. intros k Hin%list_elem_of_In%elem_of_seqZ.
    destruct (Hk k ltac:(lia)) as (c & Hc & Hid & Hcl). apply in_concat in Hc as (l & Hl & Hc). apply in_map_iff in Hl as (s & <- & Hs).
    apply in_map_iff. exists s. split; [|done]. unfold f. destruct (List.find _ _) as [c'|] eqn:E.
    - apply List.find_some in E as [Hc' Hid'%Z.eqb_eq]. rewrite Forall_forall in Hone.
      specialize (Hone s ltac:(by apply list_elem_of_In) c c' Hc Hc' ltac:(congruence)). by subst c'.
    - apply (List.find_none _ _ E) in Hc. apply Z.eqb_neq in Hc. done. }
  rewrite length_seqZ, length_map in Hl. lia.
Qed.

(** With the number of sets as the bound, nothing complete is skipped. *)
Lemma complete_usable (sets : list cls_conjunction_set) (id : Z) :
  Forall set_ok sets -> Forall one_per_set sets ->
  complete (usable_conjs (Z.of_nat (length sets)) (concat (map cs_conj sets))) id <-> complete (concat (map cs_conj sets)) id.
Proof.
  intros Hs Hone. split.
  - intros [H2 Hk]. split; [done|]. intros k Hk'. destruct (Hk k Hk') as (c & Hc & ?). exists c. split; [|done].
    by apply List.filter_In in Hc as [? _].
  - intros Hc. pose proof (complete_bound sets id Hone Hc) as Hb. destruct Hc as [H2 Hk]. split; [done|].
    intros k Hk'. destruct (Hk k Hk') as (c & Hc & Hid & ?). exists c. split; [|done]. apply List.filter_In. split; [done|].
    apply Z.leb_le. apply in_concat in Hc as (l & Hl & Hc). apply in_map_iff in Hl as (s & <- & Hs').
    rewrite Forall_forall in Hs. destruct (Hs s ltac:(by apply list_elem_of_In)) as [Hall _]. rewrite Forall_forall in Hall.
    destruct (Hall c ltac:(by apply list_elem_of_In)) as (En & _). rewrite En, Hid. done.
Qed.
End Conj.

(** ** Properties *)

(** C12: the search over the soft matches of one priority finds a conjunction only if
    all its clauses are among them, and finds one whenever there is one, for
    conjunctions of fewer than 64 clauses.  The bound that lets it skip
    conjunctions, the number of soft matches, skips none that is complete. *)
Theorem conj_scan_exact (n_clauses : Z -> Z) (sets : list cls_conjunction_set) :
  Forall (set_ok n_clauses) sets -> Forall one_per_set sets ->
  match conj_scan sets (Z.of_nat (length sets)) ∅ with
  | Some id => complete n_clauses (concat (map cs_conj sets)) id
  | None => forall id, ~ complete n_clauses (concat (map cs_conj sets)) id
  end.
Proof.
  intros Hs Hone. pose proof (conj_scan_ok n_clauses sets [] (Z.of_nat (length sets)) ∅ Hs) as H. cbn [app] in H.
  assert (forall id, ~ complete n_clauses [] id) as Hno.
  { intros id [H2 Hk]. destruct (Hk 0 ltac:(lia)) as (c & [] & _). }
  specialize (H ltac:(split; [constructor|intros id; by rewrite lookup_empty]) Hno).
  destruct (conj_scan _ _ _) as [id|]; [by apply complete_usable|]. intros id Hc. apply (H id). by apply complete_usable.
Qed.

(** Three soft matches: clauses 1/2 of conjunction 7 and 1/3 of 9, 2/2 of 7, 2/3 of 9. *)
Definition demo_sets : list cls_conjunction_set :=
  [ ClsConjunctionSet 100 2 [ClsConjunction 7 0 2; ClsConjunction 9 0 3];
    ClsConjunctionSet 100 3 [ClsConjunction 9 1 3];
    ClsConjunctionSet 100 2 [ClsConjunction 7 1 2] ].

Lemma conj_scan_exact_witness :
  let n_clauses := fun id => if id =? 7 then 2 else 3 in
  match conj_scan demo_sets 3 ∅ with
  | Some id => complete n_clauses (concat (map cs_conj demo_sets)) id
  | None => forall id, ~ complete n_clauses (concat (map cs_conj demo_sets)) id
  end.
Proof.
  apply (conj_scan_exact _ demo_sets).
  - repeat constructor; cbn; lia.
  - repeat constructor; intros c c' Hc Hc'; cbn in Hc, Hc'; intuition; subst; cbn in *; congruence.
Defined.

(** a conjunction may have up to 64 clauses, but with 64 the shift count of the
    initial value wraps to 0 and all bits start out set: 64 soft matches that are
    all clause 1/64 make the search report the conjunction as complete. *)
Theorem conj_scan_64_clauses :
  let sets := replicate 64 (ClsConjunctionSet 100 64 [ClsConjunction 7 0 64]) in
  conj_scan sets (Z.of_nat (length sets)) ∅ = Some 7 /\ ~ seen (concat (map cs_conj sets)) 7 1.
Proof.
  cbn zeta. split; [by vm_compute|]. intros (c & Hc & _ & E). apply in_concat in Hc as (l & Hl & Hc).
  apply in_map_iff in Hl as (s & <- & Hs). apply list_elem_of_In, elem_of_replicate in Hs as [-> _]. destruct Hc as [<-|[]]. discriminate E.
Qed.
