(* ===== verification/ClassifierProps.v ===== *)
(** * What the classifier promises

    The classifier refines a plain collection of rules: every sequence of calls runs
    without a failed assertion and keeps the collection that the calls describe.  In
    every state that can be reached this way, lookups, searches and iterations
    answer by that collection alone. *)

From S2P Require Import Prelude Util Flowmap Hash Miniflow MetaFlow Trie FlowBits Versions Pvector Classifier.
From S2P Require Import Subtable ClassifierInv ClassifierLookup ClassifierUpdate ClassifierRemove ClassifierOps ClassifierQuery.
From stdpp Require Import prelude list sorting gmap.
From Stdlib Require Import ZArith Lia.
Open Scope Z_scope.
Open Scope ovs_scope.

(** ** Calls *)

Inductive cls_op :=
| OpReplace (rule : cls_rule) (version : Z) (conjs : list cls_conjunction)
| OpRemove (rule : cls_rule)
| OpMakeInvisible (rule : cls_rule) (version : Z)
| OpRestoreVisibility (rule : cls_rule)
| OpSetConjunctions (rule : cls_rule) (conjs : list cls_conjunction)
| OpDefer
| OpPublish
| OpSetPrefixFields (fields : list Z).

Inductive cls_res := ResNone | ResRule (displaced : option cls_rule) | ResBool (b : bool).

Section Calls.
Context `{HH : Hash} `{QQ : Qsort} (mf_from_id : Z -> mf_field).

(** [None] is a failed assertion. *)
Definition cls_exec (cls : classifier) (op : cls_op) : option (classifier * cls_res) :=
  match op with
  | OpReplace rule version conjs =>
      '(cls, old) ← classifier_replace cls rule version conjs; Some (cls, ResRule old)
  | OpRemove rule => '(cls, b) ← classifier_remove cls rule; Some (cls, ResBool b)
  | OpMakeInvisible rule version => cls ← cls_rule_make_invisible_in_version cls rule version; Some (cls, ResNone)
  | OpRestoreVisibility rule => cls ← cls_rule_restore_visibility cls rule; Some (cls, ResNone)
  | OpSetConjunctions rule conjs => cls ← cls_rule_set_conjunctions cls rule conjs; Some (cls, ResNone)
  | OpDefer => Some (classifier_defer cls, ResNone)
  | OpPublish => Some (classifier_publish cls, ResNone)
  | OpSetPrefixFields fields =>
      '(cls, b) ← classifier_set_prefix_fields cls mf_from_id fields; Some (cls, ResBool b)
  end.

(** The collection of rules, each with its versions and conjunctions, after a call. *)
Definition abs_exec (op : cls_op) (res : cls_res) (ms : list cls_match) : list cls_match :=
  match op, res with
  | OpReplace rule version conjs, ResRule (Some old) =>
      new_match rule version conjs :: List.filter (fun m => negb (match_id m =? cr_id old)) ms
  | OpReplace rule version conjs, _ => new_match rule version conjs :: ms
  | OpRemove rule, _ => List.filter (fun m => negb (match_id m =? cr_id rule)) ms
  | OpMakeInvisible rule version, _ => map (upd_match rule (fun m => cls_match_set_remove_version m version)) ms
  | OpRestoreVisibility rule, _ =>
      map (upd_match rule (fun m => cls_match_set_remove_version m OVS_VERSION_NOT_REMOVED)) ms
  | OpSetConjunctions rule conjs, _ => map (upd_match rule (set_conj_set conjs)) ms
  | _, _ => ms
  end.

(** What the comments of lib/classifier.c ask of the caller: a rule to insert is not
    in the classifier; a rule to change is; a rule to remove is not some other
    rule's memory.  Counters of rules are of type [int]. *)
Definition op_ok (op : cls_op) (ms : list cls_match) : Prop :=
  match op with
  | OpReplace rule _ _ =>
      rule_ok rule /\ ~ In (cr_id rule) (map match_id ms) /\ Z.of_nat (length ms) < 2 ^ 31 - 1
  | OpRemove rule => forall m, In m ms -> match_id m = cr_id rule -> cm_rule m = rule
  | OpMakeInvisible rule version => exists m, In m ms /\ cm_rule m = rule /\ add_version (cm_versions m) <= version
  | OpRestoreVisibility rule | OpSetConjunctions rule _ => exists m, In m ms /\ cm_rule m = rule
  | _ => True
  end.

(** ** Reachable states *)

(** The collection of rules is part of the state; it never exceeds an [int]. *)
Inductive reachable : classifier -> list cls_match -> Prop :=
| reach_init flow_segments :
    segments_ok 0 (read_flow_segments CLS_MAX_INDICES flow_segments) ->
    reachable (classifier_init_tss flow_segments) []
| reach_step cls ms op cls' res :
    reachable cls ms -> op_ok op ms -> cls_exec cls op = Some (cls', res) -> reachable cls' (abs_exec op res ms).

(** The fields that can be in a trie have 32-bit words in the flow, at most 128 bits. *)
Hypothesis Hfields : forall id, usable mf_from_id id = true -> field_ok (mf_from_id id).

(** ** One call *)

Definition stands_for (cls : classifier) (ms : list cls_match) : Prop :=
  exists subs, cls_rep cls subs /\ Permutation (all_matches subs) ms /\ Z.of_nat (length ms) < 2 ^ 31.

Lemma stands_nodup (cls : classifier) (ms : list cls_match) : stands_for cls ms -> NoDup (map match_id ms).
Proof. intros (subs & Hrep & Hp & _). rewrite <- Hp. apply Hrep. Qed.

Lemma op_in (ms : list cls_match) (subs : list (Z * cls_subtable)) (m : cls_match) :
  Permutation (all_matches subs) ms -> In m ms -> In m (all_matches subs).
Proof. intros Hp. by apply Permutation_in. Qed.

Lemma upd_perm (ms ms' rest : list cls_match) (m : cls_match) (f : cls_match -> cls_match) :
  NoDup (map match_id ms) -> Permutation ms (m :: rest) -> Permutation ms' (f m :: rest) ->
  Permutation ms' (map (upd_match (cm_rule m) f) ms).
Proof. intros Hnd P1 P2. rewrite (upd_match_perm ms rest m f Hnd P1). done. Qed.

Lemma updated_stands (cls : classifier) (subs : list (Z * cls_subtable)) (ms : list cls_match) (m : cls_match)
    (f : cls_match -> cls_match) :
  NoDup (map match_id ms) -> Permutation (all_matches subs) ms -> Z.of_nat (length ms) < 2 ^ 31 ->
  updated m f cls (all_matches subs) -> stands_for cls (map (upd_match (cm_rule m) f) ms).
Proof.
  intros Hnd Hp Hl (subs' & rest & Hr & P1 & P2). exists subs'. split_and!; [done| |by rewrite length_map].
  apply (upd_perm ms _ rest); [done| |done]. by rewrite <- Hp.
Qed.

Lemma filter_without (ms rest : list cls_match) (m : cls_match) :
  NoDup (map match_id ms) -> Permutation ms (m :: rest) ->
  Permutation (List.filter (fun x => negb (match_id x =? match_id m)) ms) rest.
Proof.
  intros Hnd Hp. apply (Permutation_cons_inv (a := m)). rewrite <- Hp. symmetry. apply filter_out_perm; [done|].
  apply (Permutation_in _ (Permutation_sym Hp)). by left.
Qed.

Lemma replace_stands (cls : classifier) (ms : list cls_match) (rule : cls_rule) (version : Z) (conjs : list cls_conjunction) :
  stands_for cls ms -> op_ok (OpReplace rule version conjs) ms ->
  exists cls' old, classifier_replace cls rule version conjs = Some (cls', old) /\
    stands_for cls' (abs_exec (OpReplace rule version conjs) (ResRule old) ms).
Proof.
  intros Hs (Hr & Hfresh & Hn). pose proof (stands_nodup _ _ Hs) as Hnd. destruct Hs as (subs & Hrep & Hp & Hl).
  destruct (classifier_replace_ok rule version conjs Hr cls subs Hrep) as (cls' & old & subs' & E & Hrep' & Heff).
  - by rewrite Hp.
  - rewrite (cp_count _ _ Hrep), Hp. lia.
  - exists cls', old. split; [done|]. exists subs'. split; [done|]. destruct old as [r|]; cbn [abs_exec].
    + destruct Heff as (m & rest & -> & _ & _ & _ & P1 & P2). rewrite Hp in P1.
      change (cr_id (cm_rule m)) with (match_id m). pose proof (filter_without ms rest m Hnd P1) as Hf. split.
      * by rewrite P2, Hf.
      * cbn [length]. rewrite Hf. rewrite P1 in Hl. cbn [length] in Hl. lia.
    + split; [by rewrite Heff, Hp|]. cbn [length]. lia.
Qed.

Lemma remove_stands (cls : classifier) (ms : list cls_match) (rule : cls_rule) :
  stands_for cls ms -> op_ok (OpRemove rule) ms ->
  exists cls' b, classifier_remove cls rule = Some (cls', b) /\
    stands_for cls' (abs_exec (OpRemove rule) (ResBool b) ms) /\ (b = true <-> In (cr_id rule) (map match_id ms)).
Proof.
  intros Hs Hok. pose proof (stands_nodup _ _ Hs) as Hnd. destruct Hs as (subs & Hrep & Hp & Hl). cbn [op_ok abs_exec] in *.
  destruct (in_dec Z.eq_dec (cr_id rule) (map match_id ms)) as [Hin|Hout].
  - apply in_map_iff in Hin as Hm. destruct Hm as (m & E & Hm). pose proof (Hok m Hm E) as <-.
    destruct (classifier_remove_ok cls subs m Hrep (op_in ms subs m Hp Hm)) as (cls' & subs' & Er & Hrep' & P).
    { rewrite (cp_count _ _ Hrep), Hp. lia. }
    exists cls', true. split; [done|]. split; [|done]. exists subs'. split; [done|]. rewrite Hp in P.
    pose proof (filter_without ms _ m Hnd P) as Hf. unfold match_id at 2 in Hf. split; [by rewrite Hf|].
    pose proof (List.filter_length_le (fun x => negb (match_id x =? cr_id (cm_rule m))) ms). lia.
  - exists cls, false. unfold classifier_remove. rewrite (get_cls_match_out cls subs) by (done || by rewrite Hp).
    split; [done|]. split; [|done]. rewrite filter_all_in; [by exists subs|]. intros m Hm. apply negb_true_iff, Z.eqb_neq.
    intros E. apply Hout. rewrite <- E. by apply in_map.
Qed.

Lemma exec_stands (cls : classifier) (ms : list cls_match) (op : cls_op) :
  stands_for cls ms -> op_ok op ms ->
  exists cls' res, cls_exec cls op = Some (cls', res) /\ stands_for cls' (abs_exec op res ms).
Proof.
  intros Hs Hok. destruct op as [rule v conjs|rule|rule v|rule|rule conjs| | |fields]; cbn [cls_exec].
  - destruct (replace_stands cls ms rule v conjs Hs Hok) as (cls' & old & -> & H). eexists _, _. split; [reflexivity|done].
  - destruct (remove_stands cls ms rule Hs Hok) as (cls' & b & -> & H & _). eexists _, _. split; [reflexivity|done].
  - pose proof (stands_nodup _ _ Hs) as Hnd. destruct Hs as (subs & Hrep & Hp & Hl). destruct Hok as (m & Hm & <- & Hv).
    destruct (make_invisible_ok cls subs m v Hrep (op_in ms subs m Hp Hm) Hv) as (cls' & -> & Hu).
    eexists _, _. split; [reflexivity|]. by eapply updated_stands.
  - pose proof (stands_nodup _ _ Hs) as Hnd. destruct Hs as (subs & Hrep & Hp & Hl). destruct Hok as (m & Hm & <-).
    destruct (restore_visibility_ok cls subs m Hrep (op_in ms subs m Hp Hm)) as (cls' & -> & Hu).
    eexists _, _. split; [reflexivity|]. by eapply updated_stands.
  - pose proof (stands_nodup _ _ Hs) as Hnd. destruct Hs as (subs & Hrep & Hp & Hl). destruct Hok as (m & Hm & <-).
    destruct (set_conjunctions_ok cls subs m conjs Hrep (op_in ms subs m Hp Hm)) as (cls' & -> & Hu).
    eexists _, _. split; [reflexivity|]. by eapply updated_stands.
  - destruct Hs as (subs & Hrep & ?). eexists _, _. split; [reflexivity|]. exists subs. split; [by apply classifier_defer_rep|done].
  - destruct Hs as (subs & Hrep & ?). eexists _, _. split; [reflexivity|]. exists subs. split; [by apply classifier_publish_rep|done].
  - destruct Hs as (subs & Hrep & Hp & Hl).
    destruct (set_prefix_fields_ok mf_from_id Hfields cls subs fields Hrep) as (cls' & subs' & b & -> & Hrep' & Em & _).
    eexists _, _. split; [reflexivity|]. exists subs'. cbn [abs_exec]. by rewrite Em.
Qed.

Lemma reachable_stands (cls : classifier) (ms : list cls_match) : reachable cls ms -> stands_for cls ms.
Proof.
  induction 1 as [segs Hsegs|cls ms op cls' res _ IH Hok E].
  - exists []. split_and!; [by apply classifier_init_rep|done|done].
  - destruct (exec_stands cls ms op IH Hok) as (cls'' & res' & E' & H). rewrite E in E'. by injection E' as <- <-.
Qed.

(** In a state where changes are published as they are made, readers see all of them. *)
Lemma reachable_rep (cls : classifier) (ms : list cls_match) :
  reachable cls ms -> cls_publish cls = true ->
  exists subs, cls_rep cls subs /\ pv_temp (cls_subtables cls) = None /\ Permutation (all_matches subs) ms.
Proof.
  intros Hr Hpub. destruct (reachable_stands cls ms Hr) as (subs & Hrep & Hp & _). exists subs.
  split_and!; [done|by apply (cp_pub _ _ Hrep)|done].
Qed.
End Calls.

(** ** Sample states for the witnesses *)

Section Calls.
Context `{HH : Hash} `{QQ : Qsort} (mf_from_id : Z -> mf_field).
Hypothesis Hfields : forall id, usable mf_from_id id = true -> field_ok (mf_from_id id).

(** A call, with the collection that goes with it. *)
Definition call (st : classifier * list cls_match) (op : cls_op) : classifier * list cls_match :=
  match cls_exec mf_from_id (fst st) op with
  | Some (cls, res) => (cls, abs_exec op res (snd st))
  | None => st
  end.

Lemma call_reachable (st : classifier * list cls_match) (op : cls_op) :
  reachable mf_from_id (fst st) (snd st) -> op_ok op (snd st) ->
  reachable mf_from_id (fst (call st op)) (snd (call st op)).
Proof.
  intros Hr Hok. destruct (exec_stands mf_from_id Hfields (fst st) (snd st) op) as (cls' & res & E & _);
    [by apply (reachable_stands mf_from_id Hfields)|done|].
  unfold call. rewrite E. by eapply reach_step.
Qed.
End Calls.

(** [nw_src] and [nw_dst]. *)
Definition demo_field (id : Z) : mf_field :=
  MfField id 4 32 MFP_IPV4 (Some (if id =? 1 then 128%nat else 129%nat)).

Lemma demo_field_ok (id : Z) : usable demo_field id = true -> field_ok (demo_field id).
Proof.
  intros _. split; [done|done|cbn; lia|]. unfold be32ofs_of, demo_field, FLOW_BITS, FLOW_U64S. cbn -[Nat.mul]. destruct (id =? 1); lia.
Qed.

(** A rule on IPv4 packets to a prefix of addresses. *)
Definition demo_rule (id priority dst mask : Z) : cls_rule :=
  cls_rule_init id (Match (flow_of [(60%nat, 0x08000000); (64%nat, dst)])
                          (flow_of [(60%nat, 0xffff0000); (64%nat, mask)])) priority.

Lemma rule_init_ok (id : Z) (m : match_) (priority : Z) :
  flow_wf (m_flow m) -> flow_wf (m_wc m) -> flow_equal_except (m_flow m) (flow_wildcards_and (m_flow m) (m_wc m))
    (replicate FLOW_U64S UINT64_MAX) = true -> INT_MIN < priority -> rule_ok (cls_rule_init id m priority).
Proof.
  intros Hf Hw He Hp. split; [|done]. pose proof (minimatch_init_wf m Hf Hw) as Hwf. split; [exact Hwf|].
  intros i Hi. cbn [cls_rule_init cr_match] in *. destruct (decide (i < FLOW_BITS)%nat) as [Hlt|Hge].
  2: { apply fbit_out; [apply expand_wf; eauto with ovs|lia]. }
  assert (i / 64 < FLOW_U64S)%nat as Hk by (apply Nat.Div0.div_lt_upper_bound; unfold FLOW_BITS in Hlt; lia).
  pose proof (Nat.mod_upper_bound i 64 ltac:(lia)) as Hmod.
  unfold fbit in *. rewrite expand_nth in * by eauto with ovs. destruct (minimatch_init_get m (i / 64)%nat Hk) as [Em Ef].
  rewrite Em in Hi. rewrite Ef. destruct (_ =? 0); [apply Z.bits_0|].
  apply flow_equal_except_agree in He; [|split; [apply length_replicate|apply Forall_replicate; unfold in_width, UINT64_MAX; lia]].
  specialize (He i). unfold fbit in He. rewrite He.
  - unfold flow_wildcards_and. rewrite nth_map_seq by done. cbn [Nat.add]. by rewrite Z.land_spec, Hi, andb_false_r.
  - rewrite nth_lookup, lookup_replicate_2 by done. cbn. change UINT64_MAX with (Z.ones 64). apply Z.ones_spec_low. lia.
Qed.

(** A classifier with a trie on [nw_dst] and four rules: to 10/8 with priority 10, to
    10.1/16 with priority 20, to 10.1.2.3 with priority 30 but hidden from version
    5 on, and to 192.168/16 with priority 20. *)
Definition demo_ops : list cls_op :=
  [ OpSetPrefixFields [2];
    OpReplace (demo_rule 1 10 0x0a000000 0xff000000) 1 [];
    OpReplace (demo_rule 2 20 0x0a010000 0xffff0000) 1 [];
    OpReplace (demo_rule 3 30 0x0a010203 0xffffffff) 2 [];
    OpReplace (demo_rule 4 20 0xc0a80000 0xffff0000) 1 [];
    OpMakeInvisible (demo_rule 3 30 0x0a010203 0xffffffff) 5 ].

Definition demo : classifier * list cls_match :=
  foldl (call demo_field) (classifier_init_tss flow_segment_u64s, []) demo_ops.

(** A packet to 10.1.2.3. *)
Definition demo_flow : flow := flow_of [(60%nat, 0x08000000); (64%nat, 0x0a010203); (82%nat, 0x1f900050)].

Lemma demo_rule_ok (id priority dst mask : Z) :
  0 <= dst < 2 ^ 32 -> 0 <= mask < 2 ^ 32 -> Z.land dst mask = dst -> INT_MIN < priority ->
  rule_ok (demo_rule id priority dst mask).
Proof.
  intros Hd Hm Hl Hp. assert (forall a b, 0 <= a < 2 ^ 64 -> 0 <= b < 2 ^ 64 -> flow_wf (flow_of [(60%nat, a); (64%nat, b)])) as Hwf.
  { intros a b Ha Hb. split; [done|]. cbn.
    repeat (apply Forall_cons; split; [unfold in_width; lia|]); apply Forall_nil. by constructor. }
  apply rule_init_ok; cbn [m_flow m_wc]; [apply Hwf; lia|apply Hwf; lia| |done].
  unfold flow_equal_except. apply forallb_seq. intros i Hi. apply Z.eqb_eq.
  unfold flow_wildcards_and. rewrite nth_map_seq by done. cbn [Nat.add].
  assert (Z.land (nth i (flow_of [(60%nat, 0x08000000); (64%nat, dst)]) 0) (nth i (flow_of [(60%nat, 0xffff0000); (64%nat, mask)]) 0) =
    nth i (flow_of [(60%nat, 0x08000000); (64%nat, dst)]) 0) as ->; [|by rewrite Z.lxor_nilpotent].
  do 84 (destruct i as [|i]; [cbn; done|]). unfold FLOW_U64S in Hi. lia.
Qed.

Lemma demo_reachable : reachable demo_field (fst demo) (snd demo).
Proof.
  unfold demo, demo_ops. cbn [foldl].
  repeat (apply (call_reachable demo_field demo_field_ok); [|]); [apply reach_init; vm_compute; lia|..].
  - done.
  - split_and!; [apply demo_rule_ok; done|by vm_compute|by vm_compute].
  - split_and!; [apply demo_rule_ok; done|vm_compute; lia|by vm_compute].
  - split_and!; [apply demo_rule_ok; done|vm_compute; lia|by vm_compute].
  - split_and!; [apply demo_rule_ok; done|vm_compute; lia|by vm_compute].
  - exists (new_match (demo_rule 3 30 0x0a010203 0xffffffff) 2 []). split_and!; [vm_compute; tauto|done|by vm_compute].
Qed.

Lemma demo_matches :
  snd demo =
  [ new_match (demo_rule 4 20 0xc0a80000 0xffff0000) 1 [];
    cls_match_set_remove_version (new_match (demo_rule 3 30 0x0a010203 0xffffffff) 2 []) 5;
    new_match (demo_rule 2 20 0x0a010000 0xffff0000) 1 [];
    new_match (demo_rule 1 10 0x0a000000 0xff000000) 1 [] ].
Proof. vm_compute. reflexivity. Qed.

Lemma demo_publish : cls_publish (fst demo) = true.
Proof. vm_compute. reflexivity. Qed.

Lemma demo_flow_wf : flow_wf demo_flow.
Proof. apply flow_wf_check. vm_compute. reflexivity. Qed.

Lemma catchall_wf : flow_wf flow_wildcards_init_catchall.
Proof. apply flow_wf_check. vm_compute. reflexivity. Qed.

(** ** Properties *)



(** C1: megaflow soundness.  A lookup with wildcards only adds bits to them, and any
    flow that agrees with the first one on the bits of the result gets the same
    answer, with whatever wildcards it is looked up: the datapath may cache the
    answer under that mask.  Staged lookup, prefix tries, the ports trie and
    conjunctive matches are all included. *)
Theorem lookup_megaflow_sound `{HH : Hash} `{QQ : Qsort} (mf_from_id : Z -> mf_field) (cls : classifier)
    (ms : list cls_match) (version : Z) (f wc : flow) (conj_flows : option (gset Z)) :
  (forall id, usable mf_from_id id = true -> field_ok (mf_from_id id)) ->
  reachable mf_from_id cls ms -> cls_publish cls = true -> flow_wf f -> flow_wf wc ->
  exists wc', snd (classifier_lookup cls version f (Some wc) conj_flows) = Some wc' /\
    (forall i, fbit wc i = true -> fbit wc' i = true) /\
    forall f' wc2, flow_wf f' -> flow_equal_except f f' wc' = true -> wc_ok wc2 ->
      fst (classifier_lookup cls version f' wc2 conj_flows) = fst (classifier_lookup cls version f (Some wc) conj_flows).
Proof.
  intros Hf Hr Hpub Hfl Hwc. destruct (reachable_rep mf_from_id Hf cls ms Hr Hpub) as (subs & Hrep & Ht & _).
  destruct (classifier_lookup_covered cls subs version Hrep Ht conj_flows f (Some wc) Hfl Hwc) as (Hok & H).
  destruct (H wc eq_refl) as (w' & E & Hle & Hag). exists w'. split_and!; [done|done|].
  intros f' wc2 Hf' He Hwc2. cbn [snd] in Hok, E. rewrite E in Hok. apply Hag; [done| |done]. by apply flow_equal_except_agree.
Qed.

Lemma lookup_megaflow_sound_witness :
  exists wc', snd (classifier_lookup (fst demo) 6 demo_flow (Some flow_wildcards_init_catchall) None) = Some wc' /\
    (forall i, fbit flow_wildcards_init_catchall i = true -> fbit wc' i = true) /\
    forall f' wc2, flow_wf f' -> flow_equal_except demo_flow f' wc' = true -> wc_ok wc2 ->
      fst (classifier_lookup (fst demo) 6 f' wc2 None) =
      fst (classifier_lookup (fst demo) 6 demo_flow (Some flow_wildcards_init_catchall) None).
Proof.
  apply (lookup_megaflow_sound demo_field (fst demo) (snd demo));
    [apply demo_field_ok|apply demo_reachable|apply demo_publish|apply demo_flow_wf|apply catchall_wf].
Defined.

(** C8: a lookup always returns, conjunctive matches included: every round of the soft
    match loop drops a soft match or steps down in its list. *)
Theorem lookup_returns `{HH : Hash} `{QQ : Qsort} (mf_from_id : Z -> mf_field) (cls : classifier)
    (ms : list cls_match) (version : Z) (f : flow) (wc : option flow) (conj_flows : option (gset Z)) :
  (forall id, usable mf_from_id id = true -> field_ok (mf_from_id id)) ->
  reachable mf_from_id cls ms -> cls_publish cls = true -> flow_wf f -> wc_ok wc ->
  exists answer, fst (classifier_lookup cls version f wc conj_flows) = Some answer.
Proof.
  intros Hf Hr Hpub Hfl Hwc. destruct (reachable_rep mf_from_id Hf cls ms Hr Hpub) as (subs & Hrep & Ht & _).
  apply (classifier_lookup_total cls subs version Hrep Ht f wc conj_flows Hfl Hwc).
Qed.

Lemma lookup_returns_witness : exists answer, fst (classifier_lookup (fst demo) 3 demo_flow None (Some ∅)) = Some answer.
Proof.
  apply (lookup_returns demo_field (fst demo) (snd demo));
    [apply demo_field_ok|apply demo_reachable|apply demo_publish|apply demo_flow_wf|exact I].
Defined.

(** C3: without conjunctive matches, a lookup finds the highest-priority rule that
    matches the flow and is visible in the version, and finds nothing only when
    there is no such rule; whether wildcards are wanted makes no difference. *)
Theorem lookup_highest_priority `{HH : Hash} `{QQ : Qsort} (mf_from_id : Z -> mf_field) (cls : classifier)
    (ms : list cls_match) (version : Z) (f : flow) (wc : option flow) (conj_flows : option (gset Z)) :
  (forall id, usable mf_from_id id = true -> field_ok (mf_from_id id)) ->
  reachable mf_from_id cls ms -> cls_publish cls = true -> flow_wf f -> wc_ok wc ->
  Forall (fun m => cm_conj_set m = None) ms ->
  exists found, fst (classifier_lookup cls version f wc conj_flows) = Some (cm_rule <$> found, conj_flows) /\
    match found with
    | Some m => In m ms /\ candidate version f m = true /\
        forall m', In m' ms -> candidate version f m' = true -> cm_priority m' <= cm_priority m
    | None => forall m', In m' ms -> candidate version f m' = false
    end.
Proof.
  intros Hf Hr Hpub Hfl Hwc Hnc. destruct (reachable_rep mf_from_id Hf cls ms Hr Hpub) as (subs & Hrep & Ht & Hp).
  destruct (lookup_best cls subs version Hrep Ht f wc conj_flows Hfl Hwc) as (found & E & H); [by rewrite Hp|].
  exists found. split; [done|]. pose proof (fun m => Permutation_in m Hp) as Hin. pose proof (fun m => Permutation_in m (Permutation_sym Hp)) as Hin'.
  destruct found as [m|]; [|by auto]. destruct H as (? & ? & ?). split_and!; auto.
Qed.

Lemma lookup_highest_priority_witness :
  exists found, fst (classifier_lookup (fst demo) 3 demo_flow None None) = Some (cm_rule <$> found, None) /\
    match found with
    | Some m => In m (snd demo) /\ candidate 3 demo_flow m = true /\
        forall m', In m' (snd demo) -> candidate 3 demo_flow m' = true -> cm_priority m' <= cm_priority m
    | None => forall m', In m' (snd demo) -> candidate 3 demo_flow m' = false
    end.
Proof.
  apply (lookup_highest_priority demo_field (fst demo) (snd demo));
    [apply demo_field_ok|apply demo_reachable|apply demo_publish|apply demo_flow_wf|exact I|].
  rewrite demo_matches. repeat constructor.
Defined.

(** C9: the exact search finds a visible rule with the priority and the match of the
    target if there is one, and nothing otherwise. *)
Theorem find_rule_exactly_spec `{HH : Hash} `{QQ : Qsort} (mf_from_id : Z -> mf_field) (cls : classifier)
    (ms : list cls_match) (version : Z) (target : cls_rule) :
  (forall id, usable mf_from_id id = true -> field_ok (mf_from_id id)) ->
  reachable mf_from_id cls ms -> key_ok (cr_match target) ->
  match classifier_find_rule_exactly cls target version with
  | Some r => exists m, In m ms /\ r = cm_rule m /\ exact_match version target m
  | None => forall m, In m ms -> ~ exact_match version target m
  end.
Proof.
  intros Hf Hr Hk. destruct (reachable_stands mf_from_id Hf cls ms Hr) as (subs & Hrep & Hp & _).
  pose proof (find_rule_exactly_ok cls subs version Hrep target Hk) as H.
  destruct (classifier_find_rule_exactly cls target version) as [r|].
  - destruct H as (m & Hm & ?). exists m. split; [by apply (Permutation_in _ Hp)|done].
  - intros m Hm. apply H. by apply (Permutation_in _ (Permutation_sym Hp)).
Qed.

Lemma find_rule_exactly_spec_witness :
  let target := demo_rule 99 20 0x0a010000 0xffff0000 in
  match classifier_find_rule_exactly (fst demo) target 3 with
  | Some r => exists m, In m (snd demo) /\ r = cm_rule m /\ exact_match 3 target m
  | None => forall m, In m (snd demo) -> ~ exact_match 3 target m
  end.
Proof.
  apply (find_rule_exactly_spec demo_field); [apply demo_field_ok|apply demo_reachable|]. apply demo_rule_ok; done.
Defined.

(** C10: overlap detection is exact: it reports an overlap precisely when some flow is
    matched both by the target and by a visible rule of the same priority. *)
Theorem rule_overlaps_iff `{HH : Hash} `{QQ : Qsort} (mf_from_id : Z -> mf_field) (cls : classifier)
    (ms : list cls_match) (version : Z) (target : cls_rule) :
  (forall id, usable mf_from_id id = true -> field_ok (mf_from_id id)) ->
  reachable mf_from_id cls ms -> cls_publish cls = true -> key_ok (cr_match target) ->
  classifier_rule_overlaps cls target version = true <->
  exists m f, In m ms /\ cm_priority m = cr_priority target /\ cls_match_visible_in_version m version = true /\
    flow_wf f /\ key_matches (cr_match (cm_rule m)) f = true /\ key_matches (cr_match target) f = true.
Proof.
  intros Hf Hr Hpub Hk. destruct (reachable_rep mf_from_id Hf cls ms Hr Hpub) as (subs & Hrep & Ht & Hp).
  rewrite (rule_overlaps_ok cls subs version Hrep Ht target Hk).
  split; intros (m & f & Hm & ?); exists m, f; (split; [|done]);
    [by apply (Permutation_in _ Hp)|by apply (Permutation_in _ (Permutation_sym Hp))].
Qed.

Lemma rule_overlaps_iff_witness :
  let target := demo_rule 99 20 0x0a010200 0xffffff00 in
  classifier_rule_overlaps (fst demo) target 3 = true <->
  exists m f, In m (snd demo) /\ cm_priority m = cr_priority target /\ cls_match_visible_in_version m 3 = true /\
    flow_wf f /\ key_matches (cr_match (cm_rule m)) f = true /\ key_matches (cr_match target) f = true.
Proof.
  apply (rule_overlaps_iff demo_field); [apply demo_field_ok|apply demo_reachable|apply demo_publish|].
  apply demo_rule_ok; done.
Defined.

(** the test for non-strict matching answers whether the criteria match every flow
    that the rule matches. *)
Theorem is_loose_match_iff (rule : cls_rule) (criteria : minimatch) :
  key_ok (cr_match rule) -> key_ok criteria ->
  cls_rule_is_loose_match rule criteria = true <->
  forall f, flow_wf f -> key_matches (cr_match rule) f = true -> key_matches criteria f = true.
Proof. apply loose_match_iff. Qed.

Lemma is_loose_match_iff_witness :
  let rule := demo_rule 1 10 0x0a010000 0xffff0000 in
  let criteria := cr_match (demo_rule 2 10 0x0a000000 0xff000000) in
  cls_rule_is_loose_match rule criteria = true <->
  forall f, flow_wf f -> key_matches (cr_match rule) f = true -> key_matches criteria f = true.
Proof. apply is_loose_match_iff; apply demo_rule_ok; done. Defined.

(** C11: iterating with a cursor visits exactly the visible rules that loosely match the
    target (all visible rules without one), each once, and then ends. *)
Theorem cursor_visits_matching `{HH : Hash} `{QQ : Qsort} (mf_from_id : Z -> mf_field) (cls : classifier)
    (ms : list cls_match) (version : Z) (target : option cls_rule) (fuel : nat) :
  (forall id, usable mf_from_id id = true -> field_ok (mf_from_id id)) ->
  reachable mf_from_id cls ms -> cls_publish cls = true ->
  (forall t, target = Some t -> minimatch_wf (cr_match t)) -> (length ms <= fuel)%nat ->
  Permutation (cursor_rules fuel cls (cls_cursor_start cls target version))
    (map cm_rule (List.filter (wanted version target) ms)).
Proof.
  intros Hf Hr Hpub Ht Hfuel. destruct (reachable_rep mf_from_id Hf cls ms Hr Hpub) as (subs & Hrep & Htmp & Hp).
  etransitivity; [apply (cursor_ok cls subs version Hrep Htmp target fuel Ht); by rewrite Hp|].
  by apply Permutation_map, filter_perm.
Qed.

Lemma cursor_visits_matching_witness :
  Permutation (cursor_rules 4 (fst demo) (cls_cursor_start (fst demo) (Some (demo_rule 99 0 0x0a000000 0xff000000)) 6))
    (map cm_rule (List.filter (wanted 6 (Some (demo_rule 99 0 0x0a000000 0xff000000))) (snd demo))).
Proof.
  apply (cursor_visits_matching demo_field); [apply demo_field_ok|apply demo_reachable|apply demo_publish| |].
  - intros t E. injection E as <-. apply (demo_rule_ok 99 0 0x0a000000 0xff000000); done.
  - rewrite demo_matches. cbn [length]. lia.
Defined.

(** configuring prefix fields sets up a trie for each of the first four usable
    fields of the list, duplicates apart; the rules stay the same, and the result
    says whether the configuration was a different one before. *)
Theorem set_prefix_fields_spec `{HH : Hash} `{QQ : Qsort} (mf_from_id : Z -> mf_field) (cls : classifier)
    (ms : list cls_match) (ids : list Z) :
  (forall id, usable mf_from_id id = true -> field_ok (mf_from_id id)) ->
  reachable mf_from_id cls ms ->
  exists cls' changed, classifier_set_prefix_fields cls mf_from_id ids = Some (cls', changed) /\
    reachable mf_from_id cls' ms /\ same_fields mf_from_id cls' (selected mf_from_id ids) /\
    (changed = false <-> same_fields mf_from_id cls (selected mf_from_id ids)).
Proof.
  intros Hf Hr. destruct (reachable_stands mf_from_id Hf cls ms Hr) as (subs & Hrep & _).
  destruct (set_prefix_fields_ok mf_from_id Hf cls subs ids Hrep) as (cls' & subs' & b & E & Hrep' & Em & Hs & Hb).
  exists cls', b. split_and!; [done| |done|done]. apply (reach_step mf_from_id cls ms (OpSetPrefixFields ids) cls' (ResBool b)); [done..|].
  cbn. by rewrite E.
Qed.

Lemma set_prefix_fields_spec_witness :
  exists cls' changed, classifier_set_prefix_fields (fst demo) demo_field [1; 2; 1] = Some (cls', changed) /\
    reachable demo_field cls' (snd demo) /\ same_fields demo_field cls' (selected demo_field [1; 2; 1]) /\
    (changed = false <-> same_fields demo_field (fst demo) (selected demo_field [1; 2; 1])).
Proof. apply (set_prefix_fields_spec demo_field); [apply demo_field_ok|apply demo_reachable]. Defined.

(** destroying a classifier destroys every subtable and trie: no assertion fails,
    and nothing is left for readers. *)
Theorem classifier_destroy_spec `{HH : Hash} `{QQ : Qsort} (mf_from_id : Z -> mf_field) (cls : classifier) (ms : list cls_match) :
  (forall id, usable mf_from_id id = true -> field_ok (mf_from_id id)) ->
  reachable mf_from_id cls ms ->
  exists cls', classifier_destroy_tss cls = Some cls' /\ classifier_is_empty cls' = true /\
    pv_entries (cls_subtables cls') = [] /\
    forall i, (i < cls_n_tries cls)%nat -> cls_tries cls' !! i = Some (ClsTrie None TNull).
Proof.
  intros Hf Hr. destruct (reachable_stands mf_from_id Hf cls ms Hr) as (subs & Hrep & _).
  by apply (classifier_destroy_ok cls subs).
Qed.

Lemma classifier_destroy_spec_witness :
  exists cls', classifier_destroy_tss (fst demo) = Some cls' /\ classifier_is_empty cls' = true /\
    pv_entries (cls_subtables cls') = [] /\
    forall i, (i < cls_n_tries (fst demo))%nat -> cls_tries cls' !! i = Some (ClsTrie None TNull).
Proof. apply (classifier_destroy_spec demo_field (fst demo) (snd demo)); [apply demo_field_ok|apply demo_reachable]. Defined.
