(* ===== verification/DtClassifier.v ===== *)
(** * The decision tree classifier (lib/dt-classifier.c)

    Nodes live in a store that maps addresses to nodes, because the tree is
    updated by copying the path to a leaf: the old and the new tree share
    nodes, and [ovsrcu_postpone] frees the old one later.  An operation is a
    function of the store that gives [None] where the C program has undefined
    behaviour: a load, a store or a free of a node that is not allocated, an
    access outside an array or a read of a cell that was never written, a
    failed assertion.  Address 0 is [NULL].

    [union mf_value] variables are not initialised before [mf_get_value]
    writes the first bytes of them, and the code reads four bytes whatever
    the width of the field.  What the other bytes hold is the argument
    [junk], indexed by the place of the read; the theorems hold for every
    [junk]. *)

From S2P Require Import Prelude Util Flowmap Hash Miniflow MetaFlow FlowFields MetaFields Versions Pvector Classifier.
From stdpp Require Import prelude list gmap.
From Stdlib Require Import ZArith Lia.
Open Scope Z_scope.
Open Scope ovs_scope.

(** ** Nodes *)

Inductive dt_test_type := DT_TEST_EXACT | DT_TEST_PREFIX | DT_TEST_RANGE.

(** The union [test]: its first word is the value, prefix or minimum, its
    second the prefix length or maximum. *)
Record dt_test := DtTest { tt_value : Z; tt_plen : Z }.

(** An array of pointers to rules.  The length of the list is the capacity;
    [None] is a cell that was not written since it was allocated. *)
Abbreviation rule_array := (list (option cls_rule)).

Inductive dt_node :=
| DtInternal (field : mf_field_id) (test_type : dt_test_type) (test : dt_test) (lchild rchild : nat)
| DtLeaf (rules : rule_array) (n_rules : nat) (leaf_id : Z).

(** ** The store *)

(** [dm_postponed]: the nodes that wait for [dt_node_destroy] in [ovsrcu_postpone]. *)
Record dt_mem := DtMem { dm_nodes : gmap nat dt_node; dm_next : nat; dm_postponed : list nat }.

Definition dtM (A : Type) : Type := dt_mem -> option (A * dt_mem).

#[global] Instance dtM_ret : MRet dtM := fun A x m => Some (x, m).

#[global] Instance dtM_bind : MBind dtM := fun A B k c m =>
  match c m with Some (x, m') => k x m' | None => None end.

Definition undefined {A} : dtM A := fun _ => None.

Definition lift {A} (o : option A) : dtM A := fun m => match o with Some x => Some (x, m) | None => None end.

Definition dt_alloc (n : dt_node) : dtM nat := fun m =>
  Some (dm_next m, DtMem (<[dm_next m := n]> (dm_nodes m)) (S (dm_next m)) (dm_postponed m)).

Definition dt_load (p : nat) : dtM dt_node := fun m =>
  match dm_nodes m !! p with Some n => Some (n, m) | None => None end.

Definition dt_store (p : nat) (n : dt_node) : dtM unit := fun m =>
  match dm_nodes m !! p with
  | Some _ => Some (tt, DtMem (<[p := n]> (dm_nodes m)) (dm_next m) (dm_postponed m))
  | None => None
  end.

Definition dt_free (p : nat) : dtM unit := fun m =>
  match dm_nodes m !! p with
  | Some _ => Some (tt, DtMem (delete p (dm_nodes m)) (dm_next m) (dm_postponed m))
  | None => None
  end.

Definition ovsrcu_postpone (p : nat) : dtM unit := fun m =>
  Some (tt, DtMem (dm_nodes m) (dm_next m) (dm_postponed m ++ [p])).

(** The bound on the length of a path of distinct nodes. *)
Definition dt_fuel : dtM nat := fun m => Some (S (size (dm_nodes m)), m).

(** ** Arrays of rules *)

Definition array_get (a : rule_array) (i : nat) : option cls_rule := mjoin (a !! i).

Definition array_set (a : rule_array) (i : nat) (r : cls_rule) : option rule_array :=
  if (i <? length a)%nat then Some (<[i := Some r]> a) else None.

(** [xrealloc] to a capacity that is not smaller. *)
Definition array_grow (a : rule_array) (capacity : nat) : rule_array := a ++ replicate (capacity - length a) None.

(** The first [n] cells as a list of rules. *)
Definition array_rules (a : rule_array) (n : nat) : option (list cls_rule) :=
  if (n <=? length a)%nat then mapM id (take n a) else None.

(** The first of the [count] rules from [i] on with a smaller priority. *)
Fixpoint dt_insert_pos (rule : cls_rule) (a : rule_array) (i count : nat) : option nat :=
  match count with
  | O => Some i
  | S count =>
      r ← array_get a i;
      if cr_priority r <? cr_priority rule then Some i else dt_insert_pos rule a (S i) count
  end.

(** Moves the [k] rules from [pos] on up by one, the last one first. *)
Fixpoint dt_shift_up (a : rule_array) (pos k : nat) : option rule_array :=
  match k with
  | O => Some a
  | S k => r ← array_get a (pos + k); a ← array_set a (pos + S k) r; dt_shift_up a pos k
  end.

(** Moves the [k] rules after [j] down by one. *)
Fixpoint dt_shift_down (a : rule_array) (j k : nat) : option rule_array :=
  match k with
  | O => Some a
  | S k => r ← array_get a (S j); a ← array_set a j r; dt_shift_down a (S j) k
  end.

(** Insertion in the order of decreasing priority, given the capacity. *)
Definition dt_array_insert (rule : cls_rule) (a : rule_array) (n : nat) : option rule_array :=
  pos ← dt_insert_pos rule a 0 n;
  a ← dt_shift_up a pos (n - pos);
  array_set a pos rule.

(** The index of the first pointer to the rule. *)
Fixpoint dt_find_rule (rule : cls_rule) (a : rule_array) (i count : nat) : option (option nat) :=
  match count with
  | O => Some None
  | S count =>
      r ← array_get a i;
      if cr_id r =? cr_id rule then Some (Some i) else dt_find_rule rule a (S i) count
  end.

(** ** The tree *)

Record decision_tree := DecisionTree {
  dt_root : nat;
  dt_tree_built : bool;
  dt_pending_rules : rule_array;
  dt_n_pending : nat;
  dt_n_rules : Z;
  dt_n_internal_nodes : Z;
  dt_n_leaf_nodes : Z;
  dt_max_depth : Z
}.

Definition dt_init : decision_tree := DecisionTree 0 false [] 0 0 0 0 0.

Definition dt_node_create_leaf : dtM nat := dt_alloc (DtLeaf [] 0 0).

Definition dt_node_create_internal (field : mf_field_id) (type : dt_test_type) : dtM nat :=
  dt_alloc (DtInternal field type (DtTest 0 0) 0 0).

Definition dt_node_copy (node : nat) : dtM nat :=
  if (node =? 0)%nat then mret 0%nat else
  n ← dt_load node;
  match n with
  | DtInternal field type test l r => dt_alloc (DtInternal field type test l r)
  | DtLeaf rules n_rules leaf_id =>
      if (0 <? n_rules)%nat
      then if (n_rules <=? length rules)%nat then dt_alloc (DtLeaf (take n_rules rules) n_rules leaf_id) else undefined
      else dt_alloc (DtLeaf [] n_rules leaf_id)
  end.

Fixpoint dt_node_destroy_loop (fuel : nat) (node : nat) : dtM unit :=
  match fuel with
  | O => undefined
  | S fuel =>
      if (node =? 0)%nat then mret tt else
      n ← dt_load node;
      match n with
      | DtInternal _ _ _ l r => _ ← dt_node_destroy_loop fuel l; _ ← dt_node_destroy_loop fuel r; dt_free node
      | DtLeaf _ _ _ => dt_free node
      end
  end.

Definition dt_node_destroy (node : nat) : dtM unit := fuel ← dt_fuel; dt_node_destroy_loop fuel node.

(** The end of a grace period: the postponed calls, in order. *)
Fixpoint ovsrcu_call_postponed (l : list nat) : dtM unit :=
  match l with
  | [] => mret tt
  | p :: l => _ ← dt_node_destroy p; ovsrcu_call_postponed l
  end.

Definition ovsrcu_synchronize : dtM unit := fun m =>
  ovsrcu_call_postponed (dm_postponed m) (DtMem (dm_nodes m) (dm_next m) []).

Definition dt_destroy (dt : decision_tree) : dtM decision_tree :=
  _ ← (if (dt_root dt =? 0)%nat then mret tt else dt_node_destroy (dt_root dt));
  mret (DecisionTree 0 (dt_tree_built dt) [] 0 (dt_n_rules dt) (dt_n_internal_nodes dt) (dt_n_leaf_nodes dt) (dt_max_depth dt)).

(** ** Paths *)

Definition DT_PATH_MAX : nat := 64.

(** [struct dt_path]: the entries below [depth], which is the length of the lists. *)
Record dt_path := DtPath { pt_nodes : list nat; pt_directions : list bool }.

Definition dt_path_init : dt_path := DtPath [] [].

Definition dt_path_record (path : dt_path) (node : nat) (go_right : bool) : dt_path * bool :=
  if (DT_PATH_MAX <=? length (pt_nodes path))%nat then (path, false)
  else (DtPath (pt_nodes path ++ [node]) (pt_directions path ++ [go_right]), true).

Definition dt_path_get_leaf (path : dt_path) : nat :=
  if (length (pt_nodes path) =? 0)%nat then 0%nat else nth (length (pt_nodes path) - 1) (pt_nodes path) 0%nat.

(** The ancestors below index [i], the nearest one first. *)
Fixpoint dt_path_rebuild_loop (path : dt_path) (i : nat) (child : nat) : dtM nat :=
  match i with
  | O => mret child
  | S i =>
      new_parent ← dt_node_copy (nth i (pt_nodes path) 0%nat);
      n ← dt_load new_parent;
      match n with
      | DtInternal field type test l r =>
          _ ← dt_store new_parent
                (if nth (S i) (pt_directions path) false then DtInternal field type test l child
                 else DtInternal field type test child r);
          dt_path_rebuild_loop path i new_parent
      | DtLeaf _ _ _ => undefined
      end
  end.

Definition dt_path_rebuild_cow (path : dt_path) (new_leaf : nat) : dtM nat :=
  if (length (pt_nodes path) =? 0)%nat then mret new_leaf
  else dt_path_rebuild_loop path (length (pt_nodes path) - 1) new_leaf.

(** ** Building the tree *)

(** [value.be32] of a field of a rule, and whether the rule matches on the
    field.  Of the mask only bytes that [mf_get] writes are read. *)
Definition rule_field (field : mf_field_id) (rule : cls_rule) (junk : mf_value) : Z * bool :=
  let '(value, mask) := mf_get field (minimatch_expand (cr_match rule)) junk junk in
  (be value 4, negb (is_all_zeros mask (mf_n_bytes field))).

(** [values[]]: of the rules that match on the field; [i] is the index of the first rule. *)
Fixpoint dt_collect_values (field : mf_field_id) (rules : list cls_rule) (i : nat) (junk : list nat -> mf_value) : list Z :=
  match rules with
  | [] => []
  | rule :: rules =>
      let '(value, set) := rule_field field rule (junk [i]) in
      let values := dt_collect_values field rules (S i) junk in
      if set then value :: values else values
  end.

(** The test type, the value and the prefix length, if there is a split. *)
Definition dt_find_split_value_array (field : mf_field_id) (rules : list cls_rule) (junk : list nat -> mf_value)
  : option (dt_test_type * Z * Z) :=
  match dt_collect_values field rules 0 junk with
  | [] => None
  | first_value :: values =>
      if forallb (fun v => v =? first_value) values then None
      else Some (DT_TEST_EXACT, nth ((S (length values)) / 2) (first_value :: values) 0, 32)
  end.

(** The number of rules that match on the field. *)
Definition dt_field_count (field : mf_field_id) (rules : list cls_rule) (junk : list nat -> mf_value) : Z :=
  Z.of_nat (length (dt_collect_values field rules 0 junk)).

(** The field, of those from index [i] on, that the most rules match on; the first of them. *)
Fixpoint dt_best_field (fields : list mf_field_id) (i : nat) (rules : list cls_rule) (junk : list nat -> mf_value)
    (best : mf_field_id * Z) : mf_field_id * Z :=
  match fields with
  | [] => best
  | field :: fields =>
      let count := dt_field_count field rules (fun k => junk (i :: k)) in
      dt_best_field fields (S i) rules junk (if snd best <? count then (field, count) else best)
  end.

Definition dt_select_split_field_array (rules : list cls_rule) (junk : list nat -> mf_value) : option mf_field_id :=
  if (length rules =? 0)%nat then None else
  let '(field, best_count) :=
    dt_best_field [MFF_ETH_TYPE; MFF_IPV4_SRC; MFF_IPV4_DST; MFF_IP_PROTO; MFF_TCP_SRC; MFF_TCP_DST; MFF_UDP_SRC; MFF_UDP_DST]
      1 rules junk (MFF_IN_PORT, dt_field_count MFF_IN_PORT rules (fun k => junk (0%nat :: k))) in
  if best_count =? 0 then None else Some field.

Definition dt_candidate_fields : list mf_field_id :=
  [MFF_IPV4_SRC; MFF_IPV4_DST; MFF_TCP_SRC; MFF_TCP_DST; MFF_UDP_SRC; MFF_UDP_DST; MFF_IP_PROTO; MFF_IN_PORT; MFF_ETH_TYPE].

(** The first of the fields, from index [i] on, that has a split value. *)
Fixpoint dt_find_split (fields : list mf_field_id) (i : nat) (rules : list cls_rule) (junk : list nat -> mf_value)
  : option (mf_field_id * dt_test_type * Z) :=
  match fields with
  | [] => None
  | field :: fields =>
      match dt_find_split_value_array field rules (fun k => junk (i :: k)) with
      | Some (type, value, _) => Some (field, type, value)
      | None => dt_find_split fields (S i) rules junk
      end
  end.

(** The rules that go left and those that go right. *)
Fixpoint dt_partition (field : mf_field_id) (split_value : Z) (rules : list cls_rule) (i : nat) (junk : list nat -> mf_value)
  : list cls_rule * list cls_rule :=
  match rules with
  | [] => ([], [])
  | rule :: rules =>
      let '(value, _) := rule_field field rule (junk [i]) in
      let '(ls, rs) := dt_partition field split_value rules (S i) junk in
      if split_value <=? value then (ls, rule :: rs) else (rule :: ls, rs)
  end.

(** A leaf with an array of exactly the rules. *)
Definition dt_new_leaf (rules : list cls_rule) : dtM nat :=
  leaf ← dt_node_create_leaf;
  _ ← dt_store leaf (DtLeaf (Some <$> rules) (length rules) 0);
  mret leaf.

Fixpoint dt_build_loop (fuel : nat) (rules : list cls_rule) (max_leaf_size : nat) (junk : list nat -> mf_value) : dtM nat :=
  if (length rules =? 0)%nat then mret 0%nat
  else if (length rules <=? max_leaf_size)%nat then dt_new_leaf rules
  else match dt_find_split dt_candidate_fields 0 rules (fun k => junk (0%nat :: k)) with
       | None => dt_new_leaf rules
       | Some (split_field, test_type, split_value) =>
           let '(ls, rs) := dt_partition split_field split_value rules 0 (fun k => junk (1%nat :: k)) in
           if ((length ls =? 0) || (length rs =? 0))%nat then dt_new_leaf rules
           else match fuel with
                | O => undefined
                | S fuel =>
                    internal ← dt_node_create_internal split_field test_type;
                    _ ← dt_store internal (DtInternal split_field test_type (DtTest split_value 0) 0 0);
                    l ← dt_build_loop fuel ls max_leaf_size (fun k => junk (2%nat :: k));
                    r ← dt_build_loop fuel rs max_leaf_size (fun k => junk (3%nat :: k));
                    _ ← dt_store internal (DtInternal split_field test_type (DtTest split_value 0) l r);
                    mret internal
                end
       end.

(** A recursive call has fewer rules, so their number bounds the depth. *)
Definition dt_build_tree_from_array (rules : list cls_rule) (max_leaf_size : nat) (junk : list nat -> mf_value) : dtM nat :=
  dt_build_loop (length rules) rules max_leaf_size junk.

(** [n_internal], [n_leaf] and [max_depth]. *)
Fixpoint dt_calculate_stats_loop (fuel : nat) (node : nat) (stats : Z * Z * Z) (current_depth : Z) : dtM (Z * Z * Z) :=
  match fuel with
  | O => undefined
  | S fuel =>
      if (node =? 0)%nat then mret stats else
      n ← dt_load node;
      let '(n_internal, n_leaf, max_depth) := stats in
      match n with
      | DtLeaf _ _ _ => mret (n_internal, n_leaf + 1, if max_depth <? current_depth then current_depth else max_depth)
      | DtInternal _ _ _ l r =>
          stats ← dt_calculate_stats_loop fuel l (n_internal + 1, n_leaf, max_depth) (current_depth + 1);
          dt_calculate_stats_loop fuel r stats (current_depth + 1)
      end
  end.

Definition dt_update_stats (dt : decision_tree) : dtM decision_tree :=
  fuel ← dt_fuel;
  stats ← (if (dt_root dt =? 0)%nat then mret (0, 0, 0) else dt_calculate_stats_loop fuel (dt_root dt) (0, 0, 0) 0);
  let '(n_internal, n_leaf, max_depth) := stats in
  mret (DecisionTree (dt_root dt) (dt_tree_built dt) (dt_pending_rules dt) (dt_n_pending dt) (dt_n_rules dt)
          n_internal n_leaf max_depth).

Definition DT_LEAF_SIZE : nat := 5.

Definition dt_ensure_tree_built (dt : decision_tree) (junk : list nat -> mf_value) : dtM decision_tree :=
  if dt_tree_built dt then mret dt
  else if (dt_n_pending dt =? 0)%nat
  then mret (DecisionTree (dt_root dt) true (dt_pending_rules dt) (dt_n_pending dt) (dt_n_rules dt)
               (dt_n_internal_nodes dt) (dt_n_leaf_nodes dt) (dt_max_depth dt))
  else
    rules ← lift (array_rules (dt_pending_rules dt) (dt_n_pending dt));
    new_root ← dt_build_tree_from_array rules DT_LEAF_SIZE junk;
    dt_update_stats (DecisionTree new_root true (dt_pending_rules dt) (dt_n_pending dt) (Z.of_nat (dt_n_pending dt))
                       (dt_n_internal_nodes dt) (dt_n_leaf_nodes dt) (dt_max_depth dt)).

(** ** Lookup *)

(** The outcome of the test of an internal node; a shift by 32 or more is undefined. *)
Definition dt_test_matches (test_type : dt_test_type) (test : dt_test) (value : Z) : option bool :=
  match test_type with
  | DT_TEST_EXACT => Some (value =? tt_value test)
  | DT_TEST_PREFIX =>
      let shift := u32 (32 - tt_plen test) in
      let mask := u32 (Z.shiftl UINT32_MAX shift) in
      if shift <? 32 then Some (Z.land value mask =? Z.land (tt_value test) mask) else None
  | DT_TEST_RANGE => Some false
  end.

(** The leaf, or [NULL], where the tests on the flow lead. *)
Fixpoint dt_traverse (fuel : nat) (node : nat) (f : flow) (junk : list nat -> mf_value) : dtM nat :=
  match fuel with
  | O => undefined
  | S fuel =>
      if (node =? 0)%nat then mret 0%nat else
      n ← dt_load node;
      match n with
      | DtLeaf _ _ _ => mret node
      | DtInternal field test_type test l r =>
          let value := be (mf_get_value field f (junk [])) 4 in
          go_right ← lift (dt_test_matches test_type test value);
          dt_traverse fuel (if go_right : bool then r else l) f (fun k => junk (0%nat :: k))
      end
  end.

Definition dt_lookup_simple (dt : decision_tree) (f : flow) (build_junk junk : list nat -> mf_value)
  : dtM (decision_tree * option cls_rule) :=
  dt ← dt_ensure_tree_built dt build_junk;
  fuel ← dt_fuel;
  node ← dt_traverse fuel (dt_root dt) f junk;
  if (node =? 0)%nat then mret (dt, None) else
  n ← dt_load node;
  match n with
  | DtLeaf rules n_rules _ => if (0 <? n_rules)%nat then r ← lift (array_get rules 0); mret (dt, Some r) else mret (dt, None)
  | DtInternal _ _ _ _ _ => mret (dt, None)
  end.

(** [cls_match] is what the [cls_match] pointer of a rule leads to. *)
Definition dt_rule_visible (cls_match : cls_rule -> option cls_match) (version : Z) (rule : cls_rule) : bool :=
  match cls_match rule with
  | None => true
  | Some m => cls_match_visible_in_version m version
  end.

(** The loop over the rules of a leaf; [best] has the best rule up to [i].
    [best_priority] is unsigned, so the comparison is one of unsigned integers. *)
Fixpoint dt_best_rule (cls_match : cls_rule -> option cls_match) (version : Z) (a : rule_array) (i count : nat)
    (best : option cls_rule) : option (option cls_rule) :=
  match count with
  | O => Some best
  | S count =>
      rule ← array_get a i;
      dt_best_rule cls_match version a (S i) count
        (if dt_rule_visible cls_match version rule
         then match best with
              | None => Some rule
              | Some b => if u32 (cr_priority b) <? u32 (cr_priority rule) then Some rule else best
              end
         else best)
  end.

(** The tree after the build, the rule and [wc]. *)
Definition dt_lookup (cls_match : cls_rule -> option cls_match) (dt : decision_tree) (version : Z) (f : flow) (wc : option flow)
    (build_junk junk : list nat -> mf_value) : dtM (decision_tree * option cls_rule * option flow) :=
  dt ← dt_ensure_tree_built dt build_junk;
  if (dt_root dt =? 0)%nat then mret (dt, None, wc) else
  let wc := match wc with Some _ => Some flow_wildcards_init_catchall | None => None end in
  fuel ← dt_fuel;
  node ← dt_traverse fuel (dt_root dt) f junk;
  if (node =? 0)%nat then mret (dt, None, wc) else
  n ← dt_load node;
  match n with
  | DtLeaf rules n_rules _ => best ← lift (dt_best_rule cls_match version rules 0 n_rules None); mret (dt, best, wc)
  | DtInternal _ _ _ _ _ => mret (dt, None, wc)
  end.

(** ** Updates *)

(** A leaf with the one rule in an array of 16 cells. *)
Definition dt_first_leaf (rule : cls_rule) : dtM nat :=
  new_root ← dt_node_create_leaf;
  _ ← dt_store new_root (DtLeaf (<[0%nat := Some rule]> (replicate 16 None)) 1 0);
  mret new_root.

(** The new value of [*root] and the result. *)
Definition dt_insert_rule_simple (root : nat) (rule : cls_rule) : dtM (nat * bool) :=
  if (root =? 0)%nat then new_root ← dt_first_leaf rule; mret (new_root, true) else
  n ← dt_load root;
  match n with
  | DtLeaf rules n_rules leaf_id =>
      let rules :=
        if (length rules <=? n_rules)%nat
        then array_grow rules (if (length rules =? 0)%nat then 16 else length rules * 2) else rules in
      rules ← lift (dt_array_insert rule rules n_rules);
      _ ← dt_store root (DtLeaf rules (S n_rules) leaf_id);
      mret (root, true)
  | DtInternal _ _ _ _ _ => mret (root, false)
  end.

Definition dt_add_rule_lazy (dt : decision_tree) (rule : cls_rule) : option (decision_tree * bool) :=
  let pending_capacity := length (dt_pending_rules dt) in
  let pending :=
    if (pending_capacity <=? dt_n_pending dt)%nat
    then array_grow (dt_pending_rules dt) (if (pending_capacity =? 0)%nat then 16 else pending_capacity * 2)
    else dt_pending_rules dt in
  pending ← array_set pending (dt_n_pending dt) rule;
  Some (DecisionTree (dt_root dt) false pending (S (dt_n_pending dt)) (dt_n_rules dt) (dt_n_internal_nodes dt)
          (dt_n_leaf_nodes dt) (dt_max_depth dt), true).

(** The loop that always goes left: where it ends and the path to there. *)
Fixpoint dt_go_left (fuel : nat) (node : nat) (path : dt_path) : dtM (nat * dt_path) :=
  match fuel with
  | O => undefined
  | S fuel =>
      if (node =? 0)%nat then mret (0%nat, path) else
      n ← dt_load node;
      match n with
      | DtLeaf _ _ _ => mret (node, path)
      | DtInternal _ _ _ l _ => dt_go_left fuel l (if (l =? 0)%nat then path else fst (dt_path_record path l false))
      end
  end.

Definition set_root (root : nat) (n_rules : Z) (dt : decision_tree) : decision_tree :=
  DecisionTree root (dt_tree_built dt) (dt_pending_rules dt) (dt_n_pending dt) n_rules (dt_n_internal_nodes dt)
    (dt_n_leaf_nodes dt) (dt_max_depth dt).

(** The array of a leaf that was just copied is full, so it grows; an empty
    array has capacity 0 and stays so. *)
Definition dt_insert_rule (dt : decision_tree) (rule : cls_rule) : dtM (decision_tree * bool) :=
  let old_root := dt_root dt in
  if (old_root =? 0)%nat then
    new_root ← dt_first_leaf rule;
    mret (DecisionTree new_root (dt_tree_built dt) (dt_pending_rules dt) (dt_n_pending dt) (dt_n_rules dt + 1)
            (dt_n_internal_nodes dt) (dt_n_leaf_nodes dt + 1) (dt_max_depth dt), true)
  else
    fuel ← dt_fuel;
    '(node, path) ← dt_go_left fuel old_root (fst (dt_path_record dt_path_init old_root false));
    if (node =? 0)%nat then mret (dt, false) else
    new_leaf ← dt_node_copy node;
    n ← dt_load new_leaf;
    match n with
    | DtInternal _ _ _ _ _ => undefined
    | DtLeaf rules n_rules leaf_id =>
        let rules := if (length rules <=? n_rules)%nat then array_grow rules (length rules * 2) else rules in
        rules ← lift (dt_array_insert rule rules n_rules);
        _ ← dt_store new_leaf (DtLeaf rules (S n_rules) leaf_id);
        new_root ← dt_path_rebuild_cow path new_leaf;
        _ ← ovsrcu_postpone old_root;
        mret (set_root new_root (dt_n_rules dt + 1) dt, true)
    end.

(** Removal of the rule at [i] from an array of [n] rules. *)
Definition dt_array_remove (a : rule_array) (n i : nat) : option rule_array := dt_shift_down a i (n - 1 - i).

Definition dt_remove_rule_simple (root : nat) (rule : cls_rule) : dtM bool :=
  if (root =? 0)%nat then mret false else
  n ← dt_load root;
  match n with
  | DtInternal _ _ _ _ _ => mret false
  | DtLeaf rules n_rules leaf_id =>
      found ← lift (dt_find_rule rule rules 0 n_rules);
      match found with
      | None => mret false
      | Some i =>
          rules ← lift (dt_array_remove rules n_rules i);
          _ ← dt_store root (DtLeaf rules (n_rules - 1) leaf_id);
          mret true
      end
  end.

Definition dt_remove_rule (dt : decision_tree) (rule : cls_rule) : dtM (decision_tree * bool) :=
  let old_root := dt_root dt in
  if (old_root =? 0)%nat then mret (dt, false) else
  fuel ← dt_fuel;
  '(node, path) ← dt_go_left fuel old_root (fst (dt_path_record dt_path_init old_root false));
  if (node =? 0)%nat then mret (dt, false) else
  n ← dt_load node;
  match n with
  | DtInternal _ _ _ _ _ => mret (dt, false)
  | DtLeaf rules n_rules _ =>
      found ← lift (dt_find_rule rule rules 0 n_rules);
      match found with
      | None => mret (dt, false)
      | Some _ =>
          new_leaf ← dt_node_copy node;
          n ← dt_load new_leaf;
          match n with
          | DtInternal _ _ _ _ _ => undefined
          | DtLeaf rules n_rules leaf_id =>
              found ← lift (dt_find_rule rule rules 0 n_rules);
              _ ← match found with
                  | None => mret tt
                  | Some i => rules ← lift (dt_array_remove rules n_rules i); dt_store new_leaf (DtLeaf rules (n_rules - 1) leaf_id)
                  end;
              new_root ← dt_path_rebuild_cow path new_leaf;
              _ ← ovsrcu_postpone old_root;
              mret (set_root new_root (dt_n_rules dt - 1) dt, true)
          end
      end
  end.

(** [size_t] copies of the counters. *)
Definition dt_get_stats (dt : decision_tree) : Z * Z * Z * Z :=
  (u64 (dt_n_rules dt), u64 (dt_n_internal_nodes dt), u64 (dt_n_leaf_nodes dt), u64 (dt_max_depth dt)).
