(* ===== verification/Backend.v ===== *)
(** * The two backends of a classifier (lib/classifier.c)

    [struct classifier] has a tag and both backends; the operations that the
    source dispatches on the tag are here.  The others (replacement, exact
    search, overlap, cursors, prefix fields) use the tuple space search
    part without a test of the tag, which a decision tree leaves zeroed. *)

From S2P Require Import Prelude Util Flowmap Hash Miniflow MetaFlow MetaFields Versions Pvector Classifier DtClassifier.
From stdpp Require Import prelude list gmap strings.
From Stdlib Require Import ZArith Lia.
Open Scope Z_scope.
Open Scope ovs_scope.

(** [struct classifier]: the state of the backend in use.  [dt] is [NULL] after [classifier_destroy]. *)
Inductive classifier_backend :=
| BackendTss (tss : classifier)
| BackendDt (dt : option decision_tree).

(** A name other than "dt" gives the tuple space search. *)
Definition classifier_init_with_backend (flow_segments : list nat) (backend_config : option string) : classifier_backend :=
  match backend_config with
  | Some config => if decide (config = "dt"%string) then BackendDt (Some dt_init) else BackendTss (classifier_init_tss flow_segments)
  | None => BackendTss (classifier_init_tss flow_segments)
  end.

Definition classifier_init (flow_segments : list nat) : classifier_backend := classifier_init_with_backend flow_segments None.

Definition classifier_destroy (cls : classifier_backend) : dtM classifier_backend :=
  match cls with
  | BackendTss tss => tss ← lift (classifier_destroy_tss tss); mret (BackendTss tss)
  | BackendDt (Some dt) => _ ← dt_destroy dt; mret (BackendDt None)
  | BackendDt None => mret cls
  end.

Definition backend_is_empty (cls : classifier_backend) : bool :=
  match cls with
  | BackendTss tss => classifier_is_empty tss
  | BackendDt (Some dt) => let '(n_rules, _, _, _) := dt_get_stats dt in n_rules =? 0
  | BackendDt None => true
  end.

(** [(int) n_rules] of a [size_t]. *)
Definition int_of (x : Z) : Z := let y := u32 x in if y <? 2 ^ 31 then y else y - 2 ^ 32.

Definition backend_count (cls : classifier_backend) : Z :=
  match cls with
  | BackendTss tss => classifier_count tss
  | BackendDt (Some dt) => let '(n_rules, _, _, _) := dt_get_stats dt in int_of n_rules
  | BackendDt None => 0
  end.

Definition backend_insert `{Hash} `{Qsort} (cls : classifier_backend) (rule : cls_rule) (version : Z)
    (conjs : list cls_conjunction) : option classifier_backend :=
  match cls with
  | BackendTss tss => BackendTss <$> classifier_insert tss rule version conjs
  | BackendDt (Some dt) => '(dt, _) ← dt_add_rule_lazy dt rule; Some (BackendDt (Some dt))
  | BackendDt None => Some cls
  end.

Definition backend_remove `{Hash} `{Qsort} (cls : classifier_backend) (rule : cls_rule) : dtM (classifier_backend * bool) :=
  match cls with
  | BackendTss tss => '(tss, removed) ← lift (classifier_remove tss rule); mret (BackendTss tss, removed)
  | BackendDt (Some dt) => '(dt, removed) ← dt_remove_rule dt rule; mret (BackendDt (Some dt), removed)
  | BackendDt None => mret (cls, false)
  end.

(** The classifier with its tree built, the rule and [wc].  The [cls_match]
    pointer of a rule is set only by the tuple space search, and a rule of
    this classifier is in no other. *)
Definition backend_lookup `{Hash} (cls : classifier_backend) (version : Z) (f : flow) (wc : option flow)
    (conj_flows : option (gset Z)) (build_junk junk : list nat -> mf_value)
  : dtM (classifier_backend * option cls_rule * option (gset Z) * option flow) :=
  match cls with
  | BackendTss tss =>
      let '(res, wc) := classifier_lookup tss version f wc conj_flows in
      '(rule, conj_flows) ← lift res; mret (cls, rule, conj_flows, wc)
  | BackendDt (Some dt) =>
      '(dt, rule, wc) ← dt_lookup (fun _ => None) dt version f wc build_junk junk;
      mret (BackendDt (Some dt), rule, conj_flows, wc)
  | BackendDt None => mret (cls, None, conj_flows, wc)
  end.
