(* ===== verification/DtTree.v ===== *)
(** * Decision trees in the store

    The tree that an address represents, its nodes, and what allocation,
    traversal, copying of the leftmost path and destruction do to it. *)

From S2P Require Import Prelude Util Flowmap Hash Miniflow MetaFlow FlowFields MetaFields Versions Pvector Classifier DtClassifier.
From stdpp Require Import prelude list gmap.
From Stdlib Require Import ZArith Lia.
Open Scope Z_scope.
Open Scope ovs_scope.

(** ** The monad *)

Lemma dt_bind_some {A B} (c : dtM A) (k : A -> dtM B) (m m' : dt_mem) (x : A) :
  c m = Some (x, m') -> (c ≫= k) m = k x m'.
Proof. intros H. unfold mbind, dtM_bind. by rewrite H. Qed.

Lemma dt_lift_some {A B} (o : option A) (k : A -> dtM B) (m : dt_mem) (x : A) :
  o = Some x -> (lift o ≫= k) m = k x m.
Proof. intros ->. done. Qed.

Lemma dt_load_some {B} (p : nat) (k : dt_node -> dtM B) (m : dt_mem) (n : dt_node) :
  dm_nodes m !! p = Some n -> (dt_load p ≫= k) m = k n m.
Proof. intros H. apply dt_bind_some. unfold dt_load. by rewrite H. Qed.

(** ** Trees *)

(** A leaf has its rules and the cells of its array after them. *)
Inductive dtree :=
| DNil
| DLeaf (rules : list cls_rule) (rest : rule_array) (leaf_id : Z)
| DNode (field : mf_field_id) (test_type : dt_test_type) (test : dt_test) (l r : dtree).

Fixpoint dtree_rules (t : dtree) : list cls_rule :=
  match t with
  | DNil => []
  | DLeaf rules _ _ => rules
  | DNode _ _ _ l r => dtree_rules l ++ dtree_rules r
  end.

Fixpoint dtree_height (t : dtree) : nat :=
  match t with
  | DNode _ _ _ l r => S (dtree_height l `max` dtree_height r)
  | _ => 0
  end.

Fixpoint dtree_internal (t : dtree) : Z :=
  match t with DNode _ _ _ l r => 1 + dtree_internal l + dtree_internal r | _ => 0 end.

(** The depths of the leaves of a tree whose root is at depth [d]. *)
Fixpoint leaf_depths (t : dtree) (d : Z) : list Z :=
  match t with
  | DNil => []
  | DLeaf _ _ _ => [d]
  | DNode _ _ _ l r => leaf_depths l (d + 1) ++ leaf_depths r (d + 1)
  end.

Definition leaf_array (rules : list cls_rule) (rest : rule_array) : rule_array := (Some <$> rules) ++ rest.

(** The tree [t] is at address [p] of the store, in the nodes [fp]. *)
Fixpoint tree_rep (h : gmap nat dt_node) (t : dtree) (p : nat) (fp : list nat) : Prop :=
  match t with
  | DNil => p = 0%nat /\ fp = []
  | DLeaf rules rest leaf_id =>
      h !! p = Some (DtLeaf (leaf_array rules rest) (length rules) leaf_id) /\ p <> 0%nat /\ fp = [p]
  | DNode field test_type test l r =>
      exists pl pr fl fr, h !! p = Some (DtInternal field test_type test pl pr) /\ p <> 0%nat /\
        tree_rep h l pl fl /\ tree_rep h r pr fr /\ fp = p :: fl ++ fr
  end.

(** The addresses from [dm_next] on, and [NULL], are not allocated. *)
Record mem_wf (m : dt_mem) : Prop := {
  mem_pos : (0 < dm_next m)%nat;
  mem_null : dm_nodes m !! 0%nat = None;
  mem_fresh : forall q, (dm_next m <= q)%nat -> dm_nodes m !! q = None
}.

(** [m'] has new nodes, and the old ones as they were. *)
Record mem_ext (m m' : dt_mem) : Prop := {
  ext_wf : mem_wf m';
  ext_next : (dm_next m <= dm_next m')%nat;
  ext_old : forall q, (q < dm_next m)%nat -> dm_nodes m' !! q = dm_nodes m !! q;
  ext_postponed : dm_postponed m' = dm_postponed m
}.

Lemma mem_ext_refl (m : dt_mem) : mem_wf m -> mem_ext m m.
Proof. intros H. by split. Qed.

Lemma mem_ext_trans (m1 m2 m3 : dt_mem) : mem_ext m1 m2 -> mem_ext m2 m3 -> mem_ext m1 m3.
Proof.
  intros [_ N1 O1 P1] [W2 N2 O2 P2]. split; [done|lia| |congruence]. intros q Hq. rewrite O2 by lia. by apply O1.
Qed.

Lemma alloc_ext (m : dt_mem) (n : dt_node) :
  mem_wf m -> exists m', dt_alloc n m = Some (dm_next m, m') /\ mem_ext m m' /\
    dm_next m' = S (dm_next m) /\ dm_nodes m' !! dm_next m = Some n.
Proof.
  intros [H0 H1 H2]. eexists. split; [done|]. split; [|by split; [|apply lookup_insert_eq]].
  split; cbn [dm_nodes dm_next dm_postponed]; [|lia| |done].
  - split; cbn [dm_nodes dm_next]; [lia|rewrite lookup_insert_ne by lia; done|].
    intros q Hq. rewrite lookup_insert_ne by lia. apply H2. lia.
  - intros q Hq. by rewrite lookup_insert_ne by lia.
Qed.

(** A store to a node that is not in [m]. *)
Lemma store_ext (m m' : dt_mem) (p : nat) (n n' : dt_node) :
  mem_ext m m' -> (dm_next m <= p)%nat -> dm_nodes m' !! p = Some n ->
  exists m2, dt_store p n' m' = Some (tt, m2) /\ mem_ext m m2 /\ dm_next m2 = dm_next m' /\
    dm_nodes m2 = <[p := n']> (dm_nodes m').
Proof.
  intros [[W0 W1 W2] N O P] Hp Hn. unfold dt_store. rewrite Hn. eexists. split; [done|]. split; [|done].
  assert (p < dm_next m')%nat by (destruct (decide (p < dm_next m')%nat); [done|rewrite W2 in Hn by lia; done]).
  split; cbn [dm_nodes dm_next dm_postponed]; [split; cbn [dm_nodes dm_next]|done| |done].
  - done.
  - rewrite lookup_insert_ne; [done|]. intros ->. by rewrite W1 in Hn.
  - intros q Hq. rewrite lookup_insert_ne by lia. by apply W2.
  - intros q Hq. rewrite lookup_insert_ne by lia. by apply O.
Qed.

Lemma rep_mono (h h' : gmap nat dt_node) (t : dtree) (p : nat) (fp : list nat) :
  tree_rep h t p fp -> (forall q, q ∈ fp -> h' !! q = h !! q) -> tree_rep h' t p fp.
Proof.
  revert p fp. induction t as [|rs rest id|f ty te l IHl r IHr]; intros p fp; cbn [tree_rep]; [done| |].
  - intros (H & Hp & ->) E. rewrite E; [done|]. by left.
  - intros (pl & pr & fl & fr & H & Hp & Hl & Hr & ->) E. exists pl, pr, fl, fr. rewrite E by left.
    repeat (split; [done|]). split; [|split; [|done]].
    + apply IHl; [done|]. intros q Hq. apply E. right. apply elem_of_app. by left.
    + apply IHr; [done|]. intros q Hq. apply E. right. apply elem_of_app. by right.
Qed.

Lemma rep_alloc (h : gmap nat dt_node) (t : dtree) (p : nat) (fp : list nat) :
  tree_rep h t p fp -> forall q, q ∈ fp -> is_Some (h !! q).
Proof.
  revert p fp. induction t as [|rs rest id|f ty te l IHl r IHr]; intros p fp; cbn [tree_rep].
  - intros [_ ->] q Hq. by apply elem_of_nil in Hq.
  - intros (H & _ & ->) q ->%list_elem_of_singleton. by rewrite H.
  - intros (pl & pr & fl & fr & H & _ & Hl & Hr & ->) q [->|[Hq|Hq]%elem_of_app]%elem_of_cons; [by rewrite H|eauto|eauto].
Qed.

Lemma rep_null (h : gmap nat dt_node) (t : dtree) (p : nat) (fp : list nat) :
  tree_rep h t p fp -> p = 0%nat <-> t = DNil.
Proof.
  destruct t; cbn [tree_rep]; [by intros [-> _]|intros (_ & Hp & _); by split|]. intros (? & ? & ? & ? & _ & Hp & _). by split.
Qed.

Lemma rep_below (m : dt_mem) (t : dtree) (p : nat) (fp : list nat) :
  mem_wf m -> tree_rep (dm_nodes m) t p fp -> forall q, q ∈ fp -> (q < dm_next m)%nat.
Proof.
  intros [_ _ Hf] Hr q Hq. destruct (rep_alloc _ _ _ _ Hr q Hq) as [n E].
  destruct (decide (q < dm_next m)%nat); [done|]. by rewrite Hf in E by lia.
Qed.

Lemma rep_ext (m m' : dt_mem) (t : dtree) (p : nat) (fp : list nat) :
  mem_wf m -> mem_ext m m' -> tree_rep (dm_nodes m) t p fp -> tree_rep (dm_nodes m') t p fp.
Proof.
  intros Hw [_ _ O _] Hr. apply (rep_mono (dm_nodes m)); [done|]. intros q Hq. apply O. by eapply rep_below.
Qed.

Lemma rep_height (h : gmap nat dt_node) (t : dtree) (p : nat) (fp : list nat) :
  tree_rep h t p fp -> (dtree_height t <= length fp)%nat.
Proof.
  revert p fp. induction t as [|rs rest id|f ty te l IHl r IHr]; intros p fp; cbn [tree_rep dtree_height]; [lia|lia|].
  intros (pl & pr & fl & fr & _ & _ & Hl & Hr & ->). cbn [length]. rewrite length_app.
  specialize (IHl _ _ Hl). specialize (IHr _ _ Hr). lia.
Qed.

(** The fuel of the traversals is enough. *)
Lemma rep_fuel (h : gmap nat dt_node) (t : dtree) (p : nat) (fp : list nat) :
  tree_rep h t p fp -> NoDup fp -> (dtree_height t < S (size h))%nat.
Proof.
  intros Hr Hd. pose proof (rep_height _ _ _ _ Hr). rewrite <- size_dom.
  assert (length fp <= size (dom h))%nat; [|lia].
  rewrite <- (size_list_to_set (C:=gset nat)) by done. apply subseteq_size. intros q Hq.
  apply elem_of_dom. apply (rep_alloc _ _ _ _ Hr). by apply elem_of_list_to_set in Hq.
Qed.

(** ** Arrays *)

Lemma leaf_array_get (rules : list cls_rule) (rest : rule_array) (i : nat) (r : cls_rule) :
  rules !! i = Some r -> array_get (leaf_array rules rest) i = Some r.
Proof.
  intros H. unfold array_get, leaf_array. rewrite lookup_app_l by (rewrite length_fmap; by eapply lookup_lt_Some).
  by rewrite list_lookup_fmap, H.
Qed.

Lemma leaf_array_length (rules : list cls_rule) (rest : rule_array) :
  length (leaf_array rules rest) = (length rules + length rest)%nat.
Proof. unfold leaf_array. by rewrite length_app, length_fmap. Qed.

Lemma leaf_array_take (rules : list cls_rule) (rest : rule_array) :
  take (length rules) (leaf_array rules rest) = leaf_array rules [].
Proof. unfold leaf_array. by rewrite app_nil_r, take_app_length' by (by rewrite length_fmap). Qed.

Lemma array_rules_leaf (rules : list cls_rule) (rest : rule_array) :
  array_rules (leaf_array rules rest) (length rules) = Some rules.
Proof.
  unfold array_rules. rewrite leaf_array_length, (proj2 (Nat.leb_le _ _)) by lia. rewrite leaf_array_take.
  unfold leaf_array. rewrite app_nil_r. apply mapM_Some_2. induction rules; constructor; done.
Qed.

(** The rules with one more, after those of the same priority. *)
Fixpoint prio_insert (rule : cls_rule) (l : list cls_rule) : list cls_rule :=
  match l with
  | [] => [rule]
  | r :: l => if cr_priority r <? cr_priority rule then rule :: r :: l else r :: prio_insert rule l
  end.

Lemma prio_insert_perm (rule : cls_rule) (l : list cls_rule) : prio_insert rule l ≡ₚ rule :: l.
Proof.
  induction l as [|r l IH]; cbn [prio_insert]; [done|]. destruct (_ <? _); [done|]. rewrite IH. apply Permutation_swap.
Qed.

(** The position that the first loop finds splits the rules. *)
Lemma insert_pos_spec (rule : cls_rule) (pre l : list cls_rule) (rest : rule_array) :
  exists l1 l2, l = l1 ++ l2 /\ prio_insert rule l = l1 ++ rule :: l2 /\
    dt_insert_pos rule (leaf_array (pre ++ l) rest) (length pre) (length l) = Some (length pre + length l1)%nat.
Proof.
  revert pre. induction l as [|r l IH]; intros pre; cbn [dt_insert_pos length prio_insert].
  { exists [], []. rewrite Nat.add_0_r. done. }
  rewrite (leaf_array_get _ _ _ r) by (rewrite lookup_app_r, Nat.sub_diag by lia; done). cbn [mbind option_bind].
  destruct (cr_priority r <? cr_priority rule) eqn:E.
  - exists [], (r :: l). cbn [length app]. by rewrite Nat.add_0_r.
  - destruct (IH (pre ++ [r])) as (l1 & l2 & -> & Hp & Hi). exists (r :: l1), l2. split; [done|]. split; [by rewrite Hp|].
    rewrite <- app_assoc, length_app in Hi. cbn [length app] in Hi. replace (S (length pre)) with (length pre + 1)%nat by lia.
    rewrite Hi. cbn [length]. f_equal. lia.
Qed.

Lemma array_set_app (a b : rule_array) (x : option cls_rule) (r : cls_rule) (n : nat) :
  n = length a -> array_set (a ++ x :: b) n r = Some (a ++ Some r :: b).
Proof.
  intros ->. unfold array_set. rewrite length_app. cbn [length]. rewrite (proj2 (Nat.ltb_lt _ _)) by lia.
  by rewrite insert_app_r_alt, Nat.sub_diag by lia.
Qed.

Lemma array_get_app (a b : rule_array) (r : cls_rule) (n : nat) : n = length a -> array_get (a ++ Some r :: b) n = Some r.
Proof. intros ->. unfold array_get. by rewrite lookup_app_r, Nat.sub_diag by lia. Qed.

(** Moving the rules up overwrites the first free cell. *)
Lemma shift_up_spec (l : list cls_rule) (a b : rule_array) (x : option cls_rule) :
  exists y, dt_shift_up (a ++ (Some <$> l) ++ x :: b) (length a) (length l) = Some (a ++ y :: (Some <$> l) ++ b).
Proof.
  revert b x. induction l as [|r l IH] using rev_ind; intros b x; [by exists x|]. rewrite length_app, fmap_app. cbn [length fmap list_fmap].
  rewrite Nat.add_1_r. cbn [dt_shift_up].
  rewrite <- !app_assoc. cbn [app]. rewrite (app_assoc a), array_get_app by (rewrite length_app, length_fmap; done).
  cbn [mbind option_bind]. replace (_ ++ Some r :: x :: b) with ((a ++ (Some <$> l) ++ [Some r]) ++ x :: b) by (by rewrite <- !app_assoc).
  rewrite array_set_app by (rewrite !length_app, length_fmap; cbn [length]; lia). cbn [mbind option_bind].
  replace (_ ++ Some r :: b) with (a ++ (Some <$> l) ++ Some r :: Some r :: b) by (by rewrite <- !app_assoc).
  destruct (IH (Some r :: b) (Some r)) as [y ->]. exists y. by rewrite <- ?app_assoc.
Qed.

Lemma array_insert_spec (rule : cls_rule) (l : list cls_rule) (x : option cls_rule) (rest : rule_array) :
  dt_array_insert rule (leaf_array l (x :: rest)) (length l) = Some (leaf_array (prio_insert rule l) rest).
Proof.
  unfold dt_array_insert. destruct (insert_pos_spec rule [] l (x :: rest)) as (l1 & l2 & -> & Hp & E).
  cbn [app length Nat.add] in E. rewrite E. cbn [mbind option_bind]. unfold leaf_array. rewrite fmap_app, <- app_assoc, length_app.
  replace (length l1 + length l2 - length l1)%nat with (length l2) by lia.
  destruct (shift_up_spec l2 (Some <$> l1) rest x) as [y Hs]. rewrite length_fmap in Hs. rewrite Hs. cbn [mbind option_bind].
  rewrite array_set_app by (by rewrite length_fmap). by rewrite Hp, fmap_app, <- app_assoc.
Qed.

Lemma find_rule_spec (rule : cls_rule) (pre l : list cls_rule) (rest : rule_array) :
  (Forall (fun r => cr_id r <> cr_id rule) l /\
   dt_find_rule rule (leaf_array (pre ++ l) rest) (length pre) (length l) = Some None) \/
  (exists l1 r l2, l = l1 ++ r :: l2 /\ cr_id r = cr_id rule /\ Forall (fun r => cr_id r <> cr_id rule) l1 /\
   dt_find_rule rule (leaf_array (pre ++ l) rest) (length pre) (length l) = Some (Some (length pre + length l1)%nat)).
Proof.
  revert pre. induction l as [|r l IH]; intros pre; cbn [dt_find_rule length]; [by left|].
  rewrite (leaf_array_get _ _ _ r) by (rewrite lookup_app_r, Nat.sub_diag by lia; done). cbn [mbind option_bind].
  destruct (Z.eqb_spec (cr_id r) (cr_id rule)) as [E|E].
  { right. exists [], r, l. cbn [length]. by rewrite Nat.add_0_r. }
  specialize (IH (pre ++ [r])). rewrite <- app_assoc, length_app, Nat.add_1_r in IH.
  destruct IH as [[Hn Hi]|(l1 & r' & l2 & -> & Hr & Hl & Hi)]; [left; split; [by constructor|done]|].
  right. exists (r :: l1), r', l2. split; [done|]. split; [done|]. split; [by constructor|].
  cbn [app] in *. rewrite Hi. cbn [length]. do 2 f_equal. lia.
Qed.

Lemma shift_down_spec (l : list cls_rule) (a b : rule_array) (x : option cls_rule) :
  exists y, dt_shift_down (a ++ x :: (Some <$> l) ++ b) (length a) (length l) = Some (a ++ (Some <$> l) ++ y :: b).
Proof.
  revert a x. induction l as [|r l IH]; intros a x; [by exists x|]. cbn [length fmap list_fmap dt_shift_down app].
  replace (a ++ x :: Some r :: (Some <$> l) ++ b) with ((a ++ [x]) ++ Some r :: (Some <$> l) ++ b) by (by rewrite <- app_assoc).
  rewrite array_get_app by (rewrite length_app; cbn [length]; lia). cbn [mbind option_bind].
  rewrite <- app_assoc. cbn [app]. rewrite array_set_app by done. cbn [mbind option_bind].
  destruct (IH (a ++ [Some r]) (Some r)) as [y Hy]. rewrite length_app, Nat.add_1_r, <- !app_assoc in Hy. cbn [app] in Hy.
  exists y. by rewrite Hy, <- ?app_assoc.
Qed.

Lemma array_remove_spec (l1 l2 : list cls_rule) (r : cls_rule) (rest : rule_array) :
  exists y, dt_array_remove (leaf_array (l1 ++ r :: l2) rest) (length (l1 ++ r :: l2)) (length l1)
    = Some (leaf_array (l1 ++ l2) (y :: rest)).
Proof.
  unfold dt_array_remove, leaf_array. rewrite length_app, !fmap_app, <- !app_assoc. cbn [length fmap list_fmap app].
  replace (_ - 1 - _)%nat with (length l2) by lia. destruct (shift_down_spec l2 (Some <$> l1) rest (Some r)) as [y Hy].
  rewrite length_fmap in Hy. exists y. by rewrite Hy, <- app_assoc.
Qed.

(** ** Walks over a tree *)

Lemma stats_spec (m : dt_mem) (t : dtree) (p : nat) (fp : list nat) (fuel : nat) (i n x d : Z) :
  tree_rep (dm_nodes m) t p fp -> (dtree_height t < fuel)%nat ->
  dt_calculate_stats_loop fuel p (i, n, x) d m =
    Some ((i + dtree_internal t, n + Z.of_nat (length (leaf_depths t d)), foldl Z.max x (leaf_depths t d)), m).
Proof.
  revert p fp fuel i n x d. induction t as [|rs rest id|f ty te l IHl r IHr]; intros p fp [|fuel] i n x d; cbn [tree_rep dtree_height]; try lia;
    cbn [dt_calculate_stats_loop dtree_internal leaf_depths foldl length].
  - intros [-> _] _. cbn. by rewrite !Z.add_0_r.
  - intros (H & Hp & _) _. rewrite (proj2 (Nat.eqb_neq _ _) Hp). rewrite (dt_load_some _ _ _ _ H). unfold mret, dtM_ret.
    rewrite Z.add_0_r. do 3 f_equal. destruct (Z.ltb_spec x d); lia.
  - intros (pl & pr & fl & fr & H & Hp & Hl & Hr & _) Hf. rewrite (proj2 (Nat.eqb_neq _ _) Hp). rewrite (dt_load_some _ _ _ _ H).
    erewrite dt_bind_some by (eapply IHl; [done|lia]). erewrite IHr by (done || lia).
    rewrite length_app, foldl_app. do 2 f_equal. f_equal. f_equal; lia.
Qed.

Lemma destroy_spec (m : dt_mem) (t : dtree) (p : nat) (fp : list nat) (fuel : nat) :
  tree_rep (dm_nodes m) t p fp -> NoDup fp -> (dtree_height t < fuel)%nat ->
  exists h, dt_node_destroy_loop fuel p m = Some (tt, DtMem h (dm_next m) (dm_postponed m)) /\
    forall q, h !! q = if decide (q ∈ fp) then None else dm_nodes m !! q.
Proof.
  revert p fp fuel m. induction t as [|rs rest id|f ty te l IHl r IHr]; intros p fp [|fuel] [h nx po]; cbn [tree_rep dtree_height dm_nodes dm_next dm_postponed];
    try lia; cbn [dt_node_destroy_loop].
  - intros [-> ->] _ _. exists h. split; [done|]. intros q. case_decide as Hq; [by apply elem_of_nil in Hq|done].
  - intros (H & Hp & ->) _ _. rewrite (proj2 (Nat.eqb_neq _ _) Hp). rewrite (dt_load_some _ _ (DtMem h nx po) _ H). unfold dt_free. cbn [dm_nodes]. rewrite H.
    eexists. split; [done|]. intros q. cbn [dm_nodes].
    case_decide as Hq; [apply list_elem_of_singleton in Hq as ->; apply lookup_delete_eq|]. apply lookup_delete_ne. intros ->. by destruct Hq; left.
  - intros (pl & pr & fl & fr & H & Hp & Hl & Hr & ->) [Hn [Hdl [Hd Hdr]]%NoDup_app]%NoDup_cons Hf.
    rewrite (proj2 (Nat.eqb_neq _ _) Hp). rewrite (dt_load_some _ _ (DtMem h nx po) _ H).
    destruct (IHl pl fl fuel (DtMem h nx po)) as (h1 & E1 & H1); [done|done|lia|]. rewrite (dt_bind_some _ _ _ _ _ E1).
    cbn [dm_next dm_postponed dm_nodes] in *.
    destruct (IHr pr fr fuel (DtMem h1 nx po)) as (h2 & E2 & H2); [|done|lia|].
    { apply (rep_mono h); [done|]. intros q Hq. cbn [dm_nodes]. rewrite H1. case_decide as Hin; [by destruct (Hd q Hin)|done]. }
    rewrite (dt_bind_some _ _ _ _ _ E2). cbn [dm_next dm_postponed dm_nodes] in *. unfold dt_free. cbn [dm_nodes].
    assert (h2 !! p = Some (DtInternal f ty te pl pr)) as ->.
    { rewrite H2, H1. do 2 (case_decide; [set_solver|]). done. }
    eexists. split; [done|]. intros q. cbn [dm_nodes]. destruct (decide (q = p)) as [->|Hne].
    + rewrite lookup_delete_eq. by rewrite decide_True by (left).
    + rewrite lookup_delete_ne, H2, H1 by done. clear - Hne. repeat case_decide; set_solver.
Qed.
