(* ===== verification/DtOps.v ===== *)
(** * Operations on decision trees

    What the build, the lookup and the updates by copying do to the tree that
    the store represents. *)

From S2P Require Import Prelude Util Flowmap Hash Miniflow MetaFlow FlowFields MetaFields Versions Pvector Classifier DtClassifier DtTree.
From stdpp Require Import prelude list gmap.
From Stdlib Require Import ZArith Lia.
Open Scope Z_scope.
Open Scope ovs_scope.

(** ** Building *)

(** The trees that a build can give for a list of rules.  A leaf that is
    larger than the limit has rules that the chosen test does not separate. *)
Inductive built (max_leaf_size : nat) : list cls_rule -> dtree -> Prop :=
| built_nil : built max_leaf_size [] DNil
| built_leaf rules :
    rules <> [] ->
    ((length rules <= max_leaf_size)%nat \/
     exists junk, match dt_find_split dt_candidate_fields 0 rules junk with
                  | None => True
                  | Some (field, _, value) =>
                      exists junk' ls rs, dt_partition field value rules 0 junk' = (ls, rs) /\ (ls = [] \/ rs = [])
                  end) ->
    built max_leaf_size rules (DLeaf rules [] 0)
| built_node rules field value junk ls rs l r :
    field ∈ dt_candidate_fields -> dt_partition field value rules 0 junk = (ls, rs) -> ls <> [] -> rs <> [] ->
    (max_leaf_size < length rules)%nat ->
    built max_leaf_size ls l -> built max_leaf_size rs r ->
    built max_leaf_size rules (DNode field DT_TEST_EXACT (DtTest value 0) l r).

Lemma partition_perm (field : mf_field_id) (v : Z) (rules : list cls_rule) (i : nat) (junk : list nat -> mf_value) :
  (dt_partition field v rules i junk).1 ++ (dt_partition field v rules i junk).2 ≡ₚ rules.
Proof.
  revert i. induction rules as [|r rules IH]; intros i; cbn [dt_partition]; [done|]. destruct (rule_field _ _ _) as [x _].
  specialize (IH (S i)). destruct (dt_partition field v rules (S i) junk) as [ls rs]. cbn [fst snd] in IH.
  destruct (v <=? x); cbn [fst snd app]; rewrite <- IH; [by rewrite Permutation_middle|done].
Qed.

Lemma partition_sublist (field : mf_field_id) (v : Z) (rules : list cls_rule) (i : nat) (junk : list nat -> mf_value) :
  (dt_partition field v rules i junk).1 `sublist_of` rules /\ (dt_partition field v rules i junk).2 `sublist_of` rules.
Proof.
  revert i. induction rules as [|r rules IH]; intros i; cbn [dt_partition]; [done|]. destruct (rule_field _ _ _) as [x _].
  destruct (IH (S i)) as [H1 H2]. destruct (dt_partition field v rules (S i) junk) as [ls rs].
  destruct (v <=? x); cbn [fst snd] in *; split; by constructor.
Qed.

Lemma find_split_spec (fields : list mf_field_id) (i : nat) (rules : list cls_rule) (junk : list nat -> mf_value)
    (field : mf_field_id) (type : dt_test_type) (v : Z) :
  dt_find_split fields i rules junk = Some (field, type, v) -> field ∈ fields /\ type = DT_TEST_EXACT.
Proof.
  revert i. induction fields as [|g fields IH]; intros i; cbn [dt_find_split]; [done|].
  destruct (dt_find_split_value_array g rules _) as [[[ty x] pl]|] eqn:E.
  - intros [= <- <- <-]. split; [by left|]. unfold dt_find_split_value_array in E.
    destruct (dt_collect_values _ _ _ _) as [|y ys]; [done|]. destruct (forallb _ _); [done|]. congruence.
  - intros [H ->]%IH. split; [by right|done].
Qed.

Lemma built_rules (max : nat) (rules : list cls_rule) (t : dtree) : built max rules t -> dtree_rules t ≡ₚ rules.
Proof.
  induction 1 as [|rules Hr Hs|rules field v junk ls rs l r _ Hp _ _ _ _ IHl _ IHr]; cbn [dtree_rules]; [done|done|].
  rewrite IHl, IHr. pose proof (partition_perm field v rules 0 junk) as E. by rewrite Hp in E.
Qed.

Lemma new_leaf_spec (m : dt_mem) (rules : list cls_rule) :
  mem_wf m -> exists m', dt_new_leaf rules m = Some (dm_next m, m') /\ mem_ext m m' /\ dm_next m' = S (dm_next m) /\
    tree_rep (dm_nodes m') (DLeaf rules [] 0) (dm_next m) [dm_next m].
Proof.
  intros Hw. unfold dt_new_leaf, dt_node_create_leaf. destruct (alloc_ext m (DtLeaf [] 0 0) Hw) as (m1 & E1 & X1 & N1 & L1).
  rewrite (dt_bind_some _ _ _ _ _ E1).
  destruct (store_ext m m1 (dm_next m) _ (DtLeaf (Some <$> rules) (length rules) 0) X1 ltac:(lia) L1) as (m2 & E2 & X2 & N2 & L2).
  rewrite (dt_bind_some _ _ _ _ _ E2). exists m2. split; [done|]. split; [done|]. split; [lia|]. cbn [tree_rep]. rewrite L2, lookup_insert_eq.
  split; [unfold leaf_array; by rewrite app_nil_r|]. split; [|done]. destruct Hw. lia.
Qed.

(** What a build from [m] promises: a new tree, in new nodes. *)
Definition build_result (max : nat) (rules : list cls_rule) (m : dt_mem) (res : option (nat * dt_mem)) : Prop :=
  exists t p fp m', res = Some (p, m') /\ mem_ext m m' /\ tree_rep (dm_nodes m') t p fp /\
    NoDup fp /\ Forall (fun q => (dm_next m <= q)%nat) fp /\ built max rules t.

Lemma build_nil_result (max : nat) (m : dt_mem) : mem_wf m -> build_result max [] m (Some (0%nat, m)).
Proof.
  intros Hw. exists DNil, 0%nat, [], m. split; [done|]. split; [by apply mem_ext_refl|]. split; [done|].
  split; [constructor|]. split; constructor.
Qed.

Lemma build_leaf_result (max : nat) (rules : list cls_rule) (m : dt_mem) :
  mem_wf m -> built max rules (DLeaf rules [] 0) -> build_result max rules m (dt_new_leaf rules m).
Proof.
  intros Hw Hb. destruct (new_leaf_spec m rules Hw) as (m' & E & X & _ & R). exists (DLeaf rules [] 0), (dm_next m), [dm_next m], m'.
  repeat (split; [done|]). split; [apply NoDup_singleton|]. split; [by repeat constructor|done].
Qed.

Lemma build_node_result (max : nat) (rules : list cls_rule) (m : dt_mem) (field : mf_field_id) (v : Z)
    (junk : list nat -> mf_value) (ls rs : list cls_rule) (bl br : dtM nat) :
  mem_wf m -> field ∈ dt_candidate_fields -> dt_partition field v rules 0 junk = (ls, rs) -> ls <> [] -> rs <> [] ->
  (max < length rules)%nat ->
  (forall m, mem_wf m -> build_result max ls m (bl m)) -> (forall m, mem_wf m -> build_result max rs m (br m)) ->
  build_result max rules m
    ((internal ← dt_node_create_internal field DT_TEST_EXACT;
      _ ← dt_store internal (DtInternal field DT_TEST_EXACT (DtTest v 0) 0 0);
      l ← bl; r ← br; _ ← dt_store internal (DtInternal field DT_TEST_EXACT (DtTest v 0) l r); mret internal) m).
Proof.
  intros Hw Hfi Hp Hl0 Hr0 Hmax Hl Hr. unfold dt_node_create_internal.
  destruct (alloc_ext m (DtInternal field DT_TEST_EXACT (DtTest 0 0) 0 0) Hw) as (m1 & E1 & X1 & N1 & L1). rewrite (dt_bind_some _ _ _ _ _ E1).
  destruct (store_ext m m1 (dm_next m) _ (DtInternal field DT_TEST_EXACT (DtTest v 0) 0 0) X1 ltac:(lia) L1) as (m2 & E2 & X2 & N2 & L2).
  rewrite (dt_bind_some _ _ _ _ _ E2).
  destruct (Hl m2 (ext_wf _ _ X2)) as (tl & pl & fl & m3 & E3 & X3 & Rl & Dl & Fl & Bl). rewrite (dt_bind_some _ _ _ _ _ E3).
  destruct (Hr m3 (ext_wf _ _ X3)) as (tr & pr & fr & m4 & E4 & X4 & Rr & Dr & Fr & Br). rewrite (dt_bind_some _ _ _ _ _ E4).
  assert (dm_nodes m4 !! dm_next m = Some (DtInternal field DT_TEST_EXACT (DtTest v 0) 0 0)) as L4.
  { rewrite (ext_old _ _ X4), (ext_old _ _ X3), L2, lookup_insert_eq; [done|lia|destruct X3; lia]. }
  pose proof (mem_ext_trans _ _ _ (mem_ext_trans _ _ _ X2 X3) X4) as X24.
  destruct (store_ext m m4 (dm_next m) _ (DtInternal field DT_TEST_EXACT (DtTest v 0) pl pr) X24 ltac:(lia) L4) as (m5 & E5 & X5 & N5 & L5).
  rewrite (dt_bind_some _ _ _ _ _ E5). pose proof (rep_below _ _ _ _ (ext_wf _ _ X3) Rl) as Bel.
  rewrite Forall_forall in Fl, Fr. pose proof (ext_next _ _ X3) as N3.
  exists (DNode field DT_TEST_EXACT (DtTest v 0) tl tr), (dm_next m), (dm_next m :: fl ++ fr), m5. split; [done|]. split; [done|].
  split; [|split; [|split; [|by econstructor]]].
  - cbn [tree_rep]. exists pl, pr, fl, fr. rewrite L5, lookup_insert_eq. split; [done|]. split; [destruct Hw; lia|]. split; [|split; [|done]].
    + apply (rep_mono (dm_nodes m4)); [by eapply rep_ext; [apply X3|..]|]. intros q Hq. rewrite lookup_insert_ne; [done|]. specialize (Fl q Hq). lia.
    + apply (rep_mono (dm_nodes m4)); [done|]. intros q Hq. rewrite lookup_insert_ne; [done|]. specialize (Fr q Hq). lia.
  - apply NoDup_cons. split; [intros [Hq|Hq]%elem_of_app; [specialize (Fl _ Hq)|specialize (Fr _ Hq)]; lia|].
    apply NoDup_app. split; [done|]. split; [|done]. intros q Hq Hq'. specialize (Bel q Hq). specialize (Fr q Hq'). lia.
  - apply Forall_forall. intros q [->|[Hq|Hq]%elem_of_app]%elem_of_cons; [done|specialize (Fl _ Hq); lia|specialize (Fr _ Hq); lia].
Qed.

Lemma build_spec (fuel : nat) (rules : list cls_rule) (max : nat) (junk : list nat -> mf_value) (m : dt_mem) :
  mem_wf m -> (length rules <= fuel)%nat -> build_result max rules m (dt_build_loop fuel rules max junk m).
Proof.
  revert rules junk m. induction fuel as [|fuel IH]; intros rules junk m Hw Hf.
  { destruct rules; [|cbn in Hf; lia]. by apply build_nil_result. }
  cbn [dt_build_loop]. destruct (Nat.eqb_spec (length rules) 0) as [E0|E0].
  { apply length_zero_iff_nil in E0 as ->. by apply build_nil_result. }
  assert (rules <> []) as Hne by (by intros ->).
  destruct (Nat.leb_spec (length rules) max) as [Hm|Hm]; [apply build_leaf_result; [done|]; constructor; auto|].
  destruct (dt_find_split _ _ _ _) as [[[field type] v]|] eqn:Es; [|apply build_leaf_result; [done|]; constructor; [done|right; eexists; by rewrite Es]].
  destruct (find_split_spec _ _ _ _ _ _ _ Es) as [Hfi ->].
  destruct (dt_partition field v rules 0 _) as [ls rs] eqn:Ep.
  pose proof (partition_perm field v rules 0 (fun k => junk (1%nat :: k))) as Hp. rewrite Ep in Hp. cbn [fst snd] in Hp.
  pose proof (Permutation_length Hp) as Hlen. rewrite length_app in Hlen.
  destruct (Nat.eqb_spec (length ls) 0) as [El|El]; [|destruct (Nat.eqb_spec (length rs) 0) as [Er|Er]]; cbn [orb].
  - apply build_leaf_result; [done|]. constructor; [done|]. right. eexists. rewrite Es. eexists _, ls, rs.
    split; [done|]. left. by apply length_zero_iff_nil.
  - apply build_leaf_result; [done|]. constructor; [done|]. right. eexists. rewrite Es. eexists _, ls, rs.
    split; [done|]. right. by apply length_zero_iff_nil.
  - apply (build_node_result max rules m field v (fun k => junk (1%nat :: k)) ls rs); [done|done|exact Ep|by intros ->|by intros ->|done| |];
      intros m' Hw'; apply IH; (done || lia).
Qed.

(** ** Lookup *)

(** The tree has tests for equality only, as a build makes them. *)
Fixpoint dtree_exact (t : dtree) : Prop :=
  match t with
  | DNode _ type _ l r => type = DT_TEST_EXACT /\ dtree_exact l /\ dtree_exact r
  | _ => True
  end.

Lemma built_exact (max : nat) (rules : list cls_rule) (t : dtree) : built max rules t -> dtree_exact t.
Proof. induction 1; by cbn [dtree_exact]. Qed.

(** The rules of the leaf where the flow leads. *)
Fixpoint dtree_reach (t : dtree) (f : flow) (junk : list nat -> mf_value) : list cls_rule :=
  match t with
  | DNil => []
  | DLeaf rules _ _ => rules
  | DNode field _ test l r =>
      dtree_reach (if be (mf_get_value field f (junk [])) 4 =? tt_value test then r else l) f (fun k => junk (0%nat :: k))
  end.

Lemma dtree_reach_rules (t : dtree) (f : flow) (junk : list nat -> mf_value) (r : cls_rule) :
  r ∈ dtree_reach t f junk -> r ∈ dtree_rules t.
Proof.
  revert junk. induction t as [|rs rest id|g ty te l IHl rt IHr]; intros junk; cbn [dtree_reach dtree_rules]; [done|done|].
  rewrite elem_of_app. destruct (_ =? _); [intros H; right; eauto|intros H; left; eauto].
Qed.

Lemma traverse_spec (m : dt_mem) (t : dtree) (p : nat) (fp : list nat) (fuel : nat) (f : flow) (junk : list nat -> mf_value) :
  tree_rep (dm_nodes m) t p fp -> dtree_exact t -> (dtree_height t < fuel)%nat ->
  exists q, dt_traverse fuel p f junk m = Some (q, m) /\
    ((q = 0%nat /\ dtree_reach t f junk = []) \/
     (q <> 0%nat /\ exists rest id, dm_nodes m !! q =
        Some (DtLeaf (leaf_array (dtree_reach t f junk) rest) (length (dtree_reach t f junk)) id))).
Proof.
  revert p fp fuel junk. induction t as [|rs rest id|g ty te l IHl rt IHr]; intros p fp [|fuel] junk; cbn [tree_rep dtree_height dtree_exact]; try lia;
    cbn [dt_traverse dtree_reach].
  - intros [-> _] _ _. exists 0%nat. split; [done|]. by left.
  - intros (H & Hp & _) _ _. rewrite (proj2 (Nat.eqb_neq _ _) Hp), (dt_load_some _ _ _ _ H). exists p. split; [done|]. right. eauto.
  - intros (pl & pr & fl & fr & H & Hp & Hl & Hr & _) (-> & Xl & Xr) Hf.
    rewrite (proj2 (Nat.eqb_neq _ _) Hp), (dt_load_some _ _ _ _ H). cbn zeta. cbn [dt_test_matches]. rewrite (dt_lift_some _ _ _ _ eq_refl).
    destruct (_ =? _); [eapply IHr|eapply IHl]; eauto; lia.
Qed.

(** The loop over the rules of a leaf. *)
Definition better (cm : cls_rule -> option cls_match) (version : Z) (best : option cls_rule) (rule : cls_rule) : option cls_rule :=
  if dt_rule_visible cm version rule
  then match best with
       | None => Some rule
       | Some b => if u32 (cr_priority b) <? u32 (cr_priority rule) then Some rule else best
       end
  else best.

Lemma best_rule_loop (cm : cls_rule -> option cls_match) (version : Z) (pre l : list cls_rule) (rest : rule_array) (best : option cls_rule) :
  dt_best_rule cm version (leaf_array (pre ++ l) rest) (length pre) (length l) best = Some (foldl (better cm version) best l).
Proof.
  revert pre best. induction l as [|r l IH]; intros pre best; cbn [dt_best_rule length foldl]; [done|].
  rewrite (leaf_array_get _ _ _ r) by (rewrite lookup_app_r, Nat.sub_diag by lia; done). cbn [mbind option_bind].
  specialize (IH (pre ++ [r])). rewrite <- app_assoc, length_app, Nat.add_1_r in IH. apply IH.
Qed.

(** [best] is a visible rule of [l] of the highest priority, or there is none. *)
Definition is_best (cm : cls_rule -> option cls_match) (version : Z) (l : list cls_rule) (best : option cls_rule) : Prop :=
  match best with
  | None => Forall (fun r => dt_rule_visible cm version r = false) l
  | Some b => b ∈ l /\ dt_rule_visible cm version b = true /\
      Forall (fun r => dt_rule_visible cm version r = true -> u32 (cr_priority r) <= u32 (cr_priority b)) l
  end.

Lemma best_rule_spec (cm : cls_rule -> option cls_match) (version : Z) (l : list cls_rule) :
  is_best cm version l (foldl (better cm version) None l).
Proof.
  induction l as [|r l IH] using rev_ind; [by constructor|]. rewrite foldl_app. cbn [foldl]. revert IH.
  generalize (foldl (better cm version) None l). intros best Hb. unfold better. destruct (dt_rule_visible cm version r) eqn:Ev.
  - destruct best as [b|]; cbn [is_best] in *.
    + destruct Hb as (Hin & Hv & Hall). destruct (Z.ltb_spec (u32 (cr_priority b)) (u32 (cr_priority r))) as [Hlt|Hge].
      * split; [apply elem_of_app; right; by left|]. split; [done|]. apply Forall_app. split; [|by constructor].
        eapply Forall_impl; [exact Hall|]. cbn beta. intros x Hx Hvx. specialize (Hx Hvx). lia.
      * split; [apply elem_of_app; by left|]. split; [done|]. apply Forall_app. split; [done|by constructor].
    + split; [apply elem_of_app; right; by left|]. split; [done|]. apply Forall_app. split; [|by constructor].
      eapply Forall_impl; [exact Hb|]. cbn beta. intros x Hx Hvx. congruence.
  - destruct best as [b|]; cbn [is_best] in *.
    + destruct Hb as (Hin & Hv & Hall). split; [apply elem_of_app; by left|]. split; [done|]. apply Forall_app. split; [done|].
      constructor; [congruence|done].
    + apply Forall_app. split; [done|]. by constructor.
Qed.
