(* ===== verification/DtCow.v ===== *)
(** * Copy on write

    The leftmost path of a decision tree and the copy of it that
    [dt_insert_rule] and [dt_remove_rule] make: the new tree shares the
    subtrees to the right of the path with the old one. *)

From S2P Require Import Prelude Util Flowmap Hash Miniflow MetaFlow FlowFields MetaFields Versions Pvector Classifier DtClassifier DtTree.
From stdpp Require Import prelude list gmap.
From Stdlib Require Import ZArith Lia.
Open Scope Z_scope.
Open Scope ovs_scope.

(** ** The leftmost path *)

Fixpoint left_end (t : dtree) : dtree :=
  match t with DNode _ _ _ l _ => left_end l | _ => t end.

Fixpoint left_depth (t : dtree) : nat :=
  match t with DNode _ _ _ l _ => S (left_depth l) | _ => 0 end.

Fixpoint replace_left (t new : dtree) : dtree :=
  match t with DNode field type test l r => DNode field type test (replace_left l new) r | _ => new end.

(** The leftmost path from [p]: the internal nodes [ps] and then [q], a leaf or [NULL]. *)
Inductive spine (h : gmap nat dt_node) : dtree -> nat -> list nat -> nat -> Prop :=
| spine_nil : spine h DNil 0 [] 0
| spine_leaf rules rest id p :
    h !! p = Some (DtLeaf (leaf_array rules rest) (length rules) id) -> p <> 0%nat ->
    spine h (DLeaf rules rest id) p [] p
| spine_node field type test l r p pl pr ps q :
    h !! p = Some (DtInternal field type test pl pr) -> p <> 0%nat -> spine h l pl ps q ->
    spine h (DNode field type test l r) p (p :: ps) q.

Lemma rep_spine (h : gmap nat dt_node) (t : dtree) (p : nat) (fp : list nat) :
  tree_rep h t p fp -> exists ps q, spine h t p ps q.
Proof.
  revert p fp. induction t as [|rs rest id|f ty te l IHl r _]; intros p fp; cbn [tree_rep].
  - intros [-> _]. do 2 eexists. constructor.
  - intros (H & Hp & _). do 2 eexists. by constructor.
  - intros (pl & pr & fl & fr & H & Hp & Hl & _). destruct (IHl _ _ Hl) as (ps & q & Hs). do 2 eexists. by econstructor.
Qed.

Lemma spine_length (h : gmap nat dt_node) (t : dtree) (p : nat) (ps : list nat) (q : nat) :
  spine h t p ps q -> length ps = left_depth t.
Proof. induction 1; cbn [length left_depth]; congruence. Qed.

Lemma spine_end (h : gmap nat dt_node) (t : dtree) (p : nat) (ps : list nat) (q : nat) :
  spine h t p ps q ->
  match left_end t with
  | DNil => q = 0%nat
  | DLeaf rules rest id => q <> 0%nat /\ h !! q = Some (DtLeaf (leaf_array rules rest) (length rules) id)
  | DNode _ _ _ _ _ => False
  end.
Proof. induction 1; cbn [left_end]; done. Qed.

Lemma spine_head (h : gmap nat dt_node) (t : dtree) (p : nat) (ps : list nat) (q : nat) :
  spine h t p ps q -> ps ++ [q] = p :: tail (ps ++ [q]).
Proof. by destruct 1. Qed.

Lemma go_left_spec (m : dt_mem) (t : dtree) (p : nat) (ps : list nat) (q : nat) (path : dt_path) (fuel : nat) :
  spine (dm_nodes m) t p ps q -> (dtree_height t < fuel)%nat -> (length (pt_nodes path) + length ps <= DT_PATH_MAX)%nat ->
  exists path', dt_go_left fuel p path m = Some ((q, path'), m) /\
    (q <> 0%nat -> path' = DtPath (pt_nodes path ++ tail (ps ++ [q])) (pt_directions path ++ replicate (length ps) false)).
Proof.
  intros Hs. revert path fuel. induction Hs as [|rules rest id p H Hp|field type test l r p pl pr ps q H Hp Hs IH];
    intros path [|fuel] Hf Hd; cbn [dtree_height] in Hf; try lia; cbn [dt_go_left].
  - eexists. split; [done|]. done.
  - rewrite (proj2 (Nat.eqb_neq _ _) Hp), (dt_load_some _ _ _ _ H). eexists. split; [done|]. intros _.
    cbn [app tail length replicate]. rewrite !app_nil_r. by destruct path.
  - rewrite (proj2 (Nat.eqb_neq _ _) Hp), (dt_load_some _ _ _ _ H). cbn [length] in Hd.
    destruct (Nat.eqb_spec pl 0) as [->|Hpl].
    { inversion Hs; subst; [|done..]. destruct fuel; [lia|]. eexists. split; [done|]. done. }
    unfold dt_path_record. rewrite (proj2 (Nat.leb_gt _ _)) by lia. cbn [fst].
    edestruct (IH (DtPath (pt_nodes path ++ [pl]) (pt_directions path ++ [false])) fuel) as (path' & E & Hpath); [lia|cbn [pt_nodes]; rewrite length_app; cbn [length]; lia|].
    exists path'. split; [done|]. intros Hq. rewrite (Hpath Hq). cbn [pt_nodes pt_directions app tail length replicate].
    rewrite <- !app_assoc, (spine_head _ _ _ _ _ Hs). done.
Qed.

(** ** The copy of the path *)

(** One step of the loop: the copy of an internal node with a new left child. *)
Lemma rebuild_step (m0 m : dt_mem) (path : dt_path) (i p child pl pr : nat) (field : mf_field_id) (type : dt_test_type) (test : dt_test) :
  mem_wf m0 -> mem_ext m0 m -> nth i (pt_nodes path) 0%nat = p -> nth (S i) (pt_directions path) false = false ->
  dm_nodes m0 !! p = Some (DtInternal field type test pl pr) -> p <> 0%nat ->
  exists m', dt_path_rebuild_loop path (S i) child m = dt_path_rebuild_loop path i (dm_next m) m' /\ mem_ext m m' /\
    dm_nodes m' !! dm_next m = Some (DtInternal field type test child pr).
Proof.
  intros Hw X Hi Hd H Hp. cbn [dt_path_rebuild_loop]. rewrite Hi, Hd. unfold dt_node_copy. rewrite (proj2 (Nat.eqb_neq _ _) Hp).
  assert (dm_nodes m !! p = Some (DtInternal field type test pl pr)) as Hm.
  { rewrite (ext_old _ _ X); [done|]. destruct (decide (p < dm_next m0)%nat); [done|]. destruct Hw as [_ _ Hfr]. by rewrite Hfr in H by lia. }
  destruct (alloc_ext m (DtInternal field type test pl pr) (ext_wf _ _ X)) as (m1 & E1 & X1 & N1 & L1).
  erewrite dt_bind_some by (rewrite (dt_load_some _ _ _ _ Hm); exact E1). rewrite (dt_load_some _ _ _ _ L1).
  destruct (store_ext m m1 (dm_next m) _ (DtInternal field type test child pr) X1 ltac:(lia) L1) as (m2 & E2 & X2 & N2 & L2).
  rewrite (dt_bind_some _ _ _ _ _ E2). exists m2. split; [done|]. split; [done|]. by rewrite L2, lookup_insert_eq.
Qed.

(** The node at [p'] is a new copy of the internal node at [p] with another left child. *)
Definition shares_right (m : dt_mem) (p : nat) (m' : dt_mem) (p' : nat) : Prop :=
  exists field type test pl pr pl', dm_nodes m !! p = Some (DtInternal field type test pl pr) /\
    dm_nodes m' !! p' = Some (DtInternal field type test pl' pr) /\ (dm_next m <= p')%nat.

Lemma rebuild_spec (m0 m : dt_mem) (t : dtree) (p : nat) (fp ps : list nat) (q : nat) (new : dtree) (c : nat) (fpn : list nat)
    (path : dt_path) (pre post : list nat) :
  mem_wf m0 -> mem_ext m0 m -> spine (dm_nodes m0) t p ps q -> tree_rep (dm_nodes m0) t p fp -> NoDup fp ->
  tree_rep (dm_nodes m) new c fpn -> NoDup fpn -> Forall (fun x => (dm_next m0 <= x)%nat) fpn ->
  pt_nodes path = pre ++ ps ++ post -> (forall i, nth i (pt_directions path) false = false) ->
  exists c' m' fp', dt_path_rebuild_loop path (length pre + length ps) c m = dt_path_rebuild_loop path (length pre) c' m' /\
    mem_ext m0 m' /\ tree_rep (dm_nodes m') (replace_left t new) c' fp' /\ NoDup fp' /\
    (forall x, x ∈ fp' -> x ∈ fp \/ (dm_next m0 <= x)%nat) /\
    (left_depth t <> 0%nat -> shares_right m0 p m' c').
Proof.
  intros Hw X Hs Hr Hd Hn Hdn Hfn Hp Hdir. revert fp pre Hr Hd Hp.
  induction Hs as [|rules rest id p H Hp0|field type test l r p pl pr ps q H Hp0 Hs IH]; intros fp pre Hr Hd Hp.
  1,2: exists c, m, fpn; cbn [length replace_left]; rewrite Nat.add_0_r; do 4 (split; [done|]); split; [intros x Hx; right; by eapply Forall_forall in Hfn|done].
  cbn [tree_rep] in Hr. destruct Hr as (pl' & pr' & fl & fr & H' & _ & Hl & Hrr & ->). rewrite H in H'. injection H' as <- <-.
  apply NoDup_cons in Hd as [Hnp [Hdl [Hdis Hdr]]%NoDup_app].
  destruct (IH fl (pre ++ [p])) as (c1 & m1 & fp1 & E1 & X1 & R1 & D1 & S1 & _); [done|done|by rewrite Hp, <- app_assoc|].
  rewrite length_app in E1. cbn [length] in E1. rewrite Nat.add_1_r in E1.
  destruct (rebuild_step m0 m1 path (length pre) p c1 pl pr field type test) as (m2 & E2 & X2 & L2); try done.
  { rewrite Hp. by rewrite app_nth2, Nat.sub_diag by lia. }
  assert (mem_wf m1) as W1 by apply X1. pose proof (rep_below _ _ _ _ W1 R1) as B1. pose proof (rep_below _ _ _ _ Hw Hrr) as Br.
  exists (dm_next m1), m2, (dm_next m1 :: fp1 ++ fr). pose proof (ext_next _ _ X1) as N1.
  split; [cbn [length]; rewrite Nat.add_succ_r; by rewrite <- E2, <- E1|]. split; [by eapply mem_ext_trans|].
  split; [|split; [|split; [|intros _; do 6 eexists; split; [exact H|]; split; [exact L2|done]]]].
  - cbn [replace_left tree_rep]. exists c1, pr, fp1, fr. split; [done|]. split; [destruct Hw; lia|].
    split; [by eapply rep_ext|]. split; [|done]. eapply (rep_ext m1); [done..|]. by eapply (rep_ext m0).
  - apply NoDup_cons. split; [intros [Hx%B1|Hx%Br]%elem_of_app; lia|]. apply NoDup_app. split; [done|]. split; [|done].
    intros x Hx Hx'. destruct (S1 x Hx) as [Hxl|Hxn]; [by apply (Hdis x)|]. specialize (Br x Hx'). lia.
  - intros x [->|[Hx|Hx]%elem_of_app]%elem_of_cons; [right; lia| |left; set_solver].
    destruct (S1 x Hx) as [Hxl|Hxn]; [left; set_solver|by right].
Qed.

(** ** The state of a tree *)

(** The tree [t] and the pending rules that the fields of [dt] and the store represent. *)
Record dt_repr (m : dt_mem) (dt : decision_tree) (t : dtree) (pending : list cls_rule) : Prop := {
  dr_mem : mem_wf m;
  dr_tree : exists fp, tree_rep (dm_nodes m) t (dt_root dt) fp /\ NoDup fp;
  dr_pending : exists rest, dt_pending_rules dt = leaf_array pending rest;
  dr_n_pending : dt_n_pending dt = length pending
}.

(** The walk to the leftmost leaf, and the tree with another leaf in its place. *)
Lemma cow_path (m : dt_mem) (t : dtree) (root : nat) (fp : list nat) (rules : list cls_rule) (rest : rule_array) (id : Z) :
  mem_wf m -> tree_rep (dm_nodes m) t root fp -> NoDup fp -> left_end t = DLeaf rules rest id -> (left_depth t < DT_PATH_MAX)%nat ->
  exists q path, dt_go_left (S (size (dm_nodes m))) root (fst (dt_path_record dt_path_init root false)) m = Some ((q, path), m) /\
    q <> 0%nat /\ dm_nodes m !! q = Some (DtLeaf (leaf_array rules rest) (length rules) id) /\
    forall m1 c new fpn, mem_ext m m1 -> tree_rep (dm_nodes m1) new c fpn -> NoDup fpn -> Forall (fun x => (dm_next m <= x)%nat) fpn ->
      exists root' m' fp', dt_path_rebuild_cow path c m1 = Some (root', m') /\ mem_ext m m' /\
        tree_rep (dm_nodes m') (replace_left t new) root' fp' /\ NoDup fp' /\ (left_depth t <> 0%nat -> shares_right m root m' root').
Proof.
  intros Hw Hr Hd He Hdep. destruct (rep_spine _ _ _ _ Hr) as (ps & q & Hs). pose proof (spine_end _ _ _ _ _ Hs) as Hq.
  rewrite He in Hq. destruct Hq as [Hq0 Hq]. pose proof (spine_length _ _ _ _ _ Hs) as Hl.
  destruct (go_left_spec m t root ps q (DtPath [root] [false]) (S (size (dm_nodes m))) Hs) as (path & E & Hpath);
    [by eapply rep_fuel|cbn [pt_nodes length]; lia|].
  exists q, path. split; [done|]. split; [done|]. split; [done|]. specialize (Hpath Hq0). cbn [pt_nodes pt_directions app] in Hpath.
  rewrite <- (spine_head _ _ _ _ _ Hs) in Hpath. intros m1 c new fpn X Rn Dn Fn.
  destruct (rebuild_spec m m1 t root fp ps q new c fpn path [] [q]) as (c' & m' & fp' & Eb & X' & R' & D' & _ & Sh); try done.
  { by rewrite Hpath. }
  { intros i. rewrite Hpath. cbn [pt_directions]. change (false :: replicate (length ps) false) with (replicate (S (length ps)) false).
    generalize (S (length ps)). intros k. revert i. induction k; intros [|i]; cbn; done. }
  exists c', m', fp'. unfold dt_path_rebuild_cow.
  assert (length (pt_nodes path) = S (length ps)) as -> by (rewrite Hpath; cbn [pt_nodes]; rewrite length_app; apply Nat.add_1_r).
  cbn [Nat.eqb Nat.sub]. rewrite Nat.sub_0_r. cbn [length Nat.add] in Eb. by rewrite Eb.
Qed.

Lemma leaf_copy (m : dt_mem) (q : nat) (rules : list cls_rule) (rest : rule_array) (id : Z) :
  q <> 0%nat -> dm_nodes m !! q = Some (DtLeaf (leaf_array rules rest) (length rules) id) ->
  dt_node_copy q m = dt_alloc (DtLeaf (leaf_array rules []) (length rules) id) m.
Proof.
  intros Hq H. unfold dt_node_copy. rewrite (proj2 (Nat.eqb_neq _ _) Hq), (dt_load_some _ _ _ _ H).
  destruct rules as [|r rules]; [done|]. rewrite (proj2 (Nat.ltb_lt _ _)) by (cbn [length]; lia).
  rewrite leaf_array_length, (proj2 (Nat.leb_le _ _)) by lia. by rewrite leaf_array_take.
Qed.

Lemma first_leaf_spec (m : dt_mem) (rule : cls_rule) :
  mem_wf m -> exists m', dt_first_leaf rule m = Some (dm_next m, m') /\ mem_ext m m' /\
    tree_rep (dm_nodes m') (DLeaf [rule] (replicate 15 None) 0) (dm_next m) [dm_next m].
Proof.
  intros Hw. unfold dt_first_leaf, dt_node_create_leaf. destruct (alloc_ext m (DtLeaf [] 0 0) Hw) as (m1 & E1 & X1 & N1 & L1).
  rewrite (dt_bind_some _ _ _ _ _ E1).
  destruct (store_ext m m1 (dm_next m) _ (DtLeaf (<[0%nat := Some rule]> (replicate 16 None)) 1 0) X1 ltac:(lia) L1) as (m2 & E2 & X2 & N2 & L2).
  rewrite (dt_bind_some _ _ _ _ _ E2). exists m2. split; [done|]. split; [done|]. cbn [tree_rep]. rewrite L2, lookup_insert_eq.
  split; [done|]. split; [|done]. destruct Hw. lia.
Qed.

(** [m'] is [m] with new nodes and [old_root] waiting to be destroyed. *)
Definition postponed_ext (m m' : dt_mem) (old_root : nat) : Prop :=
  mem_wf m' /\ (forall q, (q < dm_next m)%nat -> dm_nodes m' !! q = dm_nodes m !! q) /\
  dm_postponed m' = dm_postponed m ++ [old_root].

Lemma postpone_ext (m m' : dt_mem) (p : nat) :
  mem_ext m m' -> exists m2, ovsrcu_postpone p m' = Some (tt, m2) /\ postponed_ext m m2 p /\ dm_nodes m2 = dm_nodes m'.
Proof.
  intros [[W0 W1 W2] N O P]. eexists. split; [done|]. split; [|done]. split; [by split|]. split; [done|]. cbn [dm_postponed]. by rewrite P.
Qed.

Lemma insert_cow (m : dt_mem) (dt : decision_tree) (t : dtree) (pending rules : list cls_rule) (rest : rule_array) (id : Z)
    (rule : cls_rule) :
  dt_repr m dt t pending -> left_end t = DLeaf rules rest id -> (left_depth t < DT_PATH_MAX)%nat -> rules <> [] ->
  exists root' m', dt_insert_rule dt rule m = Some ((set_root root' (dt_n_rules dt + 1) dt, true), m') /\
    postponed_ext m m' (dt_root dt) /\
    dt_repr m' (set_root root' (dt_n_rules dt + 1) dt)
      (replace_left t (DLeaf (prio_insert rule rules) (replicate (length rules - 1) None) id)) pending /\
    (left_depth t <> 0%nat -> shares_right m (dt_root dt) m' root').
Proof.
  intros [Hw [fp [Hr Hd]] Hp Hnp] He Hdep Hne. destruct (cow_path m t (dt_root dt) fp rules rest id) as (q & path & E & Hq0 & Hq & Hcow); [done..|].
  unfold dt_insert_rule. rewrite (proj2 (Nat.eqb_neq (dt_root dt) 0)) by (rewrite (rep_null _ _ _ _ Hr); intros ->; done).
  erewrite dt_bind_some by reflexivity. rewrite (dt_bind_some _ _ _ _ _ E). cbn beta iota. rewrite (proj2 (Nat.eqb_neq _ _) Hq0).
  destruct (alloc_ext m (DtLeaf (leaf_array rules []) (length rules) id) Hw) as (m1 & E1 & X1 & N1 & L1).
  erewrite dt_bind_some by (rewrite (leaf_copy _ _ _ _ _ Hq0 Hq); exact E1). rewrite (dt_load_some _ _ _ _ L1). cbn zeta.
  rewrite leaf_array_length. cbn [length]. rewrite Nat.add_0_r, Nat.leb_refl.
  replace (array_grow _ _) with (leaf_array rules (None :: replicate (length rules - 1) None)).
  2: { unfold array_grow, leaf_array. rewrite app_nil_r, length_fmap. f_equal. destruct rules; [done|]. cbn [length].
       replace (_ * 2 - _)%nat with (S (length rules)) by lia. cbn [replicate]. by rewrite Nat.sub_succ, Nat.sub_0_r. }
  rewrite (dt_lift_some _ _ _ _ (array_insert_spec rule rules None _)).
  destruct (store_ext m m1 (dm_next m) _ (DtLeaf (leaf_array (prio_insert rule rules) (replicate (length rules - 1) None)) (S (length rules)) id)
    X1 ltac:(lia) L1) as (m2 & E2 & X2 & N2 & L2). rewrite (dt_bind_some _ _ _ _ _ E2).
  destruct (Hcow m2 (dm_next m) (DLeaf (prio_insert rule rules) (replicate (length rules - 1) None) id) [dm_next m]) as (root' & m3 & fp' & E3 & X3 & R3 & D3 & Sh);
    [done| |apply NoDup_singleton|by repeat constructor|].
  { cbn [tree_rep]. rewrite L2, lookup_insert_eq. rewrite (Permutation_length (prio_insert_perm rule rules)). split; [done|]. split; [|done]. destruct Hw; lia. }
  rewrite (dt_bind_some _ _ _ _ _ E3). destruct (postpone_ext m m3 (dt_root dt) X3) as (m4 & E4 & P4 & L4). rewrite (dt_bind_some _ _ _ _ _ E4).
  exists root', m4. split; [done|]. split; [done|]. split; [split; [apply P4|rewrite L4; by exists fp'|done|done]|].
  unfold shares_right. by rewrite L4.
Qed.

(** An empty leaf is copied without an array, and doubling the capacity leaves it without one. *)
Lemma insert_empty_leaf (m : dt_mem) (dt : decision_tree) (t : dtree) (pending : list cls_rule) (rest : rule_array) (id : Z)
    (rule : cls_rule) :
  dt_repr m dt t pending -> left_end t = DLeaf [] rest id -> (left_depth t < DT_PATH_MAX)%nat ->
  dt_insert_rule dt rule m = None.
Proof.
  intros [Hw [fp [Hr Hd]] Hp Hnp] He Hdep. destruct (cow_path m t (dt_root dt) fp [] rest id) as (q & path & E & Hq0 & Hq & _); [done..|].
  unfold dt_insert_rule. rewrite (proj2 (Nat.eqb_neq (dt_root dt) 0)) by (rewrite (rep_null _ _ _ _ Hr); intros ->; done).
  erewrite dt_bind_some by reflexivity. rewrite (dt_bind_some _ _ _ _ _ E). cbn beta iota. rewrite (proj2 (Nat.eqb_neq _ _) Hq0).
  destruct (alloc_ext m (DtLeaf (leaf_array [] []) 0 id) Hw) as (m1 & E1 & X1 & N1 & L1).
  erewrite dt_bind_some by (rewrite (leaf_copy _ _ _ _ _ Hq0 Hq); exact E1). by rewrite (dt_load_some _ _ _ _ L1).
Qed.

(** The rules without the first one at the address of [rule], if there is one. *)
Fixpoint remove_rule (rule : cls_rule) (l : list cls_rule) : option (list cls_rule) :=
  match l with
  | [] => None
  | r :: l => if cr_id r =? cr_id rule then Some l else cons r <$> remove_rule rule l
  end.

Lemma remove_rule_spec (rule : cls_rule) (l : list cls_rule) (rest : rule_array) :
  match remove_rule rule l with
  | None => dt_find_rule rule (leaf_array l rest) 0 (length l) = Some None
  | Some l' => exists i y, dt_find_rule rule (leaf_array l rest) 0 (length l) = Some (Some i) /\
      dt_array_remove (leaf_array l rest) (length l) i = Some (leaf_array l' (y :: rest)) /\ length l' = (length l - 1)%nat
  end.
Proof.
  destruct (find_rule_spec rule [] l rest) as [[Hn Hi]|(l1 & r & l2 & -> & Hr & Hl & Hi)].
  - assert (remove_rule rule l = None) as ->; [|done]. clear Hi. induction Hn as [|r l Hr _ IH]; cbn [remove_rule]; [done|].
    rewrite (proj2 (Z.eqb_neq _ _) Hr). by rewrite IH.
  - assert (remove_rule rule (l1 ++ r :: l2) = Some (l1 ++ l2)) as ->.
    { clear Hi. induction Hl as [|x l Hx _ IH]; cbn [remove_rule app]; [by rewrite Hr, Z.eqb_refl|].
      rewrite (proj2 (Z.eqb_neq _ _) Hx). by rewrite IH. }
    destruct (array_remove_spec l1 l2 r rest) as [y Hy]. exists (length l1), y. split; [done|]. split; [done|].
    rewrite !length_app. cbn [length]. lia.
Qed.

Lemma remove_cow (m : dt_mem) (dt : decision_tree) (t : dtree) (pending rules : list cls_rule) (rest : rule_array) (id : Z)
    (rule : cls_rule) :
  dt_repr m dt t pending -> left_end t = DLeaf rules rest id -> (left_depth t < DT_PATH_MAX)%nat ->
  match remove_rule rule rules with
  | None => dt_remove_rule dt rule m = Some ((dt, false), m)
  | Some rules' =>
      exists root' m' y, dt_remove_rule dt rule m = Some ((set_root root' (dt_n_rules dt - 1) dt, true), m') /\
        postponed_ext m m' (dt_root dt) /\
        dt_repr m' (set_root root' (dt_n_rules dt - 1) dt) (replace_left t (DLeaf rules' [y] id)) pending
  end.
Proof.
  intros [Hw [fp [Hr Hd]] Hp Hnp] He Hdep. destruct (cow_path m t (dt_root dt) fp rules rest id) as (q & path & E & Hq0 & Hq & Hcow); [done..|].
  unfold dt_remove_rule. rewrite (proj2 (Nat.eqb_neq (dt_root dt) 0)) by (rewrite (rep_null _ _ _ _ Hr); intros ->; done).
  cbn zeta. erewrite dt_bind_some by reflexivity. rewrite (dt_bind_some _ _ _ _ _ E). cbn beta iota. rewrite (proj2 (Nat.eqb_neq _ _) Hq0).
  rewrite (dt_load_some _ _ _ _ Hq). pose proof (remove_rule_spec rule rules rest) as Hf. pose proof (remove_rule_spec rule rules []) as Hf'.
  destruct (remove_rule rule rules) as [rules'|] eqn:Er; [|by rewrite (dt_lift_some _ _ _ _ Hf)].
  destruct Hf as (i & _ & Hi & _). destruct Hf' as (i' & y & Hi' & Ha & Hlen). rewrite (dt_lift_some _ _ _ _ Hi).
  destruct (alloc_ext m (DtLeaf (leaf_array rules []) (length rules) id) Hw) as (m1 & E1 & X1 & N1 & L1).
  erewrite dt_bind_some by (rewrite (leaf_copy _ _ _ _ _ Hq0 Hq); exact E1). rewrite (dt_load_some _ _ _ _ L1).
  rewrite (dt_lift_some _ _ _ _ Hi').
  destruct (store_ext m m1 (dm_next m) _ (DtLeaf (leaf_array rules' [y]) (length rules - 1) id) X1 ltac:(lia) L1) as (m2 & E2 & X2 & N2 & L2).
  erewrite dt_bind_some by (rewrite (dt_lift_some _ _ _ _ Ha); exact E2).
  destruct (Hcow m2 (dm_next m) (DLeaf rules' [y] id) [dm_next m]) as (root' & m3 & fp' & E3 & X3 & R3 & D3 & Sh);
    [done| |apply NoDup_singleton|by repeat constructor|].
  { cbn [tree_rep]. rewrite L2, lookup_insert_eq, Hlen. split; [done|]. split; [|done]. destruct Hw; lia. }
  rewrite (dt_bind_some _ _ _ _ _ E3). destruct (postpone_ext m m3 (dt_root dt) X3) as (m4 & E4 & P4 & L4). rewrite (dt_bind_some _ _ _ _ _ E4).
  exists root', m4, y. split; [done|]. split; [done|]. split; [apply P4|rewrite L4; by exists fp'|done|done].
Qed.

(** A leftmost path that ends in [NULL]. *)
Lemma remove_nil (m : dt_mem) (dt : decision_tree) (t : dtree) (pending : list cls_rule) (rule : cls_rule) :
  dt_repr m dt t pending -> left_end t = DNil -> (left_depth t < DT_PATH_MAX)%nat ->
  dt_remove_rule dt rule m = Some ((dt, false), m).
Proof.
  intros [Hw [fp [Hr Hd]] Hp Hnp] He Hdep. unfold dt_remove_rule. cbn zeta.
  destruct (Nat.eqb_spec (dt_root dt) 0) as [_|Hroot]; [done|]. destruct (rep_spine _ _ _ _ Hr) as (ps & q & Hs).
  pose proof (spine_end _ _ _ _ _ Hs) as Hq. rewrite He in Hq. subst q. pose proof (spine_length _ _ _ _ _ Hs) as Hl.
  destruct (go_left_spec m t (dt_root dt) ps 0 (DtPath [dt_root dt] [false]) (S (size (dm_nodes m))) Hs) as (path & E & _);
    [by eapply rep_fuel|cbn [pt_nodes length]; lia|].
  erewrite dt_bind_some by reflexivity. by rewrite (dt_bind_some _ _ _ _ _ E).
Qed.

Lemma replace_left_depth (t : dtree) (rules : list cls_rule) (rest : rule_array) (id : Z) :
  left_depth (replace_left t (DLeaf rules rest id)) = left_depth t.
Proof. induction t; cbn [replace_left left_depth]; congruence. Qed.

Lemma replace_left_rules (t new : dtree) (r : cls_rule) :
  r ∈ dtree_rules (replace_left t new) -> r ∈ dtree_rules new \/ r ∈ dtree_rules t.
Proof.
  induction t as [|rules rest id|field type test l IHl r' _]; cbn [replace_left dtree_rules]; [by left|by left|].
  rewrite !elem_of_app. intros [H|H]; [|by right; right]. destruct (IHl H); [by left|right; by left].
Qed.

Lemma left_end_rules (t : dtree) (r : cls_rule) : r ∈ dtree_rules (left_end t) -> r ∈ dtree_rules t.
Proof.
  induction t as [|rules rest id|field type test l IHl r' _]; cbn [left_end dtree_rules]; [done|done|].
  rewrite elem_of_app. auto.
Qed.

Lemma remove_rule_sub (rule : cls_rule) (l l' : list cls_rule) (r : cls_rule) : remove_rule rule l = Some l' -> r ∈ l' -> r ∈ l.
Proof.
  revert l'. induction l as [|x l IH]; intros l'; cbn [remove_rule]; [done|]. destruct (_ =? _).
  - intros [= ->] H. by right.
  - destruct (remove_rule rule l) as [l2|] eqn:E; [|done]. intros [= <-] [->|H]%elem_of_cons; [by left|right; by apply (IH l2)].
Qed.

(** ** Pending rules *)

Lemma add_lazy_spec (m : dt_mem) (dt : decision_tree) (t : dtree) (pending : list cls_rule) (rule : cls_rule) :
  dt_repr m dt t pending ->
  exists dt', dt_add_rule_lazy dt rule = Some (dt', true) /\ dt_repr m dt' t (pending ++ [rule]) /\
    dt_root dt' = dt_root dt /\ dt_tree_built dt' = false.
Proof.
  intros [Hw Ht [rest Hp] Hn]. unfold dt_add_rule_lazy. rewrite Hp, Hn, leaf_array_length. cbn zeta.
  set (pend := if (_ <=? _)%nat then _ else _).
  assert (exists x rest', pend = leaf_array pending (x :: rest')) as (x & rest' & ->).
  { unfold pend. destruct (Nat.leb_spec (length pending + length rest) (length pending)) as [Hle|Hlt].
    - assert (rest = []) as -> by (apply length_zero_iff_nil; lia). unfold array_grow, leaf_array. rewrite app_nil_r, length_fmap.
      destruct (_ - _)%nat as [|k] eqn:Ek; [|eauto]. exfalso. destruct (Nat.eqb_spec (length pending + length (@nil (option cls_rule))) 0); cbn [length] in *; lia.
    - destruct rest as [|x rest]; [cbn in Hlt; lia|eauto]. }
  unfold leaf_array. rewrite array_set_app by (by rewrite length_fmap). cbn [mbind option_bind]. eexists. split; [done|].
  split; [|done]. split; [done|done| |].
  - exists rest'. cbn [dt_pending_rules]. unfold leaf_array. by rewrite fmap_app, <- app_assoc.
  - cbn [dt_n_pending]. rewrite length_app. cbn [length]. lia.
Qed.
