(* ===== verification/DtProps.v ===== *)
(** * Theorems on the decision tree classifier *)

From S2P Require Import Prelude Util Flowmap Hash Miniflow MetaFlow FlowFields MetaFields MatchSet Versions Pvector Classifier.
From S2P Require Import DtClassifier Backend DtTree DtOps DtCow.
From stdpp Require Import prelude list gmap strings.
From Stdlib Require Import ZArith Lia.
Open Scope Z_scope.
Open Scope ovs_scope.

(** ** The lazy build *)

(** The statistics of a tree. *)
Definition stats_of (dt : decision_tree) (t : dtree) : Prop :=
  dt_n_internal_nodes dt = dtree_internal t /\ dt_n_leaf_nodes dt = Z.of_nat (length (leaf_depths t 0)) /\
  dt_max_depth dt = foldl Z.max 0 (leaf_depths t 0).

Lemma update_stats_spec (m : dt_mem) (dt : decision_tree) (t : dtree) (pending : list cls_rule) :
  dt_repr m dt t pending ->
  exists dt', dt_update_stats dt m = Some (dt', m) /\ dt_repr m dt' t pending /\ stats_of dt' t /\
    dt_n_rules dt' = dt_n_rules dt /\ dt_tree_built dt' = dt_tree_built dt.
Proof.
  intros [Hw [fp [Hr Hd]] Hp Hn]. unfold dt_update_stats. erewrite dt_bind_some by reflexivity.
  pose proof (stats_spec m t (dt_root dt) fp (S (size (dm_nodes m))) 0 0 0 0 Hr (rep_fuel _ _ _ _ Hr Hd)) as E.
  assert ((if (dt_root dt =? 0)%nat then mret (0, 0, 0) else dt_calculate_stats_loop (S (size (dm_nodes m))) (dt_root dt) (0, 0, 0) 0) m
    = Some (0 + dtree_internal t, 0 + Z.of_nat (length (leaf_depths t 0)), foldl Z.max 0 (leaf_depths t 0), m)) as E'.
  { destruct (Nat.eqb_spec (dt_root dt) 0) as [E0|_]; [|done]. by rewrite (proj1 (rep_null _ _ _ _ Hr) E0). }
  rewrite (dt_bind_some _ _ _ _ _ E'). cbn beta iota. eexists. split; [done|].
  split; [split; [done|by exists fp|done|done]|]. split; [|done]. split; [|done]. cbn. lia.
Qed.

Lemma ensure_spec (m : dt_mem) (dt : decision_tree) (t : dtree) (pending : list cls_rule) (junk : list nat -> mf_value) :
  dt_repr m dt t pending ->
  exists dt' m' t', dt_ensure_tree_built dt junk m = Some (dt', m') /\ mem_ext m m' /\ dt_repr m' dt' t' pending /\
    dt_tree_built dt' = true /\
    (if dt_tree_built dt || (length pending =? 0)%nat then t' = t /\ dt_n_rules dt' = dt_n_rules dt
     else built DT_LEAF_SIZE pending t' /\ stats_of dt' t' /\ dt_n_rules dt' = Z.of_nat (length pending)).
Proof.
  intros Hrep. pose proof Hrep as [Hw [fp [Hr Hd]] [rest Hp] Hn]. unfold dt_ensure_tree_built. rewrite Hp, Hn.
  destruct (dt_tree_built dt) eqn:Eb; cbn [orb].
  { exists dt, m, t. split; [done|]. split; [by apply mem_ext_refl|]. done. }
  destruct (length pending =? 0)%nat eqn:E0.
  { eexists _, m, t. split; [done|]. split; [by apply mem_ext_refl|]. split; [|done]. split; [done|by exists fp|by exists rest|done]. }
  rewrite (dt_lift_some _ _ _ _ (array_rules_leaf pending rest)).
  destruct (build_spec (length pending) pending DT_LEAF_SIZE junk m Hw (le_n _)) as (t' & p & fp' & m' & E & X & R & D & _ & B).
  unfold dt_build_tree_from_array. rewrite (dt_bind_some _ _ _ _ _ E).
  edestruct (update_stats_spec m' (DecisionTree p true (leaf_array pending rest) (length pending) (Z.of_nat (length pending))
    (dt_n_internal_nodes dt) (dt_n_leaf_nodes dt) (dt_max_depth dt)) t' pending) as (dt' & E' & R' & S' & N' & B').
  { split; [apply X|by exists fp'|by exists rest|done]. }
  exists dt', m', t'. split; [done|]. split; [done|]. split; [done|]. split; [done|]. done.
Qed.

(** ** Lookup *)

Lemma lookup_spec (cm : cls_rule -> option cls_match) (m : dt_mem) (dt : decision_tree) (t : dtree) (pending : list cls_rule)
    (version : Z) (f : flow) (wc : option flow) (bj junk : list nat -> mf_value) :
  dt_repr m dt t pending -> dtree_exact t ->
  exists dt' m' t' best wc', dt_lookup cm dt version f wc bj junk m = Some ((dt', best, wc'), m') /\ mem_ext m m' /\
    dt_repr m' dt' t' pending /\ dt_tree_built dt' = true /\
    (if dt_tree_built dt || (length pending =? 0)%nat then t' = t else built DT_LEAF_SIZE pending t') /\
    is_best cm version (dtree_reach t' f junk) best /\
    wc' = (if (dt_root dt' =? 0)%nat then wc else match wc with Some _ => Some flow_wildcards_init_catchall | None => None end).
Proof.
  intros Hrep Hx. destruct (ensure_spec m dt t pending bj Hrep) as (dt' & m' & t' & E & X & R & B & Hb).
  assert (dtree_exact t') as Hx'.
  { destruct (_ || _); [by destruct Hb as [-> _]|]. destruct Hb as [Hb _]. by eapply built_exact. }
  assert (if dt_tree_built dt || (length pending =? 0)%nat then t' = t else built DT_LEAF_SIZE pending t') as Hb'.
  { destruct (_ || _); apply Hb. }
  clear Hb. exists dt', m', t'. unfold dt_lookup. rewrite (dt_bind_some _ _ _ _ _ E). pose proof R as [Hw' [fp [Hr Hd]] _ _].
  destruct (Nat.eqb_spec (dt_root dt') 0) as [E0|E0].
  { exists None, wc. rewrite (proj1 (rep_null _ _ _ _ Hr) E0) in *. split; [done|]. do 4 (split; [done|]). split; [constructor|done]. }
  cbn zeta. erewrite dt_bind_some by reflexivity.
  destruct (traverse_spec m' t' (dt_root dt') fp (S (size (dm_nodes m'))) f junk Hr Hx' (rep_fuel _ _ _ _ Hr Hd)) as (q & Et & Hq).
  rewrite (dt_bind_some _ _ _ _ _ Et). destruct Hq as [[-> Hq]|[Hq0 (rest & id & Hq)]].
  - do 2 eexists. split; [done|]. do 4 (split; [done|]). split; [rewrite Hq; constructor|done].
  - rewrite (proj2 (Nat.eqb_neq _ _) Hq0), (dt_load_some _ _ _ _ Hq).
    rewrite (dt_lift_some _ _ _ _ (best_rule_loop cm version [] (dtree_reach t' f junk) rest None)).
    do 2 eexists. split; [done|]. do 4 (split; [done|]). split; [apply best_rule_spec|done].
Qed.

(** ** Sequences of operations *)

(** An operation on a classifier, with the contents of the buffers it does not initialise. *)
Inductive backend_op :=
| OpInsert (rule : cls_rule) (version : Z)
| OpRemove (rule : cls_rule)
| OpLookup (version : Z) (f : flow) (wc : option flow) (build_junk junk : list nat -> mf_value).

Definition backend_step `{Hash} `{Qsort} (cls : classifier_backend) (op : backend_op) : dtM (classifier_backend * option cls_rule) :=
  match op with
  | OpInsert rule version => cls ← lift (backend_insert cls rule version []); mret (cls, None)
  | OpRemove rule => '(cls, _) ← backend_remove cls rule; mret (cls, None)
  | OpLookup version f wc bj junk =>
      '(cls, rule, _, _) ← backend_lookup cls version f wc None bj junk; mret (cls, rule)
  end.

(** The classifier after the operations, and the rules that the lookups found. *)
Fixpoint backend_run `{Hash} `{Qsort} (cls : classifier_backend) (ops : list backend_op) : dtM (classifier_backend * list cls_rule) :=
  match ops with
  | [] => mret (cls, [])
  | op :: ops =>
      '(cls, found) ← backend_step cls op;
      '(cls, rules) ← backend_run cls ops;
      mret (cls, option_list found ++ rules)
  end.

Fixpoint inserted_rules (ops : list backend_op) : list cls_rule :=
  match ops with
  | [] => []
  | OpInsert rule _ :: ops => rule :: inserted_rules ops
  | _ :: ops => inserted_rules ops
  end.

(** The invariant of a decision tree into which the rules [ins] were inserted. *)
Definition dt_inv (m : dt_mem) (cls : classifier_backend) (ins : list cls_rule) : Prop :=
  exists dt t, cls = BackendDt (Some dt) /\ dt_repr m dt t ins /\ dtree_exact t /\
    (forall r, r ∈ dtree_rules t -> r ∈ ins) /\ (left_depth t <= length ins)%nat.

Lemma built_left_depth (max : nat) (rules : list cls_rule) (t : dtree) : built max rules t -> (left_depth t <= length rules)%nat.
Proof.
  induction 1 as [|rules Hr Hs|rules field v junk ls rs l r _ Hp _ Hrs _ _ IHl _ _]; cbn [left_depth]; [done|lia|].
  pose proof (Permutation_length (partition_perm field v rules 0 junk)) as E. rewrite Hp in E. cbn [fst snd] in E.
  rewrite length_app in E. destruct rs; [done|]. cbn [length] in E. lia.
Qed.

Lemma replace_left_exact (t : dtree) (rules : list cls_rule) (rest : rule_array) (id : Z) :
  dtree_exact t -> dtree_exact (replace_left t (DLeaf rules rest id)).
Proof. induction t as [| |? ? ? l IHl r _]; cbn [replace_left dtree_exact]; [done|done|]. intros (? & ? & ?). auto. Qed.

Lemma remove_inv (m : dt_mem) (dt : decision_tree) (t : dtree) (ins : list cls_rule) (rule : cls_rule) :
  dt_repr m dt t ins -> dtree_exact t -> (forall r, r ∈ dtree_rules t -> r ∈ ins) -> (left_depth t <= length ins)%nat ->
  (length ins < DT_PATH_MAX)%nat ->
  exists dt' b m', dt_remove_rule dt rule m = Some ((dt', b), m') /\ dt_inv m' (BackendDt (Some dt')) ins.
Proof.
  intros R X I D Hm. assert (left_depth t < DT_PATH_MAX)%nat as Hd by lia. destruct (left_end t) as [|rules rest id|] eqn:El.
  - rewrite (remove_nil _ _ _ _ rule R El Hd). do 3 eexists. split; [done|]. by exists dt, t.
  - pose proof (remove_cow m dt t ins rules rest id rule R El Hd) as H. destruct (remove_rule rule rules) as [rules'|] eqn:Er.
    + destruct H as (root' & m' & y & E & _ & R'). do 3 eexists. split; [exact E|]. do 2 eexists. split; [done|]. split; [exact R'|].
      split; [by apply replace_left_exact|]. split; [|by rewrite replace_left_depth].
      intros r [Hr|Hr]%replace_left_rules; [|by apply I]. apply I, left_end_rules. rewrite El. cbn [dtree_rules] in *. by eapply remove_rule_sub.
    + rewrite H. do 3 eexists. split; [done|]. by exists dt, t.
  - destruct R as [_ [fp [R _]] _ _]. destruct (rep_spine _ _ _ _ R) as (ps & q & Hs). apply spine_end in Hs. by rewrite El in Hs.
Qed.

Lemma dt_step_inv `{Hash} `{Qsort} (m : dt_mem) (cls : classifier_backend) (ins : list cls_rule) (op : backend_op) :
  dt_inv m cls ins -> (length (ins ++ inserted_rules [op]) < DT_PATH_MAX)%nat ->
  exists cls' found m', backend_step cls op m = Some ((cls', found), m') /\ dt_inv m' cls' (ins ++ inserted_rules [op]) /\
    (forall r, found = Some r -> r ∈ ins).
Proof.
  intros (dt & t & -> & R & X & I & D) Hm. destruct op as [rule version|rule|version f wc bj junk]; cbn [inserted_rules] in *; cbn [backend_step].
  - destruct (add_lazy_spec m dt t ins rule R) as (dt' & E & R' & _). cbn [backend_insert]. rewrite E. cbn [mbind option_bind].
    eexists _, None, m. split; [done|]. split; [|done]. exists dt', t. split; [done|]. split; [done|]. split; [done|].
    split; [intros r Hr; apply elem_of_app; left; auto|]. rewrite length_app. lia.
  - rewrite app_nil_r in *. destruct (remove_inv m dt t ins rule R X I D Hm) as (dt' & b & m' & E & Hinv). cbn [backend_remove].
    eexists _, None, m'. split; [|done]. unfold mbind at 1. unfold dtM_bind at 1. rewrite (dt_bind_some _ _ _ _ _ E). done.
  - rewrite app_nil_r in *. destruct (lookup_spec (fun _ => None) m dt t ins version f wc bj junk R X) as (dt' & m' & t' & best & wc' & E & _ & R' & _ & Ht & Hb & _).
    cbn [backend_lookup]. eexists _, best, m'. split; [unfold mbind at 1, dtM_bind at 1; rewrite (dt_bind_some _ _ _ _ _ E); done|].
    assert (dtree_exact t' /\ (forall r, r ∈ dtree_rules t' -> r ∈ ins) /\ (left_depth t' <= length ins)%nat) as (X' & I' & D').
    { destruct (_ || _); [by subst|]. split; [by eapply built_exact|]. split; [|by eapply built_left_depth].
      intros r Hr. by rewrite (built_rules _ _ _ Ht) in Hr. }
    split; [by exists dt', t'|]. intros r ->. apply I'. eapply dtree_reach_rules. apply Hb.
Qed.

Lemma dt_run_inv `{Hash} `{Qsort} (ops : list backend_op) (m : dt_mem) (cls : classifier_backend) (ins : list cls_rule) :
  dt_inv m cls ins -> (length (ins ++ inserted_rules ops) < DT_PATH_MAX)%nat ->
  exists cls' found m', backend_run cls ops m = Some ((cls', found), m') /\ dt_inv m' cls' (ins ++ inserted_rules ops) /\
    (forall r, r ∈ found -> r ∈ ins ++ inserted_rules ops).
Proof.
  revert m cls ins. induction ops as [|op ops IH]; intros m cls ins Hi Hm; cbn [backend_run].
  { cbn [inserted_rules] in *. rewrite app_nil_r in *. eexists _, [], m. split; [done|]. split; [done|]. intros r Hr. by apply elem_of_nil in Hr. }
  assert (inserted_rules (op :: ops) = inserted_rules [op] ++ inserted_rules ops) as Ei by (by destruct op). rewrite Ei, app_assoc in *.
  destruct (dt_step_inv m cls ins op Hi) as (cls1 & found1 & m1 & E1 & I1 & F1); [rewrite length_app in Hm; lia|].
  destruct (IH m1 cls1 _ I1 Hm) as (cls2 & found2 & m2 & E2 & I2 & F2). rewrite (dt_bind_some _ _ _ _ _ E1). cbn beta iota.
  rewrite (dt_bind_some _ _ _ _ _ E2). eexists _, _, m2. split; [done|]. split; [done|].
  intros r [Hr|Hr]%elem_of_app; [|by apply F2]. rewrite <- app_assoc. apply elem_of_app. left. destruct found1 as [r1|]; [|by apply elem_of_nil in Hr].
  apply list_elem_of_singleton in Hr as ->. by apply F1.
Qed.

(** ** Theorems *)

Definition dt_mem_init : dt_mem := DtMem ∅ 1 [].

Lemma mem_init_wf : mem_wf dt_mem_init.
Proof. split; cbn [dm_next dm_nodes dt_mem_init]; [lia|apply lookup_empty|]. intros q _. apply lookup_empty. Qed.

Lemma init_repr : dt_repr dt_mem_init dt_init DNil [].
Proof. split; [apply mem_init_wf|by exists []; split; [|constructor]|by exists []|done]. Qed.

(** C14: on a classifier that [classifier_init_with_backend] made a decision
    tree, any sequence of fewer than 64 insertions and any number of removals
    and lookups, up to the end of the grace period, touches only nodes that
    are allocated and array cells that exist and were written, and fails no
    assertion, whatever the uninitialised buffers hold; and every rule that
    a lookup finds is one that was inserted. *)
Theorem dt_sequence_defined `{Hash} `{Qsort} (flow_segments : list nat) (ops : list backend_op) :
  (length (inserted_rules ops) < DT_PATH_MAX)%nat ->
  exists cls found m, backend_run (classifier_init_with_backend flow_segments (Some "dt"%string)) ops dt_mem_init = Some ((cls, found), m) /\
    forall r, r ∈ found -> r ∈ inserted_rules ops.
Proof.
  intros Hm. destruct (dt_run_inv ops dt_mem_init (BackendDt (Some dt_init)) []) as (cls & found & m & E & _ & F); [|done|].
  - exists dt_init, DNil. split; [done|]. split; [apply init_repr|]. split; [done|]. split; [|done]. intros r Hr. by apply elem_of_nil in Hr.
  - exists cls, found, m. split; [exact E|exact F].
Qed.

(** C15: the first lookup after an insertion builds a tree of the pending rules
    in new nodes: every rule is in exactly one leaf, an internal node separates
    its rules, a leaf holds at most five rules unless the test that was tried
    does not separate them, and the counters are those of the tree. *)
Theorem dt_ensure_tree_built_spec (m : dt_mem) (dt : decision_tree) (t : dtree) (pending : list cls_rule) (junk : list nat -> mf_value) :
  dt_repr m dt t pending -> dt_tree_built dt = false -> pending <> [] ->
  exists dt' m' t', dt_ensure_tree_built dt junk m = Some (dt', m') /\ mem_ext m m' /\ dt_repr m' dt' t' pending /\
    dt_tree_built dt' = true /\ built DT_LEAF_SIZE pending t' /\ dtree_rules t' ≡ₚ pending /\
    stats_of dt' t' /\ dt_n_rules dt' = Z.of_nat (length pending).
Proof.
  intros R Hb Hne. destruct (ensure_spec m dt t pending junk R) as (dt' & m' & t' & E & X & R' & B & H).
  destruct pending as [|r0 pending]; [done|]. rewrite Hb in H. cbn [orb length Nat.eqb] in H. destruct H as (Hbt & Hs & Hn).
  exists dt', m', t'. do 5 (split; [done|]). split; [by eapply built_rules|done].
Qed.



Lemma rep_root_in (h : gmap nat dt_node) (t : dtree) (p : nat) (fp : list nat) : tree_rep h t p fp -> t <> DNil -> p ∈ fp.
Proof. destruct t; cbn [tree_rep]; [done|intros (_ & _ & ->) _; by left|]. intros (? & ? & ? & ? & _ & _ & _ & _ & ->) _. by left. Qed.

(** when the root is an internal node with a right child, the tree that
    [dt_insert_rule] makes shares that child with the old tree, and the
    postponed [dt_node_destroy] of the old root frees it: after the grace
    period the root of the new tree points to a node that is not allocated. *)
Theorem dt_insert_rule_dangling (m : dt_mem) (dt : decision_tree) (field : mf_field_id) (type : dt_test_type) (test : dt_test)
    (l r : dtree) (pending rules : list cls_rule) (rest : rule_array) (id : Z) (rule : cls_rule) :
  dt_repr m dt (DNode field type test l r) pending -> r <> DNil -> left_end l = DLeaf rules rest id -> rules <> [] ->
  (S (left_depth l) < DT_PATH_MAX)%nat -> dm_postponed m = [] ->
  exists dt' m' m'' pl pr, dt_insert_rule dt rule m = Some ((dt', true), m') /\ ovsrcu_synchronize m' = Some (tt, m'') /\
    dm_nodes m'' !! dt_root dt' = Some (DtInternal field type test pl pr) /\ pr <> 0%nat /\ dm_nodes m'' !! pr = None.
Proof.
  intros R Hnr El Hne Hd Hp. destruct (insert_cow m dt _ pending rules rest id rule R El Hd Hne) as (root' & m' & E & (W & O & P) & _ & Sh).
  destruct Sh as (f0 & ty0 & te0 & pl & pr & pl' & H & H' & Hfresh); [done|]. destruct R as [Hw [fp [Hr Hdup]] _ _].
  assert (tree_rep (dm_nodes m') (DNode field type test l r) (dt_root dt) fp) as Hr'.
  { apply (rep_mono (dm_nodes m)); [done|]. intros q Hq. apply O. by eapply rep_below. }
  pose proof (rep_below _ _ _ _ Hw Hr) as Below. rewrite Hp in P. cbn [app] in P.
  destruct (destroy_spec (DtMem (dm_nodes m') (dm_next m') []) _ _ _ _ Hr' Hdup (rep_fuel _ _ _ _ Hr' Hdup)) as (h & Ed & Hh).
  cbn [tree_rep] in Hr. destruct Hr as (pl1 & pr1 & fl & fr & H1 & _ & _ & Hrr & ->). rewrite H in H1. injection H1 as -> -> -> -> ->.
  pose proof (rep_root_in _ _ _ _ Hrr Hnr) as Hin. cbn [dm_nodes] in Hh.
  eexists _, m', (DtMem h (dm_next m') []), pl', pr1. split; [exact E|]. split.
  { unfold ovsrcu_synchronize. rewrite P. cbn [ovsrcu_call_postponed]. unfold dt_node_destroy, dt_fuel. cbn [dm_nodes].
    unfold mbind at 1, dtM_bind at 1. erewrite dt_bind_some by reflexivity. cbn [dm_nodes]. rewrite Ed. done. }
  cbn [dm_nodes dt_root set_root]. split; [|split].
  - rewrite Hh, decide_False; [exact H'|]. intros Hx%Below. lia.
  - rewrite (rep_null _ _ _ _ Hrr). done.
  - rewrite Hh, decide_True; [done|]. right. apply elem_of_app. by right.
Qed.

(** [dt_remove_rule] does not remove the rule from the pending rules: once
    another rule is inserted, the next lookup builds a tree that has the
    removed rule again. *)
Theorem dt_remove_rule_restored (m : dt_mem) (dt : decision_tree) (t : dtree) (pending rules rules' : list cls_rule) (rest : rule_array)
    (id : Z) (rule other : cls_rule) (junk : list nat -> mf_value) :
  dt_repr m dt t pending -> left_end t = DLeaf rules rest id -> (left_depth t < DT_PATH_MAX)%nat ->
  remove_rule rule rules = Some rules' -> rule ∈ pending ->
  exists dt1 m1 dt2 dt3 m3 t3, dt_remove_rule dt rule m = Some ((dt1, true), m1) /\ dt_add_rule_lazy dt1 other = Some (dt2, true) /\
    dt_ensure_tree_built dt2 junk m1 = Some (dt3, m3) /\ dt_repr m3 dt3 t3 (pending ++ [other]) /\ rule ∈ dtree_rules t3.
Proof.
  intros R El Hd Er Hin. pose proof (remove_cow m dt t pending rules rest id rule R El Hd) as H. rewrite Er in H.
  destruct H as (root' & m1 & y & E1 & _ & R1). destruct (add_lazy_spec _ _ _ _ other R1) as (dt2 & E2 & R2 & _ & B2).
  destruct (ensure_spec _ _ _ _ junk R2) as (dt3 & m3 & t3 & E3 & _ & R3 & _ & H3).
  rewrite B2, length_app, Nat.add_1_r in H3. cbn [orb Nat.eqb] in H3. destruct H3 as [H3 _].
  eexists _, m1, dt2, dt3, m3, t3. split; [exact E1|]. do 3 (split; [done|]). rewrite (built_rules _ _ _ H3). apply elem_of_app. by left.
Qed.

(** [dt_destroy] frees exactly the nodes of the tree, each one once. *)
Theorem dt_destroy_spec (m : dt_mem) (dt : decision_tree) (t : dtree) (fp : list nat) :
  tree_rep (dm_nodes m) t (dt_root dt) fp -> NoDup fp ->
  exists dt' m', dt_destroy dt m = Some (dt', m') /\ dt_root dt' = 0%nat /\ dt_n_pending dt' = 0%nat /\
    forall q, dm_nodes m' !! q = if decide (q ∈ fp) then None else dm_nodes m !! q.
Proof.
  intros Hr Hd. destruct (destroy_spec m t (dt_root dt) fp _ Hr Hd (rep_fuel _ _ _ _ Hr Hd)) as (h & E & Hh). unfold dt_destroy.
  destruct (Nat.eqb_spec (dt_root dt) 0) as [E0|E0].
  - rewrite (proj1 (rep_null _ _ _ _ Hr) E0) in Hr. destruct Hr as [_ ->]. do 2 eexists. split; [reflexivity|]. do 2 (split; [done|]).
    intros q. case_decide as Hq; [by apply elem_of_nil in Hq|done].
  - erewrite dt_bind_some by (unfold dt_node_destroy; erewrite dt_bind_some by reflexivity; exact E).
    do 2 eexists. split; [reflexivity|]. do 2 (split; [done|]). exact Hh.
Qed.

(** A rule for one source address, and a tree with six such rules pending. *)
Definition src_rule (src : Z) : cls_rule := cls_rule_init src (match_set_nw_src match_init_catchall src) (10 + src).

Definition no_junk : list nat -> mf_value := fun _ => replicate SIZEOF_MF_VALUE 0.

Definition src_tree : decision_tree := DecisionTree 0 false (Some <$> (src_rule <$> [1; 2; 3; 4; 5; 6])) 6 0 0 0 0.

(** the tests of the tree and the partition of the rules do not agree, and
    the rule is never compared with the flow: a tree with one rule returns it
    for every flow, with wildcards that match every packet; and of six rules
    for the sources 1 to 6, a packet from source 5 finds the rule for source
    3, because the build sends the values from 4 on to the right and the
    lookup only the value 4. *)
Theorem dt_lookup_ignores_match :
  (forall (rule : cls_rule) (f wc : flow) (version : Z) (bj junk : list nat -> mf_value),
     exists dt dt' m', dt_add_rule_lazy dt_init rule = Some (dt, true) /\
       dt_lookup (fun _ => None) dt version f (Some wc) bj junk dt_mem_init = Some ((dt', Some rule, Some flow_wildcards_init_catchall), m')) /\
  exists dt' m', dt_lookup (fun _ => None) src_tree 0 (m_flow (match_set_nw_src match_init_catchall 5)) None no_junk no_junk dt_mem_init
    = Some ((dt', Some (src_rule 3), None), m').
Proof.
  split.
  - intros rule f wc version bj junk. destruct (add_lazy_spec _ _ _ _ rule init_repr) as (dt & E & R & _ & B). cbn [app] in R.
    destruct (lookup_spec (fun _ => None) _ dt DNil [rule] version f (Some wc) bj junk R) as (dt' & m' & t' & best & wc' & E' & _ & R' & _ & Hb & Hbest & ->); [done|].
    rewrite B in Hb. cbn [orb length Nat.eqb] in Hb. inversion Hb as [|rules Hne Hs|]; subst; [|unfold DT_LEAF_SIZE in *; cbn [length] in *; lia].
    destruct R' as [_ [fp [Hr _]] _ _]. rewrite (proj2 (Nat.eqb_neq (dt_root dt') 0)) in E' by (rewrite (rep_null _ _ _ _ Hr); done).
    exists dt, dt', m'. split; [done|]. rewrite E'. cbn [dtree_reach] in Hbest. destruct best as [b|]; cbn [is_best] in Hbest.
    + destruct Hbest as [Hin _]. by apply list_elem_of_singleton in Hin as ->.
    + apply Forall_cons in Hbest as [Hbest _]. discriminate Hbest.
  - eexists _, _. vm_compute. reflexivity.
Qed.

(** ** Examples *)

(** A tree with an internal node and two leaves. *)
Definition demo_tree : dtree :=
  DNode MFF_IPV4_SRC DT_TEST_EXACT (DtTest 4 0) (DLeaf [src_rule 1] [] 0) (DLeaf [src_rule 4] [] 0).

Definition demo_mem : dt_mem :=
  DtMem {[ 1%nat := DtInternal MFF_IPV4_SRC DT_TEST_EXACT (DtTest 4 0) 2 3;
           2%nat := DtLeaf [Some (src_rule 1)] 1 0; 3%nat := DtLeaf [Some (src_rule 4)] 1 0 ]} 4 [].

Definition demo_dt : decision_tree := DecisionTree 1 true [Some (src_rule 1); Some (src_rule 4)] 2 2 1 2 1.

Lemma demo_rep : tree_rep (dm_nodes demo_mem) demo_tree 1 [1; 2; 3]%nat.
Proof. cbn [tree_rep demo_tree]. exists 2%nat, 3%nat, [2%nat], [3%nat]. by repeat split. Qed.

Lemma demo_nodup : NoDup [1; 2; 3]%nat.
Proof. by apply (bool_decide_unpack _). Qed.

Lemma demo_repr : dt_repr demo_mem demo_dt demo_tree [src_rule 1; src_rule 4].
Proof.
  split; [|exists [1; 2; 3]%nat; split; [apply demo_rep|apply demo_nodup]|by exists []|done].
  split; cbn [dm_next dm_nodes demo_mem]; [lia|done|]. intros q Hq. by rewrite !lookup_insert_ne, lookup_singleton_ne by lia.
Qed.

Definition demo_dt_ops : list backend_op :=
  [OpInsert (src_rule 1) 0; OpLookup 0 (replicate FLOW_U64S 0) None no_junk no_junk; OpRemove (src_rule 1); OpInsert (src_rule 2) 0].

Lemma dt_sequence_defined_witness :
  exists cls found m, backend_run (classifier_init_with_backend flow_segment_u64s (Some "dt"%string)) demo_dt_ops dt_mem_init
      = Some ((cls, found), m) /\ forall r, r ∈ found -> r ∈ [src_rule 1; src_rule 2].
Proof. apply (dt_sequence_defined flow_segment_u64s demo_dt_ops). cbn [inserted_rules length demo_dt_ops]. unfold DT_PATH_MAX. lia. Defined.

Lemma dt_ensure_tree_built_spec_witness :
  exists dt' m' t', dt_ensure_tree_built (DecisionTree 0 false [Some (src_rule 1)] 1 0 0 0 0) no_junk dt_mem_init = Some (dt', m') /\
    mem_ext dt_mem_init m' /\ dt_repr m' dt' t' [src_rule 1] /\
    dt_tree_built dt' = true /\ built DT_LEAF_SIZE [src_rule 1] t' /\ dtree_rules t' ≡ₚ [src_rule 1] /\
    stats_of dt' t' /\ dt_n_rules dt' = 1.
Proof.
  apply (dt_ensure_tree_built_spec _ _ DNil); [|reflexivity|discriminate].
  split; [apply mem_init_wf|exists []; split; [done|constructor]|exists []; reflexivity|reflexivity].
Defined.



Lemma dt_insert_rule_dangling_witness :
  exists dt' m' m'' pl pr, dt_insert_rule demo_dt (src_rule 2) demo_mem = Some ((dt', true), m') /\ ovsrcu_synchronize m' = Some (tt, m'') /\
    dm_nodes m'' !! dt_root dt' = Some (DtInternal MFF_IPV4_SRC DT_TEST_EXACT (DtTest 4 0) pl pr) /\ pr <> 0%nat /\ dm_nodes m'' !! pr = None.
Proof.
  eapply (dt_insert_rule_dangling demo_mem demo_dt); [apply demo_repr|discriminate|reflexivity|discriminate| |reflexivity].
  cbn [left_depth]. unfold DT_PATH_MAX. lia.
Defined.

Lemma dt_remove_rule_restored_witness :
  exists dt1 m1 dt2 dt3 m3 t3, dt_remove_rule demo_dt (src_rule 1) demo_mem = Some ((dt1, true), m1) /\
    dt_add_rule_lazy dt1 (src_rule 2) = Some (dt2, true) /\ dt_ensure_tree_built dt2 no_junk m1 = Some (dt3, m3) /\
    dt_repr m3 dt3 t3 [src_rule 1; src_rule 4; src_rule 2] /\ src_rule 1 ∈ dtree_rules t3.
Proof.
  apply (dt_remove_rule_restored demo_mem demo_dt demo_tree [src_rule 1; src_rule 4] [src_rule 1] [] [] 0); [apply demo_repr|reflexivity| |reflexivity|left].
  cbn [left_depth demo_tree]. unfold DT_PATH_MAX. lia.
Defined.

Lemma dt_destroy_spec_witness :
  exists dt' m', dt_destroy demo_dt demo_mem = Some (dt', m') /\ dt_root dt' = 0%nat /\ dt_n_pending dt' = 0%nat /\
    forall q, dm_nodes m' !! q = if decide (q ∈ [1; 2; 3]%nat) then None else dm_nodes demo_mem !! q.
Proof. apply (dt_destroy_spec demo_mem demo_dt demo_tree); [apply demo_rep|apply demo_nodup]. Defined.
