(* ===== verification/Reconnect.v ===== *)
(** * Reconnection state machine

    lib/reconnect.c and lib/reconnect.h: the finite-state machine that tells a
    client when to connect, to probe and to drop a connection, with exponential
    backoff.

    Times are [long long int]s and intervals [int]s, in milliseconds.  An
    operation returns [None] where the C has an assertion that fails or a signed
    overflow; the unsigned counters wrap.  Log messages are left out. *)

From S2P Require Import Prelude Util.
From stdpp Require Import prelude list strings.
From coqutil Require Import Datatypes.RecordSetters.
From Stdlib Require Import ZArith Lia.
Import DoubleBraceUpdate.
Open Scope Z_scope.
Open Scope ovs_scope.

(** ** Signed arithmetic *)

Definition LLONG_MIN : Z := - 2 ^ 63.
Definition LLONG_MAX : Z := 2 ^ 63 - 1.
Definition UINT_MAX : Z := 2 ^ 32 - 1.

Definition llong (x : Z) : option Z := checked LLONG_MIN LLONG_MAX x.

(** ** The machine *)

Inductive conn_state := S_VOID | S_BACKOFF | S_CONNECTING | S_ACTIVE | S_IDLE | S_RECONNECT | S_LISTENING.

#[export] Instance conn_state_eq_dec : EqDecision conn_state.
Proof. solve_decision. Defined.

Definition state_value (s : conn_state) : Z :=
  match s with
  | S_VOID => Z.shiftl 1 0
  | S_BACKOFF => Z.shiftl 1 1
  | S_CONNECTING => Z.shiftl 1 3
  | S_ACTIVE => Z.shiftl 1 4
  | S_IDLE => Z.shiftl 1 5
  | S_RECONNECT => Z.shiftl 1 6
  | S_LISTENING => Z.shiftl 1 7
  end.

(** [state & (S_A | S_B | ...)] *)
Definition in_states (s : conn_state) (l : list conn_state) : bool :=
  negb (Z.land (state_value s) (foldr (fun x m => Z.lor (state_value x) m) 0 l) =? 0).

Definition state_eqb (s t : conn_state) : bool := state_value s =? state_value t.

Definition is_connected_state (s : conn_state) : bool := in_states s [S_ACTIVE; S_IDLE].

Inductive vlog_level := VLL_INFO | VLL_DBG.

Record reconnect := Reconnect {
  (* Configuration. *)
  name : string;
  min_backoff : Z;
  max_backoff : Z;
  probe_interval : Z;
  passive : bool;
  info : vlog_level;
  (* State. *)
  state : conn_state;
  state_entered : Z;
  backoff : Z;
  last_activity : Z;
  last_connected : Z;
  last_disconnected : Z;
  last_receive_attempt : Z;
  max_tries : Z;
  backoff_free_tries : Z;
  (* Statistics. *)
  creation_time : Z;
  n_attempted_connections : Z;
  n_successful_connections : Z;
  total_connected_duration : Z;
  seqno : Z
}.

Definition RECONNECT_DEFAULT_MIN_BACKOFF : Z := 1000.
Definition RECONNECT_DEFAULT_MAX_BACKOFF : Z := 8000.
Definition RECONNECT_DEFAULT_PROBE_INTERVAL : Z := 5000.

Definition reconnect_state_name__ (s : conn_state) : string :=
  match s with
  | S_VOID => "VOID"
  | S_BACKOFF => "BACKOFF"
  | S_CONNECTING => "CONNECTING"
  | S_ACTIVE => "ACTIVE"
  | S_IDLE => "IDLE"
  | S_RECONNECT => "RECONNECT"
  | S_LISTENING => "LISTENING"
  end.

Definition reconnect_create (now : Z) : reconnect :=
  {| name := "void"; min_backoff := RECONNECT_DEFAULT_MIN_BACKOFF; max_backoff := RECONNECT_DEFAULT_MAX_BACKOFF;
     probe_interval := RECONNECT_DEFAULT_PROBE_INTERVAL; passive := false; info := VLL_INFO;
     state := S_VOID; state_entered := now; backoff := 0; last_activity := now; last_connected := LLONG_MAX;
     last_disconnected := LLONG_MAX; last_receive_attempt := now; max_tries := UINT_MAX; backoff_free_tries := 0;
     creation_time := now; n_attempted_connections := 0; n_successful_connections := 0;
     total_connected_duration := 0; seqno := 0 |}.

(** ** Configuration *)

Definition reconnect_set_quiet (fsm : reconnect) (quiet : bool) : reconnect :=
  fsm {{ info := if quiet then VLL_DBG else VLL_INFO }}.

Definition reconnect_set_name (fsm : reconnect) (s : option string) : reconnect :=
  fsm {{ name := default "void" s }}.

Definition reconnect_set_max_tries (fsm : reconnect) (n : Z) : reconnect := fsm {{ max_tries := n }}.

Definition reconnect_set_backoff_free_tries (fsm : reconnect) (n : Z) : reconnect := fsm {{ backoff_free_tries := n }}.

Definition reconnect_set_backoff (fsm : reconnect) (min_ max_ : Z) : reconnect :=
  let fsm := fsm {{ min_backoff := MAX min_ 1000;
                    max_backoff := if max_ =? 0 then RECONNECT_DEFAULT_MAX_BACKOFF else MAX max_ 1000 }} in
  let fsm := if max_backoff fsm <? min_backoff fsm then fsm {{ max_backoff := min_backoff fsm }} else fsm in
  if state_eqb (state fsm) S_BACKOFF && (max_ <? backoff fsm) then fsm {{ backoff := max_ }} else fsm.

Definition reconnect_set_probe_interval (fsm : reconnect) (n : Z) : reconnect :=
  fsm {{ probe_interval := if n =? 0 then 0 else MAX 1000 n }}.

(** ** Transitions *)

Definition reconnect_may_retry (fsm : reconnect) : bool * reconnect :=
  let may_retry := 0 <? max_tries fsm in
  (may_retry, if may_retry && negb (max_tries fsm =? UINT_MAX) then fsm {{ max_tries := max_tries fsm - 1 }} else fsm).

Definition reconnect_transition__ (fsm : reconnect) (now : Z) (s : conn_state) : option reconnect :=
  let fsm :=
    if state_eqb (state fsm) S_CONNECTING then
      let fsm := fsm {{ n_attempted_connections := u32 (n_attempted_connections fsm + 1) }} in
      if state_eqb s S_ACTIVE
      then fsm {{ n_successful_connections := u32 (n_successful_connections fsm + 1) }} else fsm
    else fsm in
  fsm ←
    (if eqb (is_connected_state (state fsm)) (is_connected_state s) then Some fsm
     else
       fsm ←
         (if is_connected_state (state fsm) then
            elapsed ← llong (now - last_connected fsm);
            total ← llong (total_connected_duration fsm + elapsed);
            Some (fsm {{ total_connected_duration := u32 total }})
          else Some fsm);
       Some (fsm {{ seqno := u32 (seqno fsm + 1) }}));
  Some (fsm {{ state := s; state_entered := now }}).

Definition to_backoff (fsm : reconnect) (now : Z) : option reconnect :=
  fsm ← reconnect_transition__ fsm now S_BACKOFF;
  Some (fsm {{ backoff := 0 }}).

Definition reconnect_set_passive (fsm : reconnect) (b : bool) (now : Z) : option reconnect :=
  if eqb (passive fsm) b then Some fsm
  else
    let fsm := fsm {{ passive := b }} in
    let '(go, fsm) :=
      if b then (in_states (state fsm) [S_CONNECTING; S_RECONNECT], fsm)
      else if state_eqb (state fsm) S_LISTENING then reconnect_may_retry fsm
      else (false, fsm) in
    if go : bool then to_backoff fsm now else Some fsm.

Definition reconnect_is_enabled (fsm : reconnect) : bool := negb (state_eqb (state fsm) S_VOID).

Definition reconnect_enable (fsm : reconnect) (now : Z) : option reconnect :=
  if state_eqb (state fsm) S_VOID then
    let '(ok, fsm) := reconnect_may_retry fsm in
    if ok : bool then to_backoff fsm now else Some fsm
  else Some fsm.

Definition reconnect_disable (fsm : reconnect) (now : Z) : option reconnect :=
  if state_eqb (state fsm) S_VOID then Some fsm else reconnect_transition__ fsm now S_VOID.

Definition reconnect_force_reconnect (fsm : reconnect) (now : Z) : option reconnect :=
  if in_states (state fsm) [S_CONNECTING; S_ACTIVE; S_IDLE] then reconnect_transition__ fsm now S_RECONNECT
  else Some fsm.

(** ** Reports from the client *)

(** The backoff after a connection or an attempt ends. *)
Definition back_off (fsm : reconnect) : option reconnect :=
  if 1 <? backoff_free_tries fsm then
    Some (fsm {{ backoff_free_tries := backoff_free_tries fsm - 1; backoff := 0 }})
  else
    lasted ←
      (if in_states (state fsm) [S_ACTIVE; S_IDLE] then
         up ← llong (last_activity fsm - last_connected fsm);
         Some ((backoff fsm <=? up) || passive fsm)
       else Some false);
    if lasted : bool then Some (fsm {{ backoff := if passive fsm then 0 else min_backoff fsm }})
    else if backoff fsm <? min_backoff fsm then Some (fsm {{ backoff := min_backoff fsm }})
    else if backoff fsm <? Z.quot (max_backoff fsm) 2 then
      b ← int (backoff fsm * 2);
      Some (fsm {{ backoff := b }})
    else Some (fsm {{ backoff := max_backoff fsm }}).

Definition reconnect_disconnected (fsm : reconnect) (now error : Z) : option reconnect :=
  if in_states (state fsm) [S_BACKOFF; S_VOID] then Some fsm
  else
    let fsm := if in_states (state fsm) [S_ACTIVE; S_IDLE] then fsm {{ last_disconnected := now }} else fsm in
    let '(ok, fsm) := reconnect_may_retry fsm in
    if negb ok then reconnect_transition__ fsm now S_VOID
    else
      fsm ← back_off fsm;
      reconnect_transition__ fsm now S_BACKOFF.

Definition reconnect_connecting (fsm : reconnect) (now : Z) : option reconnect :=
  if state_eqb (state fsm) S_CONNECTING then Some fsm else reconnect_transition__ fsm now S_CONNECTING.

Definition reconnect_listening (fsm : reconnect) (now : Z) : option reconnect :=
  if state_eqb (state fsm) S_LISTENING then Some fsm else reconnect_transition__ fsm now S_LISTENING.

Definition reconnect_listen_error (fsm : reconnect) (now error : Z) : option reconnect :=
  if state_eqb (state fsm) S_LISTENING then reconnect_disconnected fsm now error else Some fsm.

Definition reconnect_connected (fsm : reconnect) (now : Z) : option reconnect :=
  if is_connected_state (state fsm) then Some fsm
  else
    fsm ← reconnect_connecting fsm now;
    fsm ← reconnect_transition__ fsm now S_ACTIVE;
    Some (fsm {{ last_connected := now }}).

Definition reconnect_connect_failed (fsm : reconnect) (now error : Z) : option reconnect :=
  fsm ← reconnect_connecting fsm now;
  reconnect_disconnected fsm now error.

Definition reconnect_activity (fsm : reconnect) (now : Z) : option reconnect :=
  fsm ← (if state_eqb (state fsm) S_IDLE then reconnect_transition__ fsm now S_ACTIVE else Some fsm);
  Some (fsm {{ last_activity := now }}).

Definition reconnect_receive_attempted (fsm : reconnect) (now : Z) : reconnect := fsm {{ last_receive_attempt := now }}.

(** ** Timers *)

(** The deadline of a state that waits for data: [base + probe_interval], or
    right away when nothing was received since. *)
Definition probe_deadline (fsm : reconnect) (now base : Z) : option Z :=
  if probe_interval fsm =? 0 then Some LLONG_MAX
  else
    expiration ← llong (base + probe_interval fsm);
    if (now <? expiration) || (expiration <=? last_receive_attempt fsm) then Some expiration
    else llong (now + 1).

Definition reconnect_deadline__ (fsm : reconnect) (now : Z) : option Z :=
  if state_entered fsm =? LLONG_MIN then None
  else
    match state fsm with
    | S_VOID | S_LISTENING => Some LLONG_MAX
    | S_BACKOFF => llong (state_entered fsm + backoff fsm)
    | S_CONNECTING => llong (state_entered fsm + MAX 1000 (backoff fsm))
    | S_ACTIVE => probe_deadline fsm now (MAX (last_activity fsm) (state_entered fsm))
    | S_IDLE => probe_deadline fsm now (state_entered fsm)
    | S_RECONNECT => Some (state_entered fsm)
    end.

Inductive reconnect_action := RECONNECT_CONNECT | RECONNECT_DISCONNECT | RECONNECT_PROBE.

(** The action, if any, and the machine after it. *)
Definition reconnect_run (fsm : reconnect) (now : Z) : option (option reconnect_action * reconnect) :=
  deadline ← reconnect_deadline__ fsm now;
  if deadline <=? now then
    match state fsm with
    | S_VOID => Some (None, fsm)
    | S_BACKOFF => Some (Some RECONNECT_CONNECT, fsm)
    | S_CONNECTING => Some (Some RECONNECT_DISCONNECT, fsm)
    | S_ACTIVE =>
      fsm ← reconnect_transition__ fsm now S_IDLE;
      Some (Some RECONNECT_PROBE, fsm)
    | S_IDLE => Some (Some RECONNECT_DISCONNECT, fsm)
    | S_RECONNECT => Some (Some RECONNECT_DISCONNECT, fsm)
    | S_LISTENING => Some (None, fsm)
    end
  else Some (None, fsm).

Definition reconnect_timeout (fsm : reconnect) (now : Z) : option Z :=
  deadline ← reconnect_deadline__ fsm now;
  if deadline =? LLONG_MAX then Some (-1)
  else
    remaining ← llong (deadline - now);
    Some (MAX 0 (MIN INT_MAX remaining)).

(** The timer that is set for the poll loop, if any. *)
Definition reconnect_wait (fsm : reconnect) (now : Z) : option (option Z) :=
  timeout ← reconnect_timeout fsm now;
  Some (if 0 <=? timeout then Some timeout else None).

(** ** Statistics *)

Definition reconnect_is_connected (fsm : reconnect) : bool := is_connected_state (state fsm).

Definition reconnect_get_last_connect_elapsed (fsm : reconnect) (now : Z) : option Z :=
  if last_connected fsm =? LLONG_MAX then Some UINT_MAX
  else
    n ← llong (now - last_connected fsm);
    Some (u32 n).

Definition reconnect_get_last_disconnect_elapsed (fsm : reconnect) (now : Z) : option Z :=
  if last_disconnected fsm =? LLONG_MAX then Some UINT_MAX
  else
    n ← llong (now - last_disconnected fsm);
    Some (u32 n).

Record reconnect_stats := ReconnectStats {
  st_creation_time : Z;
  st_last_activity : Z;
  st_last_connected : Z;
  st_last_disconnected : Z;
  st_backoff : Z;
  st_seqno : Z;
  st_is_connected : bool;
  st_msec_since_connect : Z;
  st_msec_since_disconnect : Z;
  st_total_connected_duration : Z;
  st_n_attempted_connections : Z;
  st_n_successful_connections : Z;
  st_state : string;
  st_state_elapsed : Z
}.

Definition reconnect_get_stats (fsm : reconnect) (now : Z) : option reconnect_stats :=
  since_connect ← reconnect_get_last_connect_elapsed fsm now;
  since_disconnect ← reconnect_get_last_disconnect_elapsed fsm now;
  elapsed ← llong (now - state_entered fsm);
  Some {| st_creation_time := creation_time fsm; st_last_activity := last_activity fsm;
          st_last_connected := last_connected fsm; st_last_disconnected := last_disconnected fsm;
          st_backoff := backoff fsm; st_seqno := seqno fsm; st_is_connected := reconnect_is_connected fsm;
          st_msec_since_connect := since_connect; st_msec_since_disconnect := since_disconnect;
          st_total_connected_duration :=
            u32 (total_connected_duration fsm + (if is_connected_state (state fsm) then since_connect else 0));
          st_n_attempted_connections := n_attempted_connections fsm;
          st_n_successful_connections := n_successful_connections fsm;
          st_state := reconnect_state_name__ (state fsm); st_state_elapsed := u32 elapsed |}.

(** ** Histories *)

(** The calls that a client makes. *)
Inductive call :=
| Set_quiet (quiet : bool) | Set_name (s : option string) | Set_max_tries (n : Z) | Set_backoff_free_tries (n : Z)
| Set_backoff (min_ max_ : Z) | Set_probe_interval (n : Z) | Set_passive (b : bool)
| Enable | Disable | Force_reconnect | Disconnected (error : Z) | Connecting | Listening | Listen_error (error : Z)
| Connected | Connect_failed (error : Z) | Activity | Receive_attempted | Receive_always | Run.

Definition do_call (fsm : reconnect) (now : Z) (c : call) : option reconnect :=
  match c with
  | Set_quiet q => Some (reconnect_set_quiet fsm q)
  | Set_name s => Some (reconnect_set_name fsm s)
  | Set_max_tries n => Some (reconnect_set_max_tries fsm n)
  | Set_backoff_free_tries n => Some (reconnect_set_backoff_free_tries fsm n)
  | Set_backoff a b => Some (reconnect_set_backoff fsm a b)
  | Set_probe_interval n => Some (reconnect_set_probe_interval fsm n)
  | Set_passive b => reconnect_set_passive fsm b now
  | Enable => reconnect_enable fsm now
  | Disable => reconnect_disable fsm now
  | Force_reconnect => reconnect_force_reconnect fsm now
  | Disconnected e => reconnect_disconnected fsm now e
  | Connecting => reconnect_connecting fsm now
  | Listening => reconnect_listening fsm now
  | Listen_error e => reconnect_listen_error fsm now e
  | Connected => reconnect_connected fsm now
  | Connect_failed e => reconnect_connect_failed fsm now e
  | Activity => reconnect_activity fsm now
  | Receive_attempted => Some (reconnect_receive_attempted fsm now)
  | Receive_always => Some (reconnect_receive_attempted fsm LLONG_MAX)
  | Run => snd <$> reconnect_run fsm now
  end.

(** A history: calls with the times they are made at. *)
Fixpoint history (fsm : reconnect) (l : list (Z * call)) : option reconnect :=
  match l with
  | [] => Some fsm
  | (now, c) :: l => fsm ← do_call fsm now c; history fsm l
  end.
