(* ===== verification/ReconnectProps.v ===== *)
(** * Reconnection state machine: invariant

    The invariant of a machine whose clock stays below [CLOCK_MAX], and the
    behaviour of the transitions and timers on such a machine. *)

From S2P Require Import Prelude Util Reconnect.
From stdpp Require Import prelude list strings.
From coqutil Require Import Datatypes.RecordSetters.
From Stdlib Require Import ZArith Lia.
Import DoubleBraceUpdate.
Open Scope Z_scope.
Open Scope ovs_scope.

(** About 146 million years. *)
Definition CLOCK_MAX : Z := 2 ^ 62.

Definition clock_ok (t : Z) : Prop := 0 <= t <= CLOCK_MAX.

Record reconnect_wf (fsm : reconnect) : Prop := {
  rw_min_backoff : 1000 <= min_backoff fsm;
  rw_max_backoff : min_backoff fsm <= max_backoff fsm <= INT_MAX;
  rw_probe_interval : probe_interval fsm = 0 \/ 1000 <= probe_interval fsm <= INT_MAX;
  rw_state_entered : clock_ok (state_entered fsm);
  rw_backoff : 0 <= backoff fsm <= INT_MAX;
  rw_last_activity : clock_ok (last_activity fsm);
  rw_last_connected : clock_ok (last_connected fsm) \/ last_connected fsm = LLONG_MAX;
  rw_last_disconnected : clock_ok (last_disconnected fsm) \/ last_disconnected fsm = LLONG_MAX;
  rw_max_tries : in_width 32 (max_tries fsm);
  rw_backoff_free_tries : in_width 32 (backoff_free_tries fsm);
  rw_n_attempted : in_width 32 (n_attempted_connections fsm);
  rw_n_successful : in_width 32 (n_successful_connections fsm);
  rw_total : in_width 32 (total_connected_duration fsm);
  rw_seqno : in_width 32 (seqno fsm)
}.

(** A connected machine knows since when. *)
Definition connected_since (fsm : reconnect) : Prop :=
  is_connected_state (state fsm) = true -> clock_ok (last_connected fsm).

(** [seqno] counts connections and disconnections: two for each successful
    connection, but for the last one while it is up. *)
Definition counted (fsm : reconnect) : Prop :=
  seqno fsm = u32 (2 * n_successful_connections fsm - if is_connected_state (state fsm) then 1 else 0).

Record reconnect_inv (fsm : reconnect) : Prop := {
  ri_wf : reconnect_wf fsm;
  ri_since : connected_since fsm;
  ri_counted : counted fsm
}.

(** The arguments that a client may give. *)
Definition call_ok (c : call) : Prop :=
  match c with
  | Set_max_tries n | Set_backoff_free_tries n => in_width 32 n
  | Set_backoff a b => 0 <= a <= INT_MAX /\ 0 <= b <= INT_MAX
  | Set_probe_interval n => INT_MIN <= n <= INT_MAX
  | _ => True
  end.

(** ** Tactics *)

Ltac unfold_consts := unfold clock_ok, CLOCK_MAX, INT_MIN, INT_MAX, UINT_MAX, LLONG_MIN, LLONG_MAX, in_width in *.

Lemma llong_some (x : Z) : LLONG_MIN <= x <= LLONG_MAX -> llong x = Some x.
Proof. apply checked_some. Qed.

Lemma state_eqb_spec (s t : conn_state) : reflect (s = t) (state_eqb s t).
Proof. destruct s, t; by constructor. Qed.

(** The tests on a known state. *)
Ltac known_state :=
  repeat match goal with
  | |- context [is_connected_state ?s] =>
      let b := eval vm_compute in (is_connected_state s) in lazymatch b with true => idtac | false => idtac end;
      change (is_connected_state s) with b
  | |- context [state_eqb ?s ?t] =>
      let b := eval vm_compute in (state_eqb s t) in lazymatch b with true => idtac | false => idtac end;
      change (state_eqb s t) with b
  | |- context [in_states ?s ?l] =>
      let b := eval vm_compute in (in_states s l) in lazymatch b with true => idtac | false => idtac end;
      change (in_states s l) with b
  end.

Lemma u32_width (x : Z) : in_width 32 (u32 x).
Proof. by apply wrap_width. Qed.

(** A goal [reconnect_wf] for a machine that is an update of one with [Hw]. *)
Ltac wf_update Hw := destruct Hw; constructor; cbn in *; unfold constant in *; try done; try (unfold_consts; lia); try apply u32_width.

(** ** Transitions *)

(** The transitions that the code makes to a connected state: from another
    one, or to [S_ACTIVE] when an attempt succeeds. *)
Definition transition_ok (s s' : conn_state) : bool :=
  negb (is_connected_state s') || is_connected_state s || (state_eqb s S_CONNECTING && state_eqb s' S_ACTIVE).

(** What a transition leaves alone. *)
Definition same_but_state (fsm fsm' : reconnect) : Prop :=
  fsm' = fsm {{ state := state fsm'; state_entered := state_entered fsm';
                n_attempted_connections := n_attempted_connections fsm';
                n_successful_connections := n_successful_connections fsm';
                total_connected_duration := total_connected_duration fsm'; seqno := seqno fsm' }}.

Lemma u32_add (a b : Z) : u32 (u32 a + b) = u32 (a + b).
Proof. unfold wrap. by rewrite Zplus_mod_idemp_l. Qed.

Lemma u32_double (a b : Z) : u32 (2 * u32 a - b) = u32 (2 * a - b).
Proof.
  unfold wrap. rewrite <- Zminus_mod_idemp_l, (Z.mul_mod_idemp_r 2 a) by done. by rewrite Zminus_mod_idemp_l.
Qed.

Lemma transition_spec (fsm : reconnect) (now : Z) (s : conn_state) :
  reconnect_inv fsm -> clock_ok now -> transition_ok (state fsm) s = true ->
  exists fsm', reconnect_transition__ fsm now s = Some fsm' /\ reconnect_wf fsm' /\ counted fsm' /\
    state fsm' = s /\ state_entered fsm' = now /\ same_but_state fsm fsm'.
Proof.
  intros [Hw Hs Hc] Hn Hok. unfold reconnect_transition__, connected_since, counted, same_but_state, transition_ok in *.
  assert (is_connected_state (state fsm) = true ->
    llong (now - last_connected fsm) = Some (now - last_connected fsm) /\
    llong (total_connected_duration fsm + (now - last_connected fsm)) =
      Some (total_connected_duration fsm + (now - last_connected fsm))) as Hll.
  { intros Hconn. specialize (Hs Hconn). pose proof (rw_total fsm Hw). split; apply llong_some; unfold_consts; lia. }
  revert Hll Hc Hok. destruct fsm as [? ? ? ? ? ? st]. cbn. destruct st, s; known_state; cbn; intros Hll Hc Hok; try discriminate Hok;
    try (destruct Hll as [Hll1 Hll2]; [done|]; rewrite Hll1; cbn; rewrite Hll2; cbn); (eexists; split; [reflexivity|]; cbn);
    known_state; split_and!; try done.
  all: try (wf_update Hw).
  all: unfold constant; rewrite Hc, u32_add; rewrite ?u32_double; f_equal; lia.
Qed.

(** A goal [reconnect_inv] for an update of fields other than the counters and
    the state. *)
Ltac inv_update Hi :=
  let Hw := fresh in let Hs := fresh in let Hc := fresh in
  destruct Hi as [Hw Hs Hc]; split; [wf_update Hw|unfold connected_since in *; cbn in *; done|unfold counted in *; cbn in *; done].

Lemma transition_inv (fsm : reconnect) (now : Z) (s : conn_state) :
  reconnect_inv fsm -> clock_ok now -> transition_ok (state fsm) s = true ->
  (is_connected_state s = true -> is_connected_state (state fsm) = true) ->
  exists fsm', reconnect_transition__ fsm now s = Some fsm' /\ reconnect_inv fsm' /\
    state fsm' = s /\ state_entered fsm' = now /\ same_but_state fsm fsm'.
Proof.
  intros Hi Hn Hok Hcs. destruct (transition_spec fsm now s Hi Hn Hok) as (f & E & Hw & Hc & Es & Et & Hsame).
  exists f. split_and!; try done. split; [done| |done]. unfold connected_since. rewrite Es, Hsame. cbn. intros Hs.
  by apply Hi, Hcs.
Qed.

(** Transitions to a state that is not connected are always possible. *)
Lemma transition_down (fsm : reconnect) (now : Z) (s : conn_state) :
  reconnect_inv fsm -> clock_ok now -> is_connected_state s = false ->
  exists fsm', reconnect_transition__ fsm now s = Some fsm' /\ reconnect_inv fsm' /\
    state fsm' = s /\ state_entered fsm' = now /\ same_but_state fsm fsm'.
Proof.
  intros Hi Hn Hs. apply transition_inv; [done|done|unfold transition_ok; by rewrite Hs|by rewrite Hs].
Qed.

Lemma may_retry_inv (fsm : reconnect) : reconnect_inv fsm -> reconnect_inv (reconnect_may_retry fsm).2.
Proof.
  intros Hi. unfold reconnect_may_retry. cbn [snd]. destruct (Z.ltb_spec 0 (max_tries fsm)); [|done]. cbn [andb].
  destruct (negb _); [|done]. pose proof (rw_max_tries fsm (ri_wf fsm Hi)). inv_update Hi.
Qed.

Lemma may_retry_same (fsm : reconnect) :
  (reconnect_may_retry fsm).2 = fsm {{ max_tries := max_tries (reconnect_may_retry fsm).2 }}.
Proof. destruct fsm. unfold reconnect_may_retry. cbn. by case_match. Qed.

Lemma to_backoff_spec (fsm : reconnect) (now : Z) :
  reconnect_inv fsm -> clock_ok now ->
  exists fsm', to_backoff fsm now = Some fsm' /\ reconnect_inv fsm' /\ state fsm' = S_BACKOFF /\ backoff fsm' = 0 /\
    state_entered fsm' = now /\ max_tries fsm' = max_tries fsm.
Proof.
  intros Hi Hn. unfold to_backoff. destruct (transition_down fsm now S_BACKOFF Hi Hn) as (f & -> & Hf & Es & Et & Hsame); [done|].
  eexists. split; [reflexivity|]. split; [inv_update Hf|]. rewrite Hsame in *. by destruct fsm.
Qed.

(** ** Backing off *)

(** The backoff after an attempt fails or a connection drops. *)
Definition next_backoff (min_ max_ b : Z) : Z := if b <? min_ then min_ else if b <? max_ / 2 then b * 2 else max_.

Lemma next_backoff_range (min_ max_ b : Z) : 0 <= min_ <= max_ -> min_ <= next_backoff min_ max_ b <= max_.
Proof.
  intros Hm. unfold next_backoff. destruct (Z.ltb_spec b min_); [lia|]. destruct (Z.ltb_spec b (max_ / 2)); [|lia].
  pose proof (Z.mul_div_le max_ 2). lia.
Qed.

Lemma back_off_spec (fsm : reconnect) :
  reconnect_inv fsm ->
  exists b n, back_off fsm = Some (fsm {{ backoff_free_tries := n; backoff := b }}) /\
    0 <= b <= max_backoff fsm /\ in_width 32 n /\
    (is_connected_state (state fsm) = false -> backoff_free_tries fsm <= 1 ->
      b = next_backoff (min_backoff fsm) (max_backoff fsm) (backoff fsm) /\ n = backoff_free_tries fsm).
Proof.
  intros [Hw Hs _]. unfold back_off. fold (is_connected_state (state fsm)). unfold connected_since in Hs.
  pose proof (rw_backoff_free_tries fsm Hw). pose proof (rw_min_backoff fsm Hw). pose proof (rw_max_backoff fsm Hw).
  pose proof (rw_backoff fsm Hw). pose proof (rw_last_activity fsm Hw).
  destruct (Z.ltb_spec 1 (backoff_free_tries fsm)).
  { exists 0, (backoff_free_tries fsm - 1). split; [done|]. unfold in_width in *. split_and!; lia. }
  pose proof (next_backoff_range (min_backoff fsm) (max_backoff fsm) (backoff fsm) ltac:(lia)) as Hnext.
  assert (exists b n,
    (if backoff fsm <? min_backoff fsm then Some fsm {{ backoff := min_backoff fsm }}
     else if backoff fsm <? Z.quot (max_backoff fsm) 2 then b ← int (backoff fsm * 2); Some fsm {{ backoff := b }}
     else Some fsm {{ backoff := max_backoff fsm }}) = Some (fsm {{ backoff_free_tries := n; backoff := b }}) /\
    b = next_backoff (min_backoff fsm) (max_backoff fsm) (backoff fsm) /\ n = backoff_free_tries fsm) as (b & n & Eb & -> & ->).
  { unfold next_backoff in *. rewrite Z.quot_div_nonneg by lia. do 2 eexists. split; [|by split].
    destruct (Z.ltb_spec (backoff fsm) (min_backoff fsm)); [by destruct fsm|].
    destruct (Z.ltb_spec (backoff fsm) (max_backoff fsm / 2)); [|by destruct fsm].
    rewrite int_some by (unfold INT_MAX, INT_MIN in *; lia). by destruct fsm. }
  destruct (is_connected_state (state fsm)).
  - rewrite llong_some by (unfold_consts; specialize (Hs eq_refl); lia). cbn [mbind option_bind].
    destruct (_ || _); [|rewrite Eb; eauto 10 with lia].
    exists (if passive fsm then 0 else min_backoff fsm), (backoff_free_tries fsm).
    split; [by destruct fsm|]. split_and!; [destruct (passive fsm); lia|destruct (passive fsm); lia|done|done].
  - cbn [mbind option_bind]. rewrite Eb. do 2 eexists. split; [done|]. split_and!; [lia|lia|done|done].
Qed.

(** ** Every call keeps the invariant *)

Lemma disconnected_spec (fsm : reconnect) (now error : Z) :
  reconnect_inv fsm -> clock_ok now ->
  exists fsm', reconnect_disconnected fsm now error = Some fsm' /\ reconnect_inv fsm' /\
    (in_states (state fsm) [S_BACKOFF; S_VOID] = true -> fsm' = fsm) /\
    (in_states (state fsm) [S_BACKOFF; S_VOID] = false ->
      state_entered fsm' = now /\ max_tries fsm' = max_tries (reconnect_may_retry fsm).2 /\
      min_backoff fsm' = min_backoff fsm /\ max_backoff fsm' = max_backoff fsm /\ passive fsm' = passive fsm /\
      probe_interval fsm' = probe_interval fsm /\
      if 0 <? max_tries fsm then
        state fsm' = S_BACKOFF /\ 0 <= backoff fsm' <= max_backoff fsm /\
        (is_connected_state (state fsm) = false -> backoff_free_tries fsm <= 1 ->
          backoff fsm' = next_backoff (min_backoff fsm) (max_backoff fsm) (backoff fsm) /\
          backoff_free_tries fsm' = backoff_free_tries fsm)
      else state fsm' = S_VOID /\ backoff_free_tries fsm' = backoff_free_tries fsm).
Proof.
  intros Hi Hn. unfold reconnect_disconnected. destruct (in_states (state fsm) [S_BACKOFF; S_VOID]) eqn:Es.
  { exists fsm. by split_and!. }
  fold (is_connected_state (state fsm)).
  set (f1 := if is_connected_state (state fsm) then fsm {{ last_disconnected := now }} else fsm).
  assert (reconnect_inv f1) as Hi1 by (subst f1; case_match; [inv_update Hi|done]).
  assert (f1 = fsm {{ last_disconnected := last_disconnected f1 }}) as Ef1
    by (subst f1; destruct (is_connected_state (state fsm)); by destruct fsm).
  pose proof (may_retry_inv f1 Hi1) as Hi2. pose proof (may_retry_same f1) as Ef2.
  assert ((reconnect_may_retry f1).1 = (0 <? max_tries fsm)) as Eok by (unfold reconnect_may_retry; cbn; by rewrite Ef1).
  assert (max_tries (reconnect_may_retry f1).2 = max_tries (reconnect_may_retry fsm).2) as Emt.
  { rewrite Ef1. destruct fsm. unfold reconnect_may_retry. cbn. by case_match. }
  destruct (reconnect_may_retry f1) as [ok f2]. cbn [fst snd] in *. subst ok.
  assert (forall f b n s, same_but_state (f2 {{ backoff_free_tries := n; backoff := b }}) f -> state f = s ->
    max_tries f = max_tries f2 /\ min_backoff f = min_backoff fsm /\ max_backoff f = max_backoff fsm /\
    passive f = passive fsm /\ probe_interval f = probe_interval fsm /\ backoff f = b /\ backoff_free_tries f = n) as Hkeep.
  { intros f b n s Hs _. rewrite Hs, Ef2, Ef1. by destruct fsm. }
  destruct (0 <? max_tries fsm); cbn [negb].
  - destruct (back_off_spec f2 Hi2) as (b & n & -> & Hb & Hfree & Hspec). cbn [mbind option_bind].
    destruct (transition_down (f2 {{ backoff_free_tries := n; backoff := b }}) now S_BACKOFF) as (f & -> & Hf & Est & Et & Hs);
      [|done|done|].
    { pose proof (rw_max_backoff f2 (ri_wf f2 Hi2)). inv_update Hi2. }
    destruct (Hkeep f b n _ Hs Est) as (K1 & K2 & K3 & K4 & K7 & K5 & K6).
    exists f. split_and!; try done. intros _. rewrite Emt in K1. split_and!; try done.
    + rewrite K5. lia.
    + rewrite K5. rewrite Ef2, Ef1 in Hb. destruct fsm; cbn in *. lia.
    + rewrite K5, K6. rewrite Ef2, Ef1 in Hspec. by destruct fsm.
  - destruct (transition_down f2 now S_VOID) as (f & -> & Hf & Est & Et & Hs); [done|done|done|].
    exists f. split_and!; try done. intros _. rewrite <- Emt. rewrite Hs, Ef2, Ef1 in *. by destruct fsm.
Qed.

Lemma connecting_spec (fsm : reconnect) (now : Z) :
  reconnect_inv fsm -> clock_ok now ->
  exists fsm', reconnect_connecting fsm now = Some fsm' /\ reconnect_inv fsm' /\ state fsm' = S_CONNECTING /\
    same_but_state fsm fsm' /\ (state fsm <> S_CONNECTING -> state_entered fsm' = now).
Proof.
  intros Hi Hn. unfold reconnect_connecting. destruct (state_eqb_spec (state fsm) S_CONNECTING) as [E|].
  - exists fsm. split_and!; try done. unfold same_but_state. by destruct fsm.
  - destruct (transition_down fsm now S_CONNECTING Hi Hn) as (f & -> & Hf & Es & Et & Hs); [done|]. by exists f.
Qed.

Lemma connected_spec (fsm : reconnect) (now : Z) :
  reconnect_inv fsm -> clock_ok now ->
  exists fsm', reconnect_connected fsm now = Some fsm' /\ reconnect_inv fsm' /\ is_connected_state (state fsm') = true.
Proof.
  intros Hi Hn. unfold reconnect_connected. destruct (is_connected_state (state fsm)) eqn:E; [by exists fsm|].
  destruct (connecting_spec fsm now Hi Hn) as (f & -> & Hf & Es & _). cbn [mbind option_bind].
  destruct (transition_spec f now S_ACTIVE Hf Hn) as (g & -> & Hw & Hc & Eg & _); [by rewrite Es|].
  cbn [mbind option_bind]. eexists. split; [done|]. split; [|cbn; fold (state g); by rewrite Eg].
  split; [wf_update Hw|by intros _|]. unfold counted in *. destruct g. cbn in *. by subst.
Qed.

Lemma activity_spec (fsm : reconnect) (now : Z) :
  reconnect_inv fsm -> clock_ok now ->
  exists fsm', reconnect_activity fsm now = Some fsm' /\ reconnect_inv fsm' /\ last_activity fsm' = now.
Proof.
  intros Hi Hn. unfold reconnect_activity. destruct (state_eqb_spec (state fsm) S_IDLE) as [E|].
  - destruct (transition_inv fsm now S_ACTIVE Hi Hn) as (f & -> & Hf & _); [by rewrite E|by rewrite E|].
    cbn [mbind option_bind]. eexists. split; [done|]. split; [inv_update Hf|by destruct f].
  - cbn [mbind option_bind]. eexists. split; [done|]. split; [inv_update Hi|by destruct fsm].
Qed.

(** ** Timers *)

(** When a machine acts, if it is not told anything before: its deadline, with
    data expected all the time. *)
Definition expiry (fsm : reconnect) : option Z :=
  match state fsm with
  | S_VOID | S_LISTENING => None
  | S_BACKOFF => Some (state_entered fsm + backoff fsm)
  | S_CONNECTING => Some (state_entered fsm + Z.max 1000 (backoff fsm))
  | S_ACTIVE =>
    if probe_interval fsm =? 0 then None
    else Some (Z.max (last_activity fsm) (state_entered fsm) + probe_interval fsm)
  | S_IDLE => if probe_interval fsm =? 0 then None else Some (state_entered fsm + probe_interval fsm)
  | S_RECONNECT => Some (state_entered fsm)
  end.

Lemma MAX_max (a b : Z) : MAX a b = Z.max a b.
Proof. unfold MAX. destruct (Z.ltb_spec b a); lia. Qed.

Lemma MIN_min (a b : Z) : MIN a b = Z.min a b.
Proof. unfold MIN. destruct (Z.ltb_spec a b); lia. Qed.

Lemma expiry_range (fsm : reconnect) (t : Z) : reconnect_wf fsm -> expiry fsm = Some t -> 0 <= t <= CLOCK_MAX + INT_MAX.
Proof.
  intros []. unfold expiry. destruct (state fsm); try (destruct (Z.eqb_spec (probe_interval fsm) 0));
    intros [= <-]; unfold_consts; lia.
Qed.

Lemma probe_deadline_spec (fsm : reconnect) (now base : Z) :
  reconnect_wf fsm -> clock_ok now -> clock_ok base ->
  exists d, probe_deadline fsm now base = Some d /\
    (probe_interval fsm = 0 -> d = LLONG_MAX) /\
    (probe_interval fsm <> 0 ->
      now < d <-> now < base + probe_interval fsm \/ last_receive_attempt fsm < base + probe_interval fsm) /\
    (probe_interval fsm <> 0 -> now < base + probe_interval fsm -> d = base + probe_interval fsm) /\
    (probe_interval fsm <> 0 -> d = base + probe_interval fsm \/ d = now + 1).
Proof.
  intros [] Hn Hb. unfold probe_deadline. destruct (Z.eqb_spec (probe_interval fsm) 0).
  { eexists. split; [done|]. split_and!; [done|intros Hne; contradiction..]. }
  rewrite (llong_some (base + probe_interval fsm)) by (unfold_consts; lia). cbn [mbind option_bind].
  destruct (Z.ltb_spec now (base + probe_interval fsm)); cbn [orb].
  { eexists. split; [done|]. unfold_consts. split_and!; lia. }
  destruct (Z.leb_spec (base + probe_interval fsm) (last_receive_attempt fsm)).
  - eexists. split; [done|]. unfold_consts. split_and!; lia.
  - rewrite llong_some by (unfold_consts; lia). eexists. split; [done|]. unfold_consts. split_and!; lia.
Qed.

(** The states in which the machine waits for data. *)
Definition waits_for_data (fsm : reconnect) : bool := is_connected_state (state fsm).

Lemma probe_timer (fsm : reconnect) (now base : Z) :
  reconnect_wf fsm -> clock_ok now -> clock_ok base ->
  exists d, probe_deadline fsm now base = Some d /\
    match (if probe_interval fsm =? 0 then None else Some (base + probe_interval fsm)) with
    | None => d = LLONG_MAX
    | Some t => (now < d <-> now < t \/ true = true /\ last_receive_attempt fsm < t) /\ (now < t -> d = t) /\ (d = t \/ d = now + 1)
    end.
Proof.
  intros Hw Hn Hb. destruct (probe_deadline_spec fsm now base Hw Hn Hb) as (d & -> & H0 & H1 & H2 & H3).
  exists d. split; [done|]. destruct (Z.eqb_spec (probe_interval fsm) 0) as [E|E]; [auto|].
  split_and!; [|by apply H2|by apply H3]. rewrite (H1 E). tauto.
Qed.

Lemma deadline_spec (fsm : reconnect) (now : Z) :
  reconnect_wf fsm -> clock_ok now ->
  exists d, reconnect_deadline__ fsm now = Some d /\
    match expiry fsm with
    | None => d = LLONG_MAX
    | Some t => (now < d <-> now < t \/ waits_for_data fsm = true /\ last_receive_attempt fsm < t) /\
                (now < t -> d = t) /\ (d = t \/ d = now + 1)
    end.
Proof.
  intros Hw Hn. pose proof Hw as []. unfold reconnect_deadline__, expiry, waits_for_data.
  destruct (Z.eqb_spec (state_entered fsm) LLONG_MIN); [unfold_consts; lia|].
  destruct (state fsm) eqn:Es; known_state.
  1, 7: by eexists.
  1, 2, 5: rewrite ?MAX_max, ?llong_some by (unfold_consts; lia); eexists; split; [done|]; unfold_consts; 
    (split_and!; [|lia|lia]); (split; [lia|intros [?|[? ?]]; [done|discriminate]]).
  - rewrite MAX_max. apply probe_timer; [done|done|unfold_consts; lia].
  - by apply probe_timer.
Qed.

(** The machine acts at [now]. *)
Definition due (fsm : reconnect) (now : Z) : bool :=
  match expiry fsm with
  | Some t => (t <=? now) && (negb (waits_for_data fsm) || (t <=? last_receive_attempt fsm))
  | None => false
  end.

Definition action_of (s : conn_state) : option reconnect_action :=
  match s with
  | S_VOID | S_LISTENING => None
  | S_BACKOFF => Some RECONNECT_CONNECT
  | S_ACTIVE => Some RECONNECT_PROBE
  | S_CONNECTING | S_IDLE | S_RECONNECT => Some RECONNECT_DISCONNECT
  end.

Lemma due_spec (fsm : reconnect) (now : Z) :
  reconnect_wf fsm -> clock_ok now ->
  exists d, reconnect_deadline__ fsm now = Some d /\ (d <=? now) = due fsm now.
Proof.
  intros Hw Hn. destruct (deadline_spec fsm now Hw Hn) as (d & E & Hd). exists d. split; [done|]. unfold due.
  destruct (expiry fsm) as [t|].
  - destruct Hd as [Hd _]. destruct (Z.leb_spec t now), (Z.leb_spec t (last_receive_attempt fsm)), (waits_for_data fsm);
      cbn [negb andb orb]; (apply Z.leb_le || apply Z.leb_gt); (tauto || lia || (apply Z.nlt_ge; rewrite Hd; intros [?|[? ?]]; (done || lia))).
  - subst d. apply Z.leb_gt. unfold_consts. lia.
Qed.

Lemma run_spec (fsm : reconnect) (now : Z) :
  reconnect_inv fsm -> clock_ok now ->
  exists fsm', reconnect_run fsm now = Some (if due fsm now then action_of (state fsm) else None, fsm') /\
    reconnect_inv fsm' /\
    if due fsm now && state_eqb (state fsm) S_ACTIVE
    then state fsm' = S_IDLE /\ state_entered fsm' = now /\ same_but_state fsm fsm' else fsm' = fsm.
Proof.
  intros Hi Hn. unfold reconnect_run. destruct (due_spec fsm now (ri_wf fsm Hi) Hn) as (d & -> & Hd).
  cbn [mbind option_bind]. rewrite Hd. destruct (due fsm now); cbn [andb]; [|by exists fsm].
  destruct (state fsm) eqn:Es; known_state; cbn [action_of]; try (by exists fsm).
  destruct (transition_inv fsm now S_IDLE Hi Hn) as (f & -> & Hf & E1 & E2 & Hs); [by rewrite Es|by rewrite Es|].
  cbn [mbind option_bind]. by exists f.
Qed.

(** ** Histories *)

Lemma set_backoff_inv (fsm : reconnect) (a b : Z) :
  reconnect_inv fsm -> 0 <= a <= INT_MAX -> 0 <= b <= INT_MAX -> reconnect_inv (reconnect_set_backoff fsm a b).
Proof.
  intros Hi Ha Hb. unfold reconnect_set_backoff. rewrite !MAX_max.
  unfold RECONNECT_DEFAULT_MAX_BACKOFF. set (m := if b =? 0 then 8000 else Z.max b 1000).
  assert (1000 <= m <= INT_MAX) as Hm by (subst m; destruct (b =? 0); unfold_consts; lia).
  destruct fsm. cbn. unfold constant. destruct (Z.ltb_spec m (Z.max a 1000)); cbn; unfold constant; case_match; inv_update Hi.
Qed.

Lemma do_call_inv (fsm : reconnect) (now : Z) (c : call) :
  reconnect_inv fsm -> clock_ok now -> call_ok c ->
  exists fsm', do_call fsm now c = Some fsm' /\ reconnect_inv fsm'.
Proof.
  intros Hi Hn Hc.
  assert (forall s, is_connected_state s = false -> exists fsm', reconnect_transition__ fsm now s = Some fsm' /\ reconnect_inv fsm') as Ht.
  { intros s Hs. destruct (transition_down fsm now s Hi Hn Hs) as (f & E & Hf & _). by exists f. }
  assert (forall f, reconnect_inv f -> exists fsm', to_backoff f now = Some fsm' /\ reconnect_inv fsm') as Hb.
  { intros f Hf. destruct (to_backoff_spec f now Hf Hn) as (g & E & Hg & _). by exists g. }
  assert (forall e, exists fsm', reconnect_disconnected fsm now e = Some fsm' /\ reconnect_inv fsm') as Hd.
  { intros e. destruct (disconnected_spec fsm now e Hi Hn) as (f & E & Hf & _). by exists f. }
  pose proof (may_retry_inv fsm Hi) as Hr. destruct c as [| | | |? ?|?|b| | | |?| | |?| |?| | | |]; cbn [do_call call_ok] in *.
  all: try solve [eexists; split; [reflexivity|]; inv_update Hi].
  - eexists. split; [done|]. apply set_backoff_inv; [done|lia|lia].
  - eexists. split; [done|]. unfold reconnect_set_probe_interval. rewrite MAX_max.
    destruct (Z.eqb_spec n 0); inv_update Hi.
  - unfold reconnect_set_passive. destruct (eqb _ b); [by exists fsm|].
    assert (reconnect_inv (fsm {{ passive := b }})) as Hp by inv_update Hi. pose proof (may_retry_inv _ Hp) as Hpr.
    destruct b; [case_match; eauto|]. destruct (state_eqb _ _); [|eauto]. destruct (reconnect_may_retry (fsm {{ passive := false }})) as [[] f]; eauto.
  - unfold reconnect_enable. destruct (state_eqb _ _); [|eauto]. destruct (reconnect_may_retry _) as [[] f]; eauto.
  - unfold reconnect_disable. destruct (state_eqb _ _); eauto.
  - unfold reconnect_force_reconnect. case_match; eauto.
  - apply Hd.
  - destruct (connecting_spec fsm now Hi Hn) as (f & E & Hf & _). by exists f.
  - unfold reconnect_listening. destruct (state_eqb _ _); eauto.
  - unfold reconnect_listen_error. destruct (state_eqb _ _); eauto.
  - destruct (connected_spec fsm now Hi Hn) as (f & E & Hf & _). by exists f.
  - unfold reconnect_connect_failed. destruct (connecting_spec fsm now Hi Hn) as (f & -> & Hf & _). cbn [mbind option_bind].
    destruct (disconnected_spec f now error Hf Hn) as (g & E & Hg & _). by exists g.
  - destruct (activity_spec fsm now Hi Hn) as (f & E & Hf & _). by exists f.
  - destruct (run_spec fsm now Hi Hn) as (f & -> & Hf & _). by exists f.
Qed.

Lemma create_inv (now : Z) : clock_ok now -> reconnect_inv (reconnect_create now).
Proof. intros Hn. split; [constructor; cbn; unfold RECONNECT_DEFAULT_MIN_BACKOFF, RECONNECT_DEFAULT_MAX_BACKOFF, RECONNECT_DEFAULT_PROBE_INTERVAL; unfold_consts; lia|done|done]. Qed.

Lemma history_inv (l : list (Z * call)) (fsm : reconnect) :
  reconnect_inv fsm -> Forall (fun x => clock_ok x.1 /\ call_ok x.2) l ->
  exists fsm', history fsm l = Some fsm' /\ reconnect_inv fsm'.
Proof.
  intros Hi Hl. revert fsm Hi. induction Hl as [|[now c] l [Hn Hc] Hl IH]; intros fsm Hi; [by exists fsm|].
  cbn [history]. destruct (do_call_inv fsm now c Hi Hn Hc) as (f & -> & Hf). cbn [mbind option_bind]. by apply IH.
Qed.
