(* ===== verification/ReconnectLiveness.v ===== *)
(** * Reconnection state machine: progress

    A client that does what [reconnect_run] tells it, whose peer never answers,
    and that is scheduled at least every [D] milliseconds: the machine finds out
    that the connection is dead, and asks for a new one again and again. *)

From S2P Require Import Prelude Util Reconnect ReconnectProps.
From stdpp Require Import prelude list strings.
From coqutil Require Import Datatypes.RecordSetters.
From Stdlib Require Import ZArith Lia.
Import DoubleBraceUpdate.
Open Scope Z_scope.
Open Scope ovs_scope.

(** ** The client *)

(** One round of the poll loop: try to receive, ask the machine, and do what it
    says.  An attempt to connect neither succeeds nor fails. *)
Definition poll (fsm : reconnect) (now : Z) : option (option reconnect_action * reconnect) :=
  '(a, fsm) ← reconnect_run (reconnect_receive_attempted fsm now) now;
  match a with
  | Some RECONNECT_CONNECT => fsm ← reconnect_connecting fsm now; Some (a, fsm)
  | Some RECONNECT_DISCONNECT => fsm ← reconnect_disconnected fsm now 0; Some (a, fsm)
  | _ => Some (a, fsm)
  end.

(** The actions, and when they were asked for. *)
Fixpoint polls (fsm : reconnect) (ts : list Z) : option (list (Z * reconnect_action)) :=
  match ts with
  | [] => Some []
  | t :: ts =>
    '(a, fsm) ← poll fsm t;
    log ← polls fsm ts;
    Some (match a with Some a => (t, a) :: log | None => log end)
  end.

(** Times that are at most [D] apart, from [t0] on. *)
Fixpoint paced (D t0 : Z) (ts : list Z) : Prop :=
  match ts with
  | [] => True
  | t :: ts => t0 <= t <= t0 + D /\ paced D t ts
  end.

Definition covers (ts : list Z) (x : Z) : Prop := exists t, t ∈ ts /\ x <= t.

Lemma paced_lower (D t0 : Z) (ts : list Z) : paced D t0 ts -> Forall (fun t => t0 <= t) ts.
Proof.
  revert t0. induction ts as [|t ts IH]; intros t0; [constructor|]. intros [Ht Hts]. constructor; [lia|].
  eapply Forall_impl; [by apply IH|]. cbn. lia.
Qed.

(** ** Waiting *)

Lemma receive_attempted_inv (fsm : reconnect) (t : Z) : reconnect_inv fsm -> reconnect_inv (reconnect_receive_attempted fsm t).
Proof. intros Hi. inv_update Hi. Qed.

Lemma poll_spec (fsm : reconnect) (now : Z) :
  reconnect_inv fsm -> clock_ok now ->
  exists a fsm', poll fsm now = Some (a, fsm') /\ reconnect_inv fsm' /\
    (forall e, expiry fsm = Some e -> now < e -> a = None /\ fsm' = reconnect_receive_attempted fsm now).
Proof.
  intros Hi Hn. unfold poll. pose proof (receive_attempted_inv fsm now Hi) as Hr.
  destruct (run_spec _ now Hr Hn) as (f & -> & Hf & Hsame). cbn [mbind option_bind].
  set (r := reconnect_receive_attempted fsm now) in *.
  assert (expiry r = expiry fsm) as Ee by (subst r; by destruct fsm).
  assert (forall e, expiry fsm = Some e -> now < e -> due r now = false) as Hdue.
  { intros e E Hlt. unfold due. rewrite Ee, E. by destruct (Z.leb_spec e now); [lia|]. }
  destruct (due r now) eqn:Ed; cbn [andb] in *; [|by do 2 eexists].
  assert (exists a g, match action_of (state r) with
    | Some RECONNECT_CONNECT => fsm ← reconnect_connecting f now; Some (action_of (state r), fsm)
    | Some RECONNECT_DISCONNECT => fsm ← reconnect_disconnected f now 0; Some (action_of (state r), fsm)
    | _ => Some (action_of (state r), f)
    end = Some (a, g) /\ reconnect_inv g) as (a & g & -> & Hg).
  { destruct (action_of (state r)) as [[]|]; [| |by do 2 eexists|by do 2 eexists].
    - destruct (connecting_spec f now Hf Hn) as (g & -> & Hg & _). by do 2 eexists.
    - destruct (disconnected_spec f now 0 Hf Hn) as (g & -> & Hg & _). by do 2 eexists. }
  exists a, g. split_and!; [done|done|]. intros e E Hlt. by specialize (Hdue e E Hlt).
Qed.

Lemma polls_total (ts : list Z) (fsm : reconnect) : reconnect_inv fsm -> Forall clock_ok ts -> exists log, polls fsm ts = Some log.
Proof.
  intros Hi Hts. revert fsm Hi. induction Hts as [|t ts Ht Hts IH]; intros fsm Hi; cbn [polls]; [by eexists|].
  destruct (poll_spec fsm t Hi Ht) as (a & f & -> & Hf & _). cbn [mbind option_bind].
  destruct (IH f Hf) as (log & ->). cbn [mbind option_bind]. by eexists.
Qed.

(** Nothing happens before the expiry; the first poll after it is not later
    than [D]. *)
Lemma polls_wait (D t0 : Z) (ts : list Z) (fsm : reconnect) (e : Z) :
  reconnect_inv fsm -> expiry fsm = Some e -> Forall clock_ok ts -> paced D t0 ts -> covers ts e ->
  exists t ts' r, e <= t /\ t0 <= t <= Z.max t0 e + D /\ clock_ok t /\ Forall clock_ok ts' /\ paced D t ts' /\
    polls fsm ts = polls (fsm {{ last_receive_attempt := r }}) (t :: ts') /\
    forall x, t < x -> covers ts x -> covers ts' x.
Proof.
  intros Hi He Hts. revert t0 fsm Hi He. induction Hts as [|t ts Ht Hts IH]; intros t0 fsm Hi He Hp Hcov.
  { destruct Hcov as (? & Hin & _). by apply elem_of_nil in Hin. }
  destruct Hp as [Ht0 Hp]. destruct (Z.le_gt_cases e t) as [Hle|Hgt].
  - exists t, ts, (last_receive_attempt fsm). split_and!; try (done || lia).
    intros x Hx (y & [->|Hin]%elem_of_cons & Hy); [lia|by exists y].
  - destruct (poll_spec fsm t Hi Ht) as (a & f & E & Hf & Hno). destruct (Hno e He Hgt) as [-> ->].
    destruct (IH t (reconnect_receive_attempted fsm t) Hf) as (t' & ts' & r & H1 & H2 & H3 & H4 & H5 & H6 & H7).
    + by destruct fsm.
    + done.
    + destruct Hcov as (y & [->|Hin]%elem_of_cons & Hy); [lia|by exists y].
    + exists t', ts', r. split_and!; try (done || lia).
      * trans (polls (reconnect_receive_attempted fsm t) ts); [|rewrite H6; by destruct fsm].
        cbn [polls]. rewrite E. cbn [mbind option_bind]. by destruct (polls _ ts).
      * intros x Hx (y & [->|Hin]%elem_of_cons & Hy); [lia|]. apply H7; [done|by exists y].
Qed.

(** ** What a poll after the expiry does *)

(** A machine with an unlimited number of tries, and what its configuration
    and the time say of its timers. *)
Record trying (fsm : reconnect) (p m : Z) : Prop := {
  try_inv : reconnect_inv fsm;
  try_forever : max_tries fsm = UINT_MAX;
  try_probe : probe_interval fsm = p;
  try_max : max_backoff fsm = m
}.

Lemma may_retry_forever (fsm : reconnect) : max_tries fsm = UINT_MAX -> max_tries (reconnect_may_retry fsm).2 = UINT_MAX.
Proof. intros E. unfold reconnect_may_retry. rewrite E. by destruct fsm. Qed.

(** Polls after the expiry of each state. *)
Lemma poll_due (fsm : reconnect) (now e p m r : Z) :
  trying fsm p m -> clock_ok now -> expiry fsm = Some e -> e <= now ->
  exists fsm' a, poll (fsm {{ last_receive_attempt := r }}) now = Some (Some a, fsm') /\ trying fsm' p m /\ state_entered fsm' = now /\
    match state fsm with
    | S_BACKOFF => a = RECONNECT_CONNECT /\ state fsm' = S_CONNECTING /\ backoff fsm' = backoff fsm
    | S_ACTIVE => a = RECONNECT_PROBE /\ state fsm' = S_IDLE /\ backoff fsm' = backoff fsm
    | _ => a = RECONNECT_DISCONNECT /\ state fsm' = S_BACKOFF /\ 0 <= backoff fsm' <= m
    end.
Proof.
  intros [Hi Hu Hp Hm] Hn He Hle. unfold poll. set (f0 := reconnect_receive_attempted (fsm {{ last_receive_attempt := r }}) now).
  assert (f0 = fsm {{ last_receive_attempt := now }}) as Ef0 by (by destruct fsm).
  assert (trying f0 p m /\ state f0 = state fsm /\ backoff f0 = backoff fsm /\ expiry f0 = Some e /\ last_receive_attempt f0 = now)
    as ([Hi0 Hu0 Hp0 Hm0] & Es & Eb & Ee & El).
  { split; [|rewrite Ef0; by destruct fsm]. rewrite Ef0. split; [inv_update Hi|by destruct fsm..]. }
  clearbody f0. destruct (run_spec f0 now Hi0 Hn) as (f & -> & Hf & Hrun). cbn [mbind option_bind].
  assert (due f0 now = true) as Hdue.
  { unfold due. rewrite Ee, El. destruct (Z.leb_spec e now); [|lia]. by rewrite orb_true_r. }
  rewrite Hdue, Es in *. cbn [andb] in Hrun.
  assert (state fsm <> S_ACTIVE -> f = f0) as Hf0.
  { intros Hne. by destruct (state_eqb_spec (state fsm) S_ACTIVE). }
  assert (action_of (state fsm) = Some RECONNECT_DISCONNECT -> exists g,
    reconnect_disconnected f now 0 = Some g /\ trying g p m /\ state_entered g = now /\ state g = S_BACKOFF /\ 0 <= backoff g <= m) as Hdis.
  { intros Ha. assert (f = f0) as -> by (apply Hf0; by intros E; rewrite E in Ha).
    destruct (disconnected_spec f0 now 0 Hi0 Hn) as (g & -> & Hg & _ & Hspec). exists g. split; [done|].
    destruct Hspec as (S1 & S2 & S3 & S4 & S5 & S6 & S7); [rewrite Es; by destruct (state fsm)|].
    rewrite Hu0 in S7. cbn in S7. destruct S7 as (S7 & S8 & _). rewrite may_retry_forever in S2 by done.
    split; [split; congruence|]. by rewrite Hm0 in S8. }
  destruct (state fsm) eqn:E; cbn [action_of] in *; try (unfold expiry in He; rewrite E in He; discriminate);
    try (destruct Hdis as (g & -> & H1 & H2 & H3 & H4); [done|]; cbn [mbind option_bind]; by do 2 eexists).
  - rewrite (Hf0 ltac:(done)). destruct (connecting_spec f0 now Hi0 Hn) as (g & -> & Hg & Eg & Hs & Ht). cbn [mbind option_bind].
    do 2 eexists. split; [done|]. assert (trying g p m /\ backoff g = backoff fsm) as [Hg' Hb'].
    { rewrite Hs in *. split; [split; [done|by destruct f0..]|]. rewrite <- Eb. by destruct f0. }
    split_and!; try done. apply Ht. by rewrite Es.
  - destruct Hrun as (E1 & E2 & Hs). do 2 eexists. split; [done|]. rewrite Hs in *.
    split; [split; [done|by destruct f0..]|]. split; [done|]. split_and!; [done|done|]. rewrite <- Eb. by destruct f0.
Qed.

(** ** Progress *)

(** From [fsm], with polls at [ts], the machine asks for [acts] by the time
    [bound], and is then in a state with [Q]. *)
Definition reaches (D t0 : Z) (ts : list Z) (fsm : reconnect) (bound : Z) (acts : list reconnect_action)
    (Q : Z -> reconnect -> Prop) : Prop :=
  exists t ts' fsm' pre, map snd pre = acts /\ Forall (fun x => x.1 <= bound) pre /\
    polls fsm ts = app pre <$> polls fsm' ts' /\ t0 <= t <= bound /\ Q t fsm' /\
    Forall clock_ok ts' /\ paced D t ts' /\ forall x, t < x -> covers ts x -> covers ts' x.

Lemma covers_le (ts : list Z) (x y : Z) : x <= y -> covers ts y -> covers ts x.
Proof. intros Hxy (t & Hin & Ht). exists t. split; [done|lia]. Qed.

Lemma reaches_le (D t0 b1 b2 : Z) (ts : list Z) (fsm : reconnect) (l : list reconnect_action) (Q : Z -> reconnect -> Prop) :
  b1 <= b2 -> reaches D t0 ts fsm b1 l Q -> reaches D t0 ts fsm b2 l Q.
Proof.
  intros Hb (t & ts' & f & pre & H1 & H2 & H3 & H4 & H5 & H6 & H7 & H8). exists t, ts', f, pre.
  split_and!; try done; try lia. eapply Forall_impl; [exact H2|]. cbn. lia.
Qed.

Lemma reaches_impl (D t0 b : Z) (ts : list Z) (fsm : reconnect) (l : list reconnect_action) (Q Q' : Z -> reconnect -> Prop) :
  (forall t f, Q t f -> Q' t f) -> reaches D t0 ts fsm b l Q -> reaches D t0 ts fsm b l Q'.
Proof.
  intros HQ (t & ts' & f & pre & H1 & H2 & H3 & H4 & H5 & H6 & H7 & H8). exists t, ts', f, pre. split_and!; auto; lia.
Qed.

Lemma reaches_trans (D t0 b1 b2 : Z) (ts : list Z) (fsm : reconnect) (l1 l2 : list reconnect_action)
    (Q1 Q2 : Z -> reconnect -> Prop) :
  reaches D t0 ts fsm b1 l1 Q1 -> b1 <= b2 -> 0 <= D ->
  (forall t ts' fsm', t0 <= t <= b1 -> Q1 t fsm' -> Forall clock_ok ts' -> paced D t ts' ->
    (forall x, t < x -> covers ts x -> covers ts' x) -> reaches D t ts' fsm' b2 l2 Q2) ->
  reaches D t0 ts fsm b2 (l1 ++ l2) Q2.
Proof.
  intros (t & ts1 & f1 & pre1 & E1 & F1 & P1 & T1 & HQ1 & C1 & Hp1 & V1) Hb HD Hnext.
  destruct (Hnext t ts1 f1 T1 HQ1 C1 Hp1 V1) as (u & ts2 & f2 & pre2 & E2 & F2 & P2 & T2 & HQ2 & C2 & Hp2 & V2).
  exists u, ts2, f2, (pre1 ++ pre2). split_and!; try (done || lia).
  - by rewrite map_app, E1, E2.
  - apply Forall_app. split; [|done]. eapply Forall_impl; [exact F1|]. cbn. lia.
  - rewrite P1, P2, <- option_fmap_compose. destruct (polls f2 ts2); [|done]. cbn. by rewrite app_assoc.
  - intros x Hx Hc. apply V2; [done|]. apply V1; [lia|done].
Qed.

(** The state after the machine acts in the state [s]. *)
Definition after (s : conn_state) (p m b : Z) (t : Z) (fsm : reconnect) : Prop :=
  trying fsm p m /\ state_entered fsm = t /\
  match s with
  | S_BACKOFF => state fsm = S_CONNECTING /\ backoff fsm = b
  | S_ACTIVE => state fsm = S_IDLE /\ backoff fsm = b
  | _ => state fsm = S_BACKOFF /\ 0 <= backoff fsm <= m
  end.

Lemma reaches_action (D t0 K e p m : Z) (ts : list Z) (fsm : reconnect) (a : reconnect_action) :
  trying fsm p m -> expiry fsm = Some e -> action_of (state fsm) = Some a -> e <= t0 + K -> 0 <= K ->
  Forall clock_ok ts -> paced D t0 ts -> covers ts (t0 + K) ->
  reaches D t0 ts fsm (t0 + K + D) [a] (after (state fsm) p m (backoff fsm)).
Proof.
  intros Ht He Ha HeK HK Hts Hp Hc.
  destruct (polls_wait D t0 ts fsm e (try_inv fsm p m Ht) He Hts Hp) as (t & ts' & r & H1 & H2 & H3 & H4 & H5 & H6 & H7);
    [by apply (covers_le _ _ (t0 + K))|].
  destruct (poll_due fsm t e p m r Ht H3 He H1) as (f & a' & Ep & Hf & Et & Hact).
  exists t, ts', f, [(t, a')]. cbn [map snd]. split_and!; try (done || lia).
  - destruct (state fsm); cbn in Ha; simplify_eq; by destruct Hact as (-> & _).
  - constructor; [cbn; lia|constructor].
  - rewrite H6. cbn [polls]. rewrite Ep. cbn [mbind option_bind]. by destruct (polls f ts').
  - split; [done|]. split; [done|]. destruct (state fsm); by destruct Hact as (_ & ?).
Qed.

(** The expiry of each state, when the machine was told nothing after [t0]. *)
Lemma expiry_bound (fsm : reconnect) (t0 : Z) (a : reconnect_action) :
  reconnect_wf fsm -> state_entered fsm <= t0 -> last_activity fsm <= t0 -> action_of (state fsm) = Some a ->
  (is_connected_state (state fsm) = true -> probe_interval fsm <> 0) ->
  exists e, expiry fsm = Some e /\
    e <= t0 + if is_connected_state (state fsm) then probe_interval fsm else Z.max 1000 (backoff fsm).
Proof.
  intros [] He Hl Ha Hp. unfold expiry. destruct (state fsm); try discriminate Ha; known_state; cbn in *;
    try (destruct (Z.eqb_spec (probe_interval fsm) 0); [by destruct Hp|]); (eexists; split; [done|]; lia).
Qed.

Section Rounds.
Variables (D p m M : Z).
Hypothesis HD : 0 <= D.
Hypothesis Hm : 1000 <= m <= M.

(** A machine that is connecting since [t]. *)
Definition connecting_at (t : Z) (fsm : reconnect) : Prop :=
  trying fsm p m /\ state_entered fsm = t /\ state fsm = S_CONNECTING /\ backoff fsm <= M.

Lemma backoff_reaches (t0 b : Z) (ts : list Z) (fsm : reconnect) :
  after S_IDLE p m b t0 fsm -> Forall clock_ok ts -> paced D t0 ts -> covers ts (t0 + M) ->
  reaches D t0 ts fsm (t0 + M + D) [RECONNECT_CONNECT] connecting_at.
Proof.
  intros (Ht & He & Es & Hb) Hts Hp Hc. apply (reaches_impl _ _ _ _ _ _ (after (state fsm) p m (backoff fsm))).
  - rewrite Es. intros t f (H1 & H2 & H3 & H4). split_and!; [done|done|done|lia].
  - apply (reaches_action _ _ _ (state_entered fsm + backoff fsm)); try done; try lia; [unfold expiry; by rewrite Es|by rewrite Es].
Qed.

(** A connection or an attempt that is given up, and the next one. *)
Lemma drop_reaches (t0 K e : Z) (ts : list Z) (fsm : reconnect) :
  trying fsm p m -> action_of (state fsm) = Some RECONNECT_DISCONNECT -> expiry fsm = Some e -> e <= t0 + K -> 0 <= K ->
  Forall clock_ok ts -> paced D t0 ts -> covers ts (t0 + K + D + M) ->
  reaches D t0 ts fsm (t0 + K + M + 2 * D) [RECONNECT_DISCONNECT; RECONNECT_CONNECT] connecting_at.
Proof.
  intros Ht Ha Ee Hle HK Hts Hp Hc.
  apply (reaches_trans D t0 (t0 + K + D) _ ts fsm [RECONNECT_DISCONNECT] [RECONNECT_CONNECT] (after S_IDLE p m 0) connecting_at);
    [|lia|done|].
  - apply (reaches_impl _ _ _ _ _ _ (after (state fsm) p m (backoff fsm))).
    + by destruct (state fsm).
    + apply (reaches_action _ _ _ e); try done. eapply covers_le; [|exact Hc]; lia.
  - intros t ts' f Ht' Hf Hts' Hp' Hcov. eapply reaches_le; [|apply (backoff_reaches t 0 ts' f Hf Hts' Hp')]; [lia|].
    apply Hcov; [lia|]. eapply covers_le; [|exact Hc]; lia.
Qed.

(** [n] rounds. *)
Lemma attempts_reach (n : nat) (t0 : Z) (ts : list Z) (fsm : reconnect) :
  connecting_at t0 fsm -> Forall clock_ok ts -> paced D t0 ts ->
  n = 0%nat \/ covers ts (t0 + Z.of_nat n * (2 * M + 2 * D)) ->
  reaches D t0 ts fsm (t0 + Z.of_nat n * (2 * M + 2 * D))
    (concat (replicate n [RECONNECT_DISCONNECT; RECONNECT_CONNECT])) connecting_at.
Proof.
  revert t0 ts fsm. induction n as [|n IH]; intros t0 ts fsm Hf Hts Hp Hc.
  { exists t0, ts, fsm, []. split_and!; try (done || lia). by destruct (polls fsm ts). }
  destruct Hc as [|Hc]; [done|]. rewrite Nat2Z.inj_succ, Z.mul_succ_l in *.
  assert (0 <= Z.of_nat n * (2 * M + 2 * D)) as Hnn by (apply Z.mul_nonneg_nonneg; lia). cbn [replicate concat]. destruct Hf as (H1 & H2 & H3 & H4).
  apply (reaches_trans D t0 (t0 + Z.max 1000 M + M + 2 * D) _ ts fsm _ _ connecting_at connecting_at); [|lia|done|].
  - apply (drop_reaches t0 (Z.max 1000 M) (state_entered fsm + Z.max 1000 (backoff fsm))); try done; try lia.
    + by rewrite H3.
    + unfold expiry. by rewrite H3.
    + eapply covers_le; [|exact Hc]; lia.
  - intros t ts' f Ht Hf Hts' Hp' Hcov.
    eapply reaches_le; [|apply IH; try done]; [lia|].
    { destruct (decide (n = 0%nat)) as [|Hn0]; [by left|right].
      assert (1 * (2 * M + 2 * D) <= Z.of_nat n * (2 * M + 2 * D)) by (apply Z.mul_le_mono_nonneg_r; lia).
      apply Hcov; [lia|]. eapply covers_le; [|exact Hc]; lia. }
Qed.

(** From any state but [S_VOID] and [S_LISTENING], to the next attempt. *)
Lemma first_attempt_reaches (t0 : Z) (ts : list Z) (fsm : reconnect) (a : reconnect_action) :
  trying fsm p m -> action_of (state fsm) = Some a -> (is_connected_state (state fsm) = true -> p <> 0) ->
  state_entered fsm <= t0 -> last_activity fsm <= t0 -> Z.max 1000 (backoff fsm) <= M -> 0 <= p ->
  Forall clock_ok ts -> paced D t0 ts -> covers ts (t0 + 2 * p + 2 * M + 3 * D) ->
  exists acts, reaches D t0 ts fsm (t0 + 2 * p + 2 * M + 3 * D) (acts ++ [RECONNECT_CONNECT]) connecting_at.
Proof.
  intros Ht Ha Hpr Hen Hla Hb Hp0 Hts Hp Hc.
  destruct (expiry_bound fsm t0 a (ri_wf fsm (try_inv fsm p m Ht)) Hen Hla Ha) as (e & Ee & Hle).
  { intros Hcs. rewrite (try_probe fsm p m Ht). by apply Hpr. }
  rewrite (try_probe fsm p m Ht) in Hle.
  assert (forall K t ts' f e, trying f p m -> action_of (state f) = Some RECONNECT_DISCONNECT -> expiry f = Some e -> e <= t + K ->
    0 <= K -> t + K <= t0 + 2 * p + M + D -> Forall clock_ok ts' -> paced D t ts' -> covers ts' (t + K + D + M) ->
    reaches D t ts' f (t0 + 2 * p + 2 * M + 3 * D) [RECONNECT_DISCONNECT; RECONNECT_CONNECT] connecting_at) as Hdrop.
  { intros K t ts' f e' H1 H2 H3 H4 H5 H6 H7 H8 H9. eapply reaches_le; [|by apply (drop_reaches t K e')]. lia. }
  revert Hle Hpr. destruct (state fsm) eqn:Es; try discriminate Ha; known_state; cbn iota; intros Hle Hpr.
  - exists []. eapply reaches_le; [|apply (reaches_impl _ _ _ _ _ _ (after (state fsm) p m (backoff fsm)))].
    3: { apply (reaches_action _ _ M e); try done; [by rewrite Es|lia|lia|eapply covers_le; [|exact Hc]; lia]. }
    + lia.
    + rewrite Es. intros t f (H1 & H2 & H3 & H4). split_and!; [done|done|done|lia].
  - exists [RECONNECT_DISCONNECT]. apply (Hdrop M t0 ts fsm e); try done; [by rewrite Es|lia|lia|lia|].
    eapply covers_le; [|exact Hc]; lia.
  - exists [RECONNECT_PROBE; RECONNECT_DISCONNECT]. specialize (Hpr eq_refl).
    apply (reaches_trans D t0 (t0 + p + D) _ ts fsm [RECONNECT_PROBE] [RECONNECT_DISCONNECT; RECONNECT_CONNECT]
      (after (state fsm) p m (backoff fsm)) connecting_at); [|lia|done|].
    + apply (reaches_action _ _ p e); try done; [by rewrite Es|]. eapply covers_le; [|exact Hc]; lia.
    + rewrite Es. intros t ts' f Ht' (H1 & H2 & H3 & H4) Hts' Hp' Hcov.
      apply (Hdrop p t ts' f (state_entered f + p)); try done; try lia.
      * by rewrite H3.
      * unfold expiry. rewrite H3, (try_probe f p m H1). by destruct (Z.eqb_spec p 0).
      * apply Hcov; [lia|]. eapply covers_le; [|exact Hc]; lia.
  - exists [RECONNECT_DISCONNECT]. apply (Hdrop p t0 ts fsm e); try done; [by rewrite Es|lia|].
    eapply covers_le; [|exact Hc]; lia.
  - exists [RECONNECT_DISCONNECT]. apply (Hdrop M t0 ts fsm e); try done; [by rewrite Es|lia|lia|lia|].
    eapply covers_le; [|exact Hc]; lia.
Qed.
End Rounds.
