(* ===== verification/ReconnectTheorems.v ===== *)
(** * Reconnection state machine: theorems

    Safety of every history of calls, what the counters count, when the machine
    wakes its client, progress, and the growth of the backoff. *)

From S2P Require Import Prelude Util Reconnect ReconnectProps ReconnectLiveness.
From stdpp Require Import prelude list strings.
From coqutil Require Import Datatypes.RecordSetters.
From Stdlib Require Import ZArith Lia.
Import DoubleBraceUpdate.
Open Scope Z_scope.
Open Scope ovs_scope.

(** ** Queries *)

Lemma timeout_spec (fsm : reconnect) (now : Z) :
  reconnect_wf fsm -> clock_ok now ->
  exists n, reconnect_timeout fsm now = Some n /\
    match expiry fsm with
    | None => n = -1
    | Some t =>
      0 <= n <= INT_MAX /\ (now < t -> n = Z.min INT_MAX (t - now)) /\
      (t <= now -> n = if waits_for_data fsm && (last_receive_attempt fsm <? t) then 1 else 0)
    end.
Proof.
  intros Hw Hn. unfold reconnect_timeout. destruct (deadline_spec fsm now Hw Hn) as (d & -> & Hd). cbn [mbind option_bind].
  pose proof (expiry_range fsm) as Hr. destruct (expiry fsm) as [t|].
  2: { subst d. by exists (-1). }
  specialize (Hr t Hw eq_refl). destruct Hd as (Hlt & Heq & Hor).
  destruct (Z.eqb_spec d LLONG_MAX); [unfold_consts; lia|]. rewrite llong_some by (unfold_consts; lia). cbn [mbind option_bind].
  rewrite MAX_max, MIN_min. eexists. split; [done|]. split_and!; [lia|unfold_consts; lia|intros H; rewrite (Heq H); unfold_consts; lia|].
  intros Hle. destruct (waits_for_data fsm); cbn [andb].
  - destruct (Z.ltb_spec (last_receive_attempt fsm) t).
    + assert (now < d) by (apply Hlt; auto). unfold_consts. lia.
    + assert (~ now < d) by (rewrite Hlt; intros [?|[? ?]]; lia). unfold_consts. lia.
  - assert (~ now < d) by (rewrite Hlt; intros [?|[? ?]]; (lia || discriminate)). unfold_consts. lia.
Qed.

(** ** Sample machines *)

Definition sample_client : list (Z * call) :=
  [(1000, Set_probe_interval 5000); (1000, Enable); (1000, Run); (1000, Connecting); (1500, Connected); (2000, Activity)].

Lemma sample_calls_ok : Forall (fun x => clock_ok x.1 /\ call_ok x.2) sample_client.
Proof. unfold sample_client. repeat constructor; cbn; unfold_consts; lia. Qed.

(** ** Theorems *)

Lemma odd_u32 (x : Z) : Z.odd (u32 x) = Z.odd x.
Proof. rewrite <- !Z.bit0_odd. rewrite wrap_testbit by lia. done. Qed.

(** C30: whatever a client calls, in whatever order, on a machine from
    [reconnect_create], with times up to 2^62 and arguments as documented, no
    call fails an assertion or overflows a signed integer, and every field stays
    in its range: the backoff limits ordered and at least a second, the probe
    interval off or at least a second, times that were on the clock. *)
Theorem reconnect_history_safe (start : Z) (l : list (Z * call)) :
  clock_ok start -> Forall (fun x => clock_ok x.1 /\ call_ok x.2) l ->
  exists fsm, history (reconnect_create start) l = Some fsm /\ reconnect_wf fsm.
Proof.
  intros Hs Hl. destruct (history_inv l _ (create_inv start Hs) Hl) as (f & E & Hf). exists f. split; [done|apply Hf].
Qed.

Lemma reconnect_history_safe_witness :
  exists fsm, history (reconnect_create 1000) sample_client = Some fsm /\ reconnect_wf fsm.
Proof. apply reconnect_history_safe; [unfold_consts; lia|apply sample_calls_ok]. Defined.

(** after any history [seqno] is twice the number of successful connections,
    less one while connected (both modulo 2^32): a client that compares the
    number learns whether the connection changed, and it is odd exactly while
    connected. *)
Theorem reconnect_seqno_counts (start : Z) (l : list (Z * call)) :
  clock_ok start -> Forall (fun x => clock_ok x.1 /\ call_ok x.2) l ->
  exists fsm, history (reconnect_create start) l = Some fsm /\
    seqno fsm = u32 (2 * n_successful_connections fsm - if reconnect_is_connected fsm then 1 else 0) /\
    Z.odd (seqno fsm) = reconnect_is_connected fsm.
Proof.
  intros Hs Hl. destruct (history_inv l _ (create_inv start Hs) Hl) as (f & E & Hf). exists f.
  pose proof (ri_counted f Hf) as Hc. unfold counted in Hc. split_and!; [done|done|].
  rewrite Hc, odd_u32, Z.odd_sub, Z.odd_mul. unfold reconnect_is_connected. by destruct (is_connected_state _).
Qed.

Lemma reconnect_seqno_counts_witness :
  exists fsm, history (reconnect_create 1000) sample_client = Some fsm /\
    seqno fsm = u32 (2 * n_successful_connections fsm - if reconnect_is_connected fsm then 1 else 0) /\
    Z.odd (seqno fsm) = reconnect_is_connected fsm.
Proof. apply reconnect_seqno_counts; [unfold_consts; lia|apply sample_calls_ok]. Defined.


Lemma sample_connected :
  history (reconnect_create 1000) sample_client =
    Some (default (reconnect_create 0) (history (reconnect_create 1000) sample_client)) /\
  reconnect_timeout (default (reconnect_create 0) (history (reconnect_create 1000) sample_client)) 3000 = Some 4000.
Proof. by vm_compute. Qed.

Lemma sample_inv : reconnect_inv (default (reconnect_create 0) (history (reconnect_create 1000) sample_client)).
Proof.
  destruct (history_inv sample_client (reconnect_create 1000)) as (f & -> & Hf); [apply create_inv; unfold_consts; lia| |done].
  apply sample_calls_ok.
Qed.


(** A poll after the expiry. *)
Lemma poll_action (fsm : reconnect) (now e r : Z) :
  reconnect_inv fsm -> clock_ok now -> expiry fsm = Some e -> e <= now ->
  exists fsm', poll (fsm {{ last_receive_attempt := r }}) now = Some (action_of (state fsm), fsm') /\ reconnect_inv fsm' /\
    (state fsm = S_ACTIVE -> state fsm' = S_IDLE /\ state_entered fsm' = now /\ probe_interval fsm' = probe_interval fsm).
Proof.
  intros Hi Hn He Hle. unfold poll. set (f0 := reconnect_receive_attempted (fsm {{ last_receive_attempt := r }}) now).
  assert (reconnect_inv f0 /\ state f0 = state fsm /\ due f0 now = true /\ probe_interval f0 = probe_interval fsm) as (Hi0 & Es & Hd & Ep).
  { split; [inv_update Hi|]. split; [done|]. split; [|done]. unfold due. replace (expiry f0) with (Some e) by done.
    change (last_receive_attempt f0) with now. destruct (Z.leb_spec e now); [|lia]. by rewrite orb_true_r. }
  clearbody f0. destruct (run_spec f0 now Hi0 Hn) as (f & -> & Hf & Hrun). cbn [mbind option_bind].
  rewrite Hd, Es in *. cbn [andb] in Hrun. destruct (state fsm) eqn:E; cbn [action_of].
  1, 7: by exists f.
  2, 4, 5: destruct (disconnected_spec f now 0 Hf Hn) as (g & -> & Hg & _); cbn [mbind option_bind]; by exists g.
  - destruct (connecting_spec f now Hf Hn) as (g & -> & Hg & _). cbn [mbind option_bind]. by exists g.
  - destruct Hrun as (H1 & H2 & H3). exists f. split_and!; [done|done|]. intros _. split_and!; [done|done|].
    rewrite H3, <- Ep. by destruct f0.
Qed.

(** C32: a dead connection is found out: a connected machine with a probe interval,
    whose client polls at least every [D] milliseconds and hears nothing, asks for
    a probe when the interval since the last activity has passed, at most [D]
    late, and to disconnect when another interval has passed, at most [D] late;
    it asks for nothing before. *)
Theorem reconnect_detects_dead_peer (D t0 : Z) (ts : list Z) (fsm : reconnect) :
  let base := Z.max (last_activity fsm) (state_entered fsm) in
  let p := probe_interval fsm in
  reconnect_inv fsm -> state fsm = S_ACTIVE -> p <> 0 -> base <= t0 -> 0 <= D ->
  Forall clock_ok ts -> paced D t0 ts -> covers ts (t0 + 2 * p + D) ->
  exists t1 t2 log, polls fsm ts = Some ((t1, RECONNECT_PROBE) :: (t2, RECONNECT_DISCONNECT) :: log) /\
    base + p <= t1 <= Z.max t0 (base + p) + D /\ t1 + p <= t2 <= t1 + p + D.
Proof.
  intros base p Hi Es Hp Hb HD Hts Hpc Hc. pose proof (rw_probe_interval fsm (ri_wf fsm Hi)) as Hp0. fold p in Hp0.
  assert (expiry fsm = Some (base + p)) as Ee by (unfold expiry; rewrite Es; fold p; by destruct (Z.eqb_spec p 0)).
  destruct (polls_wait D t0 ts fsm _ Hi Ee Hts Hpc) as (t1 & ts1 & r1 & A1 & A2 & A3 & A4 & A5 & A6 & A7).
  { eapply covers_le; [|exact Hc]; lia. }
  destruct (poll_action fsm t1 (base + p) r1 Hi A3 Ee A1) as (f1 & B1 & B2 & B3). destruct (B3 Es) as (C1 & C2 & C3).
  assert (expiry f1 = Some (t1 + p)) as Ee1 by (unfold expiry; rewrite C1, C2, C3; fold p; by destruct (Z.eqb_spec p 0)).
  destruct (polls_wait D t1 ts1 f1 _ B2 Ee1 A4 A5) as (t2 & ts2 & r2 & D1 & D2 & D3 & D4 & D5 & D6 & D7).
  { apply A7; [lia|]. eapply covers_le; [|exact Hc]; lia. }
  destruct (poll_action f1 t2 (t1 + p) r2 B2 D3 Ee1 D1) as (f2 & E1 & E2 & _).
  destruct (polls_total ts2 f2 E2 D4) as (log & Elog). exists t1, t2, log. split; [|lia].
  rewrite A6. cbn [polls]. rewrite B1, Es. cbn [mbind option_bind action_of]. rewrite D6. cbn [polls].
  rewrite E1, C1. cbn [mbind option_bind action_of]. by rewrite Elog.
Qed.

Definition sample_machine : reconnect := default (reconnect_create 0) (history (reconnect_create 1000) sample_client).

Definition sample_times : list Z := map (fun i => 2000 + 1000 * Z.of_nat i) (seq 0 200).

Lemma sample_machine_fields :
  state sample_machine = S_ACTIVE /\ state_entered sample_machine = 1500 /\ last_activity sample_machine = 2000 /\
  probe_interval sample_machine = 5000 /\ max_tries sample_machine = UINT_MAX /\ backoff sample_machine = 0 /\
  max_backoff sample_machine = 8000.
Proof. by vm_compute. Qed.

Fixpoint pacedb (D t0 : Z) (ts : list Z) : bool :=
  match ts with
  | [] => true
  | t :: ts => (t0 <=? t) && (t <=? t0 + D) && pacedb D t ts
  end.

Lemma pacedb_paced (D t0 : Z) (ts : list Z) : pacedb D t0 ts = true -> paced D t0 ts.
Proof.
  revert t0. induction ts as [|t ts IH]; intros t0; [done|]. cbn [pacedb paced]. rewrite !andb_true_iff, !Z.leb_le.
  intros [? ?]. by split; [|apply IH].
Qed.

Lemma sample_times_ok : Forall clock_ok sample_times /\ paced 1000 2000 sample_times /\ covers sample_times 200000.
Proof.
  split_and!.
  - apply Forall_forall. intros t. unfold sample_times. rewrite list_elem_of_fmap. intros (i & -> & Hi%elem_of_seq).
    unfold_consts. lia.
  - apply pacedb_paced. by vm_compute.
  - exists (2000 + 1000 * Z.of_nat 199). split; [|lia]. unfold sample_times. apply list_elem_of_fmap. exists 199%nat.
    split; [done|]. apply elem_of_seq. lia.
Qed.

Lemma reconnect_detects_dead_peer_witness :
  exists t1 t2 log, polls sample_machine sample_times = Some ((t1, RECONNECT_PROBE) :: (t2, RECONNECT_DISCONNECT) :: log) /\
    7000 <= t1 <= 8000 /\ t1 + 5000 <= t2 <= t1 + 6000.
Proof.
  destruct sample_machine_fields as (H1 & H2 & H3 & H4 & _). destruct sample_times_ok as (T1 & T2 & T3).
  destruct (reconnect_detects_dead_peer 1000 2000 sample_times sample_machine sample_inv H1) as (t1 & t2 & log & E & B1 & B2);
    rewrite ?H2, ?H3, ?H4; [lia|lia|lia|assumption|assumption|eapply covers_le; [|exact T3]; lia|].
  rewrite H2, H3, H4 in B1. rewrite H4 in B2. exists t1, t2, log. split; [assumption|]. lia.
Defined.

Definition is_connect (a : reconnect_action) : bool := match a with RECONNECT_CONNECT => true | _ => false end.

(** The number of times that the client was asked to connect up to [b]. *)
Definition connects_by (b : Z) (log : list (Z * reconnect_action)) : nat :=
  length (List.filter (fun x => is_connect x.2 && (x.1 <=? b)) log).

Lemma connects_by_app (b : Z) (l k : list (Z * reconnect_action)) : connects_by b (l ++ k) = (connects_by b l + connects_by b k)%nat.
Proof. unfold connects_by. by rewrite List.filter_app, length_app. Qed.

Lemma connects_by_all (b : Z) (pre : list (Z * reconnect_action)) :
  Forall (fun x => x.1 <= b) pre -> connects_by b pre = length (List.filter is_connect (map snd pre)).
Proof.
  induction 1 as [|[t a] pre Hx Hpre IH]; [done|]. unfold connects_by in *. cbn [List.filter map fst snd] in *.
  destruct (Z.leb_spec t b); [|lia]. rewrite andb_true_r. destruct (is_connect a); cbn [length]; by rewrite IH.
Qed.

Lemma connects_rounds (n : nat) :
  length (List.filter is_connect (concat (replicate n [RECONNECT_DISCONNECT; RECONNECT_CONNECT]))) = n.
Proof. induction n as [|n IH]; [done|]. cbn in *. by rewrite IH. Qed.

(** C33: the machine never gives up: with no limit on tries, in any state but disabled
    and listening, a client that does what it is told, polls at least every [D]
    milliseconds and whose peer never answers is asked to connect again and
    again, the [n]-th time by a bound that grows by twice the largest backoff and
    twice [D] with each attempt. *)
Theorem reconnect_retries_forever (D t0 : Z) (ts : list Z) (fsm : reconnect) (n : nat) :
  let p := probe_interval fsm in
  let M := Z.max (max_backoff fsm) (backoff fsm) in
  let bound := t0 + 2 * p + 2 * M + 3 * D + Z.of_nat n * (2 * M + 2 * D) in
  reconnect_inv fsm -> max_tries fsm = UINT_MAX -> in_states (state fsm) [S_VOID; S_LISTENING] = false ->
  (reconnect_is_connected fsm = true -> p <> 0) -> state_entered fsm <= t0 -> last_activity fsm <= t0 -> 0 <= D ->
  Forall clock_ok ts -> paced D t0 ts -> covers ts bound ->
  exists log, polls fsm ts = Some log /\ (S n <= connects_by bound log)%nat.
Proof.
  intros p M bound Hi Hu Hst Hp He Hla HD Hts Hpc Hc. pose proof (ri_wf fsm Hi) as Hw.
  pose proof (rw_probe_interval fsm Hw) as Hpi. pose proof (rw_max_backoff fsm Hw). pose proof (rw_min_backoff fsm Hw).
  fold p in Hpi. assert (0 <= Z.of_nat n * (2 * M + 2 * D)) as Hnn by (apply Z.mul_nonneg_nonneg; lia).
  assert (exists a, action_of (state fsm) = Some a) as [a Ha] by (destruct (state fsm); try discriminate Hst; by eexists).
  destruct (first_attempt_reaches D p (max_backoff fsm) M HD ltac:(lia) t0 ts fsm a) as [acts Hfirst]; try done; try lia.
  { eapply covers_le; [|exact Hc]. subst bound. lia. }
  assert (reaches D t0 ts fsm bound ((acts ++ [RECONNECT_CONNECT]) ++ concat (replicate n [RECONNECT_DISCONNECT; RECONNECT_CONNECT]))
    (connecting_at p (max_backoff fsm) M)) as (t & ts' & f & pre & Em & Hb & Ep & _ & Hf & Hts' & _).
  { eapply reaches_trans; [exact Hfirst|subst bound; lia|done|]. intros t ts' f Ht Hf Hts' Hpc' Hcov.
    eapply reaches_le; [|apply attempts_reach; try done; try lia]; [subst bound; lia|].
    destruct (decide (n = 0%nat)) as [|Hn0]; [by left|right].
    assert (1 * (2 * M + 2 * D) <= Z.of_nat n * (2 * M + 2 * D)) by (apply Z.mul_le_mono_nonneg_r; lia).
    apply Hcov; [lia|]. eapply covers_le; [|exact Hc]. subst bound. lia. }
  destruct (polls_total ts' f) as (log & El); [apply Hf|done|]. rewrite El in Ep. exists (pre ++ log). split; [done|].
  rewrite connects_by_app, (connects_by_all _ _ Hb), Em, !List.filter_app, !length_app, connects_rounds. cbn. lia.
Qed.

Lemma reconnect_retries_forever_witness :
  exists log, polls sample_machine sample_times = Some log /\ (4 <= connects_by 85000 log)%nat.
Proof.
  destruct sample_machine_fields as (H1 & H2 & H3 & H4 & H5 & H6 & H7). destruct sample_times_ok as (T1 & T2 & T3).
  pose proof (reconnect_retries_forever 1000 2000 sample_times sample_machine 3 sample_inv H5) as Hr.
  cbv zeta in Hr. rewrite H1, H2, H3, H4, H6, H7 in Hr.
  destruct Hr as (log & E & Hn); [reflexivity|intros _; lia|lia|lia|lia|assumption|assumption| |].
  { eapply covers_le; [|exact T3]. cbn. lia. }
  exists log. split; [assumption|exact Hn].
Defined.

(** ** The backoff *)

(** [k] attempts that fail one after the other. *)
Fixpoint fail_attempts (fsm : reconnect) (ts : list Z) : option reconnect :=
  match ts with
  | [] => Some fsm
  | t :: ts => fsm ← reconnect_connect_failed fsm t 0; fail_attempts fsm ts
  end.

(** The backoff after [k + 1] failures: it doubles from the smallest one as long
    as that is less than the largest one, rounded down to an even number. *)
Definition backoff_after (min_ max_ : Z) (k : nat) : Z :=
  if (k =? 0)%nat then min_
  else if min_ * 2 ^ Z.of_nat k <? max_ / 2 * 2 then min_ * 2 ^ Z.of_nat k else max_.

Lemma next_backoff_after (min_ max_ : Z) (k : nat) :
  0 < min_ <= max_ -> next_backoff min_ max_ (backoff_after min_ max_ k) = backoff_after min_ max_ (S k).
Proof.
  intros Hm. unfold backoff_after at 2, next_backoff. cbn [Nat.eqb]. rewrite Nat2Z.inj_succ, Z.pow_succ_r by lia.
  assert (1 <= 2 ^ Z.of_nat k) by (pose proof (Z.pow_pos_nonneg 2 (Z.of_nat k)); lia).
  assert (min_ * 1 <= min_ * 2 ^ Z.of_nat k) by (apply Z.mul_le_mono_nonneg_l; lia).
  replace (min_ * (2 * 2 ^ Z.of_nat k)) with (2 * (min_ * 2 ^ Z.of_nat k)) by lia.
  assert (backoff_after min_ max_ k = min_ * 2 ^ Z.of_nat k \/ backoff_after min_ max_ k = max_ /\ max_ / 2 * 2 <= min_ * 2 ^ Z.of_nat k)
    as Hk.
  { unfold backoff_after. destruct (Nat.eqb_spec k 0) as [->|]; [left; cbn; lia|].
    destruct (Z.ltb_spec (min_ * 2 ^ Z.of_nat k) (max_ / 2 * 2)); auto. }
  set (x := min_ * 2 ^ Z.of_nat k) in *. pose proof (Z.div_mod max_ 2). pose proof (Z.mod_pos_bound max_ 2).
  set (y := backoff_after min_ max_ k) in *.
  destruct (Z.ltb_spec y min_), (Z.ltb_spec y (max_ / 2)), (Z.ltb_spec (2 * x) (max_ / 2 * 2)); lia.
Qed.

Lemma fail_step (fsm : reconnect) (t : Z) :
  reconnect_inv fsm -> clock_ok t -> backoff_free_tries fsm <= 1 ->
  exists fsm', reconnect_connect_failed fsm t 0 = Some fsm' /\ reconnect_inv fsm' /\ backoff_free_tries fsm' <= 1 /\
    min_backoff fsm' = min_backoff fsm /\ max_backoff fsm' = max_backoff fsm /\
    max_tries fsm' = max_tries (reconnect_may_retry fsm).2 /\
    if 0 <? max_tries fsm then
      state fsm' = S_BACKOFF /\ backoff fsm' = next_backoff (min_backoff fsm) (max_backoff fsm) (backoff fsm)
    else state fsm' = S_VOID.
Proof.
  intros Hi Ht Hfree. unfold reconnect_connect_failed.
  destruct (connecting_spec fsm t Hi Ht) as (f & -> & Hf & Es & Hs & _). cbn [mbind option_bind].
  assert (backoff_free_tries f = backoff_free_tries fsm /\ min_backoff f = min_backoff fsm /\ max_backoff f = max_backoff fsm /\
    max_tries f = max_tries fsm /\ backoff f = backoff fsm) as (F1 & F2 & F3 & F4 & F5) by (rewrite Hs; by destruct fsm).
  assert (max_tries (reconnect_may_retry f).2 = max_tries (reconnect_may_retry fsm).2) as F6
    by (unfold reconnect_may_retry; cbn [snd]; rewrite F4; destruct (0 <? max_tries fsm); cbn [andb]; [case_match|]; done).
  destruct (disconnected_spec f t 0 Hf Ht) as (g & -> & Hg & _ & Hspec).
  destruct Hspec as (S1 & S2 & S3 & S4 & S5 & S6 & S7); [by rewrite Es|]. rewrite Es, F1, F2, F3, F4, F5, F6 in *.
  exists g. split; [done|]. split; [done|]. destruct (0 <? max_tries fsm) eqn:E; [|].
  - destruct S7 as (G1 & G2 & G3). destruct G3 as (-> & ->); [done|done|]. by split_and!.
  - destruct S7 as (G1 & ->). by split_and!.
Qed.

(** The tries that are left. *)
Definition tries_left (fsm : reconnect) (n : nat) : bool :=
  (max_tries fsm =? UINT_MAX) || (Z.of_nat n <=? max_tries fsm).

Lemma may_retry_tries (fsm : reconnect) (n : nat) :
  reconnect_wf fsm -> 0 < max_tries fsm ->
  tries_left (fsm {{ max_tries := max_tries (reconnect_may_retry fsm).2 }}) n = tries_left fsm (S n).
Proof.
  intros Hw Hpos. pose proof (rw_max_tries fsm Hw) as Hr. unfold tries_left, reconnect_may_retry. cbn [snd].
  destruct (Z.ltb_spec 0 (max_tries fsm)); [|lia]. cbn [andb].
  destruct (Z.eqb_spec (max_tries fsm) UINT_MAX) as [E|E]; cbn [negb orb].
  - change (max_tries (fsm {{ max_tries := max_tries fsm }})) with (max_tries fsm). by rewrite E.
  - change (max_tries (fsm {{ max_tries := max_tries (fsm {{ max_tries := max_tries fsm - 1 }}) }})) with (max_tries fsm - 1).
    unfold_consts. destruct (Z.eqb_spec (max_tries fsm - 1) (2 ^ 32 - 1)); [lia|]. cbn [orb].
    destruct (Z.leb_spec (Z.of_nat n) (max_tries fsm - 1)), (Z.leb_spec (Z.of_nat (S n)) (max_tries fsm)); (done || lia).
Qed.

Lemma fail_void (ts : list Z) (fsm : reconnect) :
  reconnect_inv fsm -> backoff_free_tries fsm <= 1 -> max_tries fsm = 0 -> ts <> [] -> Forall clock_ok ts ->
  exists fsm', fail_attempts fsm ts = Some fsm' /\ state fsm' = S_VOID.
Proof.
  intros Hi Hf Hm Hne Hts. revert fsm Hi Hf Hm. induction Hts as [|t ts Ht Hts IH]; intros fsm Hi Hf Hm; [done|].
  cbn [fail_attempts]. destruct (fail_step fsm t Hi Ht Hf) as (f & -> & H1 & H2 & H3 & H4 & H5 & H6). cbn [mbind option_bind].
  rewrite Hm in H6. cbn in H6. destruct ts as [|t' ts]; [by exists f|]. apply IH; [done|done|done|].
  rewrite H5. unfold reconnect_may_retry. cbn [snd]. by rewrite Hm.
Qed.

Lemma fail_run (ts : list Z) (fsm : reconnect) (j k : nat) :
  reconnect_inv fsm -> backoff_free_tries fsm <= 1 -> Forall clock_ok ts -> length ts = S k ->
  next_backoff (min_backoff fsm) (max_backoff fsm) (backoff fsm) = backoff_after (min_backoff fsm) (max_backoff fsm) j ->
  exists fsm', fail_attempts fsm ts = Some fsm' /\
    if tries_left fsm (S k)
    then state fsm' = S_BACKOFF /\ backoff fsm' = backoff_after (min_backoff fsm) (max_backoff fsm) (j + k)
    else state fsm' = S_VOID.
Proof.
  intros Hi Hf Hts. revert fsm j k Hi Hf. induction Hts as [|t ts Ht Hts IH]; intros fsm j k Hi Hf Hl Hj; [done|].
  pose proof (ri_wf fsm Hi) as Hw. pose proof (rw_max_tries fsm Hw) as Hr. pose proof (rw_min_backoff fsm Hw).
  pose proof (rw_max_backoff fsm Hw). destruct (Z.ltb_spec 0 (max_tries fsm)) as [Hpos|Hz].
  2: { assert (max_tries fsm = 0) as Hm by (unfold_consts; lia).
       replace (tries_left fsm (S k)) with false; [by apply fail_void; [| | | |constructor]|].
       unfold tries_left. rewrite Hm. cbn [orb]. by destruct (Z.leb_spec (Z.of_nat (S k)) 0); [lia|]. }
  cbn [fail_attempts]. destruct (fail_step fsm t Hi Ht Hf) as (f & -> & H1 & H2 & H3 & H4 & H5 & H6). cbn [mbind option_bind].
  pose proof (may_retry_tries fsm k Hw Hpos) as Htl.
  destruct (Z.ltb_spec 0 (max_tries fsm)) as [_|]; [|lia]. destruct H6 as [G6 G7]. rewrite Hj in G7.
  assert (tries_left f k = tries_left fsm (S k)) as Htl' by (rewrite <- Htl; unfold tries_left; by rewrite H5).
  destruct ts as [|t' ts].
  - injection Hl as <-. cbn [fail_attempts]. exists f. split; [done|].
    replace (tries_left fsm 1) with true; [by rewrite Nat.add_0_r|]. symmetry. rewrite <- Htl'. unfold tries_left.
    pose proof (rw_max_tries f (ri_wf f H1)) as Hr'. destruct (Z.leb_spec (Z.of_nat 0) (max_tries f)); [by rewrite orb_true_r|].
    unfold_consts. lia.
  - destruct k as [|k]; [done|]. destruct (IH f (S j) k) as (g & Eg & Hg); [done|done|cbn in *; lia|..].
    + rewrite H3, H4, G7. apply next_backoff_after. lia.
    + exists g. split; [done|]. rewrite Htl', H3, H4 in Hg. by replace (j + S k)%nat with (S j + k)%nat by lia.
Qed.

(** exponential backoff: when attempts fail one after the other, the backoff after
    the first is the smallest one, it doubles with each further failure until it
    would reach the largest one, and stays there; when the number of tries is
    limited and used up, the machine disables itself. *)
Theorem connect_failures_backoff (fsm : reconnect) (ts : list Z) (k : nat) :
  reconnect_inv fsm -> backoff_free_tries fsm <= 1 -> backoff fsm < min_backoff fsm ->
  Forall clock_ok ts -> length ts = S k ->
  exists fsm', fail_attempts fsm ts = Some fsm' /\
    if tries_left fsm (S k)
    then state fsm' = S_BACKOFF /\ backoff fsm' = backoff_after (min_backoff fsm) (max_backoff fsm) k
    else state fsm' = S_VOID.
Proof.
  intros Hi Hf Hb Hts Hl. apply (fail_run ts fsm 0 k); try done.
  unfold next_backoff. by destruct (Z.ltb_spec (backoff fsm) (min_backoff fsm)); [|lia].
Qed.

Lemma connect_failures_backoff_witness :
  exists fsm', fail_attempts (reconnect_create 0) [10; 20; 30] = Some fsm' /\ state fsm' = S_BACKOFF /\ backoff fsm' = 4000.
Proof.
  apply (connect_failures_backoff (reconnect_create 0) [10; 20; 30] 2); [apply create_inv; unfold_consts; lia|apply Z.leb_le; reflexivity
    |apply Z.ltb_lt; reflexivity|repeat constructor; unfold_consts; lia|reflexivity].
Defined.

(** with 0 for the largest backoff, which stands for the default of 8 seconds,
    [reconnect_set_backoff] clears the backoff of a machine that is backing off:
    it is compared with the argument and not with the limit that was set. *)
Theorem set_backoff_default_clears :
  (fun fsm => (state fsm, backoff fsm, max_backoff (reconnect_set_backoff fsm 1000 0), backoff (reconnect_set_backoff fsm 1000 0)))
    <$> history (reconnect_create 0) [(0, Enable); (0, Connecting); (100, Connect_failed 0)] =
  Some (S_BACKOFF, 1000, 8000, 0).
Proof. by vm_compute. Qed.
