(* ===== verification/Conntrack.v ===== *)
(** * Connection tracking: protocols

    The per-protocol half of the userspace connection tracker: timeout policies
    (lib/conntrack-tp.c), TCP (lib/conntrack-tcp.c), UDP and the other protocols
    (lib/conntrack-other.c) and ICMP (lib/conntrack-icmp.c), behind the
    interface [struct ct_l4_proto] of lib/conntrack-private.h.

    A read outside of the packet gives [None].  The concurrent map of timeout
    policies is the list of its entries. *)

From S2P Require Import Prelude Util Hash MetaFlow Packet.
From stdpp Require Import prelude list.
From coqutil Require Import Datatypes.RecordSetters.
From Stdlib Require Import ZArith Lia.
Import DoubleBraceUpdate.
Open Scope Z_scope.
Open Scope ovs_scope.

(** ** Sequence numbers *)

Definition SEQ_GT (a b : Z) : bool := 0 <? to_int (a - b).
Definition SEQ_GEQ (a b : Z) : bool := 0 <=? to_int (a - b).

(** ** Timeouts *)

Inductive ct_timeout :=
| CT_TM_TCP_FIRST_PACKET | CT_TM_TCP_OPENING | CT_TM_TCP_ESTABLISHED | CT_TM_TCP_CLOSING | CT_TM_TCP_FIN_WAIT
| CT_TM_TCP_CLOSED | CT_TM_OTHER_FIRST | CT_TM_OTHER_MULTIPLE | CT_TM_OTHER_BIDIR | CT_TM_ICMP_FIRST | CT_TM_ICMP_REPLY.

(** The attributes of a timeout policy, in the order of [enum ct_dpif_tp_attr]. *)
Definition CT_DPIF_TP_ATTR_TCP_SYN_SENT : nat := 0.
Definition CT_DPIF_TP_ATTR_TCP_SYN_RECV : nat := 1.
Definition CT_DPIF_TP_ATTR_TCP_ESTABLISHED : nat := 2.
Definition CT_DPIF_TP_ATTR_TCP_FIN_WAIT : nat := 3.
Definition CT_DPIF_TP_ATTR_TCP_TIME_WAIT : nat := 6.
Definition CT_DPIF_TP_ATTR_TCP_CLOSE : nat := 7.
Definition CT_DPIF_TP_ATTR_UDP_FIRST : nat := 11.
Definition CT_DPIF_TP_ATTR_UDP_SINGLE : nat := 12.
Definition CT_DPIF_TP_ATTR_UDP_MULTIPLE : nat := 13.
Definition CT_DPIF_TP_ATTR_ICMP_FIRST : nat := 14.
Definition CT_DPIF_TP_ATTR_ICMP_REPLY : nat := 15.
Definition CT_DPIF_TP_ATTR_MAX : nat := 16.

Record ct_dpif_timeout_policy := TimeoutPolicy {
  tp_policy_id : Z;
  tp_present : Z;
  tp_attrs : list Z
}.

(** In seconds. *)
Definition ct_dpif_netdev_tp_def : list Z :=
  [30; 30; 24 * 60 * 60; 15 * 60; 0; 0; 45; 30; 0; 0; 0; 60; 60; 30; 60; 30].

Definition DEFAULT_TP_ID : Z := 0.

(** The parts of [struct conntrack] that the protocols use. *)
Record conntrack := Conntrack {
  timeout_policies : list ct_dpif_timeout_policy;
  tcp_seq_chk : bool
}.

Definition timeout_policy_lookup (ct : conntrack) (tp_id : Z) : option ct_dpif_timeout_policy :=
  List.find (fun tp => tp_policy_id tp =? u32 tp_id) (timeout_policies ct).

(** The value and the bit of each attribute that is present. *)
Definition update_existing_tp (dst src : ct_dpif_timeout_policy) : ct_dpif_timeout_policy :=
  foldl (fun dst i =>
    if Z.testbit (tp_present src) (Z.of_nat i) then
      dst {{ tp_attrs := <[i := nth i (tp_attrs src) 0]> (tp_attrs dst);
             tp_present := Z.lor (tp_present dst) (Z.shiftl 1 (Z.of_nat i)) }}
    else dst) dst (seq 0 CT_DPIF_TP_ATTR_MAX).

Definition init_default_tp (tp_id : Z) : ct_dpif_timeout_policy := TimeoutPolicy tp_id 0 ct_dpif_netdev_tp_def.

Definition timeout_policy_create (ct : conntrack) (new_tp : ct_dpif_timeout_policy) : conntrack :=
  let tp := update_existing_tp (init_default_tp (tp_policy_id new_tp)) new_tp in
  ct {{ timeout_policies := tp :: timeout_policies ct }}.

(** [timeout_policy_clean]: the entry that the lookup finds. *)
Fixpoint remove_policy (l : list ct_dpif_timeout_policy) (tp_id : Z) : list ct_dpif_timeout_policy :=
  match l with
  | [] => []
  | tp :: l => if tp_policy_id tp =? u32 tp_id then l else tp :: remove_policy l tp_id
  end.

Definition ENOENT : Z := 2.

Definition timeout_policy_delete__ (ct : conntrack) (tp_id : Z) (warn_on_error : bool) : Z * conntrack :=
  match timeout_policy_lookup ct tp_id with
  | Some _ => (0, ct {{ timeout_policies := remove_policy (timeout_policies ct) tp_id }})
  | None => (if warn_on_error then ENOENT else 0, ct)
  end.

Definition timeout_policy_delete (ct : conntrack) (tp_id : Z) : Z * conntrack := timeout_policy_delete__ ct tp_id true.

Definition timeout_policy_init (ct : conntrack) : conntrack :=
  timeout_policy_create (ct {{ timeout_policies := [] }})
    (TimeoutPolicy DEFAULT_TP_ID 0 (replicate CT_DPIF_TP_ATTR_MAX 0)).

Definition timeout_policy_update (ct : conntrack) (new_tp : ct_dpif_timeout_policy) : conntrack :=
  timeout_policy_create (timeout_policy_delete__ ct (tp_policy_id new_tp) false).2 new_tp.

Definition tm_to_ct_dpif_tp (tm : ct_timeout) : nat :=
  match tm with
  | CT_TM_TCP_FIRST_PACKET => CT_DPIF_TP_ATTR_TCP_SYN_SENT
  | CT_TM_TCP_OPENING => CT_DPIF_TP_ATTR_TCP_SYN_RECV
  | CT_TM_TCP_ESTABLISHED => CT_DPIF_TP_ATTR_TCP_ESTABLISHED
  | CT_TM_TCP_CLOSING => CT_DPIF_TP_ATTR_TCP_FIN_WAIT
  | CT_TM_TCP_FIN_WAIT => CT_DPIF_TP_ATTR_TCP_TIME_WAIT
  | CT_TM_TCP_CLOSED => CT_DPIF_TP_ATTR_TCP_CLOSE
  | CT_TM_OTHER_FIRST => CT_DPIF_TP_ATTR_UDP_FIRST
  | CT_TM_OTHER_BIDIR => CT_DPIF_TP_ATTR_UDP_MULTIPLE
  | CT_TM_OTHER_MULTIPLE => CT_DPIF_TP_ATTR_UDP_SINGLE
  | CT_TM_ICMP_FIRST => CT_DPIF_TP_ATTR_ICMP_FIRST
  | CT_TM_ICMP_REPLY => CT_DPIF_TP_ATTR_ICMP_REPLY
  end.

(** The parts of [struct conn] that the protocols use. *)
Record conn := Conn {
  expiration : Z;
  tp_id : Z
}.

Definition conn_timeout (ct : conntrack) (c : conn) (tm : ct_timeout) : Z :=
  let attrs :=
    match timeout_policy_lookup ct (tp_id c) with
    | Some tp => tp_attrs tp
    | None => ct_dpif_netdev_tp_def
    end in
  nth (tm_to_ct_dpif_tp tm) attrs 0.

(** The product [val * 1000] is one of 32-bit unsigned integers. *)
Definition conn_update_expiration (ct : conntrack) (c : conn) (tm : ct_timeout) (now : Z) : conn :=
  c {{ expiration := now + u32 (conn_timeout ct c tm * 1000) }}.

Definition conn_init_expiration (ct : conntrack) (c : conn) (tm : ct_timeout) (now : Z) : conn :=
  c {{ expiration := now + u32 (conn_timeout ct c tm * 1000) }}.

(** ** The interface of a protocol *)

Inductive ct_update_res := CT_UPDATE_INVALID | CT_UPDATE_VALID | CT_UPDATE_NEW | CT_UPDATE_VALID_NEW.

(** [struct ct_l4_proto], for connections of type [C]. *)
Record ct_l4_proto (C : Type) := CtL4Proto {
  new_conn : conntrack -> dp_packet -> Z -> Z -> option C;
  valid_new : dp_packet -> option bool;
  conn_update : conntrack -> C -> dp_packet -> bool -> Z -> option (ct_update_res * C)
}.
Arguments new_conn {C}.
Arguments valid_new {C}.
Arguments conn_update {C}.

(** ** TCP *)

Inductive ct_dpif_tcp_state :=
| CT_DPIF_TCPS_CLOSED | CT_DPIF_TCPS_LISTEN | CT_DPIF_TCPS_SYN_SENT | CT_DPIF_TCPS_SYN_RECV | CT_DPIF_TCPS_ESTABLISHED
| CT_DPIF_TCPS_CLOSE_WAIT | CT_DPIF_TCPS_FIN_WAIT_1 | CT_DPIF_TCPS_CLOSING | CT_DPIF_TCPS_LAST_ACK | CT_DPIF_TCPS_FIN_WAIT_2
| CT_DPIF_TCPS_TIME_WAIT.

#[export] Instance tcp_state_eq_dec : EqDecision ct_dpif_tcp_state.
Proof. solve_decision. Defined.

Definition tcp_state_value (s : ct_dpif_tcp_state) : Z :=
  match s with
  | CT_DPIF_TCPS_CLOSED => 0
  | CT_DPIF_TCPS_LISTEN => 1
  | CT_DPIF_TCPS_SYN_SENT => 2
  | CT_DPIF_TCPS_SYN_RECV => 3
  | CT_DPIF_TCPS_ESTABLISHED => 4
  | CT_DPIF_TCPS_CLOSE_WAIT => 5
  | CT_DPIF_TCPS_FIN_WAIT_1 => 6
  | CT_DPIF_TCPS_CLOSING => 7
  | CT_DPIF_TCPS_LAST_ACK => 8
  | CT_DPIF_TCPS_FIN_WAIT_2 => 9
  | CT_DPIF_TCPS_TIME_WAIT => 10
  end.

Definition state_lt (a b : ct_dpif_tcp_state) : bool := tcp_state_value a <? tcp_state_value b.
Definition state_ge (a b : ct_dpif_tcp_state) : bool := tcp_state_value b <=? tcp_state_value a.

Record tcp_peer := TcpPeer {
  seqlo : Z;
  seqhi : Z;
  max_win : Z;
  wscale : Z;
  pstate : ct_dpif_tcp_state
}.

Record conn_tcp := ConnTcp {
  up : conn;
  peer0 : tcp_peer;
  peer1 : tcp_peer
}.

(** The peer that sent the packet and the peer that should receive it. *)
Definition conn_src (c : conn_tcp) (reply : bool) : tcp_peer := if reply then peer1 c else peer0 c.
Definition conn_dst (c : conn_tcp) (reply : bool) : tcp_peer := if reply then peer0 c else peer1 c.

Definition set_peers (c : conn_tcp) (reply : bool) (src dst : tcp_peer) : conn_tcp :=
  if reply then ConnTcp (up c) dst src else ConnTcp (up c) src dst.

Definition TCP_FIN : Z := 0x001.
Definition TCP_SYN : Z := 0x002.
Definition TCP_RST : Z := 0x004.
Definition TCP_PSH : Z := 0x008.
Definition TCP_ACK : Z := 0x010.
Definition TCP_URG : Z := 0x020.

(** [flags & mask] as a condition. *)
Definition has (flags mask : Z) : bool := negb (Z.land flags mask =? 0).

Definition tcp_invalid_flags (flags : Z) : bool :=
  (if has flags TCP_SYN then has flags TCP_RST || has flags TCP_FIN
   else negb (has flags (Z.lor TCP_ACK TCP_RST)))
  || negb (has flags TCP_ACK) && (has flags TCP_FIN || has flags TCP_PSH || has flags TCP_URG).

Definition TCP_MAX_WSCALE : Z := 14.
Definition CT_WSCALE_FLAG : Z := 0x80.
Definition CT_WSCALE_UNKNOWN : Z := 0x40.
Definition CT_WSCALE_MASK : Z := 0xf.

(** [dp_packet_l4] *)
Definition dp_packet_l4 (b : dp_packet) : option nat :=
  if dp_l4_ofs b =? UINT16_MAX then None else Some (Z.to_nat (dp_l4_ofs b)).

Definition dp_packet_l4_size (b : dp_packet) : Z :=
  match dp_packet_l4 b with
  | Some o => u64 (Z.of_nat (length (dp_data b)) - Z.of_nat o - dp_l2_pad_size b)
  | None => 0
  end.

(** The length of the header when the payload can be told. *)
Definition dp_packet_get_tcp_payload (b : dp_packet) : option (option Z) :=
  let l4_size := dp_packet_l4_size b in
  if Z.of_nat TCP_HEADER_LEN <=? l4_size then
    tcp ← dp_packet_l4 b;
    tcp_ctl ← rd (dp_data b) (tcp + 12) 2;
    let tcp_len := Z.shiftr tcp_ctl 12 * 4 in
    Some (if (Z.of_nat TCP_HEADER_LEN <=? tcp_len) && (tcp_len <=? l4_size) then Some tcp_len else None)
  else Some None.

Definition dp_packet_get_tcp_payload_length (b : dp_packet) : option Z :=
  payload ← dp_packet_get_tcp_payload b;
  Some (match payload with Some tcp_len => u32 (dp_packet_l4_size b - tcp_len) | None => 0 end).

(** The loop over the options from [opt] on, of which [len] bytes are left. *)
Fixpoint tcp_get_wscale_loop (fuel : nat) (p : list Z) (opt : nat) (len wscale_ : Z) : option Z :=
  match fuel with
  | O => None
  | S fuel =>
    if 3 <=? len then
      kind ← rd p opt 1;
      if kind =? 0 then Some wscale_
      else if kind =? 1 then tcp_get_wscale_loop fuel p (opt + 1) (len - 1) wscale_
      else
        wscale_ ← (if kind =? 3 then x ← rd p (opt + 2) 1; Some (Z.lor (MIN x TCP_MAX_WSCALE) CT_WSCALE_FLAG) else Some wscale_);
        optlen ← rd p (opt + 1) 1;
        let optlen := if optlen <? 2 then 2 else optlen in
        tcp_get_wscale_loop fuel p (opt + Z.to_nat optlen) (len - optlen) wscale_
    else Some wscale_
  end.

(** Each option has at least one of the at most 40 bytes. *)
Definition tcp_get_wscale (p : list Z) (tcp : nat) : option Z :=
  tcp_ctl ← rd p (tcp + 12) 2;
  tcp_get_wscale_loop 42 p (tcp + 20) (Z.shiftr tcp_ctl 12 * 4 - 20) 0.

Definition MAXACKWINDOW : Z := 0xffff + 1500.

Definition div_round_up (x y : Z) : Z := (x + (y - 1)) / y.

(** The local variables of [tcp_conn_update], once the packet is read. *)
Record tcp_vars := TcpVars {
  v_sws : Z;
  v_dws : Z;
  v_win : Z;
  v_ack : Z;
  v_end : Z;
  v_check_ackskew : bool
}.

Definition tcp_scales (src dst : tcp_peer) (tcp_flags : Z) : Z * Z :=
  if has (wscale src) CT_WSCALE_FLAG && has (wscale dst) CT_WSCALE_FLAG && negb (has tcp_flags TCP_SYN)
  then (Z.land (wscale src) CT_WSCALE_MASK, Z.land (wscale dst) CT_WSCALE_MASK)
  else if has (wscale src) CT_WSCALE_UNKNOWN && has (wscale dst) CT_WSCALE_UNKNOWN && negb (has tcp_flags TCP_SYN)
  then (TCP_MAX_WSCALE, TCP_MAX_WSCALE)
  else (0, 0).

(** The window scale of a SYN that is the first packet of a peer: the source,
    the destination, and the two scales and the window to use. *)
Definition tcp_first_wscale (p : list Z) (tcp : nat) (src dst : tcp_peer) (sws dws win : Z)
    : option (tcp_peer * tcp_peer * Z * Z * Z) :=
  if has (wscale dst) CT_WSCALE_FLAG then
    ws ← tcp_get_wscale p tcp;
    let src := src {{ wscale := ws }} in
    if has ws CT_WSCALE_FLAG then
      let sws := Z.land ws CT_WSCALE_MASK in
      Some (src, dst, sws, Z.land (wscale dst) CT_WSCALE_MASK, u16 (div_round_up win (Z.shiftl 1 sws)))
    else
      Some (src, dst {{ max_win := u16 (Z.shiftl (max_win dst) (Z.land (wscale dst) CT_WSCALE_MASK)); wscale := 0 }},
            sws, dws, win)
  else Some (src, dst, sws, dws, win).

(** The first packet of a peer. *)
Definition tcp_first_packet (p : list Z) (tcp : nat) (src dst : tcp_peer) (tcp_flags sws dws win seq p_len : Z)
    : option (tcp_peer * tcp_peer * tcp_vars) :=
  ack ← rd p (tcp + 8) 4;
  let end_ := u32 (seq + p_len) in
  '(src, dst, sws, dws, win, end_) ←
    (if has tcp_flags TCP_SYN then
       '(src, dst, sws, dws, win) ← tcp_first_wscale p tcp src dst sws dws win;
       Some (src, dst, sws, dws, win, u32 (end_ + 1))
     else Some (src, dst, sws, dws, win, end_));
  let end_ := if has tcp_flags TCP_FIN then u32 (end_ + 1) else end_ in
  let src := src {{ seqlo := seq; pstate := CT_DPIF_TCPS_SYN_SENT }} in
  let hi := u32 (end_ + MAX 1 (Z.shiftl (max_win dst) dws)) in
  let slide := (seqhi src =? 1) || SEQ_GEQ hi (seqhi src) in
  let src := if slide then src {{ seqhi := hi }} else src in
  let src := if max_win src <? win then src {{ max_win := win }} else src in
  Some (src, dst, TcpVars sws dws win ack end_ (negb slide)).

(** The sequence numbers of any other packet. *)
Definition tcp_next_packet (p : list Z) (tcp : nat) (tcp_flags sws dws win seq p_len : Z) : option tcp_vars :=
  ack ← rd p (tcp + 8) 4;
  let end_ := u32 (seq + p_len) in
  let end_ := if has tcp_flags TCP_SYN then u32 (end_ + 1) else end_ in
  let end_ := if has tcp_flags TCP_FIN then u32 (end_ + 1) else end_ in
  Some (TcpVars sws dws win ack end_ true).

(** The packet is in the window. *)
Definition tcp_in_window (src dst : tcp_peer) (v : tcp_vars) (tcp_flags seq end_ orig_seq ackskew : Z) : bool :=
  SEQ_GEQ (seqhi src) end_
  && SEQ_GEQ seq (u32 (seqlo src - Z.shiftl (max_win dst) (v_dws v)))
  && (- MAXACKWINDOW <=? ackskew)
  && (ackskew <=? Z.shiftl MAXACKWINDOW (v_sws v))
  && (negb (has tcp_flags TCP_RST) || (orig_seq =? seqlo src) || (orig_seq =? u32 (seqlo src + 1))
      || (u32 (orig_seq + 1) =? seqlo src)).

(** The packet is close to the window of a connection that starts or ends. *)
Definition tcp_near_window (src dst : tcp_peer) (seq end_ : Z) : bool :=
  (state_lt (pstate dst) CT_DPIF_TCPS_SYN_SENT || state_ge (pstate dst) CT_DPIF_TCPS_FIN_WAIT_2
   || state_ge (pstate src) CT_DPIF_TCPS_FIN_WAIT_2)
  && SEQ_GEQ (u32 (seqhi src + MAXACKWINDOW)) end_
  && SEQ_GEQ seq (u32 (seqlo src - MAXACKWINDOW)).

(** Window, sequence number, and what the other end can send. *)
Definition tcp_synchronize (src dst : tcp_peer) (v : tcp_vars) (ack end_ : Z) : tcp_peer * tcp_peer :=
  let src := if max_win src <? v_win v then src {{ max_win := v_win v }} else src in
  let src := if SEQ_GT end_ (seqlo src) then src {{ seqlo := end_ }} else src in
  let scaled := Z.shiftl (v_win v) (v_sws v) in
  let dst := if SEQ_GEQ (u32 (ack + scaled)) (seqhi dst) then dst {{ seqhi := u32 (ack + MAX scaled 1) }} else dst in
  (src, dst).

Definition tcp_closing (src : tcp_peer) (tcp_flags : Z) : tcp_peer :=
  if has tcp_flags TCP_FIN && state_lt (pstate src) CT_DPIF_TCPS_CLOSING then src {{ pstate := CT_DPIF_TCPS_CLOSING }} else src.

Definition tcp_reset (src dst : tcp_peer) (tcp_flags : Z) : tcp_peer * tcp_peer :=
  if has tcp_flags TCP_RST
  then (src {{ pstate := CT_DPIF_TCPS_TIME_WAIT }}, dst {{ pstate := CT_DPIF_TCPS_TIME_WAIT }}) else (src, dst).

Definition tcp_update_states (src dst : tcp_peer) (tcp_flags : Z) : tcp_peer * tcp_peer :=
  let src := if has tcp_flags TCP_SYN && state_lt (pstate src) CT_DPIF_TCPS_SYN_SENT
             then src {{ pstate := CT_DPIF_TCPS_SYN_SENT }} else src in
  let src := tcp_closing src tcp_flags in
  let dst :=
    if has tcp_flags TCP_ACK then
      if bool_decide (pstate dst = CT_DPIF_TCPS_SYN_SENT) then dst {{ pstate := CT_DPIF_TCPS_ESTABLISHED }}
      else if bool_decide (pstate dst = CT_DPIF_TCPS_CLOSING) then dst {{ pstate := CT_DPIF_TCPS_FIN_WAIT_2 }}
      else dst
    else dst in
  tcp_reset src dst tcp_flags.

(** The timeout for the states of the two peers. *)
Definition tcp_timeout (src dst : tcp_peer) : ct_timeout :=
  let both s := state_ge (pstate src) s && state_ge (pstate dst) s in
  if both CT_DPIF_TCPS_FIN_WAIT_2 then CT_TM_TCP_CLOSED
  else if both CT_DPIF_TCPS_CLOSING then CT_TM_TCP_FIN_WAIT
  else if state_lt (pstate src) CT_DPIF_TCPS_ESTABLISHED || state_lt (pstate dst) CT_DPIF_TCPS_ESTABLISHED
  then CT_TM_TCP_OPENING
  else if state_ge (pstate src) CT_DPIF_TCPS_CLOSING || state_ge (pstate dst) CT_DPIF_TCPS_CLOSING then CT_TM_TCP_CLOSING
  else CT_TM_TCP_ESTABLISHED.

(** The check of the sequence numbers and what follows from it. *)
Definition tcp_track (ct : conntrack) (c : conn_tcp) (reply : bool) (src dst : tcp_peer) (v : tcp_vars)
    (tcp_flags seq now : Z) : ct_update_res * conn_tcp :=
  let orig_seq := seq in
  let ack :=
    if negb (has tcp_flags TCP_ACK) then seqlo dst
    else if (v_ack v =? 0) && (Z.land tcp_flags (Z.lor TCP_ACK TCP_RST) =? Z.lor TCP_ACK TCP_RST) then seqlo dst
    else v_ack v in
  let '(seq, end_) := if seq =? v_end v then (seqlo src, seqlo src) else (seq, v_end v) in
  let ackskew := if v_check_ackskew v then to_int (seqlo dst - ack) else 0 in
  if tcp_in_window src dst v tcp_flags seq end_ orig_seq ackskew || negb (tcp_seq_chk ct) then
    let '(src, dst) := tcp_synchronize src dst v ack end_ in
    let '(src, dst) := tcp_update_states src dst tcp_flags in
    let c := set_peers c reply src dst in
    (CT_UPDATE_VALID, c {{ up := conn_update_expiration ct (up c) (tcp_timeout src dst) now }})
  else if tcp_near_window src dst seq end_ then
    let '(src, dst) := tcp_synchronize src dst v ack end_ in
    let '(src, dst) := tcp_reset (tcp_closing src tcp_flags) dst tcp_flags in
    (CT_UPDATE_VALID, set_peers c reply src dst)
  else (CT_UPDATE_INVALID, set_peers c reply src dst).

Definition tcp_conn_update (ct : conntrack) (c : conn_tcp) (pkt : dp_packet) (reply : bool) (now : Z)
    : option (ct_update_res * conn_tcp) :=
  let p := dp_data pkt in
  tcp ← dp_packet_l4 pkt;
  let src := conn_src c reply in
  let dst := conn_dst c reply in
  tcp_ctl ← rd p (tcp + 12) 2;
  let tcp_flags := Z.land tcp_ctl 0x0fff in
  win ← rd p (tcp + 14) 2;
  p_len ← dp_packet_get_tcp_payload_length pkt;
  if tcp_invalid_flags tcp_flags then Some (CT_UPDATE_INVALID, c)
  else
    let syn := Z.land tcp_flags (Z.lor TCP_SYN TCP_ACK) =? TCP_SYN in
    if syn && (state_ge (pstate dst) CT_DPIF_TCPS_FIN_WAIT_2 && state_ge (pstate src) CT_DPIF_TCPS_FIN_WAIT_2) then
      Some (CT_UPDATE_NEW, set_peers c reply (src {{ pstate := CT_DPIF_TCPS_CLOSED }}) (dst {{ pstate := CT_DPIF_TCPS_CLOSED }}))
    else if syn && state_ge CT_DPIF_TCPS_SYN_SENT (pstate src) then
      let c := set_peers c reply (src {{ pstate := CT_DPIF_TCPS_SYN_SENT }}) dst in
      Some (CT_UPDATE_VALID_NEW, c {{ up := conn_update_expiration ct (up c) CT_TM_TCP_FIRST_PACKET now }})
    else
      let '(sws, dws) := tcp_scales src dst tcp_flags in
      seq ← rd p (tcp + 4) 4;
      '(src, dst, v) ←
        (if state_lt (pstate src) CT_DPIF_TCPS_SYN_SENT then tcp_first_packet p tcp src dst tcp_flags sws dws win seq p_len
         else v ← tcp_next_packet p tcp tcp_flags sws dws win seq p_len; Some (src, dst, v));
      Some (tcp_track ct c reply src dst v tcp_flags seq now).

Definition tcp_valid_new (pkt : dp_packet) : option bool :=
  tcp ← dp_packet_l4 pkt;
  tcp_ctl ← rd (dp_data pkt) (tcp + 12) 2;
  let tcp_flags := Z.land tcp_ctl 0x0fff in
  Some (if tcp_invalid_flags tcp_flags then false else negb (has tcp_flags TCP_SYN && has tcp_flags TCP_ACK)).

Definition tcp_new_conn (ct : conntrack) (pkt : dp_packet) (now tp_id_ : Z) : option conn_tcp :=
  let p := dp_data pkt in
  tcp ← dp_packet_l4 pkt;
  tcp_ctl ← rd p (tcp + 12) 2;
  let tcp_flags := Z.land tcp_ctl 0x0fff in
  seq ← rd p (tcp + 4) 4;
  p_len ← dp_packet_get_tcp_payload_length pkt;
  win ← rd p (tcp + 14) 2;
  let hi := u32 (seq + p_len + 1) in
  '(hi, src_ws, dst_ws) ←
    (if has tcp_flags TCP_SYN then ws ← tcp_get_wscale p tcp; Some (u32 (hi + 1), ws, 0)
     else Some (hi, CT_WSCALE_UNKNOWN, CT_WSCALE_UNKNOWN));
  let max_win_ := MAX win 1 in
  let sws := Z.land src_ws CT_WSCALE_MASK in
  let max_win_ := if sws =? 0 then max_win_ else u16 (div_round_up max_win_ (Z.shiftl 1 sws)) in
  let hi := if has tcp_flags TCP_FIN then u32 (hi + 1) else hi in
  Some (ConnTcp (conn_init_expiration ct (Conn 0 tp_id_) CT_TM_TCP_FIRST_PACKET now)
          (TcpPeer seq hi max_win_ src_ws CT_DPIF_TCPS_SYN_SENT)
          (TcpPeer 0 1 1 dst_ws CT_DPIF_TCPS_CLOSED)).

Definition CT_DPIF_TCPF_WINDOW_SCALE : Z := Z.shiftl 1 0.
Definition CT_DPIF_TCPF_BE_LIBERAL : Z := Z.shiftl 1 3.

Definition tcp_peer_to_protoinfo_flags (peer : tcp_peer) : Z :=
  Z.lor (if has (wscale peer) CT_WSCALE_FLAG then CT_DPIF_TCPF_WINDOW_SCALE else 0)
    (if has (wscale peer) CT_WSCALE_UNKNOWN then CT_DPIF_TCPF_BE_LIBERAL else 0).

(** The fields of [struct ct_dpif_protoinfo] for TCP. *)
Record ct_dpif_protoinfo := Protoinfo {
  pi_proto : Z;
  pi_state_orig : Z;
  pi_state_reply : Z;
  pi_wscale_orig : Z;
  pi_wscale_reply : Z;
  pi_flags_orig : Z;
  pi_flags_reply : Z
}.

Definition tcp_conn_get_protoinfo (c : conn_tcp) : ct_dpif_protoinfo :=
  Protoinfo IPPROTO_TCP (tcp_state_value (pstate (peer0 c))) (tcp_state_value (pstate (peer1 c)))
    (Z.land (wscale (peer0 c)) CT_WSCALE_MASK) (Z.land (wscale (peer1 c)) CT_WSCALE_MASK)
    (tcp_peer_to_protoinfo_flags (peer0 c)) (tcp_peer_to_protoinfo_flags (peer1 c)).

Definition ct_proto_tcp : ct_l4_proto conn_tcp := CtL4Proto _ tcp_new_conn tcp_valid_new tcp_conn_update.

(** ** UDP and other protocols *)

Inductive other_state := OTHERS_FIRST | OTHERS_MULTIPLE | OTHERS_BIDIR.

Record conn_other := ConnOther { other_up : conn; other_st : other_state }.

Definition other_timeouts (s : other_state) : ct_timeout :=
  match s with
  | OTHERS_FIRST => CT_TM_OTHER_FIRST
  | OTHERS_MULTIPLE => CT_TM_OTHER_MULTIPLE
  | OTHERS_BIDIR => CT_TM_OTHER_BIDIR
  end.

Definition other_conn_update (ct : conntrack) (c : conn_other) (pkt : dp_packet) (reply : bool) (now : Z)
    : option (ct_update_res * conn_other) :=
  let s :=
    match reply, other_st c with
    | true, OTHERS_FIRST | true, OTHERS_MULTIPLE => OTHERS_BIDIR
    | _, OTHERS_FIRST => OTHERS_MULTIPLE
    | _, s => s
    end in
  Some (match s with OTHERS_BIDIR => CT_UPDATE_VALID | _ => CT_UPDATE_VALID_NEW end,
        ConnOther (conn_update_expiration ct (other_up c) (other_timeouts s) now) s).

Definition other_valid_new (pkt : dp_packet) : option bool := Some true.

Definition other_new_conn (ct : conntrack) (pkt : dp_packet) (now tp_id_ : Z) : option conn_other :=
  Some (ConnOther (conn_init_expiration ct (Conn 0 tp_id_) (other_timeouts OTHERS_FIRST) now) OTHERS_FIRST).

Definition ct_proto_other : ct_l4_proto conn_other := CtL4Proto _ other_new_conn other_valid_new other_conn_update.

(** ** ICMP *)

Inductive icmp_state := ICMPS_FIRST | ICMPS_REPLY.

Record conn_icmp := ConnIcmp { icmp_up : conn; icmp_st : icmp_state }.

Definition icmp_timeouts (s : icmp_state) : ct_timeout :=
  match s with ICMPS_FIRST => CT_TM_ICMP_FIRST | ICMPS_REPLY => CT_TM_ICMP_REPLY end.

Definition icmp_conn_update (ct : conntrack) (c : conn_icmp) (pkt : dp_packet) (reply : bool) (now : Z)
    : option (ct_update_res * conn_icmp) :=
  let '(ret, s) :=
    match reply, icmp_st c with
    | true, ICMPS_FIRST => (CT_UPDATE_VALID, ICMPS_REPLY)
    | false, ICMPS_FIRST => (CT_UPDATE_VALID_NEW, ICMPS_FIRST)
    | _, s => (CT_UPDATE_VALID, s)
    end in
  Some (ret, ConnIcmp (conn_update_expiration ct (icmp_up c) (icmp_timeouts s) now) s).

Definition ICMP4_ECHO_REQUEST : Z := 8.
Definition ICMP4_TIMESTAMP : Z := 13.
Definition ICMP4_INFOREQUEST : Z := 15.
Definition ICMP6_ECHO_REQUEST : Z := 128.

Definition icmp4_valid_new (pkt : dp_packet) : option bool :=
  icmp ← dp_packet_l4 pkt;
  icmp_type ← rd (dp_data pkt) icmp 1;
  Some ((icmp_type =? ICMP4_ECHO_REQUEST) || (icmp_type =? ICMP4_INFOREQUEST) || (icmp_type =? ICMP4_TIMESTAMP)).

Definition icmp6_valid_new (pkt : dp_packet) : option bool :=
  icmp6 ← dp_packet_l4 pkt;
  icmp6_type ← rd (dp_data pkt) icmp6 1;
  Some (icmp6_type =? ICMP6_ECHO_REQUEST).

Definition icmp_new_conn (ct : conntrack) (pkt : dp_packet) (now tp_id_ : Z) : option conn_icmp :=
  Some (ConnIcmp (conn_init_expiration ct (Conn 0 tp_id_) (icmp_timeouts ICMPS_FIRST) now) ICMPS_FIRST).

Definition ct_proto_icmp4 : ct_l4_proto conn_icmp := CtL4Proto _ icmp_new_conn icmp4_valid_new icmp_conn_update.
Definition ct_proto_icmp6 : ct_l4_proto conn_icmp := CtL4Proto _ icmp_new_conn icmp6_valid_new icmp_conn_update.
