(* ===== verification/ConntrackProps.v ===== *)
(** * Connection tracking: lemmas

    Sequence numbers, window scales, the invariant of a TCP connection and the
    packets that can be tracked. *)

From S2P Require Import Prelude Util Hash MetaFlow Packet PacketProps Conntrack.
From stdpp Require Import prelude list.
From coqutil Require Import Datatypes.RecordSetters.
From Stdlib Require Import ZArith Lia.
Import DoubleBraceUpdate.
Open Scope Z_scope.
Open Scope ovs_scope.

(** ** Sequence numbers *)

Ltac mod32 := unfold wrap in *; change (2 ^ 32) with 4294967296 in *; Z.div_mod_to_equations; lia.

Lemma to_int_eq (x k : Z) : u32 x = u32 k -> - 2 ^ 31 <= k < 2 ^ 31 -> to_int x = k.
Proof.
  intros E Hk. unfold to_int. rewrite E. change (2 ^ 31) with 2147483648 in *. unfold wrap.
  change (2 ^ 32) with 4294967296 in *. destruct (Z.ltb_spec (k mod 4294967296) 2147483648); Z.div_mod_to_equations; lia.
Qed.

Lemma to_int_range (x : Z) : - 2 ^ 31 <= to_int x < 2 ^ 31.
Proof.
  unfold to_int. pose proof (wrap_width 32 x) as Hw. unfold in_width in Hw.
  destruct (Z.ltb_spec (u32 x) (2 ^ 31)); lia.
Qed.

Lemma to_int_u32 (x : Z) : u32 (to_int x) = u32 x.
Proof. unfold to_int. case_match; mod32. Qed.

Lemma SEQ_GEQ_add (a b k : Z) : u32 a = u32 (b + k) -> 0 <= k < 2 ^ 31 -> SEQ_GEQ a b = true.
Proof.
  intros E Hk. unfold SEQ_GEQ. rewrite (to_int_eq _ k); [apply Z.leb_le; lia| |lia]. mod32.
Qed.

Lemma SEQ_GEQ_lt (a b k : Z) : u32 b = u32 (a + k) -> 0 < k <= 2 ^ 31 -> SEQ_GEQ a b = false.
Proof.
  intros E Hk. unfold SEQ_GEQ. rewrite (to_int_eq _ (- k)); [apply Z.leb_gt; lia| |lia]. mod32.
Qed.

Lemma SEQ_GT_add (a b k : Z) : u32 a = u32 (b + k) -> 0 < k < 2 ^ 31 -> SEQ_GT a b = true.
Proof.
  intros E Hk. unfold SEQ_GT. rewrite (to_int_eq _ k); [apply Z.ltb_lt; lia| |lia]. mod32.
Qed.

Lemma SEQ_GT_refl (a b : Z) : u32 a = u32 b -> SEQ_GT a b = false.
Proof. intros E. unfold SEQ_GT. rewrite (to_int_eq _ 0); [done| |lia]. mod32. Qed.

(** ** Flags *)

Lemma has_bit (flags n : Z) : 0 <= n -> has flags (2 ^ n) = Z.testbit flags n.
Proof.
  intros Hn. unfold has. destruct (Z.testbit flags n) eqn:E.
  - destruct (Z.eqb_spec (Z.land flags (2 ^ n)) 0) as [H0|]; [|done].
    assert (Z.testbit (Z.land flags (2 ^ n)) n = false) as Hf by (rewrite H0; apply Z.testbit_0_l).
    by rewrite Z.land_spec, E, Z.pow2_bits_true in Hf by done.
  - rewrite (proj2 (Z.eqb_eq _ 0)); [done|]. apply Z.bits_inj'. intros i Hi. rewrite Z.land_spec, Z.testbit_0_l.
    destruct (Z.eq_dec n i) as [<-|]; [by rewrite E|]. by rewrite Z.pow2_bits_false, andb_false_r by done.
Qed.

Lemma has_sub (flags m n : Z) : Z.land m n = m -> has flags m = has (Z.land flags n) m.
Proof. intros E. unfold has. by rewrite <- Z.land_assoc, (Z.land_comm n m), E. Qed.

Lemma land_sub (flags m n : Z) : Z.land m n = m -> Z.land flags m = Z.land (Z.land flags n) m.
Proof. intros E. by rewrite <- Z.land_assoc, (Z.land_comm n m), E. Qed.

(** ** Window scales *)

(** What [tcp_get_wscale] and [tcp_new_conn] store. *)
Definition wscale_ok (w : Z) : Prop := w = 0 \/ w = CT_WSCALE_UNKNOWN \/ exists s, 0 <= s <= TCP_MAX_WSCALE /\ w = Z.lor s CT_WSCALE_FLAG.

Lemma wscale_cases (s : Z) (P : Z -> Prop) :
  0 <= s <= 14 -> Forall P [0; 1; 2; 3; 4; 5; 6; 7; 8; 9; 10; 11; 12; 13; 14] -> P s.
Proof.
  intros Hs HP. rewrite !Forall_cons in HP. destruct_and? HP.
  assert (s = 0 \/ s = 1 \/ s = 2 \/ s = 3 \/ s = 4 \/ s = 5 \/ s = 6 \/ s = 7 \/ s = 8 \/ s = 9 \/ s = 10 \/ s = 11 \/ s = 12
    \/ s = 13 \/ s = 14) as Hc by lia. repeat destruct Hc as [->|Hc]; subst; done.
Qed.

Lemma wscale_low (w : Z) : wscale_ok w -> 0 <= Z.land w CT_WSCALE_MASK <= TCP_MAX_WSCALE.
Proof.
  intros [->|[->|(s & Hs & ->)]]; [by vm_compute..|]. revert s Hs. intros s Hs.
  apply (wscale_cases s (fun s => 0 <= Z.land (Z.lor s CT_WSCALE_FLAG) CT_WSCALE_MASK <= TCP_MAX_WSCALE) Hs).
  repeat constructor; by vm_compute.
Qed.

Lemma scale_bound (x s : Z) : in_width 16 x -> 0 <= s <= TCP_MAX_WSCALE -> 0 <= Z.shiftl x s < 2 ^ 30.
Proof.
  unfold in_width, TCP_MAX_WSCALE. intros Hx Hs. rewrite Z.shiftl_mul_pow2 by lia.
  assert (2 ^ s <= 2 ^ 14) by (apply Z.pow_le_mono_r; lia). change (2 ^ 14) with 16384 in *. change (2 ^ 30) with (65536 * 16384).
  pose proof (Z.pow_pos_nonneg 2 s). split; [nia|]. change (2 ^ 16) with 65536 in *. nia.
Qed.

(** The bytes of a header of [len] bytes are in the packet. *)
Lemma tcp_get_wscale_loop_ok (p : list Z) (fuel opt : nat) (len w : Z) :
  Forall is_byte p -> len <= Z.of_nat (length p) - Z.of_nat opt -> len < Z.of_nat fuel -> (0 < fuel)%nat -> wscale_ok w ->
  exists w', tcp_get_wscale_loop fuel p opt len w = Some w' /\ wscale_ok w'.
Proof.
  intros Hp. revert opt len w. induction fuel as [|fuel IH]; intros opt len w Hlen Hf H0 Hw; [lia|]. cbn [tcp_get_wscale_loop].
  destruct (Z.leb_spec 3 len); [|by exists w]. rewrite (rd_some p opt 1) by lia. cbn [mbind option_bind].
  destruct (_ =? 0); [by exists w|]. destruct (_ =? 1); [apply IH; (done || lia)|].
  assert (exists w', (if get p opt 1 =? 3 then x ← rd p (opt + 2) 1; Some (Z.lor (MIN x TCP_MAX_WSCALE) CT_WSCALE_FLAG)
    else Some w) = Some w' /\ wscale_ok w') as (w' & -> & Hw').
  { destruct (_ =? 3); [|by exists w]. rewrite (rd_some p (opt + 2) 1) by lia. cbn [mbind option_bind]. eexists. split; [done|].
    right. right. eexists. split; [|done]. pose proof (get_nonneg p (opt + 2) 1 Hp). unfold MIN, TCP_MAX_WSCALE. case_match; lia. }
  cbn [mbind option_bind]. rewrite (rd_some p (opt + 1) 1) by lia. cbn [mbind option_bind].
  pose proof (get_nonneg p (opt + 1) 1 Hp). destruct (Z.ltb_spec (get p (opt + 1) 1) 2); apply IH; (done || lia).
Qed.

(** ** Segments *)

(** A TCP segment, without the packet around it. *)
Record segment := Segment {
  sg_flags : Z;
  sg_seq : Z;
  sg_ack : Z;
  sg_win : Z;
  sg_len : Z;
  sg_wscale : Z
}.

Definition tcp_len_at (p : list Z) (tcp : nat) : Z := Z.shiftr (get p (tcp + 12) 2) 12 * 4.

(** A packet with a complete TCP header, as flow extraction leaves it. *)
Record tcp_ready (pkt : dp_packet) (tcp : nat) : Prop := {
  tr_bytes : Forall is_byte (dp_data pkt);
  tr_ofs : dp_l4_ofs pkt = Z.of_nat tcp;
  tr_set : Z.of_nat tcp < UINT16_MAX;
  tr_pad : 0 <= dp_l2_pad_size pkt;
  tr_header : 20 <= tcp_len_at (dp_data pkt) tcp;
  tr_room : Z.of_nat tcp + tcp_len_at (dp_data pkt) tcp + dp_l2_pad_size pkt <= Z.of_nat (length (dp_data pkt));
  tr_size : Z.of_nat (length (dp_data pkt)) < 2 ^ 32
}.

Definition segment_of (pkt : dp_packet) (tcp : nat) : segment :=
  let p := dp_data pkt in
  Segment (Z.land (get p (tcp + 12) 2) 0x0fff) (get p (tcp + 4) 4) (get p (tcp + 8) 4) (get p (tcp + 14) 2)
    (Z.of_nat (length p) - Z.of_nat tcp - dp_l2_pad_size pkt - tcp_len_at p tcp) (default 0 (tcp_get_wscale p tcp)).

(** The packet is one whose segment is [s]. *)
Definition is_segment (pkt : dp_packet) (s : segment) : Prop := exists tcp, tcp_ready pkt tcp /\ segment_of pkt tcp = s.

Record segment_wf (s : segment) : Prop := {
  sw_flags : in_width 12 (sg_flags s);
  sw_seq : in_width 32 (sg_seq s);
  sw_ack : in_width 32 (sg_ack s);
  sw_win : in_width 16 (sg_win s);
  sw_len : in_width 32 (sg_len s);
  sw_wscale : wscale_ok (sg_wscale s)
}.

Section Ready.
Variables (pkt : dp_packet) (tcp : nat).
Hypothesis Hr : tcp_ready pkt tcp.

#[local] Abbreviation p := (dp_data pkt).

Lemma tcp_len_range : 20 <= tcp_len_at p tcp <= 60.
Proof.
  destruct Hr. split; [done|]. unfold tcp_len_at. pose proof (get_width p (tcp + 12) 2 tr_bytes0) as Hw. unfold in_width in Hw.
  rewrite Z.shiftr_div_pow2 by done. change (2 ^ (8 * Z.of_nat 2)) with 65536 in Hw. change (2 ^ 12) with 4096.
  Z.div_mod_to_equations. lia.
Qed.

Lemma ready_room : (tcp + 20 <= length p)%nat.
Proof. pose proof tcp_len_range. destruct Hr.  lia. Qed.

Lemma ready_l4 : dp_packet_l4 pkt = Some tcp.
Proof. destruct Hr. unfold dp_packet_l4. rewrite tr_ofs0. destruct (Z.eqb_spec (Z.of_nat tcp) UINT16_MAX); [lia|]. by rewrite Nat2Z.id. Qed.

Lemma ready_l4_size : dp_packet_l4_size pkt = Z.of_nat (length p) - Z.of_nat tcp - dp_l2_pad_size pkt.
Proof.
  pose proof tcp_len_range. destruct Hr.  unfold dp_packet_l4_size. rewrite ready_l4.  apply wrap_small. unfold in_width.
  change (2 ^ 64) with (2 ^ 32 * 2 ^ 32). lia.
Qed.

Lemma ready_payload : dp_packet_get_tcp_payload_length pkt = Some (sg_len (segment_of pkt tcp)).
Proof.
  pose proof tcp_len_range. pose proof ready_room. destruct Hr.
  unfold dp_packet_get_tcp_payload_length, dp_packet_get_tcp_payload. rewrite ready_l4_size, ready_l4.  unfold TCP_HEADER_LEN.
  destruct (Z.leb_spec (Z.of_nat 20) (Z.of_nat (length p) - Z.of_nat tcp - dp_l2_pad_size pkt)); [|lia].
  cbn [mbind option_bind]. rewrite (rd_some p (tcp + 12) 2) by lia. cbn [mbind option_bind]. fold (tcp_len_at p tcp).
  destruct (Z.leb_spec (Z.of_nat 20) (tcp_len_at p tcp)), (Z.leb_spec (tcp_len_at p tcp) (Z.of_nat (length p) - Z.of_nat tcp - dp_l2_pad_size pkt));
    try lia. cbn [andb]. unfold segment_of. cbn [sg_len].  rewrite wrap_small; [done|]. unfold in_width. lia.
Qed.

Lemma ready_wscale : exists w, tcp_get_wscale p tcp = Some w /\ wscale_ok w.
Proof.
  pose proof tcp_len_range. pose proof ready_room. destruct Hr.  unfold tcp_get_wscale.
  rewrite (rd_some p (tcp + 12) 2) by lia. cbn [mbind option_bind]. fold (tcp_len_at p tcp).
  apply tcp_get_wscale_loop_ok; [done|lia|lia|lia|by left].
Qed.

Lemma ready_segment_wf : segment_wf (segment_of pkt tcp).
Proof.
  pose proof tcp_len_range. pose proof ready_room. destruct ready_wscale as (w & Ew & Hw). destruct Hr.
  assert (forall o n, in_width (8 * Z.of_nat n) (get p o n)) as Hg by (intros; by apply get_width).
  split; cbn [segment_of sg_flags sg_seq sg_ack sg_win sg_len sg_wscale].
  - rewrite Z.land_comm. apply in_width_land; [lia|unfold in_width; lia|by apply get_nonneg].
  - apply (Hg _ 4%nat).
  - apply (Hg _ 4%nat).
  - apply (Hg _ 2%nat).
  - unfold in_width. lia.
  - by rewrite Ew.
Qed.
End Ready.

(** ** The tracker, over segments *)

Definition first_wscale (ws : Z) (src dst : tcp_peer) (sws dws win : Z) : tcp_peer * tcp_peer * Z * Z * Z :=
  if has (wscale dst) CT_WSCALE_FLAG then
    if has ws CT_WSCALE_FLAG then
      (src {{ wscale := ws }}, dst, Z.land ws CT_WSCALE_MASK, Z.land (wscale dst) CT_WSCALE_MASK,
       u16 (div_round_up win (Z.shiftl 1 (Z.land ws CT_WSCALE_MASK))))
    else
      (src {{ wscale := ws }}, dst {{ max_win := u16 (Z.shiftl (max_win dst) (Z.land (wscale dst) CT_WSCALE_MASK)); wscale := 0 }},
       sws, dws, win)
  else (src, dst, sws, dws, win).

(** The sequence number after the segment: SYN and FIN count. *)
Definition segment_end (s : segment) : Z :=
  let e := u32 (sg_seq s + sg_len s) in
  let e := if has (sg_flags s) TCP_SYN then u32 (e + 1) else e in
  if has (sg_flags s) TCP_FIN then u32 (e + 1) else e.

Definition first_segment (s : segment) (src dst : tcp_peer) (sws dws : Z) : tcp_peer * tcp_peer * tcp_vars :=
  let '(src, dst, sws, dws, win) :=
    if has (sg_flags s) TCP_SYN then first_wscale (sg_wscale s) src dst sws dws (sg_win s) else (src, dst, sws, dws, sg_win s) in
  let end_ := segment_end s in
  let hi := u32 (end_ + MAX 1 (Z.shiftl (max_win dst) dws)) in
  let slide := (seqhi src =? 1) || SEQ_GEQ hi (seqhi src) in
  let src := src {{ seqlo := sg_seq s; pstate := CT_DPIF_TCPS_SYN_SENT }} in
  let src := if slide then src {{ seqhi := hi }} else src in
  let src := if max_win src <? win then src {{ max_win := win }} else src in
  (src, dst, TcpVars sws dws win (sg_ack s) end_ (negb slide)).

Definition tcp_step (ct : conntrack) (c : conn_tcp) (s : segment) (reply : bool) (now : Z) : ct_update_res * conn_tcp :=
  let src := conn_src c reply in
  let dst := conn_dst c reply in
  if tcp_invalid_flags (sg_flags s) then (CT_UPDATE_INVALID, c)
  else
    let syn := Z.land (sg_flags s) (Z.lor TCP_SYN TCP_ACK) =? TCP_SYN in
    if syn && (state_ge (pstate dst) CT_DPIF_TCPS_FIN_WAIT_2 && state_ge (pstate src) CT_DPIF_TCPS_FIN_WAIT_2) then
      (CT_UPDATE_NEW, set_peers c reply (src {{ pstate := CT_DPIF_TCPS_CLOSED }}) (dst {{ pstate := CT_DPIF_TCPS_CLOSED }}))
    else if syn && state_ge CT_DPIF_TCPS_SYN_SENT (pstate src) then
      let c := set_peers c reply (src {{ pstate := CT_DPIF_TCPS_SYN_SENT }}) dst in
      (CT_UPDATE_VALID_NEW, c {{ up := conn_update_expiration ct (up c) CT_TM_TCP_FIRST_PACKET now }})
    else
      let '(sws, dws) := tcp_scales src dst (sg_flags s) in
      let '(src, dst, v) :=
        if state_lt (pstate src) CT_DPIF_TCPS_SYN_SENT then first_segment s src dst sws dws
        else (src, dst, TcpVars sws dws (sg_win s) (sg_ack s) (segment_end s) true) in
      tcp_track ct c reply src dst v (sg_flags s) (sg_seq s) now.

Lemma tcp_conn_update_step (ct : conntrack) (c : conn_tcp) (pkt : dp_packet) (tcp : nat) (reply : bool) (now : Z) :
  tcp_ready pkt tcp -> tcp_conn_update ct c pkt reply now = Some (tcp_step ct c (segment_of pkt tcp) reply now).
Proof.
  intros Hr. pose proof (ready_room pkt tcp Hr) as Hroom. destruct (ready_wscale pkt tcp Hr) as (w & Ew & _).
  unfold tcp_conn_update, tcp_step. rewrite (ready_l4 pkt tcp Hr), (ready_payload pkt tcp Hr). cbn [mbind option_bind].
  rewrite !(rd_some (dp_data pkt)) by lia. cbn [mbind option_bind]. 
  set (s := segment_of pkt tcp). change (Z.land (get (dp_data pkt) (tcp + 12) 2) 4095) with (sg_flags s).
  destruct (tcp_invalid_flags (sg_flags s)); [done|]. destruct (_ && _); [done|]. destruct (_ && _); [done|].
  destruct (tcp_scales _ _ _) as [sws dws].
  change (get (dp_data pkt) (tcp + 4) 4) with (sg_seq s). change (get (dp_data pkt) (tcp + 14) 2) with (sg_win s).
  unfold tcp_first_packet, tcp_next_packet. rewrite !(rd_some (dp_data pkt) (tcp + 8)) by lia. cbn [mbind option_bind].
  change (get (dp_data pkt) (tcp + 8) 4) with (sg_ack s). unfold first_segment, segment_end.
  destruct (state_lt _ _); [|done].
  destruct (has (sg_flags s) TCP_SYN); [|done]. unfold tcp_first_wscale, first_wscale. rewrite Ew. cbn [mbind option_bind].
  replace (sg_wscale s) with w by (unfold s, segment_of; cbn [sg_wscale]; by rewrite Ew).
  destruct (has (wscale _) CT_WSCALE_FLAG); [|done]. by destruct (has w CT_WSCALE_FLAG).
Qed.

(** ** The invariant *)

Record peer_wf (p : tcp_peer) : Prop := {
  pw_seqlo : in_width 32 (seqlo p);
  pw_seqhi : in_width 32 (seqhi p);
  pw_max_win : in_width 16 (max_win p);
  pw_wscale : wscale_ok (wscale p)
}.

Definition conn_wf (c : conn_tcp) : Prop := peer_wf (peer0 c) /\ peer_wf (peer1 c).

Record vars_wf (v : tcp_vars) : Prop := {
  vw_sws : 0 <= v_sws v <= TCP_MAX_WSCALE;
  vw_dws : 0 <= v_dws v <= TCP_MAX_WSCALE;
  vw_win : in_width 16 (v_win v);
  vw_ack : in_width 32 (v_ack v);
  vw_end : in_width 32 (v_end v)
}.

Ltac peer_upd Hp := destruct Hp; constructor; cbn in *; unfold constant in *; try done; try (by apply wrap_width).

Lemma set_pstate_wf (p : tcp_peer) (s : ct_dpif_tcp_state) : peer_wf p -> peer_wf (p {{ pstate := s }}).
Proof. intros Hp. peer_upd Hp. Qed.

Lemma synchronize_wf (src dst : tcp_peer) (v : tcp_vars) (ack e : Z) :
  peer_wf src -> peer_wf dst -> in_width 16 (v_win v) -> in_width 32 e ->
  peer_wf (tcp_synchronize src dst v ack e).1 /\ peer_wf (tcp_synchronize src dst v ack e).2.
Proof.
  intros Hs Hd Hw He. unfold tcp_synchronize. cbn [fst snd]. split.
  - assert (peer_wf (if max_win src <? v_win v then src {{ max_win := v_win v }} else src)) as Hs'
      by (case_match; [peer_upd Hs|done]). destruct (SEQ_GT _ _); [peer_upd Hs'|done].
  - case_match; [peer_upd Hd|done].
Qed.

Lemma closing_wf (src : tcp_peer) (flags : Z) : peer_wf src -> peer_wf (tcp_closing src flags).
Proof. intros Hs. unfold tcp_closing. destruct (_ && _); [by apply set_pstate_wf|done]. Qed.

Lemma reset_wf (src dst : tcp_peer) (flags : Z) :
  peer_wf src -> peer_wf dst -> peer_wf (tcp_reset src dst flags).1 /\ peer_wf (tcp_reset src dst flags).2.
Proof. intros Hs Hd. unfold tcp_reset. case_match; cbn; split; by try apply set_pstate_wf. Qed.

Lemma update_states_wf (src dst : tcp_peer) (flags : Z) :
  peer_wf src -> peer_wf dst -> peer_wf (tcp_update_states src dst flags).1 /\ peer_wf (tcp_update_states src dst flags).2.
Proof.
  intros Hs Hd. unfold tcp_update_states. apply reset_wf.
  - apply closing_wf. destruct (_ && _); [by apply set_pstate_wf|done].
  - repeat case_match; by try apply set_pstate_wf.
Qed.

Lemma set_peers_wf (c : conn_tcp) (reply : bool) (src dst : tcp_peer) : peer_wf src -> peer_wf dst -> conn_wf (set_peers c reply src dst).
Proof. intros Hs Hd. unfold set_peers. by destruct reply. Qed.

Lemma set_up_wf (c : conn_tcp) (u : conn) : conn_wf c -> conn_wf (c {{ up := u }}).
Proof. by destruct c. Qed.

Lemma conn_src_wf (c : conn_tcp) (reply : bool) : conn_wf c -> peer_wf (conn_src c reply) /\ peer_wf (conn_dst c reply).
Proof. intros [H0 H1]. by destruct reply. Qed.

Lemma track_wf (ct : conntrack) (c : conn_tcp) (reply : bool) (src dst : tcp_peer) (v : tcp_vars) (flags seq now : Z) :
  peer_wf src -> peer_wf dst -> vars_wf v -> in_width 32 seq -> conn_wf (tcp_track ct c reply src dst v flags seq now).2.
Proof.
  intros Hs Hd Hv Hq. unfold tcp_track. set (ack := if negb _ then _ else _).
  assert (exists q e, (if seq =? v_end v then (seqlo src, seqlo src) else (seq, v_end v)) = (q, e) /\ in_width 32 e) as (q & e & -> & He).
  { destruct (seq =? v_end v); (do 2 eexists; split; [reflexivity|]); [apply Hs|apply Hv]. }
  pose proof (synchronize_wf src dst v ack e Hs Hd (vw_win v Hv) He) as Hsync.
  destruct (_ || _).
  - destruct (tcp_synchronize src dst v ack e) as [s1 d1]. cbn [fst snd] in Hsync. destruct Hsync as [Hs1 Hd1].
    pose proof (update_states_wf s1 d1 flags Hs1 Hd1) as Hu. destruct (tcp_update_states s1 d1 flags) as [s2 d2].
    destruct Hu as [Hs2 Hd2]. cbn [fst snd] in *. by apply set_up_wf, set_peers_wf.
  - destruct (tcp_near_window _ _ _ _); [|by apply set_peers_wf].
    destruct (tcp_synchronize src dst v ack e) as [s1 d1]. cbn [fst snd] in Hsync. destruct Hsync as [Hs1 Hd1].
    pose proof (reset_wf _ d1 flags (closing_wf s1 flags Hs1) Hd1) as Hu.
    destruct (tcp_reset _ d1 flags) as [s2 d2]. destruct Hu as [Hs2 Hd2]. by apply set_peers_wf.
Qed.

Lemma scales_range (src dst : tcp_peer) (flags : Z) :
  peer_wf src -> peer_wf dst ->
  0 <= (tcp_scales src dst flags).1 <= TCP_MAX_WSCALE /\ 0 <= (tcp_scales src dst flags).2 <= TCP_MAX_WSCALE.
Proof.
  intros Hs Hd. pose proof (wscale_low _ (pw_wscale src Hs)). pose proof (wscale_low _ (pw_wscale dst Hd)).
  unfold tcp_scales. repeat case_match; cbn; unfold TCP_MAX_WSCALE in *; lia.
Qed.

Lemma segment_end_width (s : segment) : in_width 32 (segment_end s).
Proof. unfold segment_end. repeat case_match; by apply wrap_width. Qed.

Lemma first_segment_wf (s : segment) (src dst : tcp_peer) (sws dws : Z) :
  segment_wf s -> peer_wf src -> peer_wf dst -> 0 <= sws <= TCP_MAX_WSCALE -> 0 <= dws <= TCP_MAX_WSCALE ->
  let r := first_segment s src dst sws dws in peer_wf r.1.1 /\ peer_wf r.1.2 /\ vars_wf r.2.
Proof.
  intros Hw Hs Hd Hsws Hdws r. unfold r, first_segment.
  assert (exists s1 d1 sw dw win, (if has (sg_flags s) TCP_SYN then first_wscale (sg_wscale s) src dst sws dws (sg_win s)
    else (src, dst, sws, dws, sg_win s)) = (s1, d1, sw, dw, win) /\ peer_wf s1 /\ peer_wf d1 /\ 0 <= sw <= TCP_MAX_WSCALE /\
    0 <= dw <= TCP_MAX_WSCALE /\ in_width 16 win) as (s1 & d1 & sw & dw & win & -> & Hs1 & Hd1 & H1 & H2 & H3).
  { pose proof (sw_win s Hw). pose proof (sw_wscale s Hw). unfold first_wscale.
    destruct (has _ TCP_SYN); [|by do 5 eexists]. destruct (has _ CT_WSCALE_FLAG); [|by do 5 eexists].
    destruct (has _ CT_WSCALE_FLAG); do 5 eexists; (split; [done|]).
    - split; [peer_upd Hs|]. split; [done|]. split; [by apply wscale_low|]. split; [apply wscale_low, Hd|by apply wrap_width].
    - split; [peer_upd Hs|]. split; [|done]. destruct Hd. constructor; cbn; unfold constant; [done|done|by apply wrap_width|by left]. }
  pose proof (segment_end_width s) as He. cbn [fst snd]. split; [|split; [done|]].
  - set (hi := u32 _). set (s2 := s1 {{ seqlo := sg_seq s; pstate := CT_DPIF_TCPS_SYN_SENT }}).
    assert (peer_wf s2) as Hs2 by (pose proof (sw_seq s Hw); subst s2; peer_upd Hs1).
    set (s3 := if _ || _ then _ else _).
    assert (peer_wf s3) as Hs3 by (subst s3; destruct (_ || _); [peer_upd Hs2|done]). destruct (max_win s3 <? win); [peer_upd Hs3|done].
  - pose proof (sw_ack s Hw). by constructor.
Qed.

Lemma step_wf (ct : conntrack) (c : conn_tcp) (s : segment) (reply : bool) (now : Z) :
  conn_wf c -> segment_wf s -> conn_wf (tcp_step ct c s reply now).2.
Proof.
  intros Hc Hs. destruct (conn_src_wf c reply Hc) as [Hsrc Hdst]. unfold tcp_step.
  destruct (tcp_invalid_flags _); [done|]. destruct (_ && _); [by apply set_peers_wf; apply set_pstate_wf|].
  destruct (_ && _); [by apply set_up_wf, set_peers_wf; [apply set_pstate_wf|]|].
  destruct (scales_range (conn_src c reply) (conn_dst c reply) (sg_flags s) Hsrc Hdst) as [H1 H2].
  destruct (tcp_scales _ _ _) as [sws dws]. cbn [fst snd] in *.
  destruct (state_lt _ _).
  - destruct (first_segment_wf s _ _ sws dws Hs Hsrc Hdst H1 H2) as (A & B & C).
    destruct (first_segment _ _ _ _ _) as [[s1 d1] v]. apply track_wf; (done || apply Hs).
  - apply track_wf; try done; [|apply Hs]. destruct Hs. constructor; cbn; try done. apply segment_end_width.
Qed.

(** ** The flags that matter *)

(** FIN, SYN, RST, PSH, ACK and URG. *)
Definition control (flags : Z) : Z := Z.land flags 0x3f.

Definition with_control (s : segment) : segment := s {{ sg_flags := control (sg_flags s) }}.

Lemma has_control (flags m : Z) : Z.land m 0x3f = m -> has (control flags) m = has flags m.
Proof. intros E. symmetry. by apply has_sub. Qed.

Lemma land_control (flags m : Z) : Z.land m 0x3f = m -> Z.land (control flags) m = Z.land flags m.
Proof. intros E. symmetry. by apply land_sub. Qed.

Ltac controls := rewrite !has_control by reflexivity.

Lemma invalid_flags_control (flags : Z) : tcp_invalid_flags (control flags) = tcp_invalid_flags flags.
Proof. unfold tcp_invalid_flags. by controls. Qed.

Lemma track_control (ct : conntrack) (c : conn_tcp) (reply : bool) (src dst : tcp_peer) (v : tcp_vars) (flags seq now : Z) :
  tcp_track ct c reply src dst v (control flags) seq now = tcp_track ct c reply src dst v flags seq now.
Proof.
  unfold tcp_track. rewrite (land_control flags (Z.lor TCP_ACK TCP_RST)) by reflexivity.
  assert (forall s d v q e o k, tcp_in_window s d v (control flags) q e o k = tcp_in_window s d v flags q e o k) as Hw
    by (intros; unfold tcp_in_window; by controls).
  assert (forall s d, tcp_reset s d (control flags) = tcp_reset s d flags) as Hr by (intros; unfold tcp_reset; by controls).
  assert (forall s, tcp_closing s (control flags) = tcp_closing s flags) as Hc by (intros; unfold tcp_closing; by controls).
  assert (forall s d, tcp_update_states s d (control flags) = tcp_update_states s d flags) as Hu
    by (intros; unfold tcp_update_states; rewrite Hr, Hc; by controls).
  controls. destruct (if seq =? v_end v then _ else _) as [q e]. rewrite Hw.
  destruct (_ || _); [destruct (tcp_synchronize _ _ _ _ _) as [s d]; by rewrite Hu|].
  destruct (tcp_near_window _ _ _ _); [|done]. destruct (tcp_synchronize _ _ _ _ _) as [s d]. by rewrite Hr, Hc.
Qed.

Lemma step_control (ct : conntrack) (c : conn_tcp) (s : segment) (reply : bool) (now : Z) :
  tcp_step ct c (with_control s) reply now = tcp_step ct c s reply now.
Proof.
  assert (segment_end (with_control s) = segment_end s) as He by (unfold segment_end, with_control; destruct s; cbn; unfold constant; by controls).
  assert (tcp_scales (conn_src c reply) (conn_dst c reply) (control (sg_flags s)) =
    tcp_scales (conn_src c reply) (conn_dst c reply) (sg_flags s)) as Hsc by (unfold tcp_scales; by controls).
  unfold tcp_step, first_segment. rewrite He. unfold with_control.
  destruct s as [f q a w l ws]. cbn [sg_flags sg_seq sg_ack sg_win sg_len sg_wscale apply_update] in *. unfold constant.
  rewrite invalid_flags_control. destruct (tcp_invalid_flags f); [done|].
  rewrite (land_control f (Z.lor TCP_SYN TCP_ACK)) by reflexivity.
  destruct (_ && _); [done|]. destruct (_ && _); [done|]. rewrite Hsc. clear Hsc. destruct (tcp_scales _ _ _) as [sws dws].
  rewrite (has_control f TCP_SYN) by reflexivity. destruct (state_lt _ _); [|apply track_control].
  destruct (if has f TCP_SYN then _ else _) as [[[[s1 d1] sw] dw] win]. apply track_control.
Qed.
