(* ===== verification/ConntrackTheorems.v ===== *)
(** * Connection tracking: theorems

    What the tracker accepts and what it does to a connection: handshakes,
    resets, the order of the states, packets that it rejects, timeouts. *)

From S2P Require Import Prelude Util Hash MetaFlow Packet PacketProps Conntrack ConntrackProps.
From stdpp Require Import prelude list.
From coqutil Require Import Datatypes.RecordSetters.
From Stdlib Require Import ZArith Lia.
Import DoubleBraceUpdate.
Open Scope Z_scope.
Open Scope ovs_scope.

(** ** Accepted packets *)

(** The states after an accepted packet. *)
Definition states_after (flags : Z) (s d : ct_dpif_tcp_state) : ct_dpif_tcp_state * ct_dpif_tcp_state :=
  let s := if has flags TCP_SYN && state_lt s CT_DPIF_TCPS_SYN_SENT then CT_DPIF_TCPS_SYN_SENT else s in
  let s := if has flags TCP_FIN && state_lt s CT_DPIF_TCPS_CLOSING then CT_DPIF_TCPS_CLOSING else s in
  let d := if has flags TCP_ACK then
             match d with
             | CT_DPIF_TCPS_SYN_SENT => CT_DPIF_TCPS_ESTABLISHED
             | CT_DPIF_TCPS_CLOSING => CT_DPIF_TCPS_FIN_WAIT_2
             | d => d
             end
           else d in
  if has flags TCP_RST then (CT_DPIF_TCPS_TIME_WAIT, CT_DPIF_TCPS_TIME_WAIT) else (s, d).

Lemma update_states_states (src dst : tcp_peer) (flags : Z) :
  let r := tcp_update_states src dst flags in
  (pstate r.1, pstate r.2) = states_after flags (pstate src) (pstate dst) /\
  (seqlo r.1, seqhi r.1, max_win r.1, wscale r.1) = (seqlo src, seqhi src, max_win src, wscale src) /\
  (seqlo r.2, seqhi r.2, max_win r.2, wscale r.2) = (seqlo dst, seqhi dst, max_win dst, wscale dst).
Proof.
  destruct src as [? ? ? ? s], dst as [? ? ? ? d]. unfold tcp_update_states, states_after, tcp_closing, tcp_reset. cbn.
  destruct (has flags TCP_SYN), (has flags TCP_FIN), (has flags TCP_ACK), (has flags TCP_RST), (state_lt s CT_DPIF_TCPS_SYN_SENT) eqn:E1;
    cbn; unfold constant; try (destruct (state_lt s CT_DPIF_TCPS_CLOSING) eqn:E2); cbn; unfold constant; destruct d; done.
Qed.

(** What the tracker uses of the acknowledgement number. *)
Definition effective_ack (dst : tcp_peer) (v : tcp_vars) (flags : Z) : Z :=
  if negb (has flags TCP_ACK) then seqlo dst
  else if (v_ack v =? 0) && (Z.land flags (Z.lor TCP_ACK TCP_RST) =? Z.lor TCP_ACK TCP_RST) then seqlo dst
  else v_ack v.

(** The sequence numbers of the packet: those of the connection when it has no
    data. *)
Definition effective_seq (src : tcp_peer) (v : tcp_vars) (seq : Z) : Z * Z :=
  if seq =? v_end v then (seqlo src, seqlo src) else (seq, v_end v).

Definition ack_skew (dst : tcp_peer) (v : tcp_vars) (flags : Z) : Z :=
  if v_check_ackskew v then to_int (seqlo dst - effective_ack dst v flags) else 0.

(** The first test of [tcp_conn_update]. *)
Definition accepts (src dst : tcp_peer) (v : tcp_vars) (flags seq : Z) : bool :=
  tcp_in_window src dst v flags (effective_seq src v seq).1 (effective_seq src v seq).2 seq (ack_skew dst v flags).

(** The peers after an accepted packet. *)
Definition accepted (src dst : tcp_peer) (v : tcp_vars) (flags seq : Z) : tcp_peer * tcp_peer :=
  let r := tcp_synchronize src dst v (effective_ack dst v flags) (effective_seq src v seq).2 in
  tcp_update_states r.1 r.2 flags.

Lemma track_cases (ct : conntrack) (c : conn_tcp) (reply : bool) (src dst : tcp_peer) (v : tcp_vars) (flags seq now : Z) :
  tcp_track ct c reply src dst v flags seq now =
  if accepts src dst v flags seq || negb (tcp_seq_chk ct) then
    let r := accepted src dst v flags seq in
    (CT_UPDATE_VALID, (set_peers c reply r.1 r.2) {{ up := conn_update_expiration ct (up c) (tcp_timeout r.1 r.2) now }})
  else if tcp_near_window src dst (effective_seq src v seq).1 (effective_seq src v seq).2 then
    let r := tcp_synchronize src dst v (effective_ack dst v flags) (effective_seq src v seq).2 in
    let r := tcp_reset (tcp_closing r.1 flags) r.2 flags in
    (CT_UPDATE_VALID, set_peers c reply r.1 r.2)
  else (CT_UPDATE_INVALID, set_peers c reply src dst).
Proof.
  unfold tcp_track, accepts, accepted, ack_skew. fold (effective_ack dst v flags) (effective_seq src v seq).
  destruct (effective_seq src v seq) as [q e]. cbn [fst snd].
  destruct (_ || _).
  - destruct (tcp_synchronize _ _ _ _ _) as [s d]. cbn [fst snd]. destruct (tcp_update_states s d flags) as [s' d']. cbn [fst snd].
    by destruct reply.
  - destruct (tcp_near_window _ _ _ _); [|done]. destruct (tcp_synchronize _ _ _ _ _) as [s d]. cbn [fst snd].
    by destruct (tcp_reset _ d flags) as [s' d'].
Qed.

Lemma synchronize_fields (src dst : tcp_peer) (v : tcp_vars) (ack e : Z) :
  let r := tcp_synchronize src dst v ack e in
  pstate r.1 = pstate src /\ pstate r.2 = pstate dst /\ seqlo r.1 = (if SEQ_GT e (seqlo src) then e else seqlo src) /\
  seqlo r.2 = seqlo dst /\ wscale r.1 = wscale src /\ wscale r.2 = wscale dst /\ seqhi r.1 = seqhi src /\
  seqhi r.2 = (if SEQ_GEQ (u32 (ack + Z.shiftl (v_win v) (v_sws v))) (seqhi dst)
               then u32 (ack + MAX (Z.shiftl (v_win v) (v_sws v)) 1) else seqhi dst).
Proof.
  destruct src, dst. unfold tcp_synchronize. cbn. destruct (SEQ_GEQ _ _); destruct (_ <? _); cbn; unfold constant; destruct (SEQ_GT _ _); done.
Qed.

Lemma accepted_states (src dst : tcp_peer) (v : tcp_vars) (flags seq : Z) :
  (pstate (accepted src dst v flags seq).1, pstate (accepted src dst v flags seq).2) = states_after flags (pstate src) (pstate dst).
Proof.
  unfold accepted. destruct (synchronize_fields src dst v (effective_ack dst v flags) (effective_seq src v seq).2) as (E1 & E2 & _).
  rewrite (proj1 (update_states_states _ _ flags)). by rewrite E1, E2.
Qed.

Lemma accepted_fields (src dst : tcp_peer) (v : tcp_vars) (flags seq : Z) :
  let r := accepted src dst v flags seq in
  let e := (effective_seq src v seq).2 in
  let ack := effective_ack dst v flags in
  seqlo r.1 = (if SEQ_GT e (seqlo src) then e else seqlo src) /\ seqlo r.2 = seqlo dst /\
  seqhi r.2 = (if SEQ_GEQ (u32 (ack + Z.shiftl (v_win v) (v_sws v))) (seqhi dst)
               then u32 (ack + MAX (Z.shiftl (v_win v) (v_sws v)) 1) else seqhi dst).
Proof.
  cbv zeta. unfold accepted.
  destruct (synchronize_fields src dst v (effective_ack dst v flags) (effective_seq src v seq).2) as (_ & _ & E3 & E4 & _ & _ & _ & E8).
  destruct (tcp_synchronize _ _ _ _ _) as [s d]. cbn [fst snd] in *.
  destruct (update_states_states s d flags) as (_ & U1 & U2). injection U1 as U1 _ _ _. injection U2 as U2 U2' _ _.
  by rewrite U1, U2, U2', E3, E4, E8.
Qed.

(** ** The first packet of a peer *)

(** The first packet of a peer of which nothing is known. *)
Lemma first_segment_fresh (s : segment) (src dst : tcp_peer) (sws dws : Z) :
  segment_wf s -> peer_wf src -> peer_wf dst -> 0 <= sws <= TCP_MAX_WSCALE -> 0 <= dws <= TCP_MAX_WSCALE -> seqhi src = 1 ->
  exists src' dst' v M, first_segment s src dst sws dws = (src', dst', v) /\ vars_wf v /\ peer_wf src' /\ peer_wf dst' /\
    v_check_ackskew v = false /\ v_ack v = sg_ack s /\ v_end v = segment_end s /\
    seqlo src' = sg_seq s /\ pstate src' = CT_DPIF_TCPS_SYN_SENT /\
    seqhi src' = u32 (segment_end s + M) /\ 1 <= M < 2 ^ 30 /\
    seqlo dst' = seqlo dst /\ seqhi dst' = seqhi dst /\ pstate dst' = pstate dst.
Proof.
  intros Hw Hs Hd Hsws Hdws H1. pose proof (first_segment_wf s src dst sws dws Hw Hs Hd Hsws Hdws) as Hwf. cbv zeta in Hwf.
  unfold first_segment in *.
  set (r := if has (sg_flags s) TCP_SYN then _ else _) in *.
  assert (seqhi r.1.1.1.1 = 1 /\ seqlo r.1.1.1.2 = seqlo dst /\ seqhi r.1.1.1.2 = seqhi dst /\ pstate r.1.1.1.2 = pstate dst)
    as (E1 & E2 & E3 & E4).
  { subst r. unfold first_wscale. destruct src, dst. cbn in H1. subst. repeat case_match; done. }
  destruct r as [[[[s1 d1] sw] dw] win]. cbn [fst snd] in *. destruct Hwf as (W1 & W2 & W3). pose proof (vw_dws _ W3) as Hdw. cbn [v_dws] in Hdw.
  pose proof (scale_bound (max_win d1) dw (pw_max_win d1 W2) Hdw) as Hb.
  eexists _, _, _, (MAX 1 (Z.shiftl (max_win d1) dw)). split; [reflexivity|]. split_and!; try done.
  - rewrite E1. done.
  - destruct s1. cbn in *. subst. cbn. by repeat case_match.
  - destruct s1. cbn in *. subst. cbn. by repeat case_match.
  - destruct s1. cbn in *. subst. cbn. by repeat case_match.
  - unfold MAX. destruct (Z.ltb_spec (Z.shiftl (max_win d1) dw) 1); lia.
  - unfold MAX. destruct (Z.ltb_spec (Z.shiftl (max_win d1) dw) 1); lia.
Qed.

Lemma fresh_accepts (src dst : tcp_peer) (v : tcp_vars) (flags seq M : Z) :
  peer_wf dst -> vars_wf v -> v_check_ackskew v = false -> seqlo src = seq -> seqhi src = u32 (v_end v + M) -> 0 <= M < 2 ^ 30 ->
  accepts src dst v flags seq = true.
Proof.
  intros Hd Hv Hc Hlo Hhi HM. pose proof (scale_bound (max_win dst) (v_dws v) (pw_max_win dst Hd) (vw_dws v Hv)) as Hb.
  assert (0 <= Z.shiftl MAXACKWINDOW (v_sws v)) as Hm by (by apply Z.shiftl_nonneg).
  unfold accepts, tcp_in_window, ack_skew, effective_seq. rewrite Hc, Hlo.
  rewrite !andb_true_iff, Z.eqb_refl. split_and!; [| |done|by apply Z.leb_le|by rewrite orb_true_r].
  - apply (SEQ_GEQ_add _ _ M); [|lia]. destruct (Z.eqb_spec seq (v_end v)) as [E|E]; cbn [snd]; rewrite Hhi; mod32.
  - apply (SEQ_GEQ_add _ _ (Z.shiftl (max_win dst) (v_dws v))); [|lia].
    destruct (Z.eqb_spec seq (v_end v)) as [E|E]; cbn [fst]; set (w := Z.shiftl _ _) in *; mod32.
Qed.

(** ** Handshakes *)

Definition new_tcp (ct : conntrack) (s : segment) (now tp : Z) : conn_tcp :=
  let syn := has (sg_flags s) TCP_SYN in
  let ws := if syn then sg_wscale s else CT_WSCALE_UNKNOWN in
  let hi := u32 (sg_seq s + sg_len s + 1) in
  let hi := if syn then u32 (hi + 1) else hi in
  let hi := if has (sg_flags s) TCP_FIN then u32 (hi + 1) else hi in
  let sws := Z.land ws CT_WSCALE_MASK in
  let win := MAX (sg_win s) 1 in
  ConnTcp (conn_init_expiration ct (Conn 0 tp) CT_TM_TCP_FIRST_PACKET now)
    (TcpPeer (sg_seq s) hi (if sws =? 0 then win else u16 (div_round_up win (Z.shiftl 1 sws))) ws CT_DPIF_TCPS_SYN_SENT)
    (TcpPeer 0 1 1 (if syn then 0 else CT_WSCALE_UNKNOWN) CT_DPIF_TCPS_CLOSED).

Lemma tcp_new_conn_new (ct : conntrack) (pkt : dp_packet) (tcp : nat) (now tp : Z) :
  tcp_ready pkt tcp -> tcp_new_conn ct pkt now tp = Some (new_tcp ct (segment_of pkt tcp) now tp).
Proof.
  intros Hr. pose proof (ready_room pkt tcp Hr) as Hroom. destruct (ready_wscale pkt tcp Hr) as (w & Ew & _).
  unfold tcp_new_conn, new_tcp. rewrite (ready_l4 pkt tcp Hr), (ready_payload pkt tcp Hr). cbn [mbind option_bind].
  rewrite !(rd_some (dp_data pkt)) by lia. cbn [mbind option_bind]. set (s := segment_of pkt tcp).
  change (Z.land (get (dp_data pkt) (tcp + 12) 2) 4095) with (sg_flags s).
  change (get (dp_data pkt) (tcp + 4) 4) with (sg_seq s). change (get (dp_data pkt) (tcp + 14) 2) with (sg_win s).
  replace (sg_wscale s) with w by (unfold s, segment_of; cbn [sg_wscale]; by rewrite Ew).
  destruct (has (sg_flags s) TCP_SYN); [|done]. by rewrite Ew.
Qed.

Lemma new_tcp_wf (ct : conntrack) (s : segment) (now tp : Z) : segment_wf s -> conn_wf (new_tcp ct s now tp).
Proof.
  intros Hs. pose proof (sw_win s Hs) as Hw. split; constructor; cbn.
  - apply Hs.
  - repeat case_match; by apply wrap_width.
  - destruct (_ =? 0); [|by apply wrap_width]. unfold in_width in *. unfold MAX. destruct (Z.ltb_spec 1 (sg_win s)); lia.
  - case_match; [apply Hs|right; by left].
  - unfold in_width. lia.
  - unfold in_width. lia.
  - unfold in_width. lia.
  - case_match; [by left|right; by left].
Qed.

(** Packets that are neither invalid nor a bare SYN. *)
Definition tracked_flags (flags : Z) : bool :=
  negb (tcp_invalid_flags flags) && negb (Z.land flags (Z.lor TCP_SYN TCP_ACK) =? TCP_SYN).

Lemma step_tracked (ct : conntrack) (c : conn_tcp) (s : segment) (reply : bool) (now : Z) :
  tracked_flags (sg_flags s) = true ->
  tcp_step ct c s reply now =
  let src := conn_src c reply in
  let dst := conn_dst c reply in
  let w := tcp_scales src dst (sg_flags s) in
  if state_lt (pstate src) CT_DPIF_TCPS_SYN_SENT then
    let r := first_segment s src dst w.1 w.2 in tcp_track ct c reply r.1.1 r.1.2 r.2 (sg_flags s) (sg_seq s) now
  else tcp_track ct c reply src dst (TcpVars w.1 w.2 (sg_win s) (sg_ack s) (segment_end s) true) (sg_flags s) (sg_seq s) now.
Proof.
  unfold tracked_flags. rewrite andb_true_iff, !negb_true_iff. intros [H1 H2]. unfold tcp_step. rewrite H1, H2. cbn [andb]. cbv zeta.
  destruct (tcp_scales _ _ _) as [sws dws]. cbn [fst snd].
  destruct (state_lt _ _); [|done]. by destruct (first_segment _ _ _ _ _) as [[? ?] ?].
Qed.

(** The reply to a SYN. *)
Lemma synack_step (ct : conntrack) (c : conn_tcp) (s : segment) (now x : Z) :
  conn_wf c -> segment_wf s -> sg_flags s = 0x12 -> sg_len s = 0 -> sg_ack s = u32 (x + 1) ->
  pstate (peer0 c) = CT_DPIF_TCPS_SYN_SENT -> seqlo (peer0 c) = x -> seqhi (peer0 c) = u32 (x + 2) ->
  pstate (peer1 c) = CT_DPIF_TCPS_CLOSED -> seqhi (peer1 c) = 1 ->
  exists c' K, tcp_step ct c s true now = (CT_UPDATE_VALID, c') /\
    pstate (peer0 c') = CT_DPIF_TCPS_ESTABLISHED /\ seqlo (peer0 c') = x /\ seqhi (peer0 c') = u32 (x + 1 + K) /\ 1 <= K < 2 ^ 30 /\
    pstate (peer1 c') = CT_DPIF_TCPS_SYN_SENT /\ seqlo (peer1 c') = u32 (sg_seq s + 1).
Proof.
  intros [Hc0 Hc1] Hs Ef El Ea P0 L0 H0 P1 H1. rewrite step_tracked by (by rewrite Ef). cbv zeta. cbn [conn_src conn_dst].
  rewrite Ef, P1. change (state_lt CT_DPIF_TCPS_CLOSED CT_DPIF_TCPS_SYN_SENT) with true. cbn iota.
  destruct (scales_range (peer1 c) (peer0 c) 18 Hc1 Hc0) as [R1 R2].
  destruct (first_segment_fresh s (peer1 c) (peer0 c) _ _ Hs Hc1 Hc0 R1 R2 H1)
    as (src & dst & v & M & -> & Hv & Hsrc & Hdst & V1 & V2 & V3 & S1 & S2 & S3 & HM & D1 & D2 & D3).
  cbn [fst snd]. rewrite track_cases. rewrite (fresh_accepts _ _ _ _ _ M) by (done || lia || by rewrite V3).
  cbn [orb]. cbv zeta. destruct (accepted_fields src dst v 18 (sg_seq s)) as (F1 & F2 & F3).
  pose proof (accepted_states src dst v 18 (sg_seq s)) as Hst. rewrite S2, D3, P0 in Hst.
  change (states_after 18 CT_DPIF_TCPS_SYN_SENT CT_DPIF_TCPS_SYN_SENT) with (CT_DPIF_TCPS_SYN_SENT, CT_DPIF_TCPS_ESTABLISHED) in Hst.
  pose proof (scale_bound (v_win v) (v_sws v) (vw_win v Hv) (vw_sws v Hv)) as Hb.
  assert (effective_ack dst v 18 = u32 (x + 1)) as Eack
    by (unfold effective_ack; rewrite V2, Ea; change (negb (has 18 TCP_ACK)) with false; by rewrite andb_false_r).
  assert (segment_end s = u32 (sg_seq s + 1)) as Eend by (unfold segment_end; rewrite Ef, El;
    change (has 18 TCP_SYN) with true; change (has 18 TCP_FIN) with false; clear; mod32).
  pose proof (sw_seq s Hs) as Hq. unfold in_width in Hq. change (2 ^ 32) with 4294967296 in Hq.
  assert ((effective_seq src v (sg_seq s)).2 = u32 (sg_seq s + 1)) as Es.
  { unfold effective_seq. rewrite V3, Eend. destruct (Z.eqb_spec (sg_seq s) (u32 (sg_seq s + 1))); [mod32|done]. }
  rewrite Es, S1, (SEQ_GT_add _ _ 1) in F1 by (mod32 || lia). rewrite Eack, D2, H0 in F3. rewrite D1, L0 in F2.
  destruct (accepted src dst v 18 (sg_seq s)) as [s' d']. cbn [fst snd] in *. injection Hst as Hst1 Hst2.
  eexists _, (MAX (Z.shiftl (v_win v) (v_sws v)) 1). split; [reflexivity|]. cbn. rewrite F3. set (w := Z.shiftl _ _) in *.
  split_and!; try done; unfold MAX; destruct (Z.ltb_spec 1 w) as [Hw|Hw]; try lia.
  - rewrite (SEQ_GEQ_add _ _ (w - 1)) by (mod32 || lia). mod32.
  - destruct (Z.eq_dec w 0) as [Hw0|Hw0].
    + rewrite (SEQ_GEQ_lt _ _ 1) by (mod32 || lia). mod32.
    + rewrite (SEQ_GEQ_add _ _ 0) by (mod32 || lia). mod32.
Qed.

(** An acknowledgement without data, of all that was sent. *)
Lemma ack_step (ct : conntrack) (c : conn_tcp) (s : segment) (reply : bool) (now K : Z) :
  let src := conn_src c reply in
  let dst := conn_dst c reply in
  conn_wf c -> segment_wf s -> sg_flags s = 0x10 -> sg_len s = 0 -> sg_ack s = seqlo dst ->
  state_lt (pstate src) CT_DPIF_TCPS_SYN_SENT = false -> seqhi src = u32 (seqlo src + K) -> 0 <= K < 2 ^ 31 ->
  exists c', tcp_step ct c s reply now = (CT_UPDATE_VALID, c') /\
    (pstate (conn_src c' reply), pstate (conn_dst c' reply)) = states_after 0x10 (pstate src) (pstate dst) /\
    up c' = conn_update_expiration ct (up c) (tcp_timeout (conn_src c' reply) (conn_dst c' reply)) now.
Proof.
  intros src dst Hc Hs Ef El Ea Hst Hhi HK. destruct (conn_src_wf c reply Hc) as [Hsrc Hdst]. fold src in Hsrc. fold dst in Hdst.
  rewrite step_tracked by (by rewrite Ef). cbv zeta. fold src dst. rewrite Hst, Ef.
  destruct (scales_range src dst 16 Hsrc Hdst) as [R1 R2]. set (v := TcpVars _ _ _ _ _ _). rewrite track_cases.
  pose proof (sw_seq s Hs) as Hq.
  assert (segment_end s = sg_seq s) as Eend by (unfold segment_end; rewrite Ef, El, Z.add_0_r; change (has 16 TCP_SYN) with false;
    change (has 16 TCP_FIN) with false; by apply wrap_small).
  pose proof (scale_bound (max_win dst) (tcp_scales src dst 16).2 (pw_max_win dst Hdst) R2) as Hb.
  assert (accepts src dst v 16 (sg_seq s) = true) as Ha.
  { unfold accepts, tcp_in_window, effective_seq, ack_skew, effective_ack. cbn [v v_end v_check_ackskew v_ack v_dws v_sws].
    rewrite Eend, Z.eqb_refl. cbn [fst snd]. change (negb (has 16 TCP_ACK)) with false. cbn iota.
    rewrite Ea, !andb_false_r, Z.sub_diag. change (to_int 0) with 0. rewrite !andb_true_iff. split_and!.
    - apply (SEQ_GEQ_add _ _ K); [|lia]. rewrite Hhi. clear. mod32.
    - apply (SEQ_GEQ_add _ _ (Z.shiftl (max_win dst) (tcp_scales src dst 16).2)); [|lia].
      set (w := Z.shiftl _ _). clear. mod32.
    - done.
    - apply Z.leb_le. apply Z.shiftl_nonneg. done.
    - done. }
  rewrite Ha. cbn [orb]. eexists. split; [reflexivity|]. pose proof (accepted_states src dst v 16 (sg_seq s)) as Hacc.
  destruct (accepted src dst v 16 (sg_seq s)) as [s' d']. destruct reply; by split.
Qed.

Lemma is_segment_wf (pkt : dp_packet) (s : segment) : is_segment pkt s -> segment_wf s.
Proof. intros (tcp & Hr & <-). by apply ready_segment_wf. Qed.

Lemma is_segment_update (ct : conntrack) (c : conn_tcp) (pkt : dp_packet) (s : segment) (reply : bool) (now : Z) :
  is_segment pkt s -> tcp_conn_update ct c pkt reply now = Some (tcp_step ct c (with_control s) reply now).
Proof. intros (tcp & Hr & <-). rewrite step_control. by apply tcp_conn_update_step. Qed.

Lemma with_control_wf (s : segment) : segment_wf s -> segment_wf (with_control s).
Proof.
  intros Hs. pose proof (sw_flags s Hs) as Hf. assert (in_width 12 (control (sg_flags s)))
    by (apply in_width_land; [lia|done|lia]). destruct Hs. constructor; by cbn.
Qed.

(** C5: a TCP handshake is tracked, from any initial sequence numbers (also when they
    wrap around), with any windows and window scale options: the SYN makes a
    connection, the SYN|ACK and the ACK are valid, the peers end up established,
    and the connection gets the timeout of established connections. *)
Theorem handshake_establishes (ct : conntrack) (p1 p2 p3 : dp_packet) (s1 s2 s3 : segment) (now1 now2 now3 tp : Z) :
  is_segment p1 s1 -> is_segment p2 s2 -> is_segment p3 s3 ->
  control (sg_flags s1) = TCP_SYN -> control (sg_flags s2) = Z.lor TCP_SYN TCP_ACK -> control (sg_flags s3) = TCP_ACK ->
  sg_len s1 = 0 -> sg_len s2 = 0 -> sg_len s3 = 0 ->
  sg_ack s2 = u32 (sg_seq s1 + 1) -> sg_seq s3 = u32 (sg_seq s1 + 1) -> sg_ack s3 = u32 (sg_seq s2 + 1) ->
  exists c1 c2 c3, tcp_new_conn ct p1 now1 tp = Some c1 /\
    tcp_conn_update ct c1 p2 true now2 = Some (CT_UPDATE_VALID, c2) /\
    tcp_conn_update ct c2 p3 false now3 = Some (CT_UPDATE_VALID, c3) /\
    pstate (peer0 c3) = CT_DPIF_TCPS_ESTABLISHED /\ pstate (peer1 c3) = CT_DPIF_TCPS_ESTABLISHED /\
    expiration (up c3) = now3 + u32 (conn_timeout ct (up c3) CT_TM_TCP_ESTABLISHED * 1000).
Proof.
  intros I1 I2 I3 F1 F2 F3 L1 L2 L3 A2 Q3 A3. pose proof (is_segment_wf _ _ I1) as W1.
  pose proof (with_control_wf _ (is_segment_wf _ _ I2)) as W2. pose proof (with_control_wf _ (is_segment_wf _ _ I3)) as W3.
  destruct I1 as (tcp1 & R1 & E1). pose proof (tcp_new_conn_new ct p1 tcp1 now1 tp R1) as N1. rewrite E1 in N1.
  set (c1 := new_tcp ct s1 now1 tp) in *. pose proof (new_tcp_wf ct s1 now1 tp W1) as Hc1. fold c1 in Hc1.
  assert (has (sg_flags s1) TCP_SYN = true /\ has (sg_flags s1) TCP_FIN = false) as [B1 B2]
    by (rewrite <- !(has_control (sg_flags s1)), F1 by reflexivity; done).
  destruct (synack_step ct c1 (with_control s2) now2 (sg_seq s1)) as (c2 & K & E2 & P0 & S0 & H0 & HK & P1 & S1); try done.
  { unfold c1, new_tcp. cbn [peer0 seqhi]. rewrite B1, B2, L1. clear. mod32. }
  pose proof (step_wf ct c1 (with_control s2) true now2 Hc1 W2) as Hc2. rewrite E2 in Hc2. cbn [snd] in Hc2.
  destruct (ack_step ct c2 (with_control s3) false now3 (1 + K)) as (c3 & E3 & P3 & U3); try done.
  - change (sg_ack (with_control s3)) with (sg_ack s3). cbn [conn_dst]. by rewrite S1, A3.
  - cbn [conn_src]. by rewrite P0.
  - cbn [conn_src]. rewrite H0, S0. by rewrite Z.add_assoc.
  - lia.
  - cbn [conn_src conn_dst] in *. rewrite P0, P1 in P3. injection P3 as P30 P31.
    exists c1, c2, c3. rewrite (is_segment_update ct c1 p2 s2 true now2 I2), E2, (is_segment_update ct c2 p3 s3 false now3 I3), E3.
    split_and!; try done. rewrite U3. unfold tcp_timeout. rewrite P30, P31. done.
Qed.

(** ** The order of the states *)

Definition not_before (a b : ct_dpif_tcp_state) : Prop := tcp_state_value a <= tcp_state_value b.

Lemma not_before_refl (a : ct_dpif_tcp_state) : not_before a a.
Proof. unfold not_before. lia. Qed.

Lemma not_before_trans (a b c : ct_dpif_tcp_state) : not_before a b -> not_before b c -> not_before a c.
Proof. unfold not_before. lia. Qed.

Lemma states_after_forward (flags : Z) (s d : ct_dpif_tcp_state) :
  not_before s (states_after flags s d).1 /\ not_before d (states_after flags s d).2.
Proof.
  unfold states_after, not_before. destruct (has flags TCP_SYN), (has flags TCP_FIN), (has flags TCP_ACK), (has flags TCP_RST);
    destruct s, d; cbn; lia.
Qed.

Lemma closing_reset_forward (src dst : tcp_peer) (flags : Z) :
  let r := tcp_reset (tcp_closing src flags) dst flags in not_before (pstate src) (pstate r.1) /\ not_before (pstate dst) (pstate r.2).
Proof.
  destruct src as [? ? ? ? s], dst as [? ? ? ? d]. unfold tcp_reset, tcp_closing, not_before.
  destruct (has flags TCP_FIN), (has flags TCP_RST); destruct s, d; cbn; lia.
Qed.

Lemma first_segment_forward (s : segment) (src dst : tcp_peer) (sws dws : Z) :
  state_lt (pstate src) CT_DPIF_TCPS_SYN_SENT = true ->
  let r := first_segment s src dst sws dws in not_before (pstate src) (pstate r.1.1) /\ pstate r.1.2 = pstate dst.
Proof.
  intros Hlt r. unfold r, first_segment. set (w := if has _ TCP_SYN then _ else _).
  assert (pstate w.1.1.1.2 = pstate dst) as E by (subst w; unfold first_wscale; destruct dst; repeat case_match; done).
  destruct w as [[[[s1 d1] sw] dw] win]. cbn [fst snd] in *. split; [|done].
  assert (not_before (pstate src) CT_DPIF_TCPS_SYN_SENT) as Hn by (unfold not_before, state_lt in *; cbn in *; lia).
  destruct s1. cbn. by destruct (_ || _); cbn; destruct (_ <? _).
Qed.

Lemma track_forward (ct : conntrack) (c : conn_tcp) (reply : bool) (src dst : tcp_peer) (v : tcp_vars) (flags seq now : Z) :
  let c' := (tcp_track ct c reply src dst v flags seq now).2 in
  not_before (pstate src) (pstate (conn_src c' reply)) /\ not_before (pstate dst) (pstate (conn_dst c' reply)).
Proof.
  cbv zeta. rewrite track_cases. pose proof (accepted_states src dst v flags seq) as Ha.
  pose proof (states_after_forward flags (pstate src) (pstate dst)) as Hs.
  destruct (synchronize_fields src dst v (effective_ack dst v flags) (effective_seq src v seq).2) as (E1 & E2 & _).
  destruct (_ || _).
  - destruct (accepted src dst v flags seq) as [s' d']. cbv zeta. cbn [fst snd] in *. rewrite <- Ha in Hs. by destruct reply.
  - destruct (tcp_near_window _ _ _ _).
    + destruct (tcp_synchronize _ _ _ _ _) as [s' d']. cbv zeta. cbn [fst snd] in *.
      pose proof (closing_reset_forward s' d' flags) as Hr. cbv zeta in Hr. rewrite E1, E2 in Hr.
      destruct (tcp_reset _ d' flags) as [s2 d2]. by destruct reply.
    + by destruct reply; cbn; split; apply not_before_refl.
Qed.

Lemma step_forward (ct : conntrack) (c : conn_tcp) (s : segment) (reply : bool) (now : Z) :
  let r := tcp_step ct c s reply now in
  r.1 = CT_UPDATE_NEW /\ pstate (peer0 r.2) = CT_DPIF_TCPS_CLOSED /\ pstate (peer1 r.2) = CT_DPIF_TCPS_CLOSED /\
    state_ge (pstate (peer0 c)) CT_DPIF_TCPS_FIN_WAIT_2 = true /\ state_ge (pstate (peer1 c)) CT_DPIF_TCPS_FIN_WAIT_2 = true \/
  r.1 <> CT_UPDATE_NEW /\ not_before (pstate (peer0 c)) (pstate (peer0 r.2)) /\ not_before (pstate (peer1 c)) (pstate (peer1 r.2)).
Proof.
  cbv zeta. unfold tcp_step. destruct (tcp_invalid_flags _); [right; split_and!; [done|apply not_before_refl..]|].
  set (syn := Z.land _ _ =? TCP_SYN).
  destruct (syn && (state_ge (pstate (conn_dst c reply)) CT_DPIF_TCPS_FIN_WAIT_2 &&
    state_ge (pstate (conn_src c reply)) CT_DPIF_TCPS_FIN_WAIT_2)) eqn:E1.
  { left. apply andb_true_iff in E1 as [_ [H1 H2]%andb_true_iff]. by destruct reply. }
  destruct (syn && state_ge CT_DPIF_TCPS_SYN_SENT (pstate (conn_src c reply))) eqn:E2.
  { right. apply andb_true_iff in E2 as [_ H2]. split; [done|]. unfold state_ge, not_before in *.
    destruct reply; cbn in *; lia. }
  destruct (tcp_scales _ _ _) as [sws dws]. right.
  assert (forall src dst v, not_before (pstate (conn_src c reply)) (pstate src) -> pstate dst = pstate (conn_dst c reply) ->
    let r := tcp_track ct c reply src dst v (sg_flags s) (sg_seq s) now in
    r.1 <> CT_UPDATE_NEW /\ not_before (pstate (peer0 c)) (pstate (peer0 r.2)) /\ not_before (pstate (peer1 c)) (pstate (peer1 r.2))) as Ht.
  { intros src dst v Hsrc Hdst r. split; [unfold r; rewrite track_cases; by repeat case_match|].
    destruct (track_forward ct c reply src dst v (sg_flags s) (sg_seq s) now) as [T1 T2]. fold r in T1, T2. rewrite Hdst in T2.
    pose proof (not_before_trans _ _ _ Hsrc T1). by destruct reply. }
  destruct (state_lt _ _) eqn:E3.
  - destruct (first_segment_forward s (conn_src c reply) (conn_dst c reply) sws dws E3) as [F1 F2].
    destruct (first_segment _ _ _ _ _) as [[s1 d1] v]. by apply Ht.
  - apply Ht; [apply not_before_refl|done].
Qed.


(** A connection that is open at both ends. *)
Definition is_open (p : tcp_peer) : bool :=
  state_ge (pstate p) CT_DPIF_TCPS_SYN_SENT && state_lt (pstate p) CT_DPIF_TCPS_FIN_WAIT_2.

Lemma set_peers_same (c : conn_tcp) (reply : bool) : set_peers c reply (conn_src c reply) (conn_dst c reply) = c.
Proof. destruct c, reply; done. Qed.

Lemma open_rejects (ct : conntrack) (c : conn_tcp) (s : segment) (reply : bool) (now : Z) :
  let src := conn_src c reply in
  let dst := conn_dst c reply in
  tcp_seq_chk ct = true -> is_open src = true -> is_open dst = true -> tracked_flags (sg_flags s) = true ->
  (has (sg_flags s) TCP_RST = true /\ sg_seq s <> seqlo src /\ sg_seq s <> u32 (seqlo src + 1) /\ u32 (sg_seq s + 1) <> seqlo src \/
   sg_seq s <> segment_end s /\ SEQ_GEQ (seqhi src) (segment_end s) = false) ->
  tcp_step ct c s reply now = (CT_UPDATE_INVALID, c).
Proof.
  intros src dst Hchk Hs Hd Hf Hbad. rewrite step_tracked by done. cbv zeta. fold src dst. unfold is_open, state_ge, state_lt in Hs, Hd.
  rewrite andb_true_iff, Z.leb_le, Z.ltb_lt in Hs, Hd. destruct (state_lt (pstate src) CT_DPIF_TCPS_SYN_SENT) eqn:E.
  { unfold state_lt in E. lia. }
  set (v := TcpVars _ _ _ _ _ _). rewrite track_cases, Hchk.
  assert (accepts src dst v (sg_flags s) (sg_seq s) = false) as Ha.
  { unfold accepts, tcp_in_window. destruct Hbad as [(Hr & H1 & H2 & H3)|(H1 & H2)].
    - apply andb_false_intro2. rewrite Hr. cbn [negb orb].
      by rewrite (proj2 (Z.eqb_neq _ _) H1), (proj2 (Z.eqb_neq _ _) H2), (proj2 (Z.eqb_neq _ _) H3).
    - unfold effective_seq. change (v_end v) with (segment_end s). rewrite (proj2 (Z.eqb_neq _ _) H1). cbn [snd].
      by rewrite H2. }
  assert (tcp_near_window src dst (effective_seq src v (sg_seq s)).1 (effective_seq src v (sg_seq s)).2 = false) as Hn.
  { unfold tcp_near_window, state_lt, state_ge. destruct (Z.ltb_spec (tcp_state_value (pstate dst)) (tcp_state_value CT_DPIF_TCPS_SYN_SENT)),
      (Z.leb_spec (tcp_state_value CT_DPIF_TCPS_FIN_WAIT_2) (tcp_state_value (pstate dst))),
      (Z.leb_spec (tcp_state_value CT_DPIF_TCPS_FIN_WAIT_2) (tcp_state_value (pstate src))); (done || lia). }
  rewrite Ha, Hn. cbn [orb negb]. by rewrite set_peers_same.
Qed.


(** ** Sample packets *)

Definition sample_meta : pkt_metadata := PktMetadata 0 0 0 0 0 false 0 0 0 1 (CtTuple 0 0 0 0 0) (replicate 344 0).

(** A packet that is nothing but a TCP segment; the options fill whole words. *)
Definition tcp_packet (flags seq ack win : Z) (options payload : list Z) : dp_packet :=
  DpPacket
    ([0; 80; 0; 81] ++ be_bytes 4 seq ++ be_bytes 4 ack
     ++ be_bytes 2 (Z.lor (Z.shiftl (5 + Z.of_nat (length options) / 4) 12) flags) ++ be_bytes 2 win ++ [0; 0; 0; 0] ++ options ++ payload)
    0 sample_meta 0 false 0 0 UINT16_MAX UINT16_MAX 0 UINT16_MAX UINT16_MAX.

Definition tcp_readyb (pkt : dp_packet) : bool :=
  forallb (fun x => (0 <=? x) && (x <? 256)) (dp_data pkt) && (dp_l4_ofs pkt =? 0) && (dp_l2_pad_size pkt =? 0)
  && (20 <=? tcp_len_at (dp_data pkt) 0) && (tcp_len_at (dp_data pkt) 0 <=? Z.of_nat (length (dp_data pkt)))
  && (Z.of_nat (length (dp_data pkt)) <? 2 ^ 32).

Lemma tcp_readyb_segment (pkt : dp_packet) (s : segment) : tcp_readyb pkt = true -> segment_of pkt 0 = s -> is_segment pkt s.
Proof.
  unfold tcp_readyb. rewrite !andb_true_iff, !Z.leb_le, Z.ltb_lt, !Z.eqb_eq. intros (((((H1 & H2) & H3) & H4) & H5) & H6) <-.
  exists 0%nat. split; [|done]. constructor; try done; try lia.
  rewrite forallb_forall in H1. apply Forall_forall. intros x Hx%list_elem_of_In%H1.
  apply andb_true_iff in Hx as [A%Z.leb_le B%Z.ltb_lt]. unfold is_byte. lia.
Qed.

(** The start of a connection whose client's sequence numbers wrap around. *)
Definition hs1 : dp_packet := tcp_packet 2 0xffffffff 0 65535 [3; 3; 7; 1] [].
Definition hs2 : dp_packet := tcp_packet 0x12 1000 0 8192 [3; 3; 2; 1] [].
Definition hs3 : dp_packet := tcp_packet 0x10 0 1001 512 [] [].

Lemma hs1_segment : is_segment hs1 (Segment 2 0xffffffff 0 65535 0 0x87).
Proof. apply tcp_readyb_segment; by vm_compute. Qed.

Lemma hs2_segment : is_segment hs2 (Segment 0x12 1000 0 8192 0 0x82).
Proof. apply tcp_readyb_segment; by vm_compute. Qed.

Lemma hs3_segment : is_segment hs3 (Segment 0x10 0 1001 512 0 0).
Proof. apply tcp_readyb_segment; by vm_compute. Qed.

Definition sample_ct : conntrack := timeout_policy_init (Conntrack [] true).

Lemma handshake_establishes_witness :
  exists c1 c2 c3, tcp_new_conn sample_ct hs1 10 0 = Some c1 /\
    tcp_conn_update sample_ct c1 hs2 true 20 = Some (CT_UPDATE_VALID, c2) /\
    tcp_conn_update sample_ct c2 hs3 false 30 = Some (CT_UPDATE_VALID, c3) /\
    pstate (peer0 c3) = CT_DPIF_TCPS_ESTABLISHED /\ pstate (peer1 c3) = CT_DPIF_TCPS_ESTABLISHED /\
    expiration (up c3) = 30 + u32 (conn_timeout sample_ct (up c3) CT_TM_TCP_ESTABLISHED * 1000).
Proof.
  apply (handshake_establishes sample_ct hs1 hs2 hs3 _ _ _ 10 20 30 0 hs1_segment hs2_segment hs3_segment); reflexivity.
Defined.


(** A reset whose sequence number is two off. *)
Definition blind_rst : dp_packet := tcp_packet 0x14 7 1000 0 [] [].

Lemma blind_rst_segment : is_segment blind_rst (Segment 0x14 7 1000 0 0 0).
Proof. apply tcp_readyb_segment; by vm_compute. Qed.

