(* ===== verification/ConntrackTimeouts.v ===== *)
(** * Connection tracking: timeouts

    The timeout policies against a finite map, the time that a connection is
    given, and two places where a value does not fit its type. *)

From S2P Require Import Prelude Util Hash MetaFlow Packet PacketProps Conntrack ConntrackProps ConntrackTheorems.
From stdpp Require Import prelude list gmap fin_maps.
From coqutil Require Import Datatypes.RecordSetters.
From Stdlib Require Import ZArith Lia.
Import DoubleBraceUpdate.
Open Scope Z_scope.
Open Scope ovs_scope.

(** ** A new policy *)

(** The policy that [timeout_policy_create] stores: what is present in the new
    one, and the default for the rest. *)
Definition stored_policy (new_tp : ct_dpif_timeout_policy) : ct_dpif_timeout_policy :=
  update_existing_tp (init_default_tp (tp_policy_id new_tp)) new_tp.

Lemma update_existing_loop (dst src : ct_dpif_timeout_policy) (n : nat) :
  let r := foldl (fun dst i =>
    if Z.testbit (tp_present src) (Z.of_nat i) then
      dst {{ tp_attrs := <[i := nth i (tp_attrs src) 0]> (tp_attrs dst);
             tp_present := Z.lor (tp_present dst) (Z.shiftl 1 (Z.of_nat i)) }}
    else dst) dst (seq 0 n) in
  (n <= length (tp_attrs dst))%nat ->
  tp_policy_id r = tp_policy_id dst /\ length (tp_attrs r) = length (tp_attrs dst) /\
  forall j, nth j (tp_attrs r) 0 =
    if (j <? n)%nat && Z.testbit (tp_present src) (Z.of_nat j) then nth j (tp_attrs src) 0 else nth j (tp_attrs dst) 0.
Proof.
  cbv zeta. induction n as [|n IH]; intros Hn; [done|]. rewrite seq_S, foldl_app. cbn [foldl]. rewrite Nat.add_0_l.
  destruct IH as (I1 & I2 & I3); [lia|]. set (r := foldl _ dst (seq 0 n)) in *.
  destruct (Z.testbit (tp_present src) (Z.of_nat n)) eqn:E.
  - split; [done|]. change (tp_attrs (apply_update _ _)) with (<[n := nth n (tp_attrs src) 0]> (tp_attrs r)).
    rewrite length_insert. split; [done|]. intros j. rewrite !nth_lookup. destruct (decide (j = n)) as [->|Hne].
    + rewrite list_lookup_insert_eq by lia. rewrite E. destruct (Nat.ltb_spec n (S n)); [|lia]. done.
    + rewrite list_lookup_insert_ne by done. rewrite <- nth_lookup, I3, !nth_lookup.
      destruct (Nat.ltb_spec j n), (Nat.ltb_spec j (S n)); (done || lia).
  - split_and!; [done|done|]. intros j. rewrite I3. destruct (decide (j = n)) as [->|Hne].
    + rewrite E, !andb_false_r. done.
    + destruct (Nat.ltb_spec j n), (Nat.ltb_spec j (S n)); (done || lia).
Qed.

Lemma stored_policy_attrs (new_tp : ct_dpif_timeout_policy) :
  tp_policy_id (stored_policy new_tp) = tp_policy_id new_tp /\
  forall tm, nth (tm_to_ct_dpif_tp tm) (tp_attrs (stored_policy new_tp)) 0 =
    nth (tm_to_ct_dpif_tp tm)
      (if Z.testbit (tp_present new_tp) (Z.of_nat (tm_to_ct_dpif_tp tm)) then tp_attrs new_tp else ct_dpif_netdev_tp_def) 0.
Proof.
  destruct (update_existing_loop (init_default_tp (tp_policy_id new_tp)) new_tp CT_DPIF_TP_ATTR_MAX) as (H1 & H2 & H3); [done|].
  split; [exact H1|]. intros tm. unfold stored_policy, update_existing_tp. rewrite H3.
  replace (tm_to_ct_dpif_tp tm <? CT_DPIF_TP_ATTR_MAX)%nat with true by (by destruct tm). cbn [andb].
  by destruct (Z.testbit _ _).
Qed.

Lemma create_policies (ct : conntrack) (tp : ct_dpif_timeout_policy) :
  timeout_policy_create ct tp = Conntrack (stored_policy tp :: timeout_policies ct) (tcp_seq_chk ct).
Proof. destruct ct. unfold timeout_policy_create, stored_policy. generalize (update_existing_tp (init_default_tp (tp_policy_id tp)) tp). reflexivity. Qed.

#[local] Opaque stored_policy update_existing_tp.

(** ** The policies as a map *)

Definition policies (ct : conntrack) : gmap Z ct_dpif_timeout_policy :=
  list_to_map (map (fun tp => (tp_policy_id tp, tp)) (timeout_policies ct)).

Definition policies_ok (ct : conntrack) : Prop := NoDup (map tp_policy_id (timeout_policies ct)).

Lemma lookup_policies (ct : conntrack) (id : Z) : timeout_policy_lookup ct id = policies ct !! u32 id.
Proof.
  unfold timeout_policy_lookup, policies. induction (timeout_policies ct) as [|tp l IH]; [done|].
  cbn [List.find map list_to_map foldr fst snd]. destruct (Z.eqb_spec (tp_policy_id tp) (u32 id)) as [E|E].
  - by rewrite E, lookup_insert_eq.
  - by rewrite lookup_insert_ne.
Qed.

Lemma remove_policy_ids (l : list ct_dpif_timeout_policy) (id : Z) : map tp_policy_id (remove_policy l id) `sublist_of` map tp_policy_id l.
Proof.
  induction l as [|tp l IH]; [done|]. cbn [remove_policy]. destruct (_ =? _); cbn [map]; [by constructor|by constructor].
Qed.

Lemma remove_policy_map (l : list ct_dpif_timeout_policy) (id : Z) :
  NoDup (map tp_policy_id l) ->
  (list_to_map (map (fun tp => (tp_policy_id tp, tp)) (remove_policy l id)) : gmap Z ct_dpif_timeout_policy) =
  delete (u32 id) (list_to_map (map (fun tp => (tp_policy_id tp, tp)) l)).
Proof.
  induction l as [|tp l IH]; cbn [map remove_policy]; [symmetry; apply delete_empty|]. rewrite NoDup_cons. intros [Hn Hd].
  cbn [list_to_map foldr fst snd]. destruct (Z.eqb_spec (tp_policy_id tp) (u32 id)) as [E|E].
  - rewrite E, delete_insert_id; [done|]. apply not_elem_of_list_to_map_1. rewrite <- E. intros Hin. apply Hn.
    rewrite <- list_fmap_compose in Hin. exact Hin.
  - cbn [map list_to_map foldr fst snd]. by rewrite IH, delete_insert_ne.
Qed.

(** ** Operations *)

Inductive policy_op := Update_policy (new_tp : ct_dpif_timeout_policy) | Delete_policy (id : Z).

Definition policy_op_ok (op : policy_op) : Prop :=
  match op with Update_policy tp => in_width 32 (tp_policy_id tp) | Delete_policy id => True end.

(** The result code and the tracker. *)
Definition do_policy (ct : conntrack) (op : policy_op) : Z * conntrack :=
  match op with
  | Update_policy tp => (0, timeout_policy_update ct tp)
  | Delete_policy id => timeout_policy_delete ct id
  end.

(** The specification: a map from identifiers to the policies as they were given. *)
Definition map_policy (m : gmap Z ct_dpif_timeout_policy) (op : policy_op) : Z * gmap Z ct_dpif_timeout_policy :=
  match op with
  | Update_policy tp => (0, <[tp_policy_id tp := tp]> m)
  | Delete_policy id => (match m !! u32 id with Some _ => 0 | None => ENOENT end, delete (u32 id) m)
  end.

(** A sequence of operations, with their results. *)
Fixpoint run_ops {S : Type} (f : S -> policy_op -> Z * S) (s : S) (ops : list policy_op) : list Z * S :=
  match ops with
  | [] => ([], s)
  | op :: ops => let r := f s op in let rs := run_ops f r.2 ops in (r.1 :: rs.1, rs.2)
  end.

(** The seconds that the policies give: what the policy says, and the default
    where it says nothing or does not exist. *)
Definition spec_timeout (m : gmap Z ct_dpif_timeout_policy) (id : Z) (tm : ct_timeout) : Z :=
  let i := tm_to_ct_dpif_tp tm in
  match m !! u32 id with
  | Some tp => nth i (if Z.testbit (tp_present tp) (Z.of_nat i) then tp_attrs tp else ct_dpif_netdev_tp_def) 0
  | None => nth i ct_dpif_netdev_tp_def 0
  end.

(** The tracker has the policies of the map. *)
Definition refines (ct : conntrack) (m : gmap Z ct_dpif_timeout_policy) : Prop :=
  policies_ok ct /\ policies ct = stored_policy <$> m.

Lemma delete_refines (ct : conntrack) (id : Z) (warn : bool) :
  policies_ok ct ->
  let r := timeout_policy_delete__ ct id warn in
  policies_ok r.2 /\ policies r.2 = delete (u32 id) (policies ct) /\
  r.1 = (match policies ct !! u32 id with Some _ => 0 | None => if warn then ENOENT else 0 end).
Proof.
  intros Hok. cbv zeta. unfold timeout_policy_delete__. rewrite lookup_policies. destruct (policies ct !! u32 id) as [tp|] eqn:E; cbn [fst snd].
  - split_and!; [|by apply remove_policy_map|done]. unfold policies_ok. cbn [timeout_policies apply_update].
    eapply sublist_NoDup; [exact Hok|apply remove_policy_ids].
  - split_and!; [done|by rewrite delete_id|done].
Qed.

Lemma update_refines (ct : conntrack) (tp : ct_dpif_timeout_policy) :
  policies_ok ct -> in_width 32 (tp_policy_id tp) ->
  policies_ok (timeout_policy_update ct tp) /\
  policies (timeout_policy_update ct tp) = <[tp_policy_id tp := stored_policy tp]> (policies ct).
Proof.
  intros Hok Hid. destruct (delete_refines ct (tp_policy_id tp) false Hok) as (H1 & H2 & _).
  unfold timeout_policy_update. rewrite create_policies. set (ct' := (timeout_policy_delete__ ct (tp_policy_id tp) false).2) in *.
  rewrite (wrap_small 32) in H2 by done. destruct (stored_policy_attrs tp) as [Eid _]. split.
  - unfold policies_ok. cbn [timeout_policies map]. apply NoDup_cons. split; [|exact H1].
    rewrite Eid. intros Hin. assert (policies ct' !! tp_policy_id tp = None) as Hn by (by rewrite H2, lookup_delete_eq).
    unfold policies in Hn. apply not_elem_of_list_to_map_2 in Hn. apply Hn. rewrite <- list_fmap_compose. exact Hin.
  - unfold policies at 1. cbn [timeout_policies map list_to_map foldr fst snd].
    change (list_to_map (map (fun tp => (tp_policy_id tp, tp)) (timeout_policies ct'))) with (policies ct').
    rewrite Eid, H2. by rewrite insert_delete_eq.
Qed.

Lemma do_policy_refines (ct : conntrack) (m : gmap Z ct_dpif_timeout_policy) (op : policy_op) :
  refines ct m -> policy_op_ok op ->
  (do_policy ct op).1 = (map_policy m op).1 /\ refines (do_policy ct op).2 (map_policy m op).2.
Proof.
  intros [Hok Hm] Hop. unfold refines. destruct op as [tp|id]; cbn [do_policy map_policy fst snd policy_op_ok] in *.
  - destruct (update_refines ct tp Hok Hop) as [H1 H2]. split; [done|]. split; [done|]. by rewrite H2, Hm, fmap_insert.
  - destruct (delete_refines ct id true Hok) as (H1 & H2 & H3). unfold timeout_policy_delete. rewrite Hm, lookup_fmap in H3.
    split_and!; [rewrite H3; by destruct (m !! u32 id)|done|by rewrite H2, Hm, fmap_delete].
Qed.

Lemma run_ops_refine (ops : list policy_op) (ct : conntrack) (m : gmap Z ct_dpif_timeout_policy) :
  refines ct m -> Forall policy_op_ok ops ->
  (run_ops do_policy ct ops).1 = (run_ops map_policy m ops).1 /\ refines (run_ops do_policy ct ops).2 (run_ops map_policy m ops).2.
Proof.
  intros Hr Hops. revert ct m Hr. induction Hops as [|op ops Hop _ IH]; intros ct m Hr; [done|]. cbn [run_ops fst snd].
  destruct (do_policy_refines ct m op Hr Hop) as [E Hr']. destruct (IH _ _ Hr') as [E' Hr'']. by rewrite E, E'.
Qed.

Definition default_policy : ct_dpif_timeout_policy := TimeoutPolicy DEFAULT_TP_ID 0 (replicate CT_DPIF_TP_ATTR_MAX 0).

Lemma init_refines (ct : conntrack) : refines (timeout_policy_init ct) {[DEFAULT_TP_ID := default_policy]}.
Proof.
  unfold refines, timeout_policy_init. rewrite create_policies. fold default_policy. destruct (stored_policy_attrs default_policy) as [Eid _].
  change (timeout_policies _) with (@nil ct_dpif_timeout_policy). split.
  - apply NoDup_singleton.
  - unfold policies. cbn [timeout_policies map list_to_map foldr fst snd]. by rewrite Eid, map_fmap_singleton.
Qed.

Lemma refines_timeout (ct : conntrack) (m : gmap Z ct_dpif_timeout_policy) (c : conn) (tm : ct_timeout) :
  refines ct m -> conn_timeout ct c tm = spec_timeout m (tp_id c) tm.
Proof.
  intros [_ Hm]. unfold conn_timeout, spec_timeout. rewrite lookup_policies, Hm, lookup_fmap.
  destruct (m !! u32 (tp_id c)) as [tp|]; [|done]. cbn [fmap option_fmap option_map]. by rewrite (proj2 (stored_policy_attrs tp)).
Qed.

(** C23: The timeout policies are a map. For every sequence of updates and
    deletions after [timeout_policy_init], each operation returns what the
    same operation on a finite map returns (only the deletion of an identifier that is
    not there fails, with ENOENT), and afterwards every packet of a connection
    moves its expiration to the time that the connection's policy gives from now: the last
    value set for the attribute, or the default when the policy does not exist
    or does not have it - as long as the timeout is less than
    4,294,968 seconds, so that its milliseconds fit 32 bits. *)
Theorem timeout_policies_refine (ct : conntrack) (ops : list policy_op) :
  Forall policy_op_ok ops ->
  let r := run_ops do_policy (timeout_policy_init ct) ops in
  let m := run_ops map_policy {[DEFAULT_TP_ID := default_policy]} ops in
  r.1 = m.1 /\
  forall c tm now, 0 <= spec_timeout m.2 (tp_id c) tm < 4294968 ->
    conn_update_expiration r.2 c tm now = Conn (now + spec_timeout m.2 (tp_id c) tm * 1000) (tp_id c) /\
    conn_init_expiration r.2 c tm now = Conn (now + spec_timeout m.2 (tp_id c) tm * 1000) (tp_id c).
Proof.
  intros Hops. cbv zeta. destruct (run_ops_refine ops _ _ (init_refines ct) Hops) as [E Hr]. split; [done|].
  intros c tm now Ht. unfold conn_init_expiration, conn_update_expiration. rewrite (refines_timeout _ _ c tm Hr).
  rewrite (wrap_small 32) by (unfold in_width; lia). by destruct c.
Qed.

(** Policy 7, with a timeout for established connections only. *)
Definition sample_policy (seconds : Z) : ct_dpif_timeout_policy :=
  TimeoutPolicy 7 (Z.shiftl 1 (Z.of_nat CT_DPIF_TP_ATTR_TCP_ESTABLISHED)) (replicate CT_DPIF_TP_ATTR_MAX seconds).

Definition sample_ops : list policy_op :=
  [Update_policy (sample_policy 100); Update_policy (sample_policy 60); Delete_policy 9; Delete_policy 0].

Lemma sample_ops_ok : Forall policy_op_ok sample_ops.
Proof. repeat constructor; vm_compute; done. Qed.

Lemma sample_ops_spec :
  let m := run_ops map_policy {[DEFAULT_TP_ID := default_policy]} sample_ops in
  m.1 = [0; 0; ENOENT; 0] /\ spec_timeout m.2 7 CT_TM_TCP_ESTABLISHED = 60 /\ spec_timeout m.2 0 CT_TM_ICMP_FIRST = 60 /\
  spec_timeout m.2 7 CT_TM_TCP_OPENING = 30.
Proof. vm_compute. done. Qed.

Lemma timeout_policies_refine_witness :
  let r := run_ops do_policy sample_ct sample_ops in
  r.1 = [0; 0; ENOENT; 0] /\
  conn_update_expiration r.2 (Conn 0 7) CT_TM_TCP_ESTABLISHED 5 = Conn 60005 7 /\
  conn_init_expiration r.2 (Conn 0 7) CT_TM_TCP_OPENING 5 = Conn 30005 7.
Proof.
  destruct (timeout_policies_refine (Conntrack [] true) sample_ops sample_ops_ok) as [H1 H2].
  destruct sample_ops_spec as (E1 & E2 & _ & E4). cbv zeta in *. split; [exact (eq_trans H1 E1)|]. split.
  - destruct (H2 (Conn 0 7) CT_TM_TCP_ESTABLISHED 5) as [H _]; cbn [tp_id] in *; rewrite E2 in *; [lia|exact H].
  - destruct (H2 (Conn 0 7) CT_TM_TCP_OPENING 5) as [_ H]; cbn [tp_id] in *; rewrite E4 in *; [lia|exact H].
Defined.

(** ** Values that do not fit *)

(** The milliseconds of a timeout are computed in 32 bits: a policy that
    gives established connections 5,000,000 seconds (a value that its
    attribute can have) gives them less than nine days instead, not 57. *)
Theorem long_timeout_wraps :
  let ct := timeout_policy_update sample_ct (sample_policy 5000000) in
  conn_timeout ct (Conn 0 7) CT_TM_TCP_ESTABLISHED = 5000000 /\
  conn_update_expiration ct (Conn 0 7) CT_TM_TCP_ESTABLISHED 0 = Conn 705032704 7 /\
  conn_init_expiration ct (Conn 0 7) CT_TM_TCP_ESTABLISHED 0 = Conn 705032704 7.
Proof. vm_compute. done. Qed.

(** An answer without the window scale option. *)
Definition hs2_unscaled : dp_packet := tcp_packet 0x12 1000 0 8192 [] [].

(** When the answer to a SYN has no window scale option, the window that the
    tracker keeps of the client is scaled back, in 16 bits: the window 65535 of
    a SYN with scale 7 is kept as 512 and becomes 0. *)
Theorem unscaled_window_truncated :
  exists c1 c2, tcp_new_conn sample_ct hs1 10 0 = Some c1 /\ max_win (peer0 c1) = 512 /\
    tcp_conn_update sample_ct c1 hs2_unscaled true 20 = Some (CT_UPDATE_VALID, c2) /\ max_win (peer0 c2) = 0.
Proof.
  exists (ConnTcp (Conn 30010 0) (TcpPeer 0xffffffff 1 512 0x87 CT_DPIF_TCPS_SYN_SENT) (TcpPeer 0 1 1 0 CT_DPIF_TCPS_CLOSED)).
  eexists. split_and!; [vm_compute; reflexivity|reflexivity|vm_compute; reflexivity|reflexivity].
Qed.
