(* ===== verification/ConntrackExtract.v ===== *)
(** * Connection tracking after flow extraction

    The packets that the TCP tracker gets are those in which flow extraction
    found a TCP header: for these it reads nothing outside the packet, and it
    counts the bytes of the segment, not those of the padding. *)

From S2P Require Import Prelude Util Flowmap Hash Miniflow MetaFlow Trie FlowBits FlowFields MetaFields Packet PacketProps MfCtx.
From S2P Require Import FlowExtract ExtractSpec ExtractFields ExtractSim ExtractLayers ExtractProps ExtractPadding ExtractFlags ExtractTheorems.
From S2P Require Import Conntrack ConntrackProps ConntrackTheorems.
From stdpp Require Import prelude list.
From Stdlib Require Import ZArith Lia.
Open Scope Z_scope.
Open Scope ovs_scope.

(** ** What extraction leaves of the packet *)

Section Room.
Context `{Hash}.
Variable limit : Z.
Variable p : list Z.
Hypothesis Hp : Forall is_byte p.

Lemma hashed_data (t : Z) (b : dp_packet) : dp_data (hashed t b) = dp_data b.
Proof.
  assert (forall b', dp_packet_update_rss_hash_ipv4_tcp_udp b = Some b' -> dp_data b' = dp_data b) as H4.
  { unfold dp_packet_update_rss_hash_ipv4_tcp_udp. intros b'. destruct (dp_has_hash b); intros E; by simplify_option_eq. }
  assert (forall b', dp_packet_update_rss_hash_ipv6_tcp_udp b = Some b' -> dp_data b' = dp_data b) as H6.
  { unfold dp_packet_update_rss_hash_ipv6_tcp_udp. intros b'. destruct (dp_has_hash b); intros E; by simplify_option_eq. }
  unfold hashed. destruct (t =? ETH_TYPE_IP); [|destruct (t =? ETH_TYPE_IPV6); [|done]].
  - destruct (dp_packet_update_rss_hash_ipv4_tcp_udp b); [by apply H4|done].
  - destruct (dp_packet_update_rss_hash_ipv6_tcp_udp b); [by apply H6|done].
Qed.

Lemma l4_spec_data (t : Z) (i : l3_info) (b : dp_packet) : dp_data (l4_spec p t i b).2 = dp_data b.
Proof.
  unfold l4_spec. case_match; [|done]. cbn [snd]. unfold transport_spec. repeat case_match; cbn; try done; by rewrite hashed_data.
Qed.

(** The rest of the packet ends where the packet ends. *)
Lemma l2_spec_end (b : dp_packet) (t : Z) (c : cursor) :
  (l2_spec limit p b).2 = Some (t, c) -> (c_data c + c_size c = length p)%nat.
Proof.
  unfold l2_spec. destruct (dp_packet_is_eth b); [|by intros [= <- <-]].
  destruct (Nat.ltb_spec (length p) ETH_HEADER_LEN) as [|H14]; [done|]. unfold ETH_HEADER_LEN in H14.
  destruct (parse_vlan_ok p limit (Cursor 0 (length p))) as (hdrs & c1 & -> & Ha1 & _ & Hs1 & _); [unfold cursor_ok; cbn; lia|cbn; lia|].
  assert (cursor_ok p c1) as Hc1 by (apply (cursor_adv_ok p (Cursor 0 (length p))); [unfold cursor_ok; cbn; lia|done]).
  destruct (parse_ethertype_ok p c1) as (t' & c' & -> & Ha & _); [done|done|]. cbn. intros [= <- <-].
  unfold cursor_adv in *. cbn in *. lia.
Qed.

(** The payload of the network layer and the padding take up the rest. *)
Lemma l3_spec_room (t : Z) (c : cursor) (b b1 : dp_packet) (fs : list field) (i : l3_info) :
  cursor_ok p c -> l3_spec p t c b = (fs, b1, Some i) ->
  0 <= dp_l2_pad_size b1 /\ Z.of_nat (c_data (l3_c i) + c_size (l3_c i)) + dp_l2_pad_size b1 = Z.of_nat (c_data c + c_size c) /\
  dp_data b1 = dp_data b.
Proof.
  intros Hc. unfold l3_spec. destruct (t =? ETH_TYPE_IP); [|destruct (t =? ETH_TYPE_IPV6)].
  - unfold ipv4_spec. destruct (ipv4_sanity_check_ok p (c_data c) (c_size c) Hc) as (r & -> & Hr).
    destruct r as [[ip_len tot_len]|]; [|done]. intros [= <- <- <-]. unfold cursor_ok in *. cbn -[Z.of_nat].
    split_and!; [lia|lia|done].
  - unfold ipv6_spec. destruct (ipv6_sanity_check_ok p (c_data c) (c_size c) Hc) as (r & -> & Hr).
    destruct r; [|done]. destruct (Hr eq_refl) as (H40 & Hlen & _). pose proof (get_nonneg p (c_data c + 4) 2 Hp).
    set (c1 := Cursor _ _). assert (cursor_ok p c1) as Hc1 by in_packet.
    destruct (parse_ipv6_ext_hdrs_chain p c1 (get p (c_data c + 6) 1) 0 Hp Hc1) as ([[] s] & -> & Ha & _); [|done].
    intros [= <- <- <-]. unfold cursor_adv in Ha. cbn [c1 snd c_data c_size] in Ha. cbn [l3_c dp_l2_pad_size pad_of set_ofs dp_data set_l3_ofs].
    split_and!; [lia|lia|done].
  - destruct (_ || _); [done|]. by destruct (t =? ETH_TYPE_NSH).
Qed.
End Room.

(** The packet after extraction, when it gets to the transport layer. *)
Lemma packet_after_transport `{Hash} (limit : Z) (b : dp_packet) (t : Z) (i : l3_info) :
  packet_wf b -> Z.of_nat (length (dp_data b)) < UINT16_MAX -> transport_input limit b = Some (t, i) ->
  let b' := packet_after limit b in
  dp_data b' = dp_data b /\ dp_l4_ofs b' = Z.of_nat (c_data (l3_c i)) /\ 0 <= dp_l2_pad_size b' /\
  Z.of_nat (c_data (l3_c i) + c_size (l3_c i)) + dp_l2_pad_size b' = Z.of_nat (length (dp_data b)).
Proof.
  intros Hwf Hlen Hti. pose proof (pw_data b Hwf) as Hp. cbv zeta. unfold transport_input, packet_after, packet_spec in *.
  fold (restarted b). destruct (restarted_same b) as (Ed & _ & _). set (p := dp_data b) in *.
  pose proof (l2_spec_end limit p (restarted b)) as He. pose proof (l2_spec_packet limit p (restarted b)) as Eb.
  destruct (l2_spec limit p (restarted b)) as [[fs1 b1] [[t1 c1]|]]; [|done]. cbn [fst snd] in *. subst b1.
  specialize (He t1 c1 eq_refl). assert (cursor_ok p c1) as Hc by (unfold cursor_ok; lia).
  destruct (mpls_spec_ip p t1 c1 (restarted b) Hc) as (fs2 & b2 & c2 & Em2 & Hc2 & Hsame & _). rewrite Em2 in *.
  destruct (l3_spec p t1 c2 b2) as [[fs3 b3] [i3|]] eqn:E3; [|done]. injection Hti as -> ->.
  destruct (l3_spec_ip p t c2 b2 b3 fs3 i Hp Hc2 E3) as (Hnm & _ & Hci & _). destruct (Hsame Hnm) as (-> & -> & ->).
  destruct (l3_spec_room p Hp t c1 (restarted b) b3 fs3 i Hc2 E3) as (Hpad & Hroom & Ed3).
  cbn [then_layer]. rewrite Em2. cbn [then_layer]. rewrite E3. cbn [then_layer snd fst].
  pose proof (l4_spec_ofs p t i b3) as Eo. unfold ofs_of in Eo. injection Eo as E1 _ _ E4. rewrite E1, E4, l4_spec_data.
  cbn [set_l4_ofs set_ofs dp_l4_ofs dp_l2_pad_size]. unfold cursor_ok in Hci. rewrite (u16_small p) by (done || lia).
  split_and!; [congruence|done|done|lia].
Qed.

(** The conditions under which extraction sets the TCP fields of a flow. *)
Definition has_tcp (p : list Z) (i : l3_info) : Prop :=
  l3_nw_proto i = IPPROTO_TCP /\ Z.land (l3_nw_frag i) FLOW_NW_FRAG_LATER = 0 /\ tcp_ok p (l3_c i) = true.

Lemma extracted_ready `{Hash} (limit : Z) (b : dp_packet) (t : Z) (i : l3_info) :
  packet_wf b -> Z.of_nat (length (dp_data b)) < UINT16_MAX -> transport_input limit b = Some (t, i) -> has_tcp (dp_data b) i ->
  tcp_ready (packet_after limit b) (c_data (l3_c i)) /\
  sg_len (segment_of (packet_after limit b) (c_data (l3_c i))) =
    Z.of_nat (c_size (l3_c i)) - tcp_len_at (dp_data b) (c_data (l3_c i)).
Proof.
  intros Hwf Hlen Hti (_ & _ & Hok). destruct (packet_after_transport limit b t i Hwf Hlen Hti) as (Ed & E4 & Hpad & Hroom).
  unfold tcp_ok in Hok. fold (tcp_len_at (dp_data b) (c_data (l3_c i))) in Hok.
  assert (0 <= tcp_len_at (dp_data b) (c_data (l3_c i))) as H0.
  { unfold tcp_len_at. pose proof (get_nonneg (dp_data b) (c_data (l3_c i) + 12) 2 (pw_data b Hwf)).
    pose proof (proj2 (Z.shiftr_nonneg (get (dp_data b) (c_data (l3_c i) + 12) 2) 12)). lia. }
  rewrite !andb_true_iff, !Nat.leb_le in Hok. unfold UINT16_MAX in Hlen. split.
  - constructor; rewrite ?Ed; [apply (pw_data b Hwf)|done|unfold UINT16_MAX; lia|done|lia|lia|lia].
  - unfold segment_of. cbn [sg_len]. rewrite Ed. lia.
Qed.


(** The sample segment, with two bytes of padding. *)
Definition padded_syn : dp_packet := sample_packet (sample_md 0 false sample_tuple) (syn_bytes ++ [7; 7]).

Lemma padded_syn_checks :
  transport_input 2 padded_syn = Some (ETH_TYPE_IP, L3Info (Cursor 38 20) 0 0 64 6 0 0) /\ short_mpls 2 padded_syn = false.
Proof. by vm_compute. Qed.

