(* ===== verification/Csum.v ===== *)
(** * Internet checksums

    lib/csum.c and lib/csum.h: the ones' complement checksum of IP, and its
    incremental update when a field of a packet changes.  A checksum is right when
    the 16-bit words it covers, itself included, have a sum that is a positive
    multiple of 65535. *)

From S2P Require Import Prelude Util MetaFlow MetaFields Packet.
From stdpp Require Import prelude list.
From Stdlib Require Import ZArith Lia.
Open Scope Z_scope.
Open Scope ovs_scope.

(** ** The code *)

Definition csum_add16 (partial new : Z) : Z := u32 (partial + new).
Definition csum_add32 (partial new : Z) : Z := u32 (partial + Z.shiftr new 16 + Z.land new 0xffff).

Fixpoint csum_continue (partial : Z) (data : list Z) : Z :=
  match data with
  | a :: b :: data => csum_continue (csum_add16 partial (a * 256 + b)) data
  | [a] => u32 (partial + Z.shiftl a 8)
  | [] => partial
  end.

(** The loop of [csum_finish]. *)
Fixpoint csum_fold (fuel : nat) (partial : Z) : Z :=
  match fuel with
  | O => partial
  | S fuel => if Z.shiftr partial 16 =? 0 then partial else csum_fold fuel (Z.land partial 0xffff + Z.shiftr partial 16)
  end.

(** Two rounds are enough for 32 bits. *)
Definition csum_finish (partial : Z) : Z := u16 (Z.lnot (csum_fold 2 partial)).

Definition csum (data : list Z) : Z := csum_finish (csum_continue 0 data).

Definition recalc_csum16 (old_csum old_u16 new_u16 : Z) : Z :=
  let hc_complement := u16 (Z.lnot old_csum) in
  let m_complement := u16 (Z.lnot old_u16) in
  let m_prime := new_u16 in
  let sum := u32 (hc_complement + m_complement + m_prime) in
  csum_finish sum.

(** The arguments of [recalc_csum16] are truncated to 16 bits. *)
Definition recalc_csum32 (old_csum old_u32 new_u32 : Z) : Z :=
  recalc_csum16 (recalc_csum16 old_csum (u16 old_u32) (u16 new_u32)) (u16 (Z.shiftr old_u32 16)) (u16 (Z.shiftr new_u32 16)).

(** The words of a field that changes, one after the other. *)
Fixpoint recalc_words (recalc : Z -> Z -> Z -> Z) (csum : Z) (old new : list Z) : Z :=
  match old, new with
  | x :: old, y :: new => recalc_words recalc (recalc csum x y) old new
  | _, _ => csum
  end.

Definition recalc_csum48 (old_csum : Z) (old_mac new_mac : list Z) : Z := recalc_words recalc_csum16 old_csum old_mac new_mac.
Definition recalc_csum128 (old_csum : Z) (old_u32 new_in6 : list Z) : Z := recalc_words recalc_csum32 old_csum old_u32 new_in6.

(** ** Sums of words *)

Fixpoint words_sum (data : list Z) : Z :=
  match data with
  | a :: b :: data => a * 256 + b + words_sum data
  | [a] => a * 256
  | [] => 0
  end.

(** [x] is a multiple of 65535. *)
Definition ones (x : Z) : Prop := x mod 65535 = 0.

Section Pairs.
(** Induction over a list two elements at a time. *)
Lemma pairs_ind (P : list Z -> Prop) : P [] -> (forall a, P [a]) -> (forall a b l, P l -> P (a :: b :: l)) -> forall l, P l.
Proof.
  intros H0 H1 H2. fix IH 1. intros [|a [|b l]]; [exact H0|apply H1|]. apply H2, IH.
Qed.
End Pairs.

Lemma words_sum_bounds (data : list Z) : Forall is_byte data -> 0 <= words_sum data <= 65535 * Z.of_nat ((length data + 1) / 2).
Proof.
  induction data as [|a|a b l IH] using pairs_ind; intros H; cbn [words_sum length].
  - cbn. lia.
  - apply Forall_cons in H as [Ha _]. unfold is_byte in Ha. cbn. lia.
  - apply Forall_cons in H as [Ha [Hb Hl]%Forall_cons]. specialize (IH Hl). unfold is_byte in *.
    replace ((S (S (length l)) + 1) / 2)%nat with (S ((length l + 1) / 2)); [lia|].
    replace (S (S (length l)) + 1)%nat with (length l + 1 + 1 * 2)%nat by lia. rewrite Nat.div_add by lia. lia.
Qed.

Lemma csum_continue_sum (partial : Z) (data : list Z) :
  Forall is_byte data -> 0 <= partial -> partial + words_sum data < 2 ^ 32 -> csum_continue partial data = partial + words_sum data.
Proof.
  revert partial. induction data as [|a|a b l IH] using pairs_ind; intros partial H Hp Hlt; cbn [words_sum csum_continue] in *.
  - lia.
  - apply Forall_cons in H as [Ha _]. unfold is_byte in Ha. rewrite Z.shiftl_mul_pow2 by lia. change (2 ^ 8) with 256.
    rewrite wrap_small; [done|]. unfold in_width. lia.
  - apply Forall_cons in H as [Ha [Hb Hl]%Forall_cons]. pose proof (words_sum_bounds l Hl). unfold is_byte in *. unfold csum_add16.
    rewrite wrap_small by (unfold in_width; lia). rewrite IH; [lia|done|lia|lia].
Qed.

(** ** Folding *)

Lemma fold_step (x : Z) : 0 <= x -> Z.land x 0xffff + Z.shiftr x 16 = x - 65535 * (x / 65536).
Proof.
  intros Hx. assert (Z.land x 0xffff = x mod 2 ^ 16) as -> by (by apply (Z.land_ones x 16)). rewrite Z.shiftr_div_pow2 by lia. change (2 ^ 16) with 65536.
  Z.div_mod_to_equations. lia.
Qed.

(** The loop ends with 16 bits that are congruent to the sum, and zero only for zero. *)
Lemma csum_fold_spec (x : Z) :
  in_width 32 x -> let y := csum_fold 2 x in Z.shiftr y 16 = 0 /\ 0 <= y <= 65535 /\ (exists k, y = x - 65535 * k) /\ (y = 0 <-> x = 0).
Proof.
  unfold in_width. intros Hx. cbv zeta. cbn [csum_fold].
  assert (forall z, 0 <= z -> (Z.shiftr z 16 =? 0) = (z <? 65536)) as Hs.
  { intros z Hz. rewrite Z.shiftr_div_pow2 by lia. change (2 ^ 16) with 65536.
    destruct (Z.eqb_spec (z / 65536) 0), (Z.ltb_spec z 65536); try done; exfalso; Z.div_mod_to_equations; lia. }
  assert (forall z, 0 <= z < 65536 -> Z.shiftr z 16 = 0) as Hz by (intros z ?; rewrite Z.shiftr_div_pow2 by lia; by apply Z.div_small).
  rewrite (fold_step x) by lia. rewrite Hs by lia. destruct (Z.ltb_spec x 65536).
  - split_and!; [apply Hz; lia|lia|lia|exists 0; lia|lia].
  - set (y := x - 65535 * (x / 65536)). assert (1 <= y <= 131070) as Hy by (unfold y; Z.div_mod_to_equations; lia).
    rewrite Hs by lia. destruct (Z.ltb_spec y 65536).
    + split_and!; [apply Hz; lia|lia|lia|by eexists|lia].
    + rewrite fold_step by lia. assert (y / 65536 = 1) as -> by (Z.div_mod_to_equations; lia).
      split_and!; [apply Hz; lia|lia|lia|exists (x / 65536 + 1); unfold y; lia|lia].
Qed.

Lemma not16 (x : Z) : 0 <= x <= 65535 -> u16 (Z.lnot x) = 65535 - x.
Proof.
  intros Hx. unfold wrap, Z.lnot. change (2 ^ 16) with 65536. replace (Z.pred (- x)) with (65535 - x + (-1) * 65536) by lia.
  rewrite Z.mod_add by lia. apply Z.mod_small. lia.
Qed.

Lemma csum_finish_spec (x : Z) :
  in_width 32 x -> 0 <= csum_finish x <= 65535 /\ (exists k, csum_finish x = 65535 * k - x) /\ (csum_finish x = 65535 <-> x = 0).
Proof.
  intros Hx. destruct (csum_fold_spec x Hx) as (_ & H1 & (k & H2) & H3). unfold csum_finish. set (y := csum_fold 2 x) in *. clearbody y.
  rewrite not16 by lia. split_and!; [lia|lia|exists (k + 1); lia|lia].
Qed.

(** The checksum over data that holds the right checksum is zero. *)
Lemma csum_finish_zero (x : Z) : in_width 32 x -> csum_finish x = 0 <-> ones x /\ x <> 0.
Proof.
  intros Hx. destruct (csum_finish_spec x Hx) as (H1 & (k & H2) & H3). unfold ones. split.
  - intros E. split; [|lia]. replace x with (k * 65535) by lia. apply Z.mod_mul. lia.
  - intros [E Hne]. Z.div_mod_to_equations. lia.
Qed.

(** ** Updates *)

Lemma recalc_csum16_spec (c m m' : Z) :
  in_width 16 c -> in_width 16 m -> in_width 16 m' -> in_width 16 (recalc_csum16 c m m') /\ exists k, recalc_csum16 c m m' + m' = c + m + 65535 * k.
Proof.
  unfold in_width. change (2 ^ 16) with 65536. intros Hc Hm Hm'. unfold recalc_csum16.
  rewrite !not16 by lia. rewrite (wrap_small 32) by (unfold in_width; lia).
  destruct (csum_finish_spec (65535 - c + (65535 - m) + m')) as (H1 & (k & H2) & _); [unfold in_width; lia|].
  split; [lia|]. exists (k - 2). lia.
Qed.

(** The sum of the two words of 32 bits. *)
Definition halves (x : Z) : Z := x / 65536 + x mod 65536.

Lemma recalc_csum32_spec (c m m' : Z) :
  in_width 16 c -> in_width 32 m -> in_width 32 m' ->
  in_width 16 (recalc_csum32 c m m') /\ exists k, recalc_csum32 c m m' + halves m' = c + halves m + 65535 * k.
Proof.
  intros Hc Hm Hm'. unfold recalc_csum32. assert (forall x, in_width 16 (u16 x)) as Hw by (intros; by apply wrap_width).
  destruct (recalc_csum16_spec c (u16 m) (u16 m')) as [H1 [k1 E1]]; [done..|].
  destruct (recalc_csum16_spec _ (u16 (Z.shiftr m 16)) (u16 (Z.shiftr m' 16)) H1) as [H2 [k2 E2]]; [done..|].
  split; [done|]. exists (k1 + k2). unfold halves.
  assert (forall x, in_width 32 x -> u16 (Z.shiftr x 16) = x / 65536) as Hh.
  { intros x Hx. unfold in_width in Hx. rewrite Z.shiftr_div_pow2 by lia. apply (wrap_small 16). unfold in_width.
    change (2 ^ 16) with 65536. change (2 ^ 32) with 4294967296 in Hx. split; Z.div_mod_to_equations; lia. }
  rewrite !Hh in E2 |- * by done. revert E1 E2. generalize (recalc_csum16 c (u16 m) (u16 m')). intros c1. unfold wrap. change (2 ^ 16) with 65536.
  intros E1 E2. lia.
Qed.

Definition sum_by (h : Z -> Z) (l : list Z) : Z := fold_right (fun x s => h x + s) 0 l.

Lemma recalc_words_spec (recalc : Z -> Z -> Z -> Z) (w : Z) (h : Z -> Z) (c : Z) (l l' : list Z) :
  (forall c m m', in_width 16 c -> in_width w m -> in_width w m' ->
     in_width 16 (recalc c m m') /\ exists k, recalc c m m' + h m' = c + h m + 65535 * k) ->
  in_width 16 c -> Forall (in_width w) l -> Forall (in_width w) l' -> length l = length l' ->
  in_width 16 (recalc_words recalc c l l') /\ exists k, recalc_words recalc c l l' + sum_by h l' = c + sum_by h l + 65535 * k.
Proof.
  intros Hr. revert c l'. induction l as [|m l IH]; intros c [|m' l'] Hc Hl Hl' Hlen; try done; cbn [recalc_words sum_by fold_right].
  - split; [done|]. exists 0. lia.
  - apply Forall_cons in Hl as [Hm Hl]. apply Forall_cons in Hl' as [Hm' Hl']. destruct (Hr c m m' Hc Hm Hm') as [H1 [k1 E1]].
    destruct (IH (recalc c m m') l' H1 Hl Hl') as [H2 [k2 E2]]; [cbn in Hlen; lia|]. split; [done|]. exists (k1 + k2).
    fold (sum_by h l) (sum_by h l'). lia.
Qed.
