(* ===== verification/Crc32c.v ===== *)
(** * The checksum of SCTP

    lib/crc32c.c: a CRC by a table of 256 entries, one step for every byte.  The
    reference divides bit by bit by the polynomial that the comment over the table
    names. *)

From S2P Require Import Prelude Util.
From stdpp Require Import prelude list.
From Stdlib Require Import ZArith Lia.
Open Scope Z_scope.
Open Scope ovs_scope.

(** ** The code *)

Definition crc32Table : list Z :=
  [0x00000000; 0xf26b8303; 0xe13b70f7; 0x1350f3f4; 0xc79a971f; 0x35f1141c; 0x26a1e7e8; 0xd4ca64eb;
   0x8ad958cf; 0x78b2dbcc; 0x6be22838; 0x9989ab3b; 0x4d43cfd0; 0xbf284cd3; 0xac78bf27; 0x5e133c24;
   0x105ec76f; 0xe235446c; 0xf165b798; 0x030e349b; 0xd7c45070; 0x25afd373; 0x36ff2087; 0xc494a384;
   0x9a879fa0; 0x68ec1ca3; 0x7bbcef57; 0x89d76c54; 0x5d1d08bf; 0xaf768bbc; 0xbc267848; 0x4e4dfb4b;
   0x20bd8ede; 0xd2d60ddd; 0xc186fe29; 0x33ed7d2a; 0xe72719c1; 0x154c9ac2; 0x061c6936; 0xf477ea35;
   0xaa64d611; 0x580f5512; 0x4b5fa6e6; 0xb93425e5; 0x6dfe410e; 0x9f95c20d; 0x8cc531f9; 0x7eaeb2fa;
   0x30e349b1; 0xc288cab2; 0xd1d83946; 0x23b3ba45; 0xf779deae; 0x05125dad; 0x1642ae59; 0xe4292d5a;
   0xba3a117e; 0x4851927d; 0x5b016189; 0xa96ae28a; 0x7da08661; 0x8fcb0562; 0x9c9bf696; 0x6ef07595;
   0x417b1dbc; 0xb3109ebf; 0xa0406d4b; 0x522bee48; 0x86e18aa3; 0x748a09a0; 0x67dafa54; 0x95b17957;
   0xcba24573; 0x39c9c670; 0x2a993584; 0xd8f2b687; 0x0c38d26c; 0xfe53516f; 0xed03a29b; 0x1f682198;
   0x5125dad3; 0xa34e59d0; 0xb01eaa24; 0x42752927; 0x96bf4dcc; 0x64d4cecf; 0x77843d3b; 0x85efbe38;
   0xdbfc821c; 0x2997011f; 0x3ac7f2eb; 0xc8ac71e8; 0x1c661503; 0xee0d9600; 0xfd5d65f4; 0x0f36e6f7;
   0x61c69362; 0x93ad1061; 0x80fde395; 0x72966096; 0xa65c047d; 0x5437877e; 0x4767748a; 0xb50cf789;
   0xeb1fcbad; 0x197448ae; 0x0a24bb5a; 0xf84f3859; 0x2c855cb2; 0xdeeedfb1; 0xcdbe2c45; 0x3fd5af46;
   0x7198540d; 0x83f3d70e; 0x90a324fa; 0x62c8a7f9; 0xb602c312; 0x44694011; 0x5739b3e5; 0xa55230e6;
   0xfb410cc2; 0x092a8fc1; 0x1a7a7c35; 0xe811ff36; 0x3cdb9bdd; 0xceb018de; 0xdde0eb2a; 0x2f8b6829;
   0x82f63b78; 0x709db87b; 0x63cd4b8f; 0x91a6c88c; 0x456cac67; 0xb7072f64; 0xa457dc90; 0x563c5f93;
   0x082f63b7; 0xfa44e0b4; 0xe9141340; 0x1b7f9043; 0xcfb5f4a8; 0x3dde77ab; 0x2e8e845f; 0xdce5075c;
   0x92a8fc17; 0x60c37f14; 0x73938ce0; 0x81f80fe3; 0x55326b08; 0xa759e80b; 0xb4091bff; 0x466298fc;
   0x1871a4d8; 0xea1a27db; 0xf94ad42f; 0x0b21572c; 0xdfeb33c7; 0x2d80b0c4; 0x3ed04330; 0xccbbc033;
   0xa24bb5a6; 0x502036a5; 0x4370c551; 0xb11b4652; 0x65d122b9; 0x97baa1ba; 0x84ea524e; 0x7681d14d;
   0x2892ed69; 0xdaf96e6a; 0xc9a99d9e; 0x3bc21e9d; 0xef087a76; 0x1d63f975; 0x0e330a81; 0xfc588982;
   0xb21572c9; 0x407ef1ca; 0x532e023e; 0xa145813d; 0x758fe5d6; 0x87e466d5; 0x94b49521; 0x66df1622;
   0x38cc2a06; 0xcaa7a905; 0xd9f75af1; 0x2b9cd9f2; 0xff56bd19; 0x0d3d3e1a; 0x1e6dcdee; 0xec064eed;
   0xc38d26c4; 0x31e6a5c7; 0x22b65633; 0xd0ddd530; 0x0417b1db; 0xf67c32d8; 0xe52cc12c; 0x1747422f;
   0x49547e0b; 0xbb3ffd08; 0xa86f0efc; 0x5a048dff; 0x8ecee914; 0x7ca56a17; 0x6ff599e3; 0x9d9e1ae0;
   0xd3d3e1ab; 0x21b862a8; 0x32e8915c; 0xc083125f; 0x144976b4; 0xe622f5b7; 0xf5720643; 0x07198540;
   0x590ab964; 0xab613a67; 0xb831c993; 0x4a5a4a90; 0x9e902e7b; 0x6cfbad78; 0x7fab5e8c; 0x8dc0dd8f;
   0xe330a81a; 0x115b2b19; 0x020bd8ed; 0xf0605bee; 0x24aa3f05; 0xd6c1bc06; 0xc5914ff2; 0x37faccf1;
   0x69e9f0d5; 0x9b8273d6; 0x88d28022; 0x7ab90321; 0xae7367ca; 0x5c18e4c9; 0x4f48173d; 0xbd23943e;
   0xf36e6f75; 0x0105ec76; 0x12551f82; 0xe03e9c81; 0x34f4f86a; 0xc69f7b69; 0xd5cf889d; 0x27a40b9e;
   0x79b737ba; 0x8bdcb4b9; 0x988c474d; 0x6ae7c44e; 0xbe2da0a5; 0x4c4623a6; 0x5f16d052; 0xad7d5351].

Definition uint32_byteswap (crc : Z) : Z :=
  Z.lor (Z.lor (u32 (Z.shiftl (Z.land crc 0x000000ff) 24)) (u32 (Z.shiftl (Z.land crc 0x0000ff00) 8)))
        (Z.lor (Z.shiftr (Z.land crc 0x00ff0000) 8) (Z.shiftr (Z.land crc 0xff000000) 24)).

Definition crc32c_step (crc data : Z) : Z := Z.lxor (nth (Z.to_nat (Z.land (Z.lxor crc data) 0xff)) crc32Table 0) (Z.shiftr crc 8).

Definition crc32c (data : list Z) : Z := u32 (Z.lnot (uint32_byteswap (foldl crc32c_step 0xffffffff data))).

(** ** The reference *)

Fixpoint reflect (n : nat) (x : Z) : Z :=
  match n with O => 0 | S n => Z.lor (Z.shiftl (Z.b2z (Z.testbit x 0)) (Z.of_nat n)) (reflect n (Z.shiftr x 1)) end.

(** The polynomial 0x1EDC6F41, for bits that come with the lowest one first. *)
Definition crc_poly : Z := reflect 32 0x1EDC6F41.

(** One step of the division. *)
Definition divide (x : Z) : Z := Z.lxor (Z.shiftr x 1) (if Z.testbit x 0 then crc_poly else 0).
Definition crc_bit (crc : Z) (bit : bool) : Z := divide (Z.lxor crc (Z.b2z bit)).

Definition byte_bits (x : Z) : list bool := map (fun i => Z.testbit x (Z.of_nat i)) (seq 0 8).

Definition crc_reference (data : list Z) : Z := foldl crc_bit 0xffffffff (concat (map byte_bits data)).

(** ** Both agree *)

Lemma divide_lxor (x y : Z) : divide (Z.lxor x y) = Z.lxor (divide x) (divide y).
Proof.
  unfold divide. rewrite Z.shiftr_lxor, Z.lxor_spec. generalize (Z.shiftr x 1) (Z.shiftr y 1) crc_poly. intros a b p.
  destruct (Z.testbit x 0), (Z.testbit y 0); cbn [xorb]; rewrite ?Z.lxor_0_r; try done.
  - rewrite (Z.lxor_comm b p), Z.lxor_assoc, <- (Z.lxor_assoc p p b), Z.lxor_nilpotent, Z.lxor_0_l. done.
  - by rewrite Z.lxor_assoc, (Z.lxor_comm b p), <- Z.lxor_assoc.
  - by rewrite Z.lxor_assoc.
Qed.

Lemma iter_divide_lxor (n : nat) (x y : Z) : Nat.iter n divide (Z.lxor x y) = Z.lxor (Nat.iter n divide x) (Nat.iter n divide y).
Proof. induction n as [|n IH]; [done|]. by rewrite !Nat.iter_succ, IH, divide_lxor. Qed.

Lemma divide_double (x : Z) : divide (Z.shiftl x 1) = x.
Proof.
  unfold divide. rewrite Z.shiftl_spec by lia. rewrite Z.testbit_neg_r, Z.lxor_0_r by lia. by rewrite Z.shiftr_shiftl_l, Z.shiftl_0_r by lia.
Qed.

Lemma iter_divide_shift (n : nat) (x : Z) : Nat.iter n divide (Z.shiftl x (Z.of_nat n)) = x.
Proof.
  induction n as [|n IH]; [apply Z.shiftl_0_r|]. rewrite Nat.iter_succ_r. replace (Z.of_nat (S n)) with (Z.of_nat n + 1) by lia.
  by rewrite <- Z.shiftl_shiftl, divide_double by lia.
Qed.

(** The bits of [x] from [k] on, one at a time. *)
Lemma crc_bits (n k : nat) (crc x : Z) :
  foldl crc_bit crc (map (fun i => Z.testbit x (Z.of_nat i)) (seq k n)) =
  Nat.iter n divide (Z.lxor crc (wrap (Z.of_nat n) (Z.shiftr x (Z.of_nat k)))).
Proof.
  revert k crc. induction n as [|n IH]; intros k crc.
  { cbn [seq map foldl Nat.iter nat_rect]. unfold wrap. by rewrite Z.mod_1_r, Z.lxor_0_r. }
  cbn [seq map foldl]. rewrite IH, Nat.iter_succ_r. f_equal. unfold crc_bit.
  assert (wrap (Z.of_nat (S n)) (Z.shiftr x (Z.of_nat k)) =
          Z.lxor (Z.b2z (Z.testbit x (Z.of_nat k))) (Z.shiftl (wrap (Z.of_nat n) (Z.shiftr x (Z.of_nat (S k)))) 1)) as ->.
  - apply Z.bits_inj'. intros i Hi. rewrite Z.lxor_spec, Z.shiftl_spec, !wrap_testbit, Z.shiftr_spec by lia.
    destruct (Z.eq_dec i 0) as [->|Hne].
    + rewrite Z.b2z_bit0, (Z.testbit_neg_r _ (0 - 1)) by lia. destruct (Z.ltb_spec 0 (Z.of_nat (S n))); [|lia]. rewrite Z.add_0_l, andb_false_r, xorb_false_r. done.
    + rewrite Z.shiftr_spec by lia. assert (Z.testbit (Z.b2z (Z.testbit x (Z.of_nat k))) i = false) as ->.
      { destruct (Z.testbit x (Z.of_nat k)); [by apply (in_width_high 1); [|lia]|apply Z.bits_0]. }
      rewrite xorb_false_l. replace (i - 1 + Z.of_nat (S k)) with (i + Z.of_nat k) by lia. f_equal.
      destruct (Z.ltb_spec i (Z.of_nat (S n))), (Z.ltb_spec (i - 1) (Z.of_nat n)); (done || lia).
  - rewrite <- (Z.lxor_assoc crc), (divide_lxor (Z.lxor crc _) (Z.shiftl _ _)), divide_double. done.
Qed.

Lemma crc32Table_divides : forallb (fun i => Nat.iter 8 divide (Z.of_nat i) =? nth i crc32Table 0) (seq 0 256) = true.
Proof. by vm_compute. Qed.

Lemma crc32c_step_bits (crc x : Z) : is_byte x -> crc32c_step crc x = foldl crc_bit crc (byte_bits x).
Proof.
  intros Hx. unfold byte_bits. rewrite (crc_bits 8 0), Z.shiftr_0_r, (wrap_small (Z.of_nat 8)) by exact Hx. set (y := Z.lxor crc x).
  assert (y = Z.lxor (Z.shiftl (Z.shiftr y 8) (Z.of_nat 8)) (Z.land y 0xff)) as ->.
  { apply Z.bits_inj'. intros i Hi. change 0xff with (Z.ones 8). rewrite Z.lxor_spec, Z.shiftl_spec, Z.land_spec, testbit_ones by lia.
    destruct (Z.ltb_spec i 8).
    - rewrite (Z.testbit_neg_r _ (i - Z.of_nat 8)), xorb_false_l by lia. by rewrite andb_true_r.
    - rewrite Z.shiftr_spec, andb_false_r, xorb_false_r by lia. f_equal. lia. }
  rewrite iter_divide_lxor, iter_divide_shift, Z.lxor_comm. unfold crc32c_step. fold y.
  assert (Z.shiftr crc 8 = Z.shiftr y 8) as ->.
  { apply Z.bits_inj'. intros i Hi. unfold y. rewrite !Z.shiftr_spec, Z.lxor_spec by lia. by rewrite (in_width_high 8 x), xorb_false_r by (exact Hx || lia). }
  f_equal. set (i := Z.land y 255). assert (0 <= i < 256) as Hi.
  { unfold i. change 255 with (Z.ones 8). rewrite Z.land_ones by lia. by apply Z.mod_pos_bound. }
  pose proof crc32Table_divides as Ht. rewrite forallb_forall in Ht. specialize (Ht (Z.to_nat i)). rewrite in_seq, Z.eqb_eq, Z2Nat.id in Ht by lia.
  symmetry. apply Ht. lia.
Qed.

Lemma crc32c_bits (crc : Z) (data : list Z) : Forall is_byte data -> foldl crc32c_step crc data = foldl crc_bit crc (concat (map byte_bits data)).
Proof.
  revert crc. induction data as [|x data IH]; intros crc H; [done|]. apply Forall_cons in H as [Hx H]. cbn [foldl map concat].
  by rewrite foldl_app, IH, crc32c_step_bits.
Qed.

(** ** Changes are detected *)

Lemma divide_width (x : Z) : in_width 32 x -> in_width 32 (divide x).
Proof.
  intros Hx. unfold divide. apply in_width_lxor; [done|by apply in_width_shiftr|]. destruct (Z.testbit x 0); [|done].
  assert (crc_poly = 0x82f63b78) as -> by (by vm_compute). done.
Qed.

(** No other number of 32 bits has the remainder 0. *)
Lemma divide_zero (x : Z) : in_width 32 x -> divide x = 0 -> x = 0.
Proof.
  intros Hx. unfold divide. rewrite Z.lxor_eq_0_iff, Z.shiftr_div_pow2 by lia. unfold in_width in Hx. change (2 ^ 32) with 4294967296 in Hx. change (2 ^ 1) with 2.
  assert (crc_poly = 0x82f63b78) as -> by (by vm_compute). rewrite Z.bit0_odd. destruct (Z.odd x) eqn:Eo.
  - intros E. exfalso. Z.div_mod_to_equations. lia.
  - intros E. assert (Z.even x = true) as [k Hk]%Z.even_spec by (by rewrite <- Z.negb_odd, Eo). Z.div_mod_to_equations. lia.
Qed.

Lemma divide_inj (x y : Z) : in_width 32 x -> in_width 32 y -> divide x = divide y -> x = y.
Proof.
  intros Hx Hy E. apply Z.lxor_eq, divide_zero; [by apply in_width_lxor|]. by rewrite divide_lxor, E, Z.lxor_nilpotent.
Qed.

Lemma iter_divide_inj (n : nat) (x y : Z) :
  in_width 32 x -> in_width 32 y -> (Nat.iter n divide x = Nat.iter n divide y -> x = y) /\ in_width 32 (Nat.iter n divide x).
Proof.
  intros Hx Hy. revert x y Hx Hy. induction n as [|n IH]; intros x y Hx Hy; [done|]. rewrite !Nat.iter_succ_r.
  destruct (IH (divide x) (divide y)) as [H1 H2]; [by apply divide_width|by apply divide_width|]. split; [|done]. intros E. apply divide_inj; auto.
Qed.

Lemma crc32c_step_iter (crc x : Z) : is_byte x -> crc32c_step crc x = Nat.iter 8 divide (Z.lxor crc x).
Proof.
  intros Hx. rewrite crc32c_step_bits by done. unfold byte_bits. by rewrite (crc_bits 8 0), Z.shiftr_0_r, (wrap_small (Z.of_nat 8)) by exact Hx.
Qed.

Lemma crc_width (crc : Z) (data : list Z) : in_width 32 crc -> Forall is_byte data -> in_width 32 (foldl crc32c_step crc data).
Proof.
  revert crc. induction data as [|x data IH]; intros crc Hc H; [done|]. apply Forall_cons in H as [Hx H]. cbn [foldl]. apply IH; [|done].
  rewrite crc32c_step_iter by done. apply (iter_divide_inj 8 _ 0); [|done]. apply in_width_lxor; [done|done|]. by apply (in_width_mono 8).
Qed.

(** The same bytes after different registers. *)
Lemma crc_same_tail (a b : Z) (data : list Z) :
  in_width 32 a -> in_width 32 b -> Forall is_byte data -> foldl crc32c_step a data = foldl crc32c_step b data -> a = b.
Proof.
  revert a b. induction data as [|x data IH]; intros a b Ha Hb H E; [done|]. apply Forall_cons in H as [Hx H]. cbn [foldl] in E.
  assert (in_width 32 x) as Hx32 by (by apply (in_width_mono 8)).
  apply IH in E; [|by apply (crc_width a [x]); [|constructor]|by apply (crc_width b [x]); [|constructor]|done]. rewrite !crc32c_step_iter in E by done.
  apply iter_divide_inj in E; [|by apply in_width_lxor..]. apply (f_equal (fun z => Z.lxor z x)) in E.
  by rewrite !Z.lxor_assoc, Z.lxor_nilpotent, !Z.lxor_0_r in E.
Qed.

(** Up to four bytes at once. *)
Lemma crc_burst (crc : Z) (m : list Z) : Forall is_byte m -> foldl crc32c_step crc m = Nat.iter (8 * length m) divide (Z.lxor crc (le_value m)).
Proof.
  revert crc. induction m as [|x m IH]; intros crc H; [by rewrite Z.lxor_0_r|]. apply Forall_cons in H as [Hx H]. cbn [foldl length le_value].
  rewrite IH, crc32c_step_iter by done. replace (8 * S (length m))%nat with (8 * length m + 8)%nat by lia. rewrite Nat.iter_add. f_equal.
  rewrite <- (iter_divide_shift 8 (le_value m)) at 1. rewrite <- iter_divide_lxor. f_equal. rewrite Z.lxor_assoc. f_equal.
  apply Z.bits_inj'. intros i Hi. rewrite testbit_byte_app, Z.lxor_spec, Z.shiftl_spec by done. destruct (Z.ltb_spec i 8).
  - by rewrite (Z.testbit_neg_r _ (i - Z.of_nat 8)), xorb_false_r by lia.
  - by rewrite (in_width_high 8 x), xorb_false_l by done.
Qed.

Lemma mask_byte (x k i : Z) : 0 <= k -> 0 <= i -> Z.testbit (Z.land x (Z.shiftl (Z.ones 8) k)) i = (k <=? i) && (i <? k + 8) && Z.testbit x i.
Proof.
  intros Hk Hi. rewrite Z.land_spec, Z.shiftl_spec by done. destruct (Z.leb_spec k i); cbn [andb].
  - rewrite testbit_ones by lia. rewrite andb_comm. f_equal. destruct (Z.ltb_spec (i - k) 8), (Z.ltb_spec i (k + 8)); (done || lia).
  - rewrite (Z.testbit_neg_r _ (i - k)) by lia. apply andb_false_r.
Qed.

Lemma uint32_byteswap_bits (x i : Z) :
  0 <= i < 32 -> Z.testbit (uint32_byteswap x) i = Z.testbit x (if i <? 8 then i + 24 else if i <? 16 then i + 8 else if i <? 24 then i - 8 else i - 24).
Proof.
  intros Hi. unfold uint32_byteswap. change 0x000000ff with (Z.shiftl (Z.ones 8) 0). change 0x0000ff00 with (Z.shiftl (Z.ones 8) 8).
  change 0x00ff0000 with (Z.shiftl (Z.ones 8) 16). change 0xff000000 with (Z.shiftl (Z.ones 8) 24).
  rewrite !Z.lor_spec, !wrap_testbit, !Z.shiftl_spec, !Z.shiftr_spec by lia. destruct (Z.ltb_spec i 32); [|lia]. cbn [andb].
  assert (forall k j, 0 <= k -> j < 0 -> Z.testbit (Z.land x (Z.shiftl (Z.ones 8) k)) j = false) as Hneg by (intros; by apply Z.testbit_neg_r).
  destruct (Z.ltb_spec i 8); [|destruct (Z.ltb_spec i 16); [|destruct (Z.ltb_spec i 24)]];
    repeat first [rewrite mask_byte by lia | rewrite Hneg by lia];
    repeat match goal with |- context [?a <=? ?b] => destruct (Z.leb_spec a b); try lia | |- context [?a <? ?b] => destruct (Z.ltb_spec a b); try lia end;
    cbn [andb orb]; rewrite ?orb_false_r; done.
Qed.

Lemma uint32_byteswap_inj (x y : Z) : in_width 32 x -> in_width 32 y -> uint32_byteswap x = uint32_byteswap y -> x = y.
Proof.
  intros Hx Hy E. apply Z.bits_inj'. intros i Hi. destruct (Z.lt_ge_cases i 32); [|by rewrite !(in_width_high 32) by done].
  set (j := if i <? 8 then i + 24 else if i <? 16 then i + 8 else if i <? 24 then i - 8 else i - 24).
  assert (0 <= j < 32 /\ i = if j <? 8 then j + 24 else if j <? 16 then j + 8 else if j <? 24 then j - 8 else j - 24) as [Hj Ej].
  { unfold j. repeat match goal with |- context [?a <? ?b] => destruct (Z.ltb_spec a b); try lia end. }
  apply (f_equal (fun z => Z.testbit z j)) in E. rewrite !uint32_byteswap_bits in E by done. by rewrite <- Ej in E.
Qed.

Lemma uint32_byteswap_width (x : Z) : in_width 32 x -> in_width 32 (uint32_byteswap x).
Proof.
  intros Hx. unfold uint32_byteswap. repeat apply in_width_lor; try done; try (by apply wrap_width); apply in_width_shiftr; try done; by apply in_width_land.
Qed.

Lemma crc32c_inj (a b : list Z) :
  Forall is_byte a -> Forall is_byte b -> crc32c a = crc32c b -> foldl crc32c_step 0xffffffff a = foldl crc32c_step 0xffffffff b.
Proof.
  intros Ha Hb E. apply uint32_byteswap_inj; [by apply crc_width|by apply crc_width|]. unfold crc32c in E.
  pose proof (uint32_byteswap_width _ (crc_width 0xffffffff a ltac:(done) Ha)) as H1.
  pose proof (uint32_byteswap_width _ (crc_width 0xffffffff b ltac:(done) Hb)) as H2. revert E H1 H2.
  generalize (uint32_byteswap (foldl crc32c_step 0xffffffff a)) (uint32_byteswap (foldl crc32c_step 0xffffffff b)). intros x y.
  unfold wrap, Z.lnot, in_width. change (2 ^ 32) with 4294967296. intros E H1 H2. Z.div_mod_to_equations. lia.
Qed.

Lemma le_value_inj (a b : list Z) : Forall is_byte a -> Forall is_byte b -> length a = length b -> le_value a = le_value b -> a = b.
Proof.
  revert b. induction a as [|x a IH]; intros [|y b] Ha Hb Hl E; try done. apply Forall_cons in Ha as [Hx Ha]. apply Forall_cons in Hb as [Hy Hb].
  cbn [le_value length] in *. unfold is_byte in *. assert (x = y /\ le_value a = le_value b) as [-> E'] by lia. f_equal. apply IH; (done || lia).
Qed.

Lemma le_value_word (a : list Z) : Forall is_byte a -> (length a <= 4)%nat -> in_width 32 (le_value a).
Proof.
  intros Ha Hl. assert (le_value a < 256 ^ Z.of_nat (length a)) as Hlt.
  { clear Hl. induction Ha as [|x a Hx Ha IH]; [done|]. cbn [le_value length]. rewrite Nat2Z.inj_succ, Z.pow_succ_r by lia. unfold is_byte in Hx. lia. }
  pose proof (le_value_nonneg a Ha). split; [done|]. change (2 ^ 32) with (256 ^ 4). eapply Z.lt_le_trans; [exact Hlt|]. apply Z.pow_le_mono_r; lia.
Qed.

Lemma forall_app3 (a m c : list Z) : Forall is_byte (a ++ m ++ c) -> Forall is_byte a /\ Forall is_byte m /\ Forall is_byte c.
Proof. rewrite !Forall_app. done. Qed.

(** ** Theorem *)

(** The table gives the division by the polynomial of its comment, bit by bit, and no change of at most four
    bytes in a row of a packet goes without notice. *)
Theorem crc32c_detects_bursts (a m m' c : list Z) :
  Forall is_byte (a ++ m ++ c) -> Forall is_byte m' -> length m' = length m -> (length m <= 4)%nat ->
  crc32c (a ++ m ++ c) = u32 (Z.lnot (uint32_byteswap (crc_reference (a ++ m ++ c)))) /\
  (crc32c (a ++ m ++ c) = crc32c (a ++ m' ++ c) <-> m = m').
Proof.
  intros H Hm' Hl H4. destruct (forall_app3 _ _ _ H) as (Ha & Hm & Hc). split; [unfold crc32c, crc_reference; by rewrite crc32c_bits|].
  split; [|by intros ->]. intros E. apply crc32c_inj in E; [|done|by repeat apply Forall_app_2]. rewrite !foldl_app in E.
  assert (in_width 32 (foldl crc32c_step 0xffffffff a)) as Wa by (by apply crc_width).
  apply crc_same_tail in E; [|by apply crc_width..|done]. rewrite (crc_burst _ m), (crc_burst _ m'), Hl in E by done.
  assert (forall x, Forall is_byte x -> (length x <= 4)%nat -> in_width 32 (Z.lxor (foldl crc32c_step 0xffffffff a) (le_value x))) as Hw.
  { intros x Hx Hx4. apply in_width_lxor; [lia|exact Wa|]. by apply le_value_word. }
  apply iter_divide_inj in E; [|by apply Hw|apply Hw; (done || lia)].
  apply le_value_inj; [done|done|done|]. apply (f_equal (Z.lxor (foldl crc32c_step 0xffffffff a))) in E.
  by rewrite <- !Z.lxor_assoc, Z.lxor_nilpotent, !Z.lxor_0_l in E.
Qed.

(** The test vector of the CRC, the bytes of 123456789. *)
Lemma crc32c_detects_bursts_witness :
  crc32c [49; 50; 51; 52; 53; 54; 55; 56; 57] = 0x839206e3 /\
  (crc32c ([49; 50; 51] ++ [52; 53; 54; 55] ++ [56; 57]) = crc32c ([49; 50; 51] ++ [55; 53; 54; 52] ++ [56; 57]) <-> [52; 53; 54; 55] = [55; 53; 54; 52]).
Proof.
  split; [by vm_compute|].
  apply (crc32c_detects_bursts [49; 50; 51] [52; 53; 54; 55] [55; 53; 54; 52] [56; 57]); [repeat constructor; done|repeat constructor; done|done|cbn; lia].
Defined.
