(* ===== verification/PacketSet.v ===== *)
(** * Changing packets

    lib/packets.c and lib/dp-packet.c: the functions that rewrite header fields
    keep the checksums of IP, TCP, UDP and ICMP up to date, or mark them for later
    when the packet says that they were right; [dp_packet_ol_send_prepare] fills
    them in before the packet is sent.  VLAN and MPLS headers are pushed and
    popped.

    A packet is the record of [Packet]; a read or a store outside of it is [None].
    The connection in the metadata, which these functions forget, is not part of
    the model. *)

From S2P Require Import Prelude Util MetaFlow MetaFields Packet Conntrack Csum Crc32c.
From stdpp Require Import prelude list.
From coqutil Require Import Datatypes.RecordSetters.
From Stdlib Require Import ZArith Lia.
Import DoubleBraceUpdate.
Open Scope Z_scope.
Open Scope ovs_scope.

(** ** Stores *)

Definition patch (p : list Z) (o : nat) (bs : list Z) : list Z := take o p ++ bs ++ drop (o + length bs) p.

Definition wr (b : dp_packet) (o n : nat) (x : Z) : option dp_packet :=
  if (o + n <=? length (dp_data b))%nat then Some (b {{ dp_data := patch (dp_data b) o (be_bytes n x) }}) else None.

Definition ld (b : dp_packet) (o n : nat) : option Z := rd (dp_data b) o n.

(** The bytes that a checksum of [n] bytes at [o] reads. *)
Definition ldn (b : dp_packet) (o : nat) (n : Z) : option (list Z) :=
  if Z.of_nat o + n <=? Z.of_nat (length (dp_data b)) then Some (bytes_at (dp_data b) o (Z.to_nat n)) else None.

(** ** Layers and offload flags *)

Definition dp_packet_l3 (b : dp_packet) : option nat := if dp_l3_ofs b =? UINT16_MAX then None else Some (Z.to_nat (dp_l3_ofs b)).
Definition dp_packet_l2_5 (b : dp_packet) : option nat := if dp_l2_5_ofs b =? UINT16_MAX then None else Some (Z.to_nat (dp_l2_5_ofs b)).

Definition dp_packet_l3_size (b : dp_packet) : Z :=
  match dp_packet_l3 b with
  | Some o => u64 (Z.of_nat (length (dp_data b)) - Z.of_nat o - dp_l2_pad_size b)
  | None => 0
  end.

Definition DP_PACKET_OL_IP_CKSUM_GOOD : Z := Z.shiftl 1 7.
Definition DP_PACKET_OL_IP_CKSUM_BAD : Z := Z.shiftl 1 4.
Definition DP_PACKET_OL_IP_CKSUM_MASK : Z := Z.lor DP_PACKET_OL_IP_CKSUM_GOOD DP_PACKET_OL_IP_CKSUM_BAD.
Definition DP_PACKET_OL_L4_CKSUM_GOOD : Z := Z.shiftl 1 8.
Definition DP_PACKET_OL_L4_CKSUM_BAD : Z := Z.shiftl 1 3.
Definition DP_PACKET_OL_L4_CKSUM_MASK : Z := Z.lor DP_PACKET_OL_L4_CKSUM_GOOD DP_PACKET_OL_L4_CKSUM_BAD.

Definition dp_packet_ip_checksum_valid (b : dp_packet) : bool := negb (Z.land (dp_offloads b) DP_PACKET_OL_IP_CKSUM_GOOD =? 0).
Definition dp_packet_ip_checksum_partial (b : dp_packet) : bool :=
  Z.land (dp_offloads b) DP_PACKET_OL_IP_CKSUM_MASK =? DP_PACKET_OL_IP_CKSUM_MASK.
Definition dp_packet_ip_checksum_set_partial (b : dp_packet) : dp_packet :=
  set_offloads b (Z.lor (dp_offloads b) DP_PACKET_OL_IP_CKSUM_MASK).
Definition dp_packet_ip_checksum_set_good (b : dp_packet) : dp_packet :=
  set_offloads b (Z.lor (Z.ldiff (dp_offloads b) DP_PACKET_OL_IP_CKSUM_BAD) DP_PACKET_OL_IP_CKSUM_GOOD).

Definition dp_packet_l4_checksum_valid (b : dp_packet) : bool := negb (Z.land (dp_offloads b) DP_PACKET_OL_L4_CKSUM_GOOD =? 0).
Definition dp_packet_l4_checksum_partial (b : dp_packet) : bool :=
  Z.land (dp_offloads b) DP_PACKET_OL_L4_CKSUM_MASK =? DP_PACKET_OL_L4_CKSUM_MASK.
Definition dp_packet_l4_checksum_set_partial (b : dp_packet) : dp_packet :=
  set_offloads b (Z.lor (dp_offloads b) DP_PACKET_OL_L4_CKSUM_MASK).
Definition dp_packet_l4_checksum_set_good (b : dp_packet) : dp_packet :=
  set_offloads b (Z.lor (Z.ldiff (dp_offloads b) DP_PACKET_OL_L4_CKSUM_BAD) DP_PACKET_OL_L4_CKSUM_GOOD).

(** ** IPv4 *)

(** A checksum at [o] that is brought up to date. *)
Definition update_csum (b : dp_packet) (o : nat) (recalc : Z -> Z) : option dp_packet :=
  old ← ld b o 2;
  wr b o 2 (recalc old).

(** The same for UDP, where 0 stands for no checksum. *)
Definition update_udp_csum (b : dp_packet) (o : nat) (recalc : Z -> Z) : option dp_packet :=
  old ← ld b o 2;
  if old =? 0 then Some b
  else
    b ← wr b o 2 (recalc old);
    new ← ld b o 2;
    if new =? 0 then wr b o 2 0xffff else Some b.

Definition packet_set_ipv4_addr (b : dp_packet) (addr : nat) (new_addr : Z) : option dp_packet :=
  nh ← dp_packet_l3 b;
  old_addr ← ld b addr 4;
  let l4_size := dp_packet_l4_size b in
  ip_proto ← ld b (nh + 9) 1;
  b ← (if (ip_proto =? IPPROTO_TCP) && (Z.of_nat TCP_HEADER_LEN <=? l4_size) then
         if dp_packet_l4_checksum_valid b then Some (dp_packet_l4_checksum_set_partial b)
         else th ← dp_packet_l4 b; update_csum b (th + 16) (fun c => recalc_csum32 c old_addr new_addr)
       else if (ip_proto =? IPPROTO_UDP) && (Z.of_nat UDP_HEADER_LEN <=? l4_size) then
         if dp_packet_l4_checksum_valid b then Some (dp_packet_l4_checksum_set_partial b)
         else uh ← dp_packet_l4 b; update_udp_csum b (uh + 6) (fun c => recalc_csum32 c old_addr new_addr)
       else Some b);
  b ← (if dp_packet_ip_checksum_valid b then Some (dp_packet_ip_checksum_set_partial b)
       else update_csum b (nh + 10) (fun c => recalc_csum32 c old_addr new_addr));
  wr b addr 4 new_addr.

Definition packet_set_ipv4 (b : dp_packet) (src dst tos ttl : Z) : option dp_packet :=
  nh ← dp_packet_l3 b;
  ip_src ← ld b (nh + 12) 4;
  b ← (if negb (ip_src =? src) then packet_set_ipv4_addr b (nh + 12) src else Some b);
  ip_dst ← ld b (nh + 16) 4;
  b ← (if negb (ip_dst =? dst) then packet_set_ipv4_addr b (nh + 16) dst else Some b);
  ip_tos ← ld b (nh + 1) 1;
  b ← (if negb (ip_tos =? tos) then
         b ← (if dp_packet_ip_checksum_valid b then Some (dp_packet_ip_checksum_set_partial b)
              else update_csum b (nh + 10) (fun c => recalc_csum16 c ip_tos tos));
         wr b (nh + 1) 1 tos
       else Some b);
  ip_ttl ← ld b (nh + 8) 1;
  if negb (ip_ttl =? ttl) then
    b ← (if dp_packet_ip_checksum_valid b then Some (dp_packet_ip_checksum_set_partial b)
         else update_csum b (nh + 10) (fun c => recalc_csum16 c (Z.shiftl ip_ttl 8) (Z.shiftl ttl 8)));
    wr b (nh + 8) 1 ttl
  else Some b.

(** ** Ports and ICMP *)

Definition packet_set_port (b : dp_packet) (port : nat) (new_port : Z) (csum : option nat) : option dp_packet :=
  old ← ld b port 2;
  if negb (old =? new_port) then
    b ← match csum with
        | Some c => update_csum b c (fun x => recalc_csum16 x old new_port)
        | None => Some b
        end;
    wr b port 2 new_port
  else Some b.

Definition packet_set_tcp_port (b : dp_packet) (src dst : Z) : option dp_packet :=
  th ← dp_packet_l4 b;
  let '(b, csum) := if dp_packet_l4_checksum_valid b then (dp_packet_l4_checksum_set_partial b, None) else (b, Some (th + 16)%nat) in
  b ← packet_set_port b th src csum;
  packet_set_port b (th + 2) dst csum.

Definition packet_set_udp_port (b : dp_packet) (src dst : Z) : option dp_packet :=
  uh ← dp_packet_l4 b;
  if dp_packet_l4_checksum_valid b then
    let b := dp_packet_l4_checksum_set_partial b in
    b ← packet_set_port b uh src None;
    packet_set_port b (uh + 2) dst None
  else
    udp_csum ← ld b (uh + 6) 2;
    let csum := if udp_csum =? 0 then None else Some (uh + 6)%nat in
    b ← packet_set_port b uh src csum;
    b ← packet_set_port b (uh + 2) dst csum;
    match csum with
    | Some c => new ← ld b c 2; if new =? 0 then wr b c 2 0xffff else Some b
    | None => Some b
    end.

(** The checksum keeps the error that it had. *)
Definition packet_set_sctp_port (b : dp_packet) (src dst : Z) : option dp_packet :=
  sh ← dp_packet_l4 b;
  if dp_packet_l4_checksum_valid b then
    let b := dp_packet_l4_checksum_set_partial b in
    b ← wr b sh 2 src;
    wr b (sh + 2) 2 dst
  else
    let tp_len := u16 (dp_packet_l4_size b) in
    old_csum ← ld b (sh + 8) 4;
    b ← wr b (sh + 8) 4 0;
    data ← ldn b sh tp_len;
    let old_correct_csum := crc32c data in
    b ← wr b sh 2 src;
    b ← wr b (sh + 2) 2 dst;
    data ← ldn b sh tp_len;
    let new_csum := crc32c data in
    wr b (sh + 8) 4 (Z.lxor (Z.lxor old_csum old_correct_csum) new_csum).

Definition packet_set_icmp (b : dp_packet) (type code : Z) : option dp_packet :=
  ih ← dp_packet_l4 b;
  icmp_type ← ld b ih 1;
  icmp_code ← ld b (ih + 1) 1;
  let orig_tc := Z.lor (Z.shiftl icmp_type 8) icmp_code in
  let new_tc := Z.lor (Z.shiftl type 8) code in
  if negb (orig_tc =? new_tc) then
    b ← wr b ih 1 type;
    b ← wr b (ih + 1) 1 code;
    update_csum b (ih + 2) (fun c => recalc_csum16 c orig_tc new_tc)
  else Some b.

Definition IGMP_HOST_MEMBERSHIP_QUERY : Z := 0x11.

Definition packet_set_igmp3_query (b : dp_packet) (max_resp group : Z) (srs : bool) (qrv qqic : Z) : option dp_packet :=
  igh ← dp_packet_l4 b;
  type ← ld b igh 1;
  igh_max_resp ← ld b (igh + 1) 1;
  let orig_type_max_resp := Z.lor (Z.shiftl type 8) igh_max_resp in
  let new_type_max_resp := Z.lor (Z.shiftl IGMP_HOST_MEMBERSHIP_QUERY 8) max_resp in
  b ← (if negb (orig_type_max_resp =? new_type_max_resp) then
         b ← wr b igh 1 IGMP_HOST_MEMBERSHIP_QUERY;
         b ← wr b (igh + 1) 1 max_resp;
         update_csum b (igh + 2) (fun c => recalc_csum16 c orig_type_max_resp new_type_max_resp)
       else Some b);
  old_group ← ld b (igh + 4) 4;
  b ← (if negb (old_group =? group) then
         b ← wr b (igh + 4) 4 group;
         update_csum b (igh + 2) (fun c => recalc_csum32 c old_group group)
       else Some b);
  let qrv := if 7 <? qrv then 0 else qrv in
  srs_qrv ← ld b (igh + 8) 1;
  igh_qqic ← ld b (igh + 9) 1;
  let orig_srs_qrv_qqic := Z.lor (Z.shiftl srs_qrv 8) igh_qqic in
  let new_srs_qrv_qqic := Z.lor (Z.lor (Z.shiftl (Z.b2z srs) 11) (Z.shiftl qrv 8)) qqic in
  if negb (orig_srs_qrv_qqic =? new_srs_qrv_qqic) then
    b ← wr b (igh + 8) 1 (Z.lor (Z.shiftl (Z.b2z srs) 3) qrv);
    b ← wr b (igh + 9) 1 qqic;
    update_csum b (igh + 2) (fun c => recalc_csum16 c orig_srs_qrv_qqic new_srs_qrv_qqic)
  else Some b.

Definition IP_ECN_CE : Z := 3.

Definition IP_ECN_set_ce (b : dp_packet) (is_ipv6 : bool) : option dp_packet :=
  nh ← dp_packet_l3 b;
  if is_ipv6 then
    ip6 ← ld b nh 4;
    wr b nh 4 (Z.lor ip6 (Z.shiftl IP_ECN_CE 20))
  else
    ip_tos ← ld b (nh + 1) 1;
    let tos := Z.lor ip_tos IP_ECN_CE in
    if negb (ip_tos =? tos) then
      b ← (if dp_packet_ip_checksum_valid b then Some (dp_packet_ip_checksum_set_partial b)
           else update_csum b (nh + 10) (fun c => recalc_csum16 c ip_tos tos));
      wr b (nh + 1) 1 tos
    else Some b.

(** ** IPv6 *)

Definition IP6F_OFF_MASK : Z := 0xfff8.
Definition IP6F_MORE_FRAG : Z := 0x0001.

(** The loop of [packet_rh_present]: whether there is a routing header, with the values left in [*nexthdr] and
    [*first_frag].  A header is at least 8 bytes long, so the bytes of the packet are fuel enough. *)
Fixpoint packet_rh_present_loop (fuel : nat) (p : list Z) (data : nat) (remaining nexthdr : Z) (first_frag : bool) : option (bool * Z * bool) :=
  match fuel with
  | O => None
  | S fuel =>
      if negb (nexthdr =? IPPROTO_HOPOPTS) && negb (nexthdr =? IPPROTO_ROUTING) && negb (nexthdr =? IPPROTO_DSTOPTS)
         && negb (nexthdr =? IPPROTO_AH) && negb (nexthdr =? IPPROTO_FRAGMENT) then Some (false, nexthdr, first_frag)
      else if remaining <? 8 then Some (false, nexthdr, first_frag)
      else
        let next (nexthdr : Z) (first_frag : bool) (len : Z) :=
          if remaining <? len then Some (false, nexthdr, first_frag)
          else packet_rh_present_loop fuel p (data + Z.to_nat len) (remaining - len) nexthdr first_frag in
        if nexthdr =? IPPROTO_AH then
          nxt ← rd p data 1; len ← rd p (data + 1) 1; next nxt first_frag ((len + 2) * 4)
        else if nexthdr =? IPPROTO_FRAGMENT then
          offlg ← rd p (data + 2) 2;
          nxt ← rd p data 1;
          next nxt ((Z.land offlg IP6F_OFF_MASK =? 0) && negb (Z.land offlg IP6F_MORE_FRAG =? 0)) 8
        else if nexthdr =? IPPROTO_ROUTING then
          segleft ← rd p (data + 3) 1;
          if 0 <? segleft then Some (true, nexthdr, first_frag)
          else nxt ← rd p data 1; len ← rd p (data + 1) 1; next nxt first_frag ((len + 1) * 8)
        else nxt ← rd p data 1; len ← rd p (data + 1) 1; next nxt first_frag ((len + 1) * 8)
  end.

Definition packet_rh_present (b : dp_packet) (nexthdr : Z) (first_frag : bool) : option (bool * Z * bool) :=
  data ← dp_packet_l3 b;
  let remaining := u64 (dp_l4_ofs b - dp_l3_ofs b) in
  if remaining <? Z.of_nat IPV6_HEADER_LEN then Some (false, nexthdr, first_frag)
  else
    nxt ← ld b (data + 6) 1;
    packet_rh_present_loop (S (length (dp_data b))) (dp_data b) (data + IPV6_HEADER_LEN) (remaining - Z.of_nat IPV6_HEADER_LEN) nxt first_frag.

(** The words of an IPv6 address. *)
Definition be32s (addr : Z) : list Z := map (fun k => u32 (Z.shiftr addr k)) [96; 64; 32; 0].

Definition ICMP6_HEADER_LEN : nat := 4.

Definition packet_update_csum128 (b : dp_packet) (proto : Z) (addr : nat) (new_addr : Z) : option dp_packet :=
  old ← ld b addr 16;
  let l4_size := dp_packet_l4_size b in
  let recalc := fun c => recalc_csum128 c (be32s old) (be32s new_addr) in
  if (proto =? IPPROTO_TCP) && (Z.of_nat TCP_HEADER_LEN <=? l4_size) then
    if dp_packet_l4_checksum_valid b then Some (dp_packet_l4_checksum_set_partial b)
    else th ← dp_packet_l4 b; update_csum b (th + 16) recalc
  else if (proto =? IPPROTO_UDP) && (Z.of_nat UDP_HEADER_LEN <=? l4_size) then
    if dp_packet_l4_checksum_valid b then Some (dp_packet_l4_checksum_set_partial b)
    else uh ← dp_packet_l4 b; update_udp_csum b (uh + 6) recalc
  else if (proto =? IPPROTO_ICMPV6) && (Z.of_nat ICMP6_HEADER_LEN <=? l4_size) then
    icmp ← dp_packet_l4 b; update_csum b (icmp + 2) recalc
  else Some b.

Definition packet_set_ipv6_addr (b : dp_packet) (proto : Z) (addr : nat) (new_addr : Z) (recalculate_csum : bool) : option dp_packet :=
  b ← (if recalculate_csum then packet_update_csum128 b proto addr new_addr else Some b);
  wr b addr 16 new_addr.

Definition packet_set_ipv6_flow_label (b : dp_packet) (flow_label : nat) (flow_key : Z) : option dp_packet :=
  old_label ← ld b flow_label 4;
  wr b flow_label 4 (Z.lor (Z.land old_label (u32 (Z.lnot IPV6_LABEL_MASK))) flow_key).

Definition packet_set_ipv6_tc (b : dp_packet) (flow_label : nat) (tc : Z) : option dp_packet :=
  old_label ← ld b flow_label 4;
  wr b flow_label 4 (Z.lor (Z.land old_label 0xF00FFFFF) (Z.shiftl tc 20)).

Definition packet_set_ipv6 (b : dp_packet) (src dst key_tc key_fl key_hl : Z) : option dp_packet :=
  nh ← dp_packet_l3 b;
  '(rh_present, proto, recalc_csum) ← packet_rh_present b 0 true;
  ip6_src ← ld b (nh + 8) 16;
  b ← (if negb (ip6_src =? src) then packet_set_ipv6_addr b proto (nh + 8) src recalc_csum else Some b);
  ip6_dst ← ld b (nh + 24) 16;
  b ← (if negb (ip6_dst =? dst) then packet_set_ipv6_addr b proto (nh + 24) dst (negb rh_present && recalc_csum) else Some b);
  b ← packet_set_ipv6_tc b nh key_tc;
  b ← packet_set_ipv6_flow_label b nh key_fl;
  wr b (nh + 7) 1 key_hl.

(** ** Checksums of the whole payload *)

Definition IP_IHL (ip_ihl_ver : Z) : Z := Z.land ip_ihl_ver 15.
Definition IP_VER (ip_ihl_ver : Z) : Z := Z.shiftr ip_ihl_ver 4.

Definition packet_csum_pseudoheader (b : dp_packet) (ip : nat) : option Z :=
  ip_src ← ld b (ip + 12) 4;
  let partial := csum_add32 0 ip_src in
  ip_dst ← ld b (ip + 16) 4;
  let partial := csum_add32 partial ip_dst in
  ip_proto ← ld b (ip + 9) 1;
  let partial := csum_add16 partial ip_proto in
  ip_tot_len ← ld b (ip + 2) 2;
  ip_ihl_ver ← ld b ip 1;
  Some (csum_add16 partial (u16 (ip_tot_len - IP_IHL ip_ihl_ver * 4))).

Definition packet_csum_pseudoheader6 (b : dp_packet) (ip6 : nat) : option Z :=
  ip6_src ← ldn b (ip6 + 8) 16;
  let partial := csum_continue 0 ip6_src in
  ip6_dst ← ldn b (ip6 + 24) 16;
  let partial := csum_continue partial ip6_dst in
  ip6_nxt ← ld b (ip6 + 6) 1;
  let partial := csum_add16 partial ip6_nxt in
  ip6_plen ← ld b (ip6 + 4) 2;
  Some (csum_add16 partial ip6_plen).

Definition packet_csum_upperlayer6 (b : dp_packet) (ip6 data : nat) (l4_protocol l4_size : Z) : option Z :=
  let l4_size := u16 l4_size in
  ip6_src ← ldn b (ip6 + 8) 16;
  let partial := csum_continue 0 ip6_src in
  ip6_dst ← ldn b (ip6 + 24) 16;
  let partial := csum_continue partial ip6_dst in
  let partial := csum_add16 partial l4_protocol in
  let partial := csum_add16 partial l4_size in
  payload ← ldn b data l4_size;
  Some (csum_finish (csum_continue partial payload)).

(** What a receiver checks: [checksum_valid] of lib/conntrack.c. *)
Definition checksum_valid (b : dp_packet) (dl_type nw_proto : Z) (data : nat) (size : Z) (l3 : nat) : option bool :=
  if dl_type =? ETH_TYPE_IP then
    csum ← packet_csum_pseudoheader b l3;
    payload ← ldn b data size;
    Some (csum_finish (csum_continue csum payload) =? 0)
  else if dl_type =? ETH_TYPE_IPV6 then
    csum ← packet_csum_upperlayer6 b l3 data nw_proto size;
    Some (csum =? 0)
  else Some false.

(** ** Neighbour discovery *)

Definition ND_MSG_LEN : nat := 24.

(** The halves of an Ethernet address. *)
Definition be16s (mac : Z) : list Z := map (fun k => u16 (Z.shiftr mac k)) [32; 16; 0].

Definition packet_set_nd_ext (b : dp_packet) (rso_flags opt_type : Z) : option dp_packet :=
  let bytes_remain := to_int (dp_packet_l4_size b) in
  if u64 bytes_remain <? Z.of_nat ND_MSG_LEN then Some b
  else
    pseudo_hdr_csum ← match dp_packet_l3 b with Some nh => packet_csum_pseudoheader6 b nh | None => Some 0 end;
    ns ← dp_packet_l4 b;
    b ← wr b (ns + 4) 4 rso_flags;
    b ← wr b (ns + ND_MSG_LEN) 1 opt_type;
    b ← wr b (ns + 2) 2 0;
    icmph ← ldn b ns (u64 bytes_remain);
    wr b (ns + 2) 2 (csum_finish (csum_continue pseudo_hdr_csum icmph)).

(** The option is [opt]; each one is at least 8 bytes long. *)
Fixpoint packet_set_nd_loop (fuel : nat) (b : dp_packet) (ns opt : nat) (bytes_remain sll tll : Z) : option dp_packet :=
  match fuel with
  | O => None
  | S fuel =>
      if ND_LLA_OPT_LEN <=? bytes_remain then
        opt_len ← ld b (opt + 1) 1;
        if negb (opt_len =? 0) then
          opt_type ← ld b opt 1;
          let set_mac (lla : Z) :=
            mac ← ld b (opt + 2) 6;
            if negb (mac =? lla) then
              b ← update_csum b (ns + 2) (fun c => recalc_csum48 c (be16s mac) (be16s lla));
              wr b (opt + 2) 6 lla
            else Some b in
          if (opt_type =? ND_OPT_SOURCE_LINKADDR) && (opt_len =? 1) then set_mac sll
          else if (opt_type =? ND_OPT_TARGET_LINKADDR) && (opt_len =? 1) then set_mac tll
          else
            let opt := (opt + Z.to_nat (opt_len * ND_LLA_OPT_LEN))%nat in
            opt_len ← ld b (opt + 1) 1;
            packet_set_nd_loop fuel b ns opt (bytes_remain - opt_len * ND_LLA_OPT_LEN) sll tll
        else Some b
      else Some b
  end.

Definition packet_set_nd (b : dp_packet) (target sll tll : Z) : option dp_packet :=
  let bytes_remain := to_int (dp_packet_l4_size b) in
  if u64 bytes_remain <? Z.of_nat ND_MSG_LEN then Some b
  else
    ns ← dp_packet_l4 b;
    let opt := (ns + ND_MSG_LEN)%nat in
    let bytes_remain := bytes_remain - Z.of_nat ND_MSG_LEN in
    ns_target ← ld b (ns + 8) 16;
    b ← (if negb (ns_target =? target) then packet_set_ipv6_addr b IPPROTO_ICMPV6 (ns + 8) target true else Some b);
    packet_set_nd_loop (S (length (dp_data b))) b ns opt bytes_remain sll tll.
