(* ===== verification/PacketOffload.v ===== *)
(** * Checksums left for later

    lib/dp-packet.c and lib/packets.c: a checksum that the packet marks as partial
    is filled in by [dp_packet_ol_send_prepare] unless the device that sends the
    packet does it. *)

From S2P Require Import Prelude Util MetaFlow MetaFields Packet Conntrack Csum Crc32c PacketSet.
From stdpp Require Import prelude list.
From Stdlib Require Import ZArith Lia.
Open Scope Z_scope.
Open Scope ovs_scope.

(** ** The layers of a tunnelled packet *)

Definition DP_PACKET_OL_SHIFT_COUNT : Z := 16.
Definition DP_PACKET_OL_INNER_IP_CKSUM_BAD : Z := Z.shiftl DP_PACKET_OL_IP_CKSUM_BAD DP_PACKET_OL_SHIFT_COUNT.
Definition DP_PACKET_OL_INNER_IP_CKSUM_GOOD : Z := Z.shiftl DP_PACKET_OL_IP_CKSUM_GOOD DP_PACKET_OL_SHIFT_COUNT.
Definition DP_PACKET_OL_INNER_IP_CKSUM_MASK : Z := Z.lor DP_PACKET_OL_INNER_IP_CKSUM_GOOD DP_PACKET_OL_INNER_IP_CKSUM_BAD.
Definition DP_PACKET_OL_INNER_L4_CKSUM_BAD : Z := Z.shiftl DP_PACKET_OL_L4_CKSUM_BAD DP_PACKET_OL_SHIFT_COUNT.
Definition DP_PACKET_OL_INNER_L4_CKSUM_GOOD : Z := Z.shiftl DP_PACKET_OL_L4_CKSUM_GOOD DP_PACKET_OL_SHIFT_COUNT.
Definition DP_PACKET_OL_INNER_L4_CKSUM_MASK : Z := Z.lor DP_PACKET_OL_INNER_L4_CKSUM_GOOD DP_PACKET_OL_INNER_L4_CKSUM_BAD.
Definition DP_PACKET_OL_INNER_L4_PROTO_TCP : Z := Z.shiftl DP_PACKET_OL_L4_PROTO_TCP DP_PACKET_OL_SHIFT_COUNT.
Definition DP_PACKET_OL_INNER_L4_PROTO_UDP : Z := Z.shiftl DP_PACKET_OL_L4_PROTO_UDP DP_PACKET_OL_SHIFT_COUNT.
Definition DP_PACKET_OL_INNER_L4_PROTO_MASK : Z := Z.lor DP_PACKET_OL_INNER_L4_PROTO_TCP DP_PACKET_OL_INNER_L4_PROTO_UDP.

Definition dp_packet_inner_l3 (b : dp_packet) : option nat :=
  if dp_inner_l3_ofs b =? UINT16_MAX then None else Some (Z.to_nat (dp_inner_l3_ofs b)).
Definition dp_packet_inner_l4 (b : dp_packet) : option nat :=
  if dp_inner_l4_ofs b =? UINT16_MAX then None else Some (Z.to_nat (dp_inner_l4_ofs b)).

Definition dp_packet_inner_l3_size (b : dp_packet) : Z :=
  match dp_packet_inner_l3 b with
  | Some o => u64 (Z.of_nat (length (dp_data b)) - Z.of_nat o - dp_l2_pad_size b)
  | None => 0
  end.
Definition dp_packet_inner_l4_size (b : dp_packet) : Z :=
  match dp_packet_inner_l4 b with
  | Some o => u64 (Z.of_nat (length (dp_data b)) - Z.of_nat o - dp_l2_pad_size b)
  | None => 0
  end.

Definition dp_packet_inner_ip_checksum_partial (b : dp_packet) : bool :=
  Z.land (dp_offloads b) DP_PACKET_OL_INNER_IP_CKSUM_MASK =? DP_PACKET_OL_INNER_IP_CKSUM_MASK.
Definition dp_packet_inner_ip_checksum_set_good (b : dp_packet) : dp_packet :=
  set_offloads b (Z.lor (Z.ldiff (dp_offloads b) DP_PACKET_OL_INNER_IP_CKSUM_BAD) DP_PACKET_OL_INNER_IP_CKSUM_GOOD).
Definition dp_packet_inner_l4_checksum_partial (b : dp_packet) : bool :=
  Z.land (dp_offloads b) DP_PACKET_OL_INNER_L4_CKSUM_MASK =? DP_PACKET_OL_INNER_L4_CKSUM_MASK.
Definition dp_packet_inner_l4_checksum_set_good (b : dp_packet) : dp_packet :=
  set_offloads b (Z.lor (Z.ldiff (dp_offloads b) DP_PACKET_OL_INNER_L4_CKSUM_BAD) DP_PACKET_OL_INNER_L4_CKSUM_GOOD).
Definition dp_packet_inner_l4_proto_tcp (b : dp_packet) : bool :=
  Z.land (dp_offloads b) DP_PACKET_OL_INNER_L4_PROTO_MASK =? DP_PACKET_OL_INNER_L4_PROTO_TCP.
Definition dp_packet_inner_l4_proto_udp (b : dp_packet) : bool :=
  Z.land (dp_offloads b) DP_PACKET_OL_INNER_L4_PROTO_MASK =? DP_PACKET_OL_INNER_L4_PROTO_UDP.
Definition dp_packet_inner_l4_proto_sctp (b : dp_packet) : bool :=
  Z.land (dp_offloads b) DP_PACKET_OL_INNER_L4_PROTO_MASK =? DP_PACKET_OL_INNER_L4_PROTO_MASK.

Definition dp_packet_tunnel_geneve (b : dp_packet) : bool := Z.land (dp_offloads b) DP_PACKET_OL_TUNNEL_MASK =? Z.shiftl 1 11.
Definition dp_packet_tunnel_vxlan (b : dp_packet) : bool := Z.land (dp_offloads b) DP_PACKET_OL_TUNNEL_MASK =? Z.shiftl 1 12.

(** ** Completing a checksum *)

Definition dp_packet_ip_set_header_csum (b : dp_packet) (inner : bool) : option dp_packet :=
  let '(l3, l3_size) :=
    if inner then (dp_packet_inner_l3 b, dp_packet_inner_l3_size b) else (dp_packet_l3 b, dp_packet_l3_size b) in
  ip ← l3;
  ip_ihl_ver ← ld b ip 1;
  let ip_len := IP_IHL ip_ihl_ver * 4 in
  b ← (if (Z.of_nat IP_HEADER_LEN <=? ip_len) && (ip_len <? l3_size) then
         b ← wr b (ip + 10) 2 0;
         header ← ldn b ip ip_len;
         wr b (ip + 10) 2 (csum header)
       else Some b);
  Some (if inner then dp_packet_inner_ip_checksum_set_good b else dp_packet_ip_checksum_set_good b).

(** The checksum of the TCP or UDP packet [l4], whose checksum field is 0. *)
Definition complete_csum (b : dp_packet) (ip_hdr l4 : nat) (l4_sz : Z) : option Z :=
  ip_ihl_ver ← ld b ip_hdr 1;
  if IP_VER ip_ihl_ver =? 4 then
    pseudo ← packet_csum_pseudoheader b ip_hdr;
    payload ← ldn b l4 l4_sz;
    Some (csum_finish (csum_continue pseudo payload))
  else
    ip6_nxt ← ld b (ip_hdr + 6) 1;
    packet_csum_upperlayer6 b ip_hdr l4 ip6_nxt l4_sz.

Definition l4_checksum_set_good (b : dp_packet) (inner : bool) : dp_packet :=
  if inner then dp_packet_inner_l4_checksum_set_good b else dp_packet_l4_checksum_set_good b.

Definition packet_tcp_complete_csum (b : dp_packet) (inner : bool) : option dp_packet :=
  let '(l4, l3, tcp_sz) :=
    if inner then (dp_packet_inner_l4 b, dp_packet_inner_l3 b, dp_packet_inner_l4_size b)
    else (dp_packet_l4 b, dp_packet_l3 b, dp_packet_l4_size b) in
  tcp ← l4;
  ip_hdr ← l3;
  b ← wr b (tcp + 16) 2 0;
  tcp_csum ← complete_csum b ip_hdr tcp tcp_sz;
  b ← wr b (tcp + 16) 2 tcp_csum;
  Some (l4_checksum_set_good b inner).

Definition packet_udp_complete_csum (b : dp_packet) (inner : bool) : option dp_packet :=
  let '(l4, l3, udp_sz) :=
    if inner then (dp_packet_inner_l4 b, dp_packet_inner_l3 b, dp_packet_inner_l4_size b)
    else (dp_packet_l4 b, dp_packet_l3 b, dp_packet_l4_size b) in
  udp ← l4;
  ip_hdr ← l3;
  old_csum ← ld b (udp + 6) 2;
  b ← (if old_csum =? 0 then Some b
       else
         b ← wr b (udp + 6) 2 0;
         udp_csum ← complete_csum b ip_hdr udp udp_sz;
         b ← wr b (udp + 6) 2 udp_csum;
         if udp_csum =? 0 then wr b (udp + 6) 2 0xffff else Some b);
  Some (l4_checksum_set_good b inner).

Definition packet_sctp_complete_csum (b : dp_packet) (inner : bool) : option dp_packet :=
  let '(l4, l4_sz) :=
    if inner then (dp_packet_inner_l4 b, dp_packet_inner_l4_size b) else (dp_packet_l4 b, dp_packet_l4_size b) in
  sh ← l4;
  let tp_len := u16 l4_sz in
  b ← wr b (sh + 8) 4 0;
  data ← ldn b sh tp_len;
  b ← wr b (sh + 8) 4 (crc32c data);
  Some (l4_checksum_set_good b inner).

(** [sctp_checksum_valid] of lib/conntrack.c *)
Definition sctp_checksum_valid (b : dp_packet) (data : nat) (size : Z) : option bool :=
  rcvd_csum ← ld b (data + 8) 4;
  b ← wr b (data + 8) 4 0;
  bytes ← ldn b data size;
  Some (rcvd_csum =? crc32c bytes).

(** ** Sending *)

Definition NETDEV_TX_OFFLOAD_IPV4_CKSUM : Z := Z.shiftl 1 0.
Definition NETDEV_TX_OFFLOAD_TCP_CKSUM : Z := Z.shiftl 1 1.
Definition NETDEV_TX_OFFLOAD_UDP_CKSUM : Z := Z.shiftl 1 2.
Definition NETDEV_TX_OFFLOAD_SCTP_CKSUM : Z := Z.shiftl 1 3.
Definition NETDEV_TX_OFFLOAD_OUTER_IP_CKSUM : Z := Z.shiftl 1 7.
Definition NETDEV_TX_OFFLOAD_OUTER_UDP_CKSUM : Z := Z.shiftl 1 8.

Definition lacks (flags flag : Z) : bool := Z.land flags flag =? 0.

(** The L4 checksum of a packet, by its protocol. *)
Definition l4_complete (b : dp_packet) (inner tcp udp sctp : bool) (flags : Z) : option dp_packet :=
  if tcp then if lacks flags NETDEV_TX_OFFLOAD_TCP_CKSUM then packet_tcp_complete_csum b inner else Some b
  else if udp then if lacks flags NETDEV_TX_OFFLOAD_UDP_CKSUM then packet_udp_complete_csum b inner else Some b
  else
    _ ← ovs_assert sctp;
    if lacks flags NETDEV_TX_OFFLOAD_SCTP_CKSUM then packet_sctp_complete_csum b inner else Some b.

Definition dp_packet_ol_send_prepare (b : dp_packet) (flags : Z) : option dp_packet :=
  if negb (dp_packet_ip_checksum_partial b) && negb (dp_packet_l4_checksum_partial b)
     && negb (dp_packet_inner_ip_checksum_partial b) && negb (dp_packet_inner_l4_checksum_partial b) then Some b
  else if negb (dp_packet_tunnel b) then
    b ← (if dp_packet_ip_checksum_partial b && lacks flags NETDEV_TX_OFFLOAD_IPV4_CKSUM
         then dp_packet_ip_set_header_csum b false else Some b);
    if dp_packet_l4_checksum_partial b then
      l4_complete b false (dp_packet_l4_proto_tcp b) (dp_packet_l4_proto_udp b) (dp_packet_l4_proto_sctp b) flags
    else Some b
  else
    let flags :=
      if (dp_packet_tunnel_geneve b || dp_packet_tunnel_vxlan b)
         && lacks flags NETDEV_TX_OFFLOAD_OUTER_UDP_CKSUM && dp_packet_l4_checksum_partial b
      then Z.ldiff flags (Z.lor (Z.lor (Z.lor NETDEV_TX_OFFLOAD_TCP_CKSUM NETDEV_TX_OFFLOAD_UDP_CKSUM)
                                  NETDEV_TX_OFFLOAD_SCTP_CKSUM) NETDEV_TX_OFFLOAD_IPV4_CKSUM)
      else flags in
    b ← (if dp_packet_inner_ip_checksum_partial b && lacks flags NETDEV_TX_OFFLOAD_IPV4_CKSUM
         then dp_packet_ip_set_header_csum b true else Some b);
    b ← (if dp_packet_inner_l4_checksum_partial b then
           l4_complete b true (dp_packet_inner_l4_proto_tcp b) (dp_packet_inner_l4_proto_udp b)
             (dp_packet_inner_l4_proto_sctp b) flags
         else Some b);
    b ← (if dp_packet_ip_checksum_partial b && lacks flags NETDEV_TX_OFFLOAD_OUTER_IP_CKSUM
         then dp_packet_ip_set_header_csum b false else Some b);
    if dp_packet_l4_checksum_partial b then
      _ ← ovs_assert (dp_packet_l4_proto_udp b);
      if lacks flags NETDEV_TX_OFFLOAD_OUTER_UDP_CKSUM then packet_udp_complete_csum b false else Some b
    else Some b.
