(* ===== verification/PacketBytes.v ===== *)
(** * Bytes of packets and their sums

    What a store leaves of the fields of a packet, and what it does to the sum of
    the 16-bit words that a checksum is made of. *)

From S2P Require Import Prelude Util MetaFlow MetaFields Packet PacketProps MfCtx ExtractFields Csum PacketSet.
From stdpp Require Import prelude list.
From Stdlib Require Import ZArith Lia.
Open Scope Z_scope.
Open Scope ovs_scope.

(** ** Fields *)

Lemma be_prefix (n : nat) (x : Z) (l : list Z) (m : nat) :
  (m <= n)%nat -> be (be_bytes n x ++ l) m = (Z.shiftr x (8 * (Z.of_nat n - Z.of_nat m))) mod 2 ^ (8 * Z.of_nat m).
Proof.
  induction m as [|m IH]; intros Hm; cbn [be]; [by rewrite Z.mod_1_r|]. rewrite IH by lia.
  rewrite app_nth1 by (rewrite length_be_bytes; lia). rewrite nth_be_bytes by lia. unfold wrap.
  replace (8 * (Z.of_nat n - Z.of_nat m)) with (8 * (Z.of_nat n - 1 - Z.of_nat m) + 8) by lia.
  rewrite <- Z.shiftr_shiftr by lia. replace (Z.of_nat n - Z.of_nat (S m)) with (Z.of_nat n - 1 - Z.of_nat m) by lia.
  set (y := Z.shiftr x _). rewrite Z.shiftr_div_pow2 by lia.
  replace (8 * Z.of_nat (S m)) with (8 + 8 * Z.of_nat m) by lia. rewrite Z.pow_add_r by lia.
  rewrite Z.rem_mul_r by (try apply Z.pow_pos_nonneg; lia). change (2 ^ 8) with 256. lia.
Qed.

Lemma get_skip (l r : list Z) (k o n : nat) : length l = k -> get (l ++ r) (k + o) n = get r o n.
Proof. intros <-. unfold get. by rewrite drop_app_add'. Qed.

Lemma get_be_bytes (n : nat) (x : Z) (l : list Z) : in_width (8 * Z.of_nat n) x -> get (be_bytes n x ++ l) 0 n = x.
Proof.
  intros Hx. unfold get. rewrite drop_0, be_prefix by lia. rewrite Z.sub_diag. cbn [Z.mul]. rewrite Z.shiftr_0_r. by apply Z.mod_small.
Qed.

Lemma get_nth (p : list Z) (o : nat) : get p o 1 = nth o p 0.
Proof. unfold get. cbn [be]. rewrite !nth_lookup, lookup_drop. by rewrite Nat.add_0_r. Qed.

(** [n] bytes at [o] and [m] bytes at [q] have none in common. *)
Definition apart (o n : nat) (r : nat * nat) : Prop := (o + n <= r.1 \/ r.1 + r.2 <= o)%nat.

(** Conditions on each range of a list. *)
Ltac ranges := repeat first [apply Forall_nil_2 | apply Forall_cons_2]; unfold apart; cbn [fst snd]; lia.

(** [p'] is [p] but for the bytes of [ranges]. *)
Definition agree (ranges : list (nat * nat)) (p p' : list Z) : Prop :=
  length p' = length p /\ forall i, Forall (apart i 1) ranges -> nth i p' 0 = nth i p 0.

Lemma in_second (r r' : list (nat * nat)) : r' ⊆ r ++ r'.
Proof. intros z Hz. apply elem_of_app. by right. Qed.

Lemma bytes_agree_refl (p : list Z) : agree [] p p.
Proof. done. Qed.

Lemma agree_trans (r r' : list (nat * nat)) (p p' p'' : list Z) : agree r p p' -> agree r' p' p'' -> agree (r ++ r') p p''.
Proof.
  intros [H1 H2] [H3 H4]. split; [congruence|]. intros i [Hr Hr']%Forall_app. by rewrite H4, H2.
Qed.

Lemma agree_weaken (r r' : list (nat * nat)) (p p' : list Z) : r ⊆ r' -> agree r p p' -> agree r' p p'.
Proof.
  intros Hs [H1 H2]. split; [done|]. intros i Hi. apply H2. rewrite Forall_forall in *. intros x Hx. by apply Hi, Hs.
Qed.

Lemma get_agree (r : list (nat * nat)) (p p' : list Z) (o n : nat) :
  agree r p p' -> Forall (apart o n) r -> get p' o n = get p o n.
Proof.
  intros [_ H] Hr. unfold get. apply be_ext. intros i Hi. rewrite !nth_lookup, !lookup_drop, <- !nth_lookup. apply H.
  eapply Forall_impl; [exact Hr|]. intros [q m] Hq. unfold apart in *. cbn in *. lia.
Qed.

Lemma bytes_at_agree (r : list (nat * nat)) (p p' : list Z) (o n : nat) :
  agree r p p' -> Forall (apart o n) r -> bytes_at p' o n = bytes_at p o n.
Proof.
  intros [Hl H] Hr. apply nth_ext_Z; [unfold bytes_at; by rewrite !length_take, !length_drop, Hl|]. intros i. unfold bytes_at.
  destruct (decide (i < n)%nat) as [Hi|Hi].
  - rewrite !nth_lookup, !lookup_take_lt, !lookup_drop, <- !nth_lookup by done. apply H.
    eapply Forall_impl; [exact Hr|]. intros [q m] Hq. unfold apart in *. cbn in *. lia.
  - rewrite !nth_overflow by (rewrite length_take; lia). done.
Qed.

(** ** Stores *)

Lemma length_patch (p : list Z) (o : nat) (bs : list Z) : (o + length bs <= length p)%nat -> length (patch p o bs) = length p.
Proof. intros H. unfold patch. rewrite !length_app, length_take, length_drop. lia. Qed.

Lemma agree_patch (p : list Z) (o : nat) (bs : list Z) : (o + length bs <= length p)%nat -> agree [(o, length bs)] p (patch p o bs).
Proof.
  intros H. split; [by apply length_patch|]. intros i [Hi _]%Forall_cons. unfold apart in Hi. cbn in Hi. unfold patch.
  destruct (decide (i < o)%nat).
  - rewrite app_nth1 by (rewrite length_take; lia). by rewrite !nth_lookup, lookup_take_lt by done.
  - rewrite app_nth2, app_nth2 by (rewrite ?length_take; lia). rewrite length_take, !nth_lookup, lookup_drop.
    do 2 f_equal. lia.
Qed.

Lemma bytes_at_patch (p : list Z) (o : nat) (bs : list Z) : (o + length bs <= length p)%nat -> bytes_at (patch p o bs) o (length bs) = bs.
Proof.
  intros H. unfold bytes_at, patch. rewrite drop_app_length' by (rewrite length_take; lia). by rewrite take_app_length.
Qed.

Lemma get_patch (p : list Z) (o n : nat) (x : Z) :
  (o + n <= length p)%nat -> in_width (8 * Z.of_nat n) x -> get (patch p o (be_bytes n x)) o n = x.
Proof.
  intros H Hx. unfold get, patch. rewrite drop_app_length' by (rewrite length_take; lia).
  generalize (drop (o + length (be_bytes n x)) p). intros l. apply (get_be_bytes n x l) in Hx. unfold get in Hx. by rewrite drop_0 in Hx.
Qed.

Lemma patch_byte (p : list Z) (o : nat) (bs : list Z) : Forall is_byte p -> Forall is_byte bs -> Forall is_byte (patch p o bs).
Proof. intros Hp Hb. unfold patch. repeat apply Forall_app_2; [by apply Forall_take|done|by apply Forall_drop]. Qed.

(** A store of what is there. *)
Lemma patch_same (p : list Z) (o n : nat) : (o + n <= length p)%nat -> Forall is_byte p -> patch p o (be_bytes n (get p o n)) = p.
Proof.
  intros H Hp. rewrite <- be_bytes_at, be_bytes_of by (try apply bytes_at_byte; try apply length_bytes_at; done).
  unfold patch. rewrite length_bytes_at by done. unfold bytes_at. rewrite <- drop_drop, take_drop. apply take_drop.
Qed.

(** A part of the packet with the store in it. *)
Lemma bytes_at_patch_in (p : list Z) (o n q : nat) (bs : list Z) :
  (o <= q)%nat -> (q + length bs <= o + n)%nat -> (o + n <= length p)%nat ->
  bytes_at (patch p q bs) o n = patch (bytes_at p o n) (q - o) bs.
Proof.
  intros H1 H2 H3. assert (length (bytes_at p o n) = n) as Hl by (by apply length_bytes_at).
  apply nth_ext_Z.
  { rewrite length_patch by lia. rewrite Hl, length_bytes_at; [done|]. rewrite length_patch by lia. lia. }
  intros i. destruct (decide (i < n)%nat) as [Hi|Hi].
  2:{ rewrite !nth_overflow; [done|rewrite length_patch by lia; lia|]. rewrite length_bytes_at; [lia|]. rewrite length_patch by lia. lia. }
  unfold bytes_at at 1. rewrite nth_lookup, lookup_take_lt, lookup_drop, <- nth_lookup by done. unfold patch.
  destruct (decide (o + i < q)%nat).
  { rewrite !app_nth1 by (rewrite length_take; lia). unfold bytes_at. rewrite !nth_lookup, !lookup_take_lt, lookup_drop by lia. done. }
  rewrite !(app_nth2 (take _ _)) by (rewrite length_take; lia). rewrite !length_take, Hl.
  replace (o + i - q `min` length p)%nat with (i - (q - o) `min` n)%nat by lia.
  set (j := (i - (q - o) `min` n)%nat). destruct (decide (j < length bs)%nat).
  { by rewrite !app_nth1 by done. }
  rewrite !(app_nth2 bs) by lia. unfold bytes_at. rewrite !nth_lookup, !lookup_drop, lookup_take_lt, lookup_drop by lia. do 2 f_equal. lia.
Qed.

(** ** Sums *)

Lemma words_sum_app (a b : list Z) : Nat.Even (length a) -> words_sum (a ++ b) = words_sum a + words_sum b.
Proof.
  induction a as [|x|x y a IH] using pairs_ind; intros He; cbn [words_sum app length] in *; [done| |].
  - destruct He as [k Hk]. lia.
  - rewrite IH; [lia|]. destruct He as [k Hk]. exists (k - 1)%nat. lia.
Qed.

Definition W (p : list Z) (o n : nat) : Z := words_sum (bytes_at p o n).

Lemma W_patch (p : list Z) (o n q : nat) (bs : list Z) :
  (o <= q)%nat -> (q + length bs <= o + n)%nat -> (o + n <= length p)%nat -> Nat.Even (q - o) -> Nat.Even (length bs) ->
  W (patch p q bs) o n = W p o n - W p q (length bs) + words_sum bs.
Proof.
  intros H1 H2 H3 He1 He2. unfold W. rewrite bytes_at_patch_in by done. unfold patch.
  assert (length (bytes_at p o n) = n) as Hl by (by apply length_bytes_at).
  rewrite !words_sum_app by (try rewrite length_take, Hl, Nat.min_l by lia; done).
  replace n with ((q - o) + (length bs + (n - (q - o) - length bs)))%nat at 3 by lia.
  rewrite bytes_at_app, bytes_at_app. rewrite !words_sum_app by (rewrite length_bytes_at by lia; done).
  replace (o + (q - o))%nat with q by lia.
  assert (take (q - o) (bytes_at p o n) = bytes_at p o (q - o)) as ->.
  { unfold bytes_at. rewrite take_take. f_equal. lia. }
  assert (drop (q - o + length bs) (bytes_at p o n) = bytes_at p (q + length bs) (n - (q - o) - length bs)) as ->.
  { unfold bytes_at. rewrite skipn_firstn_comm, drop_drop. f_equal; [lia|]. f_equal. lia. }
  lia.
Qed.

Lemma W_agree (r : list (nat * nat)) (p p' : list Z) (o n : nat) : agree r p p' -> Forall (apart o n) r -> W p' o n = W p o n.
Proof. intros Ha Hr. unfold W. by rewrite (bytes_at_agree r p). Qed.

Lemma W_be_bytes (p : list Z) (o n : nat) :
  Forall is_byte p -> (o + n <= length p)%nat -> W p o n = words_sum (be_bytes n (get p o n)).
Proof.
  intros Hp H. unfold W. f_equal. rewrite <- be_bytes_at. symmetry. apply be_bytes_of; [by apply length_bytes_at|by apply bytes_at_byte].
Qed.

Lemma words_sum_2 (x : Z) : words_sum (be_bytes 2 x) = u16 x.
Proof.
  unfold be_bytes, wrap. cbn [map seq words_sum]. rewrite !Z.shiftr_div_pow2 by lia.
  change (2 ^ (8 * (Z.of_nat 2 - 1 - Z.of_nat 0))) with 256. change (2 ^ (8 * (Z.of_nat 2 - 1 - Z.of_nat 1))) with 1.
  change (2 ^ 8) with 256. change (2 ^ 16) with 65536. Z.div_mod_to_equations. lia.
Qed.

Lemma words_sum_split (n : nat) (x : Z) : words_sum (be_bytes (2 + n) x) = words_sum (be_bytes 2 (Z.shiftr x (8 * Z.of_nat n))) + words_sum (be_bytes n x).
Proof. rewrite be_bytes_app. apply words_sum_app. rewrite length_be_bytes. by exists 1%nat. Qed.

Lemma words_sum_4 (x : Z) : in_width 32 x -> words_sum (be_bytes 4 x) = halves x.
Proof.
  intros Hx. rewrite (words_sum_split 2), !words_sum_2. unfold halves, wrap, in_width in *.
  rewrite Z.shiftr_div_pow2 by lia. change (2 ^ (8 * Z.of_nat 2)) with 65536. change (2 ^ 16) with 65536. change (2 ^ 32) with (65536 * 65536) in Hx.
  rewrite (Z.mod_small (x / 65536)); [done|]. Z.div_mod_to_equations. lia.
Qed.

Lemma words_sum_6 (x : Z) : words_sum (be_bytes 6 x) = sum_by id (be16s x).
Proof.
  rewrite (words_sum_split 4), (words_sum_split 2), !words_sum_2. unfold be16s, sum_by. cbn [map fold_right].
  change (8 * Z.of_nat 4) with 32. change (8 * Z.of_nat 2) with 16. rewrite Z.shiftr_0_r. unfold id. lia.
Qed.

Lemma halves_u32 (x k : Z) : 0 <= k -> halves (u32 (Z.shiftr x k)) = u16 (Z.shiftr x (16 + k)) + u16 (Z.shiftr x k).
Proof.
  intros Hk. rewrite (Z.add_comm 16), <- Z.shiftr_shiftr by lia. generalize (Z.shiftr x k). intros y. unfold halves, wrap.
  rewrite Z.shiftr_div_pow2 by lia. change (2 ^ 16) with 65536. change (2 ^ 32) with (65536 * 65536). Z.div_mod_to_equations. lia.
Qed.

Lemma words_sum_16 (x : Z) : words_sum (be_bytes 16 x) = sum_by halves (be32s x).
Proof.
  rewrite (words_sum_split 14), (words_sum_split 12), (words_sum_split 10), (words_sum_split 8), (words_sum_split 6),
    (words_sum_split 4), (words_sum_split 2), !words_sum_2.
  unfold be32s, sum_by. cbn [map fold_right]. rewrite !halves_u32 by lia.
  rewrite Z.shiftr_0_r, Z.add_0_r, <- !Z.add_assoc. reflexivity.
Qed.

(** The first byte of a word counts 256 times. *)
Lemma split_at (p : list Z) (q : nat) : (q + 2 <= length p)%nat -> exists l r, p = l ++ nth q p 0 :: nth (q + 1) p 0 :: r /\ length l = q.
Proof.
  intros H. exists (take q p), (drop (q + 2) p). split; [|rewrite length_take; lia].
  rewrite <- (take_drop q p) at 1. f_equal. apply nth_ext_Z; [cbn; rewrite !length_drop; lia|].
  intros [|[|i]]; cbn [nth]; rewrite !nth_lookup, ?lookup_drop, <- !nth_lookup; f_equal; lia.
Qed.

Lemma W_byte (p : list Z) (o n q : nat) (x : Z) :
  (o <= q)%nat -> (q + 2 <= o + n)%nat -> (o + n <= length p)%nat -> Nat.Even (q - o) ->
  W (patch p q [x]) o n = W p o n + 256 * (x - nth q p 0) /\ W (patch p (q + 1) [x]) o n = W p o n + (x - nth (q + 1) p 0).
Proof.
  intros H1 H2 H3 He. destruct (split_at p q) as (l & r & E & Hl); [lia|]. set (a := nth q p 0) in *. set (b := nth (q + 1) p 0) in *. clearbody a b.
  assert (W p q 2 = a * 256 + b) as HW.
  { unfold W, bytes_at. rewrite E, drop_app_length' by done. cbn [firstn words_sum]. rewrite take_0. apply Z.add_0_r. }
  assert (forall y z, W (patch p q [y; z]) o n = W p o n - (a * 256 + b) + (y * 256 + z)) as Hp.
  { intros y z. rewrite W_patch by (cbn; (done || lia || by exists 1%nat)). cbn [length]. rewrite HW. cbn [words_sum]. lia. }
  replace (patch p q [x]) with (patch p q [x; b]); [replace (patch p (q + 1) [x]) with (patch p q [a; x])|].
  - rewrite !Hp. lia.
  - unfold patch. cbn [length]. replace (q + 1 + 1)%nat with (q + 2)%nat by lia.
    rewrite E, take_app_length', (take_app_add' _ _ q 1) by done. by rewrite <- app_assoc.
  - unfold patch. cbn [length]. rewrite E, take_app_length', !drop_app_add' by done. done.
Qed.

Lemma W_head (p : list Z) (o n : nat) :
  (2 <= n)%nat -> (o + 2 <= length p)%nat -> W p o n = 256 * get p o 1 + get p (o + 1) 1 + W p (o + 2) (n - 2).
Proof.
  intros Hn H. unfold W. replace n with (2 + (n - 2))%nat at 1 by lia.
  rewrite bytes_at_app, words_sum_app by (rewrite length_bytes_at by done; by exists 1%nat).
  rewrite !get_nth. destruct (split_at p o H) as (l & r & E & Hl). set (x := nth o p 0) in *. set (y := nth (o + 1) p 0) in *. clearbody x y.
  unfold bytes_at at 1. rewrite E at 1. rewrite drop_app_length' by done. cbn [firstn words_sum]. rewrite take_0. cbn [words_sum]. lia.
Qed.
