(* ===== verification/PacketLayout.v ===== *)
(** * The layout of IP packets and their checksums

    An IPv4 or IPv6 packet whose layer offsets are right, the sums that its
    checksums are made of, and the condition that every function that changes a
    packet keeps: a checksum is right or it is marked for later. *)

From S2P Require Import Prelude Util MetaFlow MetaFields Packet PacketProps MfCtx ExtractFields Conntrack Csum Crc32c PacketSet.
From S2P Require Import PacketOffload PacketBytes.
From stdpp Require Import prelude list.
From coqutil Require Import Datatypes.RecordSetters.
From Stdlib Require Import ZArith Lia.
Import DoubleBraceUpdate.
Open Scope Z_scope.
Open Scope ovs_scope.

(** ** Loads and stores *)

Definition store (b : dp_packet) (o : nat) (bs : list Z) : dp_packet := b {{ dp_data := patch (dp_data b) o bs }}.

Lemma dp_data_store (b : dp_packet) (o : nat) (bs : list Z) : dp_data (store b o bs) = patch (dp_data b) o bs.
Proof. done. Qed.

Lemma wr_store (b : dp_packet) (o n : nat) (x : Z) : (o + n <= length (dp_data b))%nat -> wr b o n x = Some (store b o (be_bytes n x)).
Proof. intros H. unfold wr. by destruct (Nat.leb_spec (o + n) (length (dp_data b))); [|lia]. Qed.

Lemma ld_get (b : dp_packet) (o n : nat) : (o + n <= length (dp_data b))%nat -> ld b o n = Some (get (dp_data b) o n).
Proof. apply rd_some. Qed.

Lemma ldn_bytes (b : dp_packet) (o : nat) (n : Z) :
  0 <= n -> Z.of_nat o + n <= Z.of_nat (length (dp_data b)) -> ldn b o n = Some (bytes_at (dp_data b) o (Z.to_nat n)).
Proof. intros Hn H. unfold ldn. by destruct (Z.leb_spec (Z.of_nat o + n) (Z.of_nat (length (dp_data b)))); [|lia]. Qed.

Lemma update_csum_store (b : dp_packet) (o : nat) (f : Z -> Z) :
  (o + 2 <= length (dp_data b))%nat -> update_csum b o f = Some (store b o (be_bytes 2 (f (get (dp_data b) o 2)))).
Proof. intros H. unfold update_csum. rewrite ld_get by done. cbn [mbind option_bind]. by rewrite wr_store by done. Qed.

Lemma patch_patch (p : list Z) (o : nat) (bs bs' : list Z) :
  (o + length bs <= length p)%nat -> length bs' = length bs -> patch (patch p o bs) o bs' = patch p o bs'.
Proof.
  intros H Hl. unfold patch at 1 3. rewrite Hl. f_equal; [|f_equal].
  - unfold patch. rewrite take_app_le by (rewrite length_take; lia). rewrite take_take. f_equal. lia.
  - unfold patch. rewrite app_assoc, drop_app_length'; [done|]. rewrite length_app, length_take. lia.
Qed.

Lemma store_store (b : dp_packet) (o : nat) (bs bs' : list Z) :
  (o + length bs <= length (dp_data b))%nat -> length bs' = length bs -> store (store b o bs) o bs' = store b o bs'.
Proof. intros H Hl. unfold store at 1 3. rewrite dp_data_store, patch_patch by done. by destruct b. Qed.

(** 0 would mean that there is no checksum. *)
Definition nonzero16 (x : Z) : Z := if x =? 0 then 0xffff else x.

Lemma update_udp_csum_store (b : dp_packet) (o : nat) (f : Z -> Z) :
  (o + 2 <= length (dp_data b))%nat -> in_width 16 (f (get (dp_data b) o 2)) ->
  update_udp_csum b o f = Some (if get (dp_data b) o 2 =? 0 then b else store b o (be_bytes 2 (nonzero16 (f (get (dp_data b) o 2))))).
Proof.
  intros H Hw. unfold update_udp_csum. rewrite ld_get by done. cbn [mbind option_bind]. destruct (get (dp_data b) o 2 =? 0); [done|].
  rewrite wr_store by done. cbn [mbind option_bind]. set (x := f (get (dp_data b) o 2)) in *.
  assert (length (dp_data (store b o (be_bytes 2 x))) = length (dp_data b)) as Hl by (apply length_patch; by rewrite length_be_bytes).
  rewrite ld_get by (by rewrite Hl). cbn [mbind option_bind]. rewrite dp_data_store, get_patch by done. unfold nonzero16.
  destruct (x =? 0); [|done]. rewrite wr_store by (by rewrite Hl). by rewrite store_store by (rewrite !length_be_bytes; done).
Qed.

Lemma option_bind_some {A B} (f : A -> option B) (x : A) : (y ← Some x; f y) = f x.
Proof. done. Qed.

Lemma bind_some {A B C} (x : option A) (f : A -> option B) (g : B -> option C) (z : B) :
  (y ← x; f y) = Some z -> (y ← x; z ← f y; g z) = g z.
Proof. destruct x as [y|]; [|done]. cbn [mbind option_bind]. by intros ->. Qed.

(** ** What a change leaves alone *)

Definition CKSUM_MASKS : Z := Z.lor DP_PACKET_OL_IP_CKSUM_MASK DP_PACKET_OL_L4_CKSUM_MASK.

Record sets (r : list (nat * nat)) (b b' : dp_packet) : Prop := {
  st_agree : agree r (dp_data b) (dp_data b');
  st_bytes : Forall is_byte (dp_data b) -> Forall is_byte (dp_data b');
  st_rest : exists p x, b' = set_offloads (b {{ dp_data := p }}) x;
  st_flags : Z.ldiff (dp_offloads b') CKSUM_MASKS = Z.ldiff (dp_offloads b) CKSUM_MASKS
}.

Lemma sets_refl (b : dp_packet) : sets [] b b.
Proof. split; [apply bytes_agree_refl|done| |done]. exists (dp_data b), (dp_offloads b). by destruct b. Qed.

Lemma sets_trans (r r' : list (nat * nat)) (b b' b'' : dp_packet) : sets r b b' -> sets r' b' b'' -> sets (r ++ r') b b''.
Proof.
  intros [A1 B1 (p & x & R1) F1] [A2 B2 (q & y & R2) F2]. split; [by eapply agree_trans|tauto| |congruence].
  exists q, y. subst. by destruct b.
Qed.

Lemma sets_weaken (r r' : list (nat * nat)) (b b' : dp_packet) : r ⊆ r' -> sets r b b' -> sets r' b b'.
Proof. intros Hs [A B R F]. split; [by eapply agree_weaken|done..]. Qed.

Lemma sets_store (b : dp_packet) (o : nat) (bs : list Z) :
  (o + length bs <= length (dp_data b))%nat -> Forall is_byte bs -> sets [(o, length bs)] b (store b o bs).
Proof.
  intros H Hb. split; [by apply agree_patch|intros Hp; by apply patch_byte| |done].
  exists (patch (dp_data b) o bs), (dp_offloads b). by destruct b.
Qed.

Lemma sets_wr (b : dp_packet) (o n : nat) (x : Z) :
  (o + n <= length (dp_data b))%nat -> sets [(o, n)] b (store b o (be_bytes n x)).
Proof.
  intros H. pose proof (sets_store b o (be_bytes n x)) as Hs. rewrite length_be_bytes in Hs. apply Hs; [done|apply be_bytes_byte].
Qed.

Lemma sets_length (r : list (nat * nat)) (b b' : dp_packet) : sets r b b' -> length (dp_data b') = length (dp_data b).
Proof. intros H. apply (st_agree _ _ _ H). Qed.

Lemma sets_get (r : list (nat * nat)) (b b' : dp_packet) (o n : nat) :
  sets r b b' -> Forall (apart o n) r -> get (dp_data b') o n = get (dp_data b) o n.
Proof. intros H. apply get_agree, H. Qed.

Lemma sets_W (r : list (nat * nat)) (b b' : dp_packet) (o n : nat) :
  sets r b b' -> Forall (apart o n) r -> W (dp_data b') o n = W (dp_data b) o n.
Proof. intros H. apply W_agree, H. Qed.

Lemma sets_layers (r : list (nat * nat)) (b b' : dp_packet) :
  sets r b b' -> dp_packet_l3 b' = dp_packet_l3 b /\ dp_packet_l4 b' = dp_packet_l4 b /\ dp_packet_l4_size b' = dp_packet_l4_size b /\
  dp_packet_l3_size b' = dp_packet_l3_size b.
Proof.
  intros H. pose proof (sets_length _ _ _ H) as Hl. destruct H as [_ _ (p & x & ->) _].
  unfold dp_packet_l4_size, dp_packet_l3_size. rewrite Hl. by destruct b.
Qed.

(** ** Offload flags *)

Lemma land_lor_apart (x m k : Z) : Z.land m k = 0 -> Z.land (Z.lor x m) k = Z.land x k.
Proof. intros H. by rewrite Z.land_lor_distr_l, H, Z.lor_0_r. Qed.

Lemma land_lor_in (x m k : Z) : Z.land m k = k -> Z.land (Z.lor x m) k = k.
Proof.
  intros H. apply Z.bits_inj'. intros i Hi. apply (f_equal (fun y => Z.testbit y i)) in H. revert H.
  rewrite !Z.land_spec, Z.lor_spec. by destruct (Z.testbit x i), (Z.testbit m i), (Z.testbit k i).
Qed.

Lemma ldiff_lor_in (x m k : Z) : Z.ldiff m k = 0 -> Z.ldiff (Z.lor x m) k = Z.ldiff x k.
Proof.
  intros H. apply Z.bits_inj'. intros i Hi. apply (f_equal (fun y => Z.testbit y i)) in H. revert H.
  rewrite !Z.ldiff_spec, Z.lor_spec, Z.bits_0. by destruct (Z.testbit x i), (Z.testbit m i), (Z.testbit k i).
Qed.

Lemma ip_partial_valid (b : dp_packet) : dp_packet_ip_checksum_partial b = true -> dp_packet_ip_checksum_valid b = true.
Proof.
  unfold dp_packet_ip_checksum_partial, dp_packet_ip_checksum_valid. intros H%Z.eqb_eq.
  destruct (Z.eqb_spec (Z.land (dp_offloads b) DP_PACKET_OL_IP_CKSUM_GOOD) 0) as [E|E]; [|done].
  assert (Z.land (Z.land (dp_offloads b) DP_PACKET_OL_IP_CKSUM_MASK) DP_PACKET_OL_IP_CKSUM_GOOD = 0) as E'.
  { by rewrite <- Z.land_assoc, (Z.land_comm DP_PACKET_OL_IP_CKSUM_MASK), Z.land_assoc, E. }
  by rewrite H in E'.
Qed.

Lemma l4_partial_valid (b : dp_packet) : dp_packet_l4_checksum_partial b = true -> dp_packet_l4_checksum_valid b = true.
Proof.
  unfold dp_packet_l4_checksum_partial, dp_packet_l4_checksum_valid. intros H%Z.eqb_eq.
  destruct (Z.eqb_spec (Z.land (dp_offloads b) DP_PACKET_OL_L4_CKSUM_GOOD) 0) as [E|E]; [|done].
  assert (Z.land (Z.land (dp_offloads b) DP_PACKET_OL_L4_CKSUM_MASK) DP_PACKET_OL_L4_CKSUM_GOOD = 0) as E'.
  { by rewrite <- Z.land_assoc, (Z.land_comm DP_PACKET_OL_L4_CKSUM_MASK), Z.land_assoc, E. }
  by rewrite H in E'.
Qed.

Lemma ip_set_partial (b : dp_packet) :
  dp_packet_ip_checksum_partial (dp_packet_ip_checksum_set_partial b) = true /\
  dp_packet_l4_checksum_partial (dp_packet_ip_checksum_set_partial b) = dp_packet_l4_checksum_partial b /\
  dp_data (dp_packet_ip_checksum_set_partial b) = dp_data b /\ sets [] b (dp_packet_ip_checksum_set_partial b).
Proof.
  unfold dp_packet_ip_checksum_partial, dp_packet_l4_checksum_partial, dp_packet_ip_checksum_set_partial, set_offloads.
  cbn [dp_offloads dp_data]. rewrite land_lor_in, land_lor_apart, Z.eqb_refl by done. split_and!; [done..|].
  split; [apply bytes_agree_refl|done| |cbn [dp_offloads]; by apply ldiff_lor_in].
  exists (dp_data b), (Z.lor (dp_offloads b) DP_PACKET_OL_IP_CKSUM_MASK). by destruct b.
Qed.

Lemma l4_set_partial (b : dp_packet) :
  dp_packet_l4_checksum_partial (dp_packet_l4_checksum_set_partial b) = true /\
  dp_packet_ip_checksum_partial (dp_packet_l4_checksum_set_partial b) = dp_packet_ip_checksum_partial b /\
  dp_data (dp_packet_l4_checksum_set_partial b) = dp_data b /\ sets [] b (dp_packet_l4_checksum_set_partial b).
Proof.
  unfold dp_packet_ip_checksum_partial, dp_packet_l4_checksum_partial, dp_packet_l4_checksum_set_partial, set_offloads.
  cbn [dp_offloads dp_data]. rewrite land_lor_in, land_lor_apart, Z.eqb_refl by done. split_and!; [done..|].
  split; [apply bytes_agree_refl|done| |cbn [dp_offloads]; by apply ldiff_lor_in].
  exists (dp_data b), (Z.lor (dp_offloads b) DP_PACKET_OL_L4_CKSUM_MASK). by destruct b.
Qed.

(** ** Layout *)

(** The length of the IPv4 header. *)
Definition ip_len (p : list Z) (nh : nat) : nat := Z.to_nat (IP_IHL (get p nh 1) * 4).

Record layout (dl_type nw_proto : Z) (b : dp_packet) (nh l4 : nat) : Prop := {
  la_bytes : Forall is_byte (dp_data b);
  la_l3_ofs : dp_l3_ofs b = Z.of_nat nh;
  la_l4_ofs : dp_l4_ofs b = Z.of_nat l4;
  la_max : Z.of_nat l4 < UINT16_MAX;
  la_proto : 0 < nw_proto < 256;
  la_header :
    dl_type = ETH_TYPE_IP /\ IP_VER (get (dp_data b) nh 1) = 4 /\ 5 <= IP_IHL (get (dp_data b) nh 1) /\
      (nh + ip_len (dp_data b) nh <= l4)%nat /\ nw_proto = get (dp_data b) (nh + 9) 1 \/
    dl_type = ETH_TYPE_IPV6 /\ IP_VER (get (dp_data b) nh 1) <> 4 /\ (nh + IPV6_HEADER_LEN <= l4)%nat /\
      packet_rh_present b 0 true = Some (false, nw_proto, true);
  la_pad : 0 <= dp_l2_pad_size b;
  la_end : Z.of_nat l4 + dp_l2_pad_size b <= Z.of_nat (length (dp_data b));
  la_size : Z.of_nat (length (dp_data b)) - Z.of_nat l4 - dp_l2_pad_size b <= 65535
}.

(** The bytes that the checksum of layer 4 covers, and the sum with the pseudoheader. *)
Definition l4_len (b : dp_packet) : nat := Z.to_nat (dp_packet_l4_size b).

Definition pseudo_sum (dl_type nw_proto : Z) (b : dp_packet) (nh : nat) : Z :=
  let p := dp_data b in
  if dl_type =? ETH_TYPE_IP then
    halves (get p (nh + 12) 4) + halves (get p (nh + 16) 4) + nw_proto + u16 (get p (nh + 2) 2 - IP_IHL (get p nh 1) * 4)
  else W p (nh + 8) 16 + W p (nh + 24) 16 + nw_proto + dp_packet_l4_size b.

Definition l4_sum (dl_type nw_proto : Z) (b : dp_packet) (nh l4 : nat) : Z :=
  pseudo_sum dl_type nw_proto b nh + W (dp_data b) l4 (l4_len b).

Section Layout.
Context (dl_type nw_proto : Z) (b : dp_packet) (nh l4 : nat) (Hla : layout dl_type nw_proto b nh l4).

Lemma layout_l4 : dp_packet_l4 b = Some l4.
Proof.
  unfold dp_packet_l4. rewrite (la_l4_ofs _ _ _ _ _ Hla). pose proof (la_max _ _ _ _ _ Hla).
  destruct (Z.eqb_spec (Z.of_nat l4) UINT16_MAX); [lia|]. by rewrite Nat2Z.id.
Qed.

Lemma layout_l4_size : dp_packet_l4_size b = Z.of_nat (length (dp_data b)) - Z.of_nat l4 - dp_l2_pad_size b.
Proof.
  unfold dp_packet_l4_size. rewrite layout_l4. destruct Hla. apply (wrap_small 64). unfold in_width. lia.
Qed.

Lemma layout_l4_len : Z.of_nat (l4_len b) = dp_packet_l4_size b /\ (l4 + l4_len b <= length (dp_data b))%nat /\ dp_packet_l4_size b <= 65535.
Proof. unfold l4_len. rewrite layout_l4_size. destruct Hla. lia. Qed.

Lemma layout_header : (nh + 20 <= l4)%nat /\ (l4 <= length (dp_data b))%nat /\ (dl_type = ETH_TYPE_IPV6 -> nh + 40 <= l4)%nat.
Proof.
  destruct (la_header _ _ _ _ _ Hla) as [(-> & _ & Hi & Hl & _)|(-> & _ & Hl & _)]; destruct Hla.
  - unfold ip_len in Hl. split_and!; [lia|lia|]. intros E. exfalso. by revert E.
  - unfold IPV6_HEADER_LEN in Hl. lia.
Qed.

Lemma layout_l3 : dp_packet_l3 b = Some nh.
Proof.
  unfold dp_packet_l3. rewrite (la_l3_ofs _ _ _ _ _ Hla). pose proof (la_max _ _ _ _ _ Hla). pose proof layout_header.
  destruct (Z.eqb_spec (Z.of_nat nh) UINT16_MAX); [lia|]. by rewrite Nat2Z.id.
Qed.

Lemma layout_dl_type : dl_type = ETH_TYPE_IP \/ dl_type = ETH_TYPE_IPV6.
Proof. destruct (la_header _ _ _ _ _ Hla) as [(-> & _)|(-> & _)]; tauto. Qed.

Lemma halves_bound (x : Z) : in_width 32 x -> 0 <= halves x <= 2 * 65535.
Proof. unfold in_width, halves. change (2 ^ 32) with (65536 * 65536). intros H. Z.div_mod_to_equations. lia. Qed.

Lemma W_bound (o n : nat) : 0 <= W (dp_data b) o n /\ 2 * W (dp_data b) o n <= 65535 * (Z.of_nat n + 1).
Proof.
  pose proof (words_sum_bounds (bytes_at (dp_data b) o n) (bytes_at_byte _ _ _ (la_bytes _ _ _ _ _ Hla))) as Hw. unfold W.
  assert (length (bytes_at (dp_data b) o n) <= n)%nat as Hl by (unfold bytes_at; rewrite length_take; lia).
  pose proof (Nat.Div0.mul_div_le (length (bytes_at (dp_data b) o n) + 1) 2). lia.
Qed.

Lemma get_width' (o n : nat) (w : Z) : w = 8 * Z.of_nat n -> in_width w (get (dp_data b) o n).
Proof. intros ->. apply get_width, Hla. Qed.

Lemma pseudo_sum_bound : 0 < pseudo_sum dl_type nw_proto b nh <= 20 * 65535.
Proof.
  pose proof (la_proto _ _ _ _ _ Hla). pose proof layout_l4_len as (_ & _ & H4). pose proof layout_l4_size as Hs. destruct Hla as [_ _ _ _ _ _ _ He _].
  unfold pseudo_sum. destruct (dl_type =? ETH_TYPE_IP).
  - pose proof (halves_bound _ (get_width' (nh + 12) 4 32 eq_refl)). pose proof (halves_bound _ (get_width' (nh + 16) 4 32 eq_refl)).
    pose proof (wrap_width 16 (get (dp_data b) (nh + 2) 2 - IP_IHL (get (dp_data b) nh 1) * 4) ltac:(lia)) as Hw. unfold in_width in Hw. lia.
  - pose proof (W_bound (nh + 8) 16). pose proof (W_bound (nh + 24) 16). lia.
Qed.

Lemma csum_add16_small (partial x : Z) : 0 <= partial -> 0 <= x -> partial + x < 2 ^ 32 -> csum_add16 partial x = partial + x.
Proof. intros. apply (wrap_small 32). unfold in_width. lia. Qed.

Lemma csum_add32_small (partial x : Z) : 0 <= partial <= 2 ^ 31 -> in_width 32 x -> csum_add32 partial x = partial + halves x.
Proof.
  intros Hp Hx. pose proof (halves_bound x Hx) as Hh. unfold csum_add32. rewrite Z.shiftr_div_pow2 by lia.
  assert (Z.land x 0xffff = x mod 2 ^ 16) as -> by (by apply (Z.land_ones x 16)). change (2 ^ 16) with 65536.
  unfold halves in *. rewrite <- Z.add_assoc. apply (wrap_small 32). unfold in_width. lia.
Qed.

Lemma packet_csum_pseudoheader_sum : dl_type = ETH_TYPE_IP -> packet_csum_pseudoheader b nh = Some (pseudo_sum dl_type nw_proto b nh).
Proof.
  intros E. destruct (la_header _ _ _ _ _ Hla) as [(_ & _ & _ & _ & Hp)|(E' & _)]; [|exfalso; subst; by revert E'].
  pose proof layout_header as (H1 & H2 & _). unfold packet_csum_pseudoheader. rewrite !ld_get by lia. cbn [mbind option_bind].
  rewrite ?ld_get by lia. cbn [mbind option_bind]. unfold pseudo_sum. rewrite E, Z.eqb_refl. f_equal.
  pose proof (halves_bound _ (get_width' (nh + 12) 4 32 eq_refl)). pose proof (halves_bound _ (get_width' (nh + 16) 4 32 eq_refl)).
  pose proof (wrap_width 16 (get (dp_data b) (nh + 2) 2 - IP_IHL (get (dp_data b) nh 1) * 4) ltac:(lia)) as Hw. unfold in_width in Hw.
  pose proof (la_proto _ _ _ _ _ Hla). rewrite <- Hp. rewrite (csum_add32_small 0) by (lia || by apply get_width').
  rewrite csum_add32_small by (lia || by apply get_width'). rewrite (csum_add16_small _ nw_proto) by lia. rewrite csum_add16_small by lia. lia.
Qed.

Lemma packet_csum_upperlayer6_sum :
  dl_type = ETH_TYPE_IPV6 ->
  packet_csum_upperlayer6 b nh l4 nw_proto (dp_packet_l4_size b) = Some (csum_finish (l4_sum dl_type nw_proto b nh l4)).
Proof.
  intros E. pose proof layout_header as (_ & H2 & H3). specialize (H3 E). pose proof layout_l4_len as (Hn & He & Hs).
  pose proof (la_proto _ _ _ _ _ Hla). pose proof (la_bytes _ _ _ _ _ Hla) as Hb.
  pose proof (W_bound (nh + 8) 16) as Wa. pose proof (W_bound (nh + 24) 16) as Wb. pose proof (W_bound l4 (l4_len b)) as Wc.
  unfold packet_csum_upperlayer6. rewrite (wrap_small 16) by (unfold in_width; lia). rewrite !ldn_bytes by lia. cbn [mbind option_bind].
  unfold l4_sum, pseudo_sum. rewrite E. change (ETH_TYPE_IPV6 =? ETH_TYPE_IP) with false. cbv iota. do 2 f_equal. unfold W in *.
  change (Z.to_nat 16) with 16%nat. fold (l4_len b).
  rewrite (csum_continue_sum 0) by (try apply bytes_at_byte; (done || lia)).
  rewrite (csum_continue_sum _ (bytes_at _ (nh + 24) 16)) by (try apply bytes_at_byte; (done || lia)).
  rewrite (csum_add16_small _ nw_proto) by lia. rewrite csum_add16_small by lia.
  rewrite csum_continue_sum by (try apply bytes_at_byte; (done || lia)). lia.
Qed.

(** The check of a receiver, as a sum. *)
Lemma checksum_valid_sum :
  checksum_valid b dl_type nw_proto l4 (dp_packet_l4_size b) nh = Some (csum_finish (l4_sum dl_type nw_proto b nh l4) =? 0).
Proof.
  pose proof layout_l4_len as (Hn & He & Hs). pose proof pseudo_sum_bound as Hp. pose proof (W_bound l4 (l4_len b)) as Wc.
  unfold checksum_valid. destruct layout_dl_type as [E|E]; rewrite E.
  - change (ETH_TYPE_IP =? ETH_TYPE_IP) with true. cbv iota. rewrite <- E, packet_csum_pseudoheader_sum by done. cbn [mbind option_bind].
    rewrite ldn_bytes by lia. cbn [mbind option_bind]. fold (l4_len b). unfold l4_sum, W in *.
    rewrite csum_continue_sum; [done|apply bytes_at_byte, Hla|lia|lia].
  - change (ETH_TYPE_IPV6 =? ETH_TYPE_IP) with false. change (ETH_TYPE_IPV6 =? ETH_TYPE_IPV6) with true. cbv iota.
    rewrite <- E, packet_csum_upperlayer6_sum by done. done.
Qed.

Lemma l4_sum_bound : 0 < l4_sum dl_type nw_proto b nh l4 < 2 ^ 32.
Proof.
  pose proof layout_l4_len as (Hn & He & Hs). pose proof pseudo_sum_bound as Hp. pose proof (W_bound l4 (l4_len b)) as Wc. unfold l4_sum. lia.
Qed.

Lemma checksum_valid_ones :
  checksum_valid b dl_type nw_proto l4 (dp_packet_l4_size b) nh = Some true <-> ones (l4_sum dl_type nw_proto b nh l4).
Proof.
  pose proof l4_sum_bound as Hb. rewrite checksum_valid_sum. pose proof (csum_finish_zero (l4_sum dl_type nw_proto b nh l4)) as Hz.
  rewrite <- Z.eqb_eq in Hz. destruct (csum_finish _ =? 0).
  - split; [|done]. intros _. apply Hz; [unfold in_width; lia|done].
  - split; [done|]. intros Ho. assert (false = true) by (apply Hz; [unfold in_width; lia|split; [done|lia]]). done.
Qed.

(** The header checksum of IPv4. *)
Lemma ip_len_bounds : dl_type = ETH_TYPE_IP -> (20 <= ip_len (dp_data b) nh <= 60)%nat /\ (nh + ip_len (dp_data b) nh <= l4)%nat /\ Z.of_nat (ip_len (dp_data b) nh) = IP_IHL (get (dp_data b) nh 1) * 4.
Proof.
  intros E. destruct (la_header _ _ _ _ _ Hla) as [(_ & _ & Hi & Hl & _)|(E' & _)]; [|exfalso; subst; by revert E'].
  unfold ip_len in *. unfold IP_IHL in *. pose proof (Z.land_ones (get (dp_data b) nh 1) 4 ltac:(lia)) as Hm. change (Z.ones 4) with 15 in Hm.
  rewrite Hm in *. pose proof (Z.mod_pos_bound (get (dp_data b) nh 1) (2 ^ 4) ltac:(lia)). lia.
Qed.

Lemma header_csum_ones : dl_type = ETH_TYPE_IP -> csum (bytes_at (dp_data b) nh (ip_len (dp_data b) nh)) = 0 <-> ones (W (dp_data b) nh (ip_len (dp_data b) nh)).
Proof.
  intros E. destruct (ip_len_bounds E) as (H1 & H2 & _). pose proof (W_bound nh (ip_len (dp_data b) nh)) as Hw. unfold csum, W in *.
  rewrite csum_continue_sum by (try apply bytes_at_byte; (apply Hla || lia)). rewrite Z.add_0_l.
  rewrite csum_finish_zero by (unfold in_width; lia). split; [tauto|]. intros Ho. split; [done|]. clear Ho.
  destruct (la_header _ _ _ _ _ Hla) as [(_ & Hv & _)|(E' & _)]; [|exfalso; subst; by revert E'].
  pose proof layout_header as (Ha & Hb & _). fold (W (dp_data b) nh (ip_len (dp_data b) nh)). rewrite W_head by lia.
  pose proof (get_nonneg (dp_data b) (nh + 1) 1 (la_bytes _ _ _ _ _ Hla)). pose proof (W_bound (nh + 2) (ip_len (dp_data b) nh - 2)).
  assert (0 < get (dp_data b) nh 1); [|lia]. pose proof (get_nonneg (dp_data b) nh 1 (la_bytes _ _ _ _ _ Hla)).
  destruct (Z.eq_dec (get (dp_data b) nh 1) 0) as [E0|]; [|lia]. by rewrite E0 in Hv.
Qed.
End Layout.
