(* ===== verification/PacketKeep.v ===== *)
(** * Changes that keep the checksums

    A step of a function that changes a packet brings the checksum up to date, or
    marks it for later, and then changes a field.  The two together keep the
    condition [l4_csum_ok] and, for IPv4, [ip_csum_ok]. *)

From S2P Require Import Prelude Util MetaFlow MetaFields Packet PacketProps MfCtx ExtractFields Conntrack Csum Crc32c PacketSet.
From S2P Require Import PacketOffload PacketBytes PacketLayout.
From stdpp Require Import prelude list.
From Stdlib Require Import ZArith Lia.
Open Scope Z_scope.
Open Scope ovs_scope.

(** ** The condition *)

(** Where the checksum of layer 4 is, counted from the start of the layer. *)
Definition csum_field (dl_type nw_proto size : Z) : option nat :=
  if (nw_proto =? IPPROTO_TCP) && (Z.of_nat TCP_HEADER_LEN <=? size) then Some 16%nat
  else if (nw_proto =? IPPROTO_UDP) && (Z.of_nat UDP_HEADER_LEN <=? size) then Some 6%nat
  else if (dl_type =? ETH_TYPE_IPV6) && (nw_proto =? IPPROTO_ICMPV6) && (Z.of_nat ICMP6_HEADER_LEN <=? size) then Some 2%nat
  else None.

(** Protocols whose checksum can be left for later. *)
Definition offloaded (nw_proto : Z) : bool := (nw_proto =? IPPROTO_TCP) || (nw_proto =? IPPROTO_UDP).

Definition ip_csum_ok (b : dp_packet) (nh : nat) : Prop :=
  dp_packet_ip_checksum_partial b = true \/ csum (bytes_at (dp_data b) nh (ip_len (dp_data b) nh)) = 0.

(** Marked for later, not used by UDP, or right for the receiver. *)
Definition l4_csum_ok (dl_type nw_proto : Z) (b : dp_packet) (nh l4 : nat) : Prop :=
  match csum_field dl_type nw_proto (dp_packet_l4_size b) with
  | Some c =>
      offloaded nw_proto && dp_packet_l4_checksum_partial b = true \/
      nw_proto = IPPROTO_UDP /\ get (dp_data b) (l4 + c) 2 = 0 \/
      checksum_valid b dl_type nw_proto l4 (dp_packet_l4_size b) nh = Some true
  | None => True
  end.

(** The bytes of that checksum. *)
Definition csum_range (dl_type nw_proto : Z) (b : dp_packet) (l4 : nat) : list (nat * nat) :=
  match csum_field dl_type nw_proto (dp_packet_l4_size b) with Some c => [((l4 + c)%nat, 2%nat)] | None => [] end.

Lemma csum_field_some (dl_type nw_proto size : Z) (c : nat) :
  csum_field dl_type nw_proto size = Some c -> Z.of_nat c + 2 <= size /\ Nat.Even c.
Proof.
  unfold csum_field, TCP_HEADER_LEN, UDP_HEADER_LEN, ICMP6_HEADER_LEN. intros H.
  destruct ((nw_proto =? IPPROTO_TCP) && _) eqn:E1; [|destruct ((nw_proto =? IPPROTO_UDP) && _) eqn:E2;
    [|destruct ((dl_type =? ETH_TYPE_IPV6) && (nw_proto =? IPPROTO_ICMPV6) && _) eqn:E3; [|done]]]; apply (inj Some) in H as <-.
  - apply andb_prop in E1 as [_ E%Z.leb_le]. split; [lia|by exists 8%nat].
  - apply andb_prop in E2 as [_ E%Z.leb_le]. split; [lia|by exists 3%nat].
  - apply andb_prop in E3 as [_ E%Z.leb_le]. split; [lia|by exists 1%nat].
Qed.

(** ** Layouts are kept *)

(** The bytes that tell the layout. *)
Definition fixed_bytes (dl_type : Z) (nh l4 : nat) : list (nat * nat) :=
  if dl_type =? ETH_TYPE_IP then [(nh, 1%nat); ((nh + 2)%nat, 2%nat); ((nh + 9)%nat, 1%nat)]
  else [((nh + 6)%nat, 1%nat); ((nh + 40)%nat, (l4 - (nh + 40))%nat)].

Definition spares (r fixed : list (nat * nat)) : Prop := Forall (fun f => Forall (apart f.1 f.2) r) fixed.

Lemma rd_agree (r : list (nat * nat)) (p p' : list Z) (o n : nat) : agree r p p' -> Forall (apart o n) r -> rd p' o n = rd p o n.
Proof. intros Ha Hr. unfold rd. by rewrite (get_agree r p p' o n Ha Hr), (proj1 Ha). Qed.

Lemma apart_within (lo hi o n : nat) (r : list (nat * nat)) :
  Forall (apart lo (hi - lo)) r -> (lo <= o)%nat -> (o + n <= hi)%nat -> Forall (apart o n) r.
Proof. intros H H1 H2. eapply Forall_impl; [exact H|]. intros [q m]. unfold apart. cbn. lia. Qed.

Lemma rh_loop_agree (r : list (nat * nat)) (p p' : list Z) (lo hi fuel data : nat) (remaining nexthdr : Z) (first_frag : bool) :
  agree r p p' -> Forall is_byte p -> Forall (apart lo (hi - lo)) r -> (lo <= data)%nat -> Z.of_nat data + remaining <= Z.of_nat hi ->
  packet_rh_present_loop fuel p' data remaining nexthdr first_frag = packet_rh_present_loop fuel p data remaining nexthdr first_frag.
Proof.
  intros Ha Hb Hr. revert data remaining nexthdr first_frag. induction fuel as [|fuel IH]; intros data remaining nexthdr ff H1 H2; [done|].
  cbn [packet_rh_present_loop]. case_match; [done|]. destruct (Z.ltb_spec remaining 8); [done|].
  assert (forall o n, (data <= o)%nat -> (o + n <= data + 8)%nat -> rd p' o n = rd p o n) as Hrd.
  { intros o n Ho Hn. apply (rd_agree r); [done|]. apply (apart_within lo hi); [done|lia|lia]. }
  rewrite !Hrd by lia.
  assert (forall nxt f len, 0 <= len ->
    (if remaining <? len then Some (false, nxt, f) else packet_rh_present_loop fuel p' (data + Z.to_nat len) (remaining - len) nxt f) =
    (if remaining <? len then Some (false, nxt, f) else packet_rh_present_loop fuel p (data + Z.to_nat len) (remaining - len) nxt f)) as Hn.
  { intros nxt f len Hlen. destruct (remaining <? len); [done|]. apply IH; lia. }
  assert (forall x, rd p (data + 1) 1 = Some x -> 0 <= x) as Hx.
  { unfold rd. intros x. case_match; [|done]. intros E. apply (inj Some) in E as <-. by apply get_nonneg. }
  destruct (rd p (data + 1) 1) as [len|] eqn:El; [specialize (Hx len eq_refl)|];
    destruct (nexthdr =? IPPROTO_AH), (nexthdr =? IPPROTO_FRAGMENT), (nexthdr =? IPPROTO_ROUTING), (rd p data 1), (rd p (data + 2) 2),
      (rd p (data + 3) 1) as [seg|]; cbn [mbind option_bind]; try done; try (destruct (0 <? seg)); try done; (apply Hn; lia) || (apply IH; lia).
Qed.

Lemma layout_sets (dl_type nw_proto : Z) (r : list (nat * nat)) (b b' : dp_packet) (nh l4 : nat) :
  layout dl_type nw_proto b nh l4 -> sets r b b' -> spares r (fixed_bytes dl_type nh l4) ->
  IP_VER (get (dp_data b') nh 1) = IP_VER (get (dp_data b) nh 1) -> layout dl_type nw_proto b' nh l4.
Proof.
  intros Hla Hs Hf Hv. pose proof (sets_layers _ _ _ Hs) as (E3 & E4 & _). pose proof (sets_length _ _ _ Hs) as El.
  pose proof (layout_header _ _ _ _ _ Hla) as (Hh1 & Hh2 & Hh3). pose proof Hla as [Hb H3o H4o Hmax Hp Hh Hpad He Hsz].
  pose proof (layout_l3 _ _ _ _ _ Hla) as H3.
  assert (dp_l2_pad_size b' = dp_l2_pad_size b /\ dp_l3_ofs b' = dp_l3_ofs b /\ dp_l4_ofs b' = dp_l4_ofs b) as (Ep & Eo3 & Eo4).
  { destruct Hs as [_ _ (q & x & ->) _]. by destruct b. }
  split; rewrite ?El, ?Ep; [by apply (st_bytes _ _ _ Hs)|congruence|congruence|done|done| |done..].
  unfold spares, fixed_bytes in Hf. destruct Hh as [(-> & Hv4 & Hi & Hl & Hn)|(-> & Hv6 & Hl & Hr)].
  - left. change (ETH_TYPE_IP =? ETH_TYPE_IP) with true in Hf. cbv iota in Hf. rewrite !Forall_cons in Hf. cbn [fst snd] in Hf.
    destruct Hf as (F1 & F2 & F3 & _). unfold ip_len. rewrite !(sets_get _ _ _ _ _ Hs) by done. done.
  - right. change (ETH_TYPE_IPV6 =? ETH_TYPE_IP) with false in Hf. cbv iota in Hf. rewrite !Forall_cons in Hf. cbn [fst snd] in Hf.
    destruct Hf as (F1 & F2 & _). split_and!; [done|congruence|done|]. rewrite <- Hr. unfold packet_rh_present. rewrite E3, Eo3, Eo4.
    rewrite H3. cbn [mbind option_bind]. case_match; [done|]. specialize (Hh3 eq_refl). rewrite !ld_get by lia.
    rewrite (sets_get _ _ _ _ _ Hs) by done. cbn [mbind option_bind]. rewrite El.
    apply (rh_loop_agree r _ _ (nh + 40) l4); [apply Hs|done|done|unfold IPV6_HEADER_LEN; lia|].
    unfold UINT16_MAX in Hmax. rewrite H3o, H4o, (wrap_small 64) by (unfold in_width; lia). unfold IPV6_HEADER_LEN. lia.
Qed.

(** ** Bringing the checksum of layer 4 up to date *)

(** [f] is the change of a checksum when a part of its sum changes from [d] to [d']. *)
Definition recalc_ok (f : Z -> Z) (d d' : Z) : Prop :=
  forall c, in_width 16 c -> in_width 16 (f c) /\ exists k, f c + d' = c + d + 65535 * k.

Definition l4_update (dl_type nw_proto : Z) (b : dp_packet) (f : Z -> Z) : option dp_packet :=
  match csum_field dl_type nw_proto (dp_packet_l4_size b) with
  | Some c =>
      if offloaded nw_proto && dp_packet_l4_checksum_valid b then Some (dp_packet_l4_checksum_set_partial b)
      else
        l4 ← dp_packet_l4 b;
        if nw_proto =? IPPROTO_UDP then update_udp_csum b (l4 + c) f else update_csum b (l4 + c) f
  | None => Some b
  end.

Record l4_updated (dl_type nw_proto : Z) (nh l4 : nat) (d d' : Z) (b b1 : dp_packet) : Prop := {
  lu_sets : sets (csum_range dl_type nw_proto b l4) b b1;
  lu_layout : layout dl_type nw_proto b1 nh l4;
  lu_ip : dp_packet_ip_checksum_partial b1 = dp_packet_ip_checksum_partial b;
  lu_csum : forall c, csum_field dl_type nw_proto (dp_packet_l4_size b) = Some c ->
    offloaded nw_proto && dp_packet_l4_checksum_partial b1 = true \/
    nw_proto = IPPROTO_UDP /\ get (dp_data b1) (l4 + c) 2 = 0 \/
    offloaded nw_proto && dp_packet_l4_checksum_partial b = false /\ (nw_proto = IPPROTO_UDP -> get (dp_data b) (l4 + c) 2 <> 0) /\
      exists k, l4_sum dl_type nw_proto b1 nh l4 + d' = l4_sum dl_type nw_proto b nh l4 + d + 65535 * k
}.

Section Update.
Context (dl_type nw_proto : Z) (nh l4 : nat).

Lemma apart_before (r : list (nat * nat)) (o n : nat) : Forall (fun x => (l4 <= x.1)%nat) r -> (o + n <= l4)%nat -> Forall (apart o n) r.
Proof. intros H Ho. eapply Forall_impl; [exact H|]. intros [q m]. unfold apart. cbn. lia. Qed.

(** Changes behind the headers. *)
Lemma sets_behind (r : list (nat * nat)) (b b' : dp_packet) :
  layout dl_type nw_proto b nh l4 -> sets r b b' -> Forall (fun x => (l4 <= x.1)%nat) r ->
  layout dl_type nw_proto b' nh l4 /\ pseudo_sum dl_type nw_proto b' nh = pseudo_sum dl_type nw_proto b nh /\
  ip_len (dp_data b') nh = ip_len (dp_data b) nh /\
  (dl_type = ETH_TYPE_IP -> bytes_at (dp_data b') nh (ip_len (dp_data b) nh) = bytes_at (dp_data b) nh (ip_len (dp_data b) nh)).
Proof.
  intros Hla Hs Hr. pose proof (layout_header _ _ _ _ _ Hla) as (H1 & _ & H2).
  assert (forall o n, (o + n <= l4)%nat -> get (dp_data b') o n = get (dp_data b) o n) as Hg.
  { intros o n Ho. apply (sets_get r); [done|]. by apply apart_before. }
  split_and!.
  - apply (layout_sets _ _ r b); [done|done| |by rewrite Hg by lia]. unfold spares, fixed_bytes. case_match eqn:E.
    + repeat constructor; cbn [fst snd]; apply apart_before; (done || lia).
    + assert (dl_type = ETH_TYPE_IPV6) as E6 by (destruct (layout_dl_type _ _ _ _ _ Hla) as [->|]; [by rewrite Z.eqb_refl in E|done]).
      specialize (H2 E6). repeat constructor; cbn [fst snd]; apply apart_before; (done || lia).
  - unfold pseudo_sum. pose proof (sets_layers _ _ _ Hs) as (_ & _ & -> & _).
    case_match eqn:E; [by rewrite !Hg by lia|].
    assert (dl_type = ETH_TYPE_IPV6) as E6 by (destruct (layout_dl_type _ _ _ _ _ Hla) as [->|]; [by rewrite Z.eqb_refl in E|done]).
    specialize (H2 E6). rewrite !(sets_W r b b') by (try apply apart_before; (done || lia)). done.
  - unfold ip_len. by rewrite Hg by lia.
  - intros E. pose proof (ip_len_bounds _ _ _ _ _ Hla E) as (_ & Hl & _). apply (bytes_at_agree r); [apply Hs|by apply apart_before].
Qed.

Lemma l4_sum_store (b : dp_packet) (c n : nat) (x : Z) :
  layout dl_type nw_proto b nh l4 -> (c + n <= l4_len b)%nat -> Nat.Even c -> Nat.Even n ->
  l4_sum dl_type nw_proto (store b (l4 + c) (be_bytes n x)) nh l4 =
  l4_sum dl_type nw_proto b nh l4 - words_sum (be_bytes n (get (dp_data b) (l4 + c) n)) + words_sum (be_bytes n x).
Proof.
  intros Hla Hc He1 He2. pose proof (layout_l4_len _ _ _ _ _ Hla) as (_ & Hl & _).
  pose proof (sets_wr b (l4 + c) n x ltac:(lia)) as Hs.
  destruct (sets_behind _ b _ Hla Hs) as (_ & Hp & _); [constructor; [cbn; lia|constructor]|].
  unfold l4_sum. rewrite Hp. pose proof (sets_layers _ _ _ Hs) as (_ & _ & Hsz & _). unfold l4_len in *. rewrite Hsz, dp_data_store.
  rewrite W_patch by (rewrite ?length_be_bytes; (lia || done || (by replace (l4 + c - l4)%nat with c by lia))).
  rewrite length_be_bytes.
  rewrite (W_be_bytes _ (l4 + c)); [lia|apply Hla|lia].
Qed.

Lemma nonzero16_ok (x : Z) : in_width 16 x -> in_width 16 (nonzero16 x) /\ nonzero16 x <> 0 /\ exists k, nonzero16 x = x + 65535 * k.
Proof.
  unfold nonzero16, in_width. intros Hx. destruct (Z.eqb_spec x 0) as [->|]; split_and!; try lia; [exists 1|exists 0]; lia.
Qed.

(** The checksum [x], congruent to what [f] gives. *)
Lemma l4_csum_store (b : dp_packet) (c : nat) (f : Z -> Z) (x d d' : Z) :
  layout dl_type nw_proto b nh l4 -> csum_field dl_type nw_proto (dp_packet_l4_size b) = Some c -> recalc_ok f d d' ->
  in_width 16 x -> (exists k, x = f (get (dp_data b) (l4 + c) 2) + 65535 * k) ->
  offloaded nw_proto && dp_packet_l4_checksum_partial b = false -> (nw_proto = IPPROTO_UDP -> get (dp_data b) (l4 + c) 2 <> 0) ->
  l4_updated dl_type nw_proto nh l4 d d' b (store b (l4 + c) (be_bytes 2 x)).
Proof.
  intros Hla Hc Hf Hx [k Hk] Hp Hu. pose proof (layout_l4_len _ _ _ _ _ Hla) as (Hl & Hl' & _).
  destruct (csum_field_some _ _ _ _ Hc) as [Hc1 Hc2]. pose proof (sets_wr b (l4 + c) 2 x ltac:(lia)) as Hs.
  destruct (sets_behind _ b _ Hla Hs) as (Hla' & _); [constructor; [cbn; lia|constructor]|].
  split; [unfold csum_range; by rewrite Hc|done|done|]. intros c' Hc'. rewrite Hc in Hc'. apply (inj Some) in Hc' as <-.
  right. right. split_and!; [done|done|]. rewrite l4_sum_store by (done || lia || by exists 1%nat).
  rewrite !words_sum_2, (wrap_small 16 x) by done. rewrite (wrap_small 16) by (apply (get_width' _ _ _ _ _ Hla); done).
  destruct (Hf (get (dp_data b) (l4 + c) 2)) as (_ & k' & Hk'); [apply (get_width' _ _ _ _ _ Hla); done|].
  exists (k + k'). lia.
Qed.

Lemma l4_update_ok (b : dp_packet) (f : Z -> Z) (d d' : Z) :
  layout dl_type nw_proto b nh l4 -> recalc_ok f d d' ->
  exists b1, l4_update dl_type nw_proto b f = Some b1 /\ l4_updated dl_type nw_proto nh l4 d d' b b1.
Proof.
  intros Hla Hf. unfold l4_update. destruct (csum_field dl_type nw_proto (dp_packet_l4_size b)) as [c|] eqn:Hc.
  2:{ exists b. split; [done|]. split; [unfold csum_range; rewrite Hc; apply sets_refl|done|done|]. intros c. by rewrite Hc. }
  pose proof (layout_l4_len _ _ _ _ _ Hla) as (Hl & Hl' & _). destruct (csum_field_some _ _ _ _ Hc) as [Hc1 Hc2].
  destruct (offloaded nw_proto && dp_packet_l4_checksum_valid b) eqn:Eo.
  { apply andb_prop in Eo as [Eo _]. destruct (l4_set_partial b) as (P1 & P2 & P3 & P4). eexists. split; [done|].
    destruct (sets_behind _ b _ Hla P4) as (Hla' & _); [constructor|].
    split; [apply (sets_weaken []); [set_solver|done]|done|done|]. intros c' _. left. by rewrite Eo, P1. }
  assert (offloaded nw_proto && dp_packet_l4_checksum_partial b = false) as Hp.
  { destruct (offloaded nw_proto); [|done]. destruct (dp_packet_l4_checksum_partial b) eqn:E; [|done].
    apply l4_partial_valid in E. by rewrite E in Eo. }
  rewrite (layout_l4 _ _ _ _ _ Hla). cbn [mbind option_bind].
  destruct (Hf (get (dp_data b) (l4 + c) 2)) as (Hw & _); [apply (get_width' _ _ _ _ _ Hla); done|].
  destruct (Z.eqb_spec nw_proto IPPROTO_UDP) as [Eu|Eu].
  - rewrite update_udp_csum_store by (done || lia). eexists. split; [done|].
    destruct (Z.eqb_spec (get (dp_data b) (l4 + c) 2) 0) as [E0|E0].
    + split; [apply (sets_weaken []); [set_solver|apply sets_refl]|done|done|]. intros c' Hc'. rewrite Hc in Hc'. apply (inj Some) in Hc' as <-. tauto.
    + destruct (nonzero16_ok _ Hw) as (Hn1 & _ & Hn2). by eapply l4_csum_store.
  - rewrite update_csum_store by lia. eexists. split; [done|]. eapply l4_csum_store; try done. exists 0. lia.
Qed.
End Update.
