(* ===== verification/PacketIp4.v ===== *)
(** * Changing IPv4 headers

    The steps of [packet_set_ipv4]. *)

From S2P Require Import Prelude Util MetaFlow MetaFields Packet PacketProps MfCtx ExtractFields Conntrack Csum Crc32c PacketSet.
From S2P Require Import PacketOffload PacketBytes PacketLayout PacketKeep.
From stdpp Require Import prelude list.
From Stdlib Require Import ZArith Lia.
Open Scope Z_scope.
Open Scope ovs_scope.

(** ** Steps that keep the checksums *)

Record keeps (dl_type nw_proto : Z) (nh l4 : nat) (r : list (nat * nat)) (b b' : dp_packet) : Prop := {
  k_sets : sets r b b';
  k_layout : layout dl_type nw_proto b' nh l4;
  k_ip : dl_type = ETH_TYPE_IP -> ip_csum_ok b nh -> ip_csum_ok b' nh;
  k_l4 : l4_csum_ok dl_type nw_proto b nh l4 -> l4_csum_ok dl_type nw_proto b' nh l4
}.

Lemma keeps_refl (dl_type nw_proto : Z) (nh l4 : nat) (b : dp_packet) : layout dl_type nw_proto b nh l4 -> keeps dl_type nw_proto nh l4 [] b b.
Proof. intros H. split; [apply sets_refl|done..]. Qed.

Lemma keeps_trans (dl_type nw_proto : Z) (nh l4 : nat) (r r' : list (nat * nat)) (b b' b'' : dp_packet) :
  keeps dl_type nw_proto nh l4 r b b' -> keeps dl_type nw_proto nh l4 r' b' b'' -> keeps dl_type nw_proto nh l4 (r ++ r') b b''.
Proof. intros [S1 L1 I1 T1] [S2 L2 I2 T2]. split; [by eapply sets_trans|done|auto|auto]. Qed.

Lemma keeps_weaken (dl_type nw_proto : Z) (nh l4 : nat) (r r' : list (nat * nat)) (b b' : dp_packet) :
  r ⊆ r' -> keeps dl_type nw_proto nh l4 r b b' -> keeps dl_type nw_proto nh l4 r' b b'.
Proof. intros Hr [S L I T]. split; [by eapply sets_weaken|done..]. Qed.

Lemma csum_range_sets (dl_type nw_proto : Z) (l4 : nat) (r : list (nat * nat)) (b b' : dp_packet) :
  sets r b b' -> csum_range dl_type nw_proto b' l4 = csum_range dl_type nw_proto b l4.
Proof. intros H. unfold csum_range. by destruct (sets_layers _ _ _ H) as (_ & _ & -> & _). Qed.

Lemma ones_shift (x y k : Z) : x = y + 65535 * k -> ones x <-> ones y.
Proof. intros ->. unfold ones. rewrite Z.mul_comm, Z.mod_add by lia. done. Qed.

(** The checksum of layer 4 after the step from [b] to [b1] and then to [b2]. *)
Lemma l4_csum_ok_step (dl_type nw_proto : Z) (nh l4 : nat) (r : list (nat * nat)) (d d' : Z) (b b1 b2 : dp_packet) :
  layout dl_type nw_proto b nh l4 -> l4_updated dl_type nw_proto nh l4 d d' b b1 -> layout dl_type nw_proto b2 nh l4 -> sets r b1 b2 ->
  spares r (csum_range dl_type nw_proto b l4) -> dp_packet_l4_checksum_partial b2 = dp_packet_l4_checksum_partial b1 ->
  l4_sum dl_type nw_proto b2 nh l4 = l4_sum dl_type nw_proto b1 nh l4 - d + d' ->
  l4_csum_ok dl_type nw_proto b nh l4 -> l4_csum_ok dl_type nw_proto b2 nh l4.
Proof.
  intros Hla [Hs1 Hla1 _ Hc] Hla2 Hs2 Hr Hp Hsum. unfold l4_csum_ok.
  destruct (sets_layers _ _ _ Hs1) as (_ & _ & E1 & _). destruct (sets_layers _ _ _ Hs2) as (_ & _ & E2 & _). rewrite E2, E1.
  unfold spares, csum_range in Hr. destruct (csum_field _ _ _) as [c|] eqn:Ec; [|done]. specialize (Hc c eq_refl).
  apply Forall_cons in Hr as [Hr _]. cbn [fst snd] in Hr. rewrite (sets_get _ _ _ _ _ Hs2 Hr), Hp.
  intros Hok. destruct Hc as [Hc|[Hc|(Hc1 & Hc2 & k & Hk)]]; [by left|right; by left|].
  destruct Hok as [Hok|[[Hu Hz]|Hok]]; [congruence|by destruct (Hc2 Hu)|]. right. right.
  rewrite (checksum_valid_ones _ _ _ _ _ Hla) in Hok. rewrite <- E1, <- E2, (checksum_valid_ones _ _ _ _ _ Hla2).
  apply (ones_shift _ (l4_sum dl_type nw_proto b nh l4) k); [lia|exact Hok].
Qed.

(** A step that does not touch what the checksum covers. *)
Lemma l4_csum_ok_same (dl_type nw_proto : Z) (nh l4 : nat) (r : list (nat * nat)) (b b2 : dp_packet) :
  layout dl_type nw_proto b nh l4 -> layout dl_type nw_proto b2 nh l4 -> sets r b b2 -> spares r (csum_range dl_type nw_proto b l4) ->
  dp_packet_l4_checksum_partial b2 = dp_packet_l4_checksum_partial b ->
  l4_sum dl_type nw_proto b2 nh l4 = l4_sum dl_type nw_proto b nh l4 ->
  l4_csum_ok dl_type nw_proto b nh l4 -> l4_csum_ok dl_type nw_proto b2 nh l4.
Proof.
  intros Hla Hla2 Hs Hr Hp Hsum. unfold l4_csum_ok. destruct (sets_layers _ _ _ Hs) as (_ & _ & E & _). rewrite E.
  unfold spares, csum_range in Hr. destruct (csum_field _ _ _) as [c|] eqn:Ec; [|done].
  apply Forall_cons in Hr as [Hr _]. cbn [fst snd] in Hr. rewrite (sets_get _ _ _ _ _ Hs Hr), Hp.
  rewrite (checksum_valid_ones _ _ _ _ _ Hla). rewrite <- E, (checksum_valid_ones _ _ _ _ _ Hla2), Hsum. done.
Qed.

(** ** The header checksum *)

Definition ip_update (b : dp_packet) (nh : nat) (f : Z -> Z) : option dp_packet :=
  if dp_packet_ip_checksum_valid b then Some (dp_packet_ip_checksum_set_partial b) else update_csum b (nh + 10) f.

Definition header_sum (b : dp_packet) (nh : nat) : Z := W (dp_data b) nh (ip_len (dp_data b) nh).

Record ip_updated (nw_proto : Z) (nh l4 : nat) (d d' : Z) (b b1 : dp_packet) : Prop := {
  iu_sets : sets [((nh + 10)%nat, 2%nat)] b b1;
  iu_layout : layout ETH_TYPE_IP nw_proto b1 nh l4;
  iu_l4 : dp_packet_l4_checksum_partial b1 = dp_packet_l4_checksum_partial b;
  iu_csum : dp_packet_ip_checksum_partial b1 = true \/
    dp_packet_ip_checksum_partial b = false /\ exists k, header_sum b1 nh + d' = header_sum b nh + d + 65535 * k
}.

Section Ip4.
Context (nw_proto : Z) (nh l4 : nat).

(** The fields that are changed. *)
Definition in_header (r : list (nat * nat)) : Prop :=
  Forall (fun x => (x.1 + x.2 <= nh + 20 /\ (nh + 1 <= x.1 /\ x.1 + x.2 <= nh + 2 \/ nh + 4 <= x.1 /\ x.1 + x.2 <= nh + 9 \/ nh + 10 <= x.1))%nat) r.

Lemma layout4_sets (r : list (nat * nat)) (b b' : dp_packet) :
  layout ETH_TYPE_IP nw_proto b nh l4 -> sets r b b' -> in_header r -> layout ETH_TYPE_IP nw_proto b' nh l4 /\ ip_len (dp_data b') nh = ip_len (dp_data b) nh /\
  W (dp_data b') l4 (l4_len b) = W (dp_data b) l4 (l4_len b) /\ l4_len b' = l4_len b.
Proof.
  intros Hla Hs Hr. pose proof (layout_header _ _ _ _ _ Hla) as (H1 & _).
  assert (Forall (apart nh 1) r) as F1 by (eapply Forall_impl; [exact Hr|]; intros [o n]; unfold apart; cbn; lia).
  assert (Forall (apart (nh + 2) 2) r) as F2 by (eapply Forall_impl; [exact Hr|]; intros [o n]; unfold apart; cbn; lia).
  assert (Forall (apart (nh + 9) 1) r) as F3 by (eapply Forall_impl; [exact Hr|]; intros [o n]; unfold apart; cbn; lia).
  split_and!.
  - apply (layout_sets _ _ r b); [done|done| |by rewrite (sets_get r b)].
    unfold spares, fixed_bytes. rewrite Z.eqb_refl. by repeat constructor.
  - unfold ip_len. by rewrite (sets_get r b).
  - apply (sets_W r); [done|]. eapply Forall_impl; [exact Hr|]. intros [o n]. unfold apart. cbn. lia.
  - unfold l4_len. by destruct (sets_layers _ _ _ Hs) as (_ & _ & -> & _).
Qed.

Lemma header_sum_store (b : dp_packet) (o : nat) (bs : list Z) :
  layout ETH_TYPE_IP nw_proto b nh l4 -> in_header [((nh + o)%nat, length bs)] -> Nat.Even o -> Nat.Even (length bs) -> Forall is_byte bs ->
  header_sum (store b (nh + o) bs) nh = header_sum b nh - W (dp_data b) (nh + o) (length bs) + words_sum bs.
Proof.
  intros Hla Hr He1 He2 Hb. pose proof (layout_header _ _ _ _ _ Hla) as (H1 & H2 & _).
  pose proof (ip_len_bounds _ _ _ _ _ Hla eq_refl) as (H3 & H4 & _).
  assert (nh + o + length bs <= nh + 20)%nat as H5 by (apply Forall_cons in Hr as [Hr _]; cbn in Hr; lia).
  destruct (layout4_sets _ b _ Hla (sets_store b (nh + o) bs ltac:(lia) Hb) Hr) as (_ & Hl & _). unfold header_sum. rewrite Hl, dp_data_store.
  apply W_patch; [lia|lia|lia| |done]. by replace (nh + o - nh)%nat with o by lia.
Qed.

Lemma ip_update_ok (b : dp_packet) (f : Z -> Z) (d d' : Z) :
  layout ETH_TYPE_IP nw_proto b nh l4 -> recalc_ok f d d' -> exists b1, ip_update b nh f = Some b1 /\ ip_updated nw_proto nh l4 d d' b b1.
Proof.
  intros Hla Hf. pose proof (layout_header _ _ _ _ _ Hla) as (H1 & H2 & _).
  assert (in_header [((nh + 10)%nat, 2%nat)]) as Hr by (ranges).
  unfold ip_update. destruct (dp_packet_ip_checksum_valid b) eqn:Ev.
  - destruct (ip_set_partial b) as (P1 & P2 & P3 & P4). eexists. split; [done|].
    assert (sets [((nh + 10)%nat, 2%nat)] b (dp_packet_ip_checksum_set_partial b)) as Hs by (apply (sets_weaken []); [set_solver|done]).
    split; [done|by apply (layout4_sets _ b _ Hla Hs)|done|by left].
  - rewrite update_csum_store by lia. eexists. split; [done|]. set (x := f (get (dp_data b) (nh + 10) 2)).
    pose proof (sets_wr b (nh + 10) 2 x ltac:(lia)) as Hs. split; [done|by apply (layout4_sets _ b _ Hla Hs)|done|]. right. split.
    { destruct (dp_packet_ip_checksum_partial b) eqn:E; [|done]. apply ip_partial_valid in E. congruence. }
    pose proof (get_width' _ _ _ _ _ Hla (nh + 10) 2 16 eq_refl) as Hw. destruct (Hf _ Hw) as (Hx & k & Hk). exists k.
    rewrite header_sum_store by (rewrite ?length_be_bytes; (done || (by exists 5%nat) || (by exists 1%nat) || apply be_bytes_byte)).
    rewrite length_be_bytes, W_be_bytes by (apply Hla || lia). rewrite !words_sum_2, !(wrap_small 16) by done. unfold x. lia.
Qed.

Lemma ip_csum_ok_step (d d' : Z) (b b1 b2 : dp_packet) :
  layout ETH_TYPE_IP nw_proto b nh l4 -> layout ETH_TYPE_IP nw_proto b2 nh l4 -> ip_updated nw_proto nh l4 d d' b b1 ->
  dp_packet_ip_checksum_partial b2 = dp_packet_ip_checksum_partial b1 -> header_sum b2 nh = header_sum b1 nh - d + d' ->
  ip_csum_ok b nh -> ip_csum_ok b2 nh.
Proof.
  intros Hla Hla2 [_ _ _ Hc] Hp Hsum. unfold ip_csum_ok. rewrite (header_csum_ones _ _ _ _ _ Hla eq_refl), (header_csum_ones _ _ _ _ _ Hla2 eq_refl).
  rewrite Hp. destruct Hc as [Hc|(Hc & k & Hk)]; [by left|]. intros [Ho|Ho]; [congruence|]. right.
  apply (ones_shift _ (header_sum b nh) k); [|exact Ho]. fold (header_sum b2 nh). lia.
Qed.

Lemma recalc16_ok (m m' : Z) : in_width 16 m -> in_width 16 m' -> recalc_ok (fun c => recalc_csum16 c m m') m m'.
Proof. intros Hm Hm' c Hc. by apply recalc_csum16_spec. Qed.

Lemma recalc32_ok (m m' : Z) : in_width 32 m -> in_width 32 m' -> recalc_ok (fun c => recalc_csum32 c m m') (halves m) (halves m').
Proof. intros Hm Hm' c Hc. by apply recalc_csum32_spec. Qed.

Lemma csum_range_behind (dl_type : Z) (b : dp_packet) (r : list (nat * nat)) :
  Forall (fun x => (x.1 + x.2 <= l4)%nat) r -> spares r (csum_range dl_type nw_proto b l4).
Proof.
  intros Hr. unfold spares, csum_range. case_match; [|constructor]. repeat constructor. cbn [fst snd].
  eapply Forall_impl; [exact Hr|]. intros [q m]. unfold apart. cbn. lia.
Qed.

(** What a field of one byte adds to the sum of the header: 256 times its value, or its value. *)
Lemma byte_keeps (b : dp_packet) (o : nat) (k x : Z) (f : Z -> Z) :
  layout ETH_TYPE_IP nw_proto b nh l4 -> (o = 1%nat /\ k = 1 \/ o = 8%nat /\ k = 256) -> is_byte x ->
  recalc_ok f (k * get (dp_data b) (nh + o) 1) (k * x) ->
  exists b', (b ← ip_update b nh f; wr b (nh + o) 1 x) = Some b' /\
    keeps ETH_TYPE_IP nw_proto nh l4 [((nh + 10)%nat, 2%nat); ((nh + o)%nat, 1%nat)] b b' /\ get (dp_data b') (nh + o) 1 = x.
Proof.
  intros Hla Ho Hx Hf. pose proof (layout_header _ _ _ _ _ Hla) as (H1 & H2 & _). destruct (ip_update_ok b f _ _ Hla Hf) as (b1 & -> & Hu).
  pose proof Hu as [Hs1 Hla1 Hp1 _]. pose proof (sets_length _ _ _ Hs1) as Hl1. cbn [mbind option_bind]. rewrite wr_store by lia. eexists. split; [done|].
  pose proof (sets_wr b1 (nh + o) 1 x ltac:(lia)) as Hs2. set (b2 := store b1 (nh + o) (be_bytes 1 x)) in *.
  destruct (layout4_sets _ _ _ Hla1 Hs2) as (Hla2 & Hi & HW & Hn); [ranges|].
  pose proof (sets_trans _ _ _ _ _ Hs1 Hs2) as Hs. cbn [app] in Hs.
  assert (forall q n, (nh <= q)%nat -> Forall (apart q n) [((nh + 10)%nat, 2%nat); ((nh + o)%nat, 1%nat)] -> get (dp_data b2) q n = get (dp_data b) q n) as Hg.
  { intros q n _. by apply sets_get. }
  split; [|apply get_patch; [lia|exact Hx]]. split; [done|done| |].
  - intros _. apply (ip_csum_ok_step (k * get (dp_data b) (nh + o) 1) (k * x) b b1); [done|done|done|done|].
    pose proof (ip_len_bounds _ _ _ _ _ Hla1 eq_refl) as (H3 & H4 & _). unfold header_sum. rewrite Hi. unfold b2. rewrite dp_data_store, be_bytes_1 by done.
    rewrite <- (sets_get _ _ _ (nh + o) 1 Hs1) by ranges. rewrite get_nth.
    destruct Ho as [[-> ->]|[-> ->]].
    + destruct (W_byte (dp_data b1) nh (ip_len (dp_data b1) nh) nh x) as [_ ->]; [lia|lia|lia|exists 0%nat; lia|lia].
    + destruct (W_byte (dp_data b1) nh (ip_len (dp_data b1) nh) (nh + 8) x) as [-> _]; [lia|lia|lia|exists 4%nat; lia|lia].
  - eapply (l4_csum_ok_same _ _ _ _ _ b b2); [done|done|exact Hs|apply csum_range_behind; ranges|done|].
    destruct (layout4_sets _ _ _ Hla Hs) as (_ & Hi' & HW' & Hn'); [ranges|].
    unfold l4_sum, pseudo_sum. rewrite Hn', HW', Z.eqb_refl. rewrite !Hg by (lia || ranges). done.
Qed.

(** ** Addresses *)

Lemma l4_update_ipv4 (b : dp_packet) (f : Z -> Z) :
  l4_update ETH_TYPE_IP nw_proto b f =
  (if (nw_proto =? IPPROTO_TCP) && (Z.of_nat TCP_HEADER_LEN <=? dp_packet_l4_size b) then
     if dp_packet_l4_checksum_valid b then Some (dp_packet_l4_checksum_set_partial b)
     else th ← dp_packet_l4 b; update_csum b (th + 16) f
   else if (nw_proto =? IPPROTO_UDP) && (Z.of_nat UDP_HEADER_LEN <=? dp_packet_l4_size b) then
     if dp_packet_l4_checksum_valid b then Some (dp_packet_l4_checksum_set_partial b)
     else uh ← dp_packet_l4 b; update_udp_csum b (uh + 6) f
   else Some b).
Proof.
  unfold l4_update, csum_field, offloaded. change (ETH_TYPE_IP =? ETH_TYPE_IPV6) with false.
  destruct (Z.eqb_spec nw_proto IPPROTO_TCP) as [->|]; cbn [andb orb].
  - destruct (Z.of_nat TCP_HEADER_LEN <=? dp_packet_l4_size b); [done|]. by change (IPPROTO_TCP =? IPPROTO_UDP) with false.
  - destruct (Z.eqb_spec nw_proto IPPROTO_UDP) as [->|]; cbn [andb orb]; [|done]. by destruct (Z.of_nat UDP_HEADER_LEN <=? dp_packet_l4_size b).
Qed.

Definition addr_ranges (b : dp_packet) (o : nat) : list (nat * nat) :=
  csum_range ETH_TYPE_IP nw_proto b l4 ++ [((nh + 10)%nat, 2%nat); ((nh + o)%nat, 4%nat)].

Lemma pseudo_sum_addr (b : dp_packet) (o : nat) (x : Z) :
  layout ETH_TYPE_IP nw_proto b nh l4 -> (o = 12 \/ o = 16)%nat -> in_width 32 x ->
  pseudo_sum ETH_TYPE_IP nw_proto (store b (nh + o) (be_bytes 4 x)) nh =
  pseudo_sum ETH_TYPE_IP nw_proto b nh - halves (get (dp_data b) (nh + o) 4) + halves x.
Proof.
  intros Hla Ho Hx. pose proof (layout_header _ _ _ _ _ Hla) as (H1 & H2 & _). unfold pseudo_sum. rewrite Z.eqb_refl.
  pose proof (sets_wr b (nh + o) 4 x ltac:(lia)) as Hs. set (b' := store b (nh + o) (be_bytes 4 x)) in *.
  assert (get (dp_data b') (nh + o) 4 = x) as Hg by (apply get_patch; [lia|exact Hx]). clearbody b'.
  rewrite (sets_get _ _ _ (nh + 2) 2 Hs), (sets_get _ _ _ nh 1 Hs) by ranges.
  destruct Ho as [-> | ->]; rewrite Hg.
  - rewrite (sets_get _ _ _ (nh + 16) 4 Hs) by ranges. lia.
  - rewrite (sets_get _ _ _ (nh + 12) 4 Hs) by ranges. lia.
Qed.

Lemma csum_range_after (dl_type : Z) (b : dp_packet) : Forall (fun x => (l4 <= x.1)%nat) (csum_range dl_type nw_proto b l4).
Proof. unfold csum_range. case_match; repeat constructor. cbn. lia. Qed.

(** The store of an address, as a change of the two sums. *)
Lemma addr_store (b : dp_packet) (o : nat) (x : Z) :
  layout ETH_TYPE_IP nw_proto b nh l4 -> (o = 12 \/ o = 16)%nat -> in_width 32 x ->
  let b' := store b (nh + o) (be_bytes 4 x) in let d := halves (get (dp_data b) (nh + o) 4) in
  layout ETH_TYPE_IP nw_proto b' nh l4 /\ header_sum b' nh = header_sum b nh - d + halves x /\
  l4_sum ETH_TYPE_IP nw_proto b' nh l4 = l4_sum ETH_TYPE_IP nw_proto b nh l4 - d + halves x /\ get (dp_data b') (nh + o) 4 = x.
Proof.
  intros Hla Ho Hx b' d. pose proof (layout_header _ _ _ _ _ Hla) as (H1 & H2 & _). pose proof (sets_wr b (nh + o) 4 x ltac:(lia)) as Hs.
  assert (in_header [((nh + o)%nat, 4%nat)]) as Hr by (destruct Ho; ranges).
  destruct (layout4_sets _ _ _ Hla Hs Hr) as (Hla' & _ & HW & Hn).
  assert (Nat.Even o) as He by (destruct Ho as [-> | ->]; [by exists 6%nat|by exists 8%nat]). split_and!.
  - done.
  - unfold b'. rewrite header_sum_store by (rewrite ?length_be_bytes; (done || (by exists 2%nat) || apply be_bytes_byte)).
    rewrite length_be_bytes, W_be_bytes by (apply Hla || lia). rewrite !words_sum_4; [done|done|]. by apply (get_width' _ _ _ _ _ Hla).
  - unfold l4_sum, b'. rewrite Hn, HW, pseudo_sum_addr by done. unfold d. lia.
  - apply get_patch; [lia|exact Hx].
Qed.

Lemma addr_keeps (b : dp_packet) (o : nat) (x : Z) :
  layout ETH_TYPE_IP nw_proto b nh l4 -> (o = 12 \/ o = 16)%nat -> in_width 32 x ->
  exists b', packet_set_ipv4_addr b (nh + o) x = Some b' /\ keeps ETH_TYPE_IP nw_proto nh l4 (addr_ranges b o) b b' /\
    get (dp_data b') (nh + o) 4 = x.
Proof.
  intros Hla Ho Hx. pose proof (layout_header _ _ _ _ _ Hla) as (H1 & H2 & _).
  destruct (la_header _ _ _ _ _ Hla) as [(_ & _ & _ & _ & Hn)|(E & _)]; [|done].
  unfold packet_set_ipv4_addr. rewrite (layout_l3 _ _ _ _ _ Hla). cbn [mbind option_bind]. rewrite !ld_get by lia. cbn [mbind option_bind].
  rewrite <- Hn, <- l4_update_ipv4. set (old := get (dp_data b) (nh + o) 4).
  assert (in_width 32 old) as Hold by (by apply (get_width' _ _ _ _ _ Hla)). pose proof (recalc32_ok old x Hold Hx) as Hf.
  destruct (l4_update_ok _ _ nh l4 b _ _ _ Hla Hf) as (b1 & -> & Hu1). pose proof Hu1 as [Hs1 Hla1 Hi1 _]. cbn [mbind option_bind].
  destruct (ip_update_ok b1 _ _ _ Hla1 Hf) as (b2 & Eu2 & Hu2). unfold ip_update in Eu2. rewrite Eu2. clear Eu2. pose proof Hu2 as [Hs2 Hla2 Hp2 _].
  cbn [mbind option_bind]. pose proof (sets_length _ _ _ Hs1) as Hl1. pose proof (sets_length _ _ _ Hs2) as Hl2. rewrite wr_store by lia. eexists. split; [done|].
  pose proof (sets_wr b2 (nh + o) 4 x ltac:(lia)) as Hs3. destruct (addr_store b2 o x Hla2 Ho Hx) as (Hla3 & Hh3 & Hl3 & Hg3).
  assert (get (dp_data b2) (nh + o) 4 = old) as Hold2.
  { rewrite (sets_get _ _ _ _ _ Hs2) by (destruct Ho; ranges). apply (sets_get _ _ _ _ _ Hs1), (apart_before l4); [apply csum_range_after|lia]. }
  rewrite Hold2 in Hh3, Hl3. pose proof (sets_trans _ _ _ _ _ Hs2 Hs3) as Hs23. cbn [app] in Hs23. split; [|done].
  split; [by apply (sets_trans _ _ _ b1)|done| |].
  - intros _ Hok. apply (ip_csum_ok_step (halves old) (halves x) b1 b2); [done|done|done|done|done|]. revert Hok. unfold ip_csum_ok. rewrite Hi1.
    destruct (sets_behind _ _ _ _ _ _ _ Hla Hs1 (csum_range_after _ _)) as (_ & _ & -> & Hb1). by rewrite Hb1.
  - destruct (layout4_sets _ b1 b2 Hla1 Hs2) as (_ & _ & HW2 & Hn2); [ranges|].
    eapply (l4_csum_ok_step _ _ _ _ _ (halves old) (halves x) b b1); [done|done|done|exact Hs23|apply csum_range_behind; destruct Ho; ranges|done|].
    rewrite Hl3. do 2 f_equal. unfold l4_sum, pseudo_sum. rewrite Hn2, HW2, Z.eqb_refl. by rewrite !(sets_get _ _ _ _ _ Hs2) by ranges.
Qed.

(** ** The whole header *)

Definition ipv4_ranges (b : dp_packet) : list (nat * nat) :=
  csum_range ETH_TYPE_IP nw_proto b l4 ++
  [((nh + 10)%nat, 2%nat); ((nh + 12)%nat, 4%nat); ((nh + 16)%nat, 4%nat); ((nh + 1)%nat, 1%nat); ((nh + 8)%nat, 1%nat)].

Lemma maybe_addr (b0 b : dp_packet) (o : nat) (x : Z) (r : list (nat * nat)) :
  layout ETH_TYPE_IP nw_proto b nh l4 -> (o = 12 \/ o = 16)%nat -> in_width 32 x -> sets r b0 b ->
  exists b', (if negb (get (dp_data b) (nh + o) 4 =? x) then packet_set_ipv4_addr b (nh + o) x else Some b) = Some b' /\
    keeps ETH_TYPE_IP nw_proto nh l4 (addr_ranges b0 o) b b' /\ get (dp_data b') (nh + o) 4 = x.
Proof.
  intros Hla Ho Hx Hs. destruct (Z.eqb_spec (get (dp_data b) (nh + o) 4) x) as [E|E]; cbn [negb].
  - exists b. split_and!; [done| |done]. apply (keeps_weaken _ _ _ _ []); [set_solver|by apply keeps_refl].
  - destruct (addr_keeps b o x Hla Ho Hx) as (b' & -> & Hk & Hg). exists b'. split_and!; [done| |done].
    unfold addr_ranges in *. by rewrite <- (csum_range_sets _ _ _ _ _ _ Hs).
Qed.

Lemma maybe_byte (b : dp_packet) (o : nat) (k x : Z) (f : Z -> Z) :
  layout ETH_TYPE_IP nw_proto b nh l4 -> (o = 1%nat /\ k = 1 \/ o = 8%nat /\ k = 256) -> is_byte x ->
  recalc_ok f (k * get (dp_data b) (nh + o) 1) (k * x) ->
  exists b', (if negb (get (dp_data b) (nh + o) 1 =? x) then b ← ip_update b nh f; wr b (nh + o) 1 x else Some b) = Some b' /\
    keeps ETH_TYPE_IP nw_proto nh l4 [((nh + 10)%nat, 2%nat); ((nh + o)%nat, 1%nat)] b b' /\ get (dp_data b') (nh + o) 1 = x.
Proof.
  intros Hla Ho Hx Hf. destruct (Z.eqb_spec (get (dp_data b) (nh + o) 1) x) as [E|E]; cbn [negb].
  - exists b. split_and!; [done| |done]. apply (keeps_weaken _ _ _ _ []); [set_solver|by apply keeps_refl].
  - by apply (byte_keeps b o k).
Qed.

Lemma byte16 (x : Z) : is_byte x -> in_width 16 x /\ in_width 16 (Z.shiftl x 8) /\ Z.shiftl x 8 = 256 * x.
Proof. unfold is_byte, in_width. rewrite Z.shiftl_mul_pow2 by lia. lia. Qed.

Lemma set_ipv4_keeps (b : dp_packet) (src dst tos ttl : Z) :
  layout ETH_TYPE_IP nw_proto b nh l4 -> in_width 32 src -> in_width 32 dst -> is_byte tos -> is_byte ttl ->
  exists b', packet_set_ipv4 b src dst tos ttl = Some b' /\ keeps ETH_TYPE_IP nw_proto nh l4 (ipv4_ranges b) b b' /\
    get (dp_data b') (nh + 12) 4 = src /\ get (dp_data b') (nh + 16) 4 = dst /\ get (dp_data b') (nh + 1) 1 = tos /\ get (dp_data b') (nh + 8) 1 = ttl.
Proof.
  intros Hla Hsrc Hdst Htos Httl. pose proof (layout_header _ _ _ _ _ Hla) as (H1 & H2 & _).
  unfold packet_set_ipv4. rewrite (layout_l3 _ _ _ _ _ Hla). cbn [mbind option_bind]. rewrite ld_get by lia. cbn [mbind option_bind].
  destruct (maybe_addr b b 12 src [] Hla ltac:(lia) Hsrc (sets_refl b)) as (b1 & -> & K1 & G1). pose proof K1 as [S1 L1 _ _].
  pose proof (sets_length _ _ _ S1) as N1. cbn [mbind option_bind]. rewrite ld_get by lia. cbn [mbind option_bind].
  destruct (maybe_addr b b1 16 dst _ L1 ltac:(lia) Hdst S1) as (b2 & -> & K2 & G2). pose proof K2 as [S2 L2 _ _].
  pose proof (sets_length _ _ _ S2) as N2. cbn [mbind option_bind]. rewrite ld_get by lia. cbn [mbind option_bind].
  pose proof (get_width' _ _ _ _ _ L2 (nh + 1) 1 8 eq_refl) as Wtos.
  destruct (maybe_byte b2 1 1 tos (fun c => recalc_csum16 c (get (dp_data b2) (nh + 1) 1) tos) L2 ltac:(lia) Htos) as (b3 & E3 & K3 & G3).
  { rewrite !Z.mul_1_l. apply recalc16_ok; [apply (byte16 _ Wtos)|apply (byte16 _ Htos)]. }
  unfold ip_update in E3. rewrite E3. clear E3. pose proof K3 as [S3 L3 _ _].
  pose proof (sets_length _ _ _ S3) as N3. cbn [mbind option_bind]. rewrite ld_get by lia. cbn [mbind option_bind].
  pose proof (get_width' _ _ _ _ _ L3 (nh + 8) 1 8 eq_refl) as Wttl. destruct (byte16 _ Wttl) as (_ & W1 & W1e). destruct (byte16 _ Httl) as (_ & W2 & W2e).
  destruct (maybe_byte b3 8 256 ttl (fun c => recalc_csum16 c (Z.shiftl (get (dp_data b3) (nh + 8) 1) 8) (Z.shiftl ttl 8)) L3 ltac:(lia) Httl) as (b4 & E4 & K4 & G4).
  { rewrite <- W1e, <- W2e. by apply recalc16_ok. }
  unfold ip_update in E4. rewrite E4. clear E4. exists b4. split; [done|]. pose proof K4 as [S4 L4 _ _].
  assert (forall o n, (nh + o + n <= l4)%nat -> Forall (apart (nh + o) n) (csum_range ETH_TYPE_IP nw_proto b l4)) as Hc.
  { intros o n Ho. apply (apart_before l4); [apply csum_range_after|lia]. }
  split_and!; [| |..|done].
  - eapply keeps_weaken; [|exact (keeps_trans _ _ _ _ _ _ _ _ _ K1 (keeps_trans _ _ _ _ _ _ _ _ _ K2 (keeps_trans _ _ _ _ _ _ _ _ _ K3 K4)))].
    unfold addr_ranges, ipv4_ranges. intros z. rewrite !elem_of_app, !elem_of_cons. tauto.
  - rewrite (sets_get _ _ _ _ _ S4), (sets_get _ _ _ _ _ S3) by ranges. rewrite (sets_get _ _ _ _ _ S2); [done|]. apply Forall_app_2; [apply Hc; lia|ranges].
  - by rewrite (sets_get _ _ _ _ _ S4), (sets_get _ _ _ _ _ S3) by ranges.
  - by rewrite (sets_get _ _ _ _ _ S4) by ranges.
Qed.
End Ip4.
