(* ===== verification/PacketIp6.v ===== *)
(** * Changing IPv6 headers

    The steps of [packet_set_ipv6], for a packet without a routing header that is
    still in use. *)

From S2P Require Import Prelude Util MetaFlow MetaFields Packet PacketProps MfCtx ExtractFields Conntrack Csum Crc32c PacketSet.
From S2P Require Import PacketOffload PacketBytes PacketLayout PacketKeep PacketIp4.
From stdpp Require Import prelude list.
From Stdlib Require Import ZArith Lia.
Open Scope Z_scope.
Open Scope ovs_scope.

Section Ip6.
Context (nw_proto : Z) (nh l4 : nat).

(** ** Addresses *)

Lemma be32s_width (x : Z) : Forall (in_width 32) (be32s x).
Proof. unfold be32s. apply Forall_map, Forall_forall. intros k _. by apply wrap_width. Qed.

Lemma recalc128_ok (m m' : Z) :
  recalc_ok (fun c => recalc_csum128 c (be32s m) (be32s m')) (sum_by halves (be32s m)) (sum_by halves (be32s m')).
Proof.
  intros c Hc. apply (recalc_words_spec recalc_csum32 32 halves); [|done|apply be32s_width|apply be32s_width|done].
  intros c' x x'. apply recalc_csum32_spec.
Qed.

Lemma l4_update_ipv6 (b : dp_packet) (addr : nat) (x : Z) :
  (addr + 16 <= length (dp_data b))%nat ->
  packet_update_csum128 b nw_proto addr x =
  l4_update ETH_TYPE_IPV6 nw_proto b (fun c => recalc_csum128 c (be32s (get (dp_data b) addr 16)) (be32s x)).
Proof.
  intros Ha. unfold packet_update_csum128. rewrite ld_get by done. cbn [mbind option_bind]. unfold l4_update, csum_field, offloaded. rewrite Z.eqb_refl.
  destruct (Z.eqb_spec nw_proto IPPROTO_TCP) as [->|]; cbn [andb orb].
  - destruct (Z.of_nat TCP_HEADER_LEN <=? dp_packet_l4_size b); [done|]. by change (IPPROTO_TCP =? IPPROTO_UDP) with false.
  - destruct (Z.eqb_spec nw_proto IPPROTO_UDP) as [->|]; cbn [andb orb].
    + destruct (Z.of_nat UDP_HEADER_LEN <=? dp_packet_l4_size b); [done|]. by change (IPPROTO_UDP =? IPPROTO_ICMPV6) with false.
    + by destruct ((nw_proto =? IPPROTO_ICMPV6) && _).
Qed.

(** Changes of the header that leave the type of the next one. *)
Definition in_header6 (r : list (nat * nat)) : Prop :=
  Forall (fun x => (x.1 + x.2 <= nh + 6 \/ nh + 7 <= x.1 /\ x.1 + x.2 <= nh + 40)%nat) r.

Lemma layout6_sets (r : list (nat * nat)) (b b' : dp_packet) :
  layout ETH_TYPE_IPV6 nw_proto b nh l4 -> sets r b b' -> in_header6 r ->
  IP_VER (get (dp_data b') nh 1) = IP_VER (get (dp_data b) nh 1) ->
  layout ETH_TYPE_IPV6 nw_proto b' nh l4 /\ W (dp_data b') l4 (l4_len b) = W (dp_data b) l4 (l4_len b) /\ l4_len b' = l4_len b.
Proof.
  intros Hla Hs Hr Hv. pose proof (layout_header _ _ _ _ _ Hla) as (_ & _ & H1). specialize (H1 eq_refl). split_and!.
  - apply (layout_sets _ _ r b); [done|done| |done]. unfold spares, fixed_bytes. change (ETH_TYPE_IPV6 =? ETH_TYPE_IP) with false.
    repeat apply Forall_cons_2; [..|by apply Forall_nil_2]; (eapply Forall_impl; [exact Hr|]); intros [o n]; unfold apart; cbn [fst snd]; lia.
  - apply (sets_W r); [done|]. eapply Forall_impl; [exact Hr|]. intros [o n]. unfold apart. cbn [fst snd]. lia.
  - unfold l4_len. by destruct (sets_layers _ _ _ Hs) as (_ & _ & -> & _).
Qed.

Lemma addr6_store (b : dp_packet) (o : nat) (x : Z) :
  layout ETH_TYPE_IPV6 nw_proto b nh l4 -> (o = 8 \/ o = 24)%nat -> in_width 128 x ->
  let b' := store b (nh + o) (be_bytes 16 x) in
  layout ETH_TYPE_IPV6 nw_proto b' nh l4 /\ get (dp_data b') (nh + o) 16 = x /\
  l4_sum ETH_TYPE_IPV6 nw_proto b' nh l4 =
  l4_sum ETH_TYPE_IPV6 nw_proto b nh l4 - sum_by halves (be32s (get (dp_data b) (nh + o) 16)) + sum_by halves (be32s x).
Proof.
  intros Hla Ho Hx b'. pose proof (layout_header _ _ _ _ _ Hla) as (_ & H2 & H1). specialize (H1 eq_refl).
  pose proof (sets_wr b (nh + o) 16 x ltac:(lia)) as Hs. fold b' in Hs.
  assert (in_header6 [((nh + o)%nat, 16%nat)]) as Hr by (destruct Ho; ranges).
  destruct (layout6_sets _ _ _ Hla Hs Hr) as (Hla' & HW & Hn); [by rewrite (sets_get _ _ _ nh 1 Hs) by (destruct Ho; ranges)|].
  assert (get (dp_data b') (nh + o) 16 = x) as Hg by (apply get_patch; [lia|exact Hx]). split_and!; [done|done|].
  assert (W (dp_data b') (nh + o) 16 = sum_by halves (be32s x)) as HW'.
  { rewrite W_be_bytes, Hg, words_sum_16; [done|apply Hla'|]. rewrite (sets_length _ _ _ Hs). lia. }
  assert (W (dp_data b) (nh + o) 16 = sum_by halves (be32s (get (dp_data b) (nh + o) 16))) as HW0.
  { rewrite W_be_bytes, words_sum_16; [done|apply Hla|lia]. }
  destruct (sets_layers _ _ _ Hs) as (_ & _ & Es & _). unfold l4_sum, pseudo_sum. change (ETH_TYPE_IPV6 =? ETH_TYPE_IP) with false.
  cbv iota zeta. rewrite Hn, HW, Es. destruct Ho as [-> | ->]; rewrite HW'.
  - rewrite (sets_W _ _ _ (nh + 24) 16 Hs) by ranges. lia.
  - rewrite (sets_W _ _ _ (nh + 8) 16 Hs) by ranges. lia.
Qed.

Definition addr6_ranges (b : dp_packet) (o : nat) : list (nat * nat) := csum_range ETH_TYPE_IPV6 nw_proto b l4 ++ [((nh + o)%nat, 16%nat)].

Lemma addr6_keeps (b : dp_packet) (o : nat) (x : Z) :
  layout ETH_TYPE_IPV6 nw_proto b nh l4 -> (o = 8 \/ o = 24)%nat -> in_width 128 x ->
  exists b', packet_set_ipv6_addr b nw_proto (nh + o) x true = Some b' /\ keeps ETH_TYPE_IPV6 nw_proto nh l4 (addr6_ranges b o) b b' /\
    get (dp_data b') (nh + o) 16 = x.
Proof.
  intros Hla Ho Hx. pose proof (layout_header _ _ _ _ _ Hla) as (_ & H2 & H1). specialize (H1 eq_refl).
  unfold packet_set_ipv6_addr. rewrite l4_update_ipv6 by lia. set (old := get (dp_data b) (nh + o) 16).
  destruct (l4_update_ok _ _ nh l4 b _ _ _ Hla (recalc128_ok old x)) as (b1 & -> & Hu1). pose proof Hu1 as [Hs1 Hla1 _ _]. cbn [mbind option_bind].
  pose proof (sets_length _ _ _ Hs1) as Hl1. rewrite wr_store by lia. eexists. split; [done|].
  destruct (addr6_store b1 o x Hla1 Ho Hx) as (Hla2 & Hg2 & Hsum). pose proof (sets_wr b1 (nh + o) 16 x ltac:(lia)) as Hs2. split; [|done].
  split; [exact (sets_trans _ _ _ _ _ Hs1 Hs2)|done|done|].
  eapply (l4_csum_ok_step _ _ _ _ _ _ _ b b1); [done|exact Hu1|done|exact Hs2|apply csum_range_behind; destruct Ho; ranges|done|].
  rewrite Hsum. do 4 f_equal. apply (sets_get _ _ _ _ _ Hs1), (apart_before l4); [apply csum_range_after|lia].
Qed.

(** ** The first word *)

Lemma get_4_1 (p : list Z) (o : nat) : Forall is_byte p -> get p o 1 = get p o 4 / 2 ^ 24.
Proof.
  intros Hp. unfold get. assert (forall i, is_byte (nth i (drop o p) 0)) as Hb by (intros i; apply nth_byte; by apply Forall_drop).
  cbn [be]. pose proof (Hb 0%nat). pose proof (Hb 1%nat). pose proof (Hb 2%nat). pose proof (Hb 3%nat). unfold is_byte in *.
  change (2 ^ 24) with 16777216. Z.div_mod_to_equations. lia.
Qed.

(** The word after [packet_set_ipv6_tc] and [packet_set_ipv6_flow_label]. *)
Definition flow_word (w tc fl : Z) : Z :=
  Z.lor (Z.land (Z.lor (Z.land w 0xF00FFFFF) (Z.shiftl tc 20)) (u32 (Z.lnot IPV6_LABEL_MASK))) fl.

Lemma flow_word_bits (w tc fl i : Z) :
  in_width 32 w -> in_width 8 tc -> in_width 20 fl -> 0 <= i ->
  Z.testbit (flow_word w tc fl) i = if i <? 20 then Z.testbit fl i else if i <? 28 then Z.testbit tc (i - 20) else Z.testbit w i.
Proof.
  intros Hw Ht Hf Hi. unfold flow_word. change 0xF00FFFFF with (Z.lor (Z.shiftl (Z.ones 4) 28) (Z.ones 20)).
  change (u32 (Z.lnot IPV6_LABEL_MASK)) with (Z.shiftl (Z.ones 12) 20).
  rewrite !Z.lor_spec, !Z.land_spec, !Z.lor_spec, !Z.land_spec, !Z.lor_spec, !Z.shiftl_spec by done. rewrite (testbit_ones 20) by lia.
  destruct (Z.ltb_spec i 20).
  - rewrite (Z.testbit_neg_r (Z.ones 12)) by lia. by rewrite andb_false_r.
  - rewrite (testbit_ones 12) by lia. rewrite (in_width_high 20 fl) by done. rewrite orb_false_r. destruct (Z.ltb_spec i 28).
    + rewrite (Z.testbit_neg_r (Z.ones 4)) by lia. destruct (Z.ltb_spec (i - 20) 12); [|lia]. by rewrite andb_false_r, andb_true_r.
    + rewrite (testbit_ones 4), (in_width_high 8 tc) by (done || lia).
      destruct (Z.ltb_spec (i - 28) 4), (Z.ltb_spec (i - 20) 12); try lia; [by rewrite andb_true_r, orb_false_r, andb_true_r|].
      by rewrite !andb_false_r, (in_width_high 32 w) by (done || lia).
Qed.

Lemma flow_word_fields (w tc fl : Z) :
  in_width 32 w -> in_width 8 tc -> in_width 20 fl -> let y := flow_word w tc fl in
  in_width 32 y /\ Z.shiftr y 28 = Z.shiftr w 28 /\ u8 (Z.shiftr y 20) = tc /\ Z.land y IPV6_LABEL_MASK = fl.
Proof.
  intros Hw Ht Hf y. assert (forall i, 0 <= i -> Z.testbit y i = if i <? 20 then Z.testbit fl i else if i <? 28 then Z.testbit tc (i - 20) else Z.testbit w i) as Hb
    by (intros; by apply flow_word_bits).
  split_and!.
  - unfold y, flow_word. apply in_width_lor; [done| |by apply (in_width_mono 20)]. apply in_width_land; [done| |done]. apply in_width_lor; [done| |].
    + by apply in_width_land.
    + apply (in_width_mono (8 + 20)); [done|]. by apply in_width_shiftl.
  - apply Z.bits_inj'. intros i Hi. rewrite !Z.shiftr_spec, Hb by lia. destruct (Z.ltb_spec (i + 28) 20), (Z.ltb_spec (i + 28) 28); (done || lia).
  - apply Z.bits_inj'. intros i Hi. rewrite wrap_testbit by lia. rewrite Z.shiftr_spec, Hb by lia.
    destruct (Z.ltb_spec (i + 20) 20), (Z.ltb_spec (i + 20) 28), (Z.ltb_spec i 8); try lia; [by rewrite andb_true_l, Z.add_simpl_r|].
    by rewrite andb_false_l, (in_width_high 8 tc).
  - apply Z.bits_inj'. intros i Hi. change IPV6_LABEL_MASK with (Z.ones 20). rewrite Z.land_spec, testbit_ones, Hb by lia.
    destruct (Z.ltb_spec i 20); [by rewrite andb_true_r|]. by rewrite andb_false_r, (in_width_high 20 fl).
Qed.
(** ** The whole header *)

(** Fields that the checksums do not cover. *)
Lemma header6_keeps (r : list (nat * nat)) (b b' : dp_packet) :
  layout ETH_TYPE_IPV6 nw_proto b nh l4 -> sets r b b' -> in_header6 r -> Forall (fun x => (x.1 + x.2 <= nh + 8)%nat) r ->
  IP_VER (get (dp_data b') nh 1) = IP_VER (get (dp_data b) nh 1) -> dp_offloads b' = dp_offloads b ->
  keeps ETH_TYPE_IPV6 nw_proto nh l4 r b b'.
Proof.
  intros Hla Hs Hr Hr8 Hv Ho. destruct (layout6_sets _ _ _ Hla Hs Hr Hv) as (Hla' & HW & Hn). split; [done|done|done|].
  pose proof (layout_header _ _ _ _ _ Hla) as (H1 & _ & _). destruct (sets_layers _ _ _ Hs) as (_ & _ & Es & _).
  eapply (l4_csum_ok_same _ _ _ _ _ b b'); [done|done|exact Hs| |unfold dp_packet_l4_checksum_partial; by rewrite Ho|].
  - apply csum_range_behind. eapply Forall_impl; [exact Hr8|]. intros [o n]. cbn [fst snd]. lia.
  - unfold l4_sum, pseudo_sum. rewrite Hn, HW, Es. change (ETH_TYPE_IPV6 =? ETH_TYPE_IP) with false. cbv iota zeta.
    rewrite !(sets_W r b b'); [done|done|..|done|]; (eapply Forall_impl; [exact Hr8|]); intros [o n]; unfold apart; cbn [fst snd]; lia.
Qed.

Lemma flow_word_keeps (b : dp_packet) (tc fl : Z) :
  layout ETH_TYPE_IPV6 nw_proto b nh l4 -> in_width 8 tc -> in_width 20 fl ->
  exists b', (b ← packet_set_ipv6_tc b nh tc; packet_set_ipv6_flow_label b nh fl) = Some b' /\
    keeps ETH_TYPE_IPV6 nw_proto nh l4 [(nh, 4%nat)] b b' /\ get (dp_data b') nh 4 = flow_word (get (dp_data b) nh 4) tc fl.
Proof.
  intros Hla Ht Hf. pose proof (layout_header _ _ _ _ _ Hla) as (H1 & H2 & _). pose proof (get_width' _ _ _ _ _ Hla nh 4 32 eq_refl) as Hw.
  set (w := get (dp_data b) nh 4) in *. destruct (flow_word_fields w tc fl Hw Ht Hf) as (Hy & Hv & _).
  unfold packet_set_ipv6_tc, packet_set_ipv6_flow_label. rewrite ld_get by lia. cbn [mbind option_bind]. rewrite wr_store by lia. cbn [mbind option_bind]. fold w.
  set (y1 := Z.lor (Z.land w 0xF00FFFFF) (Z.shiftl tc 20)).
  assert (in_width 32 y1) as Hy1.
  { apply in_width_lor; [done|by apply in_width_land|]. apply (in_width_mono (8 + 20)); [done|]. by apply in_width_shiftl. }
  pose proof (sets_wr b nh 4 y1 ltac:(lia)) as Hs1. pose proof (sets_length _ _ _ Hs1) as Hl1. rewrite ld_get by lia. cbn [mbind option_bind].
  rewrite dp_data_store, get_patch by (lia || exact Hy1). change (Z.lor (Z.land y1 _) fl) with (flow_word w tc fl). rewrite wr_store by lia.
  rewrite store_store by (rewrite !length_be_bytes; (done || lia)). eexists. split; [done|].
  pose proof (sets_wr b nh 4 (flow_word w tc fl) ltac:(lia)) as Hs.
  assert (get (dp_data (store b nh (be_bytes 4 (flow_word w tc fl)))) nh 4 = flow_word w tc fl) as Hg by (apply get_patch; [lia|exact Hy]). split; [|done].
  apply header6_keeps; [done|done|ranges|ranges| |done]. rewrite !get_4_1 by (try apply (st_bytes _ _ _ Hs); apply Hla). rewrite Hg. fold w.
  unfold IP_VER. rewrite <- !Z.shiftr_div_pow2, !Z.shiftr_shiftr by lia. done.
Qed.

Lemma hlim_keeps (b : dp_packet) (hl : Z) :
  layout ETH_TYPE_IPV6 nw_proto b nh l4 -> is_byte hl ->
  exists b', wr b (nh + 7) 1 hl = Some b' /\ keeps ETH_TYPE_IPV6 nw_proto nh l4 [((nh + 7)%nat, 1%nat)] b b' /\ get (dp_data b') (nh + 7) 1 = hl.
Proof.
  intros Hla Hh. pose proof (layout_header _ _ _ _ _ Hla) as (H1 & H2 & _). rewrite wr_store by lia. eexists. split; [done|].
  pose proof (sets_wr b (nh + 7) 1 hl ltac:(lia)) as Hs. split; [|apply get_patch; [lia|exact Hh]].
  apply header6_keeps; [done|done|ranges|ranges| |done]. by rewrite (sets_get _ _ _ nh 1 Hs) by ranges.
Qed.

Definition ipv6_ranges (b : dp_packet) : list (nat * nat) :=
  csum_range ETH_TYPE_IPV6 nw_proto b l4 ++ [((nh + 8)%nat, 16%nat); ((nh + 24)%nat, 16%nat); (nh, 4%nat); ((nh + 7)%nat, 1%nat)].

Lemma maybe_addr6 (b0 b : dp_packet) (o : nat) (x : Z) (r : list (nat * nat)) :
  layout ETH_TYPE_IPV6 nw_proto b nh l4 -> (o = 8 \/ o = 24)%nat -> in_width 128 x -> sets r b0 b ->
  exists b', (if negb (get (dp_data b) (nh + o) 16 =? x) then packet_set_ipv6_addr b nw_proto (nh + o) x true else Some b) = Some b' /\
    keeps ETH_TYPE_IPV6 nw_proto nh l4 (addr6_ranges b0 o) b b' /\ get (dp_data b') (nh + o) 16 = x.
Proof.
  intros Hla Ho Hx Hs. destruct (Z.eqb_spec (get (dp_data b) (nh + o) 16) x) as [E|E]; cbn [negb].
  - exists b. split_and!; [done| |done]. apply (keeps_weaken _ _ _ _ []); [set_solver|by apply keeps_refl].
  - destruct (addr6_keeps b o x Hla Ho Hx) as (b' & -> & Hk & Hg). exists b'. split_and!; [done| |done].
    unfold addr6_ranges in *. by rewrite <- (csum_range_sets _ _ _ _ _ _ Hs).
Qed.

Lemma packet_set_ipv6_eq (b : dp_packet) (src dst tc fl hl : Z) :
  layout ETH_TYPE_IPV6 nw_proto b nh l4 ->
  packet_set_ipv6 b src dst tc fl hl =
  (ip6_src ← ld b (nh + 8) 16;
   b ← (if negb (ip6_src =? src) then packet_set_ipv6_addr b nw_proto (nh + 8) src true else Some b);
   ip6_dst ← ld b (nh + 24) 16;
   b ← (if negb (ip6_dst =? dst) then packet_set_ipv6_addr b nw_proto (nh + 24) dst true else Some b);
   b ← packet_set_ipv6_tc b nh tc;
   b ← packet_set_ipv6_flow_label b nh fl;
   wr b (nh + 7) 1 hl).
Proof.
  intros Hla. destruct (la_header _ _ _ _ _ Hla) as [(E & _)|(_ & _ & _ & Hrh)]; [done|].
  unfold packet_set_ipv6. rewrite (layout_l3 _ _ _ _ _ Hla), option_bind_some. rewrite Hrh, option_bind_some. reflexivity.
Qed.

Lemma set_ipv6_keeps (b : dp_packet) (src dst tc fl hl : Z) :
  layout ETH_TYPE_IPV6 nw_proto b nh l4 -> in_width 128 src -> in_width 128 dst -> in_width 8 tc -> in_width 20 fl -> is_byte hl ->
  exists b', packet_set_ipv6 b src dst tc fl hl = Some b' /\ keeps ETH_TYPE_IPV6 nw_proto nh l4 (ipv6_ranges b) b b' /\
    get (dp_data b') (nh + 8) 16 = src /\ get (dp_data b') (nh + 24) 16 = dst /\
    get (dp_data b') nh 4 = flow_word (get (dp_data b) nh 4) tc fl /\ get (dp_data b') (nh + 7) 1 = hl.
Proof.
  intros Hla Hsrc Hdst Htc Hfl Hhl. pose proof (layout_header _ _ _ _ _ Hla) as (_ & H2 & H1). specialize (H1 eq_refl).
  rewrite packet_set_ipv6_eq by done. rewrite ld_get by lia. rewrite option_bind_some.
  destruct (maybe_addr6 b b 8 src [] Hla ltac:(lia) Hsrc (sets_refl b)) as (b1 & -> & K1 & G1). pose proof K1 as [S1 L1 _ _].
  pose proof (sets_length _ _ _ S1) as N1. rewrite option_bind_some. rewrite ld_get by lia. rewrite option_bind_some.
  destruct (maybe_addr6 b b1 24 dst _ L1 ltac:(lia) Hdst S1) as (b2 & -> & K2 & G2). pose proof K2 as [S2 L2 _ _].
  destruct (flow_word_keeps b2 tc fl L2 Htc Hfl) as (b3 & E3 & K3 & G3). pose proof K3 as [S3 L3 _ _].
  destruct (hlim_keeps b3 hl L3 Hhl) as (b4 & E4 & K4 & G4). pose proof K4 as [S4 L4 _ _].
  exists b4. split; [exact (eq_trans (bind_some _ _ (fun b => wr b (nh + 7) 1 hl) _ E3) E4)|].
  assert (forall o n, (o + n <= l4)%nat -> Forall (apart o n) (csum_range ETH_TYPE_IPV6 nw_proto b l4)) as Hc.
  { intros o n Ho. apply (apart_before l4); [apply csum_range_after|lia]. }
  assert (forall o n, (o + n <= l4)%nat -> Forall (apart o n) [((nh + 8)%nat, 16%nat); ((nh + 24)%nat, 16%nat)] -> get (dp_data b2) o n = get (dp_data b) o n) as G.
  { intros o n Ho [F1 [F2 _]%Forall_cons]%Forall_cons. rewrite (sets_get _ _ _ _ _ S2), (sets_get _ _ _ _ _ S1); [done|..]; apply Forall_app_2; auto. }
  split_and!; [| | | |done].
  - eapply keeps_weaken; [|exact (keeps_trans _ _ _ _ _ _ _ _ _ K1 (keeps_trans _ _ _ _ _ _ _ _ _ K2 (keeps_trans _ _ _ _ _ _ _ _ _ K3 K4)))].
    unfold addr6_ranges, ipv6_ranges. intros z. rewrite !elem_of_app, !elem_of_cons. tauto.
  - rewrite (sets_get _ _ _ _ _ S4), (sets_get _ _ _ _ _ S3) by ranges. rewrite (sets_get _ _ _ _ _ S2); [done|]. apply Forall_app_2; [apply Hc; lia|ranges].
  - by rewrite (sets_get _ _ _ _ _ S4), (sets_get _ _ _ _ _ S3) by ranges.
  - rewrite (sets_get _ _ _ _ _ S4), G3 by ranges. f_equal. apply G; [lia|ranges].
Qed.
End Ip6.
