(* ===== verification/PacketPorts.v ===== *)
(** * Changing ports and ICMP messages

    The steps of [packet_set_tcp_port], [packet_set_udp_port] and
    [packet_set_icmp], over IPv4 and IPv6. *)

From S2P Require Import Prelude Util MetaFlow MetaFields Packet PacketProps MfCtx ExtractFields Conntrack Csum Crc32c PacketSet.
From S2P Require Import PacketOffload PacketBytes PacketLayout PacketKeep PacketIp4.
From stdpp Require Import prelude list.
From Stdlib Require Import ZArith Lia.
Open Scope Z_scope.
Open Scope ovs_scope.

Section Ports.
Context (dl_type nw_proto : Z) (nh l4 : nat).

(** A change behind the headers that moves the sum by a multiple of 65535. *)
Record congruent (r : list (nat * nat)) (b b' : dp_packet) : Prop := {
  cg_sets : sets r b b';
  cg_behind : Forall (fun x => (l4 <= x.1)%nat) r;
  cg_ip : dp_packet_ip_checksum_partial b' = dp_packet_ip_checksum_partial b;
  cg_l4 : dp_packet_l4_checksum_partial b' = dp_packet_l4_checksum_partial b;
  cg_sum : exists k, W (dp_data b') l4 (l4_len b) = W (dp_data b) l4 (l4_len b) + 65535 * k
}.

Lemma congruent_refl (b : dp_packet) : congruent [] b b.
Proof. split; [apply sets_refl|constructor|done|done|]. exists 0. lia. Qed.

Lemma congruent_trans (r r' : list (nat * nat)) (b b' b'' : dp_packet) : congruent r b b' -> congruent r' b' b'' -> congruent (r ++ r') b b''.
Proof.
  intros [S1 B1 I1 P1 [k1 K1]] [S2 B2 I2 P2 [k2 K2]]. split; [by eapply sets_trans|by apply Forall_app_2|congruence|congruence|].
  assert (l4_len b' = l4_len b) as E by (unfold l4_len; by destruct (sets_layers _ _ _ S1) as (_ & _ & -> & _)).
  rewrite E in K2. exists (k1 + k2). lia.
Qed.

Lemma congruent_layout (r : list (nat * nat)) (b b' : dp_packet) :
  layout dl_type nw_proto b nh l4 -> congruent r b b' ->
  layout dl_type nw_proto b' nh l4 /\ (exists k, l4_sum dl_type nw_proto b' nh l4 = l4_sum dl_type nw_proto b nh l4 + 65535 * k) /\
  (dl_type = ETH_TYPE_IP -> ip_csum_ok b nh -> ip_csum_ok b' nh) /\ l4_len b' = l4_len b /\ dp_packet_l4_size b' = dp_packet_l4_size b.
Proof.
  intros Hla [Hs Hr Hi _ [k Hk]]. destruct (sets_behind _ _ _ _ _ _ _ Hla Hs Hr) as (Hla' & Hp & Hl & Hh).
  destruct (sets_layers _ _ _ Hs) as (_ & _ & E & _). assert (l4_len b' = l4_len b) as El by (unfold l4_len; by rewrite E).
  split_and!; [done|exists k; unfold l4_sum; rewrite El; lia| |done|done]. intros E4. unfold ip_csum_ok. by rewrite Hi, Hl, Hh.
Qed.

(** The checksum is right again when it was, unless it is one of UDP that became 0. *)
Lemma congruent_keeps (c : nat) (r : list (nat * nat)) (b b' : dp_packet) :
  layout dl_type nw_proto b nh l4 -> congruent r b b' -> csum_field dl_type nw_proto (dp_packet_l4_size b) = Some c ->
  (nw_proto = IPPROTO_UDP -> get (dp_data b) (l4 + c) 2 = 0 -> get (dp_data b') (l4 + c) 2 = 0) -> keeps dl_type nw_proto nh l4 r b b'.
Proof.
  intros Hla Hc Ef Hu. destruct (congruent_layout r b b' Hla Hc) as (Hla' & [k Hk] & Hip & _ & Es).
  split; [apply Hc|done|done|]. unfold l4_csum_ok. rewrite Es, Ef, (cg_l4 _ _ _ Hc). intros [H|[[E H]|H]]; [by left|right; left; auto|]. right. right.
  rewrite (checksum_valid_ones _ _ _ _ _ Hla) in H. rewrite <- Es, (checksum_valid_ones _ _ _ _ _ Hla').
  apply (ones_shift _ _ k Hk). done.
Qed.

(** A change of a packet whose UDP checksum is not used. *)
Lemma unused_keeps (r : list (nat * nat)) (b b' : dp_packet) :
  layout dl_type nw_proto b nh l4 -> sets r b b' -> Forall (fun x => (l4 <= x.1)%nat) r -> nw_proto = IPPROTO_UDP ->
  csum_field dl_type nw_proto (dp_packet_l4_size b) = Some 6%nat -> get (dp_data b') (l4 + 6) 2 = 0 ->
  dp_packet_ip_checksum_partial b' = dp_packet_ip_checksum_partial b -> keeps dl_type nw_proto nh l4 r b b'.
Proof.
  intros Hla Hs Hr Hu Hf H0 Hi. destruct (sets_behind _ _ _ _ _ _ _ Hla Hs Hr) as (Hla' & _ & Hl & Hh). split; [done|done| |].
  - intros E4. unfold ip_csum_ok. by rewrite Hi, Hl, Hh.
  - intros _. unfold l4_csum_ok. destruct (sets_layers _ _ _ Hs) as (_ & _ & -> & _). rewrite Hf. right. by left.
Qed.

(** A change of a packet whose checksum is marked for later. *)
Lemma partial_keeps (r : list (nat * nat)) (b b' : dp_packet) :
  layout dl_type nw_proto b nh l4 -> sets r b b' -> Forall (fun x => (l4 <= x.1)%nat) r -> offloaded nw_proto = true ->
  dp_packet_l4_checksum_partial b' = true -> dp_packet_ip_checksum_partial b' = dp_packet_ip_checksum_partial b ->
  keeps dl_type nw_proto nh l4 r b b'.
Proof.
  intros Hla Hs Hr Ho Hp Hi. destruct (sets_behind _ _ _ _ _ _ _ Hla Hs Hr) as (Hla' & _ & Hl & Hh).
  split; [done|done| |].
  - intros E4. unfold ip_csum_ok. by rewrite Hi, Hl, Hh.
  - intros _. unfold l4_csum_ok. case_match; [|done]. left. by rewrite Ho, Hp.
Qed.

Lemma W_store2 (b : dp_packet) (o : nat) (x : Z) :
  layout dl_type nw_proto b nh l4 -> (o + 2 <= l4_len b)%nat -> Nat.Even o -> in_width 16 x ->
  W (dp_data (store b (l4 + o) (be_bytes 2 x))) l4 (l4_len b) = W (dp_data b) l4 (l4_len b) - get (dp_data b) (l4 + o) 2 + x.
Proof.
  intros Hla Ho He Hx. pose proof (layout_l4_len _ _ _ _ _ Hla) as (_ & Hl & _). rewrite dp_data_store.
  rewrite W_patch; rewrite ?length_be_bytes; [|lia|lia|lia|by replace (l4 + o - l4)%nat with o by lia|by exists 1%nat].
  rewrite (W_be_bytes _ _ 2) by (apply Hla || lia). rewrite !words_sum_2, !(wrap_small 16) by (done || by apply (get_width' _ _ _ _ _ Hla)).
  done.
Qed.

(** A field of 16 bits and the checksum. *)
Lemma field_congruent (b : dp_packet) (o c : nat) (x : Z) :
  layout dl_type nw_proto b nh l4 -> (o + 2 <= l4_len b)%nat -> (c + 2 <= l4_len b)%nat -> Nat.Even o -> Nat.Even c -> (o + 2 <= c \/ c + 2 <= o)%nat ->
  in_width 16 x -> let old := get (dp_data b) (l4 + o) 2 in
  let b' := store (store b (l4 + c) (be_bytes 2 (recalc_csum16 (get (dp_data b) (l4 + c) 2) old x))) (l4 + o) (be_bytes 2 x) in
  congruent [((l4 + c)%nat, 2%nat); ((l4 + o)%nat, 2%nat)] b b' /\ get (dp_data b') (l4 + o) 2 = x.
Proof.
  intros Hla Ho Hc He Hec Hoc Hx old. pose proof (layout_l4_len _ _ _ _ _ Hla) as (_ & Hl & _).
  pose proof (get_width' _ _ _ _ _ Hla (l4 + c) 2 16 eq_refl) as Wc. pose proof (get_width' _ _ _ _ _ Hla (l4 + o) 2 16 eq_refl) as Wo. fold old in Wo.
  destruct (recalc_csum16_spec _ _ _ Wc Wo Hx) as (Wr & k & Hk). set (y := recalc_csum16 _ _ _) in *. set (b1 := store b (l4 + c) (be_bytes 2 y)).
  pose proof (sets_wr b (l4 + c) 2 y ltac:(lia)) as Hs1. fold b1 in Hs1. pose proof (sets_length _ _ _ Hs1) as N1.
  destruct (sets_behind _ _ _ _ _ _ _ Hla Hs1) as (Hla1 & _); [ranges|].
  pose proof (sets_wr b1 (l4 + o) 2 x ltac:(lia)) as Hs2. cbv zeta. split; [|apply get_patch; [lia|exact Hx]].
  assert (l4_len b1 = l4_len b) as El by (unfold l4_len; by destruct (sets_layers _ _ _ Hs1) as (_ & _ & -> & _)).
  split; [exact (sets_trans _ _ _ _ _ Hs1 Hs2)|ranges|done|done|]. exists k. rewrite <- El, W_store2 by (rewrite ?El; done). rewrite El. unfold b1.
  rewrite W_store2 by done. fold b1. rewrite (sets_get _ _ _ (l4 + o) 2 Hs1) by ranges. fold old. lia.
Qed.

Lemma packet_set_port_congruent (b : dp_packet) (o c : nat) (x : Z) :
  layout dl_type nw_proto b nh l4 -> (o = 0 \/ o = 2)%nat -> (6 <= c)%nat -> (c + 2 <= l4_len b)%nat -> Nat.Even c -> in_width 16 x ->
  exists b', packet_set_port b (l4 + o) x (Some (l4 + c)%nat) = Some b' /\
    congruent [((l4 + c)%nat, 2%nat); ((l4 + o)%nat, 2%nat)] b b' /\ get (dp_data b') (l4 + o) 2 = x.
Proof.
  intros Hla Ho Hc Hcl Hec Hx. pose proof (layout_l4_len _ _ _ _ _ Hla) as (_ & Hl & _). unfold packet_set_port. rewrite ld_get by lia. cbn [mbind option_bind].
  destruct (Z.eqb_spec (get (dp_data b) (l4 + o) 2) x) as [E|E]; cbn [negb].
  - exists b. split_and!; [done| |done]. split; [apply (sets_weaken []); [set_solver|apply sets_refl]|ranges|done|done|]. exists 0. lia.
  - rewrite update_csum_store by lia. cbn [mbind option_bind]. rewrite wr_store by (rewrite dp_data_store, length_patch; rewrite ?length_be_bytes; lia).
    eexists. split; [done|]. apply field_congruent; (done || lia || (destruct Ho as [-> | ->]; [by exists 0%nat|by exists 1%nat])).
Qed.

Lemma packet_set_port_none (b : dp_packet) (o : nat) (x : Z) :
  (l4 + o + 2 <= length (dp_data b))%nat -> in_width 16 x ->
  exists b', packet_set_port b (l4 + o) x None = Some b' /\ sets [((l4 + o)%nat, 2%nat)] b b' /\ dp_offloads b' = dp_offloads b /\
    get (dp_data b') (l4 + o) 2 = x.
Proof.
  intros Ho Hx. unfold packet_set_port. rewrite ld_get by lia. cbn [mbind option_bind].
  destruct (Z.eqb_spec (get (dp_data b) (l4 + o) 2) x) as [E|E]; cbn [negb].
  - exists b. split_and!; [done| |done|done]. apply (sets_weaken []); [set_solver|apply sets_refl].
  - cbn [mbind option_bind]. rewrite wr_store by lia. eexists. split_and!; [done|by apply sets_wr|done|]. apply get_patch; [lia|exact Hx].
Qed.

(** Both ports, with a checksum that is brought up to date. *)
Lemma ports_congruent (b : dp_packet) (c : nat) (src dst : Z) :
  layout dl_type nw_proto b nh l4 -> (6 <= c)%nat -> (c + 2 <= l4_len b)%nat -> Nat.Even c -> in_width 16 src -> in_width 16 dst ->
  exists b', (b ← packet_set_port b l4 src (Some (l4 + c)%nat); packet_set_port b (l4 + 2) dst (Some (l4 + c)%nat)) = Some b' /\
    congruent [((l4 + c)%nat, 2%nat); (l4, 2%nat); ((l4 + c)%nat, 2%nat); ((l4 + 2)%nat, 2%nat)] b b' /\
    get (dp_data b') l4 2 = src /\ get (dp_data b') (l4 + 2) 2 = dst.
Proof.
  intros Hla Hc Hcl He Hs Hd. destruct (packet_set_port_congruent b 0 c src) as (b1 & E1 & C1 & G1); [done|lia|done|done|done|done|].
  rewrite Nat.add_0_r in *. rewrite E1. cbn [mbind option_bind]. destruct (congruent_layout _ _ _ Hla C1) as (Hla1 & _ & _ & El & _).
  destruct (packet_set_port_congruent b1 2 c dst) as (b2 & E2 & C2 & G2); [done|lia|done|by rewrite El|done|done|].
  exists b2. split_and!; [done|exact (congruent_trans _ _ _ _ _ C1 C2)| |done].
  by rewrite (sets_get _ _ _ l4 2 (cg_sets _ _ _ C2)) by ranges.
Qed.

(** Both ports, with a checksum that is marked for later or not used. *)
Lemma ports_none (b : dp_packet) (src dst : Z) :
  (l4 + 4 <= length (dp_data b))%nat -> in_width 16 src -> in_width 16 dst ->
  exists b', (b ← packet_set_port b l4 src None; packet_set_port b (l4 + 2) dst None) = Some b' /\
    sets [(l4, 2%nat); ((l4 + 2)%nat, 2%nat)] b b' /\ dp_offloads b' = dp_offloads b /\
    get (dp_data b') l4 2 = src /\ get (dp_data b') (l4 + 2) 2 = dst.
Proof.
  intros Hl Hs Hd. destruct (packet_set_port_none b 0 src) as (b1 & E1 & S1 & O1 & G1); [lia|done|].
  rewrite Nat.add_0_r in *. rewrite E1. cbn [mbind option_bind]. pose proof (sets_length _ _ _ S1).
  destruct (packet_set_port_none b1 2 dst) as (b2 & E2 & S2 & O2 & G2); [lia|done|].
  exists b2. split_and!; [done|exact (sets_trans _ _ _ _ _ S1 S2)|congruence| |done]. by rewrite (sets_get _ _ _ l4 2 S2) by ranges.
Qed.

Definition port_ranges (b : dp_packet) : list (nat * nat) := csum_range dl_type nw_proto b l4 ++ [(l4, 2%nat); ((l4 + 2)%nat, 2%nat)].

Lemma ports_partial_keeps (b : dp_packet) (src dst : Z) :
  layout dl_type nw_proto b nh l4 -> offloaded nw_proto = true -> (4 <= l4_len b)%nat -> in_width 16 src -> in_width 16 dst ->
  exists b', (b ← packet_set_port (dp_packet_l4_checksum_set_partial b) l4 src None; packet_set_port b (l4 + 2) dst None) = Some b' /\
    keeps dl_type nw_proto nh l4 (port_ranges b) b b' /\ get (dp_data b') l4 2 = src /\ get (dp_data b') (l4 + 2) 2 = dst.
Proof.
  intros Hla Ho Hn Hs Hd. pose proof (layout_l4_len _ _ _ _ _ Hla) as (_ & Hl & _). destruct (l4_set_partial b) as (P1 & P2 & P3 & P4).
  destruct (ports_none (dp_packet_l4_checksum_set_partial b) src dst) as (b' & E & S & O & G1 & G2); [rewrite P3; lia|done|done|].
  exists b'. split_and!; [done| |done|done]. apply (keeps_weaken _ _ _ _ [(l4, 2%nat); ((l4 + 2)%nat, 2%nat)]); [apply in_second|].
  unfold dp_packet_ip_checksum_partial, dp_packet_l4_checksum_partial in *. rewrite <- O in P1, P2.
  apply partial_keeps; [done|exact (sets_trans _ _ _ _ _ P4 S)|ranges|done|done|done].
Qed.
End Ports.

Lemma csum_field_tcp (dl_type size : Z) : 20 <= size -> csum_field dl_type IPPROTO_TCP size = Some 16%nat.
Proof. intros H. unfold csum_field. by destruct (Z.leb_spec (Z.of_nat TCP_HEADER_LEN) size); [|unfold TCP_HEADER_LEN in *; lia]. Qed.

Lemma csum_field_udp (dl_type size : Z) : 8 <= size -> csum_field dl_type IPPROTO_UDP size = Some 6%nat.
Proof. intros H. unfold csum_field. by destruct (Z.leb_spec (Z.of_nat UDP_HEADER_LEN) size); [|unfold UDP_HEADER_LEN in *; lia]. Qed.

Lemma csum_field_icmp6 (size : Z) : 4 <= size -> csum_field ETH_TYPE_IPV6 IPPROTO_ICMPV6 size = Some 2%nat.
Proof. intros H. unfold csum_field. by destruct (Z.leb_spec (Z.of_nat ICMP6_HEADER_LEN) size); [|unfold ICMP6_HEADER_LEN in *; lia]. Qed.

Lemma csum_field_sctp (dl_type size : Z) : csum_field dl_type IPPROTO_SCTP size = None.
Proof. unfold csum_field. by destruct (dl_type =? ETH_TYPE_IPV6). Qed.

Lemma set_tcp_port_keeps (dl_type : Z) (nh l4 : nat) (b : dp_packet) (src dst : Z) :
  layout dl_type IPPROTO_TCP b nh l4 -> 20 <= dp_packet_l4_size b -> in_width 16 src -> in_width 16 dst ->
  exists b', packet_set_tcp_port b src dst = Some b' /\ keeps dl_type IPPROTO_TCP nh l4 (port_ranges dl_type IPPROTO_TCP l4 b) b b' /\
    get (dp_data b') l4 2 = src /\ get (dp_data b') (l4 + 2) 2 = dst.
Proof.
  intros Hla Hn Hs Hd. pose proof (layout_l4_len _ _ _ _ _ Hla) as (Hl & _). unfold packet_set_tcp_port. rewrite (layout_l4 _ _ _ _ _ Hla). cbn [mbind option_bind].
  destruct (dp_packet_l4_checksum_valid b); [apply ports_partial_keeps; (done || lia)|].
  destruct (ports_congruent dl_type IPPROTO_TCP nh l4 b 16 src dst) as (b' & E & C & G1 & G2); [done|lia|lia|by exists 8%nat|done|done|].
  exists b'. split_and!; [done| |done|done].
  eapply keeps_weaken; [|eapply (congruent_keeps _ _ _ _ 16); [done|exact C|by apply csum_field_tcp|done]].
  unfold port_ranges, csum_range. rewrite csum_field_tcp by done. intros z. rewrite !elem_of_app, !elem_of_cons. tauto.
Qed.

(** The checksum 0 is sent as 0xffff. *)
Lemma udp_zero_congruent (dl_type : Z) (nh l4 : nat) (b : dp_packet) :
  layout dl_type IPPROTO_UDP b nh l4 -> 8 <= dp_packet_l4_size b ->
  exists b', (new ← ld b (l4 + 6) 2; if new =? 0 then wr b (l4 + 6) 2 0xffff else Some b) = Some b' /\
    congruent l4 [((l4 + 6)%nat, 2%nat)] b b'.
Proof.
  intros Hla Hn. pose proof (layout_l4_len _ _ _ _ _ Hla) as (Hl & Hl' & _). rewrite ld_get by lia. cbn [mbind option_bind].
  destruct (Z.eqb_spec (get (dp_data b) (l4 + 6) 2) 0) as [E|E].
  - rewrite wr_store by lia. eexists. split; [done|]. split; [by apply sets_wr; lia|ranges|done|done|]. exists 1.
    rewrite (W_store2 dl_type IPPROTO_UDP nh) by (done || lia || by exists 3%nat). lia.
  - exists b. split; [done|]. split; [apply (sets_weaken []); [set_solver|apply sets_refl]|ranges|done|done|]. exists 0. lia.
Qed.

Lemma set_udp_port_keeps (dl_type : Z) (nh l4 : nat) (b : dp_packet) (src dst : Z) :
  layout dl_type IPPROTO_UDP b nh l4 -> 8 <= dp_packet_l4_size b -> in_width 16 src -> in_width 16 dst ->
  exists b', packet_set_udp_port b src dst = Some b' /\ keeps dl_type IPPROTO_UDP nh l4 (port_ranges dl_type IPPROTO_UDP l4 b) b b' /\
    get (dp_data b') l4 2 = src /\ get (dp_data b') (l4 + 2) 2 = dst.
Proof.
  intros Hla Hn Hs Hd. pose proof (layout_l4_len _ _ _ _ _ Hla) as (Hl & Hl' & _). unfold packet_set_udp_port. rewrite (layout_l4 _ _ _ _ _ Hla). cbn [mbind option_bind].
  destruct (dp_packet_l4_checksum_valid b); [apply ports_partial_keeps; (done || lia)|].
  rewrite ld_get by lia. cbn [mbind option_bind]. pose proof (csum_field_udp dl_type _ Hn) as Hf.
  destruct (Z.eqb_spec (get (dp_data b) (l4 + 6) 2) 0) as [E0|E0].
  - destruct (ports_none l4 b src dst) as (b' & E & S & O & G1 & G2); [lia|done|done|]. rewrite (bind_some _ _ _ _ E). exists b'. split_and!; [done| |done|done].
    eapply keeps_weaken; [|apply (unused_keeps _ _ _ _ _ b b' Hla S)]; [apply in_second|ranges|done|done| |].
    + by rewrite (sets_get _ _ _ _ _ S) by ranges.
    + unfold dp_packet_ip_checksum_partial. by rewrite O.
  - destruct (ports_congruent dl_type IPPROTO_UDP nh l4 b 6 src dst) as (b1 & E & C & G1 & G2); [done|lia|lia|by exists 3%nat|done|done|].
    rewrite (bind_some _ _ _ _ E). destruct (congruent_layout _ _ _ _ _ _ _ Hla C) as (Hla1 & _ & _ & _ & Es).
    destruct (udp_zero_congruent dl_type nh l4 b1) as (b' & -> & C'); [done|by rewrite Es|]. exists b'. split; [done|].
    split; [|rewrite !(sets_get _ _ _ _ _ (cg_sets _ _ _ _ C')) by ranges; done].
    eapply keeps_weaken; [|eapply (congruent_keeps _ _ _ _ 6); [done|exact (congruent_trans _ _ _ _ _ _ C C')|done|done]].
    unfold port_ranges, csum_range. rewrite Hf. intros z. rewrite !elem_of_app, !elem_of_cons. tauto.
Qed.

(** A checksum of UDP that is brought up to date is not 0. *)
Lemma udp_csum_not_zero (dl_type : Z) (nh l4 : nat) (b b' : dp_packet) (src dst : Z) :
  layout dl_type IPPROTO_UDP b nh l4 -> 8 <= dp_packet_l4_size b -> in_width 16 src -> in_width 16 dst ->
  packet_set_udp_port b src dst = Some b' -> dp_packet_l4_checksum_valid b = false -> get (dp_data b) (l4 + 6) 2 <> 0 -> get (dp_data b') (l4 + 6) 2 <> 0.
Proof.
  intros La Hn Hs Hd E Hv H0. pose proof (layout_l4_len _ _ _ _ _ La) as (Hl & Hl' & _). unfold packet_set_udp_port in E.
  rewrite (layout_l4 _ _ _ _ _ La), option_bind_some, Hv, (ld_get b (l4 + 6) 2), option_bind_some in E by lia.
  destruct (Z.eqb_spec (get (dp_data b) (l4 + 6) 2) 0); [done|].
  destruct (ports_congruent dl_type IPPROTO_UDP nh l4 b 6 src dst) as (b1 & E1 & C & _); [done|lia|lia|by exists 3%nat|done|done|].
  rewrite (bind_some _ _ _ _ E1) in E. pose proof (sets_length _ _ _ (cg_sets _ _ _ _ C)). rewrite ld_get, option_bind_some in E by lia.
  destruct (Z.eqb_spec (get (dp_data b1) (l4 + 6) 2) 0) as [Ez|Ez].
  - rewrite wr_store in E by lia. apply (inj Some) in E as <-. by rewrite dp_data_store, get_patch by (done || lia).
  - by apply (inj Some) in E as <-.
Qed.

(** ** ICMP *)

Lemma lor_byte (x y : Z) : is_byte x -> is_byte y -> Z.lor (Z.shiftl x 8) y = 256 * x + y /\ in_width 16 (256 * x + y).
Proof.
  intros Hx Hy. split; [|unfold is_byte, in_width in *; lia]. apply Z.bits_inj'. intros i Hi.
  rewrite (Z.add_comm (256 * x)), testbit_byte_app, Z.lor_spec, Z.shiftl_spec by done. destruct (Z.ltb_spec i 8).
  - by rewrite Z.testbit_neg_r by lia.
  - by rewrite (in_width_high 8 y), orb_false_r.
Qed.

Definition icmp_ranges (l4 : nat) : list (nat * nat) := [(l4, 1%nat); ((l4 + 1)%nat, 1%nat); ((l4 + 2)%nat, 2%nat)].

Lemma set_icmp_congruent (dl_type nw_proto : Z) (nh l4 : nat) (b : dp_packet) (type code : Z) :
  layout dl_type nw_proto b nh l4 -> 4 <= dp_packet_l4_size b -> is_byte type -> is_byte code ->
  exists b', packet_set_icmp b type code = Some b' /\ congruent l4 (icmp_ranges l4) b b' /\
    get (dp_data b') l4 1 = type /\ get (dp_data b') (l4 + 1) 1 = code.
Proof.
  intros Hla Hn Ht Hc. pose proof (layout_l4_len _ _ _ _ _ Hla) as (Hl & Hl' & _). unfold packet_set_icmp. rewrite (layout_l4 _ _ _ _ _ Hla), option_bind_some.
  rewrite (ld_get b l4 1), option_bind_some, (ld_get b (l4 + 1) 1), option_bind_some by lia. set (t0 := get (dp_data b) l4 1). set (c0 := get (dp_data b) (l4 + 1) 1).
  assert (is_byte t0) as Ht0 by exact (get_width' _ _ _ _ _ Hla l4 1 8 eq_refl). assert (is_byte c0) as Hc0 by exact (get_width' _ _ _ _ _ Hla (l4 + 1) 1 8 eq_refl).
  destruct (lor_byte t0 c0 Ht0 Hc0) as [-> W0]. destruct (lor_byte type code Ht Hc) as [-> W1].
  destruct (Z.eqb_spec (256 * t0 + c0) (256 * type + code)) as [E|E]; cbn [negb].
  { exists b. split; [done|]. split; [|unfold is_byte in *; fold t0; fold c0; lia].
    split; [apply (sets_weaken []); [set_solver|apply sets_refl]|ranges|done|done|]. exists 0. lia. }
  rewrite wr_store, option_bind_some by lia. set (b1 := store b l4 (be_bytes 1 type)). pose proof (sets_wr b l4 1 type ltac:(lia)) as S1. fold b1 in S1.
  pose proof (sets_length _ _ _ S1) as N1. rewrite wr_store, option_bind_some by lia. set (b2 := store b1 (l4 + 1) (be_bytes 1 code)).
  pose proof (sets_wr b1 (l4 + 1) 1 code ltac:(lia)) as S2. fold b2 in S2. pose proof (sets_length _ _ _ S2) as N2. rewrite update_csum_store by lia.
  assert (get (dp_data b2) (l4 + 2) 2 = get (dp_data b) (l4 + 2) 2) as Eg by (by rewrite (sets_get _ _ _ _ _ S2), (sets_get _ _ _ _ _ S1) by ranges).
  rewrite Eg. destruct (recalc_csum16_spec _ _ _ (get_width' _ _ _ _ _ Hla (l4 + 2) 2 16 eq_refl) W0 W1) as (Wr & k & Hk). set (y := recalc_csum16 _ _ _) in *.
  eexists. split; [done|]. pose proof (sets_wr b2 (l4 + 2) 2 y ltac:(lia)) as S3. pose proof (sets_trans _ _ _ _ _ S1 (sets_trans _ _ _ _ _ S2 S3)) as S.
  cbn [app] in S. split.
  - split; [done|ranges|done|done|]. exists k. destruct (sets_behind _ _ _ _ _ _ _ Hla (sets_trans _ _ _ _ _ S1 S2)) as (Hla2 & _); [ranges|].
    assert (l4_len b2 = l4_len b) as El by (unfold l4_len; by destruct (sets_layers _ _ _ (sets_trans _ _ _ _ _ S1 S2)) as (_ & _ & -> & _)).
    rewrite <- El, (W_store2 _ _ _ _ _ _ _ Hla2), Eg, El by (rewrite ?El; (done || lia || by exists 1%nat)). unfold b2. rewrite dp_data_store, be_bytes_1 by done.
    destruct (W_byte (dp_data b1) l4 (l4_len b) l4 code) as [_ ->]; [lia|lia|lia|exists 0%nat; lia|]. rewrite <- get_nth, (sets_get _ _ _ _ _ S1) by ranges.
    unfold b1. rewrite dp_data_store, be_bytes_1 by done. destruct (W_byte (dp_data b) l4 (l4_len b) l4 type) as [-> _]; [lia|lia|lia|exists 0%nat; lia|].
    rewrite <- get_nth. fold t0 c0. lia.
  - rewrite !(sets_get _ _ _ _ _ S3) by ranges. rewrite (sets_get _ _ _ l4 1 S2) by ranges. split; apply get_patch; (lia || done).
Qed.
