(* ===== verification/PacketPrepare.v ===== *)
(** * Packets that are sent

    [dp_packet_ol_send_prepare] turns the condition that the functions that change
    a packet keep into checksums that a receiver accepts. *)

From S2P Require Import Prelude Util MetaFlow MetaFields Packet PacketProps MfCtx ExtractFields Conntrack Csum Crc32c PacketSet.
From S2P Require Import PacketOffload PacketBytes PacketLayout PacketKeep PacketIp4 PacketPorts.
From stdpp Require Import prelude list.
From Stdlib Require Import ZArith Lia.
Open Scope Z_scope.
Open Scope ovs_scope.

(** ** Flags *)

Lemma set_good_bits (x bad good k : Z) : Z.land bad k = 0 -> Z.land good k = 0 -> Z.land (Z.lor (Z.ldiff x bad) good) k = Z.land x k.
Proof.
  intros H1 H2. apply Z.bits_inj'. intros i Hi. apply (f_equal (fun y => Z.testbit y i)) in H1. apply (f_equal (fun y => Z.testbit y i)) in H2.
  revert H1 H2. rewrite !Z.land_spec, Z.lor_spec, Z.ldiff_spec, Z.bits_0.
  by destruct (Z.testbit x i), (Z.testbit bad i), (Z.testbit good i), (Z.testbit k i).
Qed.

Lemma set_good_rest (x bad good k : Z) : Z.ldiff bad k = 0 -> Z.ldiff good k = 0 -> Z.ldiff (Z.lor (Z.ldiff x bad) good) k = Z.ldiff x k.
Proof.
  intros H1 H2. apply Z.bits_inj'. intros i Hi. apply (f_equal (fun y => Z.testbit y i)) in H1. apply (f_equal (fun y => Z.testbit y i)) in H2.
  revert H1 H2. rewrite !Z.ldiff_spec, Z.lor_spec, Z.ldiff_spec, Z.bits_0.
  by destruct (Z.testbit x i), (Z.testbit bad i), (Z.testbit good i), (Z.testbit k i).
Qed.

Lemma set_good_not_partial (x bad good : Z) (n : Z) :
  0 <= n -> Z.testbit bad n = true -> Z.testbit good n = false -> (Z.land (Z.lor (Z.ldiff x bad) good) (Z.lor good bad) =? Z.lor good bad) = false.
Proof.
  intros Hn H1 H2. apply Z.eqb_neq. intros E. apply (f_equal (fun y => Z.testbit y n)) in E. revert E.
  rewrite Z.land_spec, !Z.lor_spec, Z.ldiff_spec, H1, H2. by destruct (Z.testbit x n).
Qed.

Lemma ip_set_good (b : dp_packet) :
  let b' := dp_packet_ip_checksum_set_good b in
  dp_packet_ip_checksum_partial b' = false /\ dp_packet_l4_checksum_partial b' = dp_packet_l4_checksum_partial b /\
  dp_data b' = dp_data b /\ sets [] b b'.
Proof.
  cbv zeta. unfold dp_packet_ip_checksum_partial, dp_packet_l4_checksum_partial, dp_packet_ip_checksum_set_good, set_offloads. cbn [dp_offloads dp_data].
  rewrite (set_good_bits _ _ _ DP_PACKET_OL_L4_CKSUM_MASK) by done. split_and!; [by apply (set_good_not_partial _ _ _ 4)|done|done|].
  split; [apply bytes_agree_refl|done| |cbn [dp_offloads]; by apply set_good_rest]. eexists (dp_data b), _. by destruct b.
Qed.

Lemma l4_set_good (b : dp_packet) :
  let b' := dp_packet_l4_checksum_set_good b in
  dp_packet_l4_checksum_partial b' = false /\ dp_packet_ip_checksum_partial b' = dp_packet_ip_checksum_partial b /\
  dp_data b' = dp_data b /\ sets [] b b'.
Proof.
  cbv zeta. unfold dp_packet_ip_checksum_partial, dp_packet_l4_checksum_partial, dp_packet_l4_checksum_set_good, set_offloads. cbn [dp_offloads dp_data].
  rewrite (set_good_bits _ _ _ DP_PACKET_OL_IP_CKSUM_MASK) by done. split_and!; [by apply (set_good_not_partial _ _ _ 3)|done|done|].
  split; [apply bytes_agree_refl|done| |cbn [dp_offloads]; by apply set_good_rest]. eexists (dp_data b), _. by destruct b.
Qed.

Lemma sets_bits (r : list (nat * nat)) (b b' : dp_packet) (k : Z) :
  sets r b b' -> Z.land CKSUM_MASKS k = 0 -> Z.land (dp_offloads b') k = Z.land (dp_offloads b) k.
Proof.
  intros [_ _ _ Hf] Hk. apply Z.bits_inj'. intros i Hi. apply (f_equal (fun y => Z.testbit y i)) in Hf. apply (f_equal (fun y => Z.testbit y i)) in Hk.
  revert Hf Hk. rewrite !Z.ldiff_spec, !Z.land_spec, Z.bits_0.
  by destruct (Z.testbit (dp_offloads b') i), (Z.testbit (dp_offloads b) i), (Z.testbit CKSUM_MASKS i), (Z.testbit k i).
Qed.

Lemma sets_protos (r : list (nat * nat)) (b b' : dp_packet) :
  sets r b b' -> dp_packet_l4_proto_tcp b' = dp_packet_l4_proto_tcp b /\ dp_packet_l4_proto_udp b' = dp_packet_l4_proto_udp b /\
  dp_packet_l4_proto_sctp b' = dp_packet_l4_proto_sctp b /\ dp_packet_tunnel b' = dp_packet_tunnel b.
Proof.
  intros H. unfold dp_packet_l4_proto_tcp, dp_packet_l4_proto_udp, dp_packet_l4_proto_sctp, dp_packet_tunnel.
  by rewrite !(sets_bits r b b') by done.
Qed.

(** ** Checksums that are filled in *)

Lemma csum_finish_ones (x : Z) : in_width 32 x -> in_width 16 (csum_finish x) /\ ones (x + csum_finish x).
Proof.
  intros Hx. destruct (csum_finish_spec x Hx) as (H1 & (k & H2) & _). split; [unfold in_width; lia|].
  apply (ones_shift _ 0 k); [lia|done].
Qed.

Lemma header_csum_filled (nw_proto : Z) (b : dp_packet) (nh l4 : nat) :
  layout ETH_TYPE_IP nw_proto b nh l4 -> Z.of_nat (ip_len (dp_data b) nh) < dp_packet_l3_size b ->
  exists b', dp_packet_ip_set_header_csum b false = Some b' /\ sets [((nh + 10)%nat, 2%nat)] b b' /\ layout ETH_TYPE_IP nw_proto b' nh l4 /\
    csum (bytes_at (dp_data b') nh (ip_len (dp_data b') nh)) = 0 /\ dp_packet_ip_checksum_partial b' = false /\
    dp_packet_l4_checksum_partial b' = dp_packet_l4_checksum_partial b.
Proof.
  intros Hla Hl. pose proof (layout_header _ _ _ _ _ Hla) as (H1 & H2 & _). pose proof (ip_len_bounds _ _ _ _ _ Hla eq_refl) as (H3 & H4 & H5).
  unfold dp_packet_ip_set_header_csum. rewrite (layout_l3 _ _ _ _ _ Hla), option_bind_some. rewrite ld_get, option_bind_some by lia. rewrite <- H5.
  destruct (Z.leb_spec (Z.of_nat IP_HEADER_LEN) (Z.of_nat (ip_len (dp_data b) nh))) as [_|Hc]; [|unfold IP_HEADER_LEN in Hc; lia].
  destruct (Z.ltb_spec (Z.of_nat (ip_len (dp_data b) nh)) (dp_packet_l3_size b)); [|lia]. cbn [andb].
  rewrite wr_store, option_bind_some by lia. pose proof (sets_wr b (nh + 10) 2 0 ltac:(lia)) as S1. set (b1 := store b (nh + 10) (be_bytes 2 0)) in *.
  pose proof (sets_length _ _ _ S1) as N1. destruct (layout4_sets _ _ _ _ _ _ Hla S1) as (La1 & Li1 & _); [ranges|].
  rewrite ldn_bytes, option_bind_some by lia. rewrite wr_store, option_bind_some by lia. rewrite Nat2Z.id, <- Li1.
  pose proof (W_bound _ _ _ _ _ La1 nh (ip_len (dp_data b1) nh)) as Hw. unfold csum at 1. unfold W in Hw.
  rewrite csum_continue_sum by (try apply bytes_at_byte; (apply La1 || lia)). rewrite Z.add_0_l. fold (W (dp_data b1) nh (ip_len (dp_data b1) nh)) in Hw |- *.
  fold (header_sum b1 nh) in Hw |- *. destruct (csum_finish_ones (header_sum b1 nh)) as [Wc Ho]; [unfold in_width; lia|]. set (c := csum_finish _) in *.
  pose proof (sets_wr b1 (nh + 10) 2 c ltac:(lia)) as S2. set (b2 := store b1 (nh + 10) (be_bytes 2 c)) in *.
  destruct (layout4_sets _ _ _ _ _ _ La1 S2) as (La2 & _); [ranges|]. destruct (ip_set_good b2) as (P1 & P2 & P3 & P4). eexists. split; [done|].
  destruct (layout4_sets _ _ _ _ _ _ La2 P4) as (La3 & _); [ranges|].
  split_and!; [|done| |done|done].
  - apply (sets_weaken [((nh + 10)%nat, 2%nat); ((nh + 10)%nat, 2%nat)]); [intros z; rewrite !elem_of_cons; tauto|].
    exact (sets_trans _ _ _ _ _ S1 (sets_trans _ _ _ _ _ S2 P4)).
  - rewrite P3. rewrite (header_csum_ones _ _ _ _ _ La2 eq_refl). fold (header_sum b2 nh). unfold b2.
    rewrite (header_sum_store nw_proto nh l4) by (rewrite ?length_be_bytes; (done || (by exists 5%nat) || (by exists 1%nat) || apply be_bytes_byte || ranges)).
    rewrite length_be_bytes, W_be_bytes by (apply La1 || lia). unfold b1 at 2. rewrite dp_data_store, get_patch by (lia || done).
    rewrite !words_sum_2, (wrap_small 16 c) by done. by replace (header_sum b1 nh - u16 0 + c) with (header_sum b1 nh + c) by (change (u16 0) with 0; lia).
Qed.

(** The next header, where the code takes the protocol from. *)
Definition next_proto (dl_type nw_proto : Z) (b : dp_packet) (nh : nat) : Prop := dl_type = ETH_TYPE_IPV6 -> get (dp_data b) (nh + 6) 1 = nw_proto.

Lemma complete_csum_sum (dl_type nw_proto : Z) (b : dp_packet) (nh l4 : nat) :
  layout dl_type nw_proto b nh l4 -> next_proto dl_type nw_proto b nh ->
  complete_csum b nh l4 (dp_packet_l4_size b) = Some (csum_finish (l4_sum dl_type nw_proto b nh l4)).
Proof.
  intros Hla Hn. pose proof (layout_header _ _ _ _ _ Hla) as (H1 & H2 & _). unfold complete_csum. rewrite (ld_get b nh 1), option_bind_some by lia.
  pose proof (layout_l4_len _ _ _ _ _ Hla) as (Hl & He & Hs). pose proof (pseudo_sum_bound _ _ _ _ _ Hla) as Hp. pose proof (W_bound _ _ _ _ _ Hla l4 (l4_len b)) as Wc.
  destruct (la_header _ _ _ _ _ Hla) as [(E & Hv & _)|(E & Hv & _)].
  - rewrite Hv. change (4 =? 4) with true. cbv iota. rewrite (packet_csum_pseudoheader_sum _ _ _ _ _ Hla E), option_bind_some.
    rewrite ldn_bytes, option_bind_some by lia. fold (l4_len b). unfold l4_sum, W in *. rewrite csum_continue_sum; [done|apply bytes_at_byte, Hla|lia|lia].
  - destruct (Z.eqb_spec (IP_VER (get (dp_data b) nh 1)) 4); [done|]. rewrite ld_get, option_bind_some by lia. rewrite Hn by done.
    by apply packet_csum_upperlayer6_sum.
Qed.

(** The checksum [y] that is stored in place of 0. *)
Lemma filled_right (dl_type nw_proto : Z) (b : dp_packet) (nh l4 c : nat) (y : Z) :
  layout dl_type nw_proto b nh l4 -> csum_field dl_type nw_proto (dp_packet_l4_size b) = Some c -> get (dp_data b) (l4 + c) 2 = 0 ->
  in_width 16 y -> (exists k, y = csum_finish (l4_sum dl_type nw_proto b nh l4) + 65535 * k) ->
  let b' := store b (l4 + c) (be_bytes 2 y) in
  sets [((l4 + c)%nat, 2%nat)] b b' /\ layout dl_type nw_proto b' nh l4 /\
  checksum_valid b' dl_type nw_proto l4 (dp_packet_l4_size b') nh = Some true.
Proof.
  intros Hla Hf H0 Hy [k Hk] b'. destruct (csum_field_some _ _ _ _ Hf) as [Hc He]. pose proof (layout_l4_len _ _ _ _ _ Hla) as (Hl & Hl' & _).
  pose proof (sets_wr b (l4 + c) 2 y ltac:(lia)) as S. fold b' in S. destruct (sets_behind _ _ _ _ _ _ _ Hla S) as (La' & _); [ranges|]. split_and!; [done|done|].
  rewrite (checksum_valid_ones _ _ _ _ _ La'). unfold b'. rewrite l4_sum_store by (done || lia || by exists 1%nat).
  rewrite H0, !words_sum_2, (wrap_small 16 y) by done. change (u16 0) with 0. pose proof (l4_sum_bound _ _ _ _ _ Hla) as Hb.
  apply (ones_shift _ (l4_sum dl_type nw_proto b nh l4 + csum_finish (l4_sum dl_type nw_proto b nh l4)) k); [lia|].
  apply csum_finish_ones. unfold in_width. lia.
Qed.

Definition l4_right (dl_type nw_proto : Z) (b : dp_packet) (nh l4 : nat) : Prop :=
  match csum_field dl_type nw_proto (dp_packet_l4_size b) with
  | Some c => nw_proto = IPPROTO_UDP /\ get (dp_data b) (l4 + c) 2 = 0 \/
      checksum_valid b dl_type nw_proto l4 (dp_packet_l4_size b) nh = Some true
  | None => True
  end.

Lemma l4_right_data (dl_type nw_proto : Z) (b b' : dp_packet) (nh l4 : nat) :
  sets [] b b' -> dp_data b' = dp_data b -> layout dl_type nw_proto b nh l4 -> layout dl_type nw_proto b' nh l4 ->
  l4_right dl_type nw_proto b nh l4 -> l4_right dl_type nw_proto b' nh l4.
Proof.
  intros S E La La'. destruct (sets_layers _ _ _ S) as (_ & _ & Es & _). unfold l4_right. rewrite Es, E. case_match; [|done].
  rewrite <- Es at 2. rewrite (checksum_valid_ones _ _ _ _ _ La), (checksum_valid_ones _ _ _ _ _ La').
  unfold l4_sum, pseudo_sum, l4_len. rewrite E, Es. done.
Qed.

Record l4_filled (dl_type nw_proto : Z) (nh l4 : nat) (b b' : dp_packet) : Prop := {
  lf_sets : sets (csum_range dl_type nw_proto b l4) b b';
  lf_layout : layout dl_type nw_proto b' nh l4;
  lf_right : l4_right dl_type nw_proto b' nh l4;
  lf_l4 : dp_packet_l4_checksum_partial b' = false;
  lf_ip : dp_packet_ip_checksum_partial b' = dp_packet_ip_checksum_partial b
}.

(** The last step marks the checksum as good. *)
Lemma filled_good (dl_type nw_proto : Z) (b b' : dp_packet) (nh l4 : nat) :
  sets (csum_range dl_type nw_proto b l4) b b' -> layout dl_type nw_proto b' nh l4 -> l4_right dl_type nw_proto b' nh l4 ->
  dp_packet_ip_checksum_partial b' = dp_packet_ip_checksum_partial b -> l4_filled dl_type nw_proto nh l4 b (l4_checksum_set_good b' false).
Proof.
  intros S La R I. cbn [l4_checksum_set_good]. destruct (l4_set_good b') as (P1 & P2 & P3 & P4).
  destruct (sets_behind _ _ _ _ _ _ _ La P4) as (La2 & _); [by apply Forall_nil_2|].
  split; [|done|by apply (l4_right_data _ _ b')|done|by rewrite P2]. rewrite <- (app_nil_r (csum_range _ _ _ _)). by apply (sets_trans _ _ _ b').
Qed.

Lemma tcp_csum_filled (dl_type : Z) (b : dp_packet) (nh l4 : nat) :
  layout dl_type IPPROTO_TCP b nh l4 -> next_proto dl_type IPPROTO_TCP b nh -> 20 <= dp_packet_l4_size b ->
  exists b', packet_tcp_complete_csum b false = Some b' /\ l4_filled dl_type IPPROTO_TCP nh l4 b b'.
Proof.
  intros Hla Hn Hs. pose proof (csum_field_tcp dl_type _ Hs) as Hf. pose proof (layout_header _ _ _ _ _ Hla) as (H1 & H2 & _).
  pose proof (layout_l4_len _ _ _ _ _ Hla) as (Hl & Hl' & _). unfold packet_tcp_complete_csum. rewrite (layout_l4 _ _ _ _ _ Hla), (layout_l3 _ _ _ _ _ Hla), !option_bind_some.
  rewrite wr_store, option_bind_some by lia. pose proof (sets_wr b (l4 + 16) 2 0 ltac:(lia)) as S1. set (b1 := store b (l4 + 16) (be_bytes 2 0)) in *.
  pose proof (sets_length _ _ _ S1) as N1. destruct (sets_behind _ _ _ _ _ _ _ Hla S1) as (La1 & _); [ranges|]. destruct (sets_layers _ _ _ S1) as (_ & _ & Es & _).
  assert (next_proto dl_type IPPROTO_TCP b1 nh) as Hn1 by (intros E; rewrite (sets_get _ _ _ _ _ S1) by ranges; auto).
  rewrite <- Es, (complete_csum_sum _ _ _ _ _ La1 Hn1), option_bind_some. rewrite wr_store, option_bind_some by lia. eexists. split; [done|].
  pose proof (l4_sum_bound _ _ _ _ _ La1) as Hb. destruct (csum_finish_ones (l4_sum dl_type IPPROTO_TCP b1 nh l4)) as [Wy _]; [unfold in_width; lia|].
  destruct (filled_right dl_type IPPROTO_TCP b1 nh l4 16 (csum_finish (l4_sum dl_type IPPROTO_TCP b1 nh l4))) as (S2 & La2 & V);
    [done|by rewrite Es|apply get_patch; (done || lia)|done|exists 0; lia|].
  destruct (sets_layers _ _ _ S2) as (_ & _ & Es2 & _). apply filled_good; [|done| |done].
  - unfold csum_range. rewrite Hf. eapply sets_weaken; [|exact (sets_trans _ _ _ _ _ S1 S2)]. intros z. rewrite elem_of_app. tauto.
  - unfold l4_right. rewrite Es2, Es, Hf. right. by rewrite <- Es, <- Es2.
Qed.

Lemma udp_csum_filled (dl_type : Z) (b : dp_packet) (nh l4 : nat) :
  layout dl_type IPPROTO_UDP b nh l4 -> next_proto dl_type IPPROTO_UDP b nh -> 8 <= dp_packet_l4_size b ->
  exists b', packet_udp_complete_csum b false = Some b' /\ l4_filled dl_type IPPROTO_UDP nh l4 b b'.
Proof.
  intros Hla Hn Hs. pose proof (csum_field_udp dl_type _ Hs) as Hf. pose proof (layout_header _ _ _ _ _ Hla) as (H1 & H2 & _).
  pose proof (layout_l4_len _ _ _ _ _ Hla) as (Hl & Hl' & _). unfold packet_udp_complete_csum. rewrite (layout_l4 _ _ _ _ _ Hla), (layout_l3 _ _ _ _ _ Hla), !option_bind_some.
  rewrite (ld_get b (l4 + 6) 2), option_bind_some by lia. destruct (Z.eqb_spec (get (dp_data b) (l4 + 6) 2) 0) as [E0|E0].
  { rewrite option_bind_some. eexists. split; [done|]. apply filled_good; [apply (sets_weaken []); [set_solver|apply sets_refl]|done| |done].
    unfold l4_right. rewrite Hf. by left. }
  rewrite wr_store, option_bind_some by lia. pose proof (sets_wr b (l4 + 6) 2 0 ltac:(lia)) as S1. set (b1 := store b (l4 + 6) (be_bytes 2 0)) in *.
  pose proof (sets_length _ _ _ S1) as N1. destruct (sets_behind _ _ _ _ _ _ _ Hla S1) as (La1 & _); [ranges|]. destruct (sets_layers _ _ _ S1) as (_ & _ & Es & _).
  assert (next_proto dl_type IPPROTO_UDP b1 nh) as Hn1 by (intros E; rewrite (sets_get _ _ _ _ _ S1) by ranges; auto).
  rewrite <- Es, (complete_csum_sum _ _ _ _ _ La1 Hn1), option_bind_some. rewrite wr_store, option_bind_some by lia.
  pose proof (l4_sum_bound _ _ _ _ _ La1) as Hb. destruct (csum_finish_ones (l4_sum dl_type IPPROTO_UDP b1 nh l4)) as [Wy _]; [unfold in_width; lia|].
  set (y := csum_finish _) in *. destruct (nonzero16_ok y Wy) as (Wy' & _ & Hy').
  destruct (filled_right dl_type IPPROTO_UDP b1 nh l4 6 (nonzero16 y)) as (S2 & La2 & V); [done|by rewrite Es|apply get_patch; (done || lia)|done|done|].
  exists (l4_checksum_set_good (store b1 (l4 + 6) (be_bytes 2 (nonzero16 y))) false). split.
  { unfold nonzero16. destruct (y =? 0); [|done]. rewrite wr_store by (rewrite dp_data_store, length_patch; rewrite ?length_be_bytes; lia).
    by rewrite store_store by (rewrite ?length_be_bytes; (done || lia)). }
  destruct (sets_layers _ _ _ S2) as (_ & _ & Es2 & _). apply filled_good; [|done| |done].
  - unfold csum_range. rewrite Hf. eapply sets_weaken; [|exact (sets_trans _ _ _ _ _ S1 S2)]. intros z. rewrite elem_of_app. tauto.
  - unfold l4_right. rewrite Es2, Es, Hf. right. by rewrite <- Es, <- Es2.
Qed.

(** ** Sending *)

Lemma l4_right_tcp (dl_type : Z) (b : dp_packet) (nh l4 : nat) :
  l4_right dl_type IPPROTO_TCP b nh l4 -> 20 <= dp_packet_l4_size b ->
  checksum_valid b dl_type IPPROTO_TCP l4 (dp_packet_l4_size b) nh = Some true.
Proof. intros H Hn. unfold l4_right in H. rewrite csum_field_tcp in H by done. by destruct H as [[E _]|H]. Qed.

Lemma header_inside (nw_proto : Z) (b : dp_packet) (nh l4 : nat) :
  layout ETH_TYPE_IP nw_proto b nh l4 -> 0 < dp_packet_l4_size b -> Z.of_nat (ip_len (dp_data b) nh) < dp_packet_l3_size b.
Proof.
  intros La Hs. pose proof (ip_len_bounds _ _ _ _ _ La eq_refl) as (_ & H & _). pose proof (layout_l4_size _ _ _ _ _ La) as E.
  unfold dp_packet_l3_size. rewrite (layout_l3 _ _ _ _ _ La). destruct La as [_ _ _ Hm _ _ Hp He Hz]. unfold UINT16_MAX in Hm.
  rewrite (wrap_small 64) by (unfold in_width; lia). lia.
Qed.

Lemma l4_ok_right (dl_type nw_proto : Z) (b : dp_packet) (nh l4 : nat) :
  l4_csum_ok dl_type nw_proto b nh l4 -> dp_packet_l4_checksum_partial b = false -> l4_right dl_type nw_proto b nh l4.
Proof. unfold l4_csum_ok, l4_right. intros H E. case_match; [|done]. rewrite E, andb_false_r in H. by destruct H as [H|H]. Qed.

(** The header checksum is right before the one of layer 4 is looked at. *)
Lemma prepare_header (dl_type nw_proto : Z) (b : dp_packet) (nh l4 : nat) :
  layout dl_type nw_proto b nh l4 -> l4_csum_ok dl_type nw_proto b nh l4 -> (dl_type = ETH_TYPE_IP -> ip_csum_ok b nh) ->
  (dp_packet_ip_checksum_partial b = true -> dl_type = ETH_TYPE_IP /\ Z.of_nat (ip_len (dp_data b) nh) < dp_packet_l3_size b) ->
  exists b', (if dp_packet_ip_checksum_partial b && lacks 0 NETDEV_TX_OFFLOAD_IPV4_CKSUM then dp_packet_ip_set_header_csum b false else Some b) = Some b' /\
    sets [((nh + 10)%nat, 2%nat)] b b' /\ layout dl_type nw_proto b' nh l4 /\ l4_csum_ok dl_type nw_proto b' nh l4 /\
    (dl_type = ETH_TYPE_IP -> csum (bytes_at (dp_data b') nh (ip_len (dp_data b') nh)) = 0) /\
    dp_packet_ip_checksum_partial b' = false /\ dp_packet_l4_checksum_partial b' = dp_packet_l4_checksum_partial b.
Proof.
  intros La Hl4 Hip Hp. change (lacks 0 NETDEV_TX_OFFLOAD_IPV4_CKSUM) with true. rewrite andb_true_r. destruct (dp_packet_ip_checksum_partial b) eqn:Ep.
  - destruct (Hp eq_refl) as [-> Hl]. pose proof (layout_header _ _ _ _ _ La) as (H1 & _). destruct (header_csum_filled nw_proto b nh l4 La Hl) as (b' & -> & S & La' & Hc & P1 & P2).
    exists b'. split_and!; [done|done|done| |done|done|done].
    eapply (l4_csum_ok_same _ _ _ _ _ b b'); [done|done|exact S|apply csum_range_behind; ranges|done| |done].
    destruct (layout4_sets _ _ _ _ _ _ La S) as (_ & _ & HW & Hn); [ranges|].
    unfold l4_sum, pseudo_sum. rewrite Hn, HW, Z.eqb_refl. by rewrite !(sets_get _ _ _ _ _ S) by ranges.
  - exists b. split_and!; [done|apply (sets_weaken []); [set_solver|apply sets_refl]|done|done| |done|done].
    intros E. destruct (Hip E) as [H|H]; [congruence|done].
Qed.

Lemma proto_udp_not_tcp (b : dp_packet) : dp_packet_l4_proto_udp b = true -> dp_packet_l4_proto_tcp b = false.
Proof. unfold dp_packet_l4_proto_udp, dp_packet_l4_proto_tcp. intros E%Z.eqb_eq. by rewrite E. Qed.

(** The protocol that the offload flags name is the one of the packet. *)
Definition l4_offload_ok (nw_proto : Z) (b : dp_packet) : Prop :=
  dp_packet_l4_checksum_partial b = true ->
  nw_proto = IPPROTO_TCP /\ 20 <= dp_packet_l4_size b /\ dp_packet_l4_proto_tcp b = true \/
  nw_proto = IPPROTO_UDP /\ 8 <= dp_packet_l4_size b /\ dp_packet_l4_proto_udp b = true.

Lemma prepare_l4 (dl_type nw_proto : Z) (b : dp_packet) (nh l4 : nat) :
  layout dl_type nw_proto b nh l4 -> next_proto dl_type nw_proto b nh -> l4_offload_ok nw_proto b ->
  dp_packet_l4_checksum_partial b = true ->
  exists b', l4_complete b false (dp_packet_l4_proto_tcp b) (dp_packet_l4_proto_udp b) (dp_packet_l4_proto_sctp b) 0 = Some b' /\
    l4_filled dl_type nw_proto nh l4 b b'.
Proof.
  intros La Hn Ho Hp. unfold l4_complete. destruct (Ho Hp) as [(-> & Hs & E)|(-> & Hs & E)].
  - rewrite E. change (lacks 0 NETDEV_TX_OFFLOAD_TCP_CKSUM) with true. by apply tcp_csum_filled.
  - rewrite (proto_udp_not_tcp b E), E. change (lacks 0 NETDEV_TX_OFFLOAD_UDP_CKSUM) with true. by apply udp_csum_filled.
Qed.

Lemma send_prepare_right (dl_type nw_proto : Z) (b : dp_packet) (nh l4 : nat) :
  layout dl_type nw_proto b nh l4 -> next_proto dl_type nw_proto b nh -> l4_csum_ok dl_type nw_proto b nh l4 ->
  (dl_type = ETH_TYPE_IP -> ip_csum_ok b nh) ->
  (dp_packet_ip_checksum_partial b = true -> dl_type = ETH_TYPE_IP /\ Z.of_nat (ip_len (dp_data b) nh) < dp_packet_l3_size b) ->
  l4_offload_ok nw_proto b -> dp_packet_tunnel b = false ->
  exists b', dp_packet_ol_send_prepare b 0 = Some b' /\ sets (((nh + 10)%nat, 2%nat) :: csum_range dl_type nw_proto b l4) b b' /\
    layout dl_type nw_proto b' nh l4 /\ (dl_type = ETH_TYPE_IP -> csum (bytes_at (dp_data b') nh (ip_len (dp_data b') nh)) = 0) /\
    l4_right dl_type nw_proto b' nh l4 /\ dp_packet_ip_checksum_partial b' = false /\ dp_packet_l4_checksum_partial b' = false.
Proof.
  intros La Hn Hl4 Hip Hih Ho Ht. destruct (prepare_header _ _ _ _ _ La Hl4 Hip Hih) as (b1 & E1 & S1 & La1 & O1 & C1 & I1 & P1).
  destruct (sets_protos _ _ _ S1) as (T1 & T2 & T3 & _). destruct (sets_layers _ _ _ S1) as (_ & _ & Es & _). unfold dp_packet_ol_send_prepare. rewrite Ht, E1, option_bind_some. cbn [negb].
  destruct (dp_packet_l4_checksum_partial b1) eqn:Ep.
  - assert (l4_offload_ok nw_proto b1) as Ho1 by (unfold l4_offload_ok; rewrite T1, T2, Es; intros _; by apply Ho).
    assert (next_proto dl_type nw_proto b1 nh) as Hn1 by (intros E; rewrite (sets_get _ _ _ _ _ S1) by ranges; auto).
    destruct (prepare_l4 _ _ _ _ _ La1 Hn1 Ho1 Ep) as (b2 & E2 & [S2 La2 R2 P2 I2]). exists b2. rewrite <- P1, andb_false_r, andb_false_l. cbn [andb negb].
    split_and!; [done| |done| |done|congruence|done].
    + rewrite (csum_range_sets _ _ _ _ _ _ S1) in S2. exact (sets_trans _ _ _ _ _ S1 S2).
    + intros E. destruct (sets_behind _ _ _ _ _ _ _ La1 S2 (csum_range_after _ _ _ _)) as (_ & _ & Hl & Hb). rewrite Hl, Hb by done. auto.
  - exists b1. assert (l4_right dl_type nw_proto b1 nh l4) as R1 by (by apply l4_ok_right). split_and!; [|apply (sets_weaken [((nh + 10)%nat, 2%nat)]); [intros z; rewrite !elem_of_cons, elem_of_nil; tauto|done]|done..].
    destruct (dp_packet_ip_checksum_partial b); cbn [negb andb] in *; [done|]. apply (inj Some) in E1 as <-. by destruct (negb _ && _ && _).
Qed.
