(* ===== verification/PacketSctp.v ===== *)
(** * SCTP

    The checksum of SCTP is a CRC over the packet with 0 in place of the checksum. *)

From S2P Require Import Prelude Util MetaFlow MetaFields Packet PacketProps MfCtx ExtractFields Conntrack Csum Crc32c PacketSet.
From S2P Require Import PacketOffload PacketBytes PacketLayout PacketKeep PacketIp4 PacketPorts PacketPrepare.
From stdpp Require Import prelude list.
From Stdlib Require Import ZArith Lia.
Open Scope Z_scope.
Open Scope ovs_scope.

Section Sctp.
Context (dl_type nw_proto : Z) (nh l4 : nat).

(** The CRC that the packet should have. *)
Definition sctp_crc (b : dp_packet) : Z := crc32c (bytes_at (dp_data (store b (l4 + 8) (be_bytes 4 0))) l4 (l4_len b)).

Lemma sctp_checksum_valid_eq (b : dp_packet) :
  layout dl_type nw_proto b nh l4 -> 12 <= dp_packet_l4_size b ->
  sctp_checksum_valid b l4 (dp_packet_l4_size b) = Some (get (dp_data b) (l4 + 8) 4 =? sctp_crc b).
Proof.
  intros La Hs. pose proof (layout_l4_len _ _ _ _ _ La) as (Hl & Hl' & _). unfold sctp_checksum_valid. rewrite ld_get, option_bind_some by lia.
  rewrite wr_store, option_bind_some by lia. rewrite ldn_bytes; [done|lia|]. rewrite dp_data_store, length_patch; rewrite ?length_be_bytes; lia.
Qed.

Lemma sctp_csum_filled (b : dp_packet) :
  layout dl_type nw_proto b nh l4 -> 12 <= dp_packet_l4_size b ->
  exists b', packet_sctp_complete_csum b false = Some b' /\ sets [((l4 + 8)%nat, 4%nat)] b b' /\ layout dl_type nw_proto b' nh l4 /\
    sctp_checksum_valid b' l4 (dp_packet_l4_size b') = Some true /\ dp_packet_l4_checksum_partial b' = false /\
    dp_packet_ip_checksum_partial b' = dp_packet_ip_checksum_partial b.
Proof.
  intros La Hs. pose proof (layout_l4_len _ _ _ _ _ La) as (Hl & Hl' & H16). unfold packet_sctp_complete_csum. rewrite (layout_l4 _ _ _ _ _ La), option_bind_some.
  rewrite wr_store, option_bind_some by lia. rewrite (wrap_small 16) by (unfold in_width; lia).
  assert (length (dp_data (store b (l4 + 8) (be_bytes 4 0))) = length (dp_data b)) as N1 by (apply length_patch; rewrite length_be_bytes; lia).
  rewrite ldn_bytes, option_bind_some by lia. fold (l4_len b). fold (sctp_crc b). rewrite wr_store, option_bind_some by lia.
  rewrite store_store by (rewrite ?length_be_bytes; (done || lia)). eexists. split; [done|]. cbn [l4_checksum_set_good].
  assert (in_width 32 (sctp_crc b)) as Wc by (by apply wrap_width). pose proof (sets_wr b (l4 + 8) 4 (sctp_crc b) ltac:(lia)) as S1.
  set (b1 := store b (l4 + 8) (be_bytes 4 (sctp_crc b))) in *. destruct (l4_set_good b1) as (P1 & P2 & P3 & P4). pose proof (sets_trans _ _ _ _ _ S1 P4) as S. cbn [app] in S.
  destruct (sets_behind _ _ _ _ _ _ _ La S) as (La' & _); [ranges|]. destruct (sets_layers _ _ _ S) as (_ & _ & Es & _). split_and!; [done|done| |done|done].
  rewrite sctp_checksum_valid_eq by (done || by rewrite Es). f_equal. apply Z.eqb_eq. unfold sctp_crc at 1, l4_len. rewrite dp_data_store, Es, P3.
  unfold b1. rewrite !dp_data_store, patch_patch by (rewrite ?length_be_bytes; (done || lia)). apply get_patch; [lia|exact Wc].
Qed.

Lemma lxor_eqb (a c d : Z) : (Z.lxor (Z.lxor a c) d =? d) = (a =? c).
Proof.
  destruct (Z.eqb_spec a c) as [->|Hne].
  - rewrite Z.lxor_nilpotent, Z.lxor_0_l. apply Z.eqb_refl.
  - apply Z.eqb_neq. intros E. apply Hne, Z.lxor_eq. apply (f_equal (fun z => Z.lxor z d)) in E. by rewrite Z.lxor_assoc, Z.lxor_nilpotent, Z.lxor_0_r in E.
Qed.

Definition sctp_ranges : list (nat * nat) := [((l4 + 8)%nat, 4%nat); (l4, 2%nat); ((l4 + 2)%nat, 2%nat); ((l4 + 8)%nat, 4%nat)].

Lemma set_sctp_port_keeps (b : dp_packet) (src dst : Z) :
  layout dl_type nw_proto b nh l4 -> 12 <= dp_packet_l4_size b -> in_width 16 src -> in_width 16 dst -> dp_packet_l4_checksum_valid b = false ->
  exists b', packet_set_sctp_port b src dst = Some b' /\ sets sctp_ranges b b' /\ layout dl_type nw_proto b' nh l4 /\
    sctp_checksum_valid b' l4 (dp_packet_l4_size b') = sctp_checksum_valid b l4 (dp_packet_l4_size b) /\
    get (dp_data b') l4 2 = src /\ get (dp_data b') (l4 + 2) 2 = dst.
Proof.
  intros La Hs Hsrc Hdst Hv. pose proof (layout_l4_len _ _ _ _ _ La) as (Hl & Hl' & H16). unfold packet_set_sctp_port. rewrite (layout_l4 _ _ _ _ _ La), option_bind_some, Hv.
  rewrite (ld_get b (l4 + 8) 4), option_bind_some by lia. rewrite wr_store, option_bind_some by lia. rewrite (wrap_small 16) by (unfold in_width; lia).
  pose proof (sets_wr b (l4 + 8) 4 0 ltac:(lia)) as S1. set (b1 := store b (l4 + 8) (be_bytes 4 0)) in *. pose proof (sets_length _ _ _ S1) as N1.
  rewrite (ldn_bytes b1), option_bind_some by lia. rewrite wr_store, option_bind_some by lia. pose proof (sets_wr b1 l4 2 src ltac:(lia)) as S2. set (b2 := store b1 l4 (be_bytes 2 src)) in *.
  pose proof (sets_length _ _ _ S2) as N2. rewrite wr_store, option_bind_some by lia. pose proof (sets_wr b2 (l4 + 2) 2 dst ltac:(lia)) as S3. set (b3 := store b2 (l4 + 2) (be_bytes 2 dst)) in *.
  pose proof (sets_length _ _ _ S3) as N3. rewrite ldn_bytes, option_bind_some by lia. fold (l4_len b). set (new := crc32c (bytes_at (dp_data b3) l4 (l4_len b))).
  change (crc32c (bytes_at (dp_data b1) l4 (l4_len b))) with (sctp_crc b). set (x := Z.lxor (Z.lxor (get (dp_data b) (l4 + 8) 4) (sctp_crc b)) new).
  rewrite wr_store by lia. pose proof (sets_wr b3 (l4 + 8) 4 x ltac:(lia)) as S4. set (b4 := store b3 (l4 + 8) (be_bytes 4 x)) in *.
  pose proof (sets_trans _ _ _ _ _ S1 (sets_trans _ _ _ _ _ S2 (sets_trans _ _ _ _ _ S3 S4))) as S. cbn [app] in S.
  destruct (sets_behind _ _ _ _ _ _ _ La S) as (La' & _); [ranges|]. destruct (sets_layers _ _ _ S) as (_ & _ & Es & _). exists b4.
  assert (in_width 32 x) as Wx.
  { apply in_width_lxor; [done|apply in_width_lxor; [done|by apply (get_width' _ _ _ _ _ La)|by apply wrap_width]|by apply wrap_width]. }
  assert (get (dp_data b3) (l4 + 8) 4 = 0) as G0.
  { rewrite (sets_get _ _ _ _ _ S3), (sets_get _ _ _ _ _ S2) by ranges. apply get_patch; (done || lia). }
  assert (Forall is_byte (dp_data b3)) as Hb3 by (apply (st_bytes _ _ _ S3), (st_bytes _ _ _ S2), (st_bytes _ _ _ S1), La).
  assert (sctp_crc b4 = new) as Ec.
  { unfold sctp_crc, l4_len. rewrite Es. unfold b4. rewrite store_store, dp_data_store by (rewrite ?length_be_bytes; (done || lia)). rewrite <- G0 at 1. by rewrite patch_same by (done || lia). }
  split_and!; [done|done|done| | |].
  - rewrite !sctp_checksum_valid_eq by (done || by rewrite Es). f_equal. rewrite Ec. unfold b4. rewrite dp_data_store, get_patch by (lia || exact Wx). apply lxor_eqb.
  - rewrite (sets_get _ _ _ _ _ S4), (sets_get _ _ _ _ _ S3) by ranges. apply get_patch; (done || lia).
  - rewrite (sets_get _ _ _ _ _ S4) by ranges. apply get_patch; (done || lia).
Qed.
End Sctp.
