(* ===== verification/PacketPush.v ===== *)
(** * Pushing and popping headers

    lib/packets.c and lib/dp-packet.c: VLAN headers, MPLS labels and Ethernet
    headers.  Bytes that are prepended to a packet are not initialised: [fresh n]
    are [n] bytes with any contents. *)

From S2P Require Import Prelude Util MetaFlow MetaFields Packet PacketProps MfCtx ExtractFields Conntrack Csum Crc32c PacketSet.
From S2P Require Import PacketBytes PacketLayout.
From stdpp Require Import prelude list.
From coqutil Require Import Datatypes.RecordSetters.
From Stdlib Require Import ZArith Lia.
Import DoubleBraceUpdate.
Open Scope Z_scope.
Open Scope ovs_scope.

(** ** The size of the packet *)

Section Push.
Context (fresh : nat -> list Z).

Definition dp_packet_adjust_layer_offset (offset increment : Z) : Z := if offset =? UINT16_MAX then offset else u16 (offset + increment).

Definition dp_packet_push_uninit (b : dp_packet) (size : nat) : dp_packet := b {{ dp_data := fresh size ++ dp_data b }}.

Definition dp_packet_pull (b : dp_packet) (size : nat) : option dp_packet :=
  _ ← ovs_assert (Z.of_nat size <=? u32 (Z.of_nat (length (dp_data b)) - dp_l2_pad_size b));
  Some (b {{ dp_data := drop size (dp_data b) }}).

Definition dp_packet_resize_l2_5 (b : dp_packet) (increment : Z) : option dp_packet :=
  b ← (if 0 <=? increment then Some (dp_packet_push_uninit b (Z.to_nat increment)) else dp_packet_pull b (Z.to_nat (- increment)));
  Some (b {{ dp_l3_ofs := dp_packet_adjust_layer_offset (dp_l3_ofs b) increment }}
          {{ dp_l4_ofs := dp_packet_adjust_layer_offset (dp_l4_ofs b) increment }}
          {{ dp_inner_l3_ofs := dp_packet_adjust_layer_offset (dp_inner_l3_ofs b) increment }}
          {{ dp_inner_l4_ofs := dp_packet_adjust_layer_offset (dp_inner_l4_ofs b) increment }}).

Definition dp_packet_resize_l2 (b : dp_packet) (increment : Z) : option dp_packet :=
  b ← dp_packet_resize_l2_5 b increment;
  Some (b {{ dp_l2_5_ofs := dp_packet_adjust_layer_offset (dp_l2_5_ofs b) increment }}).

(** [memmove] inside of the packet *)
Definition move (b : dp_packet) (dst src n : nat) : option dp_packet :=
  bs ← rd_bytes (dp_data b) src n;
  if (dst + n <=? length (dp_data b))%nat then Some (b {{ dp_data := patch (dp_data b) dst bs }}) else None.

Definition dp_packet_eth (b : dp_packet) : bool := dp_packet_is_eth b && negb (dp_l3_ofs b =? UINT16_MAX).

(** ** VLAN *)

Definition VLAN_HEADER_LEN : Z := 4.
Definition VLAN_ETH_HEADER_LEN : nat := 18.

Definition eth_push_vlan (b : dp_packet) (tpid tci : Z) : option dp_packet :=
  b ← dp_packet_resize_l2 b VLAN_HEADER_LEN;
  b ← move b 0 4 (2 * ETH_ADDR_LEN);
  b ← wr b 12 2 tpid;
  wr b 14 2 (Z.land tci (u16 (Z.lnot VLAN_CFI))).

Definition eth_pop_vlan (b : dp_packet) : option dp_packet :=
  if dp_packet_eth b && (VLAN_ETH_HEADER_LEN <=? length (dp_data b))%nat then
    veth_type ← ld b 12 2;
    if eth_type_vlan veth_type then
      b ← move b 4 0 (2 * ETH_ADDR_LEN);
      dp_packet_resize_l2 b (- VLAN_HEADER_LEN)
    else Some b
  else Some b.

(** ** Ethernet *)

Definition push_eth (b : dp_packet) (dst src : Z) : option dp_packet :=
  _ ← ovs_assert (negb (dp_packet_is_eth b));
  b ← dp_packet_resize_l2 b (Z.of_nat ETH_HEADER_LEN);
  b ← wr b 0 6 dst;
  b ← wr b 6 6 src;
  b ← wr b 12 2 (u16 (dp_packet_type b));
  Some (b {{ dp_packet_type := PT_ETH }}).

Definition PACKET_TYPE (ns ns_type : Z) : Z := u32 (Z.lor (Z.shiftl ns 16) ns_type).

Definition pop_eth (b : dp_packet) : option dp_packet :=
  _ ← ovs_assert (dp_packet_is_eth b);
  l3 ← dp_packet_l3 b;
  let '(increment, o) :=
    match dp_packet_l2_5 b with Some l2_5 => (dp_l2_5_ofs b, l2_5) | None => (dp_l3_ofs b, l3) end in
  ethertype ← (if (2 <=? o)%nat then ld b (o - 2) 2 else None);
  b ← dp_packet_resize_l2 b (- increment);
  Some (b {{ dp_packet_type := PACKET_TYPE OFPHTN_ETHERTYPE ethertype }}).

(** ** MPLS *)

Definition MPLS_HLEN : Z := 4.
Definition ETH_TYPE_TEB : Z := 0x6558.

Definition set_ethertype (b : dp_packet) (eth_type : Z) : option dp_packet :=
  if dp_packet_eth b then
    old ← ld b 12 2;
    if eth_type_vlan old then
      o ← match dp_packet_l2_5 b with Some l2_5 => Some l2_5 | None => dp_packet_l3 b end;
      if (2 <=? o)%nat then wr b (o - 2) 2 eth_type else None
    else wr b 12 2 eth_type
  else Some b.

Definition is_mpls (b : dp_packet) : bool := negb (dp_l2_5_ofs b =? UINT16_MAX).

Definition set_mpls_lse_values (ttl tc bos label : Z) : Z :=
  set_mpls_lse_label (set_mpls_lse_bos (set_mpls_lse_tc (set_mpls_lse_ttl 0 ttl) tc) bos) label.

Definition set_mpls_lse (b : dp_packet) (mpls_lse : Z) : option dp_packet :=
  if is_mpls b then mh ← dp_packet_l2_5 b; wr b mh 4 mpls_lse else Some b.

(** The part that [push_mpls] and [add_mpls] share. *)
Definition push_mpls_header (b : dp_packet) (ethtype lse : Z) : option dp_packet :=
  let b := if negb (is_mpls b) then b {{ dp_l2_5_ofs := dp_l3_ofs b }} else b in
  b ← set_ethertype b ethtype;
  let len := Z.to_nat (dp_l2_5_ofs b) in
  b ← dp_packet_resize_l2_5 b MPLS_HLEN;
  b ← move b 0 4 len;
  wr b len 4 lse.

Definition push_mpls (b : dp_packet) (ethtype lse : Z) : option dp_packet :=
  if negb (eth_type_mpls ethtype) then Some b else push_mpls_header b ethtype lse.

Definition add_mpls (b : dp_packet) (ethtype lse : Z) (l3_encap : bool) : option dp_packet :=
  if negb (eth_type_mpls ethtype) then Some b
  else if negb l3_encap then
    b ← dp_packet_resize_l2 b MPLS_HLEN;
    b ← wr b 0 4 lse;
    Some (b {{ dp_l2_5_ofs := 0 }} {{ dp_packet_type := PACKET_TYPE OFPHTN_ETHERTYPE ethtype }})
  else push_mpls_header b ethtype lse.

Definition dp_packet_reset_offload (b : dp_packet) : dp_packet := b {{ dp_has_hash := false }} {{ dp_offloads := 0 }}.

Definition pop_mpls (b : dp_packet) (ethtype : Z) : option dp_packet :=
  if is_mpls b then
    mh ← dp_packet_l2_5 b;
    let len := Z.to_nat (dp_l2_5_ofs b) in
    b ← set_ethertype b ethtype;
    lse ← ld b mh 4;
    let b := if negb (Z.land lse MPLS_BOS_MASK =? 0) then b {{ dp_l2_5_ofs := UINT16_MAX }} else b in
    b ← move b 4 0 len;
    b ← dp_packet_resize_l2_5 b (- MPLS_HLEN);
    let b := dp_packet_reset_offload b in
    Some (if (len =? 0)%nat then
            if ethtype =? ETH_TYPE_TEB then b {{ dp_packet_type := PT_ETH }}
            else b {{ dp_packet_type := PACKET_TYPE OFPHTN_ETHERTYPE ethtype }}
          else b)
  else Some b.
End Push.

(** ** Bytes that are inserted and removed *)

Lemma patch_append (p : list Z) (o : nat) (a b : list Z) :
  (o + length a + length b <= length p)%nat -> patch (patch p o a) (o + length a) b = patch p o (a ++ b).
Proof.
  intros H. unfold patch at 1 3. rewrite length_app. unfold patch.
  rewrite !(app_assoc (take o p) a), take_app_length', drop_app_add' by (rewrite length_app, length_take; lia).
  by rewrite drop_drop, Nat.add_assoc, <- !app_assoc.
Qed.

Lemma insert_bytes (f d h : list Z) (n : nat) :
  length f = length h -> (n <= length d)%nat -> patch (patch (f ++ d) 0 (take n d)) n h = take n d ++ h ++ drop n d.
Proof.
  intros Hf Hn. assert (length (take n d) = n) as Hl by (rewrite length_take; lia).
  pose proof (patch_append (f ++ d) 0 (take n d) h) as E. rewrite Hl in E. cbn [Nat.add] in E. rewrite E by (rewrite length_app; lia).
  unfold patch. rewrite length_app, Hl, take_0, app_nil_l, <- app_assoc. do 2 f_equal. rewrite (Nat.add_comm 0), Nat.add_0_r, (Nat.add_comm n), <- Hf. by apply drop_app_add'.
Qed.

Lemma remove_bytes (a h r : list Z) : drop (length h) (patch (a ++ h ++ r) (length h) a) = a ++ r.
Proof.
  unfold patch. rewrite drop_app_length' by (rewrite length_take, !length_app; lia). f_equal.
  rewrite (app_assoc a h r), drop_app_length'; [done|]. rewrite length_app. lia.
Qed.

(** An offset that is not set, or far enough from the limit. *)
Definition offset_ok (o : Z) : Prop := o = UINT16_MAX \/ 0 <= o < UINT16_MAX - 4.

Lemma adjust_back (o : Z) : offset_ok o -> dp_packet_adjust_layer_offset (dp_packet_adjust_layer_offset o 4) (- 4) = o.
Proof.
  unfold offset_ok, dp_packet_adjust_layer_offset, UINT16_MAX. intros [->|Ho]; [done|]. destruct (Z.eqb_spec o 65535); [lia|].
  rewrite (wrap_small 16 (o + 4)) by (unfold in_width; lia). destruct (Z.eqb_spec (o + 4) 65535); [lia|].
  replace (o + 4 + - 4) with o by lia. apply (wrap_small 16). unfold in_width. lia.
Qed.

Lemma adjust_set (o : Z) : 0 <= o < UINT16_MAX - 4 -> dp_packet_adjust_layer_offset o 4 = o + 4.
Proof.
  unfold dp_packet_adjust_layer_offset, UINT16_MAX. intros Ho. destruct (Z.eqb_spec o 65535); [lia|]. apply (wrap_small 16). unfold in_width. lia.
Qed.

(** A packet with all of its offsets in range. *)
Record resizable (b : dp_packet) : Prop := {
  rz_l2_5 : offset_ok (dp_l2_5_ofs b);
  rz_l3 : offset_ok (dp_l3_ofs b);
  rz_l4 : offset_ok (dp_l4_ofs b);
  rz_inner_l3 : offset_ok (dp_inner_l3_ofs b);
  rz_inner_l4 : offset_ok (dp_inner_l4_ofs b);
  rz_pad : 0 <= dp_l2_pad_size b <= Z.of_nat (length (dp_data b));
  rz_size : Z.of_nat (length (dp_data b)) < 2 ^ 31
}.

Lemma pull_some (b : dp_packet) (d : list Z) (n : nat) :
  0 <= dp_l2_pad_size b <= Z.of_nat (length d) -> length (dp_data b) = (length d + n)%nat -> Z.of_nat (length d + n) < 2 ^ 32 ->
  dp_packet_pull b n = Some (b {{ dp_data := drop n (dp_data b) }}).
Proof.
  intros Hp Hl Hs. unfold dp_packet_pull, ovs_assert. rewrite Hl, (wrap_small 32) by (unfold in_width; lia).
  by destruct (Z.leb_spec (Z.of_nat n) (Z.of_nat (length d + n) - dp_l2_pad_size b)); [|lia].
Qed.

(** [b] with the bytes [h] after the first [n] and the layers [l2_5] and later moved. *)
Definition inserted (b : dp_packet) (n : nat) (h : list Z) (l2_5 : Z) : dp_packet :=
  DpPacket (take n (dp_data b) ++ h ++ drop n (dp_data b)) (dp_packet_type b) (dp_md b) (dp_offloads b) (dp_has_hash b) (dp_rss_hash b)
    (dp_l2_pad_size b) l2_5 (dp_packet_adjust_layer_offset (dp_l3_ofs b) 4) (dp_packet_adjust_layer_offset (dp_l4_ofs b) 4)
    (dp_packet_adjust_layer_offset (dp_inner_l3_ofs b) 4) (dp_packet_adjust_layer_offset (dp_inner_l4_ofs b) 4).

Lemma move_some (b : dp_packet) (dst src n : nat) :
  (src + n <= length (dp_data b))%nat -> (dst + n <= length (dp_data b))%nat -> move b dst src n = Some (store b dst (bytes_at (dp_data b) src n)).
Proof.
  intros H1 H2. unfold move. rewrite rd_bytes_some by done. cbn [mbind option_bind]. by destruct (Nat.leb_spec (dst + n) (length (dp_data b))); [|lia].
Qed.

Lemma store3 (b : dp_packet) (o p q : nat) (x y z : list Z) :
  store (store (store b o x) p y) q z = b {{ dp_data := patch (patch (patch (dp_data b) o x) p y) q z }}.
Proof. by destruct b. Qed.

Section Vlan.
Context (fresh : nat -> list Z) (Hfresh : forall n, length (fresh n) = n).

Lemma push_vlan_inserted (b : dp_packet) (tpid tci : Z) :
  (12 <= length (dp_data b))%nat ->
  eth_push_vlan fresh b tpid tci =
  Some (inserted b 12 (be_bytes 2 tpid ++ be_bytes 2 (Z.land tci 0xefff)) (dp_packet_adjust_layer_offset (dp_l2_5_ofs b) 4)).
Proof.
  intros Hl. pose proof (Hfresh 4) as Hf. unfold eth_push_vlan, dp_packet_resize_l2, dp_packet_resize_l2_5, VLAN_HEADER_LEN. change (0 <=? 4) with true. cbv iota.
  rewrite !option_bind_some. change (Z.to_nat 4) with 4%nat. set (b1 := _ {{ dp_l2_5_ofs := _ }}). assert (dp_data b1 = fresh 4%nat ++ dp_data b) as E1 by done.
  rewrite move_some by (rewrite E1, length_app; unfold ETH_ADDR_LEN; lia). rewrite option_bind_some. change (2 * ETH_ADDR_LEN)%nat with 12%nat.
  assert (bytes_at (dp_data b1) 4 12 = take 12 (dp_data b)) as E2 by (unfold bytes_at; rewrite E1, drop_app_length' by done; done).
  assert (length (dp_data (store b1 0 (bytes_at (dp_data b1) 4 12))) = (4 + length (dp_data b))%nat) as N2.
  { rewrite dp_data_store, E2, E1, length_patch; rewrite ?length_take, length_app; lia. }
  rewrite wr_store, option_bind_some by lia. rewrite wr_store by (rewrite dp_data_store, length_patch; rewrite ?length_be_bytes; lia).
  change (u16 (Z.lnot VLAN_CFI)) with 0xefff. f_equal. set (h1 := be_bytes 2 tpid). set (h2 := be_bytes 2 (Z.land tci 0xefff)).
  assert (patch (patch (patch (dp_data b1) 0 (bytes_at (dp_data b1) 4 12)) 12 h1) 14 h2 = take 12 (dp_data b) ++ (h1 ++ h2) ++ drop 12 (dp_data b)) as Ed.
  { pose proof (patch_append (patch (dp_data b1) 0 (bytes_at (dp_data b1) 4 12)) 12 h1 h2) as Hp. unfold h1, h2 in Hp. rewrite !length_be_bytes in Hp. fold h1 h2 in Hp.
    rewrite dp_data_store in N2. cbn [Nat.add] in Hp. rewrite Hp by lia. rewrite E2, E1. apply insert_bytes; [rewrite Hf, length_app; unfold h1, h2; by rewrite !length_be_bytes|done]. }
  rewrite store3, Ed. unfold inserted, b1. by destruct b.
Qed.
(** The inverse of [inserted]. *)
Lemma removed (b : dp_packet) (n : nat) (h : list Z) (l2_5 : Z) :
  resizable b -> length h = 4%nat -> (n <= length (dp_data b))%nat ->
  exists b1, (b ← move (inserted b n h l2_5) 4 0 n; dp_packet_resize_l2_5 fresh b (- 4)) = Some b1 /\ b1 = b {{ dp_l2_5_ofs := l2_5 }}.
Proof.
  intros Hr Hh Hn. set (b' := inserted b n h l2_5). assert (dp_data b' = take n (dp_data b) ++ h ++ drop n (dp_data b)) as E by done.
  assert (length (dp_data b') = (length (dp_data b) + 4)%nat) as Hl by (rewrite E, !length_app, length_take, length_drop; lia).
  rewrite move_some, option_bind_some by lia.
  assert (bytes_at (dp_data b') 0 n = take n (dp_data b)) as Eb by (unfold bytes_at; rewrite E, drop_0, take_app_length'; [done|rewrite length_take; lia]).
  rewrite Eb. set (b2 := store b' 4 (take n (dp_data b))). unfold dp_packet_resize_l2_5. change (0 <=? -4) with false. cbv iota. change (Z.to_nat (- (-4))) with 4%nat.
  assert (dp_l2_pad_size b2 = dp_l2_pad_size b) as Ep by done. destruct Hr as [R1 R2 R3 R4 R5 R6 R7].
  rewrite (pull_some b2 (dp_data b)), option_bind_some; [|by rewrite Ep| |lia].
  2:{ unfold b2. rewrite dp_data_store, length_patch; rewrite ?length_take; lia. }
  eexists. split; [done|]. assert (drop 4 (dp_data b2) = dp_data b) as Ed.
  { unfold b2. rewrite dp_data_store, E, <- Hh, remove_bytes. apply take_drop. }
  rewrite Ed. unfold b2, b', store, inserted. destruct b. cbn in *. by rewrite !adjust_back by done.
Qed.

Lemma inserted_eth (b : dp_packet) (n : nat) (h : list Z) (l : Z) : resizable b -> dp_packet_eth b = true -> dp_packet_eth (inserted b n h l) = true.
Proof.
  intros Hr He. unfold dp_packet_eth in *. apply andb_prop in He as [He H3]. change (dp_packet_is_eth (inserted b n h l)) with (dp_packet_is_eth b). rewrite He.
  cbn [inserted dp_l3_ofs andb]. destruct (rz_l3 _ Hr) as [E|E]; [by rewrite E in H3|].
  rewrite adjust_set by done. by destruct (Z.eqb_spec (dp_l3_ofs b + 4) UINT16_MAX); [lia|].
Qed.

Lemma vlan_push_pop (b : dp_packet) (tpid tci : Z) :
  resizable b -> dp_packet_eth b = true -> (14 <= length (dp_data b))%nat -> eth_type_vlan tpid = true -> in_width 16 tpid ->
  exists b', eth_push_vlan fresh b tpid tci = Some b' /\ eth_pop_vlan fresh b' = Some b.
Proof.
  intros Hr He Hl Ht Hw. rewrite push_vlan_inserted by lia. eexists. split; [done|]. set (h := be_bytes 2 tpid ++ _). set (l := dp_packet_adjust_layer_offset _ _).
  assert (length h = 4%nat) as Hh by done. unfold eth_pop_vlan.
  rewrite (inserted_eth b 12 h l Hr He). assert (dp_data (inserted b 12 h l) = take 12 (dp_data b) ++ h ++ drop 12 (dp_data b)) as E by done.
  assert (length (dp_data (inserted b 12 h l)) = (length (dp_data b) + 4)%nat) as Hl' by (rewrite E, !length_app, length_take, length_drop; lia).
  destruct (Nat.leb_spec VLAN_ETH_HEADER_LEN (length (dp_data (inserted b 12 h l)))) as [_|Hc]; [|unfold VLAN_ETH_HEADER_LEN in Hc; lia]. cbn [andb].
  rewrite ld_get, option_bind_some by lia.
  assert (get (dp_data (inserted b 12 h l)) 12 2 = tpid) as ->.
  { rewrite E. unfold get. rewrite drop_app_length' by (rewrite length_take; lia). unfold h. rewrite <- app_assoc.
    pose proof (get_be_bytes 2 tpid (be_bytes 2 (Z.land tci 61439) ++ drop 12 (dp_data b)) Hw) as G. unfold get in G. by rewrite drop_0 in G. }
  rewrite Ht. change (2 * ETH_ADDR_LEN)%nat with 12%nat. unfold dp_packet_resize_l2, VLAN_HEADER_LEN. change (- (4)) with (-4).
  destruct (removed b 12 h l Hr Hh) as (b1 & E1 & ->); [lia|]. rewrite (bind_some _ _ _ _ E1). f_equal. unfold l.
  assert (forall x, dp_l2_5_ofs (b {{ dp_l2_5_ofs := x }}) = x) as -> by done. rewrite adjust_back by apply Hr. by destruct b.
Qed.
End Vlan.

(** ** Labels *)

Section Mpls.
Context (fresh : nat -> list Z) (Hfresh : forall n, length (fresh n) = n).

(** Where the labels start, and the Ethernet type in front of them. *)
Definition label_ofs (b : dp_packet) : nat := Z.to_nat (if is_mpls b then dp_l2_5_ofs b else dp_l3_ofs b).
Definition ethertype_ofs (b : dp_packet) : nat := if eth_type_vlan (get (dp_data b) 12 2) then (label_ofs b - 2)%nat else 12%nat.

(** An Ethernet packet that can take another label. *)
Record labelled (b : dp_packet) : Prop := {
  lb_resizable : resizable b;
  lb_bytes : Forall is_byte (dp_data b);
  lb_eth : dp_packet_eth b = true;
  lb_set : 0 <= (if is_mpls b then dp_l2_5_ofs b else dp_l3_ofs b) < UINT16_MAX - 4;
  lb_label : (label_ofs b <= length (dp_data b))%nat;
  lb_header : ((if eth_type_vlan (get (dp_data b) 12 2) then 18 else 14) <= label_ofs b)%nat
}.

Lemma ethertype_ofs_bounds (b : dp_packet) : labelled b -> (12 <= ethertype_ofs b /\ ethertype_ofs b + 2 <= label_ofs b)%nat /\
  (eth_type_vlan (get (dp_data b) 12 2) = true -> 14 <= ethertype_ofs b)%nat /\ (14 <= label_ofs b)%nat.
Proof. intros H. pose proof (lb_header _ H) as Hh. unfold ethertype_ofs. destruct (eth_type_vlan _); split_and!; lia || done. Qed.

(** [set_ethertype] on a packet whose labels start at [o]. *)
Lemma set_ethertype_store (b : dp_packet) (o t : Z) :
  dp_packet_eth b = true -> dp_l2_5_ofs b = o -> 0 <= o < UINT16_MAX -> (14 <= Z.to_nat o)%nat -> (Z.to_nat o <= length (dp_data b))%nat ->
  set_ethertype b t = Some (store b (if eth_type_vlan (get (dp_data b) 12 2) then Z.to_nat o - 2 else 12)%nat (be_bytes 2 t)).
Proof.
  intros He Ho Hr H14 Hl. unfold set_ethertype. rewrite He, ld_get, option_bind_some by lia. unfold dp_packet_l2_5. rewrite Ho.
  destruct (Z.eqb_spec o UINT16_MAX); [lia|]. destruct (eth_type_vlan _).
  - rewrite option_bind_some. destruct (Nat.leb_spec 2 (Z.to_nat o)); [|lia]. apply wr_store. lia.
  - apply wr_store. lia.
Qed.

Lemma push_header (b : dp_packet) (n : nat) (h : Z) :
  (n <= length (dp_data b))%nat ->
  (b ← dp_packet_resize_l2_5 fresh b MPLS_HLEN; b ← move b 0 4 n; wr b n 4 h) = Some (inserted b n (be_bytes 4 h) (dp_l2_5_ofs b)).
Proof.
  intros Hn. pose proof (Hfresh 4) as Hf. unfold dp_packet_resize_l2_5, MPLS_HLEN. change (0 <=? 4) with true. cbv iota. rewrite !option_bind_some. change (Z.to_nat 4) with 4%nat.
  set (b1 := _ {{ dp_inner_l4_ofs := _ }}). assert (dp_data b1 = fresh 4%nat ++ dp_data b) as E1 by done.
  rewrite move_some by (rewrite E1, length_app; lia). rewrite option_bind_some.
  assert (bytes_at (dp_data b1) 4 n = take n (dp_data b)) as E2 by (unfold bytes_at; rewrite E1, drop_app_length' by done; done).
  rewrite wr_store by (rewrite dp_data_store, length_patch, E1, length_app; rewrite ?E2, ?length_take, ?E1, ?length_app; lia). f_equal.
  assert (patch (patch (dp_data b1) 0 (bytes_at (dp_data b1) 4 n)) n (be_bytes 4 h) = take n (dp_data b) ++ be_bytes 4 h ++ drop n (dp_data b)) as Ed.
  { rewrite E2, E1. apply insert_bytes; [by rewrite Hf, length_be_bytes|done]. }
  assert (store (store b1 0 (bytes_at (dp_data b1) 4 n)) n (be_bytes 4 h) = b1 {{ dp_data := patch (patch (dp_data b1) 0 (bytes_at (dp_data b1) 4 n)) n (be_bytes 4 h) }}) as -> by (by destruct b).
  rewrite Ed. unfold inserted, b1. by destruct b.
Qed.

(** A store in front of what is inserted. *)
Lemma store_inserted (b : dp_packet) (n o : nat) (h bs : list Z) (l : Z) :
  (o + length bs <= n)%nat -> (n <= length (dp_data b))%nat -> store (inserted b n h l) o bs = inserted (store b o bs) n h l.
Proof.
  intros Ho Hn. assert (patch (take n (dp_data b) ++ h ++ drop n (dp_data b)) o bs = take n (patch (dp_data b) o bs) ++ h ++ drop n (patch (dp_data b) o bs)) as E.
  { assert (patch (dp_data b) o bs = patch (take n (dp_data b)) o bs ++ drop n (dp_data b)) as ->.
    { unfold patch. rewrite take_take, Nat.min_l by lia. rewrite <- !app_assoc. do 2 f_equal. rewrite <- (take_drop n (dp_data b)) at 1.
      rewrite drop_app_le by (rewrite length_take; lia). done. }
    assert (length (patch (take n (dp_data b)) o bs) = n) as Hl by (rewrite length_patch; rewrite length_take; lia).
    rewrite take_app_length', drop_app_length' by done. unfold patch.
    rewrite take_app_le, drop_app_le by (rewrite length_take; lia). by rewrite <- !app_assoc. }
  unfold store. cbn [inserted dp_data]. rewrite E. unfold inserted. by destruct b.
Qed.
Lemma get_inserted (b : dp_packet) (n o k : nat) (h : list Z) (l : Z) :
  (o + k <= n)%nat -> (n <= length (dp_data b))%nat -> get (dp_data (inserted b n h l)) o k = get (dp_data b) o k.
Proof.
  intros Ho Hn. cbn [inserted dp_data]. unfold get. apply be_ext. intros i Hi. rewrite !nth_lookup, !lookup_drop.
  rewrite lookup_app_l by (rewrite length_take; lia). by rewrite lookup_take_lt by lia.
Qed.

Lemma get_inserted_at (b : dp_packet) (n : nat) (x l : Z) :
  (n <= length (dp_data b))%nat -> in_width 32 x -> get (dp_data (inserted b n (be_bytes 4 x) l)) n 4 = x.
Proof.
  intros Hn Hx. cbn [inserted dp_data]. rewrite <- (Nat.add_0_r n) at 3. rewrite get_skip by (rewrite length_take; lia). by apply get_be_bytes.
Qed.

(** [b] with its labels at [label_ofs b]. *)
Definition relabelled (b : dp_packet) : dp_packet := b {{ dp_l2_5_ofs := if is_mpls b then dp_l2_5_ofs b else dp_l3_ofs b }}.

Lemma push_mpls_inserted (b : dp_packet) (ethtype lse : Z) :
  labelled b -> eth_type_mpls ethtype = true ->
  push_mpls fresh b ethtype lse =
  Some (inserted (store (relabelled b) (ethertype_ofs b) (be_bytes 2 ethtype)) (label_ofs b) (be_bytes 4 lse) (dp_l2_5_ofs (relabelled b))).
Proof.
  intros Hb Ht. destruct (ethertype_ofs_bounds b Hb) as ([H1 H2] & _ & H14). destruct Hb as [_ _ He Hs Hl _]. unfold push_mpls, push_mpls_header. rewrite Ht. cbn [negb].
  assert ((if negb (is_mpls b) then b {{ dp_l2_5_ofs := dp_l3_ofs b }} else b) = relabelled b) as ->.
  { unfold relabelled. destruct (is_mpls b); cbn [negb]; by destruct b. }
  rewrite (set_ethertype_store (relabelled b) (if is_mpls b then dp_l2_5_ofs b else dp_l3_ofs b)) by (done || (unfold UINT16_MAX in *; lia)).
  rewrite option_bind_some. refine (push_header (store (relabelled b) (ethertype_ofs b) (be_bytes 2 ethtype)) (label_ofs b) lse _). rewrite dp_data_store, length_patch; rewrite ?length_be_bytes; [exact Hl|].
  change (dp_data (relabelled b)) with (dp_data b). unfold ethertype_ofs, label_ofs in *. destruct (eth_type_vlan _); lia.
Qed.

(** The Ethernet type is found at the same place again. *)
Lemma ethertype_again (b : dp_packet) (ethtype lse l : Z) :
  labelled b -> eth_type_mpls ethtype = true ->
  (if eth_type_vlan (get (dp_data (inserted (store (relabelled b) (ethertype_ofs b) (be_bytes 2 ethtype)) (label_ofs b) (be_bytes 4 lse) l)) 12 2)
   then (label_ofs b - 2)%nat else 12%nat) = ethertype_ofs b.
Proof.
  intros Hb Ht. destruct (ethertype_ofs_bounds b Hb) as ([H1 H2] & H3 & H14). pose proof (lb_label _ Hb) as Hl.
  assert (length (dp_data (store (relabelled b) (ethertype_ofs b) (be_bytes 2 ethtype))) = length (dp_data b)) as N.
  { rewrite dp_data_store, length_patch; [done|]. rewrite length_be_bytes. change (dp_data (relabelled b)) with (dp_data b). lia. }
  rewrite get_inserted by lia. pose proof (sets_wr (relabelled b) (ethertype_ofs b) 2 ethtype) as S. change (dp_data (relabelled b)) with (dp_data b) in S.
  specialize (S ltac:(lia)). unfold ethertype_ofs at 1 2. destruct (eth_type_vlan (get (dp_data b) 12 2)) eqn:Ev.
  - specialize (H3 eq_refl). unfold ethertype_ofs in S. rewrite Ev in S. unfold ethertype_ofs in H3. rewrite Ev in H3.
    rewrite (sets_get _ _ _ 12 2 S) by ranges. change (dp_data (relabelled b)) with (dp_data b). by rewrite Ev.
  - rewrite dp_data_store, get_patch by (change (dp_data (relabelled b)) with (dp_data b); unfold eth_type_mpls in Ht;
      first [lia | apply orb_prop in Ht as [->%Z.eqb_eq| ->%Z.eqb_eq]; done]).
    unfold eth_type_mpls in Ht. by apply orb_prop in Ht as [->%Z.eqb_eq| ->%Z.eqb_eq].
Qed.
(** [set_ethertype] puts back what was there. *)
Lemma set_ethertype_back (b : dp_packet) (L : Z) (n e : nat) (x h : list Z) :
  resizable b -> Forall is_byte (dp_data b) -> dp_packet_eth b = true -> 0 <= L < UINT16_MAX -> n = Z.to_nat L -> (14 <= n)%nat -> (n <= length (dp_data b))%nat ->
  length x = 2%nat -> length h = 4%nat -> (e + 2 <= n)%nat ->
  (if eth_type_vlan (get (dp_data (inserted (store b e x) n h L)) 12 2) then (n - 2)%nat else 12%nat) = e ->
  set_ethertype (inserted (store b e x) n h L) (get (dp_data b) e 2) = Some (inserted b n h L).
Proof.
  intros Hr Hb He HL -> H14 Hl Hx Hh He2 Ep. assert (length (dp_data (store b e x)) = length (dp_data b)) as N by (rewrite dp_data_store, length_patch; rewrite ?Hx; lia).
  assert (resizable (store b e x)) as Hr' by (destruct Hr as [R1 R2 R3 R4 R5 R6 R7]; split; try done; rewrite N; (exact R6 || exact R7)).
  rewrite (set_ethertype_store _ L); [|by apply inserted_eth|done|done|done|].
  2:{ cbn [inserted dp_data]. rewrite !length_app, length_take, length_drop, N. lia. }
  rewrite Ep, store_inserted by (rewrite ?length_be_bytes; lia). rewrite store_store by (rewrite ?length_be_bytes; lia).
  unfold store. rewrite patch_same by (done || lia). by destruct b.
Qed.

Lemma pop_header (b : dp_packet) (L lse : Z) (n e : nat) (x : list Z) :
  resizable b -> Forall is_byte (dp_data b) -> dp_packet_eth b = true -> 0 <= L < UINT16_MAX -> n = Z.to_nat L -> (14 <= n)%nat -> (n <= length (dp_data b))%nat ->
  length x = 2%nat -> (e + 2 <= n)%nat -> in_width 32 lse ->
  (if eth_type_vlan (get (dp_data (inserted (store b e x) n (be_bytes 4 lse) L)) 12 2) then (n - 2)%nat else 12%nat) = e ->
  pop_mpls fresh (inserted (store b e x) n (be_bytes 4 lse) L) (get (dp_data b) e 2) =
  Some (dp_packet_reset_offload (b {{ dp_l2_5_ofs := if Z.land lse MPLS_BOS_MASK =? 0 then L else UINT16_MAX }})).
Proof.
  intros Hr Hb He HL En H14 Hl Hx He2 Hw Ep. set (h := be_bytes 4 lse) in *. assert (length h = 4%nat) as Hh by apply length_be_bytes.
  unfold pop_mpls, is_mpls, dp_packet_l2_5. cbn [inserted dp_l2_5_ofs]. fold (inserted (store b e x) n h L). destruct (Z.eqb_spec L UINT16_MAX); [lia|]. cbn [negb].
  rewrite option_bind_some, <- En, (set_ethertype_back b L n e x h), option_bind_some by done.
  assert (length (dp_data (inserted b n h L)) = (length (dp_data b) + 4)%nat) as N by (cbn [inserted dp_data]; rewrite !length_app, length_take, length_drop; lia).
  rewrite ld_get, option_bind_some by lia. unfold h at 1. rewrite get_inserted_at by done. set (l := if Z.land lse MPLS_BOS_MASK =? 0 then L else UINT16_MAX).
  assert ((if negb (Z.land lse MPLS_BOS_MASK =? 0) then (inserted b n h L) {{ dp_l2_5_ofs := UINT16_MAX }} else inserted b n h L) = inserted b n h l) as ->.
  { unfold l. by destruct (_ =? 0). }
  destruct (removed fresh b n h l Hr Hh Hl) as (b1 & E1 & ->). rewrite (bind_some _ _ _ _ E1). by destruct (Nat.eqb_spec n 0); [lia|].
Qed.

Lemma mpls_push_pop (b : dp_packet) (ethtype lse : Z) :
  labelled b -> eth_type_mpls ethtype = true -> in_width 32 lse -> is_mpls b = (Z.land lse MPLS_BOS_MASK =? 0) ->
  exists b', push_mpls fresh b ethtype lse = Some b' /\
    pop_mpls fresh b' (get (dp_data b) (ethertype_ofs b) 2) = Some (dp_packet_reset_offload b).
Proof.
  intros Hb Ht Hw Hbos. rewrite push_mpls_inserted by done. eexists. split; [done|]. pose proof (ethertype_again b ethtype lse (dp_l2_5_ofs (relabelled b)) Hb Ht) as Ea.
  destruct (ethertype_ofs_bounds b Hb) as ([H1 H2] & _ & H14). pose proof Hb as [Hr Hbs He Hs Hl _].
  assert (resizable (relabelled b)) as Hr0 by (destruct Hr; split; (done || by right)).
  assert (0 <= dp_l2_5_ofs (relabelled b) < UINT16_MAX) as HL.
  { change (dp_l2_5_ofs (relabelled b)) with (if is_mpls b then dp_l2_5_ofs b else dp_l3_ofs b). unfold UINT16_MAX in *. lia. }
  change (dp_data b) with (dp_data (relabelled b)).
  rewrite pop_header by (done || exact Ea || apply length_be_bytes || exact Hl).
  f_equal. rewrite <- Hbos. unfold relabelled, is_mpls. destruct (Z.eqb_spec (dp_l2_5_ofs b) UINT16_MAX) as [E|E]; cbn [negb].
  - rewrite <- E. by destruct b.
  - by destruct b.
Qed.
End Mpls.
