(* ===== verification/PacketTheorems.v ===== *)
(** * Changed packets are right

    The functions that change packets, and what a receiver of such a packet sees. *)

From S2P Require Import Prelude Util MetaFlow MetaFields Packet PacketProps MfCtx ExtractFields Conntrack Csum Crc32c PacketSet.
From S2P Require Import PacketOffload PacketBytes PacketLayout PacketKeep PacketIp4 PacketIp6 PacketPorts PacketPrepare PacketSctp PacketPush.
From stdpp Require Import prelude list.
From coqutil Require Import Datatypes.RecordSetters.
From Stdlib Require Import ZArith Lia.
Import DoubleBraceUpdate.
Open Scope Z_scope.
Open Scope ovs_scope.

(** ** Packets *)

Lemma bytes_check (l : list Z) : forallb (fun x => (0 <=? x) && (x <? 256)) l = true -> Forall is_byte l.
Proof.
  rewrite forallb_forall, Forall_forall. intros H x Hx%list_elem_of_In. specialize (H x Hx). unfold is_byte. lia.
Qed.

Definition packet_of (data : list Z) (offloads l3 l4 : Z) : dp_packet :=
  DpPacket data PT_ETH (PktMetadata 0 0 0 0 0 false 0 0 0 1 (CtTuple 0 0 0 0 0) []) offloads false 0 0 UINT16_MAX l3 l4 UINT16_MAX UINT16_MAX.

Definition sample_tcp : list Z :=
  [2; 0; 0; 0; 0; 1; 2; 0; 0; 0; 0; 2; 8; 0] ++
  [69; 0; 0; 45; 0; 1; 64; 0; 64; 6; 38; 200; 10; 0; 0; 1; 10; 0; 0; 2] ++
  [3; 232; 0; 80; 0; 0; 0; 1; 0; 0; 0; 2; 80; 24; 2; 0; 81; 184; 0; 0; 104; 101; 108; 108; 111].

(** UDP over IPv6, after the extension headers [ext] of the type [nxt]. *)
Definition sample_udp6 (nxt : Z) (ext : list Z) : list Z :=
  [2; 0; 0; 0; 0; 1; 2; 0; 0; 0; 0; 2; 134; 221] ++
  [96; 0; 0; 0; 0; 13 + Z.of_nat (length ext); nxt; 64; 32; 1; 13; 184; 0; 0; 0; 0; 0; 0; 0; 0; 0; 0; 0; 1] ++
  [32; 1; 13; 184; 0; 0; 0; 0; 0; 0; 0; 0; 0; 0; 0; 2] ++ ext ++
  [3; 232; 0; 53; 0; 13; 92; 112; 104; 101; 108; 108; 111].

Definition options_header : list Z := [17; 0; 1; 4; 0; 0; 0; 0].

Lemma sample_tcp_layout (x : Z) : layout ETH_TYPE_IP IPPROTO_TCP (packet_of sample_tcp x 14 34) 14 34.
Proof.
  split; [by apply bytes_check|done|done|done|done| |done|done|done]. left. split_and!; [done|by vm_compute|by vm_compute|vm_compute; lia|by vm_compute].
Qed.

Lemma sample_udp6_layout (x : Z) : layout ETH_TYPE_IPV6 IPPROTO_UDP (packet_of (sample_udp6 IPPROTO_DSTOPTS options_header) x 14 62) 14 62.
Proof.
  split; [by apply bytes_check|done|done|done|done| |done|done|done]. right. split_and!; [done|by vm_compute|vm_compute; lia|by vm_compute].
Qed.

(** ** Theorems *)

(** [packet_set_ipv4] on an IPv4 packet with the right layer offsets: it returns, the addresses, the TOS and the
    TTL are the new ones, and the packet keeps its layout.  Where the header checksum was right or marked for
    later it still is, and so is the checksum of TCP or UDP as [checksum_valid] of lib/conntrack.c computes
    it.  No byte changes but for the four fields and these two checksums. *)
Theorem packet_set_ipv4_keeps_checksums (nw_proto : Z) (nh l4 : nat) (b : dp_packet) (src dst tos ttl : Z) :
  layout ETH_TYPE_IP nw_proto b nh l4 -> in_width 32 src -> in_width 32 dst -> is_byte tos -> is_byte ttl ->
  exists b', packet_set_ipv4 b src dst tos ttl = Some b' /\ layout ETH_TYPE_IP nw_proto b' nh l4 /\
    get (dp_data b') (nh + 12) 4 = src /\ get (dp_data b') (nh + 16) 4 = dst /\
    get (dp_data b') (nh + 1) 1 = tos /\ get (dp_data b') (nh + 8) 1 = ttl /\
    (ip_csum_ok b nh -> ip_csum_ok b' nh) /\
    (l4_csum_ok ETH_TYPE_IP nw_proto b nh l4 -> l4_csum_ok ETH_TYPE_IP nw_proto b' nh l4) /\
    agree (csum_range ETH_TYPE_IP nw_proto b l4 ++
           [((nh + 10)%nat, 2%nat); ((nh + 12)%nat, 4%nat); ((nh + 16)%nat, 4%nat); ((nh + 1)%nat, 1%nat); ((nh + 8)%nat, 1%nat)])
          (dp_data b) (dp_data b').
Proof.
  intros La H1 H2 H3 H4. destruct (set_ipv4_keeps nw_proto nh l4 b src dst tos ttl La H1 H2 H3 H4) as (b' & E & [S L I T] & G).
  exists b'. split; [done|]. split; [done|]. destruct G as (G1 & G2 & G3 & G4). split_and!; [done..|by apply I|done|apply S].
Qed.

Lemma packet_set_ipv4_keeps_checksums_witness :
  let b := packet_of sample_tcp 0 14 34 in
  ip_csum_ok b 14 /\ l4_csum_ok ETH_TYPE_IP IPPROTO_TCP b 14 34 /\
  exists b', packet_set_ipv4 b 0xc0a80001 0x08080808 4 63 = Some b' /\ ip_csum_ok b' 14 /\ l4_csum_ok ETH_TYPE_IP IPPROTO_TCP b' 14 34.
Proof.
  intros b. assert (ip_csum_ok b 14) as Hi by (right; by vm_compute). assert (l4_csum_ok ETH_TYPE_IP IPPROTO_TCP b 14 34) as Ht by (right; right; by vm_compute).
  destruct (packet_set_ipv4_keeps_checksums IPPROTO_TCP 14 34 b 0xc0a80001 0x08080808 4 63) as (b' & E & _ & _ & _ & _ & _ & I & T & _);
    [apply sample_tcp_layout|done|done|done|done|].
  split_and!; [done|done|]. exists b'. auto.
Defined.

(** [packet_set_ipv6] on an IPv6 packet with any extension headers in front of layer 4, but for a routing header
    that is in use and for fragments: it returns, the addresses, the traffic class, the flow label and the hop
    limit are the new ones and the version stays, and the checksum of TCP, UDP or ICMPv6 is right, or marked
    for later, if it was.  No other byte changes. *)
Theorem packet_set_ipv6_keeps_checksums (nw_proto : Z) (nh l4 : nat) (b : dp_packet) (src dst tc fl hl : Z) :
  layout ETH_TYPE_IPV6 nw_proto b nh l4 -> in_width 128 src -> in_width 128 dst -> in_width 8 tc -> in_width 20 fl -> is_byte hl ->
  exists b', packet_set_ipv6 b src dst tc fl hl = Some b' /\ layout ETH_TYPE_IPV6 nw_proto b' nh l4 /\
    get (dp_data b') (nh + 8) 16 = src /\ get (dp_data b') (nh + 24) 16 = dst /\ get (dp_data b') (nh + 7) 1 = hl /\
    Z.shiftr (get (dp_data b') nh 4) 28 = Z.shiftr (get (dp_data b) nh 4) 28 /\
    u8 (Z.shiftr (get (dp_data b') nh 4) 20) = tc /\ Z.land (get (dp_data b') nh 4) IPV6_LABEL_MASK = fl /\
    (l4_csum_ok ETH_TYPE_IPV6 nw_proto b nh l4 -> l4_csum_ok ETH_TYPE_IPV6 nw_proto b' nh l4) /\
    agree (csum_range ETH_TYPE_IPV6 nw_proto b l4 ++ [((nh + 8)%nat, 16%nat); ((nh + 24)%nat, 16%nat); (nh, 4%nat); ((nh + 7)%nat, 1%nat)])
          (dp_data b) (dp_data b').
Proof.
  intros La H1 H2 H3 H4 H5. destruct (set_ipv6_keeps nw_proto nh l4 b src dst tc fl hl La H1 H2 H3 H4 H5) as (b' & E & [S L _ T] & G1 & G2 & G3 & G4).
  destruct (flow_word_fields (get (dp_data b) nh 4) tc fl) as (_ & F1 & F2 & F3); [by apply (get_width' _ _ _ _ _ La)|done|done|].
  exists b'. rewrite G3. split; [done|]. split; [done|]. split_and!; [done..|apply S].
Qed.

Lemma packet_set_ipv6_keeps_checksums_witness :
  let b := packet_of (sample_udp6 IPPROTO_DSTOPTS options_header) 0 14 62 in
  l4_csum_ok ETH_TYPE_IPV6 IPPROTO_UDP b 14 62 /\
  exists b', packet_set_ipv6 b 0xfe800000000000000000000000000001 0xfe800000000000000000000000000002 5 7 63 = Some b' /\
    l4_csum_ok ETH_TYPE_IPV6 IPPROTO_UDP b' 14 62.
Proof.
  intros b. assert (l4_csum_ok ETH_TYPE_IPV6 IPPROTO_UDP b 14 62) as Ht by (right; right; by vm_compute).
  destruct (packet_set_ipv6_keeps_checksums IPPROTO_UDP 14 62 b 0xfe800000000000000000000000000001 0xfe800000000000000000000000000002 5 7 63)
    as (b' & E & _ & _ & _ & _ & _ & _ & _ & T & _); [apply sample_udp6_layout|done|done|done|done|done|].
  split; [done|]. exists b'. auto.
Defined.

(** The ports of TCP and UDP over IPv4 and IPv6: the functions return, the ports are the new ones, and the
    checksum is right, marked for later or not used by UDP, if it was so before; UDP never turns a checksum
    into 0, which would mean that it is not used.  For SCTP, when the checksum is not left for later, the
    packet passes [sctp_checksum_valid] of lib/conntrack.c if and only if it did. *)
Theorem packet_set_ports_keep_checksums (dl_type nw_proto : Z) (nh l4 : nat) (b : dp_packet) (src dst : Z)
    (set_ports : dp_packet -> Z -> Z -> option dp_packet) :
  layout dl_type nw_proto b nh l4 -> in_width 16 src -> in_width 16 dst ->
  nw_proto = IPPROTO_TCP /\ 20 <= dp_packet_l4_size b /\ set_ports = packet_set_tcp_port \/
  nw_proto = IPPROTO_UDP /\ 8 <= dp_packet_l4_size b /\ set_ports = packet_set_udp_port \/
  nw_proto = IPPROTO_SCTP /\ 12 <= dp_packet_l4_size b /\ set_ports = packet_set_sctp_port /\ dp_packet_l4_checksum_valid b = false ->
  exists b', set_ports b src dst = Some b' /\ layout dl_type nw_proto b' nh l4 /\
    get (dp_data b') l4 2 = src /\ get (dp_data b') (l4 + 2) 2 = dst /\
    (l4_csum_ok dl_type nw_proto b nh l4 -> l4_csum_ok dl_type nw_proto b' nh l4) /\
    (nw_proto = IPPROTO_UDP -> dp_packet_l4_checksum_valid b = false -> get (dp_data b) (l4 + 6) 2 <> 0 -> get (dp_data b') (l4 + 6) 2 <> 0) /\
    (nw_proto = IPPROTO_SCTP -> sctp_checksum_valid b' l4 (dp_packet_l4_size b') = sctp_checksum_valid b l4 (dp_packet_l4_size b)) /\
    agree (csum_range dl_type nw_proto b l4 ++ (if nw_proto =? IPPROTO_SCTP then [((l4 + 8)%nat, 4%nat)] else []) ++ [(l4, 2%nat); ((l4 + 2)%nat, 2%nat)])
          (dp_data b) (dp_data b').
Proof.
  intros La Hs Hd [(-> & Hn & ->)|[(-> & Hn & ->)|(-> & Hn & -> & Hv)]].
  - destruct (set_tcp_port_keeps dl_type nh l4 b src dst La Hn Hs Hd) as (b' & E & [S L _ T] & G1 & G2). exists b'. split; [done|]. split; [done|]. split_and!; [done..|apply S].
  - destruct (set_udp_port_keeps dl_type nh l4 b src dst La Hn Hs Hd) as (b' & E & [S L _ T] & G1 & G2). exists b'. split; [done|]. split; [done|].
    split_and!; [done|done|done| |done|apply S]. intros _ Hv H0. exact (udp_csum_not_zero dl_type nh l4 b b' src dst La Hn Hs Hd E Hv H0).
  - destruct (set_sctp_port_keeps dl_type _ nh l4 b src dst La Hn Hs Hd Hv) as (b' & E & S & L & V & G1 & G2). exists b'. split; [done|]. split; [done|].
    split_and!; [done|done| |done|done|]; [unfold l4_csum_ok; by rewrite !csum_field_sctp|].
    apply (agree_weaken (sctp_ranges l4)); [|apply S]. unfold csum_range, sctp_ranges. rewrite csum_field_sctp. cbn. intros z. rewrite !elem_of_cons. tauto.
Qed.

Lemma packet_set_ports_keep_checksums_witness :
  let b := packet_of (sample_udp6 IPPROTO_DSTOPTS options_header) 0 14 62 in
  l4_csum_ok ETH_TYPE_IPV6 IPPROTO_UDP b 14 62 /\
  exists b', packet_set_udp_port b 4000 53 = Some b' /\ get (dp_data b') 62 2 = 4000 /\ l4_csum_ok ETH_TYPE_IPV6 IPPROTO_UDP b' 14 62.
Proof.
  intros b. assert (l4_csum_ok ETH_TYPE_IPV6 IPPROTO_UDP b 14 62) as Ht by (right; right; by vm_compute). split; [done|].
  destruct (packet_set_ports_keep_checksums ETH_TYPE_IPV6 IPPROTO_UDP 14 62 b 4000 53 packet_set_udp_port) as (b' & E & _ & G & _ & T & _);
    [apply sample_udp6_layout|done|done|right; left; by split_and!|]. exists b'. auto.
Defined.

(** A TCP packet over IPv4 gets new addresses and ports, as for address translation, and is sent by a device
    that computes no checksums.  Whatever the state of its checksums, right or left for later, a receiver finds
    the header checksum and the TCP checksum of the result right, the new addresses and ports, and the old
    payload. *)
Theorem rewritten_packet_accepted (nh l4 : nat) (b : dp_packet) (src dst tos ttl sport dport : Z) :
  layout ETH_TYPE_IP IPPROTO_TCP b nh l4 -> 20 <= dp_packet_l4_size b ->
  ip_csum_ok b nh -> l4_csum_ok ETH_TYPE_IP IPPROTO_TCP b nh l4 -> dp_packet_l4_proto_tcp b = true -> dp_packet_tunnel b = false ->
  in_width 32 src -> in_width 32 dst -> is_byte tos -> is_byte ttl -> in_width 16 sport -> in_width 16 dport ->
  exists b', (b ← packet_set_ipv4 b src dst tos ttl; b ← packet_set_tcp_port b sport dport; dp_packet_ol_send_prepare b 0) = Some b' /\
    csum (bytes_at (dp_data b') nh (ip_len (dp_data b') nh)) = 0 /\
    checksum_valid b' ETH_TYPE_IP IPPROTO_TCP l4 (dp_packet_l4_size b') nh = Some true /\
    get (dp_data b') (nh + 12) 4 = src /\ get (dp_data b') (nh + 16) 4 = dst /\ get (dp_data b') l4 2 = sport /\ get (dp_data b') (l4 + 2) 2 = dport /\
    bytes_at (dp_data b') (l4 + 20) (l4_len b - 20) = bytes_at (dp_data b) (l4 + 20) (l4_len b - 20).
Proof.
  intros La Hn Hi Ht Hp Hu Hs Hd H1 H2 Hsp Hdp. pose proof (layout_header _ _ _ _ _ La) as (L1 & L2 & _).
  destruct (set_ipv4_keeps IPPROTO_TCP nh l4 b src dst tos ttl La Hs Hd H1 H2) as (b1 & -> & [S1 La1 I1 T1] & G1 & G2 & _). rewrite option_bind_some.
  destruct (sets_layers _ _ _ S1) as (_ & _ & Es1 & _). destruct (sets_protos _ _ _ S1) as (P1 & _ & _ & U1).
  destruct (set_tcp_port_keeps ETH_TYPE_IP nh l4 b1 sport dport La1) as (b2 & -> & [S2 La2 I2 T2] & G3 & G4); [by rewrite Es1|done|done|]. rewrite option_bind_some.
  destruct (sets_layers _ _ _ S2) as (_ & _ & Es2 & _). destruct (sets_protos _ _ _ S2) as (P2 & _ & _ & U2).
  destruct (send_prepare_right ETH_TYPE_IP IPPROTO_TCP b2 nh l4) as (b3 & -> & S3 & La3 & C3 & R3 & _).
  - done.
  - intros E. by exfalso.
  - auto.
  - auto.
  - intros _. split; [done|]. apply (header_inside _ _ _ _ La2). rewrite Es2, Es1. lia.
  - intros _. left. rewrite P2, P1, Es2, Es1. done.
  - congruence.
  - destruct (sets_layers _ _ _ S3) as (_ & _ & Es3 & _). exists b3. unfold ipv4_ranges in S1. unfold port_ranges in S2. unfold csum_range in S1, S2, S3.
    rewrite Es2, Es1, csum_field_tcp in S3 by done. rewrite Es1, csum_field_tcp in S2 by done. rewrite csum_field_tcp in S1 by done. cbn [app] in S1, S2, S3.
    split_and!; [done|auto|apply l4_right_tcp; [done|by rewrite Es3, Es2, Es1]|..].
    + by rewrite (sets_get _ _ _ _ _ S3), (sets_get _ _ _ _ _ S2) by ranges.
    + by rewrite (sets_get _ _ _ _ _ S3), (sets_get _ _ _ _ _ S2) by ranges.
    + by rewrite (sets_get _ _ _ _ _ S3) by ranges.
    + by rewrite (sets_get _ _ _ _ _ S3) by ranges.
    + rewrite (bytes_at_agree _ _ _ _ _ (st_agree _ _ _ S3)), (bytes_at_agree _ _ _ _ _ (st_agree _ _ _ S2)), (bytes_at_agree _ _ _ _ _ (st_agree _ _ _ S1)) by ranges. done.
Qed.

(** The packet whose two checksums are left for later. *)
Lemma rewritten_packet_accepted_witness :
  let b := packet_of (patch (patch sample_tcp 24 [0; 0]) 50 [0; 0])
             (Z.lor (Z.lor DP_PACKET_OL_IP_CKSUM_MASK DP_PACKET_OL_L4_CKSUM_MASK) DP_PACKET_OL_L4_PROTO_TCP) 14 34 in
  csum (bytes_at (dp_data b) 14 20) <> 0 /\
  exists b', (b ← packet_set_ipv4 b 0xc0a80001 0x08080808 4 63; b ← packet_set_tcp_port b 4000 443; dp_packet_ol_send_prepare b 0) = Some b' /\
    csum (bytes_at (dp_data b') 14 (ip_len (dp_data b') 14)) = 0 /\
    checksum_valid b' ETH_TYPE_IP IPPROTO_TCP 34 (dp_packet_l4_size b') 14 = Some true.
Proof.
  intros b. split; [by vm_compute|].
  destruct (rewritten_packet_accepted 14 34 b 0xc0a80001 0x08080808 4 63 4000 443) as (b' & E & C & V & _).
  - split; [by apply bytes_check|done|done|done|done| |done|done|done]. left. split_and!; [done|by vm_compute|by vm_compute|vm_compute; lia|by vm_compute].
  - by vm_compute.
  - left. by vm_compute.
  - left. by vm_compute.
  - by vm_compute.
  - by vm_compute.
  - done.
  - done.
  - done.
  - done.
  - done.
  - done.
  - exists b'. auto.
Defined.

(** Popping undoes pushing, whatever the uninitialised bytes were that the packet grew by.  A VLAN header goes
    between the addresses and the old type, with the CFI bit of its TCI cleared, and [eth_pop_vlan] gives the
    packet back.  After [push_mpls], of a last label on a packet without labels or of a further label,
    [pop_mpls] with the old Ethernet type gives the packet back but for its offload flags. *)
Theorem pop_undoes_push (fresh : nat -> list Z) (b : dp_packet) (tpid tci ethtype lse : Z) :
  (forall n, length (fresh n) = n) -> labelled b -> in_width 16 tpid -> eth_type_vlan tpid = true ->
  eth_type_mpls ethtype = true -> in_width 32 lse -> is_mpls b = (Z.land lse MPLS_BOS_MASK =? 0) ->
  (exists b', eth_push_vlan fresh b tpid tci = Some b' /\
     dp_data b' = take 12 (dp_data b) ++ be_bytes 2 tpid ++ be_bytes 2 (Z.land tci 0xefff) ++ drop 12 (dp_data b) /\ eth_pop_vlan fresh b' = Some b) /\
  (exists b', push_mpls fresh b ethtype lse = Some b' /\ get (dp_data b') (ethertype_ofs b) 2 = ethtype /\ get (dp_data b') (label_ofs b) 4 = lse /\
     drop (label_ofs b + 4) (dp_data b') = drop (label_ofs b) (dp_data b) /\
     pop_mpls fresh b' (get (dp_data b) (ethertype_ofs b) 2) = Some (dp_packet_reset_offload b)).
Proof.
  intros Hf Hb Ht Hv Hm Hl Hbos. destruct (ethertype_ofs_bounds b Hb) as ([H1 H2] & _ & H14). pose proof Hb as [Hr Hbs He _ Hlen _]. split.
  - destruct (vlan_push_pop fresh Hf b tpid tci Hr He ltac:(lia) Hv Ht) as (b' & E1 & E2). exists b'. split_and!; [done| |done].
    rewrite push_vlan_inserted in E1 by (done || lia). apply (inj Some) in E1 as <-. cbn [inserted dp_data]. by rewrite <- app_assoc.
  - destruct (mpls_push_pop fresh Hf b ethtype lse Hb Hm Hl Hbos) as (b' & E1 & E2). exists b'. split; [done|].
    rewrite push_mpls_inserted in E1 by done. apply (inj Some) in E1 as <-.
    assert (length (dp_data (store (relabelled b) (ethertype_ofs b) (be_bytes 2 ethtype))) = length (dp_data b)) as N.
    { rewrite dp_data_store, length_patch; [done|]. rewrite length_be_bytes. change (dp_data (relabelled b)) with (dp_data b). lia. }
    split_and!; [|apply get_inserted_at; (done || lia)| |done].
    + rewrite get_inserted, dp_data_store by lia. apply get_patch; [change (dp_data (relabelled b)) with (dp_data b); lia|].
      unfold eth_type_mpls in Hm. by apply orb_prop in Hm as [->%Z.eqb_eq| ->%Z.eqb_eq].
    + cbn [inserted dp_data]. rewrite app_assoc, drop_app_length' by (rewrite length_app, length_take, length_be_bytes; lia).
      rewrite dp_data_store. change (dp_data (relabelled b)) with (dp_data b). unfold patch. rewrite app_assoc, drop_app_ge by (rewrite length_app, length_take, length_be_bytes; lia).
      rewrite length_app, length_take, !length_be_bytes, drop_drop. f_equal. lia.
Qed.

Lemma pop_undoes_push_witness :
  let b := packet_of sample_tcp 0 14 34 in
  exists b', push_mpls (fun n => replicate n 0xaa) b ETH_TYPE_MPLS 0x00064140 = Some b' /\ get (dp_data b') 12 2 = ETH_TYPE_MPLS /\
    pop_mpls (fun n => replicate n 0xaa) b' ETH_TYPE_IP = Some b.
Proof.
  intros b. destruct (pop_undoes_push (fun n => replicate n 0xaa) b 0x8100 0x1005 ETH_TYPE_MPLS 0x00064140) as [_ (b' & E & G & _ & _ & P)].
  - intros n. apply length_replicate.
  - split; [|by apply bytes_check|done|by vm_compute|vm_compute; lia|vm_compute; lia]. split; try (by left); try (right; done); done.
  - done.
  - by vm_compute.
  - by vm_compute.
  - done.
  - by vm_compute.
  - exists b'. auto.
Defined.

(** [packet_set_icmp] keeps the checksum of ICMP, over the message, and of ICMPv6.  The one exception is a
    message that becomes all zeros ([icmp_checksum_zero]). *)
Theorem packet_set_icmp_keeps_checksum (dl_type nw_proto : Z) (nh l4 : nat) (b : dp_packet) (type code : Z) :
  layout dl_type nw_proto b nh l4 -> 4 <= dp_packet_l4_size b -> is_byte type -> is_byte code ->
  exists b', packet_set_icmp b type code = Some b' /\ layout dl_type nw_proto b' nh l4 /\
    get (dp_data b') l4 1 = type /\ get (dp_data b') (l4 + 1) 1 = code /\
    (0 < type + code -> csum (bytes_at (dp_data b) l4 (l4_len b)) = 0 -> csum (bytes_at (dp_data b') l4 (l4_len b)) = 0) /\
    (dl_type = ETH_TYPE_IPV6 -> nw_proto = IPPROTO_ICMPV6 -> l4_csum_ok dl_type nw_proto b nh l4 -> l4_csum_ok dl_type nw_proto b' nh l4) /\
    agree [(l4, 1%nat); ((l4 + 1)%nat, 1%nat); ((l4 + 2)%nat, 2%nat)] (dp_data b) (dp_data b').
Proof.
  intros La Hn Ht Hc. pose proof (layout_l4_len _ _ _ _ _ La) as (Hl & Hl' & Hs).
  destruct (set_icmp_congruent dl_type nw_proto nh l4 b type code La Hn Ht Hc) as (b' & E & C & G1 & G2).
  destruct (congruent_layout _ _ _ _ _ _ _ La C) as (La' & _ & _ & El & _). pose proof (cg_sum _ _ _ _ C) as [k Hk]. pose proof (sets_length _ _ _ (cg_sets _ _ _ _ C)) as N.
  exists b'. split; [done|]. split; [done|]. split_and!; [done|done| | |apply (st_agree _ _ _ (cg_sets _ _ _ _ C))].
  - intros Hnz. unfold csum. pose proof (W_bound _ _ _ _ _ La l4 (l4_len b)) as Hw. pose proof (W_bound _ _ _ _ _ La' l4 (l4_len b)) as Hw'. unfold W in *.
    rewrite !csum_continue_sum by (try apply bytes_at_byte; (apply La || apply La' || lia)). rewrite !Z.add_0_l, !csum_finish_zero by (unfold in_width; lia).
    intros [Ho _]. split; [by apply (ones_shift _ _ k Hk)|]. fold (W (dp_data b') l4 (l4_len b)). rewrite W_head by lia.
    pose proof (W_bound _ _ _ _ _ La' (l4 + 2) (l4_len b - 2)). rewrite G1, G2. unfold is_byte in *. lia.
  - intros -> ->. apply (k_l4 _ _ _ _ _ _ _ (congruent_keeps _ _ _ _ 2 _ _ _ La C (csum_field_icmp6 _ Hn) ltac:(done))).
Qed.

(** Congestion marks of IPv4: the field is changed together with the checksum. *)
Theorem ecn_set_ce_keeps_checksums (nw_proto : Z) (nh l4 : nat) (b : dp_packet) :
  layout ETH_TYPE_IP nw_proto b nh l4 ->
  exists b', IP_ECN_set_ce b false = Some b' /\ get (dp_data b') (nh + 1) 1 = Z.lor (get (dp_data b) (nh + 1) 1) IP_ECN_CE /\
    (ip_csum_ok b nh -> ip_csum_ok b' nh) /\ (l4_csum_ok ETH_TYPE_IP nw_proto b nh l4 -> l4_csum_ok ETH_TYPE_IP nw_proto b' nh l4).
Proof.
  intros La. pose proof (layout_header _ _ _ _ _ La) as (H1 & H2 & _). unfold IP_ECN_set_ce. rewrite (layout_l3 _ _ _ _ _ La), option_bind_some.
  rewrite (ld_get b (nh + 1) 1), option_bind_some by lia. pose proof (get_width' _ _ _ _ _ La (nh + 1) 1 8 eq_refl) as Hw.
  assert (is_byte (Z.lor (get (dp_data b) (nh + 1) 1) IP_ECN_CE)) as Hx by (by apply (in_width_lor 8)).
  destruct (maybe_byte nw_proto nh l4 b 1 1 _ (fun c => recalc_csum16 c (get (dp_data b) (nh + 1) 1) (Z.lor (get (dp_data b) (nh + 1) 1) IP_ECN_CE)) La ltac:(lia) Hx) as (b' & E & [S L I T] & G).
  { rewrite !Z.mul_1_l. apply recalc16_ok; [apply (byte16 _ Hw)|apply (byte16 _ Hx)]. }
  exists b'. split_and!; [exact E|done|by apply I|done].
Qed.

(** ** Where the code goes wrong *)

(** A neighbour solicitation with one option, a nonce: the loop of [packet_set_nd] advances to the next option
    before it takes the length off what is left, and reads behind the packet. *)
Definition sample_nd (options : list Z) : list Z :=
  [2; 0; 0; 0; 0; 1; 2; 0; 0; 0; 0; 2; 134; 221] ++
  [96; 0; 0; 0; 0; 24 + Z.of_nat (length options); 58; 255; 254; 128; 0; 0; 0; 0; 0; 0; 0; 0; 0; 0; 0; 0; 0; 1] ++
  [254; 128; 0; 0; 0; 0; 0; 0; 0; 0; 0; 0; 0; 0; 0; 2] ++
  [135; 0; 0; 0; 0; 0; 0; 0; 254; 128; 0; 0; 0; 0; 0; 0; 0; 0; 0; 0; 0; 0; 0; 2] ++ options.

Lemma nd_reads_behind_the_packet :
  packet_set_nd (packet_of (sample_nd [14; 1; 1; 2; 3; 4; 5; 6]) 0 14 54) 0xfe800000000000000000000000000002 1 2 = None /\
  is_Some (packet_set_nd (packet_of (sample_nd [1; 1; 1; 2; 3; 4; 5; 6]) 0 14 54) 0xfe800000000000000000000000000002 1 2).
Proof. split; [by vm_compute|]. eexists. by vm_compute. Qed.

(** Without options, [packet_set_nd_ext] stores the type of the first option behind the packet. *)
Lemma nd_ext_writes_behind_the_packet : packet_set_nd_ext (packet_of (sample_nd []) 0 14 54) 0x60000000 2 = None.
Proof. by vm_compute. Qed.

(** A later fragment has no TCP header, but the bytes of its payload where the checksum would be are changed. *)
Lemma later_fragment_corrupted :
  let b := packet_of (patch sample_tcp 20 [0; 100]) 0 14 34 in
  match packet_set_ipv4_addr b 26 0x0a000009 with
  | Some b' => bytes_at (dp_data b) 34 25 <> bytes_at (dp_data b') 34 25
  | None => False
  end.
Proof. by vm_compute. Qed.

(** A whole packet with a fragment header is taken for a later fragment: the checksum is not brought up to date. *)
Lemma atomic_fragment_not_updated :
  let b := packet_of (sample_udp6 IPPROTO_FRAGMENT [17; 0; 0; 0; 0; 0; 0; 1]) 0 14 62 in
  checksum_valid b ETH_TYPE_IPV6 IPPROTO_UDP 62 13 14 = Some true /\
  match packet_set_ipv6 b 0xfe800000000000000000000000000001 0xfe800000000000000000000000000002 0 0 64 with
  | Some b' => checksum_valid b' ETH_TYPE_IPV6 IPPROTO_UDP 62 13 14 = Some false
  | None => False
  end.
Proof. split; by vm_compute. Qed.

(** A packet that is only a header: its checksum is left as it is and marked as good. *)
Lemma bare_header_not_completed :
  let b := packet_of (take 34 (patch sample_tcp 17 [20])) DP_PACKET_OL_IP_CKSUM_MASK 14 34 in
  csum (bytes_at (dp_data b) 14 20) <> 0 /\
  match dp_packet_ol_send_prepare b 0 with
  | Some b' => dp_data b' = dp_data b /\ dp_packet_ip_checksum_partial b' = false /\ dp_packet_ip_checksum_valid b' = true
  | None => False
  end.
Proof. by vm_compute. Qed.

(** With an extension header the type of that header, and not UDP, goes into the sum. *)
Lemma extension_header_in_checksum :
  let flags := Z.lor DP_PACKET_OL_L4_CKSUM_MASK DP_PACKET_OL_L4_PROTO_UDP in
  let b := packet_of (sample_udp6 IPPROTO_DSTOPTS options_header) flags 14 62 in
  match dp_packet_ol_send_prepare b 0 with
  | Some b' => checksum_valid b' ETH_TYPE_IPV6 IPPROTO_UDP 62 13 14 = Some false /\ dp_packet_l4_checksum_valid b' = true
  | None => False
  end.
Proof. by vm_compute. Qed.

(** An echo request with nothing but zeros after its checksum becomes a reply whose words are all 0, and so is its
    checksum, which should be 0xffff. *)
Lemma icmp_checksum_zero :
  let b := packet_of ([2; 0; 0; 0; 0; 1; 2; 0; 0; 0; 0; 2; 8; 0] ++
    [69; 0; 0; 28; 0; 1; 64; 0; 64; 1; 38; 221; 10; 0; 0; 1; 10; 0; 0; 2] ++ [8; 0; 247; 255; 0; 0; 0; 0]) 0 14 34 in
  csum (bytes_at (dp_data b) 34 8) = 0 /\
  match packet_set_icmp b 0 0 with
  | Some b' => bytes_at (dp_data b') 34 8 = [0; 0; 0; 0; 0; 0; 0; 0] /\ csum (bytes_at (dp_data b') 34 8) <> 0
  | None => False
  end.
Proof. by vm_compute. Qed.
