(* ===== verification/Stp.v ===== *)
(** * Spanning tree protocol

    lib/stp.c and lib/stp.h: a bridge that takes part in the spanning tree
    protocol of IEEE 802.1D-1998, and [stp_process_packet] of
    ofproto/ofproto-dpif-xlate.c, which hands it the packets.

    A port is an index into [ports].  The packets that the bridge sends are
    appended to [sent]; the callback that sends them does not call the bridge
    again.  An operation returns [None] where the C has a signed overflow or a
    failed assertion.  Left out are names, [aux] pointers, reference counts, the lock,
    log messages and the connectivity sequence number; the counters of BPDUs
    have no width. *)

From S2P Require Import Prelude Util MetaFlow MetaFields Packet.
From stdpp Require Import prelude list.
From coqutil Require Import Datatypes.RecordSetters.
From Stdlib Require Import ZArith Lia.
Import DoubleBraceUpdate.
Open Scope Z_scope.
Open Scope ovs_scope.

(** ** Data *)

Definition STP_DEFAULT_BRIDGE_PRIORITY : Z := 32768.
Definition STP_DEFAULT_PORT_PRIORITY : Z := 128.
Definition STP_DEFAULT_MAX_AGE : Z := 20000.
Definition STP_DEFAULT_HELLO_TIME : Z := 2000.
Definition STP_DEFAULT_FWD_DELAY : Z := 15000.
Definition STP_MAX_PORTS : nat := 255.

(** [STP_UNSET] is the 0 of a port that is not initialized yet. *)
Inductive stp_state := STP_UNSET | STP_DISABLED | STP_LISTENING | STP_LEARNING | STP_FORWARDING | STP_BLOCKING.

#[export] Instance stp_state_eq_dec : EqDecision stp_state.
Proof. solve_decision. Defined.

Definition stp_state_value (s : stp_state) : Z :=
  match s with
  | STP_UNSET => 0
  | STP_DISABLED => Z.shiftl 1 0
  | STP_LISTENING => Z.shiftl 1 1
  | STP_LEARNING => Z.shiftl 1 2
  | STP_FORWARDING => Z.shiftl 1 3
  | STP_BLOCKING => Z.shiftl 1 4
  end.

(** [state & (STP_A | STP_B | ...)] *)
Definition stp_in_states (s : stp_state) (l : list stp_state) : bool :=
  negb (Z.land (stp_state_value s) (foldr (fun x m => Z.lor (stp_state_value x) m) 0 l) =? 0).

Definition stp_forward_in_state (s : stp_state) : bool := stp_in_states s [STP_FORWARDING].
Definition stp_learn_in_state (s : stp_state) : bool := stp_in_states s [STP_LEARNING; STP_FORWARDING].
Definition stp_should_forward_bpdu (s : stp_state) : bool :=
  stp_in_states s [STP_DISABLED; STP_LISTENING; STP_LEARNING; STP_FORWARDING].

Inductive stp_role := STP_ROLE_ROOT | STP_ROLE_DESIGNATED | STP_ROLE_ALTERNATE | STP_ROLE_DISABLED.

Record stp_timer := StpTimer {
  tm_active : bool;
  tm_value : Z
}.

Record stp_port := StpPort {
  port_id : Z;
  port_state : stp_state;
  path_cost : Z;
  port_designated_root : Z;
  designated_cost : Z;
  designated_bridge : Z;
  designated_port : Z;
  topology_change_ack : bool;
  config_pending : bool;
  change_detection_enabled : bool;
  message_age_timer : stp_timer;
  forward_delay_timer : stp_timer;
  hold_timer : stp_timer;
  tx_count : Z;
  rx_count : Z;
  error_count : Z;
  state_changed : bool
}.

Record stp := Stp {
  (* Static bridge data. *)
  bridge_id : Z;
  max_age : Z;
  hello_time : Z;
  forward_delay : Z;
  bridge_max_age : Z;
  bridge_hello_time : Z;
  bridge_forward_delay : Z;
  rq_max_age : Z;
  rq_hello_time : Z;
  rq_forward_delay : Z;
  elapsed_remainder : Z;
  (* Dynamic bridge data. *)
  designated_root : Z;
  root_path_cost : Z;
  root_port : option nat;
  topology_change_detected : bool;
  topology_change : bool;
  (* Bridge timers. *)
  hello_timer : stp_timer;
  tcn_timer : stp_timer;
  topology_change_timer : stp_timer;
  (* Ports. *)
  ports : list stp_port;
  (* Interface to client. *)
  fdb_needs_flush : bool;
  first_changed_port : nat;
  sent : list (nat * list Z)
}.

Definition zero_timer : stp_timer := StpTimer false 0.

(** A port in memory that [xzalloc] cleared. *)
Definition zero_port : stp_port :=
  StpPort 0 STP_UNSET 0 0 0 0 0 false false false zero_timer zero_timer zero_timer 0 0 0 false.

Definition get_port (s : stp) (p : nat) : stp_port := nth p (ports s) zero_port.
Definition set_port (s : stp) (p : nat) (f : stp_port -> stp_port) : stp := s {{ ports := alter f p (ports s) }}.

Definition port_enabled (s : stp) (p : nat) : bool := negb (bool_decide (port_state (get_port s p) = STP_DISABLED)).

(** [FOR_EACH_ENABLED_PORT]: the state of a port counts when the loop gets to it. *)
Definition FOR_EACH_ENABLED_PORT (body : stp -> nat -> stp) (s : stp) : stp :=
  foldl (fun s p => if port_enabled s p then body s p else s) s (seq 0 STP_MAX_PORTS).

Fixpoint for_ports (body : stp -> nat -> option stp) (s : stp) (l : list nat) : option stp :=
  match l with
  | [] => Some s
  | p :: l => s ← (if port_enabled s p then body s p else Some s); for_ports body s l
  end.

(** ** Timers *)

Definition stp_start_timer (value : Z) : stp_timer := StpTimer true value.
Definition stp_stop_timer (timer : stp_timer) : stp_timer := timer {{ tm_active := false }}.

Definition stp_timer_expired (timer : stp_timer) (elapsed timeout : Z) : option (bool * stp_timer) :=
  if tm_active timer then
    value ← int (tm_value timer + elapsed);
    Some (if timeout <=? value then (true, StpTimer false value) else (false, StpTimer true value))
  else Some (false, timer).

Definition ms_to_timer (ms : Z) : option Z := x ← int (ms * 0x100); Some (Z.quot x 1000).
Definition timer_to_ms (timer : Z) : option Z := x ← int (timer * 1000); Some (Z.quot x 0x100).

Definition clamp (x min max : Z) : Z := if x <? min then min else if max <? x then max else x.

(** ** BPDUs *)

Definition STP_PROTOCOL_ID : Z := 0x0000.
Definition STP_PROTOCOL_VERSION : Z := 0x00.
Definition STP_TYPE_CONFIG : Z := 0x00.
Definition STP_TYPE_TCN : Z := 0x80.
Definition STP_CONFIG_TOPOLOGY_CHANGE_ACK : Z := 0x80.
Definition STP_CONFIG_TOPOLOGY_CHANGE : Z := 0x01.
Definition MESSAGE_AGE_INCREMENT : Z := 1.

(** [struct stp_config_bpdu] after the header. *)
Record stp_config_bpdu := StpConfigBpdu {
  cf_flags : Z;
  cf_root_id : Z;
  cf_root_path_cost : Z;
  cf_bridge_id : Z;
  cf_port_id : Z;
  cf_message_age : Z;
  cf_max_age : Z;
  cf_hello_time : Z;
  cf_forward_delay : Z
}.

Definition STP_BPDU_HEADER_LEN : nat := 4.
Definition STP_CONFIG_BPDU_LEN : nat := 35.

Definition bpdu_header (bpdu_type : Z) : list Z := be_bytes 2 STP_PROTOCOL_ID ++ [STP_PROTOCOL_VERSION; bpdu_type].

Definition config_bytes (c : stp_config_bpdu) : list Z :=
  bpdu_header STP_TYPE_CONFIG ++ [cf_flags c] ++ be_bytes 8 (cf_root_id c) ++ be_bytes 4 (cf_root_path_cost c)
  ++ be_bytes 8 (cf_bridge_id c) ++ be_bytes 2 (cf_port_id c) ++ be_bytes 2 (cf_message_age c)
  ++ be_bytes 2 (cf_max_age c) ++ be_bytes 2 (cf_hello_time c) ++ be_bytes 2 (cf_forward_delay c).

(** The members of the [struct stp_config_bpdu] at the start of the buffer. *)
Definition read_config (p : list Z) : stp_config_bpdu :=
  StpConfigBpdu (get p 4 1) (get p 5 8) (get p 13 4) (get p 17 8) (get p 25 2) (get p 27 2) (get p 29 2) (get p 31 2)
    (get p 33 2).

Definition eth_addr_stp : list Z := [0x01; 0x80; 0xc2; 0x00; 0x00; 0x00].
Definition LLC_HEADER_LEN : nat := 3.
Definition STP_LLC_SSAP : Z := 0x42.
Definition STP_LLC_DSAP : Z := 0x42.
Definition STP_LLC_CNTL : Z := 0x03.

(** The packet around a BPDU; the callback fills in the source address. *)
Definition stp_frame (bpdu : list Z) : list Z :=
  eth_addr_stp ++ replicate 6 0 ++ be_bytes 2 (u16 (Z.of_nat (LLC_HEADER_LEN + length bpdu)))
  ++ [STP_LLC_DSAP; STP_LLC_SSAP; STP_LLC_CNTL] ++ bpdu.

Definition stp_send_bpdu (s : stp) (p : nat) (bpdu : list Z) : stp :=
  set_port (s {{ sent := sent s ++ [(p, stp_frame bpdu)] }}) p (fun x => x {{ tx_count := tx_count x + 1 }}).

(** ** Roles *)

Definition stp_is_root_bridge (s : stp) : bool := bridge_id s =? designated_root s.

Definition is_designated (s : stp) (x : stp_port) : bool :=
  (designated_bridge x =? bridge_id s) && (designated_port x =? port_id x).

Definition stp_is_designated_port (s : stp) (p : nat) : bool := is_designated s (get_port s p).

Definition stp_port_get_role (s : stp) (p : nat) : stp_role :=
  if match root_port s with Some r => port_id (get_port s r) =? port_id (get_port s p) | None => false end
  then STP_ROLE_ROOT
  else if stp_is_designated_port s p then STP_ROLE_DESIGNATED
  else if bool_decide (port_state (get_port s p) = STP_DISABLED) then STP_ROLE_DISABLED
  else STP_ROLE_ALTERNATE.

(** ** Transmission *)

Definition stp_transmit_config (s : stp) (p : nat) : stp :=
  let root := stp_is_root_bridge s in
  if negb root && bool_decide (root_port s = None) then s
  else if tm_active (hold_timer (get_port s p)) then set_port s p (fun x => x {{ config_pending := true }})
  else
    let flags := Z.lor (if topology_change_ack (get_port s p) then STP_CONFIG_TOPOLOGY_CHANGE_ACK else 0)
                   (if topology_change s then STP_CONFIG_TOPOLOGY_CHANGE else 0) in
    let message_age :=
      if root then 0
      else match root_port s with
           | Some r => u16 (tm_value (message_age_timer (get_port s r)) + MESSAGE_AGE_INCREMENT)
           | None => 0
           end in
    let config := StpConfigBpdu flags (designated_root s) (root_path_cost s) (bridge_id s) (u16 (port_id (get_port s p)))
                    message_age (u16 (max_age s)) (u16 (hello_time s)) (u16 (forward_delay s)) in
    if message_age <? max_age s then
      let s := set_port s p (fun x => x {{ topology_change_ack := false; config_pending := false }}) in
      let s := stp_send_bpdu s p (config_bytes config) in
      set_port s p (fun x => x {{ hold_timer := stp_start_timer 0 }})
    else s.

Definition stp_config_bpdu_generation (s : stp) : stp :=
  FOR_EACH_ENABLED_PORT (fun s p => if stp_is_designated_port s p then stp_transmit_config s p else s) s.

Definition stp_transmit_tcn (s : stp) : stp :=
  match root_port s with
  | None => s
  | Some p => stp_send_bpdu s p (bpdu_header STP_TYPE_TCN)
  end.

(** ** Selection of the root and of the designated ports *)

(** [designated_cost] is an [int]; the cost of the BPDU is unsigned. *)
Definition stp_supersedes_port_info (s : stp) (p : nat) (c : stp_config_bpdu) : bool :=
  let x := get_port s p in
  if negb (cf_root_id c =? port_designated_root x) then cf_root_id c <? port_designated_root x
  else if negb (cf_root_path_cost c =? u32 (designated_cost x)) then cf_root_path_cost c <? u32 (designated_cost x)
  else if negb (cf_bridge_id c =? designated_bridge x) then cf_bridge_id c <? designated_bridge x
  else negb (cf_bridge_id c =? bridge_id s) || (cf_port_id c <=? designated_port x).

Definition stp_record_config_information (s : stp) (p : nat) (c : stp_config_bpdu) : stp :=
  set_port s p (fun x => x {{ port_designated_root := cf_root_id c;
                              designated_cost := to_int (cf_root_path_cost c);
                              designated_bridge := cf_bridge_id c;
                              designated_port := cf_port_id c;
                              message_age_timer := stp_start_timer (cf_message_age c) }}).

Definition stp_record_config_timeout_values (s : stp) (c : stp_config_bpdu) : stp :=
  s {{ max_age := cf_max_age c;
       hello_time := cf_hello_time c;
       forward_delay := cf_forward_delay c;
       topology_change := negb (Z.land (cf_flags c) STP_CONFIG_TOPOLOGY_CHANGE =? 0) }}.

Definition stp_supersedes_root (root p : stp_port) : option bool :=
  p_cost ← int (designated_cost p + path_cost p);
  root_cost ← int (designated_cost root + path_cost root);
  Some (if negb (port_designated_root p =? port_designated_root root) then port_designated_root p <? port_designated_root root
        else if negb (p_cost =? root_cost) then p_cost <? root_cost
        else if negb (designated_bridge p =? designated_bridge root) then designated_bridge p <? designated_bridge root
        else if negb (designated_port p =? designated_port root) then designated_port p <? designated_port root
        else port_id p <? port_id root).

Definition root_candidate (s : stp) (p : nat) : bool :=
  negb (stp_is_designated_port s p || (bridge_id s <=? port_designated_root (get_port s p))).

Fixpoint select_root (s : stp) (root : option nat) (l : list nat) : option (option nat) :=
  match l with
  | [] => Some root
  | p :: l =>
    root' ← (if port_enabled s p && root_candidate s p then
               match root with
               | None => Some (Some p)
               | Some r => better ← stp_supersedes_root (get_port s r) (get_port s p); Some (Some (if better : bool then p else r))
               end
             else Some root);
    select_root s root' l
  end.

Definition stp_root_selection (s : stp) : option stp :=
  root ← select_root s None (seq 0 STP_MAX_PORTS);
  match root with
  | None => Some (s {{ root_port := None; designated_root := bridge_id s; root_path_cost := 0 }})
  | Some r =>
    cost ← int (designated_cost (get_port s r) + path_cost (get_port s r));
    Some (s {{ root_port := Some r; designated_root := port_designated_root (get_port s r); root_path_cost := u32 cost }})
  end.

Definition stp_become_designated_port (s : stp) (p : nat) : stp :=
  set_port s p (fun x => x {{ port_designated_root := designated_root s;
                              designated_cost := to_int (root_path_cost s);
                              designated_bridge := bridge_id s;
                              designated_port := port_id x }}).

Definition should_be_designated (s : stp) (x : stp_port) : bool :=
  is_designated s x
  || negb (port_designated_root x =? designated_root s)
  || (root_path_cost s <? u32 (designated_cost x))
  || ((root_path_cost s =? u32 (designated_cost x))
      && ((bridge_id s <? designated_bridge x)
          || ((bridge_id s =? designated_bridge x) && (port_id x <=? designated_port x)))).

Definition stp_designated_port_selection (s : stp) : stp :=
  FOR_EACH_ENABLED_PORT (fun s p => if should_be_designated s (get_port s p) then stp_become_designated_port s p else s) s.

Definition stp_configuration_update (s : stp) : option stp :=
  s ← stp_root_selection s;
  Some (stp_designated_port_selection s).

(** ** Topology changes *)

Definition stp_topology_change_detection (s : stp) : stp :=
  let s :=
    if stp_is_root_bridge s then s {{ topology_change := true; topology_change_timer := stp_start_timer 0 }}
    else if negb (topology_change_detected s) then
      let s := stp_transmit_tcn s in
      s {{ tcn_timer := stp_start_timer 0 }}
    else s in
  s {{ fdb_needs_flush := true; topology_change_detected := true }}.

Definition stp_topology_change_acknowledged (s : stp) : stp :=
  s {{ topology_change_detected := false; tcn_timer := stp_stop_timer (tcn_timer s) }}.

Definition stp_acknowledge_topology_change (s : stp) (p : nat) : stp :=
  stp_transmit_config (set_port s p (fun x => x {{ topology_change_ack := true }})) p.

(** ** States of ports *)

Definition stp_set_port_state (s : stp) (p : nat) (state : stp_state) : stp :=
  let x := get_port s p in
  let s :=
    if negb (bool_decide (state = port_state x)) && negb (state_changed x) then
      let s := set_port s p (fun x => x {{ state_changed := true }}) in
      if (p <? first_changed_port s)%nat then s {{ first_changed_port := p }} else s
    else s in
  set_port s p (fun x => x {{ port_state := state }}).

Definition stp_make_forwarding (s : stp) (p : nat) : stp :=
  if bool_decide (port_state (get_port s p) = STP_BLOCKING) then
    set_port (stp_set_port_state s p STP_LISTENING) p (fun x => x {{ forward_delay_timer := stp_start_timer 0 }})
  else s.

Definition stp_make_blocking (s : stp) (p : nat) : stp :=
  let state := port_state (get_port s p) in
  if negb (stp_in_states state [STP_DISABLED; STP_BLOCKING]) then
    let s :=
      if stp_in_states state [STP_FORWARDING; STP_LEARNING] && change_detection_enabled (get_port s p)
      then stp_topology_change_detection s else s in
    set_port (stp_set_port_state s p STP_BLOCKING) p
      (fun x => x {{ forward_delay_timer := stp_stop_timer (forward_delay_timer x) }})
  else s.

Definition clear_pending (x : stp_port) : stp_port := x {{ config_pending := false; topology_change_ack := false }}.
Definition stop_message_age (x : stp_port) : stp_port := x {{ message_age_timer := stp_stop_timer (message_age_timer x) }}.

Definition select_port_state (s : stp) (p : nat) : stp :=
  if bool_decide (root_port s = Some p) then stp_make_forwarding (set_port s p clear_pending) p
  else if stp_is_designated_port s p then stp_make_forwarding (set_port s p stop_message_age) p
  else stp_make_blocking (set_port s p clear_pending) p.

Definition stp_port_state_selection (s : stp) : stp := FOR_EACH_ENABLED_PORT select_port_state s.

(** The bridge's own times, for when it is the root. *)
Definition use_bridge_times (s : stp) : stp :=
  s {{ max_age := bridge_max_age s; hello_time := bridge_hello_time s; forward_delay := bridge_forward_delay s }}.

Definition stp_become_root_bridge (s : stp) : stp :=
  let s := stp_topology_change_detection (use_bridge_times s) in
  let s := stp_config_bpdu_generation (s {{ tcn_timer := stp_stop_timer (tcn_timer s) }}) in
  s {{ hello_timer := stp_start_timer 0 }}.

(** What follows a change of the information about ports: new roles, new
    states, and the duties of a root for a bridge that becomes one. *)
Definition stp_reconfigure (s : stp) : option stp :=
  s ← stp_configuration_update s;
  Some (stp_port_state_selection s).

Definition reconfigure_check_root (root : bool) (s : stp) : option stp :=
  s ← stp_reconfigure s;
  Some (if stp_is_root_bridge s && negb root then stp_become_root_bridge s else s).

(** ** Received BPDUs *)

(** The bridge was the root, and is it no longer. *)
Definition resign_root (s : stp) : stp :=
  let s := s {{ hello_timer := stp_stop_timer (hello_timer s) }} in
  if topology_change_detected s then
    let s := stp_transmit_tcn (s {{ topology_change_timer := stp_stop_timer (topology_change_timer s) }}) in
    s {{ tcn_timer := stp_start_timer 0 }}
  else s.

(** A BPDU on the root port. *)
Definition follow_root (s : stp) (c : stp_config_bpdu) : stp :=
  let s := stp_config_bpdu_generation (stp_record_config_timeout_values s c) in
  let s := if Z.land (cf_flags c) STP_CONFIG_TOPOLOGY_CHANGE_ACK =? 0 then s else stp_topology_change_acknowledged s in
  if Z.land (cf_flags c) STP_CONFIG_TOPOLOGY_CHANGE =? 0 then s else s {{ fdb_needs_flush := true }}.

Definition stp_received_config_bpdu (s : stp) (p : nat) (c : stp_config_bpdu) : option stp :=
  if cf_max_age c <=? cf_message_age c then Some s
  else if bool_decide (port_state (get_port s p) = STP_DISABLED) then Some s
  else
    let root := stp_is_root_bridge s in
    if stp_supersedes_port_info s p c then
      s ← stp_reconfigure (stp_record_config_information s p c);
      let s := if negb (stp_is_root_bridge s) && root then resign_root s else s in
      Some (if bool_decide (root_port s = Some p) then follow_root s c else s)
    else Some (if stp_is_designated_port s p then stp_transmit_config s p else s).

Definition stp_received_tcn_bpdu (s : stp) (p : nat) : stp :=
  if bool_decide (port_state (get_port s p) = STP_DISABLED) then s
  else if stp_is_designated_port s p then stp_acknowledge_topology_change (stp_topology_change_detection s) p
  else s.

Definition bad_bpdu (s : stp) (p : nat) : stp := set_port s p (fun x => x {{ error_count := error_count x + 1 }}).

Definition stp_received_bpdu (s : stp) (p : nat) (bpdu : list Z) : option stp :=
  let good s := set_port s p (fun x => x {{ rx_count := rx_count x + 1 }}) in
  if bool_decide (port_state (get_port s p) = STP_DISABLED) then Some s
  else if (length bpdu <? STP_BPDU_HEADER_LEN)%nat then Some (bad_bpdu s p)
  else if negb (get bpdu 0 2 =? STP_PROTOCOL_ID) then Some (bad_bpdu s p)
  else if get bpdu 3 1 =? STP_TYPE_CONFIG then
    if (length bpdu <? STP_CONFIG_BPDU_LEN)%nat then Some (bad_bpdu s p)
    else s ← stp_received_config_bpdu s p (read_config bpdu); Some (good s)
  else if get bpdu 3 1 =? STP_TYPE_TCN then
    if negb (length bpdu =? STP_BPDU_HEADER_LEN)%nat then Some (bad_bpdu s p)
    else Some (good (stp_received_tcn_bpdu s p))
  else Some (bad_bpdu s p).

(** [stp_process_packet]: the padding after the length in the Ethernet header is
    trimmed off.  The packet has an Ethernet header. *)
Definition stp_process_packet (s : stp) (p : nat) (packet : list Z) : option stp :=
  if bool_decide (port_state (get_port s p) = STP_DISABLED) then Some s
  else
    eth_type ← rd packet 12 2;
    let size := (Z.to_nat eth_type + ETH_HEADER_LEN)%nat in
    let payload := if (size <? length packet)%nat then take size packet else packet in
    if (ETH_HEADER_LEN + LLC_HEADER_LEN <=? length payload)%nat
    then stp_received_bpdu s p (drop (ETH_HEADER_LEN + LLC_HEADER_LEN) payload)
    else Some s.

(** ** Timers that expire *)

Definition stp_hello_timer_expiry (s : stp) : stp :=
  (stp_config_bpdu_generation s) {{ hello_timer := stp_start_timer 0 }}.

Definition stp_message_age_timer_expiry (s : stp) (p : nat) : option stp :=
  let root := stp_is_root_bridge s in
  reconfigure_check_root root (stp_become_designated_port s p).

Definition stp_is_designated_for_some_port (s : stp) : bool :=
  existsb (fun p => port_enabled s p && (designated_bridge (get_port s p) =? bridge_id s)) (seq 0 STP_MAX_PORTS).

Definition stp_forward_delay_timer_expiry (s : stp) (p : nat) : stp :=
  match port_state (get_port s p) with
  | STP_LISTENING =>
    set_port (stp_set_port_state s p STP_LEARNING) p (fun x => x {{ forward_delay_timer := stp_start_timer 0 }})
  | STP_LEARNING =>
    let s := stp_set_port_state s p STP_FORWARDING in
    if stp_is_designated_for_some_port s && change_detection_enabled (get_port s p)
    then stp_topology_change_detection s else s
  | _ => s
  end.

Definition stp_tcn_timer_expiry (s : stp) : stp := (stp_transmit_tcn s) {{ tcn_timer := stp_start_timer 0 }}.

Definition stp_topology_change_timer_expiry (s : stp) : stp :=
  s {{ topology_change_detected := false; topology_change := false }}.

Definition stp_hold_timer_expiry (s : stp) (p : nat) : stp :=
  if config_pending (get_port s p) then stp_transmit_config s p else s.

(** ** Time *)

(** A timer of the bridge: the new timer is stored before the expiry is handled. *)
Definition tick_timer (timer : stp_timer) (elapsed timeout : Z) (store : stp_timer -> stp) (expiry : stp -> stp) : option stp :=
  '(expired, timer) ← stp_timer_expired timer elapsed timeout;
  Some (if expired : bool then expiry (store timer) else store timer).

Definition tick_message_age (elapsed : Z) (s : stp) (p : nat) : option stp :=
  '(expired, timer) ← stp_timer_expired (message_age_timer (get_port s p)) elapsed (max_age s);
  let s := set_port s p (fun x => x {{ message_age_timer := timer }}) in
  if expired : bool then stp_message_age_timer_expiry s p else Some s.

Definition tick_forward_delay (elapsed : Z) (s : stp) (p : nat) : option stp :=
  tick_timer (forward_delay_timer (get_port s p)) elapsed (forward_delay s)
    (fun timer => set_port s p (fun x => x {{ forward_delay_timer := timer }})) (fun s => stp_forward_delay_timer_expiry s p).

Definition tick_hold (elapsed : Z) (s : stp) (p : nat) : option stp :=
  second ← ms_to_timer 1000;
  tick_timer (hold_timer (get_port s p)) elapsed second
    (fun timer => set_port s p (fun x => x {{ hold_timer := timer }})) (fun s => stp_hold_timer_expiry s p).

Definition tick_bridge (elapsed : Z) (s : stp) : option stp :=
  s ← tick_timer (hello_timer s) elapsed (hello_time s) (fun t => s {{ hello_timer := t }}) stp_hello_timer_expiry;
  s ← tick_timer (tcn_timer s) elapsed (bridge_hello_time s) (fun t => s {{ tcn_timer := t }}) stp_tcn_timer_expiry;
  tick_timer (topology_change_timer s) elapsed (max_age s + forward_delay s)
    (fun t => s {{ topology_change_timer := t }}) stp_topology_change_timer_expiry.

Definition tick_ports (elapsed : Z) (s : stp) : option stp :=
  s ← for_ports (tick_message_age elapsed) s (seq 0 STP_MAX_PORTS);
  for_ports (fun s p => s ← tick_forward_delay elapsed s p; tick_hold elapsed s p) s (seq 0 STP_MAX_PORTS).

Definition stp_tick (s : stp) (ms : Z) : option stp :=
  let ms := clamp ms 0 (INT_MAX - 1000) + elapsed_remainder s in
  ms ← int ms;
  elapsed ← ms_to_timer ms;
  whole ← timer_to_ms elapsed;
  let s := s {{ elapsed_remainder := ms - whole }} in
  if elapsed =? 0 then Some s
  else s ← tick_bridge elapsed s; tick_ports elapsed s.

(** ** Configuration of the bridge *)

Definition stp_update_bridge_timers (s : stp) : option stp :=
  let ht := clamp (rq_hello_time s) 1000 10000 in
  let ma := clamp (rq_max_age s) (MAX (2 * (ht + 1000)) 6000) 40000 in
  let fd := clamp (rq_forward_delay s) (Z.quot ma 2 + 1000) 30000 in
  ht ← ms_to_timer ht;
  ma ← ms_to_timer ma;
  fd ← ms_to_timer fd;
  let s := s {{ bridge_hello_time := ht; bridge_max_age := ma; bridge_forward_delay := fd }} in
  Some (if stp_is_root_bridge s then use_bridge_times s else s).

Definition stp_set_hello_time (s : stp) (ms : Z) : option stp := stp_update_bridge_timers (s {{ rq_hello_time := ms }}).
Definition stp_set_max_age (s : stp) (ms : Z) : option stp := stp_update_bridge_timers (s {{ rq_max_age := ms }}).
Definition stp_set_forward_delay (s : stp) (ms : Z) : option stp := stp_update_bridge_timers (s {{ rq_forward_delay := ms }}).

Definition stp_get_hello_time (s : stp) : option Z := timer_to_ms (bridge_hello_time s).
Definition stp_get_max_age (s : stp) : option Z := timer_to_ms (bridge_max_age s).
Definition stp_get_forward_delay (s : stp) : option Z := timer_to_ms (bridge_forward_delay s).

Definition set_bridge_id (s : stp) (new_bridge_id : Z) : option stp :=
  if new_bridge_id =? bridge_id s then Some s
  else
    let root := stp_is_root_bridge s in
    let s := FOR_EACH_ENABLED_PORT (fun s p =>
      if stp_is_designated_port s p then set_port s p (fun x => x {{ designated_bridge := new_bridge_id }}) else s) s in
    reconfigure_check_root root (s {{ bridge_id := new_bridge_id }}).

Definition mac_bits : Z := Z.shiftl 1 48 - 1.

Definition stp_set_bridge_id (s : stp) (id : Z) : option stp :=
  set_bridge_id s (Z.lor (Z.ldiff (bridge_id s) mac_bits) (Z.land id mac_bits)).

Definition stp_set_bridge_priority (s : stp) (new_priority : Z) : option stp :=
  set_bridge_id s (Z.lor (Z.land (bridge_id s) mac_bits) (Z.shiftl new_priority 48)).

Definition stp_check_and_reset_fdb_flush (s : stp) : bool * stp := (fdb_needs_flush s, s {{ fdb_needs_flush := false }}).

(** ** Configuration of a port *)

(** The assertion of [stp_get_port]. *)
Definition stp_get_port (port_no : Z) : option nat :=
  if (0 <=? port_no) && (port_no <? Z.of_nat STP_MAX_PORTS) then Some (Z.to_nat port_no) else None.

(** The loop of [stp_get_changed_port] over the [n] ports from [p] on. *)
Fixpoint find_changed (l : list stp_port) (p n : nat) : option nat :=
  match n with
  | O => None
  | S n => if state_changed (nth p l zero_port) then Some p else find_changed l (S p) n
  end.

Definition stp_get_changed_port (s : stp) : option nat * stp :=
  match find_changed (ports s) (first_changed_port s) (STP_MAX_PORTS - first_changed_port s) with
  | Some p => (Some p, (set_port s p (fun x => x {{ state_changed := false }})) {{ first_changed_port := S p }})
  | None => (None, s {{ first_changed_port := STP_MAX_PORTS }})
  end.

Definition stp_initialize_port (s : stp) (p : nat) (state : stp_state) : option stp :=
  _ ← ovs_assert (stp_in_states state [STP_DISABLED; STP_BLOCKING]);
  let s := stp_become_designated_port s p in
  let s :=
    if bool_decide (port_state (get_port s p) = STP_UNSET) && bool_decide (state = STP_DISABLED)
    then set_port s p (fun x => x {{ port_state := state }})
    else stp_set_port_state s p state in
  Some (set_port s p (fun x =>
    x {{ topology_change_ack := false; config_pending := false; change_detection_enabled := true;
         message_age_timer := stp_stop_timer (message_age_timer x);
         forward_delay_timer := stp_stop_timer (forward_delay_timer x);
         hold_timer := stp_stop_timer (hold_timer x);
         tx_count := 0; rx_count := 0; error_count := 0 }})).

Definition stp_port_enable (s : stp) (p : nat) : option stp :=
  if bool_decide (port_state (get_port s p) = STP_DISABLED) then
    s ← stp_initialize_port s p STP_BLOCKING;
    Some (stp_port_state_selection s)
  else Some s.

Definition stp_port_disable (s : stp) (p : nat) : option stp :=
  if bool_decide (port_state (get_port s p) = STP_DISABLED) then Some s
  else
    let root := stp_is_root_bridge s in
    let s := stp_set_port_state (stp_become_designated_port s p) p STP_DISABLED in
    reconfigure_check_root root (set_port s p (fun x =>
      x {{ topology_change_ack := false; config_pending := false;
           message_age_timer := stp_stop_timer (message_age_timer x);
           forward_delay_timer := stp_stop_timer (forward_delay_timer x) }})).

Definition stp_port_set_priority (s : stp) (p : nat) (new_priority : Z) : stp :=
  let new_port_id := u16 (Z.lor (Z.land (port_id (get_port s p)) 0xff) (Z.shiftl new_priority 8)) in
  if port_id (get_port s p) =? new_port_id then s
  else
    let s := if stp_is_designated_port s p then set_port s p (fun x => x {{ designated_port := new_port_id }}) else s in
    let s := set_port s p (fun x => x {{ port_id := new_port_id }}) in
    let x := get_port s p in
    if (bridge_id s =? designated_bridge x) && (port_id x <? designated_port x)
    then stp_port_state_selection (stp_become_designated_port s p) else s.

Definition stp_convert_speed_to_cost (speed : Z) : Z :=
  if 10000 <=? speed then 2
  else if 1000 <=? speed then 4
  else if 100 <=? speed then 19
  else if 16 <=? speed then 62
  else if 10 <=? speed then 100
  else if 4 <=? speed then 250
  else 2.

Definition stp_port_set_path_cost (s : stp) (p : nat) (cost : Z) : option stp :=
  if path_cost (get_port s p) =? cost then Some s
  else stp_reconfigure (set_port s p (fun x => x {{ path_cost := cost }})).

Definition stp_port_set_speed (s : stp) (p : nat) (speed : Z) : option stp :=
  stp_port_set_path_cost s p (stp_convert_speed_to_cost speed).

Definition stp_port_enable_change_detection (s : stp) (p : nat) : stp :=
  set_port s p (fun x => x {{ change_detection_enabled := true }}).
Definition stp_port_disable_change_detection (s : stp) (p : nat) : stp :=
  set_port s p (fun x => x {{ change_detection_enabled := false }}).

(** ** Creation *)

Definition create_port (s : stp) (p : nat) : option stp :=
  stp_initialize_port
    (set_port s p (fun x => x {{ port_id := Z.lor (Z.of_nat p + 1) (Z.shiftl STP_DEFAULT_PORT_PRIORITY 8); path_cost := 2 }}))
    p STP_DISABLED.

Fixpoint create_ports (s : stp) (l : list nat) : option stp :=
  match l with
  | [] => Some s
  | p :: l => s ← create_port s p; create_ports s l
  end.

Definition stp_create (id : Z) : option stp :=
  let id := if Z.shiftr id 48 =? 0 then Z.lor id (Z.shiftl STP_DEFAULT_BRIDGE_PRIORITY 48) else id in
  let s := Stp id 0 0 0 0 0 0 STP_DEFAULT_MAX_AGE STP_DEFAULT_HELLO_TIME STP_DEFAULT_FWD_DELAY 0 0 0 None false false
             zero_timer zero_timer zero_timer (replicate STP_MAX_PORTS zero_port) false 0 [] in
  s ← stp_update_bridge_timers s;
  let s := use_bridge_times s in
  let s := s {{ designated_root := bridge_id s; root_path_cost := 0; root_port := None; topology_change_detected := false;
                topology_change := false; tcn_timer := stp_stop_timer (tcn_timer s);
                topology_change_timer := stp_stop_timer (topology_change_timer s);
                hello_timer := stp_start_timer (hello_time s);
                first_changed_port := STP_MAX_PORTS }} in
  create_ports s (seq 0 STP_MAX_PORTS).

(** The command that forces a topology change, for one bridge. *)
Definition stp_unixctl_tcn (s : stp) : stp := stp_topology_change_detection s.

(** ** Calls *)

Inductive stp_call :=
| Tick (ms : Z)
| Set_bridge_id (id : Z)
| Set_bridge_priority (priority : Z)
| Set_hello_time (ms : Z)
| Set_max_age (ms : Z)
| Set_forward_delay (ms : Z)
| Reset_fdb_flush
| Force_topology_change
| Next_changed_port
| Receive_packet (port_no : Z) (packet : list Z)
| Port_enable (port_no : Z)
| Port_disable (port_no : Z)
| Port_set_priority (port_no priority : Z)
| Port_set_path_cost (port_no cost : Z)
| Port_set_speed (port_no speed : Z)
| Port_change_detection (port_no : Z) (enable : bool).

Definition stp_do (s : stp) (c : stp_call) : option stp :=
  match c with
  | Tick ms => stp_tick s ms
  | Set_bridge_id id => stp_set_bridge_id s id
  | Set_bridge_priority priority => stp_set_bridge_priority s priority
  | Set_hello_time ms => stp_set_hello_time s ms
  | Set_max_age ms => stp_set_max_age s ms
  | Set_forward_delay ms => stp_set_forward_delay s ms
  | Reset_fdb_flush => Some (stp_check_and_reset_fdb_flush s).2
  | Force_topology_change => Some (stp_unixctl_tcn s)
  | Next_changed_port => Some (stp_get_changed_port s).2
  | Receive_packet port_no packet => p ← stp_get_port port_no; stp_process_packet s p packet
  | Port_enable port_no => p ← stp_get_port port_no; stp_port_enable s p
  | Port_disable port_no => p ← stp_get_port port_no; stp_port_disable s p
  | Port_set_priority port_no priority => p ← stp_get_port port_no; Some (stp_port_set_priority s p priority)
  | Port_set_path_cost port_no cost => p ← stp_get_port port_no; stp_port_set_path_cost s p cost
  | Port_set_speed port_no speed => p ← stp_get_port port_no; stp_port_set_speed s p speed
  | Port_change_detection port_no enable =>
    p ← stp_get_port port_no;
    Some (if enable : bool then stp_port_enable_change_detection s p else stp_port_disable_change_detection s p)
  end.

Fixpoint stp_history (s : stp) (l : list stp_call) : option stp :=
  match l with
  | [] => Some s
  | c :: l => s ← stp_do s c; stp_history s l
  end.
