(* ===== verification/StpProps.v ===== *)
(** * Spanning tree protocol: invariant

    What the operations leave alone, the invariant of a bridge, and that every
    call keeps it. *)

From S2P Require Import Prelude Util MetaFlow MetaFields Packet Stp.
From stdpp Require Import prelude list.
From coqutil Require Import Datatypes.RecordSetters.
From Stdlib Require Import ZArith Lia.
Import DoubleBraceUpdate.
Open Scope Z_scope.
Open Scope ovs_scope.

(** ** Ports *)

Lemma get_set_port (s : stp) (p q : nat) (f : stp_port -> stp_port) :
  (p < length (ports s))%nat -> get_port (set_port s p f) q = if (q =? p)%nat then f (get_port s q) else get_port s q.
Proof.
  intros Hp. unfold get_port, set_port. cbn [ports]. change (ports (apply_update _ s)) with (alter f p (ports s)).
  rewrite !nth_lookup. destruct (Nat.eqb_spec q p) as [->|Hne].
  - rewrite list_lookup_alter_eq. destruct (lookup_lt_is_Some_2 (ports s) p Hp) as [x ->]. done.
  - by rewrite list_lookup_alter_ne.
Qed.

Lemma length_set_port (s : stp) (p : nat) (f : stp_port -> stp_port) : length (ports (set_port s p f)) = length (ports s).
Proof. unfold set_port. change (ports (apply_update _ s)) with (alter f p (ports s)). apply length_alter. Qed.

(** ** What sending leaves alone *)

(** A port without what sending a BPDU changes. *)
Definition quiet_port (x : stp_port) : stp_port :=
  StpPort (port_id x) (port_state x) (path_cost x) (port_designated_root x) (designated_cost x) (designated_bridge x)
    (designated_port x) false false (change_detection_enabled x) (message_age_timer x) (forward_delay_timer x) zero_timer 0 0 0
    (state_changed x).

(** A bridge without the BPDUs, the timers that start them, and what is
    known of topology changes. *)
Definition quiet (s : stp) : stp :=
  Stp (bridge_id s) (max_age s) (hello_time s) (forward_delay s) (bridge_max_age s) (bridge_hello_time s)
    (bridge_forward_delay s) (rq_max_age s) (rq_hello_time s) (rq_forward_delay s) (elapsed_remainder s) (designated_root s)
    (root_path_cost s) (root_port s) false false zero_timer zero_timer zero_timer (map quiet_port (ports s)) false
    (first_changed_port s) [].

(** The part of a port that decides about roles. *)
Definition info (x : stp_port) : stp_port :=
  StpPort (port_id x) (port_state x) (path_cost x) (port_designated_root x) (designated_cost x) (designated_bridge x)
    (designated_port x) false false false zero_timer zero_timer zero_timer 0 0 0 (state_changed x).

Definition roles (s : stp) : stp :=
  Stp (bridge_id s) 0 0 0 0 0 0 0 0 0 0 (designated_root s) (root_path_cost s) (root_port s) false false zero_timer zero_timer
    zero_timer (map info (ports s)) false (first_changed_port s) [].

Lemma map_alter_same {A} (g : A -> A) (f : A -> A) (p : nat) (l : list A) :
  (forall x, g (f x) = g x) -> map g (alter f p l) = map g l.
Proof.
  intros Hf. revert p. induction l as [|x l IH]; intros [|p]; cbn; [done|done| |].
  - by rewrite Hf.
  - by rewrite <- (IH p).
Qed.

Lemma quiet_set_port (s : stp) (p : nat) (f : stp_port -> stp_port) :
  (forall x, quiet_port (f x) = quiet_port x) -> quiet (set_port s p f) = quiet s.
Proof.
  intros Hf. unfold quiet, set_port. change (ports (apply_update _ s)) with (alter f p (ports s)).
  by rewrite map_alter_same.
Qed.

Lemma roles_set_port (s : stp) (p : nat) (f : stp_port -> stp_port) :
  (forall x, info (f x) = info x) -> roles (set_port s p f) = roles s.
Proof.
  intros Hf. unfold roles, set_port. change (ports (apply_update _ s)) with (alter f p (ports s)).
  by rewrite map_alter_same.
Qed.

Lemma roles_quiet (s : stp) : roles (quiet s) = roles s.
Proof. unfold roles, quiet. cbn. by rewrite map_map. Qed.

Lemma quiet_roles (s s' : stp) : quiet s' = quiet s -> roles s' = roles s.
Proof. intros E. by rewrite <- roles_quiet, E, roles_quiet. Qed.

Lemma get_port_roles (s : stp) (p : nat) : get_port (roles s) p = info (get_port s p).
Proof. unfold get_port, roles. cbn [ports]. change zero_port with (info zero_port) at 1. by rewrite map_nth. Qed.

Lemma get_port_quiet (s : stp) (p : nat) : get_port (quiet s) p = quiet_port (get_port s p).
Proof. unfold get_port, quiet. cbn [ports]. change zero_port with (quiet_port zero_port) at 1. by rewrite map_nth. Qed.

Lemma quiet_set_hello_timer (s : stp) (t : stp_timer) : quiet (s {{ hello_timer := t }}) = quiet s.
Proof. done. Qed.

Lemma quiet_set_tcn_timer (s : stp) (t : stp_timer) : quiet (s {{ tcn_timer := t }}) = quiet s.
Proof. done. Qed.

Lemma quiet_send_bpdu (s : stp) (p : nat) (bpdu : list Z) : quiet (stp_send_bpdu s p bpdu) = quiet s.
Proof. unfold stp_send_bpdu. by rewrite quiet_set_port. Qed.

Lemma quiet_transmit_config (s : stp) (p : nat) : quiet (stp_transmit_config s p) = quiet s.
Proof.
  unfold stp_transmit_config. destruct (_ && _); [done|]. destruct (tm_active _); [by rewrite quiet_set_port|].
  destruct (_ <? _); [|done]. by rewrite quiet_set_port, quiet_send_bpdu, quiet_set_port.
Qed.

Lemma quiet_for_each (body : stp -> nat -> stp) (s : stp) :
  (forall s p, quiet (body s p) = quiet s) -> quiet (FOR_EACH_ENABLED_PORT body s) = quiet s.
Proof.
  intros Hb. unfold FOR_EACH_ENABLED_PORT. generalize (seq 0 STP_MAX_PORTS). intros l. revert s.
  induction l as [|p l IH]; intros s; [done|]. cbn [foldl]. rewrite IH. by destruct (port_enabled s p).
Qed.

Lemma quiet_config_bpdu_generation (s : stp) : quiet (stp_config_bpdu_generation s) = quiet s.
Proof. apply quiet_for_each. intros s' p. destruct (stp_is_designated_port s' p); [apply quiet_transmit_config|done]. Qed.

Lemma quiet_transmit_tcn (s : stp) : quiet (stp_transmit_tcn s) = quiet s.
Proof. unfold stp_transmit_tcn. destruct (root_port s); [apply quiet_send_bpdu|done]. Qed.

Lemma quiet_topology_change_detection (s : stp) : quiet (stp_topology_change_detection s) = quiet s.
Proof.
  unfold stp_topology_change_detection. destruct (stp_is_root_bridge s); [done|]. destruct (negb _); [|done].
  exact (quiet_transmit_tcn s).
Qed.

Lemma quiet_acknowledge_topology_change (s : stp) (p : nat) : quiet (stp_acknowledge_topology_change s p) = quiet s.
Proof. unfold stp_acknowledge_topology_change. by rewrite quiet_transmit_config, quiet_set_port. Qed.

Lemma quiet_received_tcn_bpdu (s : stp) (p : nat) : quiet (stp_received_tcn_bpdu s p) = quiet s.
Proof.
  unfold stp_received_tcn_bpdu. destruct (bool_decide _); [done|]. destruct (stp_is_designated_port s p); [|done].
  by rewrite quiet_acknowledge_topology_change, quiet_topology_change_detection.
Qed.

Lemma quiet_hello_timer_expiry (s : stp) : quiet (stp_hello_timer_expiry s) = quiet s.
Proof. unfold stp_hello_timer_expiry. by rewrite quiet_set_hello_timer, quiet_config_bpdu_generation. Qed.

Lemma quiet_tcn_timer_expiry (s : stp) : quiet (stp_tcn_timer_expiry s) = quiet s.
Proof. unfold stp_tcn_timer_expiry. by rewrite quiet_set_tcn_timer, quiet_transmit_tcn. Qed.

Lemma quiet_hold_timer_expiry (s : stp) (p : nat) : quiet (stp_hold_timer_expiry s p) = quiet s.
Proof. unfold stp_hold_timer_expiry. destruct (config_pending _); [apply quiet_transmit_config|done]. Qed.

Lemma roles_become_root_bridge (s : stp) : roles (stp_become_root_bridge s) = roles s.
Proof.
  unfold stp_become_root_bridge. rewrite (quiet_roles _ _ (quiet_set_hello_timer _ _)), (quiet_roles _ _ (quiet_config_bpdu_generation _)).
  by rewrite (quiet_roles _ _ (quiet_set_tcn_timer _ _)), (quiet_roles _ _ (quiet_topology_change_detection _)).
Qed.

(** ** Loops over the ports *)

(** The bridge without its ports. *)
Definition bridge (s : stp) : stp := (quiet s) {{ ports := []; first_changed_port := 0%nat }}.

Lemma bridge_set_port (s : stp) (p : nat) (f : stp_port -> stp_port) : bridge (set_port s p f) = bridge s.
Proof. done. Qed.

Lemma bridge_quiet (s s' : stp) : quiet s' = quiet s -> bridge s' = bridge s.
Proof. intros E. unfold bridge. by rewrite E. Qed.

Lemma quiet_ports (s s' : stp) :
  quiet s' = quiet s -> length (ports s') = length (ports s) /\ forall q, quiet_port (get_port s' q) = quiet_port (get_port s q).
Proof.
  intros E. split.
  - assert (length (ports (quiet s')) = length (ports (quiet s))) as El by (by rewrite E).
    unfold quiet in El. cbn [ports] in El. by rewrite !length_map in El.
  - intros q. by rewrite <- !get_port_quiet, E.
Qed.

Lemma quiet_enabled (s s' : stp) (p : nat) :
  quiet_port (get_port s' p) = quiet_port (get_port s p) -> port_enabled s' p = port_enabled s p.
Proof. intros E. unfold port_enabled. injection E as _ -> _. done. Qed.

(** [f] happens to port [p], and nothing to the others. *)
Definition port_step (f : stp_port -> stp_port) (p : nat) (s s' : stp) : Prop :=
  bridge s' = bridge s /\ length (ports s') = length (ports s) /\
  forall q, quiet_port (get_port s' q) = quiet_port (if (q =? p)%nat then f (get_port s q) else get_port s q).

Lemma port_step_quiet (f : stp_port -> stp_port) (p : nat) (s s' : stp) :
  quiet s' = quiet s -> quiet_port (f (get_port s p)) = quiet_port (get_port s p) -> port_step f p s s'.
Proof.
  intros E Hf. destruct (quiet_ports s s' E) as [El Eq]. split_and!; [by apply bridge_quiet|done|].
  intros q. rewrite Eq. by destruct (Nat.eqb_spec q p) as [->|].
Qed.

Lemma port_step_set (f g : stp_port -> stp_port) (p : nat) (s : stp) :
  (p < length (ports s))%nat -> quiet_port (f (get_port s p)) = quiet_port (g (get_port s p)) -> port_step f p s (set_port s p g).
Proof.
  intros Hp E. split_and!; [done|apply length_set_port|].
  intros q. rewrite get_set_port by done. by destruct (Nat.eqb_spec q p) as [->|].
Qed.

(** A function of what [quiet_port] keeps. *)
Definition quiet_fun (f : stp_port -> stp_port) : Prop :=
  forall x x', quiet_port x' = quiet_port x -> quiet_port (f x') = quiet_port (f x).

Lemma port_step_trans (f g : stp_port -> stp_port) (p : nat) (s s1 s2 : stp) :
  quiet_fun g -> port_step f p s s1 -> port_step g p s1 s2 -> port_step (fun x => g (f x)) p s s2.
Proof.
  intros Hg (B1 & L1 & E1) (B2 & L2 & E2). split_and!; [congruence|congruence|]. intros q. rewrite E2. specialize (E1 q).
  destruct (q =? p)%nat; [by apply Hg|done].
Qed.

Section ForEach.
Variable body : stp -> nat -> stp.
Variable F : stp -> nat -> stp_port -> stp_port.
Hypothesis HF : forall s s' p, bridge s' = bridge s -> forall x x', quiet_port x' = quiet_port x -> quiet_port (F s' p x') = quiet_port (F s p x).
Hypothesis Hbody : forall s p, (p < length (ports s))%nat -> port_step (F s p) p s (body s p).

Lemma for_each_list (l : list nat) (s : stp) :
  NoDup l -> Forall (fun p => p < length (ports s))%nat l ->
  let s' := foldl (fun s p => if port_enabled s p then body s p else s) s l in
  bridge s' = bridge s /\ length (ports s') = length (ports s) /\
  forall q, quiet_port (get_port s' q) =
    quiet_port (if bool_decide (q ∈ l) && port_enabled s q then F s q (get_port s q) else get_port s q).
Proof.
  revert s. induction l as [|p l IH]; intros s Hnd Hl.
  { split_and!; [done|done|]. intros q. rewrite bool_decide_eq_false_2; [done|]. apply not_elem_of_nil. }
  apply NoDup_cons in Hnd as [Hp Hnd]. apply Forall_cons_1 in Hl as [Hlt Hl]. cbn [foldl].
  set (s1 := if port_enabled s p then body s p else s).
  assert (bridge s1 = bridge s /\ length (ports s1) = length (ports s) /\
    forall q, quiet_port (get_port s1 q) =
      quiet_port (if (q =? p)%nat && port_enabled s q then F s q (get_port s q) else get_port s q)) as (Eb & El & Eq).
  { unfold s1. destruct (port_enabled s p) eqn:Ep.
    - destruct (Hbody s p Hlt) as (Eb & El & Eq). split_and!; [done|done|]. intros q. rewrite Eq.
      destruct (Nat.eqb_spec q p) as [->|]; [by rewrite Ep|done].
    - split_and!; [done|done|]. intros q. destruct (Nat.eqb_spec q p) as [->|]; [by rewrite Ep|done]. }
  destruct (IH s1 Hnd) as (Eb' & El' & Eq'); [by rewrite El|].
  split_and!; [congruence|congruence|]. intros q. rewrite Eq'.
  destruct (Nat.eqb_spec q p) as [->|Hne]; cbn [andb] in Eq.
  - rewrite (bool_decide_eq_false_2 (p ∈ l)) by done. rewrite (bool_decide_eq_true_2 (p ∈ p :: l)) by (apply list_elem_of_here).
    cbn [andb]. rewrite Eq. by rewrite Nat.eqb_refl.
  - specialize (Eq q). destruct (Nat.eqb_spec q p) as [|_]; [done|]. cbn [andb] in Eq.
    rewrite (quiet_enabled _ _ _ Eq). assert (bool_decide (q ∈ p :: l) = bool_decide (q ∈ l)) as ->.
    { apply bool_decide_ext. rewrite elem_of_cons. split; [by intros [|]|by right]. }
    destruct (bool_decide (q ∈ l) && port_enabled s q); [by apply HF|done].
Qed.

Lemma for_each_spec (s : stp) :
  length (ports s) = STP_MAX_PORTS ->
  let s' := FOR_EACH_ENABLED_PORT body s in
  bridge s' = bridge s /\ length (ports s') = STP_MAX_PORTS /\
  forall q, (q < STP_MAX_PORTS)%nat ->
    quiet_port (get_port s' q) = quiet_port (if port_enabled s q then F s q (get_port s q) else get_port s q).
Proof.
  intros Hlen. destruct (for_each_list (seq 0 STP_MAX_PORTS) s) as (Eb & El & Eq); [apply NoDup_seq| |].
  { apply Forall_forall. intros p Hp%elem_of_seq. rewrite Hlen. lia. }
  split_and!; [exact Eb|by rewrite <- Hlen|]. intros q Hq. unfold FOR_EACH_ENABLED_PORT. rewrite Eq.
  rewrite bool_decide_eq_true_2; [done|]. apply elem_of_seq. lia.
Qed.
End ForEach.

(** ** Designated ports *)

Definition designate (s : stp) (x : stp_port) : stp_port :=
  x {{ port_designated_root := designated_root s; designated_cost := to_int (root_path_cost s);
       designated_bridge := bridge_id s; designated_port := port_id x }}.

Lemma bridge_fields (s s' : stp) :
  bridge s' = bridge s ->
  bridge_id s' = bridge_id s /\ designated_root s' = designated_root s /\ root_path_cost s' = root_path_cost s /\ root_port s' = root_port s.
Proof.
  intros E. split_and!; [change (bridge_id (bridge s') = bridge_id (bridge s))|change (designated_root (bridge s') = designated_root (bridge s))|
    change (root_path_cost (bridge s') = root_path_cost (bridge s))|change (root_port (bridge s') = root_port (bridge s))]; by rewrite E.
Qed.

Lemma bridge_times (s s' : stp) :
  bridge s' = bridge s ->
  max_age s' = max_age s /\ hello_time s' = hello_time s /\ forward_delay s' = forward_delay s /\
  bridge_max_age s' = bridge_max_age s /\ bridge_hello_time s' = bridge_hello_time s /\
  bridge_forward_delay s' = bridge_forward_delay s /\ elapsed_remainder s' = elapsed_remainder s.
Proof.
  intros E. split_and!; [change (max_age (bridge s') = max_age (bridge s))|change (hello_time (bridge s') = hello_time (bridge s))|
    change (forward_delay (bridge s') = forward_delay (bridge s))|change (bridge_max_age (bridge s') = bridge_max_age (bridge s))|
    change (bridge_hello_time (bridge s') = bridge_hello_time (bridge s))|
    change (bridge_forward_delay (bridge s') = bridge_forward_delay (bridge s))|
    change (elapsed_remainder (bridge s') = elapsed_remainder (bridge s))]; by rewrite E.
Qed.

Lemma designated_port_selection_spec (s : stp) :
  length (ports s) = STP_MAX_PORTS ->
  let s' := stp_designated_port_selection s in
  bridge s' = bridge s /\ length (ports s') = STP_MAX_PORTS /\
  forall q, (q < STP_MAX_PORTS)%nat ->
    quiet_port (get_port s' q) =
    quiet_port (if port_enabled s q && should_be_designated s (get_port s q) then designate s (get_port s q) else get_port s q).
Proof.
  intros Hlen. unfold stp_designated_port_selection. destruct (for_each_spec
    (fun s p => if should_be_designated s (get_port s p) then stp_become_designated_port s p else s)
    (fun s _ x => if should_be_designated s x then designate s x else x)) with (s := s) as (Eb & El & Eq).
  - intros s1 s2 _ Eb x x' Ex. destruct (bridge_fields s1 s2 Eb) as (E1 & E2 & E3 & E4).
    assert (should_be_designated s2 x' = should_be_designated s1 x) as ->.
    { unfold should_be_designated, is_designated. injection Ex as -> _ _ -> -> -> -> _ _ _ _. by rewrite E1, E2, E3. }
    destruct (should_be_designated s1 x); [|done]. unfold designate. rewrite E1, E2, E3.
    destruct x, x'. injection Ex as -> -> -> _ _ _ _ -> -> -> ->. done.
  - intros s1 p Hp. destruct (should_be_designated s1 (get_port s1 p)) eqn:Es.
    + apply port_step_set; [done|]. by rewrite Es.
    + apply port_step_quiet; [done|]. by rewrite Es.
  - done.
  - split_and!; [done|done|]. intros q Hq. rewrite (Eq q Hq). by destruct (port_enabled s q).
Qed.

(** ** States *)

Definition set_state (st : stp_state) (x : stp_port) : stp_port :=
  x {{ state_changed := state_changed x || negb (bool_decide (st = port_state x)); port_state := st }}.

Definition forwarding (x : stp_port) : stp_port :=
  if bool_decide (port_state x = STP_BLOCKING) then (set_state STP_LISTENING x) {{ forward_delay_timer := stp_start_timer 0 }} else x.

Definition blocking (x : stp_port) : stp_port :=
  if stp_in_states (port_state x) [STP_DISABLED; STP_BLOCKING] then x
  else (set_state STP_BLOCKING x) {{ forward_delay_timer := stp_stop_timer (forward_delay_timer x) }}.

Definition selected (s : stp) (p : nat) (x : stp_port) : stp_port :=
  if bool_decide (root_port s = Some p) then forwarding x
  else if is_designated s x then forwarding (stop_message_age x)
  else blocking x.

Lemma set_port_state_step (s : stp) (p : nat) (st : stp_state) :
  (p < length (ports s))%nat -> port_step (set_state st) p s (stp_set_port_state s p st).
Proof.
  intros Hp. unfold stp_set_port_state. set (x := get_port s p). unfold set_state.
  destruct (bool_decide (st = port_state x)) eqn:E1, (state_changed x) eqn:E2; cbn [negb andb].
  1, 2, 3: apply port_step_set; [done|]; fold x; cbv beta; rewrite E1, E2; cbn [orb negb]; rewrite <- ?E2; by destruct x.
  set (s1 := set_port s p _). set (s2 := if (_ <? _)%nat then _ else _).
  assert (bridge s2 = bridge s /\ ports s2 = ports s1) as [Eb Ep] by (unfold s2; destruct (_ <? _)%nat; done).
  assert (length (ports s2) = length (ports s)) as El by (by rewrite Ep; apply length_set_port).
  split_and!; [done|by rewrite length_set_port|]. intros q. rewrite get_set_port by (by rewrite El).
  assert (forall q, get_port s2 q = get_port s1 q) as Eg by (intros; unfold get_port; by rewrite Ep). rewrite Eg.
  unfold s1. rewrite get_set_port by done. destruct (Nat.eqb_spec q p) as [->|]; [|done]. fold x. cbv beta. rewrite E1, E2.
  by destruct x.
Qed.

(** Two ports that [quiet_port] does not tell apart, field by field. *)
Ltac quiet_fields :=
  let x := fresh in let x' := fresh in let E := fresh in
  intros x x' E; destruct x, x'; injection E as -> -> -> -> -> -> -> -> -> -> ->.

Lemma quiet_set_state (st : stp_state) : quiet_fun (set_state st).
Proof. by quiet_fields. Qed.

Lemma quiet_set_forward_delay (g : stp_timer -> stp_timer) :
  quiet_fun (fun x => x {{ forward_delay_timer := g (forward_delay_timer x) }}).
Proof. by quiet_fields. Qed.

Lemma quiet_forwarding : quiet_fun forwarding.
Proof. quiet_fields. unfold forwarding. cbn [Stp.port_state]. by destruct (bool_decide _). Qed.

Lemma quiet_blocking : quiet_fun blocking.
Proof. quiet_fields. unfold blocking. cbn [Stp.port_state]. by destruct (stp_in_states _ _). Qed.

Lemma quiet_stop_message_age : quiet_fun stop_message_age.
Proof. by quiet_fields. Qed.

Lemma port_step_ext (f g : stp_port -> stp_port) (p : nat) (s s' : stp) :
  quiet_port (f (get_port s p)) = quiet_port (g (get_port s p)) -> port_step g p s s' -> port_step f p s s'.
Proof.
  intros E (Eb & El & Eq). split_and!; [done|done|]. intros q. rewrite Eq. by destruct (Nat.eqb_spec q p) as [->|].
Qed.

Lemma port_step_length (f : stp_port -> stp_port) (p : nat) (s s' : stp) : port_step f p s s' -> length (ports s') = length (ports s).
Proof. by intros (_ & ? & _). Qed.

Lemma make_forwarding_step (s : stp) (p : nat) : (p < length (ports s))%nat -> port_step forwarding p s (stp_make_forwarding s p).
Proof.
  intros Hp. unfold stp_make_forwarding. destruct (bool_decide (port_state (get_port s p) = STP_BLOCKING)) eqn:E.
  - pose proof (set_port_state_step s p STP_LISTENING Hp) as H1. pose proof (port_step_length _ _ _ _ H1) as El.
    eapply port_step_ext; [|apply (port_step_trans _ (fun x => x {{ forward_delay_timer := stp_start_timer 0 }}) _ _ _ _
      (quiet_set_forward_delay (fun _ => stp_start_timer 0)) H1), port_step_set; [by rewrite El|reflexivity]].
    unfold forwarding. by rewrite E.
  - apply port_step_quiet; [done|]. unfold forwarding. by rewrite E.
Qed.

Lemma make_blocking_step (s : stp) (p : nat) : (p < length (ports s))%nat -> port_step blocking p s (stp_make_blocking s p).
Proof.
  intros Hp. unfold stp_make_blocking. destruct (stp_in_states (port_state (get_port s p)) [STP_DISABLED; STP_BLOCKING]) eqn:E; cbn [negb].
  { apply port_step_quiet; [done|]. unfold blocking. by rewrite E. }
  set (s1 := if _ && _ then _ else s).
  assert (quiet s1 = quiet s) as Eq by (unfold s1; destruct (_ && _); [apply quiet_topology_change_detection|done]).
  destruct (quiet_ports _ _ Eq) as [El _].
  pose proof (set_port_state_step s1 p STP_BLOCKING ltac:(lia)) as H1. pose proof (port_step_length _ _ _ _ H1) as El1.
  assert (port_step (fun x => x) p s s1) as H0 by (by apply port_step_quiet).
  eapply port_step_ext; [|apply (port_step_trans _ _ _ _ _ _ (quiet_set_forward_delay stp_stop_timer)
    (port_step_trans _ _ _ _ _ _ (quiet_set_state STP_BLOCKING) H0 H1)), port_step_set; [lia|reflexivity]].
  unfold blocking. by rewrite E.
Qed.

Lemma select_port_state_step (s : stp) (p : nat) : (p < length (ports s))%nat -> port_step (selected s p) p s (select_port_state s p).
Proof.
  intros Hp. unfold select_port_state, selected. unfold stp_is_designated_port.
  assert (port_step (fun x => x) p s (set_port s p clear_pending)) as Hc by (by apply port_step_set).
  assert (port_step stop_message_age p s (set_port s p stop_message_age)) as Hm by (by apply port_step_set).
  destruct (bool_decide (root_port s = Some p)).
  - apply (port_step_trans _ _ _ _ _ _ quiet_forwarding Hc), make_forwarding_step. by rewrite length_set_port.
  - destruct (is_designated s (get_port s p)) eqn:E.
    + eapply port_step_ext; [|apply (port_step_trans _ _ _ _ _ _ quiet_forwarding Hm), make_forwarding_step; by rewrite length_set_port].
      by rewrite E.
    + eapply port_step_ext; [|apply (port_step_trans _ _ _ _ _ _ quiet_blocking Hc), make_blocking_step; by rewrite length_set_port].
      by rewrite E.
Qed.

Lemma port_state_selection_spec (s : stp) :
  length (ports s) = STP_MAX_PORTS ->
  let s' := stp_port_state_selection s in
  bridge s' = bridge s /\ length (ports s') = STP_MAX_PORTS /\
  forall q, (q < STP_MAX_PORTS)%nat ->
    quiet_port (get_port s' q) = quiet_port (if port_enabled s q then selected s q (get_port s q) else get_port s q).
Proof.
  intros Hlen. unfold stp_port_state_selection. apply for_each_spec; [|apply select_port_state_step|done].
  intros s1 s2 p Eb x x' Ex. destruct (bridge_fields s1 s2 Eb) as (E1 & _ & _ & E4). unfold selected. rewrite E4.
  destruct (bool_decide _); [by apply quiet_forwarding|].
  assert (is_designated s2 x' = is_designated s1 x) as -> by (unfold is_designated; injection Ex as -> _ _ _ _ -> -> _ _ _ _; by rewrite E1).
  destruct (is_designated s1 x); [by apply quiet_forwarding, quiet_stop_message_age|by apply quiet_blocking].
Qed.
