(* ===== verification/StpRoot.v ===== *)
(** * Spanning tree protocol: the election

    The root port is the port with the best priority vector, in the
    lexicographic order, and the designated ports are those where the bridge
    offers a better path than what the port heard. *)

From S2P Require Import Prelude Util MetaFlow MetaFields Packet Stp StpProps.
From stdpp Require Import prelude list.
From coqutil Require Import Datatypes.RecordSetters.
From Stdlib Require Import ZArith Lia.
Import DoubleBraceUpdate.
Open Scope Z_scope.
Open Scope ovs_scope.

(** ** The lexicographic order *)

Fixpoint lex_lt (l k : list Z) : bool :=
  match l, k with
  | x :: l, y :: k => (x <? y) || ((x =? y) && lex_lt l k)
  | _, _ => false
  end.

Lemma lex_lt_irrefl (l : list Z) : lex_lt l l = false.
Proof. induction l as [|x l IH]; [done|]. cbn. by rewrite Z.ltb_irrefl, Z.eqb_refl, IH. Qed.

Lemma lex_lt_trans (l k m : list Z) :
  length l = length k -> length k = length m -> lex_lt l k = true -> lex_lt k m = true -> lex_lt l m = true.
Proof.
  revert k m. induction l as [|x l IH]; intros [|y k] [|z m] H1 H2; try done. cbn in *.
  rewrite !orb_true_iff, !andb_true_iff, !Z.ltb_lt, !Z.eqb_eq. intros [?|[-> ?]] [?|[-> ?]].
  - left. lia.
  - by left.
  - by left.
  - right. split; [done|]. apply (IH k); [lia|lia|done|done].
Qed.

Lemma lex_lt_total (l k : list Z) : length l = length k -> lex_lt l k = false -> lex_lt k l = false -> l = k.
Proof.
  revert k. induction l as [|x l IH]; intros [|y k] H; try done. cbn in *.
  rewrite !orb_false_iff, !andb_false_iff, !Z.ltb_ge, !Z.eqb_neq. intros [? [?|?]] [? [?|?]]; try lia.
  assert (x = y) as -> by lia. f_equal. apply IH; [lia|done|done].
Qed.

(** ** Priority vectors *)

(** What a port heard, with the cost of the port itself added. *)
Definition root_vector (x : stp_port) : list Z :=
  [port_designated_root x; designated_cost x + path_cost x; designated_bridge x; designated_port x; port_id x].

(** What a port heard, and what the bridge offers there. *)
Definition heard_vector (x : stp_port) : list Z := [designated_cost x; designated_bridge x; designated_port x].
Definition offered_vector (s : stp) (x : stp_port) : list Z := [root_path_cost s; bridge_id s; port_id x].

(** The largest cost to which the cost of a port can be added. *)
Definition COST_MAX : Z := INT_MAX - 65535.

Definition path_ok (x : stp_port) : Prop := 0 <= path_cost x <= 65535 /\ 0 <= designated_cost x <= COST_MAX.

Lemma path_ok_sum (x : stp_port) : path_ok x -> int (designated_cost x + path_cost x) = Some (designated_cost x + path_cost x).
Proof. intros [H1 H2]. apply int_some. unfold COST_MAX, INT_MIN, INT_MAX in *. lia. Qed.

Lemma supersedes_root_lex (r x : stp_port) :
  path_ok r -> path_ok x -> stp_supersedes_root r x = Some (lex_lt (root_vector x) (root_vector r)).
Proof.
  intros Hr Hx. unfold stp_supersedes_root. rewrite !path_ok_sum by done. cbn [mbind option_bind root_vector lex_lt]. f_equal.
  repeat match goal with |- context [negb (?a =? ?b)] => destruct (Z.eqb_spec a b) as [?|?]; cbn [negb] end; lia.
Qed.

Lemma should_be_designated_lex (s : stp) (x : stp_port) :
  0 <= designated_cost x <= INT_MAX ->
  should_be_designated s x =
  is_designated s x || negb (port_designated_root x =? designated_root s) || negb (lex_lt (heard_vector x) (offered_vector s x)).
Proof.
  intros Hc. unfold should_be_designated. rewrite (wrap_small 32) by (unfold in_width, INT_MAX in *; lia).
  destruct (is_designated s x); [done|]. destruct (port_designated_root x =? designated_root s); [|done]. cbn.
  lia.
Qed.

(** ** The election *)

Definition candidate (s : stp) (p : nat) : bool := port_enabled s p && root_candidate s p.

(** [r] is the best candidate among [l]. *)
Definition is_best (s : stp) (l : list nat) (r : option nat) : Prop :=
  match r with
  | None => forall q, q ∈ l -> candidate s q = false
  | Some r => r ∈ l /\ candidate s r = true /\
    forall q, q ∈ l -> candidate s q = true -> lex_lt (root_vector (get_port s q)) (root_vector (get_port s r)) = false
  end.

Lemma is_best_none (s : stp) (l : list nat) (r : option nat) (p : nat) :
  is_best s l r -> candidate s p = false -> is_best s (l ++ [p]) r.
Proof.
  destruct r as [r|]; unfold is_best.
  - intros (H1 & H2 & H3) Hp. split_and!; [apply elem_of_app; by left|done|]. intros q [Hq| ->%list_elem_of_singleton]%elem_of_app Hc; [by apply H3|congruence].
  - intros H1 Hp q [Hq| ->%list_elem_of_singleton]%elem_of_app; [by apply H1|done].
Qed.

Lemma is_best_some (s : stp) (l : list nat) (r : option nat) (p : nat) :
  is_best s l r -> candidate s p = true ->
  is_best s (l ++ [p]) (Some match r with
    | None => p
    | Some r => if lex_lt (root_vector (get_port s p)) (root_vector (get_port s r)) then p else r
    end).
Proof.
  intros Hb Hp. destruct r as [r|]; unfold is_best in *.
  - destruct Hb as (H1 & H2 & H3). destruct (lex_lt (root_vector (get_port s p)) (root_vector (get_port s r))) eqn:E.
    + split_and!; [apply elem_of_app; right; by apply list_elem_of_singleton|done|]. intros q [Hq| ->%list_elem_of_singleton]%elem_of_app Hc; [|apply lex_lt_irrefl].
      destruct (lex_lt (root_vector (get_port s q)) _) eqn:E'; [|done].
      rewrite <- (H3 q Hq Hc). symmetry. by apply (lex_lt_trans _ (root_vector (get_port s p))).
    + split_and!; [apply elem_of_app; by left|done|]. intros q [Hq| ->%list_elem_of_singleton]%elem_of_app Hc; [by apply H3|done].
  - split_and!; [apply elem_of_app; right; by apply list_elem_of_singleton|done|]. intros q [Hq| ->%list_elem_of_singleton]%elem_of_app Hc; [|apply lex_lt_irrefl].
    by rewrite Hb in Hc.
Qed.

Lemma select_root_best (s : stp) (l done_ : list nat) (root : option nat) :
  (forall q, candidate s q = true -> path_ok (get_port s q)) -> is_best s done_ root ->
  exists r, select_root s root l = Some r /\ is_best s (done_ ++ l) r.
Proof.
  intros Hok. revert root done_. induction l as [|p l IH]; intros root done_ Hb.
  { exists root. by rewrite app_nil_r. }
  cbn [select_root]. fold (candidate s p). replace (done_ ++ p :: l) with ((done_ ++ [p]) ++ l) by (by rewrite <- app_assoc).
  destruct (candidate s p) eqn:Ep.
  - pose proof (is_best_some s done_ root p Hb Ep) as Hb'. destruct root as [r|]; [|apply (IH _ _ Hb')].
    assert (candidate s r = true) as Hr by (by destruct Hb as (_ & ? & _)).
    rewrite supersedes_root_lex by auto. cbn [mbind option_bind]. apply (IH _ _ Hb').
  - apply (IH root (done_ ++ [p])). by apply is_best_none.
Qed.

Definition all_ports : list nat := seq 0 STP_MAX_PORTS.

Lemma elem_of_all_ports (p : nat) : p ∈ all_ports <-> (p < STP_MAX_PORTS)%nat.
Proof. unfold all_ports. rewrite elem_of_seq. lia. Qed.

Lemma root_selection_best (s : stp) :
  (forall q, candidate s q = true -> path_ok (get_port s q)) ->
  exists r, is_best s all_ports r /\
    stp_root_selection s = Some (match r with
      | None => s {{ root_port := None; designated_root := bridge_id s; root_path_cost := 0 }}
      | Some r => s {{ root_port := Some r; designated_root := port_designated_root (get_port s r);
                       root_path_cost := designated_cost (get_port s r) + path_cost (get_port s r) }}
      end).
Proof.
  intros Hok. destruct (select_root_best s all_ports [] None Hok) as (r & E & Hb); [by intros q ?%not_elem_of_nil|].
  exists r. split; [done|]. unfold stp_root_selection. fold all_ports. rewrite E. cbn [mbind option_bind]. destruct r as [r|]; [|done].
  destruct Hb as (_ & Hc & _). pose proof (Hok r Hc) as Hr. rewrite path_ok_sum by done. cbn [mbind option_bind].
  rewrite (wrap_small 32); [done|]. destruct Hr. unfold in_width, COST_MAX, INT_MAX in *. lia.
Qed.
