(* ===== verification/StpInv.v ===== *)
(** * Spanning tree protocol: every call keeps the invariant

    The invariant of a bridge, in three parts: what is known about the ports,
    that the root port and the root fit together, and that a port that is
    neither the root port nor designated is blocked; and, apart from these, the
    ranges of the times. *)

From S2P Require Import Prelude Util MetaFlow MetaFields Packet Stp StpProps StpRoot.
From stdpp Require Import prelude list.
From coqutil Require Import Datatypes.RecordSetters.
From Stdlib Require Import ZArith Lia.
Import DoubleBraceUpdate.
Open Scope Z_scope.
Open Scope ovs_scope.

(** ** The invariant *)

Record port_wf (s : stp) (p : nat) (x : stp_port) : Prop := {
  pw_state : port_state x <> STP_UNSET;
  pw_id : Z.land (port_id x) 0xff = Z.of_nat p + 1;
  pw_id_width : in_width 16 (port_id x);
  pw_path : 0 <= path_cost x <= 65535;
  pw_heard : port_state x <> STP_DISABLED -> is_designated s x = false -> 0 <= designated_cost x <= COST_MAX;
  pw_changed : state_changed x = true -> (first_changed_port s <= p)%nat
}.

Record base_wf (s : stp) : Prop := {
  bw_length : length (ports s) = STP_MAX_PORTS;
  bw_ports : forall p, (p < STP_MAX_PORTS)%nat -> port_wf s p (get_port s p);
  bw_first : (first_changed_port s <= STP_MAX_PORTS)%nat
}.

Record root_wf (s : stp) : Prop := {
  rw_cost : 0 <= root_path_cost s <= INT_MAX;
  rw_root : match root_port s with
            | None => designated_root s = bridge_id s /\ root_path_cost s = 0
            | Some r => (r < STP_MAX_PORTS)%nat /\ port_enabled s r = true /\ designated_root s < bridge_id s
            end;
  rw_same : forall p, (p < STP_MAX_PORTS)%nat -> port_enabled s p = true -> port_designated_root (get_port s p) = designated_root s
}.

Definition states_wf (s : stp) : Prop :=
  forall p, (p < STP_MAX_PORTS)%nat -> port_enabled s p = true -> port_state (get_port s p) <> STP_BLOCKING ->
    root_port s = Some p \/ stp_is_designated_port s p = true.

Record roles_wf (s : stp) : Prop := {
  ow_base : base_wf s;
  ow_root : root_wf s;
  ow_states : states_wf s
}.

Lemma enabled_state (s : stp) (p : nat) : port_enabled s p = true <-> port_state (get_port s p) <> STP_DISABLED.
Proof. unfold port_enabled. by rewrite negb_true_iff, bool_decide_eq_false. Qed.

(** ** It is about [roles] *)

Lemma roles_fields (s s' : stp) :
  roles s' = roles s ->
  bridge_id s' = bridge_id s /\ designated_root s' = designated_root s /\ root_path_cost s' = root_path_cost s /\
  root_port s' = root_port s /\ first_changed_port s' = first_changed_port s /\ length (ports s') = length (ports s) /\
  forall q, info (get_port s' q) = info (get_port s q).
Proof.
  intros E. pose proof E as E'. unfold roles in E'. injection E' as E1 E2 E3 E4 Ep E5. split_and!; try done.
  - rewrite <- (length_map info), <- (length_map info (ports s)). by rewrite Ep.
  - intros q. by rewrite <- !get_port_roles, E.
Qed.

Lemma info_designated (s s' : stp) (x x' : stp_port) :
  bridge_id s' = bridge_id s -> info x' = info x -> is_designated s' x' = is_designated s x.
Proof. intros E Ex. unfold is_designated. injection Ex as -> _ _ _ _ -> -> _. by rewrite E. Qed.

Lemma port_wf_info (s s' : stp) (p : nat) (x x' : stp_port) :
  bridge_id s' = bridge_id s -> (first_changed_port s' <= first_changed_port s)%nat -> info x' = info x ->
  port_wf s p x -> port_wf s' p x'.
Proof.
  intros Eb Ef Ex [H1 H2 H3 H4 H5 H6]. pose proof (info_designated s s' x x' Eb Ex) as Ed.
  injection Ex as E1 E2 E3 _ E5 _ _ E8. constructor; rewrite ?E1, ?E2, ?E3, ?E5, ?E8, ?Ed; try done. intros Hc. specialize (H6 Hc). lia.
Qed.

Lemma enabled_info (s s' : stp) (p : nat) : info (get_port s' p) = info (get_port s p) -> port_enabled s' p = port_enabled s p.
Proof. intros E. unfold port_enabled. by injection E as _ -> _. Qed.

Lemma base_wf_roles (s s' : stp) : roles s' = roles s -> base_wf s -> base_wf s'.
Proof.
  intros E [H1 H2 H3]. destruct (roles_fields s s' E) as (E1 & _ & _ & _ & E5 & E6 & E7).
  constructor; [congruence| |congruence]. intros p Hp. apply (port_wf_info s s' p (get_port s p)); auto. lia.
Qed.

Lemma root_wf_roles (s s' : stp) : roles s' = roles s -> root_wf s -> root_wf s'.
Proof.
  intros E [H1 H2 H3]. destruct (roles_fields s s' E) as (E1 & E2 & E3 & E4 & _ & _ & E7).
  assert (forall q, port_designated_root (get_port s' q) = port_designated_root (get_port s q)) as Er by (intros q; by injection (E7 q)).
  constructor; rewrite ?E2, ?E3; [done| |].
  - rewrite E1, E4. destruct (root_port s) as [r|]; [|done]. by rewrite (enabled_info s s' r (E7 r)).
  - intros p Hp. rewrite (enabled_info s s' p (E7 p)), Er. by apply H3.
Qed.

Lemma states_wf_roles (s s' : stp) : roles s' = roles s -> states_wf s -> states_wf s'.
Proof.
  intros E H p Hp. destruct (roles_fields s s' E) as (E1 & _ & _ & E4 & _ & _ & E7). specialize (H p Hp).
  rewrite (enabled_info s s' p (E7 p)), E4. unfold stp_is_designated_port in *. rewrite (info_designated s s' _ _ E1 (E7 p)).
  by injection (E7 p) as _ -> _.
Qed.

Lemma roles_wf_roles (s s' : stp) : roles s' = roles s -> roles_wf s -> roles_wf s'.
Proof.
  intros E [H1 H2 H3]. constructor; [by apply (base_wf_roles s)|by apply (root_wf_roles s)|by apply (states_wf_roles s)].
Qed.

Lemma roles_wf_quiet (s s' : stp) : quiet s' = quiet s -> roles_wf s -> roles_wf s'.
Proof. intros E. by apply roles_wf_roles, quiet_roles. Qed.

(** ** Changes that were not reported yet *)

Definition changed_ok (s : stp) : Prop :=
  (first_changed_port s <= STP_MAX_PORTS)%nat /\
  forall p, (p < STP_MAX_PORTS)%nat -> state_changed (get_port s p) = true -> (first_changed_port s <= p)%nat.

Lemma changed_ok_roles (s s' : stp) : roles s' = roles s -> changed_ok s -> changed_ok s'.
Proof.
  intros E [H1 H2]. destruct (roles_fields s s' E) as (_ & _ & _ & _ & E5 & _ & E7). split; [congruence|].
  intros p Hp. rewrite E5. injection (E7 p) as _ _ _ _ _ _ _ ->. by apply H2.
Qed.

Lemma changed_ok_set_port_state (s : stp) (p : nat) (st : stp_state) :
  (p < length (ports s))%nat -> length (ports s) = STP_MAX_PORTS -> changed_ok s -> changed_ok (stp_set_port_state s p st).
Proof.
  intros Hp Hlen [H1 H2]. destruct (set_port_state_step s p st Hp) as (_ & _ & Eq).
  assert (first_changed_port (stp_set_port_state s p st) =
    if negb (bool_decide (st = port_state (get_port s p))) && negb (state_changed (get_port s p)) && (p <? first_changed_port s)%nat
    then p else first_changed_port s) as Ef.
  { unfold stp_set_port_state. destruct (negb _ && negb _); [|done]. cbn [andb].
    change (first_changed_port (set_port s p _)) with (first_changed_port s). by destruct (p <? first_changed_port s)%nat. }
  rewrite Hlen in Hp. split; [rewrite Ef; destruct (_ && _ && _); lia|]. intros q Hq. specialize (Eq q). rewrite Ef.
  injection Eq as _ _ _ _ _ _ _ _ _ _ ->. destruct (Nat.eqb_spec q p) as [->|Hne].
  - unfold set_state. change (state_changed (apply_update _ _)) with
      (state_changed (get_port s p) || negb (bool_decide (st = port_state (get_port s p)))).
    specialize (H2 p Hq). destruct (bool_decide (st = port_state (get_port s p))), (state_changed (get_port s p)); cbn [negb andb orb]; try (intros; auto; done).
    intros _. destruct (Nat.ltb_spec p (first_changed_port s)); lia.
  - intros Hc. specialize (H2 q Hq Hc). destruct (_ && _ && _) eqn:E; [|done]. apply andb_true_iff in E as [_ E%Nat.ltb_lt]. lia.
Qed.

Lemma for_each_inv (P : stp -> Prop) (body : stp -> nat -> stp) (s : stp) :
  (forall s p, (p < STP_MAX_PORTS)%nat -> P s -> P (body s p)) -> P s -> P (FOR_EACH_ENABLED_PORT body s).
Proof.
  intros Hb. unfold FOR_EACH_ENABLED_PORT.
  assert (Forall (fun p => p < STP_MAX_PORTS)%nat (seq 0 STP_MAX_PORTS)) as Hl by (apply Forall_forall; intros p Hp%elem_of_seq; lia).
  revert Hl s. generalize (seq 0 STP_MAX_PORTS). intros l Hl. induction Hl as [|p l Hp _ IH]; intros s Hs; [done|]. cbn [foldl].
  apply IH. destruct (port_enabled s p); auto.
Qed.

Definition listed (s : stp) : Prop := length (ports s) = STP_MAX_PORTS /\ changed_ok s.

Lemma listed_roles (s s' : stp) : roles s' = roles s -> listed s -> listed s'.
Proof.
  intros E [H1 H2]. split; [|by apply (changed_ok_roles s)]. destruct (roles_fields s s' E) as (_ & _ & _ & _ & _ & E6 & _). congruence.
Qed.

Lemma listed_set_port_state (s : stp) (p : nat) (st : stp_state) :
  (p < STP_MAX_PORTS)%nat -> listed s -> listed (stp_set_port_state s p st).
Proof.
  intros Hp [H1 H2]. rewrite <- H1 in Hp. split; [|by apply changed_ok_set_port_state].
  by rewrite (port_step_length _ _ _ _ (set_port_state_step s p st Hp)).
Qed.

Lemma listed_set_port (s : stp) (p : nat) (f : stp_port -> stp_port) : (forall x, info (f x) = info x) -> listed s -> listed (set_port s p f).
Proof. intros Hf. by apply listed_roles, roles_set_port. Qed.

Lemma listed_port_state_selection (s : stp) : listed s -> listed (stp_port_state_selection s).
Proof.
  apply for_each_inv. clear s. intros s p Hp Hs. unfold select_port_state, stp_make_forwarding, stp_make_blocking.
  assert (listed (set_port s p clear_pending)) as H1 by (by apply listed_set_port).
  assert (listed (set_port s p stop_message_age)) as H2 by (by apply listed_set_port).
  assert (forall s st (f : stp_port -> stp_port), listed s -> (forall x, info (f x) = info x) ->
    listed (set_port (stp_set_port_state s p st) p f)) as H3.
  { intros s' st f Hs' Hf. apply listed_set_port; [done|]. by apply listed_set_port_state. }
  repeat case_match; try done; apply H3; try done. apply (listed_roles (set_port s p clear_pending)); [|done].
  apply quiet_roles, quiet_topology_change_detection.
Qed.

(** ** New roles *)

(** The bridge with [r] as its root port. *)
Definition elected (s : stp) (r : option nat) : stp :=
  match r with
  | None => s {{ root_port := None; designated_root := bridge_id s; root_path_cost := 0 }}
  | Some r => s {{ root_port := Some r; designated_root := port_designated_root (get_port s r);
                   root_path_cost := designated_cost (get_port s r) + path_cost (get_port s r) }}
  end.

Definition reassigned (s : stp) (x : stp_port) : stp_port :=
  if negb (bool_decide (port_state x = STP_DISABLED)) && should_be_designated s x then designate s x else x.

Lemma designate_designated (s s' : stp) (x : stp_port) : bridge_id s' = bridge_id s -> is_designated s' (designate s x) = true.
Proof. intros E. unfold is_designated, designate. cbn. unfold constant. by rewrite E, !Z.eqb_refl. Qed.

Lemma candidate_path_ok (s : stp) (q : nat) : base_wf s -> (q < STP_MAX_PORTS)%nat -> candidate s q = true -> path_ok (get_port s q).
Proof.
  intros Hw Hq. unfold candidate, root_candidate. rewrite andb_true_iff, negb_true_iff, orb_false_iff. intros (He%enabled_state & Hd & _).
  destruct (bw_ports s Hw q Hq). split; auto.
Qed.

Lemma candidate_bound (s : stp) (q : nat) : length (ports s) = STP_MAX_PORTS -> candidate s q = true -> (q < STP_MAX_PORTS)%nat \/
  get_port s q = zero_port.
Proof.
  intros Hlen _. destruct (Nat.lt_ge_cases q STP_MAX_PORTS); [by left|right]. unfold get_port. apply nth_overflow. by rewrite Hlen.
Qed.

Lemma candidate_ok (s : stp) (q : nat) : base_wf s -> candidate s q = true -> path_ok (get_port s q).
Proof.
  intros Hw Hc. destruct (candidate_bound s q (bw_length s Hw) Hc) as [Hq| ->]; [by apply candidate_path_ok|].
  unfold path_ok, COST_MAX, INT_MAX. cbn. lia.
Qed.

Lemma elected_ports (s : stp) (r : option nat) : ports (elected s r) = ports s /\ bridge_id (elected s r) = bridge_id s /\
  first_changed_port (elected s r) = first_changed_port s.
Proof. by destruct r. Qed.

Lemma get_port_elected (s : stp) (r : option nat) (p : nat) : get_port (elected s r) p = get_port s p.
Proof. unfold get_port. by rewrite (proj1 (elected_ports s r)). Qed.

Lemma first_changed_designated (s : stp) : first_changed_port (stp_designated_port_selection s) = first_changed_port s.
Proof.
  apply (for_each_inv (fun s' => first_changed_port s' = first_changed_port s)); [|done].
  intros s' p _ <-. by destruct (should_be_designated s' (get_port s' p)).
Qed.

(** The election: who is the root, and which ports become designated. *)
Lemma configuration_update_spec (s : stp) :
  base_wf s ->
  exists r s', is_best s all_ports r /\ stp_configuration_update s = Some s' /\ bridge s' = bridge (elected s r) /\
    first_changed_port s' = first_changed_port s /\ length (ports s') = STP_MAX_PORTS /\
    forall q, (q < STP_MAX_PORTS)%nat -> quiet_port (get_port s' q) = quiet_port (reassigned (elected s r) (get_port s q)).
Proof.
  intros Hw. destruct (root_selection_best s) as (r & Hb & E); [by intros q; apply candidate_ok|].
  exists r, (stp_designated_port_selection (elected s r)). destruct (elected_ports s r) as (Ep & Ei & Ef).
  destruct (designated_port_selection_spec (elected s r)) as (Eb & El & Eq); [rewrite Ep; apply (bw_length s Hw)|].
  split_and!; [done| |done|by rewrite first_changed_designated|done|].
  - unfold stp_configuration_update. rewrite E. by destruct r.
  - intros q Hq. rewrite (Eq q Hq). unfold reassigned, port_enabled. by rewrite !get_port_elected.
Qed.

Lemma quiet_info (x x' : stp_port) : quiet_port x' = quiet_port x -> info x' = info x.
Proof. intros E. unfold info. by injection E as -> -> -> -> -> -> -> _ _ _ ->. Qed.

Lemma elected_root_wf (s : stp) (r : option nat) :
  base_wf s -> is_best s all_ports r ->
  0 <= root_path_cost (elected s r) <= INT_MAX /\ root_port (elected s r) = r /\
  match r with
  | None => designated_root (elected s r) = bridge_id s /\ root_path_cost (elected s r) = 0
  | Some r' => (r' < STP_MAX_PORTS)%nat /\ port_enabled s r' = true /\ designated_root (elected s r) < bridge_id s
  end.
Proof.
  intros Hw Hb. destruct r as [r|]; [|by unfold INT_MAX; cbn; unfold constant].
  destruct Hb as (Hr%elem_of_all_ports & Hc & _). destruct (candidate_ok s r Hw Hc) as [H1 H2].
  unfold candidate, root_candidate in Hc. apply andb_true_iff in Hc as [He Hc].
  apply negb_true_iff, orb_false_iff in Hc as [_ Hc%Z.leb_gt].
  unfold COST_MAX, INT_MAX in *. cbn -[STP_MAX_PORTS]. unfold constant. split_and!; (done || lia).
Qed.

Lemma configuration_update_wf (s : stp) :
  base_wf s -> exists s', stp_configuration_update s = Some s' /\ base_wf s' /\ root_wf s' /\ bridge_id s' = bridge_id s.
Proof.
  intros Hw. destruct (configuration_update_spec s Hw) as (r & s' & Hb & E & Eb & Ef & El & Eq). exists s'. split; [done|].
  destruct (bridge_fields _ _ Eb) as (E1 & E2 & E3 & E4). destruct (elected_ports s r) as (_ & Ei & _).
  destruct (elected_root_wf s r Hw Hb) as (Hcost & Er & Hroot). set (s1 := elected s r) in *.
  assert (forall q, (q < STP_MAX_PORTS)%nat -> info (get_port s' q) = info (reassigned s1 (get_port s q))) as Eq'
    by (intros; by apply quiet_info, Eq).
  assert (forall q, (q < STP_MAX_PORTS)%nat -> port_enabled s' q = port_enabled s q) as Ee.
  { intros q Hq. unfold port_enabled. injection (Eq' q Hq) as _ -> _. unfold reassigned. by destruct (_ && _). }
  split_and!; [..|congruence].
  - constructor; [done| |rewrite Ef; apply (bw_first s Hw)]. intros p Hp. pose proof (bw_ports s Hw p Hp) as Hx.
    apply (port_wf_info s1 s' p (reassigned s1 (get_port s p))); [done| |by apply Eq'|].
    { rewrite Ef. unfold s1. by rewrite (proj2 (proj2 (elected_ports s r))). }
    assert (port_wf s1 p (get_port s p)) as Hx1 by (apply (port_wf_info s s1 p (get_port s p)); [done| |done|done];
      unfold s1; by rewrite (proj2 (proj2 (elected_ports s r)))).
    unfold reassigned. destruct (_ && _); [|done]. destruct Hx1. constructor; try done. intros _. by rewrite designate_designated.
  - constructor; rewrite ?E2, ?E3; [done| |].
    + rewrite E4, Er, E1, Ei. destruct r as [r|]; [|done]. by rewrite Ee by apply Hroot.
    + intros p Hp He. injection (Eq' p Hp) as _ _ _ -> _. rewrite (Ee p Hp) in He. unfold reassigned. unfold port_enabled in He. rewrite He.
      cbn [andb]. destruct (should_be_designated s1 (get_port s p)) eqn:Es; [done|]. unfold should_be_designated in Es.
      rewrite !orb_false_iff, negb_false_iff, Z.eqb_eq in Es. by destruct Es as [[[_ ?] _] _].
Qed.

(** ** New states *)

Lemma forwarding_fields (x : stp_port) :
  port_id (forwarding x) = port_id x /\ path_cost (forwarding x) = path_cost x /\
  port_designated_root (forwarding x) = port_designated_root x /\ designated_cost (forwarding x) = designated_cost x /\
  designated_bridge (forwarding x) = designated_bridge x /\ designated_port (forwarding x) = designated_port x /\
  port_state (forwarding x) = (if bool_decide (port_state x = STP_BLOCKING) then STP_LISTENING else port_state x).
Proof. unfold forwarding. by destruct (bool_decide _). Qed.

Lemma blocking_fields (x : stp_port) :
  port_id (blocking x) = port_id x /\ path_cost (blocking x) = path_cost x /\
  port_designated_root (blocking x) = port_designated_root x /\ designated_cost (blocking x) = designated_cost x /\
  designated_bridge (blocking x) = designated_bridge x /\ designated_port (blocking x) = designated_port x /\
  port_state (blocking x) = (if stp_in_states (port_state x) [STP_DISABLED; STP_BLOCKING] then port_state x else STP_BLOCKING).
Proof. unfold blocking. by destruct (stp_in_states _ _). Qed.

(** The state that a role gives a port. *)
Definition role_state (good : bool) (st : stp_state) : stp_state :=
  match st with
  | STP_DISABLED => STP_DISABLED
  | STP_BLOCKING => if good then STP_LISTENING else STP_BLOCKING
  | st => if good then st else STP_BLOCKING
  end.

Definition good_role (s : stp) (p : nat) (x : stp_port) : bool := bool_decide (root_port s = Some p) || is_designated s x.

Lemma selected_fields (s : stp) (p : nat) (x : stp_port) :
  let y := selected s p x in
  port_id y = port_id x /\ path_cost y = path_cost x /\ port_designated_root y = port_designated_root x /\
  designated_cost y = designated_cost x /\ designated_bridge y = designated_bridge x /\ designated_port y = designated_port x /\
  (port_state x <> STP_DISABLED -> port_state x <> STP_UNSET -> port_state y = role_state (good_role s p x) (port_state x)).
Proof.
  cbv zeta. unfold selected, good_role. pose proof (forwarding_fields x) as Hf. pose proof (forwarding_fields (stop_message_age x)) as Hs.
  pose proof (blocking_fields x) as Hb.
  destruct (bool_decide (root_port s = Some p)); [|destruct (is_designated s x)]; cbn [orb].
  - destruct Hf as (H1 & H2 & H3 & H4 & H5 & H6 & ->). split_and!; try done. by destruct (port_state x).
  - destruct Hs as (H1 & H2 & H3 & H4 & H5 & H6 & ->). split_and!; try done.
    change (port_state (stop_message_age x)) with (port_state x). by destruct (port_state x).
  - destruct Hb as (H1 & H2 & H3 & H4 & H5 & H6 & ->). split_and!; try done. by destruct (port_state x).
Qed.

Lemma port_state_selection_states (s : stp) (p : nat) :
  base_wf s -> (p < STP_MAX_PORTS)%nat -> let s' := stp_port_state_selection s in
  port_state (get_port s' p) =
    (if port_enabled s p then role_state (good_role s p (get_port s p)) (port_state (get_port s p)) else STP_DISABLED) /\
  port_enabled s' p = port_enabled s p /\ stp_is_designated_port s' p = stp_is_designated_port s p.
Proof.
  intros Hw Hp. cbv zeta. destruct (port_state_selection_spec s (bw_length s Hw)) as (Eb & _ & Eq). specialize (Eq p Hp). revert Eb Eq.
  generalize (stp_port_state_selection s). intros s' Eb Eq. destruct (bridge_fields _ _ Eb) as (E1 & _).
  destruct (bw_ports s Hw p Hp) as [Hu _ _ _ _ _]. destruct (selected_fields s p (get_port s p)) as (F1 & _ & _ & _ & F5 & F6 & F7).
  unfold port_enabled, stp_is_designated_port, is_designated in *. injection Eq as I1 I2 _ _ _ I6 I7 _ _ _ _.
  rewrite E1, I1, I2, I6, I7. destruct (bool_decide (port_state (get_port s p) = STP_DISABLED)) eqn:Ed; cbn [negb].
  - apply bool_decide_eq_true in Ed as Ed'. by rewrite Ed'.
  - apply bool_decide_eq_false in Ed as Ed'. rewrite F1, F5, F6, F7 by done. split_and!; [done| |done]. apply negb_true_iff, bool_decide_eq_false.
    by destruct (port_state (get_port s p)), (good_role s p (get_port s p)).
Qed.

Lemma port_state_selection_wf (s : stp) : base_wf s -> root_wf s -> roles_wf (stp_port_state_selection s).
Proof.
  intros Hw Hr. pose proof (fun p Hp => port_state_selection_states s p Hw Hp) as Hst.
  destruct (port_state_selection_spec s (bw_length s Hw)) as (Eb & El & Eq).
  assert (listed s) as Hl.
  { split; [apply (bw_length s Hw)|]. split; [apply (bw_first s Hw)|]. intros p Hp. apply (pw_changed _ _ _ (bw_ports s Hw p Hp)). }
  destruct (listed_port_state_selection s Hl) as [_ [Hf Hc]].
  revert Hst Eb El Eq Hf Hc. generalize (stp_port_state_selection s). intros s' Hst Eb El Eq Hf Hc.
  destruct (bridge_fields _ _ Eb) as (E1 & E2 & E3 & E4).
  assert (forall p, (p < STP_MAX_PORTS)%nat ->
    port_id (get_port s' p) = port_id (get_port s p) /\ path_cost (get_port s' p) = path_cost (get_port s p) /\
    port_designated_root (get_port s' p) = port_designated_root (get_port s p) /\
    designated_cost (get_port s' p) = designated_cost (get_port s p)) as Hsame.
  { intros p Hp. specialize (Eq p Hp). destruct (selected_fields s p (get_port s p)) as (F1 & F2 & F3 & F4 & _).
    injection Eq as -> _ -> -> -> _ _ _ _ _ _. by destruct (port_enabled s p). }
  constructor.
  - constructor; [done| |done]. intros p Hp. destruct (bw_ports s Hw p Hp) as [P1 P2 P3 P4 P5 P6].
    destruct (Hsame p Hp) as (S1 & S2 & S3 & S4). destruct (Hst p Hp) as (T1 & T2 & T3).
    constructor; rewrite ?S1, ?S2, ?S4; try done; [| |by apply Hc].
    + rewrite T1. destruct (port_enabled s p); [|done]. by destruct (port_state (get_port s p)), (good_role s p (get_port s p)).
    + intros He%enabled_state Hd. unfold stp_is_designated_port in T3. rewrite T3 in Hd. rewrite T2 in He. apply enabled_state in He. auto.
  - destruct Hr as [R1 R2 R3]. constructor; rewrite ?E2, ?E3; [done| |].
    + rewrite E1, E4. destruct (root_port s) as [r|]; [|done]. by rewrite (proj1 (proj2 (Hst r (proj1 R2)))).
    + intros p Hp. destruct (Hsame p Hp) as (_ & _ & -> & _). destruct (Hst p Hp) as (_ & -> & _). by apply R3.
  - intros p Hp He Hnb. destruct (Hst p Hp) as (T1 & T2 & T3). rewrite T2 in He. rewrite T1, He in Hnb. rewrite E4, T3.
    unfold good_role in Hnb. fold (stp_is_designated_port s p) in Hnb.
    destruct (bool_decide (root_port s = Some p)) eqn:Eb'; [left; by apply bool_decide_eq_true in Eb'|].
    destruct (stp_is_designated_port s p); [by right|]. by destruct (port_state (get_port s p)) eqn:?; apply enabled_state in He.
Qed.

Lemma reconfigure_wf (s : stp) : base_wf s -> exists s', stp_reconfigure s = Some s' /\ roles_wf s'.
Proof.
  intros Hw. destruct (configuration_update_wf s Hw) as (s1 & E & Hb & Hr & _). exists (stp_port_state_selection s1).
  unfold stp_reconfigure. rewrite E. split; [done|]. by apply port_state_selection_wf.
Qed.

Lemma reconfigure_check_root_wf (root : bool) (s : stp) : base_wf s -> exists s', reconfigure_check_root root s = Some s' /\ roles_wf s'.
Proof.
  intros Hw. destruct (reconfigure_wf s Hw) as (s1 & E & H1). unfold reconfigure_check_root. rewrite E. cbn [mbind option_bind].
  eexists. split; [done|]. destruct (_ && _); [|done]. apply (roles_wf_roles s1); [apply roles_become_root_bridge|done].
Qed.

#[global] Opaque FOR_EACH_ENABLED_PORT.
