(* ===== verification/StpElect.v ===== *)
(** * Spanning tree protocol: the outcome of an election

    The root port, the root and its cost, the designated ports and the states of
    the ports after [stp_reconfigure]. *)

From S2P Require Import Prelude Util MetaFlow MetaFields Packet Stp StpProps StpRoot StpInv.
From stdpp Require Import prelude list.
From coqutil Require Import Datatypes.RecordSetters.
From Stdlib Require Import ZArith Lia.
Import DoubleBraceUpdate.
Open Scope Z_scope.
Open Scope ovs_scope.

(** Whether the bridge, at cost [cost] from the root [root], is designated on a port: it already is, or what the port heard
    is about another root, or it is not better than what the bridge offers. *)
Definition wins (s : stp) (root cost : Z) (x : stp_port) : bool :=
  is_designated s x || negb (port_designated_root x =? root) || negb (lex_lt (heard_vector x) [cost; bridge_id s; port_id x]).

Lemma reassigned_designated (s : stp) (r : option nat) (p : nat) :
  base_wf s -> (p < STP_MAX_PORTS)%nat -> let s1 := elected s r in let x := get_port s p in
  is_designated s1 (reassigned s1 x) = (if port_enabled s p then wins s (designated_root s1) (root_path_cost s1) x else is_designated s x) /\
  port_state (reassigned s1 x) = port_state x.
Proof.
  intros Hb Hp. cbv zeta. destruct (elected_ports s r) as (_ & Ei & _). set (s1 := elected s r) in *. set (x := get_port s p).
  assert (is_designated s1 x = is_designated s x) as Ed by (unfold is_designated; by rewrite Ei).
  assert (port_enabled s p = true -> should_be_designated s1 x = wins s (designated_root s1) (root_path_cost s1) x) as Hsh.
  { intros He%enabled_state. unfold wins. destruct (is_designated s x) eqn:E; [unfold should_be_designated; by rewrite Ed|].
    rewrite should_be_designated_lex; [unfold offered_vector; by rewrite Ed, Ei|].
    pose proof (pw_heard _ _ _ (bw_ports s Hb p Hp) He E) as Hc. fold x in Hc. unfold COST_MAX, INT_MAX in *. lia. }
  unfold reassigned, port_enabled in *. fold x in Hsh |- *. destruct (negb _); cbn [andb]; [|by rewrite Ed]. rewrite Hsh by done.
  destruct (wins _ _ _ _) eqn:Ew; [by rewrite designate_designated|]. rewrite Ed. split; [|done]. unfold wins in Ew.
  rewrite !orb_false_iff in Ew. by destruct Ew as [[? _] _].
Qed.

Lemma reconfigure_spec (s : stp) :
  base_wf s ->
  exists r s', is_best s all_ports r /\ stp_reconfigure s = Some s' /\ root_port s' = r /\
    designated_root s' = match r with None => bridge_id s | Some q => port_designated_root (get_port s q) end /\
    root_path_cost s' = match r with None => 0 | Some q => designated_cost (get_port s q) + path_cost (get_port s q) end /\
    forall p, (p < STP_MAX_PORTS)%nat ->
      stp_is_designated_port s' p =
        (if port_enabled s p then wins s (designated_root s') (root_path_cost s') (get_port s p) else is_designated s (get_port s p)) /\
      port_state (get_port s' p) =
        (if port_enabled s p then role_state (bool_decide (r = Some p) || stp_is_designated_port s' p) (port_state (get_port s p))
         else STP_DISABLED).
Proof.
  intros Hb. destruct (configuration_update_spec s Hb) as (r & s1 & Hbest & E1 & Eb & Ef & El & Eq).
  destruct (configuration_update_wf s Hb) as (s1' & E1' & Hb1 & _). rewrite E1 in E1'. apply (inj Some) in E1'. subst s1'.
  exists r, (stp_port_state_selection s1). split; [done|]. split; [unfold stp_reconfigure; by rewrite E1|].
  pose proof (fun p => port_state_selection_states s1 p Hb1) as Hst. cbv zeta in Hst.
  destruct (port_state_selection_spec s1 El) as (Eb' & _ & _). revert Hst Eb'. generalize (stp_port_state_selection s1). intros s' Hst Eb'.
  destruct (bridge_fields _ _ Eb) as (A1 & A2 & A3 & A4). destruct (bridge_fields _ _ Eb') as (B1 & B2 & B3 & B4).
  rewrite B4, A4, B2, A2, B3, A3. split_and!; [by destruct r|by destruct r|by destruct r|].
  intros p Hp. destruct (reassigned_designated s r p Hb Hp) as [Hd Hs]. destruct (Hst p Hp) as (S1 & S2 & S3).
  pose proof (quiet_info _ _ (Eq p Hp)) as Ei.
  assert (is_designated s1 (get_port s1 p) = is_designated (elected s r) (reassigned (elected s r) (get_port s p))) as Hd1
    by (by apply info_designated).
  assert (port_state (get_port s1 p) = port_state (get_port s p)) as Hs1 by (injection Ei as _ -> _; done).
  assert (port_enabled s1 p = port_enabled s p) as He by (unfold port_enabled; by rewrite Hs1).
  rewrite S3, S1, He. unfold stp_is_designated_port, good_role. rewrite Hd1, Hd, Hs1. split; [done|].
  rewrite A4. by destruct r.
Qed.
