(* ===== verification/StpTimes.v ===== *)
(** * Spanning tree protocol: the times

    The ranges of the times and timers, which keep their sums in the range of
    [int], and that the operations keep them. *)

From S2P Require Import Prelude Util MetaFlow MetaFields Packet Stp StpProps StpRoot StpInv.
From stdpp Require Import prelude list.
From coqutil Require Import Datatypes.RecordSetters.
From Stdlib Require Import ZArith Lia.
Import DoubleBraceUpdate.
Open Scope Z_scope.
Open Scope ovs_scope.

(** The largest sum of two times in a BPDU. *)
Definition TIMER_MAX : Z := 131070.

Definition timer_ok (t : stp_timer) : Prop := tm_active t = true -> 0 <= tm_value t <= TIMER_MAX.
Definition time_ok (t : Z) : Prop := 0 <= t <= 65535.

Definition port_times (x : stp_port) : Prop :=
  timer_ok (message_age_timer x) /\ timer_ok (forward_delay_timer x) /\ timer_ok (hold_timer x).

Definition bridge_times_ok (s : stp) : Prop :=
  time_ok (max_age s) /\ time_ok (hello_time s) /\ time_ok (forward_delay s) /\ time_ok (bridge_max_age s) /\
  time_ok (bridge_hello_time s) /\ time_ok (bridge_forward_delay s) /\ 0 <= elapsed_remainder s <= 4.

Record times_wf (s : stp) : Prop := {
  tw_bridge : bridge_times_ok s;
  tw_hello : timer_ok (hello_timer s);
  tw_tcn : timer_ok (tcn_timer s);
  tw_topology : timer_ok (topology_change_timer s);
  tw_ports : Forall port_times (ports s)
}.

Create HintDb stp_times.

Lemma start_timer_ok (v : Z) : time_ok v -> timer_ok (stp_start_timer v).
Proof. unfold time_ok, timer_ok, TIMER_MAX. cbn. lia. Qed.

Lemma start_timer_0 : timer_ok (stp_start_timer 0).
Proof. apply start_timer_ok. unfold time_ok. lia. Qed.

Lemma stop_timer_ok (t : stp_timer) : timer_ok (stp_stop_timer t).
Proof. done. Qed.

#[export] Hint Resolve start_timer_0 stop_timer_ok : stp_times.

Lemma times_set_port (s : stp) (p : nat) (f : stp_port -> stp_port) :
  (forall x, port_times x -> port_times (f x)) -> times_wf s -> times_wf (set_port s p f).
Proof.
  intros Hf [H1 H2 H3 H4 H5]. constructor; try done. unfold set_port. change (ports (apply_update _ s)) with (alter f p (ports s)).
  apply Forall_alter; [done|]. intros x _. apply Hf.
Qed.

Lemma times_same_port (s : stp) (p : nat) (f : stp_port -> stp_port) :
  (forall x, (message_age_timer (f x), forward_delay_timer (f x), hold_timer (f x)) =
             (message_age_timer x, forward_delay_timer x, hold_timer x)) -> times_wf s -> times_wf (set_port s p f).
Proof. intros Hf. apply times_set_port. intros x Hx. unfold port_times. by injection (Hf x) as -> -> ->. Qed.

Lemma times_set_hello (s : stp) (t : stp_timer) : timer_ok t -> times_wf s -> times_wf (s {{ hello_timer := t }}).
Proof. by intros Ht [H1 H2 H3 H4 H5]. Qed.

Lemma times_set_tcn (s : stp) (t : stp_timer) : timer_ok t -> times_wf s -> times_wf (s {{ tcn_timer := t }}).
Proof. by intros Ht [H1 H2 H3 H4 H5]. Qed.

Lemma times_set_topology (s : stp) (t : stp_timer) : timer_ok t -> times_wf s -> times_wf (s {{ topology_change_timer := t }}).
Proof. by intros Ht [H1 H2 H3 H4 H5]. Qed.

Lemma times_use_bridge_times (s : stp) : times_wf s -> times_wf (use_bridge_times s).
Proof. intros [H1 H2 H3 H4 H5]. constructor; try done. by destruct H1 as (? & ? & ? & ? & ? & ? & ?). Qed.

Lemma times_for_each (body : stp -> nat -> stp) (s : stp) :
  (forall s p, times_wf s -> times_wf (body s p)) -> times_wf s -> times_wf (FOR_EACH_ENABLED_PORT body s).
Proof. intros Hb. apply for_each_inv. auto. Qed.

#[export] Hint Resolve times_set_hello times_set_tcn times_set_topology times_use_bridge_times : stp_times.

(** ** Sending *)

Lemma times_send_bpdu (s : stp) (p : nat) (bpdu : list Z) : times_wf s -> times_wf (stp_send_bpdu s p bpdu).
Proof. intros Hs. unfold stp_send_bpdu. apply times_same_port; [done|]. by destruct Hs. Qed.

Lemma times_start_hold (s : stp) (p : nat) : times_wf s -> times_wf (set_port s p (fun x => x {{ hold_timer := stp_start_timer 0 }})).
Proof. apply times_set_port. intros x (H1 & H2 & H3). split_and!; [done|done|apply start_timer_0]. Qed.

#[export] Hint Resolve times_send_bpdu times_start_hold : stp_times.

Lemma times_transmit_config (s : stp) (p : nat) : times_wf s -> times_wf (stp_transmit_config s p).
Proof.
  intros Hs. unfold stp_transmit_config. destruct (_ && _); [done|]. destruct (tm_active _); [by apply times_same_port|].
  destruct (_ <? _); [|done]. apply times_start_hold, times_send_bpdu. by apply times_same_port.
Qed.

Lemma times_transmit_tcn (s : stp) : times_wf s -> times_wf (stp_transmit_tcn s).
Proof. unfold stp_transmit_tcn. destruct (root_port s); auto with stp_times. Qed.

#[export] Hint Resolve times_transmit_config times_transmit_tcn : stp_times.

Lemma times_config_bpdu_generation (s : stp) : times_wf s -> times_wf (stp_config_bpdu_generation s).
Proof. apply times_for_each. intros s' p Hs. destruct (stp_is_designated_port s' p); auto with stp_times. Qed.

Lemma times_topology_change_detection (s : stp) : times_wf s -> times_wf (stp_topology_change_detection s).
Proof.
  intros Hs. assert (forall s, times_wf s -> times_wf (s {{ fdb_needs_flush := true; topology_change_detected := true }})) as Hf
    by (by intros s' [H1 H2 H3 H4 H5]).
  unfold stp_topology_change_detection. apply Hf. destruct (stp_is_root_bridge s).
  - destruct Hs. constructor; try done.
  - destruct (negb _); auto with stp_times.
Qed.

#[export] Hint Resolve times_config_bpdu_generation times_topology_change_detection : stp_times.

Lemma times_acknowledge_topology_change (s : stp) (p : nat) : times_wf s -> times_wf (stp_acknowledge_topology_change s p).
Proof. intros Hs. by apply times_transmit_config, times_same_port. Qed.

Lemma times_become_root_bridge (s : stp) : times_wf s -> times_wf (stp_become_root_bridge s).
Proof. intros Hs. unfold stp_become_root_bridge. auto 10 with stp_times. Qed.

#[export] Hint Resolve times_acknowledge_topology_change times_become_root_bridge : stp_times.

(** ** Roles and states *)

Lemma times_become_designated (s : stp) (p : nat) : times_wf s -> times_wf (stp_become_designated_port s p).
Proof. by apply times_same_port. Qed.

#[export] Hint Resolve times_become_designated : stp_times.

Lemma times_set_port_state (s : stp) (p : nat) (st : stp_state) : times_wf s -> times_wf (stp_set_port_state s p st).
Proof.
  intros Hs. unfold stp_set_port_state. apply times_same_port; [done|]. destruct (_ && _); [|done].
  destruct (_ <? _)%nat; [|by apply times_same_port]. pose proof (times_same_port s p (fun x => x {{ state_changed := true }})
    ltac:(done) Hs) as [H1 H2 H3 H4 H5]. by constructor.
Qed.

#[export] Hint Resolve times_set_port_state : stp_times.

Lemma times_set_forward_delay (s : stp) (p : nat) (f : stp_timer -> stp_timer) :
  (forall t, timer_ok (f t)) -> times_wf s -> times_wf (set_port s p (fun x => x {{ forward_delay_timer := f (forward_delay_timer x) }})).
Proof. intros Hf. apply times_set_port. intros x (H1 & H2 & H3). split_and!; [done|apply Hf|done]. Qed.

Lemma times_port_state_selection (s : stp) : times_wf s -> times_wf (stp_port_state_selection s).
Proof.
  apply times_for_each. clear s. intros s p Hs. unfold select_port_state, stp_make_forwarding, stp_make_blocking.
  assert (times_wf (set_port s p clear_pending)) as H1 by (by apply times_same_port).
  assert (times_wf (set_port s p stop_message_age)) as H2 by (apply times_set_port; [|done]; by intros x (? & ? & ?)).
  repeat case_match; try done; apply (times_set_forward_delay _ _ (fun _ => stp_start_timer 0)) || apply (times_set_forward_delay _ _ stp_stop_timer);
    auto with stp_times; intros; apply start_timer_0.
Qed.

Lemma times_designated_port_selection (s : stp) : times_wf s -> times_wf (stp_designated_port_selection s).
Proof. apply times_for_each. intros s' p Hs. destruct (should_be_designated _ _); auto with stp_times. Qed.

Lemma times_root_selection (s s' : stp) : stp_root_selection s = Some s' -> times_wf s -> times_wf s'.
Proof.
  unfold stp_root_selection. intros E Hs. destruct (select_root _ _ _) as [[r|]|]; [..|done]; cbn [mbind option_bind] in E.
  - destruct (int _) as [cost|]; [|done]. cbn [mbind option_bind] in E. apply (inj Some) in E. subst s'. by destruct Hs.
  - apply (inj Some) in E. subst s'. by destruct Hs.
Qed.

Lemma times_configuration_update (s s' : stp) : stp_configuration_update s = Some s' -> times_wf s -> times_wf s'.
Proof.
  unfold stp_configuration_update. intros E Hs. destruct (stp_root_selection s) as [s1|] eqn:E1; [|done].
  cbn [mbind option_bind] in E. apply (inj Some) in E. subst s'. apply times_designated_port_selection. by apply (times_root_selection s).
Qed.

Lemma times_reconfigure (s s' : stp) : stp_reconfigure s = Some s' -> times_wf s -> times_wf s'.
Proof.
  unfold stp_reconfigure. intros E Hs. destruct (stp_configuration_update s) as [s1|] eqn:E1; [|done].
  cbn [mbind option_bind] in E. apply (inj Some) in E. subst s'. apply times_port_state_selection. by apply (times_configuration_update s).
Qed.

Lemma times_reconfigure_check_root (root : bool) (s s' : stp) : reconfigure_check_root root s = Some s' -> times_wf s -> times_wf s'.
Proof.
  unfold reconfigure_check_root. intros E Hs. destruct (stp_reconfigure s) as [s1|] eqn:E1; [|done].
  cbn [mbind option_bind] in E. apply (inj Some) in E. subst s'. pose proof (times_reconfigure s s1 E1 Hs). destruct (_ && _); auto with stp_times.
Qed.
