(* ===== verification/StpCalls.v ===== *)
(** * Spanning tree protocol: calls

    Every call of a client returns and keeps the invariant of the bridge. *)

From S2P Require Import Prelude Util MetaFlow MetaFields Packet PacketProps Stp StpProps StpRoot StpInv StpTimes.
From stdpp Require Import prelude list.
From coqutil Require Import Datatypes.RecordSetters.
From Stdlib Require Import ZArith Lia.
Import DoubleBraceUpdate.
Open Scope Z_scope.
Open Scope ovs_scope.

Record stp_wf (s : stp) : Prop := {
  sw_roles : roles_wf s;
  sw_times : times_wf s
}.

(** A step that returns and keeps the invariant. *)
Definition keeps (r : option stp) : Prop := exists s, r = Some s /\ stp_wf s.

Lemma keeps_some (s : stp) : stp_wf s -> keeps (Some s).
Proof. intros H. by exists s. Qed.

Lemma stp_wf_quiet (s s' : stp) : quiet s' = quiet s -> times_wf s' -> stp_wf s -> stp_wf s'.
Proof. intros E Ht [H _]. constructor; [by apply (roles_wf_quiet s)|done]. Qed.

Lemma stp_wf_roles (s s' : stp) : roles s' = roles s -> times_wf s' -> stp_wf s -> stp_wf s'.
Proof. intros E Ht [H _]. constructor; [by apply (roles_wf_roles s)|done]. Qed.

Lemma keeps_reconfigure (s : stp) : base_wf s -> times_wf s -> keeps (stp_reconfigure s).
Proof.
  intros Hb Ht. destruct (reconfigure_wf s Hb) as (s' & E & Hr). exists s'. split; [done|].
  constructor; [done|by apply (times_reconfigure s)].
Qed.

Lemma keeps_reconfigure_check_root (root : bool) (s : stp) : base_wf s -> times_wf s -> keeps (reconfigure_check_root root s).
Proof.
  intros Hb Ht. destruct (reconfigure_check_root_wf root s Hb) as (s' & E & Hr). exists s'. split; [done|].
  constructor; [done|by apply (times_reconfigure_check_root root s)].
Qed.

(** A change of one port that keeps what [base_wf] says about it. *)
Lemma base_wf_set_port (s : stp) (p : nat) (f : stp_port -> stp_port) :
  (p < STP_MAX_PORTS)%nat -> base_wf s -> port_wf s p (f (get_port s p)) -> base_wf (set_port s p f).
Proof.
  intros Hp [H1 H2 H3] Hx. constructor; [by rewrite length_set_port| |done]. intros q Hq. rewrite get_set_port by (by rewrite H1).
  apply (port_wf_info s _ q (if (q =? p)%nat then f (get_port s q) else get_port s q)); [done|done|done|].
  destruct (Nat.eqb_spec q p) as [->|]; auto.
Qed.

(** ** BPDUs *)

Definition config_ok (c : stp_config_bpdu) : Prop :=
  0 <= cf_root_path_cost c <= COST_MAX /\ 0 <= cf_message_age c /\ time_ok (cf_max_age c) /\ time_ok (cf_hello_time c) /\
  time_ok (cf_forward_delay c).

Lemma record_base_wf (s : stp) (p : nat) (c : stp_config_bpdu) :
  (p < STP_MAX_PORTS)%nat -> config_ok c -> base_wf s -> base_wf (stp_record_config_information s p c).
Proof.
  intros Hp Hc Hw. apply base_wf_set_port; [done|done|]. destruct (bw_ports s Hw p Hp) as [H1 H2 H3 H4 H5 H6].
  constructor; try done. intros _ _. change (designated_cost _) with (to_int (cf_root_path_cost c)).
  destruct Hc as [Hc _]. unfold COST_MAX, INT_MAX in *. unfold to_int. rewrite (wrap_small 32) by (unfold in_width; lia).
  destruct (Z.ltb_spec (cf_root_path_cost c) (2 ^ 31)); lia.
Qed.

Lemma record_times (s : stp) (p : nat) (c : stp_config_bpdu) :
  config_ok c -> cf_message_age c < cf_max_age c -> times_wf s -> times_wf (stp_record_config_information s p c).
Proof.
  intros (_ & H1 & H2 & _) Hlt. apply times_set_port. intros x (T1 & T2 & T3). split_and!; [|done|done].
  apply start_timer_ok. unfold time_ok in *. lia.
Qed.

Lemma resign_root_wf (s : stp) : stp_wf s -> stp_wf (resign_root s).
Proof.
  intros [R T]. unfold resign_root. set (s1 := s {{ hello_timer := stp_stop_timer (hello_timer s) }}).
  assert (times_wf s1) as T1 by (by apply times_set_hello; [apply stop_timer_ok|]).
  destruct (topology_change_detected s1); [|constructor; [by apply (roles_wf_roles s)|done]].
  set (s2 := s1 {{ topology_change_timer := stp_stop_timer (topology_change_timer s1) }}).
  assert (times_wf s2) as T2 by (by apply times_set_topology; [apply stop_timer_ok|]).
  apply (stp_wf_roles s2); [|apply times_set_tcn; [apply start_timer_0|by apply times_transmit_tcn]|constructor; [by apply (roles_wf_roles s)|done]].
  by rewrite (quiet_roles _ _ (quiet_set_tcn_timer _ _)), (quiet_roles _ _ (quiet_transmit_tcn s2)).
Qed.

Lemma follow_root_wf (s : stp) (c : stp_config_bpdu) : config_ok c -> stp_wf s -> stp_wf (follow_root s c).
Proof.
  intros (_ & _ & C1 & C2 & C3) [R [(B1 & B2 & B3 & B4 & B5 & B6 & B7) T1 T2 T3 T4]]. unfold follow_root.
  assert (stp_wf (stp_record_config_timeout_values s c)) as H1 by (constructor; [by apply (roles_wf_roles s)|by constructor]).
  assert (stp_wf (stp_config_bpdu_generation (stp_record_config_timeout_values s c))) as H2
    by (eapply stp_wf_quiet; [apply quiet_config_bpdu_generation|apply times_config_bpdu_generation, H1|done]).
  revert H2. generalize (stp_config_bpdu_generation (stp_record_config_timeout_values s c)). intros s2 H2.
  set (s3 := if Z.land (cf_flags c) STP_CONFIG_TOPOLOGY_CHANGE_ACK =? 0 then s2 else stp_topology_change_acknowledged s2).
  assert (stp_wf s3) as H3.
  { unfold s3. destruct (_ =? 0); [done|]. apply (stp_wf_roles s2); [done| |done]. destruct H2 as [_ []]. by constructor. }
  clearbody s3. destruct (_ =? 0); [done|]. apply (stp_wf_roles s3); [done| |done]. destruct H3 as [_ []]. by constructor.
Qed.

Lemma keeps_received_config (s : stp) (p : nat) (c : stp_config_bpdu) :
  (p < STP_MAX_PORTS)%nat -> config_ok c -> stp_wf s -> keeps (stp_received_config_bpdu s p c).
Proof.
  intros Hp Hc Hw. unfold stp_received_config_bpdu. destruct (Z.leb_spec (cf_max_age c) (cf_message_age c)) as [|Hlt]; [by apply keeps_some|].
  destruct (bool_decide _); [by apply keeps_some|]. destruct (stp_supersedes_port_info s p c).
  2: { apply keeps_some. destruct (stp_is_designated_port s p); [|done].
       apply (stp_wf_quiet s); [apply quiet_transmit_config|apply times_transmit_config, Hw|done]. }
  destruct (keeps_reconfigure (stp_record_config_information s p c)) as (s1 & -> & H1).
  { apply record_base_wf; [done|done|apply Hw]. }
  { apply record_times; [done|done|apply Hw]. }
  cbn [mbind option_bind]. apply keeps_some. set (s2 := if negb (stp_is_root_bridge s1) && _ then _ else s1).
  assert (stp_wf s2) as H2 by (unfold s2; destruct (_ && _); [by apply resign_root_wf|done]).
  clearbody s2. destruct (bool_decide (root_port s2 = Some p)); [by apply follow_root_wf|done].
Qed.

Lemma keeps_received_bpdu (s : stp) (p : nat) (bpdu : list Z) :
  (p < STP_MAX_PORTS)%nat -> ((STP_CONFIG_BPDU_LEN <= length bpdu)%nat -> config_ok (read_config bpdu)) -> stp_wf s ->
  keeps (stp_received_bpdu s p bpdu).
Proof.
  intros Hp Hc Hw. assert (forall s f, (forall x, quiet_port (f x) = quiet_port x) ->
    (forall x, (message_age_timer (f x), forward_delay_timer (f x), hold_timer (f x)) =
               (message_age_timer x, forward_delay_timer x, hold_timer x)) -> stp_wf s -> stp_wf (set_port s p f)) as Hset.
  { intros s' f Hq Ht [R T]. apply (stp_wf_quiet s'); [by apply quiet_set_port|by apply times_same_port|done]. }
  assert (keeps (Some (bad_bpdu s p))) as Hbad by (by apply keeps_some, Hset).
  unfold stp_received_bpdu. destruct (bool_decide _); [by apply keeps_some|]. destruct (_ <? _)%nat; [done|].
  destruct (negb _); [done|]. destruct (get bpdu 3 1 =? STP_TYPE_CONFIG).
  - destruct (Nat.ltb_spec (length bpdu) STP_CONFIG_BPDU_LEN) as [|Hl]; [done|].
    destruct (keeps_received_config s p (read_config bpdu) Hp (Hc Hl) Hw) as (s1 & -> & H1). by apply keeps_some, Hset.
  - destruct (_ =? _); [|done]. destruct (negb _); [done|]. apply keeps_some, Hset; [done|done|].
    apply (stp_wf_quiet s); [apply quiet_received_tcn_bpdu| |done]. destruct Hw as [_ T]. unfold stp_received_tcn_bpdu.
    destruct (bool_decide _); [done|]. destruct (stp_is_designated_port s p); auto with stp_times.
Qed.

(** ** Ports *)

Lemma base_wf_set_state (s : stp) (p : nat) (st : stp_state) :
  (p < STP_MAX_PORTS)%nat -> st <> STP_UNSET -> (st <> STP_DISABLED -> stp_is_designated_port s p = true \/ port_enabled s p = true) ->
  base_wf s -> base_wf (stp_set_port_state s p st).
Proof.
  intros Hp Hu Hd Hw. pose proof (set_port_state_step s p st) as Hstep. rewrite (bw_length s Hw) in Hstep. specialize (Hstep Hp).
  assert (listed s) as Hl.
  { split; [apply (bw_length s Hw)|]. split; [apply (bw_first s Hw)|]. intros q Hq. apply (pw_changed _ _ _ (bw_ports s Hw q Hq)). }
  destruct (listed_set_port_state s p st Hp Hl) as [El [Hf Hc]]. destruct Hstep as (Eb & _ & Eq).
  destruct (bridge_fields _ _ Eb) as (E1 & _). constructor; [done| |done]. intros q Hq. specialize (Hc q Hq).
  specialize (Eq q). pose proof (bw_ports s Hw q Hq) as Hx. pose proof (quiet_info _ _ Eq) as Ei.
  assert (is_designated (stp_set_port_state s p st) (get_port (stp_set_port_state s p st) q) = is_designated s (get_port s q)) as Ed.
  { rewrite (info_designated s _ _ _ E1 Ei). by destruct (q =? p)%nat. }
  destruct Hx as [H1 H2 H3 H4 H5 H6]. injection Ei as I1 I2 I3 _ I5 _ _ _.
  destruct (Nat.eqb_spec q p) as [Heq|]; constructor; rewrite ?I1, ?I2, ?I3, ?I5, ?Ed; try done.
  intros Hst. subst q. destruct (Hd Hst) as [Hd'|He]; [unfold stp_is_designated_port in Hd'; by rewrite Hd'|].
  apply H5. by apply enabled_state.
Qed.

Lemma root_wf_step (f : stp_port -> stp_port) (p : nat) (s s' : stp) :
  port_step f p s s' ->
  (port_state (f (get_port s p)) <> STP_DISABLED -> port_designated_root (f (get_port s p)) = designated_root s) ->
  (root_port s = Some p -> port_state (f (get_port s p)) <> STP_DISABLED) -> root_wf s -> root_wf s'.
Proof.
  intros (Eb & _ & Eq) Hr He [R1 R2 R3]. destruct (bridge_fields _ _ Eb) as (E1 & E2 & E3 & E4).
  assert (forall q, port_enabled s' q = port_enabled s q \/ q = p) as Hq.
  { intros q. specialize (Eq q). destruct (Nat.eqb_spec q p) as [Heq|]; [by right|left]. unfold port_enabled. by injection Eq as _ -> _. }
  assert (port_enabled s' p = true <-> port_state (f (get_port s p)) <> STP_DISABLED) as Hpe.
  { rewrite enabled_state. specialize (Eq p). rewrite Nat.eqb_refl in Eq. by injection Eq as _ -> _. }
  constructor; rewrite ?E2, ?E3; [done| |].
  - rewrite E1, E4. destruct (root_port s) as [r|]; [|done]. destruct R2 as (A & B & C). split_and!; [done| |done].
    destruct (Hq r) as [->| ->]; [done|]. by apply Hpe, He.
  - intros q Hlt Hen. pose proof (Eq q) as Eq'. destruct (Nat.eqb_spec q p) as [Heq|Hne].
    + subst q. injection Eq' as _ _ _ -> _. by apply Hr, Hpe.
    + injection Eq' as _ _ _ -> _. apply R3; [done|]. destruct (Hq q) as [<-| ->]; [done|]. by destruct Hne.
Qed.

Lemma designate_port_wf (s : stp) (p : nat) (x : stp_port) : port_wf s p x -> port_wf s p (designate s x).
Proof. intros [H1 H2 H3 H4 H5 H6]. constructor; try done. intros _. by rewrite designate_designated. Qed.

Lemma become_designated_base (s : stp) (p : nat) : (p < STP_MAX_PORTS)%nat -> base_wf s -> base_wf (stp_become_designated_port s p).
Proof. intros Hp Hw. apply base_wf_set_port; [done|done|]. by apply (designate_port_wf s p), (bw_ports s Hw). Qed.

Lemma become_designated_is (s : stp) (p : nat) :
  (p < STP_MAX_PORTS)%nat -> base_wf s -> stp_is_designated_port (stp_become_designated_port s p) p = true.
Proof.
  intros Hp Hw. unfold stp_is_designated_port, stp_become_designated_port. rewrite get_set_port by (by rewrite (bw_length s Hw)).
  rewrite Nat.eqb_refl. by apply (designate_designated s).
Qed.

Lemma port_times_set (s : stp) (p : nat) (f : stp_port -> stp_port) :
  (forall x, port_times x -> port_times (f x)) -> (forall x, info (f x) = info x) -> base_wf s -> times_wf s ->
  base_wf (set_port s p f) /\ times_wf (set_port s p f).
Proof. intros Hf Hi Hb Ht. split; [apply (base_wf_roles s); [by apply roles_set_port|done]|by apply times_set_port]. Qed.

Lemma keeps_port_disable (s : stp) (p : nat) : (p < STP_MAX_PORTS)%nat -> stp_wf s -> keeps (stp_port_disable s p).
Proof.
  intros Hp Hw. unfold stp_port_disable. destruct (bool_decide _); [by apply keeps_some|]. destruct Hw as [[Hb _ _] Ht].
  set (s1 := stp_set_port_state (stp_become_designated_port s p) p STP_DISABLED).
  assert (base_wf s1) as H1 by (by apply base_wf_set_state, become_designated_base).
  assert (times_wf s1) as T1 by (unfold s1; auto with stp_times).
  destruct (port_times_set s1 p (fun x => x {{ topology_change_ack := false; config_pending := false;
           message_age_timer := stp_stop_timer (message_age_timer x);
           forward_delay_timer := stp_stop_timer (forward_delay_timer x) }})) as [H2 T2]; [|done|done|done|].
  { intros x (X1 & X2 & X3). by split_and!. }
  by apply keeps_reconfigure_check_root.
Qed.

(** What [stp_initialize_port] resets. *)
Definition cleared (x : stp_port) : stp_port :=
  x {{ topology_change_ack := false; config_pending := false; change_detection_enabled := true;
       message_age_timer := stp_stop_timer (message_age_timer x);
       forward_delay_timer := stp_stop_timer (forward_delay_timer x);
       hold_timer := stp_stop_timer (hold_timer x);
       tx_count := 0; rx_count := 0; error_count := 0 }}.

Lemma initialize_blocking (s : stp) (p : nat) :
  (p < STP_MAX_PORTS)%nat -> base_wf s ->
  stp_initialize_port s p STP_BLOCKING = Some (set_port (stp_set_port_state (stp_become_designated_port s p) p STP_BLOCKING) p cleared).
Proof.
  intros Hp Hw. unfold stp_initialize_port. cbn [ovs_assert stp_in_states mbind option_bind].
  change (ovs_assert _) with (Some tt). cbn [mbind option_bind].
  rewrite (bool_decide_eq_false_2 (STP_BLOCKING = STP_DISABLED)) by done. by rewrite andb_false_r.
Qed.

Lemma keeps_port_enable (s : stp) (p : nat) : (p < STP_MAX_PORTS)%nat -> stp_wf s -> keeps (stp_port_enable s p).
Proof.
  intros Hp Hw. unfold stp_port_enable. destruct (bool_decide _); [|by apply keeps_some]. destruct Hw as [[Hb Hr _] Ht].
  rewrite (initialize_blocking s p Hp Hb). cbn [mbind option_bind]. apply keeps_some.
  assert (p < length (ports s))%nat as Hl by (by rewrite (bw_length s Hb)).
  pose proof (become_designated_base s p Hp Hb) as H1. pose proof (become_designated_is s p Hp Hb) as Hd.
  set (s1 := stp_become_designated_port s p) in *. assert (times_wf s1) as T1 by (by apply times_become_designated).
  assert (port_step (designate s) p s s1) as P1 by (by apply port_step_set).
  set (s2 := stp_set_port_state s1 p STP_BLOCKING).
  assert (base_wf s2) as H2 by (apply base_wf_set_state; auto). assert (times_wf s2) as T2 by (by apply times_set_port_state).
  assert (port_step (set_state STP_BLOCKING) p s1 s2) as P2 by (apply set_port_state_step; by rewrite (bw_length s1 H1)).
  destruct (port_times_set s2 p cleared) as [H3 T3]; [by intros x (? & ? & ?)|done|done|done|].
  constructor; [|by apply times_port_state_selection]. apply port_state_selection_wf; [done|].
  apply (root_wf_roles s2); [by apply roles_set_port|].
  apply (root_wf_step (fun x => set_state STP_BLOCKING (designate s x)) p s s2); [|done|done|done].
  by apply (port_step_trans _ _ _ _ _ _ (quiet_set_state STP_BLOCKING) P1 P2).
Qed.

(** The new identifier of a port keeps its number. *)
Lemma new_port_id_number (id priority : Z) :
  Z.land (u16 (Z.lor (Z.land id 0xff) (Z.shiftl priority 8))) 0xff = Z.land id 0xff.
Proof.
  unfold wrap. change 0xff with (Z.ones 8). rewrite <- Z.land_ones by done. apply Z.bits_inj. intros i. rewrite !Z.land_spec, !Z.lor_spec, !Z.land_spec.
  destruct (Z.neg_nonneg_cases i); [by rewrite !Z.testbit_neg_r|]. rewrite !Z.testbit_ones_nonneg by lia.
  destruct (Z.ltb_spec i 8); [|by rewrite !andb_false_r]. rewrite Z.shiftl_spec_low by done.
  destruct (Z.ltb_spec i 16); [|lia]. by rewrite !andb_true_r, orb_false_r.
Qed.

Lemma base_wf_step (f : stp_port -> stp_port) (p : nat) (s s' : stp) :
  port_step f p s s' -> first_changed_port s' = first_changed_port s -> port_wf s p (f (get_port s p)) -> base_wf s -> base_wf s'.
Proof.
  intros (Eb & El & Eq) Ef Hx [H1 H2 H3]. destruct (bridge_fields _ _ Eb) as (E1 & _). constructor; [congruence| |congruence].
  intros q Hq. apply (port_wf_info s s' q (if (q =? p)%nat then f (get_port s q) else get_port s q)); [done|lia|by apply quiet_info|].
  destruct (Nat.eqb_spec q p) as [->|]; auto.
Qed.

Definition live (st : stp_state) : Prop := st <> STP_DISABLED /\ st <> STP_BLOCKING.

Lemma states_wf_step (f : stp_port -> stp_port) (p : nat) (s s' : stp) :
  port_step f p s s' ->
  (live (port_state (f (get_port s p))) -> live (port_state (get_port s p))) ->
  (is_designated s (get_port s p) = true -> is_designated s (f (get_port s p)) = true) -> states_wf s -> states_wf s'.
Proof.
  intros (Eb & El & Eq) Est Hd H q Hq. destruct (bridge_fields _ _ Eb) as (E1 & _ & _ & E4). pose proof (quiet_info _ _ (Eq q)) as Ei.
  specialize (H q Hq). rewrite !enabled_state in *. unfold stp_is_designated_port in *. rewrite (info_designated s s' _ _ E1 Ei), E4.
  injection Ei as _ -> _. destruct (Nat.eqb_spec q p) as [Heq|]; [|done]. subst q. intros He Hb.
  destruct Est as [He' Hb']; [done|]. destruct (H He' Hb'); [by left|right; auto].
Qed.

(** A port with a new identifier. *)
Definition renumbered (s : stp) (id : Z) (x : stp_port) : stp_port :=
  (if is_designated s x then x {{ designated_port := id }} else x) {{ port_id := id }}.

Lemma renumbered_wf (s : stp) (p : nat) (id : Z) (x : stp_port) :
  in_width 16 id -> Z.land id 0xff = Z.of_nat p + 1 -> port_wf s p x ->
  port_wf s p (renumbered s id x) /\ (is_designated s x = true -> is_designated s (renumbered s id x) = true).
Proof.
  intros H1 H2 [X1 X2 X3 X4 X5 X6]. unfold renumbered. destruct (is_designated s x) eqn:Ed.
  - assert (is_designated s (x {{ designated_port := id; port_id := id }}) = true) as Ed'.
    { apply andb_true_iff in Ed as [Ed _]. change (is_designated s (x {{ designated_port := id; port_id := id }}))
        with ((designated_bridge x =? bridge_id s) && (id =? id)). by rewrite Ed, Z.eqb_refl. }
    split; [|done]. constructor; try done. intros _. change (is_designated s _) with (is_designated s (x {{ designated_port := id; port_id := id }})).
    by rewrite Ed'.
  - split; [|done]. constructor; try done. intros He _. by apply X5.
Qed.

Lemma port_set_priority_wf (s : stp) (p : nat) (priority : Z) :
  (p < STP_MAX_PORTS)%nat -> stp_wf s -> stp_wf (stp_port_set_priority s p priority).
Proof.
  intros Hp Hw. unfold stp_port_set_priority. set (id := u16 _). destruct (_ =? id); [done|].
  destruct Hw as [[Hb Hr Hs] Ht]. assert (p < length (ports s))%nat as Hl by (by rewrite (bw_length s Hb)).
  pose proof (bw_ports s Hb p Hp) as Hx. destruct (renumbered_wf s p id (get_port s p)) as [Hx' Hd']; [by apply wrap_width| |done|].
  { unfold id. rewrite new_port_id_number. apply Hx. }
  set (s1 := if stp_is_designated_port s p then _ else s).
  assert (port_step (fun x => if is_designated s x then x {{ designated_port := id }} else x) p s s1 /\ times_wf s1 /\
    first_changed_port s1 = first_changed_port s) as (P1 & T1 & F1).
  { unfold s1, stp_is_designated_port. destruct (is_designated s (get_port s p)) eqn:Ed.
    - split_and!; [apply port_step_set; [done|by rewrite Ed]|by apply times_same_port|done].
    - split_and!; [apply port_step_quiet; [done|by rewrite Ed]|done|done]. }
  set (s2 := set_port s1 p _).
  assert (port_step (renumbered s id) p s s2) as P2.
  { apply (port_step_trans _ (fun x => x {{ port_id := id }}) p s s1 s2); [by quiet_fields|done|].
    apply port_step_set; [by rewrite (port_step_length _ _ _ _ P1)|done]. }
  assert (times_wf s2) as T2 by (by apply times_same_port). assert (first_changed_port s2 = first_changed_port s) as F2 by done.
  clearbody s2. clear s1 P1 T1 F1.
  assert (base_wf s2) as B2 by (by apply (base_wf_step _ _ s s2 P2)).
  assert (root_wf s2) as R2.
  { assert (port_designated_root (renumbered s id (get_port s p)) = port_designated_root (get_port s p) /\
      port_state (renumbered s id (get_port s p)) = port_state (get_port s p)) as [E1 E2] by (unfold renumbered; by destruct (is_designated s _)).
    apply (root_wf_step _ _ s s2 P2); rewrite ?E1, ?E2; [|  |done].
    - intros He. by apply (rw_same s Hr), enabled_state.
    - intros Hroot. pose proof (rw_root s Hr) as Hrr. rewrite Hroot in Hrr. apply enabled_state. by destruct Hrr as (_ & ? & _). }
  destruct (_ && _).
  - constructor; [|by apply times_port_state_selection, times_become_designated].
    apply port_state_selection_wf; [by apply become_designated_base|].
    apply (root_wf_step (designate s2) p s2); [apply port_step_set; [by rewrite (bw_length s2 B2)|done]|done| |done].
    intros Hroot. pose proof (rw_root s2 R2) as Hrr. rewrite Hroot in Hrr. apply (enabled_state s2 p). by destruct Hrr as (_ & ? & _).
  - constructor; [|done]. constructor; [done|done|]. apply (states_wf_step _ _ s s2 P2); [|done|done].
    unfold renumbered. by destruct (is_designated s _).
Qed.

Lemma keeps_port_set_path_cost (s : stp) (p : nat) (cost : Z) :
  (p < STP_MAX_PORTS)%nat -> 0 <= cost <= 65535 -> stp_wf s -> keeps (stp_port_set_path_cost s p cost).
Proof.
  intros Hp Hc Hw. unfold stp_port_set_path_cost. destruct (_ =? _); [by apply keeps_some|]. destruct Hw as [[Hb _ _] Ht].
  apply keeps_reconfigure; [|by apply times_same_port]. apply base_wf_set_port; [done|done|].
  by destruct (bw_ports s Hb p Hp) as [X1 X2 X3 X4 X5 X6].
Qed.

Lemma keeps_port_set_speed (s : stp) (p : nat) (speed : Z) :
  (p < STP_MAX_PORTS)%nat -> stp_wf s -> keeps (stp_port_set_speed s p speed).
Proof. intros Hp. apply keeps_port_set_path_cost; [done|]. unfold stp_convert_speed_to_cost. repeat case_match; lia. Qed.

(** ** The bridge *)

(** A designated port under the new identifier of the bridge. *)
Definition readdressed (new : Z) (s : stp) (x : stp_port) : stp_port :=
  if is_designated s x then x {{ designated_bridge := new }} else x.

Lemma readdressed_fields (new : Z) (s : stp) (x : stp_port) :
  let y := readdressed new s x in
  port_id y = port_id x /\ port_state y = port_state x /\ path_cost y = path_cost x /\ designated_cost y = designated_cost x /\
  designated_port y = designated_port x /\ state_changed y = state_changed x /\
  designated_bridge y = (if is_designated s x then new else designated_bridge x).
Proof. cbv zeta. unfold readdressed. by destruct (is_designated s x). Qed.

Lemma keeps_set_bridge_id (s : stp) (new : Z) : stp_wf s -> keeps (set_bridge_id s new).
Proof.
  intros Hw. unfold set_bridge_id. destruct (_ =? _); [by apply keeps_some|]. destruct Hw as [[Hb _ _] Ht].
  set (body := fun s p => if stp_is_designated_port s p then set_port s p (fun x => x {{ designated_bridge := new }}) else s).
  destruct (for_each_spec body (fun s _ => readdressed new s)) with (s := s) as (Eb & El & Eq); [..|apply (bw_length s Hb)|].
  { intros s1 s2 p E x x' Ex. destruct (bridge_fields s1 s2 E) as (E1 & _). unfold readdressed.
    assert (is_designated s2 x' = is_designated s1 x) as -> by (apply info_designated; [done|by apply quiet_info]).
    destruct (is_designated s1 x); [|done]. revert x x' Ex. by quiet_fields. }
  { intros s1 p Hp. unfold body, stp_is_designated_port. destruct (is_designated s1 (get_port s1 p)) eqn:Ed.
    - apply port_step_set; [done|]. unfold readdressed. by rewrite Ed.
    - apply port_step_quiet; [done|]. unfold readdressed. by rewrite Ed. }
  assert (first_changed_port (FOR_EACH_ENABLED_PORT body s) = first_changed_port s) as Ef.
  { apply (for_each_inv (fun s' => first_changed_port s' = first_changed_port s)); [|done].
    intros s' p _ <-. unfold body. by destruct (stp_is_designated_port s' p). }
  assert (times_wf (FOR_EACH_ENABLED_PORT body s)) as T1.
  { apply times_for_each; [|done]. intros s' p Hs. unfold body. destruct (stp_is_designated_port s' p); [by apply times_same_port|done]. }
  revert Eb El Eq Ef T1. generalize (FOR_EACH_ENABLED_PORT body s). intros s1 Eb El Eq Ef T1.
  apply keeps_reconfigure_check_root; [|by destruct T1]. constructor; [done| |change (first_changed_port s1 <= STP_MAX_PORTS)%nat; rewrite Ef; apply (bw_first s Hb)].
  intros q Hq. change (get_port _ q) with (get_port s1 q). pose proof (bw_ports s Hb q Hq) as [X1 X2 X3 X4 X5 X6]. specialize (Eq q Hq).
  destruct (readdressed_fields new s (get_port s q)) as (Y1 & Y2 & Y3 & Y4 & Y5 & Y6 & Y7).
  injection Eq as I1 I2 I3 _ I5 I6 I7 _ _ _ I11.
  constructor; rewrite ?I1, ?I2, ?I3, ?I5, ?I11; try (by destruct (port_enabled s q); rewrite ?Y1, ?Y2, ?Y3).
  - destruct (port_enabled s q) eqn:He; [|apply not_true_iff_false in He; rewrite enabled_state in He; intros Hst; destruct (He Hst)].
    rewrite Y2, Y4. intros Hst Hd. apply X5; [done|]. destruct (is_designated s (get_port s q)) eqn:Ed; [|done].
    unfold is_designated in Hd. change (bridge_id _) with new in Hd. rewrite I6, I7, I1, Y7, Y5, Y1, Z.eqb_refl in Hd.
    apply andb_true_iff in Ed as [_ Ed]. by rewrite Ed in Hd.
  - change (first_changed_port _) with (first_changed_port s1). rewrite Ef. destruct (port_enabled s q); rewrite ?Y6; done.
Qed.

Lemma ms_to_timer_small (ms : Z) : 0 <= ms <= 40000 -> ms_to_timer ms = Some (ms * 256 / 1000).
Proof.
  intros Hms. unfold ms_to_timer. rewrite int_some by (unfold INT_MIN, INT_MAX; lia). cbn [mbind option_bind].
  by rewrite Z.quot_div_nonneg by lia.
Qed.

(** The bridge with the given times, in milliseconds, of its own. *)
Definition with_bridge_times (s : stp) (ht ma fd : Z) : stp :=
  s {{ bridge_hello_time := ht * 256 / 1000; bridge_max_age := ma * 256 / 1000; bridge_forward_delay := fd * 256 / 1000 }}.

Lemma update_bridge_timers_eq (s : stp) :
  exists ht ma fd, 1000 <= ht <= 10000 /\ 6000 <= ma <= 40000 /\ 2 * (ht + 1000) <= ma /\ fd <= 30000 /\ ma <= 2 * (fd - 1000) + 1 /\
    stp_update_bridge_timers s =
      Some (if stp_is_root_bridge (with_bridge_times s ht ma fd)
            then use_bridge_times (with_bridge_times s ht ma fd) else with_bridge_times s ht ma fd).
Proof.
  unfold stp_update_bridge_timers. set (ht := clamp (rq_hello_time s) _ _). set (ma := clamp (rq_max_age s) _ _).
  set (fd := clamp (rq_forward_delay s) _ _). exists ht, ma, fd.
  assert (1000 <= ht <= 10000) as Hht by (unfold ht, clamp; repeat case_match; lia).
  assert (6000 <= ma <= 40000 /\ 2 * (ht + 1000) <= ma) as [Hma Hma'] by (unfold ma, clamp, MAX; repeat case_match; lia).
  assert (fd <= 30000 /\ ma <= 2 * (fd - 1000) + 1) as [Hfd Hfd']
    by (unfold fd, clamp; rewrite Z.quot_div_nonneg by lia; repeat case_match; Z.div_mod_to_equations; lia).
  by rewrite !ms_to_timer_small by lia.
Qed.

Lemma times_with_bridge_times (s : stp) (ht ma fd : Z) :
  0 <= ht <= 40000 -> 0 <= ma <= 40000 -> 0 <= fd <= 40000 -> times_wf s -> times_wf (with_bridge_times s ht ma fd).
Proof.
  intros H1 H2 H3 [(B1 & B2 & B3 & B4 & B5 & B6 & B7) T1 T2 T3 T4]. constructor; try done.
  change (time_ok (max_age s) /\ time_ok (hello_time s) /\ time_ok (forward_delay s) /\ time_ok (ma * 256 / 1000) /\
          time_ok (ht * 256 / 1000) /\ time_ok (fd * 256 / 1000) /\ 0 <= elapsed_remainder s <= 4).
  unfold time_ok in *. Z.div_mod_to_equations. lia.
Qed.

Lemma update_bridge_timers_wf (s : stp) : stp_wf s -> keeps (stp_update_bridge_timers s).
Proof.
  intros Hw. destruct (update_bridge_timers_eq s) as (ht & ma & fd & H1 & H2 & H3 & H4 & H5 & ->). apply keeps_some.
  assert (times_wf (with_bridge_times s ht ma fd)) as T by (apply times_with_bridge_times; [lia|lia|lia|apply Hw]).
  destruct (stp_is_root_bridge _); apply (stp_wf_roles s); auto with stp_times.
Qed.
