(* ===== verification/StpTick.v ===== *)
(** * Spanning tree protocol: time passing

    [stp_tick]: the remainder of the conversion to ticks, the timers of the
    bridge and of each port in turn, and what expires.  The ranges of the times
    hold before and after. *)

From S2P Require Import Prelude Util MetaFlow MetaFields Packet Stp StpProps StpRoot StpInv StpTimes StpCalls.
From stdpp Require Import prelude list.
From coqutil Require Import Datatypes.RecordSetters.
From Stdlib Require Import ZArith Lia.
Import DoubleBraceUpdate.
Open Scope Z_scope.
Open Scope ovs_scope.

(** The longest time that can pass between two ticks: the remainder fits too,
    and 256 times the sum is in the range of [int]. *)
Definition TICK_MAX : Z := 8388603.

Lemma ms_to_timer_some (ms : Z) : 0 <= ms <= TICK_MAX + 4 -> ms_to_timer ms = Some (ms * 256 / 1000).
Proof.
  unfold TICK_MAX. intros H. unfold ms_to_timer. rewrite int_some by (unfold INT_MIN, INT_MAX; lia). cbn [mbind option_bind].
  by rewrite Z.quot_div_nonneg by lia.
Qed.

Lemma timer_to_ms_some (t : Z) : 0 <= t <= 2147483 -> timer_to_ms t = Some (t * 1000 / 256).
Proof.
  intros H. unfold timer_to_ms. rewrite int_some by (unfold INT_MIN, INT_MAX; lia). cbn [mbind option_bind].
  by rewrite Z.quot_div_nonneg by lia.
Qed.

(** The time that passed and the remainder that is carried over. *)
Definition tick_elapsed (s : stp) (ms : Z) : Z := (ms + elapsed_remainder s) * 256 / 1000.
Definition tick_remainder (s : stp) (ms : Z) : Z := ms + elapsed_remainder s - tick_elapsed s ms * 1000 / 256.

Lemma tick_bounds (s : stp) (ms : Z) :
  0 <= ms <= TICK_MAX -> 0 <= elapsed_remainder s <= 4 -> 0 <= tick_elapsed s ms <= 2147483 /\ 0 <= tick_remainder s ms <= 4.
Proof.
  unfold TICK_MAX. intros H1 H2. unfold tick_remainder, tick_elapsed. Z.div_mod_to_equations. lia.
Qed.

Lemma stp_tick_eq (s : stp) (ms : Z) :
  0 <= ms <= TICK_MAX -> 0 <= elapsed_remainder s <= 4 ->
  stp_tick s ms =
    let s' := s {{ elapsed_remainder := tick_remainder s ms }} in
    if tick_elapsed s ms =? 0 then Some s' else s' ← tick_bridge (tick_elapsed s ms) s'; tick_ports (tick_elapsed s ms) s'.
Proof.
  intros H1 H2. destruct (tick_bounds s ms H1 H2) as [H3 _]. unfold stp_tick.
  assert (clamp ms 0 (INT_MAX - 1000) = ms) as -> by (unfold clamp, INT_MAX, TICK_MAX in *; repeat case_match; lia).
  rewrite int_some by (unfold INT_MIN, INT_MAX, TICK_MAX in *; lia). cbn [mbind option_bind]. rewrite ms_to_timer_some by lia.
  cbn [mbind option_bind]. fold (tick_elapsed s ms). by rewrite timer_to_ms_some by lia.
Qed.

(** ** Timers *)

Lemma timer_expired_some (t : stp_timer) (elapsed timeout : Z) :
  0 <= elapsed <= 2147483 -> 0 <= timeout <= TIMER_MAX -> timer_ok t ->
  exists b t', stp_timer_expired t elapsed timeout = Some (b, t') /\ timer_ok t' /\
    b = tm_active t && (timeout <=? tm_value t + elapsed) /\ (tm_active t' = tm_active t && negb b) /\
    (tm_active t = true -> tm_value t' = tm_value t + elapsed).
Proof.
  intros He Ht Ho. unfold stp_timer_expired, timer_ok, TIMER_MAX in *. destruct (tm_active t) eqn:E.
  - specialize (Ho eq_refl). rewrite int_some by (unfold INT_MIN, INT_MAX; lia). cbn [mbind option_bind].
    destruct (Z.leb_spec timeout (tm_value t + elapsed)); eexists _, _; (split; [done|]); cbn; repeat split; try done; lia.
  - exists false, t. rewrite E. by split_and!.
Qed.

Lemma tick_timer_keeps (t : stp_timer) (elapsed timeout : Z) (store : stp_timer -> stp) (expiry : stp -> stp) :
  0 <= elapsed <= 2147483 -> 0 <= timeout <= TIMER_MAX -> timer_ok t ->
  (forall t, timer_ok t -> stp_wf (store t)) -> (forall t, timer_ok t -> stp_wf (expiry (store t))) ->
  keeps (tick_timer t elapsed timeout store expiry).
Proof.
  intros H1 H2 H3 Hs He. destruct (timer_expired_some t elapsed timeout) as (b & t' & E & Ho & _); [done..|].
  unfold tick_timer. rewrite E. apply keeps_some. destruct b; auto.
Qed.

Lemma keeps_bind (r : option stp) (f : stp -> option stp) : keeps r -> (forall s, stp_wf s -> keeps (f s)) -> keeps (r ≫= f).
Proof. intros (s & -> & H) Hf. by apply Hf. Qed.

Lemma times_hello_timer_expiry (s : stp) : times_wf s -> times_wf (stp_hello_timer_expiry s).
Proof. intros H. apply times_set_hello; [apply start_timer_0|by apply times_config_bpdu_generation]. Qed.

Lemma times_tcn_timer_expiry (s : stp) : times_wf s -> times_wf (stp_tcn_timer_expiry s).
Proof. intros H. apply times_set_tcn; [apply start_timer_0|]. auto with stp_times. Qed.

Lemma times_hold_timer_expiry (s : stp) (p : nat) : times_wf s -> times_wf (stp_hold_timer_expiry s p).
Proof. intros H. unfold stp_hold_timer_expiry. destruct (config_pending _); auto with stp_times. Qed.

Lemma time_ok_timer (t : Z) : time_ok t -> 0 <= t <= TIMER_MAX.
Proof. unfold time_ok, TIMER_MAX. lia. Qed.

Lemma keeps_tick_bridge (elapsed : Z) (s : stp) : 0 <= elapsed <= 2147483 -> stp_wf s -> keeps (tick_bridge elapsed s).
Proof.
  intros He Hw.
  assert (forall s t, stp_wf s -> timer_ok t -> stp_wf (s {{ hello_timer := t }})) as S1
    by (intros s1 t H1; pose proof H1 as [_ T]; intros; apply (stp_wf_roles s1); auto with stp_times).
  assert (forall s t, stp_wf s -> timer_ok t -> stp_wf (s {{ tcn_timer := t }})) as S2
    by (intros s1 t H1; pose proof H1 as [_ T]; intros; apply (stp_wf_roles s1); auto with stp_times).
  assert (forall s t, stp_wf s -> timer_ok t -> stp_wf (s {{ topology_change_timer := t }})) as S3
    by (intros s1 t H1; pose proof H1 as [_ T]; intros; apply (stp_wf_roles s1); auto with stp_times).
  unfold tick_bridge. apply keeps_bind.
  { pose proof Hw as [R T]. apply tick_timer_keeps; [done|apply time_ok_timer, T|apply T|auto|].
    intros t Hok. pose proof (S1 s t Hw Hok) as H1. apply (stp_wf_quiet (s {{ hello_timer := t }})); [apply quiet_hello_timer_expiry| |done].
    apply times_hello_timer_expiry, H1. }
  clear s Hw. intros s Hw. apply keeps_bind.
  { pose proof Hw as [R T]. apply tick_timer_keeps; [done|apply time_ok_timer, T|apply T|auto|].
    intros t Hok. pose proof (S2 s t Hw Hok) as H1. apply (stp_wf_quiet (s {{ tcn_timer := t }})); [apply quiet_tcn_timer_expiry| |done].
    apply times_tcn_timer_expiry, H1. }
  clear s Hw. intros s Hw. pose proof Hw as [R T].
  apply tick_timer_keeps; [done| |apply T|auto|].
  { destruct (tw_bridge s T) as (B1 & _ & B3 & _). unfold time_ok, TIMER_MAX in *. lia. }
  intros t Hok. destruct (S3 s t Hw Hok) as [R1 [T1 T2 T3 T4 T5]]. constructor; [by apply (roles_wf_roles s)|by constructor].
Qed.

(** ** Ports *)

Lemma get_port_times (s : stp) (p : nat) : times_wf s -> port_times (get_port s p).
Proof.
  intros T. unfold get_port. destruct (nth_in_or_default p (ports s) zero_port) as [Hin| ->]; [|done].
  apply list_elem_of_In in Hin. by apply (proj1 (Forall_forall _ _) (tw_ports s T)).
Qed.

Lemma stp_wf_set_timer (s : stp) (p : nat) (f : stp_port -> stp_port) :
  (forall x, port_times x -> port_times (f x)) -> (forall x, info (f x) = info x) -> stp_wf s -> stp_wf (set_port s p f).
Proof. intros Hf Hi Hw. apply (stp_wf_roles s); [by apply roles_set_port| |done]. apply times_set_port; [done|]. apply Hw. Qed.

(** A port that is not blocking may move on. *)
Lemma advance_wf (s : stp) (p : nat) (st : stp_state) :
  (p < STP_MAX_PORTS)%nat -> live (port_state (get_port s p)) -> st <> STP_UNSET -> live st -> stp_wf s -> stp_wf (stp_set_port_state s p st).
Proof.
  intros Hp Hl Hu Hst [[Hb Hr Hs] Ht]. assert (port_step (set_state st) p s (stp_set_port_state s p st)) as Hstep
    by (apply set_port_state_step; by rewrite (bw_length s Hb)).
  assert (port_enabled s p = true) as He by (apply enabled_state, Hl).
  constructor; [|by apply times_set_port_state]. constructor.
  - apply base_wf_set_state; [done|done|by right|done].
  - apply (root_wf_step _ _ s _ Hstep); [|by intros _; destruct Hst|done]. intros _. by apply (rw_same s Hr).
  - by apply (states_wf_step _ _ s _ Hstep).
Qed.

Lemma forward_delay_timer_expiry_wf (s : stp) (p : nat) :
  (p < STP_MAX_PORTS)%nat -> stp_wf s -> stp_wf (stp_forward_delay_timer_expiry s p).
Proof.
  intros Hp Hw. unfold stp_forward_delay_timer_expiry. destruct (port_state (get_port s p)) eqn:Est; try done.
  - apply stp_wf_set_timer; [|done|].
    + intros x (X1 & X2 & X3). split_and!; [done|apply start_timer_0|done].
    + apply advance_wf; [done|by rewrite Est|done|done|done].
  - assert (stp_wf (stp_set_port_state s p STP_FORWARDING)) as H1 by (apply advance_wf; [done|by rewrite Est|done|done|done]).
    destruct (_ && _); [|done]. apply (stp_wf_quiet _ _ (quiet_topology_change_detection _)); [|done].
    apply times_topology_change_detection, H1.
Qed.

Lemma keeps_tick_message_age (elapsed : Z) (s : stp) (p : nat) :
  0 <= elapsed <= 2147483 -> (p < STP_MAX_PORTS)%nat -> stp_wf s -> keeps (tick_message_age elapsed s p).
Proof.
  intros He Hp Hw. pose proof Hw as [R T]. destruct (get_port_times s p T) as (Hm & _).
  destruct (timer_expired_some (message_age_timer (get_port s p)) elapsed (max_age s)) as (b & t' & E & Ho & _);
    [done|apply time_ok_timer, T|done|]. unfold tick_message_age. rewrite E. cbn [mbind option_bind].
  set (s1 := set_port s p _). assert (stp_wf s1) as [R1 T1].
  { apply stp_wf_set_timer; [|done|done]. by intros x (X1 & X2 & X3). }
  destruct b; [|by apply keeps_some]. unfold stp_message_age_timer_expiry.
  apply keeps_reconfigure_check_root; [by apply become_designated_base, R1|by apply times_become_designated].
Qed.

Lemma keeps_tick_forward_delay (elapsed : Z) (s : stp) (p : nat) :
  0 <= elapsed <= 2147483 -> (p < STP_MAX_PORTS)%nat -> stp_wf s -> keeps (tick_forward_delay elapsed s p).
Proof.
  intros He Hp Hw. pose proof Hw as [R T]. destruct (get_port_times s p T) as (_ & Hf & _).
  assert (forall t, timer_ok t -> stp_wf (set_port s p (fun x => x {{ forward_delay_timer := t }}))) as Hset.
  { intros t Ht. apply stp_wf_set_timer; [|done|done]. by intros x (X1 & X2 & X3). }
  apply tick_timer_keeps; [done|apply time_ok_timer, T|done|done|]. intros t Ht. by apply forward_delay_timer_expiry_wf, Hset.
Qed.

Lemma keeps_tick_hold (elapsed : Z) (s : stp) (p : nat) :
  0 <= elapsed <= 2147483 -> (p < STP_MAX_PORTS)%nat -> stp_wf s -> keeps (tick_hold elapsed s p).
Proof.
  intros He Hp Hw. pose proof Hw as [R T]. destruct (get_port_times s p T) as (_ & _ & Hh).
  assert (forall t, timer_ok t -> stp_wf (set_port s p (fun x => x {{ hold_timer := t }}))) as Hset.
  { intros t Ht. apply stp_wf_set_timer; [|done|done]. by intros x (X1 & X2 & X3). }
  unfold tick_hold. rewrite ms_to_timer_some by (unfold TICK_MAX; lia). cbn [mbind option_bind].
  apply tick_timer_keeps; [done|by unfold TIMER_MAX|done|done|]. intros t Ht. specialize (Hset t Ht).
  apply (stp_wf_quiet _ _ (quiet_hold_timer_expiry _ _)); [apply times_hold_timer_expiry, Hset|done].
Qed.

Lemma keeps_for_ports (body : stp -> nat -> option stp) (l : list nat) (s : stp) :
  (forall s p, p ∈ l -> stp_wf s -> keeps (body s p)) -> stp_wf s -> keeps (for_ports body s l).
Proof.
  revert s. induction l as [|p l IH]; intros s Hb Hw; cbn [for_ports]; [by apply keeps_some|]. apply keeps_bind.
  - destruct (port_enabled s p); [apply Hb; [by left|done]|by apply keeps_some].
  - intros s1. apply IH. intros s2 q Hq. apply Hb. by right.
Qed.

Lemma elem_of_ports (p : nat) : p ∈ seq 0 STP_MAX_PORTS -> (p < STP_MAX_PORTS)%nat.
Proof. rewrite elem_of_seq. lia. Qed.

Lemma keeps_tick_ports (elapsed : Z) (s : stp) : 0 <= elapsed <= 2147483 -> stp_wf s -> keeps (tick_ports elapsed s).
Proof.
  intros He Hw. unfold tick_ports. apply keeps_bind.
  - apply keeps_for_ports; [|done]. intros s1 p Hp. by apply keeps_tick_message_age, elem_of_ports.
  - clear s Hw. intros s Hw. apply keeps_for_ports; [|done]. intros s1 p Hp%elem_of_ports H1.
    apply keeps_bind; [by apply keeps_tick_forward_delay|]. intros s2. by apply keeps_tick_hold.
Qed.

Lemma keeps_tick (s : stp) (ms : Z) : 0 <= ms <= TICK_MAX -> stp_wf s -> keeps (stp_tick s ms).
Proof.
  intros Hms Hw. pose proof Hw as [R T]. assert (0 <= elapsed_remainder s <= 4) as Hr by apply T.
  rewrite stp_tick_eq by done. destruct (tick_bounds s ms Hms Hr) as [He Hr']. cbv zeta.
  assert (stp_wf (s {{ elapsed_remainder := tick_remainder s ms }})) as H1.
  { apply (stp_wf_roles s); [done| |done]. destruct T as [(B1 & B2 & B3 & B4 & B5 & B6 & B7) T1 T2 T3 T4]. by constructor. }
  destruct (_ =? 0); [by apply keeps_some|]. apply keeps_bind; [by apply keeps_tick_bridge|]. intros s1. by apply keeps_tick_ports.
Qed.
