(* ===== verification/StpHistory.v ===== *)
(** * Spanning tree protocol: histories

    Creation, the ports whose state changed, received packets and every other
    call in turn: the invariant of [StpCalls] holds after each. *)

From S2P Require Import Prelude Util MetaFlow MetaFields Packet PacketProps Stp StpProps StpRoot StpInv StpTimes StpCalls StpTick.
From S2P Require Import ExtractPadding.
From stdpp Require Import prelude list.
From coqutil Require Import Datatypes.RecordSetters.
From Stdlib Require Import ZArith Lia.
Import DoubleBraceUpdate.
Open Scope Z_scope.
Open Scope ovs_scope.

(** ** Changed ports *)

Lemma find_changed_some (l : list stp_port) (p n q : nat) :
  find_changed l p n = Some q ->
  (p <= q < p + n)%nat /\ state_changed (nth q l zero_port) = true /\ forall r, (p <= r < q)%nat -> state_changed (nth r l zero_port) = false.
Proof.
  revert p. induction n as [|n IH]; intros p; cbn [find_changed]; [done|]. destruct (state_changed (nth p l zero_port)) eqn:E.
  - intros [= <-]. split_and!; [lia|lia|done|lia].
  - intros H. destruct (IH _ H) as (H1 & H2 & H3). split_and!; [lia|lia|done|]. intros r Hr.
    destruct (decide (r = p)) as [->|]; [done|]. apply H3. lia.
Qed.

Lemma find_changed_none (l : list stp_port) (p n : nat) :
  find_changed l p n = None -> forall r, (p <= r < p + n)%nat -> state_changed (nth r l zero_port) = false.
Proof.
  revert p. induction n as [|n IH]; intros p; cbn [find_changed]; [lia|]. destruct (state_changed (nth p l zero_port)) eqn:E; [done|].
  intros H r Hr. destruct (decide (r = p)) as [->|]; [done|]. apply (IH _ H). lia.
Qed.

(** The changed port that is reported is the first one there is. *)
Lemma get_changed_port_first (s : stp) (p : nat) :
  base_wf s -> (stp_get_changed_port s).1 = Some p ->
  (p < STP_MAX_PORTS)%nat /\ state_changed (get_port s p) = true /\ forall q, (q < p)%nat -> state_changed (get_port s q) = false.
Proof.
  intros Hb. unfold stp_get_changed_port. destruct (find_changed _ _ _) as [q|] eqn:E; [|done]. cbn [fst]. intros [= <-].
  destruct (find_changed_some _ _ _ _ E) as (H1 & H2 & H3). pose proof (bw_first s Hb) as Hf. split_and!; [lia|done|].
  intros r Hr. destruct (decide (first_changed_port s <= r)%nat); [apply H3; lia|].
  apply not_true_is_false. intros Hc. assert (r < STP_MAX_PORTS)%nat as Hr' by lia.
  pose proof (pw_changed _ _ _ (bw_ports s Hb r Hr') Hc). lia.
Qed.

Lemma get_changed_port_none (s : stp) :
  base_wf s -> (stp_get_changed_port s).1 = None -> forall q, (q < STP_MAX_PORTS)%nat -> state_changed (get_port s q) = false.
Proof.
  intros Hb. unfold stp_get_changed_port. destruct (find_changed _ _ _) as [q|] eqn:E; [done|]. intros _ q Hq.
  pose proof (bw_first s Hb) as Hf. destruct (decide (first_changed_port s <= q)%nat).
  - apply (find_changed_none _ _ _ E). lia.
  - apply not_true_is_false. intros Hc. pose proof (pw_changed _ _ _ (bw_ports s Hb q Hq) Hc). lia.
Qed.

(** What changes is only what is left to report. *)
Definition reported (x : stp_port) : stp_port := x {{ state_changed := false }}.

Lemma get_changed_port_ports (s : stp) (q : nat) :
  base_wf s -> (q < STP_MAX_PORTS)%nat ->
  get_port (stp_get_changed_port s).2 q =
    (if bool_decide ((stp_get_changed_port s).1 = Some q) then reported (get_port s q) else get_port s q).
Proof.
  intros Hb Hq. pose proof (bw_first s Hb) as Hf. unfold stp_get_changed_port. destruct (find_changed _ _ _) as [p|] eqn:E; cbn [fst snd]; [|done].
  destruct (find_changed_some _ _ _ _ E) as (H1 & _). change (get_port (apply_update _ (set_port s p ?f)) q) with (get_port (set_port s p f) q).
  rewrite get_set_port by (rewrite (bw_length s Hb); lia).
  destruct (Nat.eqb_spec q p) as [Heq|Hne].
  - subst q. by rewrite bool_decide_eq_true_2.
  - rewrite bool_decide_eq_false_2; [done|]. congruence.
Qed.

(** The roles do not depend on what is left to report. *)
Lemma roles_wf_reported (s s' : stp) :
  bridge s' = bridge s -> length (ports s') = length (ports s) -> changed_ok s' ->
  (forall q, (q < STP_MAX_PORTS)%nat -> get_port s' q = get_port s q \/ get_port s' q = reported (get_port s q)) ->
  roles_wf s -> roles_wf s'.
Proof.
  intros Eb El [Hf Hc] Hp [Hb [R1 R2 R3] Hs]. destruct (bridge_fields _ _ Eb) as (E1 & E2 & E3 & E4).
  assert (forall q, (q < STP_MAX_PORTS)%nat -> port_enabled s' q = port_enabled s q /\
    stp_is_designated_port s' q = stp_is_designated_port s q /\ port_state (get_port s' q) = port_state (get_port s q) /\
    port_designated_root (get_port s' q) = port_designated_root (get_port s q)) as Hx.
  { intros q Hq. unfold port_enabled, stp_is_designated_port, is_designated. rewrite E1. by destruct (Hp q Hq) as [-> | ->]. }
  constructor; [constructor|constructor|].
  - rewrite El. apply Hb.
  - intros q Hq. destruct (Hx q Hq) as (_ & H2 & _). unfold stp_is_designated_port in H2. specialize (Hc q Hq).
    pose proof (bw_ports s Hb q Hq) as [X1 X2 X3 X4 X5 X6]. rewrite <- H2 in X5. revert Hc X5.
    destruct (Hp q Hq) as [-> | ->]; intros Hc X5; by constructor.
  - done.
  - by rewrite E3.
  - rewrite E1, E2, E3, E4. destruct (root_port s) as [r|]; [|done]. destruct R2 as (A & B & C). by destruct (Hx r A) as (-> & _).
  - intros q Hq. destruct (Hx q Hq) as (-> & _ & _ & ->). rewrite E2. auto.
  - intros q Hq. destruct (Hx q Hq) as (-> & -> & -> & _). rewrite E4. auto.
Qed.

Lemma get_changed_port_listed (s : stp) : base_wf s -> changed_ok (stp_get_changed_port s).2.
Proof.
  intros Hb. pose proof (get_changed_port_ports s) as Hp. pose proof (get_changed_port_none s Hb) as Hn. pose proof (bw_first s Hb) as Hf.
  split.
  - unfold stp_get_changed_port. destruct (find_changed _ _ _) as [q|] eqn:E; cbn [snd]; [|done].
    destruct (find_changed_some _ _ _ _ E) as (A & _). change (S q <= STP_MAX_PORTS)%nat. lia.
  - intros q Hq. rewrite Hp by done. destruct (bool_decide _) eqn:Ep; [done|]. intros Hc.
    pose proof (pw_changed _ _ _ (bw_ports s Hb q Hq) Hc) as Hq'. apply bool_decide_eq_false in Ep.
    revert Ep Hn. unfold stp_get_changed_port. destruct (find_changed _ _ _) as [r|] eqn:E; cbn [fst snd]; [intros Ep _|intros _ Hn].
    + destruct (find_changed_some _ _ _ _ E) as (A & B & C). change (S r <= q)%nat.
      destruct (decide (q < r)%nat) as [Hlt|]; [|enough (q <> r) by lia; congruence].
      unfold get_port in Hc. rewrite C in Hc; [done|lia].
    + by rewrite (Hn eq_refl q Hq) in Hc.
Qed.

Lemma get_changed_port_wf (s : stp) : stp_wf s -> stp_wf (stp_get_changed_port s).2.
Proof.
  intros [R T]. pose proof (ow_base s R) as Hb. constructor.
  - apply (roles_wf_reported s); [..|done].
    + unfold stp_get_changed_port. by destruct (find_changed _ _ _).
    + unfold stp_get_changed_port. destruct (find_changed _ _ _); [|done]. apply (length_set_port s).
    + by apply get_changed_port_listed.
    + intros q Hq. rewrite get_changed_port_ports by done. destruct (bool_decide _); auto.
  - unfold stp_get_changed_port. destruct (find_changed _ _ _) as [q|]; cbn [snd]; [|by destruct T].
    destruct (times_same_port s q reported (fun _ => eq_refl) T). by constructor.
Qed.

(** ** Packets *)

(** A packet with an Ethernet header, whose BPDU, if there is one, says that the
    root costs no more than the code can add up. *)
Definition packet_ok (packet : list Z) : Prop :=
  Forall is_byte packet /\ (ETH_HEADER_LEN <= length packet)%nat /\ get packet 30 4 <= COST_MAX.

Lemma get_drop (p : list Z) (k o n : nat) : get (drop k p) o n = get p (k + o) n.
Proof. unfold get. by rewrite drop_drop. Qed.

Lemma keeps_process_packet (s : stp) (p : nat) (packet : list Z) :
  (p < STP_MAX_PORTS)%nat -> packet_ok packet -> stp_wf s -> keeps (stp_process_packet s p packet).
Proof.
  intros Hp (Hby & Hlen & Hcost) Hw. unfold stp_process_packet. destruct (bool_decide _); [by apply keeps_some|].
  rewrite rd_some by done. cbn [mbind option_bind]. set (size := (_ + ETH_HEADER_LEN)%nat).
  set (payload := if (size <? length packet)%nat then take size packet else packet).
  assert (exists rest, packet = payload ++ rest) as (rest & Erest).
  { unfold payload. destruct (size <? length packet)%nat; [exists (drop size packet); by rewrite take_drop|exists []; by rewrite app_nil_r]. }
  destruct (_ <=? _)%nat; [|by apply keeps_some]. apply keeps_received_bpdu; [done| |done].
  change (ETH_HEADER_LEN + LLC_HEADER_LEN)%nat with 17%nat. rewrite length_drop. unfold STP_CONFIG_BPDU_LEN. intros Hl.
  assert (Forall is_byte payload) as Hb by (rewrite Erest in Hby; by apply Forall_app in Hby as [? _]).
  rewrite Erest, get_app in Hcost by lia. unfold config_ok, read_config, time_ok. cbn [cf_root_path_cost cf_message_age cf_max_age cf_hello_time cf_forward_delay]. rewrite !get_drop.
  assert (forall o, 0 <= get payload o 2 <= 65535) as H2.
  { intros o. pose proof (get_width payload o 2 Hb) as Hw2. unfold in_width in Hw2. change (2 ^ (8 * Z.of_nat 2)) with 65536 in Hw2. lia. }
  split_and!; try apply H2; [by apply get_nonneg|done].
Qed.

(** ** Creation *)

(** The first [n] ports are created. *)
Record created (n : nat) (s : stp) : Prop := {
  cr_length : length (ports s) = STP_MAX_PORTS;
  cr_first : first_changed_port s = STP_MAX_PORTS;
  cr_root : root_port s = None /\ designated_root s = bridge_id s /\ root_path_cost s = 0;
  cr_done : forall q, (q < n)%nat -> port_wf s q (get_port s q) /\ port_enabled s q = false;
  cr_todo : forall q, (n <= q < STP_MAX_PORTS)%nat -> get_port s q = zero_port;
  cr_times : times_wf s
}.

Definition default_port_id (p : nat) : Z := Z.lor (Z.of_nat p + 1) (Z.shiftl STP_DEFAULT_PORT_PRIORITY 8).

Lemma default_port_id_ok (p : nat) :
  (p < STP_MAX_PORTS)%nat -> Z.land (default_port_id p) 0xff = Z.of_nat p + 1 /\ in_width 16 (default_port_id p).
Proof.
  intros Hp. assert (forallb (fun p => (Z.land (default_port_id p) 0xff =? Z.of_nat p + 1) && (0 <=? default_port_id p) &&
    (default_port_id p <? 2 ^ 16)) (seq 0 STP_MAX_PORTS) = true) as H by (by vm_compute).
  rewrite forallb_forall in H. specialize (H p). rewrite in_seq in H. unfold in_width. lia.
Qed.

(** A port as [stp_create] leaves it. *)
Definition fresh_port (s : stp) (p : nat) : stp_port :=
  cleared ((designate s (zero_port {{ port_id := default_port_id p; path_cost := 2 }})) {{ port_state := STP_DISABLED }}).

Lemma create_port_eq (s : stp) (p : nat) :
  (p < STP_MAX_PORTS)%nat -> length (ports s) = STP_MAX_PORTS -> get_port s p = zero_port -> times_wf s ->
  exists s', create_port s p = Some s' /\ bridge s' = bridge s /\ first_changed_port s' = first_changed_port s /\
    length (ports s') = STP_MAX_PORTS /\ times_wf s' /\
    forall q, get_port s' q = if (q =? p)%nat then fresh_port s p else get_port s q.
Proof.
  intros Hp Hl Hz Ht. unfold create_port, stp_initialize_port. change (ovs_assert _) with (Some tt). cbn [mbind option_bind].
  set (s1 := set_port s p _). assert (length (ports s1) = STP_MAX_PORTS) as L1 by (unfold s1; by rewrite length_set_port).
  assert (times_wf s1) as T1 by (by apply times_same_port). set (s2 := stp_become_designated_port s1 p).
  assert (length (ports s2) = STP_MAX_PORTS) as L2 by (unfold s2, stp_become_designated_port; by rewrite length_set_port).
  assert (times_wf s2) as T2 by (by apply times_become_designated).
  assert (get_port s2 p = designate s (zero_port {{ port_id := default_port_id p; path_cost := 2 }})) as E2.
  { unfold s2, stp_become_designated_port. rewrite get_set_port, Nat.eqb_refl by (by rewrite L1).
    unfold s1. rewrite get_set_port, Nat.eqb_refl by (by rewrite Hl). by rewrite Hz. }
  assert (forall q, q <> p -> get_port s2 q = get_port s q) as N2.
  { intros q Hq%Nat.eqb_neq. unfold s2, stp_become_designated_port. rewrite get_set_port, Hq by (by rewrite L1).
    unfold s1. by rewrite get_set_port, Hq by (by rewrite Hl). }
  assert (bool_decide (port_state (get_port s2 p) = STP_UNSET) && bool_decide (STP_DISABLED = STP_DISABLED) = true) as ->
    by (by rewrite E2).
  set (s3 := set_port s2 p _). assert (length (ports s3) = STP_MAX_PORTS) as L3 by (unfold s3; by rewrite length_set_port).
  assert (times_wf s3) as T3 by (by apply times_same_port).
  eexists. split; [done|]. split_and!; [done|done|by rewrite length_set_port| |].
  - apply times_set_port; [|done]. by intros x (? & ? & ?).
  - intros q. rewrite get_set_port by (by rewrite L3). unfold s3. rewrite get_set_port by (by rewrite L2).
    destruct (Nat.eqb_spec q p) as [Heq|Hne]; [|by apply N2]. subst q. by rewrite E2.
Qed.

Lemma fresh_port_wf (s : stp) (p : nat) : (p < STP_MAX_PORTS)%nat -> port_wf s p (fresh_port s p).
Proof. intros Hp. destruct (default_port_id_ok p Hp) as [H1 H2]. by constructor. Qed.

Lemma create_ports_created (n m : nat) (s : stp) :
  (m + n = STP_MAX_PORTS)%nat -> created m s -> exists s', create_ports s (seq m n) = Some s' /\ created STP_MAX_PORTS s'.
Proof.
  revert m s. induction n as [|n IH]; intros m s Hmn Hc; cbn [seq create_ports].
  - exists s. split; [done|]. by replace STP_MAX_PORTS with m by lia.
  - destruct Hc as [C1 C2 C3 C4 C5 C6]. destruct (create_port_eq s m) as (s1 & -> & Eb & Ef & El & T1 & Eq); [lia|done|apply C5; lia|done|].
    cbn [mbind option_bind]. apply IH; [lia|]. destruct (bridge_fields _ _ Eb) as (E1 & E2 & E3 & E4).
    constructor; [done|congruence|by rewrite E1, E2, E3, E4| | |done].
    + intros q Hq. specialize (Eq q). unfold port_enabled. rewrite Eq.
      assert (forall x, port_wf s q x -> port_wf s1 q x) as Hx.
      { intros x. apply port_wf_info; [done|by rewrite Ef|done]. }
      destruct (Nat.eqb_spec q m) as [Heq|]; [subst q; split; [by apply Hx, fresh_port_wf; lia|done]|].
      destruct (C4 q) as [A B]; [lia|]. split; [by apply Hx|done].
    + intros q Hq. rewrite Eq. destruct (Nat.eqb_spec q m); [lia|]. apply C5. lia.
Qed.

Lemma created_wf (s : stp) : created STP_MAX_PORTS s -> stp_wf s.
Proof.
  intros [C1 C2 (C3 & C4 & C5) C6 C7 C8]. constructor; [|done]. constructor.
  - constructor; [done|by intros q Hq; apply C6|by rewrite C2].
  - constructor; [rewrite C5; unfold INT_MAX; lia|by rewrite C3|]. intros q Hq. destruct (C6 q Hq) as [_ ->]. discriminate.
  - intros q Hq. destruct (C6 q Hq) as [_ ->]. discriminate.
Qed.

Lemma keeps_create (id : Z) : keeps (stp_create id).
Proof.
  unfold stp_create. set (s := Stp _ 0 0 0 0 0 0 _ _ _ 0 0 0 None _ _ _ _ _ _ _ _ _).
  assert (times_wf s) as T by (constructor; try done; by apply Forall_replicate).
  destruct (update_bridge_timers_eq s) as (ht & ma & fd & H1 & H2 & H3 & H4 & H5 & ->). cbn [mbind option_bind].
  set (s1 := if stp_is_root_bridge _ then _ else _). assert (times_wf s1) as T1.
  { assert (times_wf (with_bridge_times s ht ma fd)) by (apply times_with_bridge_times; [lia|lia|lia|done]).
    unfold s1. destruct (stp_is_root_bridge _); auto with stp_times. }
  assert (ports s1 = replicate STP_MAX_PORTS zero_port) as P1 by (unfold s1; by destruct (stp_is_root_bridge _)).
  clearbody s1. clear ht ma fd H1 H2 H3 H4 H5. pose proof (times_use_bridge_times s1 T1) as T2. set (s2 := use_bridge_times s1) in *.
  assert (ports s2 = replicate STP_MAX_PORTS zero_port) as P2 by done. clearbody s2. set (s3 := s2 {{ designated_root := _; root_path_cost := 0;
    root_port := _; topology_change_detected := _; topology_change := _; tcn_timer := _; topology_change_timer := _; hello_timer := _;
    first_changed_port := _ }}).
  destruct (create_ports_created STP_MAX_PORTS 0 s3) as (s4 & E & C); [done| |].
  { destruct T2 as [B2 B3 B4 B5 B6]. constructor; try done; [change (length (ports s2) = STP_MAX_PORTS); by rewrite P2|lia| |].
    - intros q Hq. change (nth q (ports s2) zero_port = zero_port). by rewrite P2, nth_lookup, lookup_replicate_2 by lia.
    - constructor; try done. apply start_timer_ok, B2. }
  exists s4. split; [done|]. by apply created_wf.
Qed.

(** ** Histories *)

(** What the callers guarantee: a valid port number, a path cost of 16 bits, time
    that passes in steps that can be converted, a packet with an Ethernet header. *)
Definition port_no_ok (port_no : Z) : Prop := 0 <= port_no < Z.of_nat STP_MAX_PORTS.

Definition call_ok (c : stp_call) : Prop :=
  match c with
  | Tick ms => ms <= TICK_MAX
  | Set_bridge_id _ | Set_bridge_priority _ | Set_hello_time _ | Set_max_age _ | Set_forward_delay _
  | Reset_fdb_flush | Force_topology_change | Next_changed_port => True
  | Receive_packet port_no packet => port_no_ok port_no /\ packet_ok packet
  | Port_enable port_no | Port_disable port_no | Port_set_priority port_no _ | Port_set_speed port_no _
  | Port_change_detection port_no _ => port_no_ok port_no
  | Port_set_path_cost port_no cost => port_no_ok port_no /\ 0 <= cost <= 65535
  end.

Lemma get_port_some (port_no : Z) : port_no_ok port_no -> exists p, stp_get_port port_no = Some p /\ (p < STP_MAX_PORTS)%nat.
Proof.
  unfold port_no_ok, stp_get_port. intros H. exists (Z.to_nat port_no). split; [|lia].
  destruct (Z.leb_spec 0 port_no), (Z.ltb_spec port_no (Z.of_nat STP_MAX_PORTS)); cbn [andb]; done || lia.
Qed.

Lemma tick_negative (s : stp) (ms : Z) : ms <= 0 -> stp_tick s ms = stp_tick s 0.
Proof.
  intros H. unfold stp_tick. assert (clamp ms 0 (INT_MAX - 1000) = clamp 0 0 (INT_MAX - 1000)) as ->; [|done].
  unfold clamp. destruct (Z.ltb_spec ms 0); [done|]. by replace ms with 0 by lia.
Qed.

Lemma keeps_requested (s : stp) (f : stp -> stp) :
  (forall s, roles (f s) = roles s) -> (forall s, times_wf s -> times_wf (f s)) -> stp_wf s -> keeps (stp_update_bridge_timers (f s)).
Proof. intros Hf Ht Hw. apply update_bridge_timers_wf, (stp_wf_roles s); [done|apply Ht, Hw|done]. Qed.

Lemma keeps_do (s : stp) (c : stp_call) : call_ok c -> stp_wf s -> keeps (stp_do s c).
Proof.
  intros Hc Hw. destruct c; cbn [stp_do call_ok] in *.
  all: try match type of Hc with
           | port_no_ok _ => pose proof Hc as Hp
           | port_no_ok _ /\ _ => destruct Hc as [Hp Hc]
           end.
  all: try (destruct (get_port_some _ Hp) as (p & -> & Hlt); cbn [mbind option_bind]).
  - destruct (Z.neg_nonneg_cases ms); [rewrite tick_negative by lia; by apply keeps_tick; [unfold TICK_MAX; lia|]|by apply keeps_tick].
  - by apply keeps_set_bridge_id.
  - by apply keeps_set_bridge_id.
  - apply (keeps_requested s (fun s => s {{ rq_hello_time := ms }})); [done| |done]. by intros s' [].
  - apply (keeps_requested s (fun s => s {{ rq_max_age := ms }})); [done| |done]. by intros s' [].
  - apply (keeps_requested s (fun s => s {{ rq_forward_delay := ms }})); [done| |done]. by intros s' [].
  - apply keeps_some, (stp_wf_roles s); [done| |done]. by destruct Hw as [_ []].
  - apply keeps_some, (stp_wf_quiet s); [apply quiet_topology_change_detection|apply times_topology_change_detection, Hw|done].
  - by apply keeps_some, get_changed_port_wf.
  - by apply keeps_process_packet.
  - by apply keeps_port_enable.
  - by apply keeps_port_disable.
  - by apply keeps_some, port_set_priority_wf.
  - by apply keeps_port_set_path_cost.
  - by apply keeps_port_set_speed.
  - apply keeps_some. destruct enable; by apply stp_wf_set_timer.
Qed.

Lemma keeps_history (s : stp) (l : list stp_call) : Forall call_ok l -> stp_wf s -> keeps (stp_history s l).
Proof.
  revert s. induction l as [|c l IH]; intros s Hl Hw; cbn [stp_history]; [by apply keeps_some|].
  apply Forall_cons in Hl as [Hc Hl]. apply keeps_bind; [by apply keeps_do|]. intros s'. by apply IH.
Qed.

(** A bridge after a history, for examples. *)
Definition bridge_after (id : Z) (l : list stp_call) : stp :=
  match stp_create id ≫= (fun s => stp_history s l) with
  | Some s => s
  | None => Stp 0 0 0 0 0 0 0 0 0 0 0 0 0 None false false zero_timer zero_timer zero_timer [] false 0 []
  end.

Lemma bridge_after_wf (id : Z) (l : list stp_call) : Forall call_ok l -> stp_wf (bridge_after id l).
Proof.
  intros Hl. destruct (keeps_bind (stp_create id) (fun s => stp_history s l)) as (s & E & Hw).
  - apply keeps_create.
  - intros s. by apply keeps_history.
  - unfold bridge_after. rewrite E. exact Hw.
Qed.
