(* ===== verification/StpTheorems.v ===== *)
(** * Spanning tree protocol: theorems

    What a bridge guarantees over any history of calls, whom it elects, how its
    times are bounded and how changed ports are reported. *)

From S2P Require Import Prelude Util MetaFlow MetaFields Packet PacketProps Stp StpProps StpRoot StpInv StpElect StpTimes StpCalls StpTick StpHistory.
From stdpp Require Import prelude list.
From coqutil Require Import Datatypes.RecordSetters.
From Stdlib Require Import ZArith Lia.
Import DoubleBraceUpdate.
Open Scope Z_scope.
Open Scope ovs_scope.

(** ** Any history *)

(** The numbers in the identifiers tell the ports apart. *)
Lemma port_id_inj (s : stp) (p q : nat) :
  base_wf s -> (p < STP_MAX_PORTS)%nat -> (q < STP_MAX_PORTS)%nat -> port_id (get_port s p) = port_id (get_port s q) -> p = q.
Proof. intros Hb Hp Hq E. pose proof (pw_id _ _ _ (bw_ports s Hb p Hp)). pose proof (pw_id _ _ _ (bw_ports s Hb q Hq)). rewrite E in *. lia. Qed.

Lemma role_root_iff (s : stp) (p : nat) :
  base_wf s -> root_wf s -> (p < STP_MAX_PORTS)%nat -> stp_port_get_role s p = STP_ROLE_ROOT <-> root_port s = Some p.
Proof.
  intros Hb [_ Hr _] Hp. unfold stp_port_get_role. destruct (root_port s) as [r|].
  - destruct (Z.eqb_spec (port_id (get_port s r)) (port_id (get_port s p))) as [E|Hne].
    + split; [|done]. intros _. f_equal. apply (port_id_inj s); [done|apply Hr|done|done].
    + split; [by repeat case_match|congruence].
  - by repeat case_match.
Qed.

Lemma live_role (s : stp) (p : nat) :
  roles_wf s -> (p < STP_MAX_PORTS)%nat ->
  stp_learn_in_state (port_state (get_port s p)) || stp_forward_in_state (port_state (get_port s p)) = true ->
  stp_port_get_role s p = STP_ROLE_ROOT \/ stp_port_get_role s p = STP_ROLE_DESIGNATED.
Proof.
  intros [Hb Hr Hs] Hp Hst. assert (live (port_state (get_port s p))) as [Hd Hn] by (by split; intros Est; rewrite Est in Hst).
  destruct (Hs p Hp) as [Ep|Ep]; [by apply enabled_state|done|left; by apply role_root_iff|].
  unfold stp_port_get_role. rewrite Ep. destruct (match root_port s with Some r => _ | None => _ end); auto.
Qed.

Lemma root_bridge_iff (s : stp) : root_wf s -> stp_is_root_bridge s = true <-> root_port s = None.
Proof.
  intros [_ Hroot _]. unfold stp_is_root_bridge. rewrite Z.eqb_eq. destruct (root_port s) as [r|].
  - destruct Hroot as (_ & _ & Hlt). split; [lia|done].
  - by destruct Hroot.
Qed.


(** A frame that claims bridge 1 as the root, at cost 0. *)
Definition demo_bpdu : stp_config_bpdu := StpConfigBpdu 0 1 0 1 0x8001 0 5120 512 3840.
Definition demo_packet : list Z := stp_frame (config_bytes demo_bpdu).

Definition demo_calls : list stp_call :=
  [Port_enable 0; Port_enable 1; Port_set_speed 0 1000; Set_hello_time 1000; Receive_packet 0 demo_packet; Tick 16000; Tick (-5);
   Next_changed_port; Set_bridge_priority 0; Port_set_priority 1 3; Tick 30000; Port_disable 0; Reset_fdb_flush].

Lemma demo_packet_ok : packet_ok demo_packet.
Proof. split_and!; [by apply (bool_decide_unpack _); vm_compute|by vm_compute; lia|by vm_compute]. Qed.

Lemma demo_calls_ok : Forall call_ok demo_calls.
Proof.
  pose proof demo_packet_ok as Hp. unfold demo_calls. repeat apply Forall_cons_2; try done.
  all: cbn [call_ok]; unfold port_no_ok, TICK_MAX, STP_MAX_PORTS; lia || done.
Qed.


(** The bridge of the examples. *)
Lemma demo_bridge : exists s0 s, stp_create 0x1234 = Some s0 /\ stp_history s0 demo_calls = Some s /\ stp_wf s.
Proof.
  destruct (keeps_create 0x1234) as (s0 & E0 & H0). destruct (keeps_history s0 demo_calls demo_calls_ok H0) as (s & E & H).
  exists s0, s. split; [exact E0|]. split; [exact E|exact H].
Qed.

(** ** The election *)



(** ** The times of a bridge *)

(** C27: The times of the bridge, in units of 1/256 second, are in the ranges of the standard and related as it asks:
    twice the hello time plus a second is at most the maximum age; the maximum age is at most twice the forward delay less a
    second, up to the two units that rounding loses.  A root bridge uses them at once; another bridge goes on using the
    times of its root. *)
Theorem stp_bridge_times_bounded (s : stp) :
  exists s', stp_update_bridge_timers s = Some s' /\
    256 <= bridge_hello_time s' <= 2560 /\ 1536 <= bridge_max_age s' <= 10240 /\ 1024 <= bridge_forward_delay s' <= 7680 /\
    2 * (bridge_hello_time s' + 256) <= bridge_max_age s' /\ bridge_max_age s' <= 2 * (bridge_forward_delay s' - 256) + 2 /\
    (max_age s', hello_time s', forward_delay s') =
      (if stp_is_root_bridge s then (bridge_max_age s', bridge_hello_time s', bridge_forward_delay s')
       else (max_age s, hello_time s, forward_delay s)).
Proof.
  destruct (update_bridge_timers_eq s) as (ht & ma & fd & H1 & H2 & H3 & H4 & H5 & E).
  change (stp_is_root_bridge (with_bridge_times s ht ma fd)) with (stp_is_root_bridge s) in E.
  eexists. split; [exact E|]. set (s' := if stp_is_root_bridge s then _ else _).
  assert (bridge_hello_time s' = ht * 256 / 1000) as -> by (unfold s'; by destruct (stp_is_root_bridge s)).
  assert (bridge_max_age s' = ma * 256 / 1000) as -> by (unfold s'; by destruct (stp_is_root_bridge s)).
  assert (bridge_forward_delay s' = fd * 256 / 1000) as -> by (unfold s'; by destruct (stp_is_root_bridge s)).
  split_and!; try (Z.div_mod_to_equations; lia). unfold s'. by destruct (stp_is_root_bridge s).
Qed.

(** The two units are lost: the bridge keeps a message for longer than twice its forward delay less a second. *)
Lemma bridge_times_rounded :
  exists s0 s, stp_create 1 = Some s0 /\ stp_history s0 [Set_max_age 6165; Set_forward_delay 0] = Some s /\
    bridge_max_age s = 2 * (bridge_forward_delay s - 256) + 2.
Proof. eexists _, _. split; [by vm_compute|]. split; by vm_compute. Qed.

(** ** Changed ports *)

(** The loop of [stp_run] over the ports whose state changed; [n] bounds its iterations. *)
Fixpoint changed_ports (n : nat) (s : stp) : list nat * stp :=
  match n with
  | O => ([], s)
  | S n =>
    match stp_get_changed_port s with
    | (Some p, s) => let '(l, s) := changed_ports n s in (p :: l, s)
    | (None, s) => ([], s)
    end
  end.

Definition changed (s : stp) (p : nat) : bool := state_changed (get_port s p).

Lemma filter_none (f : nat -> bool) (l : list nat) : (forall q, q ∈ l -> f q = false) -> List.filter f l = [].
Proof.
  induction l as [|x l IH]; intros H; [done|]. cbn [List.filter]. rewrite (H x) by left. apply IH. intros q Hq. apply H. by right.
Qed.

Lemma filter_changed_first (s : stp) (p : nat) :
  base_wf s -> (stp_get_changed_port s).1 = Some p ->
  List.filter (changed s) all_ports = p :: List.filter (changed (stp_get_changed_port s).2) all_ports.
Proof.
  intros Hb E. destruct (get_changed_port_first s p Hb E) as (Hp & Hc & Hlow).
  pose proof (get_changed_port_ports s) as Hports. rewrite E in Hports. revert Hports. generalize (stp_get_changed_port s).2. intros s' Hports.
  assert (all_ports = seq 0 p ++ p :: seq (S p) (STP_MAX_PORTS - S p)) as ->.
  { unfold all_ports. transitivity (seq 0 (p + S (STP_MAX_PORTS - S p))); [f_equal; lia|apply seq_app]. }
  assert (forall q, (q < STP_MAX_PORTS)%nat -> q <> p -> changed s' q = changed s q) as Hsame.
  { intros q Hq Hne. unfold changed. rewrite Hports, bool_decide_eq_false_2; [done|congruence|done|done]. }
  assert (changed s' p = false) as Hc' by (unfold changed; by rewrite Hports, bool_decide_eq_true_2).
  rewrite !List.filter_app. cbn [List.filter]. unfold changed at 2. rewrite Hc, Hc'.
  rewrite !(filter_none _ (seq 0 p)); [cbn [app]; f_equal| |].
  - apply List.filter_ext_in. intros q Hq%list_elem_of_In%elem_of_seq. symmetry. apply Hsame; lia.
  - intros q Hq%elem_of_seq. rewrite Hsame by lia. apply Hlow. lia.
  - intros q Hq%elem_of_seq. apply Hlow. lia.
Qed.

Lemma changed_ports_spec (n : nat) (s : stp) :
  stp_wf s -> (length (List.filter (changed s) all_ports) < n)%nat ->
  (changed_ports n s).1 = List.filter (changed s) all_ports /\ stp_wf (changed_ports n s).2 /\
  forall p, (p < STP_MAX_PORTS)%nat ->
    state_changed (get_port (changed_ports n s).2 p) = false /\ reported (get_port (changed_ports n s).2 p) = reported (get_port s p).
Proof.
  revert s. induction n as [|n IH]; intros s Hw Hn; [lia|]. pose proof (ow_base _ (sw_roles _ Hw)) as Hb.
  pose proof (get_changed_port_wf s Hw) as Hw'. pose proof (filter_changed_first s) as Hfirst.
  pose proof (get_changed_port_none s Hb) as Hnone. pose proof (get_changed_port_ports s) as Hports.
  cbn [changed_ports]. destruct (stp_get_changed_port s) as [[p|] s']; cbn [fst snd] in *.
  - specialize (Hfirst p Hb eq_refl). rewrite Hfirst in *. cbn [length] in Hn. destruct (IH s' Hw') as (I1 & I2 & I3); [lia|].
    destruct (changed_ports n s') as [l s'']. cbn [fst snd] in *. split_and!; [by rewrite I1|done|]. intros q Hq.
    destruct (I3 q Hq) as [I4 I5]. split; [done|]. rewrite I5, Hports by done. by destruct (bool_decide _).
  - split_and!; [|done|].
    + symmetry. apply filter_none. intros q Hq%elem_of_all_ports. by apply Hnone.
    + intros q Hq. rewrite Hports by done. rewrite bool_decide_eq_false_2 by done. split; [by apply Hnone|done].
Qed.

(** C28: The loop over the changed ports ends after at most as many iterations as there are ports and one; it reports each port
    whose state changed once, in the order of their numbers; afterwards nothing is left to report, and the ports are
    otherwise as they were. *)
Theorem stp_changed_ports_reported (s : stp) :
  stp_wf s ->
  (changed_ports (S STP_MAX_PORTS) s).1 = List.filter (fun p => state_changed (get_port s p)) (seq 0 STP_MAX_PORTS) /\
  forall p, (p < STP_MAX_PORTS)%nat ->
    state_changed (get_port (changed_ports (S STP_MAX_PORTS) s).2 p) = false /\
    port_state (get_port (changed_ports (S STP_MAX_PORTS) s).2 p) = port_state (get_port s p).
Proof.
  intros Hw. destruct (changed_ports_spec (S STP_MAX_PORTS) s Hw) as (H1 & _ & H3).
  { pose proof (List.filter_length_le (changed s) all_ports) as Hl. unfold all_ports in Hl at 2. rewrite length_seq in Hl. lia. }
  split; [done|]. intros p Hp. destruct (H3 p Hp) as [H4 H5]. split; [done|]. exact (f_equal port_state H5).
Qed.

Lemma stp_changed_ports_reported_witness :
  exists s0 s, stp_create 0x1234 = Some s0 /\ stp_history s0 demo_calls = Some s /\ stp_wf s /\
    (changed_ports (S STP_MAX_PORTS) s).1 = List.filter (fun p => state_changed (get_port s p)) (seq 0 STP_MAX_PORTS).
Proof.
  destruct demo_bridge as (s0 & s & E0 & E & Hw). exists s0, s. split; [exact E0|]. split; [exact E|]. split; [exact Hw|].
  exact (proj1 (stp_changed_ports_reported s Hw)).
Defined.

(** ** What goes wrong *)

(** C29: Time that passes in steps of 8388608 milliseconds or more, a little over two hours, overflows when it is converted, in
    spite of the clamp at the start of [stp_tick]. *)
Theorem stp_tick_overflows (s : stp) (ms : Z) : stp_wf s -> 8388608 <= ms -> stp_tick s ms = None.
Proof.
  intros Hw Hms. assert (0 <= elapsed_remainder s <= 4) as Hr by apply Hw. unfold stp_tick.
  assert (8388608 <= clamp ms 0 (INT_MAX - 1000) <= INT_MAX - 1000) as Hc by (unfold clamp, INT_MAX; repeat case_match; lia).
  rewrite int_some by (unfold INT_MIN, INT_MAX in *; lia). cbn [mbind option_bind]. unfold ms_to_timer, int, checked.
  destruct (Z.leb_spec INT_MIN ((clamp ms 0 (INT_MAX - 1000) + elapsed_remainder s) * 256)); [|done].
  destruct (Z.leb_spec ((clamp ms 0 (INT_MAX - 1000) + elapsed_remainder s) * 256) INT_MAX); [unfold INT_MAX in *; lia|done].
Qed.

Lemma stp_tick_overflows_witness :
  exists s0 s, stp_create 0x1234 = Some s0 /\ stp_history s0 demo_calls = Some s /\ stp_wf s /\ stp_tick s 10000000 = None.
Proof.
  destruct demo_bridge as (s0 & s & E0 & E & Hw). exists s0, s. split; [exact E0|]. split; [exact E|]. split; [exact Hw|].
  apply (stp_tick_overflows s 10000000 Hw). lia.
Defined.

Definition config_packet (root cost bridge port : Z) : list Z :=
  stp_frame (config_bytes (StpConfigBpdu 0 root cost bridge port 0 5120 512 3840)).

(** A root at a cost of 2^31 is preferred to the same root at a cost of 1: the cost is compared as a signed number. *)
Lemma cost_sign_lost :
  let s := bridge_after 9 [Port_enable 0; Port_enable 1; Receive_packet 1 (config_packet 1 0x80000000 3 0x8001);
                           Receive_packet 0 (config_packet 1 1 2 0x8001)] in
  root_port s = Some 1%nat.
Proof. by vm_compute. Qed.

(** A bridge that hears its own identifier on its root port becomes the root, but not as [stp_become_root_bridge] has it:
    its hello timer is stopped, and it sends no more BPDUs. *)
Lemma own_bpdu_silences :
  let own := bridge_id (bridge_after 9 []) in
  let s := bridge_after 9 [Port_enable 0; Receive_packet 0 (config_packet 1 10 2 0x8001); Receive_packet 0 (config_packet 1 5 own 0x8001)] in
  stp_is_root_bridge s = true /\ tm_active (hello_timer s) = false /\
  exists s', stp_history s [Tick 60000; Tick 60000] = Some s' /\ sent s' = sent s.
Proof. cbv zeta. split; [by vm_compute|]. split; [by vm_compute|]. eexists. split; by vm_compute. Qed.

(** A disabled port has the role of a designated port. *)
Lemma disabled_port_designated :
  port_state (get_port (bridge_after 9 []) 5) = STP_DISABLED /\ stp_port_get_role (bridge_after 9 []) 5 = STP_ROLE_DESIGNATED.
Proof. split; by vm_compute. Qed.
