(* ===== verification/StpAdopt.v ===== *)
(** * Spanning tree protocol: from one bridge to another

    A configuration BPDU that one bridge sends, with the packet around it, as
    another bridge receives it. *)

From S2P Require Import Prelude Util MetaFlow MetaFields Packet PacketProps MfCtx Stp StpProps StpRoot StpInv StpElect StpTimes.
From S2P Require Import StpCalls StpTick StpHistory ExtractPadding PacketBytes.
From stdpp Require Import prelude list.
From coqutil Require Import Datatypes.RecordSetters.
From Stdlib Require Import ZArith Lia.
Import DoubleBraceUpdate.
Open Scope Z_scope.
Open Scope ovs_scope.

(** ** BPDUs as bytes *)

Record config_fits (c : stp_config_bpdu) : Prop := {
  ft_flags : in_width 8 (cf_flags c);
  ft_root : in_width 64 (cf_root_id c);
  ft_cost : in_width 32 (cf_root_path_cost c);
  ft_bridge : in_width 64 (cf_bridge_id c);
  ft_port : in_width 16 (cf_port_id c);
  ft_age : in_width 16 (cf_message_age c);
  ft_max : in_width 16 (cf_max_age c);
  ft_hello : in_width 16 (cf_hello_time c);
  ft_delay : in_width 16 (cf_forward_delay c)
}.

(** What is written is what is read. *)
Lemma read_config_bytes (c : stp_config_bpdu) (l : list Z) : config_fits c -> read_config (config_bytes c ++ l) = c.
Proof.
  intros [H1 H2 H3 H4 H5 H6 H7 H8 H9]. destruct c as [fl rid cost bid pid age mx ht fd].
  cbn [cf_flags cf_root_id cf_root_path_cost cf_bridge_id cf_port_id cf_message_age cf_max_age cf_hello_time cf_forward_delay] in *.
  assert (be_bytes 1 fl = [fl]) as Efl by (unfold be_bytes; cbn [map seq]; f_equal; by apply (wrap_small 8)).
  unfold read_config, config_bytes.
  cbn [cf_flags cf_root_id cf_root_path_cost cf_bridge_id cf_port_id cf_message_age cf_max_age cf_hello_time cf_forward_delay].
  rewrite <- Efl, <- !app_assoc. set (h := bpdu_header STP_TYPE_CONFIG). assert (length h = 4)%nat as Hh by done. clearbody h.
  change 33%nat with (4 + (1 + (8 + (4 + (8 + (2 + (2 + (2 + (2 + 0)))))))))%nat. change 31%nat with (4 + (1 + (8 + (4 + (8 + (2 + (2 + (2 + 0))))))))%nat.
  change 29%nat with (4 + (1 + (8 + (4 + (8 + (2 + (2 + 0)))))))%nat. change 27%nat with (4 + (1 + (8 + (4 + (8 + (2 + 0))))))%nat.
  change 25%nat with (4 + (1 + (8 + (4 + (8 + 0)))))%nat. change 17%nat with (4 + (1 + (8 + (4 + 0))))%nat.
  change 13%nat with (4 + (1 + (8 + 0)))%nat. change 5%nat with (4 + (1 + 0))%nat. rewrite (get_skip h _ 4 0) by done.
  rewrite !get_skip by (done || apply length_be_bytes). by rewrite !get_be_bytes.
Qed.

Lemma length_config_bytes (c : stp_config_bpdu) : length (config_bytes c) = STP_CONFIG_BPDU_LEN.
Proof. unfold config_bytes. by rewrite !length_app, !length_be_bytes. Qed.

(** A frame with a configuration BPDU reaches [stp_received_config_bpdu], whatever padding follows. *)
Lemma process_config_frame (s : stp) (p : nat) (c : stp_config_bpdu) (padding : list Z) :
  config_fits c -> port_enabled s p = true ->
  stp_process_packet s p (stp_frame (config_bytes c) ++ padding) =
    (s ← stp_received_config_bpdu s p c; Some (set_port s p (fun x => x {{ rx_count := rx_count x + 1 }}))).
Proof.
  intros Hc He. pose proof (read_config_bytes c [] Hc) as Hread. rewrite app_nil_r in Hread. pose proof (length_config_bytes c) as Hlen.
  assert (port_state (get_port s p) <> STP_DISABLED) as Hd by (by apply enabled_state).
  assert (get (config_bytes c) 0 2 = STP_PROTOCOL_ID /\ get (config_bytes c) 3 1 = STP_TYPE_CONFIG) as [Hproto Htype] by done.
  revert Hread Hlen Hproto Htype. generalize (config_bytes c). intros bpdu Hread Hlen Hproto Htype.
  unfold stp_process_packet. rewrite bool_decide_eq_false_2 by done.
  set (frame := stp_frame bpdu ++ padding). assert (length frame = 52 + length padding)%nat as Hf.
  { unfold frame, stp_frame. rewrite !length_app, Hlen, length_replicate, length_be_bytes. done. }
  rewrite rd_some by lia. assert (get frame 12 2 = 38) as ->.
  { unfold frame, stp_frame. rewrite <- !app_assoc. change 12%nat with (6 + (6 + 0))%nat. rewrite !get_skip by (done || apply length_replicate).
    rewrite Hlen. by rewrite get_be_bytes. }
  cbn [mbind option_bind]. change (Z.to_nat 38 + ETH_HEADER_LEN)%nat with 52%nat.
  assert ((if (52 <? length frame)%nat then take 52 frame else frame) = stp_frame bpdu) as ->.
  { assert (length (stp_frame bpdu) = 52)%nat as Hl.
    { unfold stp_frame. rewrite !length_app, Hlen, length_replicate, length_be_bytes. done. }
    rewrite Hf. destruct (Nat.ltb_spec 52 (52 + length padding)) as [|Hp]; unfold frame.
    - by apply take_app_length'.
    - assert (padding = []) as -> by (apply nil_length_inv; lia). by rewrite app_nil_r. }
  assert (drop 17 (stp_frame bpdu) = bpdu) as Hdrop.
  { unfold stp_frame. rewrite !app_assoc. apply drop_app_length'. by rewrite !length_app, length_replicate, length_be_bytes. }
  change (ETH_HEADER_LEN + LLC_HEADER_LEN)%nat with 17%nat. rewrite Hdrop.
  assert (length (stp_frame bpdu) = 52)%nat as -> by (unfold stp_frame; rewrite !length_app, Hlen, length_replicate, length_be_bytes; done).
  cbn [Nat.leb]. unfold stp_received_bpdu. rewrite bool_decide_eq_false_2 by done.
  rewrite Hlen, Hproto, Htype, Hread. done.
Qed.

(** ** The sender *)

Definition config_message_age (s : stp) : Z :=
  if stp_is_root_bridge s then 0
  else match root_port s with
       | Some r => u16 (tm_value (message_age_timer (get_port s r)) + MESSAGE_AGE_INCREMENT)
       | None => 0
       end.

Definition config_of (s : stp) (p : nat) : stp_config_bpdu :=
  StpConfigBpdu (Z.lor (if topology_change_ack (get_port s p) then STP_CONFIG_TOPOLOGY_CHANGE_ACK else 0)
                   (if topology_change s then STP_CONFIG_TOPOLOGY_CHANGE else 0))
    (designated_root s) (root_path_cost s) (bridge_id s) (port_id (get_port s p)) (config_message_age s)
    (max_age s) (hello_time s) (forward_delay s).

Lemma transmit_config_sends (s : stp) (p : nat) :
  stp_wf s -> (p < STP_MAX_PORTS)%nat -> tm_active (hold_timer (get_port s p)) = false -> config_message_age s < max_age s ->
  sent (stp_transmit_config s p) = sent s ++ [(p, stp_frame (config_bytes (config_of s p)))].
Proof.
  intros [R T] Hp Hh Hm. unfold stp_transmit_config. pose proof (rw_root s (ow_root s R)) as Hroot.
  assert (negb (stp_is_root_bridge s) && bool_decide (root_port s = None) = false) as ->.
  { destruct (root_port s) as [r|]; [by rewrite andb_false_r|]. destruct Hroot as [E _]. unfold stp_is_root_bridge. by rewrite E, Z.eqb_refl. }
  rewrite Hh. fold (config_message_age s). destruct (Z.ltb_spec (config_message_age s) (max_age s)); [|lia].
  destruct (tw_bridge s T) as (B1 & B2 & B3 & _). unfold time_ok in *.
  rewrite !(wrap_small 16); [done|..|apply (bw_ports s (ow_base s R) p Hp)]; unfold in_width; lia.
Qed.

Lemma config_of_fits (s : stp) (p : nat) :
  stp_wf s -> (p < STP_MAX_PORTS)%nat -> in_width 64 (bridge_id s) -> in_width 64 (designated_root s) -> config_fits (config_of s p).
Proof.
  intros [R T] Hp Hb Hd. destruct (tw_bridge s T) as (B1 & B2 & B3 & _). unfold time_ok in *. unfold config_of.
  pose proof (rw_cost s (ow_root s R)) as Hc. pose proof (pw_id_width _ _ _ (bw_ports s (ow_base s R) p Hp)) as Hid.
  constructor; cbn [cf_flags cf_root_id cf_root_path_cost cf_bridge_id cf_port_id cf_message_age cf_max_age cf_hello_time cf_forward_delay];
    try done; try (unfold in_width, INT_MAX in *; lia).
  - by destruct (topology_change_ack _), (topology_change s).
  - unfold config_message_age. destruct (stp_is_root_bridge s); [done|]. destruct (root_port s); [by apply wrap_width|done].
Qed.

(** ** The receiver *)

Lemma to_int_small (x : Z) : 0 <= x <= INT_MAX -> to_int x = x.
Proof. unfold INT_MAX. intros H. unfold to_int. rewrite wrap_small by (unfold in_width; lia). destruct (Z.ltb_spec x (2 ^ 31)); lia. Qed.

(** A BPDU about a better root than the one the bridge knows makes its port the root port, and the other ports designated. *)
Lemma superior_elected (s : stp) (q : nat) (c : stp_config_bpdu) :
  roles_wf s -> (q < STP_MAX_PORTS)%nat -> port_enabled s q = true -> config_ok c -> cf_root_id c < designated_root s -> cf_bridge_id c <> bridge_id s ->
  exists s', stp_reconfigure (stp_record_config_information s q c) = Some s' /\ root_port s' = Some q /\
    designated_root s' = cf_root_id c /\ root_path_cost s' = cf_root_path_cost c + path_cost (get_port s q) /\
    live (port_state (get_port s' q)) /\
    forall p, (p < STP_MAX_PORTS)%nat -> p <> q -> port_enabled s p = true -> stp_is_designated_port s' p = true.
Proof.
  intros [Hb Hr _] Hq He Hc Hlt Hne. pose proof (record_base_wf s q c Hq Hc Hb) as Hb1.
  destruct (reconfigure_spec _ Hb1) as (r & s' & Hbest & E & Er & Ed & Ec & Hp). exists s'. split; [done|].
  set (s1 := stp_record_config_information s q c) in *.
  assert (forall p, get_port s1 p = if (p =? q)%nat then (get_port s p) {{ port_designated_root := cf_root_id c;
    designated_cost := to_int (cf_root_path_cost c); designated_bridge := cf_bridge_id c; designated_port := cf_port_id c;
    message_age_timer := stp_start_timer (cf_message_age c) }} else get_port s p) as Hg
    by (intros p; unfold s1, stp_record_config_information; rewrite get_set_port by (by rewrite (bw_length s Hb)); by destruct (p =? q)%nat).
  assert (forall p, port_enabled s1 p = port_enabled s p) as He1 by (intros p; unfold port_enabled; rewrite Hg; by destruct (p =? q)%nat).
  pose proof (Hg q) as Hgq. rewrite Nat.eqb_refl in Hgq.
  assert (designated_root s <= bridge_id s) as Hle.
  { pose proof (rw_root s Hr) as Hroot. destruct (root_port s); [destruct Hroot as (_ & _ & ?)|destruct Hroot as (-> & _)]; lia. }
  assert (is_designated s1 (get_port s1 q) = false) as Hnd.
  { unfold is_designated. rewrite Hgq. change (bridge_id s1) with (bridge_id s). cbn. unfold constant. by destruct (Z.eqb_spec (cf_bridge_id c) (bridge_id s)). }
  assert (candidate s1 q = true) as Hcand.
  { unfold candidate, root_candidate, stp_is_designated_port. rewrite He1, He, Hnd, Hgq.
    change (bridge_id s1) with (bridge_id s). cbn. unfold constant. lia. }
  assert (forall p, (p < STP_MAX_PORTS)%nat -> p <> q -> port_enabled s p = true -> port_designated_root (get_port s1 p) = designated_root s) as Hother.
  { intros p Hlp Hpq Hep. rewrite Hg. destruct (Nat.eqb_spec p q); [done|]. by apply (rw_same s Hr). }
  assert (r = Some q) as ->.
  { destruct r as [r|]; [|by rewrite (Hbest q) in Hcand; [|by apply elem_of_all_ports]].
    destruct Hbest as (Hr1%elem_of_all_ports & Hr2 & Hr3). destruct (decide (r = q)) as [->|Hrq]; [done|].
    specialize (Hr3 q ltac:(by apply elem_of_all_ports) Hcand). unfold candidate in Hr2. rewrite He1 in Hr2.
    apply andb_true_iff in Hr2 as [Hr2 _]. cbn [lex_lt root_vector] in Hr3. rewrite (Hother r Hr1 Hrq Hr2), Hgq in Hr3. cbn in Hr3.
    unfold constant in Hr3. lia. }
  destruct Hc as (Hcost & _). rewrite Ed, Ec, Hgq. cbn [port_designated_root designated_cost path_cost]. split_and!; [done|done| | |].
  - cbn. unfold constant. rewrite to_int_small; [done|]. unfold COST_MAX, INT_MAX in *. lia.
  - destruct (Hp q Hq) as [_ ->]. rewrite He1, He, bool_decide_eq_true_2 by done. cbn [orb].
    assert (port_state (get_port s1 q) = port_state (get_port s q)) as -> by (by rewrite Hgq).
    pose proof (pw_state _ _ _ (bw_ports s Hb q Hq)) as Hu. apply enabled_state in He.
    by destruct (port_state (get_port s q)).
  - intros p Hlp Hpq Hep. destruct (Hp p Hlp) as [-> _]. rewrite He1, Hep, Ed, Hgq. unfold wins. rewrite (Hother p Hlp Hpq Hep). cbn. unfold constant.
    destruct (Z.eqb_spec (designated_root s) (cf_root_id c)); [lia|]. by rewrite orb_true_r.
Qed.

Lemma roles_resign_root (s : stp) : roles (resign_root s) = roles s.
Proof.
  unfold resign_root. set (s1 := s {{ hello_timer := _ }}). destruct (topology_change_detected s1); [|done].
  by rewrite (quiet_roles _ _ (quiet_set_tcn_timer _ _)), (quiet_roles _ _ (quiet_transmit_tcn _)).
Qed.

Lemma follow_root_fields (s : stp) (c : stp_config_bpdu) :
  roles (follow_root s c) = roles s /\ max_age (follow_root s c) = cf_max_age c /\ hello_time (follow_root s c) = cf_hello_time c /\
  forward_delay (follow_root s c) = cf_forward_delay c.
Proof.
  unfold follow_root. set (s1 := stp_record_config_timeout_values s c). pose proof (quiet_config_bpdu_generation s1) as Eq.
  revert Eq. generalize (stp_config_bpdu_generation s1). intros s2 Eq.
  destruct (bridge_times _ _ (bridge_quiet _ _ Eq)) as (E1 & E2 & E3 & _). pose proof (quiet_roles _ _ Eq) as Er.
  destruct (_ =? 0), (_ =? 0); split_and!; done.
Qed.

Lemma received_superior (s : stp) (q : nat) (c : stp_config_bpdu) :
  roles_wf s -> (q < STP_MAX_PORTS)%nat -> port_enabled s q = true -> config_ok c -> cf_message_age c < cf_max_age c ->
  cf_root_id c < designated_root s -> cf_bridge_id c <> bridge_id s ->
  exists s1 s', stp_reconfigure (stp_record_config_information s q c) = Some s1 /\ stp_received_config_bpdu s q c = Some s' /\
    roles s' = roles s1 /\ max_age s' = cf_max_age c /\ hello_time s' = cf_hello_time c /\ forward_delay s' = cf_forward_delay c.
Proof.
  intros Hw Hq He Hc Hm Hlt Hne. destruct (superior_elected s q c) as (s1 & E1 & Er & _); [done..|].
  unfold stp_received_config_bpdu. destruct (Z.leb_spec (cf_max_age c) (cf_message_age c)); [lia|].
  rewrite bool_decide_eq_false_2 by (by apply enabled_state).
  assert (stp_supersedes_port_info s q c = true) as ->.
  { unfold stp_supersedes_port_info. rewrite (rw_same s (ow_root s Hw) q Hq He). destruct (Z.eqb_spec (cf_root_id c) (designated_root s)); [lia|].
    cbn [negb]. lia. }
  rewrite E1. cbn [mbind option_bind]. set (s2 := if negb (stp_is_root_bridge s1) && _ then _ else s1).
  assert (roles s2 = roles s1) as E2 by (unfold s2; destruct (_ && _); [apply roles_resign_root|done]).
  destruct (roles_fields _ _ E2) as (_ & _ & _ & Er2 & _). rewrite Er in Er2. clearbody s2. rewrite bool_decide_eq_true_2 by done.
  destruct (follow_root_fields s2 c) as (F1 & F2 & F3 & F4). exists s1, (follow_root s2 c). split_and!; [done|done|congruence|done|done|done].
Qed.

(** C25: What one bridge sends about a better root than another knows, in a packet with any padding, makes the other adopt the
    root, at the cost that was sent plus that of its own port, with the times that were sent; the port becomes its root port
    and is not blocking, and all its other enabled ports become designated. *)
Theorem stp_superior_bpdu_adopted (a b : stp) (p q : nat) (padding : list Z) :
  stp_wf a -> (p < STP_MAX_PORTS)%nat -> in_width 64 (bridge_id a) -> in_width 64 (designated_root a) ->
  tm_active (hold_timer (get_port a p)) = false -> config_message_age a < max_age a -> root_path_cost a <= COST_MAX ->
  stp_wf b -> (q < STP_MAX_PORTS)%nat -> port_enabled b q = true ->
  designated_root a < designated_root b -> bridge_id a <> bridge_id b ->
  exists frame b', sent (stp_transmit_config a p) = sent a ++ [(p, frame)] /\ stp_process_packet b q (frame ++ padding) = Some b' /\
    designated_root b' = designated_root a /\ root_path_cost b' = root_path_cost a + path_cost (get_port b q) /\
    root_port b' = Some q /\ live (port_state (get_port b' q)) /\
    max_age b' = max_age a /\ hello_time b' = hello_time a /\ forward_delay b' = forward_delay a /\
    forall p', (p' < STP_MAX_PORTS)%nat -> p' <> q -> port_enabled b p' = true -> stp_is_designated_port b' p' = true.
Proof.
  intros Ha Hp Hw1 Hw2 Hh Hm Hcost Hb Hq He Hlt Hne. exists (stp_frame (config_bytes (config_of a p))).
  pose proof (config_of_fits a p Ha Hp Hw1 Hw2) as Hfits. set (c := config_of a p) in *.
  assert (config_ok c) as Hok.
  { destruct (tw_bridge a (sw_times a Ha)) as (B1 & B2 & B3 & _). destruct Hfits. unfold in_width in *.
    split_and!; [apply (rw_cost a), Ha|done|lia|done|done|done]. }
  destruct (superior_elected b q c) as (s1 & E1 & F1 & F2 & F3 & F4 & F5); [apply Hb|done..|].
  destruct (received_superior b q c) as (s1' & s2 & E1' & E2 & Er & T1 & T2 & T3); [apply Hb|done..|].
  rewrite E1 in E1'. apply (inj Some) in E1'. subst s1'.
  rewrite (process_config_frame b q c padding Hfits He), E2. cbn [mbind option_bind]. eexists. split; [by apply transmit_config_sends|].
  split; [done|]. set (b' := set_port s2 q _).
  assert (roles b' = roles s1) as Er' by (unfold b'; rewrite roles_set_port; done).
  change (max_age s2) with (max_age b') in T1. change (hello_time s2) with (hello_time b') in T2.
  change (forward_delay s2) with (forward_delay b') in T3. clearbody b'.
  destruct (roles_fields _ _ Er') as (G1 & G2 & G3 & G4 & _ & _ & G5). rewrite G2, G3, G4.
  assert (port_state (get_port b' q) = port_state (get_port s1 q)) as -> by (by injection (G5 q)).
  split_and!; try done. intros p' Hp' Hpq Hep. unfold stp_is_designated_port. rewrite (info_designated s1 _ _ _ G1 (G5 p')). by apply F5.
Qed.

Definition demo_sender : stp := bridge_after 1 [Port_enable 3].
Definition demo_receiver : stp := bridge_after 2 [Port_enable 0; Port_enable 1; Port_set_speed 1 1000].

Lemma demo_bridges_wf : stp_wf demo_sender /\ stp_wf demo_receiver.
Proof. split; apply bridge_after_wf; repeat constructor; unfold port_no_ok, STP_MAX_PORTS; lia. Qed.

Lemma demo_bridges_fit :
  in_width 64 (bridge_id demo_sender) /\ in_width 64 (designated_root demo_sender) /\
  tm_active (hold_timer (get_port demo_sender 3)) = false /\ config_message_age demo_sender < max_age demo_sender /\
  root_path_cost demo_sender <= COST_MAX /\ port_enabled demo_receiver 1 = true /\
  designated_root demo_sender < designated_root demo_receiver /\ bridge_id demo_sender <> bridge_id demo_receiver.
Proof. split_and!; by vm_compute. Qed.

Lemma stp_superior_bpdu_adopted_witness :
  stp_wf demo_sender /\ stp_wf demo_receiver /\
  exists frame b', sent (stp_transmit_config demo_sender 3) = sent demo_sender ++ [(3%nat, frame)] /\
    stp_process_packet demo_receiver 1 (frame ++ [0; 0; 0]) = Some b' /\ designated_root b' = designated_root demo_sender /\ root_port b' = Some 1%nat.
Proof.
  destruct demo_bridges_wf as [Ha Hb]. destruct demo_bridges_fit as (H1 & H2 & H3 & H4 & H5 & H6 & H7 & H8).
  split; [exact Ha|]. split; [exact Hb|].
  destruct (stp_superior_bpdu_adopted demo_sender demo_receiver 3 1 [0; 0; 0] Ha ltac:(unfold STP_MAX_PORTS; lia) H1 H2 H3 H4 H5 Hb
    ltac:(unfold STP_MAX_PORTS; lia) H6 H7 H8) as (frame & b' & E1 & E2 & E3 & _ & E4 & _).
  exists frame, b'. split; [exact E1|]. split; [exact E2|]. split; [exact E3|exact E4].
Defined.
