(* ===== verification/StpForward.v ===== *)
(** * Spanning tree protocol: how long a port waits

    A designated port of a root bridge while only time passes: it listens, learns
    and forwards, whatever the other ports do.  The time in each state is bounded
    from both sides. *)

From S2P Require Import Prelude Util MetaFlow MetaFields Packet Stp StpProps StpRoot StpInv StpElect StpTimes StpCalls StpTick StpHistory.
From stdpp Require Import prelude list.
From coqutil Require Import Datatypes.RecordSetters.
From Stdlib Require Import ZArith Lia.
Import DoubleBraceUpdate.
Open Scope Z_scope.
Open Scope ovs_scope.

(** The bridge is the root, and [p] is one of its designated ports. *)
Record presides (s : stp) (p : nat) : Prop := {
  pr_wf : stp_wf s;
  pr_port : (p < STP_MAX_PORTS)%nat;
  pr_root : root_port s = None;
  pr_designated : stp_is_designated_port s p = true;
  pr_live : live (port_state (get_port s p))
}.

(** What changes while the port waits. *)
Definition track (s : stp) (p : nat) : stp_state * stp_timer := (port_state (get_port s p), forward_delay_timer (get_port s p)).

(** What does not. *)
Definition pace (s : stp) : Z * Z := (forward_delay s, elapsed_remainder s).

Lemma pace_bridge (s s' : stp) : bridge s' = bridge s -> pace s' = pace s.
Proof. intros E. destruct (bridge_times _ _ E) as (_ & _ & E1 & _ & _ & _ & E2). unfold pace. congruence. Qed.

(** A step that does not concern the port. *)
Definition apart (p : nat) (s s' : stp) : Prop :=
  presides s p -> presides s' p /\ track s' p = track s p /\ pace s' = pace s.

Lemma apart_refl (p : nat) (s : stp) : apart p s s.
Proof. done. Qed.

Lemma apart_trans (p : nat) (s1 s2 s3 : stp) : apart p s1 s2 -> apart p s2 s3 -> apart p s1 s3.
Proof. intros H1 H2 H. destruct (H1 H) as (A1 & A2 & A3). destruct (H2 A1) as (B1 & B2 & B3). split_and!; [done|congruence|congruence]. Qed.

Lemma apart_step (f : stp_port -> stp_port) (p q : nat) (s s' : stp) :
  port_step f q s s' -> stp_wf s' ->
  (q = p -> let x := get_port s p in port_state (f x) = port_state x /\ forward_delay_timer (f x) = forward_delay_timer x /\
                                     is_designated s (f x) = is_designated s x) ->
  apart p s s'.
Proof.
  intros (Eb & El & Eq) Hw Hf [_ Hp Hr Hd Hl]. destruct (bridge_fields _ _ Eb) as (E1 & E2 & E3 & E4).
  specialize (Eq p).
  assert (port_state (get_port s' p) = port_state (get_port s p) /\ forward_delay_timer (get_port s' p) = forward_delay_timer (get_port s p) /\
    is_designated s' (get_port s' p) = is_designated s (get_port s p)) as (F1 & F2 & F3).
  { pose proof (info_designated s s' _ _ E1 (quiet_info _ _ Eq)) as Ed. rewrite Ed. injection Eq as _ -> _ _ _ _ _ _ _ -> _.
    destruct (Nat.eqb_spec p q) as [Heq|]; [subst q; by apply Hf|done]. }
  split_and!; [|unfold track; by rewrite F1, F2|by apply pace_bridge]. constructor; [done|done|congruence| |by rewrite F1].
  unfold stp_is_designated_port in *. by rewrite F3.
Qed.

Lemma apart_quiet (p : nat) (s s' : stp) : quiet s' = quiet s -> stp_wf s' -> apart p s s'.
Proof. intros E Hw. by apply (apart_step id p p s s'); [apply port_step_quiet|..]. Qed.

(** ** The timers of the bridge *)

Lemma tick_timer_quiet (s s' : stp) (t : stp_timer) (elapsed timeout : Z) (store : stp_timer -> stp) (expiry : stp -> stp) :
  (forall t, quiet (store t) = quiet s) -> (forall s, quiet (expiry s) = quiet s) ->
  tick_timer t elapsed timeout store expiry = Some s' -> quiet s' = quiet s.
Proof.
  intros Hs He. unfold tick_timer. destruct (stp_timer_expired t elapsed timeout) as [[b t']|]; [|done]. cbn [mbind option_bind].
  intros E. apply (inj Some) in E. subst s'. destruct b; [rewrite He|]; apply Hs.
Qed.

Lemma tick_bridge_quiet (elapsed : Z) (s s' : stp) : tick_bridge elapsed s = Some s' -> quiet s' = quiet s.
Proof.
  unfold tick_bridge. intros (s1 & E1 & (s2 & E2 & E3)%bind_Some)%bind_Some.
  apply (tick_timer_quiet s) in E1; [|done|apply quiet_hello_timer_expiry]. apply (tick_timer_quiet s1) in E2; [|done|apply quiet_tcn_timer_expiry].
  apply (tick_timer_quiet s2) in E3; [|done|done]. congruence.
Qed.

(** ** Old messages *)

Lemma elected_itself (s : stp) (r : option nat) :
  (forall p, (p < STP_MAX_PORTS)%nat -> port_enabled s p = true -> port_designated_root (get_port s p) = bridge_id s) ->
  is_best s all_ports r -> r = None.
Proof.
  intros Hs. destruct r as [r|]; [|done]. intros (Hr%elem_of_all_ports & Hc & _). unfold candidate, root_candidate in Hc.
  apply andb_true_iff in Hc as [He Hc]. rewrite (Hs r Hr He), Z.leb_refl, orb_true_r in Hc. done.
Qed.

Lemma selected_stays (s : stp) (p : nat) (x : stp_port) :
  root_port s = None -> is_designated s x = true -> port_state x <> STP_BLOCKING ->
  port_state (selected s p x) = port_state x /\ forward_delay_timer (selected s p x) = forward_delay_timer x.
Proof.
  intros Hr Hd Hb. unfold selected. rewrite Hr, Hd, bool_decide_eq_false_2 by done. unfold forwarding.
  change (port_state (stop_message_age x)) with (port_state x). by rewrite bool_decide_eq_false_2.
Qed.

(** A root bridge that reconfigures stays the root, and its designated ports go on. *)
Lemma reconfigure_apart (s : stp) (p : nat) :
  base_wf s -> (p < STP_MAX_PORTS)%nat -> stp_is_designated_port s p = true -> live (port_state (get_port s p)) ->
  (forall p, (p < STP_MAX_PORTS)%nat -> port_enabled s p = true -> port_designated_root (get_port s p) = bridge_id s) ->
  exists s', stp_reconfigure s = Some s' /\ root_port s' = None /\ designated_root s' = bridge_id s /\ bridge_id s' = bridge_id s /\
    stp_is_designated_port s' p = true /\ track s' p = track s p /\ pace s' = pace s.
Proof.
  intros Hb Hp Hd [Hl1 Hl2] Hs. destruct (configuration_update_spec s Hb) as (r & s1 & Hbest & E1 & Eb & Ef & El & Eq).
  apply elected_itself in Hbest; [|done]. subst r. exists (stp_port_state_selection s1). split; [unfold stp_reconfigure; by rewrite E1|].
  destruct (bridge_fields _ _ Eb) as (A1 & A2 & A3 & A4). pose proof (pace_bridge _ _ Eb) as A5.
  destruct (port_state_selection_spec s1 El) as (Eb' & _ & Eq'). specialize (Eq' p Hp). revert Eb' Eq'.
  generalize (stp_port_state_selection s1). intros s' Eb' Eq'.
  destruct (bridge_fields _ _ Eb') as (B1 & B2 & B3 & B4). pose proof (pace_bridge _ _ Eb') as B5.
  specialize (Eq p Hp). assert (port_enabled s p = true) as He by (by apply enabled_state).
  destruct (reassigned_designated s None p Hb Hp) as [Hd1 Hs1]. rewrite He in Hd1. unfold wins in Hd1. fold (stp_is_designated_port s p) in Hd1.
  rewrite Hd in Hd1. cbn [orb] in Hd1.
  assert (is_designated s1 (get_port s1 p) = true) as Hd2 by (by rewrite (info_designated _ s1 _ _ A1 (quiet_info _ _ Eq))).
  assert (port_state (get_port s1 p) = port_state (get_port s p)) as Hs2 by (by injection Eq as _ -> _).
  assert (forward_delay_timer (get_port s1 p) = forward_delay_timer (get_port s p)) as Ht2.
  { injection Eq as _ _ _ _ _ _ _ _ _ -> _. unfold reassigned. by destruct (_ && _). }
  assert (port_enabled s1 p = true) as He1 by (apply enabled_state; by rewrite Hs2). rewrite He1 in Eq'.
  destruct (selected_stays s1 p (get_port s1 p)) as [S1 S2]; [by rewrite A4|done|by rewrite Hs2|].
  destruct (selected_fields s1 p (get_port s1 p)) as (F1 & _ & _ & _ & F5 & F6 & _).
  split_and!; [by rewrite B4, A4|by rewrite B2, A2|by rewrite B1, A1| | |by rewrite B5, A5].
  - unfold stp_is_designated_port. rewrite (info_designated s1 s' _ _ B1 (quiet_info _ _ Eq')). unfold is_designated in *. by rewrite F1, F5, F6.
  - unfold track. injection Eq' as _ -> _ _ _ _ _ _ _ -> _. by rewrite S1, S2, Hs2, Ht2.
Qed.

Lemma message_age_expiry_apart (p q : nat) (s s' : stp) :
  (q < STP_MAX_PORTS)%nat -> stp_message_age_timer_expiry s q = Some s' -> apart p s s'.
Proof.
  intros Hq E [Hw Hp Hr Hd Hl]. pose proof Hw as [[Hb Hroot _] Ht]. pose proof (rw_root s Hroot) as Hrr. rewrite Hr in Hrr. destruct Hrr as [Edr Erc].
  unfold stp_message_age_timer_expiry in E. assert (stp_is_root_bridge s = true) as Eroot by (unfold stp_is_root_bridge; by rewrite Edr, Z.eqb_refl).
  rewrite Eroot in E. pose proof (become_designated_base s q Hq Hb) as Hb1. set (s1 := stp_become_designated_port s q) in *.
  assert (length (ports s) = STP_MAX_PORTS) as Hlen by apply Hb.
  assert (forall r, get_port s1 r = if (r =? q)%nat then designate s (get_port s r) else get_port s r) as Hg
    by (intros r; unfold s1, stp_become_designated_port; by rewrite get_set_port by (by rewrite Hlen)).
  destruct (keeps_reconfigure_check_root true s1 Hb1) as (s2 & E2 & Hw2); [by apply times_become_designated|].
  rewrite E in E2. apply (inj Some) in E2. subst s2.
  assert (track s1 p = track s p) as Etr by (unfold track; rewrite Hg; by destruct (p =? q)%nat).
  destruct (reconfigure_apart s1 p) as (s3 & E3 & F1 & F2 & F3 & F4 & F5 & F6); [done|done| | | |].
  - unfold stp_is_designated_port. rewrite Hg. destruct (p =? q)%nat; [by apply (designate_designated s)|done].
  - by injection Etr as -> _.
  - intros r Hlr He. rewrite Hg. change (bridge_id s1) with (bridge_id s). rewrite <- Edr. destruct (Nat.eqb_spec r q); [done|].
    apply (rw_same s Hroot r Hlr). unfold port_enabled in *. rewrite Hg in He. by destruct (Nat.eqb_spec r q).
  - unfold reconfigure_check_root in E. rewrite E3 in E. cbn [mbind option_bind negb] in E. rewrite andb_false_r in E.
    apply (inj Some) in E. subst s'. split_and!; [|by rewrite F5|done]. constructor; try done.
    rewrite <- F5 in Etr. by injection Etr as -> _.
Qed.

Lemma tick_message_age_apart (elapsed : Z) (p q : nat) (s s' : stp) :
  0 <= elapsed <= 2147483 -> (q < STP_MAX_PORTS)%nat -> tick_message_age elapsed s q = Some s' -> apart p s s'.
Proof.
  intros He Hq E Hpr. pose proof (pr_wf _ _ Hpr) as Hw. revert Hpr. change (apart p s s'). unfold tick_message_age in E.
  destruct (get_port_times s q (sw_times s Hw)) as (Hm & _).
  destruct (timer_expired_some (message_age_timer (get_port s q)) elapsed (max_age s)) as (b & t & Et & Ho & _);
    [done|apply time_ok_timer, Hw|done|]. rewrite Et in E. cbn [mbind option_bind] in E.
  set (s1 := set_port s q _) in E. assert (stp_wf s1) as H1 by (apply stp_wf_set_timer; [by intros x (? & ? & ?)|done|done]).
  assert (apart p s s1) as A1.
  { apply (apart_step (fun x => x {{ message_age_timer := t }}) p q s s1); [|done|done].
    apply port_step_set; [|done]. by rewrite (bw_length s (ow_base s (sw_roles s Hw))). }
  destruct b; [|apply (inj Some) in E; by subst s'].
  apply (apart_trans p s s1 s' A1). by apply (message_age_expiry_apart p q).
Qed.

(** ** The forward delay *)

Definition move_on (x : stp_port) : stp_port :=
  match port_state x with
  | STP_LISTENING => (set_state STP_LEARNING x) {{ forward_delay_timer := stp_start_timer 0 }}
  | STP_LEARNING => set_state STP_FORWARDING x
  | _ => x
  end.

Lemma forward_delay_expiry_step (s : stp) (q : nat) :
  (q < length (ports s))%nat -> port_step move_on q s (stp_forward_delay_timer_expiry s q).
Proof.
  intros Hq. unfold stp_forward_delay_timer_expiry.
  assert (forall f, f (get_port s q) = move_on (get_port s q) -> forall s', port_step f q s s' -> port_step move_on q s s') as Hext
    by (intros f Hf s' H; eapply port_step_ext; [|exact H]; by rewrite Hf).
  destruct (port_state (get_port s q)) eqn:Est; try (by apply (Hext id); [unfold move_on; rewrite Est|apply port_step_quiet]).
  - apply (Hext (fun x => (set_state STP_LEARNING x) {{ forward_delay_timer := stp_start_timer 0 }})); [unfold move_on; by rewrite Est|].
    apply (port_step_trans (set_state STP_LEARNING) (fun x => x {{ forward_delay_timer := stp_start_timer 0 }}) q s (stp_set_port_state s q STP_LEARNING));
      [by quiet_fields|by apply set_port_state_step|].
    apply port_step_set; [|done]. by rewrite (port_step_length _ _ _ _ (set_port_state_step s q STP_LEARNING Hq)).
  - apply (Hext (set_state STP_FORWARDING)); [unfold move_on; by rewrite Est|]. pose proof (set_port_state_step s q STP_FORWARDING Hq) as H1.
    destruct (_ && _); [|done].
    assert (quiet_fun id) as Hid by (by intros x x' E). apply (port_step_trans (set_state STP_FORWARDING) id q s _ _ Hid H1). by apply port_step_quiet; [apply quiet_topology_change_detection|].
Qed.

(** The forward delay timer of a port after some time. *)
Definition advance (elapsed fd : Z) (st : stp_state * stp_timer) : stp_state * stp_timer :=
  let '(st, t) := st in
  if tm_active t then
    let value := tm_value t + elapsed in
    if fd <=? value then
      match st with
      | STP_LISTENING => (STP_LEARNING, StpTimer true 0)
      | STP_LEARNING => (STP_FORWARDING, StpTimer false value)
      | st => (st, StpTimer false value)
      end
    else (st, StpTimer true value)
  else (st, t).

Lemma tick_forward_delay_step (elapsed : Z) (s : stp) (q : nat) :
  0 <= elapsed <= 2147483 -> (q < STP_MAX_PORTS)%nat -> stp_wf s ->
  exists s' f, tick_forward_delay elapsed s q = Some s' /\ stp_wf s' /\ port_step f q s s' /\
    is_designated s (f (get_port s q)) = is_designated s (get_port s q) /\
    (port_state (f (get_port s q)), forward_delay_timer (f (get_port s q))) = advance elapsed (forward_delay s) (track s q).
Proof.
  intros He Hq Hw. destruct (keeps_tick_forward_delay elapsed s q He Hq Hw) as (s' & E & Hw'). exists s'.
  assert (q < length (ports s))%nat as Hlen by (by rewrite (bw_length s (ow_base s (sw_roles s Hw)))).
  destruct (get_port_times s q (sw_times s Hw)) as (_ & Hf & _). pose proof E as E'. unfold tick_forward_delay, tick_timer in E'.
  destruct (timer_expired_some (forward_delay_timer (get_port s q)) elapsed (forward_delay s)) as (b & t & Et & Ho & Hb & Ha & Hv);
    [done|apply time_ok_timer, Hw|done|]. rewrite Et in E'. cbn [mbind option_bind] in E'.
  set (f1 := fun x => x {{ forward_delay_timer := t }}) in E'. assert (port_step f1 q s (set_port s q f1)) as P1 by (by apply port_step_set).
  apply (inj Some) in E'. destruct b.
  - exists (fun x => move_on (f1 x)). split_and!; [done|done| |..].
    + subst s'. eapply port_step_trans; [|exact P1|].
      * intros x x' Ex. unfold move_on. assert (port_state x' = port_state x) as -> by (by injection Ex).
        destruct (port_state x); try done; revert x x' Ex; by quiet_fields.
      * apply forward_delay_expiry_step. by rewrite length_set_port.
    + unfold move_on. change (port_state (f1 (get_port s q))) with (port_state (get_port s q)). by destruct (port_state (get_port s q)).
    + unfold advance, track. symmetry in Hb. apply andb_true_iff in Hb as [Hact Hge]. rewrite Hact, Hge.
      assert (t = StpTimer false (tm_value (forward_delay_timer (get_port s q)) + elapsed)) as Ett.
      { rewrite Hact in Ha. destruct t as [a v]. cbn in *. subst a. by rewrite Hv. }
      unfold move_on. change (port_state (f1 (get_port s q))) with (port_state (get_port s q)). unfold f1. rewrite Ett.
      by destruct (port_state (get_port s q)) eqn:Est; rewrite <- ?Est.
  - exists f1. split_and!; [done|done|by subst s'|done|]. unfold advance, track. change (port_state (f1 (get_port s q))) with (port_state (get_port s q)).
    change (forward_delay_timer (f1 (get_port s q))) with t. destruct (forward_delay_timer (get_port s q)) as [a v]. cbn [tm_active tm_value] in *.
    destruct a; cbn [andb negb] in *.
    + rewrite <- Hb. destruct t as [a' v']. cbn [tm_active tm_value] in *. subst a'. by rewrite Hv.
    + unfold stp_timer_expired in Et. cbn in Et. by injection Et as <-.
Qed.

Lemma tick_hold_quiet (elapsed : Z) (s s' : stp) (q : nat) : tick_hold elapsed s q = Some s' -> quiet s' = quiet s.
Proof.
  unfold tick_hold. intros (second & _ & E)%bind_Some. apply (tick_timer_quiet s) in E; [done|by intros t; apply quiet_set_port|].
  intros s1. apply quiet_hold_timer_expiry.
Qed.

(** The timers of a port in the second loop of [stp_tick]. *)
Definition tick_port (elapsed : Z) (s : stp) (q : nat) : option stp := s ← tick_forward_delay elapsed s q; tick_hold elapsed s q.

Lemma tick_port_step (elapsed : Z) (s s' : stp) (q : nat) :
  0 <= elapsed <= 2147483 -> (q < STP_MAX_PORTS)%nat -> stp_wf s -> tick_port elapsed s q = Some s' ->
  stp_wf s' /\ exists f, port_step f q s s' /\ is_designated s (f (get_port s q)) = is_designated s (get_port s q) /\
    (port_state (f (get_port s q)), forward_delay_timer (f (get_port s q))) = advance elapsed (forward_delay s) (track s q).
Proof.
  intros He Hq Hw E. destruct (tick_forward_delay_step elapsed s q He Hq Hw) as (s1 & f & E1 & Hw1 & P1 & D1 & A1).
  unfold tick_port in E. rewrite E1 in E. cbn [mbind option_bind] in E. pose proof (tick_hold_quiet _ _ _ _ E) as Eq.
  destruct (keeps_tick_hold elapsed s1 q He Hq Hw1) as (s2 & E2 & Hw2). rewrite E in E2. apply (inj Some) in E2. subst s2.
  split; [done|]. exists f. split_and!; [|done|done]. assert (quiet_fun id) as Hid by (by intros x x' Ex).
  apply (port_step_trans f id q s s1 s' Hid P1). by apply port_step_quiet.
Qed.

Lemma tick_port_apart (elapsed : Z) (p q : nat) (s s' : stp) :
  0 <= elapsed <= 2147483 -> (q < STP_MAX_PORTS)%nat -> q <> p -> tick_port elapsed s q = Some s' -> apart p s s'.
Proof.
  intros He Hq Hne E Hpr. destruct (tick_port_step elapsed s s' q He Hq (pr_wf _ _ Hpr) E) as (Hw & f & P & _).
  revert Hpr. by apply (apart_step f p q).
Qed.

Lemma advance_live (elapsed fd : Z) (st : stp_state * stp_timer) : live st.1 -> live (advance elapsed fd st).1.
Proof. destruct st as [st t]. unfold advance. intros Hl. destruct (tm_active t); [|done]. destruct (_ <=? _); [|done]. by destruct st. Qed.

Lemma tick_port_advances (elapsed : Z) (p : nat) (s s' : stp) :
  0 <= elapsed <= 2147483 -> tick_port elapsed s p = Some s' -> presides s p ->
  presides s' p /\ track s' p = advance elapsed (forward_delay s) (track s p) /\ pace s' = pace s.
Proof.
  intros He E [Hw Hp Hr Hd Hl]. destruct (tick_port_step elapsed s s' p He Hp Hw E) as (Hw' & f & (Eb & _ & Eq) & D & A).
  destruct (bridge_fields _ _ Eb) as (E1 & E2 & E3 & E4). specialize (Eq p). rewrite Nat.eqb_refl in Eq.
  pose proof (info_designated s s' _ _ E1 (quiet_info _ _ Eq)) as Ed.
  assert (track s' p = advance elapsed (forward_delay s) (track s p)) as Etr
    by (rewrite <- A; unfold track; injection Eq as _ -> _ _ _ _ _ _ _ -> _; done).
  split_and!; [|done|by apply pace_bridge]. constructor; [done|done|congruence| |].
  - unfold stp_is_designated_port in *. by rewrite Ed, D.
  - change (live (track s' p).1). rewrite Etr. by apply advance_live.
Qed.

(** ** A tick *)

Lemma for_ports_apart (p : nat) (body : stp -> nat -> option stp) (l : list nat) (s s' : stp) :
  (forall s s' q, q ∈ l -> body s q = Some s' -> apart p s s') -> for_ports body s l = Some s' -> apart p s s'.
Proof.
  revert s. induction l as [|q l IH]; intros s Hb E; cbn [for_ports] in E.
  - apply (inj Some) in E. subst s'. apply apart_refl.
  - apply bind_Some in E as (s1 & E1 & E). apply (apart_trans p s s1 s').
    + destruct (port_enabled s q); [apply (Hb s s1 q); [left|done]|]. apply (inj Some) in E1. subst s1. apply apart_refl.
    + apply (IH s1); [|done]. intros s2 s3 r Hr. apply Hb. by right.
Qed.

Lemma for_ports_app (body : stp -> nat -> option stp) (l k : list nat) (s : stp) :
  for_ports body s (l ++ k) = s ← for_ports body s l; for_ports body s k.
Proof.
  revert s. induction l as [|q l IH]; intros s; [done|]. cbn [for_ports app]. destruct (if port_enabled s q then body s q else Some s); [|done].
  cbn [mbind option_bind]. apply IH.
Qed.

Lemma tick_ports_advances (elapsed : Z) (p : nat) (s s' : stp) :
  0 <= elapsed <= 2147483 -> tick_ports elapsed s = Some s' -> presides s p ->
  presides s' p /\ track s' p = advance elapsed (forward_delay s) (track s p) /\ pace s' = pace s.
Proof.
  intros He E Hpr. pose proof (pr_port _ _ Hpr) as Hp. unfold tick_ports in E. apply bind_Some in E as (s1 & E1 & E).
  apply (for_ports_apart p) in E1; [|by intros s2 s3 q Hq%elem_of_ports; apply tick_message_age_apart].
  destruct (E1 Hpr) as (Hpr1 & T1 & F1). fold (tick_port elapsed) in E.
  assert (seq 0 STP_MAX_PORTS = seq 0 p ++ p :: seq (S p) (STP_MAX_PORTS - S p)) as Hseq.
  { transitivity (seq 0 (p + S (STP_MAX_PORTS - S p))); [f_equal; lia|apply seq_app]. }
  change (for_ports (tick_port elapsed) s1 (seq 0 STP_MAX_PORTS) = Some s') in E. rewrite Hseq, for_ports_app in E.
  apply bind_Some in E as (s2 & E2 & E). cbn [for_ports] in E. apply bind_Some in E as (s3 & E3 & E).
  apply (for_ports_apart p) in E2; [|by intros s4 s5 q Hq%elem_of_seq; apply tick_port_apart; lia].
  apply (for_ports_apart p) in E; [|by intros s4 s5 q Hq%elem_of_seq; apply tick_port_apart; lia].
  destruct (E2 Hpr1) as (Hpr2 & T2 & F2). assert (port_enabled s2 p = true) as Hen by (apply enabled_state, (pr_live _ _ Hpr2)).
  rewrite Hen in E3. destruct (tick_port_advances elapsed p s2 s3 He E3 Hpr2) as (Hpr3 & T3 & F3). destruct (E Hpr3) as (Hpr4 & T4 & F4).
  split_and!; [done| |congruence]. assert (forward_delay s2 = forward_delay s) as Ef by (unfold pace in *; congruence). congruence.
Qed.

Lemma tick_advances (p : nat) (s : stp) (ms : Z) :
  presides s p -> 0 <= ms <= TICK_MAX ->
  exists s', stp_tick s ms = Some s' /\ presides s' p /\ forward_delay s' = forward_delay s /\ elapsed_remainder s' = tick_remainder s ms /\
    track s' p = if tick_elapsed s ms =? 0 then track s p else advance (tick_elapsed s ms) (forward_delay s) (track s p).
Proof.
  intros Hpr Hms. pose proof (pr_wf _ _ Hpr) as Hw. assert (0 <= elapsed_remainder s <= 4) as Hr by apply Hw.
  destruct (tick_bounds s ms Hms Hr) as [He Hr']. destruct (keeps_tick s ms Hms Hw) as (s' & E & Hw'). exists s'. split; [done|].
  rewrite stp_tick_eq in E by done. cbv zeta in E. set (s0 := s {{ elapsed_remainder := tick_remainder s ms }}) in E.
  assert (presides s0 p) as Hpr0.
  { destruct Hpr as [_ H1 H2 H3 H4]. constructor; try done. apply (stp_wf_roles s); [done| |done].
    destruct Hw as [_ [(B1 & B2 & B3 & B4 & B5 & B6 & B7) T1 T2 T3 T4]]. by constructor. }
  destruct (tick_elapsed s ms =? 0); [apply (inj Some) in E; by subst s'|]. apply bind_Some in E as (s1 & E1 & E).
  destruct (keeps_tick_bridge (tick_elapsed s ms) s0 He (pr_wf _ _ Hpr0)) as (s1' & E1' & Hw1). rewrite E1 in E1'. apply (inj Some) in E1'. subst s1'.
  destruct (apart_quiet p s0 s1 (tick_bridge_quiet _ _ _ E1) Hw1 Hpr0) as (Hpr1 & T1 & F1).
  destruct (tick_ports_advances _ p _ _ He E Hpr1) as (Hpr' & T' & F'). rewrite F1 in F'. injection F' as F2 F3. injection F1 as F4 F5.
  split_and!; [done|done|done|]. rewrite T', T1, F4. done.
Qed.

(** ** Many ticks *)

(** [a] becomes [b] while [units] pass, in steps of at most [most]. *)
Inductive waits (fd most : Z) : Z -> stp_state * stp_timer -> stp_state * stp_timer -> Prop :=
| waits_done a : waits fd most 0 a a
| waits_step elapsed units a b :
  0 <= elapsed <= most -> waits fd most units (advance elapsed fd a) b -> waits fd most (elapsed + units) a b.

(** How long a port has waited, at least. *)
Definition waited (fd : Z) (a : stp_state * stp_timer) : Z :=
  match a with
  | (STP_LISTENING, t) => tm_value t
  | (STP_LEARNING, t) => fd + tm_value t
  | (STP_FORWARDING, _) => 2 * fd
  | _ => 0
  end.

Lemma waits_least (fd most units : Z) (a b : stp_state * stp_timer) : waits fd most units a b -> waited fd b <= waited fd a + units.
Proof.
  induction 1 as [a|elapsed units a b He _ IH]; [lia|]. enough (waited fd (advance elapsed fd a) <= waited fd a + elapsed) by lia.
  destruct a as [st t]. unfold advance. destruct (tm_active t); [|destruct st; cbn; lia].
  destruct (Z.leb_spec fd (tm_value t + elapsed)); destruct st; cbn in *; lia.
Qed.

(** A port that will forward, and how long it has waited, at most. *)
Definition will_forward (fd : Z) (a : stp_state * stp_timer) : Prop :=
  match a with
  | (STP_LISTENING, t) | (STP_LEARNING, t) => tm_active t = true /\ tm_value t <= fd
  | (STP_FORWARDING, _) => True
  | _ => False
  end.

Lemma waits_most (fd most units : Z) (a b : stp_state * stp_timer) :
  0 <= fd -> 0 <= most -> waits fd most units a b -> will_forward fd a ->
  b.1 = STP_FORWARDING \/
  match a.1 with STP_LISTENING => units <= 2 * fd + most - tm_value a.2 | STP_LEARNING => units <= fd - tm_value a.2 | _ => False end.
Proof.
  intros Hfd Hm. induction 1 as [a|elapsed units a b He H IH]; intros Ha; destruct a as [st t].
  - destruct st; cbn in *; try (by left); try done; right; lia.
  - destruct st; cbn [will_forward] in Ha; try done.
    + destruct Ha as [Hact Hv]. unfold advance in IH. rewrite Hact in IH. destruct (Z.leb_spec fd (tm_value t + elapsed)); cbn in *.
      * destruct IH as [|IH]; [done|by left|right; lia].
      * destruct IH as [|IH]; [split; [done|lia]|by left|right; lia].
    + destruct Ha as [Hact Hv]. unfold advance in IH. rewrite Hact in IH. destruct (Z.leb_spec fd (tm_value t + elapsed)); cbn in *.
      * destruct IH as [|[]]; [done|by left].
      * destruct IH as [|IH]; [split; [done|lia]|by left|right; lia].
    + assert ((advance elapsed fd (STP_FORWARDING, t)).1 = STP_FORWARDING) as E
        by (unfold advance; destruct (tm_active t); [destruct (_ <=? _)|]; done).
      left. destruct (advance elapsed fd (STP_FORWARDING, t)) as [st' t']. cbn in E. subst st'. by destruct IH as [|[]].
Qed.

Definition sum_list_Z (l : list Z) : Z := fold_right Z.add 0 l.

Lemma ticks_wait (p : nat) (most : Z) (l : list Z) (s : stp) :
  presides s p -> Forall (fun ms => 0 <= ms <= most) l -> most <= TICK_MAX ->
  exists s' units, stp_history s (map Tick l) = Some s' /\ forward_delay s' = forward_delay s /\
    waits (forward_delay s) ((most + 4) * 256 / 1000) units (track s p) (track s' p) /\ 0 <= elapsed_remainder s' <= 4 /\
    256 * (sum_list_Z l + elapsed_remainder s - elapsed_remainder s') <= 1000 * units <=
    256 * (sum_list_Z l + elapsed_remainder s - elapsed_remainder s' + Z.of_nat (length l)).
Proof.
  intros Hpr Hl Hmost. revert s Hpr. induction Hl as [|ms l Hms Hl IH]; intros s Hpr; cbn [map stp_history].
  - exists s, 0. split_and!; [done|done|constructor|apply (pr_wf _ _ Hpr)..| |]; cbn; lia.
  - assert (0 <= elapsed_remainder s <= 4) as Hr by apply (pr_wf _ _ Hpr).
    destruct (tick_advances p s ms Hpr) as (s1 & E1 & Hpr1 & F1 & R1 & T1); [lia|]. cbn [stp_do]. rewrite E1. cbn [mbind option_bind].
    destruct (IH s1 Hpr1) as (s' & units & E & F & W & R' & U1 & U2). rewrite F1 in *. rewrite R1 in *.
    destruct (tick_bounds s ms ltac:(lia) Hr) as [He _].
    exists s', (tick_elapsed s ms + units). split_and!; [done|done| |lia|lia|..].
    + destruct (Z.eqb_spec (tick_elapsed s ms) 0) as [E0|Hne]; [rewrite E0, <- T1; done|].
      apply waits_step; [|by rewrite <- T1]. split; [lia|]. unfold tick_elapsed. apply Z.div_le_mono; lia.
    + cbn [sum_list_Z fold_right]. fold (sum_list_Z l). unfold tick_remainder in U1. Z.div_mod_to_equations. lia.
    + cbn [sum_list_Z fold_right length]. fold (sum_list_Z l). unfold tick_remainder in U2. Z.div_mod_to_equations. lia.
Qed.

(** C26: A designated port of a root bridge that starts to listen forwards as soon as twice the forward delay has passed, up to
    the longest time between two ticks and 8 milliseconds, and never before twice the forward delay has passed, up to a
    millisecond for each tick and 4 more: the forward delay is in units of 1/256 second, the ticks in milliseconds. *)
Theorem stp_forwarding_delay (s : stp) (p : nat) (most : Z) (l : list Z) :
  presides s p -> track s p = (STP_LISTENING, StpTimer true 0) -> Forall (fun ms => 0 <= ms <= most) l ->
  0 <= most <= TICK_MAX ->
  exists s', stp_history s (map Tick l) = Some s' /\
    (2000 * forward_delay s < 256 * (sum_list_Z l - most - 8) -> port_state (get_port s' p) = STP_FORWARDING) /\
    (port_state (get_port s' p) = STP_FORWARDING -> 2000 * forward_delay s <= 256 * (sum_list_Z l + Z.of_nat (length l) + 4)).
Proof.
  intros Hpr Htr Hl Hmost. destruct (ticks_wait p most l s Hpr Hl ltac:(lia)) as (s' & units & E & _ & W & Hr' & U1 & U2).
  assert (0 <= elapsed_remainder s <= 4 /\ 0 <= forward_delay s) as [Hr Hfd].
  { destruct (tw_bridge s (sw_times s (pr_wf _ _ Hpr))) as (_ & _ & B3 & _ & _ & _ & B7). unfold time_ok in B3. lia. }
  rewrite Htr in W. exists s'. split; [done|]. clear E. split.
  - intros Ht. assert (0 <= (most + 4) * 256 / 1000) as Hm by (apply Z.div_pos; lia). destruct (waits_most _ _ _ _ _ Hfd Hm W) as [Hf|Hlt]; [by cbn|exact Hf|]. cbn in Hlt. exfalso. revert Hlt.
    pose proof (Z.mul_div_le ((most + 4) * 256) 1000 ltac:(lia)). lia.
  - intros Hf. pose proof (waits_least _ _ _ _ _ W) as Hle. destruct (track s' p) as [st t] eqn:Et. injection Et as E1 _.
    rewrite Hf in E1. subst st. cbn in Hle. lia.
Qed.

Definition demo_root : stp := bridge_after 1 [Port_enable 0].

Lemma demo_root_presides : presides demo_root 0 /\ track demo_root 0 = (STP_LISTENING, StpTimer true 0) /\ forward_delay demo_root = 3840.
Proof.
  split; [|by vm_compute]. constructor; [|unfold STP_MAX_PORTS; lia|by vm_compute|by vm_compute|by vm_compute].
  apply bridge_after_wf. by repeat constructor.
Qed.

Lemma stp_forwarding_delay_witness :
  presides demo_root 0 /\ exists s', stp_history demo_root (map Tick (replicate 32 1000)) = Some s' /\ port_state (get_port s' 0) = STP_FORWARDING.
Proof.
  destruct demo_root_presides as (H1 & H2 & H3). split; [exact H1|].
  destruct (stp_forwarding_delay demo_root 0 1000 (replicate 32 1000) H1 H2) as (s' & E & Hf & _).
  - apply Forall_replicate. lia.
  - unfold TICK_MAX. lia.
  - exists s'. split; [exact E|]. apply Hf. rewrite H3. change (sum_list_Z (replicate 32 1000)) with 32000. lia.
Defined.

(** ** Short ticks *)

(** What is left of three milliseconds and one is a tick and again one millisecond: the remainder is rounded up. *)
Lemma short_tick (s : stp) : elapsed_remainder s = 1 -> tick_elapsed s 3 = 1 /\ tick_remainder s 3 = 1.
Proof. intros E. unfold tick_remainder, tick_elapsed. by rewrite E. Qed.

Lemma short_ticks_listen (p n : nat) (s : stp) :
  presides s p -> elapsed_remainder s = 1 -> track s p = (STP_LISTENING, StpTimer true 0) -> Z.of_nat n < forward_delay s ->
  exists s', stp_history s (repeat (Tick 3) n) = Some s' /\ presides s' p /\ elapsed_remainder s' = 1 /\
    forward_delay s' = forward_delay s /\ track s' p = (STP_LISTENING, StpTimer true (Z.of_nat n)).
Proof.
  intros Hpr Hr Ht. change 0 with (Z.of_nat 0) in Ht. replace (Z.of_nat n) with (Z.of_nat (0 + n)) by lia. revert Ht. generalize 0%nat as v.
  revert s Hpr Hr. induction n as [|n IH]; intros s Hpr Hr v Ht Hn; cbn [repeat stp_history].
  - exists s. split_and!; [done..|]. by rewrite Nat.add_0_r.
  - destruct (short_tick s Hr) as [E1 E2].
    destruct (tick_advances p s 3 Hpr) as (s1 & E & Hpr1 & F1 & R1 & T1); [unfold TICK_MAX; lia|]. cbn [stp_do]. rewrite E. cbn [mbind option_bind].
    rewrite E1, Ht in T1. cbn [Z.eqb] in T1. unfold advance in T1. cbn [tm_active tm_value] in T1.
    destruct (Z.leb_spec (forward_delay s) (Z.of_nat v + 1)); [lia|].
    destruct (IH s1 Hpr1 ltac:(congruence) (S v)) as (s' & E' & H1 & H2 & H3 & H4); [by replace (Z.of_nat (S v)) with (Z.of_nat v + 1) by lia|lia|].
    exists s'. split_and!; [done|done|done|congruence|]. rewrite H4. do 2 f_equal. lia.
Qed.

(** A port that is polled every three milliseconds learns after three milliseconds for each unit of the forward delay, which
    stands for almost four. *)
Lemma short_ticks_run_fast (s : stp) (p n : nat) :
  presides s p -> elapsed_remainder s = 1 -> track s p = (STP_LISTENING, StpTimer true 0) -> forward_delay s = Z.of_nat (S n) ->
  exists s', stp_history s (repeat (Tick 3) n ++ [Tick 3]) = Some s' /\ port_state (get_port s' p) = STP_LEARNING.
Proof.
  intros Hpr Hr Ht Hfd. destruct (short_ticks_listen p n s Hpr Hr Ht) as (s1 & E1 & Hpr1 & R1 & F1 & T1); [lia|].
  assert (forall l s, stp_history s (l ++ [Tick 3]) = s ← stp_history s l; s ← stp_tick s 3; Some s) as Happ.
  { induction l as [|c l IH]; intros s0; [done|]. cbn [app stp_history]. destruct (stp_do s0 c) as [s2|]; [|done]. cbn [mbind option_bind]. apply IH. }
  destruct (short_tick s1 R1) as [E2 _]. destruct (tick_advances p s1 3 Hpr1) as (s' & E & _ & _ & _ & T'); [unfold TICK_MAX; lia|].
  exists s'. rewrite Happ, E1. cbn [mbind option_bind]. rewrite E. split; [done|]. rewrite E2, T1, F1, Hfd in T'. cbn [Z.eqb] in T'.
  unfold advance in T'. cbn [tm_active tm_value] in T'. destruct (Z.leb_spec (Z.of_nat (S n)) (Z.of_nat n + 1)); [|lia]. by injection T'.
Qed.
