(* ===== verification/StpNetwork.v ===== *)
(** * Spanning tree protocol: a network of bridges

    Bridges whose ports are linked pairwise, once every bridge has heard what its
    neighbours offer: a frame that is flooded over forwarding ports visits no bridge
    twice, so the active topology has no loop. *)

From S2P Require Import Prelude Util MetaFlow MetaFields Packet Stp StpProps StpRoot StpInv StpElect StpTimes StpCalls StpTick StpHistory.
From stdpp Require Import prelude list.
From coqutil Require Import Datatypes.RecordSetters.
From Stdlib Require Import ZArith Lia.
Import DoubleBraceUpdate.
Open Scope Z_scope.
Open Scope ovs_scope.

(** Running the election again changes nothing. *)
Definition steady (s : stp) : Prop :=
  exists s', stp_reconfigure s = Some s' /\ root_port s' = root_port s /\ root_path_cost s' = root_path_cost s.

(** Port [p] of [s] knows what [t] offers on its port [q]. *)
Definition heard (s : stp) (p : nat) (t : stp) (q : nat) : Prop :=
  designated_cost (get_port s p) = root_path_cost t /\ designated_bridge (get_port s p) = bridge_id t /\
  designated_port (get_port s p) = port_id (get_port t q).

Definition forwards (s : stp) (p : nat) : Prop := stp_forward_in_state (port_state (get_port s p)) = true.

Section Network.
(** The bridges, and what each port of each bridge is linked to. *)
Variable B : nat -> stp.
Variable peer : nat -> nat -> option (nat * nat).

(** All bridges are steady; of the two ends of a link one knows what the other offers. *)
Record converged : Prop := {
  cv_sym : forall i p j q, peer i p = Some (j, q) -> peer j q = Some (i, p);
  cv_wf : forall i p j q, peer i p = Some (j, q) -> stp_wf (B i) /\ steady (B i) /\ (p < STP_MAX_PORTS)%nat;
  cv_ids : forall i p j q, peer i p = Some (j, q) -> (i = j -> p <> q) /\ (i <> j -> bridge_id (B i) <> bridge_id (B j));
  cv_cost : forall i p j q, peer i p = Some (j, q) -> 1 <= path_cost (get_port (B i) p);
  cv_heard : forall i p j q, peer i p = Some (j, q) -> forwards (B i) p -> forwards (B j) q ->
    heard (B i) p (B j) q \/ heard (B j) q (B i) p
}.

(** The bridges that a frame visits which bridge [i] has, from the network through port [inp] or from a host. *)
Inductive flood : nat -> option nat -> list nat -> Prop :=
| flood_here i inp : flood i inp [i]
| flood_hop i inp p j q l :
  Some p <> inp -> peer i p = Some (j, q) -> forwards (B i) p -> forwards (B j) q -> flood j (Some q) l -> flood i inp (i :: l).

Hypothesis Hconv : converged.

Lemma steady_cost (i p : nat) :
  stp_wf (B i) -> steady (B i) -> root_port (B i) = Some p ->
  root_path_cost (B i) = designated_cost (get_port (B i) p) + path_cost (get_port (B i) p).
Proof.
  intros Hw (s' & E & Er & Ec) Hp. destruct (reconfigure_spec (B i) (ow_base _ (sw_roles _ Hw))) as (r & s'' & _ & E' & Er' & _ & Ec' & _).
  rewrite E in E'. apply (inj Some) in E'. subst s''. rewrite Er, Hp in Er'. subst r. by rewrite <- Ec, Ec'.
Qed.

(** The end of a link that heard the other is a root port, and further from the root. *)
Lemma heard_up (i p j q : nat) :
  peer i p = Some (j, q) -> forwards (B i) p -> heard (B i) p (B j) q ->
  root_port (B i) = Some p /\ root_path_cost (B j) < root_path_cost (B i).
Proof.
  intros Hl Hf (H1 & H2 & H3). destruct (cv_wf Hconv _ _ _ _ Hl) as (Hw & Hs & Hp).
  assert (root_port (B i) = Some p) as Hr.
  { pose proof (sw_roles _ Hw) as [Hb Hrw Hst]. assert (live (port_state (get_port (B i) p))) as [Hd Hn].
    { unfold forwards in Hf. split; intros E; by rewrite E in Hf. }
    destruct (Hst p Hp) as [|Hdes]; [by apply enabled_state|done|done|]. exfalso. unfold stp_is_designated_port, is_designated in Hdes.
    apply andb_true_iff in Hdes as [D1%Z.eqb_eq D2%Z.eqb_eq]. destruct (cv_ids Hconv _ _ _ _ Hl) as [C1 C2].
    destruct (decide (i = j)) as [->|Hij]; [|apply (C2 Hij); congruence].
    apply (C1 eq_refl). pose proof (cv_sym Hconv _ _ _ _ Hl) as Hl'. destruct (cv_wf Hconv _ _ _ _ Hl') as (_ & _ & Hq).
    pose proof (pw_id _ _ _ (bw_ports _ Hb p Hp)). pose proof (pw_id _ _ _ (bw_ports _ Hb q Hq)). rewrite <- H3, D2 in *. lia. }
  split; [done|]. rewrite (steady_cost i p Hw Hs Hr), H1. pose proof (cv_cost Hconv _ _ _ _ Hl). lia.
Qed.

(** A link leads up to the root, or down from it. *)
Lemma link_up_down (i p j q : nat) :
  peer i p = Some (j, q) -> forwards (B i) p -> forwards (B j) q ->
  (root_port (B i) = Some p /\ root_path_cost (B j) < root_path_cost (B i)) \/
  (root_port (B j) = Some q /\ root_path_cost (B i) < root_path_cost (B j)).
Proof.
  intros Hl H1 H2. destruct (cv_heard Hconv _ _ _ _ Hl H1 H2) as [Hh|Hh]; [left; by apply (heard_up i p j q)|right].
  apply (heard_up j q i p); [by apply (cv_sym Hconv)|done|done].
Qed.

(** Once on its way down, a frame goes further down. *)
Lemma flood_down (j q : nat) (l : list nat) :
  flood j (Some q) l -> root_port (B j) = Some q -> forall k, k ∈ l -> k = j \/ root_path_cost (B j) < root_path_cost (B k).
Proof.
  intros H. remember (Some q) as inp eqn:Ei. revert q Ei. induction H as [i inp|i inp p j q l Hne Hl H1 H2 _ IH]; intros q0 -> Hr k Hk.
  - left. by apply list_elem_of_singleton in Hk.
  - apply elem_of_cons in Hk as [->|Hk]; [by left|right].
    destruct (link_up_down i p j q Hl H1 H2) as [[Hr' _]|[Hr' Hlt]]; [congruence|].
    destruct (IH q eq_refl Hr' k Hk) as [->|]; lia.
Qed.

(** A bridge that a frame visits is nearer to the root than where the frame started, or was reached through its root
    port. *)
Lemma flood_reach (j : nat) (inp : option nat) (l : list nat) (k : nat) :
  flood j inp l -> k ∈ l ->
  k = j \/ root_path_cost (B k) < root_path_cost (B j) \/
  exists p j' q', root_port (B k) = Some p /\ peer k p = Some (j', q') /\ ((j' = j /\ Some q' <> inp) \/ j' ∈ tail l).
Proof.
  induction 1 as [i inp|i inp p j q l Hne Hl H1 H2 Hf IH]; intros Hk.
  - left. by apply list_elem_of_singleton in Hk.
  - apply elem_of_cons in Hk as [->|Hk]; [by left|right]. assert (j ∈ l) as Hj by (destruct Hf; left).
    pose proof (cv_sym Hconv _ _ _ _ Hl) as Hl'.
    destruct (link_up_down i p j q Hl H1 H2) as [[Hr Hlt]|[Hr Hlt]], (IH Hk) as [->|[Hc|(p' & j' & q' & A1 & A2 & A3)]].
    + by left.
    + left. lia.
    + right. exists p', j', q'. split_and!; [done|done|right]. cbn [tail]. destruct A3 as [[-> _]|A3]; [done|by destruct l; [|right]].
    + right. exists q, i, p. split_and!; [done|done|by left].
    + destruct (flood_down j q l Hf Hr k Hk) as [->|]; lia.
    + right. exists p', j', q'. split_and!; [done|done|right]. cbn [tail]. destruct A3 as [[-> _]|A3]; [done|by destruct l; [|right]].
Qed.

Lemma flood_head (i : nat) (inp : option nat) (l : list nat) : flood i inp l -> exists l', l = i :: l'.
Proof. by destruct 1; eexists. Qed.

(** C6: A frame that is flooded over the forwarding ports of a converged network, each bridge sending it to any port but the one
    it came from, visits no bridge twice. *)
Theorem stp_network_loop_free (i : nat) (inp : option nat) (l : list nat) : flood i inp l -> NoDup l.
Proof.
  induction 1 as [i inp|i inp p j q l Hne Hl H1 H2 Hf IH]; [apply NoDup_singleton|]. apply NoDup_cons. split; [|done]. intros Hin.
  destruct (link_up_down i p j q Hl H1 H2) as [[Hr Hlt]|[Hr Hlt]].
  - destruct (flood_reach j (Some q) l i Hf Hin) as [->|[Hc|(p' & j' & q' & A1 & A2 & A3)]]; [lia|lia|].
    rewrite Hr in A1. injection A1 as <-. rewrite Hl in A2. injection A2 as <- <-. destruct A3 as [[_ A3]|A3]; [done|].
    destruct (flood_head _ _ _ Hf) as (l' & ->). apply NoDup_cons in IH as [IH _]. done.
  - destruct (flood_down j q l Hf Hr i Hin) as [->|]; lia.
Qed.
End Network.

(** ** Three bridges in a triangle *)

Definition triangle (i p : nat) : option (nat * nat) :=
  match i, p with
  | 0, 0 => Some (1, 0)
  | 1, 0 => Some (0, 0)
  | 0, 1 => Some (2, 0)
  | 2, 0 => Some (0, 1)
  | 1, 1 => Some (2, 1)
  | 2, 1 => Some (1, 1)
  | _, _ => None
  end%nat.

(** A bridge of the example, the calls it has had, and how many of the frames it sent were delivered. *)
Record node := Node { nd_stp : stp; nd_calls : list stp_call; nd_delivered : nat }.

Definition call (c : stp_call) (n : node) : node :=
  match stp_do (nd_stp n) c with
  | Some s => Node s (nd_calls n ++ [c]) (nd_delivered n)
  | None => n
  end.

Definition deliver_from (i : nat) (net : list node) : list node :=
  match net !! i with
  | Some n =>
    foldl (fun net '(p, frame) =>
             match triangle i p with
             | Some (j, q) => alter (call (Receive_packet (Z.of_nat q) frame)) j net
             | None => net
             end)
      (alter (fun n => Node (nd_stp n) (nd_calls n) (length (sent (nd_stp n)))) i net)
      (drop (nd_delivered n) (sent (nd_stp n)))
  | None => net
  end.

(** Ten seconds pass; then frames are delivered, and those they cause. *)
Definition round (net : list node) : list node :=
  Nat.iter 3 (fun net => foldl (fun net i => deliver_from i net) net [0; 1; 2]%nat) (map (call (Tick 10000)) net).

Definition start_node (id : Z) : node :=
  call (Port_enable 1) (call (Port_enable 0) (Node (bridge_after id []) [] 0)).

Definition demo_net : list node := Nat.iter 4 round (map start_node [1; 2; 3]).

#[global] Instance call_ok_dec (c : stp_call) : Decision (call_ok c).
Proof. destruct c; unfold call_ok, port_no_ok, packet_ok; apply _. Defined.

#[global] Instance heard_dec (s : stp) (p : nat) (t : stp) (q : nat) : Decision (heard s p t q).
Proof. unfold heard. apply _. Defined.

#[global] Instance forwards_dec (s : stp) (p : nat) : Decision (forwards s p).
Proof. unfold forwards. apply _. Defined.

Definition demo_calls_of (i : nat) : list stp_call := nd_calls (nth i demo_net (start_node 0)).
Definition demo_bridge_of (i : nat) : stp := bridge_after (Z.of_nat i + 1) (demo_calls_of i).

Definition steadyb (s : stp) : bool :=
  match stp_reconfigure s with
  | Some s' => bool_decide (root_port s' = root_port s) && (root_path_cost s' =? root_path_cost s)
  | None => false
  end.

Lemma steadyb_spec (s : stp) : steadyb s = true -> steady s.
Proof.
  unfold steadyb, steady. destruct (stp_reconfigure s) as [s'|]; [|done]. intros [H1%bool_decide_eq_true H2%Z.eqb_eq]%andb_true_iff. by exists s'.
Qed.

Definition demo_links : list (nat * nat * nat * nat) :=
  [(0, 0, 1, 0); (1, 0, 0, 0); (0, 1, 2, 0); (2, 0, 0, 1); (1, 1, 2, 1); (2, 1, 1, 1)]%nat.

Lemma triangle_links (i p j q : nat) : triangle i p = Some (j, q) -> (i, p, j, q) ∈ demo_links.
Proof.
  unfold demo_links. destruct i as [|[|[|i]]], p as [|[|p]]; intros [= <- <-]; repeat (left || right).
Qed.

Definition demo_link_ok (l : nat * nat * nat * nat) : bool :=
  let '(i, p, j, q) := l in
  let s := demo_bridge_of i in
  let t := demo_bridge_of j in
  negb (bridge_id s =? bridge_id t) && (1 <=? path_cost (get_port s p)) &&
  (negb (bool_decide (forwards s p /\ forwards t q)) || bool_decide (heard s p t q \/ heard t q s p)).

Lemma demo_calls_of_ok : forallb (fun i => forallb (fun c => bool_decide (call_ok c)) (demo_calls_of i)) [0; 1; 2]%nat = true.
Proof. by vm_compute. Qed.

Lemma demo_steady : forallb (fun i => steadyb (demo_bridge_of i)) [0; 1; 2]%nat = true.
Proof. by vm_compute. Qed.

Lemma demo_links_ok : forallb demo_link_ok demo_links = true.
Proof. by vm_compute. Qed.

(** The root forwards on both its ports, and the others to it. *)
Lemma demo_forwards : forallb (fun '(i, p) => bool_decide (forwards (demo_bridge_of i) p)) [(0, 0); (0, 1); (1, 0); (2, 0)]%nat = true.
Proof. by vm_compute. Qed.

Lemma demo_bridge_of_eq (i : nat) : demo_bridge_of i = bridge_after (Z.of_nat i + 1) (demo_calls_of i).
Proof. unfold demo_bridge_of. reflexivity. Qed.

#[global] Opaque demo_calls_of demo_bridge_of.

Lemma demo_bridge_wf (i : nat) : (i < 3)%nat -> stp_wf (demo_bridge_of i) /\ steady (demo_bridge_of i).
Proof.
  intros Hi. assert (i ∈ [0; 1; 2]%nat) as Hin by (destruct i as [|[|[|]]]; [repeat (left || right)..|lia]). split.
  - rewrite demo_bridge_of_eq. apply bridge_after_wf, Forall_forall. intros c Hc%list_elem_of_In. pose proof demo_calls_of_ok as H. rewrite forallb_forall in H.
    specialize (H i (proj1 (list_elem_of_In _ _) Hin)). cbv beta in H. rewrite forallb_forall in H. exact (bool_decide_eq_true_1 _ (H c Hc)).
  - apply steadyb_spec. pose proof demo_steady as H. rewrite forallb_forall in H.
    exact (H i (proj1 (list_elem_of_In _ _) Hin)).
Qed.

Lemma link_heard (s t : stp) (p q : nat) :
  negb (bool_decide (forwards s p /\ forwards t q)) || bool_decide (heard s p t q \/ heard t q s p) = true ->
  forwards s p -> forwards t q -> heard s p t q \/ heard t q s p.
Proof. rewrite orb_true_iff, negb_true_iff, bool_decide_eq_false, bool_decide_eq_true. intros [H|H] F1 F2; [by destruct H|done]. Qed.

Lemma demo_converged : converged demo_bridge_of triangle.
Proof.
  assert (forall i p j q, triangle i p = Some (j, q) -> triangle j q = Some (i, p) /\ (i < 3)%nat /\ (p < 2)%nat /\ i <> j) as Ht.
  { intros i p j q. destruct i as [|[|[|i]]], p as [|[|p]]; intros [= <- <-]; split_and!; (done || lia). }
  assert (forall i p j q, triangle i p = Some (j, q) -> demo_link_ok (i, p, j, q) = true) as Hl.
  { intros i p j q H%triangle_links. pose proof demo_links_ok as Hall. rewrite forallb_forall in Hall.
    exact (Hall _ (proj1 (list_elem_of_In _ _) H)). }
  constructor; intros i p j q H; destruct (Ht i p j q H) as (T1 & T2 & T3 & T4); specialize (Hl i p j q H); unfold demo_link_ok in Hl;
    apply andb_true_iff in Hl as [[L1%negb_true_iff%Z.eqb_neq L2%Z.leb_le]%andb_true_iff L3].
  - exact T1.
  - destruct (demo_bridge_wf i T2) as [W1 W2]. split_and!; [exact W1|exact W2|unfold STP_MAX_PORTS; lia].
  - split; [lia|]. intros _. exact L1.
  - exact L2.
  - exact (link_heard _ _ _ _ L3).
Qed.

Lemma stp_network_loop_free_witness :
  converged demo_bridge_of triangle /\ flood demo_bridge_of triangle 1 None [1; 0; 2]%nat /\ NoDup [1; 0; 2]%nat.
Proof.
  pose proof demo_converged as Hc. assert (flood demo_bridge_of triangle 1 None [1; 0; 2]%nat) as Hf.
  { pose proof demo_forwards as H. cbn [forallb] in H.
    apply andb_true_iff in H as [F1%bool_decide_eq_true [F2%bool_decide_eq_true [F3%bool_decide_eq_true [F4%bool_decide_eq_true _]%andb_true_iff]%andb_true_iff]%andb_true_iff].
    eapply (flood_hop _ _ 1 None 0 0 0); [discriminate|reflexivity|exact F3|exact F1|].
    eapply (flood_hop _ _ 0 (Some 0%nat) 1 2 0); [discriminate|reflexivity|exact F2|exact F4|]. constructor. }
  split; [exact Hc|]. split; [exact Hf|]. exact (stp_network_loop_free demo_bridge_of triangle Hc 1 None [1; 0; 2]%nat Hf).
Defined.
